(* ===== verification/_CoqProject ===== *)
-Q . S2P
Prelude.v
Spinlock.v
Mboot.v
PMem.v
Container.v
Segment.v
PageTable.v
TCB.v
TQueue.v
Thread.v
Sched.v
UserCopy.v
CString.v
BufCache.v
Log.v
Inode.v
FileData.v
FileWrite.v
Path.v
File.v
FileDisk.v
Mkfs.v
ImageBoot.v
Pipe.v
Ipc.v
TrapFrame.v
Sysfile.v
Syscall.v
Trap.v
Keeps.v
Signal.v
PipeCall.v
UserCalls.v
FdRefs.v
Message.v
Shell.v
ShellRun.v
Format.v
ShellCmd.v
ShellFile.v
Console.v
Filters.v
Hw.v
Screen.v
Monitor.v
Apic.v
Mp.v
Intr.v
KernInit.v
Boot.v
