(* ===== verification/Prelude.v ===== *)
(** * mCertiKOS with a Unix shell: a verification development

    The program is a 32-bit teaching kernel for x86 (src/mCertiKOS/kern) with a file
    system, pipes, signals and messages, and a shell above it (src/mCertiKOS/user).  Its
    layers call downwards: physical memory, containers, page tables, threads, the file
    system, system calls, traps.  Each file here models one layer, in the order of
    [_CoqProject].

    ** How code is modelled

    A C function is a function of the monad [M S A := S → outcome S A] of this file.  The
    outcomes are [Ok], [Panic] (KERN_PANIC), [Undef] (an access outside an array or through
    a null pointer), [Spin] (a loop that never ends) and [Blocked] (the thread gave up the
    processor).  The state of a layer is a record that contains the state of the layer
    below; a [Lens] lets a layer run the operations of a lower one with [zoom].  An array is
    a finite map with a default and its accesses are checked against its size.  Machine
    words are [Z] with [u32], [s32] and [u8] written where the code wraps around.  A call
    that sleeps is cut where it sleeps, into segments that end in [SegDone] or [SegSleep];
    what happens in between is any step of the other threads.  Stack buffers that the code
    reads before it writes them are arguments.

    ** Files

    - Prelude: outcomes, the monad, lenses, arrays, counted loops, machine words.
    - Spinlock: kern/lib/spinlock.c.  Module Smp interleaves the exchange loops of several
      processors, instruction by instruction.
    - Mboot, PMem, Container: dev/mboot.c, pmm/MATIntro, MATInit, MATOp, MContainer.
    - Segment: lib/seg.c with the descriptors of seg.h, the table of gates of dev/intr.c and
      the words that the entries of dev/idt.S push.  Its state is part of the kernel's, so
      that creating a process sets up its kernel stack.
    - PageTable: the six layers of vmm/.  Tables are words of a byte-addressed memory.
    - TCB, TQueue, Thread, Sched: thread/.  [sched] is the abstract scheduler (running
      thread, ready list, sleepers) and [sched_rep] relates the queues to it.
    - UserCopy: lib/pmap.c and lib/elf.c.  CString: lib/string.c.
    - BufCache: fs/bufcache.c over dev/disk/ide.c.  The drive is a map from sectors to
      blocks, with a set of sectors that cannot be read.  A thread that waits for its request
      gives up the lock, the interrupt of the disk arrives, and it takes the lock again.
    - Log, Inode, Path: fs/log.c, block.c, inode.c, dir.c, path.c.  The disk writes are
      recorded in order, so that a crash is a prefix of them.  FileData and FileWrite relate
      the blocks of an inode to the bytes of its file.
    - File, Pipe: fs/file.c.  Pipe adds the step relation of many threads on the pipes.
      FileDisk composes files with transactions, crashes and a restart.
    - Mkfs: fs/mkfs.c, the program of the host that builds the disk image; ImageBoot starts
      the file system from that image.
    - Ipc, Message: lib/ipc.c and the two message calls.
    - TrapFrame, Sysfile, Syscall, Trap: trap/, proc/PProc and fs/sysfile.c.
    - Signal, PipeCall: theorems that compose the calls above with user memory.
    - UserCalls: the call stubs of user/include/syscall.h, from the registers of the process
      through the trap and back.
    - Keeps, FdRefs: the tables of descriptors of all processes against the counts of the
      open files, over every system call.
    - Shell, ShellRun, ShellCmd, ShellFile: user/shell/shell.c with user/lib/atoi.c and
      string.c.  Shell is the parser, which works in place on the line; ShellRun the
      pipelines; ShellCmd the dispatch of a line and the main loop; ShellFile the commands on
      files.  The calls they make are the classes [Os], [OsSig] and [OsFile]; the theorems
      about calls take the instance [recorder], which keeps the trace of all calls and answers
      them by any function of it.
    - Format: user/lib/printfmt.c and printf.c, kern/lib/printfmt.c and dprintf.c.  The
      function that takes the characters is an argument, as in the code.
    - Console: the input side of dev/console.c, keyboard.c and serial.c.
    - Filters: user/rot13, user/cat and user/ls, over a class [Io] of reading and writing;
      the theorems are about the calls made on an input that comes in pieces.
    - Hw: ports and device registers.  The accesses are a trace, and what a device answers
      to a read is a function of the trace before it, the parameter [Machine].
    - Screen, Monitor: dev/video.c and the output side of serial.c and console.c; the line
      editors, the messages and the kernel monitor (lib/debug.c, lib/monitor.c).
    - Apic, Mp: the interrupt controllers and timers (dev/pic.c, ioapic.c, lapic.c, timer.c,
      tsc.c, disk/picirq.c, disk/ioapic.c); the firmware tables and the processors
      (dev/acpi.c, pcpu_mp.c, pcpu/).
    - Intr: dev/intr.c.
    - KernInit: init/init.c and dev/devinit.c, which put all of this together, and the probe
      of the disks in dev/disk/ide.c.
    - Boot: the C part of the boot loader (boot/boot1/boot1main.c and boot1lib.c).

    ** What the theorems show

    - Memory: the table built at boot marks exactly the RAM of the BIOS map; [palloc] is
      first fit after its index, and of two calls one finds a free page if there is one; a
      process never exceeds its quota; every frame has at most
      one user and allocation changes no other translation; copies to and from a process
      move exactly the bytes asked for, or none.
    - Threads: the linked queues are lists; the scheduler refines its abstract
      specification, is round robin, and preempts after a time slice; locks exclude.
    - Disk: the cache is a block device; a transaction is atomic under a crash at any point
      of its writes; a write that fits the file and the disk is durable and read back after a
      restart; the image that mkfs builds holds the files it was given, for the kernel that
      starts from it; path elements and directory names.
    - Processes: pipes are first-in first-out queues of the bytes that their writers passed,
      lose no wakeup under every interleaving, and carry bytes from one user buffer to another, also from stub to
      stub; a signal interrupts and resumes a process; SIGKILL removes it; a message meets
      its receiver.  No trap breaks the agreement of descriptors and counts.
    - Start: the boot loader puts every segment of the kernel in its place and hands over
      the memory map of the BIOS; the layers come up on every acceptable memory map, and
      [kern_main] starts the shell in user mode at its entry point, with the console as its
      descriptors.
    - Machine: which gates and ports a user process has; the processors and controllers
      that the firmware tables name are the ones the kernel knows; enabling an interrupt
      opens that line and no other.
    - Shell: the parser accepts the right lines and finds their words; however its calls are
      answered, a pipeline leaks no descriptor, wires its children and waits for them when
      all could be started, and no command on files leaks a descriptor; [kill] sends what its
      line says.
    - Formatted output: the interpreter stops on every format, prints what the directives
      stand for, stays within its buffers, and [atoi] reads back the numbers it prints.
    - Console and programs: what is typed on the keyboard is what the console gives, is
      shown on the screen, seen as a window on an endless roll, and goes out on the serial
      line; ROT13 writes the rotation of all it reads (and lemmas for CAT and LS).

    ** Bounds and fuel

    Loops with a fixed number of rounds use [for_range], which has no fuel to run out of.
    Loops over a linked list or a length take as fuel the number of elements or bytes, and
    the theorems about them conclude that they return.  [find_send] ends in [Spin] when its
    fuel of one step per block is used up: it has then met a block twice.  The parser and
    the interpreter of formats move forward in their text, so its length is enough; a 64-bit
    number has at most 64 digits.  The scans of the firmware tables have one round for each
    step of their distance, and a round more to see the end.  Loops that wait for a device
    have no bound in the code: they take a number of polls and end in [Spin] after it.  The
    wait of [ide_rw] has one round for each request in the queue; [rm -r] and [cp -r] take the
    depth their recursion may reach.

    ** Not modelled

    The assembly (the boot sector, the calls of the BIOS, the jump to the kernel and its
    entry, the common code of the trap stubs, the switch of stacks, the code that another processor starts
    with): traps are taken as given, and a context switch is the change of the running
    context.  Devices are what [Machine] answers; the
    disk is a map, and the bytes that the keyboard and the serial line have ready are
    lists.  File takes the characters of the console as a list; Console is not composed
    with it.  The pipelines of the shell and the kernel are not composed either: the shell's
    theorems hold for all answers to its calls.  Except in Module Smp there is one processor: the kernel does not start the
    others.  The messages of the kernel are left out, apart from Monitor and [video_init].
    The ELF images linked into the kernel are parameters.  What the shell prints is not
    modelled, apart from the contents that cat prints, and neither are the user programs
    idle, pingpong and fstest, which exercise the calls that are. *)

From stdpp Require Export base tactics list gmap strings.
From Stdlib Require Export ZArith Lia.

#[global] Open Scope Z_scope.

(** ** Machine integers

    The kernel is 32-bit: [unsigned int], [uint32_t] and pointers are integers
    modulo [2^32]; [int] is the two's complement reading of the same word. *)

Definition W32 : Z := 4294967296.

Definition u32 (x : Z) : Z := x mod W32.

Definition s32 (x : Z) : Z := (x + 2147483648) mod W32 - 2147483648.

Definition u8 (x : Z) : Z := x mod 256.

(** A value that already fits its machine type. *)
Definition is_u32 (x : Z) : Prop := 0 <= x < W32.

Definition is_s32 (x : Z) : Prop := -2147483648 <= x < 2147483648.

Lemma u32_small x : is_u32 x → u32 x = x.
Proof. intros ?. by apply Z.mod_small. Qed.

Lemma u32_range x : is_u32 (u32 x).
Proof. by apply Z.mod_pos_bound. Qed.

Lemma s32_small x : is_s32 x → s32 x = x.
Proof. unfold is_s32, s32, W32. intros ?. rewrite Z.mod_small; lia. Qed.

Lemma s32_range x : is_s32 (s32 x).
Proof.
  unfold is_s32, s32.
  pose proof (Z.mod_pos_bound (x + 2147483648) W32 eq_refl) as H.
  unfold W32 in *. lia.
Qed.

Lemma u32_u32 x : u32 (u32 x) = u32 x.
Proof. apply u32_small, u32_range. Qed.

Lemma u32_add_l x y : u32 (u32 x + y) = u32 (x + y).
Proof. unfold u32. by rewrite Z.add_mod_idemp_l. Qed.

Lemma u32_add_r x y : u32 (x + u32 y) = u32 (x + y).
Proof. unfold u32. by rewrite Z.add_mod_idemp_r. Qed.

Lemma u32_s32 x : u32 (s32 x) = u32 x.
Proof.
  unfold u32, s32.
  rewrite Zminus_mod_idemp_l. f_equal. lia.
Qed.

(** ** Results of kernel code

    A run either returns a value and a state, stops in [KERN_PANIC], performs an
    access outside an object (an array index out of range, a null pointer), spins
    for ever on a lock that is held or in a loop that never ends, or gives up the processor inside
    [thread_sleep] and leaves the rest of the call to be resumed. *)

Inductive outcome (S A : Type) : Type :=
| Ok (a : A) (s : S)
| Panic
| Undef
| Spin
| Blocked (s : S).

Arguments Ok {S A} a s.
Arguments Panic {S A}.
Arguments Undef {S A}.
Arguments Spin {S A}.
Arguments Blocked {S A} s.

Definition M (S A : Type) : Type := S → outcome S A.

#[global] Instance M_ret S : MRet (M S) := λ A a s, Ok a s.

#[global] Instance M_bind S : MBind (M S) := λ A B f m s,
  match m s with
  | Ok a s' => f a s'
  | Panic => Panic
  | Undef => Undef
  | Spin => Spin
  | Blocked s' => Blocked s'
  end.

Definition gets {S A} (f : S → A) : M S A := λ s, Ok (f s) s.

Definition modify {S} (f : S → S) : M S () := λ s, Ok () (f s).

Definition kern_panic {S A} : M S A := λ _, Panic.

Definition undef {S A} : M S A := λ _, Undef.

(** A loop that never ends. *)
Definition spin {S A} : M S A := λ _, Spin.

(** Give the processor to another thread. *)
Definition block {S A} : M S A := λ s, Blocked s.

(** [x] must point to an object. *)
Definition deref {S A} (x : option A) : M S A := λ s,
  match x with Some a => Ok a s | None => Undef end.

Section Bind.
Context {S A B : Type}.
Implicit Types (m : M S A) (f : A → M S B).

Lemma bind_Ok m f s a s' : m s = Ok a s' → (m ≫= f) s = f a s'.
Proof. intros H. unfold mbind, M_bind. by rewrite H. Qed.

Lemma bind_inv m f s b s'' :
  (m ≫= f) s = Ok b s'' → ∃ a s', m s = Ok a s' ∧ f a s' = Ok b s''.
Proof. unfold mbind, M_bind. destruct (m s) eqn:E; naive_solver. Qed.

Lemma bind_ext m m' f g s :
  m s = m' s → (∀ a s', f a s' = g a s') → (m ≫= f) s = (m' ≫= g) s.
Proof. intros Hm H. unfold mbind, M_bind. rewrite Hm. by destruct (m' s). Qed.

Lemma ret_Ok (a : A) (s : S) : (mret a : M S A) s = Ok a s.
Proof. done. Qed.

Lemma gets_Ok (g : S → A) s : gets g s = Ok (g s) s.
Proof. done. Qed.

Lemma modify_Ok (g : S → S) s : modify g s = Ok () (g s).
Proof. done. Qed.
End Bind.

(** ** Layers

    Each component keeps its own state record; an upper layer stores the state of
    the layer below in a field.  [Lens S C] says that [C] is a part of [S], and
    [zoom] runs code of the part inside the whole. *)

Class Lens (S C : Type) := {
  view : S → C;
  put : C → S → S;
  view_put c s : view (put c s) = c;
  put_view s : put (view s) s = s;
  put_put c c' s : put c (put c' s) = put c s;
}.

#[global] Hint Mode Lens ! ! : typeclass_instances.

(** A component of a component. *)
#[program] Definition lens_comp {A B C} (l : Lens A B) (m : Lens B C) : Lens A C := {|
  view a := @view B C m (@view A B l a);
  put c a := @put A B l (@put B C m c (@view A B l a)) a
|}.
Next Obligation. intros A B C l m c a. simpl. by rewrite (view_put (Lens:=l)), (view_put (Lens:=m)). Qed.
Next Obligation. intros A B C l m a. simpl. by rewrite (put_view (Lens:=m)), (put_view (Lens:=l)). Qed.
Next Obligation.
  intros A B C l m c c' a. simpl.
  by rewrite (view_put (Lens:=l)), (put_put (Lens:=m)), (put_put (Lens:=l)).
Qed.

Definition zoom {S C A} `{Lens S C} (m : M C A) : M S A := λ s,
  match m (view s) with
  | Ok a c => Ok a (put c s)
  | Panic => Panic
  | Undef => Undef
  | Spin => Spin
  | Blocked c => Blocked (put c s)
  end.

Section Zoom.
Context {S C A : Type} `{!Lens S C}.
Implicit Types (m : M C A).

Lemma zoom_Ok m (s : S) a c : m (view s) = Ok a c → zoom m s = Ok a (put c s).
Proof. intros H. unfold zoom. by rewrite H. Qed.

Lemma zoom_inv m (s : S) a (s' : S) :
  zoom m s = Ok a s' → ∃ c, m (view s) = Ok a c ∧ s' = put c s.
Proof.
  unfold zoom. destruct (m (view s)) eqn:E; intros [=]; subst. eauto.
Qed.

Lemma zoom_mbind {B} m (f : A → M C B) (s : S) :
  zoom (m ≫= f) s = (zoom m ≫= λ a, zoom (f a)) s.
Proof.
  unfold zoom at 1. unfold mbind, M_bind. unfold zoom at 1.
  destruct (m (view s)) as [a c| | | |]; try done.
  unfold zoom. rewrite view_put. by destruct (f a c); rewrite ?put_put.
Qed.
End Zoom.

Lemma zoom_comp {A B C X} (l : Lens A B) (k : Lens B C) (m : M C X) a :
  @zoom _ _ _ (lens_comp l k) m a = @zoom _ _ _ l (@zoom _ _ _ k m) a.
Proof. unfold zoom. simpl. by destruct (m (view (view a))). Qed.

(** ** Static arrays

    A C array of [n] elements in static storage, all [d] at boot: the entries
    that were written are in a finite map.  [aget] and [aset] are the array
    accesses of the code, undefined out of range. *)

Definition alook {A} (d : A) (m : gmap Z A) (i : Z) : A := default d (m !! i).

Definition aget {S A} (n : Z) (d : A) (arr : S → gmap Z A) (i : Z) : M S A := λ s,
  if bool_decide (0 <= i < n) then Ok (alook d (arr s) i) s else Undef.

Definition aset {S A} (n : Z) (upd : (gmap Z A → gmap Z A) → S → S)
    (i : Z) (x : A) : M S () := λ s,
  if bool_decide (0 <= i < n) then Ok () (upd <[i := x]> s) else Undef.

Section Arrays.
Context {A : Type} (d : A).
Implicit Types (m : gmap Z A).

Lemma alook_insert m i j x :
  alook d (<[i := x]> m) j = if decide (i = j) then x else alook d m j.
Proof.
  unfold alook. destruct (decide (i = j)) as [->|Hne].
  - by rewrite lookup_insert_eq.
  - by rewrite lookup_insert_ne.
Qed.

Lemma alook_insert_eq m i x : alook d (<[i := x]> m) i = x.
Proof. rewrite alook_insert. by rewrite decide_True. Qed.

Lemma alook_insert_ne m i j x :
  i ≠ j → alook d (<[i := x]> m) j = alook d m j.
Proof. intros ?. rewrite alook_insert. by rewrite decide_False. Qed.

Lemma aget_Ok {S} n (arr : S → gmap Z A) i s :
  0 <= i < n → aget n d arr i s = Ok (alook d (arr s) i) s.
Proof. intros ?. unfold aget. by rewrite bool_decide_eq_true_2. Qed.

Lemma aset_Ok {S} n (upd : (gmap Z A → gmap Z A) → S → S) i x s :
  0 <= i < n → aset n upd i x s = Ok () (upd <[i := x]> s).
Proof. intros ?. unfold aset. by rewrite bool_decide_eq_true_2. Qed.
End Arrays.

(** ** Loops

    [for_ n body i] is [while (i < n) { body(i); i++; }] for a counter that the
    body does not change; [fuel] bounds the trips and [for_range] chooses it as the
    exact trip count. *)

Fixpoint for_fuel {S} (fuel : nat) (body : Z → M S ()) (i : Z) : M S () :=
  match fuel with
  | O => mret ()
  | Datatypes.S fuel => body i ;; for_fuel fuel body (i + 1)
  end.

Definition for_range {S} (lo hi : Z) (body : Z → M S ()) : M S () :=
  for_fuel (Z.to_nat (hi - lo)) body lo.

(** The usual loop rule: an invariant indexed by the counter. *)
Lemma for_fuel_inv {S} (I : Z → S → Prop) (body : Z → M S ()) fuel lo s :
  I lo s →
  (∀ i s, lo <= i < lo + Z.of_nat fuel → I i s →
     ∃ s', body i s = Ok () s' ∧ I (i + 1) s') →
  ∃ s', for_fuel fuel body lo s = Ok () s' ∧ I (lo + Z.of_nat fuel) s'.
Proof.
  revert lo s. induction fuel as [|fuel IH]; intros lo s HI Hstep; simpl.
  - exists s. by rewrite Z.add_0_r.
  - destruct (Hstep lo s) as (s1 & Hb & HI1); [lia|done|].
    destruct (IH (lo + 1) s1 HI1) as (s2 & Hr & HI2).
    { intros i s' Hi. apply Hstep. lia. }
    exists s2. rewrite (bind_Ok _ _ _ _ _ Hb), Hr. split; [done|].
    by replace (lo + Z.of_nat (Datatypes.S fuel)) with (lo + 1 + Z.of_nat fuel) by lia.
Qed.

Lemma for_range_inv {S} (I : Z → S → Prop) (body : Z → M S ()) lo hi s :
  lo <= hi →
  I lo s →
  (∀ i s, lo <= i < hi → I i s → ∃ s', body i s = Ok () s' ∧ I (i + 1) s') →
  ∃ s', for_range lo hi body s = Ok () s' ∧ I hi s'.
Proof.
  intros Hle HI Hstep. unfold for_range.
  destruct (for_fuel_inv I body (Z.to_nat (hi - lo)) lo s HI) as (s' & ? & ?).
  { intros i s' ?. apply Hstep. lia. }
  exists s'. split; [done|]. by replace hi with (lo + Z.of_nat (Z.to_nat (hi - lo))) by lia.
Qed.

Lemma for_range_nil {S} (body : Z → M S ()) lo hi s :
  hi <= lo → for_range lo hi body s = Ok () s.
Proof. intros H. unfold for_range. by replace (Z.to_nat (hi - lo)) with O by lia. Qed.

Lemma for_range_step {S} (body : Z → M S ()) lo hi s :
  lo < hi → for_range lo hi body s = (body lo ;; for_range (lo + 1) hi body) s.
Proof.
  intros H. unfold for_range.
  by replace (Z.to_nat (hi - lo)) with (Datatypes.S (Z.to_nat (hi - (lo + 1)))) by lia.
Qed.

#[global] Opaque for_range.

(** ** Lists *)

Lemma filter_all {A} (P : A → Prop) `{∀ x, Decision (P x)} (l : list A) :
  (∀ x, x ∈ l → P x) → filter P l = l.
Proof.
  induction l as [|x l IH]; intros Hl; [done|].
  rewrite filter_cons_True by (apply Hl; left). f_equal. apply IH. intros y Hy. apply Hl. by right.
Qed.

(** ** Automation *)

Create HintDb kern.
Create Rewrite HintDb kern.

#[export] Hint Resolve u32_range s32_range : kern.
#[export] Hint Rewrite @alook_insert_eq @view_put @put_view @put_put : kern.

(** [kstep] runs the next primitive of a monadic goal. *)
Ltac kstep :=
  first
    [ rewrite (bind_Ok (gets _) _ _ _ _ (gets_Ok _ _)); cbv beta
    | rewrite (bind_Ok (modify _) _ _ _ _ (modify_Ok _ _)); cbv beta
    | erewrite bind_Ok; [|first [eassumption | apply aget_Ok; lia | apply aset_Ok; lia]]; cbv beta
    ].

(** [inv_bind H] splits a successful run of a sequence into its parts. *)
Ltac inv_bind H :=
  let a := fresh "a" in let s := fresh "s" in let H1 := fresh "Hrun" in
  apply bind_inv in H as (a & s & H1 & H).
