(* ===== verification/Spinlock.v ===== *)
(** * Spinlocks (kern/lib/spinlock.c)

    The lock word and its holder, the operations built on [xchg], and the way the
    other components take and drop a lock: acquiring a held lock spins for ever.
    [Module Smp] interleaves the instructions of the same code on several
    processors and shows mutual exclusion, which is what allows the other files to
    run a critical section in one step. *)

From S2P Require Import Prelude.

Definition NUM_CPUS : Z := 8.

Record spinlock_t := { lock_holder : Z; lock : Z }.

#[global] Instance spinlock_t_eq_dec : EqDecision spinlock_t.
Proof. solve_decision. Defined.

(** The value [spinlock_init] and [spinlock_release] leave behind. *)
Definition spinlock_init : spinlock_t :=
  {| lock_holder := NUM_CPUS + 1; lock := 0 |}.

(** The processor that runs the code: [kern_main] does not start the others. *)
Definition cpu_idx : Z := 0.

Definition xchg (newval : Z) (lk : spinlock_t) : Z * spinlock_t :=
  (lock lk, {| lock_holder := lock_holder lk; lock := newval |}).

(** One trip of [while (xchg(&lk->lock, 1) != 0) pause();] and what follows; on
    one processor nobody clears the word between two trips, so a second trip sees
    what the first one saw. *)
Definition spinlock_acquire_A (cpu : Z) (lk : spinlock_t) : option spinlock_t :=
  let '(old, lk') := xchg 1 lk in
  if bool_decide (old ≠ 0) then None
  else Some {| lock_holder := cpu; lock := lock lk' |}.

Definition spinlock_try_acquire_A (cpu : Z) (lk : spinlock_t) : Z * spinlock_t :=
  let '(old_val, lk') := xchg 1 lk in
  if bool_decide (old_val = 0)
  then (old_val, {| lock_holder := cpu; lock := lock lk' |})
  else (old_val, lk').

Definition spinlock_release_A (lk : spinlock_t) : spinlock_t :=
  (xchg 0 {| lock_holder := NUM_CPUS + 1; lock := lock lk |}).2.

Definition spinlock_holding (cpu : Z) (lk : spinlock_t) : bool :=
  if bool_decide (lock lk = 0) then false
  else bool_decide (lock_holder lk = cpu).

(** A lock that lives in a field of a component's state. *)
Definition spinlock_acquire {S} (get : S → spinlock_t) (set : spinlock_t → S → S)
    : M S () := λ s,
  match spinlock_acquire_A cpu_idx (get s) with
  | Some lk => Ok () (set lk s)
  | None => Spin
  end.

Definition spinlock_release {S} (get : S → spinlock_t) (set : spinlock_t → S → S)
    : M S () := modify (λ s, set (spinlock_release_A (get s)) s).

Definition locked : spinlock_t := {| lock_holder := cpu_idx; lock := 1 |}.

Lemma spinlock_acquire_free {S} get set (s : S) :
  get s = spinlock_init → spinlock_acquire get set s = Ok () (set locked s).
Proof. intros H. unfold spinlock_acquire. by rewrite H. Qed.

Lemma spinlock_acquire_held {S} get set (s : S) :
  lock (get s) ≠ 0 → spinlock_acquire get set s = Spin.
Proof.
  intros H. unfold spinlock_acquire, spinlock_acquire_A; simpl.
  by rewrite bool_decide_eq_true_2.
Qed.

Lemma spinlock_release_free lk : spinlock_release_A lk = spinlock_init.
Proof. done. Qed.

(** ** Several processors

    Each processor is at a point of [spinlock_acquire; critical section;
    spinlock_release]; a step is one instruction of one of them. *)

Module Smp.

Inductive pc := Idle | Spinning | Taken | Critical | Dropping.

#[global] Instance pc_eq_dec : EqDecision pc.
Proof. solve_decision. Defined.

Record state := { word : spinlock_t; at_pc : Z → pc }.

Definition goto (c : Z) (p : pc) (f : Z → pc) : Z → pc :=
  λ c', if decide (c' = c) then p else f c'.

Inductive step : state → state → Prop :=
| step_call lk f c :
    f c = Idle →
    step {| word := lk; at_pc := f |} {| word := lk; at_pc := goto c Spinning f |}
| step_spin lk f c :
    f c = Spinning → (xchg 1 lk).1 ≠ 0 →
    step {| word := lk; at_pc := f |} {| word := (xchg 1 lk).2; at_pc := f |}
| step_win lk f c :
    f c = Spinning → (xchg 1 lk).1 = 0 →
    step {| word := lk; at_pc := f |}
         {| word := (xchg 1 lk).2; at_pc := goto c Taken f |}
| step_holder lk f c :
    f c = Taken →
    step {| word := lk; at_pc := f |}
         {| word := {| lock_holder := c; lock := lock lk |};
            at_pc := goto c Critical f |}
| step_unhold lk f c :
    f c = Critical →
    step {| word := lk; at_pc := f |}
         {| word := {| lock_holder := NUM_CPUS + 1; lock := lock lk |};
            at_pc := goto c Dropping f |}
| step_drop lk f c :
    f c = Dropping →
    step {| word := lk; at_pc := f |}
         {| word := (xchg 0 lk).2; at_pc := goto c Idle f |}.

Definition boot : state := {| word := spinlock_init; at_pc := λ _, Idle |}.

Inductive reachable : state → Prop :=
| reach_boot : reachable boot
| reach_step s s' : reachable s → step s s' → reachable s'.

Definition owns (p : pc) : Prop := p = Taken ∨ p = Critical ∨ p = Dropping.

Definition owner_inv (s : state) : Prop :=
  (∀ c, owns (at_pc s c) → lock (word s) = 1) ∧
  (∀ c c', owns (at_pc s c) → owns (at_pc s c') → c = c') ∧
  (∀ c, at_pc s c = Critical → lock_holder (word s) = c).

Lemma owner_inv_step s s' : owner_inv s → step s s' → owner_inv s'.
Proof.
  intros (H1 & H2 & H3) Hstep. unfold owner_inv, owns in *.
  destruct Hstep; simpl in *; (split_and!; [intros c1|intros c1 c2|intros c1]);
    unfold goto; intros; repeat case_decide; subst;
    first [ congruence | solve [eauto] | solve [intuition congruence]
          | exfalso; firstorder congruence ].
Qed.

Lemma owner_inv_reachable s : reachable s → owner_inv s.
Proof.
  induction 1; [|eauto using owner_inv_step].
  unfold owner_inv, owns, boot; simpl; naive_solver.
Qed.

(** C26: Mutual exclusion of kern/lib/spinlock.c on any number of processors: in
    every interleaving of the instructions of acquire and release, at most one
    processor is between a winning [xchg] and the [xchg] that clears the word, the
    word is 1 while it is there, and inside the critical section the recorded
    holder is that processor. *)
Theorem spinlock_mutual_exclusion s c c' :
  reachable s → owns (at_pc s c) → owns (at_pc s c') →
  c = c' ∧ lock (word s) = 1 ∧
  (at_pc s c = Critical → lock_holder (word s) = c).
Proof.
  intros Hr Ho Ho'. destruct (owner_inv_reachable s Hr) as (H1 & H2 & H3).
  split_and!; eauto.
Qed.

Lemma spinlock_mutual_exclusion_witness :
  let s := {| word := {| lock_holder := 9; lock := 1 |};
              at_pc := goto 3 Taken (goto 3 Spinning (λ _, Idle)) |} in
  reachable s ∧ 3 = 3 ∧ lock (word s) = 1 ∧
  (at_pc s 3 = Critical → lock_holder (word s) = 3).
Proof.
  intros s.
  assert (reachable s) as Hr.
  { apply (reach_step {| word := spinlock_init; at_pc := goto 3 Spinning (λ _, Idle) |}).
    - apply (reach_step boot); [apply reach_boot|]. by apply (step_call _ (λ _, Idle)).
    - apply (step_win spinlock_init (goto 3 Spinning (λ _, Idle)) 3); reflexivity. }
  split; [exact Hr|].
  apply (spinlock_mutual_exclusion s 3 3 Hr); left; reflexivity.
Defined.

End Smp.
