(* ===== verification/Mboot.v ===== *)
(** * The physical memory map (kern/dev/mboot.c)

    The BIOS memory map that the boot loader hands over is copied into a list
    sorted by start address, neighbouring entries of one type are merged, and the
    physical memory manager reads the result by row number.  The singly linked
    [pmmap_list] is a list; [pmmap_slots] only bounds its length. *)

From S2P Require Import Prelude.
From Stdlib Require Import Sorted.

Definition MEM_RAM : Z := 1.
Definition MEM_RESERVED : Z := 2.
Definition MEM_ACPI : Z := 3.
Definition MEM_NVS : Z := 4.

(** A row of the table of the boot loader. *)
Record mboot_mmap_t := {
  base_addr_low : Z; base_addr_high : Z;
  length_low : Z; length_high : Z; mtype : Z
}.

Record pmmap := { start : Z; end_ : Z; type : Z }.

#[global] Instance pmmap_eq_dec : EqDecision pmmap.
Proof. solve_decision. Defined.

Record mboot_state := {
  pmmap_list : list pmmap;
  pmmap_slots_next_free : Z;
  pmmap_sublist : gmap Z (list pmmap);
  max_usable_memory : Z;
  mem_npages : Z;
  pmmap_nentries : Z
}.

Definition mboot0 : mboot_state :=
  {| pmmap_list := []; pmmap_slots_next_free := 0; pmmap_sublist := ∅;
     max_usable_memory := 0; mem_npages := 0; pmmap_nentries := 0 |}.

(** The new slot goes after the last one whose start is not above it. *)
Fixpoint slist_insert (e : pmmap) (l : list pmmap) : list pmmap :=
  match l with
  | [] => [e]
  | slot :: l' =>
      if bool_decide (start e < start slot) then e :: l else slot :: slist_insert e l'
  end.

Definition pmmap_insert (s e t : Z) : M mboot_state () := λ st,
  if bool_decide (pmmap_slots_next_free st = 128) then Panic
  else Ok ()
    {| pmmap_list := slist_insert {| start := s; end_ := e; type := t |} (pmmap_list st);
       pmmap_slots_next_free := pmmap_slots_next_free st + 1;
       pmmap_sublist := pmmap_sublist st;
       max_usable_memory := max_usable_memory st;
       mem_npages := mem_npages st;
       pmmap_nentries := pmmap_nentries st |}.

(** Step 1 of [pmmap_merge]: after a removal the loop moves on to the slot after
    the removed one. *)
Fixpoint merge_list (l : list pmmap) : list pmmap :=
  match l with
  | slot :: (next_slot :: l'') as l' =>
      if bool_decide (start slot <= start next_slot)
         && bool_decide (end_ slot >= start next_slot)
         && bool_decide (type slot = type next_slot)
      then {| start := start slot; end_ := Z.max (end_ slot) (end_ next_slot);
              type := type slot |} :: merge_list l''
      else slot :: merge_list l'
  | _ => l
  end.

Definition sublist_nr (t : Z) : Z :=
  if bool_decide (t = MEM_RAM) then 0
  else if bool_decide (t = MEM_RESERVED) then 1
  else if bool_decide (t = MEM_ACPI) then 2
  else if bool_decide (t = MEM_NVS) then 3 else -1.

(** Step 2: append every slot to the list of its type; [KERN_ASSERT] stops on an
    unknown type. *)
Fixpoint make_sublists (l : list pmmap) (sub : gmap Z (list pmmap))
    : option (gmap Z (list pmmap)) :=
  match l with
  | [] => Some sub
  | slot :: l' =>
      let nr := sublist_nr (type slot) in
      if bool_decide (nr = -1) then None
      else make_sublists l' (<[nr := alook [] sub nr ++ [slot]]> sub)
  end.

Definition pmmap_merge : M mboot_state () := λ st,
  let l := merge_list (pmmap_list st) in
  match make_sublists l (pmmap_sublist st) with
  | None => Panic
  | Some sub => Ok ()
      {| pmmap_list := l;
         pmmap_slots_next_free := pmmap_slots_next_free st;
         pmmap_sublist := sub;
         max_usable_memory :=
           match last (alook [] sub 0) with
           | Some slot => end_ slot
           | None => max_usable_memory st
           end;
         mem_npages := mem_npages st;
         pmmap_nentries := pmmap_nentries st |}
  end.

(** One row of the boot loader's table. *)
Definition pmmap_copy (p : mboot_mmap_t) : M mboot_state () :=
  if bool_decide (base_addr_high p ≠ 0) then mret ()
  else
    let s := base_addr_low p in
    let e := if bool_decide (length_high p ≠ 0)
                || bool_decide (length_low p >= 4294967295 - s)
             then 4294967295 else s + length_low p in
    pmmap_insert s e (mtype p).

Fixpoint pmmap_copy_all (t : list mboot_mmap_t) : M mboot_state () :=
  match t with
  | [] => mret ()
  | p :: t' => pmmap_copy p ;; pmmap_copy_all t'
  end.

Definition pmmap_init (t : list mboot_mmap_t) : M mboot_state () :=
  modify (λ st,
    {| pmmap_list := []; pmmap_slots_next_free := pmmap_slots_next_free st;
       pmmap_sublist := ∅; max_usable_memory := max_usable_memory st;
       mem_npages := mem_npages st; pmmap_nentries := pmmap_nentries st |}) ;;
  pmmap_copy_all t ;;
  pmmap_merge ;;
  modify (λ st,
    {| pmmap_list := pmmap_list st; pmmap_slots_next_free := pmmap_slots_next_free st;
       pmmap_sublist := pmmap_sublist st; max_usable_memory := max_usable_memory st;
       mem_npages :=
         (max_usable_memory st - max_usable_memory st mod 4096) / 4096;
       pmmap_nentries := pmmap_nentries st + Z.of_nat (length (pmmap_list st)) |}).

(** The three getters walk to row [idx] and answer 0 past the end. *)
Definition get_size (st : mboot_state) : Z := pmmap_nentries st.

Definition get_mms (st : mboot_state) (idx : Z) : Z :=
  match pmmap_list st !! Z.to_nat idx with
  | Some slot => if bool_decide (0 <= idx ∧ idx ≠ pmmap_nentries st) then start slot else 0
  | None => 0
  end.

Definition get_mml (st : mboot_state) (idx : Z) : Z :=
  match pmmap_list st !! Z.to_nat idx with
  | Some slot =>
      if bool_decide (0 <= idx ∧ idx ≠ pmmap_nentries st)
      then u32 (end_ slot - start slot) else 0
  | None => 0
  end.

Definition is_usable (st : mboot_state) (idx : Z) : Z :=
  match pmmap_list st !! Z.to_nat idx with
  | Some slot =>
      if bool_decide (0 <= idx ∧ idx ≠ pmmap_nentries st ∧ type slot = MEM_RAM)
      then 1 else 0
  | None => 0
  end.

(** ** Properties *)

Definition by_start (a b : pmmap) : Prop := start a <= start b.

(** Address [a] lies in a row of type [t]. *)
Definition covered (l : list pmmap) (t a : Z) : Prop :=
  ∃ e, e ∈ l ∧ type e = t ∧ start e <= a < end_ e.

Lemma slist_insert_hd e l x :
  HdRel by_start x l → by_start x e → HdRel by_start x (slist_insert e l).
Proof.
  destruct l as [|y l]; simpl; intros Hl Hx; [by constructor|].
  case_bool_decide; constructor; [done|]. by inversion Hl.
Qed.

Lemma slist_insert_sorted e l :
  Sorted by_start l → Sorted by_start (slist_insert e l).
Proof.
  induction l as [|x l IH]; simpl; intros Hs; [by repeat constructor|].
  inversion Hs as [|? ? Hs' Hhd]; subst.
  case_bool_decide as E.
  - constructor; [done|]. constructor. unfold by_start. lia.
  - constructor; [by apply IH|]. apply slist_insert_hd; [done|]. unfold by_start. lia.
Qed.

Lemma slist_insert_elem e l x : x ∈ slist_insert e l ↔ x = e ∨ x ∈ l.
Proof.
  induction l as [|y l IH]; simpl; [set_solver|].
  case_bool_decide; [set_solver|]. rewrite !elem_of_cons, IH. set_solver.
Qed.

(** The rule of [merge_list], which skips two slots at a time. *)
Lemma merge_list_ind (P : list pmmap → Prop) :
  P [] → (∀ x, P [x]) →
  (∀ x y l, P l → P (y :: l) → P (x :: y :: l)) → ∀ l, P l.
Proof.
  intros H0 H1 H2 l. cut (P l ∧ ∀ x, P (x :: l)); [tauto|].
  induction l as [|y l [IH1 IH2]]; eauto.
Qed.

Lemma merge_list_hd x l :
  HdRel by_start x l → HdRel by_start x (merge_list l).
Proof.
  destruct l as [|a [|b l]]; [done..|]. intros H; inversion H; subst. simpl.
  destruct (_ && _); constructor; done.
Qed.

Lemma merge_list_sorted l : Sorted by_start l → Sorted by_start (merge_list l).
Proof.
  induction l as [|x|x y l IH1 IH2] using merge_list_ind; [done..|].
  intros Hs. inversion Hs as [|? ? Hs1 H1]; subst.
  inversion Hs1 as [|? ? Hs2 H2]; subst. inversion H1; subst. cbn [merge_list].
  destruct (_ && _) eqn:E.
  - constructor; [by apply IH1|]. apply merge_list_hd.
    destruct H2; constructor. unfold by_start in *; simpl. lia.
  - constructor; [by apply IH2|]. apply (merge_list_hd x (y :: l)). by constructor.
Qed.

Lemma covered_cons e l t a :
  covered (e :: l) t a ↔ (type e = t ∧ start e <= a < end_ e) ∨ covered l t a.
Proof. unfold covered. set_solver. Qed.

Lemma merge_list_covered l t a : covered (merge_list l) t a ↔ covered l t a.
Proof.
  induction l as [|x|x y l IH1 IH2] using merge_list_ind; [done..|].
  cbn [merge_list].
  destruct (bool_decide (start x <= start y) && bool_decide (end_ x >= start y)
            && bool_decide (type x = type y)) eqn:E.
  - apply andb_prop in E as [E E3]. apply andb_prop in E as [E1 E2].
    apply bool_decide_eq_true_1 in E1, E2, E3.
    rewrite !covered_cons, IH1; simpl. rewrite <- E3.
    destruct (decide (type x = t)); intuition lia.
  - by rewrite covered_cons, IH2, <- covered_cons.
Qed.

Lemma make_sublists_total l sub :
  Forall (λ e, sublist_nr (type e) ≠ -1) l → is_Some (make_sublists l sub).
Proof.
  intros H. revert sub. induction H as [|e l He Hl IH]; intros sub; simpl; [eauto|].
  rewrite bool_decide_eq_false_2 by done. apply IH.
Qed.

(** What a row of the loader's table says, with addresses above 4 GB cut off. *)
Definition row_says (p : mboot_mmap_t) (t a : Z) : Prop :=
  base_addr_high p = 0 ∧ mtype p = t ∧ base_addr_low p <= a < 4294967295 ∧
  (length_high p ≠ 0 ∨ a < base_addr_low p + length_low p).

Definition row_ok (p : mboot_mmap_t) : Prop :=
  1 <= mtype p <= 4 ∧ is_u32 (base_addr_low p) ∧ is_u32 (length_low p).

(** Every row is a range of 32-bit addresses. *)
Definition row_range (e : pmmap) : Prop := 0 <= start e <= end_ e ∧ end_ e < W32.

(** The shape every prefix of the copy loop keeps. *)
Definition copied (st st' : mboot_state) (says : Z → Z → Prop) : Prop :=
  Sorted by_start (pmmap_list st') ∧
  Forall (λ e, sublist_nr (type e) ≠ -1) (pmmap_list st') ∧
  Forall row_range (pmmap_list st') ∧
  pmmap_nentries st' = pmmap_nentries st ∧
  ∀ ty a, covered (pmmap_list st') ty a ↔ covered (pmmap_list st) ty a ∨ says ty a.

Lemma row_ok_sublist p : row_ok p → sublist_nr (mtype p) ≠ -1.
Proof.
  unfold row_ok, is_u32, sublist_nr, MEM_RAM, MEM_RESERVED, MEM_ACPI, MEM_NVS.
  repeat case_bool_decide; lia.
Qed.

Lemma copied_row_range p :
  row_ok p →
  row_range {| start := base_addr_low p;
     end_ := if bool_decide (length_high p ≠ 0)
                || bool_decide (length_low p >= 4294967295 - base_addr_low p)
             then 4294967295 else base_addr_low p + length_low p;
     type := mtype p |}.
Proof.
  unfold row_ok, row_range, is_u32, W32; simpl.
  repeat case_bool_decide; simpl; lia.
Qed.

Lemma pmmap_copy_spec p st :
  pmmap_slots_next_free st < 128 → row_ok p →
  Sorted by_start (pmmap_list st) →
  Forall (λ e, sublist_nr (type e) ≠ -1) (pmmap_list st) →
  Forall row_range (pmmap_list st) →
  ∃ st', pmmap_copy p st = Ok () st' ∧ copied st st' (row_says p) ∧
    pmmap_slots_next_free st' <= pmmap_slots_next_free st + 1.
Proof.
  intros Hlen Hp Hs Hty Hrg. unfold pmmap_copy. case_bool_decide as Hhi.
  { exists st. split; [done|]. split; [|lia]. split_and!; [done..|].
    intros ty a. unfold row_says. intuition lia. }
  unfold pmmap_insert. rewrite (bool_decide_eq_false_2 (_ = 128)) by lia.
  eexists. split; [done|]. split; [|simpl; lia]. split_and!; simpl; [| | |done|].
  - by apply slist_insert_sorted.
  - apply Forall_forall. intros x Hx%slist_insert_elem. destruct Hx as [->|Hx].
    + by apply row_ok_sublist.
    + rewrite Forall_forall in Hty. by apply Hty.
  - apply Forall_forall. intros x Hx%slist_insert_elem. destruct Hx as [->|Hx].
    + by apply copied_row_range.
    + rewrite Forall_forall in Hrg. by apply Hrg.
  - intros ty a. etransitivity.
    { unfold covered. setoid_rewrite slist_insert_elem.
      setoid_rewrite <- elem_of_cons. apply covered_cons. }
    unfold row_says; simpl.
    case_bool_decide; [|case_bool_decide]; simpl; intuition lia.
Qed.

Lemma pmmap_copy_all_spec t st :
  pmmap_slots_next_free st + Z.of_nat (length t) <= 128 →
  Forall row_ok t → Sorted by_start (pmmap_list st) →
  Forall (λ e, sublist_nr (type e) ≠ -1) (pmmap_list st) →
  Forall row_range (pmmap_list st) →
  ∃ st', pmmap_copy_all t st = Ok () st' ∧
    copied st st' (λ ty a, ∃ p, p ∈ t ∧ row_says p ty a).
Proof.
  intros Hlen Ht. revert st Hlen.
  induction Ht as [|p t Hp Ht IH]; intros st Hlen Hs Hty Hrg; simpl in *.
  { exists st. split; [done|]. split_and!; try done. set_solver. }
  destruct (pmmap_copy_spec p st) as (s1 & Hr1 & (Hs1 & Hty1 & Hg1 & Hn1 & Hc1) & Hf);
    [lia|done..|].
  destruct (IH s1) as (s2 & Hr2 & Hs2 & Hty2 & Hg2 & Hn2 & Hc2); [lia|done..|].
  exists s2. rewrite (bind_Ok _ _ _ _ _ Hr1). split; [done|].
  split_and!; [done..|congruence|]. intros ty a. rewrite Hc2, Hc1. set_solver.
Qed.

Lemma merge_list_types (P : Z → Prop) l :
  Forall (λ e, P (type e)) l → Forall (λ e, P (type e)) (merge_list l).
Proof.
  induction l as [|x|x y l IH1 IH2] using merge_list_ind; [done..|].
  intros H. inversion H as [|? ? Hx H']; subst. inversion H' as [|? ? Hy Hl]; subst.
  cbn [merge_list]. destruct (_ && _); constructor; auto.
Qed.

Lemma merge_list_range l :
  Forall row_range l → Forall row_range (merge_list l).
Proof.
  induction l as [|x|x y l IH1 IH2] using merge_list_ind; [done..|].
  intros H. inversion H as [|? ? Hx H']; subst. inversion H' as [|? ? Hy Hl]; subst.
  cbn [merge_list]. destruct (_ && _); constructor; auto.
  unfold row_range in *; simpl. lia.
Qed.

(** What the users of the map may rely on. *)
Record mmap_good (t : list mboot_mmap_t) (st : mboot_state) : Prop := {
  mg_sorted : Sorted by_start (pmmap_list st);
  mg_range : Forall row_range (pmmap_list st);
  mg_size : get_size st = Z.of_nat (length (pmmap_list st));
  mg_covered ty a : covered (pmmap_list st) ty a ↔ ∃ p, p ∈ t ∧ row_says p ty a
}.

Lemma pmmap_init_good t :
  Z.of_nat (length t) <= 128 → Forall row_ok t →
  ∃ st, pmmap_init t mboot0 = Ok () st ∧ mmap_good t st.
Proof.
  intros Hlen Ht. unfold pmmap_init. kstep.
  match goal with |- context [(pmmap_copy_all t ≫= _) ?s] =>
    destruct (pmmap_copy_all_spec t s) as (st & Hr & Hs & Hty & Hg & Hn & Hc) end;
    [done|done|constructor..|].
  rewrite (bind_Ok _ _ _ _ _ Hr).
  destruct (make_sublists_total (merge_list (pmmap_list st)) (pmmap_sublist st)) as [sub Hsub].
  { by apply (merge_list_types (λ ty, sublist_nr ty ≠ -1)). }
  unfold mbind, M_bind, pmmap_merge, modify. rewrite Hsub. eexists. split; [done|]. simpl.
  split.
  - by apply merge_list_sorted.
  - by apply merge_list_range.
  - unfold get_size; simpl. rewrite Hn. done.
  - intros ty a. simpl. rewrite merge_list_covered, Hc. simpl. unfold covered. set_solver.
Qed.

(** C39: The boot-time memory map: for every table of at most 128 rows with known
    types, [pmmap_init] succeeds; its list is sorted by start address, [get_size]
    counts its rows, and an address below 4 GB - 1 lies in a row of some type
    exactly when a row of the loader's table of that type says so, so merging and
    sorting neither lose nor invent memory. *)
Theorem pmmap_init_sound t :
  Z.of_nat (length t) <= 128 → Forall row_ok t →
  ∃ st, pmmap_init t mboot0 = Ok () st ∧
    Sorted by_start (pmmap_list st) ∧
    get_size st = Z.of_nat (length (pmmap_list st)) ∧
    ∀ ty a, covered (pmmap_list st) ty a ↔ ∃ p, p ∈ t ∧ row_says p ty a.
Proof.
  intros Hlen Ht. destruct (pmmap_init_good t Hlen Ht) as (st & Hr & []). eauto 6.
Qed.

Definition sample_map : list mboot_mmap_t :=
  [ {| base_addr_low := 1048576; base_addr_high := 0; length_low := 1072693248;
       length_high := 0; mtype := 1 |};
    {| base_addr_low := 0; base_addr_high := 0; length_low := 654336;
       length_high := 0; mtype := 1 |};
    {| base_addr_low := 654336; base_addr_high := 0; length_low := 1024;
       length_high := 0; mtype := 2 |} ].

Lemma pmmap_init_sound_witness :
  ∃ st, pmmap_init sample_map mboot0 = Ok () st ∧
    Sorted by_start (pmmap_list st) ∧
    get_size st = Z.of_nat (length (pmmap_list st)) ∧
    ∀ ty a, covered (pmmap_list st) ty a ↔ ∃ p, p ∈ sample_map ∧ row_says p ty a.
Proof.
  apply (pmmap_init_sound sample_map); [simpl; lia|].
  repeat constructor; simpl; lia.
Defined.
