(* ===== verification/PMem.v ===== *)
(** * Physical memory (kern/pmm/MATIntro, MATInit, MATOp)

    The allocation table [AT], its initialisation from the memory map, and the
    page allocator with its moving start index. *)

From S2P Require Import Prelude Spinlock Mboot.

Definition PAGESIZE : Z := 4096.
Definition VM_USERLO : Z := 1073741824.
Definition VM_USERHI : Z := 4026531840.
Definition VM_USERLO_PI : Z := VM_USERLO / PAGESIZE.
Definition VM_USERHI_PI : Z := VM_USERHI / PAGESIZE.

(** ** MATIntro: the table *)

Record ATStruct := { perm : Z; allocated : Z }.

Definition AT_zero : ATStruct := {| perm := 0; allocated := 0 |}.

(** [static struct ATStruct AT[1 << 20]] *)
Definition AT_SIZE : Z := 1048576.

Record at_state := {
  at_mboot : mboot_state;
  mem_lk : spinlock_t;
  NUM_PAGES : Z;
  AT : gmap Z ATStruct;
  last_palloc_index : Z
}.

Definition at0 : at_state :=
  {| at_mboot := mboot0; mem_lk := {| lock_holder := 0; lock := 0 |};
     NUM_PAGES := 0; AT := ∅; last_palloc_index := 262144 |}.

#[global, program] Instance at_mboot_lens : Lens at_state mboot_state := {|
  view := at_mboot;
  put mb s := {| at_mboot := mb; mem_lk := mem_lk s; NUM_PAGES := NUM_PAGES s;
                 AT := AT s; last_palloc_index := last_palloc_index s |}
|}.
Next Obligation. done. Qed.
Next Obligation. by intros []. Qed.
Next Obligation. done. Qed.

Definition set_mem_lk (lk : spinlock_t) (s : at_state) : at_state :=
  {| at_mboot := at_mboot s; mem_lk := lk; NUM_PAGES := NUM_PAGES s;
     AT := AT s; last_palloc_index := last_palloc_index s |}.

Definition set_NUM_PAGES (n : Z) (s : at_state) : at_state :=
  {| at_mboot := at_mboot s; mem_lk := mem_lk s; NUM_PAGES := n;
     AT := AT s; last_palloc_index := last_palloc_index s |}.

Definition upd_AT (f : gmap Z ATStruct → gmap Z ATStruct) (s : at_state) : at_state :=
  {| at_mboot := at_mboot s; mem_lk := mem_lk s; NUM_PAGES := NUM_PAGES s;
     AT := f (AT s); last_palloc_index := last_palloc_index s |}.

Definition set_last_palloc_index (i : Z) (s : at_state) : at_state :=
  {| at_mboot := at_mboot s; mem_lk := mem_lk s; NUM_PAGES := NUM_PAGES s;
     AT := AT s; last_palloc_index := i |}.

Definition at_look (s : at_state) (i : Z) : ATStruct := alook AT_zero (AT s) i.

Definition mem_spinlock_init : M at_state () := modify (set_mem_lk spinlock_init).

Definition mem_lock : M at_state () := spinlock_acquire mem_lk set_mem_lk.

Definition mem_unlock : M at_state () := spinlock_release mem_lk set_mem_lk.

Definition get_nps : M at_state Z := gets NUM_PAGES.

Definition set_nps (nps : Z) : M at_state () := modify (set_NUM_PAGES nps).

Definition at_is_norm (page_index : Z) : M at_state Z :=
  e ← aget AT_SIZE AT_zero AT page_index;
  let tperm := perm e in
  mret (if bool_decide (tperm = 0) then 0
        else if bool_decide (tperm = 1) then 0 else 1).

Definition at_set_perm (page_index norm_val : Z) : M at_state () :=
  aset AT_SIZE upd_AT page_index {| perm := norm_val; allocated := 0 |}.

Definition at_is_allocated (page_index : Z) : M at_state Z :=
  e ← aget AT_SIZE AT_zero AT page_index;
  mret (if bool_decide (allocated e = 0) then 0 else 1).

Definition at_set_allocated (page_index a : Z) : M at_state () :=
  e ← aget AT_SIZE AT_zero AT page_index;
  aset AT_SIZE upd_AT page_index {| perm := perm e; allocated := a |}.

(** ** MATInit: filling the table *)

(** The first loop of [pmem_init]: the highest address of the map, in pages. *)
Fixpoint count_nps (mb : mboot_state) (fuel : nat) (i nps : Z) : Z :=
  match fuel with
  | O => nps
  | S fuel =>
      let maxs := u32 (get_mms mb i + get_mml mb i) / PAGESIZE + 1 in
      count_nps mb fuel (i + 1) (if bool_decide (maxs > nps) then maxs else nps)
  end.

(** The inner loop: look for the first row that contains page [i] entirely. *)
Fixpoint row_scan (mb : mboot_state) (fuel : nat) (j i isnorm : Z) : Z * Z :=
  match fuel with
  | O => (0, isnorm)
  | S fuel =>
      let s := get_mms mb j in
      let l := get_mml mb j in
      let isnorm := is_usable mb j in
      if bool_decide (s <= u32 (i * PAGESIZE)) &&
         bool_decide (u32 (l + s) >= u32 ((i + 1) * PAGESIZE))
      then (1, isnorm)
      else row_scan mb fuel (j + 1) i isnorm
  end.

Definition pmem_init_page (i : Z) : M at_state () :=
  if bool_decide (i < VM_USERLO_PI) || bool_decide (i >= VM_USERHI_PI)
  then at_set_perm i 1
  else
    mb ← gets at_mboot;
    let '(flag, isnorm) := row_scan mb (Z.to_nat (get_size mb)) 0 i 0 in
    if bool_decide (flag = 1) && bool_decide (isnorm = 1)
    then at_set_perm i 2
    else at_set_perm i 0.

(** [devinit] runs [pmmap_init]; the devices it also starts are not part of this
    state. *)
Definition pmem_init (mbi : list mboot_mmap_t) : M at_state () :=
  zoom (pmmap_init mbi) ;;
  mem_spinlock_init ;;
  mb ← gets at_mboot;
  let nps := count_nps mb (Z.to_nat (get_size mb)) 0 0 in
  set_nps nps ;;
  for_range 0 nps pmem_init_page.

(** ** MATOp: allocation *)

Fixpoint palloc_scan (fuel : nat) (tnps palloc_index palloc_free_index : Z)
    : M at_state Z :=
  match fuel with
  | O => mret palloc_free_index
  | S fuel =>
      if bool_decide (palloc_index < tnps) && bool_decide (palloc_free_index = tnps)
      then
        palloc_is_norm ← at_is_norm palloc_index;
        palloc_free_index ←
          (if bool_decide (palloc_is_norm = 1) then
             palloc_cur_at ← at_is_allocated palloc_index;
             mret (if bool_decide (palloc_cur_at = 0) then palloc_index
                   else palloc_free_index)
           else mret palloc_free_index);
        palloc_scan fuel tnps (u32 (palloc_index + 1)) palloc_free_index
      else mret palloc_free_index
  end.

Definition palloc : M at_state Z :=
  mem_lock ;;
  tnps ← get_nps;
  last ← gets last_palloc_index;
  let palloc_index := u32 (last + 1) in
  palloc_free_index ←
    palloc_scan (Z.to_nat (tnps - palloc_index)) tnps palloc_index tnps;
  palloc_free_index ←
    (if bool_decide (palloc_free_index = tnps) then mret 0
     else at_set_allocated palloc_free_index 1 ;; mret palloc_free_index);
  (if bool_decide (tnps = 0) then undef
   else modify (set_last_palloc_index (palloc_free_index mod tnps))) ;;
  mem_unlock ;;
  mret palloc_free_index.

Definition pfree (pfree_index : Z) : M at_state () :=
  mem_lock ;;
  at_set_allocated pfree_index 0 ;;
  mem_unlock.

(** ** Well-formedness *)

Record at_wf (s : at_state) : Prop := {
  aw_lock : mem_lk s = spinlock_init;
  aw_nps : 0 < NUM_PAGES s <= AT_SIZE;
  aw_last : 0 <= last_palloc_index s < W32 - 1;
  aw_perm i : 0 <= perm (at_look s i);
}.

(** A page [palloc] may hand out. *)
Definition usable (s : at_state) (i : Z) : Prop :=
  1 < perm (at_look s i) ∧ allocated (at_look s i) = 0.

#[global] Instance usable_dec s i : Decision (usable s i).
Proof. unfold usable. apply _. Defined.

Lemma at_is_norm_Ok s i :
  0 <= i < AT_SIZE → 0 <= perm (at_look s i) →
  at_is_norm i s = Ok (if bool_decide (1 < perm (at_look s i)) then 1 else 0) s.
Proof.
  intros Hi Hp. unfold at_is_norm. kstep. change (alook AT_zero (AT s) i) with (at_look s i).
  rewrite ret_Ok. f_equal. repeat case_bool_decide; lia.
Qed.

Lemma at_is_allocated_Ok s i :
  0 <= i < AT_SIZE →
  at_is_allocated i s = Ok (if bool_decide (allocated (at_look s i) = 0) then 0 else 1) s.
Proof. intros Hi. unfold at_is_allocated. by kstep. Qed.

Lemma at_set_allocated_Ok s i a :
  0 <= i < AT_SIZE →
  at_set_allocated i a s =
    Ok () (upd_AT <[i := {| perm := perm (at_look s i); allocated := a |}]> s).
Proof. intros Hi. unfold at_set_allocated. kstep. by apply aset_Ok. Qed.

Lemma at_look_upd s i j e :
  at_look (upd_AT <[i := e]> s) j = if decide (i = j) then e else at_look s j.
Proof. apply alook_insert. Qed.

(** The scan returns the first usable page from its start, or [tnps]. *)
Lemma palloc_scan_stop fuel tnps idx r s :
  r ≠ tnps → palloc_scan fuel tnps idx r s = Ok r s.
Proof.
  intros Hr. destruct fuel; [done|]. simpl.
  rewrite (bool_decide_eq_false_2 (r = tnps)) by done. by rewrite andb_false_r.
Qed.

Lemma palloc_scan_spec s fuel idx :
  let tnps := NUM_PAGES s in
  0 < tnps <= AT_SIZE → (∀ i, 0 <= perm (at_look s i)) →
  0 <= idx → tnps <= idx + Z.of_nat fuel →
  ∃ r, palloc_scan fuel tnps idx tnps s = Ok r s ∧
    ((r = tnps ∧ ∀ i, idx <= i < tnps → ¬ usable s i) ∨
     (idx <= r < tnps ∧ usable s r ∧ ∀ i, idx <= i < r → ¬ usable s i)).
Proof.
  intros tnps Hn Hperm.
  revert idx. induction fuel as [|fuel IH]; intros idx H0 Hf; simpl.
  { exists tnps. split; [done|]. left. split; [done|]. lia. }
  rewrite (bool_decide_eq_true_2 (tnps = tnps)) by done. rewrite andb_true_r.
  case_bool_decide as Hlt.
  2: { exists tnps. split; [done|]. left. split; [done|]. lia. }
  assert (0 <= idx < AT_SIZE) as Hi by lia.
  rewrite (bind_Ok _ _ _ _ _ (at_is_norm_Ok s idx Hi (Hperm idx))).
  destruct (decide (usable s idx)) as [Hu|Hu].
  - exists idx. split; [|right; split_and!; [lia|lia|done|lia]].
    destruct Hu as [Hp Ha]. rewrite (bool_decide_eq_true_2 (1 < _)) by done.
    erewrite bind_Ok.
    2: { rewrite bool_decide_eq_true_2 by done.
         rewrite (bind_Ok _ _ _ _ _ (at_is_allocated_Ok s idx Hi)).
         rewrite (bool_decide_eq_true_2 (allocated _ = 0)) by done. reflexivity. }
    apply palloc_scan_stop. lia.
  - destruct (IH (idx + 1)) as (r & Hr & Hspec); [lia|lia|].
    exists r. split.
    + erewrite bind_Ok.
      2: { instantiate (1 := s). instantiate (1 := tnps).
           case_bool_decide as Hb; [|done].
           rewrite (bind_Ok _ _ _ _ _ (at_is_allocated_Ok s idx Hi)).
           rewrite (bool_decide_eq_false_2 (allocated _ = 0)); [done|].
           intros Ha. apply Hu. split; [|done]. case_bool_decide; [done|lia]. }
      rewrite u32_small; [done|]. unfold is_u32, W32, AT_SIZE in *. lia.
    + destruct Hspec as [[-> Hno]|(Hr' & Hur & Hno)].
      * left. split; [done|]. intros i ?. destruct (decide (i = idx)) as [->|]; [done|].
        apply Hno. lia.
      * right. split_and!; [lia|lia|done|]. intros i ?.
        destruct (decide (i = idx)) as [->|]; [done|]. apply Hno. lia.
Qed.

(** What one call of [palloc] does to the table. *)
Definition palloc_post (s : at_state) (r : Z) (s' : at_state) : Prop :=
  at_wf s' ∧ NUM_PAGES s' = NUM_PAGES s ∧ at_mboot s' = at_mboot s ∧
  ((r = 0 ∧ AT s' = AT s ∧ last_palloc_index s' = 0 ∧
    ∀ i, last_palloc_index s < i < NUM_PAGES s → ¬ usable s i) ∨
   (last_palloc_index s < r < NUM_PAGES s ∧ usable s r ∧
    (∀ i, last_palloc_index s < i < r → ¬ usable s i) ∧
    AT s' = <[r := {| perm := perm (at_look s r); allocated := 1 |}]> (AT s) ∧
    last_palloc_index s' = r)).

Lemma palloc_run s : at_wf s → ∃ r s', palloc s = Ok r s' ∧ palloc_post s r s'.
Proof.
  intros [Hlk Hn Hl Hp]. unfold palloc, mem_lock, get_nps.
  rewrite (bind_Ok _ _ _ _ _ (spinlock_acquire_free _ _ _ Hlk)).
  set (s1 := set_mem_lk locked s). do 2 kstep.
  rewrite u32_small by (unfold is_u32; simpl; lia).
  destruct (palloc_scan_spec s1 (Z.to_nat (NUM_PAGES s - (last_palloc_index s + 1)))
              (last_palloc_index s + 1)) as (r & Hr & Hcase); [done|done|lia|simpl; lia|].
  rewrite (bind_Ok _ _ _ _ _ Hr). change (NUM_PAGES s1) with (NUM_PAGES s) in *.
  destruct Hcase as [[-> Hno]|(Hr' & Hu & Hno)].
  - rewrite (bool_decide_eq_true_2 (NUM_PAGES s = NUM_PAGES s)) by done.
    rewrite (bind_Ok _ _ _ _ _ (ret_Ok 0 s1)).
    rewrite (bool_decide_eq_false_2 (NUM_PAGES s = 0)) by lia. kstep.
    eexists 0, _. split; [reflexivity|].
    split_and!; [by split|done..|]. left.
    split_and!; [done..|]. intros i ?. apply Hno. lia.
  - rewrite (bool_decide_eq_false_2 (r = _)) by lia.
    assert (0 <= r < AT_SIZE) as Hri by lia.
    erewrite bind_Ok; [|by rewrite (bind_Ok _ _ _ _ _ (at_set_allocated_Ok s1 r 1 Hri))].
    rewrite (bool_decide_eq_false_2 (NUM_PAGES s = 0)) by lia. kstep.
    eexists r, _. split; [reflexivity|]. rewrite Z.mod_small by lia.
    split_and!; [|done..|].
    + split; simpl; [done|done|unfold W32, AT_SIZE in *; lia|].
      intros i. unfold at_look; simpl. rewrite alook_insert. case_decide; apply Hp.
    + right. split; [lia|]. split; [done|]. split; [|done]. intros i ?. apply Hno. lia.
Qed.

(** C31: [palloc] hands out free pages.  In every well-formed state it returns with its lock
    free again.  A result other than 0 is the first page after the index of the last one that is
    normal and unallocated, and exactly that page is marked allocated; with the result 0 no entry changes.
    Where no free page lies at or below the index, the result is 0 exactly if there is no free page
    at all; and if there is a free page, this call or the next one finds one. *)
Theorem palloc_first_fit s : at_wf s → ∃ r s', palloc s = Ok r s' ∧ at_wf s' ∧
  (r ≠ 0 → last_palloc_index s < r < NUM_PAGES s ∧ usable s r ∧ (∀ i, last_palloc_index s < i < r → ¬ usable s i)) ∧
  (∀ i, at_look s' i = if decide (r ≠ 0 ∧ i = r) then {| perm := perm (at_look s r); allocated := 1 |} else at_look s i) ∧
  ((∀ i, 0 < i <= last_palloc_index s → ¬ usable s i) → r = 0 ↔ ∀ i, 0 < i < NUM_PAGES s → ¬ usable s i) ∧
  (∀ i, 0 < i < NUM_PAGES s → usable s i → r ≠ 0 ∨ ∃ r2 s2, palloc s' = Ok r2 s2 ∧ r2 ≠ 0 ∧ usable s r2).
Proof.
  intros Hwf. destruct (palloc_run s Hwf) as (r & s' & H1 & P1). exists r, s'. split; [done|]. pose proof (proj1 P1) as Hwf1. split; [done|].
  pose proof (aw_last _ Hwf) as Hl. pose proof P1 as (_ & HN & _ & [(-> & HAT & Hl' & Hno)|(Hr & Hu & Hno & HAT & Hl')]).
  - split; [done|]. split; [intros i; unfold at_look; by rewrite HAT, decide_False by tauto|]. split.
    + intros Hlow. split; [|done]. intros _ i Hi. destruct (decide (i <= last_palloc_index s)); [apply Hlow; lia|apply Hno; lia].
    + intros i Hi Hui. right. destruct (palloc_run s' Hwf1) as (r2 & s2 & H2 & (_ & _ & _ & P2)). exists r2, s2. split; [done|].
      assert (∀ j, usable s' j ↔ usable s j) as Hsame by (intros j; unfold usable, at_look; by rewrite HAT).
      destruct P2 as [(_ & _ & _ & Hno2)|(Hr2 & Hu2 & _)]; [|split; [lia|by apply Hsame]].
      exfalso. apply (Hno2 i); [lia|by apply Hsame].
  - split; [done|]. split; [|split; [|intros; left; lia]].
    + intros i. unfold at_look at 1. rewrite HAT, alook_insert. case_decide as E1; case_decide as E2; try done; [|by destruct E2].
      subst. exfalso. apply E2. split; [lia|done].
    + intros _. split; [lia|]. intros Hn. exfalso. apply (Hn r); [lia|done].
Qed.

(** A table of four pages with the usable ones listed. *)
Definition sample_at (last : Z) (free : list Z) : at_state :=
  {| at_mboot := mboot0; mem_lk := spinlock_init; NUM_PAGES := 4;
     AT := list_to_map ((λ i, (i, {| perm := 2; allocated := 0 |})) <$> free);
     last_palloc_index := last |}.

Lemma sample_at_wf last free : 0 <= last < 100 → at_wf (sample_at last free).
Proof.
  intros Hl. split; simpl; [done|done|unfold W32; lia|].
  intros i. unfold at_look, alook; simpl.
  destruct (list_to_map _ !! i) as [e|] eqn:E; simpl; [|lia].
  apply elem_of_list_to_map_2, list_elem_of_fmap in E as (j & [= -> ->] & _). simpl. lia.
Qed.

Lemma palloc_first_fit_witness : let s := sample_at 1 [1; 3] in ∃ r s', palloc s = Ok r s' ∧ at_wf s' ∧
  (r ≠ 0 → 1 < r < 4 ∧ usable s r ∧ (∀ i, 1 < i < r → ¬ usable s i)) ∧
  (∀ i, at_look s' i = if decide (r ≠ 0 ∧ i = r) then {| perm := perm (at_look s r); allocated := 1 |} else at_look s i) ∧
  ((∀ i, 0 < i <= 1 → ¬ usable s i) → r = 0 ↔ ∀ i, 0 < i < 4 → ¬ usable s i) ∧
  (∀ i, 0 < i < 4 → usable s i → r ≠ 0 ∨ ∃ r2 s2, palloc s' = Ok r2 s2 ∧ r2 ≠ 0 ∧ usable s r2).
Proof. apply (palloc_first_fit (sample_at 1 [1; 3])). apply sample_at_wf. lia. Defined.

Lemma palloc_fail_last s r s' :
  at_wf s → palloc_post s r s' → r = 0 →
  last_palloc_index s' = 0 ∧ ∀ i, at_look s' i = at_look s i.
Proof.
  intros Hwf (_ & _ & _ & [(_ & HAT & Hl & _)|(Hr & Hu & _ & _ & Hl)]) ->.
  - split; [done|]. intros i. unfold at_look. by rewrite HAT.
  - pose proof (aw_last _ Hwf). lia.
Qed.

(** The comment on [palloc] says that it returns 0 when no page is available; one
    call also returns 0 when every free page lies below the index. *)
Lemma palloc_misses_free_page :
  usable (sample_at 3 [2]) 2 ∧
  ∃ s', palloc (sample_at 3 [2]) = Ok 0 s'.
Proof. split; [vm_compute; done|]. eexists. vm_compute. reflexivity. Qed.

(** ** The table after boot *)

(** Row [e] contains page [i] entirely. *)
Definition row_contains (i : Z) (e : pmmap) : bool :=
  bool_decide (start e <= i * PAGESIZE) && bool_decide (end_ e >= (i + 1) * PAGESIZE).

(** The permission the comment in [pmem_init] asks for: kernel pages are 1, other
    pages are decided by the first row that contains them. *)
Definition page_perm (l : list pmmap) (i : Z) : Z :=
  if bool_decide (VM_USERLO_PI <= i < VM_USERHI_PI) then
    match List.find (row_contains i) l with
    | Some e => if bool_decide (type e = MEM_RAM) then 2 else 0
    | None => 0
    end
  else 1.

(** The rows of the map, as the getters of mboot.c see them. *)
Definition rows_of (mb : mboot_state) : Prop :=
  get_size mb = Z.of_nat (length (pmmap_list mb)) ∧ Forall row_range (pmmap_list mb).

Section Rows.
Context (mb : mboot_state) (Hrows : rows_of mb).

Lemma get_row j e :
  pmmap_list mb !! j = Some e →
  get_mms mb (Z.of_nat j) = start e ∧
  u32 (get_mms mb (Z.of_nat j) + get_mml mb (Z.of_nat j)) = end_ e ∧
  is_usable mb (Z.of_nat j) = if bool_decide (type e = MEM_RAM) then 1 else 0.
Proof.
  intros Hj. destruct Hrows as [Hsz Hrg].
  pose proof (lookup_lt_Some _ _ _ Hj) as Hlt.
  rewrite Forall_lookup in Hrg. specialize (Hrg _ _ Hj) as [Hr1 Hr2].
  unfold get_size in Hsz. unfold get_mms, get_mml, is_usable.
  rewrite Nat2Z.id, Hj. rewrite !bool_decide_eq_true_2 by lia.
  split_and!; [done| |].
  - rewrite u32_add_r. rewrite <- (u32_small (end_ e)) at 2 by (unfold is_u32; lia).
    f_equal. lia.
  - repeat case_bool_decide; intuition lia.
Qed.

Lemma count_nps_spec fuel j nps :
  (j + fuel)%nat = length (pmmap_list mb) → 0 <= nps <= AT_SIZE →
  let n := count_nps mb fuel (Z.of_nat j) nps in
  nps <= n <= AT_SIZE ∧
  ∀ k e, (j <= k)%nat → pmmap_list mb !! k = Some e → end_ e / PAGESIZE < n.
Proof.
  revert j nps. induction fuel as [|fuel IH]; intros j nps Hlen Hnps; simpl.
  { split; [lia|]. intros k e Hk Hl. apply lookup_lt_Some in Hl. lia. }
  destruct (lookup_lt_is_Some_2 (pmmap_list mb) j) as [e He]; [lia|].
  destruct (get_row j e He) as (_ & Hend & _). rewrite Hend.
  assert (0 <= end_ e / PAGESIZE < AT_SIZE) as Hb.
  { destruct Hrows as [_ Hrg]. rewrite Forall_lookup in Hrg.
    specialize (Hrg _ _ He) as [? ?]. unfold PAGESIZE, AT_SIZE, W32 in *.
    split; [apply Z.div_pos; lia|]. apply Z.div_lt_upper_bound; lia. }
  replace (Z.of_nat j + 1) with (Z.of_nat (S j)) by lia.
  set (nps' := if bool_decide _ then _ else nps).
  assert (nps <= nps' <= AT_SIZE ∧ end_ e / PAGESIZE < nps') as [H1 H2].
  { unfold nps'. case_bool_decide; lia. }
  destruct (IH (S j) nps') as [HA HB]; [lia|lia|]. split; [lia|].
  intros k e' Hk Hl. destruct (decide (k = j)) as [->|]; [|apply (HB k); [lia|done]].
  rewrite He in Hl. injection Hl as <-. lia.
Qed.

Lemma row_scan_spec fuel j i isnorm :
  VM_USERLO_PI <= i < VM_USERHI_PI → (j + fuel)%nat = length (pmmap_list mb) →
  match List.find (row_contains i) (drop j (pmmap_list mb)) with
  | Some e => row_scan mb fuel (Z.of_nat j) i isnorm =
              (1, if bool_decide (type e = MEM_RAM) then 1 else 0)
  | None => (row_scan mb fuel (Z.of_nat j) i isnorm).1 = 0
  end.
Proof.
  intros Hi. change (262144 <= i < 983040) in Hi. revert j isnorm.
  induction fuel as [|fuel IH]; intros j isnorm Hlen.
  { rewrite drop_ge by lia. done. }
  destruct (lookup_lt_is_Some_2 (pmmap_list mb) j) as [e He]; [lia|].
  rewrite (drop_S _ e) by done. cbn [List.find row_scan].
  destruct (get_row j e He) as (Hs & Hend & Hu).
  rewrite (Z.add_comm (get_mml _ _)), Hs, <- Hs, Hend, Hs, Hu.
  rewrite !u32_small by (unfold is_u32, W32, PAGESIZE; lia).
  change (bool_decide (start e <= i * PAGESIZE) && bool_decide (end_ e >= (i + 1) * PAGESIZE))
    with (row_contains i e).
  destruct (row_contains i e); [done|].
  replace (Z.of_nat j + 1) with (Z.of_nat (S j)) by lia. apply IH. lia.
Qed.
End Rows.

(** The fields the second loop of [pmem_init] leaves alone. *)
Definition same_frame (s s' : at_state) : Prop :=
  at_mboot s' = at_mboot s ∧ mem_lk s' = mem_lk s ∧ NUM_PAGES s' = NUM_PAGES s ∧
  last_palloc_index s' = last_palloc_index s.

Lemma pmem_init_page_spec s i :
  rows_of (at_mboot s) → 0 <= i < AT_SIZE →
  pmem_init_page i s = Ok ()
    (upd_AT <[i := {| perm := page_perm (pmmap_list (at_mboot s)) i; allocated := 0 |}]> s).
Proof.
  intros Hrows Hi. unfold pmem_init_page, page_perm.
  destruct (decide (VM_USERLO_PI <= i < VM_USERHI_PI)) as [Hu|Hu].
  - rewrite (bool_decide_eq_false_2 (i < _)), (bool_decide_eq_false_2 (i >= _)) by lia.
    rewrite (bool_decide_eq_true_2 (_ <= i < _)) by done. cbn [orb]. kstep.
    pose proof (row_scan_spec _ Hrows (Z.to_nat (get_size (at_mboot s))) 0 i 0 Hu) as Hscan.
    destruct Hrows as [Hsz _]. rewrite Hsz in *. rewrite Nat2Z.id in *.
    specialize (Hscan eq_refl). rewrite drop_0 in Hscan. change (Z.of_nat 0) with 0 in Hscan.
    destruct (List.find _ _) as [e|].
    + rewrite Hscan. case_bool_decide; by apply aset_Ok.
    + destruct (row_scan _ _ _ _ _) as [flag isnorm]; simpl in Hscan; subst flag.
      by apply aset_Ok.
  - rewrite (bool_decide_eq_false_2 (_ <= i < _)) by done.
    replace (_ || _) with true; [by apply aset_Ok|].
    symmetry. apply orb_true_iff. rewrite !bool_decide_eq_true. lia.
Qed.

Lemma pmem_init_run t :
  Z.of_nat (length t) <= 128 → Forall row_ok t →
  ∃ s, pmem_init t at0 = Ok () s ∧ mmap_good t (at_mboot s) ∧
    mem_lk s = spinlock_init ∧ last_palloc_index s = 262144 ∧
    0 <= NUM_PAGES s <= AT_SIZE ∧
    (∀ k e, pmmap_list (at_mboot s) !! k = Some e → end_ e / PAGESIZE < NUM_PAGES s) ∧
    ∀ i, at_look s i = if decide (0 <= i < NUM_PAGES s)
      then {| perm := page_perm (pmmap_list (at_mboot s)) i; allocated := 0 |} else AT_zero.
Proof.
  intros Hlen Ht. destruct (pmmap_init_good t Hlen Ht) as (mb & Hmb & Hgood).
  assert (rows_of mb) as Hrows by (split; apply Hgood).
  unfold pmem_init. rewrite (bind_Ok _ _ _ _ _ (zoom_Ok (S:=at_state) _ at0 _ _ Hmb)).
  unfold mem_spinlock_init, set_nps. do 3 kstep. simpl at_mboot.
  destruct (count_nps_spec mb Hrows (Z.to_nat (get_size mb)) 0 0) as [Hn Hcov].
  { destruct Hrows as [-> _]. lia. } { unfold AT_SIZE; lia. }
  change (Z.of_nat 0) with 0 in *.
  set (nps := count_nps mb _ 0 0) in *.
  match goal with |- context [for_range _ _ _ ?s] => set (s1 := s) end.
  destruct (for_range_inv (λ i s, same_frame s1 s ∧ ∀ k, at_look s k = if decide (0 <= k < i)
      then {| perm := page_perm (pmmap_list mb) k; allocated := 0 |} else AT_zero)
    pmem_init_page 0 nps s1) as (s & Hr & (Hf1 & Hf2 & Hf3 & Hf4) & Hlook); [lia| | |].
  - split; [done|]. intros k. by rewrite decide_False by lia.
  - intros i s Hi [(Hf1 & Hf2 & Hf3 & Hf4) Hlook].
    rewrite pmem_init_page_spec; [|by rewrite Hf1|lia].
    eexists. split; [done|]. split; [done|]. intros k. rewrite at_look_upd.
    case_decide; [subst; rewrite Hf1; by rewrite decide_True by lia|].
    rewrite Hlook. repeat case_decide; done || lia.
  - exists s. split; [done|]. rewrite Hf1, Hf2, Hf3, Hf4. simpl.
    split_and!; try done; try lia. intros k e. apply Hcov. lia.
Qed.

(** The table that [pmem_init] builds: for every acceptable BIOS map it
    succeeds within the table, the number of pages exceeds the page of every address
    in the map, every page below it is unallocated and has the permission that the
    first row containing the whole page asks for, and a normal page lies in the user
    range with all its addresses in memory that the BIOS reported as RAM. *)
Theorem pmem_init_table t :
  Z.of_nat (length t) <= 128 → Forall row_ok t →
  ∃ s, pmem_init t at0 = Ok () s ∧ mem_lk s = spinlock_init ∧
    0 <= NUM_PAGES s <= AT_SIZE ∧
    (∀ ty a, covered (pmmap_list (at_mboot s)) ty a → a / PAGESIZE < NUM_PAGES s) ∧
    ∀ i, 0 <= i < NUM_PAGES s →
      at_look s i = {| perm := page_perm (pmmap_list (at_mboot s)) i; allocated := 0 |} ∧
      (usable s i →
         VM_USERLO_PI <= i < VM_USERHI_PI ∧
         ∀ a, i * PAGESIZE <= a < (i + 1) * PAGESIZE →
           ∃ p, p ∈ t ∧ row_says p MEM_RAM a).
Proof.
  intros Hlen Ht. destruct (pmem_init_run t Hlen Ht) as (s & Hr & Hg & Hlk & _ & Hn & Hcov & Hlook).
  exists s. split_and!; [done|done|lia|lia| |].
  - intros ty a (e & He & _ & Ha). apply list_elem_of_lookup in He as [k Hk].
    specialize (Hcov k e Hk).
    assert (a / PAGESIZE <= end_ e / PAGESIZE); [|lia].
    apply Z.div_le_mono; unfold PAGESIZE; lia.
  - intros i Hi. specialize (Hlook i). rewrite decide_True in Hlook by done.
    split; [done|]. unfold usable. rewrite Hlook; simpl.
    unfold page_perm. case_bool_decide as Hu; [|lia].
    destruct (List.find _ _) as [e|] eqn:Hf; [|lia].
    case_bool_decide as Hram; [|lia]. intros _. split; [done|]. intros a Ha.
    apply (mg_covered t _ Hg MEM_RAM a).
    apply List.find_some in Hf as [Hin Hc]. exists e.
    unfold row_contains in Hc. apply andb_prop in Hc as [H1 H2].
    apply bool_decide_eq_true_1 in H1, H2. split; [by apply list_elem_of_In|]. split; [done|]. lia.
Qed.

Lemma pmem_init_table_witness :
  ∃ s, pmem_init sample_map at0 = Ok () s ∧ mem_lk s = spinlock_init ∧
    0 <= NUM_PAGES s <= AT_SIZE ∧
    (∀ ty a, covered (pmmap_list (at_mboot s)) ty a → a / PAGESIZE < NUM_PAGES s) ∧
    ∀ i, 0 <= i < NUM_PAGES s →
      at_look s i = {| perm := page_perm (pmmap_list (at_mboot s)) i; allocated := 0 |} ∧
      (usable s i →
         VM_USERLO_PI <= i < VM_USERHI_PI ∧
         ∀ a, i * PAGESIZE <= a < (i + 1) * PAGESIZE →
           ∃ p, p ∈ sample_map ∧ row_says p MEM_RAM a).
Proof.
  apply (pmem_init_table sample_map); [simpl; lia|]. repeat constructor; simpl; lia.
Defined.
