(* ===== verification/Container.v ===== *)
(** * Containers (kern/pmm/MContainer)

    Every process owns a container: how many pages it may use, how many it uses,
    who its parent is and how many children it has had.  Quotas flow from a parent
    to its children with [container_split] and pages from the allocator with
    [container_alloc]. *)

From S2P Require Import Prelude Spinlock Mboot PMem.

Definition NUM_IDS : Z := 8192.
Definition MAX_CHILDREN : Z := 255.

Record SContainer := {
  quota : Z; usage : Z; parent : Z; nchildren : Z; used : Z
}.

Definition SContainer_zero : SContainer :=
  {| quota := 0; usage := 0; parent := 0; nchildren := 0; used := 0 |}.

Record cont_state := { c_at : at_state; CONTAINER : gmap Z SContainer }.

Definition cont0 : cont_state := {| c_at := at0; CONTAINER := ∅ |}.

#[global, program] Instance c_at_lens : Lens cont_state at_state := {|
  view := c_at;
  put a s := {| c_at := a; CONTAINER := CONTAINER s |}
|}.
Next Obligation. done. Qed.
Next Obligation. by intros []. Qed.
Next Obligation. done. Qed.

Definition upd_CONTAINER (f : gmap Z SContainer → gmap Z SContainer) (s : cont_state)
    : cont_state := {| c_at := c_at s; CONTAINER := f (CONTAINER s) |}.

Definition cont_look (s : cont_state) (id : Z) : SContainer :=
  alook SContainer_zero (CONTAINER s) id.

Definition cget (id : Z) : M cont_state SContainer :=
  aget NUM_IDS SContainer_zero CONTAINER id.

Definition cset (id : Z) (c : SContainer) : M cont_state () :=
  aset NUM_IDS upd_CONTAINER id c.

(** The fields are [int]: storing an [unsigned] value converts it. *)
Definition set_usage (u : Z) (c : SContainer) : SContainer :=
  {| quota := quota c; usage := s32 u; parent := parent c;
     nchildren := nchildren c; used := used c |}.

Definition set_nchildren (n : Z) (c : SContainer) : SContainer :=
  {| quota := quota c; usage := usage c; parent := parent c;
     nchildren := s32 n; used := used c |}.

(** The loop of [container_init] that counts the available pages. *)
Fixpoint count_quota (fuel : nat) (i real_quota : Z) : M at_state Z :=
  match fuel with
  | O => mret real_quota
  | S fuel =>
      norm ← at_is_norm i;
      used ← at_is_allocated i;
      count_quota fuel (i + 1)
        (if bool_decide (norm = 1) && bool_decide (used = 0)
         then u32 (real_quota + 1) else real_quota)
  end.

Definition container_init (mbi : list mboot_mmap_t) : M cont_state () :=
  zoom (pmem_init mbi) ;;
  nps ← zoom get_nps;
  real_quota ← zoom (count_quota (Z.to_nat (nps - 1)) 1 0);
  cset 0 {| quota := s32 real_quota; usage := 0; parent := 0; nchildren := 0; used := 1 |}.

Definition container_get_parent (id : Z) : M cont_state Z :=
  c ← cget id; mret (u32 (parent c)).

Definition container_get_nchildren (id : Z) : M cont_state Z :=
  c ← cget id; mret (u32 (nchildren c)).

Definition container_get_quota (id : Z) : M cont_state Z :=
  c ← cget id; mret (u32 (quota c)).

Definition container_get_usage (id : Z) : M cont_state Z :=
  c ← cget id; mret (u32 (usage c)).

(** [int + unsigned > int] is an unsigned comparison. *)
Definition container_can_consume (id n : Z) : M cont_state Z :=
  c ← cget id;
  mret (if bool_decide (u32 (usage c + n) > u32 (quota c)) then 0 else 1).

Definition container_split (id q : Z) : M cont_state Z :=
  p ← cget id;
  let nc := u32 (nchildren p) in
  let child := u32 (u32 (u32 (id * MAX_CHILDREN) + 1) + nc) in
  cset child {| used := 1; quota := s32 q; usage := 0; parent := s32 id; nchildren := 0 |} ;;
  p ← cget id;
  cset id (set_usage (usage p + q) p) ;;
  p ← cget id;
  cset id (set_nchildren (nc + 1) p) ;;
  mret child.

Definition container_alloc (id : Z) : M cont_state Z :=
  c ← cget id;
  let u := u32 (usage c) in
  let q := u32 (quota c) in
  if bool_decide (u = q) then mret 0
  else
    cset id (set_usage (u + 1) c) ;;
    zoom palloc.

Definition container_free (id page_index : Z) : M cont_state () :=
  a ← zoom (at_is_allocated page_index);
  if bool_decide (a ≠ 0) then
    zoom (pfree page_index) ;;
    c ← cget id;
    (if bool_decide (usage c > 0) then cset id (set_usage (usage c - 1) c) else mret ())
  else mret ().

Definition container_refund_usage (id q : Z) : M cont_state () :=
  c ← cget id;
  if bool_decide (u32 (usage c) >= q)
  then cset id (set_usage (usage c - q) c)
  else cset id (set_usage 0 c).

(** ** Invariant

    The used containers form a tree: the children of [id] are the consecutive
    slots after [id * MAX_CHILDREN], a slot is used exactly when its parent has
    had that child, and nobody uses more than it may. *)

Definition child_slot (id k : Z) : Z := id * MAX_CHILDREN + 1 + k.

Record cont_wf (s : cont_state) : Prop := {
  cw_at : at_wf (c_at s);
  cw_root : used (cont_look s 0) = 1;
  cw_used id : used (cont_look s id) ≠ 0 →
    0 <= id < NUM_IDS ∧
    0 <= usage (cont_look s id) <= quota (cont_look s id) ∧
    quota (cont_look s id) < 2147483648 ∧
    0 <= nchildren (cont_look s id) <= MAX_CHILDREN;
  cw_child id k : used (cont_look s id) ≠ 0 →
    (0 <= k < nchildren (cont_look s id) → used (cont_look s (child_slot id k)) ≠ 0) ∧
    (nchildren (cont_look s id) <= k < MAX_CHILDREN →
     used (cont_look s (child_slot id k)) = 0);
  cw_parent id : id ≠ 0 → used (cont_look s id) ≠ 0 →
    used (cont_look s (parent (cont_look s id))) ≠ 0 ∧
    ∃ k, 0 <= k < nchildren (cont_look s (parent (cont_look s id))) ∧
         id = child_slot (parent (cont_look s id)) k;
}.

(** Two different births get two different slots. *)
Lemma child_slot_inj id k id' k' :
  0 <= k < MAX_CHILDREN → 0 <= k' < MAX_CHILDREN →
  child_slot id k = child_slot id' k' → id = id' ∧ k = k'.
Proof. unfold child_slot, MAX_CHILDREN. lia. Qed.

Lemma child_slot_pos id k : 0 <= id → 0 <= k → child_slot id k ≠ 0 ∧ id < child_slot id k.
Proof. unfold child_slot, MAX_CHILDREN. lia. Qed.

Lemma cget_Ok s id : 0 <= id < NUM_IDS → cget id s = Ok (cont_look s id) s.
Proof. apply aget_Ok. Qed.

Lemma cset_Ok s id c :
  0 <= id < NUM_IDS → cset id c s = Ok () (upd_CONTAINER <[id := c]> s).
Proof. apply aset_Ok. Qed.

Lemma cont_look_upd s i j c :
  cont_look (upd_CONTAINER <[i := c]> s) j = if decide (i = j) then c else cont_look s j.
Proof. apply alook_insert. Qed.

(** What [sys_spawn] checks before it creates a child. *)
Definition can_split (s : cont_state) (id q : Z) : Prop :=
  used (cont_look s id) ≠ 0 ∧ 0 <= q ∧
  usage (cont_look s id) + q <= quota (cont_look s id) ∧
  id * MAX_CHILDREN + 1 + MAX_CHILDREN <= NUM_IDS ∧
  nchildren (cont_look s id) < MAX_CHILDREN.

Definition split_parent (q : Z) (p : SContainer) : SContainer :=
  {| quota := quota p; usage := usage p + q; parent := parent p;
     nchildren := nchildren p + 1; used := used p |}.

Definition split_child (id q : Z) : SContainer :=
  {| quota := q; usage := 0; parent := id; nchildren := 0; used := 1 |}.

Lemma container_split_run s id q :
  cont_wf s → can_split s id q →
  let child := child_slot id (nchildren (cont_look s id)) in
  ∃ s', container_split id q s = Ok child s' ∧
    0 <= child < NUM_IDS ∧ child ≠ id ∧ used (cont_look s child) = 0 ∧
    c_at s' = c_at s ∧
    ∀ j, cont_look s' j =
      if decide (j = child) then split_child id q
      else if decide (j = id) then split_parent q (cont_look s id) else cont_look s j.
Proof.
  intros Hwf (Hu & Hq & Hle & Hroom & Hnc) child.
  destruct (cw_used s Hwf id Hu) as (Hid & Husage & Hquota & Hn).
  destruct (cw_child s Hwf id (nchildren (cont_look s id)) Hu) as [_ Hfree].
  assert (0 <= child < NUM_IDS) as Hc.
  { unfold child, child_slot, NUM_IDS, MAX_CHILDREN in *. lia. }
  assert (child ≠ id) as Hne by (pose proof (child_slot_pos id _ (proj1 Hid) (proj1 Hn)); lia).
  unfold container_split. rewrite (bind_Ok _ _ _ _ _ (cget_Ok s id Hid)).
  assert (u32 (u32 (u32 (id * MAX_CHILDREN) + 1) + u32 (nchildren (cont_look s id))) = child)
    as Hchild.
  { rewrite (u32_add_l (id * MAX_CHILDREN) 1), u32_add_l, u32_add_r.
    unfold child, child_slot. apply u32_small.
    unfold is_u32, W32, NUM_IDS, MAX_CHILDREN in *. lia. }
  rewrite Hchild. rewrite (bind_Ok _ _ _ _ _ (cset_Ok _ child _ Hc)).
  assert (used (cont_look s child) = 0) as Hunused by (apply Hfree; lia).
  clearbody child.
  do 2 (rewrite (bind_Ok _ _ _ _ _ (cget_Ok _ id Hid));
        rewrite (bind_Ok _ _ _ _ _ (cset_Ok _ id _ Hid))).
  eexists. split; [reflexivity|]. split_and!; [lia|lia|done..|].
  intros j. rewrite !cont_look_upd.
  rewrite (u32_small (nchildren _)) by (unfold is_u32, W32, MAX_CHILDREN in *; lia).
  unfold set_nchildren, set_usage, split_parent, split_child.
  repeat case_decide; subst; try done;
    rewrite ?s32_small by (unfold is_s32, NUM_IDS, MAX_CHILDREN in *; simpl; lia); done.
Qed.

Lemma container_split_wf s s' id q :
  cont_wf s → can_split s id q →
  let child := child_slot id (nchildren (cont_look s id)) in
  0 <= child < NUM_IDS → c_at s' = c_at s → used (cont_look s child) = 0 →
  (∀ j, cont_look s' j =
      if decide (j = child) then split_child id q
      else if decide (j = id) then split_parent q (cont_look s id) else cont_look s j) →
  cont_wf s'.
Proof.
  intros Hwf (Hu & Hq & Hle & Hroom & Hnc) child Hc Hat Hfree Hlook.
  pose proof (cw_used s Hwf id Hu) as (Hid & Husage & Hquota & Hn).
  assert (id < child) as Hlt by (apply child_slot_pos; lia).
  assert (child = child_slot id (nchildren (cont_look s id))) as Ech by done.
  clearbody child.
  assert (∀ j, used (cont_look s' j) ≠ 0 ↔ j = child ∨ used (cont_look s j) ≠ 0) as Hus.
  { intros j. rewrite Hlook. repeat case_decide; try subst j; simpl; intuition (try congruence; lia). }
  split.
  - rewrite Hat. apply Hwf.
  - rewrite Hlook. pose proof (cw_root s Hwf). repeat case_decide; simplify_eq/=; done.
  - intros j Hj. pose proof (Hus j) as Hj'. rewrite Hlook in *.
    repeat case_decide; try subst j; simpl; [unfold MAX_CHILDREN; lia|lia|].
    apply Hwf. tauto.
  - intros j k Hj. split; intros Hk.
    + apply Hus. rewrite Hlook in Hk. repeat case_decide; try subst j; simpl in *; [lia| |].
      * destruct (decide (k = nchildren (cont_look s id))) as [->|]; [by left|].
        right. apply (cw_child s Hwf id k Hu). lia.
      * right. apply (cw_child s Hwf j k); [|lia]. apply Hus in Hj. tauto.
    + destruct (decide (used (cont_look s' (child_slot j k)) = 0)) as [|Hbad]; [done|].
      exfalso. apply Hus in Hbad. apply Hus in Hj. rewrite Hlook in Hk.
      repeat case_decide; try subst j; simpl in *.
      * pose proof (child_slot_pos child k ltac:(lia) ltac:(lia)).
        destruct Hbad as [?|Hbad]; [lia|].
        destruct (cw_parent s Hwf (child_slot child k) ltac:(lia) Hbad) as (Hpu & k' & Hk' & Heq).
        pose proof (cw_used s Hwf _ Hpu).
        apply child_slot_inj in Heq as [Hp _]; [|lia|lia]. by rewrite <- Hp in Hpu.
      * destruct Hbad as [Heq|Hbad].
        { rewrite Ech in Heq. apply child_slot_inj in Heq; lia. }
        destruct (cw_child s Hwf id k Hu) as [_ Hz]. by rewrite Hz in Hbad by lia.
      * destruct Hj as [?|Hj]; [done|]. destruct Hbad as [Heq|Hbad].
        { pose proof (cw_used s Hwf j Hj). rewrite Ech in Heq.
          apply child_slot_inj in Heq; lia. }
        destruct (cw_child s Hwf j k Hj) as [_ Hz]. by rewrite Hz in Hbad by lia.
  - intros j Hj0 Hj.
    destruct (decide (j = child)) as [->|Hne].
    + replace (parent (cont_look s' child)) with id
        by (rewrite Hlook; by rewrite decide_True).
      split; [apply Hus; auto|]. exists (nchildren (cont_look s id)). split; [|done].
      rewrite Hlook, decide_False, decide_True by lia. simpl. lia.
    + apply Hus in Hj as [?|Hj]; [done|].
      assert (parent (cont_look s' j) = parent (cont_look s j)) as ->.
      { rewrite Hlook. repeat case_decide; try subst j; done. }
      destruct (cw_parent s Hwf j Hj0 Hj) as (Hpu & k & Hk & Heq).
      split; [apply Hus; auto|]. exists k. split; [|done].
      rewrite Hlook. case_decide as E1; [by rewrite E1 in Hpu|].
      case_decide as E2; [|done]. rewrite E2 in Hk. simpl. lia.
Qed.

(** Creating a child container: with the checks of [sys_spawn] made, the
    container tree stays well formed and [container_split] returns a slot that is in
    range and was not in use, gives it exactly the quota, charges the same amount to
    the parent, counts the child, and changes no other container and no page. *)
Theorem container_split_fresh s id q :
  cont_wf s → can_split s id q →
  ∃ child s', container_split id q s = Ok child s' ∧ cont_wf s' ∧
    0 <= child < NUM_IDS ∧ child ≠ id ∧ used (cont_look s child) = 0 ∧
    c_at s' = c_at s ∧
    cont_look s' child = split_child id q ∧
    cont_look s' id = split_parent q (cont_look s id) ∧
    ∀ j, j ≠ child → j ≠ id → cont_look s' j = cont_look s j.
Proof.
  intros Hwf Hcan.
  destruct (container_split_run s id q Hwf Hcan) as (s' & Hr & Hc & Hne & Hfree & Hat & Hlook).
  eexists _, s'. split; [exact Hr|].
  split; [by apply (container_split_wf s s' id q)|].
  split_and!; [lia|lia|done..| | |].
  - rewrite Hlook. by rewrite decide_True.
  - rewrite Hlook. by rewrite decide_False, decide_True by done.
  - intros j ? ?. rewrite Hlook. by rewrite !decide_False.
Qed.

(** A machine with four pages, of which [free] are available, and the root
    container. *)
Definition sample_cont (q : Z) (free : list Z) : cont_state :=
  {| c_at := sample_at 0 free;
     CONTAINER := {[ 0 := {| quota := q; usage := 0; parent := 0; nchildren := 0; used := 1 |} ]} |}.

Lemma sample_cont_look q free id :
  cont_look (sample_cont q free) id =
  if decide (id = 0) then {| quota := q; usage := 0; parent := 0; nchildren := 0; used := 1 |}
  else SContainer_zero.
Proof.
  unfold cont_look, alook; simpl. destruct (decide (id = 0)) as [->|Hne].
  - by rewrite lookup_singleton_eq.
  - by rewrite lookup_singleton_ne.
Qed.

Lemma sample_cont_wf q free : 0 <= q < 2147483648 → cont_wf (sample_cont q free).
Proof.
  intros Hq. split.
  - apply sample_at_wf. lia.
  - done.
  - intros id. rewrite sample_cont_look. case_decide; subst; simpl; [|done].
    unfold NUM_IDS, MAX_CHILDREN. lia.
  - intros id k. rewrite !sample_cont_look. case_decide; subst; simpl; [|done].
    intros _. split; [lia|]. intros Hk.
    rewrite decide_False; [done|]. unfold child_slot, MAX_CHILDREN in *. lia.
  - intros id Hne. rewrite sample_cont_look. by rewrite decide_False.
Qed.

Lemma container_split_fresh_witness :
  ∃ child s', container_split 0 3 (sample_cont 5 [1; 2]) = Ok child s' ∧ cont_wf s' ∧
    0 <= child < NUM_IDS ∧ child ≠ 0 ∧ used (cont_look (sample_cont 5 [1; 2]) child) = 0 ∧
    c_at s' = c_at (sample_cont 5 [1; 2]) ∧
    cont_look s' child = split_child 0 3 ∧
    cont_look s' 0 = split_parent 3 (cont_look (sample_cont 5 [1; 2]) 0) ∧
    ∀ j, j ≠ child → j ≠ 0 → cont_look s' j = cont_look (sample_cont 5 [1; 2]) j.
Proof.
  apply (container_split_fresh (sample_cont 5 [1; 2]) 0 3); [apply sample_cont_wf; lia|].
  unfold can_split. rewrite sample_cont_look. simpl. unfold MAX_CHILDREN, NUM_IDS. lia.
Defined.

(** ** Pages *)

Definition bump (c : SContainer) : SContainer :=
  {| quota := quota c; usage := usage c + 1; parent := parent c;
     nchildren := nchildren c; used := used c |}.

Lemma container_alloc_run s id :
  cont_wf s → used (cont_look s id) ≠ 0 →
  (usage (cont_look s id) = quota (cont_look s id) ∧ container_alloc id s = Ok 0 s) ∨
  (usage (cont_look s id) < quota (cont_look s id) ∧
   ∃ r a, container_alloc id s =
            Ok r {| c_at := a; CONTAINER := <[id := bump (cont_look s id)]> (CONTAINER s) |} ∧
          palloc_post (c_at s) r a).
Proof.
  intros Hwf Hu. destruct (cw_used s Hwf id Hu) as (Hid & Hus & Hq & _).
  unfold container_alloc. rewrite (bind_Ok _ _ _ _ _ (cget_Ok s id Hid)).
  rewrite !u32_small by (unfold is_u32, W32; lia).
  case_bool_decide as E; [by left|]. right. split; [lia|].
  rewrite (bind_Ok _ _ _ _ _ (cset_Ok s id _ Hid)).
  destruct (palloc_run (c_at s) (cw_at s Hwf)) as (r & a & Hr & Hp).
  exists r, a. split; [|done].
  rewrite (zoom_Ok palloc _ r a) by done. do 2 f_equal.
  unfold set_usage, bump. by rewrite s32_small by (unfold is_s32; lia).
Qed.

(** Changing only the usage of one container keeps the tree. *)
Lemma cont_wf_usage s a id u :
  let c := cont_look s id in
  cont_wf s → used c ≠ 0 → at_wf a → 0 <= u <= quota c →
  cont_wf {| c_at := a; CONTAINER :=
    <[id := {| quota := quota c; usage := u; parent := parent c;
               nchildren := nchildren c; used := used c |}]> (CONTAINER s) |}.
Proof.
  intros c Hwf Hu Ha Hub. set (s' := {| c_at := a; CONTAINER := _ |}).
  assert (∀ j, used (cont_look s' j) = used (cont_look s j) ∧
               quota (cont_look s' j) = quota (cont_look s j) ∧
               parent (cont_look s' j) = parent (cont_look s j) ∧
               nchildren (cont_look s' j) = nchildren (cont_look s j) ∧
               (j ≠ id → usage (cont_look s' j) = usage (cont_look s j)) ∧
               (j = id → usage (cont_look s' j) = u)) as Hsame.
  { intros j. unfold cont_look, s'; simpl. rewrite alook_insert.
    case_decide; subst; naive_solver. }
  split.
  - done.
  - destruct (Hsame 0) as (-> & _). apply Hwf.
  - intros j. destruct (Hsame j) as (-> & -> & _ & -> & H1 & H2). intros Hj.
    destruct (cw_used s Hwf j Hj) as (? & ? & ? & ?).
    destruct (decide (j = id)) as [E|E]; [rewrite (H2 E)|rewrite (H1 E)]; [|done].
    subst j. unfold c in Hub. split_and!; lia.
  - intros j k. destruct (Hsame j) as (-> & _ & _ & -> & _).
    destruct (Hsame (child_slot j k)) as (-> & _). apply Hwf.
  - intros j Hj. destruct (Hsame j) as (-> & _ & -> & _).
    destruct (Hsame (parent (cont_look s j))) as (-> & _ & _ & -> & _). by apply Hwf.
Qed.

(** C38: Allocating a page for a process: a process at its quota gets 0 and nothing
    changes.  Otherwise a result other than 0 is a page that was free, which is now
    allocated and charged to the process; with the result 0 no page changes hands.  In every
    case no usage exceeds its quota, the other containers are as before and the tree of
    containers stays well formed. *)
Theorem container_alloc_quota s id :
  cont_wf s → used (cont_look s id) ≠ 0 →
  ∃ r s', container_alloc id s = Ok r s' ∧ cont_wf s' ∧
    usage (cont_look s' id) <= quota (cont_look s' id) ∧ quota (cont_look s' id) = quota (cont_look s id) ∧
    (∀ j, j ≠ id → cont_look s' j = cont_look s j) ∧
    (usage (cont_look s id) = quota (cont_look s id) → r = 0 ∧ s' = s) ∧
    (r ≠ 0 → usable (c_at s) r ∧ usage (cont_look s' id) = usage (cont_look s id) + 1) ∧
    ∀ i, at_look (c_at s') i = if decide (r ≠ 0 ∧ i = r) then {| perm := perm (at_look (c_at s) r); allocated := 1 |} else at_look (c_at s) i.
Proof.
  intros Hwf Hu. destruct (container_alloc_run s id Hwf Hu) as [[E Hr]|(E & r & a & Hr & Hp)].
  { exists 0, s. destruct (cw_used s Hwf id Hu) as (_ & ? & _). split_and!; [done..|lia|done|done|done|done|]. intros i. by rewrite decide_False by tauto. }
  eexists r, _. split; [exact Hr|].
  match type of Hr with _ = Ok _ ?x => set (s1 := x) in * end.
  assert (cont_wf s1) as Hwf1.
  { apply cont_wf_usage; [done..|apply Hp|]. destruct (cw_used s Hwf id Hu) as (_ & ? & _). lia. }
  assert (cont_look s1 id = bump (cont_look s id)) as Hid by (unfold cont_look at 1; simpl; by rewrite alook_insert_eq).
  split; [done|]. rewrite Hid. destruct (cw_used s Hwf id Hu) as (_ & Hq & _). cbn [usage quota bump]. split; [lia|]. split; [done|]. split.
  { intros j ?. unfold cont_look at 1; simpl. by rewrite alook_insert_ne. }
  split; [lia|]. destruct Hp as (_ & _ & _ & [(-> & HAT & _)|(Hr1 & Hur & _ & HAT & _)]).
  - split; [done|]. intros i. rewrite decide_False by tauto. unfold at_look. change (c_at s1) with a. by rewrite HAT.
  - split; [done|]. intros i. unfold at_look at 1. change (c_at s1) with a. rewrite HAT, alook_insert.
    pose proof (aw_last _ (cw_at s Hwf)). case_decide as E1; case_decide as E2; try done; [|by destruct E2].
    subst. exfalso. apply E2. split; [lia|done].
Qed.

Lemma container_alloc_quota_witness : let s := sample_cont 5 [1; 2] in
  ∃ r s', container_alloc 0 s = Ok r s' ∧ cont_wf s' ∧
    usage (cont_look s' 0) <= quota (cont_look s' 0) ∧ quota (cont_look s' 0) = quota (cont_look s 0) ∧
    (∀ j, j ≠ 0 → cont_look s' j = cont_look s j) ∧
    (usage (cont_look s 0) = quota (cont_look s 0) → r = 0 ∧ s' = s) ∧
    (r ≠ 0 → usable (c_at s) r ∧ usage (cont_look s' 0) = usage (cont_look s 0) + 1) ∧
    ∀ i, at_look (c_at s') i = if decide (r ≠ 0 ∧ i = r) then {| perm := perm (at_look (c_at s) r); allocated := 1 |} else at_look (c_at s) i.
Proof.
  apply (container_alloc_quota (sample_cont 5 [1; 2]) 0); [apply sample_cont_wf; lia|].
  vm_compute. done.
Defined.

(** When the allocator fails the usage is charged all the same. *)
Lemma container_alloc_charges_failure :
  ∃ s', container_alloc 0 (sample_cont 5 []) = Ok 0 s' ∧
        usage (cont_look s' 0) = 1 ∧ AT (c_at s') = AT (c_at (sample_cont 5 [])).
Proof. eexists. split; [vm_compute; reflexivity|]. split; reflexivity. Qed.

(** [container_can_consume] compares modulo [2^32]: a request that wraps around
    is granted. *)
Lemma container_can_consume_wraps :
  let s := upd_CONTAINER <[0 := {| quota := 5; usage := 1; parent := 0;
                                   nchildren := 0; used := 1 |}]> (sample_cont 5 []) in
  container_can_consume 0 4294967295 s = Ok 1 s.
Proof. vm_compute. reflexivity. Qed.

(** ** Boot *)

Lemma count_quota_spec s fuel i q :
  (∀ j, 0 <= perm (at_look s j)) → 0 <= i → i + Z.of_nat fuel <= AT_SIZE →
  0 <= q → q + Z.of_nat fuel <= AT_SIZE →
  count_quota fuel i q s =
    Ok (q + Z.of_nat (length (filter (usable s) (seqZ i (Z.of_nat fuel))))) s.
Proof.
  intros Hp. revert i q. induction fuel as [|fuel IH]; intros i q Hi Hif Hq Hqf.
  { simpl. by rewrite Z.add_0_r. }
  cbn [count_quota]. rewrite (bind_Ok _ _ _ _ _ (at_is_norm_Ok s i ltac:(lia) (Hp i))).
  rewrite (bind_Ok _ _ _ _ _ (at_is_allocated_Ok s i ltac:(lia))).
  rewrite (seqZ_cons i) by lia. replace (Z.pred _) with (Z.of_nat fuel) by lia.
  rewrite filter_cons. replace (Z.succ i) with (i + 1) by lia.
  rewrite (u32_small (q + 1)) by (unfold is_u32, W32, AT_SIZE in *; lia).
  match goal with |- context [if ?b then q + 1 else q] => set (is_free := b) end.
  assert (is_free = bool_decide (usable s i)) as ->.
  { unfold is_free, usable. repeat case_bool_decide; simpl; done || lia. }
  case_decide as Hu; case_bool_decide; try done; simpl; rewrite IH by lia; f_equal; lia.
Qed.

Lemma page_perm_nonneg l i : 0 <= page_perm l i <= 2.
Proof. unfold page_perm. case_bool_decide; [|lia]. destruct (List.find _ _); [|lia].
  case_bool_decide; lia.
Qed.

Definition root_container (q : Z) : SContainer :=
  {| quota := q; usage := 0; parent := 0; nchildren := 0; used := 1 |}.

Lemma cont_wf_root a q :
  at_wf a → 0 <= q < 2147483648 →
  cont_wf {| c_at := a; CONTAINER := {[ 0 := root_container q ]} |}.
Proof.
  intros Ha Hq. destruct (sample_cont_wf q [] Hq) as [_ H1 H2 H3 H4].
  by split.
Qed.

Lemma pmem_init_wf t p a :
  Z.of_nat (length t) <= 128 → Forall row_ok t → p ∈ t → row_says p MEM_RAM a →
  ∃ s, pmem_init t at0 = Ok () s ∧ at_wf s ∧
    (∀ i, allocated (at_look s i) = 0) ∧
    (∀ i, 1 < perm (at_look s i) → VM_USERLO_PI <= i < VM_USERHI_PI ∧ 0 <= i < NUM_PAGES s).
Proof.
  intros Hlen Ht Hp Ha.
  destruct (pmem_init_run t Hlen Ht) as (s & Hr & Hg & Hlk & Hlast & Hn & Hcov & Hlook).
  exists s. split; [done|].
  assert (0 < NUM_PAGES s) as Hpos.
  { destruct (proj2 (mg_covered t _ Hg MEM_RAM a)) as (e & He & _ & Ha'); [by exists p|].
    pose proof (mg_range t _ Hg) as Hrg. rewrite Forall_forall in Hrg.
    specialize (Hrg e He) as [? _]. apply list_elem_of_lookup in He as [k Hk].
    specialize (Hcov k e Hk). pose proof (Z.div_pos (end_ e) PAGESIZE) as Hdiv.
    unfold PAGESIZE in *. lia. }
  split_and!.
  - split; [done|lia|rewrite Hlast; unfold W32; lia|].
    intros i. rewrite Hlook. case_decide; simpl; [apply page_perm_nonneg|lia].
  - intros i. rewrite Hlook. by case_decide.
  - intros i. rewrite Hlook. case_decide as Hi; simpl; [|lia].
    unfold page_perm. case_bool_decide; lia.
Qed.

Lemma container_init_run t p a :
  Z.of_nat (length t) <= 128 → Forall row_ok t → p ∈ t → row_says p MEM_RAM a →
  ∃ s, container_init t cont0 = Ok () s ∧ cont_wf s ∧
    (∀ i, allocated (at_look (c_at s) i) = 0) ∧
    (∀ i, 1 < perm (at_look (c_at s) i) →
       VM_USERLO_PI <= i < VM_USERHI_PI ∧ 0 <= i < NUM_PAGES (c_at s)) ∧
    CONTAINER s = {[ 0 := root_container (Z.of_nat (length
      (filter (usable (c_at s)) (seqZ 1 (NUM_PAGES (c_at s) - 1))))) ]}.
Proof.
  intros Hlen Ht Hp Ha.
  destruct (pmem_init_wf t p a Hlen Ht Hp Ha) as (s & Hr & Hwf & Hfree & Hrange).
  unfold container_init.
  rewrite (bind_Ok _ _ _ _ _ (zoom_Ok (S:=cont_state) _ cont0 _ _ Hr)).
  erewrite bind_Ok; [|by apply zoom_Ok]. simpl.
  pose proof (aw_nps s Hwf) as Hn.
  erewrite bind_Ok.
  2: { apply zoom_Ok. simpl. apply count_quota_spec; [apply Hwf|lia|lia|lia|lia]. }
  rewrite Z2Nat.id by lia. rewrite Z.add_0_l.
  set (q := Z.of_nat (length _)).
  assert (0 <= q <= AT_SIZE) as Hq.
  { unfold q. pose proof (length_filter (usable s) (seqZ 1 (NUM_PAGES s - 1))) as Hl.
    rewrite length_seqZ in Hl. lia. }
  rewrite cset_Ok by (unfold NUM_IDS; lia).
  rewrite s32_small by (unfold is_s32, AT_SIZE in *; lia).
  eexists. split; [reflexivity|]. split_and!; simpl; try done.
  apply (cont_wf_root s q); [done|]. unfold AT_SIZE in *; lia.
Qed.

(** Boot: when the BIOS reports some RAM, [container_init] succeeds, every
    page is free, only pages of the table that lie in the user range can be handed
    out, and the root container has the well-formed tree of one container
    whose quota is the number of pages that can be handed out. *)
Theorem container_init_quota t p a :
  Z.of_nat (length t) <= 128 → Forall row_ok t → p ∈ t → row_says p MEM_RAM a →
  ∃ s, container_init t cont0 = Ok () s ∧ cont_wf s ∧
    (∀ i, allocated (at_look (c_at s) i) = 0) ∧
    (∀ i, 1 < perm (at_look (c_at s) i) →
       VM_USERLO_PI <= i < VM_USERHI_PI ∧ 0 <= i < NUM_PAGES (c_at s)) ∧
    CONTAINER s = {[ 0 := root_container (Z.of_nat (length
      (filter (usable (c_at s)) (seqZ 1 (NUM_PAGES (c_at s) - 1))))) ]}.
Proof. apply container_init_run. Qed.

Lemma container_init_quota_witness :
  ∃ s, container_init sample_map cont0 = Ok () s ∧ cont_wf s ∧
    (∀ i, allocated (at_look (c_at s) i) = 0) ∧
    (∀ i, 1 < perm (at_look (c_at s) i) →
       VM_USERLO_PI <= i < VM_USERHI_PI ∧ 0 <= i < NUM_PAGES (c_at s)) ∧
    CONTAINER s = {[ 0 := root_container (Z.of_nat (length
      (filter (usable (c_at s)) (seqZ 1 (NUM_PAGES (c_at s) - 1))))) ]}.
Proof.
  eapply (container_init_quota sample_map); [simpl; lia|repeat constructor; simpl; lia|..].
  - apply list_elem_of_here.
  - split_and!; [reflexivity|reflexivity|apply Z.le_refl|reflexivity|right; reflexivity].
Defined.
