(* ===== verification/Segment.v ===== *)
(** * Segments, task state and gates (kern/lib/seg.c, seg.h, kstack.h; [intr_init_idt] of
      kern/dev/intr.c; the entries of kern/dev/idt.S)

    The tables through which the processor enters the kernel: the descriptors of the
    segments, the task state segment that gives the kernel stack, and the gates of the
    interrupts with the words that their entries push.  What the processor makes of them is
    written down as it is documented, and it is proved which gates a user process may call,
    on which stack its traps run, and which ports it may use. *)

From S2P Require Import Prelude Spinlock Mboot PMem Container.

(** ** Descriptors *)

Record segdesc := {
  sd_lim_15_0 : Z; sd_base_15_0 : Z; sd_base_23_16 : Z; sd_type : Z; sd_s : Z; sd_dpl : Z; sd_p : Z;
  sd_lim_19_16 : Z; sd_avl : Z; sd_rsv1 : Z; sd_db : Z; sd_g : Z; sd_base_31_24 : Z
}.

Definition SEGDESC_NULL : segdesc := Build_segdesc 0 0 0 0 0 0 0 0 0 0 0 0 0.

Definition SEGDESC32 (type base lim dpl : Z) : segdesc :=
  Build_segdesc (Z.land (Z.shiftr lim 12) 65535) (Z.land base 65535) (Z.land (Z.shiftr base 16) 255) type 1 dpl 1
    (Z.shiftr lim 28) 0 0 1 1 (Z.shiftr base 24).

Definition SEGDESC16 (type base lim dpl : Z) : segdesc :=
  Build_segdesc (Z.land lim 65535) (Z.land base 65535) (Z.land (Z.shiftr base 16) 255) type 1 dpl 1
    (Z.shiftr lim 16) 0 0 1 0 (Z.shiftr base 24).

(** [.sd_s = 0] *)
Definition system_seg (d : segdesc) : segdesc :=
  Build_segdesc (sd_lim_15_0 d) (sd_base_15_0 d) (sd_base_23_16 d) (sd_type d) 0 (sd_dpl d) (sd_p d)
    (sd_lim_19_16 d) (sd_avl d) (sd_rsv1 d) (sd_db d) (sd_g d) (sd_base_31_24 d).

Definition STA_X : Z := 8.
Definition STA_W : Z := 2.
Definition STA_R : Z := 2.
Definition STS_T32A : Z := 9.
Definition STS_IG32 : Z := 14.
Definition STS_TG32 : Z := 15.

Definition CPU_GDT_KCODE : Z := 8.
Definition CPU_GDT_KDATA : Z := 16.
Definition CPU_GDT_UCODE : Z := 24.
Definition CPU_GDT_UDATA : Z := 32.
Definition CPU_GDT_TSS : Z := 40.
Definition CPU_GDT_NDESC : nat := 6.

(** The fields of the task state that the kernel sets; [ts_iopm] has 129 bytes. *)
Record tss_t := { ts_esp0 : Z; ts_ss0 : Z; ts_iomb : Z; ts_iopm : list Z }.

Definition no_tss : tss_t := {| ts_esp0 := 0; ts_ss0 := 0; ts_iomb := 0; ts_iopm := replicate 129 0 |}.

(** [offsetof(tss_t, ts_iopm)] and [sizeof(tss_t)]: 129 bytes after 104, and 3 bytes of
    padding. *)
Definition TS_IOPM : Z := 104.
Definition TSS_SIZE : Z := 236.

(** ** Kernel stacks *)

Definition KSTACK_SIZE : Z := 4096.
Definition KSTACK_MAGIC : Z := 2557891634.

Record kstack := { gdt : gmap Z segdesc; tss : tss_t; ks_cpu : Z; magic : Z }.

Definition no_kstack : kstack := {| gdt := ∅; tss := no_tss; ks_cpu := 0; magic := 0 |}.

Definition upd_gdt (i : Z) (d : segdesc) (k : kstack) : kstack := {| gdt := <[i := d]> (gdt k); tss := tss k; ks_cpu := ks_cpu k; magic := magic k |}.
Definition upd_tss (f : tss_t → tss_t) (k : kstack) : kstack := {| gdt := gdt k; tss := f (tss k); ks_cpu := ks_cpu k; magic := magic k |}.

(** What was loaded into the registers of the processor: the table of descriptors by its
    limit and its base, the selectors, and the task register, which keeps the descriptor
    that was there when it was loaded. *)
Record seg_regs := { gdtr : Z * Z; data_sel : Z; code_sel : Z; ldtr : Z; tr : segdesc; idtr : Z * Z }.

Definition no_regs : seg_regs := {| gdtr := (0, 0); data_sel := 0; code_sel := 0; ldtr := 0; tr := SEGDESC_NULL; idtr := (0, 0) |}.

Record seg_st := { bsp_kstack : gmap Z kstack; proc_kstack : gmap Z kstack; regs : seg_regs }.

(** All zero, as after loading. *)
Definition seg0 : seg_st := {| bsp_kstack := ∅; proc_kstack := ∅; regs := no_regs |}.

Definition upd_bsp (f : gmap Z kstack → gmap Z kstack) (s : seg_st) : seg_st :=
  {| bsp_kstack := f (bsp_kstack s); proc_kstack := proc_kstack s; regs := regs s |}.
Definition upd_proc (f : gmap Z kstack → gmap Z kstack) (s : seg_st) : seg_st :=
  {| bsp_kstack := bsp_kstack s; proc_kstack := f (proc_kstack s); regs := regs s |}.
Definition upd_regs (f : seg_regs → seg_regs) (s : seg_st) : seg_st :=
  {| bsp_kstack := bsp_kstack s; proc_kstack := proc_kstack s; regs := f (regs s) |}.

Definition set_tr (d : segdesc) (r : seg_regs) : seg_regs :=
  {| gdtr := gdtr r; data_sel := data_sel r; code_sel := code_sel r; ldtr := ldtr r; tr := d; idtr := idtr r |}.
Definition set_idtr (d : Z * Z) (r : seg_regs) : seg_regs :=
  {| gdtr := gdtr r; data_sel := data_sel r; code_sel := code_sel r; ldtr := ldtr r; tr := tr r; idtr := d |}.

(** Where the linker puts the stacks of the processors and the gates. *)
Class Layout := { bsp_addr : Z; idt_addr : Z }.

(** ** The task register *)

(** The instruction takes a descriptor of a present 32-bit task state segment that is not
    busy, and marks it busy in the table; on any other it faults. *)
Definition tss_available (d : segdesc) : bool := bool_decide (sd_type d = STS_T32A) && bool_decide (sd_s d = 0) && bool_decide (sd_p d = 1).

Definition tss_busy (d : segdesc) : segdesc :=
  Build_segdesc (sd_lim_15_0 d) (sd_base_15_0 d) (sd_base_23_16 d) (Z.lor (sd_type d) 2) (sd_s d) (sd_dpl d) (sd_p d)
    (sd_lim_19_16 d) (sd_avl d) (sd_rsv1 d) (sd_db d) (sd_g d) (sd_base_31_24 d).

(** [cpu] is the processor whose stack holds the table. *)
Definition ltr (cpu sel : Z) : M seg_st () :=
  k ← aget NUM_CPUS no_kstack bsp_kstack cpu;
  let d := alook SEGDESC_NULL (gdt k) (Z.shiftr sel 3) in
  if tss_available d then
    aset NUM_CPUS upd_bsp cpu (upd_gdt (Z.shiftr sel 3) (tss_busy d) k) ;;
    modify (upd_regs (set_tr (tss_busy d)))
  else undef.

(** [gdt] comes first and has 6 descriptors of 8 bytes; then comes [tss].  [base] is the
    address of [proc_kstack]. *)
Definition bsp_at `{Layout} (i : Z) : Z := bsp_addr + i * KSTACK_SIZE.
Definition proc_at (base pid : Z) : Z := base + pid * KSTACK_SIZE.
Definition tss_at (ks : Z) : Z := ks + 48.
Definition kstack_hi (ks : Z) : Z := ks + KSTACK_SIZE.

(** The descriptors that all stacks have. *)
Definition flat_gdt (tssd : segdesc) : gmap Z segdesc :=
  <[0 := SEGDESC_NULL]> (<[Z.shiftr CPU_GDT_KCODE 3 := SEGDESC32 (Z.lor STA_X STA_R) 0 4294967295 0]>
  (<[Z.shiftr CPU_GDT_KDATA 3 := SEGDESC32 STA_W 0 4294967295 0]> (<[Z.shiftr CPU_GDT_UCODE 3 := SEGDESC32 (Z.lor STA_X STA_R) 0 4294967295 3]>
  (<[Z.shiftr CPU_GDT_UDATA 3 := SEGDESC32 STA_W 0 4294967295 3]> {[ Z.shiftr CPU_GDT_TSS 3 := tssd ]})))).

Definition tss_desc (ks : Z) : segdesc := system_seg (SEGDESC16 STS_T32A (u32 (tss_at ks)) (TSS_SIZE - 1) 0).

(** [ts_esp0] and [ts_ss0]. *)
Definition set_stack0 (ks : Z) (t : tss_t) : tss_t :=
  {| ts_esp0 := u32 (kstack_hi ks); ts_ss0 := CPU_GDT_KDATA; ts_iomb := ts_iomb t; ts_iopm := ts_iopm t |}.

(** ** [seg_init] *)

(** Of the memory that is cleared first for the first processor, this keeps the stacks. *)
Definition clear_bss (s : seg_st) : seg_st :=
  {| bsp_kstack := filter (λ x, x.1 = 0) (bsp_kstack s); proc_kstack := ∅; regs := regs s |}.

(** The first 64 stacks of processes are cleared, and those of the other processors. *)
Definition clear_stacks (s : seg_st) : seg_st :=
  {| bsp_kstack := filter (λ x, ¬ 1 <= x.1 <= 7) (bsp_kstack s); proc_kstack := filter (λ x, ¬ 0 <= x.1 < 64) (proc_kstack s); regs := regs s |}.

(** The table of descriptors and the selectors, with the null LDT. *)
Definition load_segs `{Layout} (i : Z) (r : seg_regs) : seg_regs :=
  {| gdtr := (8 * Z.of_nat CPU_GDT_NDESC - 1, u32 (bsp_at i)); data_sel := CPU_GDT_KDATA; code_sel := CPU_GDT_KCODE; ldtr := 0; tr := tr r; idtr := idtr r |}.

Definition seg_init `{Layout} (i : Z) : M seg_st () :=
  (if bool_decide (i = 0) then modify clear_bss else mret ()) ;;
  k ← aget NUM_CPUS no_kstack bsp_kstack i;
  aset NUM_CPUS upd_bsp i {| gdt := flat_gdt (tss_desc (bsp_at i)); tss := set_stack0 (bsp_at i) (tss k); ks_cpu := ks_cpu k; magic := KSTACK_MAGIC |} ;;
  modify (upd_regs (load_segs i)) ;;
  ltr i CPU_GDT_TSS ;;
  modify (upd_regs (set_idtr (256 * 8 - 1, u32 idt_addr))) ;;
  if bool_decide (i = 0) then modify clear_stacks else mret ().

(** ** The stack of a process *)

Definition seg_init_proc (base cpu pid : Z) : M seg_st () :=
  aset NUM_IDS upd_proc pid
    {| gdt := flat_gdt (tss_desc (proc_at base pid));
       tss := {| ts_esp0 := u32 (kstack_hi (proc_at base pid)); ts_ss0 := CPU_GDT_KDATA; ts_iomb := TS_IOPM; ts_iopm := replicate 128 0 ++ [255] |};
       ks_cpu := cpu; magic := KSTACK_MAGIC |}.

(** The stack pointer of the processor's own task state, and the task state of the process
    for the task register. *)
Definition kstack_switch (base cpu pid : Z) : M seg_st () :=
  k ← aget NUM_CPUS no_kstack bsp_kstack cpu;
  aset NUM_CPUS upd_bsp cpu (upd_gdt (Z.shiftr CPU_GDT_TSS 3) (tss_desc (proc_at base pid)) (upd_tss (set_stack0 (proc_at base pid)) k)) ;;
  ltr cpu CPU_GDT_TSS.

(** ** Gates *)

Record gatedesc := { gd_off_15_0 : Z; gd_ss : Z; gd_args : Z; gd_rsv1 : Z; gd_type : Z; gd_s : Z; gd_dpl : Z; gd_p : Z; gd_off_31_16 : Z }.

Definition SETGATE (istrap : bool) (sel off dpl : Z) : gatedesc := {|
  gd_off_15_0 := Z.land (u32 off) 65535; gd_ss := sel; gd_args := 0; gd_rsv1 := 0; gd_type := if istrap then STS_TG32 else STS_IG32;
  gd_s := 0; gd_dpl := dpl; gd_p := 1; gd_off_31_16 := Z.shiftr (u32 off) 16
|}.

Inductive entry :=
| Xdivide | Xdebug | Xnmi | Xbrkpt | Xoflow | Xbound | Xillop | Xdevice | Xdblflt | Xtss | Xsegnp | Xstack | Xgpflt | Xpgflt | Xfperr | Xalign | Xmchk
| Xirq_timer | Xirq_kbd | Xirq_slave | Xirq_serial2 | Xirq_serial1 | Xirq_lpt | Xirq_floppy | Xirq_spurious | Xirq_rtc | Xirq9 | Xirq10 | Xirq11
| Xirq_mouse | Xirq_coproc | Xirq_ide1 | Xirq_ide2 | Xsyscall | Xdefault.

(** The entries in idt.S: whether they push a zero in place of the error code, and the
    number that they push. *)
Definition stub (x : entry) : bool * Z :=
  match x with
  | Xdivide => (true, 0) | Xdebug => (true, 1) | Xnmi => (true, 2) | Xbrkpt => (true, 3) | Xoflow => (true, 4) | Xbound => (true, 5)
  | Xillop => (true, 6) | Xdevice => (true, 7) | Xdblflt => (false, 8) | Xtss => (false, 10) | Xsegnp => (false, 11) | Xstack => (false, 12)
  | Xgpflt => (false, 13) | Xpgflt => (false, 14) | Xfperr => (true, 16) | Xalign => (false, 17) | Xmchk => (true, 18)
  | Xirq_timer => (true, 32 + 0) | Xirq_kbd => (true, 32 + 1) | Xirq_slave => (true, 32 + 2) | Xirq_serial2 => (true, 32 + 3)
  | Xirq_serial1 => (true, 32 + 4) | Xirq_lpt => (true, 32 + 5) | Xirq_floppy => (true, 32 + 6) | Xirq_spurious => (true, 32 + 7)
  | Xirq_rtc => (true, 32 + 8) | Xirq9 => (true, 32 + 9) | Xirq10 => (true, 32 + 10) | Xirq11 => (true, 32 + 11) | Xirq_mouse => (true, 32 + 12)
  | Xirq_coproc => (true, 32 + 13) | Xirq_ide1 => (true, 32 + 14) | Xirq_ide2 => (true, 32 + 15)
  | Xsyscall => (true, 48) | Xdefault => (false, 254)
  end.

(** The words that an entry pushes on the stack. *)
Definition stub_push (x : entry) : list Z := let '(noec, num) := stub x in (if (noec : bool) then [0] else []) ++ [num].

(** The gates that are set after the default ones: vector, entry and privilege. *)
Definition gates : list (Z * entry * Z) :=
  [(0, Xdivide, 0); (1, Xdebug, 0); (2, Xnmi, 0); (3, Xbrkpt, 3); (4, Xoflow, 3); (5, Xbound, 0); (6, Xillop, 0); (7, Xdevice, 0); (8, Xdblflt, 0);
   (10, Xtss, 0); (11, Xsegnp, 0); (12, Xstack, 0); (13, Xgpflt, 0); (14, Xpgflt, 0); (16, Xfperr, 0); (17, Xalign, 0); (18, Xmchk, 0);
   (32, Xirq_timer, 0); (33, Xirq_kbd, 0); (34, Xirq_slave, 0); (35, Xirq_serial2, 0); (36, Xirq_serial1, 0); (37, Xirq_lpt, 0); (38, Xirq_floppy, 0);
   (39, Xirq_spurious, 0); (40, Xirq_rtc, 0); (41, Xirq9, 0); (42, Xirq10, 0); (43, Xirq11, 0); (44, Xirq_mouse, 0); (45, Xirq_coproc, 0);
   (46, Xirq_ide1, 0); (47, Xirq_ide2, 0); (48, Xsyscall, 3); (254, Xdefault, 0)].

Section Idt.
(** The addresses of the entries. *)
Context (addr : entry → Z).

Definition intr_init_idt : list gatedesc :=
  foldl (λ idt (g : Z * entry * Z), <[Z.to_nat g.1.1 := SETGATE false CPU_GDT_KCODE (addr g.1.2) g.2]> idt)
    (replicate 256 (SETGATE false CPU_GDT_KCODE (addr Xdefault) 0)) gates.
End Idt.

(** ** What the processor makes of them *)

Definition seg_base (d : segdesc) : Z := sd_base_15_0 d + 65536 * sd_base_23_16 d + 16777216 * sd_base_31_24 d.
Definition seg_limit (d : segdesc) : Z :=
  let l := sd_lim_15_0 d + 65536 * sd_lim_19_16 d in if bool_decide (sd_g d = 1) then l * 4096 + 4095 else l.

Definition gate_offset (g : gatedesc) : Z := gd_off_15_0 g + 65536 * gd_off_31_16 g.

(** The exceptions for which the processor pushes an error code, and what it pushes. *)
Definition has_error_code (v : Z) : bool := bool_decide (v = 8 ∨ 10 <= v <= 14 ∨ v = 17).
Definition cpu_push (v e : Z) : list Z := if has_error_code v then [e] else [].

(** An [int] instruction at privilege [cpl] is let through. *)
Definition int_allowed (g : gatedesc) (cpl : Z) : Prop := gd_p g = 1 ∧ cpl <= gd_dpl g.

(** A segment over all of the address space, for code or data, at a privilege. *)
Definition flat_segment (d : segdesc) (code : bool) (dpl : Z) : Prop :=
  seg_base d = 0 ∧ seg_limit d = 4294967295 ∧ sd_p d = 1 ∧ sd_s d = 1 ∧ sd_dpl d = dpl ∧ Z.testbit (sd_type d) 3 = code ∧ Z.testbit (sd_type d) 1 = true.

(** A byte of the task state from the map of the ports on; the padding is zero. *)
Definition tss_byte (t : tss_t) (off : Z) : Z := default 0 ((ts_iopm t ++ [0; 0; 0]) !! Z.to_nat (off - TS_IOPM)).

(** Outside of the privilege of the kernel, a port is allowed if its bit is clear; two
    bytes are read, which have to be inside the segment. *)
Definition port_allowed (t : tss_t) (limit port : Z) : Prop :=
  let a := ts_iomb t + port / 8 in a + 1 <= limit ∧ Z.testbit (tss_byte t a) (port mod 8) = false.

(** ** Theorems *)

Lemma split32 x : is_u32 x → Z.land x 65535 + 65536 * Z.land (Z.shiftr x 16) 255 + 16777216 * Z.shiftr x 24 = x.
Proof.
  intros Hx. change 65535 with (Z.ones 16). change 255 with (Z.ones 8). rewrite !Z.land_ones, !Z.shiftr_div_pow2 by lia.
  unfold is_u32, W32 in Hx. Z.div_mod_to_equations. lia.
Qed.

Lemma tss_desc_is ks : seg_base (tss_busy (tss_desc ks)) = u32 (tss_at ks) ∧ seg_limit (tss_busy (tss_desc ks)) = TSS_SIZE - 1.
Proof. split; [|reflexivity]. unfold seg_base. cbn. apply split32, u32_range. Qed.

Lemma tss_desc_available ks : tss_available (tss_desc ks) = true.
Proof. reflexivity. Qed.

(** *** Gates *)

(** The entry whose number is the vector, if there is one. *)
Definition all_entries : list entry :=
  [Xdivide; Xdebug; Xnmi; Xbrkpt; Xoflow; Xbound; Xillop; Xdevice; Xdblflt; Xtss; Xsegnp; Xstack; Xgpflt; Xpgflt; Xfperr; Xalign; Xmchk;
   Xirq_timer; Xirq_kbd; Xirq_slave; Xirq_serial2; Xirq_serial1; Xirq_lpt; Xirq_floppy; Xirq_spurious; Xirq_rtc; Xirq9; Xirq10; Xirq11;
   Xirq_mouse; Xirq_coproc; Xirq_ide1; Xirq_ide2; Xsyscall; Xdefault].

Definition entry_for (v : Z) : entry := default Xdefault (find (λ x, bool_decide ((stub x).2 = v)) all_entries).

Lemma entry_for_spec v : (stub (entry_for v)).2 = v ∨ entry_for v = Xdefault ∧ ∀ x, (stub x).2 ≠ v.
Proof.
  unfold entry_for. destruct (find _ all_entries) as [x|] eqn:E; simpl.
  - left. apply find_some in E as [_ E]. by apply bool_decide_eq_true in E.
  - right. split; [done|]. intros x Hx. assert (In x all_entries) as Hin by (destruct x; simpl; tauto).
    pose proof (find_none _ _ E x Hin) as Hn. by apply bool_decide_eq_false in Hn.
Qed.

Lemma gates_fold {A} (mk : entry → Z → A) : foldl (λ idt (g : Z * entry * Z), <[Z.to_nat g.1.1 := mk g.1.2 g.2]> idt) (replicate 256 (mk Xdefault 0)) gates =
  (λ v, mk (entry_for v) (if bool_decide (v = 3 ∨ v = 4 ∨ v = 48) then 3 else 0)) <$> seqZ 0 256.
Proof. vm_compute. reflexivity. Qed.

Lemma idt_is addr : intr_init_idt addr = (λ v, SETGATE false CPU_GDT_KCODE (addr (entry_for v)) (if bool_decide (v = 3 ∨ v = 4 ∨ v = 48) then 3 else 0)) <$> seqZ 0 256.
Proof. exact (gates_fold (λ x dpl, SETGATE false CPU_GDT_KCODE (addr x) dpl)). Qed.

Lemma gate_offset_is sel off dpl : gate_offset (SETGATE false sel off dpl) = u32 off.
Proof.
  unfold gate_offset. cbn. pose proof (u32_range off) as Hx. change 65535 with (Z.ones 16). rewrite Z.land_ones, Z.shiftr_div_pow2 by lia.
  unfold is_u32, W32 in Hx. Z.div_mod_to_equations. lia.
Qed.

(** The entries push the zero exactly where the processor pushes nothing. *)
Lemma stub_pushes x e : x ≠ Xdefault → let v := (stub x).2 in cpu_push v e ++ stub_push x = [if has_error_code v then e else 0; v].
Proof. by destruct x. Qed.



(** *** The stack of a process *)

(** The state after a switch to the stack of a process. *)
Definition switched (base pid : Z) (k : kstack) : kstack :=
  upd_gdt (Z.shiftr CPU_GDT_TSS 3) (tss_busy (tss_desc (proc_at base pid))) (upd_tss (set_stack0 (proc_at base pid)) k).

Definition switch_seg (base cpu pid : Z) (s : seg_st) : seg_st :=
  upd_regs (set_tr (tss_busy (tss_desc (proc_at base pid)))) (upd_bsp <[cpu := switched base pid (alook no_kstack (bsp_kstack s) cpu)]> s).

Lemma kstack_switch_run base cpu pid s : 0 <= cpu < NUM_CPUS → kstack_switch base cpu pid s = Ok () (switch_seg base cpu pid s).
Proof.
  intros Hc. unfold kstack_switch, ltr. rewrite (bind_Ok _ _ _ _ _ (aget_Ok _ _ _ _ s Hc)), (bind_Ok _ _ _ _ _ (aset_Ok _ _ _ _ s Hc)).
  rewrite (bind_Ok _ _ _ _ _ (aget_Ok _ _ _ _ _ Hc)). cbn [bsp_kstack upd_bsp]. rewrite alook_insert_eq. cbn [gdt upd_gdt]. rewrite alook_insert_eq, tss_desc_available.
  rewrite (bind_Ok _ _ _ _ _ (aset_Ok _ _ _ _ _ Hc)). unfold modify, switch_seg, upd_bsp, upd_regs, switched, upd_gdt. cbn [bsp_kstack proc_kstack regs gdt tss ks_cpu magic].
  by rewrite !insert_insert_eq.
Qed.

(** The ports that the map of a process leaves open. *)
Lemma process_ports t port : ts_iomb t = TS_IOPM → ts_iopm t = replicate 128 0 ++ [255] → 0 <= port < 65536 →
  port_allowed t (TSS_SIZE - 1) port ↔ port < 1024 ∨ 1032 <= port < 1048.
Proof.
  intros Hb Hm Hp. unfold port_allowed, tss_byte. rewrite Hb, Hm. replace (TS_IOPM + port / 8 - TS_IOPM) with (port / 8) by lia.
  assert (0 <= port / 8 < 8192) as Hq by (Z.div_mod_to_equations; lia). cbv zeta. rewrite <- app_assoc.
  destruct (decide (port < 1024)) as [H1|H1].
  - rewrite lookup_app_l, lookup_replicate_2 by (rewrite ?length_replicate; Z.div_mod_to_equations; lia). cbn. rewrite Z.bits_0. unfold TS_IOPM, TSS_SIZE. split; [tauto|]. split; [|done]. Z.div_mod_to_equations. lia.
  - rewrite lookup_app_r, length_replicate by (rewrite length_replicate; Z.div_mod_to_equations; lia). unfold TS_IOPM, TSS_SIZE.
    destruct (decide (port < 1048)) as [H2|H2]; [|split; [intros [Ha _]; Z.div_mod_to_equations; lia|lia]].
    assert (port / 8 = 128 ∨ port / 8 = 129 ∨ port / 8 = 130) as [E|[E|E]] by (Z.div_mod_to_equations; lia); rewrite E.
    + change (default 0 _) with 255. split; [|Z.div_mod_to_equations; lia]. intros [_ Hbit]. exfalso. change 255 with (Z.ones 8) in Hbit. rewrite Z.ones_spec_low in Hbit; [done|]. Z.div_mod_to_equations. lia.
    + change (default 0 _) with 0. rewrite Z.bits_0. split; [Z.div_mod_to_equations; lia|]. by split.
    + change (default 0 _) with 0. rewrite Z.bits_0. split; [Z.div_mod_to_equations; lia|]. by split.
Qed.

Section Entry.
Context `{Layout}.

Lemma flat_gdt_segments tssd code dpl sel : (sel, code, dpl) ∈ [(CPU_GDT_KCODE, true, 0); (CPU_GDT_KDATA, false, 0); (CPU_GDT_UCODE, true, 3); (CPU_GDT_UDATA, false, 3)] →
  ∃ d, flat_gdt tssd !! (sel / 8) = Some d ∧ flat_segment d code dpl.
Proof.
  rewrite !elem_of_cons. intros [[= -> -> ->]|[[= -> -> ->]|[[= -> -> ->]|[[= -> -> ->]|Hf]]]]; [..|by apply not_elem_of_nil in Hf];
    (eexists; split; [unfold flat_gdt; repeat (rewrite lookup_insert_ne by (vm_compute; discriminate)); apply lookup_insert_eq|by vm_compute]).
Qed.

Lemma seg_init_boot s : ∃ k s', seg_init 0 s = Ok () s' ∧ bsp_kstack s' !! 0 = Some k ∧
  gdt k = flat_gdt (tss_busy (tss_desc (bsp_at 0))) ∧ gdtr (regs s') = (47, u32 (bsp_at 0)) ∧ idtr (regs s') = (2047, u32 idt_addr).
Proof.
  unfold seg_init, ltr. rewrite !(bool_decide_eq_true_2 (0 = 0)) by done. assert (0 <= 0 < NUM_CPUS) as Hc by done.
  rewrite (bind_Ok (modify _) _ _ _ _ eq_refl). rewrite (bind_Ok _ _ _ _ _ (aget_Ok _ _ _ _ _ Hc)), (bind_Ok _ _ _ _ _ (aset_Ok _ _ _ _ _ Hc)).
  rewrite (bind_Ok (modify _) _ _ _ _ eq_refl). set (k := {| gdt := _; tss := _; ks_cpu := _; magic := _ |}). set (s1 := upd_regs _ _).
  assert (alook no_kstack (bsp_kstack s1) 0 = k) as Hk by apply alook_insert_eq.
  assert (alook SEGDESC_NULL (gdt k) (Z.shiftr CPU_GDT_TSS 3) = tss_desc (bsp_at 0)) as Hd.
  { unfold k, flat_gdt. cbn [gdt]. rewrite !alook_insert_ne by (vm_compute; discriminate). unfold alook. by rewrite lookup_singleton_eq. }
  rewrite (bind_Ok _ _ s1 () (upd_regs (set_tr (tss_busy (tss_desc (bsp_at 0)))) (upd_bsp <[0 := upd_gdt (Z.shiftr CPU_GDT_TSS 3) (tss_busy (tss_desc (bsp_at 0))) k]> s1))).
  2: { rewrite (bind_Ok _ _ _ _ _ (aget_Ok _ _ _ _ s1 Hc)), Hk, Hd, tss_desc_available, (bind_Ok _ _ _ _ _ (aset_Ok _ _ _ _ s1 Hc)). reflexivity. }
  eexists (upd_gdt _ _ k), _. split; [reflexivity|]. split; [|split; [|by split]].
  - apply map_lookup_filter_Some. split; [|simpl; lia]. apply lookup_insert_eq.
  - unfold k, flat_gdt. cbn [gdt upd_gdt]. rewrite !(insert_insert_ne _ (Z.shiftr CPU_GDT_TSS 3)) by (vm_compute; discriminate). by rewrite insert_singleton_eq.
Qed.

(** C16: How a process enters the kernel, and which ports it has.  After [seg_init] of the
    first processor, [seg_init_proc] of a process and the switch to its kernel stack, the
    task register describes the task state of that process, which gives the top of the
    process's own kernel stack and the kernel's data segment for traps from user mode; in
    the table that the processor uses, the code and data segments of the kernel are flat segments of
    privilege 0 and those of the user flat segments of privilege 3; and the map of the ports lets the
    process use the ports below 1024, and 1032 to 1047, and no other. *)
Theorem process_entry base pid s : 0 <= pid < NUM_IDS →
  ∃ s' k kp, (seg_init 0 ;; seg_init_proc base 0 pid ;; kstack_switch base 0 pid) s = Ok () s' ∧
    bsp_kstack s' !! 0 = Some k ∧ proc_kstack s' !! pid = Some kp ∧
    seg_base (tr (regs s')) = u32 (tss_at (proc_at base pid)) ∧ seg_limit (tr (regs s')) = TSS_SIZE - 1 ∧
    ts_esp0 (tss kp) = u32 (kstack_hi (proc_at base pid)) ∧ ts_ss0 (tss kp) = CPU_GDT_KDATA ∧
    gdtr (regs s') = (47, u32 (bsp_at 0)) ∧
    (∀ sel code dpl, (sel, code, dpl) ∈ [(CPU_GDT_KCODE, true, 0); (CPU_GDT_KDATA, false, 0); (CPU_GDT_UCODE, true, 3); (CPU_GDT_UDATA, false, 3)] →
       ∃ d, gdt k !! (sel / 8) = Some d ∧ flat_segment d code dpl) ∧
    (∀ port, 0 <= port < 65536 → port_allowed (tss kp) (seg_limit (tr (regs s'))) port ↔ port < 1024 ∨ 1032 <= port < 1048).
Proof.
  intros Hp. destruct (seg_init_boot s) as (k & s1 & E & Hk & Hg & Hr & _). assert (0 <= 0 < NUM_CPUS) as Hc by done.
  assert (alook no_kstack (bsp_kstack s1) 0 = k) as Hl by (unfold alook; by rewrite Hk).
  eexists (switch_seg base 0 pid (upd_proc <[pid := _]> s1)), (switched base pid k), _. split.
  { rewrite (bind_Ok _ _ _ _ _ E). unfold seg_init_proc. rewrite (bind_Ok _ _ _ _ _ (aset_Ok _ _ _ _ _ Hp)). by apply kstack_switch_run. }
  split; [cbn; rewrite <- Hl; apply lookup_insert_eq|]. split; [apply lookup_insert_eq|]. cbn [tr regs switch_seg upd_regs set_tr].
  destruct (tss_desc_is (proc_at base pid)) as [Hb Hlim]. rewrite Hlim. split; [exact Hb|]. split_and!; [reflexivity..|exact Hr| |].
  - intros sel code dpl Hin. destruct (flat_gdt_segments (tss_busy (tss_desc (bsp_at 0))) code dpl sel Hin) as (d & Hd & Hf). exists d. split; [|exact Hf].
    cbn [gdt switched upd_gdt upd_tss]. rewrite lookup_insert_ne, Hg; [exact Hd|]. rewrite !elem_of_cons in Hin.
    destruct Hin as [[= -> -> ->]|[[= -> -> ->]|[[= -> -> ->]|[[= -> -> ->]|Hn]]]]; [vm_compute; discriminate..|by apply not_elem_of_nil in Hn].
  - intros port Hport. by apply process_ports.
Qed.
End Entry.

#[local] Instance some_layout : Layout := {| bsp_addr := 3145728; idt_addr := 2097152 |}.

Lemma process_entry_witness : ∃ s' k kp, (seg_init 0 ;; seg_init_proc 4194304 0 5 ;; kstack_switch 4194304 0 5) seg0 = Ok () s' ∧
  bsp_kstack s' !! 0 = Some k ∧ proc_kstack s' !! 5 = Some kp ∧
  seg_base (tr (regs s')) = 4214832 ∧ seg_limit (tr (regs s')) = 235 ∧ ts_esp0 (tss kp) = 4218880 ∧ ts_ss0 (tss kp) = 16 ∧
  gdtr (regs s') = (47, 3145728) ∧
  (∀ sel code dpl, (sel, code, dpl) ∈ [(CPU_GDT_KCODE, true, 0); (CPU_GDT_KDATA, false, 0); (CPU_GDT_UCODE, true, 3); (CPU_GDT_UDATA, false, 3)] →
     ∃ d, gdt k !! (sel / 8) = Some d ∧ flat_segment d code dpl) ∧
  (∀ port, 0 <= port < 65536 → port_allowed (tss kp) (seg_limit (tr (regs s'))) port ↔ port < 1024 ∨ 1032 <= port < 1048).
Proof. exact (process_entry 4194304 5 seg0 ltac:(unfold NUM_IDS; lia)). Defined.

(** The vectors 9 and 15 have entries in idt.S that no gate leads to. *)
Example vector_9_default : entry_for 9 = Xdefault ∧ entry_for 15 = Xdefault.
Proof. done. Qed.

(** The default entry pushes no zero: of an interrupt without an error code the word above
    the return address is the number, and the frame lacks a word. *)
Example default_frame_short : cpu_push 200 0 ++ stub_push Xdefault = [254].
Proof. reflexivity. Qed.
