(* ===== verification/PageTable.v ===== *)
(** * Page tables (kern/vmm/MPTIntro, MPTOp, MPTComm, MPTKern, MPTNew, MPTInit)

    One page directory per process in [PDirPool], second-level tables in allocated
    physical pages, and one static identity table [IDPTbl] for the kernel.  The
    second-level tables live in physical memory, a map from addresses to bytes that
    is zero where nothing was stored; in the kernel, addresses are physical. *)

From S2P Require Import Prelude Spinlock Mboot PMem Container.

Definition MagicNumber : Z := 1048577.
Definition PTE_P : Z := 1.
Definition PTE_W : Z := 2.
Definition PTE_U : Z := 4.
Definition PTE_G : Z := 256.
Definition PT_PERM_UP : Z := 0.
Definition PT_PERM_PTU : Z := Z.lor (Z.lor PTE_P PTE_W) PTE_U.

(** ** Physical memory *)

Definition mbyte (m : gmap Z Z) (a : Z) : Z := alook 0 m a.

Definition load32 (m : gmap Z Z) (a : Z) : Z :=
  mbyte m a + 256 * mbyte m (a + 1) + 65536 * mbyte m (a + 2) + 16777216 * mbyte m (a + 3).

Definition store32 (a v : Z) (m : gmap Z Z) : gmap Z Z :=
  <[a + 3 := v / 16777216 mod 256]> (<[a + 2 := v / 65536 mod 256]>
    (<[a + 1 := v / 256 mod 256]> (<[a := v mod 256]> m))).

(** [IDPTbl_addr] is where the linker put [IDPTbl]; [cr3] is the page directory
    that is loaded, by its process number, and [paging] whether it is in use. *)
Record pt_state := {
  pt_cont : cont_state;
  pt_lk : spinlock_t;
  PDirPool : gmap (Z * Z) Z;
  IDPTbl_addr : Z;
  mem : gmap Z Z;
  cr3 : Z;
  paging : bool
}.

#[global, program] Instance pt_cont_lens : Lens pt_state cont_state := {|
  view := pt_cont;
  put c s := {| pt_cont := c; pt_lk := pt_lk s; PDirPool := PDirPool s;
                IDPTbl_addr := IDPTbl_addr s; mem := mem s; cr3 := cr3 s;
                paging := paging s |}
|}.
Next Obligation. done. Qed.
Next Obligation. by intros []. Qed.
Next Obligation. done. Qed.

Definition set_pt_lk (lk : spinlock_t) (s : pt_state) : pt_state :=
  {| pt_cont := pt_cont s; pt_lk := lk; PDirPool := PDirPool s;
     IDPTbl_addr := IDPTbl_addr s; mem := mem s; cr3 := cr3 s; paging := paging s |}.

Definition set_PDirPool (d : gmap (Z * Z) Z) (s : pt_state) : pt_state :=
  {| pt_cont := pt_cont s; pt_lk := pt_lk s; PDirPool := d;
     IDPTbl_addr := IDPTbl_addr s; mem := mem s; cr3 := cr3 s; paging := paging s |}.

Definition set_mem (m : gmap Z Z) (s : pt_state) : pt_state :=
  {| pt_cont := pt_cont s; pt_lk := pt_lk s; PDirPool := PDirPool s;
     IDPTbl_addr := IDPTbl_addr s; mem := m; cr3 := cr3 s; paging := paging s |}.

Definition set_cr3 (i : Z) (s : pt_state) : pt_state :=
  {| pt_cont := pt_cont s; pt_lk := pt_lk s; PDirPool := PDirPool s;
     IDPTbl_addr := IDPTbl_addr s; mem := mem s; cr3 := i; paging := paging s |}.

Definition set_paging (b : bool) (s : pt_state) : pt_state :=
  {| pt_cont := pt_cont s; pt_lk := pt_lk s; PDirPool := PDirPool s;
     IDPTbl_addr := IDPTbl_addr s; mem := mem s; cr3 := cr3 s; paging := b |}.

(** ** MPTIntro *)

Definition pt_spinlock_init : M pt_state () := modify (set_pt_lk spinlock_init).

Definition pt_spinlock_acquire : M pt_state () := spinlock_acquire pt_lk set_pt_lk.

Definition pt_spinlock_release : M pt_state () := spinlock_release pt_lk set_pt_lk.

Definition set_pdir_base (index : Z) : M pt_state () := λ s,
  if bool_decide (0 <= index < NUM_IDS) then Ok () (set_cr3 index s) else Undef.

(** [PDirPool[proc_index][pde_index]] *)
Definition pde_look (s : pt_state) (proc_index pde_index : Z) : Z :=
  default 0 (PDirPool s !! (proc_index, pde_index)).

Definition pdir_ok (proc_index pde_index : Z) : bool :=
  bool_decide (0 <= proc_index < NUM_IDS) && bool_decide (0 <= pde_index < 1024).

Definition get_pdir_entry (proc_index pde_index : Z) : M pt_state Z := λ s,
  if pdir_ok proc_index pde_index then Ok (pde_look s proc_index pde_index) s else Undef.

Definition put_pdir_entry (proc_index pde_index v : Z) : M pt_state () := λ s,
  if pdir_ok proc_index pde_index
  then Ok () (set_PDirPool (<[(proc_index, pde_index) := v]> (PDirPool s)) s) else Undef.

Definition set_pdir_entry (proc_index pde_index page_index : Z) : M pt_state () :=
  put_pdir_entry proc_index pde_index (u32 (page_index * PAGESIZE + PT_PERM_PTU)).

Definition set_pdir_entry_identity (proc_index pde_index : Z) : M pt_state () :=
  base ← gets IDPTbl_addr;
  put_pdir_entry proc_index pde_index (u32 (base + pde_index * PAGESIZE + PT_PERM_PTU)).

Definition rmv_pdir_entry (proc_index pde_index : Z) : M pt_state () :=
  put_pdir_entry proc_index pde_index PT_PERM_UP.

(** The address of a second-level entry: the frame of the directory entry plus
    the offset. *)
Definition pte_addr (pde pte_index : Z) : Z :=
  u32 (Z.land pde 4294963200 + pte_index * 4).

Definition get_ptbl_entry (proc_index pde_index pte_index : Z) : M pt_state Z :=
  pde ← get_pdir_entry proc_index pde_index;
  m ← gets mem;
  mret (load32 m (pte_addr pde pte_index)).

Definition put_ptbl_entry (proc_index pde_index pte_index v : Z) : M pt_state () :=
  pde ← get_pdir_entry proc_index pde_index;
  modify (λ s, set_mem (store32 (pte_addr pde pte_index) v (mem s)) s).

Definition set_ptbl_entry (proc_index pde_index pte_index page_index perm : Z)
    : M pt_state () :=
  put_ptbl_entry proc_index pde_index pte_index (u32 (page_index * PAGESIZE + perm)).

Definition set_ptbl_entry_identity (pde_index pte_index perm : Z) : M pt_state () :=
  base ← gets IDPTbl_addr;
  modify (λ s, set_mem
    (store32 (base + pde_index * PAGESIZE + pte_index * 4)
       (u32 ((pde_index * 1024 + pte_index) * PAGESIZE + perm)) (mem s)) s).

Definition rmv_ptbl_entry (proc_index pde_index pte_index : Z) : M pt_state () :=
  put_ptbl_entry proc_index pde_index pte_index 0.

(** ** MPTOp: the same by virtual address *)

Definition pde_index_of (vaddr : Z) : Z := vaddr / (4096 * 1024).

Definition pte_index_of (vaddr : Z) : Z := (vaddr / 4096) mod 1024.

Definition get_ptbl_entry_by_va (proc_index vaddr : Z) : M pt_state Z :=
  pde ← get_pdir_entry proc_index (pde_index_of vaddr);
  if bool_decide (pde = 0) then mret 0
  else get_ptbl_entry proc_index (pde_index_of vaddr) (pte_index_of vaddr).

Definition get_pdir_entry_by_va (proc_index vaddr : Z) : M pt_state Z :=
  get_pdir_entry proc_index (pde_index_of vaddr).

Definition rmv_ptbl_entry_by_va (proc_index vaddr : Z) : M pt_state () :=
  rmv_ptbl_entry proc_index (pde_index_of vaddr) (pte_index_of vaddr).

Definition rmv_pdir_entry_by_va (proc_index vaddr : Z) : M pt_state () :=
  rmv_pdir_entry proc_index (pde_index_of vaddr).

Definition set_ptbl_entry_by_va (proc_index vaddr page_index perm : Z) : M pt_state () :=
  set_ptbl_entry proc_index (pde_index_of vaddr) (pte_index_of vaddr) page_index perm.

Definition set_pdir_entry_by_va (proc_index vaddr page_index : Z) : M pt_state () :=
  set_pdir_entry proc_index (pde_index_of vaddr) page_index.

Definition idptbl_loop : M pt_state () :=
  for_range 0 1024 (λ i,
    let perm := if bool_decide (i < 256) || bool_decide (i >= 960)
                then Z.lor (Z.lor PTE_P PTE_W) PTE_G else Z.lor PTE_P PTE_W in
    for_range 0 1024 (λ j, set_ptbl_entry_identity i j perm)).

Definition idptbl_init (mbi : list mboot_mmap_t) : M pt_state () :=
  zoom (container_init mbi) ;;
  idptbl_loop.

(** ** MPTComm *)

Definition pdir_loop : M pt_state () :=
  for_range 0 NUM_IDS (λ i,
    for_range 0 1024 (λ j,
      if bool_decide (j < 256) || bool_decide (j >= 960)
      then set_pdir_entry_identity i j else rmv_pdir_entry i j)).

Definition pdir_init (mbi : list mboot_mmap_t) : M pt_state () :=
  idptbl_init mbi ;;
  pdir_loop.

Definition alloc_ptbl (proc_index vadr : Z) : M pt_state Z :=
  pi ← zoom (container_alloc proc_index);
  (if bool_decide (pi ≠ 0) then
     set_pdir_entry_by_va proc_index vadr pi ;;
     for_range 0 1024 (λ i, rmv_ptbl_entry proc_index (pde_index_of vadr) i)
   else mret ()) ;;
  mret pi.

Definition free_ptbl (proc_index vadr : Z) : M pt_state () :=
  pde ← get_pdir_entry_by_va proc_index vadr;
  rmv_pdir_entry_by_va proc_index vadr ;;
  zoom (container_free proc_index (pde / PAGESIZE)).

(** ** MPTKern *)

Definition kern_loop : M pt_state () :=
  for_range 256 960 (λ i, set_pdir_entry_identity 0 i).

Definition pdir_init_kern (mbi : list mboot_mmap_t) : M pt_state () :=
  pdir_init mbi ;;
  kern_loop.

Definition map_page (proc_index vadr page_index perm : Z) : M pt_state Z :=
  pdir_entry ← get_pdir_entry_by_va proc_index vadr;
  result ← (if bool_decide (pdir_entry ≠ 0) then mret 0
            else
              result ← alloc_ptbl proc_index vadr;
              mret (if bool_decide (result = 0) then MagicNumber else result));
  (if bool_decide (result ≠ MagicNumber)
   then set_ptbl_entry_by_va proc_index vadr page_index perm else mret ()) ;;
  mret result.

Definition unmap_page (proc_index vadr : Z) : M pt_state Z :=
  ptbl_entry ← get_ptbl_entry_by_va proc_index vadr;
  (if bool_decide (ptbl_entry ≠ 0) then rmv_ptbl_entry_by_va proc_index vadr else mret ()) ;;
  mret ptbl_entry.

(** ** MPTNew *)

Definition alloc_page (proc_index vaddr perm : Z) : M pt_state Z :=
  pt_spinlock_acquire ;;
  pi ← zoom (container_alloc proc_index);
  result ← (if bool_decide (pi = 0) then mret MagicNumber
            else map_page proc_index vaddr pi perm);
  pt_spinlock_release ;;
  mret result.

Definition alloc_mem_quota (id quota : Z) : M pt_state Z :=
  zoom (container_split id quota).

(** ** MPTInit *)

Definition enable_paging : M pt_state () := modify (set_paging true).

Definition paging_init (mbi : list mboot_mmap_t) : M pt_state () :=
  pt_spinlock_init ;;
  pdir_init_kern mbi ;;
  pt_spinlock_acquire ;;
  set_pdir_base 0 ;;
  enable_paging ;;
  pt_spinlock_release.

Definition paging_init_ap : M pt_state () :=
  pt_spinlock_acquire ;;
  set_pdir_base 0 ;;
  enable_paging ;;
  pt_spinlock_release.

(** ** Words in memory *)

Lemma mbyte_insert m a b v :
  mbyte (<[a := v]> m) b = if decide (a = b) then v else mbyte m b.
Proof. apply alook_insert. Qed.

Lemma load_store_eq m a v : is_u32 v → load32 (store32 a v m) a = v.
Proof.
  unfold is_u32, W32. intros Hv. unfold load32, store32. rewrite !mbyte_insert.
  repeat match goal with
    |- context [decide (?x = ?y)] =>
      first [rewrite (decide_True (P := x = y)) by lia | rewrite (decide_False (P := x = y)) by lia]
  end.
  Z.div_mod_to_equations. lia.
Qed.

Lemma load_store_ne m a b v : a + 4 <= b ∨ b + 4 <= a → load32 (store32 a v m) b = load32 m b.
Proof.
  intros Hab. unfold load32, store32. rewrite !mbyte_insert.
  repeat (case_decide; [lia|]). done.
Qed.

(** Masking with [0xfffff000] clears the low twelve bits. *)
Lemma land_page x : is_u32 x → Z.land x 4294963200 = x / 4096 * 4096.
Proof.
  unfold is_u32, W32. intros Hx.
  assert (Z.land x 4294963200 = Z.ldiff x (Z.ones 12)) as ->.
  - apply Z.bits_inj'. intros n Hn. rewrite Z.land_spec, Z.ldiff_spec.
    change 4294963200 with (Z.shiftl (Z.ones 20) 12).
    rewrite Z.shiftl_spec by done. destruct (decide (n < 32)) as [H32|H32].
    + f_equal. destruct (decide (n < 12)).
      * rewrite Z.testbit_neg_r by lia. by rewrite Z.ones_spec_low by lia.
      * rewrite Z.ones_spec_low by lia. by rewrite Z.ones_spec_high by lia.
    + assert (Z.testbit x n = false) as ->; [|done].
      destruct (decide (x = 0)) as [->|]; [apply Z.testbit_0_l|].
      apply Z.bits_above_log2; [lia|]. apply Z.log2_lt_pow2; [lia|].
      apply Z.lt_le_trans with (2 ^ 32); [lia|]. apply Z.pow_le_mono_r; lia.
  - rewrite Z.ldiff_ones_r by done. rewrite Z.shiftl_mul_pow2, Z.shiftr_div_pow2 by done. done.
Qed.

Lemma pte_addr_frame f t :
  0 <= f < 1048576 → 0 <= t < 1024 → pte_addr (f * 4096 + 7) t = f * 4096 + t * 4.
Proof.
  intros Hf Ht. unfold pte_addr. rewrite land_page by (unfold is_u32, W32; lia).
  replace ((f * 4096 + 7) / 4096) with f by (Z.div_mod_to_equations; lia).
  apply u32_small. unfold is_u32, W32; lia.
Qed.

(** ** Invariant

    A directory slot [(p, d)] with [1 <= p] and [256 <= d < 960] belongs to the user
    part of process [p]; every other slot holds the shared identity table. *)

Definition user_pd (p d : Z) : Prop := 1 <= p < NUM_IDS ∧ 256 <= d < 960.

#[global] Instance user_pd_dec p d : Decision (user_pd p d).
Proof. unfold user_pd. apply _. Defined.

Definition pte_look (s : pt_state) (p d t : Z) : Z :=
  load32 (mem s) (pte_addr (pde_look s p d) t).

Definition id_perm (d : Z) : Z :=
  if bool_decide (d < 256) || bool_decide (d >= 960) then 259 else 3.

Record tbl_wf (s : pt_state) : Prop := {
  tw_addr : IDPTbl_addr s mod 4096 = 0 ∧ 0 < IDPTbl_addr s ∧
            IDPTbl_addr s + 4194304 <= VM_USERLO;
  tw_kern p d : 0 <= p < NUM_IDS → 0 <= d < 1024 → ¬ user_pd p d →
    pde_look s p d = IDPTbl_addr s + d * 4096 + 7;
  tw_pde p d : user_pd p d → pde_look s p d = 0 ∨
    ∃ f, VM_USERLO_PI <= f < VM_USERHI_PI ∧ pde_look s p d = f * 4096 + 7;
  tw_inj p d p' d' : user_pd p d → user_pd p' d' → pde_look s p d ≠ 0 →
    pde_look s p d = pde_look s p' d' → p = p' ∧ d = d';
  tw_ident d t : 0 <= d < 1024 → 0 <= t < 1024 →
    load32 (mem s) (IDPTbl_addr s + d * 4096 + t * 4) = (d * 1024 + t) * 4096 + id_perm d;
}.

(** The places that can name a physical frame, and the frames they name. *)
Inductive slot := PdeSlot (p d : Z) | PteSlot (p d t : Z).

Definition refs (s : pt_state) (sl : slot) (f : Z) : Prop :=
  match sl with
  | PdeSlot p d => user_pd p d ∧ pde_look s p d ≠ 0 ∧ f = pde_look s p d / 4096
  | PteSlot p d t => user_pd p d ∧ 0 <= t < 1024 ∧ pde_look s p d ≠ 0 ∧
                     pte_look s p d t ≠ 0 ∧ f = pte_look s p d t / 4096
  end.

Notation pt_at s := (c_at (pt_cont s)).

Definition taken (s : pt_state) (f : Z) : Prop :=
  1 < perm (at_look (pt_at s) f) ∧ allocated (at_look (pt_at s) f) ≠ 0.

Record pt_wf (s : pt_state) : Prop := {
  pw_tbl : tbl_wf s;
  pw_cont : cont_wf (pt_cont s);
  pw_range f : 1 < perm (at_look (pt_at s) f) → VM_USERLO_PI <= f < VM_USERHI_PI;
  pw_taken sl f : refs s sl f → taken s f;
  pw_uniq sl sl' f : refs s sl f → refs s sl' f → sl = sl';
}.

Definition fresh (s : pt_state) (f : Z) : Prop := taken s f ∧ ∀ sl, ¬ refs s sl f.

(** Changing what one slot names, to a frame nobody names, keeps the invariant. *)
Lemma pt_wf_step s s' sl0 :
  pt_wf s → tbl_wf s' → pt_cont s' = pt_cont s →
  (∀ sl f, refs s' sl f → refs s sl f ∨ sl = sl0 ∧ fresh s f) →
  pt_wf s'.
Proof.
  intros Hwf Htbl Hc Hrefs. split; [done|rewrite Hc; apply Hwf|..].
  - rewrite Hc. apply Hwf.
  - unfold taken. rewrite Hc. intros sl f Hr.
    destruct (Hrefs sl f Hr) as [H|[_ [H _]]]; [by apply (pw_taken s Hwf sl)|done].
  - intros sl sl' f H1 H2. pose proof (pw_uniq s Hwf sl sl' f).
    destruct (Hrefs _ _ H1) as [?|[-> [_ Hn]]], (Hrefs _ _ H2) as [?|[-> [_ Hn']]];
      [auto|by destruct (Hn' sl)|by destruct (Hn sl')|done].
Qed.

(** The address of an entry of a user table. *)
Lemma user_pte_addr s p d t :
  tbl_wf s → user_pd p d → pde_look s p d ≠ 0 → 0 <= t < 1024 →
  pte_addr (pde_look s p d) t = pde_look s p d - 7 + t * 4 ∧
  VM_USERLO <= pde_look s p d - 7 < 4294967296 - 4096 ∧ (pde_look s p d - 7) mod 4096 = 0.
Proof.
  intros Hwf Hu Hnz Ht. destruct (tw_pde s Hwf p d Hu) as [?|(f & Hf & ->)]; [done|].
  change (262144 <= f < 983040) in Hf. change VM_USERLO with 1073741824.
  rewrite pte_addr_frame by lia. replace (f * 4096 + 7 - 7) with (f * 4096) by lia.
  rewrite Z.mod_mul by done. lia.
Qed.

Lemma user_pde_align_inj s p d p' d' :
  tbl_wf s → user_pd p d → user_pd p' d' → pde_look s p d ≠ 0 → pde_look s p' d' ≠ 0 →
  (p, d) ≠ (p', d') →
  pde_look s p d + 4096 <= pde_look s p' d' ∨ pde_look s p' d' + 4096 <= pde_look s p d.
Proof.
  intros Hwf Hu Hu' H1 H2 Hne.
  destruct (tw_pde s Hwf p d Hu) as [?|(f & Hf & E)]; [done|].
  destruct (tw_pde s Hwf p' d' Hu') as [?|(f' & Hf' & E')]; [done|].
  destruct (decide (f = f')) as [->|]; [|lia].
  destruct Hne. destruct (tw_inj s Hwf p d p' d') as [-> ->]; auto; lia.
Qed.

Definition store_pte (s : pt_state) (p d t v : Z) : pt_state :=
  set_mem (store32 (pte_addr (pde_look s p d) t) v (mem s)) s.

(** Storing an entry changes that entry alone. *)
Lemma pte_look_store s p d t v p' d' t' :
  tbl_wf s → user_pd p d → user_pd p' d' → pde_look s p d ≠ 0 → pde_look s p' d' ≠ 0 →
  0 <= t < 1024 → 0 <= t' < 1024 → is_u32 v →
  pte_look (store_pte s p d t v) p' d' t' =
    if decide ((p', d', t') = (p, d, t)) then v else pte_look s p' d' t'.
Proof.
  intros Hwf Hu Hu' Hnz Hnz' Ht Ht' Hv. unfold pte_look.
  change (pde_look (store_pte s p d t v) p' d') with (pde_look s p' d').
  case_decide as E; [injection E as -> -> ->; simpl; by apply load_store_eq|].
  unfold store_pte; simpl. apply load_store_ne.
  destruct (user_pte_addr s p d t Hwf Hu Hnz Ht) as (-> & _).
  destruct (user_pte_addr s p' d' t' Hwf Hu' Hnz' Ht') as (-> & _).
  destruct (decide ((p, d) = (p', d'))) as [E'|E'].
  - injection E' as -> ->. assert (t ≠ t') by congruence. lia.
  - destruct (user_pde_align_inj s p d p' d'); auto; lia.
Qed.

Lemma tbl_wf_store s p d t v :
  tbl_wf s → user_pd p d → pde_look s p d ≠ 0 → 0 <= t < 1024 →
  tbl_wf (store_pte s p d t v).
Proof.
  intros Hwf Hu Hnz Ht. split; try apply Hwf.
  intros d' t' Hd' Ht'. rewrite <- (tw_ident s Hwf d' t') by done.
  apply load_store_ne. simpl.
  destruct (user_pte_addr s p d t Hwf Hu Hnz Ht) as (-> & ? & _).
  pose proof (tw_addr s Hwf). lia.
Qed.

Lemma refs_store s p d t v sl f :
  tbl_wf s → user_pd p d → pde_look s p d ≠ 0 → 0 <= t < 1024 → is_u32 v →
  refs (store_pte s p d t v) sl f →
  refs s sl f ∨ sl = PteSlot p d t ∧ v ≠ 0 ∧ f = v / 4096.
Proof.
  intros Hwf Hu Hnz Ht Hv. destruct sl as [p' d'|p' d' t']; simpl; [by left|].
  change (pde_look (store_pte s p d t v) p' d') with (pde_look s p' d').
  intros (Hu' & Ht' & Hnz' & H). rewrite pte_look_store in H by done.
  case_decide as E; [injection E as -> -> ->; by right|]. by left.
Qed.

(** Recording a fresh frame in an entry. *)
Lemma store_pte_wf s p d t f pm :
  pt_wf s → user_pd p d → pde_look s p d ≠ 0 → 0 <= t < 1024 →
  fresh s f → 0 <= pm < 4096 → pt_wf (store_pte s p d t (f * 4096 + pm)).
Proof.
  intros Hwf Hu Hnz Ht Hf Hpm. pose proof (pw_range s Hwf f (proj1 (proj1 Hf))) as Hr.
  change (262144 <= f < 983040) in Hr.
  apply (pt_wf_step s _ (PteSlot p d t) Hwf); [apply tbl_wf_store; [apply Hwf|done..]|done..|].
  intros sl f' H. apply refs_store in H; [|apply Hwf|unfold is_u32, W32; try done; lia..].
  destruct H as [?|(-> & _ & ->)]; [by left|right]. split; [done|].
  by replace ((f * 4096 + pm) / 4096) with f by (Z.div_mod_to_equations; lia).
Qed.

(** Clearing an entry. *)
Lemma clear_pte_wf s p d t :
  pt_wf s → user_pd p d → pde_look s p d ≠ 0 → 0 <= t < 1024 →
  pt_wf (store_pte s p d t 0).
Proof.
  intros Hwf Hu Hnz Ht.
  apply (pt_wf_step s _ (PteSlot p d t) Hwf); [apply tbl_wf_store; [apply Hwf|done..]|done..|].
  intros sl f' H. apply refs_store in H; [|apply Hwf|unfold is_u32, W32; try done; lia..].
  destruct H as [?|(_ & ? & _)]; [by left|done].
Qed.

(** *** Taking a page from the allocator *)

Definition with_cont (c : cont_state) (s : pt_state) : pt_state := put c s.

Lemma refs_with_cont c s sl f : refs (with_cont c s) sl f ↔ refs s sl f.
Proof. by destruct sl. Qed.

Lemma palloc_post_look a r a' j :
  palloc_post a r a' → r ≠ 0 →
  usable a r ∧
  at_look a' j = if decide (j = r) then {| perm := perm (at_look a r); allocated := 1 |}
                 else at_look a j.
Proof.
  intros (_ & _ & _ & [(-> & _)|(_ & Hu & _ & HAT & _)]) Hr; [done|].
  split; [done|]. unfold at_look at 1. rewrite HAT, alook_insert.
  repeat case_decide; subst; done || congruence.
Qed.

Lemma palloc_post_zero a a' j : palloc_post a 0 a' → at_wf a → at_look a' j = at_look a j.
Proof. intros Hp Ha. by apply (palloc_fail_last a 0 a'). Qed.

(** There is a page for [p] to have, and there are two. *)
Definition room (s : pt_state) (p i : Z) : Prop :=
  usage (cont_look (pt_cont s) p) < quota (cont_look (pt_cont s) p) ∧
  last_palloc_index (pt_at s) < i < NUM_PAGES (pt_at s) ∧ usable (pt_at s) i.

Definition room2 (s : pt_state) (p i j : Z) : Prop :=
  usage (cont_look (pt_cont s) p) + 1 < quota (cont_look (pt_cont s) p) ∧
  last_palloc_index (pt_at s) < i ∧ i < j < NUM_PAGES (pt_at s) ∧
  usable (pt_at s) i ∧ usable (pt_at s) j.

Lemma palloc_room s p i r a c :
  room s p i → palloc_post (pt_at s) r (c_at c) → a = c_at c → at_wf (pt_at s) →
  0 < r <= i ∧ last_palloc_index a = r ∧ NUM_PAGES a = NUM_PAGES (pt_at s).
Proof.
  intros (_ & Hi & Hu) (_ & Hn & _ & [(_ & _ & _ & Hno)|(Hr & _ & Hmin & _ & Hl)]) -> Ha.
  - by destruct (Hno i).
  - pose proof (aw_last _ Ha). split; [|done]. split; [lia|].
    destruct (decide (r <= i)); [done|]. destruct (Hmin i); [lia|done].
Qed.

(** No step gives a frame back, removes a container or changes the permission of a frame. *)
Definition pt_grows (s s' : pt_state) : Prop :=
  (∀ f, taken s f → taken s' f) ∧
  (∀ q, used (cont_look (pt_cont s') q) = used (cont_look (pt_cont s) q)) ∧
  (∀ f, perm (at_look (pt_at s') f) = perm (at_look (pt_at s) f)).

Lemma pt_grows_trans s1 s2 s3 : pt_grows s1 s2 → pt_grows s2 s3 → pt_grows s1 s3.
Proof.
  intros (H1 & H2 & H3) (H4 & H5 & H6). split; [auto|].
  split; [intros q; by rewrite H5, H2|intros f; by rewrite H6, H3].
Qed.

Lemma pt_container_alloc s p :
  pt_wf s → used (cont_look (pt_cont s) p) ≠ 0 →
  ∃ r c, zoom (container_alloc p) s = Ok r (with_cont c s) ∧
    pt_wf (with_cont c s) ∧ pt_grows s (with_cont c s) ∧
    (r ≠ 0 → fresh (with_cont c s) r ∧ ¬ taken s r) ∧
    (∀ i, room s p i → r ≠ 0) ∧ (∀ i j, room2 s p i j → room (with_cont c s) p j).
Proof.
  intros Hwf Hu.
  destruct (container_alloc_run (pt_cont s) p (pw_cont s Hwf) Hu) as [[E Hr]|(E & r & a & Hr & Hp)].
  { exists 0, (pt_cont s). rewrite (zoom_Ok _ s _ _ Hr). 
    assert (with_cont (pt_cont s) s = s) as E' by (by destruct s).
    unfold with_cont in *. rewrite E'. split; [done|]. split; [done|]. split; [done|].
    split; [done|]. split; [intros i [Hq _]|intros i j [Hq _]]; rewrite E in Hq; exfalso; lia. }
  eexists r, _. split; [by apply zoom_Ok|]. set (c := Build_cont_state _ _).
  pose proof (cw_at _ (pw_cont s Hwf)) as Hat.
  assert (∀ f, perm (at_look a f) = perm (at_look (pt_at s) f) ∧
     (allocated (at_look (pt_at s) f) ≠ 0 → allocated (at_look a f) ≠ 0)) as Hmono.
  { intros f. destruct (decide (r = 0)) as [->|Hr0].
    - by rewrite (palloc_post_zero _ _ f Hp Hat).
    - destruct (palloc_post_look _ _ _ f Hp Hr0) as [_ ->].
      case_decide; [subst; done|done]. }
  assert (∀ f, taken s f → taken (with_cont c s) f) as Htk.
  { intros f [H1 H2]. destruct (Hmono f) as [H3 H4]. split; simpl; [lia|auto]. }
  assert (pt_wf (with_cont c s)) as Hwf'.
  { split.
    - destruct (pw_tbl s Hwf). by split.
    - apply cont_wf_usage; [apply Hwf|done|apply Hp|].
      destruct (cw_used _ (pw_cont s Hwf) p Hu) as (_ & ? & _). lia.
    - intros f. simpl. destruct (Hmono f) as [-> _]. apply Hwf.
    - intros sl f H%refs_with_cont. by apply Htk, (pw_taken s Hwf sl).
    - intros sl sl' f H%refs_with_cont H'%refs_with_cont. by apply (pw_uniq s Hwf sl sl' f). }
  split; [done|]. split; [split; [done|split; [|apply Hmono]]|split; [|split]].
  - intros q. unfold cont_look, c; simpl. rewrite alook_insert. by case_decide; subst.
  - intros Hr0. destruct (palloc_post_look _ _ _ r Hp Hr0) as [[Hu1 Hu2] Hl].
    rewrite decide_True in Hl by done.
    assert (¬ taken s r) as Hnt by (intros [_ ?]; done).
    split; [|done]. split; [split; simpl; by rewrite Hl|].
    intros sl H%refs_with_cont. by apply Hnt, (pw_taken s Hwf sl).
  - intros i Hi. pose proof (palloc_room s p i r a c Hi Hp eq_refl Hat). lia.
  - intros i j (Hq & Hi1 & Hi2 & Hui & Huj).
    assert (room s p i) as Hi by (split; [lia|]; split; [lia|done]).
    destruct (palloc_room s p i r a c Hi Hp eq_refl Hat) as (Hri & Hl & Hn).
    destruct (palloc_post_look _ _ _ j Hp) as [_ Hj]; [lia|]. rewrite decide_False in Hj by lia.
    split; [|split; simpl; [lia|]].
    + change (pt_cont (with_cont c s)) with c.
      assert (cont_look c p = bump (cont_look (pt_cont s) p)) as -> by apply alook_insert_eq.
      unfold bump; cbn [usage quota]. lia.
    + unfold usable. simpl. rewrite Hj. exact Huj.
Qed.

(** *** Runs of the accessors *)

Lemma get_pdir_entry_Ok s p d :
  0 <= p < NUM_IDS → 0 <= d < 1024 → get_pdir_entry p d s = Ok (pde_look s p d) s.
Proof. intros ? ?. unfold get_pdir_entry, pdir_ok. by rewrite !bool_decide_eq_true_2. Qed.

Lemma put_pdir_entry_Ok s p d v :
  0 <= p < NUM_IDS → 0 <= d < 1024 →
  put_pdir_entry p d v s = Ok () (set_PDirPool (<[(p, d) := v]> (PDirPool s)) s).
Proof. intros ? ?. unfold put_pdir_entry, pdir_ok. by rewrite !bool_decide_eq_true_2. Qed.

Lemma put_ptbl_entry_Ok s p d t v :
  0 <= p < NUM_IDS → 0 <= d < 1024 →
  put_ptbl_entry p d t v s = Ok () (store_pte s p d t v).
Proof.
  intros Hp Hd. unfold put_ptbl_entry.
  by rewrite (bind_Ok _ _ _ _ _ (get_pdir_entry_Ok s p d Hp Hd)).
Qed.

Lemma pde_look_set s p d v q d' :
  pde_look (set_PDirPool (<[(p, d) := v]> (PDirPool s)) s) q d' =
  if decide ((p, d) = (q, d')) then v else pde_look s q d'.
Proof.
  unfold pde_look; simpl. case_decide as E.
  - injection E as -> ->. by rewrite lookup_insert_eq.
  - by rewrite lookup_insert_ne.
Qed.

Lemma user_pd_bounds p d : user_pd p d → 0 <= p < NUM_IDS ∧ 0 <= d < 1024.
Proof. unfold user_pd. lia. Qed.

(** Two states that differ in memory alone. *)
Definition same_but_mem (s s' : pt_state) : Prop :=
  pt_cont s' = pt_cont s ∧ pt_lk s' = pt_lk s ∧ PDirPool s' = PDirPool s ∧
  IDPTbl_addr s' = IDPTbl_addr s ∧ cr3 s' = cr3 s ∧ paging s' = paging s.

Lemma same_but_mem_pde s s' p d : same_but_mem s s' → pde_look s' p d = pde_look s p d.
Proof. intros (_ & _ & H & _). unfold pde_look. by rewrite H. Qed.

(** The loop of [alloc_ptbl] empties the table. *)
Lemma clear_table s p d :
  tbl_wf s → user_pd p d → pde_look s p d ≠ 0 →
  ∃ s', for_range 0 1024 (λ i, rmv_ptbl_entry p d i) s = Ok () s' ∧
    tbl_wf s' ∧ same_but_mem s s' ∧
    ∀ p' d' t, user_pd p' d' → pde_look s p' d' ≠ 0 → 0 <= t < 1024 →
      pte_look s' p' d' t = if decide ((p', d') = (p, d)) then 0 else pte_look s p' d' t.
Proof.
  intros Hwf Hu Hnz. pose proof (user_pd_bounds p d Hu) as [Hp Hd].
  destruct (for_range_inv (λ i s', tbl_wf s' ∧ same_but_mem s s' ∧
      ∀ p' d' t, user_pd p' d' → pde_look s p' d' ≠ 0 → 0 <= t < 1024 →
        pte_look s' p' d' t =
          if decide ((p', d') = (p, d) ∧ t < i) then 0 else pte_look s p' d' t)
    (λ i, rmv_ptbl_entry p d i) 0 1024 s) as (s' & Hr & Hwf' & Hs' & Hl); [lia| | |].
  - split_and!; try done. intros. rewrite decide_False by lia. done.
  - intros i s1 Hi (Hwf1 & Hs1 & Hl1). unfold rmv_ptbl_entry.
    rewrite put_ptbl_entry_Ok by done. pose proof (same_but_mem_pde s s1 p d Hs1) as Hpde.
    eexists. split; [done|]. split_and!; try apply Hs1.
    + apply tbl_wf_store; [done..|congruence|lia].
    + intros p' d' t Hu' Hnz' Ht'. pose proof (same_but_mem_pde s s1 p' d' Hs1) as Hpde'.
      rewrite pte_look_store; [|done..|congruence|congruence|lia|lia|unfold is_u32, W32; lia].
      rewrite Hl1 by done. case_decide as E.
      { injection E as -> -> ->. by rewrite decide_True by (split; [done|lia]). }
      apply decide_ext. split; intros [E' ?]; (split; [done|]); [lia|].
      injection E' as -> ->. assert (t ≠ i) by congruence. lia.
  - exists s'. split_and!; try done. intros p' d' t Hu' Hnz' Ht'. rewrite Hl by done.
    apply decide_ext. split; [by intros [? _]|]. intros ?. split; [done|lia].
Qed.

(** A directory entry for a new frame. *)
Lemma tbl_wf_new_pde s p d f :
  tbl_wf s → user_pd p d → pde_look s p d = 0 → VM_USERLO_PI <= f < VM_USERHI_PI →
  (∀ p' d', user_pd p' d' → pde_look s p' d' ≠ f * 4096 + 7) →
  tbl_wf (set_PDirPool (<[(p, d) := f * 4096 + 7]> (PDirPool s)) s).
Proof.
  intros Hwf Hu H0 Hf Hnew. split; try apply Hwf.
  - intros p' d' Hp' Hd' Hn. rewrite pde_look_set. case_decide; [naive_solver|].
    by apply Hwf.
  - intros p' d' Hu'. rewrite pde_look_set. case_decide; [|by apply Hwf]. right. by exists f.
  - intros p1 d1 p2 d2 H1 H2. rewrite !pde_look_set.
    repeat case_decide; simplify_eq/=; try done.
    + intros _ E. by destruct (Hnew p2 d2).
    + intros _ E. by destruct (Hnew p1 d1).
    + by apply Hwf.
Qed.

(** ** Translations *)

(** What [get_ptbl_entry_by_va] reads. *)
Definition translate (s : pt_state) (p va : Z) : Z :=
  if bool_decide (pde_look s p (pde_index_of va) = 0) then 0
  else pte_look s p (pde_index_of va) (pte_index_of va).

Definition user_va (va : Z) : Prop := VM_USERLO <= va < VM_USERHI.

Lemma user_va_index p va :
  1 <= p < NUM_IDS → user_va va →
  user_pd p (pde_index_of va) ∧ 0 <= pte_index_of va < 1024.
Proof.
  unfold user_va, user_pd, pde_index_of, pte_index_of.
  change VM_USERLO with 1073741824. change VM_USERHI with 4026531840. intros.
  split; [split; [done|]|apply Z.mod_pos_bound; lia]. Z.div_mod_to_equations. lia.
Qed.

Lemma va_page_index va va' :
  (pde_index_of va, pte_index_of va) = (pde_index_of va', pte_index_of va') ↔
  va / 4096 = va' / 4096.
Proof.
  unfold pde_index_of, pte_index_of. rewrite <- !Z.div_div by done. split.
  - intros [= H1 H2]. Z.div_mod_to_equations. lia.
  - by intros ->.
Qed.

Lemma get_ptbl_entry_by_va_Ok s p va :
  1 <= p < NUM_IDS → user_va va → get_ptbl_entry_by_va p va s = Ok (translate s p va) s.
Proof.
  intros Hp Hva. destruct (user_va_index p va Hp Hva) as [Hu _].
  pose proof (user_pd_bounds _ _ Hu) as [Hp' Hd].
  unfold get_ptbl_entry_by_va, get_ptbl_entry, translate.
  rewrite (bind_Ok _ _ _ _ _ (get_pdir_entry_Ok s p _ Hp' Hd)). case_bool_decide; [done|].
  by rewrite (bind_Ok _ _ _ _ _ (get_pdir_entry_Ok s p _ Hp' Hd)).
Qed.

Lemma alloc_ptbl_table s p d r :
  pt_wf s → user_pd p d → pde_look s p d = 0 → fresh s r →
  ∃ s', (set_pdir_entry p d r ;; for_range 0 1024 (λ i, rmv_ptbl_entry p d i)) s = Ok () s' ∧
    pt_wf s' ∧ pt_cont s' = pt_cont s ∧ pde_look s' p d ≠ 0 ∧
    (∀ f, f ≠ r → fresh s f → fresh s' f) ∧
    (∀ q va, 1 <= q < NUM_IDS → user_va va → translate s' q va = translate s q va).
Proof.
  intros Hwf Hu H0 Hf. pose proof (user_pd_bounds _ _ Hu) as [Hp Hd].
  pose proof (pw_range s Hwf r (proj1 (proj1 Hf))) as Hrg.
  unfold set_pdir_entry. change PT_PERM_PTU with 7.
  change PAGESIZE with 4096.
  rewrite u32_small by (change (262144 <= r < 983040) in Hrg; unfold is_u32, W32; lia).
  rewrite (bind_Ok _ _ _ _ _ (put_pdir_entry_Ok s p d _ Hp Hd)).
  set (s1 := set_PDirPool _ s).
  assert (∀ q d', pde_look s1 q d' = if decide ((p, d) = (q, d')) then r * 4096 + 7
                                      else pde_look s q d') as Hs1 by apply pde_look_set.
  assert (tbl_wf s1) as Ht1.
  { apply tbl_wf_new_pde; [apply Hwf|done..|]. intros p' d' Hu' E.
    apply (proj2 Hf (PdeSlot p' d')). simpl. split; [done|].
    change (262144 <= r < 983040) in Hrg. rewrite E. split; [lia|]. Z.div_mod_to_equations. lia. }
  assert (pde_look s1 p d ≠ 0) as Hnz1.
  { rewrite Hs1, decide_True by done. change (262144 <= r < 983040) in Hrg. lia. }
  destruct (clear_table s1 p d Ht1 Hu Hnz1) as (s2 & -> & Ht2 & Hsm & Hl).
  exists s2. split; [done|].
  assert (∀ q d', pde_look s2 q d' = pde_look s1 q d') as Hs2
    by (intros; by apply same_but_mem_pde).
  assert (pt_cont s2 = pt_cont s) as Hc by apply Hsm.
  assert (∀ q d' t, user_pd q d' → pde_look s1 q d' ≠ 0 → 0 <= t < 1024 →
    pte_look s2 q d' t = if decide ((q, d') = (p, d)) then 0 else pte_look s q d' t) as Hpte.
  { intros q d' t ? ? ?. rewrite Hl by done. case_decide as E; [done|].
    unfold pte_look. by rewrite Hs1, decide_False by congruence. }
  assert (∀ sl f, refs s2 sl f → refs s sl f ∨ sl = PdeSlot p d ∧ f = r) as Hrefs.
  { intros [q d'|q d' t] f; simpl; rewrite !Hs2.
    - rewrite !Hs1. intros (? & ? & ->). case_decide as E; [|by left].
      injection E as -> ->. right. split; [done|]. Z.div_mod_to_equations. lia.
    - intros (? & ? & Hnz & H). rewrite Hpte in H by done. case_decide as E; [by destruct H|].
      rewrite Hs1, decide_False in Hnz by congruence. by left. }
  split_and!; [| done | by rewrite Hs2 | |].
  - apply (pt_wf_step s s2 (PdeSlot p d) Hwf Ht2 Hc).
    intros sl f [?|[-> ->]]%Hrefs; [by left|by right].
  - intros f Hne [Htk Hn]. split; [unfold taken; by rewrite Hc|].
    intros sl [H|[_ ?]]%Hrefs; [by apply (Hn sl)|done].
  - intros q va Hq Hva. destruct (user_va_index q va Hq Hva) as [Hqu Hqt].
    unfold translate. rewrite Hs2. destruct (decide ((q, pde_index_of va) = (p, d))) as [E|E].
    + rewrite (Hpte q _ _ Hqu); [|rewrite Hs1, decide_True by done;
        change (262144 <= r < 983040) in Hrg; lia|done].
      injection E as -> E'. rewrite E', H0, decide_True, (bool_decide_eq_true_2 (0 = 0)) by done.
      by case_bool_decide.
    + rewrite Hs1, decide_False by congruence. case_bool_decide; [done|].
      rewrite Hpte; [by rewrite decide_False|done| |done].
      by rewrite Hs1, decide_False by congruence.
Qed.

Lemma alloc_ptbl_run s p va :
  pt_wf s → used (cont_look (pt_cont s) p) ≠ 0 → 1 <= p < NUM_IDS → user_va va →
  pde_look s p (pde_index_of va) = 0 →
  ∃ r s', alloc_ptbl p va s = Ok r s' ∧ pt_wf s' ∧ pt_grows s s' ∧
    (∀ f, fresh s f → fresh s' f) ∧
    (∀ q va', 1 <= q < NUM_IDS → user_va va' → translate s' q va' = translate s q va') ∧
    (r = 0 ∨ VM_USERLO_PI <= r < VM_USERHI_PI ∧ pde_look s' p (pde_index_of va) ≠ 0) ∧
    (∀ i, room s p i → r ≠ 0).
Proof.
  intros Hwf Hu Hp Hva H0. destruct (user_va_index p va Hp Hva) as [Hpd _].
  destruct (pt_container_alloc s p Hwf Hu) as (r & c & Hr & Hwf1 & (Htk & Hus & Hpm) & Hr0 & Hroom & _).
  unfold alloc_ptbl. rewrite (bind_Ok _ _ _ _ _ Hr).
  set (s1 := with_cont c s) in *.
  assert (∀ f, fresh s f → fresh s1 f) as Hfr.
  { intros f [H1 H2]. split; [auto|]. intros sl H%refs_with_cont. by apply (H2 sl). }
  case_bool_decide as Hr1.
  - destruct (Hr0 Hr1) as [Hfresh Hnt].
    destruct (alloc_ptbl_table s1 p (pde_index_of va) r Hwf1 Hpd H0 Hfresh)
      as (s2 & Hr2 & Hwf2 & Hc2 & Hnz & Hf2 & Htr).
    unfold set_pdir_entry_by_va. rewrite (bind_Ok _ _ _ _ _ Hr2).
    exists r, s2. split; [done|]. split; [done|]. split; [|split; [|split; [done|split; [right; split|done]]]].
    + split; [unfold taken; rewrite Hc2; exact Htk|by rewrite Hc2].
    + intros f Hf. apply Hf2; [|auto]. intros ->. by apply Hnt, Hf.
    + apply (pw_range s1 Hwf1), Hfresh.
    + done.
  - rewrite (bind_Ok _ _ _ _ _ (ret_Ok () s1)). exists r, s1.
    split; [done|]. split; [done|]. split; [done|]. split; [done|]. split; [done|].
    split; [left; destruct (decide (r = 0)); tauto|done].
Qed.

Lemma map_page_run s p va f pm :
  pt_wf s → used (cont_look (pt_cont s) p) ≠ 0 → 1 <= p < NUM_IDS → user_va va →
  fresh s f → 0 <= pm < 4096 →
  ∃ r s', map_page p va f pm s = Ok r s' ∧ pt_wf s' ∧ pt_grows s s' ∧
    (∀ q va', 1 <= q < NUM_IDS → user_va va' → translate s' q va' =
       if decide (r ≠ MagicNumber ∧ q = p ∧ va' / 4096 = va / 4096)
       then f * 4096 + pm else translate s q va') ∧
    (∀ i, room s p i → r ≠ MagicNumber).
Proof.
  intros Hwf Hu Hp Hva Hf Hpm. destruct (user_va_index p va Hp Hva) as [Hpd Hpt].
  pose proof (user_pd_bounds _ _ Hpd) as [Hp' Hd].
  unfold map_page, get_pdir_entry_by_va.
  rewrite (bind_Ok _ _ _ _ _ (get_pdir_entry_Ok s p _ Hp' Hd)).
  assert (∃ r s1, (if bool_decide (pde_look s p (pde_index_of va) ≠ 0) then mret 0
    else result ← alloc_ptbl p va;
         mret (if bool_decide (result = 0) then MagicNumber else result)) s = Ok r s1 ∧
    pt_wf s1 ∧ pt_grows s s1 ∧ fresh s1 f ∧
    (∀ q va', 1 <= q < NUM_IDS → user_va va' → translate s1 q va' = translate s q va') ∧
    (r ≠ MagicNumber → pde_look s1 p (pde_index_of va) ≠ 0) ∧
    (∀ i, room s p i → r ≠ MagicNumber))
    as (r & s1 & Hr & Hwf1 & Hg & Hf1 & Htr & Hnz & Hroom).
  { case_bool_decide as E.
    - exists 0, s. split; [done|]. split; [done|]. split; [done|]. by split_and!.
    - destruct (alloc_ptbl_run s p va Hwf Hu Hp Hva) as (r & s1 & Hr & Hwf1 & Hg & Hfr & Htr & Hc & Hroom);
        [by destruct (decide (pde_look s p (pde_index_of va) = 0))|].
      eexists _, s1. rewrite (bind_Ok _ _ _ _ _ Hr). split; [reflexivity|].
      split; [done|]. split; [done|]. split; [auto|]. split; [done|]. split.
      + intros Hm. destruct Hc as [->|[_ ?]]; done.
      + intros i Hi. rewrite bool_decide_eq_false_2 by eauto.
        destruct Hc as [->|[Hr' _]]; [by destruct (Hroom i)|].
        change (262144 <= r < 983040) in Hr'. unfold MagicNumber. lia. }
  rewrite (bind_Ok _ _ _ _ _ Hr). clear Hr. case_bool_decide as Hm.
  2: { exists r, s1. split; [reflexivity|]. split; [done|]. split; [done|]. split; [|done].
       intros. rewrite decide_False by tauto. auto. }
  unfold set_ptbl_entry_by_va, set_ptbl_entry. change PAGESIZE with 4096.
  pose proof (pw_range s1 Hwf1 f (proj1 (proj1 Hf1))) as Hrg. change (262144 <= f < 983040) in Hrg.
  rewrite u32_small by (unfold is_u32, W32; lia).
  rewrite (bind_Ok _ _ _ _ _ (put_ptbl_entry_Ok s1 p _ _ _ Hp' Hd)).
  eexists r, _. split; [reflexivity|]. split; [apply store_pte_wf; auto|]. split; [done|].
  split; [|done]. intros q va' Hq Hva'. destruct (user_va_index q va' Hq Hva') as [Hqd Hqt].
  rewrite <- (Htr q va' Hq Hva'). unfold translate.
  change (pde_look (store_pte _ _ _ _ _) ?a ?b) with (pde_look s1 a b).
  pose proof (va_page_index va' va) as Hix.
  case_bool_decide as E0.
  - rewrite decide_False; [done|]. intros (_ & -> & E%Hix). injection E as E1 _.
    rewrite E1 in E0. by apply Hnz.
  - rewrite pte_look_store; [|apply Hwf1|auto..|unfold is_u32, W32; lia].
    apply decide_ext. rewrite <- Hix. split; [intros [= -> -> ->]; by split_and!|].
    by intros (_ & -> & [= -> ->]).
Qed.

Lemma pt_wf_lk lk s : pt_wf s → pt_wf (set_pt_lk lk s).
Proof.
  intros Hwf. assert (∀ sl f, refs (set_pt_lk lk s) sl f → refs s sl f) as Hrefs
    by (by intros []).
  apply (pt_wf_step s _ (PdeSlot 0 0) Hwf); [|done|by left; apply Hrefs].
  destruct (pw_tbl s Hwf). by split.
Qed.

Lemma alloc_page_run s p va pm :
  pt_wf s → pt_lk s = spinlock_init → used (cont_look (pt_cont s) p) ≠ 0 → 1 <= p < NUM_IDS → user_va va →
  0 <= pm < 4096 →
  ∃ r s', alloc_page p va pm s = Ok r s' ∧ pt_wf s' ∧ pt_lk s' = spinlock_init ∧
    pt_grows s s' ∧ (∀ i j, room2 s p i j → r ≠ MagicNumber) ∧ ∃ f, (r ≠ MagicNumber → ¬ taken s f) ∧
      ∀ q va', 1 <= q < NUM_IDS → user_va va' →
        get_ptbl_entry_by_va q va' s' =
          Ok (if decide (r ≠ MagicNumber ∧ q = p ∧ va' / 4096 = va / 4096)
              then f * 4096 + pm else translate s q va') s'.
Proof.
  intros Hwf Hlk Hu Hp Hva Hpm. unfold alloc_page, pt_spinlock_acquire, pt_spinlock_release.
  rewrite (bind_Ok _ _ _ _ _ (spinlock_acquire_free _ _ _ Hlk)).
  set (s1 := set_pt_lk locked s). pose proof (pt_wf_lk locked s Hwf : pt_wf s1) as Hwf1.
  destruct (pt_container_alloc s1 p Hwf1 Hu) as (f & c & Hr & Hwf2 & Hg2 & Hf & Hroom & Hroom2).
  pose proof Hg2 as (Htk & Hus & _).
  rewrite (bind_Ok _ _ _ _ _ Hr). set (s2 := with_cont c s1) in *.
  assert (∃ r s3, (if bool_decide (f = 0) then mret MagicNumber else map_page p va f pm) s2
      = Ok r s3 ∧ pt_wf s3 ∧ pt_grows s s3 ∧ (r ≠ MagicNumber → ¬ taken s f) ∧
      (∀ i j, room2 s p i j → r ≠ MagicNumber) ∧
      ∀ q va', 1 <= q < NUM_IDS → user_va va' → translate s3 q va' =
         if decide (r ≠ MagicNumber ∧ q = p ∧ va' / 4096 = va / 4096)
         then f * 4096 + pm else translate s q va') as (r & s3 & Hr3 & Hwf3 & Hg3 & Hnt & Hrm & Htr).
  { case_bool_decide as E.
    - exists MagicNumber, s2. split; [done|]. split; [done|]. split; [done|]. split; [done|].
      split; [intros i j (? & ? & ? & ? & _); exfalso; apply (Hroom i); [|done];
              split; [simpl; lia|]; split; [simpl; lia|done]|].
      intros. by rewrite decide_False by tauto.
    - destruct (Hf E) as [Hfr Hnt].
      destruct (map_page_run s2 p va f pm Hwf2) as (r & s3 & Hr3 & Hwf3 & Hg3 & Htr & Hrm); auto.
      { simpl. by rewrite Hus. }
      exists r, s3. split; [done|]. split; [done|]. split; [by apply (pt_grows_trans s s2 s3)|].
      split; [done|]. split; [|done]. intros i j Hij. apply (Hrm j), (Hroom2 i j Hij). }
  rewrite (bind_Ok _ _ _ _ _ Hr3).
  eexists r, (set_pt_lk _ s3). split; [reflexivity|]. split; [by apply pt_wf_lk|].
  split; [done|]. split; [done|]. split; [done|]. exists f. split; [done|].
  intros q va' Hq Hva'. rewrite <- (Htr q va' Hq Hva').
  by rewrite get_ptbl_entry_by_va_Ok by done.
Qed.

(** C6: Isolation is kept by page allocation: from a state in which every frame
    named by a page directory or page table of a user process is allocated and named
    only there, and the kernel's identity map is in place, [alloc_page] for a user
    address returns in such a state with its lock free; either it reports failure and
    no translation of any process changed, or the page of that address in that process
    is mapped with the permission to a frame that was free before, and no translation
    of any other page or process changed.  It does not fail while the quota and the
    allocator have a page for the data and one for the table. *)
Theorem alloc_page_isolation s p va pm :
  pt_wf s → pt_lk s = spinlock_init → used (cont_look (pt_cont s) p) ≠ 0 → 1 <= p < NUM_IDS → user_va va →
  0 <= pm < 4096 →
  ∃ r s', alloc_page p va pm s = Ok r s' ∧ pt_wf s' ∧ pt_lk s' = spinlock_init ∧
    pt_grows s s' ∧ (∀ i j, room2 s p i j → r ≠ MagicNumber) ∧ ∃ f, (r ≠ MagicNumber → ¬ taken s f) ∧
      ∀ q va', 1 <= q < NUM_IDS → user_va va' →
        get_ptbl_entry_by_va q va' s' =
          Ok (if decide (r ≠ MagicNumber ∧ q = p ∧ va' / 4096 = va / 4096)
              then f * 4096 + pm else translate s q va') s'.
Proof. apply alloc_page_run. Qed.

(** ** Boot *)

Definition ident_upto (a : Z) (m : gmap Z Z) (d0 t0 : Z) : Prop :=
  ∀ d t, 0 <= d < 1024 → 0 <= t < 1024 → d < d0 ∨ d = d0 ∧ t < t0 →
    load32 m (a + d * 4096 + t * 4) = (d * 1024 + t) * 4096 + id_perm d.

Lemma ident_store a m d t :
  0 <= d < 1024 → 0 <= t < 1024 → ident_upto a m d t →
  ident_upto a (store32 (a + d * 4096 + t * 4) ((d * 1024 + t) * 4096 + id_perm d) m) d (t + 1).
Proof.
  intros Hd Ht Hm d' t' Hd' Ht' Hlt.
  destruct (decide (d' = d ∧ t' = t)) as [[-> ->]|Hne].
  - apply load_store_eq. unfold is_u32, W32, id_perm. destruct (_ || _); lia.
  - rewrite load_store_ne by lia. apply Hm; lia.
Qed.

Lemma ident_next a m d : ident_upto a m d 1024 → ident_upto a m (d + 1) 0.
Proof. intros H d' t' ? ? ?. apply H; lia. Qed.

(** The two loops of [idptbl_init]. *)
Lemma idptbl_loops s :
  ∃ m, idptbl_loop s = Ok () (set_mem m s) ∧
    ident_upto (IDPTbl_addr s) m 1024 0.
Proof.
  set (I := λ d t s', ∃ m, s' = set_mem m s ∧ ident_upto (IDPTbl_addr s) m d t).
  destruct (for_range_inv (λ i s', I i 0 s') (λ i,
    let perm := if bool_decide (i < 256) || bool_decide (i >= 960)
                then Z.lor (Z.lor PTE_P PTE_W) PTE_G else Z.lor PTE_P PTE_W in
    for_range 0 1024 (λ j, set_ptbl_entry_identity i j perm)) 0 1024 s)
    as (s' & Hr & m & -> & Hm); [lia| | |exists m; split; [exact Hr|exact Hm]].
  - exists (mem s). split; [by destruct s|]. intros d t. lia.
  - intros i s1 Hi HI. cbv zeta.
    replace (if _ || _ then _ else _) with (id_perm i) by (unfold id_perm; by destruct (_ || _)).
    destruct (for_range_inv (λ j s', I i j s')
      (λ j, set_ptbl_entry_identity i j (id_perm i)) 0 1024 s1)
      as (s2 & Hr & m & -> & Hm); [lia|exact HI| |].
    + intros j s2 Hj (m & -> & Hm). unfold set_ptbl_entry_identity. kstep.
      eexists. split; [reflexivity|]. eexists. split; [reflexivity|].
      simpl. change PAGESIZE with 4096. rewrite u32_small; [by apply ident_store|].
      unfold is_u32, W32, id_perm. destruct (_ || _); lia.
    + eexists. split; [exact Hr|]. exists m. split; [done|]. by apply ident_next.
Qed.

(** The directory entries after [pdir_init_kern]. *)
Definition boot_pde (a p d : Z) : Z :=
  if decide (user_pd p d) then 0 else a + d * 4096 + 7.

Lemma set_pdir_entry_identity_Ok s p d :
  0 <= p < NUM_IDS → 0 <= d < 1024 →
  0 < IDPTbl_addr s → IDPTbl_addr s + 4194304 <= VM_USERLO →
  set_pdir_entry_identity p d s =
    Ok () (set_PDirPool (<[(p, d) := IDPTbl_addr s + d * 4096 + 7]> (PDirPool s)) s).
Proof.
  intros Hp Hd H0 H1. unfold set_pdir_entry_identity. kstep. rewrite put_pdir_entry_Ok by done.
  change PT_PERM_PTU with 7. change PAGESIZE with 4096. change VM_USERLO with 1073741824 in *.
  by rewrite u32_small by (unfold is_u32, W32; lia).
Qed.

Lemma pdir_init_row s p :
  0 <= p < NUM_IDS → 0 < IDPTbl_addr s → IDPTbl_addr s + 4194304 <= VM_USERLO →
  ∃ pd, for_range 0 1024 (λ j,
      if bool_decide (j < 256) || bool_decide (j >= 960)
      then set_pdir_entry_identity p j else rmv_pdir_entry p j) s = Ok () (set_PDirPool pd s) ∧
    ∀ q d, default 0 (pd !! (q, d)) =
      if decide (q = p ∧ 0 <= d < 1024)
      then (if decide (256 <= d < 960) then 0 else IDPTbl_addr s + d * 4096 + 7)
      else pde_look s q d.
Proof.
  intros Hp H0 H1.
  destruct (for_range_inv (λ j s', ∃ pd, s' = set_PDirPool pd s ∧
    ∀ q d, default 0 (pd !! (q, d)) =
      if decide (q = p ∧ 0 <= d < j)
      then (if decide (256 <= d < 960) then 0 else IDPTbl_addr s + d * 4096 + 7)
      else pde_look s q d) (λ j,
      if bool_decide (j < 256) || bool_decide (j >= 960)
      then set_pdir_entry_identity p j else rmv_pdir_entry p j) 0 1024 s)
    as (s' & Hr & pd & -> & Hpd); [lia| | |exists pd; split; [exact Hr|exact Hpd]].
  - exists (PDirPool s). split; [by destruct s|]. intros q d. by rewrite decide_False by lia.
  - intros j s' Hj (pd & -> & Hpd).
    set (v := if decide (256 <= j < 960) then 0 else IDPTbl_addr s + j * 4096 + 7).
    assert ((if bool_decide (j < 256) || bool_decide (j >= 960)
      then set_pdir_entry_identity p j else rmv_pdir_entry p j) (set_PDirPool pd s) =
      Ok () (set_PDirPool (<[(p, j) := v]> pd) s)) as ->.
    { destruct (_ || _) eqn:E.
      - rewrite set_pdir_entry_identity_Ok by done. simpl. unfold v. rewrite decide_False; [done|].
        rewrite orb_true_iff, !bool_decide_eq_true in E. lia.
      - unfold rmv_pdir_entry. rewrite put_pdir_entry_Ok by done. simpl. unfold v.
        rewrite decide_True; [done|]. rewrite orb_false_iff, !bool_decide_eq_false in E. lia. }
    eexists. split; [reflexivity|]. eexists. split; [reflexivity|]. intros q d.
    destruct (decide ((p, j) = (q, d))) as [E|E].
    + injection E as -> ->. rewrite lookup_insert_eq. by rewrite decide_True by lia.
    + rewrite lookup_insert_ne, Hpd by done. apply decide_ext. split; [lia|].
      intros [-> ?]. assert (d ≠ j) by congruence. lia.
Qed.

Lemma pdir_loops s :
  0 < IDPTbl_addr s → IDPTbl_addr s + 4194304 <= VM_USERLO →
  ∃ pd, pdir_loop s = Ok () (set_PDirPool pd s) ∧
    ∀ q d, 0 <= q < NUM_IDS → 0 <= d < 1024 → default 0 (pd !! (q, d)) =
      if decide (256 <= d < 960) then 0 else IDPTbl_addr s + d * 4096 + 7.
Proof.
  intros H0 H1.
  destruct (for_range_inv (λ i s', ∃ pd, s' = set_PDirPool pd s ∧
    ∀ q d, 0 <= q < i → 0 <= d < 1024 → default 0 (pd !! (q, d)) =
      if decide (256 <= d < 960) then 0 else IDPTbl_addr s + d * 4096 + 7)
    (λ i, for_range 0 1024 (λ j,
      if bool_decide (j < 256) || bool_decide (j >= 960)
      then set_pdir_entry_identity i j else rmv_pdir_entry i j)) 0 NUM_IDS s)
    as (s' & Hr & pd & -> & Hpd); [unfold NUM_IDS; lia| | |exists pd; split; [exact Hr|exact Hpd]].
  - exists (PDirPool s). split; [by destruct s|]. lia.
  - intros i s' Hi (pd & -> & Hpd).
    destruct (pdir_init_row (set_PDirPool pd s) i) as (pd' & Hr & Hpd'); [done..|].
    eexists. split; [exact Hr|]. exists pd'. split; [done|]. intros q d Hq Hd.
    rewrite Hpd'. case_decide as E; [done|]. apply Hpd; lia.
Qed.

Lemma kern_dir_loop s :
  0 < IDPTbl_addr s → IDPTbl_addr s + 4194304 <= VM_USERLO →
  ∃ pd, kern_loop s = Ok () (set_PDirPool pd s) ∧
    ∀ q d, default 0 (pd !! (q, d)) =
      if decide (q = 0 ∧ 256 <= d < 960) then IDPTbl_addr s + d * 4096 + 7 else pde_look s q d.
Proof.
  intros H0 H1.
  destruct (for_range_inv (λ i s', ∃ pd, s' = set_PDirPool pd s ∧
    ∀ q d, default 0 (pd !! (q, d)) =
      if decide (q = 0 ∧ 256 <= d < i) then IDPTbl_addr s + d * 4096 + 7 else pde_look s q d)
    (λ i, set_pdir_entry_identity 0 i) 256 960 s)
    as (s' & Hr & pd & -> & Hpd); [lia| | |exists pd; split; [exact Hr|exact Hpd]].
  - exists (PDirPool s). split; [by destruct s|]. intros. by rewrite decide_False by lia.
  - intros i s' Hi (pd & -> & Hpd).
    rewrite set_pdir_entry_identity_Ok by (unfold NUM_IDS; done || lia).
    eexists. split; [reflexivity|]. eexists. split; [reflexivity|]. intros q d.
    destruct (decide ((0, i) = (q, d))) as [E|E].
    + injection E as <- <-. rewrite lookup_insert_eq. by rewrite decide_True by lia.
    + simpl. rewrite lookup_insert_ne, Hpd by done. apply decide_ext. split; [lia|].
      intros [-> ?]. assert (d ≠ i) by congruence. lia.
Qed.

Definition pt0 (lk : spinlock_t) (a : Z) (m : gmap Z Z) : pt_state :=
  {| pt_cont := cont0; pt_lk := lk; PDirPool := ∅; IDPTbl_addr := a; mem := m;
     cr3 := 0; paging := false |}.

(** The empty address spaces that boot leaves satisfy the invariant. *)
Lemma pt_wf_boot s :
  cont_wf (pt_cont s) →
  (∀ f, 1 < perm (at_look (pt_at s) f) → VM_USERLO_PI <= f < VM_USERHI_PI) →
  IDPTbl_addr s mod 4096 = 0 → 0 < IDPTbl_addr s → IDPTbl_addr s + 4194304 <= VM_USERLO →
  ident_upto (IDPTbl_addr s) (mem s) 1024 0 →
  (∀ p d, 0 <= p < NUM_IDS → 0 <= d < 1024 → pde_look s p d = boot_pde (IDPTbl_addr s) p d) →
  pt_wf s.
Proof.
  intros Hc Hrg Ha1 Ha2 Ha3 Hid Hpd.
  assert (∀ p d, user_pd p d → pde_look s p d = 0) as H0.
  { intros p d Hu. rewrite Hpd by (unfold user_pd in Hu; lia). unfold boot_pde.
    by rewrite decide_True. }
  assert (∀ sl f, ¬ refs s sl f) as Hno.
  { intros [p d|p d t] f; simpl; [|intros (Hu & _ & H & _); by rewrite H0 in H].
    intros (Hu & H & _). by rewrite H0 in H. }
  split; [split|done..| |]; try done.
  - intros p d ? ? Hu. rewrite Hpd by done. unfold boot_pde. by rewrite decide_False.
  - intros p d Hu. left. auto.
  - intros p d p' d' Hu _ H. by rewrite H0 in H.
  - intros d t ? ?. apply Hid; lia.
  - intros sl f H. by destruct (Hno sl f).
  - intros sl sl' f H. by destruct (Hno sl f).
Qed.

Lemma boot_tables s :
  cont_wf (pt_cont s) →
  (∀ f, 1 < perm (at_look (pt_at s) f) → VM_USERLO_PI <= f < VM_USERHI_PI) →
  IDPTbl_addr s mod 4096 = 0 → 0 < IDPTbl_addr s → IDPTbl_addr s + 4194304 <= VM_USERLO →
  ∃ s1 s2 s3, idptbl_loop s = Ok () s1 ∧ pdir_loop s1 = Ok () s2 ∧ kern_loop s2 = Ok () s3 ∧
    pt_wf s3 ∧ pt_cont s3 = pt_cont s ∧ pt_lk s3 = pt_lk s ∧
    ∀ q d, user_pd q d → pde_look s3 q d = 0.
Proof.
  intros Hc Hrg Hid1 Hid2 Hid3.
  destruct (idptbl_loops s) as (m1 & Hm & Hident). set (s2 := set_mem m1 s) in *.
  destruct (pdir_loops s2 Hid2 Hid3) as (pd & Hpd & Hpdl). set (s3 := set_PDirPool pd s2) in *.
  destruct (kern_dir_loop s3 Hid2 Hid3) as (pd' & Hpd' & Hpdl').
  set (s4 := set_PDirPool pd' s3) in *.
  exists s2, s3, s4. do 3 (split; [assumption|]). clear Hm Hpd Hpd'.
  assert (∀ q d, 0 <= q < NUM_IDS → 0 <= d < 1024 →
      pde_look s4 q d = boot_pde (IDPTbl_addr s) q d) as Hboot.
  { intros q d Hq Hd. unfold pde_look, s4; simpl. rewrite Hpdl'.
    unfold pde_look, s3; simpl. rewrite Hpdl by done. unfold boot_pde, user_pd.
    change (IDPTbl_addr s2) with (IDPTbl_addr s). repeat case_decide; lia. }
  split; [by apply pt_wf_boot|]. split; [done|]. split; [done|].
  intros q d Hu. pose proof (user_pd_bounds _ _ Hu).
  rewrite Hboot by lia. unfold boot_pde. by rewrite decide_True.
Qed.

Lemma translate_empty s q va :
  (∀ q d, user_pd q d → pde_look s q d = 0) → 1 <= q < NUM_IDS → user_va va →
  translate s q va = 0.
Proof.
  intros H Hq Hva. unfold translate. destruct (user_va_index q va Hq Hva) as [Hu _].
  by rewrite bool_decide_eq_true_2 by auto.
Qed.

Lemma paging_init_run t p a lk idptbl m :
  Z.of_nat (length t) <= 128 → Forall row_ok t → p ∈ t → row_says p MEM_RAM a →
  idptbl mod 4096 = 0 → 0 < idptbl → idptbl + 4194304 <= VM_USERLO →
  ∃ s, paging_init t (pt0 lk idptbl m) = Ok () s ∧ pt_wf s ∧
    pt_lk s = spinlock_init ∧ cr3 s = 0 ∧ paging s = true ∧
    (∀ q va, 1 <= q < NUM_IDS → user_va va → translate s q va = 0) ∧ ∃ q, CONTAINER (pt_cont s) = {[ 0 := root_container q ]}.
Proof.
  intros Hlen Ht Hp Ha Hid1 Hid2 Hid3.
  destruct (container_init_run t p a Hlen Ht Hp Ha) as (c & Hr & Hc & Hfree & Hrg & Hroot).
  unfold paging_init, pt_spinlock_init. kstep.
  unfold pdir_init_kern, pdir_init, idptbl_init.
  set (s0 := set_pt_lk _ _).
  destruct (boot_tables (with_cont c s0)) as (s1 & s2 & s3 & H1 & H2 & H3 & Hwf & Hc3 & Hlk & Htr);
    [done|intros f Hf; by apply Hrg|done..|].
  erewrite bind_Ok.
  2: { erewrite bind_Ok; [exact H3|]. erewrite bind_Ok; [exact H2|].
       erewrite bind_Ok; [exact H1|]. by apply zoom_Ok. }
  unfold pt_spinlock_acquire. rewrite (bind_Ok _ _ _ _ _ (spinlock_acquire_free _ _ s3 Hlk)).
  clear H1 H2 H3. eexists. split; [reflexivity|].
  split; [|split_and!; [done..|intros; by apply (translate_empty s3)|]].
  - apply (pt_wf_step s3 _ (PdeSlot 0 0) Hwf); [|done|by intros []; left].
    destruct (pw_tbl s3 Hwf). by split.
  - eexists. etransitivity; [|exact Hroot]. change (CONTAINER (pt_cont s3) = CONTAINER c). by rewrite Hc3.
Qed.

(** Boot of the address spaces: wherever the linker put the identity table in
    the kernel part of memory, whatever memory holds, and for every acceptable BIOS map with some RAM,
    [paging_init] succeeds; afterwards paging runs on the directory of process 0, the
    kernel's identity map is complete, every user address space is empty, the lock is
    free and the invariant of the page tables holds. *)
Theorem paging_init_establishes t p a lk idptbl m :
  Z.of_nat (length t) <= 128 → Forall row_ok t → p ∈ t → row_says p MEM_RAM a →
  idptbl mod 4096 = 0 → 0 < idptbl → idptbl + 4194304 <= VM_USERLO →
  ∃ s, paging_init t (pt0 lk idptbl m) = Ok () s ∧ pt_wf s ∧
    pt_lk s = spinlock_init ∧ cr3 s = 0 ∧ paging s = true ∧
    ∀ q va, 1 <= q < NUM_IDS → user_va va → translate s q va = 0.
Proof.
  intros H1 H2 H3 H4 H5 H6 H7. destruct (paging_init_run t p a lk idptbl m H1 H2 H3 H4 H5 H6 H7) as (s & E & A & B & C & D & F & _).
  by exists s.
Qed.

Lemma paging_init_establishes_witness :
  ∃ s, paging_init sample_map (pt0 locked 4194304 ∅) = Ok () s ∧ pt_wf s ∧
    pt_lk s = spinlock_init ∧ cr3 s = 0 ∧ paging s = true ∧
    ∀ q va, 1 <= q < NUM_IDS → user_va va → translate s q va = 0.
Proof.
  eapply (paging_init_establishes sample_map _ 1048576);
    [simpl; lia|repeat constructor; simpl; lia|apply list_elem_of_here|
     |reflexivity|reflexivity|vm_compute; congruence].
  split_and!; [reflexivity|reflexivity|done|reflexivity|right; reflexivity].
Defined.

(** ** A machine with two processes

    Four pages of user memory, the root process and its first child. *)

Definition user_at : at_state :=
  {| at_mboot := mboot0; mem_lk := spinlock_init; NUM_PAGES := 262149;
     AT := list_to_map ((λ i, (i, {| perm := 2; allocated := 0 |})) <$> seqZ 262145 4);
     last_palloc_index := 262144 |}.

Lemma user_at_perm f :
  0 <= perm (at_look user_at f) ∧
  (1 < perm (at_look user_at f) → VM_USERLO_PI <= f < VM_USERHI_PI).
Proof.
  unfold at_look, alook. destruct (AT user_at !! f) as [e|] eqn:E; simpl; [|lia].
  apply elem_of_list_to_map_2, list_elem_of_fmap in E as (j & [= -> ->] & Hj). simpl.
  apply elem_of_seqZ in Hj. change VM_USERLO_PI with 262144. change VM_USERHI_PI with 983040. lia.
Qed.

Lemma sample_processes q :
  0 <= q <= 100 →
  ∃ s, pt_wf s ∧ pt_lk s = spinlock_init ∧ pt_at s = user_at ∧
    cont_look (pt_cont s) 1 = split_child 0 q ∧
    ∀ p d, user_pd p d → pde_look s p d = 0.
Proof.
  intros Hq.
  set (c0 := {| c_at := user_at; CONTAINER := {[ 0 := root_container 100 ]} |}).
  assert (cont_wf c0) as Hc0.
  { apply cont_wf_root; [|lia]. split; [done|done|vm_compute; intuition congruence|].
    intros f. apply user_at_perm. }
  assert (can_split c0 0 q) as Hcan.
  { unfold can_split. change (cont_look c0 0) with (root_container 100). simpl.
    unfold MAX_CHILDREN, NUM_IDS. lia. }
  destruct (container_split_run c0 0 q Hc0 Hcan) as (c & _ & Hch & _ & Hfree & Hat & Hlook).
  pose proof (container_split_wf c0 c 0 q Hc0 Hcan Hch Hat Hfree Hlook) as Hc.
  destruct (boot_tables (with_cont c (pt0 spinlock_init 4194304 ∅)))
    as (_ & _ & s & _ & _ & _ & Hwf & Hcs & Hlk & Htr); simpl.
  - done.
  - rewrite Hat. apply user_at_perm.
  - done.
  - done.
  - by vm_compute.
  - exists s. rewrite Hcs. split_and!; [done..|exact (Hlook 1)|done].
Qed.

Lemma alloc_page_isolation_witness :
  ∃ s, pt_wf s ∧ used (cont_look (pt_cont s) 1) ≠ 0 ∧
  ∃ r s', alloc_page 1 1073741824 7 s = Ok r s' ∧ pt_wf s' ∧ pt_lk s' = spinlock_init ∧
    pt_grows s s' ∧ (∀ i j, room2 s 1 i j → r ≠ MagicNumber) ∧
    ∃ f, (r ≠ MagicNumber → ¬ taken s f) ∧
      ∀ q va', 1 <= q < NUM_IDS → user_va va' →
        get_ptbl_entry_by_va q va' s' =
          Ok (if decide (r ≠ MagicNumber ∧ q = 1 ∧ va' / 4096 = 1073741824 / 4096)
              then f * 4096 + 7 else translate s q va') s'.
Proof.
  destruct (sample_processes 10) as (s & Hwf & Hlk & _ & Hc & _); [lia|].
  exists s. split; [done|]. split; [by rewrite Hc|].
  apply (alloc_page_isolation s 1 1073741824 7); [done|done|by rewrite Hc|done|done|done].
Defined.

(** ** Unmapping *)

(** [unmap_page] on a user address returns the entry that was there and leaves
    no mapping for that page; every other translation and the invariant stay. *)
Theorem unmap_page_removes s p va :
  pt_wf s → 1 <= p < NUM_IDS → user_va va →
  ∃ s', unmap_page p va s = Ok (translate s p va) s' ∧ pt_wf s' ∧
    pt_cont s' = pt_cont s ∧
    ∀ q va', 1 <= q < NUM_IDS → user_va va' →
      translate s' q va' = if decide (q = p ∧ va' / 4096 = va / 4096) then 0
                           else translate s q va'.
Proof.
  intros Hwf Hp Hva. destruct (user_va_index p va Hp Hva) as [Hu Ht].
  pose proof (user_pd_bounds _ _ Hu) as [Hp' Hd].
  unfold unmap_page, rmv_ptbl_entry_by_va, rmv_ptbl_entry.
  rewrite (bind_Ok _ _ _ _ _ (get_ptbl_entry_by_va_Ok s p va Hp Hva)).
  assert (∀ q va', va' / 4096 = va / 4096 → q = p → translate s q va' = translate s p va) as Hpage.
  { intros q va' E%va_page_index ->. injection E as E1 E2. unfold translate. by rewrite E1, E2. }
  case_bool_decide as E0.
  2: { exists s. split; [done|]. split; [done|]. split; [done|].
       assert (translate s p va = 0) as E by (destruct (decide (translate s p va = 0)); tauto).
       intros q va' _ _. case_decide as E'; [|done]. by rewrite Hpage by tauto. }
  rewrite (bind_Ok _ _ _ _ _ (put_ptbl_entry_Ok s p _ _ _ Hp' Hd)).
  assert (pde_look s p (pde_index_of va) ≠ 0) as Hnz.
  { intros E. apply E0. unfold translate. by rewrite bool_decide_eq_true_2. }
  eexists. split; [reflexivity|]. split; [by apply clear_pte_wf|]. split; [done|].
  intros q va' Hq Hva'. destruct (user_va_index q va' Hq Hva') as [Hqu Hqt].
  unfold translate. change (pde_look (store_pte _ _ _ _ _) ?a ?b) with (pde_look s a b).
  case_bool_decide as E; [by case_decide|].
  rewrite pte_look_store; [|apply Hwf|done..|unfold is_u32, W32; lia].
  apply decide_ext. rewrite <- va_page_index. split; [by intros [= -> -> ->]|].
  by intros [-> [= -> ->]].
Qed.

Lemma unmap_page_removes_witness :
  ∃ s s', pt_wf s ∧ unmap_page 1 1073741824 s = Ok (translate s 1 1073741824) s' ∧ pt_wf s' ∧
    pt_cont s' = pt_cont s ∧
    ∀ q va', 1 <= q < NUM_IDS → user_va va' →
      translate s' q va' = if decide (q = 1 ∧ va' / 4096 = 1073741824 / 4096) then 0
                           else translate s q va'.
Proof.
  destruct (sample_processes 10) as (s & Hwf & _); [lia|]. exists s.
  destruct (unmap_page_removes s 1 1073741824) as (s' & ?); [done..|]. by exists s'.
Defined.

(** A failing [alloc_page] loses a page: when the data page is allocated but no page
    is left in the quota for the table, the call reports failure, and the data page
    stays allocated and charged although nothing names it. *)
Lemma alloc_page_leaks :
  ∃ s s' f, pt_wf s ∧ pt_wf s' ∧ alloc_page 1 1073741824 7 s = Ok MagicNumber s' ∧
    ¬ taken s f ∧ fresh s' f ∧ usage (cont_look (pt_cont s') 1) = 1.
Proof.
  destruct (sample_processes 1) as (s & Hwf & Hlk & Hat & Hc & Htr); [lia|].
  pose proof (pt_wf_lk locked s Hwf) as Hwf1. set (s1 := set_pt_lk locked s) in *.
  assert (used (cont_look (pt_cont s1) 1) ≠ 0) as Hu by (simpl; by rewrite Hc).
  destruct (pt_container_alloc s1 1 Hwf1 Hu) as (f & c & Hr & Hwf2 & (Htk & Hus & _) & Hf & _).
  destruct (container_alloc_run (pt_cont s1) 1 (pw_cont s1 Hwf1) Hu) as [[E _]|(_ & r & a & Hr' & Hp)].
  { simpl in E. by rewrite Hc in E. }
  pose proof (zoom_Ok (container_alloc 1) s1 _ _ Hr') as Hrz. rewrite Hr in Hrz.
  injection Hrz as <- Hc2. set (s2 := with_cont c s1) in *.
  assert (f ≠ 0) as Hf0.
  { intros ->. destruct Hp as (_ & _ & _ & [(_ & _ & _ & Hno)|(Hl & _)]).
    - simpl in Hno. rewrite Hat in Hno. apply (Hno 262145); [simpl; lia|]. vm_compute. done.
    - simpl in Hl. rewrite Hat in Hl. simpl in Hl. lia. }
  destruct (Hf Hf0) as [Hfr Hnt].
  assert (cont_look (pt_cont s2) 1 = bump (split_child 0 1)) as Hl2.
  { simpl. rewrite Hc2. unfold cont_look; simpl. rewrite alook_insert_eq. f_equal. exact Hc. }
  destruct (container_alloc_run (pt_cont s2) 1 (pw_cont s2 Hwf2)) as [[_ Hr2]|[E _]];
    [by rewrite Hl2| |by rewrite Hl2 in E].
  assert (pde_look s2 1 256 = 0) as Hpde by (by apply Htr).
  exists s, (set_pt_lk spinlock_init s2), f.
  split; [done|]. split; [by apply pt_wf_lk|]. split.
  - unfold alloc_page, pt_spinlock_acquire.
    rewrite (bind_Ok _ _ _ _ _ (spinlock_acquire_free _ _ _ Hlk)).
    rewrite (bind_Ok _ _ _ _ _ Hr). rewrite (bool_decide_eq_false_2 (f = 0)) by done.
    assert (alloc_ptbl 1 1073741824 s2 = Ok 0 s2) as Ha.
    { unfold alloc_ptbl. pose proof (zoom_Ok (container_alloc 1) s2 _ _ Hr2) as Hz.
      by rewrite (bind_Ok _ _ _ _ _ Hz). }
    assert (map_page 1 1073741824 f 7 s2 = Ok MagicNumber s2) as Hm; [|by rewrite (bind_Ok _ _ _ _ _ Hm)].
    unfold map_page, get_pdir_entry_by_va.
    rewrite (bind_Ok _ _ _ _ _ (get_pdir_entry_Ok s2 1 256 ltac:(done) ltac:(done))), Hpde.
    rewrite (bool_decide_eq_false_2 (0 ≠ 0)) by lia.
    by erewrite bind_Ok; [|by rewrite (bind_Ok _ _ _ _ _ Ha)].
  - split; [done|]. split; [|by apply (f_equal usage) in Hl2].
    destruct Hfr as [H1 H2]. split; [done|]. intros sl H. apply (H2 sl). by destruct sl.
Qed.
