(* ===== verification/TCB.v ===== *)
(** * Thread control blocks (kern/thread/PTCBIntro, PTCBInit; kern/lib/thread.h, signal.h)

    The record of every process: scheduling state, links of the thread queues, the
    channel it sleeps on, open files, working directory and signal state. *)

From S2P Require Import Prelude Spinlock Mboot PMem Container PageTable.

Definition NOFILE : Z := 16.
Definition NSIG : Z := 32.
Definition SIGKILL : Z := 9.

Inductive t_state := TSTATE_READY | TSTATE_RUN | TSTATE_SLEEP | TSTATE_DEAD.

#[global] Instance t_state_eq_dec : EqDecision t_state.
Proof. solve_decision. Defined.

(** The addresses that the kernel sleeps on, by the object they point to. *)
Inductive chan :=
| ChNread (pipe : Z) | ChNwrite (pipe : Z) | ChInode (ip : Z) | ChBuf (b : Z) | ChLog
| ChSend (msg : Z) | ChRecv (msg : Z).

#[global] Instance chan_eq_dec : EqDecision chan.
Proof. solve_decision. Defined.

Record sigaction := {
  sa_handler : Z; sa_sigaction : Z; sa_flags : Z; sa_restorer : Z; sa_mask : Z
}.

Definition sigaction_zero : sigaction :=
  {| sa_handler := 0; sa_sigaction := 0; sa_flags := 0; sa_restorer := 0; sa_mask := 0 |}.

Record sig_state := {
  sigactions : gmap Z sigaction;
  pending_signals : Z;
  signal_block_mask : Z;
  saved_esp_addr : Z;
  saved_eip_addr : Z;
  in_signal_handler : Z
}.

Definition sig_state_zero : sig_state :=
  {| sigactions := ∅; pending_signals := 0; signal_block_mask := 0;
     saved_esp_addr := 0; saved_eip_addr := 0; in_signal_handler := 0 |}.

(** [openfiles] maps a descriptor to the index in the file table it points to;
    a descriptor that is not in the map is a null pointer, and so is [cwd = None]. *)
Record TCB := {
  state : t_state;
  prev : Z;
  next : Z;
  channel : option chan;
  openfiles : gmap Z Z;
  cwd : option Z;
  sigstate : sig_state
}.

(** Static storage: a block that was never written is all zero bytes. *)
Definition TCB_zero : TCB :=
  {| state := TSTATE_READY; prev := 0; next := 0; channel := None; openfiles := ∅;
     cwd := None; sigstate := sig_state_zero |}.

Record tcb_state := { tcb_pt : pt_state; TCBPool : gmap Z TCB }.

#[global, program] Instance tcb_pt_lens : Lens tcb_state pt_state := {|
  view := tcb_pt;
  put p s := {| tcb_pt := p; TCBPool := TCBPool s |}
|}.
Next Obligation. done. Qed.
Next Obligation. by intros []. Qed.
Next Obligation. done. Qed.

Definition upd_TCBPool (f : gmap Z TCB → gmap Z TCB) (s : tcb_state) : tcb_state :=
  {| tcb_pt := tcb_pt s; TCBPool := f (TCBPool s) |}.

Definition tcb_look (s : tcb_state) (pid : Z) : TCB := alook TCB_zero (TCBPool s) pid.

(** [TCBPool[pid]] and a store to one of its fields. *)
Definition tcb_get (pid : Z) : M tcb_state TCB := aget NUM_IDS TCB_zero TCBPool pid.

Definition tcb_upd (pid : Z) (f : TCB → TCB) : M tcb_state () :=
  t ← tcb_get pid; aset NUM_IDS upd_TCBPool pid (f t).

Definition with_state (v : t_state) (t : TCB) : TCB :=
  {| state := v; prev := prev t; next := next t; channel := channel t;
     openfiles := openfiles t; cwd := cwd t; sigstate := sigstate t |}.
Definition with_prev (v : Z) (t : TCB) : TCB :=
  {| state := state t; prev := v; next := next t; channel := channel t;
     openfiles := openfiles t; cwd := cwd t; sigstate := sigstate t |}.
Definition with_next (v : Z) (t : TCB) : TCB :=
  {| state := state t; prev := prev t; next := v; channel := channel t;
     openfiles := openfiles t; cwd := cwd t; sigstate := sigstate t |}.
Definition with_channel (v : option chan) (t : TCB) : TCB :=
  {| state := state t; prev := prev t; next := next t; channel := v;
     openfiles := openfiles t; cwd := cwd t; sigstate := sigstate t |}.
Definition with_openfiles (v : gmap Z Z) (t : TCB) : TCB :=
  {| state := state t; prev := prev t; next := next t; channel := channel t;
     openfiles := v; cwd := cwd t; sigstate := sigstate t |}.
Definition with_cwd (v : option Z) (t : TCB) : TCB :=
  {| state := state t; prev := prev t; next := next t; channel := channel t;
     openfiles := openfiles t; cwd := v; sigstate := sigstate t |}.
Definition with_sigstate (v : sig_state) (t : TCB) : TCB :=
  {| state := state t; prev := prev t; next := next t; channel := channel t;
     openfiles := openfiles t; cwd := cwd t; sigstate := v |}.

Definition tcb_get_state (pid : Z) : M tcb_state t_state := t ← tcb_get pid; mret (state t).

Definition tcb_set_state (pid : Z) (st : t_state) : M tcb_state () :=
  tcb_upd pid (with_state st).

Definition tcb_get_prev (pid : Z) : M tcb_state Z := t ← tcb_get pid; mret (prev t).

Definition tcb_set_prev (pid prev_pid : Z) : M tcb_state () := tcb_upd pid (with_prev prev_pid).

Definition tcb_get_next (pid : Z) : M tcb_state Z := t ← tcb_get pid; mret (next t).

Definition tcb_set_next (pid next_pid : Z) : M tcb_state () := tcb_upd pid (with_next next_pid).

Definition tcb_init_at_id (cpu_idx pid : Z) : M tcb_state () :=
  tcb_upd pid (λ _, {| state := TSTATE_DEAD; prev := NUM_IDS; next := NUM_IDS;
    channel := None; openfiles := ∅; cwd := None; sigstate := sig_state_zero |}).

Definition tcb_get_chan (pid : Z) : M tcb_state (option chan) :=
  t ← tcb_get pid; mret (channel t).

Definition tcb_set_chan (pid : Z) (c : option chan) : M tcb_state () :=
  tcb_upd pid (with_channel c).

(** The pointer to the table is modelled by its contents; the callers read it and
    write through [tcb_set_openfiles]. *)
Definition tcb_get_openfiles (pid : Z) : M tcb_state (gmap Z Z) :=
  t ← tcb_get pid; mret (openfiles t).

Definition tcb_set_openfiles (pid fd : Z) (f : option Z) : M tcb_state () :=
  if bool_decide (0 <= fd < NOFILE)
  then tcb_upd pid (λ t, with_openfiles (partial_alter (λ _, f) fd (openfiles t)) t)
  else undef.

Definition tcb_get_cwd (pid : Z) : M tcb_state (option Z) := t ← tcb_get pid; mret (cwd t).

Definition tcb_set_cwd (pid : Z) (d : option Z) : M tcb_state () := tcb_upd pid (with_cwd d).

Definition set_sigactions (v : gmap Z sigaction) (g : sig_state) : sig_state :=
  {| sigactions := v; pending_signals := pending_signals g;
     signal_block_mask := signal_block_mask g; saved_esp_addr := saved_esp_addr g;
     saved_eip_addr := saved_eip_addr g; in_signal_handler := in_signal_handler g |}.
Definition set_pending (v : Z) (g : sig_state) : sig_state :=
  {| sigactions := sigactions g; pending_signals := v;
     signal_block_mask := signal_block_mask g; saved_esp_addr := saved_esp_addr g;
     saved_eip_addr := saved_eip_addr g; in_signal_handler := in_signal_handler g |}.
Definition set_context (esp eip h : Z) (g : sig_state) : sig_state :=
  {| sigactions := sigactions g; pending_signals := pending_signals g;
     signal_block_mask := signal_block_mask g; saved_esp_addr := esp;
     saved_eip_addr := eip; in_signal_handler := h |}.

(** [None] is the null pointer. *)
Definition tcb_get_sigaction (pid signum : Z) : M tcb_state (option sigaction) :=
  if bool_decide (signum < 0) || bool_decide (signum >= NSIG) then mret None
  else t ← tcb_get pid; mret (Some (alook sigaction_zero (sigactions (sigstate t)) signum)).

Definition tcb_set_sigaction (pid signum : Z) (act : option sigaction) : M tcb_state () :=
  match act with
  | Some act =>
      if bool_decide (signum >= 0) && bool_decide (signum < NSIG) then
        tcb_upd pid (λ t, with_sigstate
          (set_sigactions (<[signum := act]> (sigactions (sigstate t))) (sigstate t)) t)
      else mret ()
  | None => mret ()
  end.

Definition tcb_get_pending_signals (pid : Z) : M tcb_state Z :=
  t ← tcb_get pid; mret (pending_signals (sigstate t)).

Definition tcb_set_pending_signals (pid signals : Z) : M tcb_state () :=
  tcb_upd pid (λ t, with_sigstate (set_pending signals (sigstate t)) t).

Definition tcb_add_pending_signal (pid signum : Z) : M tcb_state () :=
  if bool_decide (signum >= 0) && bool_decide (signum < NSIG) then
    tcb_upd pid (λ t, with_sigstate (set_pending
      (Z.lor (pending_signals (sigstate t)) (u32 (Z.shiftl 1 signum))) (sigstate t)) t)
  else mret ().

Definition tcb_clear_pending_signal (pid signum : Z) : M tcb_state () :=
  if bool_decide (signum >= 0) && bool_decide (signum < NSIG) then
    tcb_upd pid (λ t, with_sigstate (set_pending
      (Z.land (pending_signals (sigstate t)) (u32 (Z.lnot (Z.shiftl 1 signum)))) (sigstate t)) t)
  else mret ().

Definition tcb_set_signal_context (pid esp_addr eip_addr : Z) : M tcb_state () :=
  tcb_upd pid (λ t, with_sigstate (set_context esp_addr eip_addr 1 (sigstate t)) t).

Definition tcb_get_signal_context (pid : Z) : M tcb_state (Z * Z) :=
  t ← tcb_get pid; mret (saved_esp_addr (sigstate t), saved_eip_addr (sigstate t)).

Definition tcb_clear_signal_context (pid : Z) : M tcb_state () :=
  tcb_upd pid (λ t, with_sigstate (set_context 0 0 0 (sigstate t)) t).

Definition tcb_in_signal_handler (pid : Z) : M tcb_state Z :=
  t ← tcb_get pid; mret (in_signal_handler (sigstate t)).

Definition tcb_is_sleeping (pid : Z) : M tcb_state Z :=
  t ← tcb_get pid; mret (if bool_decide (state t = TSTATE_SLEEP) then 1 else 0).

Definition tcb_get_channel (pid : Z) : M tcb_state (option chan) :=
  t ← tcb_get pid; mret (channel t).

(** [tcb_init] declares [tcb_init_at_id] with one parameter and calls it with one
    argument; the second argument of the call for [pid] is whatever the stack holds,
    here [stk pid]. *)
Definition tcb_init (stk : Z → Z) (mbi : list mboot_mmap_t) : M tcb_state () :=
  zoom (paging_init mbi) ;;
  for_range 0 NUM_IDS (λ pid, tcb_init_at_id pid (stk pid)).

(** ** Laws *)

Lemma tcb_get_Ok s pid : 0 <= pid < NUM_IDS → tcb_get pid s = Ok (tcb_look s pid) s.
Proof. apply aget_Ok. Qed.

Lemma tcb_upd_Ok s pid f :
  0 <= pid < NUM_IDS →
  tcb_upd pid f s = Ok () (upd_TCBPool <[pid := f (tcb_look s pid)]> s).
Proof.
  intros H. unfold tcb_upd. rewrite (bind_Ok _ _ _ _ _ (tcb_get_Ok s pid H)). by apply aset_Ok.
Qed.

Lemma tcb_look_upd s pid t q :
  tcb_look (upd_TCBPool <[pid := t]> s) q = if decide (pid = q) then t else tcb_look s q.
Proof. apply alook_insert. Qed.
