(* ===== verification/TQueue.v ===== *)
(** * Thread queues (kern/thread/PTQueueIntro, PTQueueInit)

    A queue is a head and a tail; the elements are linked through the [prev] and
    [next] fields of the thread control blocks, and [NUM_IDS] is the null link.  The
    queue of a processor with number [NUM_IDS] is its ready queue. *)

From S2P Require Import Prelude Spinlock Mboot PMem Container PageTable TCB.

Record TQueue := { head : Z; tail : Z }.

Definition TQueue_zero : TQueue := {| head := 0; tail := 0 |}.

Record tq_state := { tq_tcb : tcb_state; TQueuePool : gmap (Z * Z) TQueue }.

#[global, program] Instance tq_tcb_lens : Lens tq_state tcb_state := {|
  view := tq_tcb;
  put t s := {| tq_tcb := t; TQueuePool := TQueuePool s |}
|}.
Next Obligation. done. Qed.
Next Obligation. by intros []. Qed.
Next Obligation. done. Qed.

Definition set_TQueuePool (q : gmap (Z * Z) TQueue) (s : tq_state) : tq_state :=
  {| tq_tcb := tq_tcb s; TQueuePool := q |}.

Definition tq_look (s : tq_state) (cpu chid : Z) : TQueue :=
  default TQueue_zero (TQueuePool s !! (cpu, chid)).

Definition tq_ok (cpu chid : Z) : bool :=
  bool_decide (0 <= cpu < NUM_CPUS) && bool_decide (0 <= chid <= NUM_IDS).

Definition tq_get (cpu chid : Z) : M tq_state TQueue := λ s,
  if tq_ok cpu chid then Ok (tq_look s cpu chid) s else Undef.

Definition tq_put (cpu chid : Z) (q : TQueue) : M tq_state () := λ s,
  if tq_ok cpu chid then Ok () (set_TQueuePool (<[(cpu, chid) := q]> (TQueuePool s)) s)
  else Undef.

Definition tqueue_get_head (chid : Z) : M tq_state Z := q ← tq_get cpu_idx chid; mret (head q).

Definition tqueue_set_head (chid h : Z) : M tq_state () :=
  q ← tq_get cpu_idx chid; tq_put cpu_idx chid {| head := h; tail := tail q |}.

Definition tqueue_get_tail (chid : Z) : M tq_state Z := q ← tq_get cpu_idx chid; mret (tail q).

Definition tqueue_set_tail (chid t : Z) : M tq_state () :=
  q ← tq_get cpu_idx chid; tq_put cpu_idx chid {| head := head q; tail := t |}.

Definition tqueue_init_at_id (cpu chid : Z) : M tq_state () :=
  tq_put cpu chid {| head := NUM_IDS; tail := NUM_IDS |}.

Definition tqueue_init (stk : Z → Z) (mbi : list mboot_mmap_t) : M tq_state () :=
  zoom (tcb_init stk mbi) ;;
  for_range 0 NUM_CPUS (λ cpu, for_range 0 (NUM_IDS + 1) (λ chid, tqueue_init_at_id cpu chid)).

Definition tqueue_enqueue (chid pid : Z) : M tq_state () :=
  tail ← tqueue_get_tail chid;
  if bool_decide (tail = NUM_IDS) then
    zoom (tcb_set_prev pid NUM_IDS) ;;
    zoom (tcb_set_next pid NUM_IDS) ;;
    tqueue_set_head chid pid ;;
    tqueue_set_tail chid pid
  else
    zoom (tcb_set_next tail pid) ;;
    zoom (tcb_set_prev pid tail) ;;
    zoom (tcb_set_next pid NUM_IDS) ;;
    tqueue_set_tail chid pid.

Definition tqueue_dequeue (chid : Z) : M tq_state Z :=
  head ← tqueue_get_head chid;
  if bool_decide (head ≠ NUM_IDS) then
    next ← zoom (tcb_get_next head);
    (if bool_decide (next = NUM_IDS) then
       tqueue_set_head chid NUM_IDS ;;
       tqueue_set_tail chid NUM_IDS
     else
       zoom (tcb_set_prev next NUM_IDS) ;;
       tqueue_set_head chid next) ;;
    zoom (tcb_set_prev head NUM_IDS) ;;
    zoom (tcb_set_next head NUM_IDS) ;;
    mret head
  else mret NUM_IDS.

Definition tqueue_remove (chid pid : Z) : M tq_state () :=
  head ← tqueue_get_head chid;
  tail ← tqueue_get_tail chid;
  prev ← zoom (tcb_get_prev pid);
  next ← zoom (tcb_get_next pid);
  if bool_decide (prev = NUM_IDS) && bool_decide (next = NUM_IDS) && bool_decide (head ≠ pid)
  then mret ()
  else
    (if bool_decide (prev = NUM_IDS) then
       if bool_decide (next = NUM_IDS) then
         tqueue_set_head chid NUM_IDS ;;
         tqueue_set_tail chid NUM_IDS
       else
         zoom (tcb_set_prev next NUM_IDS) ;;
         tqueue_set_head chid next
     else
       if bool_decide (next = NUM_IDS) then
         zoom (tcb_set_next prev NUM_IDS) ;;
         tqueue_set_tail chid prev
       else
         zoom (tcb_set_next prev next) ;;
         zoom (tcb_set_prev next prev)) ;;
    zoom (tcb_set_prev pid NUM_IDS) ;;
    zoom (tcb_set_next pid NUM_IDS).

(** ** Runs of the accessors

    The operations touch one queue record and links of control blocks. *)

Notation blk s pid := (tcb_look (tq_tcb s) pid).

Definition set_blk (pid : Z) (t : TCB) (s : tq_state) : tq_state :=
  {| tq_tcb := upd_TCBPool <[pid := t]> (tq_tcb s); TQueuePool := TQueuePool s |}.

Definition set_q (chid : Z) (q : TQueue) (s : tq_state) : tq_state :=
  set_TQueuePool (<[(cpu_idx, chid) := q]> (TQueuePool s)) s.

Lemma blk_set_blk s p t q : blk (set_blk p t s) q = if decide (p = q) then t else blk s q.
Proof. apply tcb_look_upd. Qed.

Lemma tq_look_set_q s chid q c c' :
  tq_look (set_q chid q s) c c' = if decide ((cpu_idx, chid) = (c, c')) then q else tq_look s c c'.
Proof.
  unfold tq_look; simpl. case_decide as E.
  - rewrite <- E. by rewrite lookup_insert_eq.
  - by rewrite lookup_insert_ne.
Qed.

Lemma blk_set_q s chid q x : blk (set_q chid q s) x = blk s x.
Proof. done. Qed.

Lemma tq_look_set_blk s p t c c' : tq_look (set_blk p t s) c c' = tq_look s c c'.
Proof. done. Qed.

Section Accessors.
Context (s : tq_state) (pid chid : Z).
Hypothesis Hpid : 0 <= pid < NUM_IDS.
Hypothesis Hchid : 0 <= chid <= NUM_IDS.

Lemma set_prev_Ok v : zoom (tcb_set_prev pid v) s = Ok () (set_blk pid (with_prev v (blk s pid)) s).
Proof. unfold tcb_set_prev. by rewrite (zoom_Ok _ s _ _ (tcb_upd_Ok _ pid _ Hpid)). Qed.

Lemma set_next_Ok v : zoom (tcb_set_next pid v) s = Ok () (set_blk pid (with_next v (blk s pid)) s).
Proof. unfold tcb_set_next. by rewrite (zoom_Ok _ s _ _ (tcb_upd_Ok _ pid _ Hpid)). Qed.

Lemma get_next_Ok : zoom (tcb_get_next pid) s = Ok (next (blk s pid)) s.
Proof.
  unfold tcb_get_next. erewrite (zoom_Ok (S:=tq_state)).
  2: { by rewrite (bind_Ok _ _ _ _ _ (tcb_get_Ok (view s) pid Hpid)). }
  by destruct s.
Qed.

Lemma get_prev_Ok : zoom (tcb_get_prev pid) s = Ok (prev (blk s pid)) s.
Proof.
  unfold tcb_get_prev. erewrite (zoom_Ok (S:=tq_state)).
  2: { by rewrite (bind_Ok _ _ _ _ _ (tcb_get_Ok (view s) pid Hpid)). }
  by destruct s.
Qed.

Lemma tq_ok_true : tq_ok cpu_idx chid = true.
Proof. unfold tq_ok. by rewrite !bool_decide_eq_true_2. Qed.

Lemma get_head_Ok : tqueue_get_head chid s = Ok (head (tq_look s cpu_idx chid)) s.
Proof. unfold tqueue_get_head, tq_get, mbind, M_bind. by rewrite tq_ok_true. Qed.

Lemma get_tail_Ok : tqueue_get_tail chid s = Ok (tail (tq_look s cpu_idx chid)) s.
Proof. unfold tqueue_get_tail, tq_get, mbind, M_bind. by rewrite tq_ok_true. Qed.

Lemma set_head_Ok h :
  tqueue_set_head chid h s =
    Ok () (set_q chid {| head := h; tail := tail (tq_look s cpu_idx chid) |} s).
Proof. unfold tqueue_set_head, tq_get, tq_put, mbind, M_bind. by rewrite tq_ok_true. Qed.

Lemma set_tail_Ok t :
  tqueue_set_tail chid t s =
    Ok () (set_q chid {| head := head (tq_look s cpu_idx chid); tail := t |} s).
Proof. unfold tqueue_set_tail, tq_get, tq_put, mbind, M_bind. by rewrite tq_ok_true. Qed.
End Accessors.

(** ** Doubly linked segments *)

Definition first_or (n : Z) (l : list Z) : Z := match l with [] => n | x :: _ => x end.

Fixpoint last_or (p : Z) (l : list Z) : Z :=
  match l with [] => p | x :: l => last_or x l end.

(** The blocks of [l] are linked in this order, after [p] and before [n]. *)
Fixpoint dll (f : Z → TCB) (p : Z) (l : list Z) (n : Z) : Prop :=
  match l with
  | [] => True
  | x :: r => prev (f x) = p ∧ next (f x) = first_or n r ∧ dll f x r n
  end.

Lemma last_or_app p l1 l2 : last_or p (l1 ++ l2) = last_or (last_or p l1) l2.
Proof. revert p. by induction l1; intros; simpl. Qed.

Lemma first_or_app n l1 l2 : first_or n (l1 ++ l2) = first_or (first_or n l2) l1.
Proof. by destruct l1. Qed.

Lemma last_or_snoc p l x : last_or p (l ++ [x]) = x.
Proof. by rewrite last_or_app. Qed.

Lemma last_or_in p l : l ≠ [] → last_or p l ∈ l.
Proof.
  intros Hl. destruct l as [|x l _] using rev_ind; [done|]. rewrite last_or_snoc. set_solver.
Qed.

Lemma dll_app f p l1 l2 n :
  dll f p (l1 ++ l2) n ↔ dll f p l1 (first_or n l2) ∧ dll f (last_or p l1) l2 n.
Proof.
  revert p. induction l1 as [|x l1 IH]; intros p; simpl; [tauto|].
  rewrite IH, first_or_app. tauto.
Qed.

Lemma dll_single f p x n : dll f p [x] n ↔ prev (f x) = p ∧ next (f x) = n.
Proof. simpl. tauto. Qed.

Lemma dll_links f g p l n :
  (∀ x, x ∈ l → prev (g x) = prev (f x) ∧ next (g x) = next (f x)) →
  dll f p l n → dll g p l n.
Proof.
  revert p. induction l as [|x l IH]; intros p Heq; simpl; [done|].
  destruct (Heq x) as [-> ->]; [set_solver|]. intros (? & ? & ?). split_and!; [done..|].
  apply IH; [|done]. set_solver.
Qed.

Lemma dll_ext f g p l n : (∀ x, x ∈ l → g x = f x) → dll f p l n → dll g p l n.
Proof. intros Heq. apply dll_links. intros x Hx. by rewrite Heq. Qed.

(** Relinking the ends of a segment. *)
Lemma dll_relink_last f g p l a n n' :
  a ∉ l → (∀ x, x ∈ l → g x = f x) → prev (g a) = prev (f a) → next (g a) = n' →
  dll f p (l ++ [a]) n → dll g p (l ++ [a]) n'.
Proof.
  intros Ha Hg Hp Hn. rewrite !dll_app. simpl. intros (H1 & H2 & _).
  split; [by apply (dll_ext f)|]. by rewrite Hp.
Qed.

Lemma dll_relink_first f g p b r n p' :
  b ∉ r → (∀ x, x ∈ r → g x = f x) → next (g b) = next (f b) → prev (g b) = p' →
  dll f p (b :: r) n → dll g p' (b :: r) n.
Proof.
  intros Hb Hg Hn Hp. simpl. intros (H1 & H2 & H3).
  split; [done|]. split; [by rewrite Hn|]. by apply (dll_ext f).
Qed.

(** ** A queue represents a list *)

Record queue_rep (s : tq_state) (chid : Z) (q : list Z) : Prop := {
  qr_nodup : NoDup q;
  qr_range x : x ∈ q → 0 <= x < NUM_IDS;
  qr_head : head (tq_look s cpu_idx chid) = first_or NUM_IDS q;
  qr_tail : tail (tq_look s cpu_idx chid) = last_or NUM_IDS q;
  qr_links : dll (λ x, blk s x) NUM_IDS q NUM_IDS;
}.

(** What the queue operations leave alone: everything but one queue record and the
    links of the blocks in [l]. *)
Definition unlinked (t : TCB) : TCB := with_prev 0 (with_next 0 t).

Record tq_frame (chid : Z) (l : list Z) (s s' : tq_state) : Prop := {
  fr_pt : tcb_pt (tq_tcb s') = tcb_pt (tq_tcb s);
  fr_queues cpu chid' : (cpu, chid') ≠ (cpu_idx, chid) → tq_look s' cpu chid' = tq_look s cpu chid';
  fr_other x : x ∉ l → blk s' x = blk s x;
  fr_data x : unlinked (blk s' x) = unlinked (blk s x);
}.

Lemma queue_rep_frame s s' chid l chid' q :
  tq_frame chid l s s' → chid' ≠ chid → (∀ x, x ∈ q → x ∉ l) →
  queue_rep s chid' q → queue_rep s' chid' q.
Proof.
  intros Hf Hne Hdisj [H1 H2 H3 H4 H5].
  split; [done|done|..]; rewrite ?(fr_queues _ _ _ _ Hf) by congruence; [done..|].
  apply (dll_ext (λ x, blk s x)); [|done]. intros x Hx. apply (fr_other _ _ _ _ Hf). auto.
Qed.

(** [qrun] runs the accessors of a queue operation. *)
Ltac in_range := first [assumption | lia].
Ltac qrun :=
  repeat match goal with
  | |- context [(zoom (tcb_set_prev ?p ?v) ≫= _) ?s] =>
      rewrite (bind_Ok _ _ _ _ _ (set_prev_Ok s p ltac:(in_range) v))
  | |- context [(zoom (tcb_set_next ?p ?v) ≫= _) ?s] =>
      rewrite (bind_Ok _ _ _ _ _ (set_next_Ok s p ltac:(in_range) v))
  | |- context [(zoom (tcb_get_next ?p) ≫= _) ?s] =>
      rewrite (bind_Ok _ _ _ _ _ (get_next_Ok s p ltac:(in_range)))
  | |- context [(zoom (tcb_get_prev ?p) ≫= _) ?s] =>
      rewrite (bind_Ok _ _ _ _ _ (get_prev_Ok s p ltac:(in_range)))
  | |- context [(tqueue_get_head ?c ≫= _) ?s] =>
      rewrite (bind_Ok _ _ _ _ _ (get_head_Ok s c ltac:(in_range)))
  | |- context [(tqueue_get_tail ?c ≫= _) ?s] =>
      rewrite (bind_Ok _ _ _ _ _ (get_tail_Ok s c ltac:(in_range)))
  | |- context [(tqueue_set_head ?c ?h ≫= _) ?s] =>
      rewrite (bind_Ok _ _ _ _ _ (set_head_Ok s c ltac:(in_range) h))
  | |- context [(tqueue_set_tail ?c ?h ≫= _) ?s] =>
      rewrite (bind_Ok _ _ _ _ _ (set_tail_Ok s c ltac:(in_range) h))
  | |- context [tqueue_set_head ?c ?h ?s] => rewrite (set_head_Ok s c ltac:(in_range) h)
  | |- context [tqueue_set_tail ?c ?h ?s] => rewrite (set_tail_Ok s c ltac:(in_range) h)
  | |- context [zoom (tcb_set_next ?p ?v) ?s] => rewrite (set_next_Ok s p ltac:(in_range) v)
  | |- context [zoom (tcb_set_prev ?p ?v) ?s] => rewrite (set_prev_Ok s p ltac:(in_range) v)
  end.

(** [qlook] evaluates the records and blocks of the state that [qrun] built. *)
Ltac qlook :=
  repeat first
    [ rewrite tq_look_set_q | rewrite tq_look_set_blk | rewrite blk_set_blk | rewrite blk_set_q ].

Lemma tqueue_enqueue_run s chid q pid :
  0 <= chid <= NUM_IDS → queue_rep s chid q → 0 <= pid < NUM_IDS → pid ∉ q →
  ∃ s', tqueue_enqueue chid pid s = Ok () s' ∧ queue_rep s' chid (q ++ [pid]) ∧
    tq_frame chid (q ++ [pid]) s s'.
Proof.
  intros Hch [Hnd Hrg Hh Ht Hl] Hpid Hnew. unfold tqueue_enqueue. qrun. rewrite Ht.
  assert (NoDup (q ++ [pid])) as Hnd'.
  { apply NoDup_app. split; [done|]. split; [set_solver|apply NoDup_singleton]. }
  assert (∀ x, x ∈ q ++ [pid] → 0 <= x < NUM_IDS) as Hrg' by set_solver.
  destruct q as [|t q _] using rev_ind.
  - rewrite bool_decide_eq_true_2 by done. qrun. eexists. split; [reflexivity|].
    split; [split; [done|done| | |]|split; [done|..]].
    + qlook. by rewrite !decide_True by done.
    + qlook. by rewrite !decide_True by done.
    + cbn [app]. rewrite dll_single. qlook. by rewrite !decide_True by done.
    + intros cpu chid' Hne. qlook. by rewrite !decide_False by congruence.
    + intros x Hx. qlook. by rewrite !decide_False by set_solver.
    + intros x. qlook. repeat case_decide; subst; done.
  - rewrite last_or_snoc. assert (0 <= t < NUM_IDS) as Htr by (apply Hrg; set_solver).
    rewrite bool_decide_eq_false_2 by lia. qrun. eexists. split; [reflexivity|].
    assert (t ∉ q) as Htq by (apply NoDup_app in Hnd; set_solver).
    assert (t ≠ pid) by set_solver. assert (pid ∉ q) by set_solver.
    split; [split; [done|done| | |]|split; [done|..]].
    + qlook. rewrite decide_True by done. cbn [head tail]. rewrite Hh, !first_or_app. by destruct q.
    + qlook. rewrite decide_True by done. cbn [head tail]. by rewrite last_or_snoc.
    + rewrite dll_app. split.
      * apply (dll_relink_last (λ x, blk s x) _ NUM_IDS q t NUM_IDS); [done| | | |done].
        -- intros x Hx. qlook. rewrite !decide_False by set_solver. done.
        -- qlook. rewrite !decide_False by done. by rewrite decide_True.
        -- qlook. rewrite !decide_False by done. by rewrite decide_True.
      * rewrite dll_single. qlook. rewrite !decide_True by done. by rewrite last_or_snoc.
    + intros cpu chid' Hne. qlook. by rewrite !decide_False by congruence.
    + intros x Hx. qlook. by rewrite !decide_False by set_solver.
    + intros x. qlook. repeat case_decide; subst; done.
Qed.

Lemma tqueue_dequeue_empty s chid :
  0 <= chid <= NUM_IDS → queue_rep s chid [] → tqueue_dequeue chid s = Ok NUM_IDS s.
Proof.
  intros Hch [_ _ Hh _ _]. unfold tqueue_dequeue. qrun. rewrite Hh.
  by rewrite bool_decide_eq_false_2 by auto.
Qed.

Lemma tq_frame_trans chid l s1 s2 s3 :
  tq_frame chid l s1 s2 → tq_frame chid l s2 s3 → tq_frame chid l s1 s3.
Proof.
  intros [A1 A2 A3 A4] [B1 B2 B3 B4]. split; [congruence|..]; intros;
    [rewrite B2, A2|rewrite B3, A3|rewrite B4, A4]; done.
Qed.

Lemma tq_frame_mono chid l l' s s' :
  (∀ x, x ∈ l → x ∈ l') → tq_frame chid l s s' → tq_frame chid l' s s'.
Proof. intros Hsub [A1 A2 A3 A4]. split; auto. Qed.

(** The last two stores of a removal. *)
Lemma detach_run s chid q pid :
  queue_rep s chid q → pid ∉ q → 0 <= pid < NUM_IDS →
  ∃ s1 s', zoom (tcb_set_prev pid NUM_IDS) s = Ok () s1 ∧
    zoom (tcb_set_next pid NUM_IDS) s1 = Ok () s' ∧ queue_rep s' chid q ∧
    tq_frame chid [pid] s s' ∧ prev (blk s' pid) = NUM_IDS ∧ next (blk s' pid) = NUM_IDS.
Proof.
  intros [Hnd Hrg Hh Ht Hl] Hn Hp. rewrite set_prev_Ok by done. eexists _, _.
  split; [reflexivity|]. rewrite set_next_Ok by done. split; [reflexivity|].
  split; [split; [done|done|by qlook|by qlook|]|split; [split; [done|..]|]].
  - apply (dll_ext (λ x, blk s x)); [|done]. intros x Hx. qlook.
    by rewrite !decide_False by set_solver.
  - intros. by qlook.
  - intros x Hx. qlook. by rewrite !decide_False by set_solver.
  - intros x. qlook. repeat case_decide; subst; done.
  - qlook. by rewrite !decide_True by done.
Qed.

(** The relinking part of a removal, by the neighbours of the element. *)
Definition unlink (chid prev next : Z) : M tq_state () :=
  if bool_decide (prev = NUM_IDS) then
    if bool_decide (next = NUM_IDS) then
      tqueue_set_head chid NUM_IDS ;; tqueue_set_tail chid NUM_IDS
    else zoom (tcb_set_prev next NUM_IDS) ;; tqueue_set_head chid next
  else
    if bool_decide (next = NUM_IDS) then
      zoom (tcb_set_next prev NUM_IDS) ;; tqueue_set_tail chid prev
    else zoom (tcb_set_next prev next) ;; zoom (tcb_set_prev next prev).

Ltac qframe :=
  split; [done|intros ? ? ?; qlook; by rewrite ?decide_False by congruence
         |intros ? ?; qlook; by rewrite ?decide_False by set_solver
         |intros ?; qlook; repeat case_decide; subst; done].

Lemma unlink_run s chid l pid r :
  0 <= chid <= NUM_IDS → queue_rep s chid (l ++ pid :: r) →
  prev (blk s pid) = last_or NUM_IDS l ∧ next (blk s pid) = first_or NUM_IDS r ∧
  pid ∉ l ++ r ∧
  ∃ s', unlink chid (last_or NUM_IDS l) (first_or NUM_IDS r) s = Ok () s' ∧
    queue_rep s' chid (l ++ r) ∧ tq_frame chid (l ++ pid :: r) s s'.
Proof.
  intros Hch [Hnd Hrg Hh Ht Hl]. apply dll_app in Hl as (Hll & Hp & Hn & Hlr).
  apply NoDup_app in Hnd as (Hndl & Hdisj & [Hpr Hndr]%NoDup_cons).
  assert (NoDup (l ++ r)) as Hnd' by (apply NoDup_app; set_solver).
  assert (∀ x, x ∈ l ++ r → 0 <= x < NUM_IDS) as Hrg' by (intros; apply Hrg; set_solver).
  assert (pid ∉ l ++ r) as Hpl by set_solver. split_and!; [done..|]. unfold unlink.
  rewrite last_or_app in Ht. rewrite first_or_app in Hh. cbn [first_or last_or] in *.
  destruct l as [|a l _] using rev_ind; [|rewrite last_or_snoc in *];
    (destruct r as [|b r]; cbn [first_or last_or app] in *);
    try (apply NoDup_cons in Hndr as [Hbr _]);
    try (apply NoDup_app in Hndl as (_ & Hal & _); assert (a ∉ l) as Hal' by set_solver).
  - rewrite !bool_decide_eq_true_2 by done. qrun. eexists. split; [reflexivity|].
    split; [split; [done|done| | |done]|qframe]; qlook; by rewrite !decide_True by done.
  - assert (0 <= b < NUM_IDS) by (apply Hrg; set_solver).
    rewrite bool_decide_eq_true_2, bool_decide_eq_false_2 by (done || lia).
    qrun. eexists. split; [reflexivity|].
    split; [split; [done|done| | |]|qframe].
    + qlook. by rewrite !decide_True by done.
    + qlook. by rewrite decide_True by done.
    + apply (dll_relink_first (λ z, blk s z) _ pid b r NUM_IDS); [done| | | |done].
      * intros z Hz. qlook. by rewrite !decide_False by set_solver.
      * qlook. by rewrite decide_True.
      * qlook. by rewrite decide_True.
  - assert (0 <= a < NUM_IDS) by (apply Hrg; set_solver). rewrite app_nil_r in *.
    rewrite bool_decide_eq_false_2, bool_decide_eq_true_2 by (done || lia).
    qrun. eexists. split; [reflexivity|].
    split; [split; [done|done| | |]|qframe].
    + qlook. rewrite decide_True by done. cbn [head tail]. rewrite Hh, !first_or_app. by destruct l.
    + qlook. rewrite decide_True by done. by rewrite last_or_snoc.
    + apply (dll_relink_last (λ z, blk s z) _ NUM_IDS l a pid); [done| | | |done].
      * intros z Hz. qlook. by rewrite !decide_False by set_solver.
      * qlook. by rewrite decide_True.
      * qlook. by rewrite decide_True.
  - assert (0 <= a < NUM_IDS) by (apply Hrg; set_solver).
    assert (0 <= b < NUM_IDS) by (apply Hrg; set_solver). assert (a ≠ b) by set_solver.
    rewrite !bool_decide_eq_false_2 by lia. qrun. eexists. split; [reflexivity|].
    split; [split; [done|done| | |]|qframe].
    + qlook. rewrite Hh, !first_or_app. by destruct l.
    + qlook. rewrite Ht, !last_or_app. done.
    + rewrite dll_app, last_or_snoc. split.
      * apply (dll_relink_last (λ z, blk s z) _ NUM_IDS l a pid); [done| | | |done].
        -- intros z Hz. qlook. by rewrite !decide_False by set_solver.
        -- qlook. by rewrite decide_False, decide_True by congruence.
        -- qlook. by rewrite decide_False, decide_True by congruence.
      * apply (dll_relink_first (λ z, blk s z) _ pid b r NUM_IDS); [done| | | |done].
        -- intros z Hz. qlook. by rewrite !decide_False by set_solver.
        -- qlook. by rewrite decide_True, decide_False by congruence.
        -- qlook. by rewrite decide_True by congruence.
Qed.

Lemma tqueue_dequeue_run s chid x q :
  0 <= chid <= NUM_IDS → queue_rep s chid (x :: q) →
  ∃ s', tqueue_dequeue chid s = Ok x s' ∧ queue_rep s' chid q ∧
    tq_frame chid (x :: q) s s' ∧ prev (blk s' x) = NUM_IDS ∧ next (blk s' x) = NUM_IDS.
Proof.
  intros Hch Hq. destruct (unlink_run s chid [] x q Hch Hq) as (_ & Hn & Hxq & s1 & Hr & Hq1 & Hf1).
  assert (0 <= x < NUM_IDS) as Hx by (apply Hq; set_solver).
  destruct (detach_run s1 chid q x Hq1 Hxq Hx) as (s2 & s3 & H2 & H3 & Hq3 & Hf3 & Hd).
  unfold tqueue_dequeue. qrun. rewrite (qr_head _ _ _ Hq). cbn [first_or].
  rewrite bool_decide_eq_true_2 by lia. qrun. rewrite Hn.
  unfold unlink in Hr. cbn [last_or] in Hr. rewrite bool_decide_eq_true_2 in Hr by done.
  rewrite (bind_Ok _ _ _ _ _ Hr), (bind_Ok _ _ _ _ _ H2), (bind_Ok _ _ _ _ _ H3).
  exists s3. split; [done|]. split; [done|]. split; [|done].
  apply (tq_frame_trans _ _ _ s1); [done|]. apply (tq_frame_mono _ [x]); [set_solver|done].
Qed.

(** [tqueue_remove] does nothing to a block that is detached. *)
Lemma tqueue_remove_detached s chid q pid :
  0 <= chid <= NUM_IDS → queue_rep s chid q → 0 <= pid < NUM_IDS → pid ∉ q →
  prev (blk s pid) = NUM_IDS → next (blk s pid) = NUM_IDS →
  tqueue_remove chid pid s = Ok () s.
Proof.
  intros Hch [Hnd Hrg Hh Ht Hl] Hpid Hnin Hp Hn. unfold tqueue_remove. qrun.
  rewrite Hp, Hn, Hh. rewrite (bool_decide_eq_true_2 (NUM_IDS = NUM_IDS)) by done.
  rewrite (bool_decide_eq_true_2 (first_or NUM_IDS q ≠ pid)); [done|].
  destruct q; simpl; [lia|set_solver].
Qed.

Lemma tqueue_remove_run s chid l pid r :
  0 <= chid <= NUM_IDS → queue_rep s chid (l ++ pid :: r) →
  ∃ s', tqueue_remove chid pid s = Ok () s' ∧ queue_rep s' chid (l ++ r) ∧
    tq_frame chid (l ++ pid :: r) s s' ∧
    prev (blk s' pid) = NUM_IDS ∧ next (blk s' pid) = NUM_IDS.
Proof.
  intros Hch Hq. destruct (unlink_run s chid l pid r Hch Hq) as (Hp & Hn & Hnin & s1 & Hr & Hq1 & Hf1).
  assert (0 <= pid < NUM_IDS) as Hx by (apply Hq; set_solver).
  destruct (detach_run s1 chid _ pid Hq1 Hnin Hx) as (s2 & s3 & H2 & H3 & Hq3 & Hf3 & Hd).
  unfold tqueue_remove. qrun. rewrite (qr_head _ _ _ Hq), Hp, Hn.
  replace (_ && bool_decide (first_or _ _ ≠ pid)) with false.
  2: { symmetry. rewrite !andb_false_iff, !bool_decide_eq_false.
       destruct l as [|a l]; [right; tauto|left; left].
       assert (0 <= last_or NUM_IDS (a :: l) < NUM_IDS); [|lia].
       apply Hq. pose proof (last_or_in NUM_IDS (a :: l)). set_solver. }
  fold (unlink chid (last_or NUM_IDS l) (first_or NUM_IDS r)).
  rewrite (bind_Ok _ _ _ _ _ Hr), (bind_Ok _ _ _ _ _ H2), H3.
  exists s3. split; [done|]. split; [done|]. split; [|done].
  apply (tq_frame_trans _ _ _ s1); [done|]. apply (tq_frame_mono _ [pid]); [set_solver|done].
Qed.

(** ** Refinement: a queue is a list *)

Inductive qop := Enq (pid : Z) | Deq | Rem (pid : Z).

Definition run_qop (chid : Z) (op : qop) : M tq_state Z :=
  match op with
  | Enq pid => tqueue_enqueue chid pid ;; mret 0
  | Deq => tqueue_dequeue chid
  | Rem pid => tqueue_remove chid pid ;; mret 0
  end.

Fixpoint run_qops (chid : Z) (ops : list qop) : M tq_state (list Z) :=
  match ops with
  | [] => mret []
  | op :: ops => r ← run_qop chid op; rs ← run_qops chid ops; mret (r :: rs)
  end.

(** The specification: operations on a list of distinct threads. *)
Inductive q_step : list Z → qop → Z → list Z → Prop :=
| q_enq q pid : 0 <= pid < NUM_IDS → pid ∉ q → q_step q (Enq pid) 0 (q ++ [pid])
| q_deq_empty : q_step [] Deq NUM_IDS []
| q_deq x q : q_step (x :: q) Deq x q
| q_rem l pid r : q_step (l ++ pid :: r) (Rem pid) 0 (l ++ r).

Inductive q_steps : list Z → list qop → list Z → list Z → Prop :=
| q_nil q : q_steps q [] [] q
| q_cons q op r q1 ops rs q2 :
    q_step q op r q1 → q_steps q1 ops rs q2 → q_steps q (op :: ops) (r :: rs) q2.

Definition same_data (s s' : tq_state) : Prop :=
  tcb_pt (tq_tcb s') = tcb_pt (tq_tcb s) ∧ ∀ x, unlinked (blk s' x) = unlinked (blk s x).

Lemma tq_frame_data chid l s s' : tq_frame chid l s s' → same_data s s'.
Proof. by intros []. Qed.

Lemma run_qop_refines s chid q op r q' :
  0 <= chid <= NUM_IDS → queue_rep s chid q → q_step q op r q' →
  ∃ s', run_qop chid op s = Ok r s' ∧ queue_rep s' chid q' ∧ same_data s s'.
Proof.
  intros Hch Hq Hstep. destruct Hstep as [q pid Hp Hn| |x q|l pid r]; simpl.
  - destruct (tqueue_enqueue_run s chid q pid Hch Hq Hp Hn) as (s' & Hr & Hq' & Hf).
    exists s'. rewrite (bind_Ok _ _ _ _ _ Hr). eauto using tq_frame_data.
  - exists s. rewrite tqueue_dequeue_empty by done. by split_and!.
  - destruct (tqueue_dequeue_run s chid x q Hch Hq) as (s' & Hr & Hq' & Hf & _).
    exists s'. eauto using tq_frame_data.
  - destruct (tqueue_remove_run s chid l pid r Hch Hq) as (s' & Hr & Hq' & Hf & _).
    exists s'. rewrite (bind_Ok _ _ _ _ _ Hr). eauto using tq_frame_data.
Qed.

(** C20: The index-linked thread queue implements a list: whatever sequence of
    enqueues of threads not in the queue, dequeues and removals of members is run, it
    succeeds, every result is the one the list gives (first in, first out, [NUM_IDS]
    when empty), the links represent the resulting list, and no other field of any
    thread control block and nothing in the memory layers changes. *)
Theorem tqueue_refines_list s chid q ops rs q' :
  0 <= chid <= NUM_IDS → queue_rep s chid q → q_steps q ops rs q' →
  ∃ s', run_qops chid ops s = Ok rs s' ∧ queue_rep s' chid q' ∧ same_data s s'.
Proof.
  intros Hch Hq Hsteps. revert s Hq.
  induction Hsteps as [q|q op r q1 ops rs q2 Hstep _ IH]; intros s Hq; simpl.
  { exists s. by split_and!. }
  destruct (run_qop_refines s chid q op r q1 Hch Hq Hstep) as (s1 & Hr & Hq1 & Hd1 & Hd1').
  destruct (IH s1 Hq1) as (s2 & Hr2 & Hq2 & Hd2 & Hd2'). exists s2.
  rewrite (bind_Ok _ _ _ _ _ Hr), (bind_Ok _ _ _ _ _ Hr2). split; [done|]. split; [done|].
  split; [congruence|]. intros x. by rewrite Hd2'.
Qed.

(** Control blocks as boot leaves them and an empty ready queue. *)
Definition tq0 : tq_state :=
  {| tq_tcb := {| tcb_pt := pt0 spinlock_init 4194304 ∅; TCBPool := ∅ |};
     TQueuePool := {[ (cpu_idx, NUM_IDS) := {| head := NUM_IDS; tail := NUM_IDS |} ]} |}.

Lemma tq0_rep : queue_rep tq0 NUM_IDS [].
Proof. split; [constructor|set_solver|reflexivity|reflexivity|done]. Qed.

Lemma tqueue_refines_list_witness :
  ∃ s', run_qops NUM_IDS [Enq 3; Enq 5; Enq 7; Rem 5; Deq; Deq; Deq] tq0
          = Ok [0; 0; 0; 0; 3; 7; NUM_IDS] s' ∧
        queue_rep s' NUM_IDS [] ∧ same_data tq0 s'.
Proof.
  apply (tqueue_refines_list tq0 NUM_IDS []); [unfold NUM_IDS; lia|apply tq0_rep|].
  eapply q_cons; [apply q_enq; [unfold NUM_IDS; lia|set_solver]|].
  eapply q_cons; [apply q_enq; [unfold NUM_IDS; lia|set_solver]|].
  eapply q_cons; [apply q_enq; [unfold NUM_IDS; lia|set_solver]|].
  eapply q_cons; [apply (q_rem [3] 5 [7])|].
  eapply q_cons; [apply q_deq|]. eapply q_cons; [apply q_deq|].
  eapply q_cons; [apply q_deq_empty|]. apply q_nil.
Defined.
