(* ===== verification/Thread.v ===== *)
(** * Threads (kern/thread/PCurID, PKCtxIntro, PKCtxNew, PThread)

    Creation of threads, the round-robin scheduler, sleeping on channels and waking.
    [kctx_switch] exchanges the callee-saved registers as cswitch.S does; the code
    after a switch runs when the thread is switched back, so [thread_sleep] is in two
    parts, up to the switch and from the return of the switch. *)

From S2P Require Import Prelude Spinlock Mboot PMem Container PageTable TCB TQueue.

Definition SCHED_SLICE : Z := 5.
Definition LAPIC_TIMER_INTR_FREQ : Z := 1000.
Definition KSTACK_SIZE : Z := 4096.

Record kctx := { k_esp : Z; k_edi : Z; k_esi : Z; k_ebx : Z; k_ebp : Z; k_eip : Z }.

Definition kctx_zero : kctx :=
  {| k_esp := 0; k_edi := 0; k_esi := 0; k_ebx := 0; k_ebp := 0; k_eip := 0 |}.

(** [proc_kstack_addr] is where the linker put the kernel stacks; [cpu] holds the
    registers that a switch exchanges. *)
Record th_state := {
  th_tq : tq_state;
  CURID : gmap Z Z;
  kctx_pool : gmap Z kctx;
  proc_kstack_addr : Z;
  cpu : kctx;
  sched_ticks : gmap Z Z;
  sched_lk : spinlock_t
}.

#[global, program] Instance th_tq_lens : Lens th_state tq_state := {|
  view := th_tq;
  put q s := {| th_tq := q; CURID := CURID s; kctx_pool := kctx_pool s;
                proc_kstack_addr := proc_kstack_addr s; cpu := cpu s;
                sched_ticks := sched_ticks s; sched_lk := sched_lk s |}
|}.
Next Obligation. done. Qed.
Next Obligation. by intros []. Qed.
Next Obligation. done. Qed.

Definition upd_CURID (f : gmap Z Z → gmap Z Z) (s : th_state) : th_state :=
  {| th_tq := th_tq s; CURID := f (CURID s); kctx_pool := kctx_pool s;
     proc_kstack_addr := proc_kstack_addr s; cpu := cpu s;
     sched_ticks := sched_ticks s; sched_lk := sched_lk s |}.

Definition upd_kctx_pool (f : gmap Z kctx → gmap Z kctx) (s : th_state) : th_state :=
  {| th_tq := th_tq s; CURID := CURID s; kctx_pool := f (kctx_pool s);
     proc_kstack_addr := proc_kstack_addr s; cpu := cpu s;
     sched_ticks := sched_ticks s; sched_lk := sched_lk s |}.

Definition set_cpu (k : kctx) (s : th_state) : th_state :=
  {| th_tq := th_tq s; CURID := CURID s; kctx_pool := kctx_pool s;
     proc_kstack_addr := proc_kstack_addr s; cpu := k;
     sched_ticks := sched_ticks s; sched_lk := sched_lk s |}.

Definition upd_sched_ticks (f : gmap Z Z → gmap Z Z) (s : th_state) : th_state :=
  {| th_tq := th_tq s; CURID := CURID s; kctx_pool := kctx_pool s;
     proc_kstack_addr := proc_kstack_addr s; cpu := cpu s;
     sched_ticks := f (sched_ticks s); sched_lk := sched_lk s |}.

Definition set_sched_lk (lk : spinlock_t) (s : th_state) : th_state :=
  {| th_tq := th_tq s; CURID := CURID s; kctx_pool := kctx_pool s;
     proc_kstack_addr := proc_kstack_addr s; cpu := cpu s;
     sched_ticks := sched_ticks s; sched_lk := lk |}.

(** ** PCurID *)

Definition get_curid : M th_state Z := aget NUM_CPUS 0 CURID cpu_idx.

Definition set_curid (curid : Z) : M th_state () := aset NUM_CPUS upd_CURID cpu_idx curid.

(** ** PKCtxIntro *)

Definition kctx_get (pid : Z) : M th_state kctx := aget NUM_IDS kctx_zero kctx_pool pid.

Definition kctx_put (pid : Z) (k : kctx) : M th_state () := aset NUM_IDS upd_kctx_pool pid k.

Definition kctx_set_esp (pid esp : Z) : M th_state () :=
  k ← kctx_get pid;
  kctx_put pid {| k_esp := esp; k_edi := k_edi k; k_esi := k_esi k; k_ebx := k_ebx k;
                  k_ebp := k_ebp k; k_eip := k_eip k |}.

Definition kctx_set_eip (pid eip : Z) : M th_state () :=
  k ← kctx_get pid;
  kctx_put pid {| k_esp := k_esp k; k_edi := k_edi k; k_esi := k_esi k; k_ebx := k_ebx k;
                  k_ebp := k_ebp k; k_eip := eip |}.

(** cswitch.S: save the registers, then load the others. *)
Definition kctx_switch (from_pid to_pid : Z) : M th_state () :=
  regs ← gets cpu;
  kctx_put from_pid regs ;;
  k ← kctx_get to_pid;
  modify (set_cpu k).

(** ** PKCtxNew *)

Definition kstack_hi (pid : Z) (s : th_state) : Z :=
  proc_kstack_addr s + pid * KSTACK_SIZE + KSTACK_SIZE.

Definition pt_alloc_mem_quota (id quota : Z) : M th_state Z :=
  zoom (zoom (zoom (alloc_mem_quota id quota) : M tcb_state Z) : M tq_state Z).

Definition kctx_new (entry id quota : Z) : M th_state Z :=
  pid ← pt_alloc_mem_quota id quota;
  esp ← gets (kstack_hi pid);
  kctx_set_esp pid esp ;;
  kctx_set_eip pid entry ;;
  mret pid.

(** ** PThread *)

Definition th_set_state (pid : Z) (st : t_state) : M th_state () :=
  zoom (zoom (tcb_set_state pid st) : M tq_state ()).

Definition th_set_chan (pid : Z) (c : option chan) : M th_state () :=
  zoom (zoom (tcb_set_chan pid c) : M tq_state ()).

Definition th_get (pid : Z) : M th_state TCB := zoom (zoom (tcb_get pid) : M tq_state TCB).

Definition sched_acquire : M th_state () := spinlock_acquire sched_lk set_sched_lk.

Definition sched_release : M th_state () := spinlock_release sched_lk set_sched_lk.

Definition thread_init (stk : Z → Z) (mbi : list mboot_mmap_t) : M th_state () :=
  for_range 0 NUM_CPUS (λ i, aset NUM_CPUS upd_sched_ticks i 0) ;;
  modify (set_sched_lk spinlock_init) ;;
  zoom (tqueue_init stk mbi) ;;
  set_curid 0 ;;
  th_set_state 0 TSTATE_RUN.

Definition thread_spawn (entry id quota : Z) : M th_state Z :=
  sched_acquire ;;
  pid ← kctx_new entry id quota;
  th_set_state pid TSTATE_READY ;;
  zoom (tqueue_enqueue NUM_IDS pid) ;;
  sched_release ;;
  mret pid.

Definition thread_yield : M th_state () :=
  sched_acquire ;;
  old_cur_pid ← get_curid;
  th_set_state old_cur_pid TSTATE_READY ;;
  zoom (tqueue_enqueue NUM_IDS old_cur_pid) ;;
  new_cur_pid ← zoom (tqueue_dequeue NUM_IDS);
  th_set_state new_cur_pid TSTATE_RUN ;;
  set_curid new_cur_pid ;;
  (if bool_decide (old_cur_pid ≠ new_cur_pid) then
     sched_release ;;
     kctx_switch old_cur_pid new_cur_pid
   else sched_release).

Definition thread_exit : M th_state () :=
  sched_acquire ;;
  old_cur_pid ← get_curid;
  new_cur_pid ← zoom (tqueue_dequeue NUM_IDS);
  let new_cur_pid := if bool_decide (new_cur_pid = NUM_IDS) then 1 else new_cur_pid in
  th_set_state new_cur_pid TSTATE_RUN ;;
  set_curid new_cur_pid ;;
  sched_release ;;
  kctx_switch old_cur_pid new_cur_pid.

Definition sched_update : M th_state () :=
  sched_acquire ;;
  t ← aget NUM_CPUS 0 sched_ticks cpu_idx;
  aset NUM_CPUS upd_sched_ticks cpu_idx (u32 (t + 1000 / LAPIC_TIMER_INTR_FREQ)) ;;
  t ← aget NUM_CPUS 0 sched_ticks cpu_idx;
  (if bool_decide (t > SCHED_SLICE) then
     aset NUM_CPUS upd_sched_ticks cpu_idx 0 ;;
     sched_release ;;
     thread_yield
   else sched_release).

(** A lock of the caller, somewhere in its state. *)
Record lockref (S : Type) := { lk_get : S → spinlock_t; lk_set : spinlock_t → S → S }.
Arguments lk_get {S}. Arguments lk_set {S}.

Section Sleep.
Context {S : Type} `{!Lens S th_state}.

(** [thread_sleep] up to the switch; the result is the thread that went to sleep. *)
Definition thread_sleep_enter (c : chan) (lk : option (lockref S)) : M S Z :=
  curid ← zoom get_curid;
  match lk with
  | None => kern_panic
  | Some lk =>
      zoom sched_acquire ;;
      spinlock_release (lk_get lk) (lk_set lk) ;;
      zoom (th_set_state curid TSTATE_SLEEP ;;
            th_set_chan curid (Some c) ;;
            new_cur_pid ← zoom (tqueue_dequeue NUM_IDS);
            th_set_state new_cur_pid TSTATE_RUN ;;
            set_curid new_cur_pid ;;
            sched_release ;;
            kctx_switch curid new_cur_pid) ;;
      mret curid
  end.

(** [thread_sleep] from the return of the switch. *)
Definition thread_sleep_resume (curid : Z) (lk : lockref S) : M S () :=
  zoom (sched_acquire ;;
        th_set_chan curid None ;;
        sched_release) ;;
  spinlock_acquire (lk_get lk) (lk_set lk).

(** A call that does not return before the thread is scheduled again. *)
Definition thread_sleep (c : chan) (lk : option (lockref S)) : M S () :=
  thread_sleep_enter c lk ;; block.
End Sleep.

Definition wakeup_one (c : option chan) (pid : Z) : M th_state () :=
  t ← th_get pid;
  if bool_decide (channel t = c) && bool_decide (state t = TSTATE_SLEEP) then
    th_set_state pid TSTATE_READY ;;
    th_set_chan pid None ;;
    zoom (tqueue_enqueue NUM_IDS pid)
  else mret ().

Definition thread_wakeup (c : option chan) : M th_state () :=
  sched_acquire ;;
  for_range 1 NUM_IDS (λ pid, wakeup_one c pid) ;;
  sched_release.

(** ** Runs of the primitives *)

Notation tb s pid := (tcb_look (tq_tcb (th_tq s)) pid).

Definition set_tq (q : tq_state) (s : th_state) : th_state := put q s.

Definition set_tb (pid : Z) (t : TCB) (s : th_state) : th_state :=
  set_tq (set_blk pid t (th_tq s)) s.

Lemma tb_set_tb s p t q : tb (set_tb p t s) q = if decide (p = q) then t else tb s q.
Proof. apply tcb_look_upd. Qed.

Section Primitives.
Context (s : th_state) (pid : Z) (Hpid : 0 <= pid < NUM_IDS).

Lemma th_upd_Ok f :
  (zoom (zoom (tcb_upd pid f) : M tq_state ()) : M th_state ()) s = Ok () (set_tb pid (f (tb s pid)) s).
Proof.
  pose proof (tcb_upd_Ok (tq_tcb (th_tq s)) pid f Hpid) as H.
  pose proof (zoom_Ok (S:=tq_state) (tcb_upd pid f) (th_tq s) _ _ H) as H'.
  by rewrite (zoom_Ok (S:=th_state) _ s _ _ H').
Qed.

Lemma th_set_state_Ok st : th_set_state pid st s = Ok () (set_tb pid (with_state st (tb s pid)) s).
Proof. apply th_upd_Ok. Qed.

Lemma th_set_chan_Ok c : th_set_chan pid c s = Ok () (set_tb pid (with_channel c (tb s pid)) s).
Proof. apply th_upd_Ok. Qed.

Lemma th_get_Ok : th_get pid s = Ok (tb s pid) s.
Proof.
  unfold th_get. pose proof (tcb_get_Ok (tq_tcb (th_tq s)) pid Hpid) as H.
  pose proof (zoom_Ok (S:=tq_state) (tcb_get pid) (th_tq s) _ _ H) as H'.
  rewrite (zoom_Ok (S:=th_state) _ s _ _ H'). by destruct s as [[[] ] ].
Qed.
End Primitives.

Lemma get_curid_Ok s : get_curid s = Ok (alook 0 (CURID s) cpu_idx) s.
Proof. done. Qed.

Lemma set_curid_Ok p s : set_curid p s = Ok () (upd_CURID <[cpu_idx := p]> s).
Proof. done. Qed.

Lemma kctx_switch_Ok a b s :
  0 <= a < NUM_IDS → 0 <= b < NUM_IDS →
  kctx_switch a b s = Ok () (set_cpu (alook kctx_zero (<[a := cpu s]> (kctx_pool s)) b)
                               (upd_kctx_pool <[a := cpu s]> s)).
Proof.
  intros Ha Hb. unfold kctx_switch, kctx_put, kctx_get. kstep.
  rewrite (bind_Ok _ _ _ _ _ (aset_Ok _ _ a _ s Ha)).
  by rewrite (bind_Ok _ _ _ _ _ (aget_Ok kctx_zero _ _ b _ Hb)).
Qed.

Lemma th_enqueue_Ok s q pid :
  queue_rep (th_tq s) NUM_IDS q → 0 <= pid < NUM_IDS → pid ∉ q →
  ∃ s', zoom (tqueue_enqueue NUM_IDS pid) s = Ok () (set_tq s' s) ∧
    queue_rep s' NUM_IDS (q ++ [pid]) ∧ tq_frame NUM_IDS (q ++ [pid]) (th_tq s) s'.
Proof.
  intros Hq Hp Hn.
  destruct (tqueue_enqueue_run (th_tq s) NUM_IDS q pid) as (s' & Hr & ? & ?);
    [unfold NUM_IDS; lia|done..|].
  exists s'. by rewrite (zoom_Ok (S:=th_state) _ s _ _ Hr).
Qed.

Lemma th_dequeue_Ok s x q :
  queue_rep (th_tq s) NUM_IDS (x :: q) →
  ∃ s', zoom (tqueue_dequeue NUM_IDS) s = Ok x (set_tq s' s) ∧
    queue_rep s' NUM_IDS q ∧ tq_frame NUM_IDS (x :: q) (th_tq s) s'.
Proof.
  intros Hq. destruct (tqueue_dequeue_run (th_tq s) NUM_IDS x q) as (s' & Hr & ? & ? & _);
    [unfold NUM_IDS; lia|done..|].
  exists s'. by rewrite (zoom_Ok (S:=th_state) _ s _ _ Hr).
Qed.

(** A store that keeps the links keeps the queues. *)
Lemma queue_rep_links s chid q p t :
  prev t = prev (blk s p) → next t = next (blk s p) →
  queue_rep s chid q → queue_rep (set_blk p t s) chid q.
Proof.
  intros Hp Hn [H1 H2 H3 H4 H5]. split; [done..|].
  apply (dll_links (λ x, blk s x)); [|done]. intros x _. rewrite blk_set_blk.
  by case_decide; subst.
Qed.

(** ** What the scheduler promises

    The abstract scheduler: the running thread, the ready threads in the order they
    will run, and the channel of every sleeping thread. *)

Record sched := { cur : Z; ready : list Z; asleep : gmap Z chan }.

Record sched_core (s : th_state) (a : sched) : Prop := {
  sr_cur : alook 0 (CURID s) cpu_idx = cur a;
  sr_range : 0 <= cur a < NUM_IDS;
  sr_queue : queue_rep (th_tq s) NUM_IDS (ready a);
  sr_fresh : cur a ∉ ready a;
  sr_run : state (tb s (cur a)) = TSTATE_RUN;
  sr_ready p : p ∈ ready a → state (tb s p) = TSTATE_READY;
  sr_asleep p c : asleep a !! p = Some c ↔
    0 <= p < NUM_IDS ∧ state (tb s p) = TSTATE_SLEEP ∧ channel (tb s p) = Some c;
}.

(** Between calls the scheduler lock is free. *)
Definition sched_rep (s : th_state) (a : sched) : Prop :=
  sched_lk s = spinlock_init ∧ sched_core s a.

(** The part of a control block that the scheduler does not own. *)
Definition own_data (t : TCB) : gmap Z Z * option Z * sig_state :=
  (openfiles t, cwd t, sigstate t).

(** What the scheduler keeps: the memory layers and that part of every block. *)
Definition th_frame (s s' : th_state) : Prop :=
  tcb_pt (tq_tcb (th_tq s')) = tcb_pt (tq_tcb (th_tq s)) ∧
  (∀ p, own_data (tb s' p) = own_data (tb s p)) ∧ sched_ticks s' = sched_ticks s.

(** The fields that are not links. *)
Definition fields (t : TCB) := (state t, channel t, own_data t).

Lemma frame_fields chid l s s' x :
  tq_frame chid l s s' → fields (blk s' x) = fields (blk s x).
Proof.
  intros [_ _ _ H]. specialize (H x). revert H. generalize (blk s x), (blk s' x).
  intros [] [] H. injection H; intros; by subst.
Qed.

Lemma fields_set_tb s p t q :
  fields (tb (set_tb p t s) q) = if decide (p = q) then fields t else fields (tb s q).
Proof. rewrite tb_set_tb. by case_decide. Qed.

Lemma fields_with_state v t : fields (with_state v t) = (v, (fields t).1.2, (fields t).2).
Proof. done. Qed.

Lemma fields_with_channel c t : fields (with_channel c t) = ((fields t).1.1, c, (fields t).2).
Proof. done. Qed.

Lemma fields_set_tq s l q :
  tq_frame NUM_IDS l (th_tq s) q → ∀ p, fields (tb (set_tq q s) p) = fields (tb s p).
Proof. intros H p. by apply (frame_fields _ _ _ _ p H). Qed.

Lemma th_frame_trans s1 s2 s3 : th_frame s1 s2 → th_frame s2 s3 → th_frame s1 s3.
Proof.
  intros (A1 & A2 & A3) (B1 & B2 & B3). split; [congruence|]. split; [|congruence].
  intros p. by rewrite B2.
Qed.

(** *** The operations *)

Definition a_yield (a : sched) : sched :=
  match ready a ++ [cur a] with
  | x :: q => {| cur := x; ready := q; asleep := asleep a |}
  | [] => a
  end.

(** [None]: no thread can run. *)
Definition a_sleep (c : chan) (a : sched) : option sched :=
  match ready a with
  | x :: q => Some {| cur := x; ready := q; asleep := <[cur a := c]> (asleep a) |}
  | [] => None
  end.

(** The threads that a wakeup makes ready, in the order of their numbers. *)
Definition woken (c : chan) (m : gmap Z chan) : list Z :=
  filter (λ p, m !! p = Some c) (seqZ 1 (NUM_IDS - 1)).

Definition a_wakeup (c : chan) (a : sched) : sched :=
  {| cur := cur a; ready := ready a ++ woken c (asleep a);
     asleep := filter (λ pc, ¬ (1 <= pc.1 ∧ pc.2 = c)) (asleep a) |}.

(** Taking the first ready thread, as every switch does. *)
Lemma dispatch_run s x q :
  queue_rep (th_tq s) NUM_IDS (x :: q) →
  ∃ s1 s2 s', zoom (tqueue_dequeue NUM_IDS) s = Ok x s1 ∧
    th_set_state x TSTATE_RUN s1 = Ok () s2 ∧ set_curid x s2 = Ok () s' ∧
    queue_rep (th_tq s') NUM_IDS q ∧ alook 0 (CURID s') cpu_idx = x ∧
    (∀ p, fields (tb s' p) = if decide (x = p) then (TSTATE_RUN, (fields (tb s p)).1.2, (fields (tb s p)).2)
                             else fields (tb s p)) ∧
    tcb_pt (tq_tcb (th_tq s')) = tcb_pt (tq_tcb (th_tq s)) ∧ sched_ticks s' = sched_ticks s.
Proof.
  intros Hq. destruct (th_dequeue_Ok s x q Hq) as (q1 & Hr & Hq1 & Hf).
  assert (0 <= x < NUM_IDS) as Hx by (apply Hq; set_solver).
  eexists _, _, _. split; [exact Hr|]. split; [by apply th_set_state_Ok|].
  split; [apply set_curid_Ok|].
  split; [by apply queue_rep_links|]. split; [apply alook_insert_eq|]. split; [|split; [|done]].
  - intros p. change (th_tq (upd_CURID ?f ?s)) with (th_tq s).
    rewrite fields_set_tb, fields_with_state, !(fields_set_tq _ _ _ Hf).
    case_decide; by subst.
  - simpl. by rewrite (fr_pt _ _ _ _ Hf).
Qed.

Lemma switch_run s a b :
  0 <= a < NUM_IDS → 0 <= b < NUM_IDS →
  ∃ s1 s', sched_release s = Ok () s1 ∧ kctx_switch a b s1 = Ok () s' ∧
    th_tq s' = th_tq s ∧ CURID s' = CURID s ∧ sched_lk s' = spinlock_init ∧
    sched_ticks s' = sched_ticks s.
Proof.
  intros Ha Hb. eexists _, _. split; [reflexivity|]. by rewrite kctx_switch_Ok by done.
Qed.

(** The queue code never runs a sleeping thread. *)
Lemma ready_not_asleep s a p :
  sched_core s a → p ∈ ready a ∨ p = cur a → state (tb s p) ≠ TSTATE_SLEEP.
Proof. intros Hrep [Hp| ->]; [by rewrite (sr_ready _ _ Hrep)|by rewrite (sr_run _ _ Hrep)]. Qed.

Lemma fields_split t st c o :
  fields t = (st, c, o) → state t = st ∧ channel t = c ∧ own_data t = o.
Proof. by intros [= <- <- <-]. Qed.

Lemma thread_yield_run s a :
  sched_rep s a →
  ∃ s', thread_yield s = Ok () s' ∧ sched_rep s' (a_yield a) ∧ th_frame s s'.
Proof.
  intros [Hlk Hrep]. pose proof (λ p, ready_not_asleep s a p Hrep) as Hns.
  destruct Hrep as [Hcur Hrg Hq Hfr Hrun Hrd Has].
  unfold thread_yield, sched_acquire.
  rewrite (bind_Ok _ _ _ _ _ (spinlock_acquire_free _ _ s Hlk)).
  rewrite (bind_Ok _ _ _ _ _ (get_curid_Ok _)). simpl CURID. rewrite Hcur.
  rewrite (bind_Ok _ _ _ _ _ (th_set_state_Ok _ _ Hrg _)).
  set (s1 := set_tb _ _ _).
  assert (queue_rep (th_tq s1) NUM_IDS (ready a)) as Hq1 by (by apply queue_rep_links).
  destruct (th_enqueue_Ok s1 (ready a) (cur a) Hq1 Hrg Hfr) as (q2 & Hr2 & Hq2 & Hf2).
  rewrite (bind_Ok _ _ _ _ _ Hr2).
  unfold a_yield. destruct (ready a ++ [cur a]) as [|x q] eqn:E; [by destruct (ready a)|].
  assert (0 <= x < NUM_IDS) as Hx by (apply Hq2; set_solver).
  assert (∀ p, p ∈ x :: q → p ∈ ready a ∨ p = cur a) as Hin by (rewrite <- E; set_solver).
  destruct (dispatch_run (set_tq q2 s1) x q Hq2) as (s3 & s4 & s5 & H3 & H4 & H5 & Hq5 & Hc5 & Htb & Hpt & Htk5).
  rewrite (bind_Ok _ _ _ _ _ H3), (bind_Ok _ _ _ _ _ H4), (bind_Ok _ _ _ _ _ H5).
  assert (∃ s6, (if bool_decide (cur a ≠ x) then sched_release ;; kctx_switch (cur a) x
                 else sched_release) s5 = Ok () s6 ∧ th_tq s6 = th_tq s5 ∧ CURID s6 = CURID s5 ∧
                sched_lk s6 = spinlock_init ∧ sched_ticks s6 = sched_ticks s5)
    as (s6 & -> & Htq & Hcid & Hlk6 & Htk6).
  { case_bool_decide; [|by eexists].
    destruct (switch_run s5 (cur a) x Hrg Hx) as (s7 & s8 & H7 & H8 & ?).
    exists s8. by rewrite (bind_Ok _ _ _ _ _ H7). }
  exists s6. split; [done|].
  assert (∀ p, state (tb s6 p) = (if decide (x = p) then TSTATE_RUN
      else if decide (cur a = p) then TSTATE_READY else state (tb s p)) ∧
    channel (tb s6 p) = channel (tb s p) ∧ own_data (tb s6 p) = own_data (tb s p)) as Hp6.
  { intros p. apply fields_split. rewrite Htq, Htb, !(fields_set_tq _ _ _ Hf2). unfold s1.
    rewrite !fields_set_tb, fields_with_state.
    repeat case_decide; try subst p; unfold fields; simpl; congruence || done. }
  split; [|split; [by rewrite Htq, Hpt; simpl; rewrite (fr_pt _ _ _ _ Hf2)|
    split; [intros p; apply Hp6|by rewrite Htk6, Htk5]]].
  assert (NoDup (x :: q)) as [Hxq _]%NoDup_cons by apply Hq2.
  split; [done|]. split; simpl; [congruence|done|by rewrite Htq|done|..].
  - destruct (Hp6 x) as [-> _]. by rewrite decide_True.
  - intros p Hp. destruct (Hp6 p) as [-> _]. rewrite decide_False by congruence.
    case_decide; [done|]. apply Hrd. destruct (Hin p); [set_solver|done|congruence].
  - intros p c. destruct (Hp6 p) as (-> & -> & _). rewrite Has.
    pose proof (Hns p) as Hnp. pose proof (Hin p) as Hip.
    repeat case_decide; subst; intuition (try congruence); set_solver.
Qed.

(** *** Sleeping *)

(** The part of [thread_sleep] that runs with the scheduler lock. *)
Lemma sleep_core_run s a c x q :
  sched_core s a → ready a = x :: q →
  ∃ s', (th_set_state (cur a) TSTATE_SLEEP ;;
         th_set_chan (cur a) (Some c) ;;
         new_cur_pid ← zoom (tqueue_dequeue NUM_IDS);
         th_set_state new_cur_pid TSTATE_RUN ;;
         set_curid new_cur_pid ;;
         sched_release ;;
         kctx_switch (cur a) new_cur_pid) s = Ok () s' ∧
    sched_rep s' {| cur := x; ready := q; asleep := <[cur a := c]> (asleep a) |} ∧ th_frame s s'.
Proof.
  intros Hrep E. pose proof (λ p, ready_not_asleep s a p Hrep) as Hns.
  destruct Hrep as [Hcur Hrg Hq Hfr Hrun Hrd Has].
  rewrite (bind_Ok _ _ _ _ _ (th_set_state_Ok s _ Hrg _)). set (s1 := set_tb _ _ s).
  rewrite (bind_Ok _ _ _ _ _ (th_set_chan_Ok s1 _ Hrg _)). set (s2 := set_tb _ _ s1).
  assert (queue_rep (th_tq s2) NUM_IDS (x :: q)) as Hq2.
  { rewrite <- E. apply queue_rep_links; [done..|]. by apply queue_rep_links. }
  destruct (dispatch_run s2 x q Hq2) as (s3 & s4 & s5 & H3 & H4 & H5 & Hq5 & Hc5 & Htb & Hpt & Htk5).
  rewrite (bind_Ok _ _ _ _ _ H3), (bind_Ok _ _ _ _ _ H4), (bind_Ok _ _ _ _ _ H5).
  assert (0 <= x < NUM_IDS) as Hx by (apply Hq2; set_solver).
  destruct (switch_run s5 (cur a) x Hrg Hx) as (s6 & s7 & H6 & H7 & Htq & Hcid & Hlk & Htk7).
  rewrite (bind_Ok _ _ _ _ _ H6), H7. exists s7. split; [done|].
  assert (x ≠ cur a) as Hne by (rewrite E in Hfr; set_solver).
  assert (∀ p, state (tb s7 p) = (if decide (x = p) then TSTATE_RUN
      else if decide (cur a = p) then TSTATE_SLEEP else state (tb s p)) ∧
    channel (tb s7 p) = (if decide (cur a = p) then Some c else channel (tb s p)) ∧
    own_data (tb s7 p) = own_data (tb s p)) as Hp7.
  { intros p. apply fields_split. rewrite Htq, Htb. unfold s2, s1.
    rewrite !fields_set_tb, !fields_with_channel, !fields_set_tb, !fields_with_state.
    repeat case_decide; try subst p; unfold fields; simpl; congruence || done. }
  split; [|split; [by rewrite Htq, Hpt|split; [intros p; apply Hp7|by rewrite Htk7, Htk5]]].
  assert (NoDup (x :: q)) as [Hxq _]%NoDup_cons by apply Hq2.
  split; [done|]. split; simpl; [congruence|done|by rewrite Htq|done|..].
  - destruct (Hp7 x) as [-> _]. by rewrite decide_True.
  - intros p Hp. destruct (Hp7 p) as [-> _]. rewrite decide_False by congruence.
    rewrite E in Hfr, Hrd. rewrite decide_False by set_solver. apply Hrd. set_solver.
  - intros p c'. destruct (Hp7 p) as (-> & -> & _).
    assert (p = x → state (tb s p) ≠ TSTATE_SLEEP) as Hxs.
    { intros ->. apply Hns. rewrite E. set_solver. }
    destruct (decide (cur a = p)) as [<-|Hp].
    + rewrite lookup_insert_eq. case_decide; [congruence|].
      split; [intros [= ->]; by (split; [exact Hrg|])|by intros (_ & _ & [= ->])].
    + rewrite lookup_insert_ne by done. rewrite Has. case_decide; [specialize (Hxs ltac:(done))|]; intuition congruence.
Qed.

(** Without a ready thread the code runs the block behind the end of the table. *)
Lemma sleep_core_empty s a c :
  sched_core s a → ready a = [] →
  (th_set_state (cur a) TSTATE_SLEEP ;;
   th_set_chan (cur a) (Some c) ;;
   new_cur_pid ← zoom (tqueue_dequeue NUM_IDS);
   th_set_state new_cur_pid TSTATE_RUN ;;
   set_curid new_cur_pid ;;
   sched_release ;;
   kctx_switch (cur a) new_cur_pid) s = Undef.
Proof.
  intros [Hcur Hrg Hq Hfr Hrun Hrd Has] E. rewrite E in Hq.
  rewrite (bind_Ok _ _ _ _ _ (th_set_state_Ok s _ Hrg _)). set (s1 := set_tb _ _ s).
  rewrite (bind_Ok _ _ _ _ _ (th_set_chan_Ok s1 _ Hrg _)). set (s2 := set_tb _ _ s1).
  assert (queue_rep (th_tq s2) NUM_IDS []) as Hq2
    by (apply queue_rep_links; [done..|]; by apply queue_rep_links).
  pose proof (tqueue_dequeue_empty (th_tq s2) NUM_IDS ltac:(unfold NUM_IDS; lia) Hq2) as Hd.
  pose proof (zoom_Ok (S:=th_state) (tqueue_dequeue NUM_IDS) s2 _ _ Hd) as Hz.
  by rewrite (bind_Ok _ _ _ _ _ Hz).
Qed.

(** The caller's lock is a part of its state apart from the scheduler. *)
Class LockRef {S} `{Lens S th_state} (lk : lockref S) := {
  lk_get_set l s : lk_get lk (lk_set lk l s) = l;
  lk_view_set l s : view (C:=th_state) (lk_set lk l s) = view s;
  lk_get_put (t : th_state) s : lk_get lk (put t s) = lk_get lk s;
}.

Section SleepRun.
Context {S : Type} `{!Lens S th_state} (lk : lockref S) `{!LockRef lk}.

Lemma thread_sleep_run (s : S) a a' c :
  sched_rep (view s) a → a_sleep c a = Some a' →
  ∃ t s', thread_sleep_enter c (Some lk) s = Ok (cur a) s' ∧
    thread_sleep c (Some lk) s = Blocked s' ∧ s' = put t (lk_set lk spinlock_init (put (set_sched_lk locked (view s)) s)) ∧
    view s' = t ∧ sched_rep t a' ∧ th_frame (view s) t.
Proof.
  intros [Hlk Hcore] Ha. unfold a_sleep in Ha. destruct (ready a) as [|x q] eqn:E; [done|].
  injection Ha as <-.
  assert (sched_core (set_sched_lk locked (view s)) a) as Hcore' by (destruct Hcore; by split).
  destruct (sleep_core_run _ a c x q Hcore' E) as (t & Ht & Hrep & Hfr).
  set (s1 := put (set_sched_lk locked (view s)) s).
  set (s2 := lk_set lk spinlock_init s1).
  assert (view s2 = set_sched_lk locked (view s)) as Hv2
    by (unfold s2, s1; by rewrite lk_view_set, view_put).
  exists t, (put t s2).
  assert (thread_sleep_enter c (Some lk) s = Ok (cur a) (put t s2)) as Hen.
  { unfold thread_sleep_enter.
    pose proof (zoom_Ok get_curid s _ _ (get_curid_Ok (view s))) as H1.
    rewrite put_view, (sr_cur _ _ Hcore) in H1. rewrite (bind_Ok _ _ _ _ _ H1).
    pose proof (zoom_Ok sched_acquire s _ _ (spinlock_acquire_free _ _ (view s) Hlk)) as H2.
    rewrite (bind_Ok _ _ _ _ _ H2). erewrite bind_Ok; [|reflexivity].
    change (lk_set lk (spinlock_release_A (lk_get lk s1)) s1) with s2.
    rewrite <- Hv2 in Ht. pose proof (zoom_Ok _ s2 _ _ Ht) as H3.
    by rewrite (bind_Ok _ _ _ _ _ H3). }
  split; [done|]. split; [unfold thread_sleep; by rewrite (bind_Ok _ _ _ _ _ Hen)|].
  split; [done|]. rewrite view_put. by split_and!.
Qed.
End SleepRun.

(** *** Waking *)

Definition wake1 (c : chan) (p : Z) (a : sched) : sched :=
  if decide (asleep a !! p = Some c)
  then {| cur := cur a; ready := ready a ++ [p]; asleep := delete p (asleep a) |} else a.

Lemma wakeup_one_run s a c p :
  sched_core s a → 0 <= p < NUM_IDS →
  ∃ s', wakeup_one (Some c) p s = Ok () s' ∧ sched_core s' (wake1 c p a) ∧ th_frame s s' ∧
    sched_lk s' = sched_lk s.
Proof.
  intros Hrep Hp. pose proof (λ p, ready_not_asleep s a p Hrep) as Hns.
  pose proof Hrep as [Hcur Hrg Hq Hfr Hrun Hrd Has].
  unfold wakeup_one, wake1. rewrite (bind_Ok _ _ _ _ _ (th_get_Ok s p Hp)).
  case_decide as Ea.
  2: { replace (_ && _) with false; [by exists s|]. symmetry.
       rewrite andb_false_iff, !bool_decide_eq_false. rewrite Has in Ea.
       destruct (decide (channel (tb s p) = Some c)); [|by left]. right. tauto. }
  apply Has in Ea as (_ & Est & Ech). rewrite !bool_decide_eq_true_2 by done. simpl.
  rewrite (bind_Ok _ _ _ _ _ (th_set_state_Ok s p Hp _)). set (s1 := set_tb _ _ s).
  rewrite (bind_Ok _ _ _ _ _ (th_set_chan_Ok s1 p Hp _)). set (s2 := set_tb _ _ s1).
  assert (queue_rep (th_tq s2) NUM_IDS (ready a)) as Hq2
    by (apply queue_rep_links; [done..|]; by apply queue_rep_links).
  assert (p ∉ ready a) as Hnp by (intros Hin; by apply (Hns p); auto).
  destruct (th_enqueue_Ok s2 (ready a) p Hq2 Hp Hnp) as (q3 & Hr & Hq3 & Hf).
  rewrite Hr. eexists. split; [done|].
  assert (∀ q, state (tb (set_tq q3 s2) q) = (if decide (p = q) then TSTATE_READY else state (tb s q)) ∧
    channel (tb (set_tq q3 s2) q) = (if decide (p = q) then None else channel (tb s q)) ∧
    own_data (tb (set_tq q3 s2) q) = own_data (tb s q)) as Hp3.
  { intros q. apply fields_split. rewrite (fields_set_tq _ _ _ Hf). unfold s2, s1.
    rewrite !fields_set_tb, !fields_with_channel, !fields_set_tb, !fields_with_state.
    repeat case_decide; try subst q; unfold fields; simpl; congruence || done. }
  assert (cur a ≠ p) as Hcp by (intros <-; congruence).
  split; [|split; [split; [simpl; by rewrite (fr_pt _ _ _ _ Hf)|split; [intros q; apply Hp3|done]]|done]].
  split; cbn [cur ready asleep]; [done|done|done| | |..].
  - rewrite elem_of_app, list_elem_of_singleton. tauto.
  - destruct (Hp3 (cur a)) as [-> _]. by rewrite decide_False.
  - intros q Hin. destruct (Hp3 q) as [-> _]. case_decide; [done|]. apply Hrd. set_solver.
  - intros q c'. destruct (Hp3 q) as (-> & -> & _). rewrite lookup_delete_Some, Has.
    case_decide; intuition congruence.
Qed.

(** The effect of the loop of [thread_wakeup] up to thread [i]. *)
Definition wake_upto (c : chan) (i : Z) (a : sched) : sched :=
  {| cur := cur a;
     ready := ready a ++ filter (λ p, asleep a !! p = Some c) (seqZ 1 (i - 1));
     asleep := filter (λ pc, ¬ (1 <= pc.1 < i ∧ pc.2 = c)) (asleep a) |}.

Lemma wake_upto_step c i a : 1 <= i → wake1 c i (wake_upto c i a) = wake_upto c (i + 1) a.
Proof.
  intros Hi. unfold wake1, wake_upto; simpl.
  replace (i + 1 - 1) with (i - 1 + 1) by lia.
  rewrite (seqZ_app 1 (i - 1) 1), filter_app by lia. replace (1 + (i - 1)) with i by lia.
  change (seqZ i 1) with [i]. rewrite filter_cons, filter_nil.
  rewrite (decide_ext _ (asleep a !! i = Some c)).
  2: { rewrite map_lookup_filter_Some. simpl. intuition lia. }
  case_decide as E; f_equal; [by rewrite app_assoc| | |].
  - apply map_eq. intros p. apply option_eq. intros c'.
    rewrite lookup_delete_Some, !map_lookup_filter_Some. simpl.
    destruct (decide (p = i)) as [->|]; [|assert (1 <= p < i + 1 ↔ 1 <= p < i) as -> by lia;
      intuition congruence].
    rewrite E. split; [tauto|]. intros [[= <-] H]. destruct H. split; [lia|done].
  - by rewrite app_nil_r.
  - apply map_eq. intros p. apply option_eq. intros c'. rewrite !map_lookup_filter_Some. simpl.
    destruct (decide (p = i)) as [->|]; [|assert (1 <= p < i + 1 ↔ 1 <= p < i) as -> by lia;
      intuition congruence].
    intuition (try lia); congruence.
Qed.

Lemma thread_wakeup_run s a c :
  sched_rep s a →
  ∃ s', thread_wakeup (Some c) s = Ok () s' ∧ sched_rep s' (a_wakeup c a) ∧ th_frame s s'.
Proof.
  intros [Hlk Hcore]. unfold thread_wakeup, sched_acquire.
  rewrite (bind_Ok _ _ _ _ _ (spinlock_acquire_free _ _ s Hlk)).
  destruct (for_range_inv (λ i s', sched_core s' (wake_upto c i a) ∧ th_frame s s')
    (λ pid, wakeup_one (Some c) pid) 1 NUM_IDS (set_sched_lk locked s)) as (s' & Hr & Hc & Hf).
  - unfold NUM_IDS; lia.
  - split; [|done]. replace (wake_upto c 1 a) with a; [by destruct Hcore; split|].
    unfold wake_upto. simpl. rewrite app_nil_r. destruct a as [cu rd al]; simpl. f_equal.
    symmetry. apply map_filter_id. intros p c' _. simpl. lia.
  - intros i s1 Hi [Hc Hf]. destruct (wakeup_one_run s1 _ c i Hc) as (s2 & Hr & Hc2 & Hf2 & _); [lia|].
    exists s2. split; [done|]. rewrite wake_upto_step in Hc2 by lia. split; [done|].
    by apply (th_frame_trans s s1).
  - rewrite (bind_Ok _ _ _ _ _ Hr). eexists. split; [reflexivity|]. split; [|done].
    split; [done|]. replace (a_wakeup c a) with (wake_upto c NUM_IDS a); [by destruct Hc; split|].
    unfold wake_upto, a_wakeup, woken. f_equal. apply map_filter_ext. intros p c' Hp. simpl.
    assert (0 <= p < NUM_IDS); [|by assert (1 <= p < NUM_IDS ↔ 1 <= p) as -> by lia]. eapply (sr_asleep s a); [done|exact Hp].
Qed.

(** *** Exit *)

(** With an empty queue the code falls back to thread 1. *)
Definition a_exit (a : sched) : sched :=
  match ready a with
  | x :: q => {| cur := x; ready := q; asleep := asleep a |}
  | [] => {| cur := 1; ready := []; asleep := delete 1 (asleep a) |}
  end.

(** As the callers do it: mark the running thread dead, then leave it. *)
Definition mark_and_exit (pid : Z) : M th_state () :=
  th_set_state pid TSTATE_DEAD ;; thread_exit.

Lemma exit_select s q :
  queue_rep (th_tq s) NUM_IDS q →
  let x := first_or 1 q in
  ∃ d s1 s2 s', zoom (tqueue_dequeue NUM_IDS) s = Ok d s1 ∧
    (if bool_decide (d = NUM_IDS) then 1 else d) = x ∧ 0 <= x < NUM_IDS ∧
    th_set_state x TSTATE_RUN s1 = Ok () s2 ∧ set_curid x s2 = Ok () s' ∧
    queue_rep (th_tq s') NUM_IDS (tl q) ∧ alook 0 (CURID s') cpu_idx = x ∧
    (∀ p, fields (tb s' p) = if decide (x = p) then (TSTATE_RUN, (fields (tb s p)).1.2, (fields (tb s p)).2)
                             else fields (tb s p)) ∧
    tcb_pt (tq_tcb (th_tq s')) = tcb_pt (tq_tcb (th_tq s)) ∧ sched_ticks s' = sched_ticks s.
Proof.
  intros Hq. destruct q as [|x q]; cbn [first_or tl].
  - pose proof (tqueue_dequeue_empty (th_tq s) NUM_IDS ltac:(unfold NUM_IDS; lia) Hq) as Hd.
    pose proof (zoom_Ok (S:=th_state) (tqueue_dequeue NUM_IDS) s _ _ Hd) as Hz.
    assert (0 <= 1 < NUM_IDS) as H1 by (unfold NUM_IDS; lia).
    eexists _, _, _, _. split; [exact Hz|].
    split; [by rewrite bool_decide_eq_true_2|]. split; [done|].
    split; [by apply th_set_state_Ok|]. split; [apply set_curid_Ok|].
    split; [by apply queue_rep_links|]. split; [apply alook_insert_eq|]. split; [|done].
    intros p. change (th_tq (upd_CURID ?f ?s)) with (th_tq s).
    rewrite fields_set_tb, fields_with_state. case_decide; by subst.
  - destruct (dispatch_run s x q Hq) as (s1 & s2 & s3 & H1 & H2 & H3 & Hq3 & Hc & Htb & Hpt & Htk).
    assert (0 <= x < NUM_IDS) as Hx by (apply Hq; set_solver).
    exists x, s1, s2, s3. rewrite bool_decide_eq_false_2 by lia. split_and!; try done; lia.
Qed.

Lemma mark_and_exit_run s a :
  sched_rep s a →
  ∃ s', mark_and_exit (cur a) s = Ok () s' ∧ sched_rep s' (a_exit a) ∧ th_frame s s' ∧
    (cur a ≠ cur (a_exit a) → state (tb s' (cur a)) = TSTATE_DEAD).
Proof.
  intros [Hlk Hrep]. pose proof (λ p, ready_not_asleep s a p Hrep) as Hns.
  destruct Hrep as [Hcur Hrg Hq Hfr Hrun Hrd Has].
  unfold mark_and_exit, thread_exit, sched_acquire.
  rewrite (bind_Ok _ _ _ _ _ (th_set_state_Ok s _ Hrg _)). set (s0 := set_tb _ _ s).
  rewrite (bind_Ok _ _ _ _ _ (spinlock_acquire_free _ _ s0 Hlk)).
  rewrite (bind_Ok _ _ _ _ _ (get_curid_Ok _)). set (s1 := set_sched_lk _ s0).
  change (alook 0 (CURID s1) cpu_idx) with (alook 0 (CURID s) cpu_idx). rewrite Hcur.
  assert (queue_rep (th_tq s1) NUM_IDS (ready a)) as Hq1 by (by apply queue_rep_links).
  destruct (exit_select s1 (ready a) Hq1) as (d & s2 & s3 & s4 & H2 & Hd & Hx & H3 & H4 & Hq4 & Hc4 & Htb & Hpt & Htk4).
  set (x := first_or 1 (ready a)) in *.
  rewrite (bind_Ok _ _ _ _ _ H2). cbv zeta. rewrite Hd.
  rewrite (bind_Ok _ _ _ _ _ H3), (bind_Ok _ _ _ _ _ H4).
  destruct (switch_run s4 (cur a) x Hrg Hx) as (s5 & s6 & H5 & H6 & Htq & Hcid & Hlk6 & Htk6).
  rewrite (bind_Ok _ _ _ _ _ H5), H6. exists s6. split; [done|].
  assert (∀ p, state (tb s6 p) = (if decide (x = p) then TSTATE_RUN
      else if decide (cur a = p) then TSTATE_DEAD else state (tb s p)) ∧
    channel (tb s6 p) = channel (tb s p) ∧ own_data (tb s6 p) = own_data (tb s p)) as Hp6.
  { intros p. apply fields_split. rewrite Htq, Htb. unfold s1, s0.
    change (th_tq (set_sched_lk ?l ?s)) with (th_tq s). rewrite !fields_set_tb, !fields_with_state.
    repeat case_decide; try subst p; unfold fields; simpl; congruence || done. }
  assert (cur (a_exit a) = x ∧ ready (a_exit a) = tl (ready a) ∧
    ∀ p c, asleep (a_exit a) !! p = Some c ↔ p ≠ x ∧ asleep a !! p = Some c) as (Ex & Er & Eas).
  { unfold a_exit, x. destruct (ready a) as [|y q] eqn:E; simpl; split_and!; try done; intros p c.
    - rewrite lookup_delete_Some. intuition congruence.
    - split; [|tauto]. intros Hp. split; [|done]. intros ->. apply Has in Hp as (_ & Hst & _).
      by apply (Hns y); [set_solver|]. }
  assert (NoDup (ready a)) as Hnd by apply Hq.
  split; [split; [done|]; split|split; [split; [by rewrite Htq, Hpt|split; [intros p; apply Hp6|by rewrite Htk6, Htk4]]|]].
  - by rewrite Hcid, Ex.
  - by rewrite Ex.
  - by rewrite Htq, Er.
  - rewrite Ex, Er. unfold x. destruct (ready a); simpl; [set_solver|]. by apply NoDup_cons in Hnd as [? _].
  - rewrite Ex. destruct (Hp6 x) as [-> _]. by rewrite decide_True.
  - rewrite Er. intros p Hp. destruct (Hp6 p) as [-> _]. unfold x in *.
    destruct (ready a) as [|y q]; simpl in *; [set_solver|]. apply NoDup_cons in Hnd as [Hy _].
    rewrite !decide_False by set_solver. apply Hrd. set_solver.
  - intros p c. rewrite Eas, Has. destruct (Hp6 p) as (-> & -> & _).
    repeat case_decide; intuition congruence.
  - rewrite Ex. intros Hne. destruct (Hp6 (cur a)) as [-> _]. by rewrite decide_False, decide_True.
Qed.

(** *** Creation *)

Notation th_cont s := (pt_cont (tcb_pt (tq_tcb (th_tq s)))).

(** Every thread the scheduler knows has a container. *)
Definition has_container (s : th_state) (a : sched) : Prop :=
  ∀ p, p = cur a ∨ p ∈ ready a ∨ is_Some (asleep a !! p) → used (cont_look (th_cont s) p) ≠ 0.

Definition a_spawn (pid : Z) (a : sched) : sched :=
  {| cur := cur a; ready := ready a ++ [pid]; asleep := asleep a |}.

Definition set_cont (c : cont_state) (s : th_state) : th_state :=
  set_tq {| tq_tcb := {| tcb_pt := with_cont c (tcb_pt (tq_tcb (th_tq s)));
                         TCBPool := TCBPool (tq_tcb (th_tq s)) |};
            TQueuePool := TQueuePool (th_tq s) |} s.

Lemma pt_alloc_mem_quota_Ok id q child c s :
  container_split id q (th_cont s) = Ok child c →
  pt_alloc_mem_quota id q s = Ok child (set_cont c s).
Proof.
  intros H. unfold pt_alloc_mem_quota, alloc_mem_quota, zoom, view, put; simpl. by rewrite H.
Qed.

(** The context that [kctx_new] gives a thread. *)
Definition new_kctx (s : th_state) (pid entry : Z) : kctx :=
  let k := alook kctx_zero (kctx_pool s) pid in
  {| k_esp := kstack_hi pid s; k_edi := k_edi k; k_esi := k_esi k; k_ebx := k_ebx k;
     k_ebp := k_ebp k; k_eip := entry |}.

Lemma kctx_new_Ok entry id q child c s :
  container_split id q (th_cont s) = Ok child c → 0 <= child < NUM_IDS →
  ∃ s', kctx_new entry id q s = Ok child s' ∧ th_tq s' = th_tq (set_cont c s) ∧
    CURID s' = CURID s ∧ sched_lk s' = sched_lk s ∧
    alook kctx_zero (kctx_pool s') child = new_kctx s child entry.
Proof.
  intros Hs Hc. unfold kctx_new. rewrite (bind_Ok _ _ _ _ _ (pt_alloc_mem_quota_Ok _ _ _ _ _ Hs)).
  kstep. unfold kctx_set_esp, kctx_set_eip, kctx_get, kctx_put.
  erewrite bind_Ok.
  2: { rewrite (bind_Ok _ _ _ _ _ (aget_Ok kctx_zero _ _ child _ Hc)). by apply aset_Ok. }
  erewrite bind_Ok.
  2: { rewrite (bind_Ok _ _ _ _ _ (aget_Ok kctx_zero _ _ child _ Hc)). by apply aset_Ok. }
  eexists. split; [reflexivity|]. split_and!; try done. simpl. by rewrite !alook_insert_eq.
Qed.

(** Once the container has been split, the new thread is put behind the ready ones. *)
Lemma spawn_sched s a entry id q child c :
  sched_rep s a → container_split id q (th_cont s) = Ok child c → 0 <= child < NUM_IDS →
  child ≠ cur a → child ∉ ready a → asleep a !! child = None →
  ∃ s', thread_spawn entry id q s = Ok child s' ∧ sched_rep s' (a_spawn child a) ∧ th_cont s' = c ∧
    alook kctx_zero (kctx_pool s') child = new_kctx s child entry ∧
    ∀ p, own_data (tb s' p) = own_data (tb s p).
Proof.
  intros [Hlk Hrep] Hs Hch Hc1 Hc2 Hc3. destruct Hrep as [Hcur Hrg Hq Hfr Hrun Hrd Has].
  unfold thread_spawn, sched_acquire.
  rewrite (bind_Ok _ _ _ _ _ (spinlock_acquire_free _ _ s Hlk)). set (s0 := set_sched_lk _ s).
  destruct (kctx_new_Ok entry id q child c s0 Hs Hch) as (s1 & H1 & Htq & Hcid & Hlk1 & Hk).
  rewrite (bind_Ok _ _ _ _ _ H1).
  rewrite (bind_Ok _ _ _ _ _ (th_set_state_Ok s1 child Hch _)). set (s2 := set_tb _ _ s1).
  assert (queue_rep (th_tq s2) NUM_IDS (ready a)) as Hq2.
  { apply queue_rep_links; [done..|]. rewrite Htq. by destruct Hq; split. }
  destruct (th_enqueue_Ok s2 (ready a) child Hq2 Hch Hc2) as (q3 & H3 & Hq3 & Hf).
  rewrite (bind_Ok _ _ _ _ _ H3). erewrite bind_Ok; [|reflexivity].
  set (s3 := set_tq q3 s2).
  assert (∀ p, state (tb s3 p) = (if decide (child = p) then TSTATE_READY else state (tb s p)) ∧
    channel (tb s3 p) = channel (tb s p) ∧ own_data (tb s3 p) = own_data (tb s p)) as Hp3.
  { intros p. apply fields_split. unfold s3. rewrite (fields_set_tq _ _ _ Hf). unfold s2.
    rewrite !fields_set_tb, !fields_with_state, !Htq. case_decide; by subst. }
  assert (th_cont s3 = c) as Hcont.
  { simpl. rewrite (fr_pt _ _ _ _ Hf). simpl. by rewrite Htq. }
  eexists. split; [reflexivity|]. split; [split; [done|]; split|split; [exact Hcont|split]].
  - simpl. by rewrite Hcid.
  - done.
  - done.
  - simpl. set_solver.
  - simpl. destruct (Hp3 (cur a)) as [E _]. rewrite decide_False in E by done. exact (eq_trans E Hrun).
  - cbn [a_spawn ready]. intros p Hp. destruct (Hp3 p) as [E _]. refine (eq_trans E _).
    case_decide; [done|]. apply Hrd. set_solver.
  - intros p c'. cbn [a_spawn asleep]. destruct (Hp3 p) as (E1 & E2 & _).
    change (asleep a !! p = Some c' ↔ 0 <= p < NUM_IDS ∧ state (tb s3 p) = TSTATE_SLEEP ∧
            channel (tb s3 p) = Some c'). rewrite E1, E2.
    case_decide; [|apply Has]. subst p. rewrite Hc3. by intuition.
  - exact Hk.
  - intros p. apply Hp3.
Qed.

Lemma thread_spawn_run s a entry id q :
  sched_rep s a → cont_wf (th_cont s) → can_split (th_cont s) id q → has_container s a →
  ∃ pid s', thread_spawn entry id q s = Ok pid s' ∧ pid ≠ cur a ∧ pid ∉ ready a ∧
    sched_rep s' (a_spawn pid a) ∧ cont_wf (th_cont s') ∧ has_container s' (a_spawn pid a) ∧
    cont_look (th_cont s') pid = split_child id q ∧
    alook kctx_zero (kctx_pool s') pid = new_kctx s pid entry ∧
    ∀ p, own_data (tb s' p) = own_data (tb s p).
Proof.
  intros Hrep Hwf Hcan Hhas.
  destruct (container_split_run _ id q Hwf Hcan) as (c & Hs & Hch & _ & Hfree & Hat & Hlook).
  pose proof (container_split_wf _ c id q Hwf Hcan Hch Hat Hfree Hlook) as Hwf'.
  set (child := child_slot id _) in *. clearbody child.
  assert (child ≠ cur a ∧ child ∉ ready a ∧ asleep a !! child = None) as (Hc1 & Hc2 & Hc3).
  { pose proof (Hhas child) as H. split_and!; [intros ->; by apply H; auto|intros ?; by apply H; auto|].
    apply eq_None_not_Some. intros ?. by apply H; auto. }
  destruct (spawn_sched s a entry id q child c Hrep Hs Hch Hc1 Hc2 Hc3) as (s' & E & Hrep' & Hcont & Hk & Hown).
  exists child, s'. split_and!; [exact E|done|done|exact Hrep'|by rewrite Hcont| |rewrite Hcont, Hlook; by rewrite decide_True|exact Hk|exact Hown].
  intros p Hp. rewrite Hcont, Hlook. case_decide; [done|]. cbn [a_spawn cur ready asleep] in Hp.
  assert (used (cont_look (th_cont s) p) ≠ 0) by (apply Hhas; set_solver).
  case_decide; [subst; done|done].
Qed.

(** *** The timer *)

Lemma cpu_ok : 0 <= cpu_idx < NUM_CPUS.
Proof. done. Qed.

Definition ticks (s : th_state) : Z := alook 0 (sched_ticks s) cpu_idx.

Lemma ticks_upd v s : alook 0 (sched_ticks (upd_sched_ticks <[cpu_idx := v]> s)) cpu_idx = v.
Proof. apply alook_insert_eq. Qed.

Lemma sched_update_run s a :
  sched_rep s a → 0 <= ticks s < 1000000 →
  ∃ s', sched_update s = Ok () s' ∧ (∀ p, own_data (tb s' p) = own_data (tb s p)) ∧
    sched_rep s' (if decide (ticks s < SCHED_SLICE) then a else a_yield a) ∧
    ticks s' = if decide (ticks s < SCHED_SLICE) then ticks s + 1 else 0.
Proof.
  intros [Hlk Hrep] Ht. unfold sched_update, sched_acquire.
  rewrite (bind_Ok _ _ _ _ _ (spinlock_acquire_free _ _ s Hlk)).
  rewrite (bind_Ok _ _ _ _ _ (aget_Ok 0 _ _ cpu_idx _ cpu_ok)). simpl sched_ticks.
  change (alook 0 (sched_ticks s) cpu_idx) with (ticks s). change (1000 / _) with 1.
  rewrite u32_small by (unfold is_u32, W32; lia).
  rewrite (bind_Ok _ _ _ _ _ (aset_Ok _ _ cpu_idx _ _ cpu_ok)).
  rewrite (bind_Ok _ _ _ _ _ (aget_Ok 0 _ _ cpu_idx _ cpu_ok)).
  rewrite ticks_upd. unfold SCHED_SLICE.
  case_decide as E.
  - rewrite bool_decide_eq_false_2 by lia. eexists. split; [reflexivity|]. split; [done|].
    split; [split; [done|]; destruct Hrep; by split|]. apply alook_insert_eq.
  - rewrite bool_decide_eq_true_2 by lia.
    rewrite (bind_Ok _ _ _ _ _ (aset_Ok _ _ cpu_idx _ _ cpu_ok)).
    erewrite bind_Ok; [|reflexivity]. set (s1 := set_sched_lk _ _).
    assert (sched_rep s1 a) as Hrep1 by (split; [done|]; destruct Hrep; by split).
    destruct (thread_yield_run s1 a Hrep1) as (s2 & H2 & Hrep2 & Hf2).
    exists s2. split; [done|]. destruct Hf2 as (_ & Hd & Htk). split; [done|]. split; [done|].
    unfold ticks. rewrite Htk. apply alook_insert_eq.
Qed.
