(* ===== verification/Sched.v ===== *)
(** * The scheduler's contract

    The theorems about threads: the linked queues, locks and control blocks implement
    an abstract scheduler with a running thread, a list of ready threads and the
    channels of the sleeping ones. *)

From S2P Require Import Prelude Spinlock Mboot PMem Container PageTable TCB TQueue Thread.

(** ** A caller of the scheduler

    A caller has one lock of its own, which it holds when it sleeps. *)

Record client := { c_th : th_state; c_lk : spinlock_t }.

#[global, program] Instance c_th_lens : Lens client th_state := {|
  view := c_th;
  put t s := {| c_th := t; c_lk := c_lk s |}
|}.
Next Obligation. done. Qed.
Next Obligation. by intros []. Qed.
Next Obligation. done. Qed.

Definition client_lk : lockref client :=
  {| lk_get := c_lk; lk_set l s := {| c_th := c_th s; c_lk := l |} |}.

#[global] Instance client_lockref : LockRef client_lk.
Proof. by split. Qed.

Inductive sched_op := OpYield | OpSleep (c : chan) | OpWakeup (c : chan) | OpExit.

Definition run_op (op : sched_op) : M client () :=
  match op with
  | OpYield => zoom thread_yield
  | OpSleep c => thread_sleep_enter c (Some client_lk) ;; mret ()
  | OpWakeup c => zoom (thread_wakeup (Some c))
  | OpExit => pid ← zoom get_curid; zoom (mark_and_exit pid)
  end.

Definition a_op (op : sched_op) (a : sched) : option sched :=
  match op with
  | OpYield => Some (a_yield a)
  | OpSleep c => a_sleep c a
  | OpWakeup c => Some (a_wakeup c a)
  | OpExit => Some (a_exit a)
  end.

Fixpoint run_ops (ops : list sched_op) : M client () :=
  match ops with [] => mret () | op :: ops => run_op op ;; run_ops ops end.

Fixpoint a_ops (ops : list sched_op) (a : sched) : option sched :=
  match ops with [] => Some a | op :: ops => a ← a_op op a; a_ops ops a end.

Lemma run_op_refines op s a a' :
  sched_rep (c_th s) a → a_op op a = Some a' →
  ∃ s', run_op op s = Ok () s' ∧ sched_rep (c_th s') a' ∧ th_frame (c_th s) (c_th s').
Proof.
  intros Hrep Ha. destruct op as [|c|c|]; simpl in Ha.
  - injection Ha as <-. destruct (thread_yield_run _ a Hrep) as (t & H & ? & ?).
    pose proof (zoom_Ok (S:=client) thread_yield s _ _ H). eauto.
  - destruct (thread_sleep_run client_lk s a a' c) as (t & s' & H & _ & _ & Hv & Hr & Hf);
      [done..|].
    exists s'. simpl. rewrite (bind_Ok _ _ _ _ _ H). split; [done|].
    change (c_th s') with (view s' : th_state). by rewrite Hv.
  - injection Ha as <-. destruct (thread_wakeup_run _ a c Hrep) as (t & H & ? & ?).
    pose proof (zoom_Ok (S:=client) (thread_wakeup (Some c)) s _ _ H). eauto.
  - injection Ha as <-. destruct (mark_and_exit_run _ a Hrep) as (t & H & ? & ? & _).
    pose proof (zoom_Ok (S:=client) (mark_and_exit (cur a)) s _ _ H) as Hz.
    exists (put t s). split; [|done]. simpl.
    pose proof (zoom_Ok (S:=client) get_curid s _ _ (get_curid_Ok (c_th s))) as Hg.
    rewrite (sr_cur _ _ (proj2 Hrep)) in Hg. rewrite (bind_Ok _ _ _ _ _ Hg). by destruct s.
Qed.

(** C4: The scheduler implements its specification: from a state that represents an
    abstract scheduler, every sequence of yields, sleeps, wakeups and exits of running
    threads that the specification allows runs without error and without deadlock and
    ends in a state that represents the specified scheduler; yield rotates the ready
    list, sleep parks the running thread on its channel, wakeup appends exactly the
    threads parked on the channel in the order of their numbers; no open file, working
    directory or signal state of any thread and nothing in the memory layers changes. *)
Theorem scheduler_refines ops s a a' :
  sched_rep (c_th s) a → a_ops ops a = Some a' →
  ∃ s', run_ops ops s = Ok () s' ∧ sched_rep (c_th s') a' ∧ th_frame (c_th s) (c_th s').
Proof.
  revert s a. induction ops as [|op ops IH]; intros s a Hrep Ha; simpl in *.
  { injection Ha as <-. exists s. by split_and!. }
  apply bind_Some in Ha as (a1 & Ha1 & Ha).
  destruct (run_op_refines op s a a1 Hrep Ha1) as (s1 & H1 & Hrep1 & Hf1).
  destruct (IH s1 a1 Hrep1 Ha) as (s2 & H2 & Hrep2 & Hf2). exists s2.
  rewrite (bind_Ok _ _ _ _ _ H1), H2. eauto using th_frame_trans.
Qed.

(** ** Round robin *)

Fixpoint yields (n : nat) : M th_state () :=
  match n with O => mret () | S n => thread_yield ;; yields n end.

(** [n] yields rotate the list that starts with the running thread. *)
Lemma yields_run n s a l r :
  sched_rep s a → cur a :: ready a = l ++ r → length l = n →
  ∃ s' a', yields n s = Ok () s' ∧ sched_rep s' a' ∧
    cur a' :: ready a' = r ++ l ∧ asleep a' = asleep a.
Proof.
  revert s a l r. induction n as [|n IH]; intros s a l r Hrep E Hl.
  { destruct l; [|done]. exists s, a. rewrite app_nil_r. by split_and!. }
  destruct l as [|x l]; [done|]. simpl in E. injection E as Ec Er.
  destruct (thread_yield_run s a Hrep) as (s1 & H1 & Hrep1 & _).
  assert (cur (a_yield a) :: ready (a_yield a) = l ++ (r ++ [x]) ∧
          asleep (a_yield a) = asleep a) as [E1 Eas].
  { unfold a_yield. rewrite Er, Ec, app_assoc.
    destruct ((l ++ r) ++ [x]) eqn:E; [by destruct (l ++ r)|done]. }
  simpl in Hl. injection Hl as Hl.
  destruct (IH s1 _ l (r ++ [x]) Hrep1 E1 Hl) as (s2 & a2 & H2 & Hrep2 & E2 & Eas2).
  exists s2, a2. simpl. rewrite (bind_Ok _ _ _ _ _ H1), H2. split_and!; try done; [|congruence].
  rewrite E2. by rewrite <- app_assoc.
Qed.

(** C28: Round robin is fair: the thread at position [k] of the ready queue is the
    running thread after [k + 1] yields, and after as many yields as there are runnable
    threads the first one runs again with the queue unchanged. *)
Theorem yield_round_robin s a :
  sched_rep s a →
  (∀ k p, ready a !! k = Some p →
     ∃ s' a', yields (S k) s = Ok () s' ∧ sched_rep s' a' ∧ cur a' = p) ∧
  ∃ s', yields (S (length (ready a))) s = Ok () s' ∧ sched_rep s' a.
Proof.
  intros Hrep. split.
  - intros k p Hk. pose proof (take_drop_middle _ _ _ Hk) as E.
    destruct (yields_run (S k) s a (cur a :: take k (ready a)) (p :: drop (S k) (ready a)) Hrep)
      as (s' & a' & H & Hrep' & E' & _); [by rewrite <- app_comm_cons, E| |].
    + simpl. f_equal. rewrite length_take. apply lookup_lt_Some in Hk. lia.
    + exists s', a'. split; [done|]. split; [done|]. by injection E'.
  - destruct (yields_run (S (length (ready a))) s a (cur a :: ready a) [] Hrep)
      as (s' & a' & H & Hrep' & E' & Eas); [by rewrite app_nil_r|done|].
    exists s'. split; [done|]. replace a with a'; [done|].
    destruct a, a'; simpl in *. congruence.
Qed.

(** ** A machine with three threads *)

(** Thread 0 runs, 1 and 2 are ready in this order, 4 sleeps on the log. *)
Definition three_q : tq_state :=
  {| tq_tcb :=
       {| tcb_pt := tcb_pt (tq_tcb tq0);
          TCBPool := list_to_map
            [(0, with_state TSTATE_RUN TCB_zero);
             (1, with_prev NUM_IDS (with_next 2 TCB_zero));
             (2, with_prev 1 (with_next NUM_IDS TCB_zero));
             (4, with_channel (Some ChLog) (with_state TSTATE_SLEEP TCB_zero))] |};
     TQueuePool := {[ (cpu_idx, NUM_IDS) := {| head := 1; tail := 2 |} ]} |}.

Definition three : th_state :=
  {| th_tq := three_q; CURID := ∅; kctx_pool := ∅; proc_kstack_addr := 0; cpu := kctx_zero;
     sched_ticks := ∅; sched_lk := spinlock_init |}.

Definition three_a : sched := {| cur := 0; ready := [1; 2]; asleep := {[ 4 := ChLog ]} |}.

Lemma three_rep : sched_rep three three_a.
Proof.
  split; [done|]. split; simpl.
  - done.
  - unfold NUM_IDS; lia.
  - split; [apply NoDup_ListNoDup; repeat constructor; simpl; intuition lia| |done|done|done].
    intros x Hx. unfold NUM_IDS. set_unfold in Hx. lia.
  - set_solver.
  - done.
  - intros p Hp. set_unfold in Hp. by destruct Hp as [->|[->|[]]].
  - intros p c. destruct (decide (p = 4)) as [->|Hp].
    { rewrite lookup_singleton_eq. vm_compute. intuition congruence. }
    rewrite lookup_singleton_ne by done. split; [done|]. intros (_ & Hst & _). exfalso. revert Hst.
    destruct (decide (p = 0)) as [->|]; [by vm_compute|].
    destruct (decide (p = 1)) as [->|]; [by vm_compute|].
    destruct (decide (p = 2)) as [->|]; [by vm_compute|].
    unfold tcb_look, alook; simpl. by rewrite !lookup_insert_ne by congruence.
Qed.

Lemma scheduler_refines_witness :
  ∃ s', run_ops [OpYield; OpSleep (ChBuf 3); OpWakeup ChLog; OpExit]
          {| c_th := three; c_lk := locked |} = Ok () s' ∧
        sched_rep (c_th s') {| cur := 0; ready := [4]; asleep := {[ 1 := ChBuf 3 ]} |} ∧
        th_frame three (c_th s').
Proof.
  apply (scheduler_refines [OpYield; OpSleep (ChBuf 3); OpWakeup ChLog; OpExit]
           {| c_th := three; c_lk := locked |} three_a); [apply three_rep|].
  vm_compute. reflexivity.
Defined.

Lemma yield_round_robin_witness :
  (∀ k p, [1; 2] !! k = Some p →
     ∃ s' a', yields (S k) three = Ok () s' ∧ sched_rep s' a' ∧ cur a' = p) ∧
  ∃ s', yields 3 three = Ok () s' ∧ sched_rep s' three_a.
Proof. apply (yield_round_robin three three_a). apply three_rep. Defined.

(** ** The time slice *)

Fixpoint updates (n : nat) : M th_state () :=
  match n with O => mret () | S n => sched_update ;; updates n end.

Lemma updates_run n s a :
  sched_rep s a → 0 <= ticks s → ticks s + Z.of_nat n <= SCHED_SLICE →
  ∃ s', updates n s = Ok () s' ∧ sched_rep s' a ∧ ticks s' = ticks s + Z.of_nat n.
Proof.
  revert s. induction n as [|n IH]; intros s Hrep H0 Hn.
  { exists s. split; [done|]. split; [done|]. lia. }
  unfold SCHED_SLICE in *.
  destruct (sched_update_run s a Hrep) as (s1 & H1 & _ & Hrep1 & Ht1); [lia|].
  unfold SCHED_SLICE in *. rewrite decide_True in Hrep1 by lia. rewrite decide_True in Ht1 by lia.
  destruct (IH s1 Hrep1) as (s2 & H2 & Hrep2 & Ht2); [lia|lia|].
  exists s2. simpl. rewrite (bind_Ok _ _ _ _ _ H1), H2. split; [done|]. split; [done|]. lia.
Qed.

(** Preemption: a thread that starts with a fresh slice keeps running through
    five timer interrupts, and the sixth one yields to the next ready thread and
    starts a fresh slice. *)
Theorem sched_update_slice s a :
  sched_rep s a → ticks s = 0 →
  (∀ n, (n <= 5)%nat → ∃ s', updates n s = Ok () s' ∧ sched_rep s' a) ∧
  ∃ s', updates 6 s = Ok () s' ∧ sched_rep s' (a_yield a) ∧ ticks s' = 0.
Proof.
  intros Hrep Ht. split.
  - intros n Hn. destruct (updates_run n s a Hrep) as (s' & ? & ? & _);
      [lia|unfold SCHED_SLICE; lia|]. eauto.
  - destruct (updates_run 5 s a Hrep) as (s1 & H1 & Hrep1 & Ht1); [lia|by rewrite Ht|].
    destruct (sched_update_run s1 a Hrep1) as (s2 & H2 & _ & Hrep2 & Ht2); [lia|].
    unfold SCHED_SLICE in *. rewrite decide_False in Hrep2 by lia. rewrite decide_False in Ht2 by lia.
    exists s2. split; [|done].
    assert (∀ n s, updates (S n) s = (updates n ;; sched_update) s) as Hcomm.
    { clear. induction n as [|n IH]; intros s.
      - change (updates 1 s) with ((sched_update ;; mret ()) s).
        change ((updates 0 ;; sched_update) s) with (sched_update s).
        unfold mbind, M_bind. by destruct (sched_update s) as [[] ?| | | |].
      - change (updates (S (S n)) s) with ((sched_update ;; updates (S n)) s).
        change (updates (S n)) with (sched_update ;; updates n). unfold mbind, M_bind in *.
        destruct (sched_update s) as [? s'| | | |]; [|done..]. exact (IH s'). }
    by rewrite Hcomm, (bind_Ok _ _ _ _ _ H1).
Qed.

Lemma sched_update_slice_witness :
  (∀ n, (n <= 5)%nat → ∃ s', updates n three = Ok () s' ∧ sched_rep s' three_a) ∧
  ∃ s', updates 6 three = Ok () s' ∧
        sched_rep s' {| cur := 1; ready := [2; 0]; asleep := {[ 4 := ChLog ]} |} ∧ ticks s' = 0.
Proof. apply (sched_update_slice three three_a); [apply three_rep|reflexivity]. Defined.

(** ** Creation *)

(** Creating a thread: when the checks of [sys_spawn] hold, [thread_spawn] returns
    a thread number that no running, ready or sleeping thread has, the new thread is
    ready behind all others with its entry point, its own kernel stack and exactly the
    quota given, the container tree and the scheduler stay well formed, and no other
    thread's files, directory or signals change. *)
Theorem thread_spawn_fresh s a entry id q :
  sched_rep s a → cont_wf (th_cont s) → can_split (th_cont s) id q → has_container s a →
  ∃ pid s', thread_spawn entry id q s = Ok pid s' ∧ pid ≠ cur a ∧ pid ∉ ready a ∧
    sched_rep s' (a_spawn pid a) ∧ cont_wf (th_cont s') ∧ has_container s' (a_spawn pid a) ∧
    cont_look (th_cont s') pid = split_child id q ∧
    alook kctx_zero (kctx_pool s') pid = new_kctx s pid entry ∧
    ∀ p, own_data (tb s' p) = own_data (tb s p).
Proof. apply thread_spawn_run. Qed.

(** The root thread alone, with a hundred pages of quota. *)
Definition solo : th_state :=
  {| th_tq :=
       {| tq_tcb :=
            {| tcb_pt := {| pt_cont := sample_cont 100 [1; 2]; pt_lk := spinlock_init;
                            PDirPool := ∅; IDPTbl_addr := 4194304; mem := ∅; cr3 := 0;
                            paging := false |};
               TCBPool := {[ 0 := with_state TSTATE_RUN TCB_zero ]} |};
          TQueuePool := TQueuePool tq0 |};
     CURID := ∅; kctx_pool := ∅; proc_kstack_addr := 0; cpu := kctx_zero;
     sched_ticks := ∅; sched_lk := spinlock_init |}.

Definition solo_a : sched := {| cur := 0; ready := []; asleep := ∅ |}.

Lemma solo_rep : sched_rep solo solo_a.
Proof.
  split; [done|]. split; simpl; try done.
  - split; [constructor|set_solver|done|done|done].
  - set_solver.
  - set_solver.
  - intros p c. rewrite lookup_empty. split; [done|]. intros (_ & Hst & _). exfalso. revert Hst.
    unfold tcb_look, alook; simpl. destruct (decide (p = 0)) as [->|].
    + by rewrite lookup_singleton_eq.
    + by rewrite lookup_singleton_ne.
Qed.

Lemma thread_spawn_fresh_witness :
  ∃ pid s', thread_spawn 5000 0 10 solo = Ok pid s' ∧ pid ≠ cur solo_a ∧ pid ∉ ready solo_a ∧
    sched_rep s' (a_spawn pid solo_a) ∧ cont_wf (th_cont s') ∧
    has_container s' (a_spawn pid solo_a) ∧
    cont_look (th_cont s') pid = split_child 0 10 ∧
    alook kctx_zero (kctx_pool s') pid = new_kctx solo pid 5000 ∧
    ∀ p, own_data (tb s' p) = own_data (tb solo p).
Proof.
  apply (thread_spawn_fresh solo solo_a 5000 0 10).
  - apply solo_rep.
  - apply sample_cont_wf. lia.
  - unfold can_split. change (th_cont solo) with (sample_cont 100 [1; 2]).
    rewrite sample_cont_look. simpl. unfold MAX_CHILDREN, NUM_IDS. lia.
  - intros p [->|[Hp|[c Hc]]]; [done|set_solver|done].
Defined.

(** ** Boot *)

(** A block that [tcb_init_at_id] wrote, or one that was never written. *)
Definition boot_block (t : TCB) : Prop :=
  (state t = TSTATE_READY ∨ state t = TSTATE_DEAD) ∧ channel t = None ∧ openfiles t = ∅.

Lemma tcb_init_loop stk s :
  (∀ i, 0 <= i < NUM_IDS → 0 <= stk i < NUM_IDS) → (∀ p, boot_block (tcb_look s p)) →
  ∃ s', for_range 0 NUM_IDS (λ pid, tcb_init_at_id pid (stk pid)) s = Ok () s' ∧
    (∀ p, boot_block (tcb_look s' p)) ∧ tcb_pt s' = tcb_pt s ∧
    ∀ p, (∀ i, 0 <= i < NUM_IDS → stk i ≠ p) → tcb_look s' p = tcb_look s p.
Proof.
  intros Hstk Hb.
  destruct (for_range_inv (λ _ s', (∀ p, boot_block (tcb_look s' p)) ∧ tcb_pt s' = tcb_pt s ∧
      ∀ p, (∀ i, 0 <= i < NUM_IDS → stk i ≠ p) → tcb_look s' p = tcb_look s p)
    (λ pid, tcb_init_at_id pid (stk pid)) 0 NUM_IDS s) as (s' & Hr & H);
    [unfold NUM_IDS; lia|by split_and!| |by exists s'].
  intros i s1 Hi (H1 & H2 & H3). unfold tcb_init_at_id. rewrite tcb_upd_Ok by auto. eexists.
  split; [reflexivity|]. split; [|split; [done|]].
  - intros p. rewrite tcb_look_upd. case_decide; [|done]. split; [by right|done].
  - intros p Hp. rewrite tcb_look_upd, decide_False by auto. auto.
Qed.

(** The call in [tcb_init] leaves out an argument: with the same value [g] in the stack
    slot at every call, one block is set up and all the others stay all zero, so a
    thread that was never created is not marked dead. *)
Lemma tcb_init_skips g s :
  0 <= g < NUM_IDS → TCBPool s = ∅ →
  ∃ s', for_range 0 NUM_IDS (λ pid, tcb_init_at_id pid g) s = Ok () s' ∧
    ∀ p, p ≠ g → state (tcb_look s' p) = TSTATE_READY ∧ prev (tcb_look s' p) = 0.
Proof.
  intros Hg He. assert (∀ p, tcb_look s p = TCB_zero) as Hz.
  { intros p. unfold tcb_look, alook. by rewrite He. }
  destruct (tcb_init_loop (λ _, g) s) as (s' & Hr & _ & _ & H); [done| |].
  - intros p. rewrite Hz. split; [by left|done].
  - exists s'. split; [done|]. intros p Hp. by rewrite H, Hz by auto.
Qed.

Lemma tqueue_init_loops s :
  ∃ s', for_range 0 NUM_CPUS (λ cpu, for_range 0 (NUM_IDS + 1) (λ chid, tqueue_init_at_id cpu chid)) s
          = Ok () s' ∧ tq_tcb s' = tq_tcb s ∧ queue_rep s' NUM_IDS [].
Proof.
  set (I := λ (c k : Z) (s' : tq_state), tq_tcb s' = tq_tcb s ∧
    ∀ cpu chid, 0 <= chid <= NUM_IDS → 0 <= cpu < c ∨ cpu = c ∧ chid < k →
      tq_look s' cpu chid = {| head := NUM_IDS; tail := NUM_IDS |}).
  destruct (for_range_inv (λ c s', I c 0 s') (λ cpu, for_range 0 (NUM_IDS + 1) (λ chid, tqueue_init_at_id cpu chid))
    0 NUM_CPUS s) as (s' & Hr & H1 & H2); [unfold NUM_CPUS; lia|split; [done|lia]| |].
  - intros c s1 Hc HI.
    destruct (for_range_inv (λ k s', I c k s') (λ chid, tqueue_init_at_id c chid) 0 (NUM_IDS + 1) s1)
      as (s2 & Hr & H1 & H2); [unfold NUM_IDS; lia|done| |].
    + intros k s2 Hk [H1 H2]. unfold tqueue_init_at_id, tq_put, tq_ok.
      rewrite !bool_decide_eq_true_2 by lia. eexists. split; [reflexivity|]. split; [done|].
      intros cpu chid Hch Hlt. unfold tq_look; simpl.
      destruct (decide ((c, k) = (cpu, chid))) as [E|E]; [rewrite E; by rewrite lookup_insert_eq|].
      rewrite lookup_insert_ne by done. apply H2; [done|]. destruct Hlt as [?|[-> ?]]; [by left|right].
      split; [done|]. assert (k ≠ chid) by congruence. lia.
    + eexists. split; [exact Hr|]. split; [done|]. intros cpu chid Hch Hlt. apply H2; lia.
  - exists s'. split; [exact Hr|]. clear Hr. split; [done|].
    assert (tq_look s' cpu_idx NUM_IDS = {| head := NUM_IDS; tail := NUM_IDS |}) as Hq
      by (apply H2; [unfold NUM_IDS; lia|left; unfold cpu_idx, NUM_CPUS; lia]).
    split; [constructor|set_solver|by rewrite Hq|by rewrite Hq|done].
Qed.

Definition th0 (lk : spinlock_t) (idptbl kstacks : Z) (m : gmap Z Z) : th_state :=
  {| th_tq := {| tq_tcb := {| tcb_pt := pt0 lk idptbl m; TCBPool := ∅ |}; TQueuePool := ∅ |};
     CURID := ∅; kctx_pool := ∅; proc_kstack_addr := kstacks; cpu := kctx_zero;
     sched_ticks := ∅; sched_lk := lk |}.

Lemma thread_init_run t p a lk idptbl kstacks m stk :
  Z.of_nat (length t) <= 128 → Forall row_ok t → p ∈ t → row_says p MEM_RAM a →
  idptbl mod 4096 = 0 → 0 < idptbl → idptbl + 4194304 <= VM_USERLO →
  (∀ i, 0 <= i < NUM_IDS → 0 <= stk i < NUM_IDS) →
  ∃ s, thread_init stk t (th0 lk idptbl kstacks m) = Ok () s ∧
    sched_rep s {| cur := 0; ready := []; asleep := ∅ |} ∧
    pt_wf (tcb_pt (tq_tcb (th_tq s))) ∧
    has_container s {| cur := 0; ready := []; asleep := ∅ |} ∧ ticks s = 0 ∧
    (∀ p, openfiles (tb s p) = ∅) ∧ ∃ q, CONTAINER (th_cont s) = {[ 0 := root_container q ]}.
Proof.
  intros Hlen Ht Hp Ha Hi1 Hi2 Hi3 Hstk.
  destruct (paging_init_run t p a lk idptbl m Hlen Ht Hp Ha Hi1 Hi2 Hi3) as (pt & Hpt & Hwf & _ & _ & _ & _ & q0 & Hroot).
  unfold thread_init.
  destruct (for_range_inv (λ _ s', ticks s' = 0 ∧ ∃ k, s' = upd_sched_ticks (λ _, k) (th0 lk idptbl kstacks m))
    (λ i, aset NUM_CPUS upd_sched_ticks i 0) 0 NUM_CPUS (th0 lk idptbl kstacks m))
    as (s1 & H1 & Htk & k & ->); [unfold NUM_CPUS; lia|split; [done|by exists ∅]| |].
  { intros i s' Hi (Htk & k & ->). rewrite aset_Ok by done. eexists. split; [reflexivity|].
    split; [|by eexists]. unfold ticks; simpl. rewrite alook_insert. case_decide; [done|exact Htk]. }
  rewrite (bind_Ok _ _ _ _ _ H1). kstep. set (s2 := set_sched_lk _ _).
  set (tc := {| tcb_pt := pt; TCBPool := ∅ |}).
  destruct (tcb_init_loop stk tc Hstk) as (tc' & Htc & Hbb & Hpt' & _); [by split; [left|]|].
  destruct (tqueue_init_loops {| tq_tcb := tc'; TQueuePool := ∅ |}) as (q & Hq & Hqt & Hqr).
  assert (tcb_init stk t (tq_tcb (th_tq s2)) = Ok () tc') as Htcb.
  { unfold tcb_init. pose proof (zoom_Ok (S:=tcb_state) (paging_init t) (tq_tcb (th_tq s2)) _ _ Hpt) as Hz.
    rewrite (bind_Ok _ _ _ _ _ Hz). exact Htc. }
  assert (tqueue_init stk t (th_tq s2) = Ok () q) as Htq.
  { unfold tqueue_init. pose proof (zoom_Ok (S:=tq_state) (tcb_init stk t) (th_tq s2) _ _ Htcb) as Hz.
    rewrite (bind_Ok _ _ _ _ _ Hz). exact Hq. }
  clear H1 Htc Hq Htcb.
  pose proof (zoom_Ok (S:=th_state) (tqueue_init stk t) s2 _ _ Htq) as Hz.
  rewrite (bind_Ok _ _ _ _ _ Hz), (bind_Ok _ _ _ _ _ (set_curid_Ok _ _)).
  assert (0 <= 0 < NUM_IDS) as H0 by (unfold NUM_IDS; lia).
  rewrite th_set_state_Ok by done. set (s3 := upd_CURID _ _).
  eexists. split; [reflexivity|].
  assert (∀ p, tb s3 p = tcb_look tc' p) as Htb by (intros; simpl; by rewrite Hqt).
  split; [split; [done|]; split; cbn [cur ready asleep]|].
  - done.
  - done.
  - by apply queue_rep_links.
  - set_solver.
  - by rewrite tb_set_tb, decide_True.
  - set_solver.
  - intros p' c. rewrite lookup_empty. split; [done|]. intros (_ & Hst & _). exfalso. revert Hst.
    rewrite tb_set_tb. case_decide; [done|]. rewrite Htb. by destruct (Hbb p') as [[->| ->] _].
  - assert (tcb_pt (tq_tcb q) = pt) as Hpt3 by (rewrite Hqt; exact Hpt').
    split; [change (pt_wf (tcb_pt (tq_tcb q))); by rewrite Hpt3|]. split; [|split; [done|split]].
    + intros p' Hc. change (used (cont_look (pt_cont (tcb_pt (tq_tcb q))) p') ≠ 0). rewrite Hpt3.
      destruct Hc as [->|[Hc|[? Hc]]]; [|set_solver|done]. cbn [cur].
      by rewrite (cw_root _ (pw_cont _ Hwf)).
    + intros p'. rewrite tb_set_tb. case_decide; [cbn [openfiles with_state]|]; rewrite Htb; apply Hbb.
    + exists q0. change (CONTAINER (pt_cont (tcb_pt (tq_tcb q))) = {[ 0 := root_container q0 ]}). by rewrite Hpt3.
Qed.

(** Boot of the threads: for every acceptable BIOS map with some RAM, and whatever
    in-range numbers the stack holds in the place of the argument that [tcb_init] does
    not pass, [thread_init] succeeds and leaves the scheduler with thread 0 running,
    nobody ready and nobody asleep, on top of well-formed page tables and containers. *)
Theorem thread_init_boot t p a lk idptbl kstacks m stk :
  Z.of_nat (length t) <= 128 → Forall row_ok t → p ∈ t → row_says p MEM_RAM a →
  idptbl mod 4096 = 0 → 0 < idptbl → idptbl + 4194304 <= VM_USERLO →
  (∀ i, 0 <= i < NUM_IDS → 0 <= stk i < NUM_IDS) →
  ∃ s, thread_init stk t (th0 lk idptbl kstacks m) = Ok () s ∧
    sched_rep s {| cur := 0; ready := []; asleep := ∅ |} ∧
    pt_wf (tcb_pt (tq_tcb (th_tq s))) ∧
    has_container s {| cur := 0; ready := []; asleep := ∅ |} ∧ ticks s = 0.
Proof.
  intros H1 H2 H3 H4 H5 H6 H7 H8. destruct (thread_init_run t p a lk idptbl kstacks m stk H1 H2 H3 H4 H5 H6 H7 H8) as (s & E & A & B & C & D & _).
  by exists s.
Qed.

Lemma thread_init_boot_witness :
  ∃ s, thread_init (λ _, 7) sample_map (th0 locked 4194304 0 ∅) = Ok () s ∧
    sched_rep s {| cur := 0; ready := []; asleep := ∅ |} ∧
    pt_wf (tcb_pt (tq_tcb (th_tq s))) ∧
    has_container s {| cur := 0; ready := []; asleep := ∅ |} ∧ ticks s = 0.
Proof.
  eapply (thread_init_boot sample_map _ 1048576);
    [simpl; lia|repeat constructor; simpl; lia|apply list_elem_of_here|
     |reflexivity|reflexivity|vm_compute; congruence|unfold NUM_IDS; lia].
  split_and!; [reflexivity|reflexivity|done|reflexivity|right; reflexivity].
Defined.
