(* ===== verification/UserCopy.v ===== *)
(** * Copies between the kernel and user memory (kern/lib/pmap.c, kern/lib/elf.c)

    The kernel reads and writes user memory through the page tables of the process, a
    page at a time, and allocates the pages that are not present.  The kernel side of a
    copy is its address [kva] and the bytes there. *)

From S2P Require Import Prelude Spinlock Mboot PMem Container PageTable.

(** [memcpy] and [memset] on physical memory. *)
Fixpoint mwrite (a : Z) (bs : list Z) (m : gmap Z Z) : gmap Z Z :=
  match bs with [] => m | b :: bs => mwrite (a + 1) bs (<[a := b]> m) end.

Definition mread (m : gmap Z Z) (a n : Z) : list Z := mbyte m <$> seqZ a n.

(** The common step of the three loops: the physical address of [uva] in the address
    space, after allocating the page when it is not present. *)
Definition user_pa (pmap_id uva : Z) : M pt_state Z :=
  uva_pa ← get_ptbl_entry_by_va pmap_id uva;
  uva_pa ← (if bool_decide (Z.land uva_pa PTE_P = 0) then
              alloc_page pmap_id uva (Z.lor (Z.lor PTE_P PTE_U) PTE_W) ;;
              get_ptbl_entry_by_va pmap_id uva
            else mret uva_pa);
  mret (u32 (Z.land uva_pa 4294963200 + uva mod PAGESIZE)).

Definition chunk (len pa : Z) : Z :=
  if bool_decide (len < PAGESIZE - pa mod PAGESIZE) then len else PAGESIZE - pa mod PAGESIZE.

(** Each round copies at least one byte, so [len] rounds are enough. *)
Fixpoint copyin_loop (fuel : nat) (pmap_id uva len : Z) : M pt_state (list Z) :=
  match fuel with
  | O => mret []
  | S fuel =>
      if bool_decide (len = 0) then mret []
      else
        pa ← user_pa pmap_id uva;
        let size := chunk len pa in
        bs ← gets (λ s, mread (mem s) pa size);
        rest ← copyin_loop fuel pmap_id (u32 (uva + size)) (len - size);
        mret (bs ++ rest)
  end.

(** The result is the number of bytes copied and the bytes now at [kva]. *)
Definition pt_copyin (pmap_id uva kva len : Z) : M pt_state (Z * list Z) :=
  if negb (bool_decide (VM_USERLO <= uva) && bool_decide (u32 (uva + len) <= VM_USERHI))
  then mret (0, [])
  else if bool_decide (u32 (kva + len) > VM_USERHI) then mret (0, [])
  else
    bs ← copyin_loop (Z.to_nat len) pmap_id uva len;
    mret (Z.of_nat (length bs), bs).

Fixpoint copyout_loop (fuel : nat) (pmap_id uva : Z) (data : list Z) : M pt_state Z :=
  match fuel with
  | O => mret 0
  | S fuel =>
      let len := Z.of_nat (length data) in
      if bool_decide (len = 0) then mret 0
      else
        pa ← user_pa pmap_id uva;
        let size := chunk len pa in
        modify (λ s, set_mem (mwrite pa (take (Z.to_nat size) data) (mem s)) s) ;;
        copied ← copyout_loop fuel pmap_id (u32 (uva + size)) (drop (Z.to_nat size) data);
        mret (size + copied)
  end.

(** [data] is what is at [kva]; the call copies all of it. *)
Definition pt_copyout (kva : Z) (data : list Z) (pmap_id uva : Z) : M pt_state Z :=
  let len := Z.of_nat (length data) in
  if negb (bool_decide (VM_USERLO <= uva) && bool_decide (u32 (uva + len) <= VM_USERHI))
  then mret 0
  else if bool_decide (u32 (kva + len) > VM_USERHI) then mret 0
  else copyout_loop (length data) pmap_id uva data.

(** There is no range check here. *)
Definition pt_memset (pmap_id va c len : Z) : M pt_state Z :=
  copyout_loop (Z.to_nat len) pmap_id va (replicate (Z.to_nat len) (u8 c)).

(** ** Loading a program

    The image lies in kernel memory at [exe]; its headers are read in place. *)

Definition rounddown (a n : Z) : Z := u32 (a - a mod n).

Definition roundup (a n : Z) : Z := rounddown (u32 (u32 (a + n) - 1)) n.

Definition load16 (m : gmap Z Z) (a : Z) : Z := mbyte m a + 256 * mbyte m (a + 1).

Definition ELF_MAGIC : Z := 1179403647.
Definition ELF_SHN_UNDEF : Z := 0.
Definition ELF_SHT_STRTAB : Z := 3.
Definition ELF_PROG_LOAD : Z := 1.
Definition ELF_PROG_FLAG_WRITE : Z := 2.

Definition e_magic (m : gmap Z Z) (eh : Z) : Z := load32 m eh.
Definition e_entry (m : gmap Z Z) (eh : Z) : Z := load32 m (eh + 24).
Definition e_phoff (m : gmap Z Z) (eh : Z) : Z := load32 m (eh + 28).
Definition e_shoff (m : gmap Z Z) (eh : Z) : Z := load32 m (eh + 32).
Definition e_phnum (m : gmap Z Z) (eh : Z) : Z := load16 m (eh + 44).
Definition e_shstrndx (m : gmap Z Z) (eh : Z) : Z := load16 m (eh + 50).
Definition sh_type (m : gmap Z Z) (sh : Z) : Z := load32 m (sh + 4).

Record proghdr := {
  p_type : Z; p_offset : Z; p_va : Z; p_filesz : Z; p_memsz : Z; p_flags : Z
}.

Definition read_proghdr (m : gmap Z Z) (ph : Z) : proghdr :=
  {| p_type := load32 m ph; p_offset := load32 m (ph + 4); p_va := load32 m (ph + 8);
     p_filesz := load32 m (ph + 16); p_memsz := load32 m (ph + 20); p_flags := load32 m (ph + 24) |}.

Definition KERN_ASSERT {S} (b : bool) : M S () := if b then mret () else kern_panic.

(** [pt_copyout] from kernel memory. *)
Definition copyout_from (fa pid va len : Z) : M pt_state () :=
  data ← gets (λ s, mread (mem s) fa len);
  pt_copyout fa data pid va ;;
  mret ().

(** The pages of one segment; [fuel] is the number of pages from [va] to [eva]. *)
Fixpoint load_pages (fuel : nat) (pid perm filesz zva va fa : Z) : M pt_state () :=
  match fuel with
  | O => mret ()
  | S fuel =>
      alloc_page pid va perm ;;
      (if bool_decide (va < rounddown zva PAGESIZE) then copyout_from fa pid va PAGESIZE
       else if bool_decide (va < zva) && bool_decide (filesz ≠ 0) then
         pt_memset pid va 0 PAGESIZE ;;
         copyout_from fa pid va (zva - va)
       else pt_memset pid va 0 PAGESIZE ;; mret ()) ;;
      load_pages fuel pid perm filesz zva (u32 (va + PAGESIZE)) (u32 (fa + PAGESIZE))
  end.

Definition load_segment (pid eh : Z) (ph : proghdr) : M pt_state () :=
  if bool_decide (p_type ph ≠ ELF_PROG_LOAD) then mret ()
  else
    let fa := u32 (eh + rounddown (p_offset ph) PAGESIZE) in
    let va := rounddown (p_va ph) PAGESIZE in
    let zva := u32 (p_va ph + p_filesz ph) in
    let eva := roundup (u32 (p_va ph + p_memsz ph)) PAGESIZE in
    let perm := if bool_decide (Z.land (p_flags ph) ELF_PROG_FLAG_WRITE ≠ 0)
                then Z.lor (Z.lor PTE_U PTE_P) PTE_W else Z.lor PTE_U PTE_P in
    load_pages (Z.to_nat ((eva - va) / PAGESIZE)) pid perm (p_filesz ph) zva va fa.

Definition elf_load (exe pid : Z) : M pt_state () :=
  m ← gets mem;
  KERN_ASSERT (bool_decide (e_magic m exe = ELF_MAGIC)) ;;
  KERN_ASSERT (bool_decide (e_shstrndx m exe ≠ ELF_SHN_UNDEF)) ;;
  let sh := u32 (exe + e_shoff m exe) in
  KERN_ASSERT (bool_decide (sh_type m (sh + 40 * e_shstrndx m exe) = ELF_SHT_STRTAB)) ;;
  let ph := u32 (exe + e_phoff m exe) in
  for_range 0 (e_phnum m exe) (λ i,
    m ← gets mem; load_segment pid exe (read_proghdr m (ph + 32 * i))).

Definition elf_entry (exe : Z) : M pt_state Z :=
  m ← gets mem;
  KERN_ASSERT (bool_decide (e_magic m exe = ELF_MAGIC)) ;;
  mret (e_entry m exe).

(** ** User memory as the process sees it *)

(** The physical address and the byte at a user address. *)
Definition va_pa (s : pt_state) (p va : Z) : Z := translate s p va / 4096 * 4096 + va mod 4096.

Definition ubyte (s : pt_state) (p va : Z) : Z := mbyte (mem s) (va_pa s p va).

Definition present (s : pt_state) (p va : Z) : Prop := Z.land (translate s p va) PTE_P ≠ 0.

(** A present entry names a taken frame. *)
Lemma present_refs s p va :
  1 <= p < NUM_IDS → user_va va → present s p va →
  refs s (PteSlot p (pde_index_of va) (pte_index_of va)) (translate s p va / 4096).
Proof.
  intros Hp Hva Hpr. destruct (user_va_index p va Hp Hva) as [Hu Ht].
  unfold present, translate in *. case_bool_decide as E; [by rewrite Z.land_0_l in Hpr|].
  split; [done|]. split; [done|]. split; [done|]. split; [|done].
  intros E0. rewrite E0 in Hpr. by rewrite Z.land_0_l in Hpr.
Qed.

Lemma present_frame s p va :
  pt_wf s → 1 <= p < NUM_IDS → user_va va → present s p va →
  262144 <= translate s p va / 4096 < 983040 ∧ is_u32 (translate s p va).
Proof.
  intros Hwf Hp Hva Hpr. pose proof (present_refs s p va Hp Hva Hpr) as Hr.
  pose proof (pw_range s Hwf _ (proj1 (pw_taken s Hwf _ _ Hr))) as Hf.
  change (262144 <= translate s p va / 4096 < 983040) in Hf. split; [done|].
  unfold is_u32, W32. Z.div_mod_to_equations. lia.
Qed.

(** Two different addresses of the users are two different bytes. *)
Lemma va_pa_inj s p va p' va' :
  pt_wf s → 1 <= p < NUM_IDS → 1 <= p' < NUM_IDS → user_va va → user_va va' →
  present s p va → present s p' va' → va_pa s p va = va_pa s p' va' → p = p' ∧ va = va'.
Proof.
  intros Hwf Hp Hp' Hva Hva' Hpr Hpr' E. unfold va_pa in E.
  assert (translate s p va / 4096 = translate s p' va' / 4096 ∧ va mod 4096 = va' mod 4096)
    as [E1 E2] by (Z.div_mod_to_equations; lia).
  pose proof (present_refs s p va Hp Hva Hpr) as Hr.
  pose proof (present_refs s p' va' Hp' Hva' Hpr') as Hr'. rewrite E1 in Hr.
  pose proof (pw_uniq s Hwf _ _ _ Hr Hr') as Hs. injection Hs as Ep Ed Et.
  split; [done|]. assert (va / 4096 = va' / 4096) by (apply va_page_index; congruence).
  Z.div_mod_to_equations. lia.
Qed.

Lemma load_insert_ne m a b v : a < b ∨ b + 4 <= a → load32 (<[a := v]> m) b = load32 m b.
Proof.
  intros Hab. unfold load32. rewrite !mbyte_insert. repeat (case_decide; [lia|]). done.
Qed.

Definition poke (a b : Z) (s : pt_state) : pt_state := set_mem (<[a := b]> (mem s)) s.

(** A store to a page of a user leaves every page table alone. *)
Section Poke.
Context (s : pt_state) (p va b : Z).
Context (Hwf : pt_wf s) (Hp : 1 <= p < NUM_IDS) (Hva : user_va va) (Hpr : present s p va).

Lemma poke_pte q d t :
  user_pd q d → pde_look s q d ≠ 0 → 0 <= t < 1024 →
  pte_look (poke (va_pa s p va) b s) q d t = pte_look s q d t.
Proof using All.
  intros Hu Hnz Ht. unfold pte_look.
  change (pde_look (poke _ _ s) q d) with (pde_look s q d). simpl.
  apply load_insert_ne. destruct (user_pte_addr s q d t (pw_tbl s Hwf) Hu Hnz Ht) as (-> & _ & Hal).
  pose proof (present_refs s p va Hp Hva Hpr) as Hr.
  assert (translate s p va / 4096 ≠ pde_look s q d / 4096) as Hne.
  { intros E. rewrite E in Hr.
    by pose proof (pw_uniq s Hwf (PdeSlot q d) _ _ (conj Hu (conj Hnz eq_refl)) Hr). }
  unfold va_pa. destruct (tw_pde s (pw_tbl s Hwf) q d Hu) as [?|(f & Hf & E)]; [done|].
  rewrite E in *. replace ((f * 4096 + 7) / 4096) with f in Hne by (Z.div_mod_to_equations; lia).
  Z.div_mod_to_equations. lia.
Qed.

Lemma poke_wf : pt_wf (poke (va_pa s p va) b s).
Proof using All.
  destruct (present_frame s p va Hwf Hp Hva Hpr) as [Hf _].
  apply (pt_wf_step s _ (PdeSlot 0 0) Hwf); [|done|].
  - destruct (pw_tbl s Hwf) as [Ha Hk Hd Hi Hid]. split; [done..|].
    intros d t Hd' Ht'. rewrite <- (Hid d t) by done. simpl. apply load_insert_ne.
    unfold va_pa. change VM_USERLO with 1073741824 in Ha. Z.div_mod_to_equations. lia.
  - intros [q d|q d t] f; [by left|]. simpl refs.
    change (pde_look (poke _ _ s) q d) with (pde_look s q d). intros (Hu & Ht & Hnz & H).
    rewrite poke_pte in H by done. left. exact (conj Hu (conj Ht (conj Hnz H))).
Qed.

Lemma poke_translate q v :
  1 <= q < NUM_IDS → user_va v → translate (poke (va_pa s p va) b s) q v = translate s q v.
Proof using All.
  intros Hq Hv. destruct (user_va_index q v Hq Hv) as [Hu Ht]. unfold translate.
  change (pde_look (poke _ _ s) q (pde_index_of v)) with (pde_look s q (pde_index_of v)).
  case_bool_decide; [done|]. by rewrite poke_pte.
Qed.

Lemma poke_ubyte q v :
  1 <= q < NUM_IDS → user_va v → present s q v →
  ubyte (poke (va_pa s p va) b s) q v = if decide ((q, v) = (p, va)) then b else ubyte s q v.
Proof using All.
  intros Hq Hv Hpv. pose proof (poke_translate q v Hq Hv) as Ht.
  assert (va_pa (poke (va_pa s p va) b s) q v = va_pa s q v) as E0
    by (revert Ht; generalize (poke (va_pa s p va) b s); unfold va_pa; by intros ? ->).
  unfold ubyte. rewrite E0. simpl. rewrite mbyte_insert. apply decide_ext. split.
  - intros E. by destruct (va_pa_inj s p va q v) as [-> ->].
  - by intros [= -> ->].
Qed.
End Poke.

(** ** Copying out *)

(** [data] was stored at [va] of process [p] and nothing else that users see changed. *)
Definition user_written (s : pt_state) (p va : Z) (data : list Z) (s' : pt_state) : Prop :=
  pt_wf s' ∧ pt_lk s' = pt_lk s ∧ pt_cont s' = pt_cont s ∧
  (∀ q v, 1 <= q < NUM_IDS → user_va v → translate s' q v = translate s q v) ∧
  ∀ q v, 1 <= q < NUM_IDS → user_va v → present s q v →
    ubyte s' q v = if decide (q = p ∧ va <= v < va + Z.of_nat (length data))
                   then nth (Z.to_nat (v - va)) data 0 else ubyte s q v.

Lemma user_written_nil s p va : pt_wf s → user_written s p va [] s.
Proof.
  intros Hwf. split_and!; try done. intros. rewrite decide_False; [done|]. simpl. lia.
Qed.

Lemma user_written_app s s1 s2 p va d1 d2 :
  user_written s p va d1 s1 → user_written s1 p (va + Z.of_nat (length d1)) d2 s2 →
  user_written s p va (d1 ++ d2) s2.
Proof.
  intros (A1 & A2 & A3 & A4 & A5) (B1 & B2 & B3 & B4 & B5).
  split; [done|]. split; [congruence|]. split; [congruence|]. split.
  { intros q v Hq Hv. rewrite B4, A4; done. }
  intros q v Hq Hv Hpr. rewrite B5, A5; [|done..|by unfold present; rewrite A4].
  rewrite length_app. repeat case_decide; try lia; try done.
  - rewrite app_nth2 by lia. f_equal. lia.
  - rewrite app_nth1 by lia. done.
Qed.

Lemma translate_page s p va va' :
  va / 4096 = va' / 4096 → translate s p va = translate s p va'.
Proof. intros E%va_page_index. injection E as E1 E2. unfold translate. by rewrite E1, E2. Qed.

Lemma user_pa_present s p va :
  pt_wf s → 1 <= p < NUM_IDS → user_va va → present s p va →
  user_pa p va s = Ok (va_pa s p va) s.
Proof.
  intros Hwf Hp Hva Hpr. destruct (present_frame s p va Hwf Hp Hva Hpr) as [Hf Hu].
  unfold user_pa. rewrite (bind_Ok _ _ _ _ _ (get_ptbl_entry_by_va_Ok s p va Hp Hva)).
  rewrite bool_decide_eq_false_2 by done. rewrite (bind_Ok _ _ _ _ _ (ret_Ok _ s)).
  rewrite land_page by done. change PAGESIZE with 4096. rewrite u32_small; [done|].
  pose proof (Z.mod_pos_bound va 4096). unfold is_u32, W32. lia.
Qed.

Lemma user_written_one s p va b :
  pt_wf s → 1 <= p < NUM_IDS → user_va va → present s p va →
  user_written s p va [b] (poke (va_pa s p va) b s).
Proof.
  intros Hwf Hp Hva Hpr. split; [by apply poke_wf|]. split; [done|]. split; [done|].
  split; [by intros; apply poke_translate|].
  intros q v Hq Hv Hpv. rewrite poke_ubyte by done. simpl length.
  destruct (decide ((q, v) = (p, va))) as [E|E].
  - injection E as -> ->. rewrite decide_True by lia. by rewrite Z.sub_diag.
  - rewrite decide_False; [done|]. intros [-> ?]. destruct E. f_equal. lia.
Qed.

(** Storing inside one page. *)
Lemma mwrite_page s p va data :
  pt_wf s → 1 <= p < NUM_IDS → va mod 4096 + Z.of_nat (length data) <= 4096 →
  (∀ v, va <= v < va + Z.of_nat (length data) → user_va v ∧ present s p v) →
  user_written s p va data (set_mem (mwrite (va_pa s p va) data (mem s)) s).
Proof.
  revert s va. induction data as [|b data IH]; intros s va Hwf Hp Hpage Hall.
  { simpl. replace (set_mem (mem s) s) with s by (by destruct s). by apply user_written_nil. }
  simpl length in *. destruct (Hall va) as [Hva Hpr]; [lia|].
  pose proof (user_written_one s p va b Hwf Hp Hva Hpr) as H1.
  set (s1 := poke (va_pa s p va) b s) in *.
  apply (user_written_app s s1 _ p va [b] data H1). simpl length.
  destruct data as [|b' data'] eqn:Ed.
  { simpl. replace (set_mem _ s) with s1 by done. apply user_written_nil, H1. }
  rewrite <- Ed in *.
  assert (va_pa s1 p (va + 1) = va_pa s p va + 1) as E.
  { unfold va_pa at 1. destruct (Hall (va + 1)) as [Hva1 _]; [rewrite Ed; simpl; lia|].
    rewrite (proj1 (proj2 (proj2 (proj2 H1))) p (va + 1) Hp Hva1).
    rewrite Ed in Hpage. simpl in Hpage.
    rewrite (translate_page s p (va + 1) va) by (Z.div_mod_to_equations; lia).
    unfold va_pa. Z.div_mod_to_equations. lia. }
  simpl. change (set_mem (mwrite (va_pa s p va + 1) data (<[va_pa s p va:=b]> (mem s))) s)
    with (set_mem (mwrite (va_pa s p va + 1) data (mem s1)) s1).
  rewrite <- E. apply IH; [apply H1|done| |].
  - rewrite Ed in *. simpl in *. Z.div_mod_to_equations. lia.
  - intros v Hv. destruct (Hall v) as [Hv1 Hv2]; [lia|]. split; [done|].
    unfold present. by rewrite (proj1 (proj2 (proj2 (proj2 H1))) p v Hp Hv1).
Qed.

Lemma va_pa_mod s p va : va_pa s p va mod 4096 = va mod 4096.
Proof. unfold va_pa. Z.div_mod_to_equations. lia. Qed.

Lemma chunk_range len va s p :
  0 < len → 0 < chunk len (va_pa s p va) <= len ∧
  va mod 4096 + chunk len (va_pa s p va) <= 4096.
Proof.
  intros Hl. unfold chunk. change PAGESIZE with 4096. rewrite va_pa_mod.
  pose proof (Z.mod_pos_bound va 4096). case_bool_decide; lia.
Qed.

Lemma copyout_loop_run fuel s p va data :
  pt_wf s → 1 <= p < NUM_IDS → (length data <= fuel)%nat → 0 <= va →
  (∀ v, va <= v < va + Z.of_nat (length data) → user_va v ∧ present s p v) →
  ∃ s', copyout_loop fuel p va data s = Ok (Z.of_nat (length data)) s' ∧
    user_written s p va data s'.
Proof.
  revert s va data. induction fuel as [|fuel IH]; intros s va data Hwf Hp Hf H0 Hall.
  { destruct data; [|simpl in Hf; lia]. exists s. split; [done|]. by apply user_written_nil. }
  simpl copyout_loop. case_bool_decide as E.
  { destruct data; [|done]. exists s. split; [done|]. by apply user_written_nil. }
  destruct (Hall va) as [Hva Hpr]; [lia|].
  rewrite (bind_Ok _ _ _ _ _ (user_pa_present s p va Hwf Hp Hva Hpr)). cbv zeta.
  destruct (chunk_range (Z.of_nat (length data)) va s p) as [Hc Hcp]; [lia|].
  set (n := chunk _ _) in *. kstep.
  set (d1 := take (Z.to_nat n) data). set (d2 := drop (Z.to_nat n) data).
  assert (length d1 = Z.to_nat n) as L1 by (unfold d1; rewrite length_take; lia).
  assert (length d2 = (length data - Z.to_nat n)%nat) as L2 by (unfold d2; rewrite length_drop; lia).
  assert (user_written s p va d1 (set_mem (mwrite (va_pa s p va) d1 (mem s)) s)) as H1.
  { apply mwrite_page; [done|done|rewrite L1; lia|]. intros v Hv. apply Hall. lia. }
  set (s1 := set_mem _ s) in *.
  assert (user_va (va + n - 1)) as Hend by (apply Hall; lia).
  unfold user_va in Hend. change VM_USERHI with 4026531840 in Hend.
  rewrite u32_small by (unfold is_u32, W32; lia).
  destruct (IH s1 (va + n) d2) as (s2 & Hr2 & H2); [apply H1|done|lia|lia| |].
  { intros v Hv. destruct (Hall v) as [Hv1 Hv2]; [lia|]. split; [done|].
    unfold present. by rewrite (proj1 (proj2 (proj2 (proj2 H1))) p v Hp Hv1). }
  rewrite (bind_Ok _ _ _ _ _ Hr2). exists s2. split; [rewrite ret_Ok; f_equal; lia|].
  rewrite <- (take_drop (Z.to_nat n) data). apply (user_written_app s s1); [done|].
  fold d1 d2. rewrite L1, Z2Nat.id by lia. done.
Qed.

(** ** Copying in *)

Definition ubytes (s : pt_state) (p va len : Z) : list Z := ubyte s p <$> seqZ va len.

Lemma mread_page s p va n :
  va mod 4096 + n <= 4096 → mread (mem s) (va_pa s p va) n = ubytes s p va n.
Proof.
  intros Hn. destruct (decide (n <= 0)); [unfold mread, ubytes, seqZ; by replace (Z.to_nat n) with 0%nat by lia|].
  apply list_eq. intros i. unfold mread, ubytes. rewrite !list_lookup_fmap.
  destruct (decide (Z.of_nat i < n)).
  - rewrite !lookup_seqZ_lt by lia. simpl. f_equal. unfold ubyte. f_equal. unfold va_pa.
    rewrite (translate_page s p (va + Z.of_nat i) va) by (Z.div_mod_to_equations; lia).
    Z.div_mod_to_equations. lia.
  - by rewrite !lookup_seqZ_ge by lia.
Qed.

Lemma copyin_loop_run fuel s p va len :
  pt_wf s → 1 <= p < NUM_IDS → 0 <= len <= Z.of_nat fuel → 0 <= va →
  (∀ v, va <= v < va + len → user_va v ∧ present s p v) →
  copyin_loop fuel p va len s = Ok (ubytes s p va len) s.
Proof.
  revert va len. induction fuel as [|fuel IH]; intros va len Hwf Hp Hf H0 Hall.
  { by replace len with 0 by lia. }
  simpl copyin_loop. case_bool_decide as E; [by subst|].
  destruct (Hall va) as [Hva Hpr]; [lia|].
  rewrite (bind_Ok _ _ _ _ _ (user_pa_present s p va Hwf Hp Hva Hpr)). cbv zeta.
  destruct (chunk_range len va s p) as [Hc Hcp]; [lia|]. set (n := chunk _ _) in *. kstep.
  rewrite mread_page by done.
  assert (user_va (va + n - 1)) as Hend by (apply Hall; lia).
  unfold user_va in Hend. change VM_USERHI with 4026531840 in Hend.
  rewrite u32_small by (unfold is_u32, W32; lia).
  assert (copyin_loop fuel p (va + n) (len - n) s = Ok (ubytes s p (va + n) (len - n)) s) as Hrec.
  { apply IH; [done|done|lia|lia|]. intros v Hv. apply Hall. lia. }
  rewrite (bind_Ok _ _ _ _ _ Hrec), ret_Ok. f_equal.
  unfold ubytes. rewrite <- fmap_app, <- seqZ_app by lia. do 2 f_equal. lia.
Qed.

(** The bytes read back are the bytes written. *)
Lemma ubytes_written s p va data s' :
  user_written s p va data s' → 1 <= p < NUM_IDS →
  (∀ v, va <= v < va + Z.of_nat (length data) → user_va v ∧ present s p v) →
  ubytes s' p va (Z.of_nat (length data)) = data.
Proof.
  intros (_ & _ & _ & _ & Hw) Hp Hall. unfold ubytes. apply list_eq. intros i.
  rewrite list_lookup_fmap. destruct (decide (i < length data)%nat) as [Hi|Hi].
  - rewrite lookup_seqZ_lt by lia. simpl. destruct (Hall (va + Z.of_nat i)) as [H1 H2]; [lia|].
    rewrite Hw by done. rewrite decide_True by lia.
    replace (Z.to_nat (va + Z.of_nat i - va)) with i by lia.
    symmetry. rewrite nth_lookup. destruct (lookup_lt_is_Some_2 data i Hi) as [x Hx]. by rewrite Hx.
  - rewrite lookup_seqZ_ge by lia. simpl. symmetry. apply lookup_ge_None_2. lia.
Qed.

(** The ranges that the copies accept. *)
Definition user_range (va len : Z) : Prop := VM_USERLO <= va ∧ va + len <= VM_USERHI.
Definition kern_range (kva len : Z) : Prop := 0 <= kva ∧ kva + len <= VM_USERHI.

Lemma copy_guard va kva len :
  0 <= len → user_range va len → kern_range kva len →
  negb (bool_decide (VM_USERLO <= va) && bool_decide (u32 (va + len) <= VM_USERHI)) = false ∧
  bool_decide (u32 (kva + len) > VM_USERHI) = false.
Proof.
  unfold user_range, kern_range. change VM_USERLO with 1073741824. change VM_USERHI with 4026531840.
  intros Hl [H1 H2] [H3 H4]. rewrite !u32_small by (unfold is_u32, W32; lia).
  rewrite !bool_decide_eq_true_2 by lia. by rewrite bool_decide_eq_false_2 by lia.
Qed.

Lemma user_range_va va len v : user_range va len → va <= v < va + len → user_va v.
Proof. unfold user_range, user_va. lia. Qed.

Lemma pt_copyout_run s p va kva data :
  pt_wf s → 1 <= p < NUM_IDS →
  user_range va (Z.of_nat (length data)) → kern_range kva (Z.of_nat (length data)) →
  (∀ v, va <= v < va + Z.of_nat (length data) → present s p v) →
  ∃ s', pt_copyout kva data p va s = Ok (Z.of_nat (length data)) s' ∧ user_written s p va data s'.
Proof.
  intros Hwf Hp Hu Hk Hall. unfold pt_copyout.
  destruct (copy_guard va kva (Z.of_nat (length data)) ltac:(lia) Hu Hk) as [-> ->].
  apply copyout_loop_run; [done|done|done| |].
  - unfold user_range in Hu. change VM_USERLO with 1073741824 in Hu. lia.
  - intros v Hv. split; [by apply (user_range_va va (Z.of_nat (length data)))|auto].
Qed.

Lemma pt_copyin_run s p va kva len :
  pt_wf s → 1 <= p < NUM_IDS → 0 <= len → user_range va len → kern_range kva len →
  (∀ v, va <= v < va + len → present s p v) →
  pt_copyin p va kva len s = Ok (len, ubytes s p va len) s.
Proof.
  intros Hwf Hp Hl Hu Hk Hall. unfold pt_copyin.
  destruct (copy_guard va kva len Hl Hu Hk) as [-> ->].
  assert (copyin_loop (Z.to_nat len) p va len s = Ok (ubytes s p va len) s) as Hc.
  { apply copyin_loop_run; [done|done|lia| |].
    - unfold user_range in Hu. change VM_USERLO with 1073741824 in Hu. lia.
    - intros v Hv. split; [by apply (user_range_va va len)|auto]. }
  rewrite (bind_Ok _ _ _ _ _ Hc), ret_Ok. do 2 f_equal. unfold ubytes.
  rewrite length_fmap, length_seqZ. lia.
Qed.

(** C27: What the kernel copies out to a process is what it copies in: on present
    pages of the user range [pt_copyout] stores all its bytes, even across pages whose
    frames are anywhere in memory, reading them back with [pt_copyin] gives the same
    bytes, no other byte of this or any other process changes, and every page table,
    quota and the lock stay as they were. *)
Theorem pt_copy_roundtrip s p va kva kva' data :
  pt_wf s → 1 <= p < NUM_IDS →
  user_range va (Z.of_nat (length data)) →
  kern_range kva (Z.of_nat (length data)) → kern_range kva' (Z.of_nat (length data)) →
  (∀ v, va <= v < va + Z.of_nat (length data) → present s p v) →
  ∃ s', pt_copyout kva data p va s = Ok (Z.of_nat (length data)) s' ∧
    pt_copyin p va kva' (Z.of_nat (length data)) s' = Ok (Z.of_nat (length data), data) s' ∧
    user_written s p va data s'.
Proof.
  intros Hwf Hp Hu Hk Hk' Hall.
  destruct (pt_copyout_run s p va kva data Hwf Hp Hu Hk Hall) as (s' & Hr & Hw).
  exists s'. split; [done|]. split; [|done].
  assert (∀ v, va <= v < va + Z.of_nat (length data) → user_va v) as Hv
    by (intros v; by apply user_range_va).
  rewrite pt_copyin_run; [|apply Hw|done|lia|done|done|].
  - do 2 f_equal. apply (ubytes_written s); [done|done|]. auto.
  - intros v Hvr. unfold present. destruct Hw as (_ & _ & _ & Ht & _). rewrite Ht by auto.
    by apply Hall.
Qed.

(** The kernel is protected from its own copies: when the range does not lie
    between [VM_USERLO] and [VM_USERHI] and the sum does not wrap, [pt_copyin] and
    [pt_copyout] copy nothing, report 0 and change nothing. *)
Theorem pt_copy_rejects s p va kva data :
  0 <= va → va + Z.of_nat (length data) < W32 → ¬ user_range va (Z.of_nat (length data)) →
  pt_copyout kva data p va s = Ok 0 s ∧
  pt_copyin p va kva (Z.of_nat (length data)) s = Ok (0, []) s.
Proof.
  intros H0 Hw Hr. unfold pt_copyout, pt_copyin. rewrite u32_small by (unfold is_u32; lia).
  replace (negb _) with true; [done|]. symmetry. unfold user_range in Hr.
  destruct (decide (VM_USERLO <= va)).
  - rewrite (bool_decide_eq_false_2 (_ <= VM_USERHI)) by tauto. by rewrite andb_false_r.
  - by rewrite (bool_decide_eq_false_2 (VM_USERLO <= va)).
Qed.

Lemma pt_copy_rejects_witness :
  let s := pt0 spinlock_init 4194304 ∅ in
  pt_copyout 5000 [1; 2] 1 1048576 s = Ok 0 s ∧ pt_copyin 1 1048576 5000 2 s = Ok (0, []) s.
Proof.
  apply (pt_copy_rejects (pt0 spinlock_init 4194304 ∅) 1 1048576 5000 [1; 2]); [lia|reflexivity|].
  unfold user_range. change VM_USERLO with 1073741824. lia.
Defined.

(** The first page of user memory of a process, when there is room for it. *)
Lemma alloc_present s p i j :
  pt_wf s → pt_lk s = spinlock_init → used (cont_look (pt_cont s) p) ≠ 0 → 1 <= p < NUM_IDS → room2 s p i j →
  ∃ s', pt_wf s' ∧ pt_lk s' = spinlock_init ∧ pt_grows s s' ∧
    (∀ v, 1073741824 <= v < 1073741824 + 4096 → present s' p v) ∧
    (∀ q v, 1 <= q < NUM_IDS → q ≠ p → user_va v → translate s' q v = translate s q v).
Proof.
  intros Hwf Hlk Hu Hp Hroom.
  destruct (alloc_page_run s p 1073741824 7 Hwf Hlk Hu Hp) as (r & s' & _ & Hwf' & Hlk' & Hg & Hr & f & _ & Htr);
    [done|done|].
  specialize (Hr i j Hroom). exists s'. split; [done|]. split; [done|]. split; [done|].
  assert (∀ q v, 1 <= q < NUM_IDS → user_va v →
    translate s' q v = if decide (r ≠ MagicNumber ∧ q = p ∧ v / 4096 = 1073741824 / 4096)
                       then f * 4096 + 7 else translate s q v) as Ht.
  { intros q v Hq Hv. specialize (Htr q v Hq Hv). rewrite get_ptbl_entry_by_va_Ok in Htr by done. by injection Htr. }
  split.
  - intros v Hv. unfold present. rewrite Ht; [|done|].
    + rewrite decide_True by (split; [done|]; split; [done|]; Z.div_mod_to_equations; lia).
      change PTE_P with (Z.ones 1). rewrite Z.land_ones by done. Z.div_mod_to_equations. lia.
    + unfold user_va. change VM_USERLO with 1073741824. change VM_USERHI with 4026531840. lia.
  - intros q v Hq Hne Hv. rewrite Ht by done. by rewrite decide_False by tauto.
Qed.

(** A process with one present page. *)
Lemma sample_present :
  ∃ s, pt_wf s ∧ pt_lk s = spinlock_init ∧ used (cont_look (pt_cont s) 1) ≠ 0 ∧
    ∀ v, 1073741824 <= v < 1073741824 + 4096 → present s 1 v.
Proof.
  destruct (sample_processes 10) as (s & Hwf & Hlk & Hat & Hc & _); [lia|].
  destruct (alloc_present s 1 262145 262146 Hwf Hlk) as (s' & Hwf' & Hlk' & (_ & Hus & _) & Hpr & _);
    [by rewrite Hc|done| |].
  { unfold room2. rewrite Hat, Hc. simpl. split; [lia|]. split; [lia|]. split; [lia|]. by vm_compute. }
  exists s'. split; [done|]. split; [done|]. split; [by rewrite Hus, Hc|done].
Qed.

(** More memory, and containers for processes 1 and 2. *)
Definition two_at (a : at_state) : at_state :=
  {| at_mboot := at_mboot a; mem_lk := spinlock_init; NUM_PAGES := 262152;
     AT := <[262150 := {| perm := 2; allocated := 0 |}]> (<[262151 := {| perm := 2; allocated := 0 |}]> (AT a));
     last_palloc_index := 262149 |}.

Lemma two_at_look a f :
  at_look (two_at a) f = if decide (f = 262150 ∨ f = 262151) then {| perm := 2; allocated := 0 |} else at_look a f.
Proof.
  unfold at_look, two_at; simpl. rewrite !alook_insert.
  repeat case_decide; subst; try done; lia.
Qed.

Lemma two_containers a :
  at_wf a → ∃ c, cont_wf c ∧ c_at c = a ∧ cont_look c 2 = split_child 0 10.
Proof.
  intros Ha. set (c0 := {| c_at := a; CONTAINER := {[ 0 := root_container 100 ]} |}).
  assert (cont_wf c0) as H0 by (apply cont_wf_root; [done|lia]).
  assert (can_split c0 0 10) as Hs0.
  { unfold can_split. change (cont_look c0 0) with (root_container 100). simpl. unfold MAX_CHILDREN, NUM_IDS. lia. }
  destruct (container_split_run c0 0 10 H0 Hs0) as (c1 & _ & Hc1 & _ & Hf1 & Ha1 & Hl1).
  pose proof (container_split_wf c0 c1 0 10 H0 Hs0 Hc1 Ha1 Hf1 Hl1) as H1.
  assert (cont_look c1 0 = split_parent 10 (root_container 100)) as E1 by (exact (Hl1 0)).
  assert (can_split c1 0 10) as Hs1.
  { unfold can_split. rewrite E1. simpl. unfold MAX_CHILDREN, NUM_IDS. lia. }
  destruct (container_split_run c1 0 10 H1 Hs1) as (c2 & _ & Hc2 & _ & Hf2 & Ha2 & Hl2).
  pose proof (container_split_wf c1 c2 0 10 H1 Hs1 Hc2 Ha2 Hf2 Hl2) as H2.
  exists c2. split; [done|]. split; [by rewrite Ha2, Ha1|].
  rewrite Hl2. rewrite E1. by rewrite decide_True.
Qed.

Lemma sample_two :
  ∃ s, pt_wf s ∧ ∀ p v, p = 1 ∨ p = 2 → 1073741824 <= v < 1073741824 + 4096 → present s p v.
Proof.
  destruct (sample_processes 10) as (s0 & Hwf0 & Hlk0 & Hat0 & Hc0 & _); [lia|].
  destruct (alloc_present s0 1 262145 262146 Hwf0 Hlk0) as (s1 & Hwf1 & Hlk1 & (_ & _ & Hpm) & Hpr1 & _);
    [by rewrite Hc0|done| |].
  { unfold room2. rewrite Hat0, Hc0. simpl. split; [lia|]. split; [lia|]. split; [lia|]. by vm_compute. }
  assert (∀ f, f = 262150 ∨ f = 262151 → perm (at_look (pt_at s1) f) = 0) as Hz.
  { intros f [->| ->]; rewrite Hpm, Hat0; by vm_compute. }
  pose proof (cw_at _ (pw_cont s1 Hwf1)) as [_ _ _ Hp1].
  destruct (two_containers (two_at (pt_at s1))) as (c & Hc & Hca & Hc2).
  { split; [done|done|done|]. intros i. rewrite two_at_look. by case_decide. }
  assert (∀ f, taken s1 f → taken (with_cont c s1) f) as Htk.
  { intros f [H1 H2]. unfold taken. change (pt_at (with_cont c s1)) with (c_at c). rewrite Hca, two_at_look.
    case_decide as E; [specialize (Hz f E); lia|done]. }
  assert (pt_wf (with_cont c s1)) as Hwf2.
  { split.
    - destruct (pw_tbl s1 Hwf1). by split.
    - done.
    - intros f. change (pt_at (with_cont c s1)) with (c_at c). rewrite Hca, two_at_look.
      case_decide as E; [|apply Hwf1]. intros _. change VM_USERLO_PI with 262144. change VM_USERHI_PI with 983040. lia.
    - intros sl f H%refs_with_cont. by apply Htk, (pw_taken s1 Hwf1 sl).
    - intros sl sl' f H%refs_with_cont H'%refs_with_cont. by apply (pw_uniq s1 Hwf1 sl sl' f). }
  destruct (alloc_present (with_cont c s1) 2 262150 262151 Hwf2 Hlk1) as (s3 & Hwf3 & _ & _ & Hpr3 & Hsame);
    [simpl; by rewrite Hc2|done| |].
  { unfold room2. change (pt_at (with_cont c s1)) with (c_at c). change (pt_cont (with_cont c s1)) with c.
    rewrite Hca, Hc2. unfold usable. rewrite !two_at_look, !decide_True by lia. simpl. lia. }
  exists s3. split; [done|]. intros p v [->| ->] Hv; [|by apply Hpr3].
  unfold present. rewrite Hsame; [exact (Hpr1 v Hv)|done|done|].
  unfold user_va. change VM_USERLO with 1073741824. change VM_USERHI with 4026531840. lia.
Qed.

Lemma pt_copy_roundtrip_witness :
  ∃ s s', pt_copyout 5000 [104; 105] 1 1073741830 s = Ok 2 s' ∧
    pt_copyin 1 1073741830 6000 2 s' = Ok (2, [104; 105]) s' ∧
    user_written s 1 1073741830 [104; 105] s'.
Proof.
  destruct sample_present as (s & Hwf & _ & _ & Hpr). exists s.
  apply (pt_copy_roundtrip s 1 1073741830 5000 6000 [104; 105]); [done|done| | | |].
  - unfold user_range. vm_compute. split; congruence.
  - vm_compute. split; congruence.
  - vm_compute. split; congruence.
  - simpl. intros v Hv. apply Hpr. lia.
Defined.

(** When no page can be allocated the copies go on with frame 0: out of quota,
    [pt_copyout] reports success and overwrites physical memory at address 0. *)
Lemma copyout_overwrites_frame_zero :
  ∃ s s', pt_wf s ∧ pt_copyout 5000 [77] 1 1073741824 s = Ok 1 s' ∧ mbyte (mem s') 0 = 77.
Proof.
  destruct (sample_processes 0) as (s & Hwf & Hlk & Hat & Hc & Hpd); [lia|].
  assert (alloc_page 1 1073741824 7 s = Ok MagicNumber (set_pt_lk spinlock_init s)) as Ha.
  { unfold alloc_page, pt_spinlock_acquire.
    rewrite (bind_Ok _ _ _ _ _ (spinlock_acquire_free _ _ _ Hlk)).
    destruct (container_alloc_run (pt_cont s) 1 (pw_cont s Hwf)) as [[_ Hr]|[E _]];
      [by rewrite Hc| |by rewrite Hc in E].
    pose proof (zoom_Ok (container_alloc 1) (set_pt_lk locked s) _ _ Hr) as Hz.
    rewrite (bind_Ok _ _ _ _ _ Hz). by destruct s. }
  assert (∀ lk, translate (set_pt_lk lk s) 1 1073741824 = 0) as Ht.
  { intros lk. unfold translate. change (pde_index_of 1073741824) with 256.
    change (pde_look (set_pt_lk lk s) 1 256) with (pde_look s 1 256). by rewrite Hpd. }
  assert (user_pa 1 1073741824 s = Ok 0 (set_pt_lk spinlock_init s)) as Hpa.
  { unfold user_pa. rewrite (bind_Ok _ _ _ _ _ (get_ptbl_entry_by_va_Ok s 1 1073741824 ltac:(done) ltac:(done))).
    replace (translate s 1 1073741824) with 0 by (symmetry; rewrite <- (Ht (pt_lk s)); by destruct s).
    rewrite bool_decide_eq_true_2 by done.
    erewrite bind_Ok; [|rewrite (bind_Ok _ _ _ _ _ Ha); by apply get_ptbl_entry_by_va_Ok].
    by rewrite Ht. }
  exists s. eexists. split; [done|]. split.
  - unfold pt_copyout. simpl length. replace (negb _) with false by done.
    replace (bool_decide _) with false by done.
    cbn [copyout_loop length]. cbv zeta. rewrite bool_decide_eq_false_2 by done.
    rewrite (bind_Ok _ _ _ _ _ Hpa). cbv zeta. kstep. reflexivity.
  - simpl. rewrite mbyte_insert. by rewrite decide_True.
Qed.
