(* ===== verification/CString.v ===== *)
(** * Memory blocks and strings (kern/lib/string.c)

    [memset], [memmove] and their relatives work on the bytes of memory, with the
    string instructions of the processor as they are used.  The string functions work
    on arrays: a list is the array from a pointer on, and [None] is an access past its
    end. *)

From S2P Require Import Prelude Spinlock Mboot PMem Container PageTable TCB TQueue Thread Sched UserCopy.

(** ** Memory blocks *)

(** [rep stosb] and [rep stosl]: [k] stores of the bytes [bs]. *)
Fixpoint rep_stos (k : nat) (bs : list Z) (d : Z) (m : gmap Z Z) : gmap Z Z :=
  match k with
  | O => m
  | S k => rep_stos k bs (d + Z.of_nat (length bs)) (mwrite d bs m)
  end.

(** [rep movsb] and [rep movsl]: [k] moves of [w] bytes, [step] bytes apart. *)
Fixpoint rep_movs (k : nat) (w step d s : Z) (m : gmap Z Z) : gmap Z Z :=
  match k with
  | O => m
  | S k => rep_movs k w step (d + step) (s + step) (mwrite d (mread m s w) m)
  end.

Definition word_bytes (c : Z) : list Z :=
  [u8 c; u8 (Z.shiftr c 8); u8 (Z.shiftr c 16); u8 (Z.shiftr c 24)].

Definition memset (v c n : Z) (m : gmap Z Z) : gmap Z Z :=
  if bool_decide (n = 0) then m
  else if bool_decide (v mod 4 = 0) && bool_decide (n mod 4 = 0) then
    let c := Z.land c 255 in
    let c := Z.lor (Z.lor (Z.lor (Z.shiftl c 24) (Z.shiftl c 16)) (Z.shiftl c 8)) c in
    rep_stos (Z.to_nat (n / 4)) (word_bytes c) v m
  else rep_stos (Z.to_nat n) [u8 c] v m.

Definition memmove (dst src n : Z) (m : gmap Z Z) : gmap Z Z :=
  if bool_decide (src < dst) && bool_decide (src + n > dst) then
    let s := src + n in
    let d := dst + n in
    if bool_decide (s mod 4 = 0) && bool_decide (d mod 4 = 0) && bool_decide (n mod 4 = 0) then
      rep_movs (Z.to_nat (n / 4)) 4 (-4) (d - 4) (s - 4) m
    else rep_movs (Z.to_nat n) 1 (-1) (d - 1) (s - 1) m
  else
    if bool_decide (src mod 4 = 0) && bool_decide (dst mod 4 = 0) && bool_decide (n mod 4 = 0) then
      rep_movs (Z.to_nat (n / 4)) 4 4 dst src m
    else rep_movs (Z.to_nat n) 1 1 dst src m.

Definition memcpy (dst src n : Z) (m : gmap Z Z) : gmap Z Z := memmove dst src n m.

Definition memzero (v n : Z) (m : gmap Z Z) : gmap Z Z := memset v 0 n m.

Fixpoint memcmp_loop (n : nat) (v1 v2 : Z) (m : gmap Z Z) : Z :=
  match n with
  | O => 0
  | S n =>
      if bool_decide (mbyte m v1 ≠ mbyte m v2) then mbyte m v1 - mbyte m v2
      else memcmp_loop n (v1 + 1) (v2 + 1) m
  end.

Definition memcmp (v1 v2 n : Z) (m : gmap Z Z) : Z := memcmp_loop (Z.to_nat n) v1 v2 m.

(** ** Strings *)

Fixpoint strncmp (p q : list Z) (n : nat) {struct n} : option Z :=
  match n with
  | O => Some 0
  | S n =>
      match p, q with
      | x :: p, y :: q =>
          if bool_decide (x ≠ 0) && bool_decide (x = y) then strncmp p q n else Some (u8 x - u8 y)
      | _, _ => None
      end
  end.

Fixpoint strnlen (s : list Z) (size : nat) {struct size} : option Z :=
  match size with
  | O => Some 0
  | S size =>
      match s with
      | [] => None
      | x :: s => if bool_decide (x = 0) then Some 0 else Z.succ <$> strnlen s size
      end
  end.

Fixpoint strcmp (p q : list Z) : option Z :=
  match p, q with
  | x :: p, y :: q =>
      if bool_decide (x ≠ 0) && bool_decide (x = y) then strcmp p q else Some (u8 x - u8 y)
  | _, _ => None
  end.

(** The array from the occurrence on; [Some None] is the null pointer. *)
Fixpoint strchr (s : list Z) (c : Z) : option (option (list Z)) :=
  match s with
  | [] => None
  | x :: s' =>
      if bool_decide (x = 0) then Some None
      else if bool_decide (x = c) then Some (Some s)
      else strchr s' c
  end.

Fixpoint strlen (s : list Z) : option Z :=
  match s with
  | [] => None
  | x :: s => if bool_decide (x = 0) then Some 0 else Z.succ <$> strlen s
  end.

(** The [n] bytes that [strncpy] stores. *)
Fixpoint strncpy (t : list Z) (n : nat) {struct n} : option (list Z) :=
  match n with
  | O => Some []
  | S n =>
      match t with
      | [] => None
      | x :: t => if bool_decide (x = 0) then Some (replicate (S n) 0) else cons x <$> strncpy t n
      end
  end.

(** ** Memory blocks: theorems *)

Lemma mbyte_mwrite d bs m a :
  mbyte (mwrite d bs m) a =
  if decide (d <= a < d + Z.of_nat (length bs)) then bs !!! Z.to_nat (a - d) else mbyte m a.
Proof.
  revert d m. induction bs as [|b bs IH]; intros d m; simpl.
  { rewrite decide_False by lia. done. }
  rewrite IH, mbyte_insert. repeat case_decide; try lia.
  - by replace (Z.to_nat (a - d)) with (S (Z.to_nat (a - (d + 1)))) by lia.
  - subst. by rewrite Z.sub_diag.
Qed.

Lemma length_mread m s w : 0 <= w → length (mread m s w) = Z.to_nat w.
Proof. intros ?. unfold mread. by rewrite length_fmap, length_seqZ. Qed.

Lemma mread_lookup m s w i : 0 <= i < w → mread m s w !!! Z.to_nat i = mbyte m (s + i).
Proof.
  intros Hi. apply list_lookup_total_correct. unfold mread.
  rewrite list_lookup_fmap, lookup_seqZ_lt by lia. simpl. do 2 f_equal. lia.
Qed.

(** One move. *)
Lemma mbyte_move d s w m a :
  0 <= w → mbyte (mwrite d (mread m s w) m) a =
    if decide (d <= a < d + w) then mbyte m (s + (a - d)) else mbyte m a.
Proof.
  intros Hw. rewrite mbyte_mwrite, length_mread, Z2Nat.id by done.
  case_decide; [|done]. apply mread_lookup. lia.
Qed.

(** Moves upwards, from a source that is not below the destination or ends before it. *)
Lemma rep_movs_up k w d s m a :
  0 < w → d <= s ∨ s + Z.of_nat k * w <= d →
  mbyte (rep_movs k w w d s m) a =
    if decide (d <= a < d + Z.of_nat k * w) then mbyte m (s + (a - d)) else mbyte m a.
Proof.
  revert d s m. induction k as [|k IH]; intros d s m Hw Hds; simpl.
  { rewrite decide_False by lia. done. }
  rewrite IH by lia. rewrite !mbyte_move by lia.
  repeat case_decide; try nia; f_equal; lia.
Qed.

(** Moves downwards, to a destination above the source. *)
Lemma rep_movs_down k w d s m a :
  0 < w → s <= d →
  mbyte (rep_movs k w (- w) d s m) a =
    if decide (d - (Z.of_nat k - 1) * w <= a < d + w) then mbyte m (s + (a - d)) else mbyte m a.
Proof.
  revert d s m. induction k as [|k IH]; intros d s m Hw Hds; simpl.
  { rewrite decide_False by lia. done. }
  rewrite IH by lia. rewrite !mbyte_move by lia.
  repeat case_decide; try nia; f_equal; lia.
Qed.

(** C40: [memmove] moves the block whatever way the two regions overlap: every byte of
    the destination is the byte the source had before the call, and no other byte of
    memory changes, on each of its four ways of copying. *)
Theorem memmove_correct dst src n m a :
  0 <= n →
  mbyte (memmove dst src n m) a =
    if decide (dst <= a < dst + n) then mbyte m (src + (a - dst)) else mbyte m a.
Proof.
  intros Hn. unfold memmove.
  destruct (bool_decide (src < dst) && bool_decide (src + n > dst)) eqn:E1.
  - apply andb_true_iff in E1 as [E1%bool_decide_eq_true E2%bool_decide_eq_true]. cbv zeta.
    destruct (bool_decide _ && _ && _) eqn:E3.
    + apply andb_true_iff in E3 as [_ E3%bool_decide_eq_true].
      rewrite (rep_movs_down _ 4) by lia. rewrite Z2Nat.id by (Z.div_mod_to_equations; lia).
      assert (n / 4 * 4 = n) by (Z.div_mod_to_equations; lia).
      repeat case_decide; try lia; f_equal; lia.
    + rewrite (rep_movs_down _ 1) by lia. rewrite Z2Nat.id by done.
      repeat case_decide; try lia; f_equal; lia.
  - assert (dst <= src ∨ src + n <= dst) as Hds.
    { destruct (decide (dst <= src)); [by left|]. right.
      rewrite bool_decide_eq_true_2 in E1 by lia. simpl in E1. apply bool_decide_eq_false in E1. lia. }
    destruct (bool_decide _ && _ && _) eqn:E3.
    + apply andb_true_iff in E3 as [_ E3%bool_decide_eq_true].
      assert (n / 4 * 4 = n) by (Z.div_mod_to_equations; lia).
      rewrite rep_movs_up; rewrite ?Z2Nat.id by (Z.div_mod_to_equations; lia); [|lia|lia].
      by replace (n / 4 * 4) with n.
    + rewrite rep_movs_up; rewrite ?Z2Nat.id by done; [|lia|lia]. by rewrite Z.mul_1_r.
Qed.

(** Eight bytes moved up by three within the same region. *)
Lemma memmove_correct_witness :
  mbyte (memmove 103 100 8 {[ 100 := 1; 105 := 6; 107 := 8; 111 := 9 ]}) 110 = 8.
Proof. rewrite memmove_correct by lia. reflexivity. Defined.

Lemma rep_stos_fill k bs d m a c :
  (0 < length bs)%nat → Forall (λ b, b = c) bs →
  mbyte (rep_stos k bs d m) a =
    if decide (d <= a < d + Z.of_nat k * Z.of_nat (length bs)) then c else mbyte m a.
Proof.
  revert d m. induction k as [|k IH]; intros d m Hbs Hall; simpl.
  { rewrite decide_False by lia. done. }
  rewrite IH by done. rewrite mbyte_mwrite.
  assert (∀ i, (i < length bs)%nat → bs !!! i = c) as Hc.
  { intros i Hi. destruct (lookup_lt_is_Some_2 bs i Hi) as [b Hb]. rewrite Forall_lookup in Hall.
    by rewrite (list_lookup_total_correct _ _ _ Hb), (Hall i b Hb). }
  repeat case_decide; try nia; try done. apply Hc. lia.
Qed.

Lemma word_bytes_fill c :
  let c := Z.land c 255 in
  Forall (λ b, b = c)
    (word_bytes (Z.lor (Z.lor (Z.lor (Z.shiftl c 24) (Z.shiftl c 16)) (Z.shiftl c 8)) c)).
Proof.
  cbv zeta. set (e := Z.land c 255).
  assert (0 <= e < 256) as He.
  { unfold e. change 255 with (Z.ones 8). rewrite Z.land_ones by lia. apply Z.mod_pos_bound. lia. }
  assert (∀ k v, 0 <= k → (∀ i, 0 <= i < 8 → Z.testbit v (k + i) = Z.testbit e i) → u8 (Z.shiftr v k) = e) as Hk.
  { intros k v Hk Hb. unfold u8. change 256 with (2 ^ 8). rewrite <- Z.land_ones by lia.
    apply Z.bits_inj'. intros i Hi. rewrite Z.land_spec, Z.testbit_ones_nonneg, Z.shiftr_spec by lia.
    case_bool_decide as H8 || destruct (Z.ltb_spec i 8) as [H8|H8].
    - rewrite andb_true_r, Z.add_comm. apply Hb. lia.
    - rewrite andb_false_r. symmetry. apply Z.bits_above_log2; [lia|].
      destruct (decide (e = 0)) as [->|]; [simpl; lia|]. apply Z.log2_lt_pow2; [lia|].
      apply Z.lt_le_trans with (2 ^ 8); [lia|]. apply Z.pow_le_mono_r; lia. }
  assert (∀ i, 8 <= i → Z.testbit e i = false) as Hhi.
  { intros i Hi. apply Z.bits_above_log2; [lia|]. destruct (decide (e = 0)) as [->|]; [simpl; lia|].
    apply Z.log2_lt_pow2; [lia|]. apply Z.lt_le_trans with (2 ^ 8); [lia|]. apply Z.pow_le_mono_r; lia. }
  assert (∀ i, i < 0 → Z.testbit e i = false) as Hlo by (intros; by apply Z.testbit_neg_r).
  unfold word_bytes. rewrite <- (Z.shiftr_0_r (Z.lor _ e)) at 1.
  repeat constructor; apply Hk; try lia; intros i Hi; rewrite !Z.lor_spec, !Z.shiftl_spec by lia.
  - rewrite (Hlo (0 + i - 24)), (Hlo (0 + i - 16)), (Hlo (0 + i - 8)) by lia. done.
  - rewrite (Hlo (8 + i - 24)), (Hlo (8 + i - 16)), (Hhi (8 + i)) by lia. rewrite orb_false_r. simpl.
    f_equal. lia.
  - rewrite (Hlo (16 + i - 24)), (Hhi (16 + i - 8)), (Hhi (16 + i)) by lia. rewrite !orb_false_r. simpl.
    f_equal. lia.
  - rewrite (Hhi (24 + i - 16)), (Hhi (24 + i - 8)), (Hhi (24 + i)) by lia. rewrite !orb_false_r. f_equal. lia.
Qed.

(** [memset] fills the block with the low byte of its argument, by words or by
    bytes, and changes nothing else. *)
Theorem memset_correct v c n m a :
  0 <= n →
  mbyte (memset v c n m) a = if decide (v <= a < v + n) then u8 c else mbyte m a.
Proof.
  intros Hn. unfold memset. case_bool_decide as H0; [rewrite decide_False by lia; done|].
  destruct (bool_decide _ && _) eqn:E.
  - apply andb_true_iff in E as [_ E%bool_decide_eq_true].
    rewrite (rep_stos_fill _ _ _ _ _ (u8 c)); [|simpl; lia|].
    + simpl length. rewrite Z2Nat.id by (Z.div_mod_to_equations; lia).
      replace (n / 4 * Z.of_nat 4) with n by (Z.div_mod_to_equations; lia). done.
    + replace (u8 c) with (Z.land c 255); [apply word_bytes_fill|].
      unfold u8. change 255 with (Z.ones 8). by rewrite Z.land_ones.
  - rewrite (rep_stos_fill _ _ _ _ _ (u8 c)); [|simpl; lia|by repeat constructor].
    simpl length. rewrite Z2Nat.id by done. by rewrite Z.mul_1_r.
Qed.

Lemma memset_correct_witness :
  mbyte (memset 4096 (-1) 8 ∅) 4103 = 255 ∧ mbyte (memset 4096 (-1) 8 ∅) 4104 = 0.
Proof. split; rewrite memset_correct by lia; reflexivity. Defined.

(** ** Strings: theorems *)

(** A string without its terminator. *)
Definition is_str (a : list Z) : Prop := Forall (λ c, 0 < c < 256) a.

(** Lexicographic order of the contents. *)
Fixpoint str_lt (a b : list Z) : Prop :=
  match a, b with
  | _, [] => False
  | [], _ :: _ => True
  | x :: a, y :: b => x < y ∨ x = y ∧ str_lt a b
  end.

Lemma u8_char c : 0 <= c < 256 → u8 c = c.
Proof. apply Z.mod_small. Qed.

(** [strcmp] is the comparison of strings: zero on equal ones and only on those, and
    negative exactly when the first comes first in lexicographic order. *)
Theorem strcmp_order a b x y :
  is_str a → is_str b →
  ∃ r, strcmp (a ++ 0 :: x) (b ++ 0 :: y) = Some r ∧ (r = 0 ↔ a = b) ∧ (r < 0 ↔ str_lt a b).
Proof.
  revert b. induction a as [|c a IH]; intros [|e b] Ha Hb; simpl;
    repeat match goal with H : is_str (_ :: _) |- _ => apply Forall_cons in H as [? ?] end.
  - exists 0. split; [done|]. split; [done|]. split; [lia|done].
  - exists (u8 0 - u8 e). rewrite !u8_char by lia. split; [done|]. split; [|lia].
    split; [lia|done].
  - rewrite bool_decide_eq_true_2, bool_decide_eq_false_2 by lia. simpl.
    exists (u8 c - u8 0). rewrite !u8_char by lia. split; [done|]. split; [|lia]. split; [lia|done].
  - rewrite (bool_decide_eq_true_2 (c ≠ 0)) by lia. simpl. case_bool_decide as Hc.
    + subst e. destruct (IH b) as (r & Hr & Hz & Hneg); [done..|]. exists r. split; [done|].
      split; [rewrite Hz; naive_solver|]. rewrite Hneg. split; [by right|]. intros [?|[_ ?]]; [lia|done].
    + exists (u8 c - u8 e). rewrite !u8_char by lia. split; [done|].
      split; [split; [lia|congruence]|]. split; [intros; left; lia|]. intros [?|[? _]]; lia.
Qed.

Lemma strcmp_order_witness :
  ∃ r, strcmp [108; 115; 0; 7] [108; 115; 97; 0] = Some r ∧ (r = 0 ↔ [108; 115] = [108; 115; 97]) ∧
       (r < 0 ↔ str_lt [108; 115] [108; 115; 97]).
Proof. apply (strcmp_order [108; 115] [108; 115; 97] [7] []); repeat constructor; lia. Defined.

Lemma strncpy_str a x n :
  is_str a → (length a <= n)%nat →
  strncpy (a ++ 0 :: x) n = Some (a ++ replicate (n - length a) 0).
Proof.
  revert n. induction a as [|c a IH]; intros n Ha Hn; simpl.
  - destruct n as [|n]; [done|]. simpl. done.
  - apply Forall_cons in Ha as [Hc Ha]. destruct n as [|n]; simpl in *; [lia|].
    rewrite bool_decide_eq_false_2 by lia. rewrite IH by (done || lia). done.
Qed.

Lemma strncpy_cut a x n :
  is_str a → (n <= length a)%nat → strncpy (a ++ x) n = Some (take n a).
Proof.
  revert n. induction a as [|c a IH]; intros n Ha Hn; simpl in *.
  - assert (n = O) as -> by lia. done.
  - apply Forall_cons in Ha as [Hc Ha]. destruct n as [|n]; simpl; [done|].
    rewrite bool_decide_eq_false_2 by lia. rewrite IH by (done || lia). done.
Qed.

(** The comparison of two arrays that start with strings looks at [n] characters. *)
Lemma strncmp_zero a b x y n :
  is_str a → is_str b → (n <= length a)%nat ∨ x !! O = Some 0 → (n <= length b)%nat ∨ y !! O = Some 0 →
  ∃ r, strncmp (a ++ x) (b ++ y) n = Some r ∧ (r = 0 ↔ take n a = take n b).
Proof.
  revert a b. induction n as [|n IH]; intros a b Ha Hb Hx Hy; simpl; [by exists 0|].
  destruct a as [|c a].
  - destruct Hx as [?|Hx]; [simpl in *; lia|]. destruct x as [|x0 x]; [done|]. injection Hx as ->. simpl.
    destruct b as [|e b].
    + destruct Hy as [?|Hy]; [simpl in *; lia|]. destruct y as [|y0 y]; [done|]. injection Hy as ->.
      by exists 0.
    + apply Forall_cons in Hb as [He _]. simpl. exists (u8 0 - u8 e). rewrite !u8_char by lia.
      split; [done|]. split; [lia|done].
  - apply Forall_cons in Ha as [Hc Ha]. destruct b as [|e b].
    + destruct Hy as [?|Hy]; [simpl in *; lia|]. destruct y as [|y0 y]; [done|]. injection Hy as ->. simpl.
      rewrite (bool_decide_eq_false_2 (c = 0)), andb_false_r by lia.
      exists (u8 c - u8 0). rewrite !u8_char by lia. split; [done|]. split; [lia|done].
    + apply Forall_cons in Hb as [He Hb]. simpl. rewrite (bool_decide_eq_true_2 (c ≠ 0)) by lia. simpl.
      case_bool_decide as Hce.
      * subst e. destruct (IH a b) as (r & Hr & H0); [done|done|simpl in Hx; destruct Hx; [left; lia|by right]
          |simpl in Hy; destruct Hy; [left; lia|by right]|].
        exists r. split; [done|]. rewrite H0. split; [by intros ->|by intros [=]].
      * exists (u8 c - u8 e). rewrite !u8_char by lia. split; [done|]. split; [lia|congruence].
Qed.
