(* ===== verification/BufCache.v ===== *)
(** * The buffer cache and the disk (kern/fs/bufcache.c, kern/dev/disk/ide.c, kern/lib/buf.h)

    Ten buffers in the order of their last use, the queue of disk requests, and the
    disk.  The three bits of the flag word are three fields.  A thread that waits for
    its request is woken by the disk interrupt; [ide_rw] is modelled with that
    interrupt arriving while it waits. *)

From S2P Require Import Prelude Spinlock Mboot PMem Container PageTable TCB TQueue Thread Sched.

Definition NBUF : Z := 10.
Definition BSIZE : Z := 512.
Definition ROOTDEV : Z := 1.
Definition LOGSIZE : Z := 10.

Record buf := {
  B_BUSY : bool; B_VALID : bool; B_DIRTY : bool;
  b_dev : Z; b_sector : Z; b_data : list Z
}.

Definition block0 : list Z := replicate 512 0.

Definition buf_zero : buf :=
  {| B_BUSY := false; B_VALID := false; B_DIRTY := false; b_dev := 0; b_sector := 0;
     b_data := block0 |}.

(** [bufs] is [bcache.buf]; [lru] is the list through [next] from [bcache.head], most
    recently used first; [idequeue] the list through [qnext]; [disk] the sectors of the
    two drives and [bad] those whose transfer ends with an error; [dwrites] the sectors written since boot, last first. *)
Record bc_state := {
  bc_th : th_state;
  bc_lock : spinlock_t;
  bufs : gmap Z buf;
  lru : list Z;
  ide_lk : spinlock_t;
  idequeue : list Z;
  havedisk1 : bool;
  bad : gset (Z * Z);
  disk : gmap (Z * Z) (list Z);
  dwrites : list (Z * Z * list Z)
}.

#[global, program] Instance bc_th_lens : Lens bc_state th_state := {|
  view := bc_th;
  put t s := {| bc_th := t; bc_lock := bc_lock s; bufs := bufs s; lru := lru s;
                ide_lk := ide_lk s; idequeue := idequeue s; havedisk1 := havedisk1 s; bad := bad s;
                disk := disk s; dwrites := dwrites s |}
|}.
Next Obligation. done. Qed.
Next Obligation. by intros []. Qed.
Next Obligation. done. Qed.

Definition set_bc_lock (lk : spinlock_t) (s : bc_state) : bc_state :=
  {| bc_th := bc_th s; bc_lock := lk; bufs := bufs s; lru := lru s; ide_lk := ide_lk s;
     idequeue := idequeue s; havedisk1 := havedisk1 s; bad := bad s; disk := disk s; dwrites := dwrites s |}.
Definition upd_bufs (f : gmap Z buf → gmap Z buf) (s : bc_state) : bc_state :=
  {| bc_th := bc_th s; bc_lock := bc_lock s; bufs := f (bufs s); lru := lru s; ide_lk := ide_lk s;
     idequeue := idequeue s; havedisk1 := havedisk1 s; bad := bad s; disk := disk s; dwrites := dwrites s |}.
Definition set_lru (l : list Z) (s : bc_state) : bc_state :=
  {| bc_th := bc_th s; bc_lock := bc_lock s; bufs := bufs s; lru := l; ide_lk := ide_lk s;
     idequeue := idequeue s; havedisk1 := havedisk1 s; bad := bad s; disk := disk s; dwrites := dwrites s |}.
Definition set_ide_lk (lk : spinlock_t) (s : bc_state) : bc_state :=
  {| bc_th := bc_th s; bc_lock := bc_lock s; bufs := bufs s; lru := lru s; ide_lk := lk;
     idequeue := idequeue s; havedisk1 := havedisk1 s; bad := bad s; disk := disk s; dwrites := dwrites s |}.
Definition set_idequeue (q : list Z) (s : bc_state) : bc_state :=
  {| bc_th := bc_th s; bc_lock := bc_lock s; bufs := bufs s; lru := lru s; ide_lk := ide_lk s;
     idequeue := q; havedisk1 := havedisk1 s; bad := bad s; disk := disk s; dwrites := dwrites s |}.
Definition set_havedisk1 (v : bool) (s : bc_state) : bc_state :=
  {| bc_th := bc_th s; bc_lock := bc_lock s; bufs := bufs s; lru := lru s; ide_lk := ide_lk s;
     idequeue := idequeue s; havedisk1 := v; bad := bad s; disk := disk s; dwrites := dwrites s |}.
Definition disk_store (dev sector : Z) (d : list Z) (s : bc_state) : bc_state :=
  {| bc_th := bc_th s; bc_lock := bc_lock s; bufs := bufs s; lru := lru s; ide_lk := ide_lk s;
     idequeue := idequeue s; havedisk1 := havedisk1 s; bad := bad s; disk := <[(dev, sector) := d]> (disk s);
     dwrites := (dev, sector, d) :: dwrites s |}.

Definition bc_lkref : lockref bc_state := {| lk_get := bc_lock; lk_set := set_bc_lock |}.

Definition buf_look (s : bc_state) (b : Z) : buf := alook buf_zero (bufs s) b.

Definition buf_get (b : Z) : M bc_state buf := aget NBUF buf_zero bufs b.

Definition buf_put (b : Z) (v : buf) : M bc_state () := aset NBUF upd_bufs b v.

Definition with_busy (v : bool) (b : buf) : buf :=
  {| B_BUSY := v; B_VALID := B_VALID b; B_DIRTY := B_DIRTY b; b_dev := b_dev b;
     b_sector := b_sector b; b_data := b_data b |}.
Definition with_dirty (v : bool) (b : buf) : buf :=
  {| B_BUSY := B_BUSY b; B_VALID := B_VALID b; B_DIRTY := v; b_dev := b_dev b;
     b_sector := b_sector b; b_data := b_data b |}.
Definition with_data (d : list Z) (b : buf) : buf :=
  {| B_BUSY := B_BUSY b; B_VALID := B_VALID b; B_DIRTY := B_DIRTY b; b_dev := b_dev b;
     b_sector := b_sector b; b_data := d |}.
(** After a transfer the buffer is valid and clean. *)
Definition synced (d : list Z) (b : buf) : buf :=
  {| B_BUSY := B_BUSY b; B_VALID := true; B_DIRTY := false; b_dev := b_dev b;
     b_sector := b_sector b; b_data := d |}.

(** ** The disk driver *)

(** The drive that a device number selects and the sector address of the ports. *)
Definition drive (dev : Z) : Z := Z.land dev 1.
Definition lba (sector : Z) : Z := sector mod 268435456.

Definition disk_look (s : bc_state) (dev sector : Z) : list Z :=
  default block0 (disk s !! (drive dev, lba sector)).

(** [present] is what the probe of the second drive finds. *)
Definition ide_init (present : bool) : M bc_state () :=
  modify (set_ide_lk spinlock_init) ;;
  modify (λ s, if present then set_havedisk1 true s else s).

Definition ide_start (b : Z) : M bc_state () :=
  v ← buf_get b;
  if B_DIRTY v then modify (disk_store (drive (b_dev v)) (lba (b_sector v)) (b_data v))
  else mret ().

Definition ide_intr : M bc_state () :=
  spinlock_acquire ide_lk set_ide_lk ;;
  q ← gets idequeue;
  match q with
  | [] => spinlock_release ide_lk set_ide_lk
  | b :: rest =>
      modify (set_idequeue rest) ;;
      v ← buf_get b;
      d ← gets (λ s, if B_DIRTY v then b_data v
                     else if bool_decide ((drive (b_dev v), lba (b_sector v)) ∈ bad s) then b_data v
                     else disk_look s (b_dev v) (b_sector v));
      buf_put b (synced d v) ;;
      zoom (thread_wakeup (Some (ChBuf b))) ;;
      match rest with [] => mret () | b' :: _ => ide_start b' end ;;
      spinlock_release ide_lk set_ide_lk
  end.

(** [ide_rw] up to the wait. *)
Definition ide_request (b : Z) : M bc_state () :=
  v ← buf_get b;
  if negb (B_BUSY v) then kern_panic
  else if B_VALID v && negb (B_DIRTY v) then kern_panic
  else
    have ← gets havedisk1;
    if bool_decide (b_dev v ≠ 0) && negb have then kern_panic
    else
      spinlock_acquire ide_lk set_ide_lk ;;
      q ← gets idequeue;
      modify (set_idequeue (q ++ [b])) ;;
      match q with [] => ide_start b | _ => mret () end.

(** The loop around [thread_sleep(b, &ide_lk)]: the lock is given up, the interrupt of the
    first request in the queue arrives, and the lock is taken again.  What other threads do
    meanwhile is left out. *)
Fixpoint ide_sleep (fuel : nat) (b : Z) : M bc_state () :=
  match fuel with
  | O => spin
  | S fuel =>
      v ← buf_get b;
      if B_VALID v && negb (B_DIRTY v) then mret ()
      else
        spinlock_release ide_lk set_ide_lk ;;
        ide_intr ;;
        spinlock_acquire ide_lk set_ide_lk ;;
        ide_sleep fuel b
  end.

(** It sleeps at most once for each request in the queue. *)
Definition ide_rw (b : Z) : M bc_state () :=
  ide_request b ;;
  q ← gets idequeue;
  ide_sleep (S (length q)) b ;;
  spinlock_release ide_lk set_ide_lk.

(** ** The cache *)

Definition bufcache_init : M bc_state () :=
  modify (set_bc_lock spinlock_init) ;;
  for_range 0 NBUF (λ b,
    v ← buf_get b;
    buf_put b {| B_BUSY := B_BUSY v; B_VALID := B_VALID v; B_DIRTY := B_DIRTY v;
                 b_dev := -1; b_sector := b_sector v; b_data := b_data v |} ;;
    l ← gets lru; modify (set_lru (b :: l))).

Definition buf_is (dev sector : Z) (v : buf) : bool :=
  bool_decide (u32 (b_dev v) = dev) && bool_decide (b_sector v = sector).

Definition bufcache_get (dev sector : Z) : M bc_state Z :=
  spinlock_acquire bc_lock set_bc_lock ;;
  s ← gets id;
  match list_find (λ b, Is_true (buf_is dev sector (buf_look s b))) (lru s) with
  | Some (_, b) =>
      if negb (B_BUSY (buf_look s b)) then
        buf_put b (with_busy true (buf_look s b)) ;;
        spinlock_release bc_lock set_bc_lock ;;
        mret b
      else thread_sleep (ChBuf b) (Some bc_lkref) ;; undef (* the search restarts here *)
  | None =>
      match list_find (λ b, B_BUSY (buf_look s b) = false ∧ B_DIRTY (buf_look s b) = false)
              (reverse (lru s)) with
      | Some (_, b) =>
          buf_put b {| B_BUSY := true; B_VALID := false; B_DIRTY := false; b_dev := s32 dev;
                       b_sector := sector; b_data := b_data (buf_look s b) |} ;;
          spinlock_release bc_lock set_bc_lock ;;
          mret b
      | None => kern_panic
      end
  end.

Definition bufcache_read (dev sector : Z) : M bc_state Z :=
  b ← bufcache_get dev sector;
  v ← buf_get b;
  (if negb (B_VALID v) then ide_rw b else mret ()) ;;
  mret b.

Definition bufcache_write (b : Z) : M bc_state () :=
  v ← buf_get b;
  if negb (B_BUSY v) then kern_panic
  else
    buf_put b (with_dirty true v) ;;
    ide_rw b.

Definition bufcache_release (b : Z) : M bc_state () :=
  v ← buf_get b;
  if negb (B_BUSY v) then kern_panic
  else
    spinlock_acquire bc_lock set_bc_lock ;;
    l ← gets lru;
    modify (set_lru (b :: filter (λ x, x ≠ b) l)) ;;
    v ← buf_get b;
    buf_put b (with_busy false v) ;;
    zoom (thread_wakeup (Some (ChBuf b))) ;;
    spinlock_release bc_lock set_bc_lock.

(** What the callers do with [b->data]. *)
Definition buf_data (b : Z) : M bc_state (list Z) := v ← buf_get b; mret (b_data v).

Definition buf_set_data (b : Z) (d : list Z) : M bc_state () :=
  v ← buf_get b; buf_put b (with_data d v).

(** [b->flags |= B_DIRTY] of [log_write]. *)
Definition buf_set_dirty (b : Z) : M bc_state () :=
  v ← buf_get b; buf_put b (with_dirty true v).

(** ** The cache as a block device

    What the cache promises its callers: a device whose sectors are on the disk except
    for those in use, which a caller holds, and those pinned, which are dirty and wait
    for the log to write them. *)

Record bdev := {
  d_disk : gmap (Z * Z) (list Z);
  d_log : list (Z * Z * list Z);
  d_live : gmap (Z * Z) (Z * buf);
  d_free : nat
}.

Definition b_key (v : buf) : Z * Z := (b_dev v, b_sector v).
Definition is_live (v : buf) : bool := B_BUSY v || B_DIRTY v.
Definition key_ok (k : Z * Z) : Prop := (k.1 = 0 ∨ k.1 = 1) ∧ 0 <= k.2 < 268435456.
Definition d_look (A : bdev) (k : Z * Z) : list Z := default block0 (d_disk A !! k).

(** The thread layer as the caller left it, up to threads that were woken. *)
Definition th_keeps (t t' : th_state) : Prop :=
  th_frame t t' ∧ ∀ a, sched_rep t a → ∃ a', sched_rep t' a' ∧ cur a' = cur a.

(** The part of the state that is the same between any two calls. *)
Record bc_calm (t0 : th_state) (s : bc_state) : Prop := {
  calm_th : th_keeps t0 (bc_th s);
  calm_sched : ∃ a, sched_rep (bc_th s) a;
  calm_lock : bc_lock s = spinlock_init;
  calm_ide : ide_lk s = spinlock_init;
  calm_queue : idequeue s = [];
  calm_disk1 : havedisk1 s = true;
  calm_bad : bad s = ∅;
  calm_lru : lru s ≡ₚ seqZ 0 NBUF
}.

(** A buffer is unused or holds a sector. *)
Definition buf_ok (v : buf) : Prop :=
  length (b_data v) = 512%nat ∧
  (b_dev v = -1 ∧ is_live v = false ∨ key_ok (b_key v) ∧ (B_VALID v = true ∨ is_live v = false)).

Definition free_bufs (s : bc_state) : nat :=
  length (filter (λ b, is_live (buf_look s b) = false) (seqZ 0 NBUF)).

Record bc_rep (t0 : th_state) (s : bc_state) (A : bdev) : Prop := {
  br_calm : bc_calm t0 s;
  br_disk : d_disk A = disk s;
  br_log : d_log A = dwrites s;
  br_free : d_free A = free_bufs s;
  br_ok b : 0 <= b < NBUF → buf_ok (buf_look s b);
  br_uniq b b' : 0 <= b < NBUF → 0 <= b' < NBUF → b_dev (buf_look s b) ≠ -1 →
    b_key (buf_look s b) = b_key (buf_look s b') → b = b';
  br_live k b v : d_live A !! k = Some (b, v) ↔
    0 <= b < NBUF ∧ buf_look s b = v ∧ b_key v = k ∧ is_live v = true;
  br_clean b : 0 <= b < NBUF → b_dev (buf_look s b) ≠ -1 → is_live (buf_look s b) = false →
    B_VALID (buf_look s b) = true → b_data (buf_look s b) = d_look A (b_key (buf_look s b));
  br_block k d : d_disk A !! k = Some d → length d = 512%nat;
  br_writes : Forall (λ w, length w.2 = 512%nat) (d_log A)
}.

(** The device after the buffer [b] became [v]. *)
Definition live_upd (b : Z) (v : buf) (m : gmap (Z * Z) (Z * buf)) : gmap (Z * Z) (Z * buf) :=
  if is_live v then <[b_key v := (b, v)]> m else delete (b_key v) m.

Lemma th_keeps_refl t : th_keeps t t.
Proof. split; [done|]. eauto. Qed.

Lemma th_keeps_wakeup t0 t c :
  th_keeps t0 t → (∃ a, sched_rep t a) →
  ∃ t', thread_wakeup (Some c) t = Ok () t' ∧ th_keeps t0 t' ∧ ∃ a, sched_rep t' a.
Proof.
  intros [Hf Hk] [a Ha]. destruct (thread_wakeup_run t a c Ha) as (t' & Hr & Ha' & Hf').
  exists t'. split; [exact Hr|]. split; [|by eexists]. split; [by apply (th_frame_trans _ t)|].
  intros a0 H0. destruct (Hk a0 H0) as (a1 & H1 & Hc1).
  destruct (thread_wakeup_run t a1 c H1) as (t2 & Hr2 & H2 & _).
  rewrite Hr in Hr2. injection Hr2 as <-. by exists (a_wakeup c a1).
Qed.

Lemma filter_upd_length {A} (P Q : A → Prop) `{∀ x, Decision (P x), ∀ x, Decision (Q x)} l b :
  NoDup l → b ∈ l → (∀ x, x ≠ b → P x ↔ Q x) →
  (length (filter P l) + (if decide (Q b) then 1 else 0) =
   length (filter Q l) + (if decide (P b) then 1 else 0))%nat.
Proof.
  intros Hnd Hb Heq. apply elem_of_Permutation in Hb as [k Hk]. rewrite Hk in Hnd |- *.
  apply NoDup_cons in Hnd as [Hb _].
  assert (filter P k = filter Q k) as Hf.
  { clear Hk. induction k as [|x k IH]; [done|]. rewrite not_elem_of_cons in Hb. destruct Hb as [? Hb].
    rewrite !filter_cons, (IH Hb).
    destruct (decide (P x)) as [Hp|Hp], (decide (Q x)) as [Hq|Hq]; try done;
      exfalso; revert Hp Hq; rewrite (Heq x) by done; tauto. }
  rewrite !filter_cons, Hf. destruct (decide (P b)), (decide (Q b)); simpl; lia.
Qed.

Lemma buf_get_Ok s b : 0 <= b < NBUF → buf_get b s = Ok (buf_look s b) s.
Proof. apply aget_Ok. Qed.

Lemma buf_put_Ok s b v : 0 <= b < NBUF → buf_put b v s = Ok () (upd_bufs <[b := v]> s).
Proof. apply aset_Ok. Qed.

#[export] Hint Resolve buf_get_Ok buf_put_Ok th_keeps_refl : kern.

Lemma buf_look_insert m b v b' :
  alook buf_zero (<[b := v]> m) b' = if decide (b = b') then v else alook buf_zero m b'.
Proof. apply alook_insert. Qed.

(** How many buffers can be taken after the buffer [b] became [v]. *)
Lemma free_bufs_upd s s' b v :
  0 <= b < NBUF → bufs s' = <[b := v]> (bufs s) →
  (free_bufs s' + Nat.b2n (negb (is_live (buf_look s b))) =
   free_bufs s + Nat.b2n (negb (is_live v)))%nat.
Proof.
  intros Hb Hs. unfold free_bufs.
  pose proof (filter_upd_length (λ x, is_live (buf_look s' x) = false)
    (λ x, is_live (buf_look s x) = false) (seqZ 0 NBUF) b) as H.
  assert (buf_look s' b = v) as Hv by (unfold buf_look; by rewrite Hs, alook_insert_eq).
  cbv beta in H. rewrite Hv in H.
  assert (∀ c : bool, (if decide (c = false) then 1 else 0) = Nat.b2n (negb c))%nat as Hc by by intros [].
  rewrite !Hc in H. apply H; [apply NoDup_seqZ|by apply elem_of_seqZ|].
  intros x Hx. unfold buf_look. by rewrite Hs, alook_insert_ne.
Qed.

Section Update.
Context (t0 : th_state) (s : bc_state) (A : bdev) (b : Z) (v : buf) (s' : bc_state).
Context (Hrep : bc_rep t0 s A) (Hb : 0 <= b < NBUF) (Hcalm : bc_calm t0 s').
Context (Hbufs : bufs s' = <[b := v]> (bufs s)) (Hok : buf_ok v) (Hdev : b_dev v ≠ -1).
Context (Hold : b_key (buf_look s b) = b_key v ∨ is_live (buf_look s b) = false).
Context (Hother : ∀ b', 0 <= b' < NBUF → b_key (buf_look s b') = b_key v → b' = b).
Context (Hdisk : ∀ k, k ≠ b_key v → disk s' !! k = disk s !! k).
Context (Hlen : ∀ d, disk s' !! b_key v = Some d → length d = 512%nat).
Context (Hwr : Forall (λ w, length w.2 = 512%nat) (dwrites s')).
Context (Hsync : is_live v = false → B_VALID v = true →
                 b_data v = default block0 (disk s' !! b_key v)).

Lemma look_upd b' : buf_look s' b' = if decide (b = b') then v else buf_look s b'.
Proof. unfold buf_look. by rewrite Hbufs, buf_look_insert. Qed.

Lemma live_upd_spec k b' v' :
  live_upd b v (d_live A) !! k = Some (b', v') ↔
  0 <= b' < NBUF ∧ buf_look s' b' = v' ∧ b_key v' = k ∧ is_live v' = true.
Proof.
  rewrite look_upd. unfold live_upd.
  pose proof (br_live t0 s A Hrep k b' v') as Hl.
  destruct (decide (k = b_key v)) as [->|Hk].
  - destruct (is_live v) eqn:El.
    + rewrite lookup_insert_eq. case_decide as Hc; [naive_solver|].
      split; [naive_solver|]. intros (? & <- & Hk & _). exfalso. apply Hc. symmetry. auto.
    + rewrite lookup_delete_eq. split; [done|]. intros (? & <- & Hk & Hlv). exfalso.
      case_decide as Hc; [congruence|]. apply Hc. symmetry. auto.
  - assert ((if is_live v then <[b_key v:=(b, v)]> (d_live A) else delete (b_key v) (d_live A)) !! k
            = d_live A !! k) as ->.
    { destruct (is_live v); [by apply lookup_insert_ne|by apply lookup_delete_ne]. }
    rewrite Hl. case_decide as Hc; [subst b'|done].
    split; [|naive_solver]. intros (_ & <- & <- & ?). exfalso. destruct Hold; congruence.
Qed.

Lemma rep_update :
  bc_rep t0 s' {| d_disk := disk s'; d_log := dwrites s';
                  d_live := live_upd b v (d_live A); d_free := free_bufs s' |}.
Proof.
  split; try done; simpl.
  - intros b' Hb'. rewrite look_upd. case_decide; [done|]. by apply (br_ok t0 s A).
  - intros b1 b2 H1 H2. rewrite !look_upd. repeat case_decide; subst; try done.
    + intros _ Hk. symmetry in Hk. by rewrite (Hother _ H2 Hk).
    + intros _ Hk. by rewrite (Hother _ H1 Hk).
    + by apply (br_uniq t0 s A).
  - intros. apply live_upd_spec.
  - intros b' Hb'. rewrite look_upd. case_decide as Hc; [intros _ Hl Hv; exact (Hsync Hl Hv)|]. intros Hd Hl Hv.
    rewrite (br_clean t0 s A Hrep b' Hb' Hd Hl Hv). unfold d_look. rewrite (br_disk t0 s A Hrep). simpl.
    rewrite Hdisk; [done|]. intros Hk. apply Hc. symmetry. auto.
  - intros k d. destruct (decide (k = b_key v)) as [->|Hk]; [apply Hlen|].
    rewrite Hdisk by done. rewrite <- (br_disk t0 s A Hrep). apply (br_block t0 s A Hrep).
Qed.
End Update.

(** ** Transfers *)

Definition transferred (s : bc_state) (v : buf) : list Z :=
  if B_DIRTY v then b_data v else disk_look s (b_dev v) (b_sector v).

Definition flushed (v : buf) (s : bc_state) : bc_state :=
  if B_DIRTY v then disk_store (drive (b_dev v)) (lba (b_sector v)) (b_data v) s else s.

Lemma ide_start_run s b : 0 <= b < NBUF → ide_start b s = Ok () (flushed (buf_look s b) s).
Proof.
  intros Hb. unfold ide_start. rewrite (bind_Ok _ _ _ _ _ (buf_get_Ok s b Hb)).
  unfold flushed. by destruct (B_DIRTY _).
Qed.

Lemma ide_intr_run t0 s b :
  th_keeps t0 (bc_th s) → (∃ a, sched_rep (bc_th s) a) →
  ide_lk s = spinlock_init → idequeue s = [b] → bad s = ∅ → 0 <= b < NBUF →
  ∃ t', ide_intr s =
    Ok () (put t' (upd_bufs <[b := synced (transferred s (buf_look s b)) (buf_look s b)]>
                     (set_idequeue [] s))) ∧
    th_keeps t0 t' ∧ ∃ a, sched_rep t' a.
Proof.
  intros Hk Hsr Hlk Hq Hbad Hb. unfold ide_intr.
  rewrite (bind_Ok _ _ _ _ _ (spinlock_acquire_free ide_lk set_ide_lk s Hlk)).
  kstep. cbn [idequeue set_ide_lk]. rewrite Hq. kstep.
  rewrite (bind_Ok _ _ _ _ _ (buf_get_Ok _ b Hb)). kstep.
  rewrite (bind_Ok _ _ _ _ _ (buf_put_Ok _ b _ Hb)).
  destruct (th_keeps_wakeup t0 (bc_th s) (ChBuf b) Hk Hsr) as (t' & Hw & Hk' & Hsr').

  erewrite bind_Ok; [|eapply (zoom_Ok (S:=bc_state)); exact Hw]. rewrite (bind_Ok _ _ _ _ _ (ret_Ok _ _)).
  exists t'. split; [|done]. unfold spinlock_release. rewrite modify_Ok. f_equal.
  unfold transferred, disk_look, put, bc_th_lens, upd_bufs, set_idequeue, set_ide_lk.
  simpl. rewrite Hbad. rewrite bool_decide_eq_false_2 by set_solver.
  rewrite spinlock_release_free, <- Hlk. done.
Qed.

(** A wait that one interrupt ends. *)
Lemma ide_sleep_once s1 s2 b v : 0 <= b < NBUF → buf_look s1 b = v → B_VALID v && negb (B_DIRTY v) = false →
  ide_lk s1 = spinlock_init → ide_intr s1 = Ok () s2 →
  B_VALID (buf_look s2 b) && negb (B_DIRTY (buf_look s2 b)) = true → ide_lk s2 = spinlock_init →
  ide_sleep 2 b (set_ide_lk locked s1) = Ok () (set_ide_lk locked s2).
Proof.
  intros Hb Hv Hneed Hlk Hr Hdone Hlk2. cbn [ide_sleep]. rewrite (bind_Ok _ _ _ _ _ (buf_get_Ok _ b Hb)).
  change (buf_look (set_ide_lk locked s1) b) with (buf_look s1 b). rewrite Hv, Hneed. unfold spinlock_release.
  rewrite (bind_Ok _ _ _ _ _ (modify_Ok _ _)).
  replace (set_ide_lk _ (set_ide_lk locked s1)) with s1; [|destruct s1; simpl in *; by rewrite Hlk].
  rewrite (bind_Ok _ _ _ _ _ Hr), (bind_Ok _ _ _ _ _ (spinlock_acquire_free ide_lk set_ide_lk s2 Hlk2)).
  rewrite (bind_Ok _ _ _ _ _ (buf_get_Ok _ b Hb)). change (buf_look (set_ide_lk locked s2) b) with (buf_look s2 b). by rewrite Hdone.
Qed.

Lemma ide_rw_run t0 s b v :
  bc_calm t0 s → 0 <= b < NBUF → buf_look s b = v → B_BUSY v = true →
  B_VALID v && negb (B_DIRTY v) = false →
  ∃ t' : th_state, let s' := put t' (upd_bufs <[b := synced (transferred s v) v]> (flushed v s)) in
    ide_rw b s = Ok () s' ∧ bc_calm t0 s'.
Proof.
  intros [Hth Hsr Hlk Hide Hq Hd1 Hbad Hlru] Hb Hv Hbusy Hneed.
  set (s1 := flushed v (set_idequeue [b] s)).
  assert (ide_request b s = Ok () (set_ide_lk locked s1)) as Hreq.
  { unfold ide_request. rewrite (bind_Ok _ _ _ _ _ (buf_get_Ok s b Hb)), Hv, Hbusy, Hneed. cbn [negb].
    kstep. rewrite Hd1, andb_false_r.
    rewrite (bind_Ok _ _ _ _ _ (spinlock_acquire_free ide_lk set_ide_lk s Hide)).
    kstep. cbn [idequeue set_ide_lk]. rewrite Hq. kstep. rewrite ide_start_run by done.
    unfold buf_look in Hv |- *. simpl. rewrite Hv. unfold s1, flushed. by destruct (B_DIRTY v). }
  assert (Hs1 : bc_th s1 = bc_th s ∧ ide_lk s1 = ide_lk s ∧ idequeue s1 = [b] ∧ bad s1 = ∅ ∧
                bufs s1 = bufs s).
  { unfold s1, flushed. destruct (B_DIRTY v); simpl; by rewrite Hbad. }
  destruct Hs1 as (H1 & H2 & H3 & H4 & H5).
  destruct (ide_intr_run t0 s1 b) as (t' & Hr & Hk & Hsr'); rewrite ?H1, ?H2; try done.
  assert (buf_look s1 b = v) as Hv1 by (unfold buf_look; by rewrite H5).
  exists t'. split.
  - unfold ide_rw. rewrite (bind_Ok _ _ _ _ _ Hreq). kstep.
    cbn [idequeue set_ide_lk]. rewrite H3. simpl length.
    rewrite (bind_Ok _ _ _ _ _ (ide_sleep_once s1 _ b v Hb Hv1 Hneed (eq_trans H2 Hide) Hr
      ltac:(unfold buf_look; simpl; by rewrite alook_insert_eq) (eq_trans H2 Hide))).
    unfold spinlock_release. rewrite modify_Ok.
    set (s2 := put t' _). replace (set_ide_lk _ (set_ide_lk locked s2)) with s2; [|unfold s2; destruct s1; simpl in *; by rewrite H2, Hide].
    unfold s2. rewrite Hv1. f_equal. unfold s1, transferred, flushed, set_idequeue, upd_bufs, put, disk_look; simpl.
    destruct (B_DIRTY v); simpl; by rewrite Hq.
  - unfold flushed. destruct (B_DIRTY v); by split.
Qed.

(** ** The laws of the device *)

Definition content (A : bdev) (k : Z * Z) : list Z :=
  match d_live A !! k with Some (_, v) => b_data v | None => d_look A k end.

Definition held_buf (A : bdev) (k : Z * Z) : buf :=
  {| B_BUSY := true; B_VALID := true; B_DIRTY := bool_decide (is_Some (d_live A !! k));
     b_dev := k.1; b_sector := k.2; b_data := content A k |}.

Definition d_set (k : Z * Z) (b : Z) (v : buf) (A : bdev) : bdev :=
  {| d_disk := d_disk A; d_log := d_log A; d_live := <[k := (b, v)]> (d_live A);
     d_free := d_free A |}.

Definition d_acquire (k : Z * Z) (b : Z) (A : bdev) : bdev :=
  {| d_disk := d_disk A; d_log := d_log A; d_live := <[k := (b, held_buf A k)]> (d_live A);
     d_free := if d_live A !! k then d_free A else pred (d_free A) |}.

Definition d_write (k : Z * Z) (b : Z) (v : buf) (A : bdev) : bdev :=
  {| d_disk := <[k := b_data v]> (d_disk A); d_log := (k, b_data v) :: d_log A;
     d_live := <[k := (b, synced (b_data v) v)]> (d_live A); d_free := d_free A |}.

Definition d_drop (k : Z * Z) (A : bdev) : bdev :=
  {| d_disk := d_disk A; d_log := d_log A; d_live := delete k (d_live A);
     d_free := S (d_free A) |}.

(** A sector that nobody holds and for which there is a buffer. *)
Definition can_read (A : bdev) (k : Z * Z) : Prop :=
  key_ok k ∧ match d_live A !! k with
             | Some (_, v) => B_BUSY v = false
             | None => (0 < d_free A)%nat
             end.

Lemma buf_is_key k v : key_ok k → buf_ok v → buf_is k.1 k.2 v = bool_decide (b_key v = k).
Proof.
  intros [Hk1 Hk2] [_ Hv]. destruct k as [dev sec]. unfold buf_is, b_key in *. simpl in *.
  assert (u32 (b_dev v) = dev ↔ b_dev v = dev) as Hd.
  { destruct Hv as [[-> _]|[[Hv _] _]]; simpl in *; [change (u32 (-1)) with 4294967295; lia|].
    by destruct Hv as [-> | ->]. }
  rewrite (bool_decide_ext _ _ Hd). repeat case_bool_decide; naive_solver.
Qed.

Lemma rep_live_ok t0 s A k b v :
  bc_rep t0 s A → d_live A !! k = Some (b, v) →
  0 <= b < NBUF ∧ buf_look s b = v ∧ b_key v = k ∧ b_dev v ≠ -1 ∧ B_VALID v = true ∧
  key_ok k ∧ length (b_data v) = 512%nat ∧ is_live v = true.
Proof.
  intros Hrep Hk. apply (br_live t0 s A Hrep) in Hk as (Hb & Hv & Hkey & Hl).
  destruct (br_ok t0 s A Hrep b Hb) as [Hlen Hok]. rewrite Hv in Hlen, Hok.
  destruct Hok as [[_ ?]|[Hkk [Hval|?]]]; try congruence.
  repeat (split; [done|]). split; [|by rewrite <- Hkey].
  destruct Hkk as [Hd _]. unfold b_key in Hd. simpl in Hd. lia.
Qed.

Lemma rep_idle_live t0 s A k b :
  bc_rep t0 s A → 0 <= b < NBUF → b_key (buf_look s b) = k → is_live (buf_look s b) = false →
  key_ok k → d_live A !! k = None.
Proof.
  intros Hrep Hb Hkey Hl Hk. destruct (d_live A !! k) as [[b' v]|] eqn:E; [|done]. exfalso.
  destruct (rep_live_ok t0 s A k b' v Hrep E) as (Hb' & Hv & Hkv & Hd & _ & _ & _ & Hlv).
  assert (b' = b) as ->; [|congruence]. apply (br_uniq t0 s A Hrep); [done..| |]; congruence.
Qed.

Lemma list_find_seqZ (P : Z → Prop) `{∀ x, Decision (P x)} l b :
  l ≡ₚ seqZ 0 NBUF → (∃ i, list_find P l = Some (i, b)) → 0 <= b < NBUF ∧ P b.
Proof.
  intros Hl [i Hi]. apply list_find_Some in Hi as (Hi & HP & _). split; [|done].
  apply list_elem_of_lookup_2 in Hi. rewrite Hl in Hi. apply elem_of_seqZ in Hi. lia.
Qed.

(** The outcome of the two searches. *)
Inductive taken (s : bc_state) (A : bdev) (k : Z * Z) (b : Z) : buf → Prop :=
  | taken_hit : b_key (buf_look s b) = k → B_BUSY (buf_look s b) = false →
      taken s A k b (with_busy true (buf_look s b))
  | taken_fresh : is_live (buf_look s b) = false → d_live A !! k = None →
      taken s A k b {| B_BUSY := true; B_VALID := false; B_DIRTY := false; b_dev := k.1;
                       b_sector := k.2; b_data := b_data (buf_look s b) |}.

Lemma bufcache_get_run t0 s A k :
  bc_rep t0 s A → can_read A k →
  ∃ b v, bufcache_get k.1 k.2 s = Ok b (upd_bufs <[b := v]> s) ∧ 0 <= b < NBUF ∧ taken s A k b v ∧
    ∀ b', 0 <= b' < NBUF → b_key (buf_look s b') = k → b' = b.
Proof.
  intros Hrep [Hk Hcan]. pose proof (br_calm t0 s A Hrep) as Hcalm. unfold bufcache_get.
  rewrite (bind_Ok _ _ _ _ _ (spinlock_acquire_free bc_lock set_bc_lock s (calm_lock t0 s Hcalm))).
  kstep. cbn [lru set_bc_lock id]. change (buf_look (set_bc_lock locked s)) with (buf_look s).
  assert (∀ f, set_bc_lock (spinlock_release_A (bc_lock (upd_bufs f (set_bc_lock locked s))))
                 (upd_bufs f (set_bc_lock locked s)) = upd_bufs f s) as Hfin.
  { intros f. destruct s. unfold upd_bufs, set_bc_lock. simpl. f_equal.
    rewrite spinlock_release_free. symmetry. apply (calm_lock t0 _ Hcalm). }
  assert (∀ b v, 0 <= b < NBUF →
    (buf_put b v ;; spinlock_release bc_lock set_bc_lock ;; mret b) (set_bc_lock locked s)
    = Ok b (upd_bufs <[b := v]> s)) as Hput.
  { intros b v Hb. rewrite (bind_Ok _ _ _ _ _ (buf_put_Ok _ b _ Hb)).
    unfold spinlock_release. rewrite (bind_Ok _ _ _ _ _ (modify_Ok _ _)), Hfin. done. }
  destruct (list_find _ (lru s)) as [[i b]|] eqn:Ef.
  - destruct (list_find_seqZ (λ b, Is_true (buf_is k.1 k.2 (buf_look s b))) (lru s) b
      (calm_lru t0 s Hcalm)) as [Hb Hkey]; [by eexists|].
    rewrite buf_is_key in Hkey by (done || by apply (br_ok t0 s A)). apply bool_decide_unpack in Hkey.
    assert (b_dev (buf_look s b) ≠ -1) as Hd.
    { destruct Hk as [Hk _]. rewrite <- Hkey in Hk. unfold b_key in Hk. simpl in Hk. lia. }
    assert (B_BUSY (buf_look s b) = false) as Hbz.
    { destruct (B_BUSY (buf_look s b)) eqn:E; [|done].
      assert (d_live A !! k = Some (b, buf_look s b)) as Hl.
      { apply (br_live t0 s A Hrep). unfold is_live. by rewrite E. }
      rewrite Hl in Hcan. congruence. }
    rewrite Hbz. cbn [negb]. eexists b, _. split; [by apply Hput|]. split; [done|].
    split; [by apply taken_hit|]. intros b' Hb' Hk'. symmetry. apply (br_uniq t0 s A Hrep); congruence.
  - assert (∀ b', 0 <= b' < NBUF → b_key (buf_look s b') ≠ k) as Hno.
    { intros b' Hb' Hk'. apply list_find_None in Ef.
      assert (b' ∈ lru s) as Hin by (rewrite (calm_lru t0 s Hcalm); apply elem_of_seqZ; lia).
      rewrite Forall_forall in Ef. apply (Ef b' Hin).
      rewrite buf_is_key by (done || by apply (br_ok t0 s A)). by apply bool_decide_pack. }
    assert (d_live A !! k = None) as Hlive.
    { destruct (d_live A !! k) as [[b' v]|] eqn:E; [|done]. exfalso.
      destruct (rep_live_ok t0 s A k b' v Hrep E) as (? & Hv & Hkv & _). apply (Hno b'); congruence. }
    destruct (list_find _ (reverse (lru s))) as [[i b]|] eqn:Er.
    + destruct (list_find_seqZ (λ b, B_BUSY (buf_look s b) = false ∧ B_DIRTY (buf_look s b) = false)
        (reverse (lru s)) b) as [Hb [H1 H2]]; [by rewrite reverse_Permutation, (calm_lru t0 s Hcalm)|by eexists|].
      eexists b, _. split; [by apply Hput|]. split; [done|].
      split; [|intros b' Hb' Hk'; by destruct (Hno b')].
      replace (s32 k.1) with k.1 by (destruct Hk as [[-> | ->] _]; done).
      apply taken_fresh; [|done]. unfold is_live. by rewrite H1, H2.
    + exfalso. rewrite Hlive, (br_free t0 s A Hrep) in Hcan. unfold free_bufs in Hcan.
      apply list_find_None in Er. rewrite Forall_reverse, (calm_lru t0 s Hcalm) in Er.
      destruct (filter _ _) as [|x l] eqn:E; [simpl in Hcan; lia|].
      assert (x ∈ filter (λ b, is_live (buf_look s b) = false) (seqZ 0 NBUF)) as Hx by (rewrite E; left).
      apply list_elem_of_filter in Hx as [Hl Hx]. rewrite Forall_forall in Er.
      apply (Er x Hx). by apply orb_false_iff.
Qed.

Lemma disk_look_key t0 s A k :
  bc_rep t0 s A → key_ok k → disk_look s k.1 k.2 = d_look A k.
Proof.
  intros Hrep [Hd Hs]. unfold disk_look, d_look, drive, lba. rewrite (br_disk t0 s A Hrep).
  destruct k as [d n]. simpl in *. rewrite Z.mod_small by done. by destruct Hd as [-> | ->].
Qed.

Lemma flushed_key v s :
  key_ok (b_key v) → B_DIRTY v = true →
  flushed v s = disk_store (b_key v).1 (b_key v).2 (b_data v) s.
Proof.
  intros [Hd Hs] Hv. unfold flushed. rewrite Hv. unfold b_key, drive, lba in *. simpl in *.
  rewrite Z.mod_small by done. by destruct Hd as [-> | ->].
Qed.

Lemma bc_calm_bufs t0 s f : bc_calm t0 s → bc_calm t0 (upd_bufs f s).
Proof. by intros []. Qed.

Lemma fresh_read t0 s A k b v :
  bc_rep t0 s A → key_ok k → 0 <= b < NBUF → d_live A !! k = None →
  B_BUSY v = true → B_VALID v = false → B_DIRTY v = false → b_key v = k →
  ∃ t' : th_state, let s' := put t' (upd_bufs <[b := held_buf A k]> s) in
    ide_rw b (upd_bufs <[b := v]> s) = Ok () s' ∧ bc_calm t0 s'.
Proof.
  intros Hrep Hk Hb Hl H1 H2 H3 Hkv.
  assert (buf_look (upd_bufs <[b := v]> s) b = v) as Hv by apply alook_insert_eq.
  destruct (ide_rw_run t0 _ b v (bc_calm_bufs t0 s _ (br_calm t0 s A Hrep)) Hb Hv) as (t' & Hr & Hc);
    [done|by rewrite H2|].
  exists t'. simpl. unfold flushed, transferred in Hr, Hc. rewrite H3 in Hr, Hc.
  assert (synced (disk_look (upd_bufs <[b:=v]> s) (b_dev v) (b_sector v)) v = held_buf A k) as Hs.
  { unfold held_buf, content, synced. rewrite Hl, H1. rewrite bool_decide_eq_false_2 by (by intros []).
    subst k. f_equal. apply (disk_look_key t0 s A (b_key v) Hrep Hk). }
  rewrite Hs in Hr, Hc. unfold put, bc_th_lens, upd_bufs in *. simpl in *.
  rewrite insert_insert_eq in Hr, Hc. done.
Qed.

Lemma hit_busy t0 s A k b :
  bc_rep t0 s A → key_ok k → 0 <= b < NBUF → b_key (buf_look s b) = k →
  B_BUSY (buf_look s b) = false → B_VALID (buf_look s b) = true →
  with_busy true (buf_look s b) = held_buf A k.
Proof.
  intros Hrep Hk Hb Hkey Hbz Hv. unfold with_busy, held_buf, content. rewrite Hv.
  destruct (B_DIRTY (buf_look s b)) eqn:Ed.
  - assert (d_live A !! k = Some (b, buf_look s b)) as ->.
    { apply (br_live t0 s A Hrep). unfold is_live. by rewrite Ed, orb_true_r. }
    rewrite bool_decide_eq_true_2 by eauto. by rewrite <- Hkey.
  - assert (is_live (buf_look s b) = false) as Hl by (unfold is_live; by rewrite Hbz, Ed).
    rewrite (rep_idle_live t0 s A k b Hrep) by done. rewrite bool_decide_eq_false_2 by (by intros []).
    rewrite (br_clean t0 s A Hrep b Hb) by (try done; destruct Hk as [Hk _]; rewrite <- Hkey in Hk; simpl in Hk; lia).
    by rewrite <- Hkey.
Qed.

Lemma bufcache_read_bufs t0 s A k :
  bc_rep t0 s A → can_read A k →
  ∃ b (t' : th_state), let s' := put t' (upd_bufs <[b := held_buf A k]> s) in
    bufcache_read k.1 k.2 s = Ok b s' ∧ bc_calm t0 s' ∧ 0 <= b < NBUF ∧
    (b_key (buf_look s b) = k ∨ is_live (buf_look s b) = false) ∧
    (∀ b', 0 <= b' < NBUF → b_key (buf_look s b') = k → b' = b).
Proof.
  intros Hrep Hcan. destruct (bufcache_get_run t0 s A k Hrep Hcan) as (b & v & Hr & Hb & Ht & Hu).
  exists b. pose proof (proj1 Hcan) as Hk. unfold bufcache_read.
  rewrite (bind_Ok _ _ _ _ _ Hr), (bind_Ok _ _ _ _ _ (buf_get_Ok _ b Hb)).
  replace (buf_look (upd_bufs <[b := v]> s) b) with v by (symmetry; apply alook_insert_eq).
  assert (B_BUSY v = true → B_VALID v = false → B_DIRTY v = false → b_key v = k →
    d_live A !! k = None →
    ∃ t' : th_state, let s' := put t' (upd_bufs <[b := held_buf A k]> s) in
    ((if negb (B_VALID v) then ide_rw b else mret ()) ;; mret b) (upd_bufs <[b:=v]> s) = Ok b s' ∧
    bc_calm t0 s') as Hfresh.
  { intros H1 H2 H3 H4 H5. rewrite H2. cbn [negb].
    destruct (fresh_read t0 s A k b v Hrep Hk Hb H5 H1 H2 H3 H4) as (t' & Hw & Hc).
    exists t'. by rewrite (bind_Ok _ _ _ _ _ Hw). }
  assert (b_key (buf_look s b) = k ∨ is_live (buf_look s b) = false) as Hor by (destruct Ht; tauto).
  destruct Ht as [Hkey Hbz|Hl Hnone].
  - destruct (B_VALID (buf_look s b)) eqn:Ev.
    + exists (bc_th s). simpl. rewrite Ev, (hit_busy t0 s A k b) by done. cbn [negb].
      rewrite (bind_Ok _ _ _ _ _ (ret_Ok _ _)).
      split; [by destruct s|]. split; [|done]. by destruct (br_calm t0 s A Hrep).
    + assert (is_live (buf_look s b) = false) as Hl.
      { destruct (br_ok t0 s A Hrep b Hb) as [_ [[_ ?]|[_ [?|?]]]]; congruence. }
      assert (B_DIRTY (buf_look s b) = false) as Hd by (apply orb_false_iff in Hl; tauto).
      destruct (Hfresh eq_refl Ev Hd Hkey (rep_idle_live t0 s A k b Hrep Hb Hkey Hl Hk))
        as (t' & Hw & Hc). by exists t'.
  - destruct (Hfresh eq_refl eq_refl eq_refl) as (t' & Hw & Hc); try done; [by destruct k|].
    by exists t'.
Qed.

Lemma content_length t0 s A k : bc_rep t0 s A → length (content A k) = 512%nat.
Proof.
  intros Hrep. unfold content, d_look. destruct (d_live A !! k) as [[b v]|] eqn:E.
  - by apply (rep_live_ok t0 s A k b v Hrep E).
  - destruct (d_disk A !! k) eqn:Ed; [by apply (br_block t0 s A Hrep k)|done].
Qed.

Lemma bc_rep_eq t0 s A A' : bc_rep t0 s A → A = A' → bc_rep t0 s A'.
Proof. by intros ? <-. Qed.

Lemma key_ok_dev v : key_ok (b_key v) → b_dev v ≠ -1.
Proof. intros [Hd _]. unfold b_key in Hd. simpl in Hd. lia. Qed.

Lemma bufcache_read_run t0 s A k :
  bc_rep t0 s A → can_read A k →
  ∃ b s', bufcache_read k.1 k.2 s = Ok b s' ∧ bc_rep t0 s' (d_acquire k b A).
Proof.
  intros Hrep Hcan. destruct (bufcache_read_bufs t0 s A k Hrep Hcan) as (b & t' & Hr & Hc & Hb & Hold & Hu).
  eexists b, _. split; [exact Hr|]. destruct Hcan as [Hk Hcan].
  assert (b_key (held_buf A k) = k) as Hkey by by destruct k.
  set (s' := put t' (upd_bufs <[b := held_buf A k]> s)) in *.
  eapply bc_rep_eq; [apply (rep_update t0 s A b (held_buf A k) s' Hrep Hb Hc)|]; rewrite ?Hkey; try done.
  - split; [by apply (content_length t0 s)|]. right. split; [by rewrite Hkey|]. by left.
  - apply key_ok_dev. by rewrite Hkey.
  - intros d. change (disk s') with (disk s). rewrite <- (br_disk t0 s A Hrep). apply (br_block t0 s A Hrep).
  - change (dwrites s') with (dwrites s). rewrite <- (br_log t0 s A Hrep). apply (br_writes t0 s A Hrep).
  - unfold d_acquire, live_upd. simpl. rewrite <- (br_disk t0 s A Hrep), <- (br_log t0 s A Hrep).
    f_equal; [by rewrite Hkey|].
    pose proof (free_bufs_upd s s' b (held_buf A k) Hb eq_refl) as Hf. simpl in Hf.
    rewrite (br_free t0 s A Hrep). rewrite (br_free t0 s A Hrep) in Hcan.
    destruct (d_live A !! k) as [[b' v']|] eqn:E.
    + destruct (rep_live_ok t0 s A k b' v' Hrep E) as (Hb' & Hv' & Hkv & _ & _ & _ & _ & Hl).
      assert (b' = b) as -> by (apply Hu; congruence). rewrite Hv', Hl in Hf. simpl in Hf. lia.
    + destruct (is_live (buf_look s b)) eqn:El; simpl in Hf; [|lia].
      destruct Hold as [Hold|?]; [|done]. exfalso.
      assert (d_live A !! k = Some (b, buf_look s b)); [|congruence]. by apply (br_live t0 s A Hrep).
Qed.

Section Holder.
Context (t0 : th_state) (s : bc_state) (A : bdev) (k : Z * Z) (b : Z) (v : buf).
Context (Hrep : bc_rep t0 s A) (Hk : d_live A !! k = Some (b, v)).

Lemma live_update v' s' D :
  bc_calm t0 s' → bufs s' = <[b := v']> (bufs s) → b_key v' = k → length (b_data v') = 512%nat →
  B_VALID v' = true → disk s' = D → (D = disk s ∨ D = <[k := b_data v']> (disk s)) →
  (dwrites s' = dwrites s ∨ dwrites s' = (k, b_data v') :: dwrites s) →
  (is_live v' = false → b_data v' = default block0 (D !! k)) →
  bc_rep t0 s' {| d_disk := D; d_log := dwrites s'; d_live := live_upd b v' (d_live A);
                  d_free := (d_free A + Nat.b2n (negb (is_live v')))%nat |}.
Proof.
  intros Hc Hbufs Hkey Hlen Hval HD Hcase Hwr Hsync.
  destruct (rep_live_ok t0 s A k b v Hrep Hk) as (Hb & Hv & Hkv & Hd & _ & Hok & _ & Hl).
  pose proof (free_bufs_upd s s' b v' Hb Hbufs) as Hf. rewrite Hv, Hl in Hf. simpl in Hf.
  eapply bc_rep_eq; [apply (rep_update t0 s A b v' s' Hrep Hb Hc Hbufs)|]; rewrite ?Hkey, ?HD; try done.
  - split; [done|]. right. rewrite Hkey. tauto.
  - apply key_ok_dev. by rewrite Hkey.
  - left. congruence.
  - intros b' Hb' Hk'. symmetry. apply (br_uniq t0 s A Hrep); congruence.
  - intros k' Hk'. destruct Hcase as [-> | ->]; [done|]. by apply lookup_insert_ne.
  - intros d. destruct Hcase as [-> | ->].
    + rewrite <- (br_disk t0 s A Hrep). apply (br_block t0 s A Hrep).
    + rewrite lookup_insert_eq. by intros [= <-].
  - pose proof (br_writes t0 s A Hrep) as Hw. rewrite (br_log t0 s A Hrep) in Hw.
    destruct Hwr as [-> | ->]; [done|]. by constructor.
  - tauto.
  - f_equal. rewrite (br_free t0 s A Hrep). lia.
Qed.

Lemma buf_data_run : buf_data b s = Ok (b_data v) s.
Proof.
  destruct (rep_live_ok t0 s A k b v Hrep Hk) as (Hb & Hv & _).
  unfold buf_data. by rewrite (bind_Ok _ _ _ _ _ (buf_get_Ok s b Hb)), Hv.
Qed.

Lemma set_update v' s' :
  bc_calm t0 s' → bufs s' = <[b := v']> (bufs s) → b_key v' = k → length (b_data v') = 512%nat →
  B_VALID v' = true → is_live v' = true → disk s' = disk s → dwrites s' = dwrites s →
  bc_rep t0 s' (d_set k b v' A).
Proof.
  intros Hc Hbufs Hkey Hlen Hval Hl HD HL.
  eapply bc_rep_eq; [apply (live_update v' s' (disk s)); try done; [by left|by left|congruence]|].
  unfold live_upd, d_set. rewrite Hl, Hkey, HL, (br_disk t0 s A Hrep), (br_log t0 s A Hrep).
  f_equal. simpl. lia.
Qed.

Lemma buf_set_data_run d :
  length d = 512%nat →
  ∃ s', buf_set_data b d s = Ok () s' ∧ bc_rep t0 s' (d_set k b (with_data d v) A).
Proof.
  intros Hd. destruct (rep_live_ok t0 s A k b v Hrep Hk) as (Hb & Hv & Hkv & _ & Hval & _ & _ & Hl).
  unfold buf_set_data. rewrite (bind_Ok _ _ _ _ _ (buf_get_Ok s b Hb)), (buf_put_Ok s b _ Hb), Hv.
  eexists. split; [done|]. apply set_update; try done. by apply bc_calm_bufs, (br_calm t0 s A).
Qed.

Lemma buf_set_dirty_run :
  ∃ s', buf_set_dirty b s = Ok () s' ∧ bc_rep t0 s' (d_set k b (with_dirty true v) A).
Proof.
  destruct (rep_live_ok t0 s A k b v Hrep Hk) as (Hb & Hv & Hkv & _ & Hval & _ & Hlen & Hl).
  unfold buf_set_dirty. rewrite (bind_Ok _ _ _ _ _ (buf_get_Ok s b Hb)), (buf_put_Ok s b _ Hb), Hv.
  eexists. split; [done|]. apply set_update; try done; [by apply bc_calm_bufs, (br_calm t0 s A)|].
  unfold is_live. apply orb_true_r.
Qed.

Lemma bufcache_write_run :
  B_BUSY v = true →
  ∃ s', bufcache_write b s = Ok () s' ∧ bc_rep t0 s' (d_write k b v A).
Proof.
  intros Hbz. destruct (rep_live_ok t0 s A k b v Hrep Hk) as (Hb & Hv & Hkv & _ & Hval & Hok & Hlen & Hl).
  unfold bufcache_write. rewrite (bind_Ok _ _ _ _ _ (buf_get_Ok s b Hb)), Hv, Hbz. cbn [negb].
  rewrite (bind_Ok _ _ _ _ _ (buf_put_Ok s b _ Hb)).
  destruct (ide_rw_run t0 (upd_bufs <[b := with_dirty true v]> s) b (with_dirty true v)) as (t' & Hr & Hc);
    [by apply bc_calm_bufs, (br_calm t0 s A)|done|apply alook_insert_eq|done|apply andb_false_r|].
  rewrite flushed_key in Hr, Hc by (try done; by rewrite <- Hkv in Hok).
  change (b_key (with_dirty true v)) with (b_key v) in Hr, Hc. rewrite Hkv in Hr, Hc.
  eexists. split; [exact Hr|].
  eapply bc_rep_eq; [eapply (live_update (synced (b_data v) v) _ (<[k := b_data v]> (disk s)))|].
  - exact Hc.
  - simpl. by rewrite insert_insert_eq.
  - done.
  - done.
  - done.
  - simpl. by destruct k.
  - by right.
  - right. simpl. by destruct k.
  - unfold is_live. simpl. by rewrite Hbz.
  - unfold live_upd, d_write, is_live. simpl. rewrite Hbz. simpl.
    rewrite <- (br_disk t0 s A Hrep), <- (br_log t0 s A Hrep).
    replace (b_key (synced _ v)) with k by done. f_equal; [by destruct k|lia].
Qed.

Lemma release_calm t' l :
  bc_calm t0 s → th_keeps t0 t' → (∃ a, sched_rep t' a) → l ≡ₚ lru s →
  bc_calm t0 (put t' (upd_bufs <[b := with_busy false v]> (set_lru l s))).
Proof. intros [] ?? Hl. split; try done. simpl. by rewrite Hl. Qed.

Lemma bufcache_release_bufs :
  B_BUSY v = true →
  ∃ (t' : th_state) l, let s' := put t' (upd_bufs <[b := with_busy false v]> (set_lru l s)) in
    bufcache_release b s = Ok () s' ∧ bc_calm t0 s'.
Proof.
  intros Hbz. destruct (rep_live_ok t0 s A k b v Hrep Hk) as (Hb & Hv & _).
  pose proof (br_calm t0 s A Hrep) as Hcalm.
  unfold bufcache_release. rewrite (bind_Ok _ _ _ _ _ (buf_get_Ok s b Hb)), Hv, Hbz. cbn [negb].
  rewrite (bind_Ok _ _ _ _ _ (spinlock_acquire_free bc_lock set_bc_lock s (calm_lock t0 s Hcalm))).
  kstep. kstep. rewrite (bind_Ok _ _ _ _ _ (buf_get_Ok _ b Hb)), (bind_Ok _ _ _ _ _ (buf_put_Ok _ b _ Hb)).
  destruct (th_keeps_wakeup t0 (bc_th s) (ChBuf b) (calm_th t0 s Hcalm) (calm_sched t0 s Hcalm))
    as (t' & Hw & Hkeep & Hsr).
  erewrite bind_Ok; [|eapply (zoom_Ok (S:=bc_state)); exact Hw].
  eexists t', _. split.
  - unfold spinlock_release. rewrite modify_Ok. f_equal.
    unfold put, bc_th_lens, upd_bufs, set_lru, set_bc_lock, buf_look in *. simpl. rewrite Hv.
    rewrite spinlock_release_free, <- (calm_lock t0 s Hcalm). done.
  - apply release_calm; [done..|]. cbn [lru set_bc_lock].
    pose proof (calm_lru t0 s Hcalm) as Hlru.
    assert (NoDup (lru s)) as Hnd by (rewrite Hlru; apply NoDup_seqZ).
    assert (b ∈ lru s) as Hin by (rewrite Hlru; apply elem_of_seqZ; lia).
    apply elem_of_Permutation in Hin as [l Hl]. rewrite Hl in Hnd |- *.
    apply NoDup_cons in Hnd as [Hnb _]. constructor. rewrite filter_cons_False by tauto.
    clear -Hnb. induction l as [|x l IH]; [done|]. rewrite not_elem_of_cons in Hnb.
    rewrite filter_cons_True by naive_solver. constructor. tauto.
Qed.

Lemma bufcache_release_dirty :
  B_BUSY v = true → B_DIRTY v = true →
  ∃ s', bufcache_release b s = Ok () s' ∧ bc_rep t0 s' (d_set k b (with_busy false v) A).
Proof.
  intros Hbz Hd. destruct (bufcache_release_bufs Hbz) as (t' & l & Hr & Hc).
  destruct (rep_live_ok t0 s A k b v Hrep Hk) as (Hb & Hv & Hkv & _ & Hval & _ & Hlen & Hl).
  eexists. split; [exact Hr|]. by apply set_update.
Qed.

Lemma bufcache_release_clean :
  B_BUSY v = true → B_DIRTY v = false → b_data v = d_look A k →
  ∃ s', bufcache_release b s = Ok () s' ∧ bc_rep t0 s' (d_drop k A).
Proof.
  intros Hbz Hd Hdata. destruct (bufcache_release_bufs Hbz) as (t' & l & Hr & Hc).
  destruct (rep_live_ok t0 s A k b v Hrep Hk) as (Hb & Hv & Hkv & _ & Hval & _ & Hlen & Hl).
  eexists. split; [exact Hr|].
  assert (is_live (with_busy false v) = false) as Hl' by exact Hd.
  eapply bc_rep_eq; [apply (live_update (with_busy false v) _ (disk s)); try done; [by left|by left|]|].
  - intros _. unfold d_look in Hdata. by rewrite (br_disk t0 s A Hrep) in Hdata.
  - unfold live_upd, d_drop. rewrite Hl'. change (b_key (with_busy false v)) with (b_key v).
    rewrite Hkv, (br_disk t0 s A Hrep), (br_log t0 s A Hrep). f_equal. simpl. lia.
Qed.
End Holder.

(** ** Sequences of calls

    A client that keeps the buffers it was given.  The specification forgets which
    buffer holds a sector: a sector is held or not, pinned or not, and has contents. *)

Inductive dop :=
  | DRead (k : Z * Z)
  | DSet (k : Z * Z) (d : list Z)
  | DWrite (k : Z * Z)
  | DPin (k : Z * Z)
  | DRelease (k : Z * Z).

Record vdev := {
  v_disk : gmap (Z * Z) (list Z);
  v_live : gmap (Z * Z) (bool * bool * list Z);
  v_free : nat
}.

Definition v_look (V : vdev) (k : Z * Z) : list Z := default block0 (v_disk V !! k).

Definition with_live (f : gmap (Z * Z) (bool * bool * list Z) → gmap (Z * Z) (bool * bool * list Z))
    (V : vdev) : vdev :=
  {| v_disk := v_disk V; v_live := f (v_live V); v_free := v_free V |}.

(** One call on the specification; [None] when the client may not make it. *)
Definition dev_op (o : dop) (V : vdev) : option (list Z * vdev) :=
  match o with
  | DRead k =>
      if decide (key_ok k) then
        match v_live V !! k with
        | Some (true, _, _) => None
        | Some (false, f, d) => Some (d, with_live <[k := (true, f, d)]> V)
        | None =>
            match v_free V with
            | O => None
            | S n => Some (v_look V k,
                {| v_disk := v_disk V; v_live := <[k := (true, false, v_look V k)]> (v_live V);
                   v_free := n |})
            end
        end
      else None
  | DSet k d =>
      match v_live V !! k with
      | Some (true, f, _) =>
          if decide (length d = 512%nat) then Some ([], with_live <[k := (true, f, d)]> V) else None
      | _ => None
      end
  | DWrite k =>
      match v_live V !! k with
      | Some (true, f, d) =>
          Some ([], {| v_disk := <[k := d]> (v_disk V); v_live := <[k := (true, false, d)]> (v_live V);
                       v_free := v_free V |})
      | _ => None
      end
  | DPin k =>
      match v_live V !! k with
      | Some (true, f, d) => Some ([], with_live <[k := (true, true, d)]> V)
      | _ => None
      end
  | DRelease k =>
      match v_live V !! k with
      | Some (true, true, d) => Some ([], with_live <[k := (false, true, d)]> V)
      | Some (true, false, d) =>
          if decide (d = v_look V k) then
            Some ([], {| v_disk := v_disk V; v_live := delete k (v_live V); v_free := S (v_free V) |})
          else None
      | _ => None
      end
  end.

Fixpoint dev_ops (os : list dop) (V : vdev) : option (list (list Z) * vdev) :=
  match os with
  | [] => Some ([], V)
  | o :: os =>
      match dev_op o V with
      | Some (d, V1) =>
          match dev_ops os V1 with Some (ds, V2) => Some (d :: ds, V2) | None => None end
      | None => None
      end
  end.

(** The same calls on the cache, with the table of buffers the client holds. *)
Definition cache_op (o : dop) (h : gmap (Z * Z) Z) : M bc_state (list Z * gmap (Z * Z) Z) :=
  match o with
  | DRead k => b ← bufcache_read k.1 k.2; d ← buf_data b; mret (d, <[k := b]> h)
  | DSet k d => b ← deref (h !! k); buf_set_data b d ;; mret ([], h)
  | DWrite k => b ← deref (h !! k); bufcache_write b ;; mret ([], h)
  | DPin k => b ← deref (h !! k); buf_set_dirty b ;; mret ([], h)
  | DRelease k => b ← deref (h !! k); bufcache_release b ;; mret ([], h)
  end.

Fixpoint cache_ops (os : list dop) (h : gmap (Z * Z) Z) : M bc_state (list (list Z)) :=
  match os with
  | [] => mret []
  | o :: os => '(d, h') ← cache_op o h; ds ← cache_ops os h'; mret (d :: ds)
  end.

Definition seen (p : Z * buf) : bool * bool * list Z := (B_BUSY p.2, B_DIRTY p.2, b_data p.2).

Definition vdev_of (A : bdev) : vdev :=
  {| v_disk := d_disk A; v_live := seen <$> d_live A; v_free := d_free A |}.

Definition holds (h : gmap (Z * Z) Z) (A : bdev) : Prop :=
  ∀ k b v, d_live A !! k = Some (b, v) → B_BUSY v = true → h !! k = Some b.

Lemma holds_set h A k b v v' D L n :
  holds h A → d_live A !! k = Some (b, v) → B_BUSY v = true →
  holds h {| d_disk := D; d_log := L; d_live := <[k := (b, v')]> (d_live A); d_free := n |}.
Proof.
  intros Hh Hk Hbz k' b' v1. simpl. rewrite lookup_insert_Some.
  intros [[<- [= <- <-]]|[_ H1]] H2; [by apply (Hh k b v)|by apply (Hh k' b' v1)].
Qed.

Lemma seen_lookup A k x :
  v_live (vdev_of A) !! k = Some x ↔ ∃ b v, d_live A !! k = Some (b, v) ∧ x = seen (b, v).
Proof.
  simpl. rewrite lookup_fmap_Some. split; [intros ([b v] & <- & ?); eauto|].
  intros (b & v & ? & ->). eauto.
Qed.

Lemma cache_read_op t0 s A h k d V' :
  bc_rep t0 s A → holds h A → dev_op (DRead k) (vdev_of A) = Some (d, V') →
  ∃ h' s' A', cache_op (DRead k) h s = Ok (d, h') s' ∧ bc_rep t0 s' A' ∧ holds h' A' ∧ vdev_of A' = V'.
Proof.
  intros Hrep Hh Hd. unfold dev_op in Hd. destruct (decide (key_ok k)) as [Hk|]; [|done].
  assert (can_read A k ∧ content A k = d ∧
          ∀ b, vdev_of (d_acquire k b A) = V') as (Hcan & Hcont & HV).
  { unfold can_read, content, d_acquire, vdev_of, held_buf, content. simpl in *.
    rewrite lookup_fmap in Hd. destruct (d_live A !! k) as [[b v]|] eqn:E; simpl in Hd.
    - destruct (rep_live_ok t0 s A k b v Hrep E) as (_ & _ & _ & _ & _ & _ & _ & Hl).
      unfold seen in Hd. simpl in Hd. destruct (B_BUSY v) eqn:Eb; [done|]. injection Hd as <- <-.
      split; [done|]. split; [done|]. intros b'. rewrite fmap_insert. unfold with_live. simpl.
      unfold is_live in Hl. rewrite Eb in Hl. simpl in Hl. by rewrite Hl.
    - destruct (d_free A) as [|n] eqn:Ef; [done|]. injection Hd as <- <-.
      split; [split; [done|lia]|]. split; [done|]. intros b'. by rewrite fmap_insert. }
  destruct (bufcache_read_run t0 s A k Hrep Hcan) as (b & s' & Hr & Hrep').
  assert (d_live (d_acquire k b A) !! k = Some (b, held_buf A k)) as Hl by apply lookup_insert_eq.
  eexists _, s', _. split_and!; [|exact Hrep'| |apply HV].
  - unfold cache_op. rewrite (bind_Ok _ _ _ _ _ Hr).
    rewrite (bind_Ok _ _ _ _ _ (buf_data_run t0 s' _ k b _ Hrep' Hl)). simpl. by rewrite Hcont.
  - intros k' b' v. simpl. rewrite !lookup_insert_Some.
    intros [[<- [= <- <-]]|[Hne H1]] H2; [by left|]. right. split; [done|]. by apply (Hh k' b' v).
Qed.

(** A call on a sector the client holds. *)
Lemma held_op A h k f d :
  holds h A → v_live (vdev_of A) !! k = Some (true, f, d) →
  ∃ b v, d_live A !! k = Some (b, v) ∧ h !! k = Some b ∧ B_BUSY v = true ∧ B_DIRTY v = f ∧
         b_data v = d.
Proof.
  intros Hh Hk. apply seen_lookup in Hk as (b & v & Hk & Hs). injection Hs as Hs1 Hs2 Hs3.
  symmetry in Hs1. exists b, v. split; [done|]. split; [|done]. by apply (Hh k b v).
Qed.

Lemma cache_op_run t0 s A h o d V' :
  bc_rep t0 s A → holds h A → dev_op o (vdev_of A) = Some (d, V') →
  ∃ h' s' A', cache_op o h s = Ok (d, h') s' ∧ bc_rep t0 s' A' ∧ holds h' A' ∧ vdev_of A' = V'.
Proof.
  intros Hrep Hh Hd. destruct o as [k|k d0|k|k|k]; [by eapply cache_read_op|..]; unfold dev_op in Hd;
    destruct (v_live (vdev_of A) !! k) as [[[[] f] d1]|] eqn:E; try done;
    destruct (held_op A h k f d1 Hh E) as (b & v & Hk & Hhk & Hbz & Hf & Hdata); unfold cache_op;
    rewrite Hhk; change (deref (Some b)) with (mret b : M bc_state Z);
    rewrite (bind_Ok _ _ _ _ _ (ret_Ok _ _)).
  - destruct (decide _) as [Hlen|]; [|done]. injection Hd as <- <-.
    destruct (buf_set_data_run t0 s A k b v Hrep Hk d0 Hlen) as (s' & Hr & Hrep').
    rewrite (bind_Ok _ _ _ _ _ Hr). eexists h, s', _. split_and!; [done|exact Hrep'|by eapply holds_set|].
    unfold vdev_of, with_live. simpl. rewrite fmap_insert. unfold seen. simpl. by rewrite Hbz, Hf.
  - injection Hd as <- <-.
    destruct (bufcache_write_run t0 s A k b v Hrep Hk Hbz) as (s' & Hr & Hrep').
    rewrite (bind_Ok _ _ _ _ _ Hr). eexists h, s', _. split_and!; [done|exact Hrep'|by eapply holds_set|].
    unfold vdev_of, with_live. simpl. rewrite fmap_insert. unfold seen. simpl. by rewrite Hbz, Hdata.
  - injection Hd as <- <-.
    destruct (buf_set_dirty_run t0 s A k b v Hrep Hk) as (s' & Hr & Hrep').
    rewrite (bind_Ok _ _ _ _ _ Hr). eexists h, s', _. split_and!; [done|exact Hrep'|by eapply holds_set|].
    unfold vdev_of, with_live. simpl. rewrite fmap_insert. unfold seen. simpl. by rewrite Hbz, Hdata.
  - destruct f.
    + injection Hd as <- <-.
      destruct (bufcache_release_dirty t0 s A k b v Hrep Hk Hbz Hf) as (s' & Hr & Hrep').
      rewrite (bind_Ok _ _ _ _ _ Hr). eexists h, s', _. split_and!; [done|exact Hrep'|by eapply holds_set|].
      unfold vdev_of, with_live. simpl. rewrite fmap_insert. unfold seen. simpl. by rewrite Hf, Hdata.
    + destruct (decide _) as [Hlk|]; [|done]. injection Hd as <- <-.
      destruct (bufcache_release_clean t0 s A k b v Hrep Hk Hbz Hf) as (s' & Hr & Hrep'); [exact (eq_trans Hdata Hlk)|].
      rewrite (bind_Ok _ _ _ _ _ Hr). eexists h, s', _. split_and!; [done|exact Hrep'| |].
      * intros k' b' v'. simpl. rewrite lookup_delete_Some. intros [_ H1] H2. by apply (Hh k' b' v').
      * unfold vdev_of. simpl. by rewrite fmap_delete.
Qed.

(** ** The cache at boot *)

Definition buf_unused : buf :=
  {| B_BUSY := false; B_VALID := false; B_DIRTY := false; b_dev := -1; b_sector := 0;
     b_data := block0 |}.

(** Before [bufcache_init] the static data is zero; the disk has been found. *)
Definition bc_boot (t : th_state) (lk : spinlock_t) (D : gmap (Z * Z) (list Z)) : bc_state :=
  {| bc_th := t; bc_lock := lk; bufs := ∅; lru := []; ide_lk := spinlock_init; idequeue := [];
     havedisk1 := true; bad := ∅; disk := D; dwrites := [] |}.

Definition fresh_dev (D : gmap (Z * Z) (list Z)) : bdev :=
  {| d_disk := D; d_log := []; d_live := ∅; d_free := 10 |}.

Lemma bufcache_init_run t a lk D :
  sched_rep t a → (∀ k d, D !! k = Some d → length d = 512%nat) →
  ∃ s, bufcache_init (bc_boot t lk D) = Ok () s ∧ bc_rep t s (fresh_dev D).
Proof.
  intros Hsr HD. unfold bufcache_init. kstep.
  destruct (for_range_inv (λ i s', ∃ m,
      s' = set_lru (reverse (seqZ 0 i)) (upd_bufs (λ _, m) (bc_boot t spinlock_init D)) ∧
      ∀ b, alook buf_zero m b = if decide (0 <= b < i) then buf_unused else buf_zero)
    (λ b, v ← buf_get b;
      buf_put b {| B_BUSY := B_BUSY v; B_VALID := B_VALID v; B_DIRTY := B_DIRTY v;
                   b_dev := -1; b_sector := b_sector v; b_data := b_data v |} ;;
      l ← gets lru; modify (set_lru (b :: l))) 0 NBUF (set_bc_lock spinlock_init (bc_boot t lk D)))
    as (s & Hr & m & -> & Hm).
  - unfold NBUF; lia.
  - exists ∅. split; [done|]. intros b. rewrite decide_False by lia. done.
  - intros i s' Hi (m & -> & Hm). rewrite (bind_Ok _ _ _ _ _ (buf_get_Ok _ i Hi)).
    rewrite (bind_Ok _ _ _ _ _ (buf_put_Ok _ i _ Hi)). kstep. rewrite modify_Ok.
    assert (alook buf_zero m i = buf_zero) as Hz by (rewrite Hm; by rewrite decide_False by lia).
    eexists. split; [done|]. exists (<[i := buf_unused]> m). split.
    + rewrite (seqZ_app 0 i 1) by lia. rewrite reverse_app.
      unfold buf_look. simpl. by rewrite Hz.
    + intros b. rewrite buf_look_insert, Hm. repeat case_decide; try lia; done.
  - exists (set_lru (reverse (seqZ 0 NBUF)) (upd_bufs (λ _, m) (bc_boot t spinlock_init D))).
    split; [exact Hr|]. clear Hr.
    assert (∀ b, 0 <= b < NBUF → buf_look (set_lru (reverse (seqZ 0 NBUF))
      (upd_bufs (λ _, m) (bc_boot t spinlock_init D))) b = buf_unused) as Hl.
    { intros b Hb. unfold buf_look. simpl. rewrite Hm. by rewrite decide_True. }
    split; try done.
    + split; try done; [apply th_keeps_refl|by exists a|]. simpl. apply reverse_Permutation.
    + simpl. unfold free_bufs.
      assert (∀ l : list Z, (∀ b, b ∈ l → 0 <= b < NBUF) → filter (λ b, is_live (buf_look (set_lru
        (reverse (seqZ 0 NBUF)) (upd_bufs (λ _, m) (bc_boot t spinlock_init D))) b) = false) l = l) as Hfil.
      { induction l as [|b l IH]; [done|]. intros Hb. rewrite filter_cons_True.
        - f_equal. apply IH. intros b' Hb'. apply Hb. by right.
        - rewrite Hl; [done|]. apply Hb. by left. }
      rewrite Hfil; [done|]. intros b Hb. apply elem_of_seqZ in Hb. lia.
    + intros b Hb. rewrite Hl by done. split; [done|]. by left.
    + intros b b' Hb _. rewrite Hl by done. done.
    + intros k b v. simpl. rewrite lookup_empty. split; [done|]. intros (Hb & <- & _ & Hv).
      by rewrite Hl in Hv.
    + intros b Hb. rewrite Hl by done. done.
Qed.

(** The state that [bufcache_init] leaves. *)
Definition bc_ready (t : th_state) (D : gmap (Z * Z) (list Z)) : bc_state :=
  match bufcache_init (bc_boot t locked D) with Ok _ s => s | _ => bc_boot t locked D end.

Lemma bc_ready_rep t a D :
  sched_rep t a → (∀ k d, D !! k = Some d → length d = 512%nat) →
  bc_rep t (bc_ready t D) (fresh_dev D).
Proof.
  intros Hsr HD. destruct (bufcache_init_run t a locked D Hsr HD) as (s & Hr & Hrep).
  unfold bc_ready. by rewrite Hr.
Qed.

(** C7: the buffer cache implements a block device.  Any sequence of reads,
    modifications, writes, pins and releases that the specification admits runs on the
    cache without a panic, returns the same contents and leaves a cache whose disk,
    held and pinned sectors are those of the specification. *)
Theorem cache_refines_device t0 s A os ds V :
  bc_rep t0 s A → d_live A = ∅ → dev_ops os (vdev_of A) = Some (ds, V) →
  ∃ s' A', cache_ops os ∅ s = Ok ds s' ∧ bc_rep t0 s' A' ∧ vdev_of A' = V.
Proof.
  intros Hrep Hlive. assert (holds ∅ A) as Hh by (intros k b v; by rewrite Hlive, lookup_empty).
  clear Hlive. revert s A Hrep Hh ds. generalize (∅ : gmap (Z * Z) Z).
  induction os as [|o os IH]; intros h s A Hrep Hh ds; simpl.
  - intros [= <- <-]. by exists s, A.
  - destruct (dev_op o (vdev_of A)) as [[d V1]|] eqn:E; [|done].
    destruct (cache_op_run t0 s A h o d V1 Hrep Hh E) as (h1 & s1 & A1 & Hr & Hrep1 & Hh1 & <-).
    destruct (dev_ops os (vdev_of A1)) as [[ds1 V2]|] eqn:E2; [|done]. intros [= <- <-].
    destruct (IH h1 s1 A1 Hrep1 Hh1 ds1 E2) as (s2 & A2 & Hr2 & Hrep2 & HV).
    exists s2, A2. rewrite (bind_Ok _ _ _ _ _ Hr). cbv beta iota. rewrite (bind_Ok _ _ _ _ _ Hr2). done.
Qed.

(** Two sectors are read, one is changed and written, the other is pinned. *)
Lemma cache_refines_device_witness :
  ∃ s' A',
    cache_ops [DRead (1, 5); DSet (1, 5) (replicate 512 7); DWrite (1, 5); DRelease (1, 5);
               DRead (1, 6); DPin (1, 6); DRelease (1, 6); DRead (1, 5)] ∅
      (bc_ready three ∅)
    = Ok [block0; []; []; []; block0; []; []; replicate 512 7] s' ∧
    bc_rep three s' A' ∧
    vdev_of A' = {| v_disk := {[ (1, 5) := replicate 512 7 ]};
                    v_live := {[ (1, 5) := (true, false, replicate 512 7);
                                 (1, 6) := (false, true, block0) ]};
                    v_free := 8 |}.
Proof.
  apply (cache_refines_device three (bc_ready three ∅) (fresh_dev ∅)).
  - apply bc_ready_rep with (a := three_a); [apply three_rep|done].
  - reflexivity.
  - vm_compute. reflexivity.
Defined.
