(* ===== verification/Log.v ===== *)
(** * The log (kern/fs/log.c) and the super block (kern/fs/block.c)

    A transaction writes its blocks to the log area first; the write of the header
    commits it, and recovery at boot installs a committed transaction again.  The main
    theorem is that a crash at any point of a transaction leaves a disk from which
    recovery restores either all of its blocks or none. *)

From S2P Require Import Prelude Spinlock Mboot PMem Container PageTable TCB TQueue Thread Sched.
From S2P Require Import BufCache.

(** ** Bytes and words of a block *)

Definition get8 (d : list Z) (off : Z) : Z := d !!! Z.to_nat off.
Definition put8 (off v : Z) (d : list Z) : list Z := <[Z.to_nat off := u8 v]> d.

Definition get16 (d : list Z) (off : Z) : Z := get8 d off + 256 * get8 d (off + 1).
Definition put16 (off v : Z) (d : list Z) : list Z :=
  put8 (off + 1) (Z.shiftr v 8) (put8 off v d).

Definition get32 (d : list Z) (off : Z) : Z :=
  get8 d off + 256 * get8 d (off + 1) + 65536 * get8 d (off + 2) + 16777216 * get8 d (off + 3).
Definition put32 (off v : Z) (d : list Z) : list Z :=
  put8 (off + 3) (Z.shiftr v 24) (put8 (off + 2) (Z.shiftr v 16)
    (put8 (off + 1) (Z.shiftr v 8) (put8 off v d))).

(** ** State *)

(** [lh_n] and [lh_sector] are the fields of [log.lh]. *)
Record log_t := {
  lg_lock : spinlock_t;
  lg_start : Z; lg_size : Z; lg_busy : Z; lg_dev : Z;
  lh_n : Z; lh_sector : gmap Z Z
}.

Definition log_zero : log_t :=
  {| lg_lock := {| lock_holder := 0; lock := 0 |}; lg_start := 0; lg_size := 0; lg_busy := 0;
     lg_dev := 0; lh_n := 0; lh_sector := ∅ |}.

Record lg_state := { lg_bc : bc_state; log : log_t }.

#[global, program] Instance lg_bc_lens : Lens lg_state bc_state := {|
  view := lg_bc;
  put c s := {| lg_bc := c; log := log s |}
|}.
Next Obligation. done. Qed.
Next Obligation. by intros []. Qed.
Next Obligation. done. Qed.

#[global, program] Instance lg_th_lens : Lens lg_state th_state := {|
  view s := bc_th (lg_bc s);
  put t s := {| lg_bc := put t (lg_bc s); log := log s |}
|}.
Next Obligation. done. Qed.
Next Obligation. by intros [[]]. Qed.
Next Obligation. done. Qed.

Definition set_log (l : log_t) (s : lg_state) : lg_state := {| lg_bc := lg_bc s; log := l |}.

Definition set_lg_lock (lk : spinlock_t) (s : lg_state) : lg_state :=
  let l := log s in
  set_log {| lg_lock := lk; lg_start := lg_start l; lg_size := lg_size l; lg_busy := lg_busy l;
             lg_dev := lg_dev l; lh_n := lh_n l; lh_sector := lh_sector l |} s.
Definition set_lg_busy (v : Z) (s : lg_state) : lg_state :=
  let l := log s in
  set_log {| lg_lock := lg_lock l; lg_start := lg_start l; lg_size := lg_size l; lg_busy := v;
             lg_dev := lg_dev l; lh_n := lh_n l; lh_sector := lh_sector l |} s.
Definition set_lh_n (v : Z) (s : lg_state) : lg_state :=
  let l := log s in
  set_log {| lg_lock := lg_lock l; lg_start := lg_start l; lg_size := lg_size l; lg_busy := lg_busy l;
             lg_dev := lg_dev l; lh_n := v; lh_sector := lh_sector l |} s.
Definition upd_lh_sector (f : gmap Z Z → gmap Z Z) (s : lg_state) : lg_state :=
  let l := log s in
  set_log {| lg_lock := lg_lock l; lg_start := lg_start l; lg_size := lg_size l; lg_busy := lg_busy l;
             lg_dev := lg_dev l; lh_n := lh_n l; lh_sector := f (lh_sector l) |} s.
Definition set_geometry (dev start size : Z) (s : lg_state) : lg_state :=
  let l := log s in
  set_log {| lg_lock := lg_lock l; lg_start := start; lg_size := size; lg_busy := lg_busy l;
             lg_dev := dev; lh_n := lh_n l; lh_sector := lh_sector l |} s.

Definition lg_lkref : lockref lg_state := {| lk_get s := lg_lock (log s); lk_set := set_lg_lock |}.
Definition log_acquire : M lg_state () := spinlock_acquire (lk_get lg_lkref) (lk_set lg_lkref).
Definition log_release : M lg_state () := spinlock_release (lk_get lg_lkref) (lk_set lg_lkref).

(** ** The super block *)

Record superblock := { sb_size : Z; sb_nblocks : Z; sb_ninodes : Z; sb_nlog : Z }.

Definition read_superblock (dev : Z) : M bc_state superblock :=
  bp ← bufcache_read dev 1;
  d ← buf_data bp;
  bufcache_release bp ;;
  mret {| sb_size := get32 d 0; sb_nblocks := get32 d 4; sb_ninodes := get32 d 8;
          sb_nlog := get32 d 12 |}.

(** ** Operations *)

(** One turn of the loop of [install_trans]. *)
Definition install_body (tail : Z) : M lg_state () :=
  l ← gets log;
  lbuf ← zoom (bufcache_read (u32 (lg_dev l)) (u32 (lg_start l + tail + 1)));
  sector ← aget LOGSIZE 0 (λ s, lh_sector (log s)) tail;
  dbuf ← zoom (bufcache_read (u32 (lg_dev l)) (u32 sector));
  d ← zoom (buf_data lbuf);
  zoom (buf_set_data dbuf d) ;;
  zoom (bufcache_write dbuf) ;;
  zoom (bufcache_release lbuf) ;;
  zoom (bufcache_release dbuf).

Definition install_trans : M lg_state () :=
  n ← gets (λ s, lh_n (log s));
  for_range 0 n install_body.

Definition read_head : M lg_state () :=
  l ← gets log;
  b ← zoom (bufcache_read (u32 (lg_dev l)) (u32 (lg_start l)));
  d ← zoom (buf_data b);
  modify (set_lh_n (s32 (get32 d 0))) ;;
  for_range 0 (s32 (get32 d 0)) (λ i,
    aset LOGSIZE upd_lh_sector i (s32 (get32 d (4 + 4 * i)))) ;;
  zoom (bufcache_release b).

Definition write_head : M lg_state () :=
  l ← gets log;
  b ← zoom (bufcache_read (u32 (lg_dev l)) (u32 (lg_start l)));
  d ← zoom (buf_data b);
  zoom (buf_set_data b (put32 0 (lh_n l) d)) ;;
  for_range 0 (lh_n l) (λ i,
    sector ← aget LOGSIZE 0 (λ s, lh_sector (log s)) i;
    d ← zoom (buf_data b);
    zoom (buf_set_data b (put32 (4 + 4 * i) sector d))) ;;
  zoom (bufcache_write b) ;;
  zoom (bufcache_release b).

Definition recover_from_log : M lg_state () :=
  read_head ;;
  install_trans ;;
  modify (set_lh_n 0) ;;
  write_head.

Definition log_init : M lg_state () :=
  modify (set_lg_lock spinlock_init) ;;
  sb ← zoom (read_superblock ROOTDEV);
  modify (set_geometry ROOTDEV (s32 (sb_size sb - sb_nlog sb)) (s32 (sb_nlog sb))) ;;
  recover_from_log.

Definition begin_trans : M lg_state () :=
  log_acquire ;;
  busy ← gets (λ s, lg_busy (log s));
  (if bool_decide (busy ≠ 0) then thread_sleep ChLog (Some lg_lkref) else mret ()) ;;
  modify (set_lg_busy 1) ;;
  log_release.

Definition commit_trans : M lg_state () :=
  n ← gets (λ s, lh_n (log s));
  (if bool_decide (n > 0) then
     write_head ;;
     install_trans ;;
     modify (set_lh_n 0) ;;
     write_head
   else mret ()) ;;
  log_acquire ;;
  modify (set_lg_busy 0) ;;
  zoom (thread_wakeup (Some ChLog)) ;;
  log_release.

(** The search of [log_write]: the first entry from [i] on for the sector, or the end. *)
Fixpoint absorb (fuel : nat) (i : Z) (sectors : gmap Z Z) (sector : Z) : Z :=
  match fuel with
  | O => i
  | S fuel =>
      if bool_decide (u32 (alook 0 sectors i) = sector) then i
      else absorb fuel (i + 1) sectors sector
  end.

Definition log_write (b : Z) : M lg_state () :=
  l ← gets log;
  if bool_decide (lh_n l >= LOGSIZE) || bool_decide (lh_n l >= lg_size l - 1) then kern_panic
  else if bool_decide (lg_busy l = 0) then kern_panic
  else
    v ← zoom (buf_get b);
    let i := absorb (Z.to_nat (lh_n l)) 0 (lh_sector l) (b_sector v) in
    aset LOGSIZE upd_lh_sector i (s32 (b_sector v)) ;;
    lbuf ← zoom (bufcache_read (u32 (b_dev v)) (u32 (lg_start l + i + 1)));
    d ← zoom (buf_data b);
    zoom (buf_set_data lbuf d) ;;
    zoom (bufcache_write lbuf) ;;
    zoom (bufcache_release lbuf) ;;
    (if bool_decide (i = lh_n l) then modify (set_lh_n (i + 1)) else mret ()) ;;
    zoom (buf_set_dirty b).

(** ** Words *)

Lemma get8_put8 d i j v :
  0 <= i < Z.of_nat (length d) → 0 <= j →
  get8 (put8 i v d) j = if decide (i = j) then u8 v else get8 d j.
Proof.
  intros Hi Hj. unfold get8, put8. case_decide as Hc.
  - subst j. by rewrite list_lookup_total_insert_eq by lia.
  - by rewrite list_lookup_total_insert_ne by lia.
Qed.

Lemma length_put8 i v d : length (put8 i v d) = length d.
Proof. apply length_insert. Qed.

Lemma length_put32 i v d : length (put32 i v d) = length d.
Proof. unfold put32. by rewrite !length_put8. Qed.

Lemma bytes_u32 v :
  u8 v + 256 * u8 (Z.shiftr v 8) + 65536 * u8 (Z.shiftr v 16) + 16777216 * u8 (Z.shiftr v 24) = u32 v.
Proof.
  unfold u8, u32, W32. rewrite !Z.shiftr_div_pow2 by lia.
  change (2 ^ 8) with 256. change (2 ^ 16) with (256 * 256). change (2 ^ 24) with (256 * 256 * 256).
  rewrite <- !Z.div_div by lia. Z.div_mod_to_equations. lia.
Qed.

Lemma get32_put32_eq d i v :
  0 <= i → i + 4 <= Z.of_nat (length d) → get32 (put32 i v d) i = u32 v.
Proof.
  intros Hi Hl. rewrite <- bytes_u32. unfold get32, put32.
  repeat (rewrite get8_put8 by (rewrite ?length_put8; lia); first
    [rewrite decide_True by lia | rewrite decide_False by lia]).
  repeat first [rewrite get8_put8 by (rewrite ?length_put8; lia)
               |rewrite decide_True by lia | rewrite decide_False by lia]. done.
Qed.

Lemma get32_put32_ne d i j v :
  0 <= i → 0 <= j → i + 4 <= Z.of_nat (length d) → i + 4 <= j ∨ j + 4 <= i →
  get32 (put32 i v d) j = get32 d j.
Proof.
  intros Hi Hj Hl Hd. unfold get32, put32.
  repeat first [rewrite get8_put8 by (rewrite ?length_put8; lia) | rewrite decide_False by lia]. done.
Qed.

(** The header block with [n] and the sectors put into it. *)
Fixpoint put_sectors (i : Z) (secs : list Z) (d : list Z) : list Z :=
  match secs with
  | [] => d
  | sec :: secs => put_sectors (i + 1) secs (put32 (4 + 4 * i) sec d)
  end.

Definition head_block (secs : list Z) (d : list Z) : list Z :=
  put_sectors 0 secs (put32 0 (Z.of_nat (length secs)) d).

Lemma length_put_sectors i secs d : length (put_sectors i secs d) = length d.
Proof.
  revert i d. induction secs as [|sec secs IH]; intros i d; [done|]. simpl.
  by rewrite IH, length_put32.
Qed.

Lemma put_sectors_app i secs sec d :
  put_sectors i (secs ++ [sec]) d =
  put32 (4 + 4 * (i + Z.of_nat (length secs))) sec (put_sectors i secs d).
Proof.
  revert i d. induction secs as [|x secs IH]; intros i d; simpl; [by rewrite Z.add_0_r|].
  rewrite IH. by replace (i + 1 + Z.of_nat (length secs)) with (i + Z.of_nat (S (length secs))) by lia.
Qed.

Lemma put_sectors_before i secs d j :
  0 <= j → 0 <= i → j + 4 <= 4 + 4 * i → 4 + 4 * (i + Z.of_nat (length secs)) <= Z.of_nat (length d) →
  get32 (put_sectors i secs d) j = get32 d j.
Proof.
  revert i d. induction secs as [|x secs IH]; intros i d Hj Hi Hji Hl; [done|]. simpl in *.
  rewrite IH by (rewrite ?length_put32; lia). apply get32_put32_ne; lia.
Qed.

Lemma put_sectors_get i secs d m sec :
  0 <= i → 4 + 4 * (i + Z.of_nat (length secs)) <= Z.of_nat (length d) →
  secs !! m = Some sec → get32 (put_sectors i secs d) (4 + 4 * (i + Z.of_nat m)) = u32 sec.
Proof.
  revert i d m. induction secs as [|x secs IH]; intros i d m Hi Hl Hm; [done|].
  destruct m as [|m]; simpl in *.
  - injection Hm as ->. rewrite Z.add_0_r, put_sectors_before by (rewrite ?length_put32; lia).
    apply get32_put32_eq; lia.
  - replace (i + Z.of_nat (S m)) with (i + 1 + Z.of_nat m) by lia.
    apply IH; rewrite ?length_put32; [lia|lia|done].
Qed.

Lemma head_block_n secs d :
  length d = 512%nat → (length secs <= 10)%nat → get32 (head_block secs d) 0 = Z.of_nat (length secs).
Proof.
  intros Hd Hl. unfold head_block. rewrite put_sectors_before by (rewrite ?length_put32; lia).
  rewrite get32_put32_eq by lia. apply u32_small. unfold is_u32, W32. lia.
Qed.

Lemma head_block_sector secs d m sec :
  length d = 512%nat → (length secs <= 10)%nat → secs !! m = Some sec → is_u32 sec →
  get32 (head_block secs d) (4 + 4 * Z.of_nat m) = sec.
Proof.
  intros Hd Hl Hm Hs. unfold head_block. replace (Z.of_nat m) with (0 + Z.of_nat m) by lia.
  rewrite (put_sectors_get 0 secs _ m sec) by (rewrite ?length_put32; (lia || done)).
  by apply u32_small.
Qed.

(** ** Runs of the operations *)

Lemma zoom_bc {X} (m : M bc_state X) c l a c' :
  m c = Ok a c' → zoom m {| lg_bc := c; log := l |} = Ok a {| lg_bc := c'; log := l |}.
Proof. intros H. exact (zoom_Ok (S:=lg_state) m {| lg_bc := c; log := l |} a c' H). Qed.

Lemma zoom_bind {X Y} (m : M bc_state X) (f : X → M lg_state Y) c l a c' :
  m c = Ok a c' → (zoom m ≫= f) {| lg_bc := c; log := l |} = f a {| lg_bc := c'; log := l |}.
Proof. intros H. apply bind_Ok. by apply zoom_bc. Qed.

Lemma d_set_set k b v v' A : d_set k b v (d_set k b v' A) = d_set k b v A.
Proof. unfold d_set. simpl. by rewrite insert_insert_eq. Qed.

(** A write of the sector [k] by a caller that held it for the write only. *)
Definition d_stored (k : Z * Z) (d : list Z) (A : bdev) : bdev :=
  {| d_disk := <[k := d]> (d_disk A); d_log := (k, d) :: d_log A; d_live := d_live A;
     d_free := d_free A |}.

(** The header of the log lists the sectors. *)
Record has_sectors (L : log_t) (secs : list Z) : Prop := {
  hs_n : lh_n L = Z.of_nat (length secs);
  hs_len : (length secs <= 10)%nat;
  hs_at m sec : secs !! m = Some sec → alook 0 (lh_sector L) (Z.of_nat m) = sec
}.

(** The log is at the end of the root disk. *)
Record geometry (L : log_t) : Prop := {
  geo_dev : lg_dev L = ROOTDEV;
  geo_start : 0 < lg_start L;
  geo_end : lg_start L + LOGSIZE < 268435456
}.

Definition head_key (L : log_t) : Z * Z := (ROOTDEV, lg_start L).
Definition log_key (L : log_t) (i : Z) : Z * Z := (ROOTDEV, lg_start L + i + 1).

Lemma key_ok_root n : 0 <= n < 268435456 → key_ok (ROOTDEV, n).
Proof. intros Hn. split; [by right|done]. Qed.

Lemma head_key_ok L : geometry L → key_ok (head_key L).
Proof. intros []. apply key_ok_root. unfold LOGSIZE in *. lia. Qed.

Lemma log_key_ok L i : geometry L → 0 <= i < LOGSIZE → key_ok (log_key L i).
Proof. intros [] ?. apply key_ok_root. unfold LOGSIZE in *. lia. Qed.

Lemma u32_key n : 0 <= n < 268435456 → u32 n = n.
Proof. intros ?. apply u32_small. unfold is_u32, W32. lia. Qed.

Lemma d_stored_close k b v A :
  d_live A !! k = None → (0 < d_free A)%nat →
  d_drop k (d_write k b v (d_set k b v (d_acquire k b A))) = d_stored k (b_data v) A.
Proof.
  intros Hk Hf. unfold d_drop, d_write, d_set, d_acquire, d_stored. simpl. rewrite Hk.
  rewrite !insert_insert_eq, delete_insert_eq, delete_id by done. f_equal. lia.
Qed.

Section WriteHead.
Context (t0 : th_state) (L : log_t) (secs : list Z).
Context (Hgeo : geometry L) (Hsecs : has_sectors L secs).

Lemma write_head_loop c A b v d :
  bc_rep t0 c (d_set (head_key L) b v A) → B_BUSY v = true → b_data v = d →
  ∃ c', for_range 0 (lh_n L) (λ i,
      sector ← aget LOGSIZE 0 (λ s, lh_sector (log s)) i;
      d ← zoom (buf_data b);
      zoom (buf_set_data b (put32 (4 + 4 * i) sector d))) {| lg_bc := c; log := L |} =
    Ok () {| lg_bc := c'; log := L |} ∧
    bc_rep t0 c' (d_set (head_key L) b (with_data (put_sectors 0 secs d) v) A).
Proof.
  intros Hrep Hbz <-. destruct Hsecs as [Hn Hlen Hat]. rewrite Hn.
  assert (length (b_data v) = 512%nat) as Hl.
  { eapply (rep_live_ok t0 c _ (head_key L) b v Hrep). apply lookup_insert_eq. }
  destruct (for_range_inv (λ i s', ∃ c', s' = {| lg_bc := c'; log := L |} ∧
      bc_rep t0 c' (d_set (head_key L) b (with_data (put_sectors 0 (take (Z.to_nat i) secs) (b_data v)) v) A))
    (λ i, sector ← aget LOGSIZE 0 (λ s, lh_sector (log s)) i;
      d ← zoom (buf_data b); zoom (buf_set_data b (put32 (4 + 4 * i) sector d)))
    0 (Z.of_nat (length secs)) {| lg_bc := c; log := L |}) as (s' & Hr & c' & -> & Hrep'); [lia| | |].
  - exists c. split; [done|]. simpl. by destruct v.
  - intros i s Hi (c1 & -> & Hrep1).
    destruct (lookup_lt_is_Some_2 secs (Z.to_nat i)) as [sec Hsec]; [lia|].
    rewrite (bind_Ok _ _ _ _ _ (aget_Ok _ _ _ _ _ (ltac:(unfold LOGSIZE; lia) : 0 <= i < LOGSIZE))).
    cbn [log]. pose proof (Hat _ _ Hsec) as Ha. rewrite Z2Nat.id in Ha by lia. rewrite Ha.
    assert (d_live (d_set (head_key L) b (with_data (put_sectors 0 (take (Z.to_nat i) secs) (b_data v)) v) A)
      !! head_key L = Some (b, with_data (put_sectors 0 (take (Z.to_nat i) secs) (b_data v)) v)) as Hk
      by apply lookup_insert_eq.
    rewrite (zoom_bind _ _ _ _ _ _ (buf_data_run t0 c1 _ _ b _ Hrep1 Hk)).
    destruct (buf_set_data_run t0 c1 _ _ b _ Hrep1 Hk
      (put32 (4 + 4 * i) sec (put_sectors 0 (take (Z.to_nat i) secs) (b_data v)))) as (c2 & Hr & Hrep2).
    { by rewrite length_put32, length_put_sectors. }
    eexists. split; [exact (zoom_bc _ _ _ _ _ Hr)|]. exists c2. split; [done|].
    rewrite d_set_set in Hrep2. rewrite Z2Nat.inj_add by lia. rewrite Nat.add_1_r.
    rewrite (take_S_r secs _ sec Hsec), put_sectors_app, length_take.
    replace (0 + Z.of_nat (Z.to_nat i `min` length secs)) with i by lia. done.
  - exists c'. split; [done|]. rewrite firstn_all2 in Hrep' by lia. done.
Qed.

Lemma write_head_run c A :
  bc_rep t0 c A → d_live A !! head_key L = None → (0 < d_free A)%nat →
  ∃ c', write_head {| lg_bc := c; log := L |} = Ok () {| lg_bc := c'; log := L |} ∧
        bc_rep t0 c' (d_stored (head_key L) (head_block secs (d_look A (head_key L))) A).
Proof.
  intros Hrep Hk Hf. unfold write_head. kstep. cbn [log].
  rewrite (geo_dev L Hgeo). change (u32 ROOTDEV) with ROOTDEV.
  rewrite u32_key by (destruct Hgeo; unfold LOGSIZE in *; lia).
  destruct (bufcache_read_run t0 c A (head_key L) Hrep) as (b & c1 & Hr1 & Hrep1).
  { split; [by apply head_key_ok|]. by rewrite Hk. }
  rewrite (zoom_bind _ _ _ _ _ _ Hr1).
  assert (∀ v A, d_live (d_set (head_key L) b v A) !! head_key L = Some (b, v)) as Hlk
    by (intros; apply lookup_insert_eq).
  assert (d_live (d_acquire (head_key L) b A) !! head_key L = Some (b, held_buf A (head_key L))) as Hlk1
    by apply lookup_insert_eq.
  rewrite (zoom_bind _ _ _ _ _ _ (buf_data_run t0 c1 _ _ b _ Hrep1 Hlk1)).
  destruct (buf_set_data_run t0 c1 _ _ b _ Hrep1 Hlk1
    (put32 0 (lh_n L) (b_data (held_buf A (head_key L))))) as (c2 & Hr2 & Hrep2).
  { rewrite length_put32. by apply (content_length t0 c). }
  rewrite (zoom_bind _ _ _ _ _ _ Hr2).
  destruct (write_head_loop c2 _ b _ _ Hrep2 eq_refl eq_refl) as (c3 & Hr3 & Hrep3).
  rewrite (bind_Ok _ _ _ _ _ Hr3). clear Hr3.
  destruct (bufcache_write_run t0 c3 _ _ b _ Hrep3 (Hlk _ _) eq_refl) as (c4 & Hr4 & Hrep4).
  rewrite (zoom_bind _ _ _ _ _ _ Hr4).
  destruct (bufcache_release_clean t0 c4 _ (head_key L) b
    (synced (head_block secs (d_look A (head_key L)))
       (with_data (head_block secs (d_look A (head_key L))) (held_buf A (head_key L)))) Hrep4)
    as (c5 & Hr5 & Hrep5); try done.
  - cbn [d_live d_write]. rewrite lookup_insert_eq. unfold head_block. rewrite (hs_n L secs Hsecs).
    simpl. unfold content. rewrite Hk. done.
  - unfold d_look. cbn [d_disk d_write]. rewrite lookup_insert_eq. unfold head_block.
    rewrite (hs_n L secs Hsecs). simpl. unfold content. rewrite Hk. done.
  - exists c5. split; [exact (zoom_bc _ _ _ _ _ Hr5)|].
    eapply bc_rep_eq; [exact Hrep5|].
    pose proof (d_stored_close (head_key L) b (with_data (head_block secs (d_look A (head_key L)))
      (held_buf A (head_key L))) A Hk Hf) as Hcl.
    etransitivity; [|exact Hcl]. unfold head_block. rewrite <- (hs_n L secs Hsecs).
    replace (b_data (held_buf A (head_key L))) with (d_look A (head_key L)); [done|].
    simpl. unfold content. by rewrite Hk.
Qed.
End WriteHead.

(** A block written to its home sector from the log. *)
Definition d_installed (k : Z * Z) (d : list Z) (A : bdev) : bdev :=
  {| d_disk := <[k := d]> (d_disk A); d_log := (k, d) :: d_log A; d_live := delete k (d_live A);
     d_free := if d_live A !! k then S (d_free A) else d_free A |}.

(** There are buffers for a log block and for the home sector. *)
Definition can_install (A : bdev) (kl kd : Z * Z) : Prop :=
  d_live A !! kl = None ∧ (0 < d_free A)%nat ∧
  match d_live A !! kd with Some (_, v) => B_BUSY v = false | None => (1 < d_free A)%nat end.

Lemma d_installed_close kl kd bl bd v A :
  kl ≠ kd → can_install A kl kd →
  d_drop kd (d_drop kl (d_write kd bd v (d_set kd bd v (d_acquire kd bd (d_acquire kl bl A))))) =
  d_installed kd (b_data v) A.
Proof.
  intros Hne (Hkl & Hf & Hkd). unfold d_drop, d_write, d_set, d_acquire, d_installed. simpl.
  rewrite Hkl, lookup_insert_ne by done. f_equal.
  - rewrite !insert_insert_eq. apply map_eq. intros k.
    destruct (decide (k = kd)) as [->|]; [by rewrite !lookup_delete_eq|].
    rewrite !(lookup_delete_ne _ kd) by done.
    destruct (decide (k = kl)) as [->|]; [by rewrite lookup_delete_eq|].
    by rewrite lookup_delete_ne, !lookup_insert_ne.
  - destruct (d_live A !! kd) as [[]|]; lia.
Qed.

Lemma install_step t0 c L i sec A :
  bc_rep t0 c A → geometry L → 0 <= i < LOGSIZE → alook 0 (lh_sector L) i = sec →
  0 <= sec < lg_start L → can_install A (log_key L i) (ROOTDEV, sec) →
  ∃ c', install_body i {| lg_bc := c; log := L |} = Ok () {| lg_bc := c'; log := L |} ∧
        bc_rep t0 c' (d_installed (ROOTDEV, sec) (d_look A (log_key L i)) A).
Proof.
  intros Hrep Hgeo Hi Hsec Hhome Hcan. pose proof Hcan as (Hkl & Hf & Hkd).
  set (kl := log_key L i) in *. set (kd := (ROOTDEV, sec)) in *.
  assert (kl ≠ kd) as Hne by (unfold kl, kd, log_key; intros [=]; lia).
  unfold install_body. kstep. cbn [log]. rewrite (geo_dev L Hgeo). change (u32 ROOTDEV) with ROOTDEV.
  rewrite (u32_key (lg_start L + i + 1)) by (destruct Hgeo; unfold LOGSIZE in *; lia).
  destruct (bufcache_read_run t0 c A kl Hrep) as (bl & c1 & Hr1 & Hrep1).
  { split; [by apply log_key_ok|]. by rewrite Hkl. }
  rewrite (zoom_bind _ _ _ _ _ _ Hr1).
  rewrite (bind_Ok _ _ _ _ _ (aget_Ok _ _ _ _ _ Hi)). cbn [log]. rewrite Hsec.
  rewrite u32_key by (destruct Hgeo; unfold LOGSIZE in *; lia).
  destruct (bufcache_read_run t0 c1 (d_acquire kl bl A) kd Hrep1) as (bd & c2 & Hr2 & Hrep2).
  { split; [apply key_ok_root; destruct Hgeo; unfold LOGSIZE in *; lia|]. simpl.
    rewrite lookup_insert_ne, Hkl by done. destruct (d_live A !! kd) as [[]|]; [done|lia]. }
  rewrite (zoom_bind _ _ _ _ _ _ Hr2).
  set (A2 := d_acquire kd bd (d_acquire kl bl A)) in *.
  set (vd := held_buf (d_acquire kl bl A) kd) in *.
  assert (d_live A2 !! kl = Some (bl, held_buf A kl)) as Hl2.
  { simpl. rewrite lookup_insert_ne by done. apply lookup_insert_eq. }
  assert (b_data (held_buf A kl) = d_look A kl) as Hdata by (simpl; unfold content; by rewrite Hkl).
  rewrite (zoom_bind _ _ _ _ _ _ (buf_data_run t0 c2 _ kl bl _ Hrep2 Hl2)), Hdata.
  destruct (buf_set_data_run t0 c2 _ kd bd vd Hrep2 (lookup_insert_eq _ _ _) (d_look A kl)) as (c3 & Hr3 & Hrep3).
  { rewrite <- Hdata. by apply (content_length t0 c). }
  rewrite (zoom_bind _ _ _ _ _ _ Hr3).
  destruct (bufcache_write_run t0 c3 _ kd bd (with_data (d_look A kl) vd) Hrep3 (lookup_insert_eq _ _ _) eq_refl)
    as (c4 & Hr4 & Hrep4).
  rewrite (zoom_bind _ _ _ _ _ _ Hr4).
  destruct (bufcache_release_clean t0 c4 _ kl bl (held_buf A kl) Hrep4) as (c5 & Hr5 & Hrep5).
  { simpl. rewrite !lookup_insert_ne by done. apply lookup_insert_eq. }
  { done. }
  { simpl. apply bool_decide_eq_false_2. rewrite Hkl. by intros []. }
  { rewrite Hdata. unfold d_look. simpl. by rewrite lookup_insert_ne. }
  rewrite (zoom_bind _ _ _ _ _ _ Hr5).
  destruct (bufcache_release_clean t0 c5 _ kd bd (synced (d_look A kl) (with_data (d_look A kl) vd)) Hrep5)
    as (c6 & Hr6 & Hrep6); try done.
  { simpl. rewrite lookup_delete_ne by done. by rewrite lookup_insert_eq. }
  { unfold d_look. simpl. by rewrite lookup_insert_eq. }
  exists c6. split; [exact (zoom_bc _ _ _ _ _ Hr6)|]. eapply bc_rep_eq; [exact Hrep6|].
  exact (d_installed_close kl kd bl bd (with_data (d_look A kl) vd) A Hne Hcan).
Qed.

(** ** The disk as a sequence of writes *)

Definition apply_writes (ws : list (Z * Z * list Z)) (D : gmap (Z * Z) (list Z)) :
    gmap (Z * Z) (list Z) := foldr (λ w D, <[w.1 := w.2]> D) D ws.

(** From [A] to [A'] the disk received [ws], last first. *)
Definition extends (ws : list (Z * Z * list Z)) (A A' : bdev) : Prop :=
  d_log A' = ws ++ d_log A ∧ d_disk A' = apply_writes ws (d_disk A).

Definition home (p : Z * list Z) : Z * Z * list Z := ((ROOTDEV, p.1), p.2).

Lemma apply_writes_ne ws D k : k ∉ ws.*1 → apply_writes ws D !! k = D !! k.
Proof.
  induction ws as [|[k' d] ws IH]; simpl; [done|]. rewrite not_elem_of_cons. intros [Hk Hws].
  rewrite lookup_insert_ne by done. auto.
Qed.

Lemma apply_writes_in ws D k :
  k ∈ ws.*1 → ∃ d, (k, d) ∈ ws ∧ apply_writes ws D !! k = Some d.
Proof.
  induction ws as [|[k' d] ws IH]; simpl; [by intros ?%elem_of_nil|]. rewrite elem_of_cons.
  destruct (decide (k = k')) as [->|Hne].
  - intros _. exists d. rewrite lookup_insert_eq. split; [by left|done].
  - intros [?|Hk]; [done|]. destruct (IH Hk) as (d' & ? & ?). exists d'.
    rewrite lookup_insert_ne by done. split; [by right|done].
Qed.

Lemma apply_writes_app ws1 ws2 D :
  apply_writes (ws1 ++ ws2) D = apply_writes ws1 (apply_writes ws2 D).
Proof. apply foldr_app. Qed.

Lemma extends_refl A : extends [] A A.
Proof. done. Qed.

Lemma extends_trans ws1 ws2 A1 A2 A3 :
  extends ws1 A1 A2 → extends ws2 A2 A3 → extends (ws2 ++ ws1) A1 A3.
Proof.
  intros [H1 H2] [H3 H4]. split; [by rewrite H3, H1, app_assoc|].
  by rewrite H4, H2, apply_writes_app.
Qed.

Lemma home_key_lookup txn k :
  k ∈ (home <$> txn).*1 ↔ k.1 = ROOTDEV ∧ k.2 ∈ txn.*1.
Proof.
  rewrite <- list_fmap_compose, !list_elem_of_fmap. split.
  - intros (p & -> & Hp). simpl. eauto.
  - intros (H1 & p & H2 & Hp). exists p. split; [|done]. destruct k. simpl in *. by subst.
Qed.

Section Install.
Context (t0 : th_state) (L : log_t) (txn : list (Z * list Z)) (A : bdev).
Context (Hgeo : geometry L) (Hsecs : has_sectors L txn.*1).
Context (Hhome : Forall (λ p, 0 <= p.1 < lg_start L) txn).
Context (Hblocks : ∀ m p, txn !! m = Some p → d_look A (log_key L (Z.of_nat m)) = p.2).
Context (Hlive : ∀ k b v, d_live A !! k = Some (b, v) → B_BUSY v = false ∧ k.2 < lg_start L).
Context (Hfree : (0 < d_free A)%nat).
Context (Hroom : (1 < d_free A)%nat ∨ ∀ p, p ∈ txn → is_Some (d_live A !! (home p).1)).

Definition upto (i : Z) : list (Z * list Z) := take (Z.to_nat i) txn.

Record install_inv (i : Z) (A' : bdev) : Prop := {
  ii_ext : extends (reverse (home <$> upto i)) A A';
  ii_live k : d_live A' !! k = if decide (k ∈ (home <$> upto i).*1) then None else d_live A !! k;
  ii_free : (0 < d_free A')%nat;
  ii_room : (1 < d_free A')%nat ∨ (∀ p, p ∈ txn → is_Some (d_live A !! (home p).1)) ∧ i = 0
}.

Lemma upto_home i m p : upto i !! m = Some p → 0 <= p.1 < lg_start L.
Proof.
  intros Hp. rewrite Forall_lookup in Hhome. apply (Hhome m p).
  unfold upto in Hp. by apply lookup_take_Some in Hp as [? _].
Qed.

Lemma log_key_home i j : j < LOGSIZE → 0 <= j → log_key L j ∉ (home <$> upto i).*1.
Proof.
  intros _ Hj. rewrite home_key_lookup. intros [_ Hin]. apply list_elem_of_fmap in Hin as (p & Hp & Hin).
  apply list_elem_of_lookup in Hin as [m Hm]. apply upto_home in Hm. simpl in Hp. lia.
Qed.

Lemma install_inv_step i A' p :
  0 <= i → txn !! Z.to_nat i = Some p → install_inv i A' →
  can_install A' (log_key L i) (ROOTDEV, p.1) ∧ d_look A' (log_key L i) = p.2 ∧
  install_inv (i + 1) (d_installed (ROOTDEV, p.1) p.2 A').
Proof.
  intros Hi Hp [Hext Hl Hf Hr].
  assert (Z.to_nat i < length txn)%nat as Hlt by by apply lookup_lt_Some in Hp.
  assert (i < LOGSIZE) as Hi10.
  { pose proof (hs_len _ _ Hsecs) as Hn. rewrite length_fmap in Hn. unfold LOGSIZE. lia. }
  assert (can_install A' (log_key L i) (ROOTDEV, p.1)) as Hcan.
  { split; [|split; [done|]].
    - rewrite Hl. rewrite decide_False by (by apply log_key_home).
      destruct (d_live A !! log_key L i) as [[b v]|] eqn:E; [|done].
      apply Hlive in E as [_ E]. simpl in E. lia.
    - rewrite Hl. case_decide as Hd.
      + destruct Hr as [?|[_ ->]]; [done|]. by apply elem_of_nil in Hd.
      + destruct (d_live A !! (ROOTDEV, p.1)) as [[b v]|] eqn:E; [by eapply Hlive|].
        destruct Hr as [?|[Hall _]]; [done|]. exfalso. apply list_elem_of_lookup_2 in Hp.
        destruct (Hall p Hp) as [x Hx]. simpl in Hx. congruence. }
  split; [done|]. split.
  { rewrite <- (Hblocks _ p Hp), Z2Nat.id by done. unfold d_look.
    rewrite (proj2 Hext), apply_writes_ne; [done|].
    rewrite fmap_reverse, elem_of_reverse. by apply log_key_home. }
  assert (upto (i + 1) = upto i ++ [p]) as Hup.
  { unfold upto. rewrite Z2Nat.inj_add, Nat.add_1_r by lia. by apply take_S_r. }
  split.
  - rewrite Hup, fmap_app, reverse_app. 
    apply (extends_trans _ [home p] A A'); [done|]. by split.
  - intros k. simpl. rewrite Hup. destruct (decide (k = (ROOTDEV, p.1))) as [->|Hk].
    + rewrite lookup_delete_eq, decide_True; [done|]. rewrite !fmap_app. apply elem_of_app. right. by left.
    + rewrite lookup_delete_ne, Hl by done. apply decide_ext.
      rewrite !fmap_app, elem_of_app. simpl. rewrite list_elem_of_singleton. tauto.
  - simpl. destruct (d_live A' !! _); lia.
  - left. simpl. destruct Hcan as (_ & _ & Hc). destruct (d_live A' !! _) as [[]|]; lia.
Qed.

Lemma install_trans_run c :
  bc_rep t0 c A →
  ∃ c' A', install_trans {| lg_bc := c; log := L |} = Ok () {| lg_bc := c'; log := L |} ∧
    bc_rep t0 c' A' ∧ extends (reverse (home <$> txn)) A A' ∧
    ∀ k, d_live A' !! k = if decide (k ∈ (home <$> txn).*1) then None else d_live A !! k.
Proof.
  intros Hrep. unfold install_trans. kstep. cbn [log].
  pose proof (hs_n _ _ Hsecs) as Hn. rewrite length_fmap in Hn. rewrite Hn.
  destruct (for_range_inv (λ i s', ∃ c' A', s' = {| lg_bc := c'; log := L |} ∧ bc_rep t0 c' A' ∧
    install_inv i A') install_body 0 (Z.of_nat (length txn)) {| lg_bc := c; log := L |})
    as (s' & Hr & c' & A' & -> & Hrep' & [Hext Hl _ _]).
  - lia.
  - exists c, A. split; [done|]. split; [done|]. split; [done| |done|tauto].
    intros k. rewrite decide_False; [done|]. apply not_elem_of_nil.
  - intros i s Hi (c1 & A1 & -> & Hrep1 & Hinv).
    destruct (lookup_lt_is_Some_2 txn (Z.to_nat i)) as [p Hp]; [lia|].
    destruct (install_inv_step i A1 p (proj1 Hi) Hp Hinv) as (Hcan & Hdata & Hinv').
    pose proof (hs_len _ _ Hsecs) as Hlen. rewrite length_fmap in Hlen.
    destruct (install_step t0 c1 L i p.1 A1) as (c2 & Hr & Hrep2); try done.
    + unfold LOGSIZE. lia.
    + rewrite <- (Z2Nat.id i) by lia. apply (hs_at _ _ Hsecs). by rewrite list_lookup_fmap, Hp.
    + rewrite Forall_lookup in Hhome. by apply (Hhome (Z.to_nat i)).
    + eexists. split; [exact Hr|]. rewrite Hdata in Hrep2. by eexists c2, _.
  - unfold upto in Hext, Hl. rewrite firstn_all2 in Hext by lia. rewrite firstn_all2 in Hl by lia.
    exists c', A'. by split_and!.
Qed.
End Install.

(** ** Transactions

    A transaction as the file system makes one: each block is read, changed, passed to
    [log_write] and released. *)

Definition tx_write (sec : Z) (d : list Z) : M lg_state () :=
  b ← zoom (bufcache_read ROOTDEV sec);
  zoom (buf_set_data b d) ;;
  log_write b ;;
  zoom (bufcache_release b).

Fixpoint tx_writes (ups : list (Z * list Z)) : M lg_state () :=
  match ups with
  | [] => mret ()
  | (sec, d) :: ups => tx_write sec d ;; tx_writes ups
  end.

Definition transaction (ups : list (Z * list Z)) : M lg_state () :=
  begin_trans ;; tx_writes ups ;; commit_trans.

Fixpoint tx_index (sec : Z) (secs : list Z) : nat :=
  match secs with
  | [] => O
  | x :: secs => if decide (x = sec) then O else S (tx_index sec secs)
  end.

(** The blocks of the transaction after a write of [d] to [sec]. *)
Definition tx_put (sec : Z) (d : list Z) (txn : list (Z * list Z)) : list (Z * list Z) :=
  let m := tx_index sec txn.*1 in
  if decide (m < length txn)%nat then <[m := (sec, d)]> txn else txn ++ [(sec, d)].

Lemma tx_index_le sec secs : (tx_index sec secs <= length secs)%nat.
Proof. induction secs as [|x secs IH]; simpl; [done|]. case_decide; lia. Qed.

Lemma tx_index_in sec secs : (tx_index sec secs < length secs)%nat ↔ sec ∈ secs.
Proof.
  induction secs as [|x secs IH]; simpl; [rewrite elem_of_nil; lia|].
  rewrite elem_of_cons. case_decide as Hx; [split; [by left|lia]|].
  rewrite <- IH. split; [intros; right; lia|]. intros [?|?]; [congruence|lia].
Qed.

Lemma tx_index_at sec secs :
  (tx_index sec secs < length secs)%nat → secs !! tx_index sec secs = Some sec.
Proof.
  induction secs as [|x secs IH]; simpl; [lia|]. case_decide as Hx; [by rewrite Hx|].
  intros ?. apply IH. lia.
Qed.

Lemma absorb_index secs i sectors sec :
  (∀ m x, secs !! m = Some x → u32 (alook 0 sectors (i + Z.of_nat m)) = x) →
  absorb (length secs) i sectors sec = i + Z.of_nat (tx_index sec secs).
Proof.
  revert i. induction secs as [|x secs IH]; intros i Hs; simpl; [lia|].
  pose proof (Hs O x eq_refl) as H0. rewrite Z.add_0_r in H0. rewrite H0. case_bool_decide as Hx.
  - rewrite decide_True by done. lia.
  - rewrite decide_False by done. rewrite IH; [lia|]. intros m y Hy.
    replace (i + 1 + Z.of_nat m) with (i + Z.of_nat (S m)) by lia. by apply Hs.
Qed.

Section Put.
Context (sec : Z) (d : list Z) (txn : list (Z * list Z)).
Notation m := (tx_index sec txn.*1).

Lemma tx_put_lookup j :
  tx_put sec d txn !! j = if decide (j = m) then Some (sec, d) else txn !! j.
Proof.
  pose proof (tx_index_le sec txn.*1) as Hle. rewrite length_fmap in Hle. unfold tx_put.
  destruct (decide (m < length txn)%nat) as [Hm|Hm].
  - rewrite list_lookup_insert. repeat case_decide; naive_solver.
  - assert (m = length txn) as -> by lia. case_decide as Hj.
    + subst j. by rewrite list_lookup_middle.
    + destruct (decide (j < length txn)%nat); [by rewrite lookup_app_l|].
      rewrite (lookup_ge_None_2 txn j) by lia. apply lookup_ge_None_2. rewrite length_app. simpl. lia.
Qed.

Lemma tx_put_length :
  length (tx_put sec d txn) = if decide (sec ∈ txn.*1) then length txn else S (length txn).
Proof.
  unfold tx_put. pose proof (tx_index_in sec txn.*1) as Hin. rewrite length_fmap in Hin.
  rewrite (decide_ext _ _ _ _ Hin). case_decide; [apply length_insert|]. rewrite length_app. simpl. lia.
Qed.

Lemma tx_put_fst : (tx_put sec d txn).*1 = if decide (sec ∈ txn.*1) then txn.*1 else txn.*1 ++ [sec].
Proof.
  unfold tx_put. pose proof (tx_index_in sec txn.*1) as Hin. rewrite length_fmap in Hin.
  rewrite (decide_ext _ _ _ _ Hin). case_decide as Hs; [|by rewrite fmap_app].
  rewrite list_fmap_insert. apply list_insert_id, tx_index_at. rewrite length_fmap. by apply Hin.
Qed.

Lemma tx_put_nodup : NoDup txn.*1 → NoDup (tx_put sec d txn).*1.
Proof.
  intros Hnd. rewrite tx_put_fst. case_decide as Hs; [done|]. apply NoDup_app.
  split; [done|]. split; [|apply NoDup_singleton]. intros x Hx. rewrite list_elem_of_singleton. by intros ->.
Qed.

Lemma tx_put_in : (sec, d) ∈ tx_put sec d txn.
Proof. apply (list_elem_of_lookup_2 _ m). rewrite tx_put_lookup. by rewrite decide_True. Qed.

Lemma tx_put_keep p : p ∈ txn → p.1 ≠ sec → p ∈ tx_put sec d txn.
Proof.
  intros Hp Hne. apply list_elem_of_lookup in Hp as [j Hj]. apply (list_elem_of_lookup_2 _ j).
  rewrite tx_put_lookup. rewrite decide_False; [done|]. intros ->. apply Hne.
  assert (txn.*1 !! m = Some sec) as Ha.
  { apply tx_index_at. rewrite length_fmap. by apply lookup_lt_Some in Hj. }
  rewrite list_lookup_fmap, Hj in Ha. by injection Ha.
Qed.

Lemma tx_put_inv p : p ∈ tx_put sec d txn → p = (sec, d) ∨ p ∈ txn.
Proof.
  intros Hp. apply list_elem_of_lookup in Hp as [j Hj]. rewrite tx_put_lookup in Hj.
  case_decide; [left; congruence|]. right. by apply list_elem_of_lookup_2 in Hj.
Qed.
End Put.

(** What holds of the device and the log inside a transaction that wrote [txn]. *)
Record in_tx (L : log_t) (txn : list (Z * list Z)) (A : bdev) : Prop := {
  it_geo : geometry L;
  it_secs : has_sectors L txn.*1;
  it_lock : lg_lock L = spinlock_init;
  it_busy : lg_busy L = 1;
  it_home : Forall (λ p, 0 <= p.1 < lg_start L) txn;
  it_nodup : NoDup txn.*1;
  it_blocks m p : txn !! m = Some p → d_look A (log_key L (Z.of_nat m)) = p.2;
  it_live k b v : d_live A !! k = Some (b, v) →
    B_BUSY v = false ∧ B_DIRTY v = true ∧ k.1 = ROOTDEV ∧ (k.2, b_data v) ∈ txn;
  it_pinned p : p ∈ txn → is_Some (d_live A !! (home p).1);
  it_free : (d_free A + length txn = 10)%nat;
  it_head : get32 (d_look A (head_key L)) 0 = 0
}.

(** The log after entry [m] was set to the sector. *)
Definition log_put (L : log_t) (m : nat) (sec : Z) : log_t :=
  {| lg_lock := lg_lock L; lg_start := lg_start L; lg_size := lg_size L; lg_busy := lg_busy L;
     lg_dev := lg_dev L;
     lh_n := if decide (Z.of_nat m = lh_n L) then lh_n L + 1 else lh_n L;
     lh_sector := <[Z.of_nat m := sec]> (lh_sector L) |}.

Definition pinned_buf (sec : Z) (d : list Z) : buf :=
  {| B_BUSY := false; B_VALID := true; B_DIRTY := true; b_dev := ROOTDEV; b_sector := sec;
     b_data := d |}.

Lemma has_sectors_u32 L secs start i m x :
  has_sectors L secs → Forall (λ p, 0 <= p < start) secs → start < 268435456 → i = 0 →
  secs !! m = Some x → u32 (alook 0 (lh_sector L) (i + Z.of_nat m)) = x.
Proof.
  intros [_ _ Hat] Hh Hs -> Hx. rewrite Z.add_0_l, (Hat m x Hx). rewrite Forall_lookup in Hh.
  specialize (Hh m x Hx). apply u32_key. lia.
Qed.

Section LogWrite.
Context (t0 : th_state) (L : log_t) (txn : list (Z * list Z)) (sec : Z) (b : Z) (v : buf).
Context (Hgeo : geometry L) (Hsecs : has_sectors L txn.*1) (Hbusy : lg_busy L = 1).
Context (Hhome : Forall (λ p, 0 <= p.1 < lg_start L) txn).
Context (Hsec : 0 <= sec < lg_start L) (Hlen : (length txn <= 9)%nat).
Context (Hsize : Z.of_nat (length txn) < lg_size L - 1).
Context (Hkey : b_key v = (ROOTDEV, sec)).
Notation m := (tx_index sec txn.*1).

Lemma log_write_run c A :
  bc_rep t0 c A → d_live A !! (ROOTDEV, sec) = Some (b, v) →
  d_live A !! log_key L (Z.of_nat m) = None → (0 < d_free A)%nat →
  ∃ c', log_write b {| lg_bc := c; log := L |} =
      Ok () {| lg_bc := c'; log := log_put L m sec |} ∧
    bc_rep t0 c' (d_set (ROOTDEV, sec) b (with_dirty true v)
                    (d_stored (log_key L (Z.of_nat m)) (b_data v) A)).
Proof.
  intros Hrep Hk Hkl Hf. unfold log_write. kstep. cbn [log].
  pose proof (hs_n _ _ Hsecs) as Hn. rewrite length_fmap in Hn.
  rewrite bool_decide_eq_false_2 by (unfold LOGSIZE; lia).
  rewrite bool_decide_eq_false_2 by lia. cbn [orb].
  rewrite bool_decide_eq_false_2 by lia.
  destruct (rep_live_ok t0 c A _ b v Hrep Hk) as (Hb & Hv & _).
  rewrite (zoom_bind _ _ _ _ _ _ (buf_get_Ok c b Hb)), Hv.
  assert (b_dev v = ROOTDEV ∧ b_sector v = sec) as [Hd ->] by (by injection Hkey).
  pose proof (tx_index_le sec txn.*1) as Hle. rewrite length_fmap in Hle.
  replace (Z.to_nat (lh_n L)) with (length txn.*1) by (rewrite length_fmap; lia).
  rewrite (absorb_index txn.*1 0 (lh_sector L) sec), Z.add_0_l.
  2:{ intros j x Hx. eapply (has_sectors_u32 L txn.*1 (lg_start L)); try done.
      - by apply Forall_fmap.
      - destruct Hgeo. unfold LOGSIZE in *. lia. }
  assert (0 <= Z.of_nat m < LOGSIZE) as Hm by (unfold LOGSIZE; lia).
  rewrite (bind_Ok _ _ _ _ _ (aset_Ok LOGSIZE upd_lh_sector _ (s32 sec) _ Hm)).
  unfold upd_lh_sector, set_log. cbn [log lg_bc]. rewrite Hd. change (u32 ROOTDEV) with ROOTDEV.
  rewrite u32_key by (destruct Hgeo; unfold LOGSIZE in *; lia).
  set (kl := log_key L (Z.of_nat m)) in *.
  destruct (bufcache_read_run t0 c A kl Hrep) as (bl & c1 & Hr1 & Hrep1).
  { split; [by apply log_key_ok|]. by rewrite Hkl. }
  rewrite (zoom_bind _ _ _ _ _ _ Hr1).
  assert (kl ≠ (ROOTDEV, sec)) as Hne by (unfold kl, log_key; intros [=]; lia).
  assert (d_live (d_acquire kl bl A) !! (ROOTDEV, sec) = Some (b, v)) as Hk1.
  { simpl. by rewrite lookup_insert_ne. }
  rewrite (zoom_bind _ _ _ _ _ _ (buf_data_run t0 c1 _ _ b v Hrep1 Hk1)).
  set (vl := held_buf A kl) in *.
  destruct (buf_set_data_run t0 c1 _ kl bl vl Hrep1 (lookup_insert_eq _ _ _) (b_data v)) as (c2 & Hr2 & Hrep2).
  { apply (rep_live_ok t0 c A _ b v Hrep Hk). }
  rewrite (zoom_bind _ _ _ _ _ _ Hr2).
  destruct (bufcache_write_run t0 c2 _ kl bl (with_data (b_data v) vl) Hrep2 (lookup_insert_eq _ _ _) eq_refl)
    as (c3 & Hr3 & Hrep3).
  rewrite (zoom_bind _ _ _ _ _ _ Hr3).
  destruct (bufcache_release_clean t0 c3 _ kl bl (synced (b_data v) (with_data (b_data v) vl)) Hrep3)
    as (c4 & Hr4 & Hrep4); try done.
  { simpl. by rewrite lookup_insert_eq. }
  { unfold d_look. simpl. by rewrite lookup_insert_eq. }
  rewrite (zoom_bind _ _ _ _ _ _ Hr4).
  rewrite (d_stored_close kl bl (with_data (b_data v) vl) A Hkl Hf) in Hrep4.
  destruct (buf_set_dirty_run t0 c4 _ (ROOTDEV, sec) b v Hrep4 Hk) as (c5 & Hr5 & Hrep5).
  exists c5. split; [|exact Hrep5]. unfold log_put.
  assert (s32 sec = sec) as -> by (apply s32_small; destruct Hgeo; unfold is_s32, LOGSIZE in *; lia).
  destruct (decide (Z.of_nat m = lh_n L)) as [He|He].
  - rewrite bool_decide_eq_true_2 by done. kstep. unfold set_lh_n, set_log. cbn [log lg_bc].
    rewrite <- He. exact (zoom_bc _ _ _ _ _ Hr5).
  - rewrite bool_decide_eq_false_2 by done. rewrite (bind_Ok _ _ _ _ _ (ret_Ok _ _)).
    exact (zoom_bc _ _ _ _ _ Hr5).
Qed.
End LogWrite.

(** Everything the writes before the commit touch on the disk is in the log area. *)
Definition log_area (L : log_t) (w : Z * Z * list Z) : Prop :=
  ∃ i, 0 <= i < LOGSIZE ∧ w.1 = log_key L i.

Definition same_place (L L' : log_t) : Prop :=
  lg_start L' = lg_start L ∧ lg_size L' = lg_size L ∧ lg_dev L' = lg_dev L.

Definition tx_dev (sec : Z) (b : Z) (d : list Z) (kl : Z * Z) (A : bdev) : bdev :=
  {| d_disk := <[kl := d]> (d_disk A); d_log := (kl, d) :: d_log A;
     d_live := <[(ROOTDEV, sec) := (b, pinned_buf sec d)]> (d_live A);
     d_free := if d_live A !! (ROOTDEV, sec) then d_free A else pred (d_free A) |}.

Section TxWrite.
Context (t0 : th_state) (L : log_t) (txn : list (Z * list Z)) (sec : Z) (d : list Z) (A : bdev).
Context (Htx : in_tx L txn A) (Hsec : 0 <= sec < lg_start L) (Hd : length d = 512%nat).
Context (Hlen : (length txn <= 8)%nat) (Hsize : Z.of_nat (length txn) < lg_size L - 1).
Notation m := (tx_index sec txn.*1).
Notation kl := (log_key L (Z.of_nat m)).

Lemma tx_log_key_idle : d_live A !! kl = None.
Proof.
  destruct (d_live A !! kl) as [[b v]|] eqn:E; [|done]. exfalso.
  apply (it_live _ _ _ Htx) in E as (_ & _ & _ & Hin).
  pose proof (it_home _ _ _ Htx) as Hh. rewrite Forall_forall in Hh. specialize (Hh _ Hin).
  simpl in Hh. lia.
Qed.

Lemma tx_write_dev c :
  bc_rep t0 c A →
  ∃ c' b, tx_write sec d {| lg_bc := c; log := L |} =
      Ok () {| lg_bc := c'; log := log_put L m sec |} ∧ bc_rep t0 c' (tx_dev sec b d kl A).
Proof.
  intros Hrep. pose proof Htx as [Hgeo Hsecs _ Hbusy Hhome _ _ Hlive _ Hfree _]. unfold tx_write.
  destruct (bufcache_read_run t0 c A (ROOTDEV, sec) Hrep) as (b & c1 & Hr1 & Hrep1).
  { split; [apply key_ok_root; destruct Hgeo; unfold LOGSIZE in *; lia|].
    destruct (d_live A !! (ROOTDEV, sec)) as [[b v]|] eqn:E; [by apply Hlive in E as [? _]|lia]. }
  rewrite (zoom_bind _ _ _ _ _ _ Hr1). set (v1 := held_buf A (ROOTDEV, sec)) in *.
  destruct (buf_set_data_run t0 c1 _ _ b v1 Hrep1 (lookup_insert_eq _ _ _) d Hd) as (c2 & Hr2 & Hrep2).
  rewrite (zoom_bind _ _ _ _ _ _ Hr2).
  assert (kl ≠ (ROOTDEV, sec)) as Hne by (unfold log_key; intros [=]; lia).
  destruct (log_write_run t0 L txn sec b (with_data d v1) Hgeo Hsecs Hbusy Hhome Hsec (ltac:(lia)) Hsize
    eq_refl c2 _ Hrep2) as (c3 & Hr3 & Hrep3).
  { apply lookup_insert_eq. }
  { simpl. rewrite !lookup_insert_ne by done. apply tx_log_key_idle. }
  { simpl. destruct (d_live A !! _); lia. }
  rewrite (bind_Ok _ _ _ _ _ Hr3).
  destruct (bufcache_release_dirty t0 c3 _ (ROOTDEV, sec) b (with_dirty true (with_data d v1)) Hrep3
    (lookup_insert_eq _ _ _) eq_refl eq_refl) as (c4 & Hr4 & Hrep4).
  exists c4, b. split; [exact (zoom_bc _ _ _ _ _ Hr4)|]. eapply bc_rep_eq; [exact Hrep4|].
  unfold d_set, d_stored, d_acquire, tx_dev. simpl. by rewrite !insert_insert_eq.
Qed.

Lemma log_put_sectors : has_sectors (log_put L m sec) (tx_put sec d txn).*1.
Proof.
  pose proof (it_secs _ _ _ Htx) as [Hn Hl Hat]. rewrite length_fmap in Hn.
  pose proof (tx_index_le sec txn.*1) as Hle. rewrite length_fmap in Hle.
  pose proof (tx_index_in sec txn.*1) as Hin. rewrite length_fmap in Hin.
  split.
  - rewrite length_fmap, tx_put_length. simpl. repeat case_decide; try lia; exfalso.
    + assert (m < length txn)%nat by tauto. lia.
    + assert (m = length txn) by (destruct (decide (m < length txn)%nat); [tauto|lia]). lia.
  - rewrite length_fmap, tx_put_length. case_decide; lia.
  - intros j x. rewrite list_lookup_fmap, tx_put_lookup. simpl. case_decide as Hj.
    + intros [= <-]. subst j. apply alook_insert_eq.
    + intros Hx. rewrite alook_insert_ne by lia. apply Hat. by rewrite list_lookup_fmap.
Qed.

Lemma tx_put_in_tx b : in_tx (log_put L m sec) (tx_put sec d txn) (tx_dev sec b d kl A).
Proof.
  pose proof Htx as [Hgeo Hsecs Hlock Hbusy Hhome Hnd Hblocks Hlive Hpin Hfree Hhead].
  split; [by destruct Hgeo; split|apply log_put_sectors|done|done|..].
  - apply Forall_forall. intros p [-> | Hp]%tx_put_inv; [done|]. rewrite Forall_forall in Hhome. by apply Hhome.
  - by apply tx_put_nodup.
  - intros j p. rewrite tx_put_lookup. change (log_key (log_put L m sec)) with (log_key L).
    unfold d_look. simpl. case_decide as Hj.
    + intros [= <-]. subst j. by rewrite lookup_insert_eq.
    + intros Hp. rewrite lookup_insert_ne; [by apply Hblocks|]. unfold log_key. intros [=]. lia.
  - intros k b' v. simpl. rewrite lookup_insert_Some. intros [[<- [= <- <-]]|[Hk Hl]].
    + repeat (split; [done|]). apply tx_put_in.
    + apply Hlive in Hl as (? & ? & Hr & Hin). repeat (split; [done|]). apply tx_put_keep; [done|].
      simpl. intros <-. apply Hk. destruct k. simpl in *. by subst.
  - intros p Hp. simpl. rewrite lookup_insert. case_decide; [done|].
    apply tx_put_inv in Hp as [-> | Hp]; [done|]. by apply Hpin.
  - rewrite tx_put_length. simpl. case_decide as Hin.
    + apply list_elem_of_fmap in Hin as (p & -> & Hp). destruct (Hpin p Hp) as [x Hx]. simpl in Hx.
      by rewrite Hx.
    + destruct (d_live A !! (ROOTDEV, sec)) as [[b' v]|] eqn:E; [|lia]. exfalso.
      apply Hlive in E as (_ & _ & _ & E). apply Hin. apply list_elem_of_fmap. by exists (sec, b_data v).
  - unfold d_look. simpl. rewrite lookup_insert_ne; [done|]. unfold log_key, head_key. intros [=]. lia.
Qed.

Lemma tx_write_run c :
  bc_rep t0 c A →
  ∃ c' L' A' w, tx_write sec d {| lg_bc := c; log := L |} = Ok () {| lg_bc := c'; log := L' |} ∧
    bc_rep t0 c' A' ∧ in_tx L' (tx_put sec d txn) A' ∧ extends [w] A A' ∧ log_area L w ∧ same_place L L' ∧
    ∀ n, n ≠ sec → n <= lg_start L → content A' (ROOTDEV, n) = content A (ROOTDEV, n).
Proof.
  intros Hrep. destruct (tx_write_dev c Hrep) as (c' & b & Hr & Hrep').
  eexists c', _, _, (kl, d). split; [exact Hr|]. split; [exact Hrep'|]. split; [apply tx_put_in_tx|].
  split; [done|]. split; [|split; [done|]].
  - exists (Z.of_nat m). split; [|done].
    pose proof (tx_index_le sec txn.*1) as Hle. rewrite length_fmap in Hle. unfold LOGSIZE. lia.
  - intros n Hn Hst. unfold content, d_look. simpl. rewrite !lookup_insert_ne; [done| |congruence].
    unfold log_key. intros [=]. lia.
Qed.
End TxWrite.

(** The pattern of every change to a block inside a transaction. *)
Definition tx_modify (sec : Z) (f : list Z → list Z) : M lg_state () :=
  b ← zoom (bufcache_read ROOTDEV sec);
  d ← zoom (buf_data b);
  zoom (buf_set_data b (f d)) ;;
  log_write b ;;
  zoom (bufcache_release b).

Lemma tx_modify_write t0 c L A sec f :
  bc_rep t0 c A → can_read A (ROOTDEV, sec) →
  tx_modify sec f {| lg_bc := c; log := L |} =
  tx_write sec (f (content A (ROOTDEV, sec))) {| lg_bc := c; log := L |}.
Proof.
  intros Hrep Hcan. destruct (bufcache_read_run t0 c A (ROOTDEV, sec) Hrep Hcan) as (b & c1 & Hr & Hrep1).
  unfold tx_modify, tx_write. change ((ROOTDEV, sec).1) with ROOTDEV in Hr. change ((ROOTDEV, sec).2) with sec in Hr.
  rewrite !(zoom_bind _ _ _ _ _ _ Hr).
  rewrite (zoom_bind _ _ _ _ _ _ (buf_data_run t0 c1 _ _ b _ Hrep1 (lookup_insert_eq _ _ _))). done.
Qed.

Lemma in_tx_can_read L txn A sec :
  in_tx L txn A → 0 <= sec < lg_start L → (length txn <= 9)%nat → can_read A (ROOTDEV, sec).
Proof.
  intros [Hgeo _ _ _ _ _ _ Hlive _ Hfree _] Hsec Hlen.
  split; [apply key_ok_root; destruct Hgeo; unfold LOGSIZE in *; lia|].
  destruct (d_live A !! (ROOTDEV, sec)) as [[b v]|] eqn:E; [by apply Hlive in E as [? _]|lia].
Qed.

(** What a reader sees of a sector inside the transaction. *)
Lemma in_tx_content L txn A sec d :
  in_tx L txn A → (sec, d) ∈ txn → content A (ROOTDEV, sec) = d.
Proof.
  intros Htx Hin. destruct (it_pinned _ _ _ Htx _ Hin) as [[b v] Hk]. unfold content. simpl in Hk.
  rewrite Hk. apply (it_live _ _ _ Htx) in Hk as (_ & _ & _ & Hv). simpl in Hv.
  apply list_elem_of_lookup in Hin as [i Hi]. apply list_elem_of_lookup in Hv as [j Hj].
  assert (i = j) as ->; [|congruence]. apply (NoDup_lookup _ i j sec (it_nodup _ _ _ Htx));
    rewrite list_lookup_fmap, ?Hi, ?Hj; done.
Qed.

Lemma tx_modify_run t0 L txn sec f A c :
  bc_rep t0 c A → in_tx L txn A → 0 <= sec < lg_start L → (length txn <= 8)%nat →
  Z.of_nat (length txn) < lg_size L - 1 → (∀ d, length d = 512%nat → length (f d) = 512%nat) →
  ∃ c' L' A', tx_modify sec f {| lg_bc := c; log := L |} = Ok () {| lg_bc := c'; log := L' |} ∧
    bc_rep t0 c' A' ∧ in_tx L' (tx_put sec (f (content A (ROOTDEV, sec))) txn) A' ∧ same_place L L' ∧
    content A' (ROOTDEV, sec) = f (content A (ROOTDEV, sec)) ∧
    ∀ n, n ≠ sec → n <= lg_start L → content A' (ROOTDEV, n) = content A (ROOTDEV, n).
Proof.
  intros Hrep Htx Hsec Hlen Hsz Hf.
  rewrite (tx_modify_write t0 c L A) by (try done; apply (in_tx_can_read L txn); (done || lia)).
  destruct (tx_write_run t0 L txn sec (f (content A (ROOTDEV, sec))) A Htx Hsec) with (c := c)
    as (c' & L' & A' & w & Hr & Hrep' & Htx' & _ & _ & Hpl & Hoth); try done.
  { by apply Hf, (content_length t0 c). }
  exists c', L', A'. split; [exact Hr|]. split; [done|]. split; [done|]. split; [done|].
  split; [|exact Hoth]. apply (in_tx_content L' _ A' sec _ Htx'), tx_put_in.
Qed.

(** ** Begin, commit and recovery *)

Lemma bc_rep_th t0 c A t' :
  bc_rep t0 c A → th_keeps t0 t' → (∃ a, sched_rep t' a) → bc_rep t0 (put t' c) A.
Proof. intros [[] ????????] ??. split; [by split|done..]. Qed.

Lemma rep_idle_free t0 c A : bc_rep t0 c A → d_live A = ∅ → d_free A = 10%nat.
Proof.
  intros Hrep Hl. rewrite (br_free t0 c A Hrep). unfold free_bufs.
  assert (∀ l : list Z, (∀ b, b ∈ l → 0 <= b < NBUF) →
    filter (λ b, is_live (buf_look c b) = false) l = l) as Hf.
  { induction l as [|b l IH]; [done|]. intros Hb. rewrite filter_cons_True.
    - f_equal. apply IH. intros b' Hb'. apply Hb. by right.
    - destruct (is_live (buf_look c b)) eqn:E; [|done]. exfalso.
      assert (d_live A !! b_key (buf_look c b) = Some (b, buf_look c b)) as Hk.
      { apply (br_live t0 c A Hrep). split; [apply Hb; by left|done]. }
      by rewrite Hl in Hk. }
  rewrite Hf; [done|]. intros b Hb. apply elem_of_seqZ in Hb. lia.
Qed.

(** The log between transactions. *)
Record log_idle (L : log_t) (A : bdev) : Prop := {
  li_geo : geometry L;
  li_lock : lg_lock L = spinlock_init;
  li_busy : lg_busy L = 0;
  li_n : lh_n L = 0;
  li_live : d_live A = ∅;
  li_head : get32 (d_look A (head_key L)) 0 = 0
}.

Definition with_busy_log (v : Z) (L : log_t) : log_t :=
  {| lg_lock := lg_lock L; lg_start := lg_start L; lg_size := lg_size L; lg_busy := v;
     lg_dev := lg_dev L; lh_n := lh_n L; lh_sector := lh_sector L |}.
Definition with_lh_n (v : Z) (L : log_t) : log_t :=
  {| lg_lock := lg_lock L; lg_start := lg_start L; lg_size := lg_size L; lg_busy := lg_busy L;
     lg_dev := lg_dev L; lh_n := v; lh_sector := lh_sector L |}.

Lemma begin_trans_run t0 c L A :
  bc_rep t0 c A → log_idle L A →
  begin_trans {| lg_bc := c; log := L |} = Ok () {| lg_bc := c; log := with_busy_log 1 L |} ∧
  in_tx (with_busy_log 1 L) [] A.
Proof.
  intros Hrep [Hgeo Hlock Hbusy Hn Hl Hh]. split.
  - unfold begin_trans, log_acquire. cbn [lk_get lk_set lg_lkref].
    rewrite (bind_Ok _ _ _ _ _ (spinlock_acquire_free (λ s, lg_lock (log s)) set_lg_lock
      {| lg_bc := c; log := L |} Hlock)).
    kstep. cbn [log set_lg_lock set_log lg_busy]. rewrite Hbusy. simpl bool_decide. cbv iota.
    rewrite (bind_Ok _ _ _ _ _ (ret_Ok _ _)). kstep. unfold log_release, spinlock_release.
    rewrite modify_Ok. cbn [lk_get lk_set lg_lkref]. rewrite spinlock_release_free.
    unfold set_lg_lock, set_lg_busy, set_log, with_busy_log. simpl. by rewrite Hlock.
  - split; try done.
    + by destruct Hgeo; split.
    + split; [done|simpl; lia|done].
    + constructor.
    + intros k b v. by rewrite Hl.
    + by intros p ?%elem_of_nil.
    + rewrite (rep_idle_free t0 c A Hrep Hl). done.
Qed.

Lemma geometry_place L L' : geometry L → same_place L L' → geometry L'.
Proof. intros [] (H1 & H2 & H3). split; by rewrite ?H1, ?H3. Qed.

Lemma same_place_trans L1 L2 L3 : same_place L1 L2 → same_place L2 L3 → same_place L1 L3.
Proof. unfold same_place. intuition congruence. Qed.

Lemma log_area_place L L' w : same_place L L' → log_area L' w → log_area L w.
Proof. intros (H1 & _ & _) (i & Hi & Hw). exists i. split; [done|]. rewrite Hw. unfold log_key. by rewrite H1. Qed.

Definition tx_puts (ups txn : list (Z * list Z)) : list (Z * list Z) :=
  foldl (λ txn p, tx_put p.1 p.2 txn) txn ups.

Lemma tx_put_length_le sec d txn : (length (tx_put sec d txn) <= S (length txn))%nat.
Proof. rewrite tx_put_length. case_decide; lia. Qed.

Lemma tx_writes_run t0 ups c L txn A :
  bc_rep t0 c A → in_tx L txn A →
  Forall (λ p, 0 <= p.1 < lg_start L ∧ length p.2 = 512%nat) ups →
  (length txn + length ups <= 9)%nat → Z.of_nat (length txn + length ups) <= lg_size L - 1 →
  ∃ c' L' A' ws, tx_writes ups {| lg_bc := c; log := L |} = Ok () {| lg_bc := c'; log := L' |} ∧
    bc_rep t0 c' A' ∧ in_tx L' (tx_puts ups txn) A' ∧ extends ws A A' ∧ Forall (log_area L) ws ∧
    same_place L L'.
Proof.
  revert c L txn A. induction ups as [|[sec d] ups IH]; intros c L txn A Hrep Htx Hups H9 Hsz; simpl in *.
  - exists c, L, A, []. by split_and!.
  - apply Forall_cons in Hups as [[Hsec Hd] Hups]. simpl in Hsec, Hd.
    destruct (tx_write_run t0 L txn sec d A Htx Hsec Hd (ltac:(lia)) (ltac:(lia)) c Hrep)
      as (c1 & L1 & A1 & w & Hr & Hrep1 & Htx1 & Hext1 & Hw & Hpl & _).
    rewrite (bind_Ok _ _ _ _ _ Hr). pose proof (tx_put_length_le sec d txn) as Hle.
    destruct (IH c1 L1 _ A1 Hrep1 Htx1) as (c2 & L2 & A2 & ws & Hr2 & Hrep2 & Htx2 & Hext2 & Hws & Hpl2).
    + destruct Hpl as (-> & _). done.
    + lia.
    + destruct Hpl as (_ & -> & _). lia.
    + exists c2, L2, A2, (ws ++ [w]). split; [exact Hr2|]. split; [done|]. split; [done|].
      split; [by apply (extends_trans _ _ A A1)|]. split; [|by apply (same_place_trans _ L1)].
      apply Forall_app. split; [|by repeat constructor].
      eapply Forall_impl; [exact Hws|]. intros w'. by apply log_area_place.
Qed.

Lemma log_done_run t0 c L A :
  bc_rep t0 c A → lg_lock L = spinlock_init →
  ∃ c', (log_acquire ;; modify (set_lg_busy 0) ;; zoom (thread_wakeup (Some ChLog)) ;; log_release)
          {| lg_bc := c; log := L |} = Ok () {| lg_bc := c'; log := with_busy_log 0 L |} ∧
        bc_rep t0 c' A.
Proof.
  intros Hrep Hlock. unfold log_acquire. cbn [lk_get lk_set lg_lkref].
  rewrite (bind_Ok _ _ _ _ _ (spinlock_acquire_free (λ s, lg_lock (log s)) set_lg_lock
    {| lg_bc := c; log := L |} Hlock)).
  kstep. pose proof (br_calm t0 c A Hrep) as Hc.
  destruct (th_keeps_wakeup t0 (bc_th c) ChLog (calm_th t0 c Hc) (calm_sched t0 c Hc))
    as (t' & Hw & Hk & Hs).
  erewrite bind_Ok; [|eapply (zoom_Ok (S:=lg_state)); exact Hw].
  exists (put t' c). split; [|by apply bc_rep_th]. unfold log_release, spinlock_release.
  rewrite modify_Ok. cbn [lk_get lk_set lg_lkref]. rewrite spinlock_release_free.
  unfold set_lg_lock, set_lg_busy, set_log, with_busy_log. simpl. by rewrite Hlock.
Qed.

(** The header block [h] lists the sectors of [txn]. *)
Definition head_lists (h : list Z) (txn : list (Z * list Z)) : Prop :=
  get32 h 0 = Z.of_nat (length txn) ∧
  ∀ m p, txn !! m = Some p → get32 h (4 + 4 * Z.of_nat m) = p.1.

Lemma head_block_lists txn d start :
  length d = 512%nat → (length txn <= 10)%nat → start < 268435456 →
  Forall (λ p, 0 <= p.1 < start) txn → head_lists (head_block txn.*1 d) txn.
Proof.
  intros Hd Hl Hs Hh. split.
  - rewrite head_block_n by (rewrite ?length_fmap; done). by rewrite length_fmap.
  - intros m p Hp. apply head_block_sector; rewrite ?length_fmap; try done.
    + by rewrite list_lookup_fmap, Hp.
    + rewrite Forall_lookup in Hh. specialize (Hh m p Hp). unfold is_u32, W32. lia.
Qed.

Lemma d_look_length t0 c A k : bc_rep t0 c A → length (d_look A k) = 512%nat.
Proof.
  intros Hrep. unfold d_look. destruct (d_disk A !! k) eqn:E; [|done].
  by apply (br_block t0 c A Hrep k).
Qed.

(** Installing the blocks of a committed transaction and erasing it from the log. *)
Lemma install_erase_run t0 c L txn A :
  bc_rep t0 c A → geometry L → has_sectors L txn.*1 →
  Forall (λ p, 0 <= p.1 < lg_start L) txn →
  (∀ m p, txn !! m = Some p → d_look A (log_key L (Z.of_nat m)) = p.2) →
  (∀ k b v, d_live A !! k = Some (b, v) → B_BUSY v = false ∧ k ∈ (home <$> txn).*1) →
  (0 < d_free A)%nat →
  ((1 < d_free A)%nat ∨ ∀ p, p ∈ txn → is_Some (d_live A !! (home p).1)) →
  ∃ c' A' h, (install_trans ;; modify (set_lh_n 0) ;; write_head) {| lg_bc := c; log := L |} =
      Ok () {| lg_bc := c'; log := with_lh_n 0 L |} ∧
    bc_rep t0 c' A' ∧ d_live A' = ∅ ∧ head_lists h [] ∧
    extends ((head_key L, h) :: reverse (home <$> txn)) A A'.
Proof.
  intros Hrep Hgeo Hsecs Hhome Hblocks Hlive Hfree Hroom.
  destruct (install_trans_run t0 L txn A Hgeo Hsecs Hhome Hblocks) with (c := c)
    as (c1 & A1 & Hr1 & Hrep1 & Hext1 & Hl1); try done.
  { intros k b v Hk. apply Hlive in Hk as [? Hin]. split; [done|].
    apply home_key_lookup in Hin as [_ Hin]. apply list_elem_of_fmap in Hin as (p & -> & Hp).
    rewrite Forall_forall in Hhome. by apply Hhome. }
  assert (d_live A1 = ∅) as Hl.
  { apply map_eq. intros k. rewrite Hl1, lookup_empty. case_decide as Hd; [done|].
    destruct (d_live A !! k) as [[b v]|] eqn:E; [|done]. by apply Hlive in E as [_ ?]. }
  rewrite (bind_Ok _ _ _ _ _ Hr1). kstep.
  change (set_lh_n 0 {| lg_bc := c1; log := L |}) with {| lg_bc := c1; log := with_lh_n 0 L |}.
  destruct (write_head_run t0 (with_lh_n 0 L) [] ) with (c := c1) (A := A1) as (c2 & Hr2 & Hrep2); try done.
  - by destruct Hgeo; split.
  - split; [done|simpl; lia|done].
  - by rewrite Hl.
  - rewrite (rep_idle_free t0 c1 A1 Hrep1 Hl). lia.
  - eexists c2, _, _. split; [exact Hr2|]. split; [exact Hrep2|]. split; [done|].
    split; [|by apply (extends_trans _ [_] A A1)].
    apply (head_block_lists [] _ 0); [by eapply d_look_length|simpl; lia|lia|constructor].
Qed.

(** The disk writes of a commit, last first. *)
Definition commit_writes (L : log_t) (txn : list (Z * list Z)) (ws : list (Z * Z * list Z)) : Prop :=
  txn = [] ∧ ws = [] ∨
  ∃ h0 h1, head_lists h1 txn ∧ head_lists h0 [] ∧
    ws = ((head_key L, h0) :: reverse (home <$> txn)) ++ [(head_key L, h1)].

Lemma commit_trans_run t0 c L txn A :
  bc_rep t0 c A → in_tx L txn A → (length txn <= 9)%nat →
  ∃ c' L' A' ws, commit_trans {| lg_bc := c; log := L |} = Ok () {| lg_bc := c'; log := L' |} ∧
    bc_rep t0 c' A' ∧ log_idle L' A' ∧ same_place L L' ∧ extends ws A A' ∧ commit_writes L txn ws.
Proof.
  intros Hrep [Hgeo Hsecs Hlock Hbusy Hhome Hnd Hblocks Hlive Hpin Hfree Hhead] H9.
  pose proof (hs_n _ _ Hsecs) as Hn. rewrite length_fmap in Hn.
  unfold commit_trans. kstep. cbn [log]. destruct txn as [|p0 rest] eqn:Etx.
  { rewrite Hn. simpl bool_decide. cbv iota. rewrite (bind_Ok _ _ _ _ _ (ret_Ok _ _)).
    destruct (log_done_run t0 c L A Hrep Hlock) as (c' & Hr & Hrep').
    exists c', (with_busy_log 0 L), A, []. split; [exact Hr|]. split; [done|].
    split; [|split; [done|split; [apply extends_refl|by left]]].
    split; try done; [by destruct Hgeo; split|].
    apply map_eq. intros k. rewrite lookup_empty. destruct (d_live A !! k) as [[b v]|] eqn:E; [|done].
    apply Hlive in E as (_ & _ & _ & E). by apply elem_of_nil in E. }
  rewrite <- Etx in *. rewrite bool_decide_eq_true_2 by (rewrite Hn, Etx; simpl; lia).
  assert (∀ k b v, d_live A !! k = Some (b, v) → B_BUSY v = false ∧ k ∈ (home <$> txn).*1) as Hlive1.
  { intros k b v Hk. apply Hlive in Hk as (? & _ & Hr & Hin). split; [done|].
    apply home_key_lookup. split; [done|]. apply list_elem_of_fmap. by exists (k.2, b_data v). }
  assert (d_live A !! head_key L = None) as Hhk.
  { destruct (d_live A !! head_key L) as [[b v]|] eqn:E; [|done]. exfalso.
    apply Hlive in E as (_ & _ & _ & E). rewrite Forall_forall in Hhome. apply Hhome in E. simpl in E. lia. }
  destruct (write_head_run t0 L txn.*1 Hgeo Hsecs c A Hrep Hhk) as (c1 & Hr1 & Hrep1); [lia|].
  set (h1 := head_block txn.*1 (d_look A (head_key L))) in *.
  destruct (install_erase_run t0 c1 L txn (d_stored (head_key L) h1 A) Hrep1 Hgeo Hsecs Hhome)
    as (c2 & A2 & h0 & Hr2 & Hrep2 & Hl2 & Hh0 & Hext2).
  { intros m p Hp. unfold d_look. simpl. rewrite lookup_insert_ne; [by apply Hblocks|].
    unfold head_key, log_key. intros [=]. lia. }
  { done. }
  { simpl. lia. }
  { by right. }
  destruct (log_done_run t0 c2 (with_lh_n 0 L) A2 Hrep2 Hlock) as (c3 & Hr3 & Hrep3).
  assert ((write_head ;; install_trans ;; modify (set_lh_n 0) ;; write_head) {| lg_bc := c; log := L |} =
    Ok () {| lg_bc := c2; log := with_lh_n 0 L |}) as Hr
    by (rewrite (bind_Ok _ _ _ _ _ Hr1); exact Hr2).
  rewrite (bind_Ok _ _ _ _ _ Hr).
  eexists c3, _, A2, _. split; [exact Hr3|]. split; [done|].
  split; [|split; [done|split; [eapply (extends_trans [(head_key L, h1)]); [|exact Hext2]; done|]]].
  - split; try done; [by destruct Hgeo; split|]. unfold d_look. rewrite (proj2 Hext2). simpl.
    change (head_key (with_busy_log 0 (with_lh_n 0 L))) with (head_key L).
    rewrite lookup_insert_eq. apply Hh0.
  - right. exists h0, h1. split; [|done]. apply (head_block_lists txn _ (lg_start L)).
    + by eapply d_look_length.
    + lia.
    + destruct Hgeo. unfold LOGSIZE in *. lia.
    + done.
Qed.

Lemma d_drop_acquire k b A :
  d_live A !! k = None → (0 < d_free A)%nat → d_drop k (d_acquire k b A) = A.
Proof.
  intros Hk Hf. destruct A as [D W l n]. unfold d_drop, d_acquire. simpl in *. rewrite Hk.
  rewrite delete_insert_id by done. f_equal. lia.
Qed.

(** A sector that is only looked at. *)
Lemma look_run t0 c A k :
  bc_rep t0 c A → key_ok k → d_live A !! k = None → (0 < d_free A)%nat →
  ∃ b c1 c2, bufcache_read k.1 k.2 c = Ok b c1 ∧ buf_data b c1 = Ok (d_look A k) c1 ∧
    bufcache_release b c1 = Ok () c2 ∧ bc_rep t0 c2 A.
Proof.
  intros Hrep Hk Hl Hf. destruct (bufcache_read_run t0 c A k Hrep) as (b & c1 & Hr1 & Hrep1).
  { split; [done|]. by rewrite Hl. }
  assert (d_live (d_acquire k b A) !! k = Some (b, held_buf A k)) as Hk1 by apply lookup_insert_eq.
  assert (b_data (held_buf A k) = d_look A k) as Hd by (simpl; unfold content; by rewrite Hl).
  destruct (bufcache_release_clean t0 c1 _ k b (held_buf A k) Hrep1 Hk1) as (c2 & Hr2 & Hrep2); try done.
  { simpl. apply bool_decide_eq_false_2. rewrite Hl. by intros []. }
  exists b, c1, c2. split; [exact Hr1|]. split; [|split; [exact Hr2|]].
  - rewrite <- Hd. by apply (buf_data_run t0 c1 _ k b _ Hrep1).
  - eapply bc_rep_eq; [exact Hrep2|]. by apply d_drop_acquire.
Qed.

Lemma look_any t0 c A k :
  bc_rep t0 c A → can_read A k →
  ∃ b c1 c2, bufcache_read k.1 k.2 c = Ok b c1 ∧ buf_data b c1 = Ok (content A k) c1 ∧
    bufcache_release b c1 = Ok () c2 ∧ bc_rep t0 c2 A.
Proof.
  intros Hrep Hcan. pose proof Hcan as [Hk Hm]. destruct (d_live A !! k) as [[b0 v]|] eqn:E.
  2:{ unfold content. rewrite E. by apply look_run. }
  destruct (rep_live_ok t0 c A k b0 v Hrep E) as (Hb0 & Hv0 & Hkv & _ & Hval & _ & _ & Hlv).
  assert (B_DIRTY v = true) as Hd by (unfold is_live in Hlv; by rewrite Hm in Hlv).
  destruct (bufcache_read_run t0 c A k Hrep Hcan) as (b & c1 & Hr1 & Hrep1).
  destruct (bufcache_read_bufs t0 c A k Hrep Hcan) as (b' & t' & Hr1' & _ & _ & _ & Hu).
  rewrite Hr1 in Hr1'. injection Hr1' as <- _.
  assert (b0 = b) as -> by (apply Hu; [done|congruence]).
  assert (d_live (d_acquire k b A) !! k = Some (b, held_buf A k)) as Hk1 by apply lookup_insert_eq.
  destruct (bufcache_release_dirty t0 c1 _ k b (held_buf A k) Hrep1 Hk1) as (c2 & Hr2 & Hrep2); [done| |].
  { simpl. apply bool_decide_eq_true_2. by rewrite E. }
  exists b, c1, c2. split; [exact Hr1|]. split; [exact (buf_data_run t0 c1 _ k b _ Hrep1 Hk1)|].
  split; [exact Hr2|]. eapply bc_rep_eq; [exact Hrep2|].
  unfold d_set, d_acquire. simpl. rewrite E, insert_insert_eq, insert_id; [by destruct A|]. rewrite E.
  do 2 f_equal. unfold with_busy, held_buf, content. simpl. rewrite E.
  rewrite bool_decide_eq_true_2 by done. destruct v. simpl in *. by subst.
Qed.

Lemma read_head_run t0 c L A txn :
  bc_rep t0 c A → geometry L → d_live A = ∅ → head_lists (d_look A (head_key L)) txn →
  (length txn <= 10)%nat → Forall (λ p, 0 <= p.1 < lg_start L) txn →
  ∃ c' L', read_head {| lg_bc := c; log := L |} = Ok () {| lg_bc := c'; log := L' |} ∧
    bc_rep t0 c' A ∧ same_place L L' ∧ has_sectors L' txn.*1 ∧
    lg_lock L' = lg_lock L ∧ lg_busy L' = lg_busy L.
Proof.
  intros Hrep Hgeo Hl [Hn Hat] Hlen Hhome. pose proof (rep_idle_free t0 c A Hrep Hl) as Hf.
  destruct (look_run t0 c A (head_key L) Hrep) as (b & c1 & c2 & Hr1 & Hd & Hr2 & Hrep2);
    [by apply head_key_ok|by rewrite Hl|lia|].
  unfold read_head. kstep. cbn [log]. rewrite (geo_dev L Hgeo). change (u32 ROOTDEV) with ROOTDEV.
  rewrite u32_key by (destruct Hgeo; unfold LOGSIZE in *; lia).
  rewrite (zoom_bind _ _ _ _ _ _ Hr1), (zoom_bind _ _ _ _ _ _ Hd). kstep.
  set (h := d_look A (head_key L)) in *. rewrite Hn.
  assert (s32 (Z.of_nat (length txn)) = Z.of_nat (length txn)) as ->.
  { apply s32_small. unfold is_s32. lia. }
  change (set_lh_n (Z.of_nat (length txn)) {| lg_bc := c1; log := L |})
    with {| lg_bc := c1; log := with_lh_n (Z.of_nat (length txn)) L |}.
  destruct (for_range_inv (λ i s, ∃ mp, s = upd_lh_sector (λ _, mp)
        {| lg_bc := c1; log := with_lh_n (Z.of_nat (length txn)) L |} ∧
      ∀ m p, Z.of_nat m < i → txn !! m = Some p → alook 0 mp (Z.of_nat m) = p.1)
    (λ i, aset LOGSIZE upd_lh_sector i (s32 (get32 h (4 + 4 * i)))) 0 (Z.of_nat (length txn))
    {| lg_bc := c1; log := with_lh_n (Z.of_nat (length txn)) L |}) as (s & Hr & mp & -> & Hmp).
  - lia.
  - exists (lh_sector L). split; [done|]. intros. lia.
  - intros i s Hi (mp & -> & Hmp). rewrite aset_Ok by (unfold LOGSIZE; lia).
    eexists. split; [done|]. exists (<[i := s32 (get32 h (4 + 4 * i))]> mp). split; [done|].
    intros m p Hm Hp. rewrite alook_insert. case_decide as Hc; [|apply Hmp; [lia|done]].
    subst i. rewrite (Hat m p Hp). rewrite Forall_lookup in Hhome. specialize (Hhome m p Hp).
    apply s32_small. destruct Hgeo. unfold is_s32, LOGSIZE in *. lia.
  - rewrite (bind_Ok _ _ _ _ _ Hr). clear Hr. unfold upd_lh_sector, set_log. cbn [log lg_bc].
    eexists c2, _. split; [exact (zoom_bc _ _ _ _ _ Hr2)|]. split; [done|]. split; [done|].
    split; [|done]. split; rewrite ?length_fmap; [done..|].
    intros m sec. rewrite list_lookup_fmap. destruct (txn !! m) as [p|] eqn:Ep; [|done].
    intros [= <-]. apply Hmp; [|done]. apply lookup_lt_Some in Ep. lia.
Qed.

Lemma recover_run t0 c L A txn :
  bc_rep t0 c A → geometry L → lg_lock L = spinlock_init → lg_busy L = 0 → d_live A = ∅ →
  head_lists (d_look A (head_key L)) txn → (length txn <= 10)%nat →
  Forall (λ p, 0 <= p.1 < lg_start L) txn →
  (∀ m p, txn !! m = Some p → d_look A (log_key L (Z.of_nat m)) = p.2) →
  ∃ c' L' A' h, recover_from_log {| lg_bc := c; log := L |} = Ok () {| lg_bc := c'; log := L' |} ∧
    bc_rep t0 c' A' ∧ log_idle L' A' ∧ same_place L L' ∧
    extends ((head_key L, h) :: reverse (home <$> txn)) A A'.
Proof.
  intros Hrep Hgeo Hlock Hbusy Hl Hh Hlen Hhome Hblocks. unfold recover_from_log.
  destruct (read_head_run t0 c L A txn) as (c1 & L1 & Hr1 & Hrep1 & Hpl & Hsecs & Hlk1 & Hb1); try done.
  rewrite (bind_Ok _ _ _ _ _ Hr1). pose proof (geometry_place L L1 Hgeo Hpl) as Hgeo1.
  pose proof Hpl as (Hst & _ & _).
  assert (log_key L1 = log_key L ∧ head_key L1 = head_key L) as [Hkl Hkh].
  { unfold log_key, head_key. by rewrite Hst. }
  pose proof (rep_idle_free t0 c A Hrep Hl) as Hf.
  destruct (install_erase_run t0 c1 L1 txn A Hrep1 Hgeo1 Hsecs) as (c2 & A2 & h & Hr2 & Hrep2 & Hl2 & Hh0 & Hext);
    rewrite ?Hst, ?Hkl; try done; try lia.
  { intros k b v. by rewrite Hl. }
  exists c2, (with_lh_n 0 L1), A2, h. split; [exact Hr2|]. split; [done|].
  rewrite <- Hkh. split; [|done]. split; try done; [by destruct Hgeo1; split| | |].
  - simpl. congruence.
  - simpl. congruence.
  - unfold d_look. rewrite (proj2 Hext). simpl.
    change (head_key (with_lh_n 0 L1)) with (head_key L1). rewrite lookup_insert_eq. apply Hh0.
Qed.

(** ** Crashes *)

Definition dlook (D : gmap (Z * Z) (list Z)) (k : Z * Z) : list Z := default block0 (D !! k).

(** A disk whose super block places a log of [size] blocks at [start]. *)
Record log_disk (D : gmap (Z * Z) (list Z)) (start size : Z) : Prop := {
  ld_blocks k d : D !! k = Some d → length d = 512%nat;
  ld_size : get32 (dlook D (ROOTDEV, 1)) 0 = start + size;
  ld_nlog : get32 (dlook D (ROOTDEV, 1)) 12 = size;
  ld_start : 1 < start;
  ld_end : start + LOGSIZE < 268435456;
  ld_range : 0 <= size < 268435456
}.

(** The file system between transactions, with the contents [D] on the disk. *)
Definition log_ready (t0 : th_state) (s : lg_state) (D : gmap (Z * Z) (list Z)) (start size : Z) : Prop :=
  ∃ A, bc_rep t0 (lg_bc s) A ∧ d_disk A = D ∧ log_idle (log s) A ∧
       lg_start (log s) = start ∧ lg_size (log s) = size ∧ log_disk D start size.

(** The machine at boot, with the disk [D]. *)
Definition lg_boot (t : th_state) (D : gmap (Z * Z) (list Z)) : lg_state :=
  {| lg_bc := bc_ready t D; log := log_zero |}.

Definition same_homes (start : Z) (D D' : gmap (Z * Z) (list Z)) : Prop :=
  ∀ sec, 0 <= sec < start → dlook D' (ROOTDEV, sec) = dlook D (ROOTDEV, sec).

Lemma apply_writes_indep ws D D' k :
  k ∈ ws.*1 → apply_writes ws D !! k = apply_writes ws D' !! k.
Proof.
  induction ws as [|[k' d] ws IH]; simpl; [by intros ?%elem_of_nil|]. rewrite elem_of_cons.
  destruct (decide (k = k')) as [->|Hne]; [by rewrite !lookup_insert_eq|].
  intros [?|Hk]; [done|]. rewrite !lookup_insert_ne by done. auto.
Qed.

Lemma homes_in txn k : k ∈ (reverse (home <$> txn)).*1 ↔ k.1 = ROOTDEV ∧ k.2 ∈ txn.*1.
Proof. rewrite fmap_reverse, elem_of_reverse. apply home_key_lookup. Qed.

Lemma homes_nodup txn D p :
  NoDup txn.*1 → p ∈ txn →
  apply_writes (reverse (home <$> txn)) D !! (ROOTDEV, p.1) = Some p.2.
Proof.
  intros Hnd Hp. destruct (apply_writes_in (reverse (home <$> txn)) D (ROOTDEV, p.1)) as (d & Hd & ->).
  { apply homes_in. split; [done|]. apply list_elem_of_fmap. eauto. }
  apply elem_of_reverse, list_elem_of_fmap in Hd as (q & Hq & Hin). injection Hq as Hq1 Hq2. f_equal.
  apply list_elem_of_lookup in Hp as [i Hi]. apply list_elem_of_lookup in Hin as [j Hj].
  assert (i = j) as ->; [|congruence]. apply (NoDup_lookup _ i j p.1 Hnd);
    rewrite list_lookup_fmap, ?Hi, ?Hj; simpl; congruence.
Qed.

Lemma tx_put_homes sec d txn D n :
  NoDup txn.*1 →
  apply_writes (reverse (home <$> tx_put sec d txn)) D !! (ROOTDEV, n) =
  apply_writes (home (sec, d) :: reverse (home <$> txn)) D !! (ROOTDEV, n).
Proof.
  intros Hnd. pose proof (tx_put_nodup sec d txn Hnd) as Hnd'. simpl.
  destruct (decide (n = sec)) as [->|Hne].
  { rewrite lookup_insert_eq. exact (homes_nodup _ D (sec, d) Hnd' (tx_put_in sec d txn)). }
  rewrite lookup_insert_ne by congruence. destruct (decide (n ∈ txn.*1)) as [Hin|Hin].
  - apply list_elem_of_fmap in Hin as (p & -> & Hp). rewrite !homes_nodup; try done.
    by apply tx_put_keep.
  - rewrite !apply_writes_ne; [done| |]; rewrite homes_in; simpl; [tauto|].
    intros [_ Hin']. apply list_elem_of_fmap in Hin' as (p & -> & [-> | Hp]%tx_put_inv); [done|].
    apply Hin, list_elem_of_fmap. eauto.
Qed.

(** Several writes to one sector of a transaction amount to the last one. *)
Lemma tx_puts_homes ups D n :
  NoDup (tx_puts ups []).*1 ∧
  apply_writes (reverse (home <$> tx_puts ups [])) D !! (ROOTDEV, n) =
  apply_writes (reverse (home <$> ups)) D !! (ROOTDEV, n).
Proof.
  induction ups as [|[sec d] ups [Hnd IH]] using rev_ind; [split; [constructor|done]|].
  unfold tx_puts in *. rewrite foldl_app. simpl.
  split; [by apply tx_put_nodup|]. rewrite tx_put_homes by done.
  rewrite fmap_app, reverse_app. simpl. destruct (decide (n = sec)) as [->|].
  - by rewrite !lookup_insert_eq.
  - by rewrite !lookup_insert_ne by congruence.
Qed.

Lemma read_superblock_run t0 c A :
  bc_rep t0 c A → d_live A = ∅ →
  ∃ c' sb, read_superblock ROOTDEV c = Ok sb c' ∧ bc_rep t0 c' A ∧
    sb_size sb = get32 (d_look A (ROOTDEV, 1)) 0 ∧ sb_nlog sb = get32 (d_look A (ROOTDEV, 1)) 12.
Proof.
  intros Hrep Hl. pose proof (rep_idle_free t0 c A Hrep Hl) as Hf.
  destruct (look_run t0 c A (ROOTDEV, 1) Hrep) as (b & c1 & c2 & Hr1 & Hd & Hr2 & Hrep2);
    [by apply key_ok_root|by rewrite Hl|lia|].
  unfold read_superblock. change ((ROOTDEV, 1).1) with ROOTDEV in Hr1. change ((ROOTDEV, 1).2) with 1 in Hr1.
  rewrite (bind_Ok _ _ _ _ _ Hr1), (bind_Ok _ _ _ _ _ Hd), (bind_Ok _ _ _ _ _ Hr2).
  by eexists c2, _.
Qed.

(** Boot on a disk whose log header lists [txn]. *)
Lemma log_init_run t a D start size txn :
  sched_rep t a → log_disk D start size →
  head_lists (dlook D (ROOTDEV, start)) txn → (length txn <= 10)%nat →
  Forall (λ p, 2 <= p.1 < start) txn →
  (∀ m p, txn !! m = Some p → dlook D (ROOTDEV, start + Z.of_nat m + 1) = p.2) →
  ∃ s D', log_init (lg_boot t D) = Ok () s ∧ log_ready t s D' start size ∧
    ∀ sec, 0 <= sec < start →
      dlook D' (ROOTDEV, sec) = dlook (apply_writes (reverse (home <$> txn)) D) (ROOTDEV, sec).
Proof.
  intros Hsr [Hb Hsz Hnl Hst Hend Hrg] Hh Hlen Hhome Hblocks. unfold log_init. kstep.
  pose proof (bc_ready_rep t a D Hsr Hb) as Hrep.
  destruct (read_superblock_run t _ _ Hrep eq_refl) as (c1 & sb & Hr1 & Hrep1 & Hs1 & Hs2).
  unfold set_lg_lock, set_log, lg_boot. cbn [lg_bc log]. rewrite (zoom_bind _ _ _ _ _ _ Hr1). kstep.
  change (d_look (fresh_dev D) (ROOTDEV, 1)) with (dlook D (ROOTDEV, 1)) in Hs1, Hs2.
  rewrite Hs1, Hs2, Hsz, Hnl. replace (start + size - size) with start by lia.
  rewrite !s32_small by (unfold is_s32, LOGSIZE in *; lia).
  unfold set_geometry, set_log. cbn [lg_bc log]. set (L := Build_log_t _ _ _ _ _ _ _).
  destruct (recover_run t c1 L (fresh_dev D) txn Hrep1) as
    (c2 & L2 & A2 & h & Hr2 & Hrep2 & Hidle & (Hp1 & Hp2 & _) & Hext);
    [by split; [|simpl; lia|]|reflexivity|reflexivity|reflexivity|exact Hh|exact Hlen| |exact Hblocks|].
  { eapply Forall_impl; [exact Hhome|]. intros p Hp. simpl in *. lia. }
  exists {| lg_bc := c2; log := L2 |}, (d_disk A2). split; [exact Hr2|].
  assert (∀ sec, 0 <= sec < start → dlook (d_disk A2) (ROOTDEV, sec) =
    dlook (apply_writes (reverse (home <$> txn)) D) (ROOTDEV, sec)) as Hhomes.
  { intros sec Hsec. unfold dlook. rewrite (proj2 Hext). simpl. rewrite lookup_insert_ne; [done|].
    unfold head_key. simpl. intros [=]. lia. }
  split; [|exact Hhomes]. exists A2. split; [done|]. split; [done|]. split; [done|].
  split; [done|]. split; [done|].
  assert (dlook (d_disk A2) (ROOTDEV, 1) = dlook D (ROOTDEV, 1)) as Hsb.
  { rewrite Hhomes by lia. unfold dlook. rewrite apply_writes_ne; [done|]. rewrite homes_in. simpl.
    intros [_ Hin]. apply list_elem_of_fmap in Hin as (p & Hp & Hin). rewrite Forall_forall in Hhome.
    apply Hhome in Hin. lia. }
  split; rewrite ?Hsb; [|exact Hsz|exact Hnl|exact Hst|exact Hend|exact Hrg].
  intros k d. apply (br_block t c2 A2 Hrep2).
Qed.

(** The three kinds of crash points of a transaction. *)
Inductive crash_point (L : log_t) (txn : list (Z * list Z)) (wl wc : list (Z * Z * list Z)) :
    list (Z * Z * list Z) → Prop :=
  | crash_before ws : Forall (log_area L) ws → crash_point L txn wl wc ws
  | crash_committed mid h : head_lists h txn → (∀ k, k ∈ mid.*1 → k ∈ (home <$> txn).*1) →
      crash_point L txn wl wc (mid ++ (head_key L, h) :: wl)
  | crash_after h rest : wc = (head_key L, h) :: rest → head_lists h [] →
      crash_point L txn wl wc (wc ++ wl).

Lemma crash_points L txn wl wc ws1 ws2 :
  Forall (log_area L) wl → commit_writes L txn wc → wc ++ wl = ws1 ++ ws2 →
  crash_point L txn wl wc ws2.
Proof.
  intros Hwl Hwc Heq. apply app_eq_app in Heq as (l & [[H1 H2]|[H1 H2]]).
  - destruct l as [|x l _] using rev_ind.
    { simpl in H2. subst ws2. by apply crash_before. }
    destruct Hwc as [[_ ->]|(h0 & h1 & Hh1 & Hh0 & Hwc)]; [by destruct ws1; destruct l|].
    rewrite Hwc, app_assoc in H1. apply app_inj_tail in H1 as [H1 <-]. subst ws2.
    rewrite <- app_assoc. destruct ws1 as [|w ws1].
    + simpl in H1. subst l. change ([(head_key L, h1)] ++ wl) with ((head_key L, h1) :: wl).
      replace (((head_key L, h0) :: reverse (home <$> txn)) ++ (head_key L, h1) :: wl)
        with (wc ++ wl) by (rewrite Hwc, <- app_assoc; done).
      eapply crash_after; [|exact Hh0]. by rewrite Hwc.
    + injection H1 as _ H1. apply crash_committed; [done|]. intros k Hk.
      rewrite <- (elem_of_reverse k), <- fmap_reverse, H1, fmap_app. apply elem_of_app. by right.
  - apply crash_before. rewrite H2 in Hwl. by apply Forall_app in Hwl as [_ ?].
Qed.

Lemma log_area_homes start ws D :
  Forall (λ w, ∃ i, 0 <= i < LOGSIZE ∧ w.1 = (ROOTDEV, start + i + 1)) ws →
  ∀ sec, sec <= start → dlook (apply_writes ws D) (ROOTDEV, sec) = dlook D (ROOTDEV, sec).
Proof.
  intros Hws sec Hsec. unfold dlook. rewrite apply_writes_ne; [done|]. intros Hin.
  apply list_elem_of_fmap in Hin as (w & Hw & Hin). rewrite Forall_forall in Hws.
  destruct (Hws w Hin) as (i & Hi & Hk). rewrite Hk in Hw. injection Hw as Hw. lia.
Qed.

Lemma apply_writes_blocks ws D :
  (∀ k d, D !! k = Some d → length d = 512%nat) → Forall (λ w, length w.2 = 512%nat) ws →
  ∀ k d, apply_writes ws D !! k = Some d → length d = 512%nat.
Proof.
  intros HD Hws k d. destruct (decide (k ∈ ws.*1)) as [Hin|Hin].
  - destruct (apply_writes_in ws D k Hin) as (d' & Hd' & ->). intros [= <-].
    rewrite Forall_forall in Hws. exact (Hws _ Hd').
  - rewrite apply_writes_ne by done. apply HD.
Qed.

Definition tx_ok (start size : Z) (ups : list (Z * list Z)) : Prop :=
  Forall (λ p, 2 <= p.1 < start ∧ length p.2 = 512%nat) ups ∧
  (length ups <= 9)%nat ∧ Z.of_nat (length ups) <= size - 1.

Lemma tx_puts_home start ups :
  Forall (λ p, 2 <= p.1 < start ∧ length p.2 = 512%nat) ups →
  Forall (λ p, 2 <= p.1 < start) (tx_puts ups []) ∧ (length (tx_puts ups []) <= length ups)%nat.
Proof.
  induction ups as [|[sec d] ups IH] using rev_ind; [split; [constructor|done]|].
  rewrite Forall_app, Forall_singleton. intros [Hups [Hp _]]. destruct (IH Hups) as [IH1 IH2].
  unfold tx_puts in *. rewrite foldl_app. simpl in *. split.
  - apply Forall_forall. intros p [-> | Hin]%tx_put_inv; [done|]. rewrite Forall_forall in IH1. auto.
  - pose proof (tx_put_length_le sec d (foldl (λ txn p, tx_put p.1 p.2 txn) [] ups)) as Hl.
    rewrite length_app. simpl. lia.
Qed.

(** A transaction without a crash: its disk writes are those to the log, then those of
    the commit. *)
Lemma transaction_run t0 s D start size ups :
  log_ready t0 s D start size → tx_ok start size ups →
  ∃ s' wl wc, let txn := tx_puts ups [] in let D' := apply_writes (wc ++ wl) D in
    transaction ups s = Ok () s' ∧ log_ready t0 s' D' start size ∧
    dwrites (lg_bc s') = (wc ++ wl) ++ dwrites (lg_bc s) ∧
    Forall (λ w, length w.2 = 512%nat) (wc ++ wl) ∧
    Forall (log_area (log s)) wl ∧ commit_writes (log s) txn wc ∧
    (∀ m p, txn !! m = Some p →
       dlook (apply_writes wl D) (log_key (log s) (Z.of_nat m)) = p.2).
Proof.
  intros (A & Hrep & HA & Hidle & Hst & Hsz & Hld) (Hups & H9 & Hs1). destruct s as [c L]. simpl in *.
  unfold transaction. destruct (begin_trans_run t0 c L A Hrep Hidle) as [Hr0 Htx0].
  rewrite (bind_Ok _ _ _ _ _ Hr0).
  destruct (tx_writes_run t0 ups c (with_busy_log 1 L) [] A Hrep Htx0)
    as (c1 & L1 & A1 & wl & Hr1 & Hrep1 & Htx1 & Hext1 & Hwl & Hpl1).
  { eapply Forall_impl; [exact Hups|]. simpl. intros p ?. split; [lia|tauto]. }
  { simpl. lia. }
  { simpl. lia. }
  rewrite (bind_Ok _ _ _ _ _ Hr1).
  destruct (tx_puts_home start ups Hups) as [Hhome Hlen].
  destruct (commit_trans_run t0 c1 L1 _ A1 Hrep1 Htx1) as (c2 & L2 & A2 & wc & Hr2 & Hrep2 & Hid2 & Hpl2 & Hext2 & Hwc);
    [lia|].
  destruct Hpl1 as (Hp1 & Hp2 & _). destruct Hpl2 as (Hp3 & Hp4 & _). simpl in Hp1, Hp2.
  assert (log_key L1 = log_key L ∧ head_key L1 = head_key L) as [Hkl Hkh].
  { unfold log_key, head_key. by rewrite Hp1. }
  pose proof (extends_trans _ _ A A1 A2 Hext1 Hext2) as [Hlog Hdisk].
  exists {| lg_bc := c2; log := L2 |}, wl, wc. split; [exact Hr2|].
  assert (dlook (apply_writes (wc ++ wl) D) (ROOTDEV, 1) = dlook D (ROOTDEV, 1)) as Hsb.
  { rewrite apply_writes_app. destruct Hld as [_ _ _ Hl1 _ _].
    assert (Forall (λ w, ∃ i, 0 <= i < LOGSIZE ∧ w.1 = (ROOTDEV, start + i + 1)) wl) as Hwl'.
    { eapply Forall_impl; [exact Hwl|]. intros w (i & Hi & Hw). exists i. split; [done|].
      rewrite Hw. unfold log_key. simpl. by rewrite Hst. }
    rewrite <- (log_area_homes start wl D Hwl' 1) by lia.
    unfold dlook. rewrite apply_writes_ne; [done|]. rewrite Forall_forall in Hhome.
    destruct Hwc as [[_ ->]|(h0 & h1 & _ & _ & ->)]; [by intros ?%elem_of_nil|].
    rewrite fmap_app, elem_of_app, fmap_cons, elem_of_cons, homes_in. simpl.
    rewrite list_elem_of_singleton, Hkh. unfold head_key.
    intros [[[=]|[_ Hin]]|[=]]; [lia| |lia].
    apply list_elem_of_fmap in Hin as (p & Hp & Hin). apply Hhome in Hin. lia. }
  split.
  { exists A2. simpl. rewrite Hdisk, HA, Hp3, Hp4, Hp1, Hp2. destruct Hld. repeat (split; [done|]).
    split; rewrite ?Hsb; try done. intros k d. rewrite <- HA, <- Hdisk. apply (br_block t0 c2 A2 Hrep2). }
  split; [cbn [lg_bc]; by rewrite <- (br_log t0 c2 A2 Hrep2), Hlog, (br_log t0 c A Hrep)|].
  split.
  { pose proof (br_writes t0 c2 A2 Hrep2) as Hw. rewrite Hlog in Hw. by apply Forall_app in Hw as [? _]. }
  split; [exact Hwl|]. split.
  { unfold commit_writes in *. by rewrite Hkh in Hwc. }
  intros m p Hp. rewrite <- (it_blocks _ _ _ Htx1 m p Hp), Hkl. unfold d_look, dlook.
  by rewrite (proj2 Hext1), HA.
Qed.

Section Crash.
Context (t : th_state) (a : sched) (D : gmap (Z * Z) (list Z)) (start size : Z).
Context (L : log_t) (ups : list (Z * list Z)) (wl wc : list (Z * Z * list Z)).
Notation txn := (tx_puts ups []).
Context (Hsr : sched_rep t a) (Hld : log_disk D start size) (Hst : lg_start L = start).
Context (Hhead : get32 (dlook D (ROOTDEV, start)) 0 = 0).
Context (Hups : Forall (λ p, 2 <= p.1 < start ∧ length p.2 = 512%nat) ups) (H9 : (length ups <= 9)%nat).
Context (Hlens : Forall (λ w, length w.2 = 512%nat) (wc ++ wl)).
Context (Hwl : Forall (log_area L) wl) (Hwc : commit_writes L txn wc).
Context (Hblocks : ∀ m p, txn !! m = Some p →
           dlook (apply_writes wl D) (log_key L (Z.of_nat m)) = p.2).

Lemma log_writes_start ws :
  Forall (log_area L) ws →
  ∀ sec, sec <= start → dlook (apply_writes ws D) (ROOTDEV, sec) = dlook D (ROOTDEV, sec).
Proof using Hst.
  intros Hws. apply log_area_homes. eapply Forall_impl; [exact Hws|].
  intros w (i & Hi & Hw). exists i. split; [done|]. rewrite Hw. unfold log_key. by rewrite Hst.
Qed.

(** The home sectors after the whole transaction. *)
Lemma commit_homes X sec :
  0 <= sec < start → (∀ n, n <= start → dlook X (ROOTDEV, n) = dlook D (ROOTDEV, n)) →
  dlook (apply_writes wc X) (ROOTDEV, sec) = dlook (apply_writes (reverse (home <$> ups)) D) (ROOTDEV, sec).
Proof using Hst Hwc.
  clear Hlens H9 Hblocks Hups Hwl Hld Hhead Hsr.
  intros Hsec HX. destruct (tx_puts_homes ups D sec) as [_ Hh].
  transitivity (dlook (apply_writes (reverse (home <$> txn)) X) (ROOTDEV, sec)).
  - unfold dlook. destruct Hwc as [[-> ->]|(h0 & h1 & _ & _ & ->)]; [done|].
    simpl. rewrite lookup_insert_ne by (unfold head_key; rewrite Hst; intros [=]; lia).
    rewrite apply_writes_app. destruct (decide ((ROOTDEV, sec) ∈ (reverse (home <$> txn)).*1)) as [Hin|Hin].
    + f_equal. by apply apply_writes_indep.
    + rewrite !(apply_writes_ne (reverse _)) by done. simpl. rewrite lookup_insert_ne; [done|].
      unfold head_key. rewrite Hst. intros [=]. lia.
  - unfold dlook at 2. rewrite <- Hh. unfold dlook.
    destruct (decide ((ROOTDEV, sec) ∈ (reverse (home <$> txn)).*1)) as [Hin|Hin].
    + f_equal. by apply apply_writes_indep.
    + rewrite !apply_writes_ne by done. apply HX. lia.
Qed.

Lemma crash_disk ws1 ws :
  wc ++ wl = ws1 ++ ws → (dlook (apply_writes ws D) (ROOTDEV, 1) = dlook D (ROOTDEV, 1)) →
  log_disk (apply_writes ws D) start size.
Proof.
  intros Heq Hsb. destruct Hld. split; rewrite ?Hsb; try done.
  apply apply_writes_blocks; [done|]. rewrite Heq in Hlens. by apply Forall_app in Hlens as [_ ?].
Qed.

(** Recovery after a crash before the commit. *)
Lemma recover_before ws1 ws :
  wc ++ wl = ws1 ++ ws → Forall (log_area L) ws →
  ∃ s D', log_init (lg_boot t (apply_writes ws D)) = Ok () s ∧ log_ready t s D' start size ∧
    same_homes start D D'.
Proof using All.
  intros Heq Hws. pose proof (log_writes_start ws Hws) as Hsame.
  destruct (log_init_run t a (apply_writes ws D) start size []) as (s & D' & Hr & Hrd & Hh).
  - exact Hsr.
  - apply (crash_disk ws1); [done|]. apply Hsame. destruct Hld. lia.
  - rewrite Hsame by lia. split; [exact Hhead|done].
  - simpl. lia.
  - constructor.
  - done.
  - exists s, D'. split; [exact Hr|]. split; [exact Hrd|]. intros sec Hsec. rewrite Hh by done.
    apply Hsame. lia.
Qed.

(** Recovery after the header was written. *)
Lemma recover_committed ws1 mid h :
  wc ++ wl = ws1 ++ mid ++ (head_key L, h) :: wl → head_lists h txn →
  (∀ k, k ∈ mid.*1 → k ∈ (home <$> txn).*1) →
  ∃ s D', log_init (lg_boot t (apply_writes (mid ++ (head_key L, h) :: wl) D)) = Ok () s ∧
    log_ready t s D' start size ∧
    same_homes start (apply_writes (wc ++ wl) D) D'.
Proof using All.
  intros Heq Hh Hmid. destruct (tx_puts_home start ups Hups) as [Hhome Hlen].
  pose proof (log_writes_start wl Hwl) as Hsame.
  assert (∀ k, k.1 ≠ ROOTDEV ∨ k.2 ∉ txn.*1 → k ≠ head_key L →
    dlook (apply_writes (mid ++ (head_key L, h) :: wl) D) k = dlook (apply_writes wl D) k) as Hkeep.
  { intros k Hk Hne. unfold dlook. rewrite apply_writes_app, apply_writes_ne.
    - simpl. by rewrite lookup_insert_ne.
    - intros Hin%Hmid. rewrite home_key_lookup in Hin. tauto. }
  assert (∀ n, 2 <= n < start ∨ n ∉ txn.*1) as Htx.
  { intros n. destruct (decide (n ∈ txn.*1)) as [Hin|]; [left|by right].
    apply list_elem_of_fmap in Hin as (p & -> & Hp). rewrite Forall_forall in Hhome. by apply Hhome. }
  assert (dlook (apply_writes (mid ++ (head_key L, h) :: wl) D) (ROOTDEV, start) = h) as Hhd.
  { unfold dlook. rewrite apply_writes_app, apply_writes_ne.
    - simpl. unfold head_key. by rewrite Hst, lookup_insert_eq.
    - intros Hin%Hmid. rewrite home_key_lookup in Hin. simpl in Hin. destruct (Htx start); [lia|tauto]. }
  destruct (log_init_run t a (apply_writes (mid ++ (head_key L, h) :: wl) D) start size txn) as (s & D' & Hr & Hrd & Hh').
  - exact Hsr.
  - apply (crash_disk ws1); [done|]. rewrite Hkeep; [apply Hsame; destruct Hld; lia| |].
    + right. simpl. destruct (Htx 1); [lia|done].
    + unfold head_key. destruct Hld. intros [=]. lia.
  - by rewrite Hhd.
  - lia.
  - done.
  - intros m p Hp. rewrite <- (Hblocks m p Hp). unfold log_key. rewrite Hst. apply Hkeep.
    + right. simpl. destruct (Htx (start + Z.of_nat m + 1)); [lia|done].
    + unfold head_key. intros [=]. lia.
  - exists s, D'. split; [exact Hr|]. split; [exact Hrd|]. intros sec Hsec. rewrite Hh' by done.
    rewrite (apply_writes_app wc wl), (commit_homes (apply_writes wl D) sec Hsec Hsame).
    destruct (tx_puts_homes ups D sec) as [_ Hhm]. unfold dlook at 2. rewrite <- Hhm. unfold dlook.
    destruct (decide ((ROOTDEV, sec) ∈ (reverse (home <$> txn)).*1)) as [Hin|Hin].
    + f_equal. by apply apply_writes_indep.
    + rewrite !(apply_writes_ne (reverse _)) by done. rewrite homes_in in Hin. simpl in Hin.
      etransitivity; [apply Hkeep|apply Hsame; lia].
      * right. simpl. tauto.
      * unfold head_key. rewrite Hst. intros [=]. lia.
Qed.
End Crash.

Lemma log_ready_disk t0 s D start size : log_ready t0 s D start size → D = disk (lg_bc s).
Proof. intros (A & Hrep & <- & _). apply (br_disk t0 _ A Hrep). Qed.

Lemma log_ready_head t0 s D start size :
  log_ready t0 s D start size → get32 (dlook D (ROOTDEV, start)) 0 = 0.
Proof.
  intros (A & _ & <- & [_ _ _ _ _ Hh] & <- & _). exact Hh.
Qed.

(** Boot on the disk of a machine that was between transactions. *)
Lemma recover_idle t a t0 s D start size :
  sched_rep t a → log_ready t0 s D start size →
  ∃ s2 D2, log_init (lg_boot t D) = Ok () s2 ∧ log_ready t s2 D2 start size ∧ same_homes start D D2.
Proof.
  intros Hsr Hrd. pose proof (log_ready_head _ _ _ _ _ Hrd) as Hh.
  destruct Hrd as (A & _ & _ & _ & _ & _ & Hld).
  destruct (log_init_run t a D start size [] Hsr Hld) as (s2 & D2 & Hr & Hrd2 & Hhm);
    [by split; [exact Hh|intros ? ?]|simpl; lia|constructor|by intros ? ?|].
  exists s2, D2. split; [exact Hr|]. split; [exact Hrd2|exact Hhm].
Qed.

(** C1: transactions are atomic and durable under crashes.  Between transactions the
    file system can run any transaction of at most nine blocks; it ends between
    transactions with the blocks at their home sectors.  If the machine stops after any
    prefix of the disk writes of the transaction, boot with [log_init] on that disk ends
    between transactions, with either every home sector as before the transaction or
    every home sector as after it, and as after it when the transaction had returned. *)
Theorem transaction_crash_atomic t0 s D start size ups t a :
  log_ready t0 s D start size → tx_ok start size ups → sched_rep t a →
  ∃ s' ws, let D' := apply_writes ws D in
    transaction ups s = Ok () s' ∧ log_ready t0 s' D' start size ∧
    dwrites (lg_bc s') = ws ++ dwrites (lg_bc s) ∧
    same_homes start (apply_writes (reverse (home <$> ups)) D) D' ∧
    ∀ ws1 ws2, ws = ws1 ++ ws2 →
      ∃ s2 D2, log_init (lg_boot t (apply_writes ws2 D)) = Ok () s2 ∧
        log_ready t s2 D2 start size ∧
        (same_homes start D D2 ∨ same_homes start D' D2) ∧
        (ws1 = [] → same_homes start D' D2).
Proof.
  intros Hrd Htx Hsr. pose proof (log_ready_head _ _ _ _ _ Hrd) as Hh.
  destruct (transaction_run t0 s D start size ups Hrd Htx)
    as (s' & wl & wc & Hr & Hrd' & Hlog & Hlens & Hwl & Hwc & Hblocks).
  destruct Hrd as (A & _ & _ & _ & Hst & _ & Hld). destruct Htx as (Hups & H9 & _).
  exists s', (wc ++ wl). split; [exact Hr|]. split; [exact Hrd'|]. split; [exact Hlog|]. split.
  { intros sec Hsec. rewrite apply_writes_app.
    apply (commit_homes D start (log s) ups wc Hst Hwc _ sec Hsec).
    by apply (log_writes_start D start (log s) Hst wl Hwl). }
  intros ws1 ws2 Heq. destruct ws1 as [|w ws1].
  { simpl in Heq. subst ws2. destruct (recover_idle t a t0 s' _ start size Hsr Hrd') as (s2 & D2 & ? & ? & ?).
    exists s2, D2.
    split; [assumption|]. split; [assumption|]. split; [by right|done]. }
  destruct (crash_points (log s) _ wl wc (w :: ws1) ws2 Hwl Hwc Heq) as [ws Hws|mid h Hhl Hmid|h rest Hc Hhl].
  - destruct (recover_before t a D start size (log s) ups wl wc Hsr Hld Hst Hh Hups H9 Hlens Hwl Hwc Hblocks
      (w :: ws1) ws Heq Hws)
      as (s2 & D2 & ? & ? & ?). exists s2, D2.
    split; [assumption|]. split; [assumption|]. split; [by left|done].
  - destruct (recover_committed t a D start size (log s) ups wl wc Hsr Hld Hst Hh Hups H9 Hlens Hwl Hwc Hblocks
      (w :: ws1) mid h Heq Hhl Hmid) as (s2 & D2 & ? & ? & ?). exists s2, D2.
    split; [assumption|]. split; [assumption|]. split; [by right|done].
  - exfalso. apply (f_equal length) in Heq. simpl in Heq. rewrite !length_app in Heq. lia.
Qed.

(** A disk of 31 blocks with a log of 11. *)
Definition sample_disk : gmap (Z * Z) (list Z) :=
  {[ (ROOTDEV, 1) := put32 12 11 (put32 0 31 block0) ]}.

Definition sample_fs : lg_state :=
  match log_init (lg_boot three sample_disk) with Ok _ s => s | _ => lg_boot three ∅ end.

Lemma sample_log_disk : log_disk sample_disk 20 11.
Proof.
  split; try done. intros k d. unfold sample_disk. rewrite lookup_singleton_Some. by intros [_ <-].
Qed.

Lemma sample_fs_ready : log_ready three sample_fs (disk (lg_bc sample_fs)) 20 11.
Proof.
  destruct (log_init_run three three_a sample_disk 20 11 []) as (s & D & Hr & Hrd & _);
    [apply three_rep|apply sample_log_disk|by split|simpl; lia|constructor|done|].
  unfold sample_fs. rewrite Hr. pose proof (log_ready_disk _ _ _ _ _ Hrd) as HD. by subst D.
Qed.

Lemma transaction_crash_atomic_witness :
  ∃ s' ws, let D' := apply_writes ws (disk (lg_bc sample_fs)) in
    transaction [(5, replicate 512 1); (6, replicate 512 2); (5, replicate 512 3)] sample_fs = Ok () s' ∧
    log_ready three s' D' 20 11 ∧
    dwrites (lg_bc s') = ws ++ dwrites (lg_bc sample_fs) ∧
    same_homes 20 (apply_writes (reverse (home <$>
        [(5, replicate 512 1); (6, replicate 512 2); (5, replicate 512 3)])) (disk (lg_bc sample_fs))) D' ∧
    ∀ ws1 ws2, ws = ws1 ++ ws2 →
      ∃ s2 D2, log_init (lg_boot solo (apply_writes ws2 (disk (lg_bc sample_fs)))) = Ok () s2 ∧
        log_ready solo s2 D2 20 11 ∧
        (same_homes 20 (disk (lg_bc sample_fs)) D2 ∨ same_homes 20 D' D2) ∧
        (ws1 = [] → same_homes 20 D' D2).
Proof.
  apply (transaction_crash_atomic three sample_fs (disk (lg_bc sample_fs)) 20 11 _ solo solo_a).
  - apply sample_fs_ready.
  - split; [|split; [simpl; lia|simpl; lia]]. repeat constructor; simpl; lia.
  - apply solo_rep.
Defined.
