(* ===== verification/Inode.v ===== *)
(** * Disk blocks and inodes (kern/fs/block.c, inode.c, dinode.h, inode.h)

    The bitmap of allocated blocks, the inodes on the disk and the cache of inodes in
    use.  An inode pointer is an index of the cache; a wait for a locked inode gives
    the processor away. *)

From S2P Require Import Prelude Spinlock Mboot PMem Container PageTable TCB TQueue Thread Sched.
From S2P Require Import BufCache Log.

Definition NINODE : Z := 50.
Definition NDEV : Z := 10.
Definition ROOTINO : Z := 1.
Definition NDIRECT : Z := 12.
Definition NINDIRECT : Z := 128.
Definition MAXFILE : Z := NDIRECT + NINDIRECT.
Definition IPB : Z := 8.
Definition BPB : Z := BSIZE * 8.
Definition IBLOCK (i : Z) : Z := i / IPB + 2.
Definition BBLOCK (b ninodes : Z) : Z := b / BPB + ninodes / IPB + 3.
Definition T_DIR : Z := 1.
Definition T_FILE : Z := 2.
Definition T_DEV : Z := 3.

Definition s16 (x : Z) : Z := (x + 32768) mod 65536 - 32768.

(** The two bits of the flag word are two fields. *)
Record inode := {
  i_dev : Z; i_inum : Z; i_ref : Z; I_BUSY : bool; I_VALID : bool;
  i_type : Z; i_major : Z; i_minor : Z; i_nlink : Z; i_size : Z; i_addrs : gmap Z Z
}.

Definition inode_zero : inode :=
  {| i_dev := 0; i_inum := 0; i_ref := 0; I_BUSY := false; I_VALID := false; i_type := 0;
     i_major := 0; i_minor := 0; i_nlink := 0; i_size := 0; i_addrs := ∅ |}.

Record in_state := { in_lg : lg_state; ic_lock : spinlock_t; icache : gmap Z inode }.

#[global, program] Instance in_lg_lens : Lens in_state lg_state := {|
  view := in_lg;
  put l s := {| in_lg := l; ic_lock := ic_lock s; icache := icache s |}
|}.
Next Obligation. done. Qed.
Next Obligation. by intros []. Qed.
Next Obligation. done. Qed.

#[global] Instance in_bc_lens : Lens in_state bc_state := lens_comp in_lg_lens lg_bc_lens.
#[global] Instance in_th_lens : Lens in_state th_state := lens_comp in_lg_lens lg_th_lens.

Definition set_ic_lock (lk : spinlock_t) (s : in_state) : in_state :=
  {| in_lg := in_lg s; ic_lock := lk; icache := icache s |}.
Definition upd_icache (f : gmap Z inode → gmap Z inode) (s : in_state) : in_state :=
  {| in_lg := in_lg s; ic_lock := ic_lock s; icache := f (icache s) |}.

Definition ic_lkref : lockref in_state := {| lk_get := ic_lock; lk_set := set_ic_lock |}.
Definition ic_acquire : M in_state () := spinlock_acquire ic_lock set_ic_lock.
Definition ic_release : M in_state () := spinlock_release ic_lock set_ic_lock.

Definition iget (ip : Z) : M in_state inode := aget NINODE inode_zero icache ip.
Definition iset (ip : Z) (v : inode) : M in_state () := aset NINODE upd_icache ip v.
Definition iupd (ip : Z) (f : inode → inode) : M in_state () := v ← iget ip; iset ip (f v).

Definition with_ref (r : Z) (v : inode) : inode :=
  {| i_dev := i_dev v; i_inum := i_inum v; i_ref := r; I_BUSY := I_BUSY v; I_VALID := I_VALID v;
     i_type := i_type v; i_major := i_major v; i_minor := i_minor v; i_nlink := i_nlink v;
     i_size := i_size v; i_addrs := i_addrs v |}.
Definition with_flags (busy valid : bool) (v : inode) : inode :=
  {| i_dev := i_dev v; i_inum := i_inum v; i_ref := i_ref v; I_BUSY := busy; I_VALID := valid;
     i_type := i_type v; i_major := i_major v; i_minor := i_minor v; i_nlink := i_nlink v;
     i_size := i_size v; i_addrs := i_addrs v |}.
Definition with_type (ty : Z) (v : inode) : inode :=
  {| i_dev := i_dev v; i_inum := i_inum v; i_ref := i_ref v; I_BUSY := I_BUSY v; I_VALID := I_VALID v;
     i_type := ty; i_major := i_major v; i_minor := i_minor v; i_nlink := i_nlink v;
     i_size := i_size v; i_addrs := i_addrs v |}.
Definition with_node (major minor nlink : Z) (v : inode) : inode :=
  {| i_dev := i_dev v; i_inum := i_inum v; i_ref := i_ref v; I_BUSY := I_BUSY v; I_VALID := I_VALID v;
     i_type := i_type v; i_major := major; i_minor := minor; i_nlink := nlink;
     i_size := i_size v; i_addrs := i_addrs v |}.
Definition with_nlink (nlink : Z) (v : inode) : inode := with_node (i_major v) (i_minor v) nlink v.
Definition with_size (size : Z) (v : inode) : inode :=
  {| i_dev := i_dev v; i_inum := i_inum v; i_ref := i_ref v; I_BUSY := I_BUSY v; I_VALID := I_VALID v;
     i_type := i_type v; i_major := i_major v; i_minor := i_minor v; i_nlink := i_nlink v;
     i_size := size; i_addrs := i_addrs v |}.
Definition with_addr (i a : Z) (v : inode) : inode :=
  {| i_dev := i_dev v; i_inum := i_inum v; i_ref := i_ref v; I_BUSY := I_BUSY v; I_VALID := I_VALID v;
     i_type := i_type v; i_major := i_major v; i_minor := i_minor v; i_nlink := i_nlink v;
     i_size := i_size v; i_addrs := <[i := a]> (i_addrs v) |}.

(** ** Blocks *)

Definition block_zero (dev bno : Z) : M lg_state () :=
  bp ← zoom (bufcache_read dev bno);
  zoom (buf_set_data bp block0) ;;
  log_write bp ;;
  zoom (bufcache_release bp).

(** The first clear bit of the bitmap block [d] for the blocks from [b + bi] on. *)
Fixpoint free_bit (fuel : nat) (d : list Z) (b size bi : Z) : option Z :=
  match fuel with
  | O => None
  | S fuel =>
      if bool_decide (b + bi < size) then
        if bool_decide (Z.land (get8 d (bi / 8)) (Z.shiftl 1 (bi mod 8)) = 0) then Some bi
        else free_bit fuel d b size (bi + 1)
      else None
  end.

(** The loop over the bitmap blocks.  The last line of [block_alloc] is a message
    without the call that prints it: the function returns no value. *)
Fixpoint balloc_loop (fuel : nat) (dev : Z) (sb : superblock) (b : Z) : M lg_state Z :=
  match fuel with
  | O => undef
  | S fuel =>
      if bool_decide (b < sb_size sb) then
        bp ← zoom (bufcache_read dev (BBLOCK b (sb_ninodes sb)));
        d ← zoom (buf_data bp);
        match free_bit (Z.to_nat BPB) d b (sb_size sb) 0 with
        | Some bi =>
            zoom (buf_set_data bp (put8 (bi / 8)
              (Z.lor (get8 d (bi / 8)) (Z.shiftl 1 (bi mod 8))) d)) ;;
            log_write bp ;;
            zoom (bufcache_release bp) ;;
            block_zero dev (b + bi) ;;
            mret (b + bi)
        | None =>
            zoom (bufcache_release bp) ;;
            balloc_loop fuel dev sb (b + BPB)
        end
      else undef
  end.

Definition block_alloc (dev : Z) : M lg_state Z :=
  sb ← zoom (read_superblock dev);
  balloc_loop (Z.to_nat (sb_size sb / BPB + 2)) dev sb 0.

Definition block_free (dev b : Z) : M lg_state () :=
  sb ← zoom (read_superblock dev);
  bp ← zoom (bufcache_read dev (BBLOCK b (sb_ninodes sb)));
  d ← zoom (buf_data bp);
  let bi := b mod BPB in
  let m := Z.shiftl 1 (bi mod 8) in
  if bool_decide (Z.land (get8 d (bi / 8)) m = 0) then kern_panic
  else
    zoom (buf_set_data bp (put8 (bi / 8) (Z.ldiff (get8 d (bi / 8)) m) d)) ;;
    log_write bp ;;
    zoom (bufcache_release bp).

(** ** Inodes on the disk *)

Definition dinode_off (inum : Z) : Z := inum mod IPB * 64.

(** [memmove(dip->addrs, ip->addrs, sizeof(ip->addrs))] and the way back. *)
Definition put_addrs (off : Z) (addrs : gmap Z Z) (d : list Z) : list Z :=
  foldl (λ d i, put32 (off + 12 + 4 * i) (alook 0 addrs i) d) d (seqZ 0 (NDIRECT + 1)).

Definition get_addrs (off : Z) (d : list Z) : gmap Z Z :=
  list_to_map ((λ i, (i, get32 d (off + 12 + 4 * i))) <$> seqZ 0 (NDIRECT + 1)).

Definition put_dinode (off : Z) (v : inode) (d : list Z) : list Z :=
  put_addrs off (i_addrs v)
    (put32 (off + 8) (i_size v) (put16 (off + 6) (i_nlink v) (put16 (off + 4) (i_minor v)
      (put16 (off + 2) (i_major v) (put16 off (i_type v) d))))).

Definition get_dinode (off : Z) (d : list Z) (v : inode) : inode :=
  {| i_dev := i_dev v; i_inum := i_inum v; i_ref := i_ref v; I_BUSY := I_BUSY v; I_VALID := I_VALID v;
     i_type := s16 (get16 d off); i_major := s16 (get16 d (off + 2));
     i_minor := s16 (get16 d (off + 4)); i_nlink := s16 (get16 d (off + 6));
     i_size := get32 d (off + 8); i_addrs := get_addrs off d |}.

(** [memset(dip, 0, sizeof( *dip))]. *)
Definition zero_dinode (off : Z) (d : list Z) : list Z :=
  foldl (λ d i, put8 (off + i) 0 d) d (seqZ 0 64).

Definition inode_init : M in_state () := modify (set_ic_lock spinlock_init).

(** The scan of [inode_get]: the entry of the inode, and the first empty one. *)
Fixpoint iscan (fuel : nat) (s : in_state) (dev inum ip : Z) (empty : option Z) : option Z * option Z :=
  match fuel with
  | O => (None, empty)
  | S fuel =>
      let v := alook inode_zero (icache s) ip in
      if bool_decide (i_ref v > 0) && bool_decide (i_dev v = dev) && bool_decide (i_inum v = inum)
      then (Some ip, empty)
      else iscan fuel s dev inum (ip + 1)
             (match empty with
              | None => if bool_decide (i_ref v = 0) then Some ip else None
              | Some e => Some e
              end)
  end.

Definition inode_get (dev inum : Z) : M in_state Z :=
  ic_acquire ;;
  s ← gets id;
  match iscan (Z.to_nat NINODE) s dev inum 0 None with
  | (Some ip, _) =>
      iupd ip (λ v, with_ref (i_ref v + 1) v) ;;
      ic_release ;;
      mret ip
  | (None, None) => kern_panic
  | (None, Some ip) =>
      iupd ip (λ v, {| i_dev := dev; i_inum := inum; i_ref := 1; I_BUSY := false; I_VALID := false;
                       i_type := i_type v; i_major := i_major v; i_minor := i_minor v;
                       i_nlink := i_nlink v; i_size := i_size v; i_addrs := i_addrs v |}) ;;
      ic_release ;;
      mret ip
  end.

Definition inode_dup (ip : Z) : M in_state Z :=
  ic_acquire ;;
  iupd ip (λ v, with_ref (i_ref v + 1) v) ;;
  ic_release ;;
  mret ip.

(** The loop of [inode_alloc] from [inum] on. *)
Fixpoint ialloc_loop (fuel : nat) (dev type : Z) (ninodes inum : Z) : M in_state Z :=
  match fuel with
  | O => kern_panic
  | S fuel =>
      if bool_decide (inum < ninodes) then
        bp ← zoom (bufcache_read dev (IBLOCK inum));
        d ← zoom (buf_data bp);
        if bool_decide (get16 d (dinode_off inum) = 0) then
          zoom (buf_set_data bp (put16 (dinode_off inum) type (zero_dinode (dinode_off inum) d))) ;;
          zoom (log_write bp) ;;
          zoom (bufcache_release bp) ;;
          inode_get dev inum
        else
          zoom (bufcache_release bp) ;;
          ialloc_loop fuel dev type ninodes (inum + 1)
      else kern_panic
  end.

Definition inode_alloc (dev type : Z) : M in_state Z :=
  sb ← zoom (read_superblock dev);
  ialloc_loop (Z.to_nat (sb_ninodes sb)) dev type (sb_ninodes sb) 1.

Definition inode_update (ip : Z) : M in_state () :=
  v ← iget ip;
  bp ← zoom (bufcache_read (i_dev v) (IBLOCK (i_inum v)));
  d ← zoom (buf_data bp);
  zoom (buf_set_data bp (put_dinode (dinode_off (i_inum v)) v d)) ;;
  zoom (log_write bp) ;;
  zoom (bufcache_release bp).

Definition inode_lock (ip : option Z) : M in_state () :=
  match ip with
  | None => kern_panic
  | Some ip =>
      v ← iget ip;
      if bool_decide (i_ref v < 1) then kern_panic
      else
        ic_acquire ;;
        (if I_BUSY v then thread_sleep (ChInode ip) (Some ic_lkref) else mret ()) ;;
        iupd ip (λ v, with_flags true (I_VALID v) v) ;;
        ic_release ;;
        v ← iget ip;
        if I_VALID v then mret ()
        else
          bp ← zoom (bufcache_read (i_dev v) (IBLOCK (i_inum v)));
          d ← zoom (buf_data bp);
          iupd ip (get_dinode (dinode_off (i_inum v)) d) ;;
          zoom (bufcache_release bp) ;;
          iupd ip (λ v, with_flags (I_BUSY v) true v) ;;
          v ← iget ip;
          if bool_decide (i_type v = 0) then kern_panic else mret ()
  end.

Definition inode_unlock (ip : option Z) : M in_state () :=
  match ip with
  | None => kern_panic
  | Some ip =>
      v ← iget ip;
      if negb (I_BUSY v) || bool_decide (i_ref v < 1) then kern_panic
      else
        ic_acquire ;;
        iupd ip (λ v, with_flags false (I_VALID v) v) ;;
        zoom (thread_wakeup (Some (ChInode ip))) ;;
        ic_release
  end.

(** ** Contents *)

Definition bmap (ip bn : Z) : M in_state Z :=
  v ← iget ip;
  if bool_decide (bn < NDIRECT) then
    let addr := alook 0 (i_addrs v) bn in
    if bool_decide (addr = 0) then
      addr ← zoom (block_alloc (i_dev v));
      iupd ip (with_addr bn addr) ;;
      mret addr
    else mret addr
  else
    let bn := bn - NDIRECT in
    if bool_decide (bn < NINDIRECT) then
      addr ← (if bool_decide (alook 0 (i_addrs v) NDIRECT = 0) then
                addr ← zoom (block_alloc (i_dev v));
                iupd ip (with_addr NDIRECT addr) ;;
                mret addr
              else mret (alook 0 (i_addrs v) NDIRECT));
      bp ← zoom (bufcache_read (i_dev v) addr);
      d ← zoom (buf_data bp);
      addr ← (if bool_decide (get32 d (4 * bn) = 0) then
                addr ← zoom (block_alloc (i_dev v));
                d ← zoom (buf_data bp);
                zoom (buf_set_data bp (put32 (4 * bn) addr d)) ;;
                zoom (log_write bp) ;;
                mret addr
              else mret (get32 d (4 * bn)));
      zoom (bufcache_release bp) ;;
      mret addr
    else kern_panic.

Definition inode_trunc (ip : Z) : M in_state () :=
  for_range 0 NDIRECT (λ i,
    v ← iget ip;
    if bool_decide (alook 0 (i_addrs v) i ≠ 0) then
      zoom (block_free (i_dev v) (alook 0 (i_addrs v) i)) ;;
      iupd ip (with_addr i 0)
    else mret ()) ;;
  v ← iget ip;
  (if bool_decide (alook 0 (i_addrs v) NDIRECT ≠ 0) then
     bp ← zoom (bufcache_read (i_dev v) (alook 0 (i_addrs v) NDIRECT));
     for_range 0 NINDIRECT (λ j,
       d ← zoom (buf_data bp);
       if bool_decide (get32 d (4 * j) ≠ 0) then zoom (block_free (i_dev v) (get32 d (4 * j)))
       else mret ()) ;;
     zoom (bufcache_release bp) ;;
     zoom (block_free (i_dev v) (alook 0 (i_addrs v) NDIRECT)) ;;
     iupd ip (with_addr NDIRECT 0)
   else mret ()) ;;
  iupd ip (with_size 0) ;;
  inode_update ip.

Definition inode_put (ip : Z) : M in_state () :=
  ic_acquire ;;
  v ← iget ip;
  (if bool_decide (i_ref v = 1) && I_VALID v && bool_decide (i_nlink v = 0) then
     if I_BUSY v then kern_panic
     else
       iupd ip (λ v, with_flags true (I_VALID v) v) ;;
       ic_release ;;
       inode_trunc ip ;;
       iupd ip (with_type 0) ;;
       inode_update ip ;;
       ic_acquire ;;
       iupd ip (with_flags false false) ;;
       zoom (thread_wakeup (Some (ChInode ip)))
   else mret ()) ;;
  iupd ip (λ v, with_ref (i_ref v - 1) v) ;;
  ic_release.

Definition inode_unlockput (ip : Z) : M in_state () :=
  inode_unlock (Some ip) ;;
  inode_put ip.

Record stat_t := { st_type : Z; st_dev : Z; st_ino : Z; st_nlink : Z; st_size : Z }.

Definition inode_stat (ip : Z) : M in_state stat_t :=
  v ← iget ip;
  mret {| st_type := i_type v; st_dev := i_dev v; st_ino := i_inum v;
          st_nlink := i_nlink v mod 65536; st_size := i_size v |}.

(** [devsw] is a null pointer: no code assigns it. *)
Definition dev_rw {A} (v : inode) (err : A) : M in_state A :=
  if bool_decide (i_major v < 0) || bool_decide (i_major v >= NDEV) then mret err else undef.

Fixpoint iread_loop (fuel : nat) (ip off n : Z) : M in_state (list Z) :=
  match fuel with
  | O => mret []
  | S fuel =>
      if bool_decide (n <= 0) then mret []
      else
        v ← iget ip;
        addr ← bmap ip (off / BSIZE);
        bp ← zoom (bufcache_read (i_dev v) addr);
        let m := Z.min n (BSIZE - off mod BSIZE) in
        d ← zoom (buf_data bp);
        zoom (bufcache_release bp) ;;
        rest ← iread_loop fuel ip (off + m) (n - m);
        mret (take (Z.to_nat m) (drop (Z.to_nat (off mod BSIZE)) d) ++ rest)
  end.

(** The result and the bytes stored from [dst] on. *)
Definition inode_read (ip off n : Z) : M in_state (Z * list Z) :=
  v ← iget ip;
  if bool_decide (i_type v = T_DEV) then dev_rw v (-1, [])
  else if bool_decide (off > i_size v) || bool_decide (u32 (off + n) < off) then mret (-1, [])
  else
    let n := if bool_decide (u32 (off + n) > i_size v) then i_size v - off else n in
    data ← iread_loop (Z.to_nat (n / BSIZE + 2)) ip off n;
    mret (s32 n, data).

(** The final offset of the loop. *)
Fixpoint iwrite_loop (fuel : nat) (ip off : Z) (src : list Z) (n : Z) : M in_state Z :=
  match fuel with
  | O => mret off
  | S fuel =>
      if bool_decide (n <= 0) then mret off
      else
        v ← iget ip;
        addr ← bmap ip (off / BSIZE);
        bp ← zoom (bufcache_read (i_dev v) addr);
        let m := Z.min n (BSIZE - off mod BSIZE) in
        let o := Z.to_nat (off mod BSIZE) in
        d ← zoom (buf_data bp);
        zoom (buf_set_data bp (take o d ++ take (Z.to_nat m) src ++ drop (o + Z.to_nat m) d)) ;;
        zoom (log_write bp) ;;
        zoom (bufcache_release bp) ;;
        iwrite_loop fuel ip (off + m) (drop (Z.to_nat m) src) (n - m)
  end.

Definition inode_write (ip : Z) (src : list Z) (off n : Z) : M in_state Z :=
  v ← iget ip;
  if bool_decide (i_type v = T_DEV) then dev_rw v (-1)
  else if bool_decide (off > i_size v) || bool_decide (u32 (off + n) < off) then mret (-1)
  else if bool_decide (u32 (off + n) > MAXFILE * BSIZE) then mret (-1)
  else
    off' ← iwrite_loop (Z.to_nat (n / BSIZE + 2)) ip off src n;
    v ← iget ip;
    (if bool_decide (n > 0) && bool_decide (off' > i_size v) then
       iupd ip (with_size off') ;;
       inode_update ip
     else mret ()) ;;
    mret (s32 n).

(** ** The layout of an inode on the disk *)

Definition outside (off n j : Z) : Prop := j < off ∨ off + n <= j.

Lemma get8_put16_out d i v j :
  0 <= i → 0 <= j → i + 2 <= Z.of_nat (length d) → outside i 2 j → get8 (put16 i v d) j = get8 d j.
Proof.
  intros ?? Hl Ho. unfold outside in Ho. unfold put16.
  repeat first [rewrite get8_put8 by (rewrite ?length_put8; lia) | rewrite decide_False by lia]. done.
Qed.

Lemma get8_put32_out d i v j :
  0 <= i → 0 <= j → i + 4 <= Z.of_nat (length d) → outside i 4 j → get8 (put32 i v d) j = get8 d j.
Proof.
  intros ?? Hl Ho. unfold outside in Ho. unfold put32.
  repeat first [rewrite get8_put8 by (rewrite ?length_put8; lia) | rewrite decide_False by lia]. done.
Qed.

Lemma length_put16 i v d : length (put16 i v d) = length d.
Proof. unfold put16. by rewrite !length_put8. Qed.

Lemma get16_put16_eq d i v :
  0 <= i → i + 2 <= Z.of_nat (length d) → get16 (put16 i v d) i = v mod 65536.
Proof.
  intros ? Hl. unfold get16, put16.
  repeat first [rewrite get8_put8 by (rewrite ?length_put8; lia)
               |rewrite decide_True by lia | rewrite decide_False by lia].
  unfold u8. rewrite Z.shiftr_div_pow2 by lia. change (2 ^ 8) with 256.
  Z.div_mod_to_equations. lia.
Qed.

(** Two blocks that agree on the bytes of a word have the same word there. *)
Lemma get16_ext d d' i : get8 d i = get8 d' i → get8 d (i + 1) = get8 d' (i + 1) → get16 d i = get16 d' i.
Proof. unfold get16. congruence. Qed.

Lemma get32_ext d d' i : (∀ j, i <= j < i + 4 → get8 d j = get8 d' j) → get32 d i = get32 d' i.
Proof. intros H. unfold get32. rewrite !H by lia. done. Qed.

Section Addrs.
Context (off : Z) (addrs : gmap Z Z).
Notation put_all := (foldl (λ d i, put32 (off + 12 + 4 * i) (alook 0 addrs i) d)).

Lemma length_put_all l d : length (put_all d l) = length d.
Proof. revert d. induction l as [|i l IH]; intros d; simpl; [done|]. by rewrite IH, length_put32. Qed.

Lemma get8_put_all l d j :
  0 <= off → 0 <= j → Forall (λ i, 0 <= i ∧ off + 12 + 4 * i + 4 <= Z.of_nat (length d) ∧
                                   outside (off + 12 + 4 * i) 4 j) l →
  get8 (put_all d l) j = get8 d j.
Proof.
  revert d. induction l as [|i l IH]; intros d Ho Hj Hl; simpl; [done|].
  apply Forall_cons in Hl as [(? & ? & ?) Hl]. rewrite IH; [apply get8_put32_out; (lia || done)|done|done|].
  by rewrite length_put32.
Qed.

Lemma get32_put_all l d i :
  0 <= off → NoDup l → i ∈ l →
  Forall (λ i, 0 <= i ∧ off + 12 + 4 * i + 4 <= Z.of_nat (length d)) l →
  get32 (put_all d l) (off + 12 + 4 * i) = u32 (alook 0 addrs i).
Proof.
  revert d. induction l as [|x l IH]; intros d Ho Hnd Hi Hl; [by apply elem_of_nil in Hi|]. simpl.
  apply NoDup_cons in Hnd as [Hx Hnd]. apply Forall_cons in Hl as [[Hx0 Hx1] Hl].
  destruct (decide (i = x)) as [->|Hne].
  - transitivity (get32 (put32 (off + 12 + 4 * x) (alook 0 addrs x) d) (off + 12 + 4 * x));
      [|apply get32_put32_eq; lia].
    apply get32_ext. intros j Hj. apply get8_put_all; [done|lia|].
    rewrite length_put32. apply Forall_forall. intros y Hy. rewrite Forall_forall in Hl.
    specialize (Hl y Hy). unfold outside. destruct (decide (y = x)); [congruence|lia].
  - apply elem_of_cons in Hi as [?|Hi]; [done|]. apply IH; try done. by rewrite length_put32.
Qed.
End Addrs.

Lemma length_put_dinode off v d : length (put_dinode off v d) = length d.
Proof.
  unfold put_dinode, put_addrs. by rewrite length_put_all, length_put32, !length_put16.
Qed.

Lemma addrs_range off (d : list Z) (Q : Z → Prop) :
  0 <= off → off + 64 <= Z.of_nat (length d) → (∀ i, 0 <= i < 13 → Q i) →
  Forall (λ i, 0 <= i ∧ off + 12 + 4 * i + 4 <= Z.of_nat (length d) ∧ Q i) (seqZ 0 (NDIRECT + 1)).
Proof.
  intros Ho Hl HQ. apply Forall_forall. intros i Hi. apply elem_of_seqZ in Hi.
  unfold NDIRECT in Hi. split; [lia|]. split; [lia|]. apply HQ. lia.
Qed.

Section Dinode.
Context (off : Z) (v : inode) (d : list Z).
Context (Hoff : 0 <= off) (Hlen : off + 64 <= Z.of_nat (length d)).

Lemma put_dinode_out j : 0 <= j → outside off 64 j → get8 (put_dinode off v d) j = get8 d j.
Proof.
  intros Hj Ho. unfold outside in Ho. unfold put_dinode, put_addrs.
  rewrite get8_put_all; [|done|done|].
  - rewrite get8_put32_out by (rewrite ?length_put16; unfold outside; lia).
    rewrite !get8_put16_out by (rewrite ?length_put16; unfold outside; lia). done.
  - apply addrs_range; [done|by rewrite length_put32, !length_put16|]. intros. unfold outside. lia.
Qed.

Lemma put_dinode_addr i : 0 <= i < 13 → get32 (put_dinode off v d) (off + 12 + 4 * i) = u32 (alook 0 (i_addrs v) i).
Proof.
  intros Hi. unfold put_dinode, put_addrs. apply get32_put_all; [done|apply NoDup_seqZ| |].
  - apply elem_of_seqZ. unfold NDIRECT. lia.
  - rewrite length_put32, !length_put16.
    eapply Forall_impl; [by apply (addrs_range off d (λ _, True))|]. simpl. tauto.
Qed.

Lemma put_dinode_head j :
  off <= j < off + 12 → get8 (put_dinode off v d) j =
    get8 (put32 (off + 8) (i_size v) (put16 (off + 6) (i_nlink v) (put16 (off + 4) (i_minor v)
      (put16 (off + 2) (i_major v) (put16 off (i_type v) d))))) j.
Proof.
  intros Hj. unfold put_dinode, put_addrs. apply get8_put_all; [done|lia|].
  apply addrs_range; [done|by rewrite length_put32, !length_put16|]. intros. unfold outside. lia.
Qed.
End Dinode.

(** The 16-bit fields. *)
Lemma get16_through off d v :
  0 <= off → off + 64 <= Z.of_nat (length d) →
  get16 (put_dinode off v d) off = i_type v mod 65536 ∧
  get16 (put_dinode off v d) (off + 2) = i_major v mod 65536 ∧
  get16 (put_dinode off v d) (off + 4) = i_minor v mod 65536 ∧
  get16 (put_dinode off v d) (off + 6) = i_nlink v mod 65536 ∧
  get32 (put_dinode off v d) (off + 8) = u32 (i_size v).
Proof.
  intros Ho Hl.
  split; [|split; [|split; [|split]]];
    [rewrite <- (get16_put16_eq d off)
    |rewrite <- (get16_put16_eq (put16 off (i_type v) d) (off + 2))
    |rewrite <- (get16_put16_eq (put16 (off + 2) (i_major v) (put16 off (i_type v) d)) (off + 4))
    |rewrite <- (get16_put16_eq (put16 (off + 4) (i_minor v) (put16 (off + 2) (i_major v)
        (put16 off (i_type v) d))) (off + 6))
    |rewrite <- (get32_put32_eq (put16 (off + 6) (i_nlink v) (put16 (off + 4) (i_minor v)
        (put16 (off + 2) (i_major v) (put16 off (i_type v) d)))) (off + 8))];
    rewrite ?length_put16; try lia; try apply get16_ext; try (apply get32_ext; intros j Hj);
    rewrite put_dinode_head by lia;
    repeat first [rewrite get8_put32_out by (rewrite ?length_put16; unfold outside; lia)]; try done;
    repeat (rewrite get8_put16_out by (rewrite ?length_put16; unfold outside; lia)); done.
Qed.

Definition is_s16 (x : Z) : Prop := -32768 <= x < 32768.

Lemma s16_mod x : is_s16 x → s16 (x mod 65536) = x.
Proof. unfold is_s16, s16. intros ?. Z.div_mod_to_equations. lia. Qed.

(** An inode whose fields fit their types. *)
Record inode_fits (v : inode) : Prop := {
  if_type : is_s16 (i_type v); if_major : is_s16 (i_major v); if_minor : is_s16 (i_minor v);
  if_nlink : is_s16 (i_nlink v); if_size : is_u32 (i_size v);
  if_addrs i : 0 <= i < 13 → is_u32 (alook 0 (i_addrs v) i)
}.

(** The part of an inode that is on the disk. *)
Definition same_dinode (v w : inode) : Prop :=
  i_type w = i_type v ∧ i_major w = i_major v ∧ i_minor w = i_minor v ∧ i_nlink w = i_nlink v ∧
  i_size w = i_size v ∧ ∀ i, 0 <= i < 13 → alook 0 (i_addrs w) i = alook 0 (i_addrs v) i.

Lemma get_addrs_look off d i : 0 <= i < 13 → alook 0 (get_addrs off d) i = get32 d (off + 12 + 4 * i).
Proof.
  intros Hi. unfold get_addrs, alook.
  rewrite (elem_of_list_to_map_1' _ i (get32 d (off + 12 + 4 * i))); [done|..].
  - intros y Hy. apply list_elem_of_fmap in Hy as (x & Hx & _). by injection Hx as <- <-.
  - apply list_elem_of_fmap. exists i. split; [done|]. apply elem_of_seqZ. unfold NDIRECT. lia.
Qed.

Lemma dinode_off_range inum : 0 <= dinode_off inum ∧ dinode_off inum + 64 <= 512.
Proof. unfold dinode_off, IPB. Z.div_mod_to_equations. lia. Qed.

(** Reading back what was put. *)
Lemma get_put_dinode inum v w d :
  length d = 512%nat → inode_fits v →
  same_dinode v (get_dinode (dinode_off inum) (put_dinode (dinode_off inum) v d) w).
Proof.
  intros Hl [H1 H2 H3 H4 H5 H6]. destruct (dinode_off_range inum) as [Ho1 Ho2].
  destruct (get16_through (dinode_off inum) d v) as (G1 & G2 & G3 & G4 & G5); [lia|lia|].
  unfold same_dinode. simpl. rewrite G1, G2, G3, G4, G5, !s16_mod, u32_small by done.
  repeat (split; [done|]). intros i Hi. rewrite get_addrs_look, put_dinode_addr by lia.
  apply u32_small. auto.
Qed.

(** The other inodes of the block keep their bytes. *)
Lemma put_dinode_other inum inum' v d j :
  length d = 512%nat → inum' mod IPB ≠ inum mod IPB → 0 <= j < 64 →
  get8 (put_dinode (dinode_off inum) v d) (dinode_off inum' + j) = get8 d (dinode_off inum' + j).
Proof.
  intros Hl Hne Hj. destruct (dinode_off_range inum), (dinode_off_range inum').
  apply put_dinode_out; try lia. unfold outside, dinode_off, IPB in *. lia.
Qed.

(** ** Runs *)

Definition ilook (s : in_state) (ip : Z) : inode := alook inode_zero (icache s) ip.

Definition in_mk (c : bc_state) (L : log_t) (lk : spinlock_t) (m : gmap Z inode) : in_state :=
  {| in_lg := {| lg_bc := c; log := L |}; ic_lock := lk; icache := m |}.

Lemma iget_Ok s ip : 0 <= ip < NINODE → iget ip s = Ok (ilook s ip) s.
Proof. apply aget_Ok. Qed.

Lemma iset_Ok s ip v : 0 <= ip < NINODE → iset ip v s = Ok () (upd_icache <[ip := v]> s).
Proof. apply aset_Ok. Qed.

Lemma iupd_Ok s ip f :
  0 <= ip < NINODE → iupd ip f s = Ok () (upd_icache <[ip := f (ilook s ip)]> s).
Proof. intros Hi. unfold iupd. by rewrite (bind_Ok _ _ _ _ _ (iget_Ok s ip Hi)), iset_Ok. Qed.

#[export] Hint Resolve iget_Ok iset_Ok iupd_Ok : kern.

(** The same on an explicit state. *)
Lemma iget_mk c L lk m ip :
  0 <= ip < NINODE → iget ip (in_mk c L lk m) = Ok (alook inode_zero m ip) (in_mk c L lk m).
Proof. apply (iget_Ok (in_mk c L lk m)). Qed.

Lemma iupd_mk c L lk m ip f :
  0 <= ip < NINODE →
  iupd ip f (in_mk c L lk m) = Ok () (in_mk c L lk (<[ip := f (alook inode_zero m ip)]> m)).
Proof. apply (iupd_Ok (in_mk c L lk m)). Qed.

Lemma zoom_in {X} (m : M bc_state X) c c' a L lk i :
  m c = Ok a c' → zoom m (in_mk c L lk i) = Ok a (in_mk c' L lk i).
Proof. intros H. unfold zoom. simpl. by rewrite H. Qed.

Lemma ic_acquire_mk c L m : ic_acquire (in_mk c L spinlock_init m) = Ok () (in_mk c L locked m).
Proof. done. Qed.

Lemma ic_release_mk c L lk m : ic_release (in_mk c L lk m) = Ok () (in_mk c L spinlock_init m).
Proof. done. Qed.

(** [inode_update] is a change of the block of the inode. *)
Lemma inode_update_modify s ip v :
  0 <= ip < NINODE → ilook s ip = v → i_dev v = ROOTDEV →
  inode_update ip s = zoom (tx_modify (IBLOCK (i_inum v)) (put_dinode (dinode_off (i_inum v)) v)) s.
Proof.
  intros Hip Hv Hdev. unfold inode_update. rewrite (bind_Ok _ _ _ _ _ (iget_Ok s ip Hip)), Hv, Hdev.
  unfold tx_modify. rewrite zoom_mbind. unfold in_bc_lens.
  assert (∀ X (m : M bc_state X) s, zoom (H:=lens_comp in_lg_lens lg_bc_lens) m s =
    zoom (H:=in_lg_lens) (zoom m : M lg_state X) s) as Hz by (intros; apply zoom_comp).
  apply bind_ext; [apply Hz|]. intros b s1. rewrite zoom_mbind.
  apply bind_ext; [apply Hz|]. intros d s2. rewrite zoom_mbind.
  apply bind_ext; [apply Hz|]. intros _ s3. rewrite zoom_mbind.
  apply bind_ext; [done|]. intros _ s4. apply Hz.
Qed.

Definition loaded (inum : Z) (d : list Z) (w : inode) : inode :=
  with_flags true true (get_dinode (dinode_off inum) d (with_flags true (I_VALID w) w)).

(** [inode_lock] on an entry that was not read yet. *)
Lemma inode_lock_load t0 c L A m jp w :
  bc_rep t0 c A → 0 <= jp < NINODE → alook inode_zero m jp = w →
  i_dev w = ROOTDEV → 1 <= i_ref w → I_BUSY w = false → I_VALID w = false →
  can_read A (ROOTDEV, IBLOCK (i_inum w)) →
  let w' := loaded (i_inum w) (content A (ROOTDEV, IBLOCK (i_inum w))) w in
  i_type w' ≠ 0 →
  ∃ c' m', inode_lock (Some jp) (in_mk c L spinlock_init m) = Ok () (in_mk c' L spinlock_init m') ∧
    bc_rep t0 c' A ∧ alook inode_zero m' jp = w' ∧
    ∀ q, q ≠ jp → alook inode_zero m' q = alook inode_zero m q.
Proof.
  intros Hrep Hjp Hw Hdev Href Hbz Hval Hcan w' Hty. unfold inode_lock.
  rewrite (bind_Ok _ _ _ _ _ (iget_mk _ _ _ _ jp Hjp)), Hw, Hbz, bool_decide_eq_false_2 by lia.
  rewrite (bind_Ok _ _ _ _ _ (ic_acquire_mk _ _ _)), (bind_Ok _ _ _ _ _ (ret_Ok _ _)).
  rewrite (bind_Ok _ _ _ _ _ (iupd_mk _ _ _ _ jp _ Hjp)), Hw, (bind_Ok _ _ _ _ _ (ic_release_mk _ _ _ _)).
  rewrite (bind_Ok _ _ _ _ _ (iget_mk _ _ _ _ jp Hjp)), alook_insert_eq.
  cbn [I_VALID i_dev i_inum with_flags]. rewrite Hval, Hdev.
  destruct (look_any t0 c A _ Hrep Hcan) as (b & c1 & c2 & Hr1 & Hd & Hr2 & Hrep2).
  rewrite (bind_Ok _ _ _ _ _ (zoom_in _ _ _ _ _ _ _ Hr1)), (bind_Ok _ _ _ _ _ (zoom_in _ _ _ _ _ _ _ Hd)).
  rewrite (bind_Ok _ _ _ _ _ (iupd_mk _ _ _ _ jp _ Hjp)), alook_insert_eq, insert_insert_eq.
  rewrite (bind_Ok _ _ _ _ _ (zoom_in _ _ _ _ _ _ _ Hr2)).
  rewrite (bind_Ok _ _ _ _ _ (iupd_mk _ _ _ _ jp _ Hjp)), alook_insert_eq, insert_insert_eq.
  rewrite (bind_Ok _ _ _ _ _ (iget_mk _ _ _ _ jp Hjp)), alook_insert_eq.
  rewrite bool_decide_eq_false_2 by (unfold w', loaded in Hty; by rewrite Hval in Hty).
  eexists c2, _. split; [reflexivity|]. split; [done|].
  split; [rewrite alook_insert_eq; unfold w', loaded; by rewrite Hval|].
  intros q Hq. by rewrite alook_insert_ne.
Qed.

(** What [inode_update] writes, [inode_lock] reads.  Inside a transaction, updating
    the disk copy of an inode and then locking an entry of the cache that was not read
    from the disk loads the same type, device numbers, link count, size and block
    addresses, locks the entry and leaves every other entry alone. *)
Theorem inode_update_lock t0 c L txn A m ip jp :
  let v := alook inode_zero m ip in
  let w := alook inode_zero m jp in
  bc_rep t0 c A → in_tx L txn A → (length txn <= 8)%nat → Z.of_nat (length txn) < lg_size L - 1 →
  0 <= ip < NINODE → 0 <= jp < NINODE →
  i_dev v = ROOTDEV → i_dev w = ROOTDEV → i_inum w = i_inum v →
  0 <= i_inum v → IBLOCK (i_inum v) < lg_start L → inode_fits v → i_type v ≠ 0 →
  1 <= i_ref w → I_BUSY w = false → I_VALID w = false →
  ∃ c' L' A' m',
    (inode_update ip ;; inode_lock (Some jp)) (in_mk c L spinlock_init m) =
      Ok () (in_mk c' L' spinlock_init m') ∧
    bc_rep t0 c' A' ∧
    in_tx L' (tx_put (IBLOCK (i_inum v))
      (put_dinode (dinode_off (i_inum v)) v (content A (ROOTDEV, IBLOCK (i_inum v)))) txn) A' ∧
    same_dinode v (alook inode_zero m' jp) ∧
    I_BUSY (alook inode_zero m' jp) = true ∧ I_VALID (alook inode_zero m' jp) = true ∧
    ∀ q, q ≠ jp → alook inode_zero m' q = alook inode_zero m q.
Proof.
  intros v w Hrep Htx Hlen Hsz Hip Hjp Hdv Hdw Hnum Hpos Hblk Hfit Hty Href Hbz Hval.
  assert (0 <= IBLOCK (i_inum v) < lg_start L) as Hsec.
  { split; [|done]. unfold IBLOCK, IPB. Z.div_mod_to_equations. lia. }
  destruct (tx_modify_run t0 L txn (IBLOCK (i_inum v)) (put_dinode (dinode_off (i_inum v)) v) A c Hrep Htx Hsec Hlen Hsz)
    as (c1 & L1 & A1 & Hr1 & Hrep1 & Htx1 & Hpl & Hcont & _).
  { intros d Hd. by rewrite length_put_dinode. }
  assert (inode_update ip (in_mk c L spinlock_init m) = Ok () (in_mk c1 L1 spinlock_init m)) as Hup.
  { rewrite (inode_update_modify _ ip v) by done.
    exact (zoom_Ok (S:=in_state) _ (in_mk c L spinlock_init m) _ _ Hr1). }
  rewrite (bind_Ok _ _ _ _ _ Hup).
  pose proof (get_put_dinode (i_inum v) v (with_flags true (I_VALID w) w)
    (content A (ROOTDEV, IBLOCK (i_inum v))) (content_length t0 c A _ Hrep) Hfit) as Hsame.
  destruct (inode_lock_load t0 c1 L1 A1 m jp w) as (c2 & m2 & Hr2 & Hrep2 & Hw2 & Hoth); try done.
  - rewrite Hnum. apply (in_tx_can_read L1 _ A1 _ Htx1); [by destruct Hpl as (-> & _)|].
    etransitivity; [apply tx_put_length_le|]. lia.
  - unfold loaded. rewrite Hnum, Hcont. destruct Hsame as (Ht & _). simpl in Ht |- *. congruence.
  - rewrite Hnum, Hcont in Hw2. exists c2, L1, A1, m2. rewrite Hw2.
    split; [exact Hr2|]. split; [done|]. split; [done|]. split; [exact Hsame|]. done.
Qed.

(** ** The cache of inodes *)

(** One entry for an inode that is in use. *)
Definition icache_wf (m : gmap Z inode) : Prop :=
  (∀ ip, 0 <= ip < NINODE → 0 <= i_ref (alook inode_zero m ip)) ∧
  ∀ ip jp, 0 <= ip < NINODE → 0 <= jp < NINODE →
    0 < i_ref (alook inode_zero m ip) → 0 < i_ref (alook inode_zero m jp) →
    i_dev (alook inode_zero m ip) = i_dev (alook inode_zero m jp) →
    i_inum (alook inode_zero m ip) = i_inum (alook inode_zero m jp) → ip = jp.

Definition is_cached (m : gmap Z inode) (dev inum ip : Z) : Prop :=
  0 < i_ref (alook inode_zero m ip) ∧ i_dev (alook inode_zero m ip) = dev ∧
  i_inum (alook inode_zero m ip) = inum.

Lemma iscan_spec s dev inum fuel ip empty :
  match iscan fuel s dev inum ip empty with
  | (Some jp, _) => ip <= jp < ip + Z.of_nat fuel ∧ is_cached (icache s) dev inum jp
  | (None, e) =>
      (∀ jp, ip <= jp < ip + Z.of_nat fuel → ¬ is_cached (icache s) dev inum jp) ∧
      match e with
      | Some jp => empty = Some jp ∨
          ip <= jp < ip + Z.of_nat fuel ∧ i_ref (alook inode_zero (icache s) jp) = 0
      | None => empty = None ∧
          ∀ jp, ip <= jp < ip + Z.of_nat fuel → i_ref (alook inode_zero (icache s) jp) ≠ 0
      end
  end.
Proof.
  revert ip empty. induction fuel as [|fuel IH]; intros ip empty; simpl.
  { split; [intros; lia|]. destruct empty; [by left|]. split; [done|intros; lia]. }
  destruct (bool_decide _ && _ && _) eqn:E.
  { apply andb_true_iff in E as [[E1%bool_decide_eq_true E2%bool_decide_eq_true]%andb_true_iff
      E3%bool_decide_eq_true]. split; [lia|]. split; [lia|done]. }
  assert (¬ is_cached (icache s) dev inum ip) as Hno.
  { intros (H1 & H2 & H3). rewrite !bool_decide_eq_true_2 in E by (try done; lia). done. }
  clear E. set (e1 := match empty with Some e => Some e | None => _ end).
  specialize (IH (ip + 1) e1). destruct (iscan fuel s dev inum (ip + 1) e1) as [[jp|] e].
  { destruct IH as [? ?]. split; [lia|done]. }
  destruct IH as [IH1 IH2]. split.
  { intros jp Hjp. destruct (decide (jp = ip)) as [->|]; [done|]. apply IH1. lia. }
  destruct e as [jp|].
  - destruct IH2 as [IH2|[? ?]]; [|right; split; [lia|done]]. unfold e1 in IH2.
    destruct empty; [by left|]. case_bool_decide as Hz; [|done]. injection IH2 as <-. right. split; [lia|done].
  - destruct IH2 as [IH2 IH3]. unfold e1 in IH2. destruct empty; [done|].
    case_bool_decide as Hz; [done|]. split; [done|]. intros jp Hjp.
    destruct (decide (jp = ip)) as [->|]; [done|]. apply IH3. lia.
Qed.

Lemma icache_wf_insert m ip v :
  icache_wf m → 0 <= ip < NINODE → 0 <= i_ref v →
  (0 < i_ref v → ∀ jp, 0 <= jp < NINODE → jp ≠ ip → ¬ is_cached m (i_dev v) (i_inum v) jp) →
  icache_wf (<[ip := v]> m).
Proof.
  intros [H1 H2] Hip Hr Hno. split.
  - intros jp Hjp. rewrite alook_insert. case_decide; [done|auto].
  - intros i j Hi Hj. rewrite !alook_insert. repeat case_decide; subst; try done.
    + intros Hp1 Hp2 Hd Hn. exfalso. by apply (Hno Hp1 j).
    + intros Hp1 Hp2 Hd Hn. exfalso. by apply (Hno Hp2 i).
    + by apply H2.
Qed.

(** The entry that [inode_get] makes for an inode that is not in the cache. *)
Definition fresh_inode (dev inum : Z) (v : inode) : inode :=
  {| i_dev := dev; i_inum := inum; i_ref := 1; I_BUSY := false; I_VALID := false;
     i_type := i_type v; i_major := i_major v; i_minor := i_minor v;
     i_nlink := i_nlink v; i_size := i_size v; i_addrs := i_addrs v |}.

(** [inode_get] keeps one entry per inode and counts its users.  If the inode is in
    the cache its entry is returned with one more reference; otherwise a free entry is
    set up with one reference and nothing read yet; with no free entry the kernel
    panics.  No other entry changes, and there is still one entry per inode in use. *)
Theorem inode_get_unique c L m dev inum :
  icache_wf m →
  match inode_get dev inum (in_mk c L spinlock_init m) with
  | Ok ip s' =>
      0 <= ip < NINODE ∧ (∃ v, s' = in_mk c L spinlock_init (<[ip := v]> m) ∧
        let u := alook inode_zero m ip in
        (is_cached m dev inum ip ∧ v = with_ref (i_ref u + 1) u ∨
         (∀ jp, 0 <= jp < NINODE → ¬ is_cached m dev inum jp) ∧ i_ref u = 0 ∧
           v = fresh_inode dev inum u) ∧
        icache_wf (<[ip := v]> m) ∧ is_cached (<[ip := v]> m) dev inum ip)
  | Panic => ∀ jp, 0 <= jp < NINODE → ¬ is_cached m dev inum jp ∧ i_ref (alook inode_zero m jp) ≠ 0
  | _ => False
  end.
Proof.
  intros Hwf. unfold inode_get. rewrite (bind_Ok _ _ _ _ _ (ic_acquire_mk c L m)). kstep.
  pose proof (iscan_spec (id (in_mk c L locked m)) dev inum (Z.to_nat NINODE) 0 None) as Hs.
  change (icache (id (in_mk c L locked m))) with m in Hs.
  change (0 + Z.of_nat (Z.to_nat NINODE)) with NINODE in Hs.
  destruct (iscan _ _ _ _ _ _) as [[ip|] e].
  - destruct Hs as [Hip Hc]. rewrite (bind_Ok _ _ _ _ _ (iupd_mk _ _ _ _ ip _ Hip)).
    rewrite (bind_Ok _ _ _ _ _ (ic_release_mk _ _ _ _)). cbv [mret M_ret].
    split; [done|]. eexists. split; [done|]. split; [by left|]. pose proof Hc as (Hp & Hd & Hn).
    split; [|unfold is_cached; rewrite alook_insert_eq; simpl; repeat split; (lia || done)].
    apply icache_wf_insert; [done|done|simpl; lia|]. simpl. intros _ jp Hjp Hne (Hp' & Hd' & Hn').
    apply Hne. apply (proj2 Hwf); congruence || done || lia.
  - destruct Hs as [Hno He]. destruct e as [ip|].
    + destruct He as [?|[Hip Hz]]; [done|]. rewrite (bind_Ok _ _ _ _ _ (iupd_mk _ _ _ _ ip _ Hip)).
      rewrite (bind_Ok _ _ _ _ _ (ic_release_mk _ _ _ _)). cbv [mret M_ret].
      split; [done|]. eexists. split; [done|]. split; [by right|].
      split; [|unfold is_cached; rewrite alook_insert_eq; simpl; repeat split; lia].
      apply icache_wf_insert; [done|done|simpl; lia|]. simpl. intros _ jp Hjp _. by apply Hno.
    + destruct He as [_ He]. intros jp Hjp. split; [by apply Hno|by apply He].
Qed.

(** A boot cache with the root directory in use. *)
Definition sample_icache : gmap Z inode :=
  {[ 0 := {| i_dev := ROOTDEV; i_inum := ROOTINO; i_ref := 1; I_BUSY := false; I_VALID := true;
             i_type := T_DIR; i_major := 0; i_minor := 0; i_nlink := 1; i_size := 32;
             i_addrs := {[ 0 := 7 ]} |};
     1 := {| i_dev := ROOTDEV; i_inum := ROOTINO; i_ref := 0; I_BUSY := false; I_VALID := false;
             i_type := 0; i_major := 0; i_minor := 0; i_nlink := 0; i_size := 0; i_addrs := ∅ |} ]}.

Lemma sample_icache_wf : icache_wf sample_icache.
Proof.
  assert (∀ ip, 0 <= i_ref (alook inode_zero sample_icache ip) ∧
    (0 < i_ref (alook inode_zero sample_icache ip) → ip = 0)) as H.
  { intros ip. unfold sample_icache, alook.
    destruct (decide (ip = 0)) as [->|]; [done|]. rewrite lookup_insert_ne by done.
    destruct (decide (ip = 1)) as [->|]; [done|]. by rewrite lookup_singleton_ne. }
  split; [intros ip _; apply H|]. intros ip jp _ _ Hi Hj _ _.
  by rewrite (proj2 (H ip) Hi), (proj2 (H jp) Hj).
Qed.

Lemma inode_get_unique_witness :
  match inode_get ROOTDEV ROOTINO
    (in_mk (lg_bc sample_fs) (log sample_fs) spinlock_init sample_icache) with
  | Ok ip _ => ip = 0
  | _ => False
  end.
Proof.
  pose proof (inode_get_unique (lg_bc sample_fs) (log sample_fs) sample_icache ROOTDEV ROOTINO
    sample_icache_wf) as H.
  assert (∀ jp, is_cached sample_icache ROOTDEV ROOTINO jp → jp = 0) as H0.
  { intros jp (Hp & _). revert Hp. unfold sample_icache, alook.
    destruct (decide (jp = 0)); [done|]. rewrite lookup_insert_ne by done.
    destruct (decide (jp = 1)) as [->|]; [done|]. by rewrite lookup_singleton_ne. }
  destruct (inode_get _ _ _) as [ip s| | | |]; try done.
  - destruct H as (Hip & v & _ & [[Hc _]|(Hno & _)] & _); [by apply H0|]. exfalso.
    by apply (Hno 0).
  - by destruct (H 0 ltac:(done)) as [[] _].
Defined.

(** The root directory in entry 0, and an entry 1 for it that was not read yet. *)
Definition sample_pair : gmap Z inode :=
  <[1 := {| i_dev := ROOTDEV; i_inum := ROOTINO; i_ref := 1; I_BUSY := false; I_VALID := false;
            i_type := 0; i_major := 0; i_minor := 0; i_nlink := 0; i_size := 0; i_addrs := ∅ |}]>
    sample_icache.

Lemma inode_update_lock_witness :
  ∃ c' L' m',
    (inode_update 0 ;; inode_lock (Some 1))
      (in_mk (lg_bc sample_fs) (with_busy_log 1 (log sample_fs)) spinlock_init sample_pair) =
      Ok () (in_mk c' L' spinlock_init m') ∧
    i_size (alook inode_zero m' 1) = 32 ∧ alook 0 (i_addrs (alook inode_zero m' 1)) 0 = 7.
Proof.
  destruct sample_fs_ready as (A & Hrep & _ & Hidle & Hst & Hsz & _).
  revert Hrep Hidle Hst Hsz. generalize (lg_bc sample_fs) (log sample_fs). intros c L Hrep Hidle Hst Hsz.
  destruct (begin_trans_run three c L A Hrep Hidle) as [_ Htx].
  assert (inode_fits (alook inode_zero sample_pair 0)) as Hfit.
  { split; try done. intros i Hi. change (i_addrs (alook inode_zero sample_pair 0)) with ({[ 0 := 7 ]} : gmap Z Z).
    unfold alook. destruct (decide (i = 0)) as [->|]; [done|]. by rewrite lookup_singleton_ne. }
  destruct (inode_update_lock three c (with_busy_log 1 L) [] A sample_pair 0 1)
    as (c' & L' & A' & m' & Hr & _ & _ & (_ & _ & _ & _ & Hs & Ha) & _); try done.
  - simpl. lia.
  - simpl. rewrite Hsz. lia.
  - change (IBLOCK _) with 2. simpl. rewrite Hst. lia.
  - exists c', L', m'. split; [exact Hr|]. split; [exact Hs|]. by rewrite Ha.
Defined.
