(* ===== verification/FileData.v ===== *)
(** * The contents of files (kern/fs/inode.c, block.c)

    What an inode and the device say the bytes of a file are, and that reading and writing
    through the block addresses, the buffer cache and the log are reading and writing these
    bytes. *)

From S2P Require Import Prelude Spinlock Thread Sched BufCache Log Inode.

(** ** The bytes of a file *)

(** The sectors of the root device as a caller sees them. *)
Definition sectors (A : bdev) (n : Z) : list Z := content A (ROOTDEV, n).

(** The block of addresses of a file. *)
Definition ind (v : inode) : Z := alook 0 (i_addrs v) NDIRECT.

(** The address of block [bn] of a file when the sectors are [D], 0 without one. *)
Definition blk (D : Z → list Z) (v : inode) (bn : Z) : Z :=
  if bool_decide (bn < NDIRECT) then alook 0 (i_addrs v) bn
  else if bool_decide (ind v = 0) then 0 else get32 (D (ind v)) (4 * (bn - NDIRECT)).

Definition file_byte (D : Z → list Z) (v : inode) (i : Z) : Z := get8 (D (blk D v (i / BSIZE))) (i mod BSIZE).

Definition file_slice (D : Z → list Z) (v : inode) (off n : Z) : list Z := file_byte D v <$> seqZ off n.

Lemma slice_app D v off n m : 0 <= n → 0 <= m → file_slice D v off (n + m) = file_slice D v off n ++ file_slice D v (off + n) m.
Proof. intros Hn Hm. unfold file_slice. rewrite seqZ_app by done. apply fmap_app. Qed.

(** A part of one block. *)
Lemma slice_block D v off m : 0 <= off → 0 <= m → off mod BSIZE + m <= BSIZE → length (D (blk D v (off / BSIZE))) = 512%nat →
  take (Z.to_nat m) (drop (Z.to_nat (off mod BSIZE)) (D (blk D v (off / BSIZE)))) = file_slice D v off m.
Proof.
  intros Ho Hm Hb Hd. unfold BSIZE in *. pose proof (Z.mod_pos_bound off 512 ltac:(lia)) as Hmod.
  apply list_eq_same_length with (n := Z.to_nat m).
  - unfold file_slice. rewrite length_fmap, length_seqZ. done.
  - rewrite length_take, length_drop, Hd. lia.
  - intros i x y Hi Hx Hy. rewrite lookup_take_lt, lookup_drop in Hx by lia.
    unfold file_slice in Hy. rewrite list_lookup_fmap, lookup_seqZ_lt in Hy by lia. injection Hy as <-.
    unfold file_byte, BSIZE, get8. assert ((off + Z.of_nat i) / 512 = off / 512) as Hq by (Z.div_mod_to_equations; lia).
    assert ((off + Z.of_nat i) mod 512 = off mod 512 + Z.of_nat i) as Hr by (Z.div_mod_to_equations; lia).
    rewrite Hq, Hr. replace (Z.to_nat (off mod 512 + Z.of_nat i)) with (Z.to_nat (off mod 512) + i)%nat by lia.
    by rewrite (list_lookup_total_correct _ _ _ Hx).
Qed.

(** ** Reading *)

(** Block [bn] has an address, and it and the block of addresses can be read. *)
Definition has_block (A : bdev) (v : inode) (bn : Z) : Prop :=
  0 <= bn < MAXFILE ∧ blk (sectors A) v bn ≠ 0 ∧ can_read A (ROOTDEV, blk (sectors A) v bn) ∧
  (NDIRECT <= bn → can_read A (ROOTDEV, ind v)).

Section Read.
Context (t0 : th_state) (A : bdev) (L : log_t) (lk : spinlock_t) (m : gmap Z inode) (ip : Z).
Notation v := (alook inode_zero m ip).
Hypothesis ip_ok : 0 <= ip < NINODE.
Hypothesis dev_ok : i_dev v = ROOTDEV.

Lemma bmap_run c bn : bc_rep t0 c A → has_block A v bn →
  ∃ c', bmap ip bn (in_mk c L lk m) = Ok (blk (sectors A) v bn) (in_mk c' L lk m) ∧ bc_rep t0 c' A.
Proof.
  intros Hrep (Hbn & Hnz & _ & Hind). unfold bmap, blk, sectors in *. rewrite (bind_Ok _ _ _ _ _ (iget_mk _ _ _ _ ip ip_ok)).
  case_bool_decide as Hd; [rewrite bool_decide_eq_false_2 by done; by exists c|].
  case_bool_decide as Hi0; [done|]. specialize (Hind ltac:(lia)). rewrite bool_decide_eq_true_2 by (unfold MAXFILE in Hbn; lia).
  fold (ind v). rewrite (bool_decide_eq_false_2 (ind v = 0)) by done. rewrite (bind_Ok _ _ _ _ _ (ret_Ok _ _)), dev_ok.
  destruct (look_any t0 c A _ Hrep Hind) as (b & c1 & c2 & Hr1 & Hr2 & Hr3 & Hrep2).
  rewrite (bind_Ok _ _ _ _ _ (zoom_in _ _ _ _ _ _ _ Hr1)), (bind_Ok _ _ _ _ _ (zoom_in _ _ _ _ _ _ _ Hr2)).
  rewrite bool_decide_eq_false_2 by done. rewrite (bind_Ok _ _ _ _ _ (ret_Ok _ _)), (bind_Ok _ _ _ _ _ (zoom_in _ _ _ _ _ _ _ Hr3)).
  by exists c2.
Qed.

Lemma iread_loop_run fuel c off n : bc_rep t0 c A → 0 <= off → 0 <= n →
  (∀ bn, off / BSIZE <= bn → bn * BSIZE < off + n → has_block A v bn) → n = 0 ∨ off mod BSIZE + n <= Z.of_nat fuel * BSIZE →
  ∃ c', iread_loop fuel ip off n (in_mk c L lk m) = Ok (file_slice (sectors A) v off n) (in_mk c' L lk m) ∧ bc_rep t0 c' A.
Proof.
  revert c off n. induction fuel as [|fuel IH]; intros c off n Hrep Ho Hn Hb Hf.
  { pose proof (Z.mod_pos_bound off BSIZE ltac:(done)). exists c. assert (n = 0) as -> by lia. done. }
  cbn [iread_loop]. case_bool_decide as Hz; [exists c; assert (n = 0) as -> by lia; done|].
  assert (has_block A v (off / BSIZE)) as Hblk. { apply Hb; [lia|]. unfold BSIZE in *. Z.div_mod_to_equations. lia. }
  rewrite (bind_Ok _ _ _ _ _ (iget_mk _ _ _ _ ip ip_ok)). destruct (bmap_run c _ Hrep Hblk) as (c1 & Hr1 & Hrep1).
  rewrite (bind_Ok _ _ _ _ _ Hr1), dev_ok. destruct Hblk as (_ & _ & Hcan & _).
  destruct (look_any t0 c1 A _ Hrep1 Hcan) as (b & c2 & c3 & Hr2 & Hr3 & Hr4 & Hrep3).
  rewrite (bind_Ok _ _ _ _ _ (zoom_in _ _ _ _ _ _ _ Hr2)), (bind_Ok _ _ _ _ _ (zoom_in _ _ _ _ _ _ _ Hr3)), (bind_Ok _ _ _ _ _ (zoom_in _ _ _ _ _ _ _ Hr4)).
  pose proof (Z.mod_pos_bound off BSIZE ltac:(done)) as Hmod. set (k := Z.min n (BSIZE - off mod BSIZE)).
  assert (0 < k <= n ∧ off mod BSIZE + k <= BSIZE) as Hk by lia.
  destruct (IH c3 (off + k) (n - k)) as (c4 & Hr5 & Hrep4); [done|lia|lia| | |].
  - intros bn H1 H2. apply Hb; [|lia]. unfold BSIZE in *. Z.div_mod_to_equations. lia.
  - destruct (decide (n = k)) as [Hnk|Hnk]; [left; lia|right]. unfold BSIZE in *. assert (k = 512 - off mod 512) by lia.
    assert ((off + k) mod 512 = 0) by (Z.div_mod_to_equations; lia). lia.
  - rewrite (bind_Ok _ _ _ _ _ Hr5). exists c4. split; [|done].
    change (content A (ROOTDEV, blk (sectors A) v (off / BSIZE))) with (sectors A (blk (sectors A) v (off / BSIZE))). rewrite (slice_block (sectors A) v off k) by (first [lia | by apply (content_length t0 c)]).
    unfold mret, M_ret. rewrite <- slice_app by lia. by replace (k + (n - k)) with n by lia.
Qed.
End Read.

(** The blocks of a file are all there. *)
Definition file_ok (A : bdev) (v : inode) : Prop :=
  0 <= i_size v <= MAXFILE * BSIZE ∧ ∀ bn, 0 <= bn → bn * BSIZE < i_size v → has_block A v bn.

(** Reading a file returns its bytes.  On an inode that is no device and whose blocks all
    have addresses, [inode_read] at any offset stores and counts exactly the bytes of the
    file from there on, up to the number asked for and up to its end, and refuses an offset
    behind the end; the device and the inode stay as they are. *)
Lemma inode_read_run t0 c A L lk m ip off n :
  let v := alook inode_zero m ip in
  bc_rep t0 c A → 0 <= ip < NINODE → i_dev v = ROOTDEV → i_type v ≠ T_DEV → file_ok A v →
  0 <= off → 0 <= n < 2 ^ 31 → off + n < W32 →
  ∃ c', inode_read ip off n (in_mk c L lk m) =
      Ok (if decide (off > i_size v) then (-1, [])
          else let k := Z.min n (i_size v - off) in (k, file_slice (sectors A) v off k)) (in_mk c' L lk m) ∧
    bc_rep t0 c' A.
Proof.
  intros v Hrep Hip Hdev Hty [Hsz Hok] Ho Hn Hw. unfold inode_read. rewrite (bind_Ok _ _ _ _ _ (iget_mk _ _ _ _ ip Hip)). fold v.
  rewrite (bool_decide_eq_false_2 (i_type v = T_DEV)) by done.
  assert (u32 (off + n) = off + n) as -> by (apply u32_small; unfold is_u32; lia).
  rewrite (bool_decide_eq_false_2 (off + n < off)), orb_false_r by lia. case_decide as Hoff.
  { rewrite bool_decide_eq_true_2 by done. by exists c. }
  rewrite bool_decide_eq_false_2 by done.
  assert ((if bool_decide (off + n > i_size v) then i_size v - off else n) = Z.min n (i_size v - off)) as -> by (case_bool_decide; lia).
  cbv zeta. set (k := Z.min n (i_size v - off)). assert (0 <= k) by lia.
  destruct (iread_loop_run t0 A L lk m ip Hip Hdev (Z.to_nat (k / BSIZE + 2)) c off k Hrep) as (c' & Hr & Hrep'); [done|done| | |].
  - intros bn H1 H2. apply Hok; [|lia]. unfold BSIZE in *. Z.div_mod_to_equations. lia.
  - right. unfold BSIZE in *. rewrite Z2Nat.id by (Z.div_mod_to_equations; lia). Z.div_mod_to_equations. lia.
  - exists c'. split; [|done]. rewrite (bind_Ok _ _ _ _ _ Hr). unfold mret, M_ret. by rewrite s32_small by (unfold is_s32; lia).
Qed.

(** ** Sectors in a transaction *)

Definition dput (n : Z) (d : list Z) (D : Z → list Z) (x : Z) : list Z := if decide (x = n) then d else D x.

Lemma dput_eq n d D : dput n d D n = d.
Proof. unfold dput. by rewrite decide_True. Qed.

Lemma dput_ne n d D x : x ≠ n → dput n d D x = D x.
Proof. intros H. unfold dput. by rewrite decide_False. Qed.

(** The device while the caller holds the buffer [b] of a sector. *)
Definition hold (h : option (Z * Z)) (A : bdev) : bdev :=
  match h with Some (b, k) => d_acquire (ROOTDEV, k) b A | None => A end.

Definition away (h : option (Z * Z)) (sec : Z) : Prop := ∀ p, h = Some p → sec ≠ p.2.

(** A transaction is open, has changed at most the sectors of [S], and the sectors in front
    of the log at [start] read as [D]; the caller holds at most the buffer [h]. *)
Definition tx_rep (t0 : th_state) (start : Z) (c : bc_state) (L : log_t) (h : option (Z * Z)) (S : gset Z) (D : Z → list Z) : Prop :=
  lg_start L = start ∧ lg_size L = LOGSIZE ∧ (∀ p, h = Some p → 0 <= p.2 < start) ∧
  ∃ A txn, bc_rep t0 c (hold h A) ∧ in_tx L txn A ∧
    (∀ n, n ∈ txn.*1 → n ∈ S) ∧ ∀ n, 0 <= n < start → content A (ROOTDEV, n) = D n.

Lemma content_hold h A k : content (hold h A) k = content A k.
Proof.
  destruct h as [[b n]|]; [|done]. unfold content at 1. simpl. rewrite lookup_insert. case_decide as Hk; [by subst k|]. done.
Qed.

Lemma tx_rep_length t0 start c L h S D n : tx_rep t0 start c L h S D → 0 <= n < start → length (D n) = 512%nat.
Proof.
  intros (_ & _ & _ & A & txn & Hrep & _ & _ & HD) Hn. rewrite <- HD by done.
  rewrite <- (content_hold h). by apply (content_length t0 c).
Qed.

(** The sectors of a transaction are all different. *)
Lemma txn_small (txn : list (Z * list Z)) (S : gset Z) k : NoDup txn.*1 → (∀ n, n ∈ txn.*1 → n ∈ S) → (size S <= k)%nat → (length txn <= k)%nat.
Proof.
  intros Hnd Hs Hk. rewrite <- (length_fmap fst txn). etrans; [|exact Hk]. rewrite <- (size_list_to_set (C:=gset Z) txn.*1) by done.
  apply subseteq_size. intros n Hn. apply Hs. by apply elem_of_list_to_set in Hn.
Qed.

Section Held.
Context (t0 : th_state) (L : log_t) (txn : list (Z * list Z)) (A : bdev) (h : option (Z * Z)) (sec : Z).
Hypothesis tx : in_tx L txn A.
Hypothesis few : (length txn <= 7)%nat.
Hypothesis log10 : lg_size L = LOGSIZE.
Hypothesis h_home : ∀ p, h = Some p → 0 <= p.2 < lg_start L.
Hypothesis sec_home : 0 <= sec < lg_start L.
Hypothesis sec_away : away h sec.
Notation m := (tx_index sec txn.*1).
Notation kl := (log_key L (Z.of_nat m)).

Lemma hold_live : d_live (hold h A) !! (ROOTDEV, sec) = d_live A !! (ROOTDEV, sec).
Proof.
  destruct h as [[b n]|] eqn:E; [|done]. simpl. rewrite lookup_insert_ne; [done|]. intros [= H]. by apply (sec_away (b, n)).
Qed.

Lemma hold_idle : d_live (hold h A) !! kl = None.
Proof.
  assert (d_live A !! kl = None) as Hi by (apply (tx_log_key_idle L txn sec block0 A tx eq_refl); lia).
  destruct h as [[b n]|] eqn:E; [|done]. simpl. rewrite lookup_insert_ne; [done|].
  specialize (h_home (b, n) eq_refl). unfold log_key. intros [=]. simpl in *. lia.
Qed.

Lemma hold_free : (2 <= d_free (hold h A))%nat.
Proof. pose proof (it_free _ _ _ tx). destruct h as [[b n]|]; simpl; [destruct (d_live A !! _)|]; lia. Qed.

Lemma hold_can_read : can_read (hold h A) (ROOTDEV, sec).
Proof.
  pose proof hold_free. destruct (in_tx_can_read L txn A sec tx sec_home ltac:(lia)) as [Hk Hl]. split; [done|].
  rewrite hold_live. destruct (d_live A !! _) as [[b v]|]; [done|lia].
Qed.

(** Changing and logging a sector does not touch the one that is held. *)
Lemma tx_dev_hold b d : tx_dev sec b d kl (hold h A) = hold h (tx_dev sec b d kl A).
Proof.
  unfold tx_dev at 1. rewrite hold_live. destruct h as [[b' n]|] eqn:E; [|done].
  specialize (h_home (b', n) eq_refl). specialize (sec_away (b', n) eq_refl). simpl in h_home, sec_away.
  assert ((ROOTDEV, n) ≠ (ROOTDEV, sec)) as Hne by congruence.
  assert ((ROOTDEV, n) ≠ kl) as Hnl by (unfold log_key; intros [=]; lia).
  assert (held_buf (tx_dev sec b d kl A) (ROOTDEV, n) = held_buf A (ROOTDEV, n)) as Hh.
  { unfold held_buf, content, d_look. simpl. by rewrite !lookup_insert_ne. }
  unfold hold, d_acquire. rewrite Hh. simpl. rewrite (lookup_insert_ne (d_live A) _ (ROOTDEV, n)) by done.
  f_equal; [by rewrite insert_insert_ne|]. by destruct (d_live A !! (ROOTDEV, sec)), (d_live A !! (ROOTDEV, n)).
Qed.

Lemma log_held c b d : length d = 512%nat → bc_rep t0 c (d_acquire (ROOTDEV, sec) b (hold h A)) →
  ∃ c', (zoom (buf_set_data b d) ;; log_write b ;; zoom (bufcache_release b)) {| lg_bc := c; log := L |} =
      Ok () {| lg_bc := c'; log := log_put L m sec |} ∧ bc_rep t0 c' (hold h (tx_dev sec b d kl A)).
Proof.
  intros Hd Hrep. pose proof tx as [Hgeo Hsecs _ Hbusy Hhome _ _ _ _ _ _]. set (v1 := held_buf (hold h A) (ROOTDEV, sec)) in *.
  destruct (buf_set_data_run t0 c _ _ b v1 Hrep (lookup_insert_eq _ _ _) d Hd) as (c2 & Hr2 & Hrep2).
  rewrite (zoom_bind _ _ _ _ _ _ Hr2).
  assert (kl ≠ (ROOTDEV, sec)) as Hne by (unfold log_key; intros [=]; lia).
  destruct (log_write_run t0 L txn sec b (with_data d v1) Hgeo Hsecs Hbusy Hhome sec_home (ltac:(lia)) ltac:(rewrite log10; unfold LOGSIZE; lia)
    eq_refl c2 _ Hrep2) as (c3 & Hr3 & Hrep3).
  { apply lookup_insert_eq. }
  { simpl. rewrite !lookup_insert_ne by done. apply hold_idle. }
  { pose proof hold_free. simpl. destruct (d_live (hold h A) !! _); lia. }
  rewrite (bind_Ok _ _ _ _ _ Hr3).
  destruct (bufcache_release_dirty t0 c3 _ (ROOTDEV, sec) b (with_dirty true (with_data d v1)) Hrep3
    (lookup_insert_eq _ _ _) eq_refl eq_refl) as (c4 & Hr4 & Hrep4).
  exists c4. split; [exact (zoom_bc _ _ _ _ _ Hr4)|]. eapply bc_rep_eq; [exact Hrep4|]. rewrite <- tx_dev_hold.
  unfold d_set, d_stored, d_acquire, tx_dev. simpl. by rewrite !insert_insert_eq.
Qed.
End Held.

(** The abstract state after a sector was changed and logged. *)
Lemma tx_rep_put t0 start c L h txn A S D sec b d : lg_start L = start → lg_size L = LOGSIZE → (∀ p, h = Some p → 0 <= p.2 < start) →
  0 <= sec < start → length d = 512%nat → (length txn <= 7)%nat → in_tx L txn A → (∀ n, n ∈ txn.*1 → n ∈ S) →
  (∀ n, 0 <= n < start → content A (ROOTDEV, n) = D n) →
  bc_rep t0 c (hold h (tx_dev sec b d (log_key L (Z.of_nat (tx_index sec txn.*1))) A)) →
  tx_rep t0 start c (log_put L (tx_index sec txn.*1) sec) h (S ∪ {[sec]}) (dput sec d D).
Proof.
  intros <- Hsz Hh Hsec Hd Hlen Htx Hs HD Hrep. split; [done|]. split; [done|]. split; [done|].
  pose proof (tx_put_in_tx L txn sec d A Htx Hsec Hd ltac:(lia) b) as Htx'. eexists _, _. split; [exact Hrep|]. split; [exact Htx'|]. split.
  - intros n Hn. apply list_elem_of_fmap in Hn as (p & -> & Hp). apply tx_put_inv in Hp as [->|Hp]; [set_solver|].
    apply elem_of_union_l, Hs, list_elem_of_fmap. by exists p.
  - intros n Hn. destruct (decide (n = sec)) as [->|Hne].
    + rewrite dput_eq. apply (in_tx_content _ _ _ sec _ Htx'), tx_put_in.
    + rewrite dput_ne by done. rewrite <- HD by done. unfold content, d_look. simpl. rewrite !lookup_insert_ne; [done| |congruence].
      unfold log_key. intros [=]. lia.
Qed.

(** A sector is read; it is released as it is, changed and logged, or kept. *)
Lemma open_tx t0 start c L h S D sec : tx_rep t0 start c L h S D → (size S <= 7)%nat → 0 <= sec < start → away h sec →
  ∃ b c1, bufcache_read ROOTDEV sec c = Ok b c1 ∧ buf_data b c1 = Ok (D sec) c1 ∧
    (∃ c2, bufcache_release b c1 = Ok () c2 ∧ tx_rep t0 start c2 L h S D) ∧
    (∀ d, length d = 512%nat → ∃ c2 L2,
      (zoom (buf_set_data b d) ;; log_write b ;; zoom (bufcache_release b)) {| lg_bc := c1; log := L |} =
        Ok () {| lg_bc := c2; log := L2 |} ∧ tx_rep t0 start c2 L2 h (S ∪ {[sec]}) (dput sec d D)) ∧
    (h = None → tx_rep t0 start c1 L (Some (b, sec)) S D).
Proof.
  intros (Hst & Hsz & Hh & A & txn & Hrep & Htx & Hs & HD) H8 Hsec Haw. subst start.
  pose proof (txn_small txn S 7 (it_nodup _ _ _ Htx) Hs H8) as Hlen.
  pose proof (hold_can_read L txn A h sec Htx Hlen Hh Hsec Haw) as Hcan.
  destruct (look_any t0 c _ _ Hrep Hcan) as (b & c1 & c2 & Hr1 & Hr2 & Hr3 & Hrep2). rewrite content_hold in Hr2.
  destruct (bufcache_read_run t0 c _ _ Hrep Hcan) as (b' & c1' & Hr1' & Hrep1). rewrite Hr1 in Hr1'. injection Hr1' as <- <-.
  exists b, c1. split; [done|]. split; [by rewrite <- HD|]. split; [|split].
  - exists c2. split; [done|]. repeat (split; [done|]). by exists A, txn.
  - intros d Hd. destruct (log_held t0 L txn A h sec Htx Hlen Hsz Hh Hsec Haw c1 b d Hd Hrep1) as (c' & Hr & Hrep').
    eexists c', _. split; [exact Hr|]. by eapply tx_rep_put.
  - intros ->. repeat (split; [done|]). split; [intros p [= <-]; done|]. by exists A, txn.
Qed.

(** The buffer that is held. *)
Lemma held_data t0 start c L b sec S D : tx_rep t0 start c L (Some (b, sec)) S D → buf_data b c = Ok (D sec) c.
Proof.
  intros (_ & _ & Hh & A & txn & Hrep & _ & _ & HD). rewrite <- HD by exact (Hh _ eq_refl).
  apply (buf_data_run t0 c _ _ b _ Hrep (lookup_insert_eq _ _ _)).
Qed.

Lemma held_tx t0 start c L b sec S D d : tx_rep t0 start c L (Some (b, sec)) S D → (size S <= 7)%nat → length d = 512%nat →
  ∃ c2 L2, (zoom (buf_set_data b d) ;; log_write b ;; zoom (bufcache_release b)) {| lg_bc := c; log := L |} =
      Ok () {| lg_bc := c2; log := L2 |} ∧ tx_rep t0 start c2 L2 None (S ∪ {[sec]}) (dput sec d D).
Proof.
  intros (Hst & Hsz & Hh & A & txn & Hrep & Htx & Hs & HD) H8 Hd. subst start. specialize (Hh _ eq_refl). simpl in Hh.
  pose proof (txn_small txn S 7 (it_nodup _ _ _ Htx) Hs H8) as Hlen.
  destruct (log_held t0 L txn A None sec Htx Hlen Hsz ltac:(done) Hh ltac:(done) c b d Hd Hrep) as (c' & Hr & Hrep').
  eexists c', _. split; [exact Hr|]. by eapply tx_rep_put.
Qed.
