(* ===== verification/FileWrite.v ===== *)
(** * Writing files (kern/fs/block.c, inode.c)

    The allocation of blocks in the bitmap and the write path of files inside a
    transaction: what a file holds after [inode_write], that other data in use stay, and
    that the sectors changed fit the log. *)

From S2P Require Import Prelude Spinlock Thread Sched BufCache Log Inode FileData.

(** ** The bitmap of blocks in use *)

(** Bit [i] of the bitmap block [d], the test of [block_alloc] and [block_free]. *)
Definition used (d : list Z) (i : Z) : bool := negb (bool_decide (Z.land (get8 d (i / 8)) (Z.shiftl 1 (i mod 8)) = 0)).

Definition mark (i : Z) (d : list Z) : list Z := put8 (i / 8) (Z.lor (get8 d (i / 8)) (Z.shiftl 1 (i mod 8))) d.

Lemma land_bit x k : 0 <= k → negb (bool_decide (Z.land x (Z.shiftl 1 k) = 0)) = Z.testbit x k.
Proof.
  intros Hk. assert (∀ j, Z.testbit (Z.land x (Z.shiftl 1 k)) j = Z.testbit x j && bool_decide (j = k)) as Hj.
  { intros j. rewrite Z.land_spec, Z.shiftl_1_l, Z.pow2_bits_eqb by done. f_equal. case_bool_decide; lia. }
  case_bool_decide as H0; simpl.
  - specialize (Hj k). rewrite H0, Z.bits_0, bool_decide_eq_true_2, andb_true_r in Hj by done. done.
  - destruct (Z.testbit x k) eqn:E; [done|]. destruct H0. apply Z.bits_inj_0. intros j. rewrite Hj.
    case_bool_decide as Hc; [subst j; by rewrite E|apply andb_false_r].
Qed.

Lemma used_testbit d i : used d i = Z.testbit (get8 d (i / 8)) (i mod 8).
Proof. apply land_bit. apply Z.mod_pos_bound. lia. Qed.

Lemma testbit_u8 x k : 0 <= k < 8 → Z.testbit (u8 x) k = Z.testbit x k.
Proof. intros Hk. unfold u8. change 256 with (2 ^ 8). apply Z.mod_pow2_bits_low. lia. Qed.

(** Marking a block changes its bit and no other. *)
Lemma used_mark d i j : 0 <= i < 8 * Z.of_nat (length d) → 0 <= j < 8 * Z.of_nat (length d) →
  used (mark i d) j = bool_decide (j = i) || used d j.
Proof.
  intros Hi Hj. rewrite !used_testbit. unfold mark.
  pose proof (Z.mod_pos_bound j 8 ltac:(lia)). pose proof (Z.mod_pos_bound i 8 ltac:(lia)).
  rewrite get8_put8 by (Z.div_mod_to_equations; lia). case_decide as Hq.
  - rewrite testbit_u8, Z.lor_spec, Hq, Z.shiftl_1_l, Z.pow2_bits_eqb by lia. rewrite orb_comm. f_equal.
    case_bool_decide; Z.div_mod_to_equations; lia.
  - rewrite bool_decide_eq_false_2; [done|]. by intros ->.
Qed.

Lemma length_mark i d : length (mark i d) = length d.
Proof. apply length_put8. Qed.

(** The search finds the first block that is free. *)
Lemma free_bit_first d size fuel bi r : bi <= r < size → r < bi + Z.of_nat fuel → used d r = false →
  ∃ r', free_bit fuel d 0 size bi = Some r' ∧ bi <= r' <= r ∧ used d r' = false ∧ ∀ i, bi <= i < r' → used d i = true.
Proof.
  revert bi. induction fuel as [|fuel IH]; intros bi Hr Hf Hu; [lia|]. cbn [free_bit]. rewrite bool_decide_eq_true_2 by lia.
  destruct (used d bi) eqn:E; pose proof E as E'; unfold used in E'.
  - apply negb_true_iff in E'. rewrite E'. assert (bi ≠ r) by congruence.
    destruct (IH (bi + 1)) as (r' & H1 & H2 & H3 & H4); [lia|lia|done|]. exists r'. split_and!; try done; try lia.
    intros i Hi. destruct (decide (i = bi)) as [->|]; [done|]. apply H4. lia.
  - apply negb_false_iff in E'. rewrite E'. exists bi. split_and!; try done; lia.
Qed.

(** ** Allocation *)

Definition bmap_sector (D : Z → list Z) : Z := get32 (D 1) 8 / IPB + 3.

(** A device with one bitmap block: the superblock, the inodes and the bitmap itself are in
    front of the data and marked; the log starts at [start]. *)
Record disk_ok (start : Z) (D : Z → list Z) : Prop := {
  dk_size : start <= get32 (D 1) 0 <= BPB;
  dk_bmap : 1 < bmap_sector D < start;
  dk_meta i : 0 <= i <= bmap_sector D → used (D (bmap_sector D)) i = true
}.

(** The blocks that can be allocated. *)
Definition free_blocks (start : Z) (D : Z → list Z) : gset Z :=
  filter (λ i, used (D (bmap_sector D)) i = false) (list_to_set (seqZ 0 start)).

Lemma elem_of_free start D i : i ∈ free_blocks start D ↔ used (D (bmap_sector D)) i = false ∧ 0 <= i < start.
Proof. unfold free_blocks. rewrite elem_of_filter, elem_of_list_to_set, elem_of_seqZ. intuition lia. Qed.

(** The sectors after block [r] was taken. *)
Definition alloc_at (r : Z) (D : Z → list Z) : Z → list Z :=
  dput r block0 (dput (bmap_sector D) (mark r (D (bmap_sector D))) D).

Lemma free_blocks_ext start D D' : bmap_sector D' = bmap_sector D → D (bmap_sector D) = D' (bmap_sector D) → free_blocks start D = free_blocks start D'.
Proof. intros H1 H2. unfold free_blocks. by rewrite H1, H2. Qed.

Section Alloc.
Context (start : Z) (D : Z → list Z) (r : Z).
Hypothesis ok : disk_ok start D.
Hypothesis sized : ∀ n, 0 <= n < start → length (D n) = 512%nat.
Hypothesis r_free : r ∈ free_blocks start D.

Lemma free_data : bmap_sector D < r < start ∧ used (D (bmap_sector D)) r = false.
Proof.
  apply elem_of_free in r_free as [Hu Hr]. destruct (decide (r <= bmap_sector D)) as [Hle|]; [|split; [lia|done]].
  rewrite (dk_meta _ _ ok) in Hu by lia. done.
Qed.

Lemma alloc_at_eq : alloc_at r D r = block0.
Proof. apply dput_eq. Qed.

Lemma alloc_at_ne n : n ≠ r → n ≠ bmap_sector D → alloc_at r D n = D n.
Proof. intros H1 H2. unfold alloc_at. by rewrite !dput_ne. Qed.

Lemma alloc_at_bmap : bmap_sector (alloc_at r D) = bmap_sector D.
Proof.
  pose proof free_data. pose proof (dk_bmap _ _ ok). unfold bmap_sector at 1. rewrite alloc_at_ne by lia. done.
Qed.

Lemma alloc_at_used i : 0 <= i < start →
  used (alloc_at r D (bmap_sector D)) i = bool_decide (i = r) || used (D (bmap_sector D)) i.
Proof.
  intros Hi. pose proof free_data. pose proof (dk_bmap _ _ ok). pose proof (dk_size _ _ ok). unfold alloc_at.
  rewrite dput_ne, dput_eq by lia. unfold BPB, BSIZE in *. apply used_mark; rewrite sized by lia; lia.
Qed.

Lemma alloc_at_ok : disk_ok start (alloc_at r D).
Proof.
  pose proof free_data. pose proof (dk_bmap _ _ ok). destruct ok as [H1 H2 H3]. split.
  - rewrite alloc_at_ne by lia. done.
  - by rewrite alloc_at_bmap.
  - intros i Hi. rewrite alloc_at_bmap in *. rewrite alloc_at_used by lia. rewrite H3 by lia. apply orb_true_r.
Qed.

Lemma alloc_at_sized n : 0 <= n < start → length (alloc_at r D n) = 512%nat.
Proof.
  intros Hn. unfold alloc_at, dput. case_decide; [done|]. case_decide; [rewrite length_mark|]; apply sized; [|done].
  pose proof (dk_bmap _ _ ok). lia.
Qed.

Lemma alloc_at_free : free_blocks start (alloc_at r D) = free_blocks start D ∖ {[r]}.
Proof.
  apply set_eq. intros i. rewrite elem_of_difference, !elem_of_free, elem_of_singleton, alloc_at_bmap.
  split; intros Hi; [destruct Hi as [Hi Hi2]|destruct Hi as [[Hi Hi2] Hi3]]; rewrite alloc_at_used in * by done.
  - apply orb_false_iff in Hi as [Ha Hb]. apply bool_decide_eq_false_1 in Ha. done.
  - rewrite Hi, bool_decide_eq_false_2 by done. done.
Qed.

Lemma alloc_at_size : S (size (free_blocks start (alloc_at r D))) = size (free_blocks start D).
Proof.
  rewrite alloc_at_free, size_difference by (by apply singleton_subseteq_l). rewrite size_singleton.
  assert (size (free_blocks start D) ≠ 0%nat); [|lia]. intros H0%size_empty_inv. set_solver.
Qed.
End Alloc.

(** Three steps in front of a fourth. *)
Lemma bind3 {S X} (a b c : M S ()) (k : M S X) s s' : (a ;; b ;; c) s = Ok () s' → (a ;; b ;; c ;; k) s = k s'.
Proof.
  unfold mbind, M_bind. destruct (a s) as [[] s1| | | |]; try done. destruct (b s1) as [[] s2| | | |]; try done.
  destruct (c s2) as [[] s3| | | |]; try done. by intros [= ->].
Qed.

(** [block_alloc] inside a transaction, also while a buffer of the file is held. *)
Lemma block_alloc_tx t0 start c L h S D : tx_rep t0 start c L h S D → disk_ok start D →
  (∀ p, h = Some p → bmap_sector D < p.2 ∧ used (D (bmap_sector D)) p.2 = true) →
  (size (S ∪ {[bmap_sector D]}) <= 7)%nat → free_blocks start D ≠ ∅ →
  ∃ r c' L', r ∈ free_blocks start D ∧
    block_alloc ROOTDEV {| lg_bc := c; log := L |} = Ok r {| lg_bc := c'; log := L' |} ∧
    tx_rep t0 start c' L' h (S ∪ {[bmap_sector D; r]}) (alloc_at r D).
Proof.
  intros Htx Hok Hh HS Hne. pose proof (dk_bmap _ _ Hok) as Hbb. pose proof (dk_size _ _ Hok) as Hsz.
  assert (size S <= 7)%nat as HS0. { etrans; [apply subseteq_size|exact HS]. set_solver. }
  apply set_choose_L in Hne as [r0 Hr0]. apply elem_of_free in Hr0 as [Hu0 Hr0].
  destruct (free_bit_first (D (bmap_sector D)) (get32 (D 1) 0) (Z.to_nat BPB) 0 r0) as (r & Hfb & Hr & Hu & _); [lia|lia|done|].
  assert (r ∈ free_blocks start D) as Hfree by (apply elem_of_free; split; [done|lia]).
  destruct (free_data start D r Hok Hfree) as [Hdata _]. exists r.
  assert (away h 1 ∧ away h (bmap_sector D) ∧ away h r) as (Ha1 & Ha2 & Ha3).
  { split_and!; intros p Hp; specialize (Hh p Hp) as [Hp1 Hp2]; [lia|lia|]. intros ->. by rewrite Hp2 in Hu. }
  destruct (open_tx t0 start c L h S D 1 Htx HS0 ltac:(lia) Ha1) as (b0 & c0 & R1 & R2 & (c1 & R3 & Htx1) & _).
  unfold block_alloc. assert (read_superblock ROOTDEV c = Ok {| sb_size := get32 (D 1) 0; sb_nblocks := get32 (D 1) 4;
    sb_ninodes := get32 (D 1) 8; sb_nlog := get32 (D 1) 12 |} c1) as Hsb.
  { unfold read_superblock. by rewrite (bind_Ok _ _ _ _ _ R1), (bind_Ok _ _ _ _ _ R2), (bind_Ok _ _ _ _ _ R3). }
  rewrite (zoom_bind _ _ _ _ _ _ Hsb). cbn [sb_size].
  replace (Z.to_nat (get32 (D 1) 0 / BPB + 2)) with (Datatypes.S (Z.to_nat (get32 (D 1) 0 / BPB + 1))) by (unfold BPB, BSIZE; Z.div_mod_to_equations; lia).
  set (fuel := Z.to_nat _). cbn [balloc_loop sb_size sb_ninodes]. rewrite bool_decide_eq_true_2 by lia.
  change (BBLOCK 0 (get32 (D 1) 8)) with (bmap_sector D).
  destruct (open_tx t0 start c1 L h S D (bmap_sector D) Htx1 HS0 ltac:(lia) Ha2) as (b1 & c2 & R4 & R5 & _ & Hset & _).
  rewrite (zoom_bind _ _ _ _ _ _ R4), (zoom_bind _ _ _ _ _ _ R5), Hfb.
  destruct (Hset (mark r (D (bmap_sector D)))) as (c3 & L3 & R6 & Htx3). { rewrite length_mark. apply (tx_rep_length _ _ _ _ _ _ _ _ Htx). lia. }
  destruct (open_tx t0 start c3 L3 h _ _ r Htx3 HS ltac:(lia) Ha3) as (b2 & c4 & R7 & R8 & _ & Hset2 & _).
  destruct (Hset2 block0 eq_refl) as (c5 & L5 & R9 & Htx5).
  exists c5, L5. split; [done|]. split; [|by rewrite <- union_assoc_L in Htx5].
  change (0 + r) with r. rewrite (bind3 _ _ _ _ _ _ R6).
  rewrite (bind_Ok _ _ _ () {| lg_bc := c5; log := L5 |}); [done|]. unfold block_zero. by rewrite (zoom_bind _ _ _ _ _ _ R7).
Qed.

(** ** The blocks of a file *)

Definition in_use (start : Z) (D : Z → list Z) (a : Z) : Prop := bmap_sector D < a < start ∧ used (D (bmap_sector D)) a = true.

(** The places for addresses: the block of addresses at -1, and the blocks of data. *)
Definition slot (D : Z → list Z) (v : inode) (s : Z) : Z := if decide (s = -1) then ind v else blk D v s.
Definition is_slot (s : Z) : Prop := -1 <= s < MAXFILE.

Lemma is_slot_ind : is_slot (-1).
Proof. done. Qed.

(** Every address is of a data block in use, and no two places have the same. *)
Definition file_wf (start : Z) (D : Z → list Z) (v : inode) : Prop :=
  (∀ s, is_slot s → slot D v s ≠ 0 → in_use start D (slot D v s)) ∧
  ∀ s s', is_slot s → is_slot s' → slot D v s ≠ 0 → slot D v s = slot D v s' → s = s'.

Definition owns (D : Z → list Z) (v : inode) (a : Z) : Prop := ∃ s, is_slot s ∧ slot D v s = a.

(** All of an inode but the addresses. *)
Definition same_node (v w : inode) : Prop :=
  i_dev w = i_dev v ∧ i_inum w = i_inum v ∧ i_ref w = i_ref v ∧ I_BUSY w = I_BUSY v ∧ I_VALID w = I_VALID v ∧
  i_type w = i_type v ∧ i_major w = i_major v ∧ i_minor w = i_minor v ∧ i_nlink w = i_nlink v ∧ i_size w = i_size v.

(** From [D], [v] to [D'], [v'] the file got blocks and its bytes from [lo] to [hi] changed;
    the other bytes it had, and all that is in use for something else, are as before; the
    rest of a new block reads as zero. *)
Record grows (start lo hi : Z) (D : Z → list Z) (v : inode) (D' : Z → list Z) (v' : inode) : Prop := {
  gr_ok : disk_ok start D';
  gr_wf : file_wf start D' v';
  gr_bb : bmap_sector D' = bmap_sector D;
  gr_slot s : is_slot s → slot D v s ≠ 0 → slot D' v' s = slot D v s;
  gr_byte i : 0 <= i < MAXFILE * BSIZE → blk D v (i / BSIZE) ≠ 0 → ¬ lo <= i < hi → file_byte D' v' i = file_byte D v i;
  gr_new i : 0 <= i < MAXFILE * BSIZE → blk D v (i / BSIZE) = 0 → blk D' v' (i / BSIZE) ≠ 0 → ¬ lo <= i < hi → file_byte D' v' i = 0;
  gr_keep a : in_use start D a → ¬ owns D v a → D' a = D a ∧ ¬ owns D' v' a;
  gr_use a : in_use start D a → in_use start D' a;
  gr_meta a : 0 <= a < bmap_sector D → D' a = D a;
  gr_node : same_node v v'
}.

Lemma same_node_refl v : same_node v v.
Proof. by repeat split. Qed.

Lemma same_node_trans u v w : same_node u v → same_node v w → same_node u w.
Proof. unfold same_node. intuition congruence. Qed.

Lemma slot_blk D v bn : 0 <= bn → slot D v bn = blk D v bn.
Proof. intros H. unfold slot. by rewrite decide_False by lia. Qed.

Lemma byte_block i : 0 <= i < MAXFILE * BSIZE → 0 <= i / BSIZE < MAXFILE ∧ 0 <= i mod BSIZE < 512.
Proof. unfold MAXFILE, NDIRECT, NINDIRECT, BSIZE. Z.div_mod_to_equations. lia. Qed.

Lemma grows_blk start lo hi D v D' v' bn : grows start lo hi D v D' v' → 0 <= bn < MAXFILE → blk D v bn ≠ 0 → blk D' v' bn = blk D v bn.
Proof. intros G Hb H0. rewrite <- !slot_blk in * by lia. apply (gr_slot _ _ _ _ _ _ _ G); [unfold is_slot; lia|done]. Qed.

Lemma grows_refl start i D v : disk_ok start D → file_wf start D v → grows start i i D v D v.
Proof. intros H1 H2. split; try done. Qed.

Lemma grows_trans start lo mid hi D0 v0 D1 v1 D2 v2 : lo <= mid <= hi →
  grows start lo mid D0 v0 D1 v1 → grows start mid hi D1 v1 D2 v2 → grows start lo hi D0 v0 D2 v2.
Proof.
  intros Hm [A1 A2 A3 A4 A5 A0 A6 A7 A8 A9] [B1 B2 B3 B4 B5 B0 B6 B7 B8 B9]. split; try done.
  - congruence.
  - intros s Hs H0. rewrite B4, A4; try done. by rewrite A4.
  - intros i Hi H0 Ho. pose proof (byte_block i Hi) as [Hb _]. rewrite B5, A5; try done; [lia| |lia].
    rewrite <- slot_blk in * by lia. rewrite A4; try done. unfold is_slot. lia.
  - intros i Hi H0 H2 Ho. destruct (decide (blk D1 v1 (i / BSIZE) = 0)) as [H1|H1]; [apply B0; (done || lia)|].
    rewrite B5; [apply A0; (done || lia)|lia|done|lia].
  - intros a Ha Hn. destruct (A6 a Ha Hn) as [E1 E2]. destruct (B6 a) as [E3 E4]; [by apply A7|done|]. split; [congruence|done].
  - intros a Ha. by apply B7, A7.
  - intros a Ha. rewrite B8, A8; try done. by rewrite A3.
  - by eapply same_node_trans.
Qed.

(** The last state up to pointwise equality. *)
Lemma grows_cong start lo hi D v D1 D2 v' : grows start lo hi D v D1 v' → (∀ x, D2 x = D1 x) → grows start lo hi D v D2 v'.
Proof.
  intros [G1 G2 G3 G4 G5 G0 G6 G7 G8 G9] H.
  assert (bmap_sector D2 = bmap_sector D1) as B by (unfold bmap_sector; by rewrite H).
  assert (∀ s, slot D2 v' s = slot D1 v' s) as Hs by (intros s; unfold slot, blk; by rewrite H).
  assert (∀ a, in_use start D2 a ↔ in_use start D1 a) as Hu by (intros a; unfold in_use; by rewrite B, H).
  split; try done.
  - destruct G1 as [O1 O2 O3]. split; rewrite ?B, ?H; done.
  - destruct G2 as [W1 W2]. split; [intros s; rewrite Hs, Hu; apply W1|]. intros s s'. rewrite !Hs. apply W2.
  - by rewrite B.
  - intros s. rewrite Hs. apply G4.
  - intros i Hi H0 Ho. rewrite <- (G5 i Hi H0 Ho). unfold file_byte. rewrite H. by rewrite <- !slot_blk, Hs by (apply byte_block; lia).
  - intros i Hi H0 H1 Ho. assert (blk D2 v' (i / BSIZE) = blk D1 v' (i / BSIZE)) as E by (rewrite <- !slot_blk, Hs by (apply byte_block; lia); done).
    unfold file_byte. rewrite E, H in *. by apply G0.
  - intros a Ha Hn. destruct (G6 a Ha Hn) as [K1 K2]. rewrite H. split; [done|]. intros (s & Hsl & E). apply K2. exists s. by rewrite <- Hs.
  - intros a Ha. rewrite Hu. by apply G7.
  - intros a Ha. rewrite H. by apply G8.
Qed.

(** A place of the file got the block [r] that was free. *)
Section Add.
Context (start : Z) (D D' : Z → list Z) (v v' : inode) (r s0 : Z).
Hypothesis ok : disk_ok start D.
Hypothesis sized : ∀ n, 0 <= n < start → length (D n) = 512%nat.
Hypothesis wf : file_wf start D v.
Hypothesis r_free : r ∈ free_blocks start D.
Hypothesis s0_empty : slot D v s0 = 0.
Hypothesis node : same_node v v'.
Hypothesis slots : ∀ s, is_slot s → slot D' v' s = if decide (s = s0) then r else slot D v s.
Hypothesis rest : ∀ a, a ≠ ind v ∨ a = 0 → D' a = alloc_at r D a.

Lemma add_not_ind a : 0 <= a <= bmap_sector D → a ≠ ind v ∨ a = 0.
Proof.
  intros Ha. destruct (decide (ind v = 0)) as [H0|H0]; [destruct (decide (a = 0)); [by right|left; congruence]|left].
  destruct (proj1 wf (-1) ltac:(done) H0) as [Hi _]. change (slot D v (-1)) with (ind v) in Hi. lia.
Qed.

Lemma add_bmap : bmap_sector D' = bmap_sector D ∧ D' (bmap_sector D) = alloc_at r D (bmap_sector D).
Proof.
  pose proof (dk_bmap _ _ ok). rewrite <- (alloc_at_bmap start D r) at 1 by done. unfold bmap_sector at 1 2.
  rewrite !rest by (apply add_not_ind; lia). done.
Qed.

Lemma add_use a : in_use start D a → in_use start D' a ∧ a ≠ r ∧ (a ≠ ind v → D' a = D a).
Proof.
  intros [Ha Hu]. pose proof (dk_bmap _ _ ok). destruct (free_data start D r ok r_free) as [_ Hr]. destruct add_bmap as [B1 B2].
  assert (a ≠ r) as Har by congruence. split; [|split; [done|]].
  - split; [by rewrite B1|]. rewrite B1, B2, (alloc_at_used start) by (done || lia). by rewrite Hu, orb_true_r.
  - intros Hne. rewrite rest by by left. apply alloc_at_ne; [done|lia].
Qed.

Lemma add_use_r : in_use start D' r.
Proof.
  destruct (free_data start D r ok r_free) as [Hd _]. pose proof (dk_bmap _ _ ok). destruct add_bmap as [B1 B2].
  split; [by rewrite B1|]. rewrite B1, B2, (alloc_at_used start) by (done || lia). by rewrite bool_decide_eq_true_2.
Qed.

Lemma add_disk : disk_ok start D'.
Proof.
  destruct add_bmap as [B1 B2]. destruct (alloc_at_ok start D r ok sized r_free) as [H1 H2 H3]. pose proof (dk_bmap _ _ ok).
  split; [rewrite rest by (apply add_not_ind; lia); done|by rewrite B1|].
  intros i Hi. rewrite B1, B2 in *. rewrite <- (alloc_at_bmap start D r) by done. apply H3. by rewrite (alloc_at_bmap start).
Qed.

Lemma add_wf : file_wf start D' v'.
Proof.
  destruct wf as [W1 W2]. split.
  - intros s Hs. rewrite slots by done. case_decide; [intros _; apply add_use_r|]. intros H0. by apply add_use, W1.
  - intros s t Hs Ht. rewrite !slots by done. case_decide as E1; case_decide as E2; try congruence.
    + intros _ E. assert (slot D v t ≠ 0) as H0. { rewrite <- E. destruct (free_data start D r ok r_free). pose proof (dk_bmap _ _ ok). lia. }
      destruct (add_use _ (W1 t Ht H0)) as (_ & Hr & _). congruence.
    + intros H0 E. destruct (add_use _ (W1 s Hs H0)) as (_ & Hr & _). congruence.
    + by apply W2.
Qed.

Lemma grows_add i : grows start i i D v D' v'.
Proof.
  destruct wf as [W1 W2]. destruct add_bmap as [B1 B2]. pose proof (dk_bmap _ _ ok) as Hbb.
  assert (∀ s, is_slot s → slot D v s ≠ 0 → slot D' v' s = slot D v s) as Hsl.
  { intros s Hs H0. rewrite slots by done. case_decide; [congruence|done]. }
  split; [apply add_disk|apply add_wf|done|done|..|done].
  - intros j Hj H0 _. destruct (byte_block j Hj) as [Hb _]. unfold file_byte. rewrite <- !slot_blk in * by lia.
    assert (is_slot (j / BSIZE)) as Hs by (unfold is_slot; lia). rewrite Hsl by done. f_equal.
    apply add_use; [by apply W1|]. intros E. specialize (W2 (j / BSIZE) (-1) Hs ltac:(done) H0 E). lia.
  - intros j Hj H0 H1 _. destruct (byte_block j Hj) as [Hb Hm]. unfold file_byte. rewrite <- !slot_blk in * by lia.
    assert (is_slot (j / BSIZE)) as Hs by (unfold is_slot; lia). rewrite slots in * by done. case_decide; [|done].
    destruct (free_data start D r ok r_free) as [Hr1 Hr2]. rewrite rest, alloc_at_eq; [|left; intros E].
    + unfold get8, block0. apply list_lookup_total_correct, lookup_replicate_2. lia.
    + destruct (W1 (-1) is_slot_ind) as [_ I2]; change (slot D v (-1)) with (ind v); [lia|]. change (slot D v (-1)) with (ind v) in I2. congruence.
  - intros a Ha Hn. destruct (add_use a Ha) as (_ & Hr & HD). split.
    + apply HD. intros ->. apply Hn. by exists (-1).
    + intros (s & Hs & E). rewrite slots in E by done. case_decide; [congruence|]. apply Hn. by exists s.
  - intros a Ha. by apply add_use.
  - intros a Ha. destruct (free_data start D r ok r_free). rewrite rest by (apply add_not_ind; lia). apply alloc_at_ne; lia.
Qed.
End Add.

(** A block of data is overwritten. *)
Lemma grows_write start lo hi D v bn d : disk_ok start D → file_wf start D v → 0 <= bn < MAXFILE → blk D v bn ≠ 0 →
  (∀ j, 0 <= j < 512 → ¬ lo <= bn * BSIZE + j < hi → get8 d j = get8 (D (blk D v bn)) j) →
  grows start lo hi D v (dput (blk D v bn) d D) v.
Proof.
  intros Hok [W1 W2] Hbn H0 Hd. set (a := blk D v bn) in *. pose proof (dk_bmap _ _ Hok) as Hbb.
  assert (is_slot bn) as Hs by (unfold is_slot; lia). assert (slot D v bn = a) as Ea by (apply slot_blk; lia).
  destruct (W1 bn Hs ltac:(congruence)) as [Ha1 Ha2]. rewrite Ea in *.
  assert (a ≠ ind v) as Hni. { intros E. specialize (W2 bn (-1) Hs ltac:(done) ltac:(congruence)). rewrite Ea in W2. specialize (W2 E). lia. }
  assert (bmap_sector (dput a d D) = bmap_sector D) as B1 by (unfold bmap_sector at 1; by rewrite dput_ne by lia).
  assert (∀ s, slot (dput a d D) v s = slot D v s) as Hsl.
  { intros s. unfold slot, blk. by rewrite dput_ne by done. }
  assert (∀ x, in_use start D x → in_use start (dput a d D) x) as Hu.
  { intros x [X1 X2]. split; [by rewrite B1|]. by rewrite B1, dput_ne by lia. }
  split; try done.
  - destruct Hok as [H1 H2 H3]. split; [by rewrite dput_ne by lia|by rewrite B1|]. intros i Hi. rewrite B1, dput_ne in * by lia. by apply H3.
  - split; [intros s Hs1; rewrite Hsl; intros Hs2; by apply Hu, W1|]. intros s t. rewrite !Hsl. apply W2.
  - intros i Hi Hi0 Hout. destruct (byte_block i Hi) as [Hb Hm]. unfold file_byte.
    assert (blk (dput a d D) v (i / BSIZE) = blk D v (i / BSIZE)) as -> by (rewrite <- !slot_blk by lia; apply Hsl).
    destruct (decide (blk D v (i / BSIZE) = a)) as [E|E]; [|by rewrite dput_ne].
    rewrite E, dput_eq. assert (i / BSIZE = bn) as Hq.
    { apply W2; unfold is_slot; try lia; rewrite slot_blk by lia; congruence. }
    apply Hd; [done|]. rewrite <- Hq. unfold BSIZE in *. intros Hr. apply Hout. Z.div_mod_to_equations. lia.
  - intros i Hi Hi0 Hi1. destruct (byte_block i Hi) as [Hb _]. rewrite <- slot_blk, Hsl, slot_blk in Hi1 by lia. done.
  - intros x Hx Hn. split; [|intros (s & Hs' & E); rewrite Hsl in E; apply Hn; by exists s].
    apply dput_ne. intros ->. apply Hn. by exists bn.
  - intros x Hx. apply dput_ne. lia.
Qed.

(** ** Addresses of blocks *)

Lemma get32_block0 i : 0 <= i → i + 4 <= 512 → get32 block0 i = 0.
Proof.
  intros H1 H2. assert (∀ j, 0 <= j < 512 → get8 block0 j = 0) as H.
  { intros j Hj. unfold get8, block0. apply list_lookup_total_correct, lookup_replicate_2. lia. }
  unfold get32. rewrite !H by lia. done.
Qed.

(** A block is allocated for an address that the inode itself holds. *)
Definition addr_slot (j : Z) : Z := if decide (j = NDIRECT) then -1 else j.

Lemma addr_slot_look D v j : 0 <= j <= NDIRECT → slot D v (addr_slot j) = alook 0 (i_addrs v) j.
Proof.
  intros Hj. unfold addr_slot. destruct (decide (j = NDIRECT)) as [->|E]; [done|]. unfold slot, blk.
  rewrite decide_False by lia. by rewrite bool_decide_eq_true_2 by lia.
Qed.

Lemma ind_with_addr v j r : ind (with_addr j r v) = if decide (j = NDIRECT) then r else ind v.
Proof.
  unfold ind, with_addr. simpl. case_decide as E; [subst; apply alook_insert_eq|]. by apply alook_insert_ne.
Qed.

Lemma alloc_addr_slots start D v j r : disk_ok start D → file_wf start D v → r ∈ free_blocks start D → 0 <= j <= NDIRECT →
  alook 0 (i_addrs v) j = 0 → ∀ s, is_slot s →
  slot (alloc_at r D) (with_addr j r v) s = if decide (s = addr_slot j) then r else slot D v s.
Proof.
  intros Hok [W1 _] Hr Hj H0 s Hs. destruct (free_data start D r Hok Hr) as [Hr1 Hr2]. pose proof (dk_bmap _ _ Hok).
  case_decide as E; [subst s; rewrite addr_slot_look by done; apply alook_insert_eq|].
  unfold slot. rewrite ind_with_addr. unfold addr_slot in E. destruct (decide (s = -1)) as [->|E1].
  { destruct (decide (j = NDIRECT)); [by destruct E|done]. }
  unfold blk. rewrite ind_with_addr. case_bool_decide as Hd.
  { unfold with_addr. simpl. apply alook_insert_ne. intros ->. destruct (decide (s = NDIRECT)); lia. }
  destruct (decide (j = NDIRECT)) as [E2|E2].
  - subst j. rewrite (bool_decide_eq_false_2 (r = 0)) by lia. rewrite bool_decide_eq_true_2 by done.
    rewrite alloc_at_eq. unfold is_slot, MAXFILE, NDIRECT, NINDIRECT in *. apply get32_block0; lia.
  - case_bool_decide as Hi; [done|]. destruct (W1 (-1) ltac:(done) Hi) as [I1 I2]. change (slot D v (-1)) with (ind v) in *.
    rewrite alloc_at_ne; [done| |lia]. intros Hir. by rewrite Hir, Hr2 in I2.
Qed.

Lemma same_node_addr v j r : same_node v (with_addr j r v).
Proof. by repeat split. Qed.

Lemma grows_addr start D v j r i : disk_ok start D → (∀ n, 0 <= n < start → length (D n) = 512%nat) → file_wf start D v →
  r ∈ free_blocks start D → 0 <= j <= NDIRECT → alook 0 (i_addrs v) j = 0 → grows start i i D v (alloc_at r D) (with_addr j r v).
Proof.
  intros Hok Hl Hwf Hr Hj H0. apply (grows_add start D _ v _ r (addr_slot j)); try done.
  - by rewrite addr_slot_look.
  - by apply alloc_addr_slots with start.
Qed.

(** A block is allocated for an entry of the block of addresses. *)
Definition entry_at (v : inode) (bn r : Z) (D : Z → list Z) : Z → list Z :=
  dput (ind v) (put32 (4 * (bn - NDIRECT)) r (D (ind v))) D.

Lemma grows_entry start D v bn r i : disk_ok start D → (∀ n, 0 <= n < start → length (D n) = 512%nat) → file_wf start D v →
  r ∈ free_blocks start D → NDIRECT <= bn < MAXFILE → ind v ≠ 0 → blk D v bn = 0 →
  grows start i i D v (entry_at v bn r (alloc_at r D)) v ∧ blk (entry_at v bn r (alloc_at r D)) v bn = r.
Proof.
  intros Hok Hl Hwf Hr Hbn Hi H0. destruct (free_data start D r Hok Hr) as [Hr1 Hr2]. pose proof (dk_bmap _ _ Hok). pose proof (dk_size _ _ Hok).
  destruct (proj1 Hwf (-1) ltac:(done) Hi) as [I1 I2]. change (slot D v (-1)) with (ind v) in *.
  assert (ind v ≠ r) as Hir by (intros E; by rewrite E, Hr2 in I2). unfold MAXFILE, NDIRECT, NINDIRECT, BPB, BSIZE in *.
  assert (∀ s, is_slot s → slot (entry_at v bn r (alloc_at r D)) v s = if decide (s = bn) then r else slot D v s) as Hs.
  { intros s Hs. unfold is_slot, MAXFILE, NDIRECT, NINDIRECT in *. unfold slot. case_decide as E; [by rewrite decide_False by lia|].
    unfold blk, entry_at, NDIRECT. case_bool_decide as Hd; [by rewrite decide_False by lia|]. rewrite !bool_decide_eq_false_2 by done.
    rewrite dput_eq, alloc_at_ne by (done || lia). case_decide as E2.
    - subst s. rewrite get32_put32_eq by (rewrite ?Hl by lia; lia). apply u32_small. unfold is_u32, W32. lia.
    - apply get32_put32_ne; rewrite ?Hl by lia; lia. }
  split.
  - apply (grows_add start D _ v v r bn); try done; [by rewrite slot_blk by lia|].
    intros a [Ha|Ha]; apply dput_ne; congruence.
  - rewrite <- slot_blk by lia. rewrite Hs by (unfold is_slot, MAXFILE, NDIRECT, NINDIRECT; lia). by rewrite decide_True.
Qed.

(** ** Blocks of a file in a transaction *)

(** The state with an open transaction and the inode [v] at [ip]; the other entries of the
    cache are those of [m0]. *)
Definition at_file (t0 : th_state) (start : Z) (lk : spinlock_t) (m0 : gmap Z inode) (ip : Z)
    (s : in_state) (S : gset Z) (D : Z → list Z) (v : inode) : Prop :=
  ∃ c L m, s = in_mk c L lk m ∧ tx_rep t0 start c L None S D ∧ disk_ok start D ∧ file_wf start D v ∧ i_dev v = ROOTDEV ∧
    alook inode_zero m ip = v ∧ ∀ q, q ≠ ip → alook inode_zero m q = alook inode_zero m0 q.

(** The block of addresses is still to come, and the sectors the transaction has besides
    the blocks of data to come. *)
Definition need (v : inode) : nat := if decide (ind v = 0) then 1 else 0.
Definition room (bb : Z) (S : gset Z) (v : inode) : nat :=
  size (S ∪ {[bb]} ∪ (if decide (ind v = 0) then ∅ else {[ind v]})) + need v.

Lemma size_add (S T : gset Z) a : S ⊆ T ∪ {[a]} → (size S <= size T + 1)%nat.
Proof.
  intros H. apply subseteq_size in H. etrans; [exact H|]. rewrite size_union_alt.
  apply Nat.add_le_mono_l. etrans; [apply subseteq_size, subseteq_difference_l; reflexivity|]. by rewrite size_singleton.
Qed.

Lemma size_room bb S v : (size (S ∪ {[bb]}) <= room bb S v)%nat.
Proof.
  unfold room. set (T := if decide (ind v = 0) then _ else _). clearbody T.
  assert (size (S ∪ {[bb]}) <= size (S ∪ {[bb]} ∪ T))%nat; [|lia]. apply subseteq_size. set_solver.
Qed.

Lemma size_le_room bb S v : (size S <= room bb S v)%nat.
Proof. etrans; [|apply (size_room bb S v)]. apply subseteq_size. set_solver. Qed.

Lemma zoom_lg {X} (f : M lg_state X) c L a c' L' lk i : f {| lg_bc := c; log := L |} = Ok a {| lg_bc := c'; log := L' |} →
  zoom f (in_mk c L lk i) = Ok a (in_mk c' L' lk i).
Proof. intros H. unfold zoom. simpl. by rewrite H. Qed.

(** ** Bytes of a block *)

Definition splice (o m : nat) (src d : list Z) : list Z := take o d ++ take m src ++ drop (o + m) d.

Lemma length_splice o m src d : (o + m <= length d)%nat → (m <= length src)%nat → length (splice o m src d) = length d.
Proof. intros H1 H2. unfold splice. rewrite !length_app, !length_take, length_drop. lia. Qed.

Lemma get8_splice o m src d j : (o + m <= length d)%nat → (m <= length src)%nat → 0 <= j →
  get8 (splice o m src d) j = if decide (Z.of_nat o <= j < Z.of_nat (o + m)) then src !!! (Z.to_nat j - o)%nat else get8 d j.
Proof.
  intros H1 H2 Hj. unfold get8, splice. rewrite !list_lookup_total_alt. f_equal. case_decide as Hin.
  - rewrite lookup_app_r, length_take, lookup_app_l, lookup_take_lt by (rewrite ?length_take; lia). by rewrite Nat.min_l by lia.
  - destruct (decide (Z.to_nat j < o)%nat).
    + by rewrite lookup_app_l, lookup_take_lt by (rewrite ?length_take; lia).
    + rewrite lookup_app_r, lookup_app_r, lookup_drop by (rewrite ?length_take; lia). rewrite !length_take. by replace (o + m + (Z.to_nat j - o `min` length d - m `min` length src))%nat with (Z.to_nat j) by lia.
Qed.

(** The bytes [src] are in the file from [off] on, and their blocks have addresses. *)
Definition stored (D : Z → list Z) (v : inode) (off n : Z) (src : list Z) : Prop :=
  (∀ j, 0 <= j < n → file_byte D v (off + j) = src !!! Z.to_nat j) ∧
  (0 < n → ∀ bn, off / BSIZE <= bn → bn * BSIZE < off + n → blk D v bn ≠ 0).

Lemma stored_cons start D v D' v' off k n src : 0 <= off → 0 < k <= n → off mod BSIZE + k <= BSIZE → off + n <= MAXFILE * BSIZE →
  n = k ∨ off mod BSIZE + k = BSIZE →
  blk D v (off / BSIZE) ≠ 0 → (∀ j, 0 <= j < k → file_byte D v (off + j) = src !!! Z.to_nat j) →
  grows start (off + k) (off + n) D v D' v' → stored D' v' (off + k) (n - k) (drop (Z.to_nat k) src) → stored D' v' off n src.
Proof.
  intros Ho Hk Hb Hmax Hlast H0 Hj Hg [S1 S2]. pose proof (gr_byte _ _ _ _ _ _ _ Hg) as G5.
  assert (0 <= off / BSIZE < MAXFILE) as Hq by (apply byte_block; unfold BSIZE in *; Z.div_mod_to_equations; lia). split.
  - intros j Hjn. destruct (decide (j < k)) as [Hlt|Hge].
    + rewrite G5; [apply Hj; lia|lia| |lia]. replace ((off + j) / BSIZE) with (off / BSIZE); [done|]. unfold BSIZE in *. Z.div_mod_to_equations. lia.
    + replace (off + j) with (off + k + (j - k)) by lia. rewrite S1 by lia. rewrite list_lookup_total_alt, lookup_drop, <- list_lookup_total_alt. f_equal. lia.
  - intros _ bn H1 H2. destruct (decide (bn = off / BSIZE)) as [->|Hne].
    + by rewrite (grows_blk _ _ _ _ _ _ _ _ Hg).
    + unfold BSIZE in *. apply S2; Z.div_mod_to_equations; lia.
Qed.

Section Bmap.
Context (t0 : th_state) (start : Z) (lk : spinlock_t) (m0 : gmap Z inode) (ip : Z).
Hypothesis ip_ok : 0 <= ip < NINODE.
Notation at_file := (at_file t0 start lk m0 ip).

Lemma take_addr s S D v j : at_file s S D v → (room (bmap_sector D) S v <= 6)%nat → free_blocks start D ≠ ∅ →
  0 <= j <= NDIRECT → alook 0 (i_addrs v) j = 0 →
  ∃ r s', (addr ← zoom (block_alloc ROOTDEV); iupd ip (with_addr j addr) ;; mret addr) s = Ok r s' ∧
    at_file s' (S ∪ {[bmap_sector D; r]}) (alloc_at r D) (with_addr j r v) ∧
    r ∈ free_blocks start D ∧ (∀ i, grows start i i D v (alloc_at r D) (with_addr j r v)) ∧
    Datatypes.S (size (free_blocks start (alloc_at r D))) = size (free_blocks start D).
Proof.
  intros (c & L & m & -> & Htx & Hok & Hwf & Hdev & Hv & Hoth) Hroom Hfree Hj H0. pose proof (size_room (bmap_sector D) S v) as Hsz.
  destruct (block_alloc_tx t0 start c L None S D Htx Hok ltac:(done) ltac:(lia) Hfree) as (r & c' & L' & Hr & Hrun & Htx').
  assert (∀ n, 0 <= n < start → length (D n) = 512%nat) as Hl by (intros n; by apply (tx_rep_length _ _ _ _ _ _ _ _ Htx)).
  assert (∀ i, grows start i i D v (alloc_at r D) (with_addr j r v)) as Hg by (intros i; by apply grows_addr).
  exists r. eexists. rewrite (bind_Ok _ _ _ _ _ (zoom_lg _ _ _ _ _ _ _ _ Hrun)), (bind_Ok _ _ _ _ _ (iupd_mk _ _ _ _ ip _ ip_ok)), Hv.
  split; [reflexivity|]. split; [|split; [done|split; [done|by apply alloc_at_size]]].
  eexists c', L', _. split; [reflexivity|]. destruct (Hg 0). split_and!; try done; [apply alook_insert_eq|].
  intros q Hq. rewrite alook_insert_ne by done. by apply Hoth.
Qed.

Lemma room_take_data bb S v j r : (j ≠ NDIRECT) → (room bb (S ∪ {[bb; r]} ∪ {[r]}) (with_addr j r v) <= room bb S v + 1)%nat.
Proof.
  intros Hj. unfold room, need. rewrite ind_with_addr, (decide_False (P:=j = NDIRECT)) by done.
  destruct (decide (ind v = 0)); [pose proof (size_add (S ∪ {[bb; r]} ∪ {[r]} ∪ {[bb]} ∪ ∅) (S ∪ {[bb]} ∪ ∅) r ltac:(set_solver)); lia|].
  pose proof (size_add (S ∪ {[bb; r]} ∪ {[r]} ∪ {[bb]} ∪ {[ind v]}) (S ∪ {[bb]} ∪ {[ind v]}) r ltac:(set_solver)). lia.
Qed.

Lemma room_take_ind bb S v r : ind v = 0 → r ≠ 0 → (room bb (S ∪ {[bb; r]}) (with_addr NDIRECT r v) <= room bb S v)%nat.
Proof.
  intros H0 Hr. unfold room, need. rewrite ind_with_addr, (decide_True (P:=NDIRECT = NDIRECT)) by done.
  rewrite H0. destruct (decide (r = 0)); [done|]. simpl.
  pose proof (size_add (S ∪ {[bb; r]} ∪ {[bb]} ∪ {[r]}) (S ∪ {[bb]} ∪ ∅) r ltac:(set_solver)). lia.
Qed.

(** The first part of [bmap] behind the direct blocks: the block of addresses. *)
Lemma take_ind s S D v : at_file s S D v → (room (bmap_sector D) S v <= 6)%nat → (need v <= size (free_blocks start D))%nat →
  ∃ s' S' D' v', (if bool_decide (alook 0 (i_addrs v) NDIRECT = 0) then
      addr ← zoom (block_alloc (i_dev v)); iupd ip (with_addr NDIRECT addr) ;; mret addr
    else mret (alook 0 (i_addrs v) NDIRECT)) s = Ok (ind v') s' ∧
    at_file s' S' D' v' ∧ ind v' ≠ 0 ∧ (ind v ≠ 0 → v' = v) ∧ (∀ i, grows start i i D v D' v') ∧
    (room (bmap_sector D) S' v' <= room (bmap_sector D) S v)%nat ∧
    (size (free_blocks start D) <= size (free_blocks start D') + need v)%nat.
Proof.
  intros Hat Hroom Hfree. fold (ind v). pose proof Hat as (c & L & m & _ & _ & Hok & Hwf & Hdev & _ & _). rewrite Hdev. case_bool_decide as H0.
  - unfold need in *. rewrite decide_True in * by done. destruct (take_addr s S D v NDIRECT) as (r & s' & Hr & Hat' & Hin & Hg & Hsz); try done.
    { intros E. rewrite E, size_empty in Hfree. lia. }
    destruct (free_data start D r Hok Hin) as [Hr1 _]. pose proof (dk_bmap _ _ Hok). eexists s', _, _, (with_addr NDIRECT r v).
    rewrite ind_with_addr, (decide_True (P:=NDIRECT = NDIRECT)) by done. split; [exact Hr|]. split_and!; try done; [lia| |lia].
    apply room_take_ind; [done|lia].
  - eexists s, S, D, v. split_and!; try done; try lia.
Qed.

(** The three steps of a change, one by one. *)
Lemma three_steps b d c L c2 L2 : (zoom (buf_set_data b d) ;; log_write b ;; zoom (bufcache_release b)) {| lg_bc := c; log := L |} =
    Ok () {| lg_bc := c2; log := L2 |} →
  ∃ c1 c1', buf_set_data b d c = Ok () c1 ∧ log_write b {| lg_bc := c1; log := L |} = Ok () {| lg_bc := c1'; log := L2 |} ∧
    bufcache_release b c1' = Ok () c2.
Proof.
  unfold mbind, M_bind. unfold zoom at 1. simpl. destruct (buf_set_data b d c) as [[] c1| | | |]; try done.
  destruct (log_write b _) as [[] [c1' L1]| | | |] eqn:E; try done. unfold zoom. simpl. destruct (bufcache_release b c1') as [[] c3| | | |] eqn:E2; try done.
  intros [= -> ->]. by exists c1, c1'.
Qed.

(** The second part of [bmap]: the entry of the block of addresses. *)
Definition bmap_entry (dev addr bn : Z) : M in_state Z :=
  bp ← zoom (bufcache_read dev addr);
  d ← zoom (buf_data bp);
  addr ← (if bool_decide (get32 d (4 * bn) = 0) then
            addr ← zoom (block_alloc dev);
            d ← zoom (buf_data bp);
            zoom (buf_set_data bp (put32 (4 * bn) addr d)) ;;
            zoom (log_write bp) ;;
            mret addr
          else mret (get32 d (4 * bn)));
  zoom (bufcache_release bp) ;;
  mret addr.

Lemma room_entry bb S v a : ind v ≠ 0 → (room bb (S ∪ {[bb; a]} ∪ {[ind v]} ∪ {[a]}) v <= room bb S v + 1)%nat.
Proof.
  intros H0. unfold room, need. rewrite !decide_False by done.
  pose proof (size_add (S ∪ {[bb; a]} ∪ {[ind v]} ∪ {[a]} ∪ {[bb]} ∪ {[ind v]}) (S ∪ {[bb]} ∪ {[ind v]}) a ltac:(set_solver)). lia.
Qed.

Lemma room_old bb S v a : (room bb (S ∪ {[a]}) v <= room bb S v + 1)%nat.
Proof.
  unfold room. set (T := if decide (ind v = 0) then _ else _). clearbody T.
  pose proof (size_add (S ∪ {[a]} ∪ {[bb]} ∪ T) (S ∪ {[bb]} ∪ T) a ltac:(set_solver)). lia.
Qed.

Lemma take_entry s S D v bn : at_file s S D v → (room (bmap_sector D) S v <= 6)%nat → (1 <= size (free_blocks start D))%nat →
  ind v ≠ 0 → NDIRECT <= bn < MAXFILE →
  ∃ a s' S' D', bmap_entry ROOTDEV (ind v) (bn - NDIRECT) s = Ok a s' ∧ at_file s' S' D' v ∧ a = blk D' v bn ∧ a ≠ 0 ∧
    (∀ i, grows start i i D v D' v) ∧ (room (bmap_sector D) (S' ∪ {[a]}) v <= room (bmap_sector D) S v + 1)%nat ∧
    (size (free_blocks start D) <= size (free_blocks start D') + 1)%nat.
Proof.
  intros (c & L & m & -> & Htx & Hok & Hwf & Hdev & Hv & Hoth) Hroom Hfree Hi Hbn.
  pose proof (size_le_room (bmap_sector D) S v) as HS. pose proof (size_room (bmap_sector D) S v) as HSb. pose proof (dk_bmap _ _ Hok) as Hbb.
  destruct (proj1 Hwf (-1) ltac:(done) Hi) as [I1 I2]. change (slot D v (-1)) with (ind v) in *.
  destruct (open_tx t0 start c L None S D (ind v) Htx ltac:(lia) ltac:(lia) ltac:(done)) as (b & c1 & R1 & R2 & (c2 & R3 & Htx2) & _ & Hheld).
  specialize (Hheld eq_refl). unfold bmap_entry.
  rewrite (bind_Ok _ _ _ _ _ (zoom_in _ _ _ _ _ _ _ R1)), (bind_Ok _ _ _ _ _ (zoom_in _ _ _ _ _ _ _ R2)).
  assert (blk D v bn = get32 (D (ind v)) (4 * (bn - NDIRECT))) as Eblk.
  { unfold blk. by rewrite bool_decide_eq_false_2, bool_decide_eq_false_2 by (done || lia). }
  destruct (decide (blk D v bn = 0)) as [H0|H0].
  2:{ rewrite <- Eblk, bool_decide_eq_false_2 by done. rewrite (bind_Ok _ _ _ _ _ (ret_Ok _ _)), (bind_Ok _ _ _ _ _ (zoom_in _ _ _ _ _ _ _ R3)).
      eexists _, _, S, D. split; [reflexivity|]. split_and!; try done; [by exists c2, L, m|apply room_old|lia]. }
  rewrite <- Eblk, H0, bool_decide_eq_true_2 by done.
  destruct (block_alloc_tx t0 start c1 L (Some (b, ind v)) S D Hheld Hok) as (r & c3 & L3 & Hr & R4 & Htx3); [|lia| |].
  { intros p [= <-]. simpl. split; [lia|done]. } { intros E. rewrite E, size_empty in Hfree. lia. }
  destruct (free_data start D r Hok Hr) as [Hr1 Hr2]. assert (ind v ≠ r) as Hir by (intros E; by rewrite E, Hr2 in I2).
  assert (∀ n, 0 <= n < start → length (D n) = 512%nat) as Hl by (intros n; by apply (tx_rep_length _ _ _ _ _ _ _ _ Htx)).
  pose proof (room_entry (bmap_sector D) S v r Hi) as Hre.
  destruct (held_tx t0 start c3 L3 b (ind v) _ _ (put32 (4 * (bn - NDIRECT)) r (alloc_at r D (ind v))) Htx3) as (c5 & L5 & R5 & Htx5).
  { pose proof (size_le_room (bmap_sector D) (S ∪ {[bmap_sector D; r]} ∪ {[ind v]} ∪ {[r]}) v) as Hx.
    assert (size (S ∪ {[bmap_sector D; r]}) <= size (S ∪ {[bmap_sector D; r]} ∪ {[ind v]} ∪ {[r]}))%nat by (apply subseteq_size; set_solver). lia. }
  { rewrite length_put32. apply (tx_rep_length _ _ _ _ _ _ _ _ Htx3). lia. }
  apply three_steps in R5 as (c4 & c4' & R5 & R6 & R7).
  erewrite bind_Ok; [|rewrite (bind_Ok _ _ _ _ _ (zoom_lg _ _ _ _ _ _ _ _ R4)), (bind_Ok _ _ _ _ _ (zoom_in _ _ _ _ _ _ _ (held_data _ _ _ _ _ _ _ _ Htx3))),
    (bind_Ok _ _ _ _ _ (zoom_in _ _ _ _ _ _ _ R5)), (bind_Ok _ _ _ _ _ (zoom_lg _ _ _ _ _ _ _ _ R6)); reflexivity].
  rewrite (bind_Ok _ _ _ _ _ (zoom_in _ _ _ _ _ _ _ R7)).
  destruct (grows_entry start D v bn r 0 Hok Hl Hwf Hr Hbn Hi H0) as [[G1 G2 _ _ _ _ _ _ _ _] G3].
  eexists r, _, _, (entry_at v bn r (alloc_at r D)). split; [reflexivity|]. split; [by eexists c5, L5, m|]. split; [done|]. split; [lia|].
  split; [intros i; by apply grows_entry|]. split; [done|].
  rewrite <- (alloc_at_size start D r) by done. rewrite <- (free_blocks_ext start (alloc_at r D) (entry_at v bn r (alloc_at r D))); [lia|..].
  - rewrite (alloc_at_bmap start D r) by done. exact (gr_bb _ _ _ _ _ _ _ (proj1 (grows_entry start D v bn r 0 Hok Hl Hwf Hr Hbn Hi H0))).
  - rewrite (alloc_at_bmap start D r) by done. symmetry. apply dput_ne. lia.
Qed.

Lemma blk_ind D v bn : NDIRECT <= bn → ind v ≠ 0 → blk D v bn = get32 (D (ind v)) (4 * (bn - NDIRECT)).
Proof. intros H1 H2. unfold blk. by rewrite bool_decide_eq_false_2, bool_decide_eq_false_2 by (done || lia). Qed.

(** [bmap] gives the address of a block of the file, new or old. *)
Lemma bmap_tx s S D v bn : at_file s S D v → (room (bmap_sector D) S v <= 6)%nat →
  (1 + need v <= size (free_blocks start D))%nat → 0 <= bn < MAXFILE →
  ∃ a s' S' D' v', bmap ip bn s = Ok a s' ∧ at_file s' S' D' v' ∧ a = blk D' v' bn ∧ a ≠ 0 ∧ (blk D v bn ≠ 0 → v' = v) ∧
    (∀ i, grows start i i D v D' v') ∧ (room (bmap_sector D) (S' ∪ {[a]}) v' <= room (bmap_sector D) S v + 1)%nat ∧
    (size (free_blocks start D) + need v' <= size (free_blocks start D') + 1 + need v)%nat.
Proof.
  intros Hat Hroom Hfree Hbn. pose proof Hat as (c & L & m & -> & _ & Hok & Hwf & Hdev & Hv & _). pose proof (dk_bmap _ _ Hok) as Hbb.
  unfold bmap. rewrite (bind_Ok _ _ _ _ _ (iget_mk _ _ _ _ ip ip_ok)), Hv. case_bool_decide as Hd.
  - assert (blk D v bn = alook 0 (i_addrs v) bn) as Eb by (unfold blk; by rewrite bool_decide_eq_true_2). cbv zeta. case_bool_decide as H0.
    + rewrite Hdev. destruct (take_addr _ S D v bn Hat Hroom) as (r & s' & Hr & Hat' & Hin & Hg & Hsz); [|lia|done|].
      { intros E. rewrite E, size_empty in Hfree. lia. }
      destruct (free_data start D r Hok Hin) as [Hr1 _]. assert (bn ≠ NDIRECT) as Hne by lia.
      eexists r, s', _, _, _. split; [exact Hr|]. split; [exact Hat'|]. split.
      { unfold blk. rewrite bool_decide_eq_true_2 by done. symmetry. apply alook_insert_eq. }
      split; [lia|]. split; [congruence|]. split; [done|]. split; [by apply room_take_data|]. unfold need. rewrite ind_with_addr, (decide_False (P:=bn = NDIRECT)) by done. lia.
    + eexists _, _, S, D, v. split; [reflexivity|]. split_and!; try done; [apply room_old|lia].
  - rewrite bool_decide_eq_true_2 by (unfold MAXFILE in Hbn; lia).
    destruct (take_ind _ S D v Hat Hroom ltac:(lia)) as (s1 & S1 & D1 & v1 & R1 & Hat1 & Hi1 & Hsame & Hg1 & Hro1 & Hf1).
    assert (∀ i, grows start i i D v D1 v1) as Hg1' by done. destruct (Hg1' 0) as [_ _ B1 _ _ _ _ _ _ [N1 _]].
    destruct (take_entry s1 S1 D1 v1 bn Hat1) as (a & s2 & S2 & D2 & R2 & Hat2 & Ha & Ha0 & Hg2 & Hro2 & Hf2); [rewrite B1; lia|lia|done|lia|].
    rewrite (bind_Ok _ _ _ _ _ R1), Hdev. exists a, s2, S2, D2, v1. split; [exact R2|]. rewrite B1 in Hro2.
    assert (need v1 = 0%nat) as Hn1 by (unfold need; by rewrite decide_False). split_and!; try done; [| |lia|lia].
    { intros Hb. apply Hsame. intros Hi. apply Hb. unfold blk. by rewrite bool_decide_eq_false_2, bool_decide_eq_true_2. }
    intros i. by apply (grows_trans start i i i D v D1 v1); [lia|..].
Qed.

(** ** The loop of writes *)

(** One block of data. *)
Lemma write_block s S D v bn o m src : at_file s S D v → (size S <= 7)%nat → 0 <= bn < MAXFILE → blk D v bn ≠ 0 →
  0 <= o → 0 <= m → o + m <= BSIZE → (Z.to_nat m <= length src)%nat →
  ∃ s' D', (∀ X (next : M in_state X),
      (bp ← zoom (bufcache_read ROOTDEV (blk D v bn));
       d ← zoom (buf_data bp);
       zoom (buf_set_data bp (splice (Z.to_nat o) (Z.to_nat m) src d)) ;;
       zoom (log_write bp) ;;
       zoom (bufcache_release bp) ;;
       next) s = next s') ∧
    at_file s' (S ∪ {[blk D v bn]}) D' v ∧ grows start (bn * BSIZE + o) (bn * BSIZE + o + m) D v D' v ∧
    blk D' v bn = blk D v bn ∧ free_blocks start D' = free_blocks start D ∧
    ∀ j, 0 <= j < m → file_byte D' v (bn * BSIZE + o + j) = src !!! Z.to_nat j.
Proof.
  intros (c & L & mm & -> & Htx & Hok & Hwf & Hdev & Hv & Hoth) HS Hbn H0 Ho Hm Hom Hsrc. unfold BSIZE in Hom. set (a := blk D v bn) in *.
  assert (slot D v bn = a) as Ea by (apply slot_blk; lia). assert (is_slot bn) as Hs by (unfold is_slot; lia). pose proof (dk_bmap _ _ Hok).
  destruct (proj1 Hwf bn Hs ltac:(congruence)) as [Ha _]. rewrite Ea in Ha.
  destruct (open_tx t0 start c L None S D a Htx HS ltac:(lia) ltac:(done)) as (b & c1 & R1 & R2 & _ & Hset & _).
  set (d' := splice (Z.to_nat o) (Z.to_nat m) src (D a)). pose proof (tx_rep_length _ _ _ _ _ _ _ a Htx ltac:(lia)) as Hl.
  destruct (Hset d') as (c2 & L2 & R3 & Htx2); [unfold d'; rewrite length_splice; lia|]. apply three_steps in R3 as (c3 & c4 & R3 & R4 & R5).
  assert (grows start (bn * BSIZE + o) (bn * BSIZE + o + m) D v (dput a d' D) v) as Hg.
  { apply grows_write; try done. intros j Hj Hout. unfold d'. rewrite get8_splice by lia. rewrite decide_False; [done|]. lia. }
  pose proof Hg as [G1 G2 G3 G4 _ _ _ _ _ _]. assert (blk (dput a d' D) v bn = a) as Eb. { rewrite <- slot_blk, G4 by (done || lia || congruence). done. }
  eexists _, (dput a d' D). split.
  { intros X next. rewrite (bind_Ok _ _ _ _ _ (zoom_in _ _ _ _ _ _ _ R1)), (bind_Ok _ _ _ _ _ (zoom_in _ _ _ _ _ _ _ R2)).
    rewrite (bind_Ok _ _ _ _ _ (zoom_in _ _ _ _ _ _ _ R3)), (bind_Ok _ _ _ _ _ (zoom_lg _ _ _ _ _ _ _ _ R4)).
    by rewrite (bind_Ok _ _ _ _ _ (zoom_in _ _ _ _ _ _ _ R5)). }
  split; [by eexists c2, L2, mm|]. split; [done|]. split; [done|]. split.
  - apply free_blocks_ext; [by rewrite G3|]. rewrite G3. apply dput_ne. lia.
  - intros j Hj. unfold file_byte, BSIZE in *. replace ((bn * 512 + o + j) / 512) with bn by (Z.div_mod_to_equations; lia).
    replace ((bn * 512 + o + j) mod 512) with (o + j) by (Z.div_mod_to_equations; lia). rewrite Eb, dput_eq. unfold d'.
    rewrite get8_splice by lia. rewrite decide_True by lia. f_equal. lia.
Qed.

Lemma iwrite_loop_tx k fuel s S D v off n src : (k <= fuel)%nat → at_file s S D v → (room (bmap_sector D) S v + k <= 7)%nat →
  (k + need v <= size (free_blocks start D))%nat → 0 <= off → 0 <= n → off + n <= MAXFILE * BSIZE → n <= Z.of_nat (length src) →
  n = 0 ∨ off mod BSIZE + n <= Z.of_nat k * BSIZE →
  ∃ s' S' D' v', iwrite_loop fuel ip off src n s = Ok (off + n) s' ∧ at_file s' S' D' v' ∧
    grows start off (off + n) D v D' v' ∧ stored D' v' off n src ∧ (size S' <= 7)%nat ∧
    (size (free_blocks start D) + need v' <= size (free_blocks start D') + k + need v)%nat ∧
    ((0 < n → ∀ bn, off / BSIZE <= bn → bn * BSIZE < off + n → blk D v bn ≠ 0) → v' = v).
Proof.
  revert fuel s S D v off n src. induction k as [|k IH]; intros fuel s S D v off n src Hfuel Hat Hroom Hfree Ho Hn Hmax Hsrc Hk.
  all: pose proof (Z.mod_pos_bound off BSIZE ltac:(done)) as Hmod; pose proof Hat as (c & L & m & Es & _ & Hok & Hwf & Hdev & Hv & _);
    pose proof (size_le_room (bmap_sector D) S v) as HS.
  all: destruct (decide (n = 0)) as [->|Hn0].
  1, 3: exists s, S, D, v; split; [rewrite Z.add_0_r; by destruct fuel|]; split; [done|]; split; [rewrite Z.add_0_r; by apply grows_refl|];
    split; [split; intros; lia|]; split; [lia|]; split; [lia|done].
  { exfalso. lia. }
  destruct fuel as [|fuel]; [lia|]. cbn [iwrite_loop]. rewrite bool_decide_eq_false_2 by lia. subst s.
  rewrite (bind_Ok _ _ _ _ _ (iget_mk _ _ _ _ ip ip_ok)), Hv, Hdev.
  assert (0 <= off / BSIZE < MAXFILE) as Hq by (apply byte_block; lia).
  destruct (bmap_tx _ S D v (off / BSIZE) Hat ltac:(lia) ltac:(lia) Hq) as (a & s1 & S1 & D1 & v1 & R1 & Hat1 & Ha & Ha0 & Hsame & Hg1 & Hro1 & Hf1).
  rewrite (bind_Ok _ _ _ _ _ R1). cbv zeta. set (j := Z.min n (BSIZE - off mod BSIZE)).
  assert (0 < j <= n ∧ off mod BSIZE + j <= BSIZE ∧ (n = j ∨ off mod BSIZE + j = BSIZE)) as (Hj & Hjb & Hjl) by lia. clearbody j.
  destruct (write_block s1 S1 D1 v1 (off / BSIZE) (off mod BSIZE) j src Hat1) as (s2 & D2 & R2 & Hat2 & Hg2 & Eb & Ef & Hby);
    [|done|congruence|lia|lia|lia|lia|].
  { pose proof (size_le_room (bmap_sector D) (S1 ∪ {[a]}) v1). assert (size S1 <= size (S1 ∪ {[a]}))%nat by (apply subseteq_size; set_solver). lia. }
  replace (off / BSIZE * BSIZE + off mod BSIZE) with off in * by (unfold BSIZE; Z.div_mod_to_equations; lia).
  pose proof (gr_bb _ _ _ _ _ _ _ (Hg1 0)) as B1. pose proof (gr_bb _ _ _ _ _ _ _ Hg2) as B2. rewrite <- Ha in *.
  destruct (IH fuel s2 (S1 ∪ {[a]}) D2 v1 (off + j) (n - j) (drop (Z.to_nat j) src)) as (s3 & S3 & D3 & v3 & R3 & Hat3 & Hg3 & Hst & HS3 & Hf3 & Hsame3);
    [lia|done|rewrite B2, B1; lia|rewrite Ef; lia|lia|lia|lia|rewrite length_drop; lia| |].
  { destruct Hjl as [->|Hjl]; [left; lia|right]. unfold BSIZE in *. 
    assert ((off + j) mod 512 = 0) by (Z.div_mod_to_equations; lia). lia. }
  replace (off + j + (n - j)) with (off + n) in * by lia. exists s3, S3, D3, v3. split.
  - exact (eq_trans (R2 _ _) R3).
  - split; [done|]. split; [|split; [|split; [done|split; [rewrite Ef in Hf3; lia|]]]].
    + eapply grows_trans; [|exact (Hg1 off)|eapply grows_trans; [|exact Hg2|exact Hg3]]; lia.
    + eapply (stored_cons start D2 v1); try done. congruence.
    + intros Hall. assert (∀ bn, off / BSIZE <= bn → bn * BSIZE < off + n → blk D v bn ≠ 0) as Hall' by (apply Hall; lia).
      assert (v1 = v) as -> by (apply Hsame, Hall'; [lia|unfold BSIZE; Z.div_mod_to_equations; lia]). apply Hsame3.
      intros Hpos bn H1 H2. assert (0 <= bn < MAXFILE) as Hbn by (unfold BSIZE in *; Z.div_mod_to_equations; lia).
      assert (blk D v bn ≠ 0) as Hb by (apply Hall'; unfold BSIZE in *; Z.div_mod_to_equations; lia).
      by rewrite (grows_blk _ _ _ _ _ _ _ bn Hg2), (grows_blk _ _ _ _ _ _ _ bn (Hg1 0)) by (rewrite ?(grows_blk _ _ _ _ _ _ _ bn (Hg1 0)); done).
Qed.
End Bmap.

(** ** Writing a file *)

(** Everything below the size has a block; the inode on the disk is the inode in use. *)
Definition backed (D : Z → list Z) (v : inode) : Prop := ∀ bn, 0 <= bn → bn * BSIZE < i_size v → blk D v bn ≠ 0.
Definition on_disk (D : Z → list Z) (v : inode) : Prop :=
  same_dinode v (get_dinode (dinode_off (i_inum v)) (D (IBLOCK (i_inum v))) inode_zero).

Record file_inv (start : Z) (D : Z → list Z) (v : inode) : Prop := {
  fi_disk : disk_ok start D;
  fi_wf : file_wf start D v;
  fi_dev : i_dev v = ROOTDEV;
  fi_inum : 0 <= i_inum v ∧ IBLOCK (i_inum v) < bmap_sector D;
  fi_size : 0 <= i_size v <= MAXFILE * BSIZE;
  fi_backed : backed D v;
  fi_fits : inode_fits v;
  fi_on : on_disk D v
}.

(** What is in use for something else stays. *)
Definition kept (start : Z) (D : Z → list Z) (v : inode) (D' : Z → list Z) (v' : inode) : Prop :=
  ∀ a, in_use start D a → ¬ owns D v a → D' a = D a ∧ in_use start D' a ∧ ¬ owns D' v' a.

(** A sector of the inodes is changed. *)
Lemma meta_put start D v x d : disk_ok start D → file_wf start D v → 1 < x < bmap_sector D →
  let D' := dput x d D in
  disk_ok start D' ∧ file_wf start D' v ∧ bmap_sector D' = bmap_sector D ∧ (∀ bn, 0 <= bn < MAXFILE → blk D' v bn = blk D v bn) ∧
  (∀ s, is_slot s → slot D' v s = slot D v s) ∧ (∀ a, in_use start D a → in_use start D' a) ∧
  ∀ i, 0 <= i < MAXFILE * BSIZE → blk D v (i / BSIZE) ≠ 0 → file_byte D' v i = file_byte D v i.
Proof.
  intros Hok Hwf Hx D'. assert (bmap_sector D' = bmap_sector D) as B by (unfold D', bmap_sector; by rewrite dput_ne by lia).
  assert (D' (bmap_sector D) = D (bmap_sector D)) as Bd by (apply dput_ne; lia).
  assert (∀ s, is_slot s → slot D' v s = slot D v s) as Hsl.
  { intros s Hs. unfold slot, blk. case_decide; [done|]. case_bool_decide; [done|]. case_bool_decide as Hi; [done|].
    destruct (proj1 Hwf (-1) ltac:(done) Hi) as [I1 _]. change (slot D v (-1)) with (ind v) in I1. unfold D'. by rewrite dput_ne by lia. }
  assert (∀ a, in_use start D a → in_use start D' a) as Hu by (intros a; unfold in_use; by rewrite B, Bd).
  assert (∀ bn, 0 <= bn < MAXFILE → blk D' v bn = blk D v bn) as Hblk.
  { intros bn Hbn. rewrite <- !slot_blk by lia. apply Hsl. unfold is_slot. lia. }
  split_and!; try done.
  - destruct Hok as [H1 H2 H3]. split; [unfold D'; by rewrite dput_ne by lia|by rewrite B|]. intros i. rewrite B, Bd. apply H3.
  - destruct Hwf as [W1 W2]. split; [intros s Hs; rewrite Hsl by done; intros H0; by apply Hu, W1|].
    intros s t Hs Ht. rewrite !Hsl by done. by apply W2.
  - intros i Hi H0. destruct (byte_block i Hi) as [Hb _]. unfold file_byte. rewrite Hblk by done. unfold D'. rewrite dput_ne; [done|].
    destruct (proj1 Hwf (i / BSIZE)) as [I1 _]; rewrite ?slot_blk in * by lia; [unfold is_slot; lia|done|]. lia.
Qed.

Lemma inode_update_tx t0 start c L S D lk m ip : let v := alook inode_zero m ip in
  tx_rep t0 start c L None S D → (size S <= 7)%nat → 0 <= ip < NINODE → i_dev v = ROOTDEV → 0 <= IBLOCK (i_inum v) < start →
  ∃ c' L', inode_update ip (in_mk c L lk m) = Ok () (in_mk c' L' lk m) ∧
    tx_rep t0 start c' L' None (S ∪ {[IBLOCK (i_inum v)]})
      (dput (IBLOCK (i_inum v)) (put_dinode (dinode_off (i_inum v)) v (D (IBLOCK (i_inum v)))) D).
Proof.
  intros v Htx HS Hip Hdev Hsec. destruct (open_tx t0 start c L None S D _ Htx HS Hsec ltac:(done)) as (b & c1 & R1 & R2 & _ & Hset & _).
  destruct (Hset (put_dinode (dinode_off (i_inum v)) v (D (IBLOCK (i_inum v))))) as (c2 & L2 & R3 & Htx2).
  { rewrite length_put_dinode. by apply (tx_rep_length _ _ _ _ _ _ _ _ Htx). }
  apply three_steps in R3 as (c3 & c4 & R3 & R4 & R5). exists c2, L2. split; [|done]. unfold inode_update.
  rewrite (bind_Ok _ _ _ _ _ (iget_mk _ _ _ _ ip Hip)). fold v. rewrite Hdev.
  rewrite (bind_Ok _ _ _ _ _ (zoom_in _ _ _ _ _ _ _ R1)), (bind_Ok _ _ _ _ _ (zoom_in _ _ _ _ _ _ _ R2)).
  rewrite (bind_Ok _ _ _ _ _ (zoom_in _ _ _ _ _ _ _ R3)), (bind_Ok _ _ _ _ _ (zoom_lg _ _ _ _ _ _ _ _ R4)).
  exact (zoom_in _ _ _ _ _ _ _ R5).
Qed.

(** The number of blocks that a write touches, and the bytes it leaves. *)
Definition blocks_of (off n : Z) : nat := Z.to_nat ((off mod BSIZE + n + BSIZE - 1) / BSIZE).
Definition overlay (f : Z → Z) (off : Z) (src : list Z) (i : Z) : Z :=
  if decide (off <= i < off + Z.of_nat (length src)) then src !!! Z.to_nat (i - off) else f i.

(** The addresses of a file fit a word. *)
Lemma wf_addr_u32 start D v i : disk_ok start D → file_wf start D v → 0 <= i < 13 → is_u32 (alook 0 (i_addrs v) i).
Proof.
  intros Hok [W1 _] Hi. rewrite <- (addr_slot_look D v i) by (unfold NDIRECT; lia). destruct (decide (slot D v (addr_slot i) = 0)) as [->|H0]; [done|].
  assert (is_slot (addr_slot i)) as Hs. { unfold addr_slot, is_slot, MAXFILE, NDIRECT, NINDIRECT. case_decide; lia. }
  destruct (W1 _ Hs H0) as [H1 _]. pose proof (dk_bmap _ _ Hok). pose proof (dk_size _ _ Hok). unfold BPB, BSIZE, is_u32, W32 in *. lia.
Qed.

Lemma is_u32_size size : 0 <= size <= MAXFILE * BSIZE → is_u32 size.
Proof. unfold MAXFILE, NDIRECT, NINDIRECT, BSIZE, is_u32, W32. lia. Qed.

Lemma grows_fits start lo hi D v D' v' size : grows start lo hi D v D' v' → inode_fits v → is_u32 size → inode_fits (with_size size v').
Proof.
  intros [G1 G2 _ _ _ _ _ _ _ N] [F1 F2 F3 F4 F5 F6] Hs. destruct N as (_ & _ & _ & _ & _ & N1 & N2 & N3 & N4 & _).
  split; unfold with_size; simpl; rewrite ?N1, ?N2, ?N3, ?N4; try done. intros i Hi. by eapply wf_addr_u32.
Qed.

(** What the file holds after the loop. *)
Lemma grown_bytes start D v D' v' off src : let n := Z.of_nat (length src) in
  grows start off (off + n) D v D' v' → stored D' v' off n src → backed D v → 0 <= off <= i_size v → i_size v <= MAXFILE * BSIZE →
  off + n <= MAXFILE * BSIZE → ∀ i, 0 <= i < Z.max (i_size v) (off + n) →
  blk D' v' (i / BSIZE) ≠ 0 ∧ file_byte D' v' i = overlay (file_byte D v) off src i.
Proof.
  intros n Hg [St1 St2] Hb Ho Hsz Hmax i Hi. destruct (byte_block i ltac:(lia)) as [Hq _]. unfold overlay. fold n.
  destruct (decide (off <= i < off + n)) as [Hin|Hout].
  - split; [apply St2; [lia|..]; unfold BSIZE; Z.div_mod_to_equations; lia|].
    replace i with (off + (i - off)) at 1 by lia. apply St1. lia.
  - assert (blk D v (i / BSIZE) ≠ 0) as H0 by (apply Hb; [lia|]; unfold BSIZE; Z.div_mod_to_equations; lia).
    rewrite (grows_blk _ _ _ _ _ _ _ _ Hg Hq H0). split; [done|]. apply (gr_byte _ _ _ _ _ _ _ Hg); [lia|done|done].
Qed.

(** [backed] from the bytes. *)
Lemma backed_bytes D v : (∀ i, 0 <= i < i_size v → blk D v (i / BSIZE) ≠ 0) → backed D v.
Proof.
  intros H bn H0 H1. specialize (H (bn * BSIZE) ltac:(unfold BSIZE in *; lia)). by rewrite Z.div_mul in H by done.
Qed.

(** The case where the file does not get longer. *)
Lemma inv_same start D v D' off n : file_inv start D v → grows start off n D v D' v → file_inv start D' v.
Proof.
  intros [F1 F2 F3 F4 F5 F6 F7 F8] Hg. pose proof Hg as [G1 G2 G3 G4 G5 G0 G6 G7 G8 G9].
  assert (0 <= IBLOCK (i_inum v)) by (unfold IBLOCK, IPB; Z.div_mod_to_equations; lia). split; try done.
  - by rewrite G3.
  - intros bn H0 H1. rewrite (grows_blk _ _ _ _ _ _ _ _ Hg); [by apply F6| |by apply F6]. unfold BSIZE, MAXFILE, NDIRECT, NINDIRECT in *. lia.
  - unfold on_disk. rewrite G8; [done|]. lia.
Qed.

(** The case where it does: the new size goes to the disk. *)
Lemma inv_longer start D v D' v' lo hi size d : file_inv start D v → grows start lo hi D v D' v' → 0 <= size <= MAXFILE * BSIZE →
  (∀ i, 0 <= i < size → blk D' v' (i / BSIZE) ≠ 0) → length (D' (IBLOCK (i_inum v))) = 512%nat →
  let w := with_size size v' in
  d = put_dinode (dinode_off (i_inum w)) w (D' (IBLOCK (i_inum w))) →
  file_inv start (dput (IBLOCK (i_inum w)) d D') w ∧
  (∀ i, 0 <= i < size → file_byte (dput (IBLOCK (i_inum w)) d D') w i = file_byte D' v' i) ∧
  kept start D v (dput (IBLOCK (i_inum w)) d D') w.
Proof.
  intros [F1 F2 F3 F4 F5 F6 F7 F8] Hg Hsz Hb Hl w Hd. pose proof Hg as [G1 G2 G3 G4 G5 G0 G6 G7 G8 G9].
  destruct G9 as (N1 & N2 & _). assert (1 < IBLOCK (i_inum w) < bmap_sector D') as Hx.
  { change (i_inum w) with (i_inum v'). rewrite N2, G3. split; [|lia]. unfold IBLOCK, IPB. Z.div_mod_to_equations. lia. }
  destruct (meta_put start D' w (IBLOCK (i_inum w)) d G1 G2 Hx) as (M1 & M2 & M3 & M4 & M6 & M7 & M5).
  split; [|split].
  - split; [done|done|by change (i_dev w) with (i_dev v'); rewrite N1| |done| |by eapply grows_fits, is_u32_size|].
    + rewrite M3. split; [|lia]. change (i_inum w) with (i_inum v'). rewrite N2. lia.
    + apply backed_bytes. intros i Hi. rewrite M4 by (apply byte_block; simpl in Hi; lia). apply (Hb i Hi).
    + unfold on_disk. rewrite dput_eq, Hd. apply get_put_dinode; [by change (i_inum w) with (i_inum v'); rewrite N2|by eapply grows_fits, is_u32_size].
  - intros i Hi. apply M5; [lia|]. by apply Hb.
  - intros a Ha Hn. destruct (G6 a Ha Hn) as [K1 K2]. split; [|split; [by apply M7, G7|]].
    + rewrite dput_ne; [done|]. intros ->. destruct Ha as [Ha _]. rewrite <- G3 in Ha. lia.
    + intros (t & Ht & E). apply K2. exists t. rewrite M6 in E by done. by split.
Qed.

Lemma blocks_of_enough off n : 0 <= n → n = 0 ∨ off mod BSIZE + n <= Z.of_nat (blocks_of off n) * BSIZE.
Proof. intros Hn. right. unfold blocks_of, BSIZE. pose proof (Z.mod_pos_bound off 512 ltac:(lia)). rewrite Z2Nat.id by (Z.div_mod_to_equations; lia). Z.div_mod_to_equations. lia. Qed.

Lemma blocks_of_fuel off n : 0 <= n → (blocks_of off n <= Z.to_nat (n / BSIZE + 2))%nat.
Proof. intros Hn. unfold blocks_of, BSIZE. apply Z2Nat.inj_le; Z.div_mod_to_equations; lia. Qed.

(** The fields of an entry that a write leaves alone. *)
Definition same_entry (v w : inode) : Prop :=
  i_inum w = i_inum v ∧ i_ref w = i_ref v ∧ I_BUSY w = I_BUSY v ∧ I_VALID w = I_VALID v ∧ i_type w = i_type v.

(** The result of a write: the file has the new bytes and size, the invariant holds, and the
    blocks of other files and the other inodes in use are as before. *)
Definition written (start : Z) (D : Z → list Z) (v : inode) (off : Z) (src : list Z) (D' : Z → list Z) (v' : inode) : Prop :=
  file_inv start D' v' ∧ i_size v' = Z.max (i_size v) (off + Z.of_nat (length src)) ∧ same_entry v v' ∧
  (∀ i, 0 <= i < i_size v' → file_byte D' v' i = overlay (file_byte D v) off src i) ∧ kept start D v D' v'.

Lemma inode_write_run t0 start c L S D lk m ip src off : let v := alook inode_zero m ip in let n := Z.of_nat (length src) in
  tx_rep t0 start c L None S D → file_inv start D v → 0 <= ip < NINODE → i_type v ≠ T_DEV →
  0 <= off <= i_size v → off + n <= MAXFILE * BSIZE →
  (room (bmap_sector D) S v + blocks_of off n <= 7)%nat → (blocks_of off n + need v <= size (free_blocks start D))%nat →
  ∃ c' L' m' S' D', inode_write ip src off n (in_mk c L lk m) = Ok n (in_mk c' L' lk m') ∧
    tx_rep t0 start c' L' None S' D' ∧ (size S' <= 8)%nat ∧ written start D v off src D' (alook inode_zero m' ip) ∧
    (size (free_blocks start D) + need (alook inode_zero m' ip) <= size (free_blocks start D') + blocks_of off n + need v)%nat ∧
    D' 1 = D 1 ∧ ∀ q, q ≠ ip → alook inode_zero m' q = alook inode_zero m q.
Proof.
  intros v n Htx Hinv Hip Hty Ho Hmax Hroom Hfree. pose proof Hinv as [F1 F2 F3 F4 F5 F6 F7 F8].
  assert (MAXFILE * BSIZE = 71680) as HM by done. unfold inode_write. rewrite (bind_Ok _ _ _ _ _ (iget_mk _ _ _ _ ip Hip)). fold v.
  rewrite (bool_decide_eq_false_2 (i_type v = T_DEV)) by done. rewrite u32_small by (unfold is_u32, W32; lia).
  rewrite !bool_decide_eq_false_2 by lia. cbn [orb].
  destruct (iwrite_loop_tx t0 start lk m ip Hip (blocks_of off n) (Z.to_nat (n / BSIZE + 2)) (in_mk c L lk m) S D v off n src)
    as (s1 & S1 & D1 & v1 & R1 & Hat1 & Hg & Hst & HS1 & Hfr & Hsame); try done; try lia;
    [apply blocks_of_fuel; lia|by exists c, L, m|by apply blocks_of_enough; lia|].
  rewrite (bind_Ok _ _ _ _ _ R1). destruct Hat1 as (c1 & L1 & m1 & -> & Htx1 & _ & _ & Hdev1 & Hv1 & Hoth).
  rewrite (bind_Ok _ _ _ _ _ (iget_mk _ _ _ _ ip Hip)), Hv1. pose proof (gr_node _ _ _ _ _ _ _ Hg) as (N1 & N2 & N5 & N6 & N7 & N3 & _ & _ & _ & N4).
  assert (D1 1 = D 1) as Hsb by (pose proof (dk_bmap _ _ F1); apply (gr_meta _ _ _ _ _ _ _ Hg); lia). rewrite N4. pose proof (grown_bytes start D v D1 v1 off src Hg Hst F6 Ho (proj2 F5) Hmax) as Hby. fold n in Hby.
  assert (s32 n = n) as En by (apply s32_small; unfold is_s32; lia).
  destruct (decide (n > 0 ∧ off + n > i_size v)) as [[Hn Hlong]|Hshort].
  - rewrite !bool_decide_eq_true_2 by done. cbn [andb].
    set (m2 := <[ip := with_size (off + n) v1]> m1). assert (alook inode_zero m2 ip = with_size (off + n) v1) as Hv2 by apply alook_insert_eq.
    assert (1 < IBLOCK (i_inum v) < bmap_sector D) as Hib by (split; [unfold IBLOCK, IPB; Z.div_mod_to_equations; lia|lia]).
    pose proof (dk_bmap _ _ F1) as Hbb. pose proof (tx_rep_length _ _ _ _ _ _ _ (IBLOCK (i_inum v)) Htx1 ltac:(lia)) as Hlen.
    destruct (inode_update_tx t0 start c1 L1 S1 D1 lk m2 ip Htx1 HS1 Hip) as (c2 & L2 & R2 & Htx2); rewrite ?Hv2 in *;
      [done|by change (i_inum (with_size (off + n) v1)) with (i_inum v1); rewrite N2; lia|].
    destruct (inv_longer start D v D1 v1 off (off + n) (off + n) _ Hinv Hg ltac:(lia) ltac:(intros i Hi; apply Hby; lia) Hlen eq_refl) as (I1 & I2 & I3).
    assert (IBLOCK (i_inum (with_size (off + n) v1)) = IBLOCK (i_inum v)) as Ei by (simpl; by rewrite N2). exists c2, L2, m2. eexists _, _. split.
    { erewrite bind_Ok; [|rewrite (bind_Ok _ _ _ _ _ (iupd_mk _ _ _ _ ip _ Hip)), Hv1; exact R2]. by rewrite En. }
    split; [exact Htx2|]. split; [pose proof (size_add (S1 ∪ {[IBLOCK (i_inum (with_size (off + n) v1))]}) S1 _ ltac:(reflexivity)); lia|].
    rewrite Hv2. split; [|split; [|split; [by rewrite dput_ne by (rewrite Ei; lia)|intros q Hq; unfold m2; rewrite alook_insert_ne by done; by apply Hoth]]].
    2:{ rewrite <- (free_blocks_ext start D1 (dput _ _ D1)); [done|..]; pose proof (gr_bb _ _ _ _ _ _ _ Hg); [unfold bmap_sector|]; by rewrite dput_ne by (rewrite Ei; lia). }
    split; [done|]. split; [simpl; fold n; lia|]. split; [done|]. split; [|done].
    intros i Hi. simpl in Hi. rewrite I2 by lia. apply Hby. lia.
  - assert (v1 = v) as E1. { apply Hsame. intros Hpos bn B1 B2. apply F6; [|lia]. unfold BSIZE in *. Z.div_mod_to_equations. lia. }
    assert (bool_decide (n > 0) && bool_decide (off + n > i_size v) = false) as -> by (apply andb_false_iff; rewrite !bool_decide_eq_false; lia).
    rewrite (bind_Ok _ _ _ _ _ (ret_Ok _ _)), En. exists c1, L1, m1, S1, D1. rewrite Hv1, E1 in *. split; [reflexivity|]. split; [done|]. split; [lia|].
    split; [|split; [lia|split; [done|done]]]. split; [by eapply inv_same|]. fold n. split; [lia|]. split; [done|]. split; [intros i Hi; apply Hby; lia|].
    intros a Ha Hn. destruct (gr_keep _ _ _ _ _ _ _ Hg a Ha Hn). split; [done|]. split; [by apply (gr_use _ _ _ _ _ _ _ Hg)|done].
Qed.

(** ** Reading back *)

Section Ext.
Context (start : Z) (D D' : Z → list Z) (v : inode).
Hypothesis ok : disk_ok start D.
Hypothesis wf : file_wf start D v.
Hypothesis same : ∀ n, 0 <= n < start → D' n = D n.

Lemma blk_ext bn : blk D' v bn = blk D v bn.
Proof.
  unfold blk. case_bool_decide; [done|]. case_bool_decide as Hi; [done|]. destruct (proj1 wf (-1) ltac:(done) Hi) as [I1 _].
  change (slot D v (-1)) with (ind v) in I1. pose proof (dk_bmap _ _ ok). by rewrite same by lia.
Qed.

Lemma blk_home bn : 0 <= bn < MAXFILE → blk D v bn ≠ 0 → 0 <= blk D v bn < start.
Proof.
  intros Hb H0. rewrite <- slot_blk in * by lia. destruct (proj1 wf bn) as [I1 _]; [unfold is_slot; lia|done|]. pose proof (dk_bmap _ _ ok). lia.
Qed.

Lemma slice_ext o k : 0 <= o → (∀ i, o <= i < o + k → i < MAXFILE * BSIZE ∧ blk D v (i / BSIZE) ≠ 0) → file_slice D' v o k = file_slice D v o k.
Proof.
  intros Ho H. unfold file_slice. apply list_fmap_ext. intros x i Hi. apply list_elem_of_lookup_2, elem_of_seqZ in Hi.
  destruct (H i ltac:(lia)) as [H1 H2]. unfold file_byte. rewrite blk_ext, same; [done|]. apply blk_home; [|done]. apply byte_block. lia.
Qed.
End Ext.

(** Reading a file while its sectors are [D]. *)
Lemma inode_read_inv t0 start c A L D lk m ip o k : let v := alook inode_zero m ip in
  bc_rep t0 c A → (∀ a, 0 <= a < start → content A (ROOTDEV, a) = D a ∧ can_read A (ROOTDEV, a)) →
  file_inv start D v → 0 <= ip < NINODE → i_type v ≠ T_DEV → 0 <= o <= i_size v → 0 <= k < 2 ^ 31 →
  ∃ c', let r := Z.min k (i_size v - o) in
    inode_read ip o k (in_mk c L lk m) = Ok (r, file_slice D v o r) (in_mk c' L lk m) ∧ bc_rep t0 c' A.
Proof.
  intros v Hrep HD [F1 F2 F3 F4 F5 F6 F7 F8] Hip Hty Ho Hk. assert (MAXFILE * BSIZE = 71680) as HM by done.
  assert (∀ bn, blk (sectors A) v bn = blk D v bn) as Hblk by (intros bn; apply (blk_ext start D); try done; intros; by apply HD).
  destruct (inode_read_run t0 c A L lk m ip o k Hrep Hip F3 Hty) as (c' & R & Hrep'); [|lia|done|unfold W32; lia|].
  - split; [done|]. intros bn Hb1 Hb2. fold v in Hb2. assert (0 <= bn < MAXFILE) as Hb by (unfold MAXFILE, NDIRECT, NINDIRECT, BSIZE in *; lia). specialize (F6 bn Hb1 Hb2).
    unfold has_block. fold v. rewrite Hblk. split_and!; try done; try lia; [by apply HD, (blk_home start D v)|].
    intros Hd. apply HD. assert (ind v ≠ 0) as Hi. { intros Hi. apply F6. unfold blk. by rewrite bool_decide_eq_false_2, bool_decide_eq_true_2 by (done || lia). }
    destruct (proj1 F2 (-1) ltac:(done) Hi) as [I1 _]. change (slot D v (-1)) with (ind v) in I1. pose proof (dk_bmap _ _ F1). lia.
  - exists c'. split; [|done]. rewrite R. fold v. rewrite decide_False by lia. cbv zeta. do 2 f_equal.
    apply (slice_ext start D); try done; [intros; by apply HD|lia|]. intros i Hi. split; [lia|]. apply F6; unfold BSIZE; Z.div_mod_to_equations; lia.
Qed.

(** Inside a transaction. *)
Lemma inode_read_tx t0 start c L S D lk m ip o k : let v := alook inode_zero m ip in
  tx_rep t0 start c L None S D → (size S <= 8)%nat → file_inv start D v → 0 <= ip < NINODE → i_type v ≠ T_DEV →
  0 <= o <= i_size v → 0 <= k < 2 ^ 31 →
  ∃ c', let r := Z.min k (i_size v - o) in inode_read ip o k (in_mk c L lk m) = Ok (r, file_slice D v o r) (in_mk c' L lk m).
Proof.
  intros v (Hst & Hsz & Hh & A & txn & Hrep & Htx & Hs & HD) HS Hinv Hip Hty Ho Hk.
  pose proof (txn_small txn S 8 (it_nodup _ _ _ Htx) Hs HS) as Hlen. change (hold None A) with A in Hrep.
  destruct (inode_read_inv t0 start c A L D lk m ip o k Hrep) as (c' & R & _); try done; [|by exists c'].
  intros a Ha. split; [by apply HD|]. apply (in_tx_can_read L txn); [done|lia|lia].
Qed.

(** The bytes that were read are those of the write. *)
Lemma slice_overlay D v D' v' off src o r : (∀ i, 0 <= i < i_size v' → file_byte D' v' i = overlay (file_byte D v) off src i) →
  0 <= o → o + r <= i_size v' → file_slice D' v' o r = overlay (file_byte D v) off src <$> seqZ o r.
Proof. intros H Ho Hr. apply list_fmap_ext. intros x i Hi. apply list_elem_of_lookup_2, elem_of_seqZ in Hi. apply H. lia. Qed.
