(* ===== verification/Path.v ===== *)
(** * Directories and paths (kern/fs/dir.c, path.c)

    A directory is a file of 16-byte entries.  Path names are arrays of characters with a
    terminator; the main theorems say which names a path consists of and when an entry
    matches a name. *)

From S2P Require Import Prelude Spinlock Mboot PMem Container PageTable TCB TQueue Thread Sched.
From S2P Require Import UserCopy CString BufCache Log Inode.

Definition DIRSIZ : nat := 14.
Definition SLASH : Z := 47.

#[global] Instance th_tcb_lens : Lens th_state tcb_state := lens_comp th_tq_lens tq_tcb_lens.
#[global] Instance in_tcb_lens : Lens in_state tcb_state := lens_comp in_th_lens th_tcb_lens.

(** ** Directories *)

Record dirent := { de_inum : Z; de_name : list Z }.

Definition dirent_size : Z := 16.

Definition get_dirent (d : list Z) : dirent :=
  {| de_inum := get16 d 0; de_name := drop 2 d |}.

Definition put_dirent (de : dirent) : list Z :=
  [u8 (de_inum de); u8 (Z.shiftr (de_inum de) 8)] ++ de_name de.

Definition dir_namecmp (s t : list Z) : option Z := strncmp s t DIRSIZ.

(** The entry of the inode and the offset of its directory entry. *)
Fixpoint lookup_loop (fuel : nat) (dp : Z) (name : list Z) (off : Z) : M in_state (option (Z * Z)) :=
  match fuel with
  | O => mret None
  | S fuel =>
      v ← iget dp;
      if bool_decide (off < i_size v) then
        r ← inode_read dp off dirent_size;
        if bool_decide (r.1 ≠ dirent_size) then kern_panic
        else
          let de := get_dirent r.2 in
          if bool_decide (de_inum de = 0) then lookup_loop fuel dp name (off + dirent_size)
          else
            c ← deref (dir_namecmp (de_name de) name);
            if bool_decide (c = 0) then
              v ← iget dp;
              ip ← inode_get (i_dev v) (de_inum de);
              mret (Some (ip, off))
            else lookup_loop fuel dp name (off + dirent_size)
      else mret None
  end.

Definition dir_lookup (dp : Z) (name : list Z) : M in_state (option (Z * Z)) :=
  v ← iget dp;
  if bool_decide (i_type v ≠ T_DIR) then kern_panic
  else lookup_loop (Z.to_nat (i_size v / dirent_size + 1)) dp name 0.

(** The offset at which the scan of [dir_link] stops. *)
Fixpoint link_loop (fuel : nat) (dp off : Z) : M in_state Z :=
  match fuel with
  | O => mret off
  | S fuel =>
      v ← iget dp;
      if bool_decide (off < i_size v) then
        r ← inode_read dp off dirent_size;
        if bool_decide (r.1 ≠ dirent_size) then kern_panic
        else if bool_decide (de_inum (get_dirent r.2) = 0) then mret off
        else link_loop fuel dp (off + dirent_size)
      else mret off
  end.

Definition dir_link (dp : Z) (name : list Z) (inum : Z) : M in_state Z :=
  found ← dir_lookup dp name;
  match found with
  | Some (ip, _) => inode_put ip ;; mret (-1)
  | None =>
      v ← iget dp;
      off ← link_loop (Z.to_nat (i_size v / dirent_size + 1)) dp 0;
      nm ← deref (strncpy name DIRSIZ);
      r ← inode_write dp (put_dirent {| de_inum := inum; de_name := nm |}) off dirent_size;
      if bool_decide (r ≠ dirent_size) then kern_panic else mret 0
  end.

(** ** Paths *)

(** The array after the leading slashes; the outer [None] is an access past its end. *)
Fixpoint skip_slashes (p : list Z) : option (list Z) :=
  match p with
  | [] => None
  | c :: p' => if bool_decide (c = SLASH) then skip_slashes p' else Some p
  end.

(** The characters up to a slash or the terminator, and the array from there on. *)
Fixpoint elem_end (p : list Z) : option (list Z * list Z) :=
  match p with
  | [] => None
  | c :: p' =>
      if bool_decide (c ≠ SLASH) && bool_decide (c ≠ 0) then
        match elem_end p' with Some (e, rest) => Some (c :: e, rest) | None => None end
      else Some ([], p)
  end.

(** The rest of the path and the new contents of [name]; [Some None] is the null
    pointer. *)
Definition skipelem (path name : list Z) : option (option (list Z * list Z)) :=
  match path with
  | [] => None
  | c :: _ =>
      if bool_decide (c = 0) then Some None
      else
        start ← skip_slashes path;
        match start with
        | [] => None
        | e :: _ =>
            if bool_decide (e = 0) then Some None
            else
              '(el, stop) ← elem_end start;
              let len := if bool_decide (DIRSIZ <= length el)%nat then (DIRSIZ - 1)%nat else length el in
              nm ← strncpy start len;
              rest ← skip_slashes stop;
              Some (Some (rest, nm ++ 0 :: drop (len + 1) name))
        end
  end.

Fixpoint namex_loop (fuel : nat) (ip : Z) (path : list Z) (nameiparent : bool) (name : list Z) :
    M in_state (option Z * list Z) :=
  match fuel with
  | O => undef
  | S fuel =>
      el ← deref (skipelem path name);
      match el with
      | None =>
          if nameiparent then inode_put ip ;; mret (None, name) else mret (Some ip, name)
      | Some (path, name) =>
          inode_lock (Some ip) ;;
          v ← iget ip;
          if bool_decide (i_type v ≠ T_DIR) then inode_unlockput ip ;; mret (None, name)
          else if nameiparent && bool_decide (path !! 0%nat = Some 0) then
            inode_unlock (Some ip) ;; mret (Some ip, name)
          else
            found ← dir_lookup ip name;
            match found with
            | None => inode_unlockput ip ;; mret (None, name)
            | Some (subdir, _) => inode_unlockput ip ;; namex_loop fuel subdir path nameiparent name
            end
      end
  end.

Definition namex (path : list Z) (nameiparent : bool) (name : list Z) : M in_state (option Z * list Z) :=
  c ← deref (path !! 0%nat);
  ip ← (if bool_decide (c = SLASH) then inode_get ROOTDEV ROOTINO
        else
          pid ← zoom get_curid;
          cwd ← zoom (tcb_get_cwd pid);
          d ← match cwd with
              | Some d => mret d
              | None => d ← inode_get ROOTDEV ROOTINO; zoom (tcb_set_cwd pid (Some d)) ;; mret d
              end;
          inode_dup d);
  namex_loop (length path + 1) ip path nameiparent name.

(** [name] is a local array of [DIRSIZ] bytes. *)
Definition namei (path name : list Z) : M in_state (option Z) := r ← namex path false name; mret r.1.

Definition nameiparent (path name : list Z) : M in_state (option Z * list Z) := namex path true name.

(** ** The names of a path *)

(** The string in an array. *)
Fixpoint cstr (s : list Z) : list Z :=
  match s with
  | [] => []
  | c :: s => if bool_decide (c = 0) then [] else c :: cstr s
  end.

Fixpoint split_slash (a : list Z) : list (list Z) :=
  match a with
  | [] => [[]]
  | c :: a =>
      if bool_decide (c = SLASH) then [] :: split_slash a
      else match split_slash a with e :: es => (c :: e) :: es | [] => [[c]] end
  end.

(** The specification: the pieces between slashes that are not empty. *)
Definition components (a : list Z) : list (list Z) := filter (λ e, e ≠ []) (split_slash a).

(** The names that repeated calls of [skipelem] give. *)
Fixpoint path_names (fuel : nat) (path name : list Z) : option (list (list Z)) :=
  match fuel with
  | O => None
  | S fuel =>
      el ← skipelem path name;
      match el with
      | None => Some []
      | Some (rest, name') => cons (cstr name') <$> path_names fuel rest name'
      end
  end.

Definition no_slash (e : list Z) : Prop := Forall (λ c, c ≠ SLASH) e.
Definition ends_elem (r : list Z) : Prop := r = [] ∨ ∃ r', r = SLASH :: r'.
Definition starts_elem (b : list Z) : Prop := b = [] ∨ ∃ c b', b = c :: b' ∧ c ≠ SLASH.

Lemma split_slash_cons a : ∃ e es, split_slash a = e :: es.
Proof.
  destruct a as [|c a]; simpl; [eauto|]. case_bool_decide; [eauto|].
  destruct (split_slash a); eauto.
Qed.

Lemma components_slash a : components (SLASH :: a) = components a.
Proof. done. Qed.

Lemma split_elem e r :
  no_slash e → split_slash (e ++ r) = match split_slash r with x :: es => (e ++ x) :: es | [] => [] end.
Proof.
  induction e as [|c e IH]; intros He; simpl.
  { destruct (split_slash_cons r) as (x & es & ->). done. }
  apply Forall_cons in He as [Hc He]. rewrite bool_decide_eq_false_2 by done. rewrite IH by done.
  destruct (split_slash_cons r) as (x & es & ->). done.
Qed.

Lemma components_elem e r :
  no_slash e → e ≠ [] → ends_elem r → components (e ++ r) = e :: components r.
Proof.
  intros He Hne Hr. unfold components. rewrite split_elem by done. destruct Hr as [-> |(r' & ->)].
  - simpl. rewrite app_nil_r, filter_cons_True by done. done.
  - simpl. rewrite app_nil_r, filter_cons_True by done. rewrite filter_cons_False by tauto. done.
Qed.

Lemma skip_slashes_spec a x :
  ∃ b, skip_slashes (a ++ 0 :: x) = Some (b ++ 0 :: x) ∧ components b = components a ∧ starts_elem b ∧
       (length b <= length a)%nat ∧ ∃ pre, a = pre ++ b.
Proof.
  induction a as [|c a (b & H1 & H2 & H3 & H4 & pre & H5)]; simpl.
  { exists []. split; [done|]. split; [done|]. split; [by left|]. split; [simpl; lia|]. by exists []. }
  case_bool_decide as Hc.
  - subst c. exists b. split; [done|]. split; [by rewrite components_slash|]. split; [done|].
    split; [lia|]. exists (SLASH :: pre). by rewrite H5 at 1.
  - exists (c :: a). split; [done|]. split; [done|]. split; [right; eauto|]. split; [done|]. by exists [].
Qed.

Lemma elem_end_spec b x :
  is_str b → ∃ e r, elem_end (b ++ 0 :: x) = Some (e, r ++ 0 :: x) ∧ b = e ++ r ∧ no_slash e ∧ ends_elem r.
Proof.
  induction b as [|c b IH]; intros Hb; simpl.
  { exists [], []. split; [done|]. split; [done|]. split; [constructor|by left]. }
  apply Forall_cons in Hb as [Hc Hb]. rewrite (bool_decide_eq_true_2 (c ≠ 0)) by lia. rewrite andb_true_r.
  case_bool_decide as Hs.
  - destruct (IH Hb) as (e & r & He & -> & Hn & Hr). rewrite He. exists (c :: e), r.
    split; [done|]. split; [done|]. split; [by constructor|done].
  - exists [], (c :: b). split; [done|]. split; [done|]. split; [constructor|]. right.
    exists b. f_equal. destruct (decide (c = SLASH)); tauto.
Qed.

(** One step: the first component, cut to 13 characters, and the path of the others. *)
Lemma skipelem_spec a x name :
  is_str a → length name = 14%nat →
  match components a with
  | [] => skipelem (a ++ 0 :: x) name = Some None
  | e :: es => ∃ b name', skipelem (a ++ 0 :: x) name = Some (Some (b ++ 0 :: x, name')) ∧
      components b = es ∧ starts_elem b ∧ is_str b ∧ (length b < length a)%nat ∧ length name' = 14%nat ∧
      cstr name' = take 13 e
  end.
Proof.
  intros Ha Hn. destruct (skip_slashes_spec a x) as (b & Hb & Hcb & Hst & Hlb & pre & Hpre).
  assert (is_str b) as Hsb by (rewrite Hpre in Ha; by apply Forall_app in Ha as [_ ?]).
  unfold skipelem. rewrite Hb. rewrite <- Hcb. destruct Hst as [-> |(c & b' & -> & Hc)].
  { change (components []) with ([] : list (list Z)). destruct a as [|c a]; [done|]. simpl.
    apply Forall_cons in Ha as [Hc _]. by rewrite bool_decide_eq_false_2 by lia. }
  destruct (elem_end_spec (c :: b') x Hsb) as (e & r & He & Her & Hne & Hr).
  assert (e ≠ []) as Hnil.
  { intros ->. simpl in Her. destruct Hr as [-> |(r' & ->)]; [done|]. by injection Her as -> _. }
  assert (components (c :: b') = e :: components r) as -> by (rewrite Her; by apply components_elem).
  assert (is_str e ∧ is_str r) as [Hse Hsr] by (rewrite Her in Hsb; by apply Forall_app in Hsb).
  destruct (skip_slashes_spec r x) as (b2 & Hb2 & Hcb2 & Hst2 & Hlb2 & pre2 & Hpre2).
  set (len := if bool_decide (DIRSIZ <= length e)%nat then (DIRSIZ - 1)%nat else length e).
  assert (len <= length e ∧ len <= 13 ∧ take len e = take 13 e)%nat as (Hl1 & Hl2 & Hl3).
  { unfold len, DIRSIZ. case_bool_decide; [split; [lia|split; [lia|done]]|].
    split; [lia|]. split; [lia|]. rewrite !firstn_all2 by lia. done. }
  exists b2, (take len e ++ 0 :: drop (len + 1) name).
  split.
  - destruct a as [|c0 a0]; [simpl in Hlb; lia|]. simpl. apply Forall_cons in Ha as [Hc0 _].
    rewrite bool_decide_eq_false_2 by lia. apply Forall_cons in Hsb as [Hcc _].
    rewrite (bool_decide_eq_false_2 (c = 0)) by lia. simpl in He. rewrite He. simpl.
    fold len. change (c :: b' ++ 0 :: x) with ((c :: b') ++ 0 :: x). rewrite Her, <- app_assoc.
    rewrite strncpy_cut by done. simpl. rewrite Hb2. done.
  - split; [done|]. split; [done|]. split; [rewrite Hpre2 in Hsr; by apply Forall_app in Hsr as [_ ?]|].
    split; [apply (f_equal length) in Her; rewrite length_app in Her; destruct e; [done|]; simpl in *; lia|].
    split; [rewrite length_app, length_take; simpl; rewrite length_drop; lia|].
    rewrite <- Hl3. assert (is_str (take len e)) as Hst' by (by apply Forall_take).
    clear -Hst'. induction (take len e) as [|y l IH]; [done|]. apply Forall_cons in Hst' as [Hy Hst']. simpl.
    rewrite bool_decide_eq_false_2 by lia. by rewrite IH.
Qed.

(** A path is walked by its components.  Calling [skipelem] until it returns the
    null pointer gives the parts of the path between slashes that are not empty, in
    order, each cut to 13 characters, and it returns after as many calls. *)
Theorem skipelem_components a x name :
  is_str a → length name = 14%nat →
  path_names (length a + 1) (a ++ 0 :: x) name = Some (take 13 <$> components a).
Proof.
  intros Ha. assert (length a < length a + 1)%nat as Hf by lia. revert Hf.
  generalize (length a + 1)%nat. intros fuel. revert a name Ha.
  induction fuel as [|fuel IH]; intros a name Ha Hf Hn; [lia|]. simpl.
  pose proof (skipelem_spec a x name Ha Hn) as Hs. destruct (components a) as [|e es].
  - by rewrite Hs.
  - destruct Hs as (b & name' & Hsk & <- & _ & Hb & Hlen & Hn' & Hcs). rewrite Hsk. simpl.
    rewrite IH by (done || lia). simpl. by rewrite Hcs.
Qed.

(** "//a/bb" *)
Lemma skipelem_components_witness :
  path_names 7 [47; 47; 97; 47; 98; 98; 0] (replicate 14 0) = Some [[97]; [98; 98]].
Proof.
  apply (skipelem_components [47; 47; 97; 47; 98; 98] []); [repeat constructor; lia|reflexivity].
Defined.

(** The name comparison of directories.  The entry that [dir_link] makes for a name
    compares equal to a name exactly when the two agree on their first 14 characters. *)
Theorem dir_name_match a b x y :
  is_str a → is_str b →
  ∃ nm r, strncpy (a ++ 0 :: x) DIRSIZ = Some nm ∧ length nm = DIRSIZ ∧
    dir_namecmp nm (b ++ 0 :: y) = Some r ∧ (r = 0 ↔ take DIRSIZ a = take DIRSIZ b).
Proof.
  intros Ha Hb. unfold dir_namecmp. destruct (decide (length a <= DIRSIZ)%nat) as [Hl|Hl].
  - exists (a ++ replicate (DIRSIZ - length a) 0). rewrite strncpy_str by done.
    destruct (strncmp_zero a b (replicate (DIRSIZ - length a) 0) (0 :: y) DIRSIZ) as (r & Hr & H0);
      [done|done| |by right|].
    + destruct (decide (length a = DIRSIZ)); [left; lia|]. right.
      destruct (DIRSIZ - length a)%nat eqn:E; [lia|done].
    + exists r. split; [done|]. split; [rewrite length_app, length_replicate; lia|]. done.
  - exists (take DIRSIZ a). rewrite strncpy_cut by (done || lia).
    destruct (strncmp_zero (take DIRSIZ a) b [] (0 :: y) DIRSIZ) as (r & Hr & H0);
      [by apply Forall_take|done|left; rewrite length_take; lia|by right|].
    exists r. rewrite app_nil_r in Hr. split; [done|]. split; [rewrite length_take; lia|]. split; [done|].
    rewrite H0, take_take. by rewrite Nat.min_id.
Qed.

Lemma dir_name_match_witness :
  ∃ nm r, strncpy [97; 98; 0; 5] DIRSIZ = Some nm ∧ length nm = DIRSIZ ∧
    dir_namecmp nm [97; 98; 99; 0] = Some r ∧ (r = 0 ↔ take DIRSIZ [97; 98] = take DIRSIZ [97; 98; 99]).
Proof. apply (dir_name_match [97; 98] [97; 98; 99] [5] []); repeat constructor; lia. Defined.
