(* ===== verification/File.v ===== *)
(** * Open files, pipes and the console (kern/fs/file.c, file.h)

    The table of open files with its reference counts, the pipes and the console.
    [pipe_write] and [pipe_read] are cut where a thread can sleep: a segment runs with
    the lock of the pipes held until the call returns or sleeps, and a call that slept
    goes on with another segment. *)

From S2P Require Import Prelude Spinlock Mboot PMem Container PageTable TCB TQueue Thread Sched.
From S2P Require Import UserCopy CString BufCache Log Inode Path.

Definition NFILE : Z := 100.
Definition NPIPE : Z := 10.
Definition PIPESIZE : Z := 512.

Inductive file_type := FD_NONE | FD_PIPE | FD_INODE | FD_CONSOLE_IN | FD_CONSOLE_OUT.

#[global] Instance file_type_eq_dec : EqDecision file_type.
Proof. solve_decision. Defined.

Record file := {
  f_type : file_type; f_ref : Z; f_readable : Z; f_writable : Z;
  f_pipe : option Z; f_ip : option Z; f_off : Z
}.

Definition file_zero : file :=
  {| f_type := FD_NONE; f_ref := 0; f_readable := 0; f_writable := 0; f_pipe := None; f_ip := None;
     f_off := 0 |}.

Record pipe := {
  p_ref : Z; p_data : gmap Z Z; nread : Z; nwrite : Z; readopen : Z; writeopen : Z
}.

Definition pipe_zero : pipe :=
  {| p_ref := 0; p_data := ∅; nread := 0; nwrite := 0; readopen := 0; writeopen := 0 |}.

(** [cons_in] are the characters in the buffer of the console that [cons_getc] has not
    returned yet, [cons_out] those given to [cons_putc], last first. *)
Record fs_state := {
  fl_in : in_state;
  ft_lock : spinlock_t; ftable : gmap Z file;
  pc_lock : spinlock_t; pipes : gmap Z pipe;
  cons_in : list Z; cons_out : list Z
}.

#[global, program] Instance fl_in_lens : Lens fs_state in_state := {|
  view := fl_in;
  put i s := {| fl_in := i; ft_lock := ft_lock s; ftable := ftable s; pc_lock := pc_lock s;
                pipes := pipes s; cons_in := cons_in s; cons_out := cons_out s |}
|}.
Next Obligation. done. Qed.
Next Obligation. by intros []. Qed.
Next Obligation. done. Qed.

#[global] Instance fl_lg_lens : Lens fs_state lg_state := lens_comp fl_in_lens in_lg_lens.
#[global] Instance fl_th_lens : Lens fs_state th_state := lens_comp fl_in_lens in_th_lens.
#[global] Instance fl_tcb_lens : Lens fs_state tcb_state := lens_comp fl_th_lens th_tcb_lens.

Definition set_ft_lock (lk : spinlock_t) (s : fs_state) : fs_state :=
  {| fl_in := fl_in s; ft_lock := lk; ftable := ftable s; pc_lock := pc_lock s; pipes := pipes s;
     cons_in := cons_in s; cons_out := cons_out s |}.
Definition upd_ftable (f : gmap Z file → gmap Z file) (s : fs_state) : fs_state :=
  {| fl_in := fl_in s; ft_lock := ft_lock s; ftable := f (ftable s); pc_lock := pc_lock s;
     pipes := pipes s; cons_in := cons_in s; cons_out := cons_out s |}.
Definition set_pc_lock (lk : spinlock_t) (s : fs_state) : fs_state :=
  {| fl_in := fl_in s; ft_lock := ft_lock s; ftable := ftable s; pc_lock := lk; pipes := pipes s;
     cons_in := cons_in s; cons_out := cons_out s |}.
Definition upd_pipes (f : gmap Z pipe → gmap Z pipe) (s : fs_state) : fs_state :=
  {| fl_in := fl_in s; ft_lock := ft_lock s; ftable := ftable s; pc_lock := pc_lock s;
     pipes := f (pipes s); cons_in := cons_in s; cons_out := cons_out s |}.
Definition set_cons (i o : list Z) (s : fs_state) : fs_state :=
  {| fl_in := fl_in s; ft_lock := ft_lock s; ftable := ftable s; pc_lock := pc_lock s;
     pipes := pipes s; cons_in := i; cons_out := o |}.

Definition ft_acquire : M fs_state () := spinlock_acquire ft_lock set_ft_lock.
Definition ft_release : M fs_state () := spinlock_release ft_lock set_ft_lock.
Definition pc_lkref : lockref fs_state := {| lk_get := pc_lock; lk_set := set_pc_lock |}.
Definition pc_acquire : M fs_state () := spinlock_acquire pc_lock set_pc_lock.
Definition pc_release : M fs_state () := spinlock_release pc_lock set_pc_lock.

Definition fget (f : Z) : M fs_state file := aget NFILE file_zero ftable f.
Definition fset (f : Z) (v : file) : M fs_state () := aset NFILE upd_ftable f v.
Definition fupd (f : Z) (g : file → file) : M fs_state () := v ← fget f; fset f (g v).
Definition pget (p : Z) : M fs_state pipe := aget NPIPE pipe_zero pipes p.
Definition pset (p : Z) (v : pipe) : M fs_state () := aset NPIPE upd_pipes p v.

Definition with_fref (r : Z) (v : file) : file :=
  {| f_type := f_type v; f_ref := r; f_readable := f_readable v; f_writable := f_writable v;
     f_pipe := f_pipe v; f_ip := f_ip v; f_off := f_off v |}.
Definition with_off (o : Z) (v : file) : file :=
  {| f_type := f_type v; f_ref := f_ref v; f_readable := f_readable v; f_writable := f_writable v;
     f_pipe := f_pipe v; f_ip := f_ip v; f_off := o |}.
Definition with_kind (ty : file_type) (r w : Z) (v : file) : file :=
  {| f_type := ty; f_ref := f_ref v; f_readable := r; f_writable := w; f_pipe := f_pipe v;
     f_ip := f_ip v; f_off := f_off v |}.
Definition with_pipe (p : Z) (v : file) : file :=
  {| f_type := f_type v; f_ref := f_ref v; f_readable := f_readable v; f_writable := f_writable v;
     f_pipe := Some p; f_ip := f_ip v; f_off := f_off v |}.

(** ** The file table *)

Definition file_init : M fs_state () :=
  modify (set_ft_lock spinlock_init) ;;
  modify (set_pc_lock spinlock_init).

(** The first free entry from [f] on. *)
Fixpoint ffree (fuel : nat) (t : gmap Z file) (f : Z) : option Z :=
  match fuel with
  | O => None
  | S fuel =>
      if bool_decide (f_ref (alook file_zero t f) = 0) then Some f else ffree fuel t (f + 1)
  end.

Definition file_alloc : M fs_state (option Z) :=
  ft_acquire ;;
  t ← gets ftable;
  match ffree (Z.to_nat NFILE) t 0 with
  | Some f =>
      fupd f (with_fref 1) ;;
      ft_release ;;
      mret (Some f)
  | None => ft_release ;; mret None
  end.

Definition file_dup (f : Z) : M fs_state Z :=
  ft_acquire ;;
  v ← fget f;
  if bool_decide (f_ref v < 1) then kern_panic
  else
    fset f (with_fref (f_ref v + 1) v) ;;
    ft_release ;;
    mret f.

(** ** Pipes *)

Definition pipe_full (v : pipe) : bool := bool_decide (nwrite v = u32 (nread v + PIPESIZE)).
Definition pipe_empty (v : pipe) : bool := bool_decide (nread v = nwrite v).

Definition pipe_putc (c : Z) (v : pipe) : pipe :=
  {| p_ref := p_ref v; p_data := <[nwrite v mod PIPESIZE := c]> (p_data v); nread := nread v;
     nwrite := u32 (nwrite v + 1); readopen := readopen v; writeopen := writeopen v |}.
Definition pipe_getc (v : pipe) : Z * pipe :=
  (alook 0 (p_data v) (nread v mod PIPESIZE),
   {| p_ref := p_ref v; p_data := p_data v; nread := u32 (nread v + 1); nwrite := nwrite v;
      readopen := readopen v; writeopen := writeopen v |}).

(** The loop of [pipe_write] until the pipe is full: the bytes that are left. *)
Fixpoint pipe_fill (bs : list Z) (v : pipe) : list Z * pipe :=
  match bs with
  | [] => ([], v)
  | c :: rest => if pipe_full v then (bs, v) else pipe_fill rest (pipe_putc c v)
  end.

(** The loop of [pipe_read]. *)
Fixpoint pipe_drain (n : nat) (v : pipe) : list Z * pipe :=
  match n with
  | O => ([], v)
  | S n =>
      if pipe_empty v then ([], v)
      else let '(c, v1) := pipe_getc v in let '(bs, v2) := pipe_drain n v1 in (c :: bs, v2)
  end.

(** How a segment ends: with a result, or asleep with work left. *)
Inductive seg (A B : Type) := SegDone (a : A) | SegSleep (b : B).
Arguments SegDone {A B}. Arguments SegSleep {A B}.

(** From the test of the inner loop on, with the lock held and the bytes [bs] of [n]
    left to write. *)
Definition pipe_write_seg (p : Z) (bs : list Z) (n : Z) : M fs_state (seg Z (list Z)) :=
  v ← pget p;
  let '(rest, v') := pipe_fill bs v in
  pset p v' ;;
  match rest with
  | [] =>
      zoom (thread_wakeup (Some (ChNread p))) ;;
      pc_release ;;
      mret (SegDone n)
  | _ =>
      if bool_decide (readopen v' = 0) then pc_release ;; mret (SegDone (-1))
      else
        zoom (thread_wakeup (Some (ChNread p))) ;;
        thread_sleep_enter (ChNwrite p) (Some pc_lkref) ;;
        mret (SegSleep rest)
  end.

(** [pipe_write] up to its return or its first sleep. *)
Definition pipe_write_begin (p : Z) (addr : list Z) (n : Z) : M fs_state (seg Z (list Z)) :=
  pc_acquire ;;
  pipe_write_seg p (take (Z.to_nat n) addr) n.

Definition pipe_write (p : Z) (addr : list Z) (n : Z) : M fs_state Z :=
  r ← pipe_write_begin p addr n;
  match r with SegDone r => mret r | SegSleep _ => block end.

(** [pipe_write] after a sleep of the thread [pid]. *)
Definition pipe_write_resume (pid p : Z) (rest : list Z) (n : Z) : M fs_state (seg Z (list Z)) :=
  thread_sleep_resume pid pc_lkref ;;
  pipe_write_seg p rest n.

Definition pipe_read_seg (p n : Z) : M fs_state (seg (list Z) ()) :=
  v ← pget p;
  if pipe_empty v && bool_decide (writeopen v ≠ 0) then
    thread_sleep_enter (ChNread p) (Some pc_lkref) ;;
    mret (SegSleep ())
  else
    let '(bs, v') := pipe_drain (Z.to_nat n) v in
    pset p v' ;;
    zoom (thread_wakeup (Some (ChNwrite p))) ;;
    pc_release ;;
    mret (SegDone bs).

Definition pipe_read_begin (p n : Z) : M fs_state (seg (list Z) ()) :=
  pc_acquire ;;
  pipe_read_seg p n.

(** The bytes stored from [addr] on; the result is their number. *)
Definition pipe_read (p n : Z) : M fs_state (Z * list Z) :=
  r ← pipe_read_begin p n;
  match r with SegDone bs => mret (Z.of_nat (length bs), bs) | SegSleep _ => block end.

Definition pipe_read_resume (pid p n : Z) : M fs_state (seg (list Z) ()) :=
  thread_sleep_resume pid pc_lkref ;;
  pipe_read_seg p n.

Definition with_ends (ref r w : Z) (v : pipe) : pipe :=
  {| p_ref := ref; p_data := p_data v; nread := nread v; nwrite := nwrite v; readopen := r;
     writeopen := w |}.

(** Closing one end and waking who waits for it. *)
Definition pipe_shut (p writable : Z) : M fs_state () :=
  v ← pget p;
  if bool_decide (writable ≠ 0) then
    pset p (with_ends (p_ref v) (readopen v) 0 v) ;;
    zoom (thread_wakeup (Some (ChNread p)))
  else
    pset p (with_ends (p_ref v) 0 (writeopen v) v) ;;
    zoom (thread_wakeup (Some (ChNwrite p))).

(** The slot is free when both ends are closed. *)
Definition pipe_reclaim (p : Z) : M fs_state () :=
  v ← pget p;
  if bool_decide (readopen v = 0) && bool_decide (writeopen v = 0) then
    pset p (with_ends 0 (readopen v) (writeopen v) v)
  else mret ().

Definition pipe_close (p writable : Z) : M fs_state () :=
  pc_acquire ;;
  pipe_shut p writable ;;
  pipe_reclaim p ;;
  pc_release.

Definition file_close (f : Z) : M fs_state () :=
  ft_acquire ;;
  v ← fget f;
  if bool_decide (f_ref v < 1) then kern_panic
  else
    fset f (with_fref (f_ref v - 1) v) ;;
    if bool_decide (f_ref v - 1 > 0) then ft_release
    else
      fupd f (λ v, with_kind FD_NONE (f_readable v) (f_writable v) (with_fref 0 v)) ;;
      ft_release ;;
      match f_type v with
      | FD_PIPE => p ← deref (f_pipe v); pipe_close p (f_writable v)
      | FD_INODE =>
          zoom begin_trans ;;
          ip ← deref (f_ip v);
          zoom (inode_put ip) ;;
          zoom commit_trans
      | _ => mret ()
      end.

(** The first free pipe from [p] on. *)
Fixpoint pipe_scan (fuel : nat) (t : gmap Z pipe) (p : Z) : option Z :=
  match fuel with
  | O => None
  | S fuel => if bool_decide (p_ref (alook pipe_zero t p) = 0) then Some p else pipe_scan fuel t (p + 1)
  end.

Definition pipe_alloc_bad (f0 f1 : option Z) : M fs_state (option (Z * Z)) :=
  match f0 with Some f => file_close f | None => mret () end ;;
  match f1 with Some f => file_close f | None => mret () end ;;
  mret None.

(** The two files, or [None] for the result -1. *)
Definition pipe_alloc : M fs_state (option (Z * Z)) :=
  f0 ← file_alloc;
  match f0 with
  | None => pipe_alloc_bad None None
  | Some f0 =>
      f1 ← file_alloc;
      match f1 with
      | None => pipe_alloc_bad (Some f0) None
      | Some f1 =>
          pc_acquire ;;
          t ← gets pipes;
          match pipe_scan (Z.to_nat NPIPE) t 0 with
          | Some p =>
              pset p {| p_ref := 2; p_data := p_data (alook pipe_zero t p); nread := 0; nwrite := 0;
                        readopen := 1; writeopen := 1 |} ;;
              pc_release ;;
              fupd f0 (λ v, with_pipe p (with_kind FD_PIPE 1 0 v)) ;;
              fupd f1 (λ v, with_pipe p (with_kind FD_PIPE 0 1 v)) ;;
              mret (Some (f0, f1))
          | None => pc_release ;; pipe_alloc_bad (Some f0) (Some f1)
          end
      end
  end.

(** ** The console *)

(** [console_read] with the characters [inp] to come, [acc] the bytes stored so far, last
    first, and [out] the characters shown, last first.  [None] waits for more input. *)
Fixpoint cons_line (inp : list Z) (n : Z) (acc out : list Z) : option (list Z) * list Z * list Z :=
  if bool_decide (Z.of_nat (length acc) < n) then
    match inp with
    | [] => (None, inp, out)
    | c :: inp =>
        if bool_decide (c = 0) then cons_line inp n acc out
        else if bool_decide (c = 8) || bool_decide (c = 127) then
          match acc with
          | [] => cons_line inp n acc out
          | _ :: acc => cons_line inp n acc ([8; 32; 8] ++ out)
          end
        else if bool_decide (c = 4) then (Some (reverse acc), inp, out)
        else if bool_decide (c = 3) then (Some [], inp, [10; 67; 94] ++ out)
        else
          let c := if bool_decide (c = 13) then 10 else c in
          if bool_decide (c = 10) then (Some (reverse (c :: acc)), inp, c :: out)
          else cons_line inp n (c :: acc) (c :: out)
    end
  else (Some (reverse acc), inp, out).

Definition console_read (n : Z) : M fs_state (Z * list Z) :=
  s ← gets id;
  let '(r, inp, out) := cons_line (cons_in s) n [] (cons_out s) in
  modify (set_cons inp out) ;;
  match r with
  | Some bs => mret (Z.of_nat (length bs), bs)
  | None => zoom thread_yield ;; block
  end.

Definition console_write (addr : list Z) (n : Z) : M fs_state Z :=
  modify (λ s, set_cons (cons_in s) (reverse (take (Z.to_nat n) addr) ++ cons_out s) s) ;;
  mret n.

(** One of the three descriptors of [console_init_fds]. *)
Definition console_fd (pid fd : Z) (ty : file_type) (r w : Z) : M fs_state () :=
  f ← file_alloc;
  match f with
  | Some f =>
      fupd f (λ v, with_fref 1 (with_kind ty r w v)) ;;
      zoom (tcb_set_openfiles pid fd (Some f))
  | None => mret ()
  end.

Definition console_init_fds (pid : Z) : M fs_state () :=
  console_fd pid 0 FD_CONSOLE_IN 1 0 ;;
  console_fd pid 1 FD_CONSOLE_OUT 0 1 ;;
  console_fd pid 2 FD_CONSOLE_OUT 0 1.

(** ** Reading and writing files *)

Definition file_stat (f : Z) : M fs_state (option stat_t) :=
  v ← fget f;
  match f_type v with
  | FD_INODE =>
      zoom (inode_lock (f_ip v)) ;;
      ip ← deref (f_ip v);
      st ← zoom (inode_stat ip);
      zoom (inode_unlock (f_ip v)) ;;
      mret (Some st)
  | _ => mret None
  end.

(** The result and the bytes stored from [addr] on. *)
Definition file_read (f n : Z) : M fs_state (Z * list Z) :=
  v ← fget f;
  if bool_decide (f_readable v = 0) then mret (-1, [])
  else
    match f_type v with
    | FD_PIPE => p ← deref (f_pipe v); pipe_read p n
    | FD_CONSOLE_IN => console_read n
    | FD_INODE =>
        zoom (inode_lock (f_ip v)) ;;
        ip ← deref (f_ip v);
        r ← zoom (inode_read ip (f_off v) n);
        (if bool_decide (r.1 > 0) then fset f (with_off (u32 (f_off v + r.1)) v) else mret ()) ;;
        zoom (inode_unlock (f_ip v)) ;;
        mret r
    | _ => kern_panic
    end.

Definition max_write : Z := ((LOGSIZE - 1 - 1 - 2) / 2) * 512.

Fixpoint fwrite_loop (fuel : nat) (f : Z) (addr : list Z) (n i : Z) : M fs_state Z :=
  match fuel with
  | O => mret i
  | S fuel =>
      if bool_decide (i < n) then
        let n1 := if bool_decide (n - i > max_write) then max_write else n - i in
        zoom begin_trans ;;
        v ← fget f;
        zoom (inode_lock (f_ip v)) ;;
        ip ← deref (f_ip v);
        r ← zoom (inode_write ip (drop (Z.to_nat i) addr) (f_off v) n1);
        (if bool_decide (r > 0) then fset f (with_off (u32 (f_off v + r)) v) else mret ()) ;;
        zoom (inode_unlock (f_ip v)) ;;
        zoom commit_trans ;;
        if bool_decide (r < 0) then mret i
        else if bool_decide (r ≠ n1) then kern_panic
        else fwrite_loop fuel f addr n (i + r)
      else mret i
  end.

Definition file_write (f : Z) (addr : list Z) (n : Z) : M fs_state Z :=
  v ← fget f;
  if bool_decide (f_writable v = 0) then mret (-1)
  else
    match f_type v with
    | FD_PIPE => p ← deref (f_pipe v); pipe_write p addr n
    | FD_CONSOLE_OUT => console_write addr n
    | FD_INODE =>
        i ← fwrite_loop (Z.to_nat (n / max_write + 2)) f addr n 0;
        mret (if bool_decide (i = n) then n else -1)
    | _ => kern_panic
    end.
