(* ===== verification/FileDisk.v ===== *)
(** * Files on the disk (kern/fs/inode.c, log.c)

    The write of a file between the begin and the end of a transaction: what the disk holds
    then, and what a machine that starts from this disk reads. *)

From S2P Require Import Prelude Spinlock Mboot PMem Container PageTable TCB TQueue Thread Sched.
From S2P Require Import BufCache Log Inode FileData FileWrite File.

(** The sectors of the root device on a disk. *)
Definition disk_secs (K : gmap (Z * Z) (list Z)) (n : Z) : list Z := dlook K (ROOTDEV, n).

Lemma content_idle A n : d_live A = ∅ → content A (ROOTDEV, n) = disk_secs (d_disk A) n.
Proof. intros H. unfold content. by rewrite H. Qed.

(** ** Begin and end *)

Lemma tx_begin t0 c L K start : log_ready t0 {| lg_bc := c; log := L |} K start LOGSIZE →
  begin_trans {| lg_bc := c; log := L |} = Ok () {| lg_bc := c; log := with_busy_log 1 L |} ∧
  tx_rep t0 start c (with_busy_log 1 L) None ∅ (disk_secs K).
Proof.
  intros (A & Hrep & HA & Hidle & Hst & Hsz & Hld). simpl in *. destruct (begin_trans_run t0 c L A Hrep Hidle) as [Hr Htx].
  split; [done|]. split; [done|]. split; [done|]. split; [done|]. exists A, []. split_and!; try done; [by intros n ?%elem_of_nil|].
  intros n Hn. rewrite <- HA. apply content_idle, Hidle.
Qed.

(** The sectors after the writes of a commit. *)
Lemma commit_secs L txn A ws n : in_tx L txn A → commit_writes L txn ws → 0 <= n < lg_start L →
  disk_secs (apply_writes ws (d_disk A)) n = content A (ROOTDEV, n).
Proof.
  intros Htx Hws Hn. assert (disk_secs (apply_writes ws (d_disk A)) n = dlook (apply_writes (reverse (home <$> txn)) (d_disk A)) (ROOTDEV, n)) as ->.
  { destruct Hws as [[-> ->]|(h0 & h1 & _ & _ & ->)]; [done|]. unfold disk_secs, dlook. cbn [app apply_writes foldr fst snd]. 
    rewrite lookup_insert_ne by (unfold head_key; intros [=]; lia). change (foldr _ ?x ?l) with (apply_writes l x). rewrite apply_writes_app.
    destruct (decide ((ROOTDEV, n) ∈ (reverse (home <$> txn)).*1)) as [Hin|Hin]; [f_equal; by apply apply_writes_indep|].
    rewrite !apply_writes_ne; [done|done| |done]. simpl. rewrite list_elem_of_singleton. unfold head_key. intros [=]. lia. }
  destruct (decide (n ∈ txn.*1)) as [Hin|Hin].
  - apply list_elem_of_fmap in Hin as ([n' d] & -> & Hin). unfold dlook. simpl. rewrite (homes_nodup txn _ (n', d) (it_nodup _ _ _ Htx) Hin).
    symmetry. by apply (in_tx_content L txn).
  - unfold dlook. rewrite apply_writes_ne by (rewrite homes_in; simpl; tauto). unfold content.
    destruct (d_live A !! (ROOTDEV, n)) as [[b w]|] eqn:E; [|done]. apply (it_live _ _ _ Htx) in E as (_ & _ & _ & E). destruct Hin.
    apply list_elem_of_fmap. by exists (n, b_data w).
Qed.

Lemma tx_commit t0 start c L S D : tx_rep t0 start c L None S D → (size S <= 8)%nat → 1 < start →
  get32 (D 1) 0 = start + LOGSIZE → get32 (D 1) 12 = LOGSIZE →
  ∃ c' L' K, commit_trans {| lg_bc := c; log := L |} = Ok () {| lg_bc := c'; log := L' |} ∧
    log_ready t0 {| lg_bc := c'; log := L' |} K start LOGSIZE ∧ ∀ n, 0 <= n < start → disk_secs K n = D n.
Proof.
  intros (Hst & Hsz & _ & A & txn & Hrep & Htx & Hs & HD) HS H1 Hsb1 Hsb2. change (hold None A) with A in Hrep.
  pose proof (txn_small txn S 8 (it_nodup _ _ _ Htx) Hs HS) as Hlen.
  destruct (commit_trans_run t0 c L txn A Hrep Htx ltac:(lia)) as (c' & L' & A' & ws & Hr & Hrep' & Hid & (P1 & P2 & P3) & [_ Hext] & Hws).
  assert (∀ n, 0 <= n < start → disk_secs (d_disk A') n = D n) as HK.
  { intros n Hn. rewrite Hext, <- HD by done. apply (commit_secs L txn); [done|done|lia]. }
  exists c', L', (d_disk A'). split; [exact Hr|]. split; [|done]. exists A'. simpl. split_and!; try done; [lia|lia|].
  assert (dlook (d_disk A') (ROOTDEV, 1) = D 1) as E1 by (apply HK; lia).
  split; rewrite ?E1; try done; [apply (br_block t0 c' A' Hrep')|]. pose proof (it_geo _ _ _ Htx) as G. destruct G. lia.
Qed.

(** ** Another entry for the same inode *)

Lemma same_dinode_blk D v w bn : same_dinode v w → 0 <= bn → blk D w bn = blk D v bn.
Proof.
  intros (_ & _ & _ & _ & _ & Ha) Hb. unfold blk, ind. rewrite (Ha NDIRECT) by done. case_bool_decide as Hd; [|done].
  apply Ha. unfold NDIRECT in Hd. lia.
Qed.

Lemma same_dinode_slot D v w s : same_dinode v w → is_slot s → slot D w s = slot D v s.
Proof.
  intros Hs Hsl. unfold slot. case_decide as E; [by apply Hs|]. apply same_dinode_blk; [done|]. unfold is_slot in Hsl. lia.
Qed.

Lemma file_inv_entry start D v w : same_dinode v w → i_dev w = ROOTDEV → i_inum w = i_inum v → file_inv start D v → file_inv start D w.
Proof.
  intros Hs Hdev Hnum [F1 [W1 W2] F3 F4 F5 F6 F7 F8]. pose proof Hs as (S1 & S2 & S3 & S4 & S5 & S6). split; try done.
  - split; [intros s Hsl; rewrite (same_dinode_slot D v w s) by done; by apply W1|].
    intros s s' H1 H2. rewrite !(same_dinode_slot D v w) by done. by apply W2.
  - by rewrite Hnum.
  - by rewrite S5.
  - intros bn Hb. rewrite S5, (same_dinode_blk D v w) by done. by apply F6.
  - destruct F7 as [T1 T2 T3 T4 T5 T6]. split; rewrite ?S1, ?S2, ?S3, ?S4, ?S5; try done. intros i Hi. rewrite S6 by done. by apply T6.
  - unfold on_disk in *. rewrite Hnum. destruct F8 as (T1 & T2 & T3 & T4 & T5 & T6). unfold same_dinode.
    rewrite S1, S2, S3, S4, S5. split_and!; try done. intros i Hi. rewrite S6 by done. by apply T6.
Qed.

Lemma same_dinode_byte D v w i : same_dinode v w → 0 <= i → file_byte D w i = file_byte D v i.
Proof. intros Hs Hi. unfold file_byte. rewrite (same_dinode_blk D v w); [done|done|]. by apply Z.div_pos. Qed.

(** ** After a restart *)

(** What a machine that has just started does to read a file by its number. *)
Definition boot_read (inum o k : Z) : M in_state (Z * list Z) :=
  zoom log_init ;; inode_init ;; jp ← inode_get ROOTDEV inum; inode_lock (Some jp) ;; inode_read jp o k.

Definition first_entry (inum : Z) : inode :=
  {| i_dev := ROOTDEV; i_inum := inum; i_ref := 1; I_BUSY := false; I_VALID := false; i_type := 0;
     i_major := 0; i_minor := 0; i_nlink := 0; i_size := 0; i_addrs := ∅ |}.

Lemma iscan_empty s inum : icache s = ∅ → iscan (Z.to_nat NINODE) s ROOTDEV inum 0 None = (None, Some 0).
Proof. destruct s as [l lk m]. simpl. intros ->. vm_compute. reflexivity. Qed.

Lemma inode_get_first c L inum :
  inode_get ROOTDEV inum (in_mk c L spinlock_init ∅) = Ok 0 (in_mk c L spinlock_init {[ 0 := first_entry inum ]}).
Proof.
  unfold inode_get. rewrite (bind_Ok _ _ _ _ _ (ic_acquire_mk _ _ _)), (bind_Ok _ _ _ _ _ (gets_Ok _ _)). unfold id.
  rewrite iscan_empty by done. rewrite (bind_Ok _ _ _ _ _ (iupd_mk _ _ _ _ 0 _ ltac:(done))). done.
Qed.

(** A machine that starts from the disk [K], whose log is empty. *)
Lemma boot_log t a K start : sched_rep t a → log_disk K start LOGSIZE → get32 (dlook K (ROOTDEV, start)) 0 = 0 →
  ∃ c L A, log_init (lg_boot t K) = Ok () {| lg_bc := c; log := L |} ∧ bc_rep t c A ∧
    ∀ n, 0 <= n < start → content A (ROOTDEV, n) = disk_secs K n ∧ can_read A (ROOTDEV, n).
Proof.
  intros Hsr Hld Hh. destruct (log_init_run t a K start LOGSIZE [] Hsr Hld) as ([c L] & K2 & R1 & Hrd2 & Hhm);
    [by split; [exact Hh|intros ? ?]|simpl; lia|constructor|by intros ? ?|]. exists c, L.
  destruct (tx_begin t c L K2 start Hrd2) as [_ (Hst & _ & _ & A & txn & Hrep & Htx & Hs & HA)]. change (hold None A) with A in Hrep.
  assert (txn = []) as ->. { destruct txn as [|p txn]; [reflexivity|]. specialize (Hs p.1 ltac:(by left)). destruct (not_elem_of_empty _ Hs). }
  exists A. split; [exact R1|]. clear R1. split; [exact Hrep|]. intros n Hn. split; [rewrite HA by exact Hn; exact (Hhm n Hn)|].
  apply (in_tx_can_read (with_busy_log 1 L) []); [exact Htx|simpl in *; lia|simpl; lia].
Qed.

(** The entry of an inode that was read from the disk. *)
Lemma lock_file t start c L A m jp inum D v : bc_rep t c A → (∀ n, 0 <= n < start → content A (ROOTDEV, n) = D n ∧ can_read A (ROOTDEV, n)) →
  file_inv start D v → i_inum v = inum → i_type v ≠ 0 → 0 <= jp < NINODE → alook inode_zero m jp = first_entry inum →
  ∃ c' m', inode_lock (Some jp) (in_mk c L spinlock_init m) = Ok () (in_mk c' L spinlock_init m') ∧ bc_rep t c' A ∧
    (let w := alook inode_zero m' jp in same_dinode v w ∧ i_ref w = 1 ∧ I_BUSY w = true ∧ I_VALID w = true ∧ i_inum w = inum ∧ file_inv start D w) ∧
    ∀ q, q ≠ jp → alook inode_zero m' q = alook inode_zero m q.
Proof.
  intros Hrep HAD Hinv Hnum Hty Hjp Hm. pose proof Hinv as [F1 F2 F3 F4 F5 F6 F7 F8]. pose proof (dk_bmap _ _ F1) as Hbb. rewrite Hnum in F4.
  assert (0 <= IBLOCK inum < start) as Hib by (split; [unfold IBLOCK, IPB; Z.div_mod_to_equations; lia|lia]).
  destruct (HAD _ Hib) as [HAi Hcan]. set (w := first_entry inum) in *. assert (same_dinode v (loaded inum (content A (ROOTDEV, IBLOCK inum)) w)) as Hsame.
  { rewrite HAi. unfold on_disk in F8. rewrite Hnum in F8. destruct F8 as (T1 & T2 & T3 & T4 & T5 & T6). by split_and!. }
  destruct (inode_lock_load t c L A m jp w Hrep Hjp Hm) as (c3 & m3 & R3 & Hrep3 & Hw3 & Ho3);
    [reflexivity|unfold w; simpl; lia|reflexivity|reflexivity|exact Hcan|by change (i_inum w) with inum; rewrite (proj1 Hsame)|].
  change (i_inum w) with inum in Hw3. rewrite <- Hw3 in Hsame. exists c3, m3. split; [exact R3|]. clear R3. split; [exact Hrep3|]. split; [|exact Ho3].
  split; [exact Hsame|]. split_and!; try (rewrite Hw3; reflexivity). eapply file_inv_entry; [exact Hsame|by rewrite Hw3|by rewrite Hw3|exact Hinv].
Qed.

(** Reading a file on a machine that starts from the disk [K]. *)
Lemma boot_read_run t a K start D v o k : sched_rep t a → log_disk K start LOGSIZE → get32 (dlook K (ROOTDEV, start)) 0 = 0 →
  (∀ n, 0 <= n < start → disk_secs K n = D n) → file_inv start D v → i_type v ≠ 0 → i_type v ≠ T_DEV → 0 <= o <= i_size v → 0 <= k < 2 ^ 31 →
  ∃ s2, let r := Z.min k (i_size v - o) in
    boot_read (i_inum v) o k {| in_lg := lg_boot t K; ic_lock := locked; icache := ∅ |} = Ok (r, file_slice D v o r) s2.
Proof.
  intros Hsr Hld Hh HD Hinv Hty0 Hty Ho Hk. destruct (boot_log t a K start Hsr Hld Hh) as (c2 & L2 & A & R1 & Hrep & HA).
  assert (∀ n, 0 <= n < start → content A (ROOTDEV, n) = D n ∧ can_read A (ROOTDEV, n)) as HAD by (intros n Hn; rewrite <- HD by done; by apply HA).
  unfold boot_read. rewrite (bind_Ok _ _ _ () (in_mk c2 L2 locked ∅)) by (unfold zoom; cbn; by rewrite R1). clear R1.
  rewrite (bind_Ok _ _ _ () (in_mk c2 L2 spinlock_init ∅)) by done. rewrite (bind_Ok _ _ _ _ _ (inode_get_first _ _ _)).
  destruct (lock_file t start c2 L2 A {[ 0 := first_entry (i_inum v) ]} 0 (i_inum v) D v Hrep HAD Hinv eq_refl Hty0) as (c3 & m3 & R3 & Hrep3 & Hw & _);
    [unfold NINODE; lia|reflexivity|]. destruct Hw as (Hsame & _ & _ & _ & _ & Hinv3). rewrite (bind_Ok _ _ _ _ _ R3). clear R3.
  destruct Hsame as (E1 & E2 & E3 & E4 & E5 & E6).
  destruct (inode_read_inv t start c3 A L2 D spinlock_init m3 0 o k Hrep3 HAD Hinv3) as (c4 & R4 & _); [done|by rewrite E1|by rewrite E5|done|].
  eexists. cbv zeta in *. rewrite R4. rewrite E5. do 2 f_equal.
  apply list_fmap_ext. intros x i Hi. apply list_elem_of_lookup_2, elem_of_seqZ in Hi. apply same_dinode_byte; [by split_and!|lia].
Qed.

(** ** The steps of [file_write] *)

(** A write takes only the bytes it is asked for. *)
Lemma iwrite_loop_take fuel ip off src n s : iwrite_loop fuel ip off src n s = iwrite_loop fuel ip off (take (Z.to_nat n) src) n s.
Proof.
  revert off src n s. induction fuel as [|fuel IH]; intros off src n s; [done|]. cbn [iwrite_loop]. case_bool_decide as Hn; [done|].
  apply bind_ext; [done|]. intros v s1. apply bind_ext; [done|]. intros a s2. apply bind_ext; [done|]. intros b s3. cbv zeta.
  set (m := Z.min n (BSIZE - off mod BSIZE)). pose proof (Z.mod_pos_bound off BSIZE ltac:(done)). assert (m <= n) as Hm by lia.
  rewrite take_take, Nat.min_l by lia. do 4 (apply bind_ext; [done|]; intros ? ?).
  rewrite IH, skipn_firstn_comm. by replace (Z.to_nat n - Z.to_nat m)%nat with (Z.to_nat (n - m)) by lia.
Qed.

Lemma inode_write_take ip src off n s : inode_write ip src off n s = inode_write ip (take (Z.to_nat n) src) off n s.
Proof.
  unfold inode_write. apply bind_ext; [done|]. intros v s1. do 3 (case_match; [done|]).
  apply bind_ext; [apply iwrite_loop_take|done].
Qed.

Lemma wakeup_tx t0 start c L S D lk m ch : tx_rep t0 start c L None S D →
  ∃ c', zoom (thread_wakeup (Some ch)) (in_mk c L lk m) = Ok () (in_mk c' L lk m) ∧ tx_rep t0 start c' L None S D.
Proof.
  intros (H1 & H2 & H3 & A & txn & Hrep & Hrest). pose proof (br_calm _ _ _ Hrep) as Hc.
  destruct (th_keeps_wakeup t0 (bc_th c) ch (calm_th _ _ Hc) (calm_sched _ _ Hc)) as (t' & Hw & Hk & Hs).
  exists (put t' c). split; [|repeat (split; [done|]); exists A, txn; split; [by apply bc_rep_th|done]].
  unfold zoom. simpl. by rewrite Hw.
Qed.

Lemma inode_lock_valid c L m ip : let v := alook inode_zero m ip in 0 <= ip < NINODE → 1 <= i_ref v → I_BUSY v = false → I_VALID v = true →
  inode_lock (Some ip) (in_mk c L spinlock_init m) = Ok () (in_mk c L spinlock_init (<[ip := with_flags true true v]> m)).
Proof.
  intros v Hip Href Hb Hv. unfold inode_lock. rewrite (bind_Ok _ _ _ _ _ (iget_mk _ _ _ _ ip Hip)). fold v. rewrite bool_decide_eq_false_2, Hb by lia.
  rewrite (bind_Ok _ _ _ _ _ (ic_acquire_mk _ _ _)), (bind_Ok _ _ _ _ _ (ret_Ok _ _)), (bind_Ok _ _ _ _ _ (iupd_mk _ _ _ _ ip _ Hip)).
  fold v. rewrite (bind_Ok _ _ _ _ _ (ic_release_mk _ _ _ _)), (bind_Ok _ _ _ _ _ (iget_mk _ _ _ _ ip Hip)), alook_insert_eq.
  cbn [I_VALID with_flags]. by rewrite Hv.
Qed.

Lemma inode_unlock_tx t0 start c L S D m ip : let v := alook inode_zero m ip in tx_rep t0 start c L None S D → 0 <= ip < NINODE →
  1 <= i_ref v → I_BUSY v = true →
  ∃ c', inode_unlock (Some ip) (in_mk c L spinlock_init m) =
      Ok () (in_mk c' L spinlock_init (<[ip := with_flags false (I_VALID v) v]> m)) ∧ tx_rep t0 start c' L None S D.
Proof.
  intros v Htx Hip Href Hb. destruct (wakeup_tx t0 start c L S D locked (<[ip := with_flags false (I_VALID v) v]> m) (ChInode ip) Htx) as (c' & Hw & Htx').
  exists c'. split; [|done]. unfold inode_unlock. rewrite (bind_Ok _ _ _ _ _ (iget_mk _ _ _ _ ip Hip)). fold v. rewrite Hb, bool_decide_eq_false_2 by lia.
  cbn [negb orb]. rewrite (bind_Ok _ _ _ _ _ (ic_acquire_mk _ _ _)), (bind_Ok _ _ _ _ _ (iupd_mk _ _ _ _ ip _ Hip)). fold v.
  by rewrite (bind_Ok _ _ _ _ _ Hw).
Qed.

(** ** Sectors that agree *)

Section Agree.
Context (start : Z) (D D' : Z → list Z).
Hypothesis ok : disk_ok start D.
Hypothesis same : ∀ n, 0 <= n < start → D' n = D n.

Lemma agree_bmap : bmap_sector D' = bmap_sector D.
Proof. pose proof (dk_bmap _ _ ok). unfold bmap_sector. by rewrite same by lia. Qed.

Lemma agree_bits : D' (bmap_sector D) = D (bmap_sector D).
Proof. pose proof (dk_bmap _ _ ok). apply same. lia. Qed.

Lemma agree_disk : disk_ok start D'.
Proof.
  pose proof (dk_bmap _ _ ok). destruct ok as [H1 H2 H3]. split; rewrite ?agree_bmap, ?agree_bits; [by rewrite same by lia|done|].
  intros i. rewrite ?agree_bits. apply H3.
Qed.

Lemma agree_free : free_blocks start D' = free_blocks start D.
Proof. symmetry. apply free_blocks_ext; [apply agree_bmap|]. symmetry. apply agree_bits. Qed.

Lemma agree_use a : in_use start D' a ↔ in_use start D a.
Proof. unfold in_use. by rewrite agree_bmap, agree_bits. Qed.

Context (v : inode) (wf : file_wf start D v).

Lemma agree_slot s : slot D' v s = slot D v s.
Proof. unfold slot. case_decide; [done|]. by apply (blk_ext start D). Qed.

Lemma agree_inv : file_inv start D v → file_inv start D' v.
Proof.
  intros [F1 [W1 W2] F3 F4 F5 F6 F7 F8]. pose proof (dk_bmap _ _ ok).
  assert (0 <= IBLOCK (i_inum v)) by (unfold IBLOCK, IPB; Z.div_mod_to_equations; lia). split; try done; [apply agree_disk| | | |].
  - split; [intros s Hs; rewrite agree_slot, agree_use; by apply W1|]. intros s s' Hs Hs'. rewrite !agree_slot. by apply W2.
  - by rewrite agree_bmap.
  - intros bn Hb. rewrite (blk_ext start D) by done. by apply F6.
  - unfold on_disk. rewrite same; [done|]. lia.
Qed.

Lemma agree_byte i : 0 <= i < MAXFILE * BSIZE → blk D v (i / BSIZE) ≠ 0 → file_byte D' v i = file_byte D v i.
Proof.
  intros Hi H0. unfold file_byte. rewrite (blk_ext start D) by done. rewrite same; [done|].
  apply (blk_home start D v); try done. by apply byte_block.
Qed.
End Agree.

Lemma written_agree start D v off src D1 D2 w : written start D v off src D1 w → (∀ n, 0 <= n < start → D2 n = D1 n) → written start D v off src D2 w.
Proof.
  intros (W1 & W2 & W3 & W4 & W5) HD. pose proof W1 as [F1 F2 F3 F4 F5 F6 F7 F8]. pose proof (dk_bmap _ _ F1). split; [by apply (agree_inv start D1)|].
  split; [done|]. split; [done|]. split.
  - intros i Hi. rewrite (agree_byte start D1 D2 F1 HD w F2); [by apply W4|lia|]. apply F6; unfold BSIZE; Z.div_mod_to_equations; lia.
  - intros a Ha Hn. destruct (W5 a Ha Hn) as (K1 & K2 & K3). rewrite (agree_use start D1) by done.
    split; [rewrite HD; [done|]; destruct K2; lia|]. split; [done|]. intros (s & Hs & E). apply K3. exists s. by rewrite (agree_slot start D1) in E.
Qed.

(** The flags of the entry do not matter for the file. *)
Lemma written_flags start D v off src D1 w b1 v1 b2 v2 :
  written start D (with_flags b1 v1 v) off src D1 w → I_VALID v = v2 → I_BUSY v = b2 → written start D v off src D1 (with_flags b2 v2 w).
Proof.
  intros (W1 & W2 & (E1 & E2 & E3 & E4 & E5) & W4 & W5) <- <-. split; [|split; [done|split; [by split_and!|done]]].
  destruct W1 as [F1 F2 F3 F4 F5 F6 F7 F8]. split; try done. by destruct F7.
Qed.

(** ** One transaction of a write *)

(** Between two transactions, with the entry [ip] for the file. *)
Definition ready_file (t0 : th_state) (start ip : Z) (c : bc_state) (L : log_t) (m : gmap Z inode) (K : gmap (Z * Z) (list Z)) : Prop :=
  let v := alook inode_zero m ip in
  log_ready t0 {| lg_bc := c; log := L |} K start LOGSIZE ∧ file_inv start (disk_secs K) v ∧ 1 <= i_ref v ∧ I_BUSY v = false ∧
  I_VALID v = true ∧ i_type v ≠ T_DEV.

(** The room that the transactions of [file_write] have is enough: at most four blocks of
    data, the bitmap, the block of addresses and the inode. *)
Lemma chunk_room bb v off n : 0 <= n <= max_write → (blocks_of off n <= 4)%nat ∧ (room bb ∅ v + blocks_of off n <= 7)%nat.
Proof.
  intros Hn. change max_write with 1536 in Hn. assert (blocks_of off n <= 4)%nat as Hb.
  { unfold blocks_of, BSIZE. pose proof (Z.mod_pos_bound off 512 ltac:(lia)). Z.div_mod_to_equations. lia. }
  split; [done|]. assert (room bb ∅ v <= 2)%nat; [|lia]. unfold room, need.
  destruct (decide (ind v = 0)); [pose proof (size_add (∅ ∪ {[bb]} ∪ ∅) ∅ bb ltac:(set_solver)) as H; rewrite size_empty in H; lia|].
  pose proof (size_add (∅ ∪ {[bb]} ∪ {[ind v]}) {[bb]} (ind v) ltac:(set_solver)) as H. rewrite size_singleton in H. lia.
Qed.

Lemma file_inv_flags start D v b w : file_inv start D v → file_inv start D (with_flags b w v).
Proof. intros [F1 F2 F3 F4 F5 F6 F7 F8]. split; try done. by destruct F7. Qed.

Lemma chunk_run t0 start ip c L m K src off n : let v := alook inode_zero m ip in
  ready_file t0 start ip c L m K → 0 <= ip < NINODE → 0 <= off <= i_size v → 0 <= n <= max_write → n <= Z.of_nat (length src) →
  off + n <= MAXFILE * BSIZE → (4 + need v <= size (free_blocks start (disk_secs K)))%nat →
  ∃ L1 m1 c2 L2 m2 c3 m3 c4 L4 K',
    begin_trans {| lg_bc := c; log := L |} = Ok () {| lg_bc := c; log := L1 |} ∧
    inode_lock (Some ip) (in_mk c L1 spinlock_init m) = Ok () (in_mk c L1 spinlock_init m1) ∧
    inode_write ip src off n (in_mk c L1 spinlock_init m1) = Ok n (in_mk c2 L2 spinlock_init m2) ∧
    inode_unlock (Some ip) (in_mk c2 L2 spinlock_init m2) = Ok () (in_mk c3 L2 spinlock_init m3) ∧
    commit_trans {| lg_bc := c3; log := L2 |} = Ok () {| lg_bc := c4; log := L4 |} ∧
    ready_file t0 start ip c4 L4 m3 K' ∧
    written start (disk_secs K) v off (take (Z.to_nat n) src) (disk_secs K') (alook inode_zero m3 ip) ∧
    (size (free_blocks start (disk_secs K)) + need (alook inode_zero m3 ip) <= size (free_blocks start (disk_secs K')) + 4 + need v)%nat ∧
    ∀ q, q ≠ ip → alook inode_zero m3 q = alook inode_zero m q.
Proof.
  intros v (Hrd & Hinv & Href & Hbz & Hval & Hty) Hip Ho Hn Hsrc Hmax Hfree. fold v in Hinv, Href, Hbz, Hval, Hty.
  destruct (tx_begin t0 c L K start Hrd) as [R1 Htx]. set (m1 := <[ip := with_flags true true v]> m).
  assert (alook inode_zero m1 ip = with_flags true true v) as Hv1 by apply alook_insert_eq.
  pose proof (inode_lock_valid c (with_busy_log 1 L) m ip Hip Href Hbz Hval) as R2. fold v m1 in R2.
  destruct (chunk_room (bmap_sector (disk_secs K)) v off n Hn) as [Hb4 Hro]. set (tk := take (Z.to_nat n) src).
  assert (Z.of_nat (length tk) = n) as Hlen by (unfold tk; rewrite length_take; lia).
  destruct (inode_write_run t0 start c (with_busy_log 1 L) ∅ (disk_secs K) spinlock_init m1 ip tk off Htx)
    as (c2 & L2 & m2 & S2 & D2 & R3 & Htx2 & HS2 & W & Hf2 & Hsb & Hoth); rewrite ?Hlen, ?Hv1;
    [by apply file_inv_flags|done|done|done|done|done|change (need (with_flags true true v)) with (need v); lia|].
  rewrite Hlen in R3, Hf2. rewrite Hv1 in W, Hf2. unfold tk in R3. rewrite <- inode_write_take in R3. set (v2 := alook inode_zero m2 ip) in *.
  pose proof W as (I2 & _ & (E1 & E2 & E3 & E4 & E5) & _ & _).
  destruct (inode_unlock_tx t0 start c2 L2 S2 D2 m2 ip Htx2 Hip) as (c3 & R4 & Htx3); fold v2; [by rewrite E2|done|]. fold v2 in R4.
  assert (get32 (disk_secs K 1) 0 = start + LOGSIZE ∧ get32 (disk_secs K 1) 12 = LOGSIZE ∧ 1 < start) as (G1 & G2 & G3).
  { destruct Hrd as (A & _ & _ & _ & _ & _ & [_ G1 G2 G3 _ _]). done. }
  destruct (tx_commit t0 start c3 L2 S2 D2 Htx3 HS2 G3) as (c4 & L4 & K' & R5 & Hrd' & HK'); [by rewrite Hsb|by rewrite Hsb|].
  set (m3 := <[ip := with_flags false (I_VALID v2) v2]> m2) in *.
  assert (alook inode_zero m3 ip = with_flags false (I_VALID v2) v2) as Hv3 by apply alook_insert_eq.
  assert (written start (disk_secs K) v off tk (disk_secs K') (alook inode_zero m3 ip)) as W3.
  { rewrite Hv3. apply (written_agree start _ _ _ _ D2); [|done]. eapply written_flags; [exact W| |done]. rewrite E4. done. }
  exists (with_busy_log 1 L), m1, c2, L2, m2, c3, m3, c4, L4, K'. split; [exact R1|]. split; [exact R2|]. split; [exact R3|]. split; [exact R4|]. split; [exact R5|].
  clear R1 R2 R3 R4 R5. split; [|split; [exact W3|split]].
  - destruct W3 as (I3 & _ & (Q1 & Q2 & Q3 & Q4 & Q5) & _ & _). split; [exact Hrd'|]. rewrite Q2, Q3, Q4, Q5. done.
  - rewrite Hv3, (agree_free start D2 (disk_secs K') (fi_disk _ _ _ I2) HK'). change (need (with_flags false (I_VALID v2) v2)) with (need v2).
    change (need (with_flags true true v)) with (need v) in Hf2. lia.
  - intros q Hq. unfold m3. rewrite alook_insert_ne by done. rewrite Hoth by done. unfold m1. by rewrite alook_insert_ne.
Qed.

(** ** The whole call *)

Lemma overlay_app f off a b i :
  overlay (overlay f off a) (off + Z.of_nat (length a)) b i = overlay f off (a ++ b) i.
Proof.
  unfold overlay. rewrite length_app, Nat2Z.inj_add. destruct (decide (off + Z.of_nat (length a) <= i < _)) as [H1|H1].
  - rewrite decide_True by lia. rewrite !list_lookup_total_alt, lookup_app_r by lia. do 2 f_equal. lia.
  - destruct (decide (off <= i < off + Z.of_nat (length a))) as [H2|H2].
    + rewrite decide_True by lia. rewrite !list_lookup_total_alt, lookup_app_l by lia. done.
    + rewrite decide_False by lia. done.
Qed.

Lemma written_refl start D v off : file_inv start D v → off <= i_size v → written start D v off [] D v.
Proof.
  intros Hi Ho. split; [done|]. split; [simpl; lia|]. split; [done|]. split; [|done].
  intros i _. unfold overlay. simpl. by rewrite decide_False by lia.
Qed.

Lemma written_trans start D v off a b D1 v1 D2 v2 : written start D v off a D1 v1 →
  written start D1 v1 (off + Z.of_nat (length a)) b D2 v2 → 0 <= off → written start D v off (a ++ b) D2 v2.
Proof.
  intros (A1 & A2 & (P1 & P2 & P3 & P4 & P5) & A4 & A5) (B1 & B2 & (Q1 & Q2 & Q3 & Q4 & Q5) & B4 & B5) Ho. split; [done|].
  split; [rewrite length_app; lia|]. split; [split_and!; congruence|]. split.
  - intros i Hi. rewrite B4 by done. rewrite <- overlay_app. unfold overlay at 1 2. case_decide as Hd; [done|]. apply A4. lia.
  - intros x Hx Hn. destruct (A5 x Hx Hn) as (K1 & K2 & K3). destruct (B5 x K2 K3) as (K4 & K5 & K6). split; [congruence|done].
Qed.

Definition fs_mk (s0 : fs_state) (i : in_state) (ft : gmap Z file) : fs_state :=
  {| fl_in := i; ft_lock := ft_lock s0; ftable := ft; pc_lock := pc_lock s0; pipes := pipes s0; cons_in := cons_in s0; cons_out := cons_out s0 |}.

Lemma zoom_fs {X} (f : M in_state X) s0 i ft a i' : f i = Ok a i' → zoom f (fs_mk s0 i ft) = Ok a (fs_mk s0 i' ft).
Proof. intros H. unfold zoom. simpl. by rewrite H. Qed.

Lemma zoom_fs_lg {X} (f : M lg_state X) s0 c L lk m ft a c' L' : f {| lg_bc := c; log := L |} = Ok a {| lg_bc := c'; log := L' |} →
  zoom f (fs_mk s0 (in_mk c L lk m) ft) = Ok a (fs_mk s0 (in_mk c' L' lk m) ft).
Proof. intros H. unfold zoom. simpl. by rewrite H. Qed.

Lemma fget_mk s0 i ft f : 0 <= f < NFILE → fget f (fs_mk s0 i ft) = Ok (alook file_zero ft f) (fs_mk s0 i ft).
Proof. intros Hf. unfold fget. by rewrite aget_Ok. Qed.

Lemma fset_mk s0 i ft f v : 0 <= f < NFILE → fset f v (fs_mk s0 i ft) = Ok () (fs_mk s0 i (<[f := v]> ft)).
Proof. intros Hf. unfold fset. by rewrite aset_Ok. Qed.

(** One turn of the loop, up to the test of the number of bytes. *)
Lemma fwrite_turn t0 start ip s0 c L m ft f K addr n i fuel : let v := alook inode_zero m ip in let fv := alook file_zero ft f in
  let n1 := Z.min (n - i) max_write in
  ready_file t0 start ip c L m K → 0 <= ip < NINODE → 0 <= f < NFILE → f_ip fv = Some ip → 0 <= f_off fv <= i_size v →
  0 <= i < n → n <= Z.of_nat (length addr) → f_off fv + (n - i) <= MAXFILE * BSIZE →
  (4 + need v <= size (free_blocks start (disk_secs K)))%nat →
  ∃ c' L' m' K', fwrite_loop (S fuel) f addr n i (fs_mk s0 (in_mk c L spinlock_init m) ft) =
      fwrite_loop fuel f addr n (i + n1) (fs_mk s0 (in_mk c' L' spinlock_init m') (<[f := with_off (f_off fv + n1) fv]> ft)) ∧
    ready_file t0 start ip c' L' m' K' ∧
    written start (disk_secs K) v (f_off fv) (take (Z.to_nat n1) (drop (Z.to_nat i) addr)) (disk_secs K') (alook inode_zero m' ip) ∧
    (size (free_blocks start (disk_secs K)) + need (alook inode_zero m' ip) <= size (free_blocks start (disk_secs K')) + 4 + need v)%nat ∧
    ∀ q, q ≠ ip → alook inode_zero m' q = alook inode_zero m q.
Proof.
  intros v fv n1 Hrd Hip Hf Hfip Ho Hi Hn Hmax Hfree. change max_write with 1536 in n1. assert (0 < n1 <= 1536 ∧ n1 <= n - i) as [Hn1 Hn2] by lia.
  assert (MAXFILE * BSIZE = 71680) as HM by done.
  destruct (chunk_run t0 start ip c L m K (drop (Z.to_nat i) addr) (f_off fv) n1 Hrd Hip Ho) as
    (L1 & m1 & c2 & L2 & m2 & c3 & m3 & c4 & L4 & K' & R1 & R2 & R3 & R4 & R5 & Hrd' & W & Hfr & Hoth);
    [change max_write with 1536; lia|rewrite length_drop; lia|lia|done|].
  exists c4, L4, m3, K'. split; [|done]. cbn [fwrite_loop]. rewrite bool_decide_eq_true_2 by lia. change max_write with 1536.
  assert ((if bool_decide (n - i > 1536) then 1536 else n - i) = n1) as -> by (case_bool_decide; lia). cbv zeta.
  rewrite (bind_Ok _ _ _ _ _ (zoom_fs_lg _ _ _ _ _ _ _ _ _ _ R1)), (bind_Ok _ _ _ _ _ (fget_mk _ _ _ f Hf)). fold fv. rewrite Hfip.
  rewrite (bind_Ok _ _ _ _ _ (zoom_fs _ _ _ _ _ _ R2)), (bind_Ok (deref (Some ip)) _ _ ip _ eq_refl), (bind_Ok _ _ _ _ _ (zoom_fs _ _ _ _ _ _ R3)).
  rewrite (bool_decide_eq_true_2 (n1 > 0)), (bind_Ok _ _ _ _ _ (fset_mk _ _ _ f _ Hf)), (bind_Ok _ _ _ _ _ (zoom_fs _ _ _ _ _ _ R4)) by lia.
  rewrite (bind_Ok _ _ _ _ _ (zoom_fs_lg _ _ _ _ _ _ _ _ _ _ R5)), (bool_decide_eq_false_2 (n1 < 0)), (bool_decide_eq_false_2 (n1 ≠ n1)) by lia.
  by rewrite u32_small by (unfold is_u32, W32; lia).
Qed.

Lemma fwrite_loop_run t0 start ip s0 f addr n k : 0 <= ip < NINODE → 0 <= f < NFILE → n <= Z.of_nat (length addr) →
  ∀ fuel c L m ft K i, let v := alook inode_zero m ip in let fv := alook file_zero ft f in
  ready_file t0 start ip c L m K → f_ip fv = Some ip → 0 <= f_off fv <= i_size v → 0 <= i <= n → f_off fv + (n - i) <= MAXFILE * BSIZE →
  n - i <= Z.of_nat k * max_write → (k < fuel)%nat → (4 * k + need v <= size (free_blocks start (disk_secs K)))%nat →
  ∃ c' L' m' K' ft', fwrite_loop fuel f addr n i (fs_mk s0 (in_mk c L spinlock_init m) ft) =
      Ok n (fs_mk s0 (in_mk c' L' spinlock_init m') ft') ∧
    ready_file t0 start ip c' L' m' K' ∧
    written start (disk_secs K) v (f_off fv) (take (Z.to_nat (n - i)) (drop (Z.to_nat i) addr)) (disk_secs K') (alook inode_zero m' ip) ∧
    alook file_zero ft' f = with_off (f_off fv + (n - i)) fv ∧ (∀ g, g ≠ f → alook file_zero ft' g = alook file_zero ft g) ∧
    ∀ q, q ≠ ip → alook inode_zero m' q = alook inode_zero m q.
Proof.
  intros Hip Hf Hn. induction k as [|k IH]; intros fuel c L m ft K i v fv Hrd Hfip Ho Hi Hmax Hk Hfuel Hfree.
  all: pose proof Hrd as (_ & Hinv & _); destruct fuel as [|fuel]; [lia|]; destruct (decide (i = n)) as [->|Hne].
  1, 3: cbn [fwrite_loop]; rewrite bool_decide_eq_false_2 by lia; exists c, L, m, K, ft; split; [reflexivity|]; rewrite Z.sub_diag, Z.add_0_r;
    split; [done|]; split; [apply written_refl; [done|exact (proj2 Ho)]|]; split; [unfold fv; by destruct (alook file_zero ft f)|done].
  { lia. }
  assert (4 + need v <= size (free_blocks start (disk_secs K)))%nat as Hfree1 by lia.
  destruct (fwrite_turn t0 start ip s0 c L m ft f K addr n i fuel Hrd Hip Hf Hfip Ho ltac:(lia) Hn Hmax Hfree1) as (c1 & L1 & m1 & K1 & R1 & Hrd1 & W1 & Hf1 & Hoth1).
  fold v fv in R1, W1, Hf1. change max_write with 1536 in *. set (n1 := Z.min (n - i) 1536) in *. assert (0 < n1 <= 1536 ∧ n1 <= n - i) as [Hn1 Hn2] by lia.
  pose proof W1 as (_ & Z1 & _). rewrite length_take, length_drop in Z1.
  set (ft1 := <[f := with_off (f_off fv + n1) fv]> ft) in *. assert (alook file_zero ft1 f = with_off (f_off fv + n1) fv) as Hft1 by apply alook_insert_eq.
  destruct (IH fuel c1 L1 m1 ft1 K1 (i + n1)) as (c2 & L2 & m2 & K2 & ft2 & R2 & Hrd2 & W2 & Hft2 & Hfo2 & Hoth2);
    rewrite ?Hft1; cbn [f_ip f_off with_off]; [done|done|lia|lia|lia|lia|lia|lia|].
  exists c2, L2, m2, K2, ft2. rewrite R1. split; [exact R2|]. split; [done|]. rewrite Hft1 in W2, Hft2. cbn [f_off with_off] in W2, Hft2. split; [|split; [|split]].
  - assert (take (Z.to_nat (n - i)) (drop (Z.to_nat i) addr) = take (Z.to_nat n1) (drop (Z.to_nat i) addr) ++ take (Z.to_nat (n - (i + n1))) (drop (Z.to_nat (i + n1)) addr)) as ->.
    { rewrite Z2Nat.inj_add by lia. rewrite <- drop_drop, take_take_drop. f_equal. lia. }
    apply (written_trans start _ _ _ _ _ _ _ _ _ W1); [|lia]. rewrite length_take, length_drop.
    replace (f_off fv + Z.of_nat (Z.to_nat n1 `min` (length addr - Z.to_nat i))) with (f_off fv + n1) by lia. exact W2.
  - rewrite Hft2. unfold with_off. simpl. f_equal. lia.
  - intros g Hg. rewrite Hfo2 by done. unfold ft1. by rewrite alook_insert_ne.
  - intros q Hq. rewrite Hoth2 by done. by apply Hoth1.
Qed.

(** C2: What [file_write] reports as written is on the disk and survives a restart.  On an
    open file of the disk at an offset up to its end, when the file stays within its greatest
    size of 140 blocks and enough blocks are free, writing [n] bytes with one transaction
    after the other returns [n], advances the offset and leaves
    the other open files and inodes alone; blocks in use by anything else keep their
    contents; and a machine that starts from this disk, with whatever threads, replays its
    log and reads, by the number of the file, the new bytes and around them the old. *)
Theorem file_write_durable t0 start ip s0 c L m ft f K addr :
  let v := alook inode_zero m ip in let fv := alook file_zero ft f in let n := Z.of_nat (length addr) in
  ready_file t0 start ip c L m K → 0 <= ip < NINODE → 0 <= f < NFILE → f_type fv = FD_INODE → f_writable fv ≠ 0 → f_ip fv = Some ip →
  i_type v ≠ 0 → 0 <= f_off fv <= i_size v → f_off fv + n <= MAXFILE * BSIZE →
  (4 * Z.to_nat (n / max_write + 1) + need v <= size (free_blocks start (disk_secs K)))%nat →
  ∃ c' L' m' K' ft',
    file_write f addr n (fs_mk s0 (in_mk c L spinlock_init m) ft) = Ok n (fs_mk s0 (in_mk c' L' spinlock_init m') ft') ∧
    ready_file t0 start ip c' L' m' K' ∧ disk c' = K' ∧ alook file_zero ft' f = with_off (f_off fv + n) fv ∧
    (∀ g, g ≠ f → alook file_zero ft' g = alook file_zero ft g) ∧ (∀ q, q ≠ ip → alook inode_zero m' q = alook inode_zero m q) ∧
    kept start (disk_secs K) v (disk_secs K') (alook inode_zero m' ip) ∧
    ∀ t a o k, sched_rep t a → let size := Z.max (i_size v) (f_off fv + n) in 0 <= o <= size → 0 <= k < 2 ^ 31 →
      let r := Z.min k (size - o) in
      ∃ s2, boot_read (i_inum v) o k {| in_lg := lg_boot t K'; ic_lock := locked; icache := ∅ |} =
        Ok (r, overlay (file_byte (disk_secs K) v) (f_off fv) addr <$> seqZ o r) s2.
Proof.
  intros v fv n Hrd Hip Hf Hft Hw Hfip Hty Ho Hmax Hfree. change max_write with 1536 in Hfree.
  destruct (fwrite_loop_run t0 start ip s0 f addr n (Z.to_nat (n / 1536 + 1)) Hip Hf ltac:(done) (Z.to_nat (n / max_write + 2)) c L m ft K 0 Hrd Hfip Ho)
    as (c' & L' & m' & K' & ft' & R & Hrd' & W & Hfv & Hfo & Hoth); 
    [lia|by rewrite Z.sub_0_r|change max_write with 1536; rewrite Z2Nat.id; Z.div_mod_to_equations; lia|change max_write with 1536; Z.div_mod_to_equations; lia|done|].
  fold v fv in W, Hfv, R. change (Z.to_nat 0) with 0%nat in W. rewrite Z.sub_0_r, drop_0 in W. unfold n in W at 1. rewrite Nat2Z.id, firstn_all in W. rewrite Z.sub_0_r in Hfv.
  exists c', L', m', K', ft'. split.
  { unfold file_write. rewrite (bind_Ok _ _ _ _ _ (fget_mk _ _ _ f Hf)). fold fv. rewrite bool_decide_eq_false_2 by done. rewrite Hft, (bind_Ok _ _ _ _ _ R).
    by rewrite bool_decide_eq_true_2. }
  clear R. destruct Hrd' as (Hlr & Hrest). split; [done|]. split; [by rewrite (log_ready_disk _ _ _ _ _ Hlr)|]. split; [done|]. split; [done|]. split; [done|].
  destruct W as (W1 & W2 & (E1 & E2 & E3 & E4 & E5) & W4 & W5). fold n in W2. split; [done|].
  intros t a o k Hsr size Hol Hk r. rewrite <- E1.
  destruct (boot_read_run t a K' start (disk_secs K') (alook inode_zero m' ip) o k Hsr) as (s2 & R2);
    [by destruct Hlr as (A & _ & _ & _ & _ & _ & Hld)|exact (log_ready_head _ _ _ _ _ Hlr)|reflexivity|exact W1|by rewrite E5|by rewrite E5; apply Hrd|by rewrite W2|exact Hk|].
  exists s2. cbv zeta in R2. rewrite R2, W2. fold size r. do 2 f_equal. apply slice_overlay; [done|lia|lia].
Qed.

(** C32: reading a file after a write gives the bytes written, and the others as before.  In a
    transaction with room for the blocks touched and enough free blocks, [inode_write] of
    any bytes at any offset up to the end of a file returns their number; the file is as
    long as needed, the inode on the disk says so, its blocks are in use and shared with
    nothing; every [inode_read] that follows returns the new bytes where they were written
    and the old ones elsewhere; blocks in use by others and other inodes are unchanged. *)
Theorem inode_write_read t0 start c L S D lk m ip src off :
  let v := alook inode_zero m ip in let n := Z.of_nat (length src) in
  tx_rep t0 start c L None S D → file_inv start D v → 0 <= ip < NINODE → i_type v ≠ T_DEV →
  0 <= off <= i_size v → off + n <= MAXFILE * BSIZE →
  (room (bmap_sector D) S v + blocks_of off n <= 7)%nat → (blocks_of off n + need v <= size (free_blocks start D))%nat →
  ∃ c' L' m' S' D', let v' := alook inode_zero m' ip in
    inode_write ip src off n (in_mk c L lk m) = Ok n (in_mk c' L' lk m') ∧ tx_rep t0 start c' L' None S' D' ∧ (size S' <= 8)%nat ∧
    file_inv start D' v' ∧ i_size v' = Z.max (i_size v) (off + n) ∧
    (∀ a, in_use start D a → ¬ owns D v a → D' a = D a) ∧
    (∀ q, q ≠ ip → alook inode_zero m' q = alook inode_zero m q) ∧
    ∀ o k, 0 <= o <= i_size v' → 0 <= k < 2 ^ 31 → ∃ c2,
      let r := Z.min k (i_size v' - o) in
      inode_read ip o k (in_mk c' L' lk m') = Ok (r, overlay (file_byte D v) off src <$> seqZ o r) (in_mk c2 L' lk m').
Proof.
  intros v n Htx Hinv Hip Hty Ho Hmax Hroom Hfree.
  destruct (inode_write_run t0 start c L S D lk m ip src off Htx Hinv Hip Hty Ho Hmax Hroom Hfree) as (c' & L' & m' & S' & D' & R & Htx' & HS' & W & _ & _ & Hoth).
  destruct W as (W1 & W2 & W3 & W4 & W5). exists c', L', m', S', D'. split; [exact R|]. split_and!; try done; [intros a Ha Hn; by apply W5|].
  intros o k Hol Hk. destruct (inode_read_tx t0 start c' L' S' D' lk m' ip o k Htx' HS' W1 Hip) as (c2 & R2); [by destruct W3 as (_ & _ & _ & _ & ->)|done|done|].
  exists c2. cbv zeta in R2 |- *. rewrite R2. do 2 f_equal. apply slice_overlay; [done|lia|lia].
Qed.

(** ** A small disk

    Thirty blocks: a file of three bytes in block 5, the log of ten blocks from 20 on. *)

Definition sample_file : inode :=
  {| i_dev := ROOTDEV; i_inum := 1; i_ref := 1; I_BUSY := false; I_VALID := true; i_type := T_FILE;
     i_major := 0; i_minor := 0; i_nlink := 1; i_size := 3; i_addrs := {[ 0 := 5 ]} |}.

Definition write_disk : gmap (Z * Z) (list Z) :=
  {[ (ROOTDEV, 1) := put32 12 10 (put32 8 8 (put32 0 30 block0));
     (ROOTDEV, 2) := put_dinode (dinode_off 1) sample_file block0;
     (ROOTDEV, 4) := put8 0 63 block0;
     (ROOTDEV, 5) := put8 2 9 (put8 1 8 (put8 0 7 block0)) ]}.

Definition write_fs : lg_state :=
  match log_init (lg_boot three write_disk) with Ok _ s => s | _ => lg_boot three ∅ end.

Lemma sample_slot s : is_slot s → slot (disk_secs write_disk) sample_file s = if decide (s = 0) then 5 else 0.
Proof.
  intros Hs. unfold slot. case_decide as E; [by subst|]. unfold blk. change (ind sample_file) with 0. rewrite (bool_decide_eq_true_2 (0 = 0)) by done.
  case_bool_decide as Hd; [|by rewrite decide_False by (unfold NDIRECT in Hd; lia)].
  unfold alook, sample_file. simpl. case_decide as E0; [by subst|]. by rewrite lookup_singleton_ne.
Qed.

Lemma sample_disk_ok : disk_ok 20 (disk_secs write_disk).
Proof.
  assert (bmap_sector (disk_secs write_disk) = 4) as Hb by (vm_compute; reflexivity).
  split; rewrite ?Hb; [vm_compute; split; discriminate|lia|]. intros i Hi.
  assert (i = 0 ∨ i = 1 ∨ i = 2 ∨ i = 3 ∨ i = 4) as Hc by lia. destruct Hc as [-> | [-> | [-> | [-> | ->]]]]; vm_compute; reflexivity.
Qed.

Lemma sample_inv : file_inv 20 (disk_secs write_disk) sample_file.
Proof.
  assert (bmap_sector (disk_secs write_disk) = 4) as Hb by (vm_compute; reflexivity).
  assert (inode_fits sample_file) as Hfit.
  { split; try done. intros i Hi. unfold alook, sample_file. simpl. destruct (decide (i = 0)) as [->|]; [done|]. by rewrite lookup_singleton_ne. }
  split; [apply sample_disk_ok| |done| |done| |done|].
  - split.
    + intros s Hs. rewrite sample_slot by done. case_decide; [|done]. intros _. unfold in_use. rewrite Hb. split; [lia|]. vm_compute. reflexivity.
    + intros s s' Hs Hs'. rewrite !sample_slot by done. repeat case_decide; congruence.
  - rewrite Hb. by split.
  - intros bn H0 H1. change (i_size sample_file) with 3 in H1. assert (bn = 0) as -> by (unfold BSIZE in H1; lia). done.
  - unfold on_disk. apply (get_put_dinode 1 sample_file); done.
Qed.

Lemma write_log_disk : log_disk write_disk 20 LOGSIZE.
Proof.
  split; [|vm_compute; reflexivity|vm_compute; reflexivity|done|done|done]. intros k d. unfold write_disk.
  repeat (rewrite lookup_insert_Some; intros [[_ <-]|[_ H]]; [by rewrite ?length_put_dinode, ?length_put32, ?length_put8|revert H]).
  rewrite lookup_singleton_Some. by intros [_ <-].
Qed.

Lemma write_fs_ready : log_ready three write_fs (disk (lg_bc write_fs)) 20 LOGSIZE ∧
  ∀ n, 0 <= n < 20 → disk_secs (disk (lg_bc write_fs)) n = disk_secs write_disk n.
Proof.
  destruct (log_init_run three three_a write_disk 20 LOGSIZE []) as (s & D & Hr & Hrd & Hh);
    [apply three_rep|apply write_log_disk|by split|simpl; lia|constructor|done|].
  unfold write_fs. rewrite Hr. pose proof (log_ready_disk _ _ _ _ _ Hrd) as HD. subst D. by split.
Qed.

Lemma write_fs_inv : file_inv 20 (disk_secs (disk (lg_bc write_fs))) sample_file.
Proof. apply (agree_inv 20 (disk_secs write_disk)); [apply sample_disk_ok|apply write_fs_ready|apply sample_inv|apply sample_inv]. Qed.

Lemma write_fs_byte i : 0 <= i < 3 → file_byte (disk_secs (disk (lg_bc write_fs))) sample_file i = 7 + i.
Proof.
  intros Hi. rewrite (agree_byte 20 (disk_secs write_disk) _ sample_disk_ok (proj2 write_fs_ready) sample_file (fi_wf _ _ _ sample_inv)).
  - assert (i = 0 ∨ i = 1 ∨ i = 2) as [-> | [-> | ->]] by lia; vm_compute; reflexivity.
  - unfold MAXFILE, NDIRECT, NINDIRECT, BSIZE. lia.
  - apply (fi_backed _ _ _ sample_inv); change (i_size sample_file) with 3; unfold BSIZE; Z.div_mod_to_equations; lia.
Qed.

Lemma write_fs_free : (12 <= size (free_blocks 20 (disk_secs (disk (lg_bc write_fs)))))%nat.
Proof.
  rewrite (agree_free 20 (disk_secs write_disk) _ sample_disk_ok (proj2 write_fs_ready)). vm_compute. lia.
Qed.

Definition sample_entry : gmap Z inode := {[ 0 := sample_file ]}.

Lemma sample_entry_look : alook inode_zero sample_entry 0 = sample_file.
Proof. reflexivity. Qed.

Lemma inode_write_read_witness : ∃ c' L' m' c2,
  inode_write 0 [1; 2; 3] 2 3 (in_mk (lg_bc write_fs) (with_busy_log 1 (log write_fs)) spinlock_init sample_entry) =
    Ok 3 (in_mk c' L' spinlock_init m') ∧
  inode_read 0 0 100 (in_mk c' L' spinlock_init m') = Ok (5, [7; 8; 1; 2; 3]) (in_mk c2 L' spinlock_init m').
Proof.
  pose proof write_fs_ready as [Hrd _]. pose proof write_fs_inv as Hinv. pose proof write_fs_byte as Hby. pose proof write_fs_free as Hfree.
  revert Hrd Hinv Hby Hfree. generalize write_fs. intros [c L] Hrd Hinv Hby Hfree. cbn [lg_bc log] in *.
  destruct (tx_begin three c L _ 20 Hrd) as [_ Htx].
  pose proof (inode_write_read three 20 c (with_busy_log 1 L) ∅ (disk_secs (disk c)) spinlock_init sample_entry 0 [1; 2; 3] 2 Htx) as H.
  cbv zeta in H. rewrite sample_entry_look in H. change (Z.of_nat (length [1; 2; 3])) with 3 in H.
  destruct H as (c' & L' & m' & S' & D' & R & _ & _ & _ & Hsz & _ & _ & Hread); [done|done|done|done|done|apply chunk_room; done| |].
  { change (blocks_of 2 3) with 1%nat. change (need sample_file) with 1%nat. lia. }
  change (i_size sample_file) with 3 in Hsz. change (Z.max 3 (2 + 3)) with 5 in Hsz. rewrite Hsz in Hread.
  destruct (Hread 0 100) as (c2 & R2); [lia|lia|]. exists c', L', m', c2. split; [exact R|]. rewrite R2. clear R R2 Hread.
  do 2 f_equal. change (seqZ 0 (Z.min 100 (5 - 0))) with [0; 1; 2; 3; 4]. cbn [fmap list_fmap]. unfold overlay. simpl. by rewrite !Hby.
Defined.

Definition sample_open : gmap Z file :=
  {[ 3 := {| f_type := FD_INODE; f_ref := 1; f_readable := 1; f_writable := 1; f_pipe := None; f_ip := Some 0; f_off := 2 |} ]}.

Definition sample_state (l : lg_state) : fs_state :=
  {| fl_in := in_mk (lg_bc l) (log l) spinlock_init sample_entry; ft_lock := spinlock_init; ftable := sample_open;
     pc_lock := spinlock_init; pipes := ∅; cons_in := []; cons_out := [] |}.

Lemma file_write_durable_witness : ∃ s' K' s2,
  file_write 3 [1; 2; 3] 3 (sample_state write_fs) = Ok 3 s' ∧ disk (lg_bc (in_lg (fl_in s'))) = K' ∧
  boot_read 1 0 100 {| in_lg := lg_boot solo K'; ic_lock := locked; icache := ∅ |} = Ok (5, [7; 8; 1; 2; 3]) s2.
Proof.
  pose proof write_fs_ready as [Hrd _]. pose proof write_fs_inv as Hinv. pose proof write_fs_byte as Hby. pose proof write_fs_free as Hfree.
  revert Hrd Hinv Hby Hfree. generalize write_fs. intros [c L] Hrd Hinv Hby Hfree. cbn [lg_bc log] in *.
  pose proof (file_write_durable three 20 0 (sample_state {| lg_bc := c; log := L |}) c L sample_entry sample_open 3 (disk c) [1; 2; 3]) as H.
  cbv zeta in H. unfold ready_file in H at 1. cbv zeta in H. rewrite sample_entry_look in H. change (Z.of_nat (length [1; 2; 3])) with 3 in H.
  destruct H as (c' & L' & m' & K' & ft' & R & _ & HK & _ & _ & _ & _ & Hboot); [by split_and!|done|done|done|done|done|done|done|done| |].
  { change (need sample_file) with 1%nat. change (Z.to_nat (3 / max_write + 1)) with 1%nat. lia. }
  change (i_size sample_file) with 3 in Hboot. change (f_off (alook file_zero sample_open 3)) with 2 in Hboot. change (Z.max 3 (2 + 3)) with 5 in Hboot.
  destruct (Hboot solo solo_a 0 100 solo_rep ltac:(lia) ltac:(lia)) as (s2 & R2).
  exists (fs_mk (sample_state {| lg_bc := c; log := L |}) (in_mk c' L' spinlock_init m') ft'), K', s2. split; [exact R|]. split; [exact HK|].
  change (i_inum sample_file) with 1 in R2. rewrite R2. clear R R2 Hboot.
  do 2 f_equal. change (seqZ 0 (Z.min 100 (5 - 0))) with [0; 1; 2; 3; 4]. cbn [fmap list_fmap]. unfold overlay. simpl. by rewrite !Hby.
Defined.
