(* ===== verification/Mkfs.v ===== *)
(** * The builder of file system images (kern/fs/mkfs.c)

    The program that runs on the host and writes the disk image: the super block, the root
    directory and one file for every argument.  The image is a map from sectors to blocks,
    as [wsect] and [rsect] use it; a file that cannot be opened, a read past the end of the
    image, [exit(1)] and a failed [assert] are a panic, and writes to the image succeed.
    The host is little-endian, as every x86. *)

From S2P Require Import Prelude Spinlock Thread Sched CString BufCache Log Inode FileData FileWrite Path File FileDisk.

Definition nblocks : Z := 985.
Definition nlog : Z := LOGSIZE.
Definition ninodes : Z := 200.
Definition fs_size : Z := 1024.

Record mk_state := { img : gmap Z (list Z); freeblock : Z; usedblocks : Z; freeinode : Z }.

Definition upd_img (f : gmap Z (list Z) → gmap Z (list Z)) (s : mk_state) : mk_state :=
  {| img := f (img s); freeblock := freeblock s; usedblocks := usedblocks s; freeinode := freeinode s |}.

(** The bytes stored through [a], read back as an integer. *)
Definition xshort (x : Z) : Z := get16 (put16 0 x [0; 0]) 0.
Definition xint (x : Z) : Z := get32 (put32 0 x [0; 0; 0; 0]) 0.

Definition wsect (sec : Z) (buf : list Z) : M mk_state () := modify (upd_img <[sec := buf]>).

Definition rsect (sec : Z) : M mk_state (list Z) :=
  b ← gets (λ s, img s !! sec);
  match b with Some d => mret d | None => kern_panic end.

Definition i2b (inum : Z) : Z := inum / IPB + 2.

(** A [struct dinode] in memory is the part of an [inode] that is on the disk. *)
Definition winode (inum : Z) (ip : inode) : M mk_state () :=
  buf ← rsect (i2b inum);
  wsect (i2b inum) (put_dinode (dinode_off inum) ip buf).

Definition rinode (inum : Z) : M mk_state inode :=
  buf ← rsect (i2b inum);
  mret (get_dinode (dinode_off inum) buf inode_zero).

Definition ialloc (type : Z) : M mk_state Z :=
  inum ← gets freeinode;
  modify (λ s, {| img := img s; freeblock := freeblock s; usedblocks := usedblocks s; freeinode := u32 (freeinode s + 1) |}) ;;
  winode inum (with_size (xint 0) (with_node 0 0 (s16 (xshort 1)) (with_type (s16 (xshort type)) inode_zero))) ;;
  mret inum.

(** [freeblock++] and [usedblocks++]. *)
Definition take_block : M mk_state Z :=
  b ← gets freeblock;
  modify (λ s, {| img := img s; freeblock := u32 (freeblock s + 1); usedblocks := u32 (usedblocks s + 1); freeinode := freeinode s |}) ;;
  mret b.

(** The address of block [fbn], and the inode with the addresses that were added. *)
Definition append_block (din : inode) (fbn : Z) : M mk_state (inode * Z) :=
  if bool_decide (fbn < NDIRECT) then
    din ← (if bool_decide (xint (alook 0 (i_addrs din) fbn) = 0) then
             b ← take_block; mret (with_addr fbn (xint b) din)
           else mret din);
    mret (din, xint (alook 0 (i_addrs din) fbn))
  else
    din ← (if bool_decide (xint (alook 0 (i_addrs din) NDIRECT) = 0) then
             b ← take_block; mret (with_addr NDIRECT (xint b) din)
           else mret din);
    indirect ← rsect (xint (alook 0 (i_addrs din) NDIRECT));
    indirect ← (if bool_decide (get32 indirect (4 * (fbn - NDIRECT)) = 0) then
                  b ← take_block;
                  let indirect := put32 (4 * (fbn - NDIRECT)) (xint b) indirect in
                  wsect (xint (alook 0 (i_addrs din) NDIRECT)) indirect ;;
                  mret indirect
                else mret indirect);
    mret (din, xint (get32 indirect (4 * (fbn - NDIRECT)))).

(** The loop of [iappend]; [bcopy] puts [n1] bytes of [p] into the block. *)
Fixpoint iappend_loop (fuel : nat) (din : inode) (off : Z) (p : list Z) (n : Z) : M mk_state (inode * Z) :=
  match fuel with
  | O => kern_panic
  | S fuel =>
      if bool_decide (n > 0) then
        let fbn := off / 512 in
        if bool_decide (fbn < MAXFILE) then
          '(din, x) ← append_block din fbn;
          let n1 := Z.min n (u32 ((fbn + 1) * 512 - off)) in
          buf ← rsect x;
          wsect x (splice (Z.to_nat (off - fbn * 512)) (Z.to_nat n1) p buf) ;;
          iappend_loop fuel din (u32 (off + n1)) (drop (Z.to_nat n1) p) (n - n1)
        else kern_panic
      else mret (din, off)
  end.

Definition iappend (inum : Z) (xp : list Z) (n : Z) : M mk_state () :=
  din ← rinode inum;
  '(din, off) ← iappend_loop (Z.to_nat (n + 1)) din (xint (i_size din)) xp n;
  winode inum (with_size (xint off) din).

Definition balloc (used : Z) : M mk_state () :=
  if bool_decide (used < 512 * 8) then
    wsect (ninodes / IPB + 3)
      (foldl (λ buf i, put8 (i / 8) (Z.lor (get8 buf (i / 8)) (Z.shiftl 1 (i mod 8))) buf) block0 (seqZ 0 used))
  else kern_panic.

(** [bzero(&de)], the number and the name, at most [DIRSIZ] characters of it. *)
Definition de_bytes (inum : Z) (name : list Z) : list Z :=
  put_dirent {| de_inum := xshort inum; de_name := take DIRSIZ (name ++ replicate DIRSIZ 0) |}.

(** [while ((cc = read(fd, buf, sizeof(buf))) > 0) iappend(inum, buf, cc)]. *)
Fixpoint copy_file (fuel : nat) (inum : Z) (data : list Z) : M mk_state () :=
  match fuel with
  | O => kern_panic
  | S fuel =>
      let buf := take 512 data in
      if bool_decide (Z.of_nat (length buf) > 0) then
        iappend inum buf (Z.of_nat (length buf)) ;; copy_file fuel inum (drop 512 data)
      else mret ()
  end.

(** An argument: its characters, and the contents of the file that can be opened. *)
Definition add_file (arg : list Z * option (list Z)) : M mk_state () :=
  let '(name, contents) := arg in
  if bool_decide (SLASH ∈ name) then kern_panic
  else
    match contents with
    | None => kern_panic
    | Some data =>
        let name := match name with c :: rest => if bool_decide (c = 95) then rest else name | [] => [] end in
        inum ← ialloc T_FILE;
        iappend ROOTINO (de_bytes inum name) dirent_size ;;
        copy_file (length data + 1) inum data
    end.

Fixpoint add_files (args : list (list Z * option (list Z))) : M mk_state () :=
  match args with
  | [] => mret ()
  | arg :: args => add_file arg ;; add_files args
  end.

Definition sb_bytes : list Z :=
  put32 12 (xint nlog) (put32 8 (xint ninodes) (put32 4 (xint nblocks) (put32 0 (xint fs_size) block0))).

(** [args] are the arguments behind the name of the program: the image, whose old contents
    are cut off, and the files. *)
Definition main (args : list (list Z * option (list Z))) : M mk_state () :=
  match args with
  | [] | (_, None) :: _ => kern_panic
  | (_, Some _) :: files =>
      let bitblocks := fs_size / (512 * 8) + 1 in
      let used := ninodes / IPB + 3 + bitblocks in
      modify (λ s, {| img := img s; freeblock := used; usedblocks := used; freeinode := freeinode s |}) ;;
      (if bool_decide (nblocks + used + nlog = fs_size) then mret () else kern_panic) ;;
      for_range 0 (nblocks + used + nlog) (λ i, wsect i block0) ;;
      wsect 1 sb_bytes ;;
      rootino ← ialloc T_DIR;
      (if bool_decide (rootino = ROOTINO) then mret () else kern_panic) ;;
      iappend rootino (de_bytes rootino [46]) dirent_size ;;
      iappend rootino (de_bytes rootino [46; 46]) dirent_size ;;
      add_files files ;;
      din ← rinode rootino;
      let off := xint (i_size din) in
      let off := u32 ((off / BSIZE + 1) * BSIZE) in
      winode rootino (with_size (xint off) din) ;;
      used ← gets usedblocks;
      balloc used
  end.

Definition mk_start : mk_state := {| img := ∅; freeblock := 0; usedblocks := 0; freeinode := 1 |}.

(** ** The bitmap *)

Definition bits (f : Z) : list Z := foldl (λ buf i, mark i buf) block0 (seqZ 0 f).

Lemma bits_S f : 0 <= f → bits (f + 1) = mark f (bits f).
Proof.
  intros Hf. unfold bits. replace (seqZ 0 (f + 1)) with (seqZ 0 f ++ [f]); [by rewrite foldl_app|].
  rewrite seqZ_app by lia. done.
Qed.

Lemma length_bits f : 0 <= f → length (bits f) = 512%nat.
Proof. intros Hf. pattern f. apply natlike_ind; [done| |done]. intros x Hx IH. rewrite <- Z.add_1_r, bits_S by done. by rewrite length_mark. Qed.

Lemma bits_used f i : 0 <= f <= 4096 → 0 <= i < 4096 → used (bits f) i = bool_decide (i < f).
Proof.
  intros Hf Hi. rewrite <- (Z2Nat.id f) in Hf |- * by lia. revert Hf. induction (Z.to_nat f) as [|n IH]; intros Hf.
  - rewrite used_testbit. change (bits (Z.of_nat 0)) with block0. assert (get8 block0 (i / 8) = 0) as ->.
    { unfold get8, block0. apply list_lookup_total_correct, lookup_replicate_2. Z.div_mod_to_equations. lia. }
    rewrite Z.bits_0, bool_decide_eq_false_2 by lia. done.
  - rewrite Nat2Z.inj_succ, <- Z.add_1_r, bits_S by lia. rewrite used_mark, IH by (rewrite ?length_bits by lia; lia).
    repeat case_bool_decide; try done; exfalso; lia.
Qed.

Lemma xint_u32 x : xint x = u32 x.
Proof. unfold xint. by rewrite get32_put32_eq. Qed.

Lemma xshort_mod x : xshort x = x mod 65536.
Proof. unfold xshort. by rewrite get16_put16_eq. Qed.

(** ** The image as a file system

    While the image is built the bitmap is still empty; [vimg] is the image with the bitmap
    that [balloc] writes at the end. *)

Definition mk_log : Z := 1014.

Definition vimg (s : mk_state) (n : Z) : list Z := if decide (n = 28) then bits (freeblock s) else alook block0 (img s) n.

Record mk_ok (s : mk_state) : Prop := {
  mo_all n : 0 <= n < fs_size → is_Some (img s !! n);
  mo_len n d : img s !! n = Some d → length d = 512%nat;
  mo_sb : img s !! 1 = Some sb_bytes;
  mo_free : 29 <= freeblock s <= mk_log;
  mo_used : usedblocks s = freeblock s;
  mo_zero n : freeblock s <= n < fs_size → img s !! n = Some block0
}.

Lemma sb_words : get32 sb_bytes 0 = 1024 ∧ get32 sb_bytes 8 = 200 ∧ get32 sb_bytes 12 = 10 ∧ length sb_bytes = 512%nat.
Proof. vm_compute. done. Qed.

Lemma vimg_sb s : mk_ok s → vimg s 1 = sb_bytes ∧ bmap_sector (vimg s) = 28.
Proof.
  intros H. assert (vimg s 1 = sb_bytes) as E by (unfold vimg, alook; by rewrite (mo_sb s H)). split; [done|].
  unfold bmap_sector. rewrite E. destruct sb_words as (_ & -> & _). done.
Qed.

Lemma vimg_used s i : mk_ok s → 0 <= i < 4096 → used (vimg s 28) i = bool_decide (i < freeblock s).
Proof. intros H Hi. pose proof (mo_free s H). unfold mk_log in *. apply bits_used; lia. Qed.

Lemma vimg_disk s : mk_ok s → disk_ok mk_log (vimg s).
Proof.
  intros H. destruct (vimg_sb s H) as [E B]. pose proof (mo_free s H). destruct sb_words as (W & _).
  split; rewrite ?B, ?E, ?W; unfold mk_log, BPB, BSIZE in *; [lia|lia|]. intros i Hi. rewrite vimg_used by first [exact H | lia]. by rewrite bool_decide_eq_true_2 by lia.
Qed.

Lemma vimg_length s n : mk_ok s → 0 <= n < fs_size → length (vimg s n) = 512%nat.
Proof.
  intros H Hn. unfold vimg. case_decide; [apply length_bits; pose proof (mo_free s H); lia|].
  unfold alook. destruct (mo_all s H n Hn) as [d E]. rewrite E. exact (mo_len s H n d E).
Qed.

Lemma vimg_sized s : mk_ok s → ∀ n, 0 <= n < mk_log → length (vimg s n) = 512%nat.
Proof. intros H n Hn. apply vimg_length; [done|]. unfold mk_log, fs_size in *. lia. Qed.

Lemma rsect_run s n : mk_ok s → 0 <= n < fs_size → n ≠ 28 → rsect n s = Ok (vimg s n) s.
Proof.
  intros H Hn Hne. unfold rsect. rewrite (bind_Ok _ _ _ _ _ (gets_Ok _ _)). destruct (mo_all s H n Hn) as [d E]. rewrite E.
  unfold vimg, alook. by rewrite decide_False, E.
Qed.

Lemma vimg_upd s n d x : n ≠ 28 → vimg (upd_img <[n := d]> s) x = dput n d (vimg s) x.
Proof.
  intros Hn. unfold vimg, dput. simpl. destruct (decide (x = 28)) as [->|]; [by rewrite decide_False|].
  destruct (decide (x = n)) as [->|]; [apply alook_insert_eq|by apply alook_insert_ne].
Qed.

Lemma upd_ok s n d : mk_ok s → length d = 512%nat → n ≠ 1 → n < freeblock s → mk_ok (upd_img <[n := d]> s).
Proof.
  intros [H1 H1' H2 H3 H4 H5] Hd Hn Hf. split; simpl; try done.
  - intros x Hx. rewrite lookup_insert. case_decide; [done|by apply H1].
  - intros x d'. rewrite lookup_insert_Some. intros [[_ <-]|[_ Hx]]; [done|by apply (H1' x)].
  - by rewrite lookup_insert_ne.
  - intros x Hx. rewrite lookup_insert_ne by lia. by apply H5.
Qed.

(** ** Taking blocks *)

Definition next (s : mk_state) : mk_state :=
  {| img := img s; freeblock := freeblock s + 1; usedblocks := usedblocks s + 1; freeinode := freeinode s |}.

Section Next.
Context (s : mk_state).
Hypothesis ok : mk_ok s.
Hypothesis more : freeblock s < mk_log.

Lemma take_block_run : take_block s = Ok (freeblock s) (next s).
Proof.
  destruct ok as [_ _ _ H3 H4 _]. unfold mk_log in *. unfold take_block. rewrite (bind_Ok _ _ _ _ _ (gets_Ok _ _)), (bind_Ok _ _ _ _ _ (modify_Ok _ _)).
  rewrite !u32_small by (unfold is_u32, W32; lia). done.
Qed.

Lemma next_ok : mk_ok (next s).
Proof. destruct ok as [H1 H1' H2 H3 H4 H5]. unfold mk_log in *. split; simpl; try done; [unfold mk_log; lia|lia|]. intros n Hn. apply H5. lia. Qed.

Lemma next_free : freeblock s ∈ free_blocks mk_log (vimg s).
Proof.
  destruct (vimg_sb s ok) as [_ B]. pose proof (mo_free s ok). unfold mk_log in *. apply elem_of_free. rewrite B.
  rewrite vimg_used by first [exact ok | lia]. split; [by rewrite bool_decide_eq_false_2 by lia|unfold mk_log; lia].
Qed.

Lemma vimg_next x : vimg (next s) x = alloc_at (freeblock s) (vimg s) x.
Proof.
  destruct (vimg_sb s ok) as [_ B]. pose proof (mo_free s ok). unfold alloc_at, dput. rewrite B. unfold vimg. simpl.
  destruct (decide (x = 28)) as [->|].
  - rewrite decide_False by lia. apply bits_S. lia.
  - destruct (decide (x = freeblock s)) as [->|]; [|done]. unfold alook. rewrite (mo_zero s ok); [done|]. unfold mk_log, fs_size in *. lia.
Qed.

(** A block for an address of the inode. *)
Lemma next_addr v j i : file_wf mk_log (vimg s) v → 0 <= j <= NDIRECT → alook 0 (i_addrs v) j = 0 →
  grows mk_log i i (vimg s) v (vimg (next s)) (with_addr j (freeblock s) v).
Proof.
  intros Hwf Hj H0. pose proof (vimg_disk s ok) as Hd. pose proof (vimg_sized s ok) as Hl. pose proof next_free as Hf.
  apply (grows_add mk_log (vimg s) _ v _ (freeblock s) (addr_slot j) Hd Hl Hwf Hf);
    [by rewrite addr_slot_look|apply same_node_addr| |intros a _; apply vimg_next].
  intros t Ht. rewrite <- (alloc_addr_slots mk_log (vimg s) v j (freeblock s)) by done. unfold slot, blk. by rewrite !vimg_next.
Qed.

(** A block for an entry of the block of addresses. *)
Lemma next_entry v bn i : let d := put32 (4 * (bn - NDIRECT)) (freeblock s) (vimg (next s) (ind v)) in
  let s' := upd_img <[ind v := d]> (next s) in
  file_wf mk_log (vimg s) v → NDIRECT <= bn < MAXFILE → ind v ≠ 0 → blk (vimg s) v bn = 0 →
  mk_ok s' ∧ grows mk_log i i (vimg s) v (vimg s') v ∧ blk (vimg s') v bn = freeblock s.
Proof.
  intros d s' Hwf Hbn Hi H0. pose proof (vimg_disk s ok) as Hd. pose proof (vimg_sized s ok) as Hl. pose proof next_free as Hf.
  destruct (proj1 Hwf (-1) is_slot_ind Hi) as [I1 I2]. change (slot (vimg s) v (-1)) with (ind v) in *.
  destruct (vimg_sb s ok) as [_ B]. rewrite B in I1, I2. unfold mk_log in *. rewrite vimg_used in I2 by first [exact ok | lia]. apply bool_decide_eq_true_1 in I2.
  destruct (grows_entry mk_log (vimg s) v bn (freeblock s) i Hd Hl Hwf Hf Hbn Hi H0) as [G E].
  assert (∀ x, vimg s' x = entry_at v bn (freeblock s) (alloc_at (freeblock s) (vimg s)) x) as HE.
  { intros x. unfold s'. rewrite vimg_upd by lia. unfold entry_at, dput, d. by rewrite !vimg_next. }
  split; [|split].
  - apply upd_ok; [apply next_ok| |lia|simpl; lia]. unfold d. rewrite length_put32. apply vimg_sized; [apply next_ok|unfold mk_log; lia].
  - eapply grows_cong; [exact G|done].
  - rewrite <- E. unfold blk. by rewrite HE.
Qed.
End Next.

Definition zneed (v : inode) : Z := Z.of_nat (need v).

(** What a step of [iappend] does to the file and the image. *)
Definition appended (s : mk_state) (v : inode) (s' : mk_state) (v' : inode) : Prop :=
  mk_ok s' ∧ (∀ i, grows mk_log i i (vimg s) v (vimg s') v') ∧ freeblock s <= freeblock s' ∧ freeinode s' = freeinode s.

Lemma appended_refl s v : mk_ok s → file_wf mk_log (vimg s) v → appended s v s v.
Proof. intros H Hwf. split; [exact H|]. split; [|split; [lia|reflexivity]]. intros i. apply grows_refl; [by apply vimg_disk|exact Hwf]. Qed.

Lemma xint_addr s v j : mk_ok s → file_wf mk_log (vimg s) v → 0 <= j <= NDIRECT → xint (alook 0 (i_addrs v) j) = alook 0 (i_addrs v) j.
Proof.
  intros H Hwf Hj. rewrite xint_u32. apply u32_small. apply (wf_addr_u32 mk_log (vimg s)); [by apply vimg_disk|exact Hwf|].
  unfold NDIRECT in Hj. lia.
Qed.

Lemma xint_block s : mk_ok s → xint (freeblock s) = freeblock s.
Proof. intros H. pose proof (mo_free s H). unfold mk_log in *. rewrite xint_u32. apply u32_small. unfold is_u32, W32. lia. Qed.

(** An address in the inode, new or old. *)
Lemma append_addr s v j : mk_ok s → file_wf mk_log (vimg s) v → 0 <= j <= NDIRECT → freeblock s < mk_log →
  ∃ s' v', (if bool_decide (xint (alook 0 (i_addrs v) j) = 0) then b ← take_block; mret (with_addr j (xint b) v) else mret v) s = Ok v' s' ∧
    appended s v s' v' ∧ alook 0 (i_addrs v') j ≠ 0 ∧
    if decide (alook 0 (i_addrs v) j = 0) then freeblock s' = freeblock s + 1 ∧ v' = with_addr j (freeblock s) v else s' = s ∧ v' = v.
Proof.
  intros H Hwf Hj Hm. pose proof (mo_free s H) as Hf. rewrite (xint_addr s) by assumption. destruct (decide (alook 0 (i_addrs v) j = 0)) as [H0|H0].
  - rewrite bool_decide_eq_true_2 by assumption. rewrite (bind_Ok _ _ _ _ _ (take_block_run s H Hm)), (xint_block s H).
    exists (next s), (with_addr j (freeblock s) v). split; [reflexivity|]. split; [|split; [|split; reflexivity]].
    + split; [by apply next_ok|]. split; [intros i; by apply next_addr|]. simpl. split; [lia|reflexivity].
    + unfold with_addr. simpl. rewrite alook_insert_eq. lia.
  - rewrite bool_decide_eq_false_2 by assumption. exists s, v. split; [reflexivity|]. split; [by apply appended_refl|]. by split_and!.
Qed.

Lemma appended_trans s v s1 v1 s2 v2 : appended s v s1 v1 → appended s1 v1 s2 v2 → appended s v s2 v2.
Proof.
  intros (A1 & A2 & A3 & A4) (B1 & B2 & B3 & B4). split; [exact B1|]. split; [|split; [lia|congruence]].
  intros i. apply (grows_trans mk_log i i i _ _ _ _ _ _ ltac:(lia) (A2 i) (B2 i)).
Qed.

Lemma appended_wf s v s' v' : appended s v s' v' → file_wf mk_log (vimg s') v'.
Proof. intros (_ & H & _). exact (gr_wf _ _ _ _ _ _ _ (H 0)). Qed.

Lemma vimg_next_img s x : x ≠ 28 → vimg (next s) x = vimg s x.
Proof. intros H. unfold vimg. by rewrite !decide_False. Qed.

(** The entry of the block of addresses, new or old. *)
Lemma append_entry s v bn : mk_ok s → file_wf mk_log (vimg s) v → ind v ≠ 0 → NDIRECT <= bn < MAXFILE → freeblock s < mk_log →
  ∃ s', (indirect ← rsect (ind v);
      indirect ← (if bool_decide (get32 indirect (4 * (bn - NDIRECT)) = 0) then
                    b ← take_block;
                    let indirect := put32 (4 * (bn - NDIRECT)) (xint b) indirect in
                    wsect (ind v) indirect ;; mret indirect
                  else mret indirect);
      mret (v, xint (get32 indirect (4 * (bn - NDIRECT))))) s = Ok (v, blk (vimg s') v bn) s' ∧
    appended s v s' v ∧ blk (vimg s') v bn ≠ 0 ∧ freeblock s' <= freeblock s + 1.
Proof.
  intros H Hwf Hi Hbn Hm. pose proof (mo_free s H) as Hf.
  destruct (proj1 Hwf (-1) is_slot_ind Hi) as [I1 _]. change (slot (vimg s) v (-1)) with (ind v) in I1. destruct (vimg_sb s H) as [_ B1]. rewrite B1 in I1.
  rewrite (bind_Ok _ _ _ _ _ (rsect_run s (ind v) H ltac:(unfold mk_log, fs_size in *; lia) ltac:(lia))).
  assert (∀ D, blk D v bn = get32 (D (ind v)) (4 * (bn - NDIRECT))) as Eb by (intros D; apply blk_ind; [lia|exact Hi]). rewrite <- Eb.
  destruct (decide (blk (vimg s) v bn = 0)) as [E0|E0].
  - rewrite bool_decide_eq_true_2 by exact E0. rewrite <- (vimg_next_img s (ind v)) by lia.
    destruct (next_entry s H Hm v bn 0 Hwf Hbn Hi E0) as (K1 & _ & K3). set (d := put32 (4 * (bn - NDIRECT)) (freeblock s) (vimg (next s) (ind v))) in *.
    set (s' := upd_img <[ind v := d]> (next s)) in *. assert (vimg s' (ind v) = d) as Ed by (unfold s'; rewrite vimg_upd by lia; apply dput_eq).
    exists s'. rewrite (bind_Ok _ _ _ d s').
    2:{ rewrite (bind_Ok _ _ _ _ _ (take_block_run s H Hm)), (xint_block s H). cbv zeta. fold d. reflexivity. }
    rewrite <- Ed, <- Eb, K3, (xint_block s H). split; [reflexivity|]. split; [|simpl; lia].
    split; [exact K1|]. split; [|simpl; split; [lia|reflexivity]]. intros i. by apply next_entry.
  - rewrite bool_decide_eq_false_2 by exact E0. rewrite (bind_Ok _ _ _ _ _ (ret_Ok _ _)), <- Eb. exists s.
    destruct (proj1 Hwf bn) as [I2 _]; [unfold is_slot, NDIRECT in *; lia|by rewrite slot_blk by (unfold NDIRECT in Hbn; lia)|].
    rewrite slot_blk in I2 by (unfold NDIRECT in Hbn; lia). unfold mk_log in *. rewrite xint_u32, u32_small by (unfold is_u32, W32; lia).
    split; [reflexivity|]. split; [by apply appended_refl|]. split; [exact E0|lia].
Qed.

Lemma append_block_run s v bn : mk_ok s → file_wf mk_log (vimg s) v → 0 <= bn < MAXFILE → freeblock s + 1 + zneed v <= mk_log →
  ∃ s' v', append_block v bn s = Ok (v', blk (vimg s') v' bn) s' ∧ appended s v s' v' ∧ blk (vimg s') v' bn ≠ 0 ∧
    freeblock s' + zneed v' <= freeblock s + 1 + zneed v.
Proof.
  intros H Hwf Hbn Hm. assert (0 <= zneed v) as Hz by (unfold zneed; lia). unfold append_block. destruct (bool_decide (bn < NDIRECT)) eqn:Ed.
  - pose proof (bool_decide_eq_true_1 _ Ed) as Hd. destruct (append_addr s v bn H Hwf ltac:(lia) ltac:(lia)) as (s1 & v1 & R1 & A1 & Hn0 & Hc).
    assert (blk (vimg s1) v1 bn = alook 0 (i_addrs v1) bn) as Eb by (unfold blk; by rewrite Ed).
    exists s1, v1. rewrite (bind_Ok _ _ _ _ _ R1), (xint_addr s1) by (first [exact (proj1 A1) | exact (appended_wf _ _ _ _ A1) | lia]).
    rewrite Eb. split; [reflexivity|]. split; [exact A1|]. split; [exact Hn0|]. destruct (decide (alook 0 (i_addrs v) bn = 0)); destruct Hc as [C1 ->]; [|subst s1; lia].
    unfold zneed, need in *. rewrite ind_with_addr, (decide_False (P:=bn = NDIRECT)) by lia. lia.
  - pose proof (bool_decide_eq_false_1 _ Ed) as Hd.
    destruct (append_addr s v NDIRECT H Hwf ltac:(unfold NDIRECT; lia) ltac:(lia)) as (s1 & v1 & R1 & A1 & Hn0 & Hc). fold (ind v1) in Hn0.
    assert (zneed v1 = 0 ∧ freeblock s1 <= freeblock s + zneed v) as [Hz1 Hf1].
    { unfold zneed, need. fold (ind v1) (ind v) in *. destruct (decide (ind v1 = 0)); [done|]. split; [reflexivity|].
      destruct (decide (ind v = 0)); destruct Hc as [C1 _]; [lia|subst s1; lia]. }
    pose proof (appended_wf _ _ _ _ A1) as Hwf1. rewrite (bind_Ok _ _ _ _ _ R1).
    rewrite (xint_addr s1) by (first [exact (proj1 A1) | exact Hwf1 | unfold NDIRECT; lia]). fold (ind v1).
    destruct (append_entry s1 v1 bn (proj1 A1) Hwf1 Hn0 ltac:(lia) ltac:(lia)) as (s2 & R2 & A2 & Hb2 & Hf2).
    exists s2, v1. split; [exact R2|]. split; [exact (appended_trans _ _ _ _ _ _ A1 A2)|]. split; [exact Hb2|lia].
Qed.

(** One block of data. *)
Lemma put_block s v bn o m p : mk_ok s → file_wf mk_log (vimg s) v → 0 <= bn < MAXFILE → blk (vimg s) v bn ≠ 0 →
  0 <= o → 0 <= m → o + m <= BSIZE → m <= Z.of_nat (length p) →
  let x := blk (vimg s) v bn in
  let s' := upd_img <[x := splice (Z.to_nat o) (Z.to_nat m) p (vimg s x)]> s in
  rsect x s = Ok (vimg s x) s ∧ mk_ok s' ∧ grows mk_log (bn * BSIZE + o) (bn * BSIZE + o + m) (vimg s) v (vimg s') v ∧
  ∀ j, 0 <= j < m → file_byte (vimg s') v (bn * BSIZE + o + j) = p !!! Z.to_nat j.
Proof.
  intros H Hwf Hbn H0 Ho Hm Hom Hp x s'. unfold BSIZE in Hom. pose proof (mo_free s H) as Hf. pose proof (vimg_disk s H) as Hd. destruct (vimg_sb s H) as [_ B].
  assert (slot (vimg s) v bn = x) as Es by (apply slot_blk; lia). assert (is_slot bn) as Hs by (unfold is_slot; lia).
  destruct (proj1 Hwf bn Hs ltac:(by rewrite Es)) as [I1 I2]. rewrite Es, B in I1, I2. unfold mk_log in *. rewrite vimg_used in I2 by first [exact H | lia].
  apply bool_decide_eq_true_1 in I2. pose proof (vimg_length s x H ltac:(unfold fs_size; lia)) as Hl.
  set (d := splice (Z.to_nat o) (Z.to_nat m) p (vimg s x)) in *. assert (∀ y, vimg s' y = dput x d (vimg s) y) as HE by (intros y; apply vimg_upd; lia).
  assert (grows 1014 (bn * BSIZE + o) (bn * BSIZE + o + m) (vimg s) v (dput x d (vimg s)) v) as G.
  { apply grows_write; [exact Hd|exact Hwf|lia|exact H0|]. intros j Hj Hout. unfold d. rewrite get8_splice by lia. rewrite decide_False; [reflexivity|]. lia. }
  split; [|split; [|split]].
  - apply rsect_run; [exact H|unfold fs_size; lia|lia].
  - apply upd_ok; [exact H| |lia|lia]. unfold d. rewrite length_splice; lia.
  - eapply grows_cong; [exact G|exact HE].
  - intros j Hj. pose proof (grows_blk _ _ _ _ _ _ _ bn (grows_cong _ _ _ _ _ _ _ _ G HE) ltac:(lia) H0) as Eb. fold x in Eb.
    unfold file_byte, BSIZE in *. replace ((bn * 512 + o + j) / 512) with bn by (Z.div_mod_to_equations; lia).
    replace ((bn * 512 + o + j) mod 512) with (o + j) by (Z.div_mod_to_equations; lia). rewrite Eb, HE, dput_eq. unfold d.
    rewrite get8_splice by lia. rewrite decide_True by lia. f_equal. lia.
Qed.

Lemma iappend_loop_run k fuel s v off p n : mk_ok s → file_wf mk_log (vimg s) v → 0 <= off → 0 <= n < Z.of_nat fuel →
  off + n <= MAXFILE * BSIZE → n <= Z.of_nat (length p) → freeblock s + Z.of_nat k + zneed v <= mk_log →
  n = 0 ∨ off mod BSIZE + n <= Z.of_nat k * BSIZE →
  ∃ s' v', iappend_loop fuel v off p n s = Ok (v', off + n) s' ∧ mk_ok s' ∧ grows mk_log off (off + n) (vimg s) v (vimg s') v' ∧
    stored (vimg s') v' off n p ∧ freeblock s' + zneed v' <= freeblock s + Z.of_nat k + zneed v ∧
    freeblock s <= freeblock s' ∧ freeinode s' = freeinode s.
Proof.
  revert k s v off p n. induction fuel as [|fuel IH]; intros k s v off p n H Hwf Ho Hn Hmax Hp Hroom Hk; [lia|].
  cbn [iappend_loop]. assert (MAXFILE * BSIZE = 71680) as HM by reflexivity. pose proof (Z.mod_pos_bound off BSIZE ltac:(reflexivity)) as Hmod.
  destruct (decide (n = 0)) as [->|Hn0].
  { rewrite bool_decide_eq_false_2 by lia. exists s, v. rewrite Z.add_0_r. split; [reflexivity|]. split; [exact H|].
    split; [apply grows_refl; [by apply vimg_disk|exact Hwf]|]. split; [split; intros; lia|]. split; [lia|]. split; [lia|reflexivity]. }
  rewrite bool_decide_eq_true_2 by lia. cbv zeta. change 512 with BSIZE.
  destruct (byte_block off ltac:(lia)) as [Hq _]. rewrite bool_decide_eq_true_2 by lia.
  destruct k as [|k]; [lia|].
  destruct (append_block_run s v (off / BSIZE) H Hwf Hq ltac:(lia)) as (s1 & v1 & R1 & A1 & Hb & Hf1). rewrite (bind_Ok _ _ _ _ _ R1).
  assert (u32 ((off / BSIZE + 1) * BSIZE - off) = BSIZE - off mod BSIZE) as -> by (rewrite u32_small; unfold is_u32, W32, BSIZE in *; Z.div_mod_to_equations; lia).
  assert (off - off / BSIZE * BSIZE = off mod BSIZE) as -> by (unfold BSIZE; Z.div_mod_to_equations; lia).
  set (j := Z.min n (BSIZE - off mod BSIZE)).
  assert (0 < j <= n ∧ off mod BSIZE + j <= BSIZE ∧ (n = j ∨ off mod BSIZE + j = BSIZE)) as (Hj & Hjb & Hjl) by lia. clearbody j.
  pose proof A1 as (H1 & Hg1 & Hf1' & Hi1).
  destruct (put_block s1 v1 (off / BSIZE) (off mod BSIZE) j p H1 (appended_wf _ _ _ _ A1) Hq Hb ltac:(lia) ltac:(lia) Hjb ltac:(lia)) as (R2 & H2 & Hg2 & Hby).
  replace (off / BSIZE * BSIZE + off mod BSIZE) with off in * by (unfold BSIZE; Z.div_mod_to_equations; lia).
  rewrite (bind_Ok _ _ _ _ _ R2). unfold wsect. rewrite (bind_Ok _ _ _ _ _ (modify_Ok _ _)). set (s2 := upd_img _ s1) in *.
  rewrite u32_small by (unfold is_u32, W32; lia).
  destruct (IH k s2 v1 (off + j) (drop (Z.to_nat j) p) (n - j) H2 (gr_wf _ _ _ _ _ _ _ Hg2)) as (s3 & v3 & R3 & H3 & Hg3 & Hst & Hf3 & Hf3' & Hi3);
    [lia|lia|lia|rewrite length_drop; lia|change (freeblock s2) with (freeblock s1); lia| |].
  { destruct Hjl as [->|Hjl]; [left; lia|]. unfold BSIZE in *. destruct (decide (n = j)); [left; lia|right].
    assert ((off + j) mod 512 = 0) by (Z.div_mod_to_equations; lia). lia. }
  change (freeblock s2) with (freeblock s1) in *. change (freeinode s2) with (freeinode s1) in *.
  replace (off + j + (n - j)) with (off + n) in * by lia. exists s3, v3. split; [exact R3|]. split; [exact H3|]. split; [|split; [|split; [lia|split; [lia|congruence]]]].
  - eapply grows_trans; [|exact (Hg1 off)|eapply grows_trans; [|exact Hg2|exact Hg3]]; lia.
  - apply (stored_cons mk_log (vimg s2) v1 (vimg s3) v3 off j n p); [lia|lia|lia|lia|exact Hjl| |exact Hby|exact Hg3|exact Hst].
    by rewrite (grows_blk _ _ _ _ _ _ _ _ Hg2).
Qed.

(** ** The files of an image *)

Definition node (D : Z → list Z) (j : Z) : inode := get_dinode (dinode_off j) (D (IBLOCK j)) (first_entry j).

Record has_file (D : Z → list Z) (j ty : Z) (data : list Z) : Prop := {
  hf_wf : file_wf mk_log D (node D j);
  hf_type : i_type (node D j) = ty;
  hf_nlink : i_nlink (node D j) = 1;
  hf_size : i_size (node D j) = Z.of_nat (length data);
  hf_max : Z.of_nat (length data) <= MAXFILE * BSIZE;
  hf_backed i : 0 <= i < Z.of_nat (length data) → blk D (node D j) (i / BSIZE) ≠ 0;
  hf_bytes i : 0 <= i < Z.of_nat (length data) → file_byte D (node D j) i = data !!! Z.to_nat i;
  hf_tail i : Z.of_nat (length data) <= i < MAXFILE * BSIZE → blk D (node D j) (i / BSIZE) ≠ 0 → file_byte D (node D j) i = 0
}.

(** Two files that share no block. *)
Definition apart (D : Z → list Z) (v w : inode) : Prop := ∀ a, owns D v a → owns D w a → a = 0.

(** Another file while one grows. *)
Lemma other_file start lo hi D v D' v' w : grows start lo hi D v D' v' → file_wf start D w → apart D v w →
  (∀ t, is_slot t → slot D' w t = slot D w t) ∧ file_wf start D' w ∧ apart D' v' w ∧
  ∀ i, 0 <= i < MAXFILE * BSIZE → blk D w (i / BSIZE) ≠ 0 → file_byte D' w i = file_byte D w i.
Proof.
  intros [G1 G2 G3 G4 G5 G0 G6 G7 G8 G9] [W1 W2] Hap.
  assert (∀ t, is_slot t → slot D w t ≠ 0 → D' (slot D w t) = D (slot D w t) ∧ in_use start D' (slot D w t) ∧ ¬ owns D' v' (slot D w t)) as Hk.
  { intros t Ht H0. pose proof (W1 t Ht H0) as Hu. destruct (G6 (slot D w t) Hu) as [K1 K2]; [|split; [exact K1|split; [by apply G7|exact K2]]].
    intros Ho. apply H0, (Hap _ Ho). by exists t. }
  assert (∀ t, is_slot t → slot D' w t = slot D w t) as Hs.
  { intros t Ht. unfold slot, blk. destruct (decide (t = -1)); [reflexivity|]. destruct (bool_decide (t < NDIRECT)); [reflexivity|].
    destruct (decide (ind w = 0)) as [H0|H0]; [by rewrite !bool_decide_eq_true_2|]. rewrite !bool_decide_eq_false_2 by exact H0.
    destruct (Hk (-1) is_slot_ind H0) as [K1 _]. change (slot D w (-1)) with (ind w) in K1. by rewrite K1. }
  split; [exact Hs|]. split; [|split].
  - split; [intros t Ht; rewrite Hs by exact Ht; intros H0; by apply Hk|]. intros t t' Ht Ht'. rewrite !Hs by assumption. by apply W2.
  - intros a Hv (t & Ht & E). rewrite Hs in E by exact Ht. destruct (decide (slot D w t = 0)) as [H0|H0]; [congruence|].
    destruct (Hk t Ht H0) as (_ & _ & K3). rewrite E in K3. done.
  - intros i Hi H0. destruct (byte_block i Hi) as [Hb _]. assert (is_slot (i / BSIZE)) as Ht by (unfold is_slot; lia).
    unfold file_byte. rewrite <- !slot_blk in * by lia. rewrite Hs by exact Ht. destruct (Hk _ Ht H0) as [K1 _]. by rewrite K1.
Qed.

(** The bytes of an inode on the disk determine it. *)
Lemma get_dinode_ext off d d' w : (∀ j, 0 <= j < 64 → get8 d (off + j) = get8 d' (off + j)) → get_dinode off d w = get_dinode off d' w.
Proof.
  intros H. assert (∀ j, 0 <= j < 63 → get16 d (off + j) = get16 d' (off + j)) as H2.
  { intros j Hj. apply get16_ext; [apply H; lia|]. replace (off + j + 1) with (off + (j + 1)) by lia. apply H. lia. }
  assert (∀ j, 0 <= j < 61 → get32 d (off + j) = get32 d' (off + j)) as H4.
  { intros j Hj. apply get32_ext. intros x Hx. replace x with (off + (x - off)) by lia. apply H. lia. }
  unfold get_dinode. rewrite <- (Z.add_0_r off) at 1 9. rewrite !H2, H4 by lia. rewrite Z.add_0_r. f_equal.
  unfold get_addrs. f_equal. apply list_fmap_ext. intros x i Hi. apply list_elem_of_lookup_2, elem_of_seqZ in Hi. unfold NDIRECT in Hi.
  f_equal. replace (off + 12 + 4 * i) with (off + (12 + 4 * i)) by lia. apply H4. lia.
Qed.

Lemma node_other D j v j' : length (D (IBLOCK j)) = 512%nat → 0 <= j → 0 <= j' → j' ≠ j →
  node (dput (IBLOCK j) (put_dinode (dinode_off j) v (D (IBLOCK j))) D) j' = node D j'.
Proof.
  intros Hl Hj Hj' Hne. unfold node. destruct (decide (IBLOCK j' = IBLOCK j)) as [E|E]; [|by rewrite dput_ne].
  rewrite E, dput_eq. apply get_dinode_ext. intros x Hx. apply put_dinode_other; [exact Hl| |exact Hx].
  unfold IBLOCK, IPB in *. Z.div_mod_to_equations. lia.
Qed.

Section Cong.
Context (D D' : Z → list Z).
Hypothesis same : ∀ x, D' x = D x.

Lemma cong_slot v t : slot D' v t = slot D v t.
Proof. unfold slot, blk. by rewrite same. Qed.

Lemma cong_node j : node D' j = node D j.
Proof. unfold node. by rewrite same. Qed.

Lemma cong_wf v : file_wf mk_log D v → file_wf mk_log D' v.
Proof.
  assert (bmap_sector D' = bmap_sector D) as B by (unfold bmap_sector; by rewrite same).
  intros [W1 W2]. split; [|intros s s'; rewrite !cong_slot; apply W2]. intros t Ht. rewrite cong_slot. unfold in_use. rewrite B, same. by apply W1.
Qed.

Lemma cong_file j ty data : has_file D j ty data → has_file D' j ty data.
Proof.
  intros [H1 H2 Hn H3 H4 H5 H6 H7]. assert (∀ v bn, blk D' v bn = blk D v bn) as Hb by (intros; unfold blk; by rewrite same).
  assert (∀ v i, file_byte D' v i = file_byte D v i) as Hy by (intros; unfold file_byte; by rewrite Hb, same).
  split; rewrite ?cong_node; [by apply cong_wf|done|done|done|done|..]; intros i Hi; rewrite ?cong_node, ?Hy, ?Hb; [by apply H5|by apply H6|by apply H7].
Qed.

Lemma cong_apart v w : apart D v w → apart D' v w.
Proof. intros H a (t & Ht & E) (t' & Ht' & E'). rewrite cong_slot in E, E'. apply H; [by exists t|by exists t']. Qed.
End Cong.

Lemma iblock_meta j : 1 <= j < ninodes → 1 < IBLOCK j < 28.
Proof. intros Hj. unfold ninodes, IBLOCK, IPB in *. Z.div_mod_to_equations. lia. Qed.

(** Storing an inode into its block. *)
Section Store.
Context (D : Z → list Z) (j : Z) (w : inode).
Hypothesis ok : disk_ok mk_log D.
Hypothesis bmap28 : bmap_sector D = 28.
Hypothesis num : 1 <= j < ninodes.
Hypothesis sized : length (D (IBLOCK j)) = 512%nat.
Notation D2 := (dput (IBLOCK j) (put_dinode (dinode_off j) w (D (IBLOCK j))) D).

Lemma store_meta u : file_wf mk_log D u → file_wf mk_log D2 u ∧ (∀ t, is_slot t → slot D2 u t = slot D u t) ∧
  (∀ bn, 0 <= bn < MAXFILE → blk D2 u bn = blk D u bn) ∧
  ∀ i, 0 <= i < MAXFILE * BSIZE → blk D u (i / BSIZE) ≠ 0 → file_byte D2 u i = file_byte D u i.
Proof.
  intros Hu. pose proof (iblock_meta j num). destruct (meta_put mk_log D u (IBLOCK j) (put_dinode (dinode_off j) w (D (IBLOCK j))) ok Hu) as (_ & M2 & _ & M4 & M6 & _ & M5);
    [rewrite bmap28; lia|]. by split_and!.
Qed.

Lemma store_other j' ty data : 0 <= j' → j' ≠ j → has_file D j' ty data → has_file D2 j' ty data.
Proof.
  intros Hj Hne [H1 H2 Hn H3 H4 H5 H6 H7]. destruct (store_meta _ H1) as (M1 & M2 & M3 & M4).
  rewrite <- (node_other D j w j' sized) in * by lia. split; try assumption.
  - intros i Hi. rewrite M3 by (apply byte_block; lia). by apply H5.
  - intros i Hi. rewrite M4 by (first [by apply H5 | lia]). by apply H6.
  - intros i Hi. rewrite M3 by (apply byte_block; lia). intros H0. rewrite M4 by (first [exact H0 | lia]). by apply H7.
Qed.

Lemma store_this ty data : file_wf mk_log D w → inode_fits w → i_type w = ty → i_nlink w = 1 → i_size w = Z.of_nat (length data) →
  Z.of_nat (length data) <= MAXFILE * BSIZE →
  (∀ i, 0 <= i < Z.of_nat (length data) → blk D w (i / BSIZE) ≠ 0 ∧ file_byte D w i = data !!! Z.to_nat i) →
  (∀ i, Z.of_nat (length data) <= i < MAXFILE * BSIZE → blk D w (i / BSIZE) ≠ 0 → file_byte D w i = 0) →
  has_file D2 j ty data ∧ (∀ t, is_slot t → slot D2 (node D2 j) t = slot D w t).
Proof.
  intros Hw Hfit Ht Hnl Hs Hmax Hd Htail. destruct (store_meta w Hw) as (M1 & M2 & M3 & M4).
  assert (same_dinode w (node D2 j)) as Hsame by (unfold node; rewrite dput_eq; by apply get_put_dinode).
  assert (∀ t, is_slot t → slot D2 (node D2 j) t = slot D2 w t) as Hsl by (intros t; by apply same_dinode_slot).
  split; [|intros t Htt; rewrite Hsl by exact Htt; by apply M2]. pose proof Hsame as (E1 & _ & _ & E4 & E5 & _). split; [|congruence|congruence|congruence|exact Hmax|..].
  - destruct M1 as [W1 W2]. split; [intros t Htt; rewrite Hsl by exact Htt; by apply W1|]. intros t t' Htt Htt'. rewrite !Hsl by assumption. by apply W2.
  - intros i Hi. destruct (byte_block i ltac:(lia)) as [Hb _]. rewrite (same_dinode_blk D2 w) by first [exact Hsame | lia]. rewrite M3 by exact Hb. by apply Hd.
  - intros i Hi. rewrite (same_dinode_byte D2 w) by first [exact Hsame | lia]. rewrite M4; [by apply Hd|lia|by apply Hd].
  - intros i Hi. destruct (byte_block i ltac:(lia)) as [Hb _]. rewrite (same_dinode_blk D2 w) by first [exact Hsame | lia]. rewrite M3 by exact Hb. intros H0.
    rewrite (same_dinode_byte D2 w) by first [exact Hsame | lia]. rewrite M4; [by apply Htail|lia|exact H0].
Qed.
End Store.

(** The image holds the files [fs], by number. *)
Record mk_fs (s : mk_state) (fs : gmap Z (Z * list Z)) : Prop := {
  mf_ok : mk_ok s;
  mf_next : 1 <= freeinode s <= ninodes;
  mf_num j p : fs !! j = Some p → 1 <= j < freeinode s;
  mf_file j ty data : fs !! j = Some (ty, data) → has_file (vimg s) j ty data;
  mf_apart j j' p p' : fs !! j = Some p → fs !! j' = Some p' → j ≠ j' → apart (vimg s) (node (vimg s) j) (node (vimg s) j')
}.

(** The steps of [winode] and [rinode]. *)
Lemma winode_run s j v : mk_ok s → 1 <= j < ninodes → let s' := upd_img <[IBLOCK j := put_dinode (dinode_off j) v (vimg s (IBLOCK j))]> s in
  winode j v s = Ok () s' ∧ mk_ok s' ∧ ∀ x, vimg s' x = dput (IBLOCK j) (put_dinode (dinode_off j) v (vimg s (IBLOCK j))) (vimg s) x.
Proof.
  intros H Hj s'. pose proof (iblock_meta j Hj) as Hb. pose proof (mo_free s H) as Hf. split; [|split].
  - unfold winode. change (i2b j) with (IBLOCK j). by rewrite (bind_Ok _ _ _ _ _ (rsect_run s (IBLOCK j) H ltac:(unfold fs_size; lia) ltac:(lia))).
  - apply upd_ok; [exact H| |lia|lia]. rewrite length_put_dinode. apply vimg_length; [exact H|unfold fs_size; lia].
  - intros x. apply vimg_upd. lia.
Qed.

Definition raw_node (D : Z → list Z) (j : Z) : inode := get_dinode (dinode_off j) (D (IBLOCK j)) inode_zero.

Lemma rinode_run s j : mk_ok s → 1 <= j < ninodes → rinode j s = Ok (raw_node (vimg s) j) s.
Proof.
  intros H Hj. pose proof (iblock_meta j Hj) as Hb. unfold rinode. change (i2b j) with (IBLOCK j).
  by rewrite (bind_Ok _ _ _ _ _ (rsect_run s (IBLOCK j) H ltac:(unfold fs_size; lia) ltac:(lia))).
Qed.

Lemma is_s16_s16 x : is_s16 (s16 x).
Proof. unfold is_s16, s16. pose proof (Z.mod_pos_bound (x + 32768) 65536 ltac:(lia)). lia. Qed.

Lemma raw_fits D j ty data : disk_ok mk_log D → has_file D j ty data → inode_fits (raw_node D j).
Proof.
  intros Hd [H1 _ _ H3 H4 _ _ _]. split; try apply is_s16_s16.
  - change (i_size (raw_node D j)) with (i_size (node D j)). rewrite H3. apply is_u32_size. lia.
  - intros i Hi. exact (wf_addr_u32 mk_log D (node D j) i Hd H1 Hi).
Qed.

(** The other files after one of them grew. *)
Lemma others_grow s fs j p0 s1 v1 lo hi q ty data : mk_fs s fs → fs !! j = Some p0 → mk_ok s1 →
  grows mk_log lo hi (vimg s) (raw_node (vimg s) j) (vimg s1) v1 → fs !! q = Some (ty, data) → q ≠ j →
  node (vimg s1) q = node (vimg s) q ∧ (∀ t, is_slot t → slot (vimg s1) (node (vimg s) q) t = slot (vimg s) (node (vimg s) q) t) ∧
  has_file (vimg s1) q ty data ∧ apart (vimg s1) v1 (node (vimg s) q).
Proof.
  intros [F1 F2 F3 F4 F5] Hj H1 Hg Hq Hne. pose proof (F3 _ _ Hq) as Hqn. assert (1 <= q < ninodes) as Hq1 by lia. pose proof (F4 _ _ _ Hq) as [Q1 Q2 Qn Q3 Q4 Q5 Q6 Q7].
  assert (node (vimg s1) q = node (vimg s) q) as Hn.
  { pose proof (iblock_meta q Hq1). destruct (vimg_sb s F1) as [_ B]. unfold node. rewrite (gr_meta _ _ _ _ _ _ _ Hg); [reflexivity|]. rewrite B. lia. }
  destruct (other_file mk_log lo hi _ _ _ _ (node (vimg s) q) Hg Q1) as (O1 & O2 & O3 & O4); [exact (F5 j q _ _ Hj Hq ltac:(congruence))|].
  split; [exact Hn|]. split; [exact O1|]. split; [|exact O3]. split; rewrite ?Hn; try assumption.
  - intros i Hi. destruct (byte_block i ltac:(lia)) as [Hbb _]. rewrite <- slot_blk, O1, slot_blk by first [lia | unfold is_slot; lia]. by apply Q5.
  - intros i Hi. rewrite O4; [by apply Q6|lia|by apply Q5].
  - intros i Hi. destruct (byte_block i ltac:(lia)) as [Hbb _]. rewrite <- slot_blk, O1, slot_blk by first [lia | unfold is_slot; lia]. intros H0.
    rewrite O4; [by apply Q7|lia|exact H0].
Qed.

Lemma apart_slots D v w D' v' w' : (∀ t, is_slot t → slot D' v' t = slot D v t) → (∀ t, is_slot t → slot D' w' t = slot D w t) →
  apart D v w → apart D' v' w'.
Proof.
  intros Hv Hw H a (t & Ht & E) (t' & Ht' & E'). rewrite Hv in E by exact Ht. rewrite Hw in E' by exact Ht'. apply H; [by exists t|by exists t'].
Qed.

Lemma apart_sym D v w : apart D v w → apart D w v.
Proof. intros H a Ha Hb. by apply H. Qed.

(** The files after one of them grew and its inode was stored. *)
Lemma settle s fs j ty data s1 v1 lo hi sz data' : mk_fs s fs → fs !! j = Some (ty, data) → mk_ok s1 → freeinode s1 = freeinode s →
  grows mk_log lo hi (vimg s) (raw_node (vimg s) j) (vimg s1) v1 → sz = Z.of_nat (length data') → sz <= MAXFILE * BSIZE →
  (∀ i, 0 <= i < sz → blk (vimg s1) v1 (i / BSIZE) ≠ 0 ∧ file_byte (vimg s1) v1 i = data' !!! Z.to_nat i) →
  (∀ i, sz <= i < MAXFILE * BSIZE → blk (vimg s1) v1 (i / BSIZE) ≠ 0 → file_byte (vimg s1) v1 i = 0) →
  ∃ s2, winode j (with_size sz v1) s1 = Ok () s2 ∧ mk_fs s2 (<[j := (ty, data')]> fs) ∧ freeblock s2 = freeblock s1 ∧
    zneed (node (vimg s2) j) = zneed v1 ∧ (∀ q p, fs !! q = Some p → q ≠ j → node (vimg s2) q = node (vimg s) q) ∧ freeinode s2 = freeinode s.
Proof.
  intros Hfs Hj H1 Hi1 Hg Hsz Hmax Hd Htail. pose proof Hfs as [F1 F2 F3 F4 F5]. pose proof (F3 _ _ Hj) as Hnum. assert (1 <= j < ninodes) as Hj1 by lia.
  destruct (winode_run s1 j (with_size sz v1) H1 Hj1) as (R & H2 & HE). set (s2 := upd_img _ s1) in *. set (D2 := dput _ _ _) in HE.
  pose proof Hg as [G1 G2 _ _ _ _ _ _ _ (_ & _ & _ & _ & _ & N3 & _ & _ & N6 & _)]. destruct (vimg_sb s1 H1) as [_ B1]. pose proof (iblock_meta j Hj1) as Hb.
  assert (length (vimg s1 (IBLOCK j)) = 512%nat) as Hl by (apply vimg_length; [exact H1|unfold fs_size; lia]).
  assert (inode_fits (with_size sz v1)) as Hfit. { eapply grows_fits; [exact Hg| |apply is_u32_size; lia]. eapply raw_fits; [by apply vimg_disk|by apply F4]. }
  destruct (store_this (vimg s1) j (with_size sz v1) G1 B1 Hj1 Hl ty data') as [T1 T2]; [exact G2|exact Hfit| | |exact Hsz|lia|rewrite <- Hsz; exact Hd|rewrite <- Hsz; exact Htail|].
  { change (i_type (with_size sz v1)) with (i_type v1). rewrite N3. exact (hf_type _ _ _ _ (F4 _ _ _ Hj)). }
  { change (i_nlink (with_size sz v1)) with (i_nlink v1). rewrite N6. exact (hf_nlink _ _ _ _ (F4 _ _ _ Hj)). }
  assert (∀ t, is_slot t → slot (vimg s2) (node (vimg s2) j) t = slot (vimg s1) v1 t) as Hjs.
  { intros t Ht. rewrite (cong_slot D2), (cong_node D2) by exact HE. apply T2, Ht. }
  assert (∀ q p, fs !! q = Some p → q ≠ j → node (vimg s2) q = node (vimg s) q ∧ has_file (vimg s2) q p.1 p.2 ∧
    (∀ t, is_slot t → slot (vimg s2) (node (vimg s) q) t = slot (vimg s) (node (vimg s) q) t) ∧
    apart (vimg s2) (node (vimg s2) j) (node (vimg s2) q)) as Ho.
  { intros q [ty' dt] Hq Hne. pose proof (F3 _ _ Hq). destruct (others_grow s fs j _ s1 v1 lo hi q ty' dt Hfs Hj H1 Hg Hq Hne) as (O1 & O2 & O3 & O4).
    assert (node (vimg s2) q = node (vimg s) q) as E1.
    { rewrite (cong_node D2) by exact HE. unfold D2. rewrite node_other by first [exact Hl | lia]. exact O1. }
    assert (∀ t, is_slot t → slot (vimg s2) (node (vimg s) q) t = slot (vimg s1) (node (vimg s) q) t) as E2.
    { intros t Ht. rewrite (cong_slot D2) by exact HE. rewrite <- O1. apply store_meta; try assumption. exact (hf_wf _ _ _ _ O3). }
    split; [exact E1|]. split; [|split].
    - apply (cong_file D2); [exact HE|]. apply store_other; try assumption. lia.
    - intros t Ht. rewrite E2 by exact Ht. by apply O2.
    - rewrite E1. exact (apart_slots _ _ _ _ _ _ Hjs E2 O4). }
  exists s2. split; [exact R|]. split; [|split; [reflexivity|split; [|split; [intros q p Hq Hne; by apply (Ho q p)|exact Hi1]]]].
  - split; [exact H2|rewrite <- Hi1 in F2; exact F2|intros q p|intros q ty' dt|intros q q' p p'].
    + change (freeinode s2) with (freeinode s1). rewrite Hi1, lookup_insert_Some. intros [[<- _]|[_ Hq]]; [exact Hnum|exact (F3 _ _ Hq)].
    + rewrite lookup_insert_Some. intros [[<- [= <- <-]]|[Hne Hq]]; [apply (cong_file D2); [exact HE|exact T1]|].
      destruct (Ho q _ Hq ltac:(congruence)) as (_ & O & _). exact O.
    + rewrite !lookup_insert_Some. intros [[<- _]|[Hne Hq]] [[<- _]|[Hne' Hq']] Hqq; [done| | |].
      * apply (Ho q' p' Hq'). congruence.
      * apply apart_sym, (Ho q p Hq). congruence.
      * destruct (Ho q p Hq ltac:(congruence)) as (-> & _ & O1 & _). destruct (Ho q' p' Hq' ltac:(congruence)) as (-> & _ & O2 & _).
        exact (apart_slots _ _ _ _ _ _ O1 O2 (F5 _ _ _ _ Hq Hq' Hqq)).
  - specialize (Hjs (-1) is_slot_ind). change (ind (node (vimg s2) j) = ind v1) in Hjs. unfold zneed, need. by rewrite Hjs.
Qed.

(** ** The operations on files *)

Lemma overlay_end f data xp i : 0 <= i < Z.of_nat (length data + length xp) → (0 <= i < Z.of_nat (length data) → f i = data !!! Z.to_nat i) →
  overlay f (Z.of_nat (length data)) xp i = (data ++ xp) !!! Z.to_nat i.
Proof.
  intros Hi Hf. unfold overlay. case_decide as Hd.
  - rewrite !list_lookup_total_alt, lookup_app_r by lia. do 2 f_equal. lia.
  - rewrite Hf by lia. rewrite !list_lookup_total_alt, lookup_app_l by lia. reflexivity.
Qed.

Lemma iappend_run s fs j ty data xp k : let n := Z.of_nat (length xp) in let len := Z.of_nat (length data) in
  mk_fs s fs → fs !! j = Some (ty, data) → len + n <= MAXFILE * BSIZE →
  freeblock s + Z.of_nat k + zneed (node (vimg s) j) <= mk_log → len mod BSIZE + n <= Z.of_nat k * BSIZE →
  ∃ s', iappend j xp n s = Ok () s' ∧ mk_fs s' (<[j := (ty, data ++ xp)]> fs) ∧
    freeblock s' + zneed (node (vimg s') j) <= freeblock s + Z.of_nat k + zneed (node (vimg s) j) ∧
    (∀ q p, fs !! q = Some p → q ≠ j → node (vimg s') q = node (vimg s) q) ∧ freeblock s <= freeblock s' ∧ freeinode s' = freeinode s.
Proof.
  intros n len Hfs Hj Hmax Hroom Hk. pose proof Hfs as [F1 F2 F3 F4 F5]. pose proof (F3 _ _ Hj) as Hnum. pose proof (F4 _ _ _ Hj) as [Q1 Q2 Qn Q3 Q4 Q5 Q6 Q7].
  assert (MAXFILE * BSIZE = 71680) as HM by reflexivity. assert (1 <= j < ninodes) as Hj1 by lia. set (v := raw_node (vimg s) j).
  assert (i_size v = len) as Hsz by exact Q3. assert (file_wf mk_log (vimg s) v) as Hwf by exact Q1.
  unfold iappend. rewrite (bind_Ok _ _ _ _ _ (rinode_run s j F1 Hj1)). fold v. rewrite Hsz, xint_u32, u32_small by (unfold is_u32, W32; lia).
  destruct (iappend_loop_run k (Z.to_nat (n + 1)) s v len xp n F1 Hwf) as (s1 & v1 & R1 & H1 & Hg & Hst & Hf1 & Hf1' & Hi1);
    [lia|lia|exact Hmax|lia|exact Hroom|right; exact Hk|].
  rewrite (bind_Ok _ _ _ _ _ R1). clear R1. rewrite xint_u32, u32_small by (unfold is_u32, W32; lia).
  assert (backed (vimg s) v) as Hbk. { apply backed_bytes. rewrite Hsz. exact Q5. }
  pose proof (grown_bytes mk_log (vimg s) v (vimg s1) v1 len xp Hg Hst Hbk ltac:(rewrite Hsz; lia) ltac:(rewrite Hsz; lia) Hmax) as Hby.
  destruct (settle s fs j ty data s1 v1 len (len + n) (len + n) (data ++ xp) Hfs Hj H1 Hi1 Hg) as (s2 & R2 & Hfs2 & Hf2 & Hz2 & Ho2 & Hi2);
    [rewrite length_app; lia|exact Hmax| | |].
  2:{ intros i Hi H0. destruct (decide (blk (vimg s) v (i / BSIZE) = 0)) as [Hz|Hz].
      - apply (gr_new _ _ _ _ _ _ _ Hg); [lia|exact Hz|exact H0|lia].
      - rewrite (gr_byte _ _ _ _ _ _ _ Hg); [apply Q7; [lia|exact Hz]|lia|exact Hz|lia]. }
  { intros i Hi. rewrite Hsz in Hby. destruct (Hby i ltac:(lia)) as [B1 B2]. split; [exact B1|]. rewrite B2.
    apply overlay_end; [lia|exact (Q6 i)]. }
  exists s2. split; [exact R2|]. split; [exact Hfs2|]. split; [|split; [exact Ho2|split; [lia|exact Hi2]]]. rewrite Hf2, Hz2. exact Hf1.
Qed.

Definition new_inode (type : Z) : inode := with_size (xint 0) (with_node 0 0 (s16 (xshort 1)) (with_type (s16 (xshort type)) inode_zero)).

Lemma new_slot D type t : slot D (new_inode type) t = 0.
Proof. unfold slot, blk. change (ind (new_inode type)) with 0. by repeat case_match. Qed.

Lemma ialloc_run s fs type : mk_fs s fs → freeinode s < ninodes → is_s16 type → let j := freeinode s in
  ∃ s', ialloc type s = Ok j s' ∧ mk_fs s' (<[j := (type, [])]> fs) ∧ freeblock s' = freeblock s ∧ zneed (node (vimg s') j) = 1 ∧
    (∀ q p, fs !! q = Some p → node (vimg s') q = node (vimg s) q) ∧ freeinode s' = j + 1.
Proof.
  intros Hfs Hlt Hty j. pose proof Hfs as [F1 F2 F3 F4 F5]. assert (1 <= j < ninodes) as Hj by (unfold j; lia). unfold ialloc. fold (new_inode type).
  rewrite (bind_Ok _ _ _ _ _ (gets_Ok _ _)), (bind_Ok _ _ _ _ _ (modify_Ok _ _)). fold j. rewrite u32_small by (unfold is_u32, W32, ninodes in *; lia).
  set (s0 := {| img := img s; freeblock := freeblock s; usedblocks := usedblocks s; freeinode := j + 1 |}).
  assert (mk_ok s0) as H0 by (destruct F1; split; assumption). assert (vimg s0 = vimg s) as E0 by reflexivity.
  destruct (winode_run s0 j (new_inode type) H0 Hj) as (R & H2 & HE). rewrite E0 in HE. rewrite (bind_Ok _ _ _ _ _ R). set (s2 := upd_img _ s0) in *. set (D2 := dput _ _ _) in HE.
  pose proof (vimg_disk s F1) as Hd. destruct (vimg_sb s F1) as [_ B]. pose proof (iblock_meta j Hj) as Hb.
  assert (length (vimg s (IBLOCK j)) = 512%nat) as Hl by (apply vimg_length; [exact F1|unfold fs_size; lia]).
  assert (∀ q p, fs !! q = Some p → q ≠ j ∧ 0 <= q ∧ node (vimg s2) q = node (vimg s) q ∧
    ∀ t, is_slot t → slot (vimg s2) (node (vimg s) q) t = slot (vimg s) (node (vimg s) q) t) as Ho.
  { intros q [ty dt] Hq. pose proof (F3 _ _ Hq) as Hqn. split; [unfold j; lia|]. split; [lia|]. split.
    - rewrite (cong_node D2) by exact HE. apply node_other; first [exact Hl | unfold j; lia].
    - intros t Ht. rewrite (cong_slot D2) by exact HE. apply store_meta; try assumption. exact (hf_wf _ _ _ _ (F4 _ _ _ Hq)). }
  destruct (store_this (vimg s) j (new_inode type) Hd B Hj Hl type []) as [T1 T2].
  { split; intros t; rewrite new_slot; intros; done. }
  { split; try apply is_s16_s16; try done. }
  { change (s16 (xshort type) = type). rewrite xshort_mod. by apply s16_mod. }
  { reflexivity. } { reflexivity. } { done. } { simpl. intros i Hi. lia. }
  { intros i Hi. destruct (byte_block i ltac:(simpl in Hi; lia)). rewrite <- slot_blk, new_slot by lia. done. }
  assert (∀ t, is_slot t → slot (vimg s2) (node (vimg s2) j) t = 0) as Hjs.
  { intros t Ht. rewrite (cong_slot D2), (cong_node D2) by exact HE. rewrite T2 by exact Ht. apply new_slot. }
  exists s2. split; [reflexivity|]. split; [|split; [reflexivity|split; [|split; [intros q p Hq; by apply (Ho q p)|reflexivity]]]].
  - assert (∀ w, apart (vimg s2) (node (vimg s2) j) w) as Hap by (intros w a (t & Ht & E) _; by rewrite Hjs in E).
    split; [exact H2|change (freeinode s2) with (j + 1); lia|intros q p|intros q ty' dt|intros q q' p p'].
    + change (freeinode s2) with (j + 1). rewrite lookup_insert_Some. intros [[<- _]|[_ Hq]]; [lia|]. pose proof (F3 _ _ Hq). unfold j. lia.
    + rewrite lookup_insert_Some. intros [[<- [= <- <-]]|[Hne Hq]]; [apply (cong_file D2); [exact HE|exact T1]|].
      apply (cong_file D2); [exact HE|]. apply store_other; try assumption; [by apply (Ho q _ Hq)|congruence|by apply F4].
    + rewrite !lookup_insert_Some. intros [[<- _]|[Hne Hq]] [[<- _]|[Hne' Hq']] Hqq; [done|apply Hap|apply apart_sym, Hap|].
      destruct (Ho q p Hq) as (_ & _ & -> & O1). destruct (Ho q' p' Hq') as (_ & _ & -> & O2).
      exact (apart_slots _ _ _ _ _ _ O1 O2 (F5 _ _ _ _ Hq Hq' Hqq)).
  - specialize (Hjs (-1) is_slot_ind). change (ind (node (vimg s2) j) = 0) in Hjs. unfold zneed, need. by rewrite Hjs.
Qed.

(** The number of blocks of a file. *)
Definition chunks (data : list Z) : Z := (Z.of_nat (length data) + 511) / 512.

Lemma copy_file_run fuel s fs j ty pre data : (length data < fuel)%nat → mk_fs s fs → fs !! j = Some (ty, pre) → Z.of_nat (length pre) mod 512 = 0 →
  Z.of_nat (length pre + length data) <= MAXFILE * BSIZE → freeblock s + chunks data + zneed (node (vimg s) j) <= mk_log →
  ∃ s', copy_file fuel j data s = Ok () s' ∧ mk_fs s' (<[j := (ty, pre ++ data)]> fs) ∧
    freeblock s' <= freeblock s + chunks data + zneed (node (vimg s) j) ∧
    (∀ q p, fs !! q = Some p → q ≠ j → node (vimg s') q = node (vimg s) q) ∧ freeinode s' = freeinode s.
Proof.
  revert s fs pre data. induction fuel as [|fuel IH]; intros s fs pre data Hfuel Hfs Hj Hpre Hmax Hroom; [lia|]. cbn [copy_file]. cbv zeta.
  assert (0 <= zneed (node (vimg s) j)) as Hz by (unfold zneed; lia).
  assert (0 <= chunks data) as Hc0 by (unfold chunks; apply Z.div_pos; lia). rewrite length_take. destruct (decide (data = [])) as [->|Hne].
  { rewrite bool_decide_eq_false_2 by (simpl; lia). exists s. rewrite app_nil_r, insert_id by exact Hj.
    split; [reflexivity|]. split; [exact Hfs|]. split; [lia|]. split; [intros; reflexivity|reflexivity]. }
  assert (0 < length data)%nat as Hpos by (destruct data; [done|simpl; lia]). rewrite bool_decide_eq_true_2 by lia.
  set (a := take 512 data). set (b := drop 512 data). assert (length a = (512 `min` length data)%nat) as Ha by apply length_take.
  assert (length b = (length data - 512)%nat) as Hb by apply length_drop. assert (data = a ++ b) as Hab by (symmetry; apply take_drop).
  assert (chunks data = 1 + chunks b) as Hch by (unfold chunks; rewrite Hb; Z.div_mod_to_equations; lia).
  assert (0 <= chunks b) as Hcb by (unfold chunks; apply Z.div_pos; lia).
  destruct (iappend_run s fs j ty pre a 1 Hfs Hj) as (s1 & R1 & Hfs1 & Hf1 & Ho1 & Hf1' & Hi1);
    [lia|lia|change BSIZE with 512; rewrite Hpre, Ha; lia|].
  rewrite <- Ha, (bind_Ok _ _ _ _ _ R1). destruct (decide (b = [])) as [Eb|Eb].
  - exists s1. rewrite Eb. destruct fuel as [|fuel]; [lia|]. split; [reflexivity|]. rewrite Hab, Eb, app_nil_r in *. split; [exact Hfs1|].
    assert (0 <= zneed (node (vimg s1) j)) by (unfold zneed; lia). split; [lia|]. split; [exact Ho1|exact Hi1].
  - assert (512 < length data)%nat as Hlong by (destruct (decide (length b = 0%nat)) as [E|E]; [by apply nil_length_inv in E|lia]).
    destruct (IH s1 (<[j := (ty, pre ++ a)]> fs) (pre ++ a) b) as (s2 & R2 & Hfs2 & Hf2 & Ho2 & Hi2);
      [lia|exact Hfs1|apply lookup_insert_eq|rewrite length_app; Z.div_mod_to_equations; lia|rewrite length_app; lia|lia|].
    exists s2. split; [exact R2|]. rewrite insert_insert_eq, <- app_assoc, <- Hab in Hfs2. split; [exact Hfs2|]. split; [lia|]. split; [|congruence].
    intros q p Hq Hne'. rewrite (Ho2 q p) by (rewrite ?lookup_insert_ne by congruence; done). by apply (Ho1 q p).
Qed.

(** The name in the directory. *)
Definition short_name (name : list Z) : list Z :=
  match name with c :: rest => if bool_decide (c = 95) then rest else name | [] => [] end.

Lemma length_de_bytes j name : length (de_bytes j name) = 16%nat.
Proof. unfold de_bytes, put_dirent. rewrite length_app. cbn [length de_name]. rewrite length_take, length_app, length_replicate. unfold DIRSIZ. lia. Qed.

Lemma add_file_run s fs rt name data : let j := freeinode s in
  mk_fs s fs → fs !! ROOTINO = Some (T_DIR, rt) → 1 < j < ninodes → SLASH ∉ name → Z.of_nat (length data) <= MAXFILE * BSIZE →
  Z.of_nat (length rt) mod 16 = 0 → Z.of_nat (length rt) + 16 <= MAXFILE * BSIZE →
  freeblock s + zneed (node (vimg s) ROOTINO) + 2 + chunks data <= mk_log →
  ∃ s' fs', add_file (name, Some data) s = Ok () s' ∧ mk_fs s' fs' ∧ freeinode s' = j + 1 ∧
    freeblock s' + zneed (node (vimg s') ROOTINO) <= freeblock s + zneed (node (vimg s) ROOTINO) + 2 + chunks data ∧
    fs' !! ROOTINO = Some (T_DIR, rt ++ de_bytes j (short_name name)) ∧ fs' !! j = Some (T_FILE, data) ∧
    ∀ q, q ≠ ROOTINO → q ≠ j → fs' !! q = fs !! q.
Proof.
  intros j Hfs Hrt Hj Hsl Hlen Hal Hmax Hroom. unfold add_file. rewrite bool_decide_eq_false_2 by exact Hsl. fold (short_name name).
  assert (0 <= chunks data) as Hc0 by (unfold chunks; apply Z.div_pos; lia).
  destruct (ialloc_run s fs T_FILE Hfs) as (s1 & R1 & Hfs1 & Hf1 & Hz1 & Ho1 & Hi1); [lia|done|]. fold j in R1, Hfs1, Hz1, Hi1.
  rewrite (bind_Ok _ _ _ _ _ R1). assert (ROOTINO ≠ j) as Hrj by (unfold ROOTINO; lia).
  set (de := de_bytes j (short_name name)). assert (Z.of_nat (length de) = 16) as Hde by (unfold de; by rewrite length_de_bytes).
  rewrite <- (Ho1 _ _ Hrt) in Hroom |- *.
  destruct (iappend_run s1 (<[j := (T_FILE, [])]> fs) ROOTINO T_DIR rt de 1 Hfs1) as (s2 & R2 & Hfs2 & Hf2 & Ho2 & Hf2' & Hi2);
    [by rewrite lookup_insert_ne|lia|lia|rewrite Hde; unfold BSIZE; Z.div_mod_to_equations; lia|].
  rewrite Hde in R2. change dirent_size with 16. rewrite (bind_Ok _ _ _ _ _ R2).
  assert (node (vimg s2) j = node (vimg s1) j) as En by (apply (Ho2 j (T_FILE, [])); [apply lookup_insert_eq|congruence]).
  destruct (copy_file_run (length data + 1) s2 _ j T_FILE [] data ltac:(lia) Hfs2) as (s3 & R3 & Hfs3 & Hf3 & Ho3 & Hi3).
  { rewrite lookup_insert_ne by congruence. apply lookup_insert_eq. }
  { reflexivity. } { exact Hlen. } { assert (0 <= zneed (node (vimg s2) ROOTINO)) by (unfold zneed; lia). rewrite En, Hz1. lia. }
  exists s3. eexists. split; [exact R3|]. split; [exact Hfs3|]. split; [congruence|].
  rewrite (Ho3 ROOTINO (T_DIR, rt ++ de)) by first [apply lookup_insert_eq | exact Hrj]. rewrite En, Hz1 in Hf3.
  split; [lia|]. split; [rewrite lookup_insert_ne by congruence; apply lookup_insert_eq|]. split; [apply lookup_insert_eq|].
  intros q Hq1 Hq2. by rewrite !lookup_insert_ne by congruence.
Qed.

(** The directory entries of files numbered from [j] on, and the blocks the files may take. *)
Fixpoint dir_bytes (j : Z) (files : list (list Z * list Z)) : list Z :=
  match files with
  | [] => []
  | (name, _) :: files => de_bytes j (short_name name) ++ dir_bytes (j + 1) files
  end.

Definition demand (files : list (list Z * list Z)) : Z := foldr (λ f n, 2 + chunks f.2 + n) 0 files.

Lemma length_dir_bytes j files : Z.of_nat (length (dir_bytes j files)) = 16 * Z.of_nat (length files).
Proof. revert j. induction files as [|[n d] files IH]; intros j; [done|]. cbn [dir_bytes length]. rewrite length_app, length_de_bytes. specialize (IH (j + 1)). lia. Qed.

Lemma demand_pos files : 0 <= demand files.
Proof. induction files as [|[n d] files IH]; simpl; [done|]. unfold chunks. pose proof (Z.div_pos (Z.of_nat (length d) + 511) 512). lia. Qed.

Definition file_fits (f : list Z * list Z) : Prop := SLASH ∉ f.1 ∧ Z.of_nat (length f.2) <= MAXFILE * BSIZE.

Lemma add_files_run files s fs rt : mk_fs s fs → fs !! ROOTINO = Some (T_DIR, rt) → 1 < freeinode s →
  freeinode s + Z.of_nat (length files) <= ninodes → Forall file_fits files →
  Z.of_nat (length rt) mod 16 = 0 → Z.of_nat (length rt) + 16 * Z.of_nat (length files) <= MAXFILE * BSIZE →
  freeblock s + zneed (node (vimg s) ROOTINO) + demand files <= mk_log →
  ∃ s' fs', add_files ((λ f, (f.1, Some f.2)) <$> files) s = Ok () s' ∧ mk_fs s' fs' ∧
    fs' !! ROOTINO = Some (T_DIR, rt ++ dir_bytes (freeinode s) files) ∧
    (∀ i f, files !! i = Some f → fs' !! (freeinode s + Z.of_nat i) = Some (T_FILE, f.2)) ∧
    (∀ q, q ≠ ROOTINO → q < freeinode s → fs' !! q = fs !! q).
Proof.
  revert s fs rt. induction files as [|[name data] files IH]; intros s fs rt Hfs Hrt Hi Hn Hall Hal Hmax Hroom.
  { exists s, fs. simpl. rewrite app_nil_r. split; [reflexivity|]. split; [exact Hfs|]. split; [exact Hrt|]. split; [intros i f; by rewrite lookup_nil|done]. }
  apply Forall_cons in Hall as [[Hsl Hlen] Hall]. cbn [fst snd] in Hsl, Hlen. cbn [length] in *. cbn [demand foldr snd] in Hroom. fold (demand files) in Hroom. pose proof (demand_pos files).
  destruct (add_file_run s fs rt name data Hfs Hrt) as (s1 & fs1 & R1 & Hfs1 & Hi1 & Hf1 & Hr1 & Hj1 & Ho1); [lia|exact Hsl|exact Hlen|exact Hal|lia|lia|].
  pose proof (length_de_bytes (freeinode s) (short_name name)) as Hde.
  destruct (IH s1 fs1 _ Hfs1 Hr1) as (s2 & fs2 & R2 & Hfs2 & Hr2 & Hj2 & Ho2); [lia|lia|exact Hall| | |lia|].
  { rewrite length_app, Hde. Z.div_mod_to_equations. lia. } { rewrite length_app, Hde. lia. }
  rewrite Hi1 in *. exists s2, fs2. split; [|split; [exact Hfs2|split; [|split]]].
  - cbn [fmap list_fmap add_files fst snd]. by rewrite (bind_Ok _ _ _ _ _ R1).
  - rewrite Hr2. cbn [dir_bytes]. by rewrite <- app_assoc.
  - intros [|i] f Hf; simpl in Hf.
    + injection Hf as <-. rewrite Z.add_0_r, Ho2; [exact Hj1|unfold ROOTINO; lia|lia].
    + rewrite <- (Hj2 i f Hf). f_equal. lia.
  - intros q Hq1 Hq2. rewrite Ho2 by lia. apply Ho1; [exact Hq1|lia].
Qed.

(** ** The whole program *)

(** The image after all sectors were cleared and the super block was written. *)
Lemma blank_run s0 : freeinode s0 = 1 → img s0 = ∅ → freeblock s0 = 29 → usedblocks s0 = 29 →
  ∃ s, (∀ X (rest : M mk_state X), (for_range 0 fs_size (λ i, wsect i block0) ;; wsect 1 sb_bytes ;; rest) s0 = rest s) ∧ mk_fs s ∅ ∧ freeinode s = 1 ∧ freeblock s = 29.
Proof.
  intros Hi He Hf Hu.
  destruct (for_range_inv (λ i s, (∀ n, 0 <= n < i → img s !! n = Some block0) ∧ (∀ n d, img s !! n = Some d → d = block0) ∧
    freeinode s = 1 ∧ freeblock s = 29 ∧ usedblocks s = 29) (λ i, wsect i block0) 0 fs_size s0) as (s1 & R & I1 & I2 & I3 & I4 & I5).
  - done.
  - rewrite He. split; [lia|]. split; [intros n d; by rewrite lookup_empty|done].
  - intros i s Hir (J1 & J2 & J3 & J4 & J5). eexists. split; [reflexivity|]. split; [|split; [|done]]; simpl.
    + intros n Hn. rewrite lookup_insert. case_decide; [done|]. apply J1. lia.
    + intros n d. rewrite lookup_insert_Some. intros [[_ <-]|[_ H]]; [done|by apply (J2 n)].
  - eexists. split; [intros X rest; rewrite (bind_Ok _ _ _ _ _ R); reflexivity|]. split; [|done]. destruct sb_words as (_ & _ & _ & Hl).
    split; [|simpl; rewrite I3; unfold ninodes; lia|by intros j p; rewrite lookup_empty..].
    split; simpl; [| | |rewrite I4; unfold mk_log; lia|congruence|].
    + intros n Hn. rewrite lookup_insert. case_decide; [done|]. by rewrite I1.
    + intros n d. rewrite lookup_insert_Some. intros [[_ <-]|[_ H]]; [done|]. by rewrite (I2 n d H).
    + apply lookup_insert_eq.
    + intros n Hn. rewrite lookup_insert_ne by lia. apply I1. lia.
Qed.

Lemma round_root s fs rt : mk_fs s fs → fs !! ROOTINO = Some (T_DIR, rt) → Z.of_nat (length rt) mod 512 ≠ 0 → Z.of_nat (length rt) < MAXFILE * BSIZE →
  let sz := (Z.of_nat (length rt) / 512 + 1) * 512 in
  ∃ s2, winode ROOTINO (with_size sz (raw_node (vimg s) ROOTINO)) s = Ok () s2 ∧
    mk_fs s2 (<[ROOTINO := (T_DIR, rt ++ replicate (Z.to_nat (sz - Z.of_nat (length rt))) 0)]> fs) ∧ freeblock s2 = freeblock s.
Proof.
  intros Hfs Hrt Hne Hmax sz. pose proof Hfs as [F1 F2 F3 F4 F5]. pose proof (F4 _ _ _ Hrt) as [Q1 Q2 Qn Q3 Q4 Q5 Q6 Q7].
  set (len := Z.of_nat (length rt)) in *. assert (MAXFILE * BSIZE = 71680) as HM by reflexivity.
  assert (len < sz <= 71680 ∧ sz / 512 = len / 512 + 1 ∧ 0 < len) as (Hs1 & Hs2 & Hpos) by (unfold sz; Z.div_mod_to_equations; lia).
  assert (∀ i, len <= i < sz → blk (vimg s) (node (vimg s) ROOTINO) (i / BSIZE) ≠ 0) as Hb.
  { intros i Hi. change BSIZE with 512. replace (i / 512) with ((len - 1) / 512) by (unfold sz in *; Z.div_mod_to_equations; lia). apply (Q5 (len - 1)). lia. }
  destruct (settle s fs ROOTINO T_DIR rt s (raw_node (vimg s) ROOTINO) 0 0 sz (rt ++ replicate (Z.to_nat (sz - len)) 0) Hfs Hrt F1 eq_refl) as (s2 & R & Hfs2 & Hf & _).
  - apply grows_refl; [by apply vimg_disk|exact Q1].
  - rewrite length_app, length_replicate. lia.
  - lia.
  - intros i Hi. destruct (decide (i < len)) as [Hlt|Hge].
    + split; [apply (Q5 i); lia|]. rewrite list_lookup_total_alt, lookup_app_l, <- list_lookup_total_alt by lia. apply (Q6 i). lia.
    + split; [apply (Hb i); lia|]. rewrite list_lookup_total_alt, lookup_app_r, lookup_replicate_2 by lia. apply (Q7 i); [lia|]. apply (Hb i). lia.
  - intros i Hi. apply (Q7 i). lia.
  - exists s2. by split_and!.
Qed.

Lemma balloc_run s fs : mk_fs s fs → ∃ s2, (used ← gets usedblocks; balloc used) s = Ok () s2 ∧ mk_fs s2 fs ∧ img s2 !! 28 = Some (bits (freeblock s2)).
Proof.
  intros [F1 F2 F3 F4 F5]. pose proof (mo_free s F1) as Hf. pose proof (mo_used s F1) as Hu. unfold mk_log in *. rewrite (bind_Ok _ _ _ _ _ (gets_Ok _ _)), Hu.
  unfold balloc. rewrite bool_decide_eq_true_2 by lia. change (ninodes / IPB + 3) with 28. eexists. split; [reflexivity|].
  change (foldl _ block0 (seqZ 0 (freeblock s))) with (bits (freeblock s)). set (s2 := upd_img _ s).
  assert (∀ x, vimg s2 x = vimg s x) as HE.
  { intros x. unfold vimg. simpl. destruct (decide (x = 28)); [reflexivity|]. by apply alook_insert_ne. }
  split; [|apply lookup_insert_eq]. split; [|exact F2|exact F3|intros j ty data Hj; apply (cong_file (vimg s)); [exact HE|by apply F4]|].
  - apply upd_ok; [exact F1|apply length_bits; lia|lia|lia].
  - intros j j' p p' Hj Hj' Hne. rewrite (cong_node _ _ HE j), (cong_node _ _ HE j'). apply (cong_apart (vimg s)); [exact HE|]. by apply (F5 j j' p p').
Qed.

Lemma main_run image old files : Z.of_nat (length files) + 2 <= ninodes → (Z.of_nat (length files) + 2) mod 32 ≠ 0 → Forall file_fits files →
  32 + demand files <= mk_log →
  ∃ s fs, main ((image, Some old) :: ((λ f, (f.1, Some f.2)) <$> files)) mk_start = Ok () s ∧ mk_fs s fs ∧ img s !! 28 = Some (bits (freeblock s)) ∧
    (∃ pad, fs !! ROOTINO = Some (T_DIR, de_bytes 1 [46] ++ de_bytes 1 [46; 46] ++ dir_bytes 2 files ++ replicate (pad * 16) 0)) ∧
    ∀ i f, files !! i = Some f → fs !! (2 + Z.of_nat i) = Some (T_FILE, f.2).
Proof.
  intros Hn H32 Hall Hroom. unfold main. cbv zeta. change (fs_size / (512 * 8) + 1) with 1. change (ninodes / IPB + 3 + 1) with 29.
  rewrite (bind_Ok _ _ _ _ _ (modify_Ok _ _)). change (nblocks + 29 + nlog) with fs_size.
  rewrite (bool_decide_eq_true_2 (fs_size = fs_size)) by reflexivity. rewrite (bind_Ok _ _ _ _ _ (ret_Ok _ _)).
  destruct (blank_run {| img := img mk_start; freeblock := 29; usedblocks := 29; freeinode := freeinode mk_start |}) as (s & R & Hfs & Hi & Hf); try reflexivity.
  rewrite R. clear R. destruct (ialloc_run s ∅ T_DIR Hfs) as (s1 & R1 & Hfs1 & Hf1 & Hz1 & _ & Hi1); [unfold ninodes; lia|done|]. rewrite Hi in R1, Hfs1, Hz1, Hi1.
  rewrite (bind_Ok _ _ _ _ _ R1). clear R1. rewrite (bool_decide_eq_true_2 (1 = ROOTINO)) by reflexivity. rewrite (bind_Ok _ _ _ _ _ (ret_Ok _ _)).
  pose proof (length_de_bytes 1 [46]) as L1. pose proof (length_de_bytes 1 [46; 46]) as L2. pose proof (demand_pos files) as Hdp. unfold mk_log in Hroom.
  destruct (iappend_run s1 _ 1 T_DIR [] (de_bytes 1 [46]) 1 Hfs1) as (s2 & R2 & Hfs2 & Hf2 & _ & _ & Hi2);
    [apply lookup_insert_eq|rewrite L1; done|unfold mk_log; lia|rewrite L1; done|].
  rewrite L1 in R2. change dirent_size with (Z.of_nat 16). rewrite (bind_Ok _ _ _ _ _ R2). clear R2. rewrite insert_insert_eq in Hfs2.
  destruct (iappend_run s2 _ 1 T_DIR ([] ++ de_bytes 1 [46]) (de_bytes 1 [46; 46]) 1 Hfs2) as (s3 & R3 & Hfs3 & Hf3 & _ & _ & Hi3);
    [apply lookup_insert_eq|rewrite L2, length_app, L1; done|unfold mk_log; lia|rewrite L2, length_app, L1; done|].
  rewrite L2 in R3. rewrite (bind_Ok _ _ _ _ _ R3). clear R3. rewrite insert_insert_eq in Hfs3. cbn [app] in Hfs3.
  destruct (add_files_run files s3 _ (de_bytes 1 [46] ++ de_bytes 1 [46; 46]) Hfs3) as (s4 & fs4 & R4 & Hfs4 & Hr4 & Hj4 & _);
    [apply lookup_insert_eq|lia|lia|exact Hall|rewrite length_app, L1, L2; reflexivity| |change ROOTINO with 1; unfold mk_log; lia|].
  { rewrite length_app, L1, L2. unfold ninodes in Hn. assert (MAXFILE * BSIZE = 71680) as -> by reflexivity. lia. }
  rewrite (bind_Ok _ _ _ _ _ R4). clear R4. assert (freeinode s3 = 2) as E3 by lia. rewrite E3 in Hr4, Hj4. set (rt := (_ ++ _) ++ dir_bytes 2 files) in Hr4.
  assert (Z.of_nat (length rt) = 16 * (Z.of_nat (length files) + 2)) as Hrt.
  { unfold rt. rewrite !length_app, L1, L2. pose proof (length_dir_bytes 2 files). lia. }
  pose proof (hf_size _ _ _ _ (mf_file _ _ Hfs4 _ _ _ Hr4)) as Hsz. unfold ninodes in Hn.
  change ROOTINO with 1 in Hsz. rewrite (bind_Ok _ _ _ _ _ (rinode_run s4 1 (mf_ok _ _ Hfs4) ltac:(done))).
  change (i_size (raw_node (vimg s4) 1)) with (i_size (node (vimg s4) 1)). rewrite Hsz, !xint_u32, (u32_small (Z.of_nat (length rt))) by (unfold is_u32, W32; lia).
  change BSIZE with 512. rewrite (u32_small ((Z.of_nat (length rt) / 512 + 1) * 512)), u32_small by (unfold is_u32, W32; Z.div_mod_to_equations; lia).
  destruct (round_root s4 fs4 rt Hfs4 Hr4) as (s5 & R5 & Hfs5 & _);
    [rewrite Hrt; Z.div_mod_to_equations; lia|rewrite Hrt; assert (MAXFILE * BSIZE = 71680) as -> by reflexivity; lia|].
  change ROOTINO with 1 in R5. rewrite (bind_Ok _ _ _ _ _ R5). clear R5. destruct (balloc_run s5 _ Hfs5) as (s6 & R6 & Hfs6 & H28). eexists s6, _. split; [exact R6|].
  split; [exact Hfs6|]. split; [exact H28|]. split.
  - set (k := Z.of_nat (length files) + 2) in *. exists (Z.to_nat ((16 * k / 512 + 1) * 32 - k)). rewrite lookup_insert_eq, Hrt.
    replace (Z.to_nat ((16 * k / 512 + 1) * 32 - k) * 16)%nat with (Z.to_nat ((16 * k / 512 + 1) * 512 - 16 * k)) by (Z.div_mod_to_equations; lia).
    unfold rt. by rewrite <- !app_assoc.
  - intros i f Hf'. rewrite lookup_insert_ne by (unfold ROOTINO; lia). by apply Hj4.
Qed.
