(* ===== verification/ImageBoot.v ===== *)
(** * Starting from an image (kern/fs/mkfs.c with log.c, inode.c, dir.c, path.c)

    The kernel on a disk that the image builder made: the log is empty, every file is found
    by its name in the root directory, and its contents are what was put there. *)

From S2P Require Import Prelude Spinlock Mboot PMem Container PageTable TCB TQueue Thread Sched.
From S2P Require Import CString BufCache Log Inode FileData FileWrite Path File FileDisk Mkfs.

(** ** The image as a disk *)

Definition image_disk (s : mk_state) : gmap (Z * Z) (list Z) := kmap (pair ROOTDEV) (img s).

#[local] Instance pair_inj (x : Z) : Inj (=) (=) (pair x : Z → Z * Z).
Proof. intros a b. congruence. Qed.

Lemma image_look s n : image_disk s !! (ROOTDEV, n) = img s !! n.
Proof. apply (lookup_kmap (pair ROOTDEV)). Qed.

(** A finished image: the bitmap is there. *)
Definition complete (s : mk_state) : Prop := img s !! 28 = Some (bits (freeblock s)).

Lemma image_secs s n : complete s → disk_secs (image_disk s) n = vimg s n.
Proof.
  intros Hc. unfold disk_secs, dlook. rewrite image_look. unfold vimg, alook. destruct (decide (n = 28)) as [->|]; [|reflexivity].
  unfold complete in Hc. by rewrite Hc.
Qed.

Lemma image_log s : mk_ok s → complete s → log_disk (image_disk s) mk_log LOGSIZE ∧ get32 (dlook (image_disk s) (ROOTDEV, mk_log)) 0 = 0.
Proof.
  intros H Hc. pose proof (mo_free s H) as Hf. split.
  - assert (dlook (image_disk s) (ROOTDEV, 1) = sb_bytes) as E by (unfold dlook; rewrite image_look, (mo_sb s H); reflexivity).
    destruct sb_words as (W1 & _ & W3 & _). split; rewrite ?E; [|exact W1|exact W3|done|done|done].
    intros k d Hk. apply lookup_kmap_Some in Hk as (n & -> & Hn); [|apply _]. exact (mo_len s H n d Hn).
  - unfold dlook. rewrite image_look, (mo_zero s H); [reflexivity|]. unfold mk_log, fs_size in *. lia.
Qed.

Lemma image_file s fs j ty data : mk_fs s fs → fs !! j = Some (ty, data) → file_inv mk_log (vimg s) (node (vimg s) j).
Proof.
  intros [F1 F2 F3 F4 F5] Hj. pose proof (F4 _ _ _ Hj) as Hf. pose proof Hf as [Q1 Q2 Qn Q3 Q4 Q5 Q6 Q7]. pose proof (F3 _ _ Hj). pose proof (vimg_disk s F1) as Hd.
  destruct (vimg_sb s F1) as [_ B]. pose proof (iblock_meta j ltac:(lia)). split; [exact Hd|exact Q1|reflexivity| | | | |].
  - rewrite B. change (i_inum (node (vimg s) j)) with j. lia.
  - rewrite Q3. lia.
  - apply backed_bytes. rewrite Q3. exact Q5.
  - pose proof (raw_fits (vimg s) j ty data Hd Hf) as [T1 T2 T3 T4 T5 T6]. by split.
  - by split_and!.
Qed.

(** ** The bytes of a file as a list *)

Lemma slice_data D v data o n : (∀ i, 0 <= i < Z.of_nat (length data) → file_byte D v i = data !!! Z.to_nat i) → 0 <= o → 0 <= n →
  o + n <= Z.of_nat (length data) → file_slice D v o n = take (Z.to_nat n) (drop (Z.to_nat o) data).
Proof.
  intros H Ho Hn Hle. apply list_eq_same_length with (n := Z.to_nat n).
  - rewrite length_take, length_drop. lia.
  - unfold file_slice. by rewrite length_fmap, length_seqZ.
  - intros i x y Hi Hx Hy. rewrite lookup_take_lt, lookup_drop in Hy by lia. unfold file_slice in Hx.
    rewrite list_lookup_fmap, lookup_seqZ_lt in Hx by lia. injection Hx as <-. rewrite H by lia.
    replace (Z.to_nat (o + Z.of_nat i)) with (Z.to_nat o + i)%nat by lia. by apply list_lookup_total_correct.
Qed.

(** ** Entries of the inode cache *)

Lemma iscan_free fuel s dev inum ip : (∀ q, ip <= q → alook inode_zero (icache s) q = inode_zero) →
  (∀ e, iscan fuel s dev inum ip (Some e) = (None, Some e)) ∧ ((0 < fuel)%nat → iscan fuel s dev inum ip None = (None, Some ip)).
Proof.
  revert ip. induction fuel as [|fuel IH]; intros ip Hz; [split; [done|lia]|]. destruct (IH (ip + 1)) as [IH1 _]; [intros q Hq; apply Hz; lia|].
  split; [intros e|intros _]; cbn [iscan]; rewrite Hz by lia; simpl; apply IH1.
Qed.

Lemma inode_get_second c L m inum : i_inum (alook inode_zero m 0) ≠ inum → i_ref (alook inode_zero m 0) ≠ 0 → (∀ q, 1 <= q → alook inode_zero m q = inode_zero) →
  inode_get ROOTDEV inum (in_mk c L spinlock_init m) = Ok 1 (in_mk c L spinlock_init (<[1 := first_entry inum]> m)).
Proof.
  intros Hne Hr Hz. unfold inode_get. rewrite (bind_Ok _ _ _ _ _ (ic_acquire_mk _ _ _)), (bind_Ok _ _ _ _ _ (gets_Ok _ _)). unfold id.
  set (s := in_mk c L locked m). destruct (iscan_free 49 s ROOTDEV inum 1 Hz) as [_ Hf]. specialize (Hf ltac:(lia)).
  change (Z.to_nat NINODE) with (S 49). revert Hf. generalize 49%nat. intros k Hf. cbn [iscan]. change (icache s) with m. rewrite (bool_decide_eq_false_2 (i_inum _ = inum)), andb_false_r by exact Hne.
  rewrite bool_decide_eq_false_2 by exact Hr. change (0 + 1) with 1. rewrite Hf. unfold s. rewrite (bind_Ok _ _ _ _ _ (iupd_mk _ _ _ _ 1 _ ltac:(done))).
  by rewrite Hz by lia.
Qed.

(** Giving back a locked entry of a file that has a link, outside a transaction. *)
Lemma unlockput_run t c A L m ip : let v := alook inode_zero m ip in bc_rep t c A → 0 <= ip < NINODE → 1 <= i_ref v → I_BUSY v = true → i_nlink v ≠ 0 →
  ∃ c' m', inode_unlockput ip (in_mk c L spinlock_init m) = Ok () (in_mk c' L spinlock_init m') ∧ bc_rep t c' A ∧
    ∀ q, q ≠ ip → alook inode_zero m' q = alook inode_zero m q.
Proof.
  intros v Hrep Hip Href Hb Hn. pose proof (br_calm _ _ _ Hrep) as Hc.
  destruct (th_keeps_wakeup t (bc_th c) (ChInode ip) (calm_th _ _ Hc) (calm_sched _ _ Hc)) as (t' & Hw & Hk & Hs).
  set (v1 := with_flags false (I_VALID v) v). set (m1 := <[ip := v1]> m). assert (alook inode_zero m1 ip = v1) as Hm1 by apply alook_insert_eq.
  exists (put t' c), (<[ip := with_ref (i_ref v1 - 1) v1]> m1).
  split; [|split; [by apply bc_rep_th|intros q Hq; unfold m1; by rewrite !alook_insert_ne by done]].
  unfold inode_unlockput, inode_unlock. assert (inode_put ip (in_mk (put t' c) L spinlock_init m1) = Ok () (in_mk (put t' c) L spinlock_init (<[ip := with_ref (i_ref v1 - 1) v1]> m1))) as Hp.
  { unfold inode_put. rewrite (bind_Ok _ _ _ _ _ (ic_acquire_mk _ _ _)), (bind_Ok _ _ _ _ _ (iget_mk _ _ _ _ ip Hip)), Hm1.
    rewrite (bool_decide_eq_false_2 (i_nlink v1 = 0)), andb_false_r by exact Hn. rewrite (bind_Ok _ _ _ _ _ (ret_Ok _ _)).
    rewrite (bind_Ok _ _ _ _ _ (iupd_mk _ _ _ _ ip _ Hip)), Hm1. apply ic_release_mk. }
  rewrite (bind_Ok _ _ _ () (in_mk (put t' c) L spinlock_init m1)); [exact Hp|]. clear Hp.
  rewrite (bind_Ok _ _ _ _ _ (iget_mk _ _ _ _ ip Hip)). fold v. rewrite Hb, bool_decide_eq_false_2 by lia. cbn [negb orb].
  rewrite (bind_Ok _ _ _ _ _ (ic_acquire_mk _ _ _)), (bind_Ok _ _ _ _ _ (iupd_mk _ _ _ _ ip _ Hip)). fold v.
  rewrite (bind_Ok _ _ _ () (in_mk (put t' c) L locked m1)); [apply ic_release_mk|]. unfold zoom. simpl. by rewrite Hw.
Qed.

(** ** Searching a directory *)

Lemma namecmp_entry a b y : is_str a → is_str b →
  ∃ r, dir_namecmp (take DIRSIZ (a ++ replicate DIRSIZ 0)) (b ++ 0 :: y) = Some r ∧ (r = 0 ↔ take DIRSIZ a = take DIRSIZ b).
Proof.
  intros Ha Hb. rewrite take_app, take_replicate. destruct (strncmp_zero (take DIRSIZ a) b (replicate ((DIRSIZ - length a) `min` DIRSIZ) 0) (0 :: y) DIRSIZ) as (r & Hr & H0).
  - by apply Forall_take.
  - exact Hb.
  - rewrite length_take. destruct (decide (DIRSIZ <= length a)%nat); [left; lia|right]. unfold DIRSIZ in *. destruct ((14 - length a) `min` 14)%nat eqn:E; [lia|done].
  - by right.
  - exists r. unfold dir_namecmp. rewrite take_take, Nat.min_id in H0. split; [exact Hr|exact H0].
Qed.

Lemma get_de_bytes inum nm : 0 <= inum < 65536 → get_dirent (de_bytes inum nm) = {| de_inum := inum; de_name := take DIRSIZ (nm ++ replicate DIRSIZ 0) |}.
Proof.
  intros Hi. unfold de_bytes, put_dirent, get_dirent. cbn [de_inum de_name app drop]. f_equal.
  unfold get16, get8. cbn. assert (xshort inum = inum) as ->.
  { unfold xshort. rewrite get16_put16_eq by (simpl; lia). apply Z.mod_small. lia. }
  change (Z.to_nat 0) with 0%nat. change (Z.to_nat (0 + 1)) with 1%nat. cbn [lookup_total list_lookup_total].
  unfold u8. rewrite Z.shiftr_div_pow2 by lia. change (2 ^ 8) with 256. Z.div_mod_to_equations. lia.
Qed.

Section Scan.
Context (t : th_state) (start : Z) (A : bdev) (L : log_t) (D : Z → list Z) (lk : spinlock_t) (m : gmap Z inode) (dp : Z) (data b y : list Z).
Let v := alook inode_zero m dp.
Hypothesis HAD : ∀ n, 0 <= n < start → content A (ROOTDEV, n) = D n ∧ can_read A (ROOTDEV, n).
Hypothesis inv : file_inv start D v.
Hypothesis Hdp : 0 <= dp < NINODE.
Hypothesis dir : i_type v = T_DIR.
Hypothesis size : i_size v = Z.of_nat (length data).
Hypothesis bytes : ∀ i, 0 <= i < Z.of_nat (length data) → file_byte D v i = data !!! Z.to_nat i.
Hypothesis Hb : is_str b.

Lemma read_entry c pre de rest : bc_rep t c A → data = pre ++ de ++ rest → length de = 16%nat →
  ∃ c', inode_read dp (Z.of_nat (length pre)) dirent_size (in_mk c L lk m) = Ok (dirent_size, de) (in_mk c' L lk m) ∧ bc_rep t c' A.
Proof.
  intros Hrep Hd Hl. assert (Z.of_nat (length pre) + 16 <= Z.of_nat (length data)) as Hle by (rewrite Hd, !length_app; lia).
  destruct (inode_read_inv t start c A L D lk m dp (Z.of_nat (length pre)) dirent_size Hrep HAD inv) as (c' & R & Hrep');
    [exact Hdp|fold v; by rewrite dir|fold v; lia|by unfold dirent_size|].
  exists c'. split; [|exact Hrep']. cbv zeta in R. rewrite R. fold v. rewrite size, Z.min_l by (unfold dirent_size; lia).
  rewrite (slice_data D v data) by (exact bytes || unfold dirent_size; lia). do 2 f_equal.
  rewrite Hd, Nat2Z.id, drop_app_length. apply take_app_length'. unfold dirent_size. lia.
Qed.

Definition dir_of (ents : list (Z * list Z)) : list Z := concat ((λ e, de_bytes e.1 e.2) <$> ents).

Lemma lookup_scan ents : ∀ fuel c pre rest, bc_rep t c A → data = pre ++ dir_of ents ++ rest →
  Forall (λ e, 0 < e.1 < 65536 ∧ is_str e.2) ents → (length ents <= fuel)%nat →
  ∃ c', bc_rep t c' A ∧ lookup_loop fuel dp (b ++ 0 :: y) (Z.of_nat (length pre)) (in_mk c L lk m) =
    match list_find (λ e, take DIRSIZ e.2 = take DIRSIZ b) ents with
    | Some (i, e) => (ip ← inode_get ROOTDEV e.1; mret (Some (ip, Z.of_nat (length pre) + 16 * Z.of_nat i))) (in_mk c' L lk m)
    | None => lookup_loop (fuel - length ents) dp (b ++ 0 :: y) (Z.of_nat (length pre) + 16 * Z.of_nat (length ents)) (in_mk c' L lk m)
    end.
Proof.
  induction ents as [|[n nm] ents IH]; intros fuel c pre rest Hrep Hd Hall Hf.
  { exists c. split; [exact Hrep|]. simpl. by rewrite Nat.sub_0_r, Z.add_0_r. }
  destruct fuel as [|fuel]; [simpl in Hf; lia|]. apply Forall_cons in Hall as [[Hn Hnm] Hall]. cbn [fst snd] in Hn, Hnm.
  unfold dir_of in Hd. cbn [fmap list_fmap concat fst snd] in Hd. fold (dir_of ents) in Hd. rewrite <- app_assoc in Hd.
  pose proof (length_de_bytes n nm) as Hl. destruct (read_entry c pre _ _ Hrep Hd Hl) as (c1 & R1 & Hrep1).
  assert (Z.of_nat (length pre) + 16 <= Z.of_nat (length data)) as Hle by (rewrite Hd, !length_app; lia).
  destruct (namecmp_entry nm b y Hnm Hb) as (r & Hr & Hr0).
  destruct (IH fuel c1 (pre ++ de_bytes n nm) rest Hrep1) as (c2 & Hrep2 & R2); [by rewrite <- app_assoc|exact Hall|simpl in Hf; lia|]. clear IH.
  cbn [lookup_loop list_find]. destruct (decide_rel _ _ _) as [Hm|Hm] || destruct (decide _) as [Hm|Hm].
  - exists c1. split; [exact Hrep1|]. rewrite (bind_Ok _ _ _ _ _ (iget_mk _ _ _ _ dp Hdp)). fold v. rewrite bool_decide_eq_true_2 by (rewrite size; lia).
    rewrite (bind_Ok _ _ _ _ _ R1). clear R1 R2. cbn [fst snd] in *. rewrite bool_decide_eq_false_2 by tauto. rewrite get_de_bytes by lia. cbn [de_inum de_name].
    rewrite bool_decide_eq_false_2, Hr by lia. rewrite (bind_Ok (deref (Some r)) _ _ r _ eq_refl), bool_decide_eq_true_2 by (by apply Hr0).
    rewrite (bind_Ok _ _ _ _ _ (iget_mk _ _ _ _ dp Hdp)). fold v. rewrite (fi_dev _ _ _ inv). apply bind_ext; [reflexivity|]. intros ip s. simpl. by rewrite Z.add_0_r.
  - exists c2. split; [exact Hrep2|]. rewrite (bind_Ok _ _ _ _ _ (iget_mk _ _ _ _ dp Hdp)). fold v. rewrite bool_decide_eq_true_2 by (rewrite size; lia).
    rewrite (bind_Ok _ _ _ _ _ R1). clear R1. cbn [fst snd] in *. rewrite bool_decide_eq_false_2 by tauto. rewrite get_de_bytes by lia. cbn [de_inum de_name].
    rewrite bool_decide_eq_false_2, Hr by lia. rewrite (bind_Ok (deref (Some r)) _ _ r _ eq_refl), bool_decide_eq_false_2 by tauto.
    rewrite length_app, Hl in R2. replace (Z.of_nat (length pre) + dirent_size) with (Z.of_nat (length pre + 16)) by (unfold dirent_size; lia). rewrite R2. clear R2.
    destruct (list_find _ ents) as [[i e]|]; cbn [fmap option_fmap option_map prod_map length Nat.sub].
    + by replace (Z.of_nat (length pre + 16) + 16 * Z.of_nat i) with (Z.of_nat (length pre) + 16 * Z.of_nat (S i)) by lia.
    + by replace (Z.of_nat (length pre + 16) + 16 * Z.of_nat (length ents)) with (Z.of_nat (length pre) + 16 * Z.of_nat (S (length ents))) by lia.
Qed.

(** Entries without a number are passed over. *)
Lemma lookup_pad n : ∀ fuel c pre, bc_rep t c A → data = pre ++ replicate (n * 16) 0 → (n < fuel)%nat →
  ∃ c', bc_rep t c' A ∧ lookup_loop fuel dp (b ++ 0 :: y) (Z.of_nat (length pre)) (in_mk c L lk m) = Ok None (in_mk c' L lk m).
Proof.
  induction n as [|n IH]; intros [|fuel] c pre Hrep Hd Hf; try lia; cbn [lookup_loop]; rewrite (bind_Ok _ _ _ _ _ (iget_mk _ _ _ _ dp Hdp)); fold v.
  { exists c. split; [exact Hrep|]. rewrite Hd, length_app in size. rewrite bool_decide_eq_false_2 by (simpl in size; lia). reflexivity. }
  change (S n * 16)%nat with (16 + n * 16)%nat in Hd. rewrite replicate_add in Hd.
  destruct (read_entry c pre _ _ Hrep Hd ltac:(apply length_replicate)) as (c1 & R1 & Hrep1).
  destruct (IH fuel c1 (pre ++ replicate 16 0) Hrep1) as (c2 & Hrep2 & R2); [by rewrite <- app_assoc|lia|].
  exists c2. split; [exact Hrep2|]. rewrite bool_decide_eq_true_2 by (rewrite size, Hd, !length_app, length_replicate; lia).
  rewrite (bind_Ok _ _ _ _ _ R1). cbn [fst snd]. rewrite bool_decide_eq_false_2 by tauto. rewrite bool_decide_eq_true_2 by reflexivity.
  rewrite length_app, length_replicate in R2. by replace (Z.of_nat (length pre) + dirent_size) with (Z.of_nat (length pre + 16)) by (unfold dirent_size; lia).
Qed.

Lemma length_dir_of ents : length (dir_of ents) = (16 * length ents)%nat.
Proof.
  induction ents as [|e ents IH]; [done|]. change (dir_of (e :: ents)) with (de_bytes e.1 e.2 ++ dir_of ents). rewrite length_app, length_de_bytes, IH. simpl. lia.
Qed.

(** A search finds the first entry with the name. *)
Lemma dir_lookup_run ents pad c : bc_rep t c A → data = dir_of ents ++ replicate (pad * 16) 0 → Forall (λ e, 0 < e.1 < 65536 ∧ is_str e.2) ents →
  ∃ c', bc_rep t c' A ∧ dir_lookup dp (b ++ 0 :: y) (in_mk c L lk m) =
    match list_find (λ e, take DIRSIZ e.2 = take DIRSIZ b) ents with
    | Some (i, e) => (ip ← inode_get ROOTDEV e.1; mret (Some (ip, 16 * Z.of_nat i))) (in_mk c' L lk m)
    | None => Ok None (in_mk c' L lk m)
    end.
Proof.
  intros Hrep Hd Hall. unfold dir_lookup. rewrite (bind_Ok _ _ _ _ _ (iget_mk _ _ _ _ dp Hdp)). fold v. rewrite bool_decide_eq_false_2 by (intros Hx; exact (Hx dir)).
  set (fuel := Z.to_nat _). assert (length ents + pad < fuel)%nat as Hf.
  { unfold fuel, dirent_size. rewrite size, Hd, length_app, length_dir_of, length_replicate. Z.div_mod_to_equations. lia. }
  destruct (lookup_scan ents fuel c [] _ Hrep Hd Hall ltac:(lia)) as (c1 & Hrep1 & R1). change (Z.of_nat (length [])) with 0 in R1.
  destruct (list_find _ ents) as [[i e]|]; [exists c1; by split|].
  destruct (lookup_pad pad (fuel - length ents) c1 (dir_of ents) Hrep1 Hd ltac:(lia)) as (c2 & Hrep2 & R2).
  exists c2. split; [exact Hrep2|]. rewrite R1. rewrite length_dir_of in R2. by replace (0 + 16 * Z.of_nat (length ents)) with (Z.of_nat (16 * length ents)) by lia.
Qed.

End Scan.

(** ** The root directory of an image *)

Definition entries (j : Z) (files : list (list Z * list Z)) : list (Z * list Z) := imap (λ i f, (j + Z.of_nat i, short_name f.1)) files.

Definition root_entries (files : list (list Z * list Z)) : list (Z * list Z) := (ROOTINO, [46]) :: (ROOTINO, [46; 46]) :: entries 2 files.

Lemma entries_cons j f files : entries j (f :: files) = (j, short_name f.1) :: entries (j + 1) files.
Proof. unfold entries. simpl. rewrite Z.add_0_r. f_equal. apply imap_ext. intros i g _. simpl. f_equal. lia. Qed.

Lemma dir_bytes_of j files : dir_bytes j files = dir_of (entries j files).
Proof. revert j. induction files as [|[nm d] files IH]; intros j; [done|]. rewrite entries_cons. cbn [dir_bytes]. by rewrite IH. Qed.

Lemma entries_ok j files : 0 < j → j + Z.of_nat (length files) <= 65536 → Forall (λ f, is_str f.1) files →
  Forall (λ e, 0 < e.1 < 65536 ∧ is_str e.2) (entries j files).
Proof.
  revert j. induction files as [|[nm d] files IH]; intros j Hj Hl Hall; [constructor|]. rewrite entries_cons. apply Forall_cons in Hall as [Hn Hall].
  simpl in Hl, Hn. constructor; [|apply IH; [lia|lia|exact Hall]]. split; simpl; [lia|]. unfold short_name. destruct nm as [|ch nm]; [constructor|].
  case_bool_decide; [|exact Hn]. by apply Forall_cons in Hn as [_ ?].
Qed.

Lemma find_entries j files q : list_find (λ e, take DIRSIZ e.2 = q) (entries j files) =
  (λ r, (r.1, (j + Z.of_nat r.1, short_name r.2.1))) <$> list_find (λ f, take DIRSIZ (short_name f.1) = q) files.
Proof.
  revert j. induction files as [|f files IH]; intros j; [done|]. rewrite entries_cons. cbn [list_find snd].
  destruct (decide (take DIRSIZ (short_name f.1) = q)); simpl; [by rewrite Z.add_0_r|]. rewrite IH.
  destruct (list_find _ files) as [[i g]|]; simpl; [|done]. do 3 f_equal. lia.
Qed.

Lemma cstr_split name e : cstr name = e → (length e < length name)%nat → ∃ y, name = e ++ 0 :: y.
Proof.
  revert e. induction name as [|ch name IH]; intros e; simpl; [lia|]. case_bool_decide as Hc; intros <- Hl; [exists name; by rewrite Hc|].
  simpl in Hl. destruct (IH (cstr name) eq_refl ltac:(lia)) as (y & Hy). exists y. simpl. by f_equal.
Qed.

(** Reading a file by its path on a machine that starts from its disk. *)
Definition boot_file (path : list Z) : M in_state (option (Z * list Z)) :=
  zoom log_init ;; inode_init ;;
  ip ← namei path (replicate DIRSIZ 0);
  match ip with
  | None => mret None
  | Some ip => inode_lock (Some ip) ;; r ← inode_read ip 0 (MAXFILE * BSIZE); mret (Some r)
  end.

Lemma components_str a : is_str a → Forall is_str (components a).
Proof.
  intros Ha. assert (Forall is_str (split_slash a)) as Hs.
  2: { apply Forall_forall. intros e He. apply list_elem_of_filter in He as [_ He]. by eapply Forall_forall in Hs; [|exact He]. }
  induction a as [|ch a IH]; [by repeat constructor|]. apply Forall_cons in Ha as [Hc Ha]. specialize (IH Ha). simpl.
  case_bool_decide; [constructor; [constructor|exact IH]|]. destruct (split_slash a) as [|e es]; [constructor; [constructor; [exact Hc|constructor]|constructor]|].
  apply Forall_cons in IH as [He Hes]. constructor; [constructor; [exact Hc|exact He]|exact Hes].
Qed.

(** A path of one name. *)
Lemma namex_one fuel ip path name rest name' s s1 s2 s3 v r : skipelem path name = Some (Some (rest, name')) → skipelem rest name' = Some None →
  inode_lock (Some ip) s = Ok () s1 → iget ip s1 = Ok v s1 → i_type v = T_DIR → dir_lookup ip name' s1 = Ok r s2 → inode_unlockput ip s2 = Ok () s3 →
  namex_loop (S (S fuel)) ip path false name s = Ok (fst <$> r, name') s3.
Proof.
  intros Hk Hk2 R1 Rg Hty Hl Hu. remember (S fuel) as g. cbn [namex_loop]. rewrite Hk, (bind_Ok (deref (Some (Some (rest, name')))) _ _ _ _ eq_refl), (bind_Ok _ _ _ _ _ R1), (bind_Ok _ _ _ _ _ Rg), Hty.
  rewrite bool_decide_eq_false_2 by tauto. cbn [andb]. rewrite (bind_Ok _ _ _ _ _ Hl). subst g.
  destruct r as [[sub off]|]; rewrite (bind_Ok _ _ _ _ _ Hu); [|reflexivity]. cbn [namex_loop]. by rewrite Hk2.
Qed.

Section Walk.
Context (t : th_state) (A : bdev) (L : log_t) (s : mk_state) (fs : gmap Z (Z * list Z)) (files : list (list Z * list Z)) (pad : nat).
Hypothesis HAD : ∀ n, 0 <= n < mk_log → content A (ROOTDEV, n) = vimg s n ∧ can_read A (ROOTDEV, n).
Hypothesis Hfs : mk_fs s fs.
Hypothesis root : fs !! ROOTINO = Some (T_DIR, dir_of (root_entries files) ++ replicate (pad * 16) 0).
Hypothesis count : Z.of_nat (length files) + 2 <= ninodes.
Hypothesis names : Forall (λ f, is_str f.1) files.

(** The directory is locked and searched. *)
Lemma root_lookup c b y : bc_rep t c A → is_str b → take DIRSIZ b ≠ [46] → take DIRSIZ b ≠ [46; 46] →
  ∃ c' m, inode_lock (Some 0) (in_mk c L spinlock_init {[ 0 := first_entry ROOTINO ]}) = Ok () (in_mk c' L spinlock_init m) ∧
    i_type (alook inode_zero m 0) = T_DIR ∧ i_ref (alook inode_zero m 0) = 1 ∧ I_BUSY (alook inode_zero m 0) = true ∧ i_nlink (alook inode_zero m 0) = 1 ∧
    ∃ c2, bc_rep t c2 A ∧ dir_lookup 0 (b ++ 0 :: y) (in_mk c' L spinlock_init m) =
      match list_find (λ f, take DIRSIZ (short_name f.1) = take DIRSIZ b) files with
      | Some (i, f) => Ok (Some (1, 16 * Z.of_nat (2 + i))) (in_mk c2 L spinlock_init (<[1 := first_entry (2 + Z.of_nat i)]> m))
      | None => Ok None (in_mk c2 L spinlock_init m)
      end.
Proof.
  intros Hrep Hb Hd1 Hd2. pose proof (image_file s fs _ _ _ Hfs root) as Hinv. pose proof (mf_file _ _ Hfs _ _ _ root) as [Q1 Q2 Qn Q3 Q4 Q5 Q6 Q7].
  destruct (lock_file t mk_log c L A {[ 0 := first_entry ROOTINO ]} 0 ROOTINO (vimg s) (node (vimg s) ROOTINO) Hrep HAD Hinv) as (c1 & m & R1 & Hrep1 & Hw & Ho);
    [reflexivity|by rewrite Q2|unfold NINODE; lia|reflexivity|]. destruct Hw as (Hsame & W1 & W2 & W3 & W4 & Hinv1).
  exists c1, m. split; [exact R1|]. clear R1. pose proof Hsame as (E1 & E2 & E3 & E4 & E5 & E6). rewrite E1, E4, Q2, Qn.
  split; [reflexivity|]. split; [exact W1|]. split; [exact W2|]. split; [reflexivity|].
  destruct (dir_lookup_run t mk_log A L (vimg s) spinlock_init m 0 (dir_of (root_entries files) ++ replicate (pad * 16) 0) b y HAD Hinv1 ltac:(done)
    ltac:(by rewrite E1) ltac:(by rewrite E5) ltac:(intros i Hi; rewrite (same_dinode_byte _ _ _ _ Hsame) by lia; by apply Q6) Hb (root_entries files) pad c1 Hrep1 eq_refl)
    as (c2 & Hrep2 & R2).
  { unfold root_entries. constructor; [split; [done|repeat constructor; lia]|]. constructor; [split; [done|repeat constructor; lia]|].
    apply entries_ok; [lia|unfold ninodes in count; lia|exact names]. }
  exists c2. split; [exact Hrep2|]. rewrite R2. clear R2. unfold root_entries. cbn [list_find snd]. change (take DIRSIZ [46]) with [46]. change (take DIRSIZ [46; 46]) with [46; 46].
  destruct (decide ([46] = take DIRSIZ b)) as [Hx|_]; [by destruct (Hd1 (eq_sym Hx))|]. destruct (decide ([46; 46] = take DIRSIZ b)) as [Hx|_]; [by destruct (Hd2 (eq_sym Hx))|].
  rewrite find_entries. destruct (list_find _ files) as [[i f]|]; [|reflexivity]. cbn [fmap option_fmap option_map prod_map fst snd].
  rewrite (bind_Ok _ _ _ _ _ (inode_get_second c2 L m (2 + Z.of_nat i) ltac:(unfold ROOTINO in W4; lia) ltac:(lia)
    ltac:(intros q Hq; rewrite Ho by lia; unfold alook; by rewrite lookup_singleton_ne by lia))). reflexivity.
Qed.

Lemma namei_image c p x e : bc_rep t c A → is_str p → components (SLASH :: p) = [e] → take 13 e ≠ [46] → take 13 e ≠ [46; 46] →
  ∃ c' m, bc_rep t c' A ∧ match list_find (λ f, take DIRSIZ (short_name f.1) = take 13 e) files with
    | Some (i, f) => namei ((SLASH :: p) ++ 0 :: x) (replicate DIRSIZ 0) (in_mk c L spinlock_init ∅) = Ok (Some 1) (in_mk c' L spinlock_init m) ∧
        alook inode_zero m 1 = first_entry (2 + Z.of_nat i)
    | None => namei ((SLASH :: p) ++ 0 :: x) (replicate DIRSIZ 0) (in_mk c L spinlock_init ∅) = Ok None (in_mk c' L spinlock_init m)
    end.
Proof.
  intros Hrep Hp Hc Hd1 Hd2. assert (is_str (SLASH :: p)) as Hsp by (by constructor).
  pose proof (skipelem_spec (SLASH :: p) x (replicate DIRSIZ 0) Hsp eq_refl) as Hs. rewrite Hc in Hs.
  destruct Hs as (b & name & Hk & Hcb & _ & Hb & Hlen & Hln & Hcs). pose proof (skipelem_spec b x name Hb Hln) as Hk2. rewrite Hcb in Hk2.
  assert (is_str (take 13 e)) as He. { apply Forall_take. pose proof (components_str _ Hsp) as Hce. rewrite Hc in Hce. by apply Forall_cons in Hce as [? _]. }
  destruct (cstr_split name _ Hcs) as (y & ->); [rewrite length_take, Hln; lia|]. assert (take DIRSIZ (take 13 e) = take 13 e) as Ht by (rewrite take_take; reflexivity).
  destruct (root_lookup c (take 13 e) y Hrep He ltac:(by rewrite Ht) ltac:(by rewrite Ht)) as (c1 & m & R1 & T1 & T2 & T3 & T4 & c2 & Hrep2 & R2). rewrite Ht in R2.
  assert (∀ r c3 m3 m4 (Hl : dir_lookup 0 (take 13 e ++ 0 :: y) (in_mk c1 L spinlock_init m) = Ok r (in_mk c2 L spinlock_init m3))
    (Hu : inode_unlockput 0 (in_mk c2 L spinlock_init m3) = Ok () (in_mk c3 L spinlock_init m4)),
    namei ((SLASH :: p) ++ 0 :: x) (replicate DIRSIZ 0) (in_mk c L spinlock_init ∅) = Ok (fst <$> r) (in_mk c3 L spinlock_init m4)) as Hrun.
  { intros r c3 m3 m4 Hl Hu. unfold namei, namex. rewrite (bind_Ok _ _ _ (fst <$> r, take 13 e ++ 0 :: y) (in_mk c3 L spinlock_init m4)); [reflexivity|].
    change (((SLASH :: p) ++ 0 :: x) !! 0%nat) with (Some SLASH). rewrite (bind_Ok (deref (Some SLASH)) _ _ _ _ eq_refl), bool_decide_eq_true_2 by reflexivity.
    rewrite (bind_Ok _ _ _ _ _ (inode_get_first _ _ _)). rewrite length_app. cbn [length].
    replace (S (length p) + S (length x) + 1)%nat with (S (S (length p + length x + 1))) by lia.
    exact (namex_one _ 0 _ _ _ _ _ _ _ _ _ _ Hk Hk2 R1 (iget_mk _ _ _ _ 0 ltac:(done)) T1 Hl Hu). }
  destruct (list_find _ files) as [[i f]|].
  - set (m3 := <[1 := first_entry (2 + Z.of_nat i)]> m) in R2. assert (alook inode_zero m3 0 = alook inode_zero m 0) as E0 by (apply alook_insert_ne; lia).
    destruct (unlockput_run t c2 A L m3 0 Hrep2) as (c3 & m4 & R3 & Hrep3 & Ho); [done|rewrite E0; lia|by rewrite E0|rewrite E0; lia|].
    exists c3, m4. split; [exact Hrep3|]. split; [exact (Hrun _ _ _ _ R2 R3)|]. rewrite Ho by lia. apply alook_insert_eq.
  - destruct (unlockput_run t c2 A L m 0 Hrep2) as (c3 & m4 & R3 & Hrep3 & Ho); [done|lia|exact T3|lia|].
    exists c3, m4. split; [exact Hrep3|exact (Hrun _ _ _ _ R2 R3)].
Qed.

End Walk.

(** The arguments of the image builder: the image and the files to put there. *)
Definition mkfs_args (image old : list Z) (files : list (list Z * list Z)) : list (list Z * option (list Z)) :=
  (image, Some old) :: ((λ f, (f.1, Some f.2)) <$> files).

Lemma boot_walk t a s fs files pad p x e : sched_rep t a → mk_fs s fs → complete s →
  fs !! ROOTINO = Some (T_DIR, dir_of (root_entries files) ++ replicate (pad * 16) 0) →
  (∀ i f, files !! i = Some f → fs !! (2 + Z.of_nat i) = Some (T_FILE, f.2)) →
  Z.of_nat (length files) + 2 <= ninodes → Forall (λ f, is_str f.1) files →
  is_str p → components (SLASH :: p) = [e] → take 13 e ≠ [46] → take 13 e ≠ [46; 46] →
  ∃ s2, boot_file ((SLASH :: p) ++ 0 :: x) {| in_lg := lg_boot t (image_disk s); ic_lock := locked; icache := ∅ |} =
    Ok ((λ r, (Z.of_nat (length r.2.2), r.2.2)) <$> list_find (λ f, take DIRSIZ (short_name f.1) = take 13 e) files) s2.
Proof.
  intros Hsr Hfs Hcp Hroot Hfile Hn Hnm Hp Hc Hd1 Hd2. destruct (image_log s (mf_ok _ _ Hfs) Hcp) as [Hld Hh].
  destruct (boot_log t a (image_disk s) mk_log Hsr Hld Hh) as (c2 & L2 & A & R1 & Hrep & HA).
  assert (∀ n, 0 <= n < mk_log → content A (ROOTDEV, n) = vimg s n ∧ can_read A (ROOTDEV, n)) as HAD by (intros n Hn'; rewrite <- image_secs by exact Hcp; by apply HA).
  unfold boot_file. rewrite (bind_Ok _ _ _ () (in_mk c2 L2 locked ∅)) by (unfold zoom; cbn; by rewrite R1). clear R1.
  rewrite (bind_Ok _ _ _ () (in_mk c2 L2 spinlock_init ∅)) by reflexivity.
  destruct (namei_image t A L2 s fs files pad HAD Hfs Hroot Hn Hnm c2 p x e Hrep Hp Hc Hd1 Hd2) as (c3 & m & Hrep3 & R).
  destruct (list_find _ files) as [[i f]|] eqn:Ef; [|rewrite (bind_Ok _ _ _ _ _ R); eexists; reflexivity].
  destruct R as [R Hm]. rewrite (bind_Ok _ _ _ _ _ R). clear R. apply list_find_Some in Ef as (Hi & _ & _). apply Hfile in Hi.
  pose proof (image_file s fs _ _ _ Hfs Hi) as Hinv. pose proof (mf_file _ _ Hfs _ _ _ Hi) as [Q1 Q2 Qn Q3 Q4 Q5 Q6 Q7].
  destruct (lock_file t mk_log c3 L2 A m 1 (2 + Z.of_nat i) (vimg s) (node (vimg s) (2 + Z.of_nat i)) Hrep3 HAD Hinv) as (c4 & m4 & R4 & Hrep4 & Hw & _);
    [reflexivity|by rewrite Q2|unfold NINODE; lia|exact Hm|]. destruct Hw as (Hsame & _ & _ & _ & _ & Hinv4). rewrite (bind_Ok _ _ _ _ _ R4). clear R4.
  pose proof Hsame as (E1 & _ & _ & _ & E5 & _).
  destruct (inode_read_inv t mk_log c4 A L2 (vimg s) spinlock_init m4 1 0 (MAXFILE * BSIZE) Hrep4 HAD Hinv4) as (c5 & R5 & _);
    [unfold NINODE; lia|by rewrite E1, Q2|rewrite E5, Q3; lia|by vm_compute|]. cbv zeta in R5. rewrite (bind_Ok _ _ _ _ _ R5). clear R5. eexists.
  rewrite E5, Q3, Z.min_r by lia. simpl. rewrite (slice_data _ _ f.2); [|intros q Hq; rewrite (same_dinode_byte _ _ _ _ Hsame) by lia; by apply Q6|lia|lia|lia].
  rewrite Z.sub_0_r, Nat2Z.id. change (Z.to_nat 0) with 0%nat. by rewrite drop_0, firstn_all.
Qed.

(** Where no name is cut, the comparison of cut names is that of names. *)
Lemma find_uncut e files : (length e <= 13)%nat → Forall (λ f : list Z * list Z, (length (short_name f.1) <= 13)%nat) files →
  list_find (λ f, take DIRSIZ (short_name f.1) = take 13 e) files = list_find (λ f, short_name f.1 = e) files.
Proof.
  intros He Hall. induction Hall as [|f files Hf _ IH]; [done|]. cbn [list_find]. rewrite IH.
  by rewrite (decide_ext (take DIRSIZ (short_name f.1) = take 13 e) (short_name f.1 = e)) by (rewrite !take_ge by (unfold DIRSIZ; lia); done).
Qed.

(** C3: An image serves its files.  When the image builder is given files that fit, with
    names of at most 13 characters, and their number is not one that fills the root
    directory to the end of a block, it finishes, and a machine that starts from the image finds, for every
    absolute path of one name of at most 13 characters, the first file whose name (without
    a leading underscore) is that name, reads all its bytes and only them, and finds
    nothing when no file has the name. *)
Theorem mkfs_boot_file image old files : Z.of_nat (length files) + 2 <= ninodes → (Z.of_nat (length files) + 2) mod 32 ≠ 0 → Forall file_fits files →
  32 + demand files <= mk_log → Forall (λ f, is_str f.1) files → Forall (λ f, (length (short_name f.1) <= 13)%nat) files →
  ∃ s, main (mkfs_args image old files) mk_start = Ok () s ∧
    ∀ t a p x e, sched_rep t a → is_str p → components (SLASH :: p) = [e] → (length e <= 13)%nat → e ≠ [46] → e ≠ [46; 46] →
    ∃ s2, boot_file ((SLASH :: p) ++ 0 :: x) {| in_lg := lg_boot t (image_disk s); ic_lock := locked; icache := ∅ |} =
      Ok ((λ r, (Z.of_nat (length r.2.2), r.2.2)) <$> list_find (λ f, short_name f.1 = e) files) s2.
Proof.
  intros Hn H32 Hall Hroom Hnm Hsh. destruct (main_run image old files Hn H32 Hall Hroom) as (s & fs & R & Hfs & Hcp & (pad & Hroot) & Hfile).
  exists s. split; [exact R|]. clear R. intros t a p x e Hsr Hp Hc Hl Hd1 Hd2. rewrite <- find_uncut by done.
  apply (boot_walk t a s fs files pad); try assumption; [|by rewrite take_ge by lia..].
  rewrite Hroot, dir_bytes_of. reflexivity.
Qed.

(** The files "_sh" and "README"; the paths "/sh" and "//sed". *)
Definition sample_files : list (list Z * list Z) := [([95; 115; 104], [7; 8; 9]); ([82; 69; 65; 68; 77; 69], [104; 105])].

Lemma mkfs_boot_file_witness : ∃ s, main (mkfs_args [] [] sample_files) mk_start = Ok () s ∧
  (∃ s2, boot_file [47; 115; 104; 0] {| in_lg := lg_boot three (image_disk s); ic_lock := locked; icache := ∅ |} = Ok (Some (3, [7; 8; 9])) s2) ∧
  ∃ s2, boot_file [47; 47; 115; 101; 100; 0] {| in_lg := lg_boot three (image_disk s); ic_lock := locked; icache := ∅ |} = Ok None s2.
Proof.
  destruct (mkfs_boot_file [] [] sample_files) as (s & R & H).
  - vm_compute. discriminate.
  - vm_compute. discriminate.
  - unfold sample_files. repeat constructor; simpl; try (vm_compute; discriminate); unfold SLASH; rewrite !not_elem_of_cons; split_and!; try done; apply not_elem_of_nil.
  - vm_compute. discriminate.
  - unfold sample_files. repeat constructor; simpl; lia.
  - unfold sample_files. repeat constructor; simpl; lia.
  - exists s. split; [exact R|]. clear R. split.
    + apply (H three three_a [115; 104] [] [115; 104] three_rep); [repeat constructor; lia|reflexivity|simpl; lia|done|done].
    + apply (H three three_a [47; 115; 101; 100] [] [115; 101; 100] three_rep); [repeat constructor; lia|reflexivity|simpl; lia|done|done].
Defined.

(** ** Limits of the builder *)

(** A name of 14 characters or more fills its entry, while a path is cut to 13. *)
Lemma long_name_lost name e : (14 <= length (short_name name))%nat → take DIRSIZ (short_name name) ≠ take 13 e.
Proof. intros Hl H. apply (f_equal length) in H. rewrite !length_take in H. unfold DIRSIZ in H. lia. Qed.

(** With as many files as fill the blocks of the root directory, its size is rounded up by a
    whole block that has no address. *)
Lemma root_hole : match main (mkfs_args [] [] (replicate 30 ([97], []))) mk_start with
  | Ok _ s => (i_size (node (vimg s) ROOTINO), blk (vimg s) (node (vimg s) ROOTINO) 1)
  | _ => (0, 0)
  end = (1024, 0).
Proof. vm_compute. reflexivity. Qed.

(** The bitmap leaves the blocks of the log free: when the data blocks are used up the
    allocator of the kernel takes the head of the log. *)
Lemma full_image_takes_log : free_bit (Z.to_nat BPB) (bits mk_log) 0 fs_size 0 = Some mk_log.
Proof. vm_compute. reflexivity. Qed.
