(* ===== verification/Pipe.v ===== *)
(** * Pipes under concurrency (kern/fs/file.c)

    A pipe is a queue of at most 512 bytes.  The counters of its ring wrap at 32 bits.
    Any number of threads write, read, sleep, resume, yield and close in any order: no
    byte that a caller passed is lost, duplicated or reordered, and no wakeup is lost. *)

From S2P Require Import Prelude Spinlock Mboot PMem Container PageTable TCB TQueue Thread Sched.
From S2P Require Import UserCopy CString BufCache Log Inode Path File.

(** ** The ring *)

Record ring (v : pipe) (q : list Z) : Prop := {
  ring_read : is_u32 (nread v);
  ring_write : nwrite v = u32 (nread v + Z.of_nat (length q));
  ring_size : (length q <= 512)%nat;
  ring_at i c : q !! i = Some c → alook 0 (p_data v) ((nread v + Z.of_nat i) mod PIPESIZE) = c
}.

Lemma u32_mod x : u32 x mod PIPESIZE = x mod PIPESIZE.
Proof. unfold u32, W32, PIPESIZE. Z.div_mod_to_equations. lia. Qed.

Lemma ring_empty v q : ring v q → pipe_empty v = bool_decide (q = []).
Proof.
  intros [Hr Hw Hs _]. unfold pipe_empty. apply bool_decide_ext. rewrite Hw.
  unfold is_u32, u32, W32 in *. split.
  - intros H. destruct q; [done|]. simpl in *. exfalso. Z.div_mod_to_equations. lia.
  - intros ->. simpl. rewrite Z.add_0_r, Z.mod_small by lia. done.
Qed.

Lemma ring_full v q : ring v q → pipe_full v = bool_decide (length q = 512%nat).
Proof.
  intros [Hr Hw Hs _]. unfold pipe_full. apply bool_decide_ext. rewrite Hw.
  unfold is_u32, u32, W32, PIPESIZE in *. split.
  - intros H. Z.div_mod_to_equations. lia.
  - intros ->. done.
Qed.

Lemma ring_putc v q c : ring v q → (length q < 512)%nat → ring (pipe_putc c v) (q ++ [c]).
Proof.
  intros [Hr Hw Hs Ha] Hl. split; simpl; [done| | |].
  - rewrite Hw, u32_add_l, length_app. simpl. f_equal. lia.
  - rewrite length_app. simpl. lia.
  - intros i x Hi. rewrite Hw, u32_mod, alook_insert. apply lookup_app_Some in Hi as [Hi|[Hi Hx]].
    + apply lookup_lt_Some in Hi as Hlt. rewrite decide_False; [by apply Ha|].
      unfold PIPESIZE. Z.div_mod_to_equations. lia.
    + destruct (i - length q)%nat eqn:E; [|done]. injection Hx as ->.
      rewrite decide_True; [done|]. f_equal. lia.
Qed.

Lemma ring_getc v c q : ring v (c :: q) → ∃ v', pipe_getc v = (c, v') ∧ ring v' q ∧
  readopen v' = readopen v ∧ writeopen v' = writeopen v ∧ p_ref v' = p_ref v.
Proof.
  intros [Hr Hw Hs Ha]. eexists. split; [unfold pipe_getc; f_equal|].
  - specialize (Ha O c eq_refl). by rewrite Z.add_0_r in Ha.
  - split; [|done]. split; simpl in *.
    + apply u32_range.
    + rewrite Hw, u32_add_l. f_equal. lia.
    + lia.
    + intros i x Hi. rewrite <- (Ha (S i) x Hi). f_equal.
      rewrite <- (Zplus_mod_idemp_l (u32 _)), u32_mod, Zplus_mod_idemp_l. f_equal. lia.
Qed.

Lemma fill_spec bs v q :
  ring v q →
  let k := Nat.min (length bs) (512 - length q) in
  ∃ v', pipe_fill bs v = (drop k bs, v') ∧ ring v' (q ++ take k bs) ∧
    readopen v' = readopen v ∧ writeopen v' = writeopen v ∧ nread v' = nread v.
Proof.
  revert v q. induction bs as [|c bs IH]; intros v q Hr; simpl.
  { exists v. by rewrite app_nil_r. }
  rewrite (ring_full v q Hr). case_bool_decide as Hf.
  - rewrite Hf. simpl. exists v. by rewrite app_nil_r.
  - pose proof (ring_size v q Hr) as Hs.
    destruct (IH (pipe_putc c v) (q ++ [c])) as (v' & H1 & H2 & H3); [apply ring_putc; [done|lia]|].
    rewrite length_app in H1, H2. simpl in H1, H2.
    destruct (512 - length q)%nat as [|j] eqn:E; [lia|]. simpl.
    replace (512 - (length q + 1))%nat with j in H1, H2 by lia.
    exists v'. rewrite <- app_assoc in H2. done.
Qed.

Lemma drain_spec n v q :
  ring v q →
  ∃ v', pipe_drain n v = (take n q, v') ∧ ring v' (drop n q) ∧
    readopen v' = readopen v ∧ writeopen v' = writeopen v ∧ p_ref v' = p_ref v.
Proof.
  revert v q. induction n as [|n IH]; intros v q Hr; cbn [pipe_drain].
  { exists v. by rewrite take_0, drop_0. }
  rewrite (ring_empty v q Hr). destruct q as [|c q].
  - rewrite bool_decide_eq_true_2 by done. by exists v.
  - rewrite bool_decide_eq_false_2 by done. destruct (ring_getc v c q Hr) as (v1 & -> & Hr1 & H1 & H2 & H3).
    destruct (IH v1 q Hr1) as (v' & -> & Hr' & ? & ? & ?). exists v'. simpl. split; [done|].
    split; [done|]. split_and!; congruence.
Qed.

(** ** Segments *)

Definition plook (s : fs_state) (p : Z) : pipe := alook pipe_zero (pipes s) p.

#[global, program] Instance pc_lkref_ok : LockRef pc_lkref.
Next Obligation. done. Qed.
Next Obligation. done. Qed.
Next Obligation. done. Qed.

Notation thv := (view (C:=th_state)).

Lemma sleep_resume_run (s : th_state) a :
  sched_rep s a →
  ∃ s', (sched_acquire ;; th_set_chan (cur a) None ;; sched_release) s = Ok () s' ∧ sched_rep s' a ∧
        th_frame s s'.
Proof.
  intros [Hlk [Hcur Hrg Hq Hfr Hrun Hrd Has]]. unfold sched_acquire.
  rewrite (bind_Ok _ _ _ _ _ (spinlock_acquire_free _ _ s Hlk)).
  rewrite (bind_Ok _ _ _ _ _ (th_set_chan_Ok _ _ Hrg _)).
  eexists. split; [reflexivity|].
  assert (∀ p, state (tb (set_tb (cur a) (with_channel None (tb s (cur a))) s) p) = state (tb s p)) as Hst.
  { intros p. rewrite tb_set_tb. case_decide as Hp; [by subst|done]. }
  split.
  - split; [done|]. split; try done.
    + apply (queue_rep_links (th_tq s)); done.
    + rewrite <- Hrun. apply Hst.
    + intros p Hp. rewrite <- (Hrd p Hp). apply Hst.
    + intros p c. rewrite Has. destruct (decide (cur a = p)) as [<-|Hne].
      * change (tb _ (cur a)) with (tb (set_tb (cur a) (with_channel None (tb s (cur a))) s) (cur a)) at 3.
        split; [intros (_ & H & _); congruence|]. intros (_ & H & _).
        assert (state (tb (set_tb (cur a) (with_channel None (tb s (cur a))) s) (cur a)) = TSTATE_SLEEP) by exact H.
        rewrite Hst in *. congruence.
      * assert (tb (set_tb (cur a) (with_channel None (tb s (cur a))) s) p = tb s p) as Hp
          by (rewrite tb_set_tb; by rewrite decide_False).
        split; intros (? & H1 & H2); (split; [done|]); split.
        -- rewrite <- H1. exact (f_equal state Hp).
        -- rewrite <- H2. exact (f_equal channel Hp).
        -- rewrite <- H1. symmetry. exact (f_equal state Hp).
        -- rewrite <- H2. symmetry. exact (f_equal channel Hp).
  - split; [done|]. split; [|done]. intros p.
    change (own_data (tb (set_tb (cur a) (with_channel None (tb s (cur a))) s) p) = own_data (tb s p)).
    rewrite tb_set_tb. case_decide as Hp; [by subst|done].
Qed.

Lemma wakeup_zoom (s : fs_state) a c :
  sched_rep (thv s) a →
  ∃ t, zoom (thread_wakeup (Some c)) s = Ok () (put t s) ∧ sched_rep t (a_wakeup c a).
Proof.
  intros Ha. destruct (thread_wakeup_run _ a c Ha) as (t & Hr & Hrep & _).
  exists t. split; [exact (zoom_Ok (S:=fs_state) _ s _ _ Hr)|done].
Qed.

(** A sleep that is entered finds another thread to run. *)
Lemma sleep_zoom (s : fs_state) a c x s' :
  sched_rep (thv s) a → thread_sleep_enter c (Some pc_lkref) s = Ok x s' →
  ∃ t a', a_sleep c a = Some a' ∧ s' = put t (set_pc_lock spinlock_init s) ∧ sched_rep t a'.
Proof.
  intros Ha Hr. destruct (a_sleep c a) as [a'|] eqn:E.
  - destruct (thread_sleep_run pc_lkref s a a' c Ha E) as (t & s1 & H1 & _ & H2 & _ & Ht & _).
    rewrite H1 in Hr. injection Hr as _ <-. exists t, a'. split; [done|]. split; [|done].
    rewrite H2. simpl. by destruct s as [[[[]]]].
  - exfalso. unfold a_sleep in E. destruct (ready a) eqn:Er; [|done].
    destruct Ha as [Hlk Hcore].
    assert (sched_core (set_sched_lk locked (thv s)) a) as Hcore' by (destruct Hcore; by split).
    unfold thread_sleep_enter in Hr.
    assert (zoom get_curid s = Ok (cur a) s) as Hc.
    { pose proof (zoom_Ok (S:=fs_state) get_curid s (cur a) (thv s)) as Hz. rewrite put_view in Hz.
      apply Hz. unfold get_curid. rewrite aget_Ok by done. by rewrite (sr_cur _ _ Hcore). }
    rewrite (bind_Ok _ _ _ _ _ Hc) in Hr.
    pose proof (spinlock_acquire_free sched_lk set_sched_lk (thv s) Hlk) as Hq.
    rewrite (bind_Ok _ _ _ _ _ (zoom_Ok (S:=fs_state) sched_acquire s _ _ Hq)) in Hr.
    unfold spinlock_release in Hr. rewrite (bind_Ok _ _ _ _ _ (modify_Ok _ _)) in Hr.
    set (s2 := lk_set pc_lkref _ _) in Hr.
    assert (thv s2 = set_sched_lk locked (thv s)) as Hv2 by done.
    apply bind_inv in Hr as (? & ? & Hr & _). unfold zoom at 1 in Hr.
    pose proof (sleep_core_empty _ a c Hcore' Er) as Hu. rewrite <- Hv2 in Hu.
    change (@view fs_state th_state fl_th_lens s2) with (thv s2) in Hr.
    rewrite Hu in Hr. done.
Qed.

(** What a segment on the pipe [p] that starts in [s] leaves. *)
Record pipe_at (s s' : fs_state) (a : sched) (p : Z) (v : pipe) : Prop := {
  pa_sched : sched_rep (thv s') a;
  pa_lock : pc_lock s' = spinlock_init;
  pa_pipe : plook s' p = v;
  pa_other p' : p' ≠ p → plook s' p' = plook s p'
}.

Lemma plook_other s p v p' : p' ≠ p → plook (upd_pipes <[p := v]> s) p' = plook s p'.
Proof. intros ?. by apply alook_insert_ne. Qed.

Section Segments.
Context (s : fs_state) (a : sched) (p : Z) (v : pipe) (q : list Z).
Context (Hsr : sched_rep (thv s) a) (Hp : 0 <= p < NPIPE).
Context (Hv : plook s p = v) (Hring : ring v q).

Lemma write_seg_inv bs n r s' :
  pipe_write_seg p bs n s = Ok r s' →
  let k := Nat.min (length bs) (512 - length q) in
  ∃ a' v', pipe_at s s' a' p v' ∧ ring v' (q ++ take k bs) ∧
    readopen v' = readopen v ∧ nread v' = nread v ∧
    (k = length bs ∧ r = SegDone n ∧ a' = a_wakeup (ChNread p) a ∨
     (k < length bs)%nat ∧ readopen v = 0 ∧ r = SegDone (-1) ∧ a' = a ∨
     (k < length bs)%nat ∧ readopen v ≠ 0 ∧ r = SegSleep (drop k bs) ∧
       a_sleep (ChNwrite p) (a_wakeup (ChNread p) a) = Some a').
Proof.
  unfold pipe_write_seg, pget, pset. rewrite (bind_Ok _ _ _ _ _ (aget_Ok _ _ _ _ s Hp)).
  fold (plook s p). rewrite Hv. intros Hrun. set (k := Nat.min (length bs) (512 - length q)).
  destruct (fill_spec bs v q Hring) as (v' & Hf & Hr' & Hro & _ & Hnr). fold k in Hf, Hr'.
  rewrite Hf in Hrun. rewrite (bind_Ok _ _ _ _ _ (aset_Ok _ _ _ _ s Hp)) in Hrun.
  set (s1 := upd_pipes <[p := v']> s) in Hrun.
  assert (plook s1 p = v') as Hl1 by apply alook_insert_eq.
  assert (∀ p', p' ≠ p → plook s1 p' = plook s p') as Ho by (intros p'; apply plook_other).
  assert (k <= length bs)%nat as Hk by (unfold k; lia).
  destruct (drop k bs) as [|c rest] eqn:Ed.
  - assert (k = length bs) as Hkl.
    { apply (f_equal length) in Ed. rewrite length_drop in Ed. simpl in Ed. lia. }
    destruct (wakeup_zoom s1 a (ChNread p) Hsr) as (t & Hw & Ht).
    rewrite (bind_Ok _ _ _ _ _ Hw) in Hrun. injection Hrun as <- <-.
    eexists _, v'. split; [split; [exact Ht|done|done|exact Ho]|]. split; [done|]. split; [done|]. split; [done|].
    left. done.
  - assert (k < length bs)%nat as Hkl.
    { apply (f_equal length) in Ed. rewrite length_drop in Ed. simpl in Ed. lia. }
    rewrite Hro in Hrun. case_bool_decide as Hc.
    + injection Hrun as <- <-. eexists a, v'. split; [split; [exact Hsr|done|done|exact Ho]|]. split; [done|]. split; [done|].
      split; [done|]. right. left. done.
    + destruct (wakeup_zoom s1 a (ChNread p) Hsr) as (t & Hw & Ht).
      rewrite (bind_Ok _ _ _ _ _ Hw) in Hrun.
      apply bind_inv in Hrun as (x & s2 & Hs & Hrun). injection Hrun as <- <-.
      destruct (sleep_zoom (put t s1) (a_wakeup (ChNread p) a) (ChNwrite p) x s2) as (t2 & a' & Ha' & -> & Ht2);
        [by rewrite view_put|done|].
      exists a', v'. split; [split; [by rewrite view_put|done|done|exact Ho]|]. split; [done|]. split; [done|].
      split; [done|]. right. right. done.
Qed.

Lemma read_seg_inv n r s' :
  pipe_read_seg p n s = Ok r s' →
  ∃ a' v' , pipe_at s s' a' p v' ∧ readopen v' = readopen v ∧ writeopen v' = writeopen v ∧
    (q = [] ∧ writeopen v ≠ 0 ∧ v' = v ∧ r = SegSleep () ∧ a_sleep (ChNread p) a = Some a' ∨
     (q ≠ [] ∨ writeopen v = 0) ∧ ring v' (drop (Z.to_nat n) q) ∧ r = SegDone (take (Z.to_nat n) q) ∧
       a' = a_wakeup (ChNwrite p) a).
Proof.
  unfold pipe_read_seg, pget, pset. rewrite (bind_Ok _ _ _ _ _ (aget_Ok _ _ _ _ s Hp)).
  fold (plook s p). rewrite Hv, (ring_empty v q Hring). intros Hrun.
  destruct (bool_decide (q = []) && bool_decide (writeopen v ≠ 0)) eqn:E.
  - apply andb_true_iff in E as [E1%bool_decide_eq_true E2%bool_decide_eq_true].
    apply bind_inv in Hrun as (x & s2 & Hs & Hrun). injection Hrun as <- <-.
    destruct (sleep_zoom s a (ChNread p) x s2 Hsr Hs) as (t2 & a' & Ha' & -> & Ht2).
    exists a', v. split; [split; [by rewrite view_put|done|done|done]|]. split; [done|]. split; [done|]. by left.
  - destruct (drain_spec (Z.to_nat n) v q Hring) as (v' & Hd & Hr' & Hro & Hwo & _). rewrite Hd in Hrun.
    rewrite (bind_Ok _ _ _ _ _ (aset_Ok _ _ _ _ s Hp)) in Hrun.
    destruct (wakeup_zoom (upd_pipes <[p := v']> s) a (ChNwrite p) Hsr) as (t & Hw & Ht).
    rewrite (bind_Ok _ _ _ _ _ Hw) in Hrun. injection Hrun as <- <-.
    eexists _, v'. split; [split; [exact Ht|done|apply alook_insert_eq|intros p'; apply plook_other]|]. split; [done|]. split; [done|].
    right. split; [|done]. destruct (decide (q = [])) as [->|]; [|by left]. right.
    rewrite bool_decide_eq_true_2 in E by done. simpl in E. apply bool_decide_eq_false in E.
    destruct (decide (writeopen v = 0)); [done|tauto].
Qed.
End Segments.

Lemma pget_range (s : fs_state) p v s' : pget p s = Ok v s' → 0 <= p < NPIPE.
Proof. unfold pget, aget. by case_bool_decide. Qed.

(** ** Who sleeps on a pipe *)

(** A reader waits only for bytes that are not there, a writer only for room that is not
    there.  Thread 0 is left out, which [thread_wakeup] never wakes. *)
Definition sleepers_ok (a : sched) (p : Z) (v : pipe) (q : list Z) : Prop :=
  ∀ t, 1 <= t →
    (asleep a !! t = Some (ChNread p) → readopen v ≠ 0 → q = [] ∧ writeopen v ≠ 0) ∧
    (asleep a !! t = Some (ChNwrite p) → readopen v ≠ 0 ∧ length q = 512%nat).

Lemma asleep_wakeup c a t d :
  asleep (a_wakeup c a) !! t = Some d ↔ asleep a !! t = Some d ∧ ¬ (1 <= t ∧ d = c).
Proof. simpl. by rewrite map_lookup_filter_Some. Qed.

Lemma asleep_sleep c a a' t d :
  a_sleep c a = Some a' → asleep a' !! t = Some d → d = c ∨ asleep a !! t = Some d.
Proof.
  unfold a_sleep. destruct (ready a); [done|]. intros [= <-]. simpl.
  rewrite lookup_insert_Some. naive_solver.
Qed.

Lemma sleepers_sub a a' p v q :
  (∀ t d, 1 <= t → asleep a' !! t = Some d → asleep a !! t = Some d) →
  sleepers_ok a p v q → sleepers_ok a' p v q.
Proof. intros Hsub Hok t Ht. destruct (Hok t Ht) as [H1 H2]. split; eauto. Qed.

Lemma sleepers_wakeup c a p v q : sleepers_ok a p v q → sleepers_ok (a_wakeup c a) p v q.
Proof. apply sleepers_sub. intros t d _ [? _]%asleep_wakeup. done. Qed.

Lemma sleepers_yield a p v q : sleepers_ok a p v q → sleepers_ok (a_yield a) p v q.
Proof. apply sleepers_sub. intros t d _. unfold a_yield. by destruct (ready a ++ _). Qed.

(** Sleeping on another channel. *)
Lemma sleepers_sleep_other c a a' p v q :
  a_sleep c a = Some a' → c ≠ ChNread p → c ≠ ChNwrite p → sleepers_ok a p v q → sleepers_ok a' p v q.
Proof.
  intros Hs H1 H2 Hok t Ht. destruct (Hok t Ht) as [Hr Hw].
  split; intros [?|?]%(asleep_sleep _ _ _ _ _ Hs); try congruence; eauto.
Qed.

(** After a wakeup of the readers, only writers matter, and the other way round. *)
Lemma sleepers_woken_read a p v q v' q' :
  sleepers_ok a p v q → readopen v' = readopen v → (length q = 512 → q' = q)%nat →
  sleepers_ok (a_wakeup (ChNread p) a) p v' q'.
Proof.
  intros Hok Hro Hq t Ht. destruct (Hok t Ht) as [_ Hw].
  split; intros [Ha Hn]%asleep_wakeup.
  - by destruct Hn.
  - destruct (Hw Ha) as [? Hl]. rewrite Hro, (Hq Hl). done.
Qed.

Lemma sleepers_woken_write a p v q v' q' :
  sleepers_ok a p v q →
  (readopen v' ≠ 0 → readopen v ≠ 0 ∧ (q ≠ [] ∨ writeopen v = 0)) →
  sleepers_ok (a_wakeup (ChNwrite p) a) p v' q'.
Proof.
  intros Hok Hro t Ht. destruct (Hok t Ht) as [Hr _].
  split; intros [Ha Hn]%asleep_wakeup.
  - intros [Hv Hor]%Hro. destruct (Hr Ha Hv). by destruct Hor.
  - by destruct Hn.
Qed.

Lemma sleepers_sleep_write a a' p v q :
  a_sleep (ChNwrite p) (a_wakeup (ChNread p) a) = Some a' → readopen v ≠ 0 → length q = 512%nat →
  sleepers_ok a' p v q.
Proof.
  intros Hs Hro Hq t Ht. split; [|done]. intros [?|[_ Hn]%asleep_wakeup]%(asleep_sleep _ _ _ _ _ Hs); [done|].
  by destruct Hn.
Qed.

Lemma sleepers_sleep_read a a' p v :
  sleepers_ok a p v [] → a_sleep (ChNread p) a = Some a' → writeopen v ≠ 0 → sleepers_ok a' p v [].
Proof.
  intros Hok Hs Hwo t Ht. destruct (Hok t Ht) as [_ Hw]. split; [done|].
  intros [?|?]%(asleep_sleep _ _ _ _ _ Hs); [done|auto].
Qed.

(** ** Threads and pipes

    The calls of all threads on all pipes, cut where a thread goes to sleep.  [ps_cont]
    holds the calls that sleep, [ps_calls] for every thread and pipe the bytes of each of
    its writes with what the call returned, the latest first, and [ps_out] the bytes that
    the reads of a pipe returned since the start. *)

Inductive pcont := CWrite (p : Z) (rest : list Z) (n : Z) | CRead (p n : Z).

(** The bytes that a caller passed, and the result unless the call is still going on. *)
Definition wcall : Type := list Z * option Z.

Record psys := {
  ps_fs : fs_state; ps_cont : gmap Z pcont; ps_calls : Z → Z → list wcall; ps_out : Z → list Z
}.

Definition running (s : fs_state) : Z := alook 0 (CURID (thv s)) cpu_idx.

Definition got (r : seg (list Z) ()) : list Z := match r with SegDone bs => bs | SegSleep _ => [] end.

Definition push (p : Z) (bs : list Z) (h : Z → list Z) : Z → list Z :=
  λ p', if decide (p' = p) then h p' ++ bs else h p'.

Definition returned (r : seg Z (list Z)) : option Z := match r with SegDone n => Some n | SegSleep _ => None end.

(** What a step of a thread does to its calls on a pipe. *)
Definition note (t p : Z) (f : list wcall → list wcall) (h : Z → Z → list wcall) : Z → Z → list wcall :=
  λ t' p', if decide (t' = t ∧ p' = p) then f (h t' p') else h t' p'.

Definition ends_with (r : seg Z (list Z)) (cs : list wcall) : list wcall :=
  match cs with [] => [] | (bs, _) :: cs => (bs, returned r) :: cs end.

Definition write_cont (t p n : Z) (r : seg Z (list Z)) (K : gmap Z pcont) : gmap Z pcont :=
  match r with SegDone _ => delete t K | SegSleep rest => <[t := CWrite p rest n]> K end.
Definition read_cont (t p n : Z) (r : seg (list Z) ()) (K : gmap Z pcont) : gmap Z pcont :=
  match r with SegDone _ => delete t K | SegSleep _ => <[t := CRead p n]> K end.

Inductive pipe_step : psys → psys → Prop :=
| step_write s K h o p bs r s' :
    K !! running s = None → pipe_write_begin p bs (Z.of_nat (length bs)) s = Ok r s' →
    pipe_step {| ps_fs := s; ps_cont := K; ps_calls := h; ps_out := o |}
      {| ps_fs := s'; ps_cont := write_cont (running s) p (Z.of_nat (length bs)) r K;
         ps_calls := note (running s) p (cons (bs, returned r)) h; ps_out := o |}
| step_write_resume s K h o p rest n r s' :
    K !! running s = Some (CWrite p rest n) → pipe_write_resume (running s) p rest n s = Ok r s' →
    pipe_step {| ps_fs := s; ps_cont := K; ps_calls := h; ps_out := o |}
      {| ps_fs := s'; ps_cont := write_cont (running s) p n r K;
         ps_calls := note (running s) p (ends_with r) h; ps_out := o |}
| step_read s K h o p n r s' :
    K !! running s = None → pipe_read_begin p n s = Ok r s' →
    pipe_step {| ps_fs := s; ps_cont := K; ps_calls := h; ps_out := o |}
      {| ps_fs := s'; ps_cont := read_cont (running s) p n r K; ps_calls := h;
         ps_out := push p (got r) o |}
| step_read_resume s K h o p n r s' :
    K !! running s = Some (CRead p n) → pipe_read_resume (running s) p n s = Ok r s' →
    pipe_step {| ps_fs := s; ps_cont := K; ps_calls := h; ps_out := o |}
      {| ps_fs := s'; ps_cont := read_cont (running s) p n r K; ps_calls := h;
         ps_out := push p (got r) o |}
| step_close s K h o p w s' :
    K !! running s = None → pipe_close p w s = Ok () s' →
    pipe_step {| ps_fs := s; ps_cont := K; ps_calls := h; ps_out := o |}
      {| ps_fs := s'; ps_cont := K; ps_calls := h; ps_out := o |}
| step_yield s K h o s' :
    zoom thread_yield s = Ok () s' →
    pipe_step {| ps_fs := s; ps_cont := K; ps_calls := h; ps_out := o |}
      {| ps_fs := s'; ps_cont := K; ps_calls := h; ps_out := o |}
| step_wakeup s K h o c s' :
    zoom (thread_wakeup (Some c)) s = Ok () s' →
    pipe_step {| ps_fs := s; ps_cont := K; ps_calls := h; ps_out := o |}
      {| ps_fs := s'; ps_cont := K; ps_calls := h; ps_out := o |}.

(** What a thread may have put into a pipe by its calls: all bytes of a call that returned
    their number, the first ones of a call that failed or is not finished. *)
Inductive contrib : list wcall → list Z → Prop :=
| contrib_nil : contrib [] []
| contrib_done cs l bs : contrib cs l → contrib ((bs, Some (Z.of_nat (length bs))) :: cs) (l ++ bs)
| contrib_part cs l bs r k : r = None ∨ r = Some (-1) → contrib cs l → contrib ((bs, r) :: cs) (l ++ take k bs).

(** The bytes of one thread in a stream of bytes with their writers. *)
Definition bytes_of (t : Z) (w : list (Z * Z)) : list Z := (filter (λ x, x.1 = t) w).*2.

(** A call that sleeps has put in its bytes but [rest]; the other calls are finished. *)
Definition thread_wrote (k : option pcont) (p : Z) (cs : list wcall) (l : list Z) : Prop :=
  match k with
  | Some (CWrite p' rest n) =>
      if decide (p' = p) then
        ∃ done cs' l', cs = (done ++ rest, None) :: cs' ∧ n = Z.of_nat (length (done ++ rest)) ∧ contrib cs' l' ∧ l = l' ++ done
      else contrib cs l
  | _ => contrib cs l
  end.

(** The pipe [p] holds what was put in and not yet taken. *)
Record pipe_ok (a : sched) (v : pipe) (p : Z) (i o q : list Z) : Prop := {
  po_ring : ring v q;
  po_fifo : i = o ++ q;
  po_sleep : sleepers_ok a p v q
}.

Record psys_inv (c : psys) (a : sched) : Prop := {
  pi_sched : sched_rep (thv (ps_fs c)) a;
  pi_lock : pc_lock (ps_fs c) = spinlock_init;
  pi_pipe p : ∃ w q, pipe_ok a (plook (ps_fs c) p) p w.*2 (ps_out c p) q ∧
    ∀ t, thread_wrote (ps_cont c !! t) p (ps_calls c t p) (bytes_of t w)
}.

(** Threads that wait for other pipes are not disturbed. *)
Definition others (p : Z) (a a' : sched) : Prop :=
  ∀ p' v q, p' ≠ p → sleepers_ok a p' v q → sleepers_ok a' p' v q.

Lemma others_refl p a : others p a a.
Proof. by intros p' v q. Qed.

Lemma others_wakeup p c a : others p a (a_wakeup c a).
Proof. intros p' v q _. apply sleepers_wakeup. Qed.

Lemma others_sleep p c a a' :
  c = ChNread p ∨ c = ChNwrite p → a_sleep c a = Some a' → others p a a'.
Proof. intros Hc Hs p' v q Hp. apply (sleepers_sleep_other c); [done|naive_solver..]. Qed.

Lemma others_trans p a1 a2 a3 : others p a1 a2 → others p a2 a3 → others p a1 a3.
Proof. intros H1 H2 p' v q Hp ?. eauto. Qed.

#[local] Hint Resolve others_refl others_wakeup others_sleep others_trans : core.

(** What a call on the pipe [p] does to the invariant. *)
Definition pipe_moves (s s' : fs_state) (a : sched) (p : Z) (i o i' o' : list Z) : Prop :=
  ∃ a' q', pipe_at s s' a' p (plook s' p) ∧ pipe_ok a' (plook s' p) p i' o' q' ∧ others p a a'.

(** How many of the bytes went in, and how the segment ended. *)
Definition write_ends (bs : list Z) (n : Z) (k : nat) (r : seg Z (list Z)) : Prop :=
  r = SegDone n ∧ k = length bs ∨ r = SegDone (-1) ∨ r = SegSleep (drop k bs).

Lemma write_seg_moves s a p bs n r s' i o q :
  sched_rep (thv s) a → pipe_ok a (plook s p) p i o q →
  pipe_write_seg p bs n s = Ok r s' → ∃ k, pipe_moves s s' a p i o (i ++ take k bs) o ∧ write_ends bs n k r.
Proof.
  intros Hsr [Hring Hfifo Hok] Hrun.
  assert (0 <= p < NPIPE) as Hp by (apply bind_inv in Hrun as (? & ? & H & _); by eapply pget_range).
  destruct (write_seg_inv s a p _ q Hsr Hp eq_refl Hring bs n r s' Hrun)
    as (a' & v' & Hat & Hr' & Hro & Hnr & Hcase). destruct Hat as [Ha' Hlk' Hv' Hoth]. subst v'.
  set (k := Nat.min (length bs) (512 - length q)) in *. exists k. split; [|unfold write_ends; naive_solver].
  exists a', (q ++ take k bs). split; [by split|]. split; [split|].
  - done.
  - by rewrite Hfifo, app_assoc.
  - destruct Hcase as [(Hk & _ & ->)|[(Hk & Hr0 & _ & ->)|(Hk & Hr0 & _ & Hs)]].
    + apply (sleepers_woken_read a p (plook s p) q); [done..|]. intros Hq.
      assert (k = O) as -> by (unfold k; lia). by rewrite take_0, app_nil_r.
    + intros t Ht. destruct (Hok t Ht) as [_ Hw]. split; [congruence|].
      intros H. destruct (Hw H). congruence.
    + apply (sleepers_sleep_write a); [done|congruence|].
      pose proof (ring_size _ _ Hring). rewrite length_app, length_take. unfold k in *. lia.
  - destruct Hcase as [(Hk & _ & ->)|[(Hk & Hr0 & _ & ->)|(Hk & Hr0 & _ & Hs)]]; eauto.
Qed.

Lemma read_seg_moves s a p n r s' i o q :
  sched_rep (thv s) a → pipe_ok a (plook s p) p i o q →
  pipe_read_seg p n s = Ok r s' → pipe_moves s s' a p i o i (o ++ got r).
Proof.
  intros Hsr [Hring Hfifo Hok] Hrun.
  assert (0 <= p < NPIPE) as Hp by (apply bind_inv in Hrun as (? & ? & H & _); by eapply pget_range).
  destruct (read_seg_inv s a p _ q Hsr Hp eq_refl Hring n r s' Hrun)
    as (a' & v' & Hat & Hro & Hwo & Hcase). destruct Hat as [Ha' Hlk' Hv' Hoth]. subst v'.
  destruct Hcase as [(-> & Hw & Hv & -> & Hs)|(Hq & Hr' & -> & ->)].
  - exists a', []. rewrite Hv. split; [by split|]. simpl. split; [split|]; [done|by rewrite app_nil_r|..|eauto].
    by apply (sleepers_sleep_read a).
  - exists (a_wakeup (ChNwrite p) a), (drop (Z.to_nat n) q). split; [by split|]. simpl.
    split; [split|]; [done|by rewrite <- app_assoc, take_drop|..|auto].
    apply (sleepers_woken_write a p (plook s p) q); [done|]. by rewrite Hro.
Qed.

Lemma pc_acquire_run (s : fs_state) :
  pc_lock s = spinlock_init → pc_acquire s = Ok () (set_pc_lock locked s).
Proof. apply spinlock_acquire_free. Qed.

(** The pipe [p] after a change that keeps its bytes. *)
Definition keeps_bytes (s s' : fs_state) (a : sched) (p : Z) (q : list Z) : Prop :=
  sched_rep (thv s') a ∧ ring (plook s' p) q ∧ sleepers_ok a p (plook s' p) q ∧
  ∀ p', p' ≠ p → plook s' p' = plook s p'.

Lemma shut_run s a p w s' q :
  sched_rep (thv s) a → ring (plook s p) q → sleepers_ok a p (plook s p) q →
  pipe_shut p w s = Ok () s' → ∃ c, keeps_bytes s s' (a_wakeup c a) p q.
Proof.
  intros Hsr Hring Hok Hrun.
  assert (0 <= p < NPIPE) as Hp by (apply bind_inv in Hrun as (? & ? & H & _); by eapply pget_range).
  unfold pipe_shut, pget, pset in Hrun. rewrite (bind_Ok _ _ _ _ _ (aget_Ok _ _ _ _ _ Hp)) in Hrun.
  fold (plook s p) in Hrun.
  assert (∀ v c, zoom (thread_wakeup (Some c)) (upd_pipes <[p := v]> s) = Ok () s' → ring v q →
    sleepers_ok (a_wakeup c a) p v q → keeps_bytes s s' (a_wakeup c a) p q) as Hk.
  { intros v c Hz Hr Ho. destruct (wakeup_zoom (upd_pipes <[p := v]> s) a c Hsr) as (t & Hz' & Ht).
    rewrite Hz in Hz'. injection Hz' as Hs'.
    assert (plook s' p = v) as Hl by (rewrite Hs'; apply alook_insert_eq).
    unfold keeps_bytes. rewrite Hl. split; [by rewrite Hs'|]. split; [done|]. split; [done|].
    intros p'. rewrite Hs'. apply (plook_other s). }
  case_bool_decide; rewrite (bind_Ok _ _ _ _ _ (aset_Ok _ _ _ _ s Hp)) in Hrun; eexists;
    apply (Hk _ _ Hrun); try (by destruct Hring).
  - by apply (sleepers_woken_read a p (plook s p) q).
  - by apply (sleepers_woken_write a p (plook s p) q).
Qed.

Lemma reclaim_run s a p s' q :
  keeps_bytes s s a p q → pipe_reclaim p s = Ok () s' → keeps_bytes s s' a p q.
Proof.
  intros (Hsr & Hring & Hok & _) Hrun.
  assert (0 <= p < NPIPE) as Hp by (apply bind_inv in Hrun as (? & ? & H & _); by eapply pget_range).
  unfold pipe_reclaim, pget, pset in Hrun. rewrite (bind_Ok _ _ _ _ _ (aget_Ok _ _ _ _ _ Hp)) in Hrun.
  fold (plook s p) in Hrun. destruct (bool_decide _ && bool_decide _).
  - rewrite (aset_Ok _ _ _ _ s Hp) in Hrun. injection Hrun as <-.
    assert (∀ v, plook (upd_pipes <[p := v]> s) p = v) as Hl by (intros; apply alook_insert_eq).
    unfold keeps_bytes. rewrite Hl. split; [exact Hsr|]. split; [by destruct Hring|]. split; [done|].
    intros p'. apply plook_other.
  - by injection Hrun as <-.
Qed.

Lemma close_moves s a p w s' i o q :
  sched_rep (thv s) a → pc_lock s = spinlock_init → pipe_ok a (plook s p) p i o q →
  pipe_close p w s = Ok () s' → pipe_moves s s' a p i o i o.
Proof.
  intros Hsr Hlk [Hring Hfifo Hok] Hrun. unfold pipe_close in Hrun.
  rewrite (bind_Ok _ _ _ _ _ (pc_acquire_run s Hlk)) in Hrun.
  apply bind_inv in Hrun as ([] & s1 & Hr1 & Hrun). apply bind_inv in Hrun as ([] & s2 & Hr2 & Hrun).
  injection Hrun as <-.
  destruct (shut_run (set_pc_lock locked s) a p w s1 q Hsr Hring Hok Hr1) as (c & Hs1 & Hg1 & Ho1 & Ho1').
  destruct (reclaim_run s1 (a_wakeup c a) p s2 q) as (Hs2 & Hg2 & Ho2 & Ho2'); [by split_and!|done|].
  exists (a_wakeup c a), q. split; [|by split; [split|auto]].
  split; [exact Hs2|done|done|]. intros p' Hp'. change (plook s2 p' = plook s p').
  rewrite (Ho2' p' Hp'). exact (Ho1' p' Hp').
Qed.

Lemma resume_run (s : fs_state) a :
  sched_rep (thv s) a → pc_lock s = spinlock_init →
  ∃ s1, thread_sleep_resume (running s) pc_lkref s = Ok () s1 ∧ sched_rep (thv s1) a ∧
    pipes s1 = pipes s.
Proof.
  intros Hsr Hlk. destruct (sleep_resume_run (thv s) a Hsr) as (t & Hr & Ht & _).
  assert (running s = cur a) as Hc by (destruct Hsr as [_ []]; done).
  unfold thread_sleep_resume. rewrite Hc, (bind_Ok _ _ _ _ _ (zoom_Ok (S:=fs_state) _ s _ _ Hr)).
  eexists. split; [by apply spinlock_acquire_free|]. by split.
Qed.

Lemma moves_pipes s1 s s' a p i o i' o' :
  pipes s1 = pipes s → pipe_moves s1 s' a p i o i' o' → pipe_moves s s' a p i o i' o'.
Proof.
  intros He (a' & q' & [] & Hok & Ho). exists a', q'. split; [split; auto|done].
  intros p' Hp'. unfold plook in *. rewrite <- He. auto.
Qed.

(** A segment that starts after the lock was taken, in [s1]. *)
Lemma write_call_moves s1 s a p bs n r s' i o q :
  pipes s1 = pipes s → sched_rep (thv s1) a → pipe_ok a (plook s p) p i o q →
  pipe_write_seg p bs n s1 = Ok r s' → ∃ k, pipe_moves s s' a p i o (i ++ take k bs) o ∧ write_ends bs n k r.
Proof.
  intros He Hsr Hok Hr. destruct (write_seg_moves s1 a p bs n r s' i o q) as (k & Hm & Hk); [done|unfold plook; by rewrite He|done|].
  exists k. split; [|done]. by apply (moves_pipes s1).
Qed.

Lemma read_call_moves s1 s a p n r s' i o q :
  pipes s1 = pipes s → sched_rep (thv s1) a → pipe_ok a (plook s p) p i o q →
  pipe_read_seg p n s1 = Ok r s' → pipe_moves s s' a p i o i (o ++ got r).
Proof.
  intros He Hsr Hok Hr. apply (moves_pipes s1); [done|].
  apply (read_seg_moves s1 a p n r s' i o q); [done|unfold plook; by rewrite He|done].
Qed.

(** ** The bytes of each thread *)

Lemma bytes_of_app t w w' : bytes_of t (w ++ w') = bytes_of t w ++ bytes_of t w'.
Proof. unfold bytes_of. by rewrite filter_app, fmap_app. Qed.

Lemma bytes_of_tag t t' l : bytes_of t (pair t' <$> l) = if decide (t = t') then l else [].
Proof.
  unfold bytes_of. case_decide as E.
  - subst t'. induction l as [|c l IH]; [done|]. rewrite fmap_cons, filter_cons_True, fmap_cons by done. by f_equal.
  - induction l as [|c l IH]; [done|]. by rewrite fmap_cons, filter_cons_False by (simpl; congruence).
Qed.

Lemma fmap_tag (t : Z) (l : list Z) : (pair t <$> l).*2 = l.
Proof. rewrite <- list_fmap_compose. apply list_fmap_id. Qed.

(** A thread that is not inside a write has finished its calls. *)
Definition idle (k : option pcont) : Prop := match k with Some (CWrite _ _ _) => False | _ => True end.

Lemma thread_wrote_idle k p cs l : idle k → thread_wrote k p cs l ↔ contrib cs l.
Proof. by destruct k as [[]|]. Qed.

Lemma wrote_step (t p : Z) done rest n k r K cs l :
  n = Z.of_nat (length (done ++ rest)) → contrib cs l → write_ends rest n k r →
  thread_wrote (write_cont t p n r K !! t) p ((done ++ rest, returned r) :: cs) (l ++ done ++ take k rest).
Proof.
  intros Hn Hc [(-> & ->)|[->| ->]]; simpl.
  - rewrite lookup_delete_eq, firstn_all. subst n. by constructor.
  - rewrite lookup_delete_eq. simpl. replace (done ++ take k rest) with (take (length done + k) (done ++ rest)) by (by rewrite take_app_add). constructor; auto.
  - rewrite lookup_insert_eq. simpl. rewrite decide_True by done. exists (done ++ take k rest), cs, l.
    by rewrite <- app_assoc, take_drop.
Qed.

Lemma write_cont_ne t t' p n r K : t' ≠ t → write_cont t p n r K !! t' = K !! t'.
Proof. intros Hn. destruct r; simpl; [by rewrite lookup_delete_ne|by rewrite lookup_insert_ne]. Qed.

Lemma read_cont_idle t t' p n r K : idle (K !! t) → idle (read_cont t p n r K !! t') ∧ idle (K !! t') ∨ read_cont t p n r K !! t' = K !! t'.
Proof.
  intros Hi. destruct (decide (t' = t)) as [->|Hn]; [left|right].
  - destruct r; simpl; [by rewrite lookup_delete_eq|by rewrite lookup_insert_eq].
  - destruct r; simpl; [by rewrite lookup_delete_ne|by rewrite lookup_insert_ne].
Qed.

Lemma wrote_read t p n r K : idle (K !! t) → ∀ t' p' cs l, thread_wrote (K !! t') p' cs l → thread_wrote (read_cont t p n r K !! t') p' cs l.
Proof.
  intros Hi t' p' cs l Hw. destruct (read_cont_idle t t' p n r K Hi) as [[H1 H2]| ->]; [|done].
  apply thread_wrote_idle; [done|]. by apply thread_wrote_idle in Hw.
Qed.

(** A thread that writes to [p] has finished its calls on the other pipes. *)
Lemma wrote_other t p n r K p' cs l rest :
  K !! t = None ∨ K !! t = Some (CWrite p rest n) → p' ≠ p → thread_wrote (K !! t) p' cs l → thread_wrote (write_cont t p n r K !! t) p' cs l.
Proof.
  intros HK Hp Hw. assert (contrib cs l) as Hc.
  { destruct HK as [E|E]; rewrite E in Hw; simpl in Hw; [done|]. by rewrite decide_False in Hw by congruence. }
  destruct r; simpl; [by rewrite lookup_delete_eq|]. rewrite lookup_insert_eq. simpl. by rewrite decide_False by congruence.
Qed.

Lemma note_eq t p f h : note t p f h t p = f (h t p).
Proof. unfold note. by rewrite decide_True. Qed.

Lemma note_ne t p f h t' p' : ¬ (t' = t ∧ p' = p) → note t p f h t' p' = h t' p'.
Proof. intros ?. unfold note. by rewrite decide_False. Qed.

(** ** The invariant of all pipes *)

(** A call on one pipe keeps the invariant of all. *)
Lemma call_inv s s' a K K' h h' o o' p w i :
  psys_inv {| ps_fs := s; ps_cont := K; ps_calls := h; ps_out := o |} a →
  pipe_moves s s' a p i (o p) w.*2 (o' p) → (∀ p', p' ≠ p → o' p' = o p') →
  (∀ t, thread_wrote (K' !! t) p (h' t p) (bytes_of t w)) →
  (∀ t p' l, p' ≠ p → thread_wrote (K !! t) p' (h t p') l → thread_wrote (K' !! t) p' (h' t p') l) →
  ∃ a', psys_inv {| ps_fs := s'; ps_cont := K'; ps_calls := h'; ps_out := o' |} a'.
Proof.
  intros [_ _ Hpipe] (a' & q' & [Hsr Hlk _ Hoth] & Hok & Ho) Hout Hw Hk. exists a'. split; simpl; [done..|].
  intros p'. destruct (decide (p' = p)) as [->|Hne]; [by exists w, q'|].
  destruct (Hpipe p') as (w' & q & [Hr Hf Hs] & Ht). rewrite (Hout p' Hne). exists w', q.
  simpl in *. rewrite (Hoth p' Hne). split; [split; auto|]. intros t. by apply Hk.
Qed.

Lemma push_eq p bs h : push p bs h p = h p ++ bs.
Proof. unfold push. by rewrite decide_True. Qed.

Lemma push_ne p bs h p' : p' ≠ p → push p bs h p' = h p'.
Proof. intros ?. unfold push. by rewrite decide_False. Qed.

(** A segment of a write, with [done] written before and [rest] left. *)
Lemma write_inv s s' a K h h' o p done rest n r s1 cs :
  psys_inv {| ps_fs := s; ps_cont := K; ps_calls := h; ps_out := o |} a →
  pipes s1 = pipes s → sched_rep (thv s1) a → pipe_write_seg p rest n s1 = Ok r s' →
  n = Z.of_nat (length (done ++ rest)) → K !! running s = None ∨ K !! running s = Some (CWrite p rest n) →
  (∀ l, thread_wrote (K !! running s) p (h (running s) p) l → ∃ l', contrib cs l' ∧ l = l' ++ done) →
  h' (running s) p = (done ++ rest, returned r) :: cs → (∀ t p', ¬ (t = running s ∧ p' = p) → h' t p' = h t p') →
  ∃ a', psys_inv {| ps_fs := s'; ps_cont := write_cont (running s) p n r K; ps_calls := h'; ps_out := o |} a'.
Proof.
  intros HI Hp1 Hs1 Hr Hn HK Hl Hh Hh'. destruct (pi_pipe _ _ HI p) as (w & q & Hok & Ht). simpl in Hok, Ht.
  destruct (write_call_moves s1 s a p rest n r s' w.*2 (o p) q Hp1 Hs1 Hok Hr) as (k & Hm & Hk).
  apply (call_inv s s' a K _ h h' o o p (w ++ (pair (running s) <$> take k rest)) w.*2 HI); [by rewrite fmap_app, fmap_tag|done|..].
  - intros t. rewrite bytes_of_app, bytes_of_tag. case_decide as E.
    + subst t. destruct (Hl _ (Ht (running s))) as (l' & Hc & ->). rewrite Hh, <- app_assoc. by apply wrote_step.
    + rewrite app_nil_r, write_cont_ne, Hh' by naive_solver. apply Ht.
  - intros t p' l Hne Hw. rewrite Hh' by naive_solver. destruct (decide (t = running s)) as [->|E].
    + by apply (wrote_other _ _ _ _ _ _ _ _ rest).
    + by rewrite write_cont_ne.
Qed.

Lemma read_inv s s' a K h o p n r s1 :
  psys_inv {| ps_fs := s; ps_cont := K; ps_calls := h; ps_out := o |} a →
  pipes s1 = pipes s → sched_rep (thv s1) a → pipe_read_seg p n s1 = Ok r s' → idle (K !! running s) →
  ∃ a', psys_inv {| ps_fs := s'; ps_cont := read_cont (running s) p n r K; ps_calls := h; ps_out := push p (got r) o |} a'.
Proof.
  intros HI Hp1 Hs1 Hr HK. destruct (pi_pipe _ _ HI p) as (w & q & Hok & Ht). simpl in Hok, Ht.
  apply (call_inv s s' a K _ h h o _ p w w.*2 HI).
  - rewrite push_eq. by apply (read_call_moves s1 s a p n r s' w.*2 (o p) q).
  - intros p' Hne. by rewrite push_ne.
  - intros t. by apply wrote_read.
  - intros t p' l _. by apply wrote_read.
Qed.

Lemma sched_only_inv s s' a a' K h o :
  psys_inv {| ps_fs := s; ps_cont := K; ps_calls := h; ps_out := o |} a →
  sched_rep (thv s') a' → pc_lock s' = pc_lock s → pipes s' = pipes s →
  (∀ p v q, sleepers_ok a p v q → sleepers_ok a' p v q) →
  psys_inv {| ps_fs := s'; ps_cont := K; ps_calls := h; ps_out := o |} a'.
Proof.
  intros [_ Hlk Hpipe] Hsr Hl Hp Hs. split; simpl in *; [done|by rewrite Hl|].
  intros p. destruct (Hpipe p) as (w & q & [] & Ht). exists w, q. unfold plook in *. rewrite Hp. split; [split; auto|done].
Qed.

Lemma pipe_step_inv c c' a : pipe_step c c' → psys_inv c a → ∃ a', psys_inv c' a'.
Proof.
  intros Hst HI. pose proof (pi_sched _ _ HI) as Hsr. pose proof (pi_lock _ _ HI) as Hlk.
  destruct Hst as [s K h o p bs r s' HK Hr|s K h o p rest n r s' HK Hr|s K h o p n r s' HK Hr
    |s K h o p n r s' HK Hr|s K h o p w s' HK Hr|s K h o s' Hr|s K h o c s' Hr]; simpl in *.
  - unfold pipe_write_begin in Hr. rewrite (bind_Ok _ _ _ _ _ (pc_acquire_run s Hlk)) in Hr.
    rewrite Nat2Z.id, firstn_all in Hr.
    apply (write_inv s s' a K h _ o p [] bs _ r (set_pc_lock locked s) (h (running s) p) HI); [done..|by left| |by rewrite note_eq|intros; by rewrite note_ne].
    rewrite HK. intros l Hl. exists l. by rewrite app_nil_r.
  - unfold pipe_write_resume in Hr. destruct (resume_run s a Hsr Hlk) as (s1 & H1 & Hs1 & Hp1).
    rewrite (bind_Ok _ _ _ _ _ H1) in Hr. destruct (pi_pipe _ _ HI p) as (w & q & _ & Ht).
    specialize (Ht (running s)). simpl in Ht. rewrite HK in Ht. simpl in Ht. rewrite decide_True in Ht by done. destruct Ht as (done & cs & l & Hcs & Hn & _).
    apply (write_inv s s' a K h _ o p done rest n r s1 cs HI); [done..|by right| |by rewrite note_eq, Hcs|intros; by rewrite note_ne].
    intros l0. rewrite HK, Hcs. simpl. rewrite decide_True by done. intros (d & cs' & l' & [= Hd <-] & _ & Hc & ->).
    apply app_inv_tail in Hd as <-. eauto.
  - unfold pipe_read_begin in Hr. rewrite (bind_Ok _ _ _ _ _ (pc_acquire_run s Hlk)) in Hr.
    apply (read_inv s s' a K h o p n r (set_pc_lock locked s)); [done..|by rewrite HK].
  - unfold pipe_read_resume in Hr. destruct (resume_run s a Hsr Hlk) as (s1 & H1 & Hs1 & Hp1).
    rewrite (bind_Ok _ _ _ _ _ H1) in Hr. apply (read_inv s s' a K h o p n r s1); [done..|by rewrite HK].
  - destruct (pi_pipe _ _ HI p) as (wr & q & Hok & Ht). apply (call_inv s s' a K K h h o o p wr wr.*2 HI); [|done..].
    by apply (close_moves s a p w s' wr.*2 (o p) q).
  - destruct (thread_yield_run _ a Hsr) as (t & Ht & Hs & _). exists (a_yield a).
    rewrite (zoom_Ok (S:=fs_state) _ s _ _ Ht) in Hr. injection Hr as <-.
    apply (sched_only_inv s _ a); [done|exact Hs|done|done|apply sleepers_yield].
  - destruct (wakeup_zoom s a c Hsr) as (t & Ht & Hs). exists (a_wakeup c a).
    rewrite Ht in Hr. injection Hr as <-.
    apply (sched_only_inv s _ a); [done|exact Hs|done|done|apply sleepers_wakeup].
Qed.

(** Every call that need not wait returns. *)
Lemma write_room s a p v q bs n :
  sched_rep (thv s) a → 0 <= p < NPIPE → plook s p = v → ring v q →
  (length q + length bs <= 512)%nat → ∃ s', pipe_write_seg p bs n s = Ok (SegDone n) s'.
Proof.
  intros Hsr Hp Hv Hr Hl. unfold pipe_write_seg, pget, pset.
  rewrite (bind_Ok _ _ _ _ _ (aget_Ok _ _ _ _ s Hp)). fold (plook s p). rewrite Hv.
  destruct (fill_spec bs v q Hr) as (v' & -> & _).
  rewrite drop_ge by lia. rewrite (bind_Ok _ _ _ _ _ (aset_Ok _ _ _ _ s Hp)).
  destruct (wakeup_zoom (upd_pipes <[p := v']> s) a (ChNread p) Hsr) as (t & Hw & _).
  rewrite (bind_Ok _ _ _ _ _ Hw). by eexists.
Qed.

Lemma read_ready s a p v q n :
  sched_rep (thv s) a → 0 <= p < NPIPE → plook s p = v → ring v q → q ≠ [] ∨ writeopen v = 0 →
  ∃ s', pipe_read_seg p n s = Ok (SegDone (take (Z.to_nat n) q)) s'.
Proof.
  intros Hsr Hp Hv Hr Hor. unfold pipe_read_seg, pget, pset.
  rewrite (bind_Ok _ _ _ _ _ (aget_Ok _ _ _ _ s Hp)). fold (plook s p). rewrite Hv, (ring_empty v q Hr).
  assert (bool_decide (q = []) && bool_decide (writeopen v ≠ 0) = false) as ->.
  { destruct Hor as [H| ->]; [by rewrite bool_decide_eq_false_2|]. by rewrite andb_false_r. }
  destruct (drain_spec (Z.to_nat n) v q Hr) as (v' & -> & _).
  rewrite (bind_Ok _ _ _ _ _ (aset_Ok _ _ _ _ s Hp)).
  destruct (wakeup_zoom (upd_pipes <[p := v']> s) a (ChNwrite p) Hsr) as (t & Hw & _).
  rewrite (bind_Ok _ _ _ _ _ Hw). by eexists.
Qed.

Lemma thread_wrote_contrib k p cs l : thread_wrote k p cs l → contrib cs l.
Proof.
  destruct k as [[p' rest n|]|]; simpl; try done. case_decide; [|done].
  intros (d & cs' & l' & -> & _ & Hc & ->). rewrite <- (take_app_length d rest) at 2. constructor; auto.
Qed.

(** The start: every pipe is empty and nobody waits for one. *)
Definition pipe_boot (c : psys) : Prop :=
  ps_cont c = ∅ ∧ pc_lock (ps_fs c) = spinlock_init ∧
  ∃ a, sched_rep (thv (ps_fs c)) a ∧
    ∀ p, ring (plook (ps_fs c) p) [] ∧ (∀ t, ps_calls c t p = []) ∧ ps_out c p = [] ∧
      ∀ t, asleep a !! t ≠ Some (ChNread p) ∧ asleep a !! t ≠ Some (ChNwrite p).

Lemma pipe_reach c0 c : pipe_boot c0 → rtc pipe_step c0 c → ∃ a, psys_inv c a.
Proof.
  intros (Hk & Hlk & a & Hsr & Hp) Hst.
  assert (∃ a, psys_inv c0 a) as HI.
  { exists a. split; [done|done|]. intros p. destruct (Hp p) as (Hr & Hc & -> & Hn). exists [], [].
    split; [split; [done|done|]; intros t _; split; intros H; by destruct (Hn t)|].
    intros t. rewrite Hk, lookup_empty, Hc. constructor. }
  clear a Hsr Hp Hlk Hk. induction Hst as [|c1 c2 c3 H _ IH]; [done|].
  apply IH. destruct HI as [a HI]. by apply (pipe_step_inv c1 c2 a).
Qed.

(** C8: Pipes are queues under every interleaving.  Whatever calls the threads make on
    the pipes, wherever they sleep and are woken, what the reads of a pipe returned followed
    by what is inside is a sequence of bytes of the writers: taken by writer, it is
    all bytes of the calls that returned their number, in the order of the calls, and the
    first bytes of a call that failed or still waits.  No more than 512 bytes are inside; a read returns
    the next of them unless the pipe is empty and open for writing, and a write that fits returns
    its length. *)
Theorem pipe_fifo c0 c p :
  pipe_boot c0 → rtc pipe_step c0 c → 0 <= p < NPIPE →
  ∃ w q, w.*2 = ps_out c p ++ q ∧ (∀ t, contrib (ps_calls c t p) (bytes_of t w)) ∧ (length q <= 512)%nat ∧
    (∀ n, q ≠ [] ∨ writeopen (plook (ps_fs c) p) = 0 → ∃ s',
       pipe_read p n (ps_fs c) = Ok (Z.of_nat (length (take (Z.to_nat n) q)), take (Z.to_nat n) q) s') ∧
    (∀ bs, (length q + length bs <= 512)%nat → ∃ s',
       pipe_write p bs (Z.of_nat (length bs)) (ps_fs c) = Ok (Z.of_nat (length bs)) s').
Proof.
  intros Hb Hst Hp. destruct (pipe_reach c0 c Hb Hst) as (a & [Hsr Hlk Hpipe]).
  destruct (Hpipe p) as (w & q & [Hr Hf _] & Ht). exists w, q. split; [done|]. split; [intros t; by apply (thread_wrote_contrib _ _ _ _ (Ht t))|].
  split; [apply (ring_size _ _ Hr)|].
  set (s1 := set_pc_lock locked (ps_fs c)). split.
  - intros n Hor. destruct (read_ready s1 a p _ q n Hsr Hp eq_refl Hr Hor) as (s' & H). exists s'.
    unfold pipe_read. rewrite (bind_Ok (pipe_read_begin p n) _ _ (SegDone (take (Z.to_nat n) q)) s'); [done|].
    unfold pipe_read_begin. by rewrite (bind_Ok _ _ _ _ _ (pc_acquire_run _ Hlk)).
  - intros bs Hl. destruct (write_room s1 a p _ q bs (Z.of_nat (length bs)) Hsr Hp eq_refl Hr Hl) as (s' & H).
    exists s'. unfold pipe_write.
    rewrite (bind_Ok (pipe_write_begin p bs _) _ _ (SegDone (Z.of_nat (length bs))) s'); [done|].
    unfold pipe_write_begin. rewrite (bind_Ok _ _ _ _ _ (pc_acquire_run _ Hlk)).
    by rewrite Nat2Z.id, firstn_all.
Qed.

(** C11: no wakeup is lost.  In every reachable state a thread other than 0 that sleeps
    waiting for bytes of a pipe with an open reading end finds it empty and open for
    writing, and one that waits for room finds it full and open for reading; so the event
    it waits for has not happened yet. *)
Theorem pipe_no_lost_wakeup c0 c p t :
  pipe_boot c0 → rtc pipe_step c0 c → 1 <= t < NUM_IDS →
  let v := plook (ps_fs c) p in
  state (tb (thv (ps_fs c)) t) = TSTATE_SLEEP →
  (channel (tb (thv (ps_fs c)) t) = Some (ChNread p) → readopen v ≠ 0 →
     pipe_empty v = true ∧ writeopen v ≠ 0) ∧
  (channel (tb (thv (ps_fs c)) t) = Some (ChNwrite p) → pipe_full v = true ∧ readopen v ≠ 0).
Proof.
  intros Hb Hst Ht v Hsl. destruct (pipe_reach c0 c Hb Hst) as (a & [Hsr _ Hpipe]).
  destruct Hsr as [_ Hc]. destruct (Hpipe p) as (w & q & [Hr _ Hs] & _).
  destruct (Hs t) as [Hrd Hwr]; [lia|]. fold v in Hr, Hrd, Hwr.
  assert (∀ d, channel (tb (thv (ps_fs c)) t) = Some d → asleep a !! t = Some d) as Has.
  { intros d Hd. apply (sr_asleep _ _ Hc). split; [lia|done]. }
  rewrite (ring_empty v q Hr), (ring_full v q Hr). split.
  - intros Hch Hro. destruct (Hrd (Has _ Hch) Hro) as [-> Hw]. done.
  - intros Hch. destruct (Hwr (Has _ Hch)) as [Hro Hq]. by rewrite bool_decide_eq_true_2.
Qed.

(** ** A writer that fills a pipe *)

(** Three threads on an empty pipe 0. *)
Definition sample_pipes : fs_state :=
  {| fl_in := {| in_lg := lg_boot three ∅; ic_lock := spinlock_init; icache := ∅ |};
     ft_lock := spinlock_init; ftable := ∅; pc_lock := spinlock_init;
     pipes := {[ 0 := with_ends 2 1 1 pipe_zero ]}; cons_in := []; cons_out := [] |}.

Definition after {S A} (m : M S A) (s : S) : S := match m s with Ok _ s' => s' | _ => s end.

Definition sample_bytes : list Z := seqZ 0 600.

(** Thread 0 yields; thread 1 writes 600 bytes and goes to sleep. *)
Definition sample_s1 : fs_state := after (zoom thread_yield) sample_pipes.
Definition sample_n : Z := Z.of_nat (length sample_bytes).
Definition sample_s2 : fs_state := after (pipe_write_begin 0 sample_bytes sample_n) sample_s1.

Definition sample_c0 : psys :=
  {| ps_fs := sample_pipes; ps_cont := ∅; ps_calls := λ _ _, []; ps_out := λ _, [] |}.
Definition sample_c2 : psys :=
  {| ps_fs := sample_s2; ps_cont := {[ 1 := CWrite 0 (drop 512 sample_bytes) sample_n ]};
     ps_calls := note 1 0 (cons (sample_bytes, None)) (λ _ _, []); ps_out := λ _, [] |}.

Lemma sample_pipe_boot : pipe_boot sample_c0.
Proof.
  split; [done|]. split; [done|]. exists three_a. split; [apply three_rep|]. intros p.
  split; [|split; [done|split; [done|]]].
  - unfold plook, alook. simpl. destruct (decide (p = 0)) as [->|Hp].
    + rewrite lookup_singleton_eq. split; simpl; [done|done|lia|done].
    + rewrite lookup_singleton_ne by done. split; simpl; [done|done|lia|done].
  - intros t. simpl. destruct (decide (t = 4)) as [->|]; [by rewrite lookup_singleton_eq|].
    by rewrite lookup_singleton_ne.
Qed.

Lemma sample_running : running sample_s1 = 1.
Proof. vm_compute. reflexivity. Qed.

Lemma sample_write :
  pipe_write_begin 0 sample_bytes sample_n sample_s1 = Ok (SegSleep (drop 512 sample_bytes)) sample_s2.
Proof. vm_compute. reflexivity. Qed.

Lemma sample_steps : rtc pipe_step sample_c0 sample_c2.
Proof.
  apply (rtc_l _ _ {| ps_fs := sample_s1; ps_cont := ∅; ps_calls := λ _ _, []; ps_out := λ _, [] |}).
  - apply step_yield. vm_compute. reflexivity.
  - apply rtc_once.
    pose proof (step_write sample_s1 ∅ (λ _ _, []) (λ _, []) 0 sample_bytes _ _ eq_refl sample_write) as H.
    rewrite sample_running in H. exact H.
Qed.

Lemma pipe_fifo_witness :
  ∃ w q, w.*2 = [] ++ q ∧ (∀ t, contrib (if decide (t = 1) then [(sample_bytes, None)] else []) (bytes_of t w)) ∧ (length q <= 512)%nat ∧
    (∀ n, q ≠ [] ∨ writeopen (plook sample_s2 0) = 0 → ∃ s',
       pipe_read 0 n sample_s2 = Ok (Z.of_nat (length (take (Z.to_nat n) q)), take (Z.to_nat n) q) s') ∧
    (∀ bs, (length q + length bs <= 512)%nat → ∃ s',
       pipe_write 0 bs (Z.of_nat (length bs)) sample_s2 = Ok (Z.of_nat (length bs)) s').
Proof.
  destruct (pipe_fifo sample_c0 sample_c2 0 sample_pipe_boot sample_steps ltac:(unfold NPIPE; lia)) as (w & q & H1 & H2 & H3).
  exists w, q. split; [exact H1|]. split; [|exact H3]. intros t. specialize (H2 t). cbn [ps_calls sample_c2] in H2. unfold note in H2.
  destruct (decide (t = 1)) as [->|E]; [exact H2|]. by rewrite decide_False in H2 by naive_solver.
Defined.

Lemma pipe_no_lost_wakeup_witness :
  pipe_full (plook sample_s2 0) = true ∧ readopen (plook sample_s2 0) ≠ 0.
Proof.
  apply (pipe_no_lost_wakeup sample_c0 sample_c2 0 1 sample_pipe_boot sample_steps);
    [unfold NUM_IDS; lia|vm_compute; reflexivity..].
Defined.
