(* ===== verification/Ipc.v ===== *)
(** * Message blocks of the synchronous IPC (kern/lib/ipc.c, ipc.h)

    A sender puts its message block at the tail of one queue and waits until a receiver
    has removed it.  The queue is linked through the blocks, one per process.  The copy
    goes from one address space to the other through a buffer of 100 bytes. *)

From S2P Require Import Prelude Spinlock Mboot PMem Container PageTable UserCopy.

Definition MSG_BUF_SIZE : Z := 100.

Record MsgBlock := {
  m_prev : Z; m_next : Z; send_pid : Z; recv_pid : Z; m_length : Z; buffer_addr : Z
}.

Definition MsgBlock_zero : MsgBlock :=
  {| m_prev := 0; m_next := 0; send_pid := 0; recv_pid := 0; m_length := 0; buffer_addr := 0 |}.

Record MsgQueue := { m_head : Z; m_tail : Z }.

Record ipc_state := {
  msg_lock : spinlock_t; msgBlock : gmap Z MsgBlock; msgQueue : MsgQueue; msg_buf : list Z
}.

Definition set_msg_lock (lk : spinlock_t) (s : ipc_state) : ipc_state :=
  {| msg_lock := lk; msgBlock := msgBlock s; msgQueue := msgQueue s; msg_buf := msg_buf s |}.
Definition upd_msgBlock (f : gmap Z MsgBlock → gmap Z MsgBlock) (s : ipc_state) : ipc_state :=
  {| msg_lock := msg_lock s; msgBlock := f (msgBlock s); msgQueue := msgQueue s; msg_buf := msg_buf s |}.
Definition set_msgQueue (q : MsgQueue) (s : ipc_state) : ipc_state :=
  {| msg_lock := msg_lock s; msgBlock := msgBlock s; msgQueue := q; msg_buf := msg_buf s |}.
Definition set_msg_buf (b : list Z) (s : ipc_state) : ipc_state :=
  {| msg_lock := msg_lock s; msgBlock := msgBlock s; msgQueue := msgQueue s; msg_buf := b |}.

Definition mget (pid : Z) : M ipc_state MsgBlock := aget NUM_IDS MsgBlock_zero msgBlock pid.
Definition mupd (pid : Z) (f : MsgBlock → MsgBlock) : M ipc_state () :=
  b ← mget pid; aset NUM_IDS upd_msgBlock pid (f b).

Definition with_links (p n : Z) (b : MsgBlock) : MsgBlock :=
  {| m_prev := p; m_next := n; send_pid := send_pid b; recv_pid := recv_pid b;
     m_length := m_length b; buffer_addr := buffer_addr b |}.
Definition with_mprev (p : Z) (b : MsgBlock) : MsgBlock := with_links p (m_next b) b.
Definition with_mnext (n : Z) (b : MsgBlock) : MsgBlock := with_links (m_prev b) n b.
Definition with_message (recv len addr : Z) (b : MsgBlock) : MsgBlock :=
  {| m_prev := m_prev b; m_next := m_next b; send_pid := send_pid b; recv_pid := recv;
     m_length := len; buffer_addr := addr |}.

Definition set_head (h : Z) : M ipc_state () :=
  modify (λ s, set_msgQueue {| m_head := h; m_tail := m_tail (msgQueue s) |} s).
Definition set_tail (t : Z) : M ipc_state () :=
  modify (λ s, set_msgQueue {| m_head := m_head (msgQueue s); m_tail := t |} s).

Definition ipc_init : M ipc_state () :=
  modify (set_msg_lock spinlock_init) ;;
  for_range 0 NUM_IDS (λ i,
    mupd i (λ _, {| m_prev := NUM_IDS; m_next := NUM_IDS; send_pid := i; recv_pid := NUM_IDS;
                    m_length := 0; buffer_addr := 0 |})) ;;
  modify (set_msgQueue {| m_head := NUM_IDS; m_tail := NUM_IDS |}).

Definition msg_enqueue (send_pid : Z) : M ipc_state () :=
  tail ← gets (λ s, m_tail (msgQueue s));
  if bool_decide (tail = NUM_IDS) then
    mupd send_pid (with_mprev NUM_IDS) ;;
    mupd send_pid (with_mnext NUM_IDS) ;;
    set_head send_pid ;;
    set_tail send_pid
  else
    mupd tail (with_mnext send_pid) ;;
    mupd send_pid (with_mprev tail) ;;
    mupd send_pid (with_mnext NUM_IDS) ;;
    set_tail send_pid.

Definition msg_remove (send_pid : Z) : M ipc_state () :=
  b ← mget send_pid;
  let prev := m_prev b in
  let next := m_next b in
  (if bool_decide (prev = NUM_IDS) then
     if bool_decide (next = NUM_IDS) then set_tail NUM_IDS ;; set_head NUM_IDS
     else set_head next ;; mupd next (with_mprev NUM_IDS)
   else
     if bool_decide (next = NUM_IDS) then set_tail prev ;; mupd prev (with_mnext NUM_IDS)
     else mupd prev (with_mnext next) ;; mupd next (with_mprev prev)) ;;
  mupd send_pid (with_mnext NUM_IDS) ;;
  mupd send_pid (with_mprev NUM_IDS).

(** There are [NUM_IDS] blocks, so a walk of more steps has met one twice and never ends. *)
Fixpoint find_send (fuel : nat) (target pid : Z) : M ipc_state Z :=
  if bool_decide (pid = NUM_IDS) then mret NUM_IDS
  else
    match fuel with
    | O => spin
    | S fuel =>
        b ← mget pid;
        if bool_decide (send_pid b = target) then mret target else find_send fuel target (m_next b)
    end.

Definition msg_getBlockBySendID (send_pid : Z) : M ipc_state Z :=
  h ← gets (λ s, m_head (msgQueue s));
  find_send (Z.to_nat NUM_IDS) send_pid h.

(** The loop does not advance. *)
Definition msg_getBlockByRecvID (recv : Z) : M ipc_state Z :=
  pid ← gets (λ s, m_head (msgQueue s));
  if bool_decide (pid = NUM_IDS) then mret NUM_IDS
  else
    b ← mget pid;
    if bool_decide (recv_pid b = recv) then mret (send_pid b) else spin.

(** ** The copy *)

(** Bytes stored at the start of a buffer. *)
Definition overwrite (bs buf : list Z) : list Z := bs ++ drop (length bs) buf.

(** [kva] is the address of [msg_buf].  The result is the new content of the buffer; each
    round moves at least one byte. *)
Fixpoint ipc_copy_loop (fuel : nat) (kva dest_pid dest source_pid source length : Z) (buf : list Z)
    : M pt_state (list Z) :=
  match fuel with
  | O => mret buf
  | S fuel =>
      if bool_decide (length > 0) then
        let len := if bool_decide (length < MSG_BUF_SIZE) then length else MSG_BUF_SIZE in
        r ← pt_copyin source_pid source kva len;
        let buf := overwrite r.2 buf in
        pt_copyout kva (take (Z.to_nat len) buf) dest_pid dest ;;
        ipc_copy_loop fuel kva dest_pid (u32 (dest + len)) source_pid (u32 (source + len))
          (length - len) buf
      else mret buf
  end.

Definition ipc_copy (kva dest_pid dest source_pid source length : Z) (buf : list Z) : M pt_state (list Z) :=
  ipc_copy_loop (Z.to_nat length) kva dest_pid dest source_pid source length buf.
