(* ===== verification/TrapFrame.v ===== *)
(** * Trap frames and the arguments of system calls
    (kern/lib/trap.h, kern/lib/syscall.h, kern/trap/TSyscallArg)

    A system call reads its arguments from the registers that the trap saved and leaves
    its results there.  This file also holds the state of the whole kernel, the file
    system below and the buffers of the system calls. *)

From S2P Require Import Prelude Spinlock Mboot PMem Container PageTable TCB TQueue Thread Sched.
From S2P Require Import UserCopy CString BufCache Log Inode Path File Ipc.
From S2P Require Segment.

Record pushregs := {
  edi : Z; esi : Z; ebp : Z; oesp : Z; ebx : Z; edx : Z; ecx : Z; eax : Z
}.

Record tf_t := {
  regs : pushregs; tf_es : Z; tf_ds : Z; trapno : Z; err : Z; eip : Z; tf_cs : Z;
  eflags : Z; esp : Z; tf_ss : Z
}.

Definition pushregs_zero : pushregs :=
  {| edi := 0; esi := 0; ebp := 0; oesp := 0; ebx := 0; edx := 0; ecx := 0; eax := 0 |}.
Definition tf_zero : tf_t :=
  {| regs := pushregs_zero; tf_es := 0; tf_ds := 0; trapno := 0; err := 0; eip := 0; tf_cs := 0;
     eflags := 0; esp := 0; tf_ss := 0 |}.

Definition set_regs (r : pushregs) (tf : tf_t) : tf_t :=
  {| regs := r; tf_es := tf_es tf; tf_ds := tf_ds tf; trapno := trapno tf; err := err tf;
     eip := eip tf; tf_cs := tf_cs tf; eflags := eflags tf; esp := esp tf; tf_ss := tf_ss tf |}.
Definition set_stack (sp ip : Z) (tf : tf_t) : tf_t :=
  {| regs := regs tf; tf_es := tf_es tf; tf_ds := tf_ds tf; trapno := trapno tf; err := err tf;
     eip := ip; tf_cs := tf_cs tf; eflags := eflags tf; esp := sp; tf_ss := tf_ss tf |}.

(** ** Arguments and results *)

Definition syscall_get_arg1 (tf : tf_t) : Z := eax (regs tf).
Definition syscall_get_arg2 (tf : tf_t) : Z := ebx (regs tf).
Definition syscall_get_arg3 (tf : tf_t) : Z := ecx (regs tf).
Definition syscall_get_arg4 (tf : tf_t) : Z := edx (regs tf).
Definition syscall_get_arg5 (tf : tf_t) : Z := esi (regs tf).
Definition syscall_get_arg6 (tf : tf_t) : Z := edi (regs tf).

Definition syscall_set_errno (errno : Z) (tf : tf_t) : tf_t :=
  let r := regs tf in
  set_regs {| edi := edi r; esi := esi r; ebp := ebp r; oesp := oesp r; ebx := ebx r;
              edx := edx r; ecx := ecx r; eax := u32 errno |} tf.
Definition syscall_set_retval1 (retval : Z) (tf : tf_t) : tf_t :=
  let r := regs tf in
  set_regs {| edi := edi r; esi := esi r; ebp := ebp r; oesp := oesp r; ebx := u32 retval;
              edx := edx r; ecx := ecx r; eax := eax r |} tf.
Definition syscall_set_retval2 (retval : Z) (tf : tf_t) : tf_t :=
  let r := regs tf in
  set_regs {| edi := edi r; esi := esi r; ebp := ebp r; oesp := oesp r; ebx := ebx r;
              edx := edx r; ecx := u32 retval; eax := eax r |} tf.
Definition syscall_set_retval3 (retval : Z) (tf : tf_t) : tf_t :=
  let r := regs tf in
  set_regs {| edi := edi r; esi := esi r; ebp := ebp r; oesp := oesp r; ebx := ebx r;
              edx := u32 retval; ecx := ecx r; eax := eax r |} tf.
Definition syscall_set_retval4 (retval : Z) (tf : tf_t) : tf_t :=
  let r := regs tf in
  set_regs {| edi := edi r; esi := u32 retval; ebp := ebp r; oesp := oesp r; ebx := ebx r;
              edx := edx r; ecx := ecx r; eax := eax r |} tf.
Definition syscall_set_retval5 (retval : Z) (tf : tf_t) : tf_t :=
  let r := regs tf in
  set_regs {| edi := u32 retval; esi := esi r; ebp := ebp r; oesp := oesp r; ebx := ebx r;
              edx := edx r; ecx := ecx r; eax := eax r |} tf.

(** The error exit of most calls. *)
Definition fails (errno : Z) (tf : tf_t) : tf_t :=
  syscall_set_errno errno (syscall_set_retval1 (-1) tf).

(** ** Numbers *)

Definition T_SYSCALL : Z := 48.

Definition SYS_spawn : Z := 1.
Definition SYS_yield : Z := 2.
Definition SYS_open : Z := 5.
Definition SYS_close : Z := 6.
Definition SYS_read : Z := 7.
Definition SYS_write : Z := 8.
Definition SYS_pipe : Z := 9.
Definition SYS_mkdir : Z := 10.
Definition SYS_chdir : Z := 11.
Definition SYS_link : Z := 12.
Definition SYS_unlink : Z := 13.
Definition SYS_stat : Z := 14.
Definition SYS_sync_send : Z := 15.
Definition SYS_sync_recv : Z := 16.
Definition SYS_is_dir : Z := 17.
Definition SYS_ls : Z := 18.
Definition SYS_mv : Z := 19.
Definition SYS_rm : Z := 20.
Definition SYS_pwd : Z := 21.
Definition SYS_cp : Z := 22.
Definition SYS_cat : Z := 23.
Definition SYS_touch : Z := 24.
Definition SYS_sigaction : Z := 26.
Definition SYS_kill : Z := 27.
Definition SYS_pause : Z := 28.
Definition SYS_sigreturn : Z := 29.
Definition SYS_exit : Z := 30.
Definition SYS_waitpid : Z := 31.

Definition E_SUCC : Z := 0.
Definition E_MEM : Z := 1.
Definition E_INVAL_CALLNR : Z := 3.
Definition E_INVAL_ADDR : Z := 4.
Definition E_INVAL_PID : Z := 5.
Definition E_DISK_OP : Z := 13.
Definition E_EXCEEDS_QUOTA : Z := 23.
Definition E_MAX_NUM_CHILDEN_REACHED : Z := 24.
Definition E_INVAL_CHILD_ID : Z := 25.
Definition E_NEXIST : Z := 26.
Definition E_CREATE : Z := 27.
Definition E_BADF : Z := 29.
Definition E_INVAL_SIGNUM : Z := 30.

(** ** The state of the kernel *)

(** The functions that the trap table points to. *)
Inductive trap_cb := exception_handler_cb | interrupt_handler_cb | syscall_dispatch_cb.

(** [sys_buf] has a page for every process; a page that was never written is zero.
    [open_first] is the static variable of [sys_open], [k_seg] the segments and kernel
    stacks, [cr2] the address of the last page fault. *)
Record k_state := {
  k_fs : fs_state;
  k_ipc : ipc_state;
  uctx_pool : gmap Z tf_t;
  sys_buf : gmap Z (list Z);
  open_first : bool;
  TRAP_HANDLER : gmap (Z * Z) trap_cb;
  trap_inited : bool;
  k_seg : Segment.seg_st;
  cr2 : Z
}.

#[global, program] Instance k_fs_lens : Lens k_state fs_state := {|
  view := k_fs;
  put f s := {| k_fs := f; k_ipc := k_ipc s; uctx_pool := uctx_pool s; sys_buf := sys_buf s;
                open_first := open_first s; TRAP_HANDLER := TRAP_HANDLER s;
                trap_inited := trap_inited s; k_seg := k_seg s; cr2 := cr2 s |}
|}.
Next Obligation. done. Qed.
Next Obligation. by intros []. Qed.
Next Obligation. done. Qed.

#[global, program] Instance k_ipc_lens : Lens k_state ipc_state := {|
  view := k_ipc;
  put i s := {| k_fs := k_fs s; k_ipc := i; uctx_pool := uctx_pool s; sys_buf := sys_buf s;
                open_first := open_first s; TRAP_HANDLER := TRAP_HANDLER s;
                trap_inited := trap_inited s; k_seg := k_seg s; cr2 := cr2 s |}
|}.
Next Obligation. done. Qed.
Next Obligation. by intros []. Qed.
Next Obligation. done. Qed.

#[global, program] Instance k_seg_lens : Lens k_state Segment.seg_st := {|
  view := k_seg;
  put g s := {| k_fs := k_fs s; k_ipc := k_ipc s; uctx_pool := uctx_pool s; sys_buf := sys_buf s;
                open_first := open_first s; TRAP_HANDLER := TRAP_HANDLER s;
                trap_inited := trap_inited s; k_seg := g; cr2 := cr2 s |}
|}.
Next Obligation. done. Qed.
Next Obligation. by intros []. Qed.
Next Obligation. done. Qed.

#[global] Instance k_in_lens : Lens k_state in_state := lens_comp k_fs_lens fl_in_lens.
#[global] Instance k_bc_lens : Lens k_state bc_state := lens_comp k_in_lens in_bc_lens.
#[global] Instance k_lg_lens : Lens k_state lg_state := lens_comp k_fs_lens fl_lg_lens.
#[global] Instance k_th_lens : Lens k_state th_state := lens_comp k_fs_lens fl_th_lens.
#[global] Instance k_tq_lens : Lens k_state tq_state := lens_comp k_th_lens th_tq_lens.
#[global] Instance k_tcb_lens : Lens k_state tcb_state := lens_comp k_fs_lens fl_tcb_lens.
#[global] Instance k_pt_lens : Lens k_state pt_state := lens_comp k_tcb_lens tcb_pt_lens.
#[global] Instance k_cont_lens : Lens k_state cont_state := lens_comp k_pt_lens pt_cont_lens.

Definition upd_uctx_pool (f : gmap Z tf_t → gmap Z tf_t) (s : k_state) : k_state :=
  {| k_fs := k_fs s; k_ipc := k_ipc s; uctx_pool := f (uctx_pool s); sys_buf := sys_buf s;
     open_first := open_first s; TRAP_HANDLER := TRAP_HANDLER s; trap_inited := trap_inited s;
     k_seg := k_seg s; cr2 := cr2 s |}.
Definition upd_sys_buf (f : gmap Z (list Z) → gmap Z (list Z)) (s : k_state) : k_state :=
  {| k_fs := k_fs s; k_ipc := k_ipc s; uctx_pool := uctx_pool s; sys_buf := f (sys_buf s);
     open_first := open_first s; TRAP_HANDLER := TRAP_HANDLER s; trap_inited := trap_inited s;
     k_seg := k_seg s; cr2 := cr2 s |}.
Definition set_open_first (b : bool) (s : k_state) : k_state :=
  {| k_fs := k_fs s; k_ipc := k_ipc s; uctx_pool := uctx_pool s; sys_buf := sys_buf s;
     open_first := b; TRAP_HANDLER := TRAP_HANDLER s; trap_inited := trap_inited s;
     k_seg := k_seg s; cr2 := cr2 s |}.
Definition upd_handlers (f : gmap (Z * Z) trap_cb → gmap (Z * Z) trap_cb) (i : bool) (s : k_state) : k_state :=
  {| k_fs := k_fs s; k_ipc := k_ipc s; uctx_pool := uctx_pool s; sys_buf := sys_buf s;
     open_first := open_first s; TRAP_HANDLER := f (TRAP_HANDLER s); trap_inited := i;
     k_seg := k_seg s; cr2 := cr2 s |}.

Definition page0 : list Z := replicate 4096 0.

Definition buf_row (pid : Z) : M k_state (list Z) := aget NUM_IDS page0 sys_buf pid.
Definition buf_store (pid : Z) (bs : list Z) : M k_state () :=
  row ← buf_row pid; aset NUM_IDS upd_sys_buf pid (overwrite bs row).

(** Kernel buffers are static or on a kernel stack, far below [VM_USERHI]; the copies only
    compare their address with that bound. *)
Definition KBUF : Z := 1048576.

Definition copyin (pid uva len : Z) : M k_state (Z * list Z) := zoom (pt_copyin pid uva KBUF len).
Definition copyout (data : list Z) (pid uva : Z) : M k_state Z := zoom (pt_copyout KBUF data pid uva).

Definition curid : M k_state Z := zoom get_curid.

Definition get_fd (pid fd : Z) : M k_state (option Z) :=
  fds ← zoom (tcb_get_openfiles pid);
  if bool_decide (0 <= fd < NOFILE) then mret (fds !! fd) else undef.
Definition set_fd (pid fd : Z) (f : option Z) : M k_state () := zoom (tcb_set_openfiles pid fd f).

(** ** Laws *)

Notation kth := (view (S:=k_state) (C:=th_state)).
Notation ktcb := (view (S:=k_state) (C:=tcb_state)).
Notation kpt := (view (S:=k_state) (C:=pt_state)).

(** The process that runs. *)
Definition current (s : k_state) : Z := alook 0 (CURID (kth s)) cpu_idx.

Definition kblk (s : k_state) (p : Z) : TCB := tcb_look (ktcb s) p.

Lemma curid_run s : curid s = Ok (current s) s.
Proof.
  unfold curid. rewrite (zoom_Ok (S:=k_state) get_curid s _ _ (get_curid_Ok (kth s))).
  by rewrite (put_view (S:=k_state)).
Qed.

Lemma kern_range_KBUF len : 0 <= len <= 1000000 → kern_range KBUF len.
Proof. unfold kern_range, KBUF. change VM_USERHI with 4026531840. lia. Qed.

Lemma copyout_run (s : k_state) p va data :
  pt_wf (kpt s) → 1 <= p < NUM_IDS → user_range va (Z.of_nat (length data)) →
  Z.of_nat (length data) <= 1000000 →
  (∀ v, va <= v < va + Z.of_nat (length data) → present (kpt s) p v) →
  ∃ c : pt_state, copyout data p va s = Ok (Z.of_nat (length data)) (put c s) ∧
    user_written (kpt s) p va data c.
Proof.
  intros Hwf Hp Hu Hl Hall.
  destruct (pt_copyout_run (kpt s) p va KBUF data Hwf Hp Hu) as (c & Hr & Hw); [|done|].
  { apply kern_range_KBUF. lia. }
  exists c. split; [|done]. exact (zoom_Ok (S:=k_state) _ s _ _ Hr).
Qed.

Lemma copyin_run (s : k_state) p va len :
  pt_wf (kpt s) → 1 <= p < NUM_IDS → 0 <= len <= 1000000 → user_range va len →
  (∀ v, va <= v < va + len → present (kpt s) p v) →
  copyin p va len s = Ok (len, ubytes (kpt s) p va len) s.
Proof.
  intros Hwf Hp Hl Hu Hall. unfold copyin.
  pose proof (pt_copyin_run (kpt s) p va KBUF len Hwf Hp ltac:(lia) Hu (kern_range_KBUF len Hl) Hall) as Hr.
  rewrite (zoom_Ok (S:=k_state) _ s _ _ Hr). by rewrite (put_view (S:=k_state)).
Qed.

(** Reading and changing a control block. *)
Lemma ktcb_get {A} (m : TCB → M tcb_state A) (s : k_state) p :
  0 <= p < NUM_IDS → zoom (t ← tcb_get p; m t) s = zoom (m (kblk s p)) s.
Proof.
  intros Hp. unfold zoom. by rewrite (bind_Ok _ _ _ _ _ (tcb_get_Ok (ktcb s) p Hp)).
Qed.

Lemma ktcb_read {A} (f : TCB → A) (s : k_state) p :
  0 <= p < NUM_IDS → zoom (t ← tcb_get p; mret (f t)) s = Ok (f (kblk s p)) s.
Proof.
  intros Hp. rewrite ktcb_get by done. unfold zoom. rewrite ret_Ok. by rewrite (put_view (S:=k_state)).
Qed.

Lemma ktcb_upd f (s : k_state) p :
  0 <= p < NUM_IDS →
  zoom (tcb_upd p f) s = Ok () (put (upd_TCBPool <[p := f (kblk s p)]> (ktcb s)) s).
Proof. intros Hp. exact (zoom_Ok (S:=k_state) _ s _ _ (tcb_upd_Ok (ktcb s) p f Hp)). Qed.

(** A kernel around given threads, with nothing open. *)
Definition k_around (t : th_state) : k_state :=
  {| k_fs := {| fl_in := {| in_lg := lg_boot t ∅; ic_lock := spinlock_init; icache := ∅ |};
                ft_lock := spinlock_init; ftable := ∅; pc_lock := spinlock_init; pipes := ∅;
                cons_in := []; cons_out := [] |};
     k_ipc := {| msg_lock := spinlock_init; msgBlock := ∅;
                 msgQueue := {| m_head := NUM_IDS; m_tail := NUM_IDS |}; msg_buf := replicate 100 0 |};
     uctx_pool := ∅; sys_buf := ∅; open_first := true; TRAP_HANDLER := ∅; trap_inited := false;
     k_seg := Segment.seg0; cr2 := 0 |}.
