(* ===== verification/Sysfile.v ===== *)
(** * System calls on files (kern/fs/sysfile.c)

    A handler takes the trap frame of the caller and returns the new one.  Local buffers
    are not initialised, so what the stack holds is an argument; it is visible when a copy
    from user memory is refused. *)

From S2P Require Import Prelude Spinlock Mboot PMem Container PageTable TCB TQueue Thread Sched.
From S2P Require Import UserCopy CString BufCache Log Inode Path File Ipc TrapFrame.

Definition O_RDONLY : Z := 0.
Definition O_WRONLY : Z := 1.
Definition O_RDWR : Z := 2.
Definition O_CREATE : Z := 512.

(** ** Descriptors *)

(** The first free descriptor from [fd] on. *)
Fixpoint fd_scan (fuel : nat) (fds : gmap Z Z) (fd : Z) : option Z :=
  match fuel with
  | O => None
  | S fuel => match fds !! fd with None => Some fd | Some _ => fd_scan fuel fds (fd + 1) end
  end.

(** [None] is the result -1. *)
Definition fdalloc (f : Z) : M k_state (option Z) :=
  pid ← curid;
  fds ← zoom (tcb_get_openfiles pid);
  match fd_scan (Z.to_nat NOFILE) fds 0 with
  | Some fd => set_fd pid fd (Some f) ;; mret (Some fd)
  | None => mret None
  end.

(** The guards that [sys_read] and [sys_write] share: the file, or the errno. *)
Definition rw_file (tf : tf_t) (pid : Z) : M k_state (Z + Z) :=
  let fd := s32 (syscall_get_arg2 tf) in
  let user_buf := syscall_get_arg3 tf in
  let n := syscall_get_arg4 tf in
  if bool_decide (fd < 0) || bool_decide (fd >= NOFILE) || bool_decide (n < 0) then mret (inr E_BADF)
  else if bool_decide (user_buf < VM_USERLO) || bool_decide (u32 (user_buf + n) > VM_USERHI)
          || bool_decide (n > 4096) then mret (inr E_INVAL_ADDR)
  else
    fp ← get_fd pid fd;
    match fp with
    | None => mret (inr E_BADF)
    | Some f =>
        v ← zoom (fget f);
        if bool_decide (f_type v = FD_INODE) && bool_decide (f_ip v = None) then mret (inr E_BADF)
        else mret (inl f)
    end.

Definition sys_read (tf : tf_t) : M k_state tf_t :=
  pid ← curid;
  let user_buf := syscall_get_arg3 tf in
  let n := syscall_get_arg4 tf in
  g ← rw_file tf pid;
  match g with
  | inr e => mret (fails e tf)
  | inl f =>
      r ← zoom (file_read f n);
      buf_store pid r.2 ;;
      row ← buf_row pid;
      (if bool_decide (r.1 > 0) then copyout (take (Z.to_nat r.1) row) pid user_buf else mret 0) ;;
      mret (syscall_set_errno E_SUCC (syscall_set_retval1 r.1 tf))
  end.

Definition sys_write (tf : tf_t) : M k_state tf_t :=
  pid ← curid;
  let user_buf := syscall_get_arg3 tf in
  let n := syscall_get_arg4 tf in
  g ← rw_file tf pid;
  match g with
  | inr e => mret (fails e tf)
  | inl f =>
      r ← copyin pid user_buf n;
      buf_store pid r.2 ;;
      row ← buf_row pid;
      size_write ← zoom (file_write f row n);
      mret (syscall_set_errno E_SUCC (syscall_set_retval1 size_write tf))
  end.

Definition int_bytes (x : Z) : list Z :=
  [u8 x; u8 (Z.shiftr (u32 x) 8); u8 (Z.shiftr (u32 x) 16); u8 (Z.shiftr (u32 x) 24)].

Definition sys_pipe (tf : tf_t) : M k_state tf_t :=
  pid ← curid;
  let user_fds_addr := syscall_get_arg2 tf in
  if bool_decide (user_fds_addr < VM_USERLO) || bool_decide (u32 (user_fds_addr + 8) > VM_USERHI)
  then mret (fails E_INVAL_ADDR tf)
  else
    p ← zoom pipe_alloc;
    match p with
    | None => mret (fails E_BADF tf)
    | Some (rf, wf) =>
        fd0 ← fdalloc rf;
        match fd0 with
        | None =>
            zoom (file_close rf) ;; zoom (file_close wf) ;;
            mret (fails E_BADF tf)
        | Some fd0 =>
            fd1 ← fdalloc wf;
            match fd1 with
            | None =>
                set_fd pid fd0 None ;;
                zoom (file_close rf) ;; zoom (file_close wf) ;;
                mret (fails E_BADF tf)
            | Some fd1 =>
                copyout (int_bytes fd0 ++ int_bytes fd1) pid user_fds_addr ;;
                mret (syscall_set_retval1 0 (syscall_set_errno E_SUCC tf))
            end
        end
    end.

Definition sys_close (tf : tf_t) : M k_state tf_t :=
  pid ← curid;
  let fd := syscall_get_arg2 tf in
  if bool_decide (fd < 0) || bool_decide (fd >= NOFILE) then mret (fails E_BADF tf)
  else
    fp ← get_fd pid fd;
    match fp with
    | None => mret (fails E_BADF tf)
    | Some f =>
        zoom (file_close f) ;;
        set_fd pid fd None ;;
        mret (syscall_set_errno E_SUCC (syscall_set_retval1 0 tf))
    end.

Definition stat_size : Z := 20.

(** The status is never copied back. *)
Definition sys_fstat (tf : tf_t) : M k_state tf_t :=
  let fd := s32 (syscall_get_arg2 tf) in
  let user_stp := syscall_get_arg3 tf in
  if bool_decide (fd < 0) || bool_decide (fd >= NOFILE) || bool_decide (user_stp < VM_USERLO)
     || bool_decide (u32 (user_stp + stat_size) > VM_USERHI) then mret (fails E_BADF tf)
  else
    pid ← curid;
    fp ← get_fd pid fd;
    match fp with
    | None => mret (fails E_BADF tf)
    | Some f =>
        copyin pid user_stp stat_size ;;
        st ← zoom (file_stat f);
        mret (match st with
              | Some _ => syscall_set_errno E_SUCC (syscall_set_retval1 0 tf)
              | None => fails E_BADF tf
              end)
    end.

(** ** Names *)

(** A path argument in a buffer of 128 bytes that holds [stk] before the copy. *)
Definition user_path (stk : list Z) (uva len : Z) : M k_state (list Z) :=
  let path_len := if bool_decide (len < 128) then len else 127 in
  pid ← curid;
  r ← copyin pid uva path_len;
  mret (<[Z.to_nat path_len := 0]> (overwrite r.2 stk)).

Definition DOT : list Z := [46; 0].
Definition DOTDOT : list Z := [46; 46; 0].

Definition link_bad (ip : Z) : M in_state () :=
  inode_lock (Some ip) ;;
  iupd ip (λ v, with_nlink (s16 (i_nlink v - 1)) v) ;;
  inode_update ip ;;
  inode_unlockput ip ;;
  zoom commit_trans.

Definition sys_link (stk_old stk_new stk_name : list Z) (tf : tf_t) : M k_state tf_t :=
  old ← user_path stk_old (syscall_get_arg2 tf) (syscall_get_arg4 tf);
  new ← user_path stk_new (syscall_get_arg3 tf) (syscall_get_arg5 tf);
  ip ← zoom (namei old stk_name);
  match ip with
  | None => mret (syscall_set_errno E_NEXIST tf)
  | Some ip =>
      zoom begin_trans ;;
      zoom (inode_lock (Some ip)) ;;
      v ← zoom (iget ip);
      if bool_decide (i_type v = T_DIR) then
        zoom (inode_unlockput ip) ;;
        zoom commit_trans ;;
        mret (syscall_set_errno E_DISK_OP tf)
      else
        zoom (iupd ip (λ v, with_nlink (s16 (i_nlink v + 1)) v)) ;;
        zoom (inode_update ip) ;;
        zoom (inode_unlock (Some ip)) ;;
        '(dp, name) ← zoom (nameiparent new stk_name);
        match dp with
        | None => zoom (link_bad ip) ;; mret (syscall_set_errno E_DISK_OP tf)
        | Some dp =>
            zoom (inode_lock (Some dp)) ;;
            d ← zoom (iget dp);
            v ← zoom (iget ip);
            ok ← (if bool_decide (i_dev d ≠ i_dev v) then mret false
                  else r ← zoom (dir_link dp name (i_inum v)); mret (negb (bool_decide (r < 0))));
            if (ok : bool) then
              zoom (inode_unlockput dp) ;;
              zoom (inode_put ip) ;;
              zoom commit_trans ;;
              mret (syscall_set_errno E_SUCC tf)
            else
              zoom (inode_unlockput dp) ;;
              zoom (link_bad ip) ;;
              mret (syscall_set_errno E_DISK_OP tf)
        end
  end.

(** Entries from [off] on; the first two are the directory itself and its parent. *)
Fixpoint empty_loop (fuel : nat) (dp off : Z) : M in_state Z :=
  match fuel with
  | O => mret 1
  | S fuel =>
      v ← iget dp;
      if bool_decide (off < i_size v) then
        r ← inode_read dp off dirent_size;
        if bool_decide (r.1 ≠ dirent_size) then kern_panic
        else if bool_decide (de_inum (get_dirent r.2) ≠ 0) then mret 0
        else empty_loop fuel dp (off + dirent_size)
      else mret 1
  end.

Definition isdirempty (dp : Z) : M in_state Z :=
  v ← iget dp;
  empty_loop (Z.to_nat (i_size v / dirent_size + 1)) dp (2 * dirent_size).

Definition unlink_bad (dp : Z) (tf : tf_t) : M k_state tf_t :=
  zoom (inode_unlockput dp) ;;
  zoom commit_trans ;;
  mret (syscall_set_errno E_DISK_OP tf).

Definition sys_unlink (stk_path stk_name : list Z) (tf : tf_t) : M k_state tf_t :=
  path ← user_path stk_path (syscall_get_arg2 tf) (syscall_get_arg3 tf);
  '(dp, name) ← zoom (nameiparent path stk_name);
  match dp with
  | None => mret (syscall_set_errno E_DISK_OP tf)
  | Some dp =>
      zoom begin_trans ;;
      zoom (inode_lock (Some dp)) ;;
      c1 ← deref (dir_namecmp name DOT);
      c2 ← deref (dir_namecmp name DOTDOT);
      if bool_decide (c1 = 0) || bool_decide (c2 = 0) then unlink_bad dp tf
      else
        found ← zoom (dir_lookup dp name);
        match found with
        | None => unlink_bad dp tf
        | Some (ip, off) =>
            zoom (inode_lock (Some ip)) ;;
            v ← zoom (iget ip);
            if bool_decide (i_nlink v < 1) then kern_panic
            else
              full ← (if bool_decide (i_type v = T_DIR) then e ← zoom (isdirempty ip); mret (bool_decide (e = 0))
                      else mret false);
              if (full : bool) then
                zoom (inode_unlockput ip) ;;
                unlink_bad dp tf
              else
                r ← zoom (inode_write dp (replicate 16 0) off dirent_size);
                if bool_decide (r ≠ dirent_size) then kern_panic
                else
                  v ← zoom (iget ip);
                  (if bool_decide (i_type v = T_DIR) then
                     zoom (iupd dp (λ v, with_nlink (s16 (i_nlink v - 1)) v)) ;;
                     zoom (inode_update dp)
                   else mret ()) ;;
                  zoom (inode_unlockput dp) ;;
                  zoom (iupd ip (λ v, with_nlink (s16 (i_nlink v - 1)) v)) ;;
                  zoom (inode_update ip) ;;
                  zoom (inode_unlockput ip) ;;
                  zoom commit_trans ;;
                  mret (syscall_set_errno E_SUCC tf)
        end
  end.

(** The entry of the inode, locked. *)
Definition create (path : list Z) (type major minor : Z) (stk_name : list Z) : M in_state (option Z) :=
  '(dp, name) ← nameiparent path stk_name;
  match dp with
  | None => mret None
  | Some dp =>
      inode_lock (Some dp) ;;
      found ← dir_lookup dp name;
      match found with
      | Some (ip, _) =>
          inode_unlockput dp ;;
          inode_lock (Some ip) ;;
          v ← iget ip;
          if bool_decide (type = T_FILE) && bool_decide (i_type v = T_FILE) then mret (Some ip)
          else inode_unlockput ip ;; mret None
      | None =>
          d ← iget dp;
          ip ← inode_alloc (i_dev d) type;
          inode_lock (Some ip) ;;
          iupd ip (with_node major minor 1) ;;
          inode_update ip ;;
          v ← iget ip;
          (if bool_decide (type = T_DIR) then
             iupd dp (λ v, with_nlink (s16 (i_nlink v + 1)) v) ;;
             inode_update dp ;;
             r1 ← dir_link ip DOT (i_inum v);
             if bool_decide (r1 < 0) then kern_panic
             else
               r2 ← dir_link ip DOTDOT (i_inum d);
               if bool_decide (r2 < 0) then kern_panic else mret ()
           else mret ()) ;;
          r ← dir_link dp name (i_inum v);
          if bool_decide (r < 0) then kern_panic
          else inode_unlockput dp ;; mret (Some ip)
      end
  end.

(** The inode that [sys_open] opens, locked; the failure is an errno. *)
Definition open_inode (path stk_name : list Z) (omode : Z) : M k_state (Z + Z) :=
  if bool_decide (Z.land omode O_CREATE ≠ 0) then
    zoom begin_trans ;;
    ip ← zoom (create path T_FILE 0 0 stk_name);
    zoom commit_trans ;;
    mret (match ip with Some ip => inl ip | None => inr E_CREATE end)
  else
    ip ← zoom (namei path stk_name);
    match ip with
    | None => mret (inr E_NEXIST)
    | Some ip =>
        zoom (inode_lock (Some ip)) ;;
        v ← zoom (iget ip);
        if bool_decide (i_type v = T_DIR) && bool_decide (omode ≠ O_RDONLY) then
          zoom (inode_unlockput ip) ;; mret (inr E_DISK_OP)
        else mret (inl ip)
    end.

Definition with_inode (ip off : Z) (v : file) : file :=
  {| f_type := f_type v; f_ref := f_ref v; f_readable := f_readable v; f_writable := f_writable v;
     f_pipe := f_pipe v; f_ip := Some ip; f_off := off |}.

Definition flag (b : bool) : Z := if b then 1 else 0.

Definition sys_open (stk_path stk_name : list Z) (tf : tf_t) : M k_state tf_t :=
  first ← gets open_first;
  (if (first : bool) then modify (set_open_first false) ;; zoom log_init else mret ()) ;;
  path ← user_path stk_path (syscall_get_arg2 tf) (syscall_get_arg4 tf);
  let omode := s32 (syscall_get_arg3 tf) in
  r ← open_inode path stk_name omode;
  match r with
  | inr e => mret (fails e tf)
  | inl ip =>
      f ← zoom file_alloc;
      match f with
      | None => zoom (inode_unlockput ip) ;; mret (fails E_DISK_OP tf)
      | Some f =>
          fd ← fdalloc f;
          match fd with
          | None =>
              zoom (file_close f) ;;
              zoom (inode_unlockput ip) ;;
              mret (fails E_DISK_OP tf)
          | Some fd =>
              zoom (inode_unlock (Some ip)) ;;
              let w := Z.land omode O_WRONLY in
              zoom (fupd f (λ v, with_inode ip 0 (with_kind FD_INODE (flag (bool_decide (w = 0)))
                (flag (bool_decide (w ≠ 0) || bool_decide (Z.land omode O_RDWR ≠ 0))) v))) ;;
              mret (syscall_set_errno E_SUCC (syscall_set_retval1 fd tf))
          end
      end
  end.

Definition sys_mkdir (stk_path stk_name : list Z) (tf : tf_t) : M k_state tf_t :=
  path ← user_path stk_path (syscall_get_arg2 tf) (syscall_get_arg3 tf);
  zoom begin_trans ;;
  ip ← zoom (create path T_DIR 0 0 stk_name);
  match ip with
  | None => zoom commit_trans ;; mret (syscall_set_errno E_DISK_OP tf)
  | Some ip =>
      zoom (inode_unlockput ip) ;;
      zoom commit_trans ;;
      mret (syscall_set_errno E_SUCC tf)
  end.

Definition sys_chdir (stk_path stk_name : list Z) (tf : tf_t) : M k_state tf_t :=
  pid ← curid;
  path ← user_path stk_path (syscall_get_arg2 tf) (syscall_get_arg3 tf);
  ip ← zoom (namei path stk_name);
  match ip with
  | None => mret (syscall_set_errno E_DISK_OP tf)
  | Some ip =>
      zoom (inode_lock (Some ip)) ;;
      v ← zoom (iget ip);
      if bool_decide (i_type v ≠ T_DIR) then
        zoom (inode_unlockput ip) ;; mret (syscall_set_errno E_DISK_OP tf)
      else
        zoom (inode_unlock (Some ip)) ;;
        cwd ← zoom (tcb_get_cwd pid);
        d ← deref cwd;
        zoom (inode_put d) ;;
        zoom (tcb_set_cwd pid (Some ip)) ;;
        mret (syscall_set_errno E_SUCC tf)
  end.
