(* ===== verification/Syscall.v ===== *)
(** * Processes, messages and signals (kern/trap/TSyscall, kern/proc/PProc)

    The handlers of TSyscall.c and the creation of a process.  The program images are
    linked into the kernel by the build, so their addresses are an argument, and so is the
    address of the function in which a new process starts. *)

From S2P Require Import Prelude Spinlock Mboot PMem Container PageTable TCB TQueue Thread Sched.
From S2P Require Import UserCopy CString BufCache Log Inode Path File Ipc TrapFrame Sysfile.
From S2P Require Segment.

(** What the uninitialised local buffers of the handlers hold. *)
Record stack := {
  stk_path : list Z; stk_path2 : list Z; stk_name : list Z; stk_act : list Z; stk_arr : list Z;
  stk_word : Z
}.

(** [thread_yield] returns at once when no other thread is ready; otherwise the rest of the
    call runs when the caller is scheduled again. *)
Definition k_yield : M k_state () :=
  old ← curid;
  zoom thread_yield ;;
  new ← curid;
  if bool_decide (new = old) then mret () else block.

(** ** Messages *)

Definition msg_lkref : lockref k_state :=
  {| lk_get s := msg_lock (k_ipc s); lk_set lk s := put (set_msg_lock lk (k_ipc s)) s |}.

Definition msg_acquire : M k_state () := spinlock_acquire (lk_get msg_lkref) (lk_set msg_lkref).
Definition msg_release : M k_state () := spinlock_release (lk_get msg_lkref) (lk_set msg_lkref).

(** The wait of [sys_sync_send], with the lock held. *)
Definition sync_send_seg (cur_pid : Z) (tf : tf_t) : M k_state (seg tf_t ()) :=
  b ← zoom (msg_getBlockBySendID cur_pid);
  if bool_decide (b ≠ NUM_IDS) then
    thread_sleep_enter (ChRecv cur_pid) (Some msg_lkref) ;; mret (SegSleep ())
  else
    msg_release ;; mret (SegDone (syscall_set_errno E_SUCC tf)).

Definition sys_sync_send (tf : tf_t) : M k_state (seg tf_t ()) :=
  msg_acquire ;;
  let recv := syscall_get_arg2 tf in
  let addr := syscall_get_arg3 tf in
  let len := syscall_get_arg4 tf in
  cur_pid ← curid;
  zoom (mupd cur_pid (with_message (s32 recv) (s32 len) (s32 addr))) ;;
  zoom (msg_enqueue cur_pid) ;;
  zoom (thread_wakeup (Some (ChSend cur_pid))) ;;
  sync_send_seg cur_pid tf.

Definition sync_send_resume (cur_pid : Z) (tf : tf_t) : M k_state (seg tf_t ()) :=
  thread_sleep_resume cur_pid msg_lkref ;;
  sync_send_seg cur_pid tf.

(** From the test of the loop of [sys_sync_recv] on. *)
Definition sync_recv_seg (cur_pid : Z) (tf : tf_t) : M k_state (seg tf_t ()) :=
  let from := syscall_get_arg2 tf in
  let addr := syscall_get_arg3 tf in
  let recv_length := syscall_get_arg4 tf in
  b ← zoom (msg_getBlockBySendID (s32 from));
  wait ← (if bool_decide (b = NUM_IDS) then mret true
          else m ← zoom (mget (s32 from)); mret (bool_decide (u32 (recv_pid m) ≠ cur_pid)));
  if (wait : bool) then
    thread_sleep_enter (ChSend from) (Some msg_lkref) ;; mret (SegSleep ())
  else
    m ← zoom (mget from);
    let send_length := u32 (m_length m) in
    let copy_length := if bool_decide (send_length < recv_length) then send_length else recv_length in
    buf ← gets (λ s, msg_buf (k_ipc s));
    buf' ← zoom (ipc_copy KBUF cur_pid addr from (u32 (buffer_addr m)) (s32 copy_length) buf);
    zoom (modify (set_msg_buf buf')) ;;
    zoom (msg_remove from) ;;
    zoom (thread_wakeup (Some (ChRecv from))) ;;
    msg_release ;;
    mret (SegDone (syscall_set_retval1 copy_length (syscall_set_errno E_SUCC tf))).

Definition sys_sync_recv (tf : tf_t) : M k_state (seg tf_t ()) :=
  msg_acquire ;;
  cur_pid ← curid;
  sync_recv_seg cur_pid tf.

Definition sync_recv_resume (cur_pid : Z) (tf : tf_t) : M k_state (seg tf_t ()) :=
  thread_sleep_resume cur_pid msg_lkref ;;
  sync_recv_seg cur_pid tf.

(** ** Processes *)

Definition FL_IF : Z := 512.

Section Spawn.
Context (elf_image : Z → Z) (proc_start_user_addr : Z).

(** [seg_init_proc] fills the kernel stack of the process with constants. *)
Definition proc_create (elf_addr quota : Z) : M k_state Z :=
  id ← curid;
  pid ← zoom (thread_spawn proc_start_user_addr id quota);
  zoom (elf_load elf_addr pid) ;;
  entry ← zoom (elf_entry elf_addr);
  u ← aget NUM_IDS tf_zero uctx_pool pid;
  aset NUM_IDS upd_uctx_pool pid
    {| regs := regs u; tf_es := Z.lor Segment.CPU_GDT_UDATA 3; tf_ds := Z.lor Segment.CPU_GDT_UDATA 3;
       trapno := trapno u; err := err u; eip := entry; tf_cs := Z.lor Segment.CPU_GDT_UCODE 3;
       eflags := FL_IF; esp := VM_USERHI; tf_ss := Z.lor Segment.CPU_GDT_UDATA 3 |} ;;
  base ← gets (λ s, proc_kstack_addr (kth s));
  zoom (Segment.seg_init_proc base cpu_idx pid) ;;
  mret pid.

(** One of the two descriptors that the parent chooses: [-1] is the console. *)
Definition spawn_fd (curid new_pid fd child_fd : Z) (ty : file_type) (r w : Z) : M k_state () :=
  pf ← (if bool_decide (fd >= 0) && bool_decide (fd < NOFILE) then get_fd curid fd else mret None);
  match pf with
  | Some f => f ← zoom (file_dup f); set_fd new_pid child_fd (Some f)
  | None =>
      if bool_decide (fd = -1) then zoom (console_fd new_pid child_fd ty r w) else mret ()
  end.

Definition sys_spawn (tf : tf_t) : M k_state tf_t :=
  let elf_id := syscall_get_arg2 tf in
  let quota := syscall_get_arg3 tf in
  let stdin_fd := s32 (syscall_get_arg4 tf) in
  let stdout_fd := s32 (syscall_get_arg5 tf) in
  let failed e := syscall_set_retval1 NUM_IDS (syscall_set_errno e tf) in
  cur ← curid;
  qok ← zoom (container_can_consume cur quota);
  nc ← zoom (container_get_nchildren cur);
  if bool_decide (qok = 0) then mret (failed E_EXCEEDS_QUOTA)
  else if bool_decide (NUM_IDS < u32 (cur * MAX_CHILDREN + 1 + MAX_CHILDREN))
  then mret (failed E_MAX_NUM_CHILDEN_REACHED)
  else if bool_decide (nc = MAX_CHILDREN) then mret (failed E_INVAL_CHILD_ID)
  else if bool_decide (elf_id < 1) || bool_decide (elf_id > 9) then mret (failed E_INVAL_PID)
  else
    new_pid ← proc_create (elf_image elf_id) quota;
    if bool_decide (new_pid = NUM_IDS) then mret (failed E_INVAL_PID)
    else
      d ← zoom (tcb_get_cwd cur);
      (match d with
       | None => ip ← zoom (inode_get ROOTDEV ROOTINO); zoom (tcb_set_cwd cur (Some ip))
       | Some _ => mret ()
       end) ;;
      d ← zoom (tcb_get_cwd cur);
      ip ← deref d;
      ip ← zoom (inode_dup ip);
      zoom (tcb_set_cwd new_pid (Some ip)) ;;
      (if bool_decide (stdin_fd = -1) && bool_decide (stdout_fd = -1)
       then zoom (console_init_fds new_pid)
       else
         spawn_fd cur new_pid stdin_fd 0 FD_CONSOLE_IN 1 0 ;;
         spawn_fd cur new_pid stdout_fd 1 FD_CONSOLE_OUT 0 1) ;;
      mret (syscall_set_retval1 new_pid (syscall_set_errno E_SUCC tf)).
End Spawn.

Definition sys_yield (tf : tf_t) : M k_state tf_t :=
  k_yield ;;
  mret (syscall_set_errno E_SUCC tf).

(** ** Directories *)

Definition sys_is_dir (tf : tf_t) : M k_state tf_t :=
  let fd := s32 (syscall_get_arg2 tf) in
  pid ← curid;
  fp ← get_fd pid fd;
  match fp with
  | None => mret (fails E_BADF tf)
  | Some f =>
      v ← zoom (fget f);
      match f_ip v with
      | None => mret (fails E_BADF tf)
      | Some ip =>
          i ← zoom (iget ip);
          mret (syscall_set_retval1 (flag (bool_decide (i_type i = T_DIR))) (syscall_set_errno E_SUCC tf))
      end
  end.

(** The names of a directory, each followed by a blank. *)
Fixpoint ls_loop (fuel : nat) (dp off : Z) : M in_state (list Z) :=
  match fuel with
  | O => mret []
  | S fuel =>
      v ← iget dp;
      if bool_decide (off < i_size v) then
        r ← inode_read dp off dirent_size;
        if bool_decide (r.1 ≠ dirent_size) then inode_unlock (Some dp) ;; kern_panic
        else
          let de := get_dirent r.2 in
          if bool_decide (de_inum de = 0) then ls_loop fuel dp (off + dirent_size)
          else
            n ← deref (strnlen (de_name de) 4096);
            rest ← ls_loop fuel dp (off + dirent_size);
            mret (take (Z.to_nat n) (de_name de) ++ [32] ++ rest)
      else mret []
  end.

(** The working directory of the process, the root when it has none. *)
Definition cwd_or_root (pid : Z) : M k_state Z :=
  d ← zoom (tcb_get_cwd pid);
  match d with
  | Some d => mret d
  | None => d ← zoom (inode_get ROOTDEV ROOTINO); zoom (tcb_set_cwd pid (Some d)) ;; mret d
  end.

(** The blank after the last name becomes the terminator; without an entry that byte lies
    before the buffer. *)
Definition sys_ls (tf : tf_t) : M k_state tf_t :=
  let user_buf_addr := syscall_get_arg2 tf in
  let buf_len := s32 (syscall_get_arg3 tf) in
  cur_pid ← curid;
  dp ← cwd_or_root cur_pid;
  zoom (inode_lock (Some dp)) ;;
  v ← zoom (iget dp);
  names ← zoom (ls_loop (Z.to_nat (i_size v / dirent_size + 1)) dp 0);
  zoom (inode_unlock (Some dp)) ;;
  let n := Z.of_nat (length names) in
  if bool_decide (n = 0) || bool_decide (n > 4096) then undef
  else
    buf_store cur_pid (<[Z.to_nat (n - 1) := 0]> names) ;;
    let len := if bool_decide (n < buf_len) then n else buf_len in
    if bool_decide (len < 0) then undef
    else
      row ← buf_row cur_pid;
      copyout (take (Z.to_nat len) row) cur_pid user_buf_addr ;;
      mret (syscall_set_retval1 len (syscall_set_errno E_SUCC tf)).

(** [sys_pwd] keeps the names in an array of 100 rows of 100 bytes on the stack. *)
Definition arr_put (i : nat) (bs arr : list Z) : list Z :=
  take (100 * i) arr ++ bs ++ drop (100 * i + length bs) arr.

(** The entry of [parent] that names the inode [inum], copied into row [len]; the result is
    the new array and the new [len]. *)
Fixpoint pwd_entry (fuel : nat) (parent inum off : Z) (len : nat) (arr : list Z) : M in_state (list Z * nat) :=
  match fuel with
  | O => mret (arr, len)
  | S fuel =>
      v ← iget parent;
      if bool_decide (off < i_size v) then
        r ← inode_read parent off dirent_size;
        if bool_decide (r.1 ≠ dirent_size) then mret (arr, len)
        else
          let de := get_dirent r.2 in
          if bool_decide (de_inum de = inum) then
            if bool_decide (100 <= len)%nat then undef
            else
              nm ← deref (strncpy (de_name de) DIRSIZ);
              mret (arr_put len (nm ++ [0]) arr, S len)
          else pwd_entry fuel parent inum (off + dirent_size) len arr
      else mret (arr, len)
  end.

(** [parent] is the result of looking up the parent of [cur]; [None] is a null pointer.  A
    hundred levels fill the array. *)
Fixpoint pwd_loop (fuel : nat) (cur : Z) (parent : option (Z * Z)) (len : nat) (arr : list Z)
    : M in_state (list Z * nat) :=
  match fuel with
  | O => undef
  | S fuel =>
      '(p, _) ← deref parent;
      c ← iget cur;
      v ← iget p;
      if bool_decide (i_inum v = i_inum c) then mret (arr, len)
      else
        '(arr, len) ← pwd_entry (Z.to_nat (i_size v / dirent_size + 1)) p (i_inum c) 0 len arr;
        pp ← dir_lookup p DOTDOT;
        pwd_loop fuel p pp len arr
  end.

(** The slashes are written over the array, at the sum of the lengths. *)
Fixpoint pwd_join (n : nat) (p : nat) (arr : list Z) : option (list Z * nat) :=
  match n with
  | O => Some (arr, p)
  | S i =>
      k ← strnlen (take 100 (drop (100 * i) arr)) 100;
      let p := (p + Z.to_nat k)%nat in
      if bool_decide (p < length arr)%nat then pwd_join i (S p) (<[p := 47]> arr) else None
  end.

(** The destination is the number of the call, and no register is set. *)
Definition sys_pwd (stk_arr : list Z) (tf : tf_t) : M k_state tf_t :=
  pid ← curid;
  curi ← cwd_or_root pid;
  parent ← zoom (dir_lookup curi DOTDOT);
  '(arr, len) ← zoom (pwd_loop 101 curi parent 0 stk_arr);
  '(arr, p) ← deref (pwd_join len 0 arr);
  if bool_decide (p < length arr)%nat then
    copyout (take (p + 1) (<[p := 0]> arr)) pid (syscall_get_arg1 tf) ;;
    mret tf
  else undef.

Definition sys_mv (tf : tf_t) : M k_state tf_t := mret tf.
Definition sys_cat (tf : tf_t) : M k_state tf_t := mret tf.
Definition sys_cp (tf : tf_t) : M k_state tf_t := mret tf.
Definition sys_touch (tf : tf_t) : M k_state tf_t := mret tf.

Definition sys_rm (tf : tf_t) : M k_state tf_t :=
  let user_addr_path := syscall_get_arg2 tf in
  let length := s32 (syscall_get_arg3 tf) in
  cur_pid ← curid;
  let length := if bool_decide (length < PAGESIZE - 1) then length else PAGESIZE - 1 in
  if bool_decide (length < 0) then undef
  else
    r ← copyin cur_pid user_addr_path length;
    buf_store cur_pid r.2 ;;
    row ← buf_row cur_pid;
    aset NUM_IDS upd_sys_buf cur_pid (<[Z.to_nat length := 0]> row) ;;
    mret tf.

(** ** Signals *)

Definition act_bytes (a : sigaction) : list Z :=
  int_bytes (sa_handler a) ++ int_bytes (sa_sigaction a) ++ int_bytes (sa_flags a)
  ++ int_bytes (sa_restorer a) ++ int_bytes (sa_mask a).

Definition get_act (d : list Z) : sigaction :=
  {| sa_handler := get32 d 0; sa_sigaction := get32 d 4; sa_flags := get32 d 8;
     sa_restorer := get32 d 12; sa_mask := get32 d 16 |}.

Definition sys_sigaction (stk_act : list Z) (tf : tf_t) : M k_state tf_t :=
  let signum := s32 (syscall_get_arg2 tf) in
  let user_act := syscall_get_arg3 tf in
  let user_oldact := syscall_get_arg4 tf in
  cur_pid ← curid;
  if bool_decide (signum < 1) || bool_decide (signum >= NSIG) then mret (syscall_set_errno E_INVAL_SIGNUM tf)
  else
    (if bool_decide (user_oldact ≠ 0) then
       a ← zoom (tcb_get_sigaction cur_pid signum);
       match a with
       | Some a => copyout (act_bytes a) cur_pid user_oldact
       | None => mret 0
       end
     else mret 0) ;;
    (if bool_decide (user_act ≠ 0) then
       r ← copyin cur_pid user_act 20;
       zoom (tcb_set_sigaction cur_pid signum (Some (get_act (overwrite r.2 stk_act))))
     else mret ()) ;;
    mret (syscall_set_errno E_SUCC tf).

(** What the three ways to die have in common. *)
Definition kill_thread (pid : Z) : M k_state () :=
  zoom (tcb_set_state pid TSTATE_DEAD) ;;
  zoom (tqueue_remove NUM_IDS pid) ;;
  zoom (tcb_set_pending_signals pid 0).

Definition refund_parent (pid : Z) : M k_state () :=
  parent ← zoom (container_get_parent pid);
  quota ← zoom (container_get_quota pid);
  zoom (container_refund_usage parent quota).

Definition wake_sleeper (pid : Z) : M k_state () :=
  sleeping ← zoom (tcb_is_sleeping pid);
  if bool_decide (sleeping ≠ 0) then
    c ← zoom (tcb_get_channel pid);
    match c with Some c => zoom (thread_wakeup (Some c)) | None => mret () end
  else mret ().

Definition sys_kill (tf : tf_t) : M k_state tf_t :=
  let pid := s32 (syscall_get_arg2 tf) in
  let signum := s32 (syscall_get_arg3 tf) in
  if bool_decide (signum < 1) || bool_decide (signum >= NSIG) then mret (syscall_set_errno E_INVAL_SIGNUM tf)
  else if bool_decide (pid < 0) || bool_decide (pid >= NUM_IDS) then mret (syscall_set_errno E_INVAL_PID tf)
  else
    st ← zoom (tcb_get_state pid);
    if bool_decide (st = TSTATE_DEAD) then mret (syscall_set_errno E_INVAL_PID tf)
    else if bool_decide (signum = SIGKILL) then
      kill_thread pid ;;
      refund_parent pid ;;
      mret (syscall_set_errno E_SUCC tf)
    else
      zoom (tcb_add_pending_signal pid signum) ;;
      wake_sleeper pid ;;
      mret (syscall_set_errno E_SUCC tf).

Definition sys_pause (tf : tf_t) : M k_state tf_t :=
  cur_pid ← curid;
  p ← zoom (tcb_get_pending_signals cur_pid);
  if bool_decide (p ≠ 0) then mret (syscall_set_errno E_SUCC tf)
  else
    zoom (tcb_set_state cur_pid TSTATE_SLEEP) ;;
    k_yield ;;
    mret (syscall_set_errno E_SUCC tf).

Definition sys_sigreturn (tf : tf_t) : M k_state tf_t :=
  cur_pid ← curid;
  '(esp_addr, eip_addr) ← zoom (tcb_get_signal_context cur_pid);
  if bool_decide (esp_addr = 0) || bool_decide (eip_addr = 0) then mret (syscall_set_errno E_INVAL_ADDR tf)
  else
    r1 ← copyin cur_pid esp_addr 4;
    if bool_decide (r1.1 ≠ 4) then mret (syscall_set_errno E_MEM tf)
    else
      r2 ← copyin cur_pid eip_addr 4;
      if bool_decide (r2.1 ≠ 4) then mret (syscall_set_errno E_MEM tf)
      else
        zoom (tcb_clear_signal_context cur_pid) ;;
        mret (syscall_set_errno E_SUCC (set_stack (get32 r1.2 0) (get32 r2.2 0) tf)).

(** The call does not return. *)
Definition exit_fds (pid : Z) : M k_state () :=
  for_range 0 NOFILE (λ i,
    fp ← get_fd pid i;
    match fp with
    | Some f => zoom (file_close f) ;; set_fd pid i None
    | None => mret ()
    end).

Definition sys_exit (tf : tf_t) : M k_state tf_t :=
  pid ← curid;
  exit_fds pid ;;
  kill_thread pid ;;
  refund_parent pid ;;
  zoom thread_exit ;;
  block.

(** One round of the loop; a thread that is alone waits for ever. *)
Definition sys_waitpid (tf : tf_t) : M k_state tf_t :=
  let target_pid := s32 (syscall_get_arg2 tf) in
  zoom (tcb_get_state (syscall_get_arg2 tf)) ;;
  if bool_decide (target_pid < 0) || bool_decide (target_pid >= NUM_IDS)
  then mret (syscall_set_errno E_INVAL_PID tf)
  else
    st ← zoom (tcb_get_state target_pid);
    if bool_decide (st = TSTATE_DEAD) then mret (syscall_set_errno E_SUCC tf)
    else k_yield ;; spin.
