(* ===== verification/Trap.v ===== *)
(** * Traps and the delivery of signals
    (kern/trap/TTrapInit, TTrapHandler, TDispatch)

    Every entry into the kernel goes through [trap]: it runs the handler of the trap
    number, then delivers one pending signal, then returns to the process. *)

From S2P Require Import Prelude Spinlock Mboot PMem Container PageTable TCB TQueue Thread Sched.
From S2P Require Import UserCopy CString BufCache Log Inode Path File Ipc TrapFrame Sysfile Syscall.
From S2P Require Segment.

Definition T_PGFLT : Z := 14.
Definition T_IRQ0 : Z := 32.
Definition IRQ_TIMER : Z := 0.
Definition IRQ_KBD : Z := 1.
Definition IRQ_SERIAL13 : Z := 4.
Definition IRQ_SPURIOUS : Z := 7.
Definition IRQ_IDE1 : Z := 14.
Definition IRQ_IDE2 : Z := 15.
Definition PFE_PR : Z := 1.

(** ** The table *)

Definition trap_handler_register (cpu trapno : Z) (cb : trap_cb) : M k_state () :=
  KERN_ASSERT (bool_decide (0 <= cpu < 8)) ;;
  KERN_ASSERT (bool_decide (0 <= trapno < 256)) ;;
  i ← gets trap_inited;
  modify (upd_handlers <[(cpu, trapno) := cb]> i).

Definition trap_init_array : M k_state () :=
  i ← gets trap_inited;
  KERN_ASSERT (negb i) ;;
  modify (upd_handlers (λ _, ∅) true).

Fixpoint register_all (cpu : Z) (l : list (Z * trap_cb)) : M k_state () :=
  match l with
  | [] => mret ()
  | (n, cb) :: l => trap_handler_register cpu n cb ;; register_all cpu l
  end.

(** The registrations in their order: general protection, page fault, system calls, the
    other exceptions, the interrupts. *)
Definition registrations : list (Z * trap_cb) :=
  [(13, exception_handler_cb); (14, exception_handler_cb); (T_SYSCALL, syscall_dispatch_cb)]
  ++ ((λ n, (n, exception_handler_cb)) <$>
      [0; 1; 2; 3; 4; 5; 6; 7; 8; 9; 10; 11; 12; 15; 16; 17; 18; 19; 30])
  ++ ((λ n, (T_IRQ0 + n, interrupt_handler_cb)) <$>
      [IRQ_SPURIOUS; IRQ_TIMER; IRQ_KBD; IRQ_SERIAL13; IRQ_IDE1]).

Definition trap_init (cpu : Z) : M k_state () :=
  (if bool_decide (cpu = 0) then trap_init_array else mret ()) ;;
  register_all cpu registrations.

(** ** Exceptions and interrupts *)

Definition default_exception_handler (tf : tf_t) : M k_state tf_t := kern_panic.

Definition pgflt_handler (tf : tf_t) : M k_state tf_t :=
  cur_pid ← curid;
  fault_va ← gets cr2;
  if bool_decide (Z.land (err tf) PFE_PR ≠ 0) then kern_panic
  else
    r ← zoom (alloc_page cur_pid fault_va (Z.lor (Z.lor PTE_W PTE_U) PTE_P));
    if bool_decide (r = MagicNumber) then kern_panic else mret tf.

Definition exception_handler (tf : tf_t) : M k_state tf_t :=
  if bool_decide (trapno tf = T_PGFLT) then pgflt_handler tf else default_exception_handler tf.

(** The tick may switch to another thread; the rest of the trap runs when the interrupted
    thread is scheduled again. *)
Definition timer_intr_handler : M k_state () :=
  old ← curid;
  zoom sched_update ;;
  new ← curid;
  if bool_decide (new = old) then mret () else block.

Definition interrupt_handler (tf : tf_t) : M k_state tf_t :=
  (if bool_decide (trapno tf = T_IRQ0 + IRQ_SPURIOUS) then mret ()
   else if bool_decide (trapno tf = T_IRQ0 + IRQ_TIMER) then timer_intr_handler
   else if bool_decide (trapno tf = T_IRQ0 + IRQ_IDE1) then zoom ide_intr
   else mret ()) ;;
  mret tf.

(** ** Signals *)

(** mov eax, SYS_sigreturn; int 0x30; jmp to itself; three nops. *)
Definition trampoline : list Z := [184; SYS_sigreturn; 0; 0; 0; 205; 48; 235; 254; 144; 144; 144].

Definition deliver_signal (tf : tf_t) (signum : Z) : M k_state tf_t :=
  cur_pid ← curid;
  sa ← zoom (tcb_get_sigaction cur_pid signum);
  match sa with
  | None => mret tf
  | Some sa =>
      if bool_decide (sa_handler sa = 0) then mret tf
      else
        let saved_eip := u32 (esp tf - 4) in
        copyout (int_bytes (eip tf)) cur_pid saved_eip ;;
        let saved_esp := u32 (saved_eip - 4) in
        copyout (int_bytes (esp tf)) cur_pid saved_esp ;;
        let trampoline_addr := u32 (saved_esp - 12) in
        copyout trampoline cur_pid trampoline_addr ;;
        let new_esp := Z.land trampoline_addr 4294967292 in
        let arg := u32 (new_esp - 4) in
        copyout (int_bytes signum) cur_pid arg ;;
        let new_esp := u32 (arg - 4) in
        copyout (int_bytes trampoline_addr) cur_pid new_esp ;;
        zoom (tcb_set_signal_context cur_pid saved_esp saved_eip) ;;
        mret (set_stack new_esp (sa_handler sa) tf)
  end.

Definition terminate_process (pid : Z) : M k_state () := kill_thread pid.

(** The lowest signal that is pending, from [signum] on. *)
Fixpoint first_signal (fuel : nat) (pending signum : Z) : option Z :=
  match fuel with
  | O => None
  | S fuel => if Z.testbit pending signum then Some signum else first_signal fuel pending (signum + 1)
  end.

Definition handle_pending_signals (tf : tf_t) : M k_state tf_t :=
  cur_pid ← curid;
  pending ← zoom (tcb_get_pending_signals cur_pid);
  match first_signal 31 pending 1 with
  | None => mret tf
  | Some signum =>
      zoom (tcb_clear_pending_signal cur_pid signum) ;;
      if bool_decide (signum = SIGKILL) then
        terminate_process cur_pid ;;
        zoom thread_exit ;;
        block
      else deliver_signal tf signum
  end.

(** ** System calls and traps *)

Section Dispatch.
Context (elf_image : Z → Z) (proc_start_user_addr : Z) (g : stack).

Definition seg_done (m : M k_state (seg tf_t ())) : M k_state tf_t :=
  r ← m; match r with SegDone tf => mret tf | SegSleep _ => block end.

(** For an unknown number the setter of the error number is called with the error number
    in place of the trap frame: it stores a word of the stack into the register field of a
    frame at address 3. *)
Definition syscall_dispatch (tf : tf_t) : M k_state tf_t :=
  let nr := syscall_get_arg1 tf in
  if bool_decide (nr = SYS_sync_send) then seg_done (sys_sync_send tf)
  else if bool_decide (nr = SYS_sync_recv) then seg_done (sys_sync_recv tf)
  else if bool_decide (nr = SYS_is_dir) then sys_is_dir tf
  else if bool_decide (nr = SYS_ls) then sys_ls tf
  else if bool_decide (nr = SYS_pwd) then sys_pwd (stk_arr g) tf
  else if bool_decide (nr = SYS_cp) then sys_cp tf
  else if bool_decide (nr = SYS_mv) then sys_mv tf
  else if bool_decide (nr = SYS_rm) then sys_rm tf
  else if bool_decide (nr = SYS_cat) then sys_cat tf
  else if bool_decide (nr = SYS_touch) then sys_touch tf
  else if bool_decide (nr = SYS_spawn) then sys_spawn elf_image proc_start_user_addr tf
  else if bool_decide (nr = SYS_yield) then sys_yield tf
  else if bool_decide (nr = SYS_open) then sys_open (stk_path g) (stk_name g) tf
  else if bool_decide (nr = SYS_close) then sys_close tf
  else if bool_decide (nr = SYS_read) then sys_read tf
  else if bool_decide (nr = SYS_write) then sys_write tf
  else if bool_decide (nr = SYS_pipe) then sys_pipe tf
  else if bool_decide (nr = SYS_mkdir) then sys_mkdir (stk_path g) (stk_name g) tf
  else if bool_decide (nr = SYS_chdir) then sys_chdir (stk_path g) (stk_name g) tf
  else if bool_decide (nr = SYS_link) then sys_link (stk_path g) (stk_path2 g) (stk_name g) tf
  else if bool_decide (nr = SYS_unlink) then sys_unlink (stk_path g) (stk_name g) tf
  else if bool_decide (nr = SYS_stat) then sys_fstat tf
  else if bool_decide (nr = SYS_sigaction) then sys_sigaction (stk_act g) tf
  else if bool_decide (nr = SYS_kill) then sys_kill tf
  else if bool_decide (nr = SYS_pause) then sys_pause tf
  else if bool_decide (nr = SYS_sigreturn) then sys_sigreturn tf
  else if bool_decide (nr = SYS_exit) then sys_exit tf
  else if bool_decide (nr = SYS_waitpid) then sys_waitpid tf
  else
    zoom (modify (λ s : pt_state, set_mem (store32 (E_INVAL_CALLNR + 28) (stk_word g) (mem s)) s)) ;;
    mret tf.

Definition run_cb (cb : trap_cb) (tf : tf_t) : M k_state tf_t :=
  match cb with
  | exception_handler_cb => exception_handler tf
  | interrupt_handler_cb => interrupt_handler tf
  | syscall_dispatch_cb => syscall_dispatch tf
  end.

Definition kstack_switch (pid : Z) : M k_state () :=
  base ← gets (λ s, proc_kstack_addr (kth s));
  zoom (Segment.kstack_switch base cpu_idx pid).

(** Where a new process starts: the frame with which it enters user mode. *)
Definition proc_start_user : M k_state tf_t :=
  cur_pid ← curid;
  kstack_switch cur_pid ;;
  zoom (set_pdir_base cur_pid) ;;
  aget NUM_IDS tf_zero uctx_pool cur_pid.

(** From the return of the handler to the return to the process. *)
Definition trap_tail (cur_pid : Z) (tf : tf_t) : M k_state tf_t :=
  kstack_switch cur_pid ;;
  tf ← handle_pending_signals tf;
  zoom (set_pdir_base cur_pid) ;;
  mret tf.

Definition trap (tf : tf_t) : M k_state tf_t :=
  cur_pid ← curid;
  zoom (set_pdir_base 0) ;;
  f ← (if bool_decide (0 <= trapno tf < 256)
       then gets (λ s, TRAP_HANDLER s !! (cpu_idx, trapno tf)) else undef);
  tf ← match f with Some cb => run_cb cb tf | None => mret tf end;
  trap_tail cur_pid tf.
End Dispatch.

(** The kernel with the task register on the stack of a process. *)
Definition on_kstack (p : Z) (s : k_state) : k_state :=
  put (Lens := k_seg_lens) (Segment.switch_seg (proc_kstack_addr (kth s)) cpu_idx p (k_seg s)) s.

Lemma kstack_switch_on p s : kstack_switch p s = Ok () (on_kstack p s).
Proof.
  unfold kstack_switch. rewrite (bind_Ok _ _ _ _ _ (gets_Ok _ s)).
  by apply (zoom_Ok (S:=k_state) (Segment.kstack_switch (proc_kstack_addr (kth s)) cpu_idx p)), Segment.kstack_switch_run.
Qed.
