(* ===== verification/Keeps.v ===== *)
(** * What code leaves alone

    Six things of the kernel state change in few places only: which open file each
    descriptor of a process refers to, whether a container is in use and how many children
    it has, the count and kind of an open file, and which process runs.  [keeps m] says
    that [m], when it returns, has changed none of them.  It is proved function by
    function, bottom up, by one tactic and a hint database. *)

From S2P Require Import Prelude Spinlock Mboot PMem Container PageTable TCB TQueue Thread Sched.
From S2P Require Import UserCopy CString BufCache Log Inode Path File Ipc TrapFrame Sysfile Syscall Trap.

(** Of process, container or file number [q]. *)
Record traits := { t_fds : gmap Z Z; t_used : Z; t_kids : Z; t_ref : Z; t_kind : file_type; t_cur : Z }.

Class Traits (S : Type) := traits_of : S → Z → traits.

#[global] Instance cont_traits : Traits cont_state := λ s q,
  {| t_fds := ∅; t_used := used (cont_look s q); t_kids := nchildren (cont_look s q); t_ref := 0; t_kind := FD_NONE; t_cur := 0 |}.
#[global] Instance pt_traits : Traits pt_state := λ s, traits_of (view s : cont_state).
#[global] Instance tcb_traits : Traits tcb_state := λ s q,
  let c := traits_of (view s : pt_state) q in
  {| t_fds := openfiles (tcb_look s q); t_used := t_used c; t_kids := t_kids c; t_ref := 0; t_kind := FD_NONE; t_cur := 0 |}.
#[global] Instance tq_traits : Traits tq_state := λ s, traits_of (view s : tcb_state).
#[global] Instance th_traits : Traits th_state := λ s q,
  let c := traits_of (view s : tq_state) q in
  {| t_fds := t_fds c; t_used := t_used c; t_kids := t_kids c; t_ref := 0; t_kind := FD_NONE; t_cur := alook 0 (CURID s) cpu_idx |}.
#[global] Instance bc_traits : Traits bc_state := λ s, traits_of (view s : th_state).
#[global] Instance lg_traits : Traits lg_state := λ s, traits_of (view s : bc_state).
#[global] Instance in_traits : Traits in_state := λ s, traits_of (view s : lg_state).
#[global] Instance fs_traits : Traits fs_state := λ s q,
  let c := traits_of (view s : in_state) q in let v := alook file_zero (ftable s) q in
  {| t_fds := t_fds c; t_used := t_used c; t_kids := t_kids c; t_ref := f_ref v; t_kind := f_type v; t_cur := t_cur c |}.
#[global] Instance k_traits : Traits k_state := λ s, traits_of (view s : fs_state).

Definition same {S} `{Traits S} (s s' : S) : Prop := ∀ q, traits_of s' q = traits_of s q.

Definition keeps {S A} `{Traits S} (m : M S A) : Prop := ∀ s a s', m s = Ok a s' → same s s'.

#[global] Instance same_refl {S} `{Traits S} : Reflexive (same (S:=S)).
Proof. by intros s q. Qed.
#[global] Instance same_trans {S} `{Traits S} : Transitive (same (S:=S)).
Proof. intros s1 s2 s3 H1 H2 q. by rewrite H2, H1. Qed.

(** ** Rules *)

Section Rules.
Context {S : Type} `{Traits S}.

Lemma keeps_ret {A} (a : A) : keeps (mret a : M S A).
Proof. intros s a' s' E. injection E as _ <-. reflexivity. Qed.

Lemma keeps_bind {A B} (m : M S A) (f : A → M S B) : keeps m → (∀ a, keeps (f a)) → keeps (m ≫= f).
Proof. intros Hm Hf s b s' E. apply bind_inv in E as (a & s1 & E1 & E2). transitivity s1; [by apply (Hm _ a)|by apply (Hf a _ b)]. Qed.

Lemma keeps_gets {A} (f : S → A) : keeps (gets f).
Proof. intros s a s' E. injection E as _ <-. reflexivity. Qed.

Lemma keeps_modify (f : S → S) : (∀ s, same s (f s)) → keeps (modify f).
Proof. intros Hf s a s' E. injection E as _ <-. apply Hf. Qed.

Lemma keeps_panic {A} : keeps (kern_panic : M S A).
Proof. intros s a s' E. discriminate E. Qed.

Lemma keeps_undef {A} : keeps (undef : M S A).
Proof. intros s a s' E. discriminate E. Qed.

Lemma keeps_spin {A} : keeps (spin : M S A).
Proof. intros s a s' E. discriminate E. Qed.

Lemma keeps_block {A} : keeps (block : M S A).
Proof. intros s a s' E. discriminate E. Qed.

Lemma keeps_block_after {A B} (m : M S A) : keeps (m ;; block : M S B).
Proof. intros s a s' E. apply bind_inv in E as (b & s1 & _ & E). discriminate E. Qed.

Lemma keeps_deref {A} (x : option A) : keeps (deref x : M S A).
Proof. destruct x; intros s a' s' E; [injection E as _ <-; reflexivity|discriminate E]. Qed.

Lemma keeps_assert (b : bool) : keeps (KERN_ASSERT b : M S ()).
Proof. destruct b; intros s a s' E; [injection E as _ <-; reflexivity|discriminate E]. Qed.

Lemma keeps_aget {A} n (d : A) (arr : S → gmap Z A) i : keeps (aget n d arr i).
Proof. intros s a s' E. unfold aget in E. case_bool_decide; [|done]. injection E as _ <-. reflexivity. Qed.

Lemma keeps_aset {A} n (upd : (gmap Z A → gmap Z A) → S → S) i x : (∀ s, same s (upd <[i := x]> s)) → keeps (aset n upd i x).
Proof. intros Hu s a s' E. unfold aset in E. case_bool_decide; [|done]. injection E as _ <-. apply Hu. Qed.

Lemma keeps_acquire (g : S → spinlock_t) set : (∀ lk s, same s (set lk s)) → keeps (spinlock_acquire g set).
Proof. intros Hs s a s' E. unfold spinlock_acquire in E. destruct (spinlock_acquire_A cpu_idx (g s)); [|done]. injection E as _ <-. apply Hs. Qed.
End Rules.

#[local] Transparent for_range.
Lemma keeps_for {S} `{Traits S} lo hi (body : Z → M S ()) : (∀ i, keeps (body i)) → keeps (for_range lo hi body).
Proof.
  intros Hb. unfold for_range. generalize (Z.to_nat (hi - lo)). intros n. revert lo. induction n as [|n IH]; intros lo; cbn [for_fuel]; [apply keeps_ret|].
  apply keeps_bind; [apply Hb|]. intros _. apply IH.
Qed.
#[local] Opaque for_range.

(** A component that carries the traits of the whole, and one that carries none. *)
Class Carries (S C : Type) `{Traits S, Traits C, Lens S C} : Prop := carries (s : S) (c : C) : same (view s) c → same s (put c s).
Class Apart (S C : Type) `{Traits S, Lens S C} : Prop := apart_from (s : S) (c : C) : same s (put c s).

Lemma keeps_zoom {S C A} `{Carries S C} (m : M C A) : keeps m → keeps (zoom m : M S A).
Proof. intros Hm s a s' E. apply zoom_inv in E as (c & E & ->). apply carries. by apply (Hm _ a). Qed.

Lemma keeps_apart {S C A} `{Apart S C} (m : M C A) : keeps (zoom m : M S A).
Proof. intros s a s' E. apply zoom_inv in E as (c & E & ->). apply apart_from. Qed.

#[global] Instance at_apart : Apart cont_state at_state.
Proof. by intros s c q. Qed.
#[global] Instance ipc_apart : Apart k_state ipc_state.
Proof. by intros s c q. Qed.

#[global] Instance pt_carries : Carries pt_state cont_state.
Proof. intros s c E q. exact (E q). Qed.
#[global] Instance tcb_carries : Carries tcb_state pt_state.
Proof.
  intros s c E q. change (traits_of (put c s) q) with {| t_fds := openfiles (tcb_look s q); t_used := t_used (traits_of c q);
    t_kids := t_kids (traits_of c q); t_ref := 0; t_kind := FD_NONE; t_cur := 0 |}. by rewrite (E q).
Qed.
#[global] Instance tq_carries : Carries tq_state tcb_state.
Proof. intros s c E q. exact (E q). Qed.
#[global] Instance th_carries : Carries th_state tq_state.
Proof.
  intros s c E q. change (traits_of (put c s) q) with {| t_fds := t_fds (traits_of c q); t_used := t_used (traits_of c q);
    t_kids := t_kids (traits_of c q); t_ref := 0; t_kind := FD_NONE; t_cur := alook 0 (CURID s) cpu_idx |}. by rewrite (E q).
Qed.
#[global] Instance bc_carries : Carries bc_state th_state.
Proof. intros s c E q. exact (E q). Qed.
#[global] Instance lg_carries : Carries lg_state bc_state.
Proof. intros s c E q. exact (E q). Qed.
#[global] Instance lg_carries_th : Carries lg_state th_state.
Proof. intros s c E q. exact (E q). Qed.
#[global] Instance in_carries : Carries in_state lg_state.
Proof. intros s c E q. exact (E q). Qed.
#[global] Instance fs_carries : Carries fs_state in_state.
Proof.
  intros s c E q. change (traits_of (put c s) q) with (let v := alook file_zero (ftable s) q in
    {| t_fds := t_fds (traits_of c q); t_used := t_used (traits_of c q); t_kids := t_kids (traits_of c q); t_ref := f_ref v; t_kind := f_type v;
    t_cur := t_cur (traits_of c q) |}).
  by rewrite (E q).
Qed.
#[global] Instance k_carries : Carries k_state fs_state.
Proof. intros s c E q. exact (E q). Qed.

Lemma carries_comp {A B C} `{Traits A, Traits B, Traits C} (l : Lens A B) (m : Lens B C) :
  Carries A B → Carries B C → @Carries A C _ _ (lens_comp l m).
Proof. intros Hab Hbc s c E. simpl. apply Hab. apply Hbc. exact E. Qed.

#[global] Instance th_tcb_carries : Carries th_state tcb_state := carries_comp _ _ _ _.
#[global] Instance in_bc_carries : Carries in_state bc_state := carries_comp _ _ _ _.
#[global] Instance in_th_carries : Carries in_state th_state := carries_comp _ _ _ _.
#[global] Instance in_tcb_carries : Carries in_state tcb_state := carries_comp _ _ _ _.
#[global] Instance fl_lg_carries : Carries fs_state lg_state := carries_comp _ _ _ _.
#[global] Instance fl_th_carries : Carries fs_state th_state := carries_comp _ _ _ _.
#[global] Instance fl_tcb_carries : Carries fs_state tcb_state := carries_comp _ _ _ _.
#[global] Instance k_in_carries : Carries k_state in_state := carries_comp _ _ _ _.
#[global] Instance k_bc_carries : Carries k_state bc_state := carries_comp _ _ _ _.
#[global] Instance k_lg_carries : Carries k_state lg_state := carries_comp _ _ _ _.
#[global] Instance k_th_carries : Carries k_state th_state := carries_comp _ _ _ _.
#[global] Instance k_tq_carries : Carries k_state tq_state := carries_comp _ _ _ _.
#[global] Instance k_tcb_carries : Carries k_state tcb_state := carries_comp _ _ _ _.
#[global] Instance k_pt_carries : Carries k_state pt_state := carries_comp _ _ _ _.
#[global] Instance k_cont_carries : Carries k_state cont_state := carries_comp _ _ _ _.

(** ** The tactic *)

Create HintDb keeps.

Ltac head_of m := match m with ?f _ => head_of f | _ => m end.

(** For code that is a function of the state. *)
Ltac keep_raw := intros ? ? ? Hrun; repeat case_match; try discriminate; injection Hrun; intros; subst; intros ?; reflexivity.

(** A step of [keep]: the rule of a combinator, a lemma of the database, or the body of
    a definition. *)
Ltac keep1 :=
  match goal with
  | |- ∀ _, _ => intros ?
  | |- keeps (mret _) => apply keeps_ret
  | |- keeps (gets _) => apply keeps_gets
  | |- keeps kern_panic => apply keeps_panic
  | |- keeps undef => apply keeps_undef
  | |- keeps spin => apply keeps_spin
  | |- keeps block => apply keeps_block
  | |- keeps (deref _) => apply keeps_deref
  | |- keeps (KERN_ASSERT _) => apply keeps_assert
  | |- keeps (aget _ _ _ _) => apply keeps_aget
  | |- keeps (for_range _ _ _) => apply keeps_for
  | |- keeps (modify _) => apply keeps_modify; intros ? ?; reflexivity
  | |- keeps (aset _ _ _ _) => apply keeps_aset; intros ? ?; reflexivity
  | |- keeps (spinlock_acquire _ _) => apply keeps_acquire; intros ? ? ?; reflexivity
  | |- keeps (spinlock_release _ _) => solve [apply keeps_modify; intros ? ?; reflexivity | assumption]
  | |- keeps _ => solve [auto 2 with keeps nocore]
  | |- keeps (_ ;; block) => apply keeps_block_after
  | |- keeps (_ ≫= _) => apply keeps_bind
  | |- keeps (zoom _) => first [apply keeps_apart | apply keeps_zoom]
  | |- keeps (match ?x with _ => _ end) => destruct x
  | |- keeps (let _ := _ in _) => cbv zeta
  | |- keeps (λ _, _) => solve [keep_raw]
  | |- keeps ?m => let f := head_of m in unfold f
  end.
Ltac keep := repeat keep1.

(** ** Memory *)

Lemma cset_usage s id u a s' : cset id (set_usage u (cont_look s id)) s = Ok a s' → same s s'.
Proof.
  unfold cset, aset. case_bool_decide; [|done]. intros [= _ <-] q. unfold traits_of, cont_traits, cont_look. simpl.
  rewrite alook_insert. case_decide as E; [|done]. by subst.
Qed.

Lemma keeps_cget_then {A} id (k : SContainer → M cont_state A) : (∀ s a s', k (cont_look s id) s = Ok a s' → same s s') → keeps (c ← cget id; k c).
Proof.
  intros Hk s a s' E. apply bind_inv in E as (c & s1 & E1 & E2). unfold cget, aget in E1. case_bool_decide; [|done]. injection E1 as <- <-. by apply (Hk s a).
Qed.

Lemma keeps_container_alloc id : keeps (container_alloc id).
Proof.
  apply keeps_cget_then. intros s a s' E. cbv zeta in E. case_bool_decide; [injection E as _ <-; reflexivity|].
  apply bind_inv in E as (b & s1 & E1 & E2). transitivity s1; [by eapply cset_usage|]. by eapply (keeps_apart palloc).
Qed.

Lemma keeps_container_refund id q : keeps (container_refund_usage id q).
Proof. apply keeps_cget_then. intros s a s' E. case_bool_decide; by eapply cset_usage. Qed.

Lemma keeps_container_free id i : keeps (container_free id i).
Proof.
  unfold container_free. apply keeps_bind; [keep|]. intros a. case_bool_decide; [|keep]. apply keeps_bind; [keep|]. intros _.
  apply keeps_cget_then. intros s b s' E. case_bool_decide; [by eapply cset_usage|]. injection E as _ <-. reflexivity.
Qed.
#[export] Hint Resolve keeps_container_alloc keeps_container_refund keeps_container_free : keeps.

Lemma keeps_alloc_page p va perm : keeps (alloc_page p va perm).
Proof. keep. Qed.

Lemma keeps_copyin_loop fuel p va len : keeps (copyin_loop fuel p va len).
Proof. revert va len. induction fuel; cbn [copyin_loop]; keep. Qed.

Lemma keeps_copyout_loop fuel p va d : keeps (copyout_loop fuel p va d).
Proof. revert va d. induction fuel; cbn [copyout_loop]; keep. Qed.
#[export] Hint Resolve keeps_alloc_page keeps_copyin_loop keeps_copyout_loop : keeps.

Lemma keeps_load_pages fuel pid perm fs zva va fa : keeps (load_pages fuel pid perm fs zva va fa).
Proof. revert va fa. induction fuel; cbn [load_pages]; keep. Qed.
#[export] Hint Resolve keeps_load_pages : keeps.

Lemma keeps_elf_load exe pid : keeps (elf_load exe pid).
Proof. keep. Qed.
Lemma keeps_pt_copyin p va kva len : keeps (pt_copyin p va kva len).
Proof. keep. Qed.
Lemma keeps_pt_copyout kva d p va : keeps (pt_copyout kva d p va).
Proof. keep. Qed.
#[export] Hint Resolve keeps_elf_load keeps_pt_copyin keeps_pt_copyout : keeps.

(** ** Threads *)

Lemma keeps_tcb_upd pid g : (∀ t, openfiles (g t) = openfiles t) → keeps (tcb_upd pid g).
Proof.
  intros Hg s a s' E. apply bind_inv in E as (t & s1 & E1 & E2). unfold tcb_get, aget in E1. case_bool_decide; [|done]. injection E1 as <- <-.
  unfold aset in E2. case_bool_decide; [|done]. injection E2 as _ <-. intros q. unfold traits_of, tcb_traits, tcb_look. simpl.
  rewrite alook_insert. case_decide as Eq; [|done]. subst. by rewrite Hg.
Qed.
#[export] Hint Extern 1 (keeps (tcb_upd _ _)) => apply keeps_tcb_upd; reflexivity : keeps.

Lemma keeps_tqueue_enqueue c p : keeps (tqueue_enqueue c p).
Proof. keep. Qed.
Lemma keeps_tqueue_dequeue c : keeps (tqueue_dequeue c).
Proof. keep. Qed.
Lemma keeps_tqueue_remove c p : keeps (tqueue_remove c p).
Proof. keep. Qed.
#[export] Hint Resolve keeps_tqueue_enqueue keeps_tqueue_dequeue keeps_tqueue_remove : keeps.

Lemma keeps_thread_wakeup c : keeps (thread_wakeup c).
Proof. keep. Qed.
#[export] Hint Resolve keeps_thread_wakeup : keeps.

(** Code that changes at most which process runs. *)
Definition set_cur (c : Z) (t : traits) : traits :=
  {| t_fds := t_fds t; t_used := t_used t; t_kids := t_kids t; t_ref := t_ref t; t_kind := t_kind t; t_cur := c |}.
Definition switches {A} (m : M th_state A) : Prop :=
  ∀ s a s', m s = Ok a s' → ∃ c, ∀ q, traits_of s' q = set_cur c (traits_of s q).

Lemma switches_keeps {A} (m : M th_state A) : keeps m → switches m.
Proof. intros Hm s a s' E. exists (t_cur (traits_of s 0)). intros q. rewrite (Hm s a s' E q). reflexivity. Qed.

Lemma switches_bind {A B} (m : M th_state A) (f : A → M th_state B) : switches m → (∀ a, switches (f a)) → switches (m ≫= f).
Proof.
  intros Hm Hf s b s' E. apply bind_inv in E as (a & s1 & E1 & E2). destruct (Hm _ _ _ E1) as (c1 & H1).
  destruct (Hf a _ _ _ E2) as (c2 & H2). exists c2. intros q. rewrite H2, H1. reflexivity.
Qed.

Lemma switches_curid c : switches (set_curid c).
Proof.
  intros s a s' E. unfold set_curid, aset in E. case_bool_decide; [|done]. injection E as _ <-.
  exists c. intros q. unfold traits_of, th_traits, set_cur. simpl. by rewrite alook_insert_eq.
Qed.

Ltac switch :=
  repeat match goal with
  | |- ∀ _, _ => intros ?
  | |- switches (set_curid _) => apply switches_curid
  | |- switches (_ ≫= _) => apply switches_bind
  | |- switches (match ?x with _ => _ end) => destruct x
  | |- switches _ => apply switches_keeps; solve [keep]
  end.

Lemma switches_yield : switches thread_yield.
Proof. unfold thread_yield. switch. Qed.

Lemma switches_update : switches sched_update.
Proof. unfold sched_update. switch; apply switches_yield. Qed.

Section Sleep.
Context {S : Type} `{!Traits S, !Lens S th_state, !Carries S th_state}.

Lemma keeps_release (lk : lockref S) : (∀ v s, same s (lk_set lk v s)) → keeps (spinlock_release (lk_get lk) (lk_set lk)).
Proof. intros Hlk. apply keeps_modify. intros s. apply Hlk. Qed.

Lemma keeps_sleep_resume p (lk : lockref S) : (∀ v s, same s (lk_set lk v s)) → keeps (thread_sleep_resume p lk).
Proof. intros Hlk. unfold thread_sleep_resume. apply keeps_bind; [keep|]. intros _. apply keeps_acquire. exact Hlk. Qed.
End Sleep.
#[export] Hint Extern 1 (keeps (thread_sleep_resume _ _)) => apply keeps_sleep_resume; intros ? ? ?; reflexivity : keeps.

(** ** The file system *)

Lemma keeps_bufcache_get dev sec : keeps (bufcache_get dev sec).
Proof. keep. Qed.
Lemma keeps_ide_sleep fuel b : keeps (ide_sleep fuel b).
Proof. induction fuel; cbn [ide_sleep]; keep. Qed.
#[export] Hint Resolve keeps_ide_sleep : keeps.

Lemma keeps_bufcache_write b : keeps (bufcache_write b).
Proof. keep. Qed.
Lemma keeps_bufcache_release b : keeps (bufcache_release b).
Proof. keep. Qed.
#[export] Hint Resolve keeps_bufcache_get keeps_bufcache_write keeps_bufcache_release : keeps.

Lemma keeps_bufcache_read dev sec : keeps (bufcache_read dev sec).
Proof. keep. Qed.
#[export] Hint Resolve keeps_bufcache_read : keeps.

Lemma keeps_begin_trans : keeps begin_trans.
Proof. keep. Qed.
Lemma keeps_commit_trans : keeps commit_trans.
Proof. keep. Qed.
Lemma keeps_log_write b : keeps (log_write b).
Proof. keep. Qed.
#[export] Hint Resolve keeps_begin_trans keeps_commit_trans keeps_log_write : keeps.

Lemma keeps_balloc_loop fuel dev sb b : keeps (balloc_loop fuel dev sb b).
Proof. revert b. induction fuel; cbn [balloc_loop]; keep. Qed.
#[export] Hint Resolve keeps_balloc_loop : keeps.

Lemma keeps_block_alloc dev : keeps (block_alloc dev).
Proof. keep. Qed.
Lemma keeps_block_free dev b : keeps (block_free dev b).
Proof. keep. Qed.
#[export] Hint Resolve keeps_block_alloc keeps_block_free : keeps.

Lemma keeps_inode_get dev inum : keeps (inode_get dev inum).
Proof. keep. Qed.
#[export] Hint Resolve keeps_inode_get : keeps.

Lemma keeps_ialloc_loop fuel dev ty n inum : keeps (ialloc_loop fuel dev ty n inum).
Proof. revert inum. induction fuel; cbn [ialloc_loop]; keep. Qed.
#[export] Hint Resolve keeps_ialloc_loop : keeps.

Lemma keeps_inode_alloc dev ty : keeps (inode_alloc dev ty).
Proof. keep. Qed.
Lemma keeps_inode_update ip : keeps (inode_update ip).
Proof. keep. Qed.
Lemma keeps_inode_lock ip : keeps (inode_lock ip).
Proof. keep. Qed.
Lemma keeps_inode_unlock ip : keeps (inode_unlock ip).
Proof. keep. Qed.
Lemma keeps_bmap ip bn : keeps (bmap ip bn).
Proof. keep. Qed.
#[export] Hint Resolve keeps_inode_alloc keeps_inode_update keeps_inode_lock keeps_inode_unlock keeps_bmap : keeps.

Lemma keeps_inode_put ip : keeps (inode_put ip).
Proof. keep. Qed.
Lemma keeps_iread_loop fuel ip off n : keeps (iread_loop fuel ip off n).
Proof. revert off n. induction fuel; cbn [iread_loop]; keep. Qed.
Lemma keeps_iwrite_loop fuel ip off src n : keeps (iwrite_loop fuel ip off src n).
Proof. revert off src n. induction fuel; cbn [iwrite_loop]; keep. Qed.
#[export] Hint Resolve keeps_inode_put keeps_iread_loop keeps_iwrite_loop : keeps.

Lemma keeps_inode_read ip off n : keeps (inode_read ip off n).
Proof. keep. Qed.
Lemma keeps_inode_write ip src off n : keeps (inode_write ip src off n).
Proof. keep. Qed.
#[export] Hint Resolve keeps_inode_read keeps_inode_write : keeps.

(** ** Paths *)

Lemma keeps_lookup_loop fuel dp name off : keeps (lookup_loop fuel dp name off).
Proof. revert off. induction fuel; cbn [lookup_loop]; keep. Qed.
#[export] Hint Resolve keeps_lookup_loop : keeps.

Lemma keeps_dir_lookup dp name : keeps (dir_lookup dp name).
Proof. keep. Qed.
Lemma keeps_link_loop fuel dp off : keeps (link_loop fuel dp off).
Proof. revert off. induction fuel; cbn [link_loop]; keep. Qed.
#[export] Hint Resolve keeps_dir_lookup keeps_link_loop : keeps.

Lemma keeps_dir_link dp name inum : keeps (dir_link dp name inum).
Proof. keep. Qed.
Lemma keeps_namex_loop fuel ip path np name : keeps (namex_loop fuel ip path np name).
Proof. revert ip path name. induction fuel; cbn [namex_loop]; keep. Qed.
#[export] Hint Resolve keeps_dir_link keeps_namex_loop : keeps.

Lemma keeps_namex path np name : keeps (namex path np name).
Proof. keep. Qed.
#[export] Hint Resolve keeps_namex : keeps.

(** ** Files *)

(** A call in segments returns only when the last one is done. *)
Section Segments.
Context {S : Type} `{Traits S} {A B : Type}.

Definition keeps_seg (m : M S (seg A B)) : Prop := ∀ s a s', m s = Ok (SegDone a) s' → same s s'.

Lemma keeps_seg_keeps m : keeps m → keeps_seg m.
Proof. intros Hm s a s' E. by apply (Hm s (SegDone a)). Qed.

Lemma keeps_seg_bind {C} (m : M S C) f : keeps m → (∀ c, keeps_seg (f c)) → keeps_seg (m ≫= f).
Proof. intros Hm Hf s a s' E. apply bind_inv in E as (c & s1 & E1 & E2). transitivity s1; [by apply (Hm s c)|by apply (Hf c s1 a)]. Qed.

Lemma keeps_seg_sleep {C} (m : M S C) b : keeps_seg (m ;; mret (SegSleep b)).
Proof. intros s a s' E. apply bind_inv in E as (c & s1 & _ & E2). discriminate E2. Qed.

Lemma keeps_seg_then {C} (m : M S (seg A B)) (k : A → M S C) :
  keeps_seg m → (∀ a, keeps (k a)) → keeps (r ← m; match r with SegDone a => k a | SegSleep _ => block end).
Proof.
  intros Hm Hk s c s' E. apply bind_inv in E as ([a|b] & s1 & E1 & E2); [|discriminate E2].
  transitivity s1; [by apply (Hm s a)|by apply (Hk a s1 c)].
Qed.
End Segments.

Ltac keep_seg :=
  repeat match goal with
  | |- ∀ _, _ => intros ?
  | |- keeps_seg (_ ;; mret (SegSleep _)) => apply keeps_seg_sleep
  | |- keeps_seg (_ ≫= _) => apply keeps_seg_bind
  | |- keeps_seg (match ?x with _ => _ end) => destruct x
  | |- keeps_seg _ => solve [auto 1 with keeps nocore]
  | |- keeps_seg _ => apply keeps_seg_keeps; solve [keep]
  | |- keeps _ => solve [keep]
  | |- _ => fail
  end.

Lemma keeps_pipe_write p addr n : keeps (pipe_write p addr n).
Proof. apply keeps_seg_then; [|keep]. unfold pipe_write_begin, pipe_write_seg. keep_seg. Qed.
Lemma keeps_pipe_read p n : keeps (pipe_read p n).
Proof. apply keeps_seg_then; [|keep]. unfold pipe_read_begin, pipe_read_seg. keep_seg. Qed.
Lemma keeps_pipe_close p w : keeps (pipe_close p w).
Proof. keep. Qed.
Lemma keeps_console_read n : keeps (console_read n).
Proof. keep. Qed.
Lemma keeps_file_stat f : keeps (file_stat f).
Proof. keep. Qed.
#[export] Hint Resolve keeps_pipe_write keeps_pipe_read keeps_pipe_close keeps_console_read keeps_file_stat : keeps.

(** Code that keeps the traits [T], for the two calls that store an offset: the rest of
    the entry is what they read before. *)
Definition keeps_at {A} (T : Z → traits) (m : M fs_state A) : Prop :=
  ∀ s a s', (∀ q, traits_of s q = T q) → m s = Ok a s' → same s s'.

Lemma keeps_at_all {A} (m : M fs_state A) : (∀ T, keeps_at T m) → keeps m.
Proof. intros Hm s a s' E. by apply (Hm (traits_of s) s a). Qed.

Lemma keeps_at_keeps {A} T (m : M fs_state A) : keeps m → keeps_at T m.
Proof. intros Hm s a s' _ E. by apply (Hm s a). Qed.

Lemma keeps_at_bind {A B} T (m : M fs_state A) (f : A → M fs_state B) : keeps_at T m → (∀ a, keeps_at T (f a)) → keeps_at T (m ≫= f).
Proof.
  intros Hm Hf s b s' HT E. apply bind_inv in E as (a & s1 & E1 & E2). pose proof (Hm s a s1 HT E1) as H1.
  transitivity s1; [exact H1|]. apply (Hf a s1 b); [|exact E2]. intros q. by rewrite (H1 q).
Qed.

Lemma keeps_at_fget {A} T f (k : file → M fs_state A) :
  (∀ v, f_ref v = t_ref (T f) → f_type v = t_kind (T f) → keeps_at T (k v)) → keeps_at T (v ← fget f; k v).
Proof.
  intros Hk s a s' HT E. apply bind_inv in E as (v & s1 & E1 & E2). unfold fget, aget in E1. case_bool_decide; [|done].
  injection E1 as <- <-. apply (Hk _ (f_equal t_ref (HT f)) (f_equal t_kind (HT f)) s a s' HT E2).
Qed.

Lemma keeps_at_off T f v o : f_ref v = t_ref (T f) → f_type v = t_kind (T f) → keeps_at T (fset f (with_off o v)).
Proof.
  intros Hr Hk s a s' HT E. unfold fset, aset in E. case_bool_decide; [|done]. injection E as _ <-. intros q. rewrite <- (HT f) in Hr, Hk.
  unfold traits_of, fs_traits in Hr, Hk |- *. simpl in Hr, Hk |- *. rewrite alook_insert. case_decide as Eq; [|reflexivity].
  subst q. simpl. by rewrite Hr, Hk.
Qed.

Ltac keep_at1 :=
  match goal with
  | |- ∀ _, _ => intros ?
  | |- keeps_at _ (fget _ ≫= _) => apply keeps_at_fget
  | |- keeps_at _ (fset _ _) => apply keeps_at_off; congruence
  | |- keeps_at _ (_ ≫= _) => apply keeps_at_bind
  | |- keeps_at _ (match ?x with _ => _ end) => destruct x eqn:?
  | |- keeps_at _ _ => apply keeps_at_keeps; solve [keep]
  end.
Ltac keep_at := repeat keep_at1.

Lemma keeps_file_read f n : keeps (file_read f n).
Proof. apply keeps_at_all. intros T. unfold file_read. keep_at. Qed.

Lemma keeps_fwrite_loop fuel f addr n i : keeps (fwrite_loop fuel f addr n i).
Proof.
  revert i. induction fuel as [|fuel IH]; intros i; cbn [fwrite_loop]; [keep|]. apply keeps_at_all. intros T. cbv zeta. keep_at.
Qed.
#[export] Hint Resolve keeps_file_read keeps_fwrite_loop : keeps.

Lemma keeps_file_write f addr n : keeps (file_write f addr n).
Proof. keep. Qed.
#[export] Hint Resolve keeps_file_write : keeps.

(** ** System calls *)

Lemma keeps_ipc_copy_loop fuel kva dp d sp src n buf : keeps (ipc_copy_loop fuel kva dp d sp src n buf).
Proof. revert d src n buf. induction fuel; cbn [ipc_copy_loop]; keep. Qed.
#[export] Hint Resolve keeps_ipc_copy_loop : keeps.

Lemma keeps_empty_loop fuel dp off : keeps (empty_loop fuel dp off).
Proof. revert off. induction fuel; cbn [empty_loop]; keep. Qed.
Lemma keeps_ls_loop fuel dp off : keeps (ls_loop fuel dp off).
Proof. revert off. induction fuel; cbn [ls_loop]; keep. Qed.
Lemma keeps_pwd_entry fuel p inum off len arr : keeps (pwd_entry fuel p inum off len arr).
Proof. revert off len arr. induction fuel; cbn [pwd_entry]; keep. Qed.
#[export] Hint Resolve keeps_empty_loop keeps_ls_loop keeps_pwd_entry : keeps.

Lemma keeps_pwd_loop fuel cur parent len arr : keeps (pwd_loop fuel cur parent len arr).
Proof. revert cur parent len arr. induction fuel; cbn [pwd_loop]; keep. Qed.
#[export] Hint Resolve keeps_pwd_loop : keeps.

(** A switch that comes back to the same process. *)
Lemma curid_inv s p s' : curid s = Ok p s' → p = current s ∧ s' = s.
Proof.
  intros E. apply zoom_inv in E as (t & E & ->). unfold get_curid, aget in E. case_bool_decide; [|done].
  injection E as <- <-. split; [reflexivity|exact (put_view (C:=th_state) s)].
Qed.

Lemma keeps_switch (m : M th_state ()) :
  switches m → keeps (old ← curid; zoom m ;; new ← curid; if bool_decide (new = old) then mret () else block).
Proof.
  intros Hm s a s' E. apply bind_inv in E as (old & s1 & [-> ->]%curid_inv & E).
  apply bind_inv in E as (b & s2 & E2 & E). apply zoom_inv in E2 as (t2 & E2 & ->).
  apply bind_inv in E as (new & s3 & [-> ->]%curid_inv & E). case_bool_decide as Hc; [|discriminate E]. injection E as _ <-.
  assert (same (kth s) t2) as Ht; [|exact (carries (S:=k_state) (C:=th_state) s t2 Ht)].
  destruct (Hm _ _ _ E2) as (c & H2). intros q. rewrite (H2 q). change (alook 0 (CURID t2) cpu_idx = current s) in Hc.
  pose proof (f_equal t_cur (H2 q)) as Hq. change (alook 0 (CURID t2) cpu_idx = c) in Hq. rewrite <- Hq, Hc. reflexivity.
Qed.

Lemma keeps_k_yield : keeps k_yield.
Proof. apply keeps_switch, switches_yield. Qed.
Lemma keeps_kill_thread pid : keeps (kill_thread pid).
Proof. keep. Qed.
Lemma keeps_create path ty ma mi stk : keeps (create path ty ma mi stk).
Proof. keep. Qed.
#[export] Hint Resolve keeps_k_yield keeps_kill_thread keeps_create : keeps.

Lemma keeps_sync tf : keeps (seg_done (sys_sync_send tf)) ∧ keeps (seg_done (sys_sync_recv tf)).
Proof.
  split; (apply keeps_seg_then; [|keep]); unfold sys_sync_send, sync_send_seg, sys_sync_recv, sync_recv_seg; cbv zeta; keep_seg.
Qed.

Lemma keeps_sys_read tf : keeps (sys_read tf).
Proof. keep. Qed.
Lemma keeps_sys_write tf : keeps (sys_write tf).
Proof. keep. Qed.
Lemma keeps_sys_fstat tf : keeps (sys_fstat tf).
Proof. keep. Qed.
Lemma keeps_open_inode path stk o : keeps (open_inode path stk o).
Proof. keep. Qed.
Lemma keeps_sys_link a b c tf : keeps (sys_link a b c tf).
Proof. keep. Qed.
Lemma keeps_sys_unlink a b tf : keeps (sys_unlink a b tf).
Proof. keep. Qed.
Lemma keeps_dirs sp sn sa tf : keeps (sys_mkdir sp sn tf) ∧ keeps (sys_chdir sp sn tf) ∧ keeps (sys_is_dir tf) ∧ keeps (sys_ls tf) ∧ keeps (sys_pwd sa tf) ∧ keeps (sys_rm tf).
Proof. split_and!; keep. Qed.

Lemma keeps_signals act tf : keeps (sys_sigaction act tf) ∧ keeps (sys_kill tf) ∧ keeps (sys_pause tf) ∧ keeps (sys_sigreturn tf) ∧
  keeps (sys_yield tf) ∧ keeps (sys_waitpid tf).
Proof. split_and!; keep. Qed.

(** ** Traps *)

Lemma keeps_sys_exit tf : keeps (sys_exit tf).
Proof.
  intros s a s' E. unfold sys_exit in E.
  repeat (apply bind_inv in E as (? & ? & _ & E)). discriminate E.
Qed.

Lemma keeps_interrupt tf : keeps (interrupt_handler tf).
Proof. pose proof (keeps_switch _ switches_update) as H. unfold interrupt_handler, timer_intr_handler. keep; exact H. Qed.

Lemma keeps_exception tf : keeps (exception_handler tf).
Proof. keep. Qed.

Lemma keeps_trap_tail p tf : keeps (trap_tail p tf).
Proof. keep. Qed.
#[export] Hint Resolve keeps_open_inode keeps_interrupt keeps_exception keeps_trap_tail : keeps.
