(* ===== verification/Signal.v ===== *)
(** * The life of a signal (kern/trap/TTrapHandler, kern/trap/TSyscall)

    [sys_kill] marks a signal, the next trap of the process builds the frame of the handler
    on the user stack, and [sys_sigreturn] takes the process back to where it was. *)

From S2P Require Import Prelude Spinlock Mboot PMem Container PageTable TCB TQueue Thread Sched.
From S2P Require Import UserCopy CString BufCache Log Inode Path File Ipc TrapFrame Sysfile Syscall Trap.

(** ** Words on the stack *)

Lemma length_int_bytes x : length (int_bytes x) = 4%nat.
Proof. done. Qed.

Lemma get32_int_bytes x : is_u32 x → get32 (int_bytes x) 0 = x.
Proof.
  intros Hx. rewrite <- (u32_small x Hx) at 2. rewrite <- bytes_u32.
  unfold int_bytes. by rewrite (u32_small x Hx).
Qed.

Lemma land_align a : 0 <= a < W32 → Z.land a 4294967292 = a / 4 * 4.
Proof.
  intros Ha. apply Z.bits_inj'. intros n Hn. rewrite Z.land_spec.
  replace (a / 4 * 4) with (Z.shiftl (Z.shiftr a 2) 2)
    by (rewrite Z.shiftl_mul_pow2, Z.shiftr_div_pow2 by lia; done).
  rewrite Z.shiftl_spec by done. change 4294967292 with (Z.shiftl (Z.ones 30) 2).
  rewrite Z.shiftl_spec by done. destruct (decide (n < 2)).
  { rewrite !(Z.testbit_neg_r _ (n - 2)) by lia. by rewrite andb_false_r. }
  rewrite Z.shiftr_spec by lia. replace (n - 2 + 2) with n by lia.
  destruct (decide (n < 32)).
  - rewrite Z.ones_spec_low by lia. by rewrite andb_true_r.
  - rewrite Z.ones_spec_high by lia. rewrite andb_false_r. symmetry.
    apply (Z.bits_above_log2 a); [lia|]. destruct (decide (a = 0)) as [->|]; [simpl; lia|].
    apply Z.log2_lt_pow2; [lia|]. apply Z.lt_le_trans with (2 ^ 32); [unfold W32 in Ha; lia|].
    apply Z.pow_le_mono_r; lia.
Qed.

(** ** A region of user memory that is present *)

Record uregion (s : pt_state) (p lo hi : Z) : Prop := {
  ur_wf : pt_wf s;
  ur_pid : 1 <= p < NUM_IDS;
  ur_lo : VM_USERLO <= lo;
  ur_hi : hi <= VM_USERHI;
  ur_present v : lo <= v < hi → present s p v
}.

Lemma uregion_written s p lo hi va data s' :
  uregion s p lo hi → user_written s p va data s' → uregion s' p lo hi.
Proof.
  intros [Hwf Hp Hlo Hhi Hpr] (Hwf' & _ & _ & Ht & _). split; [done..|].
  intros v Hv. unfold present. rewrite Ht; [by apply Hpr|done|]. unfold user_va. lia.
Qed.

Lemma ubytes_keep s p lo hi va data s' va' len :
  uregion s p lo hi → user_written s p va data s' → lo <= va' → va' + len <= hi →
  va' + len <= va ∨ va + Z.of_nat (length data) <= va' →
  ubytes s' p va' len = ubytes s p va' len.
Proof.
  intros [Hwf Hp Hlo Hhi Hpr] (_ & _ & _ & _ & Hw) H1 H2 Hd. unfold ubytes.
  apply list_fmap_ext. intros i v Hi. apply lookup_seqZ in Hi as [-> Hi].
  rewrite Hw; [|done|unfold user_va; lia|apply Hpr; lia]. rewrite decide_False; [done|]. lia.
Qed.

Lemma ubytes_there s p lo hi va data s' :
  uregion s p lo hi → user_written s p va data s' → lo <= va → va + Z.of_nat (length data) <= hi →
  ubytes s' p va (Z.of_nat (length data)) = data.
Proof.
  intros [Hwf Hp Hlo Hhi Hpr] Hw H1 H2. apply (ubytes_written s); [done..|].
  intros v Hv. split; [unfold user_va; lia|apply Hpr; lia].
Qed.

Lemma copyout_region (s : k_state) (c : pt_state) p lo hi va data :
  uregion c p lo hi → lo <= va → va + Z.of_nat (length data) <= hi →
  Z.of_nat (length data) <= 1000000 →
  ∃ c' : pt_state, copyout data p va (put c s) = Ok (Z.of_nat (length data)) (put c' s) ∧
    user_written c p va data c' ∧ uregion c' p lo hi.
Proof.
  intros Hr H1 H2 Hl. pose proof Hr as [Hwf Hp Hlo Hhi Hpr].
  destruct (copyout_run (put c s) p va data) as (c' & Hrun & Hw);
    [by rewrite (view_put (S:=k_state))|done|unfold user_range; lia|done|
     rewrite (view_put (S:=k_state)); intros v Hv; apply Hpr; lia|].
  rewrite (view_put (S:=k_state)) in Hw. rewrite (put_put (S:=k_state)) in Hrun.
  exists c'. split; [done|]. split; [done|]. by apply (uregion_written c p lo hi va data).
Qed.

(** ** Delivery *)

Definition sig_of (s : k_state) (p : Z) : sig_state := sigstate (kblk s p).

Lemma get_sigaction_run s p signum :
  0 <= p < NUM_IDS → 0 <= signum < NSIG →
  zoom (tcb_get_sigaction p signum) s =
    Ok (Some (alook sigaction_zero (sigactions (sig_of s p)) signum)) s.
Proof.
  intros Hp Hs. unfold tcb_get_sigaction.
  rewrite (bool_decide_eq_false_2 (signum < 0)), (bool_decide_eq_false_2 (signum >= NSIG)) by lia.
  by apply (ktcb_read (λ t, Some (alook sigaction_zero (sigactions (sigstate t)) signum))).
Qed.

(** The addresses of the frame. *)
Definition tramp_at (tf : tf_t) : Z := esp tf - 20.
Definition frame_at (tf : tf_t) : Z := (esp tf - 20) / 4 * 4 - 8.

(** What [deliver_signal] leaves in user memory. *)
Record sig_frame (tf : tf_t) (signum p : Z) (c : pt_state) : Prop := {
  sf_region : uregion c p (esp tf - 32) (esp tf);
  sf_eip : ubytes c p (esp tf - 4) 4 = int_bytes (eip tf);
  sf_esp : ubytes c p (esp tf - 8) 4 = int_bytes (esp tf);
  sf_code : ubytes c p (tramp_at tf) 12 = trampoline;
  sf_arg : ubytes c p (frame_at tf + 4) 4 = int_bytes signum;
  sf_ret : ubytes c p (frame_at tf) 4 = int_bytes (tramp_at tf)
}.

(** Nothing that users see outside the region changed. *)
Definition only_in (s : pt_state) (p lo hi : Z) (s' : pt_state) : Prop :=
  (∀ q v, 1 <= q < NUM_IDS → user_va v → translate s' q v = translate s q v) ∧
  ∀ q v, 1 <= q < NUM_IDS → user_va v → present s q v → (q = p → ¬ (lo <= v < hi)) →
    ubyte s' q v = ubyte s q v.

Lemma only_in_written s p lo hi va data s' :
  user_written s p va data s' → lo <= va → va + Z.of_nat (length data) <= hi → only_in s p lo hi s'.
Proof.
  intros (_ & _ & _ & Ht & Hw) H1 H2. split; [done|]. intros q v Hq Hv Hpr Ho. rewrite Hw by done.
  rewrite decide_False; [done|]. intros [Hqp Hvr]. apply (Ho Hqp). lia.
Qed.

Lemma only_in_trans s p lo hi s1 s2 :
  only_in s p lo hi s1 → only_in s1 p lo hi s2 → only_in s p lo hi s2.
Proof.
  intros [H1 H2] [H3 H4]. split; [intros q v Hq Hv; by rewrite H3, H1|].
  intros q v Hq Hv Hpr Ho. rewrite H4; [by apply H2|done|done|unfold present; by rewrite H1|done].
Qed.

Lemma only_in_refl s p lo hi : only_in s p lo hi s.
Proof. done. Qed.

(** Five stores below the stack pointer build the frame. *)
Lemma frame_run (s : k_state) p tf signum :
  uregion (kpt s) p (esp tf - 32) (esp tf) →
  ∃ c1 c2 c3 c4 c5 : pt_state,
    copyout (int_bytes (eip tf)) p (esp tf - 4) s = Ok 4 (put c1 s) ∧
    copyout (int_bytes (esp tf)) p (esp tf - 8) (put c1 s) = Ok 4 (put c2 s) ∧
    copyout trampoline p (tramp_at tf) (put c2 s) = Ok 12 (put c3 s) ∧
    copyout (int_bytes signum) p (frame_at tf + 4) (put c3 s) = Ok 4 (put c4 s) ∧
    copyout (int_bytes (tramp_at tf)) p (frame_at tf) (put c4 s) = Ok 4 (put c5 s) ∧
    sig_frame tf signum p c5 ∧ only_in (kpt s) p (esp tf - 32) (esp tf) c5.
Proof.
  intros R0. assert (esp tf - 32 < frame_at tf ∧ frame_at tf + 8 <= tramp_at tf) as Hf.
  { unfold frame_at, tramp_at. Z.div_mod_to_equations. lia. }
  assert (tramp_at tf = esp tf - 20) as Ht by done.
  destruct (copyout_region s (kpt s) p _ _ (esp tf - 4) (int_bytes (eip tf)) R0) as (c1 & H1 & W1 & R1); [simpl; lia..|].
  rewrite (put_view (S:=k_state)) in H1.
  destruct (copyout_region s c1 p _ _ (esp tf - 8) (int_bytes (esp tf)) R1) as (c2 & H2 & W2 & R2); [simpl; lia..|].
  destruct (copyout_region s c2 p _ _ (tramp_at tf) trampoline R2) as (c3 & H3 & W3 & R3); [simpl; lia..|].
  destruct (copyout_region s c3 p _ _ (frame_at tf + 4) (int_bytes signum) R3) as (c4 & H4 & W4 & R4); [simpl; lia..|].
  destruct (copyout_region s c4 p _ _ (frame_at tf) (int_bytes (tramp_at tf)) R4) as (c5 & H5 & W5 & R5); [simpl; lia..|].
  exists c1, c2, c3, c4, c5. split; [done|]. split; [done|]. split; [done|]. split; [done|]. split; [done|].
  assert (∀ va len, esp tf - 32 <= va → va + len <= esp tf → va + len <= frame_at tf ∨ frame_at tf + 4 <= va →
    ubytes c5 p va len = ubytes c4 p va len) as K5 by (intros; by apply (ubytes_keep c4 p _ _ _ _ c5 _ _ R4 W5)).
  assert (∀ va len, esp tf - 32 <= va → va + len <= esp tf → va + len <= frame_at tf + 4 ∨ frame_at tf + 8 <= va →
    ubytes c4 p va len = ubytes c3 p va len) as K4.
  { intros. apply (ubytes_keep c3 p _ _ _ _ c4 _ _ R3 W4); [done..|simpl; lia]. }
  assert (∀ va len, esp tf - 8 <= va → va + len <= esp tf → ubytes c3 p va len = ubytes c2 p va len) as K3.
  { intros. apply (ubytes_keep c2 p _ _ _ _ c3 _ _ R2 W3); [lia..|simpl; lia]. }
  split.
  - split; [done|..].
    + rewrite K5, K4, K3 by lia. rewrite (ubytes_keep c1 p _ _ _ _ c2 _ _ R1 W2) by (simpl; lia).
      by apply (ubytes_there (kpt s) p _ _ _ _ c1 R0 W1); simpl; lia.
    + rewrite K5, K4, K3 by lia. by apply (ubytes_there c1 p _ _ _ _ c2 R1 W2); simpl; lia.
    + rewrite K5, K4 by lia. by apply (ubytes_there c2 p _ _ _ _ c3 R2 W3); simpl; lia.
    + rewrite K5 by lia. by apply (ubytes_there c3 p _ _ _ _ c4 R3 W4); simpl; lia.
    + by apply (ubytes_there c4 p _ _ _ _ c5 R4 W5); simpl; lia.
  - eapply only_in_trans; [|by apply (only_in_written c4 p _ _ _ _ c5 W5); simpl; lia].
    eapply only_in_trans; [|by apply (only_in_written c3 p _ _ _ _ c4 W4); simpl; lia].
    eapply only_in_trans; [|by apply (only_in_written c2 p _ _ _ _ c3 W3); simpl; lia].
    eapply only_in_trans; [|by apply (only_in_written c1 p _ _ _ _ c2 W2); simpl; lia].
    by apply (only_in_written (kpt s) p _ _ _ _ c1 W1); simpl; lia.
Qed.

Lemma put_tcb_pool (s : k_state) f :
  kpt (put (upd_TCBPool f (ktcb s)) s) = kpt s ∧
  current (put (upd_TCBPool f (ktcb s)) s) = current s ∧
  k_ipc (put (upd_TCBPool f (ktcb s)) s) = k_ipc s.
Proof. done. Qed.

Lemma kblk_put_tcb (s : k_state) p t q :
  kblk (put (upd_TCBPool <[p := t]> (ktcb s)) s) q = if decide (p = q) then t else kblk s q.
Proof. exact (tcb_look_upd (ktcb s) p t q). Qed.

Lemma put_pt_keeps (s : k_state) (c : pt_state) :
  current (put c s) = current s ∧ (∀ q, kblk (put c s) q = kblk s q) ∧ kpt (put c s) = c.
Proof. done. Qed.

Lemma deliver_run s p tf signum h :
  current s = p → uregion (kpt s) p (esp tf - 32) (esp tf) → 1 <= signum < NSIG →
  sa_handler (alook sigaction_zero (sigactions (sig_of s p)) signum) = h → h ≠ 0 →
  ∃ s1, deliver_signal tf signum s = Ok (set_stack (frame_at tf) h tf) s1 ∧
    sig_frame tf signum p (kpt s1) ∧ only_in (kpt s) p (esp tf - 32) (esp tf) (kpt s1) ∧
    current s1 = p ∧ sig_of s1 p = set_context (esp tf - 8) (esp tf - 4) 1 (sig_of s p).
Proof.
  intros Hc R0 Hsig Hh Hnz. pose proof R0 as [Hwf Hp Hlo Hhi _].
  destruct (frame_run s p tf signum R0) as (c1 & c2 & c3 & c4 & c5 & H1 & H2 & H3 & H4 & H5 & Hfr & Hon).
  change VM_USERLO with 1073741824 in Hlo. change VM_USERHI with 4026531840 in Hhi.
  unfold deliver_signal. rewrite (bind_Ok _ _ _ _ _ (curid_run s)), Hc.
  rewrite (bind_Ok _ _ _ _ _ (get_sigaction_run s p signum ltac:(lia) ltac:(lia))). cbv beta iota.
  rewrite Hh, bool_decide_eq_false_2 by done. cbv zeta.
  rewrite (u32_small (esp tf - 4)) by (unfold is_u32, W32; lia).
  rewrite (bind_Ok _ _ _ _ _ H1).
  replace (u32 (esp tf - 4 - 4)) with (esp tf - 8) by (rewrite u32_small; unfold is_u32, W32; lia).
  rewrite (bind_Ok _ _ _ _ _ H2).
  replace (u32 (esp tf - 8 - 12)) with (tramp_at tf) by (unfold tramp_at; rewrite u32_small; unfold is_u32, W32; lia).
  rewrite (bind_Ok _ _ _ _ _ H3). rewrite land_align by (unfold tramp_at, W32; lia).
  replace (u32 (tramp_at tf / 4 * 4 - 4)) with (frame_at tf + 4)
    by (unfold tramp_at, frame_at; rewrite u32_small; [lia|unfold is_u32, W32; Z.div_mod_to_equations; lia]).
  rewrite (bind_Ok _ _ _ _ _ H4).
  replace (u32 (frame_at tf + 4 - 4)) with (frame_at tf)
    by (unfold frame_at; rewrite u32_small; [lia|unfold is_u32, W32; Z.div_mod_to_equations; lia]).
  rewrite (bind_Ok _ _ _ _ _ H5).
  unfold tcb_set_signal_context. rewrite (bind_Ok _ _ _ _ _ (ktcb_upd _ (put c5 s) p ltac:(lia))).
  eexists. split; [reflexivity|].
  destruct (put_tcb_pool (put c5 s) <[p := with_sigstate (set_context (esp tf - 8) (esp tf - 4) 1
    (sigstate (kblk (put c5 s) p))) (kblk (put c5 s) p)]>) as (E1 & E2 & _).
  destruct (put_pt_keeps s c5) as (F1 & F2 & F3).
  rewrite E1, E2, F1, F3. split; [done|]. split; [done|]. split; [done|].
  unfold sig_of. rewrite kblk_put_tcb, decide_True by done. by rewrite F2.
Qed.

(** ** Return *)

(** The process may have run: what matters is that the two words and the control block
    still say where to go. *)
Lemma sigreturn_run s p tf tf2 :
  current s = p → uregion (kpt s) p (esp tf - 8) (esp tf) → is_u32 (eip tf) →
  ubytes (kpt s) p (esp tf - 4) 4 = int_bytes (eip tf) →
  ubytes (kpt s) p (esp tf - 8) 4 = int_bytes (esp tf) →
  saved_esp_addr (sig_of s p) = esp tf - 8 → saved_eip_addr (sig_of s p) = esp tf - 4 →
  ∃ s1, sys_sigreturn tf2 s = Ok (syscall_set_errno E_SUCC (set_stack (esp tf) (eip tf) tf2)) s1 ∧
    kpt s1 = kpt s ∧ current s1 = p ∧ sig_of s1 p = set_context 0 0 0 (sig_of s p).
Proof.
  intros Hc [Hwf Hp Hlo Hhi Hpr] Heip Hw1 Hw2 Hs1 Hs2.
  change VM_USERLO with 1073741824 in Hlo. change VM_USERHI with 4026531840 in Hhi.
  unfold sys_sigreturn. rewrite (bind_Ok _ _ _ _ _ (curid_run s)), Hc.
  assert (zoom (tcb_get_signal_context p) s = Ok (esp tf - 8, esp tf - 4) s) as Hctx.
  { rewrite <- Hs1, <- Hs2.
    apply (ktcb_read (λ t, (saved_esp_addr (sigstate t), saved_eip_addr (sigstate t)))). lia. }
  rewrite (bind_Ok _ _ _ _ _ Hctx). cbv beta iota.
  rewrite !bool_decide_eq_false_2 by lia. cbn [orb].
  rewrite (bind_Ok _ _ _ _ _ (copyin_run s p (esp tf - 8) 4 Hwf Hp ltac:(lia)
    ltac:(unfold user_range; change VM_USERLO with 1073741824; change VM_USERHI with 4026531840; lia)
    ltac:(intros v Hv; apply Hpr; lia))). rewrite bool_decide_eq_false_2 by (simpl; lia).
  rewrite (bind_Ok _ _ _ _ _ (copyin_run s p (esp tf - 4) 4 Hwf Hp ltac:(lia)
    ltac:(unfold user_range; change VM_USERLO with 1073741824; change VM_USERHI with 4026531840; lia)
    ltac:(intros v Hv; apply Hpr; lia))). rewrite bool_decide_eq_false_2 by (simpl; lia).
  unfold tcb_clear_signal_context. rewrite (bind_Ok _ _ _ _ _ (ktcb_upd _ s p ltac:(lia))). cbn [fst snd].
  rewrite Hw1, Hw2, !get32_int_bytes by (done || (unfold is_u32, W32; lia)).
  eexists. split; [reflexivity|].
  destruct (put_tcb_pool s <[p := with_sigstate (set_context 0 0 0 (sigstate (kblk s p))) (kblk s p)]>)
    as (E1 & E2 & _). rewrite E1, E2. split; [done|]. split; [done|].
  unfold sig_of. by rewrite kblk_put_tcb, decide_True.
Qed.

(** ** The lowest pending signal *)

Lemma first_signal_spec fuel w n m :
  first_signal fuel w n = Some m →
  n <= m < n + Z.of_nat fuel ∧ Z.testbit w m = true ∧ ∀ k, n <= k < m → Z.testbit w k = false.
Proof.
  revert n. induction fuel as [|fuel IH]; intros n; simpl; [done|].
  destruct (Z.testbit w n) eqn:E.
  - intros [= <-]. split; [lia|]. split; [done|]. lia.
  - intros (H1 & H2 & H3)%IH. split; [lia|]. split; [done|]. intros k Hk.
    destruct (decide (k = n)) as [->|]; [done|]. apply H3. lia.
Qed.

Lemma first_signal_found fuel w n m :
  n <= m < n + Z.of_nat fuel → Z.testbit w m = true → (∀ k, n <= k < m → Z.testbit w k = false) →
  first_signal fuel w n = Some m.
Proof.
  revert n. induction fuel as [|fuel IH]; intros n Hm Hb Hlow; simpl; [simpl in Hm; lia|].
  destruct (decide (n = m)) as [->|]; [by rewrite Hb|].
  rewrite (Hlow n) by lia. apply IH; [lia|done|]. intros k Hk. apply Hlow. lia.
Qed.

Definition clear_bit (w n : Z) : Z := Z.land w (u32 (Z.lnot (Z.shiftl 1 n))).

Lemma clear_bit_spec w n k :
  is_u32 w → 0 <= n → 0 <= k →
  Z.testbit (clear_bit w n) k = if decide (k = n) then false else Z.testbit w k.
Proof.
  intros Hw Hn Hk. unfold clear_bit, u32. rewrite Z.land_spec. change W32 with (2 ^ 32).
  destruct (decide (k < 32)) as [H32|H32].
  - rewrite Z.mod_pow2_bits_low, Z.lnot_spec, Z.shiftl_spec by lia. case_decide as E.
    + subst. rewrite Z.sub_diag. simpl. by rewrite andb_false_r.
    + replace (Z.testbit 1 (k - n)) with false; [by rewrite andb_true_r|]. symmetry.
      destruct (decide (k < n)); [apply Z.testbit_neg_r; lia|].
      change 1 with (2 ^ 0). apply Z.pow2_bits_false. lia.
  - rewrite Z.mod_pow2_bits_high by lia. rewrite andb_false_r. case_decide; [done|]. symmetry.
    apply (Z.bits_above_log2 w); [unfold is_u32 in Hw; lia|].
    destruct (decide (w = 0)) as [->|]; [simpl; lia|]. unfold is_u32 in Hw.
    apply Z.log2_lt_pow2; [lia|]. apply Z.lt_le_trans with (2 ^ 32); [unfold W32 in Hw; lia|].
    apply Z.pow_le_mono_r; lia.
Qed.

Lemma set_cr3_wf p (c : pt_state) : pt_wf c → pt_wf (set_cr3 p c).
Proof. intros [[]]. split; [by split|done..]. Qed.

Lemma sig_frame_cr3 tf n p q c : sig_frame tf n p c → sig_frame tf n p (set_cr3 q c).
Proof. intros [[] ]. split; try done. split; try done. by apply set_cr3_wf. Qed.

(** Marking the signal as taken changes one word of the control block. *)
Lemma clear_pending_run s p n :
  0 <= p < NUM_IDS → 0 <= n < NSIG →
  ∃ s1, zoom (tcb_clear_pending_signal p n) s = Ok () s1 ∧ kpt s1 = kpt s ∧ current s1 = current s ∧
    sig_of s1 p = set_pending (clear_bit (pending_signals (sig_of s p)) n) (sig_of s p).
Proof.
  intros Hp Hn. unfold tcb_clear_pending_signal.
  rewrite (bool_decide_eq_true_2 (n >= 0)), (bool_decide_eq_true_2 (n < NSIG)) by lia. cbn [andb].
  eexists. split; [by apply ktcb_upd|]. destruct (put_tcb_pool s <[p := with_sigstate
    (set_pending (clear_bit (pending_signals (sigstate (kblk s p))) n) (sigstate (kblk s p))) (kblk s p)]>)
    as (E1 & E2 & _). split; [done|]. split; [done|].
  unfold sig_of. by rewrite kblk_put_tcb, decide_True.
Qed.

Lemma handle_run s p tf n :
  current s = p → 0 <= p < NUM_IDS → 1 <= n < NSIG → n ≠ SIGKILL →
  Z.testbit (pending_signals (sig_of s p)) n = true →
  (∀ k, 1 <= k < n → Z.testbit (pending_signals (sig_of s p)) k = false) →
  ∃ s1, handle_pending_signals tf s = deliver_signal tf n s1 ∧ kpt s1 = kpt s ∧ current s1 = p ∧
    sig_of s1 p = set_pending (clear_bit (pending_signals (sig_of s p)) n) (sig_of s p).
Proof.
  intros Hc Hp Hn Hk Hb Hlow. unfold handle_pending_signals.
  rewrite (bind_Ok _ _ _ _ _ (curid_run s)), Hc.
  rewrite (bind_Ok _ _ _ _ _ (ktcb_read (λ t, pending_signals (sigstate t)) s p Hp)).
  fold (sig_of s p). rewrite (first_signal_found 31 _ 1 n); [|unfold NSIG in Hn; lia|done|done].
  destruct (clear_pending_run s p n Hp ltac:(lia)) as (s1 & Hr & H1 & H2 & H3).
  rewrite (bind_Ok _ _ _ _ _ Hr), bool_decide_eq_false_2 by done.
  exists s1. split; [done|]. split; [done|]. split; [congruence|done].
Qed.

(** C10: A caught signal interrupts the process and gives it back.  When a trap of a
    process ends with the lowest pending signal [n] caught by a handler and not blocked, the
    process is resumed in the handler on a stack that holds the return address, the signal
    number, the code that calls [sigreturn] and the old stack pointer and program counter;
    exactly that signal is no longer pending, and no byte of any process outside the 32
    bytes below the stack pointer changes.  Whatever happens in between, [sys_sigreturn] then
    resumes the process at the old program counter with the old stack pointer, as long as
    the saved words and the control block still hold what was stored. *)
Theorem signal_roundtrip s p tf n h :
  let w := pending_signals (sig_of s p) in
  current s = p → is_u32 w → 1 <= n < NSIG → n ≠ SIGKILL → Z.testbit w n = true →
  (∀ k, 1 <= k < n → Z.testbit w k = false) → Z.testbit (signal_block_mask (sig_of s p)) n = false →
  sa_handler (alook sigaction_zero (sigactions (sig_of s p)) n) = h → h ≠ 0 →
  uregion (kpt s) p (esp tf - 32) (esp tf) → is_u32 (eip tf) →
  ∃ s1, trap_tail p tf s = Ok (set_stack (frame_at tf) h tf) s1 ∧
    sig_frame tf n p (kpt s1) ∧ only_in (kpt s) p (esp tf - 32) (esp tf) (kpt s1) ∧
    (∀ k, 0 <= k → Z.testbit (pending_signals (sig_of s1 p)) k =
                     if decide (k = n) then false else Z.testbit w k) ∧
    ∀ s2 tf2, current s2 = p → uregion (kpt s2) p (esp tf - 8) (esp tf) →
      (∀ v, esp tf - 8 <= v < esp tf → ubyte (kpt s2) p v = ubyte (kpt s1) p v) →
      saved_esp_addr (sig_of s2 p) = saved_esp_addr (sig_of s1 p) →
      saved_eip_addr (sig_of s2 p) = saved_eip_addr (sig_of s1 p) →
      ∃ tf3 s3, sys_sigreturn tf2 s2 = Ok tf3 s3 ∧ esp tf3 = esp tf ∧ eip tf3 = eip tf.
Proof.
  intros w Hc Hw Hn Hk Hb Hlow _ Hh Hnz R Heip. pose proof (ur_pid _ _ _ _ R) as Hp.
  set (s0 := on_kstack p s).
  destruct (handle_run s0 p tf n Hc ltac:(lia) Hn Hk Hb Hlow) as (sa & Ha & Ka & Ca & Sa).
  destruct (deliver_run sa p tf n h Ca) as (sb & Hb' & Fb & Ob & Cb & Sb);
    [by rewrite Ka|done|by rewrite Sa|done|].
  assert (zoom (set_pdir_base p) sb = Ok () (put (set_cr3 p (kpt sb)) sb)) as Hcr.
  { apply (zoom_Ok (S:=k_state)). unfold set_pdir_base. by rewrite bool_decide_eq_true_2 by lia. }
  destruct (put_pt_keeps sb (set_cr3 p (kpt sb))) as (G1 & G2 & G3).
  assert (sig_of (put (set_cr3 p (kpt sb)) sb) p = sig_of sb p) as Gs by (unfold sig_of; by rewrite G2).
  exists (put (set_cr3 p (kpt sb)) sb). rewrite G3, Gs, Sb, Sa. split; [|split; [|split; [|split]]].
  - unfold trap_tail. rewrite (bind_Ok _ _ _ _ _ (kstack_switch_on p s)). fold s0.
    rewrite (bind_Ok _ _ _ _ _ (eq_trans Ha Hb')), (bind_Ok _ _ _ _ _ Hcr). done.
  - by apply sig_frame_cr3.
  - rewrite Ka in Ob. done.
  - intros k Hk0. apply clear_bit_spec; [done|lia|done].
  - intros s2 tf2 C2 R2 Hmem E1 E2.
    assert (∀ va, esp tf - 8 <= va → va + 4 <= esp tf → ubytes (kpt s2) p va 4 = ubytes (kpt sb) p va 4) as Hu.
    { intros va H1 H2. apply list_fmap_ext. intros i v [-> Hi]%lookup_seqZ. by apply Hmem; lia. }
    destruct (sigreturn_run s2 p tf tf2 C2 R2 Heip) as (s3 & Hr & _);
      [rewrite Hu by lia; apply Fb|rewrite Hu by lia; apply Fb|done|done|]. by exists (syscall_set_errno E_SUCC (set_stack (esp tf) (eip tf) tf2)), s3.
Qed.

(** Process 1 runs with a present page, catches signal 10 and has it pending. *)
Definition sample_sig : sig_state :=
  {| sigactions := {[ 10 := {| sa_handler := 1073745920; sa_sigaction := 0; sa_flags := 0;
                               sa_restorer := 0; sa_mask := 0 |} ]};
     pending_signals := 1024; signal_block_mask := 0; saved_esp_addr := 0; saved_eip_addr := 0;
     in_signal_handler := 0 |}.

Definition sample_thread (c : pt_state) (b : TCB) : th_state :=
  {| th_tq := {| tq_tcb := {| tcb_pt := c; TCBPool := {[ 1 := b ]} |}; TQueuePool := TQueuePool tq0 |};
     CURID := {[ cpu_idx := 1 ]}; kctx_pool := ∅; proc_kstack_addr := 0; cpu := kctx_zero;
     sched_ticks := ∅; sched_lk := spinlock_init |}.

Definition sample_frame : tf_t := set_stack 1073745000 1073742000 tf_zero.

Lemma signal_roundtrip_witness :
  ∃ c s1, let s := k_around (sample_thread c (with_sigstate sample_sig TCB_zero)) in
    trap_tail 1 sample_frame s = Ok (set_stack 1073744972 1073745920 sample_frame) s1 ∧
    sig_frame sample_frame 10 1 (kpt s1) ∧ only_in (kpt s) 1 1073744968 1073745000 (kpt s1) ∧
    (∀ k, 0 <= k → Z.testbit (pending_signals (sig_of s1 1)) k =
                     if decide (k = 10) then false else Z.testbit 1024 k) ∧
    ∀ s2 tf2, current s2 = 1 → uregion (kpt s2) 1 1073744992 1073745000 →
      (∀ v, 1073744992 <= v < 1073745000 → ubyte (kpt s2) 1 v = ubyte (kpt s1) 1 v) →
      saved_esp_addr (sig_of s2 1) = saved_esp_addr (sig_of s1 1) →
      saved_eip_addr (sig_of s2 1) = saved_eip_addr (sig_of s1 1) →
      ∃ tf3 s3, sys_sigreturn tf2 s2 = Ok tf3 s3 ∧ esp tf3 = 1073745000 ∧ eip tf3 = 1073742000.
Proof.
  destruct sample_present as (c & Hwf & _ & _ & Hpr). exists c.
  apply (signal_roundtrip (k_around (sample_thread c (with_sigstate sample_sig TCB_zero))) 1
           sample_frame 10 1073745920); [reflexivity|done|done|done|reflexivity| |reflexivity|reflexivity|done| |done].
  - intros k Hk. assert (k = 1 ∨ k = 2 ∨ k = 3 ∨ k = 4 ∨ k = 5 ∨ k = 6 ∨ k = 7 ∨ k = 8 ∨ k = 9) as Hc by lia.
    by repeat (destruct Hc as [->|Hc]; [reflexivity|]); subst k.
  - split; [exact Hwf|done|done|done|]. intros v Hv. apply Hpr. simpl in Hv. lia.
Defined.

(** ** Sending *)

(** A new signal state is nothing to the scheduler. *)
Lemma sched_rep_sig t a p g :
  sched_rep t a → sched_rep (set_tb p (with_sigstate g (tb t p)) t) a.
Proof.
  intros [Hlk [Hcur Hrg Hq Hfr Hrun Hrd Has]].
  assert (∀ q, state (tb (set_tb p (with_sigstate g (tb t p)) t) q) = state (tb t q) ∧
               channel (tb (set_tb p (with_sigstate g (tb t p)) t) q) = channel (tb t q)) as Hsc.
  { intros q. rewrite tb_set_tb. by case_decide; subst. }
  split; [done|]. split; try done.
  - apply (queue_rep_links (th_tq t)); done.
  - rewrite <- Hrun. apply Hsc.
  - intros q Hr. rewrite <- (Hrd q Hr). apply Hsc.
  - intros q c. rewrite Has. destruct (Hsc q) as [E1 E2]. unfold tb in *. by rewrite E1, E2.
Qed.

Definition add_bit (w n : Z) : Z := Z.lor w (u32 (Z.shiftl 1 n)).

Lemma add_bit_spec w n k :
  0 <= n < 32 → 0 <= k → Z.testbit (add_bit w n) k = Z.testbit w k || bool_decide (k = n).
Proof.
  intros Hn Hk. unfold add_bit. rewrite Z.lor_spec. f_equal. rewrite Z.shiftl_1_l.
  rewrite u32_small.
  - destruct (decide (k = n)) as [->|Hne].
    + rewrite Z.pow2_bits_true by lia. by rewrite bool_decide_eq_true_2.
    + rewrite Z.pow2_bits_false by lia. by rewrite bool_decide_eq_false_2.
  - unfold is_u32. split; [apply Z.pow_nonneg; lia|]. change W32 with (2 ^ 32). apply Z.pow_lt_mono_r; lia.
Qed.

Lemma add_pending_run s a p n :
  sched_rep (kth s) a → 0 <= p < NUM_IDS → 0 <= n < NSIG →
  ∃ s1, zoom (tcb_add_pending_signal p n) s = Ok () s1 ∧ kpt s1 = kpt s ∧ sched_rep (kth s1) a ∧
    (∀ q, q ≠ p → kblk s1 q = kblk s q) ∧
    kblk s1 p = with_sigstate (set_pending (add_bit (pending_signals (sig_of s p)) n) (sig_of s p)) (kblk s p).
Proof.
  intros Hsr Hp Hn. unfold tcb_add_pending_signal.
  rewrite (bool_decide_eq_true_2 (n >= 0)), (bool_decide_eq_true_2 (n < NSIG)) by lia. cbn [andb].
  eexists. split; [by apply ktcb_upd|]. set (t := with_sigstate _ _).
  split; [done|]. split; [exact (sched_rep_sig (kth s) a p _ Hsr)|]. split.
  - intros q Hq. rewrite kblk_put_tcb. by rewrite decide_False.
  - rewrite kblk_put_tcb. by rewrite decide_True.
Qed.

Lemma wakeup_k (s : k_state) a c :
  sched_rep (kth s) a →
  ∃ s1, zoom (thread_wakeup (Some c)) s = Ok () s1 ∧ sched_rep (kth s1) (a_wakeup c a) ∧ kpt s1 = kpt s ∧
    ∀ q, own_data (kblk s1 q) = own_data (kblk s q).
Proof.
  intros Ha. destruct (thread_wakeup_run _ a c Ha) as (t & Hr & Hrep & Hpt & Hown & _).
  eexists. split; [exact (zoom_Ok (S:=k_state) _ s _ _ Hr)|]. split; [exact Hrep|]. split; [exact Hpt|exact Hown].
Qed.

(** The scheduler after a signal was sent to [p]. *)
Definition a_signal (p : Z) (a : sched) : sched :=
  match asleep a !! p with Some c => a_wakeup c a | None => a end.

Lemma wake_sleeper_run s a p :
  sched_rep (kth s) a → 0 <= p < NUM_IDS →
  ∃ s1, wake_sleeper p s = Ok () s1 ∧ sched_rep (kth s1) (a_signal p a) ∧ kpt s1 = kpt s ∧
    ∀ q, own_data (kblk s1 q) = own_data (kblk s q).
Proof.
  intros Hsr Hp.
  assert (∀ c, asleep a !! p = Some c ↔ state (kblk s p) = TSTATE_SLEEP ∧ channel (kblk s p) = Some c) as Has.
  { intros c. rewrite (sr_asleep _ _ (proj2 Hsr) p c). split; [by intros (_ & ?)|done]. }
  assert ((state (kblk s p) = TSTATE_SLEEP → channel (kblk s p) = None) → a_signal p a = a) as Hno.
  { intros Hn. unfold a_signal. destruct (asleep a !! p) as [c|] eqn:E; [|done].
    destruct (proj1 (Has c) eq_refl) as [E1 E2]. specialize (Hn E1). congruence. }
  unfold wake_sleeper, tcb_is_sleeping, tcb_get_channel.
  rewrite (bind_Ok _ _ _ _ _ (ktcb_read (λ t, if bool_decide (state t = TSTATE_SLEEP) then 1 else 0) s p Hp)).
  destruct (decide (state (kblk s p) = TSTATE_SLEEP)) as [Hsl|Hsl].
  - rewrite (bool_decide_eq_true_2 (state _ = _)), (bool_decide_eq_true_2 (1 ≠ 0)) by done.
    rewrite (bind_Ok _ _ _ _ _ (ktcb_read channel s p Hp)). destruct (channel (kblk s p)) as [c|] eqn:Hch.
    + unfold a_signal. rewrite (proj2 (Has c)) by done. by apply wakeup_k.
    + rewrite Hno by done. by exists s.
  - rewrite (bool_decide_eq_false_2 (state _ = _)), (bool_decide_eq_false_2 (0 ≠ 0)) by (done || tauto).
    rewrite Hno by done. by exists s.
Qed.

(** C18: sending a signal other than [SIGKILL] to a live process marks exactly that signal
    of exactly that process, and when the process sleeps wakes everyone on its channel; the
    call succeeds, the scheduler stays consistent, and no memory or other process changes. *)
Theorem kill_marks_and_wakes s a tf p n :
  sched_rep (kth s) a → s32 (syscall_get_arg2 tf) = p → s32 (syscall_get_arg3 tf) = n →
  0 <= p < NUM_IDS → 1 <= n < NSIG → n ≠ SIGKILL → state (kblk s p) ≠ TSTATE_DEAD →
  ∃ s', sys_kill tf s = Ok (syscall_set_errno E_SUCC tf) s' ∧
    sched_rep (kth s') (a_signal p a) ∧ kpt s' = kpt s ∧
    (∀ k, 0 <= k → Z.testbit (pending_signals (sig_of s' p)) k =
                     Z.testbit (pending_signals (sig_of s p)) k || bool_decide (k = n)) ∧
    (∀ q, q ≠ p → own_data (kblk s' q) = own_data (kblk s q)).
Proof.
  intros Hsr Hp Hn Hpr Hnr Hk Hst. unfold sys_kill. rewrite Hp, Hn.
  rewrite (bool_decide_eq_false_2 (n < 1)), (bool_decide_eq_false_2 (n >= NSIG)),
    (bool_decide_eq_false_2 (p < 0)), (bool_decide_eq_false_2 (p >= NUM_IDS)) by lia. cbn [orb].
  rewrite (bind_Ok _ _ _ _ _ (ktcb_read state s p Hpr)).
  rewrite (bool_decide_eq_false_2 (_ = TSTATE_DEAD)), (bool_decide_eq_false_2 (n = SIGKILL)) by done.
  destruct (add_pending_run s a p n Hsr Hpr ltac:(lia)) as (s1 & H1 & Hpt1 & Hsr1 & Ho1 & Hb1).
  rewrite (bind_Ok _ _ _ _ _ H1).
  destruct (wake_sleeper_run s1 a p Hsr1 Hpr) as (s2 & H2 & Hsr2 & Hpt2 & Ho2).
  exists s2. rewrite (bind_Ok _ _ _ _ _ H2). split; [done|]. split; [done|]. split; [congruence|]. split.
  - intros k Hk0. unfold sig_of at 1. injection (Ho2 p) as _ _ ->. rewrite Hb1. simpl.
    apply add_bit_spec; [unfold NSIG in Hnr; lia|done].
  - intros q Hq. rewrite Ho2. by rewrite Ho1.
Qed.

Definition sample_kill : tf_t :=
  set_regs {| edi := 0; esi := 0; ebp := 0; oesp := 0; ebx := 4; edx := 0; ecx := 12; eax := SYS_kill |} tf_zero.

(** Signal 12 to thread 4, which sleeps on the log. *)
Lemma kill_marks_and_wakes_witness :
  ∃ s', sys_kill sample_kill (k_around three) = Ok (syscall_set_errno E_SUCC sample_kill) s' ∧
    sched_rep (kth s') (a_signal 4 three_a) ∧ kpt s' = kpt (k_around three) ∧
    (∀ k, 0 <= k → Z.testbit (pending_signals (sig_of s' 4)) k = Z.testbit 0 k || bool_decide (k = 12)) ∧
    (∀ q, q ≠ 4 → own_data (kblk s' q) = own_data (kblk (k_around three) q)).
Proof.
  apply (kill_marks_and_wakes (k_around three) three_a sample_kill 4 12);
    [exact three_rep|reflexivity|reflexivity|done|done|done|].
  intros H. by vm_compute in H.
Defined.

(** ** SIGKILL *)

(** The scheduler without the thread [p]. *)
Definition a_remove (p : Z) (a : sched) : sched :=
  {| cur := cur a; ready := filter (λ x, x ≠ p) (ready a); asleep := delete p (asleep a) |}.

(** In the ready queue, or in no queue. *)
Definition queued_or_detached (s : k_state) (a : sched) (p : Z) : Prop :=
  p ∈ ready a ∨ prev (kblk s p) = NUM_IDS ∧ next (kblk s p) = NUM_IDS.

Lemma remove_ready (s : tq_state) q p :
  queue_rep s NUM_IDS q → 0 <= p < NUM_IDS →
  p ∈ q ∨ prev (blk s p) = NUM_IDS ∧ next (blk s p) = NUM_IDS →
  ∃ s', tqueue_remove NUM_IDS p s = Ok () s' ∧ queue_rep s' NUM_IDS (filter (λ x, x ≠ p) q) ∧
    tcb_pt (tq_tcb s') = tcb_pt (tq_tcb s) ∧ ∀ x, unlinked (blk s' x) = unlinked (blk s x).
Proof.
  intros Hq Hp Hor. destruct (decide (p ∈ q)) as [Hin|Hnin].
  - apply list_elem_of_split in Hin as (l & r & ->).
    pose proof (qr_nodup _ _ _ Hq) as Hnd.
    destruct (tqueue_remove_run s NUM_IDS l p r) as (s' & Hr & Hq' & [Hpt _ _ Hdata] & _); [unfold NUM_IDS; lia|done|].
    exists s'. split; [done|]. split; [|done].
    apply NoDup_app in Hnd as (Hl & Hd & Hr'). apply NoDup_cons in Hr' as [Hpr _].
    rewrite filter_app, filter_cons_False by tauto.
    rewrite !filter_all; [done|..].
    + intros x Hx ->. done.
    + intros x Hx ->. apply (Hd p Hx). set_solver.
  - destruct Hor as [?|[H1 H2]]; [done|].
    exists s. split; [apply (tqueue_remove_detached s NUM_IDS q); [unfold NUM_IDS; lia|done..]|].
    split; [|done]. replace (filter _ q) with q; [done|]. symmetry.
    apply filter_all. intros x Hx ->. done.
Qed.

Notation ktq := (view (S:=k_state) (C:=tq_state)).

(** A thread that is marked dead and taken out of the queue leaves the scheduler. *)
Lemma sched_rep_remove (s s' : th_state) a p :
  sched_rep s a → p ≠ cur a → CURID s' = CURID s → sched_lk s' = sched_lk s →
  queue_rep (th_tq s') NUM_IDS (filter (λ x, x ≠ p) (ready a)) → state (tb s' p) = TSTATE_DEAD →
  (∀ q, q ≠ p → state (tb s' q) = state (tb s q) ∧ channel (tb s' q) = channel (tb s q)) →
  sched_rep s' (a_remove p a).
Proof.
  intros [Hlk [Hcur Hrg Hq Hfr Hrun Hrd Has]] Hne Hid Hl Hq' Hd Hsame.
  split; [by rewrite Hl|]. split; simpl.
  - by rewrite Hid.
  - done.
  - done.
  - intros [_ ?]%list_elem_of_filter. done.
  - destruct (Hsame (cur a)) as [H _]; [done|]. by rewrite <- Hrun.
  - intros q [Hqp Hqr]%list_elem_of_filter. destruct (Hsame q Hqp) as [H _]. by rewrite <- (Hrd q Hqr).
  - intros q c. destruct (decide (q = p)) as [->|Hqp].
    + rewrite lookup_delete_eq. split; [done|]. intros (_ & H & _).
      assert (state (tb s' p) = TSTATE_SLEEP) by exact H. congruence.
    + rewrite lookup_delete_ne by done. rewrite Has. destruct (Hsame q Hqp) as [E1 E2].
      unfold tb in *. by rewrite E1, E2.
Qed.

Lemma kill_thread_run s a p :
  sched_rep (kth s) a → 0 <= p < NUM_IDS → p ≠ cur a → queued_or_detached s a p →
  ∃ s1, kill_thread p s = Ok () s1 ∧ sched_rep (kth s1) (a_remove p a) ∧ kpt s1 = kpt s ∧
    state (kblk s1 p) = TSTATE_DEAD ∧ pending_signals (sig_of s1 p) = 0 ∧
    ∀ q, q ≠ p → own_data (kblk s1 q) = own_data (kblk s q).
Proof.
  intros Hsr Hp Hne Hqd. unfold kill_thread.
  rewrite (bind_Ok _ _ _ _ _ (ktcb_upd (with_state TSTATE_DEAD) s p Hp)).
  set (s1 := put _ s : k_state).
  assert (queue_rep (ktq s1) NUM_IDS (ready a)) as Hq1
    by (exact (queue_rep_links (ktq s) NUM_IDS (ready a) p (with_state TSTATE_DEAD (kblk s p))
                 eq_refl eq_refl (sr_queue _ _ (proj2 Hsr)))).
  assert (blk (ktq s1) p = with_state TSTATE_DEAD (kblk s p)) as Hb1
    by (exact (eq_trans (kblk_put_tcb s p _ p) (decide_True _ _ eq_refl))).
  destruct (remove_ready (ktq s1) (ready a) p Hq1 Hp) as (q2 & Hr2 & Hq2 & Hpt2 & Hd2).
  { destruct Hqd as [?|[? ?]]; [by left|right]. by rewrite Hb1. }
  rewrite (bind_Ok _ _ _ _ _ (zoom_Ok (S:=k_state) _ s1 _ _ Hr2)). set (s2 := put q2 s1 : k_state).
  unfold tcb_set_pending_signals. rewrite (ktcb_upd _ s2 p Hp). set (s3 := put _ s2 : k_state).
  assert (∀ q, q ≠ p → kblk s3 q = kblk s2 q) as Ho3
    by (intros q Hq; unfold s3; rewrite kblk_put_tcb; by rewrite decide_False).
  assert (kblk s3 p = with_sigstate (set_pending 0 (sigstate (kblk s2 p))) (kblk s2 p)) as Hb3
    by (unfold s3; rewrite kblk_put_tcb; by rewrite decide_True).
  assert (∀ q, unlinked (kblk s2 q) = unlinked (kblk s1 q)) as Hu2 by exact Hd2.
  assert (∀ q, q ≠ p → kblk s1 q = kblk s q) as Ho1
    by (intros q Hq; unfold s1; rewrite kblk_put_tcb; by rewrite decide_False).
  assert (state (kblk s2 p) = TSTATE_DEAD) as Hdead.
  { pose proof (f_equal state (Hu2 p)) as E. simpl in E. rewrite E. exact (f_equal state Hb1). }
  assert (∀ q, q ≠ p → fields (kblk s3 q) = fields (kblk s q)) as Hf.
  { intros q Hq. rewrite Ho3 by done. rewrite <- (Ho1 q Hq).
    pose proof (f_equal fields (Hu2 q)) as E. exact E. }
  exists s3. split; [done|]. split; [|split; [exact Hpt2|split; [by rewrite Hb3|split]]].
  - apply (sched_rep_remove (kth s)); [done|done|done|done| | |].
    + exact (queue_rep_links q2 NUM_IDS _ p (with_sigstate (set_pending 0 (sigstate (kblk s2 p))) (kblk s2 p))
               eq_refl eq_refl Hq2).
    + change (state (kblk s3 p) = TSTATE_DEAD). by rewrite Hb3.
    + intros q Hq. change (state (kblk s3 q) = state (kblk s q) ∧ channel (kblk s3 q) = channel (kblk s q)).
      by injection (Hf q Hq) as -> -> _.
  - unfold sig_of. by rewrite Hb3.
  - intros q Hq. exact (f_equal snd (Hf q Hq)).
Qed.

Notation kcont := (view (S:=k_state) (C:=cont_state)).

Lemma sched_rep_put_cont (s : k_state) (c : cont_state) a :
  sched_rep (kth s) a → sched_rep (kth (put c s)) a.
Proof. intros [Hlk [H1 H2 [] H4 H5 H6 H7]]. split; [exact Hlk|]. split; [exact H1|exact H2|by split|done..]. Qed.

Definition refunded (q : Z) (c : SContainer) : Z := if bool_decide (u32 (usage c) >= q) then usage c - q else 0.

Lemma refund_run s p :
  let P := parent (cont_look (kcont s) p) in
  0 <= p < NUM_IDS → 0 <= P < NUM_IDS →
  refund_parent p s =
    Ok () (put (upd_CONTAINER <[P := set_usage (refunded (u32 (quota (cont_look (kcont s) p))) (cont_look (kcont s) P))
                                       (cont_look (kcont s) P)]> (kcont s)) s).
Proof.
  intros P Hp HP. unfold refund_parent, container_get_parent, container_get_quota.
  assert (∀ (f : SContainer → Z), zoom (c ← cget p; mret (f c)) s = Ok (f (cont_look (kcont s) p)) s) as Hget.
  { intros f. unfold zoom. rewrite (bind_Ok _ _ _ _ _ (cget_Ok (kcont s) p Hp)), ret_Ok.
    by rewrite (put_view (S:=k_state)). }
  rewrite (bind_Ok _ _ _ _ _ (Hget (λ c, u32 (parent c)))), (bind_Ok _ _ _ _ _ (Hget (λ c, u32 (quota c)))).
  fold P. rewrite (u32_small P) by (unfold is_u32, W32, NUM_IDS in *; lia).
  apply (zoom_Ok (S:=k_state)). unfold container_refund_usage.
  rewrite (bind_Ok _ _ _ _ _ (cget_Ok (kcont s) P HP)). unfold refunded.
  case_bool_decide; by apply cset_Ok.
Qed.

(** C17: [SIGKILL] removes a process.  Sent to a live process that is not the sender, in
    the ready queue or asleep in no queue, it succeeds: the process is dead, in neither the
    ready queue nor among the sleepers, so the scheduler never runs it again, its pending
    signals are gone, and its whole quota is given back to its parent; no other process
    changes. *)
Theorem sigkill_removes s a tf p :
  let P := parent (cont_look (kcont s) p) in
  sched_rep (kth s) a → s32 (syscall_get_arg2 tf) = p → s32 (syscall_get_arg3 tf) = SIGKILL →
  0 <= p < NUM_IDS → 0 <= P < NUM_IDS → p ≠ cur a → queued_or_detached s a p →
  state (kblk s p) ≠ TSTATE_DEAD →
  ∃ s', sys_kill tf s = Ok (syscall_set_errno E_SUCC tf) s' ∧ sched_rep (kth s') (a_remove p a) ∧
    state (kblk s' p) = TSTATE_DEAD ∧ pending_signals (sig_of s' p) = 0 ∧
    usage (cont_look (kcont s') P) = s32 (refunded (u32 (quota (cont_look (kcont s) p))) (cont_look (kcont s) P)) ∧
    ∀ q, q ≠ p → own_data (kblk s' q) = own_data (kblk s q).
Proof.
  intros P Hsr Hp Hn Hpr HP Hne Hqd Hst. unfold sys_kill. rewrite Hp, Hn.
  rewrite (bool_decide_eq_false_2 (SIGKILL < 1)), (bool_decide_eq_false_2 (SIGKILL >= NSIG)),
    (bool_decide_eq_false_2 (p < 0)), (bool_decide_eq_false_2 (p >= NUM_IDS)) by (unfold SIGKILL, NSIG; lia).
  cbn [orb]. rewrite (bind_Ok _ _ _ _ _ (ktcb_read state s p Hpr)).
  rewrite (bool_decide_eq_false_2 (_ = TSTATE_DEAD)), (bool_decide_eq_true_2 (SIGKILL = SIGKILL)) by done.
  destruct (kill_thread_run s a p Hsr Hpr Hne Hqd) as (s1 & H1 & Hsr1 & Hpt1 & Hd1 & Hs1 & Ho1).
  rewrite (bind_Ok _ _ _ _ _ H1).
  assert (kcont s1 = kcont s) as Hc by (exact (f_equal pt_cont Hpt1)).
  pose proof (refund_run s1 p Hpr) as H2. rewrite Hc in H2. specialize (H2 HP). fold P in H2.
  rewrite (bind_Ok _ _ _ _ _ H2). eexists. split; [reflexivity|].
  split; [by apply sched_rep_put_cont|]. split; [exact Hd1|]. split; [exact Hs1|]. split; [|exact Ho1].
  rewrite (view_put (S:=k_state)). rewrite cont_look_upd. by rewrite decide_True.
Qed.

Definition sample_sigkill : tf_t :=
  set_regs {| edi := 0; esi := 0; ebp := 0; oesp := 0; ebx := 2; edx := 0; ecx := 9; eax := SYS_kill |} tf_zero.

(** Thread 2 is ready and is killed by thread 0. *)
Lemma sigkill_removes_witness :
  ∃ s', sys_kill sample_sigkill (k_around three) = Ok (syscall_set_errno E_SUCC sample_sigkill) s' ∧
    sched_rep (kth s') (a_remove 2 three_a) ∧ state (kblk s' 2) = TSTATE_DEAD ∧
    pending_signals (sig_of s' 2) = 0 ∧ usage (cont_look (kcont s') 0) = s32 (refunded (u32 0) (cont_look (kcont (k_around three)) 0)) ∧
    ∀ q, q ≠ 2 → own_data (kblk s' q) = own_data (kblk (k_around three) q).
Proof.
  apply (sigkill_removes (k_around three) three_a sample_sigkill 2);
    [exact three_rep|reflexivity|reflexivity|done|done|done|left; set_solver|].
  intros H. by vm_compute in H.
Defined.
