(* ===== verification/PipeCall.v ===== *)
(** * Data through a pipe, from one user buffer to another
    (kern/fs/sysfile.c, kern/fs/file.c, kern/lib/pmap.c)

    [sys_write] copies bytes from user memory into the buffer of the process and from there
    into the ring of a pipe; [sys_read] takes them the other way.  This file composes the
    copies, the descriptors and the ring. *)

From S2P Require Import Prelude Spinlock Mboot PMem Container PageTable TCB TQueue Thread Sched.
From S2P Require Import UserCopy CString BufCache Log Inode Path File Pipe Ipc TrapFrame Sysfile Syscall Trap Signal.

(** ** The calls below *)

(** A write that fits and a read that need not wait, with everything they change. *)
Lemma pipe_write_fits (s : fs_state) a p q bs :
  sched_rep (thv s) a → pc_lock s = spinlock_init → 0 <= p < NPIPE → ring (plook s p) q →
  (length q + length bs <= 512)%nat →
  ∃ (t : th_state) v', pipe_write p bs (Z.of_nat (length bs)) s =
      Ok (Z.of_nat (length bs)) (put t (upd_pipes <[p := v']> s)) ∧
    ring v' (q ++ bs) ∧ sched_rep t (a_wakeup (ChNread p) a) ∧ th_frame (thv s) t ∧
    readopen v' = readopen (plook s p) ∧ writeopen v' = writeopen (plook s p).
Proof.
  intros Hsr Hlk Hp Hr Hl.
  destruct (fill_spec bs (plook s p) q Hr) as (v' & Hf & Hr' & Hro & Hwo & _).
  rewrite Nat.min_l in Hf, Hr' by lia. rewrite drop_all in Hf. rewrite firstn_all in Hr'.
  destruct (thread_wakeup_run _ a (ChNread p) Hsr) as (t & Hw & Ht & Hfr). exists t, v'. split; [|done].
  set (s1 := upd_pipes <[p := v']> (set_pc_lock locked s)).
  assert (pipe_write_begin p bs (Z.of_nat (length bs)) s =
    Ok (SegDone (Z.of_nat (length bs))) (set_pc_lock spinlock_init (put t s1))) as Hb.
  { unfold pipe_write_begin. rewrite (bind_Ok _ _ _ _ _ (pc_acquire_run s Hlk)).
    rewrite Nat2Z.id, firstn_all. unfold pipe_write_seg, pget, pset.
    rewrite (bind_Ok _ _ _ _ _ (aget_Ok _ _ _ _ (set_pc_lock locked s) Hp)).
    change (alook pipe_zero (pipes (set_pc_lock locked s)) p) with (plook s p). rewrite Hf.
    rewrite (bind_Ok _ _ _ _ _ (aset_Ok _ _ _ _ _ Hp)). fold s1.
    rewrite (bind_Ok _ _ _ _ _ (zoom_Ok (S:=fs_state) _ s1 _ _ Hw)). done. }
  unfold pipe_write. rewrite (bind_Ok _ _ _ _ _ Hb). cbv beta iota. rewrite ret_Ok. f_equal.
  unfold s1. destruct s as [[] ? ? lk]. simpl in *. by subst lk.
Qed.

Lemma pipe_read_ready (s : fs_state) a p q n :
  sched_rep (thv s) a → pc_lock s = spinlock_init → 0 <= p < NPIPE → ring (plook s p) q → q ≠ [] →
  ∃ (t : th_state) v', pipe_read p n s =
      Ok (Z.of_nat (length (take (Z.to_nat n) q)), take (Z.to_nat n) q) (put t (upd_pipes <[p := v']> s)) ∧
    ring v' (drop (Z.to_nat n) q) ∧ sched_rep t (a_wakeup (ChNwrite p) a) ∧ th_frame (thv s) t.
Proof.
  intros Hsr Hlk Hp Hr Hq.
  destruct (drain_spec (Z.to_nat n) (plook s p) q Hr) as (v' & Hf & Hr' & _).
  destruct (thread_wakeup_run _ a (ChNwrite p) Hsr) as (t & Hw & Ht & Hfr). exists t, v'. split; [|done].
  set (s1 := upd_pipes <[p := v']> (set_pc_lock locked s)).
  assert (pipe_read_begin p n s =
    Ok (SegDone (take (Z.to_nat n) q)) (set_pc_lock spinlock_init (put t s1))) as Hb.
  { unfold pipe_read_begin. rewrite (bind_Ok _ _ _ _ _ (pc_acquire_run s Hlk)).
    unfold pipe_read_seg, pget, pset.
    rewrite (bind_Ok _ _ _ _ _ (aget_Ok _ _ _ _ (set_pc_lock locked s) Hp)).
    change (alook pipe_zero (pipes (set_pc_lock locked s)) p) with (plook s p).
    rewrite (ring_empty _ _ Hr), (bool_decide_eq_false_2 (q = [])) by done. cbn [andb]. rewrite Hf.
    rewrite (bind_Ok _ _ _ _ _ (aset_Ok _ _ _ _ _ Hp)). fold s1.
    rewrite (bind_Ok _ _ _ _ _ (zoom_Ok (S:=fs_state) _ s1 _ _ Hw)). done. }
  unfold pipe_read. rewrite (bind_Ok _ _ _ _ _ Hb). cbv beta iota. rewrite ret_Ok. f_equal.
  unfold s1. destruct s as [[] ? ? lk]. simpl in *. by subst lk.
Qed.

(** ** The calls *)

(** Descriptor [fd] of process [pid] is the writing or the reading end of pipe [k]. *)
Definition pipe_end (s : k_state) (pid fd k : Z) (wr : bool) : Prop :=
  0 <= fd < NOFILE ∧ 0 <= k < NPIPE ∧
  ∃ f, openfiles (kblk s pid) !! fd = Some f ∧ 0 <= f < NFILE ∧
    let v := alook file_zero (ftable (k_fs s)) f in
    f_type v = FD_PIPE ∧ f_pipe v = Some k ∧ (if wr then f_writable v else f_readable v) ≠ 0.

(** What a call on a pipe leaves alone. *)
Definition pipe_frame (s s' : k_state) : Prop :=
  current s' = current s ∧ ftable (k_fs s') = ftable (k_fs s) ∧ pc_lock (k_fs s') = pc_lock (k_fs s) ∧
  TRAP_HANDLER s' = TRAP_HANDLER s ∧ ∀ q, own_data (kblk s' q) = own_data (kblk s q).

(** The arguments: descriptor, buffer and length. *)
Definition rw_args (tf : tf_t) (fd va n : Z) : Prop :=
  s32 (syscall_get_arg2 tf) = fd ∧ syscall_get_arg3 tf = va ∧ syscall_get_arg4 tf = n.

Definition succeeds (n : Z) (tf : tf_t) : tf_t := syscall_set_errno E_SUCC (syscall_set_retval1 n tf).

Lemma get_fd_run (s : k_state) p fd :
  0 <= p < NUM_IDS → 0 <= fd < NOFILE → get_fd p fd s = Ok (openfiles (kblk s p) !! fd) s.
Proof.
  intros Hp Hfd. unfold get_fd, tcb_get_openfiles.
  rewrite (bind_Ok _ _ _ _ _ (ktcb_read openfiles s p Hp)).
  by rewrite (bool_decide_eq_true_2 (0 <= fd < NOFILE)).
Qed.

Lemma k_fget_run (s : k_state) f :
  0 <= f < NFILE → zoom (fget f) s = Ok (alook file_zero (ftable (k_fs s)) f) s.
Proof.
  intros Hf.
  assert (fget f (k_fs s) = Ok (alook file_zero (ftable (k_fs s)) f) (k_fs s)) as H
    by (exact (aget_Ok file_zero NFILE ftable f (k_fs s) Hf)).
  rewrite (zoom_Ok (S:=k_state) (C:=fs_state) _ s _ _ H). f_equal. by destruct s.
Qed.

Lemma rw_file_run (s : k_state) tf p fd va n k wr :
  rw_args tf fd va n → uregion (kpt s) p va (va + n) → 0 <= n <= 4096 → pipe_end s p fd k wr →
  ∃ f, rw_file tf p s = Ok (inl f) s ∧ 0 <= f < NFILE ∧
    let v := alook file_zero (ftable (k_fs s)) f in
    f_type v = FD_PIPE ∧ f_pipe v = Some k ∧ (if wr then f_writable v else f_readable v) ≠ 0.
Proof.
  intros (Ha & Hb & Hc) [Hwf Hp Hlo Hhi _] Hn (Hfd & _ & f & Hf & Hfr & Hty & Hrest).
  assert (0 <= p < NUM_IDS) as Hp0 by lia.
  exists f. split; [|done]. unfold rw_file. rewrite Ha, Hb, Hc.
  rewrite (bool_decide_eq_false_2 (fd < 0)), (bool_decide_eq_false_2 (fd >= NOFILE)),
    (bool_decide_eq_false_2 (n < 0)), (bool_decide_eq_false_2 (va < VM_USERLO)),
    (bool_decide_eq_false_2 (n > 4096)) by lia. cbn [orb].
  rewrite u32_small by (unfold is_u32, W32; change VM_USERHI with 4026531840 in Hhi;
                        change VM_USERLO with 1073741824 in Hlo; lia).
  rewrite (bool_decide_eq_false_2 (va + n > VM_USERHI)) by lia. cbn [orb].
  rewrite (bind_Ok _ _ _ _ _ (get_fd_run s p fd Hp0 Hfd)), Hf. cbv beta iota.
  rewrite (bind_Ok _ _ _ _ _ (k_fget_run s f Hfr)), Hty. done.
Qed.

(** Staging bytes in the buffer of the process and taking them out again. *)
Lemma buf_stage {A} (s : k_state) p bs (m : list Z → M k_state A) :
  0 <= p < NUM_IDS → ∃ g row,
    (buf_store p bs ;; row ← buf_row p; m row) s = m (bs ++ row) (upd_sys_buf g s).
Proof.
  intros Hp. set (row := alook page0 (sys_buf s) p).
  exists <[p := overwrite bs row]>, (drop (length bs) row).
  assert (buf_store p bs s = Ok () (upd_sys_buf <[p := overwrite bs row]> s)) as H1.
  { unfold buf_store, buf_row. rewrite (bind_Ok _ _ _ _ _ (aget_Ok page0 NUM_IDS sys_buf p s Hp)).
    exact (aset_Ok NUM_IDS upd_sys_buf p _ s Hp). }
  rewrite (bind_Ok _ _ _ _ _ H1). unfold buf_row.
  rewrite (bind_Ok _ _ _ _ _ (aget_Ok page0 NUM_IDS sys_buf p (upd_sys_buf _ s) Hp)).
  simpl sys_buf. by rewrite alook_insert_eq.
Qed.

Lemma ubytes_length c p va n : 0 <= n → length (ubytes c p va n) = Z.to_nat n.
Proof. intros ?. unfold ubytes. rewrite length_fmap, length_seqZ. done. Qed.

(** A pipe file at the file layer is the pipe. *)
Lemma file_write_pipe (s : fs_state) f k bs n :
  0 <= f < NFILE → let v := alook file_zero (ftable s) f in
  f_type v = FD_PIPE → f_pipe v = Some k → f_writable v ≠ 0 →
  file_write f bs n s = pipe_write k bs n s.
Proof.
  intros Hf v Ht Hp Hw. unfold file_write, fget.
  rewrite (bind_Ok _ _ _ _ _ (aget_Ok file_zero NFILE ftable f s Hf)). fold v.
  rewrite (bool_decide_eq_false_2 (f_writable v = 0)) by done. by rewrite Ht, Hp.
Qed.

Lemma file_read_pipe (s : fs_state) f k n :
  0 <= f < NFILE → let v := alook file_zero (ftable s) f in
  f_type v = FD_PIPE → f_pipe v = Some k → f_readable v ≠ 0 →
  file_read f n s = pipe_read k n s.
Proof.
  intros Hf v Ht Hp Hw. unfold file_read, fget.
  rewrite (bind_Ok _ _ _ _ _ (aget_Ok file_zero NFILE ftable f s Hf)). fold v.
  rewrite (bool_decide_eq_false_2 (f_readable v = 0)) by done. by rewrite Ht, Hp.
Qed.

(** The bytes after the length are not looked at. *)
Lemma pipe_write_prefix k bs row (s : fs_state) :
  pipe_write k (bs ++ row) (Z.of_nat (length bs)) s = pipe_write k bs (Z.of_nat (length bs)) s.
Proof. unfold pipe_write, pipe_write_begin. by rewrite Nat2Z.id, take_app_length, firstn_all. Qed.

(** The state after a pipe call: threads [t], pipe [k] now [v], buffers changed. *)
Definition pipe_after (g : gmap Z (list Z) → gmap Z (list Z)) (t : th_state) (k : Z) (v : pipe) (s : k_state) : k_state :=
  put (C:=fs_state) (put t (upd_pipes <[k := v]> (k_fs s))) (upd_sys_buf g s).

Lemma pipe_after_keeps g t k v (s : k_state) a a' :
  sched_rep (kth s) a → sched_rep t a' → cur a' = cur a → th_frame (kth s) t →
  pipe_frame s (pipe_after g t k v s) ∧ kpt (pipe_after g t k v s) = kpt s ∧
  plook (k_fs (pipe_after g t k v s)) k = v ∧ kth (pipe_after g t k v s) = t.
Proof.
  intros [_ Hs] [_ Ht] Hc (Hpt & Ho & _). split; [|split; [exact Hpt|split; [|done]]].
  - split; [|split; [done|split; [done|split; [done|exact Ho]]]].
    pose proof (sr_cur _ _ Hs) as E1. pose proof (sr_cur _ _ Ht) as E2.
    transitivity (cur a'); [exact E2|]. rewrite Hc. symmetry. exact E1.
  - exact (alook_insert_eq pipe_zero (pipes (k_fs s)) k v).
Qed.

Lemma sys_write_pipe (s : k_state) a tf p fd va n k q :
  current s = p → sched_rep (kth s) a → pc_lock (k_fs s) = spinlock_init →
  rw_args tf fd va n → uregion (kpt s) p va (va + n) → 0 <= n → pipe_end s p fd k true →
  ring (plook (k_fs s) k) q → (length q + Z.to_nat n <= 512)%nat →
  ∃ s1, sys_write tf s = Ok (succeeds n tf) s1 ∧
    ring (plook (k_fs s1) k) (q ++ ubytes (kpt s) p va n) ∧
    sched_rep (kth s1) (a_wakeup (ChNread k) a) ∧ kpt s1 = kpt s ∧ pipe_frame s s1.
Proof.
  intros Hcur Hsr Hlk Hargs Hreg Hn He Hr Hl. pose proof He as (_ & Hk & _).
  pose proof Hreg as [Hwf Hp Hlo Hhi Hpr]. assert (0 <= p < NUM_IDS) as Hp0 by lia.
  destruct (rw_file_run s tf p fd va n k true Hargs Hreg ltac:(lia) He) as (f & Hrw & Hf & Ht & Hfp & Hw).
  pose proof Hargs as (_ & Hb & Hc). unfold sys_write.
  rewrite (bind_Ok _ _ _ _ _ (curid_run s)), Hcur, (bind_Ok _ _ _ _ _ Hrw). cbv beta iota.
  set (bs := ubytes (kpt s) p va n).
  assert (Z.of_nat (length bs) = n) as Hlen by (unfold bs; rewrite ubytes_length by done; lia).
  rewrite Hb, Hc, (bind_Ok _ _ _ _ _ (copyin_run s p va n Hwf Hp ltac:(lia) ltac:(unfold user_range; lia) Hpr)).
  cbn [fst snd]. fold bs.
  destruct (buf_stage s p bs (λ row, size_write ← zoom (file_write f row n);
    mret (succeeds size_write tf)) Hp0) as (g & row & Hst).
  unfold succeeds in Hst |- *. rewrite Hst. clear Hst.
  destruct (pipe_write_fits (k_fs s) a k q bs Hsr Hlk Hk Hr ltac:(lia)) as (t & v' & Hrun & Hr' & Ht' & Hfr & _).
  assert (file_write f (bs ++ row) n (k_fs s) = Ok n (put t (upd_pipes <[k := v']> (k_fs s)))) as Hfw.
  { rewrite (file_write_pipe (k_fs s) f k) by done. rewrite <- Hlen, pipe_write_prefix. exact Hrun. }
  destruct (pipe_after_keeps g t k v' s a _ Hsr Ht' eq_refl Hfr) as (Hpf & Hpt & Hv & Hth).
  exists (pipe_after g t k v' s). split.
  - exact (bind_Ok _ _ _ _ _ (zoom_Ok (S:=k_state) (C:=fs_state) _ (upd_sys_buf g s) _ _ Hfw)).
  - rewrite Hv, Hth. done.
Qed.

(** The scheduler does not depend on user memory. *)
Lemma sched_rep_put_pt (s : k_state) (c : pt_state) a :
  sched_rep (kth s) a → sched_rep (kth (put c s)) a.
Proof.
  intros [Hlk [H1 H2 [Q1 Q2 Q3 Q4 Q5] H4 H5 H6 H7]]. split; [exact Hlk|].
  split; [exact H1|exact H2| |exact H4|exact H5|exact H6|exact H7].
  split; [exact Q1|exact Q2|exact Q3|exact Q4|exact Q5].
Qed.

Lemma sys_read_pipe (s : k_state) a tf p fd va n k q :
  current s = p → sched_rep (kth s) a → pc_lock (k_fs s) = spinlock_init →
  rw_args tf fd va n → uregion (kpt s) p va (va + n) → 0 < n <= 4096 → pipe_end s p fd k false →
  ring (plook (k_fs s) k) q → q ≠ [] →
  let got := take (Z.to_nat n) q in
  ∃ s1, sys_read tf s = Ok (succeeds (Z.of_nat (length got)) tf) s1 ∧
    ubytes (kpt s1) p va (Z.of_nat (length got)) = got ∧ only_in (kpt s) p va (va + n) (kpt s1) ∧
    ring (plook (k_fs s1) k) (drop (Z.to_nat n) q) ∧
    sched_rep (kth s1) (a_wakeup (ChNwrite k) a) ∧ pipe_frame s s1.
Proof.
  intros Hcur Hsr Hlk Hargs Hreg Hn He Hr Hq got. pose proof He as (_ & Hk & _).
  pose proof Hreg as [Hwf Hp Hlo Hhi Hpr]. assert (0 <= p < NUM_IDS) as Hp0 by lia.
  destruct (rw_file_run s tf p fd va n k false Hargs Hreg ltac:(lia) He) as (f & Hrw & Hf & Ht & Hfp & Hw).
  pose proof Hargs as (_ & Hb & Hc). unfold sys_read.
  rewrite (bind_Ok _ _ _ _ _ (curid_run s)), Hcur, (bind_Ok _ _ _ _ _ Hrw). cbv beta iota. rewrite Hb, Hc.
  destruct (pipe_read_ready (k_fs s) a k q n Hsr Hlk Hk Hr Hq) as (t & v' & Hrun & Hr' & Ht' & Hfr).
  fold got in Hrun. rewrite <- (file_read_pipe (k_fs s) f k n Hf Ht Hfp Hw) in Hrun.
  rewrite (bind_Ok _ _ _ _ _ (zoom_Ok (S:=k_state) (C:=fs_state) _ s _ _ Hrun)). cbn [fst snd].
  set (s0 := put _ s : k_state).
  assert (0 < Z.of_nat (length got) <= n) as Hg.
  { unfold got. rewrite length_take. destruct q; [done|]. simpl length. lia. }
  destruct (buf_stage s0 p got (λ row,
    (if bool_decide (Z.of_nat (length got) > 0) then copyout (take (Z.to_nat (Z.of_nat (length got))) row) p va else mret 0) ;;
    mret (succeeds (Z.of_nat (length got)) tf)) Hp0) as (g & row & Hst).
  unfold succeeds in Hst |- *. rewrite Hst. clear Hst.
  rewrite (bool_decide_eq_true_2 (_ > 0)) by lia. rewrite Nat2Z.id, take_app_length.
  destruct (pipe_after_keeps g t k v' s a _ Hsr Ht' eq_refl Hfr) as (Hpf & Hpt & Hv & Hth).
  change (upd_sys_buf g s0) with (pipe_after g t k v' s). set (s2 := pipe_after g t k v' s) in *.
  destruct (copyout_region s2 (kpt s) p va (va + n) va got Hreg) as (c & Hco & Hwr & Hreg'); [lia..|].
  rewrite <- Hpt, (put_view (S:=k_state)) in Hco.
  rewrite (bind_Ok _ _ _ _ _ Hco). exists (put c s2). split; [done|].
  destruct (put_pt_keeps s2 c) as (E1 & E2 & E3). rewrite E3.
  split; [apply (ubytes_there (kpt s) p va (va + n) va got c); [done|done|lia|lia]|].
  split; [apply (only_in_written (kpt s) p va (va + n) va got c Hwr); lia|].
  split; [exact (eq_ind_r (λ v, ring v _) Hr' Hv)|].
  split; [apply sched_rep_put_pt; by rewrite Hth|].
  destruct Hpf as (F1 & F2 & F3 & F4 & F5). split; [by rewrite E1|]. split; [done|]. split; [done|]. split; [done|].
  intros x. by rewrite E2.
Qed.

(** ** One process that writes to itself *)

Definition end_file (r w : Z) : file := with_pipe 0 (with_kind FD_PIPE r w (with_fref 1 file_zero)).

Definition sample_rw (c : pt_state) : k_state :=
  let s := k_around (sample_thread c (with_state TSTATE_RUN (with_openfiles {[ 0 := 0; 1 := 1 ]} TCB_zero))) in
  put (C:=fs_state) (upd_pipes <[0 := with_ends 2 1 1 pipe_zero]>
    (upd_ftable (λ _, {[ 0 := end_file 1 0; 1 := end_file 0 1 ]}) (k_fs s))) s.

Definition one_a : sched := {| cur := 1; ready := []; asleep := ∅ |}.

Lemma sample_rw_rep c : sched_rep (kth (sample_rw c)) one_a.
Proof.
  split; [done|]. split; simpl; try done.
  { split; [constructor|set_solver|done|done|done]. }
  { set_solver. }
  { set_solver. }
  intros p ch. rewrite lookup_empty. split; [done|]. intros (_ & H & _). exfalso. revert H.
  change (state (alook TCB_zero {[ 1 := with_state TSTATE_RUN (with_openfiles {[ 0 := 0; 1 := 1 ]} TCB_zero) ]} p)
          = TSTATE_SLEEP → False).
  unfold alook. destruct (decide (p = 1)) as [->|Hp]; [by rewrite lookup_singleton_eq|].
  by rewrite lookup_singleton_ne.
Qed.

Lemma sample_rw_region c va n :
  pt_wf c → (∀ v, 1073741824 <= v < 1073741824 + 4096 → present c 1 v) →
  1073741824 <= va → va + n <= 1073741824 + 4096 → uregion c 1 va (va + n).
Proof.
  intros Hwf Hpr H1 H2. split; [done|done|done| |intros v Hv; apply Hpr; lia].
  change VM_USERHI with 4026531840. lia.
Qed.

Lemma pipe_end_frame s s' p fd k wr : pipe_frame s s' → pipe_end s p fd k wr → pipe_end s' p fd k wr.
Proof.
  intros (_ & Hf & _ & _ & Ho) (H1 & H2 & f & H3 & H4). split; [done|]. split; [done|]. exists f.
  rewrite Hf. split; [|done]. specialize (Ho p). unfold own_data in Ho. injection Ho as E _ _. by rewrite E.
Qed.
