(* ===== verification/UserCalls.v ===== *)
(** * The calls as a process makes them
    (user/include/syscall.h, user/lib/proc.c, signal.c, string.c)

    A call stub loads the call number and the arguments into registers, executes the trap
    instruction and looks at the registers it comes back with.  The stubs run here on the
    kernel of [Trap]: the trap saves the registers of the process as the frame that [trap]
    gets, and the frame that [trap] returns holds the registers with which the process goes
    on.  When it goes on somewhere else, in the handler of a signal, the stub is not finished
    and the model stops ([block]). *)

From S2P Require Import Prelude Spinlock Mboot PMem Container PageTable TCB TQueue Thread Sched.
From S2P Require Import UserCopy CString BufCache Log Inode Path File Pipe Ipc TrapFrame Sysfile Syscall Trap Signal PipeCall.

Definition SYS_puts : Z := 0.
Definition SYS_produce : Z := 3.
Definition SYS_consume : Z := 4.

(** The trap number and error code that the entry code pushes. *)
Definition with_trap (no e : Z) (tf : tf_t) : tf_t :=
  {| regs := regs tf; tf_es := tf_es tf; tf_ds := tf_ds tf; trapno := no; err := e;
     eip := eip tf; tf_cs := tf_cs tf; eflags := eflags tf; esp := esp tf; tf_ss := tf_ss tf |}.

Definition set_cr2 (va : Z) (s : k_state) : k_state :=
  {| k_fs := k_fs s; k_ipc := k_ipc s; uctx_pool := uctx_pool s; sys_buf := sys_buf s;
     open_first := open_first s; TRAP_HANDLER := TRAP_HANDLER s; trap_inited := trap_inited s;
     k_seg := k_seg s; cr2 := va |}.

(** The registers at the trap instruction: EAX, and EBX, ECX, EDX, ESI as far as they are
    given. *)
Definition load_regs (nr : Z) (args : list Z) (u : tf_t) : tf_t :=
  let r := regs u in
  let arg i old := default old (u32 <$> args !! i) in
  set_regs {| edi := edi r; esi := arg 3%nat (esi r); ebp := ebp r; oesp := oesp r; ebx := arg 0%nat (ebx r);
              edx := arg 2%nat (edx r); ecx := arg 1%nat (ecx r); eax := u32 nr |} u.

Section Stubs.
Context (elf_image : Z → Z) (proc_start_user_addr : Z) (g : stack).

(** The process goes on behind the instruction that trapped. *)
Definition resume (u tf : tf_t) : M k_state () :=
  if bool_decide (eip tf = eip u) && bool_decide (esp tf = esp u) then mret () else block.

Definition int_syscall (nr : Z) (args : list Z) (u : tf_t) : M k_state tf_t :=
  let u := load_regs nr args u in
  tf ← trap elf_image proc_start_user_addr g (with_trap T_SYSCALL 0 u);
  resume u tf ;;
  mret tf.

(** [errno ? -1 : ret] and [errno ? -1 : 0], with the registers afterwards. *)
Definition ret_value (tf : tf_t) : M k_state (Z * tf_t) :=
  mret (if bool_decide (eax (regs tf) = 0) then s32 (ebx (regs tf)) else -1, tf).
Definition ret_status (tf : tf_t) : M k_state (Z * tf_t) :=
  mret (if bool_decide (eax (regs tf) = 0) then 0 else -1, tf).

(** A byte of the memory of the process; a page that is not there is allocated by the page
    fault. *)
Definition uload (u : tf_t) (va : Z) : M k_state Z :=
  p ← curid;
  s ← gets id;
  (if bool_decide (Z.land (translate (kpt s) p va) PTE_P ≠ 0) then mret ()
   else
     modify (set_cr2 va) ;;
     tf ← trap elf_image proc_start_user_addr g (with_trap T_PGFLT 4 u);
     resume u tf) ;;
  s ← gets id;
  if bool_decide (Z.land (translate (kpt s) p va) PTE_P ≠ 0) then mret (ubyte (kpt s) p va) else block.

(** [strlen] on the memory of the process, for strings shorter than [fuel]. *)
Fixpoint strlen_loop (fuel : nat) (u : tf_t) (s n : Z) : M k_state Z :=
  match fuel with
  | O => spin
  | S fuel =>
      c ← uload u s;
      if bool_decide (c ≠ 0) then strlen_loop fuel u (u32 (s + 1)) (n + 1) else mret n
  end.

Context (fuel : nat).

Definition user_strlen (u : tf_t) (s : Z) : M k_state Z := strlen_loop fuel u s 0.

Definition usys_puts (s len : Z) (u : tf_t) : M k_state tf_t := int_syscall SYS_puts [s; len] u.

Definition usys_sync_send (recv_pid addr len : Z) (u : tf_t) : M k_state tf_t :=
  int_syscall SYS_sync_send [recv_pid; addr; len] u.

Definition usys_sync_receive (send_pid addr len : Z) (u : tf_t) : M k_state (Z * tf_t) :=
  int_syscall SYS_sync_recv [send_pid; addr; len] u ≫= ret_value.

Definition usys_spawn (exec quota stdin_fd stdout_fd : Z) (u : tf_t) : M k_state (Z * tf_t) :=
  int_syscall SYS_spawn [exec; quota; stdin_fd; stdout_fd] u ≫= ret_value.

Definition usys_yield (u : tf_t) : M k_state tf_t := int_syscall SYS_yield [] u.
Definition usys_produce (u : tf_t) : M k_state tf_t := int_syscall SYS_produce [] u.
Definition usys_consume (u : tf_t) : M k_state tf_t := int_syscall SYS_consume [] u.

Definition usys_read (fd buf n : Z) (u : tf_t) : M k_state (Z * tf_t) :=
  int_syscall SYS_read [fd; buf; n] u ≫= ret_value.

Definition usys_write (fd p n : Z) (u : tf_t) : M k_state (Z * tf_t) :=
  int_syscall SYS_write [fd; p; n] u ≫= ret_value.

Definition usys_pipe (fds : Z) (u : tf_t) : M k_state (Z * tf_t) := int_syscall SYS_pipe [fds] u ≫= ret_status.
Definition usys_close (fd : Z) (u : tf_t) : M k_state (Z * tf_t) := int_syscall SYS_close [fd] u ≫= ret_status.
Definition usys_fstat (fd st : Z) (u : tf_t) : M k_state (Z * tf_t) := int_syscall SYS_stat [fd; st] u ≫= ret_status.

Definition usys_link (old new : Z) (u : tf_t) : M k_state (Z * tf_t) :=
  old_len ← user_strlen u old;
  new_len ← user_strlen u new;
  int_syscall SYS_link [old; new; old_len; new_len] u ≫= ret_status.

Definition usys_unlink (path : Z) (u : tf_t) : M k_state (Z * tf_t) :=
  len ← user_strlen u path; int_syscall SYS_unlink [path; len] u ≫= ret_status.

Definition usys_open (path omode : Z) (u : tf_t) : M k_state (Z * tf_t) :=
  len ← user_strlen u path; int_syscall SYS_open [path; omode; len] u ≫= ret_value.

Definition usys_mkdir (path : Z) (u : tf_t) : M k_state (Z * tf_t) :=
  len ← user_strlen u path; int_syscall SYS_mkdir [path; len] u ≫= ret_status.

Definition usys_is_dir (fd : Z) (u : tf_t) : M k_state (Z * tf_t) := int_syscall SYS_is_dir [fd] u ≫= ret_value.

Definition usys_chdir (path : Z) (u : tf_t) : M k_state (Z * tf_t) :=
  len ← user_strlen u path; int_syscall SYS_chdir [path; len] u ≫= ret_status.

Definition usys_ls (buf buf_len : Z) (u : tf_t) : M k_state (Z * tf_t) := int_syscall SYS_ls [buf; buf_len] u ≫= ret_value.
Definition usys_pwd (buf : Z) (u : tf_t) : M k_state (Z * tf_t) := int_syscall SYS_pwd [buf] u ≫= ret_status.

Definition usys_cp (path1 path2 path3 : Z) (u : tf_t) : M k_state (Z * tf_t) :=
  int_syscall SYS_cp [path1; path2; path3] u ≫= ret_status.
Definition usys_mv (u : tf_t) : M k_state (Z * tf_t) := int_syscall SYS_mv [] u ≫= ret_status.

Definition usys_rm (isRecursive path : Z) (u : tf_t) : M k_state (Z * tf_t) :=
  len ← user_strlen u path; int_syscall SYS_rm [path; len; isRecursive] u ≫= ret_status.

Definition usys_cat (u : tf_t) : M k_state (Z * tf_t) := int_syscall SYS_cat [] u ≫= ret_status.
Definition usys_touch (u : tf_t) : M k_state (Z * tf_t) := int_syscall SYS_touch [] u ≫= ret_status.

Definition usys_sigaction (signum act oldact : Z) (u : tf_t) : M k_state (Z * tf_t) :=
  int_syscall SYS_sigaction [signum; act; oldact] u ≫= ret_status.
Definition usys_kill (pid signum : Z) (u : tf_t) : M k_state (Z * tf_t) := int_syscall SYS_kill [pid; signum] u ≫= ret_status.
Definition usys_pause (u : tf_t) : M k_state (Z * tf_t) := int_syscall SYS_pause [] u ≫= ret_status.
Definition usys_exit (u : tf_t) : M k_state tf_t := int_syscall SYS_exit [] u.
Definition usys_waitpid (pid : Z) (u : tf_t) : M k_state tf_t := int_syscall SYS_waitpid [pid] u.

(** user/lib/proc.c and signal.c *)
Definition spawn (exec quota : Z) : tf_t → M k_state (Z * tf_t) := usys_spawn exec quota (-1) (-1).
Definition spawn_with_fds (exec quota stdin_fd stdout_fd : Z) : tf_t → M k_state (Z * tf_t) := usys_spawn exec quota stdin_fd stdout_fd.
Definition yield : tf_t → M k_state tf_t := usys_yield.
Definition produce : tf_t → M k_state tf_t := usys_produce.
Definition consume : tf_t → M k_state tf_t := usys_consume.
Definition sigaction_ (signum act oldact : Z) : tf_t → M k_state (Z * tf_t) := usys_sigaction signum act oldact.
Definition kill (pid signum : Z) : tf_t → M k_state (Z * tf_t) := usys_kill pid signum.
Definition pause : tf_t → M k_state (Z * tf_t) := usys_pause.
End Stubs.

(** ** From the stub to the handler *)

(** The table of handlers as [trap_init] leaves it. *)
Definition traps_ready (s : k_state) : Prop := TRAP_HANDLER s !! (cpu_idx, T_SYSCALL) = Some syscall_dispatch_cb.

Definition no_signal (s : k_state) (p : Z) : Prop := ∀ k, 1 <= k < NSIG → Z.testbit (pending_signals (sig_of s p)) k = false.

(** The state in which a handler starts, and the one in which the process goes on. *)
Definition kernel_side (s : k_state) : k_state := put (set_cr3 0 (kpt s)) s.
Definition user_side (p : Z) (s : k_state) : k_state :=
  let s := on_kstack p s in put (set_cr3 p (kpt s)) s.

Lemma register_all_run l s : Forall (λ e, 0 <= e.1 < 256) l →
  register_all cpu_idx l s = Ok () (upd_handlers (λ t, foldl (λ t e, <[(cpu_idx, e.1) := e.2]> t) t l) (trap_inited s) s).
Proof.
  revert s. induction l as [|[n cb] l IH]; intros s Hl; cbn [register_all foldl]; [by destruct s|]. apply Forall_cons in Hl as [Hn Hl]. cbn [fst snd] in *.
  rewrite (bind_Ok _ _ _ () (upd_handlers <[(cpu_idx, n) := cb]> (trap_inited s) s)); [by rewrite IH by exact Hl|].
  unfold trap_handler_register. rewrite (bool_decide_eq_true_2 (0 <= n < 256)) by exact Hn. reflexivity.
Qed.

Lemma trap_init_ready s : trap_inited s = false → ∃ s', trap_init cpu_idx s = Ok () s' ∧ traps_ready s' ∧ k_fs s' = k_fs s.
Proof.
  intros Hi. unfold trap_init. set (s1 := upd_handlers (λ _, ∅) true s). assert (trap_init_array s = Ok () s1) as Ha.
  { unfold trap_init_array. rewrite (bind_Ok _ _ _ _ _ (gets_Ok _ _)), Hi. reflexivity. }
  rewrite bool_decide_eq_true_2, (bind_Ok _ _ _ _ _ Ha) by reflexivity.
  rewrite register_all_run by (apply (bool_decide_unpack _); vm_compute; exact I). eexists. split; [reflexivity|]. split; [|reflexivity]. unfold traps_ready, s1. cbn [TRAP_HANDLER upd_handlers]. vm_compute. reflexivity.
Qed.

Lemma first_signal_none fuel w n : (∀ k, n <= k < n + Z.of_nat fuel → Z.testbit w k = false) → first_signal fuel w n = None.
Proof.
  revert n. induction fuel as [|fuel IH]; intros n Hk; [done|]. cbn [first_signal]. rewrite Hk by lia. apply IH. intros k Hkk. apply Hk. lia.
Qed.

Section Path.
Context (elf_image : Z → Z) (proc_start_user_addr : Z) (g : stack).

Lemma trap_tail_quiet s p tf : current s = p → 1 <= p < NUM_IDS → no_signal s p → trap_tail p tf s = Ok tf (user_side p s).
Proof.
  intros Hc Hp Hq. unfold trap_tail. rewrite (bind_Ok _ _ _ _ _ (kstack_switch_on p s)). set (s0 := on_kstack p s).
  assert (0 <= p < NUM_IDS) as Hp0 by lia. assert (handle_pending_signals tf s0 = Ok tf s0) as Hh.
  { unfold handle_pending_signals. rewrite (bind_Ok _ _ _ _ _ (curid_run s0)). change (current s0) with (current s). rewrite Hc.
    rewrite (bind_Ok _ _ _ _ _ (ktcb_read (λ t, pending_signals (sigstate t)) s0 p Hp0)).
    change (kblk s0 p) with (kblk s p). fold (sig_of s p). rewrite first_signal_none; [reflexivity|]. intros k Hk. apply Hq. unfold NSIG. lia. }
  rewrite (bind_Ok _ _ _ _ _ Hh). assert (zoom (set_pdir_base p) s0 = Ok () (user_side p s)) as Hb.
  { apply (zoom_Ok (S:=k_state)). unfold set_pdir_base. by rewrite bool_decide_eq_true_2 by lia. }
  by rewrite (bind_Ok _ _ _ _ _ Hb).
Qed.

(** A call reaches its handler with the arguments in its frame, and the process goes on with
    what the handler left there. *)
Lemma int_syscall_run s p u nr args tf s1 : let u1 := load_regs nr args u in
  current s = p → 1 <= p < NUM_IDS → traps_ready s →
  syscall_dispatch elf_image proc_start_user_addr g (with_trap T_SYSCALL 0 u1) (kernel_side s) = Ok tf s1 →
  current s1 = p → no_signal s1 p → eip tf = eip u → esp tf = esp u →
  int_syscall elf_image proc_start_user_addr g nr args u s = Ok tf (user_side p s1).
Proof.
  intros u1 Hc Hp Ht Hd Hc1 Hq He Hs. unfold int_syscall. fold u1. unfold trap.
  assert (zoom (set_pdir_base 0) s = Ok () (kernel_side s)) as Hb by (by apply (zoom_Ok (S:=k_state))).
  rewrite (bind_Ok _ _ _ tf (user_side p s1)).
  - unfold resume. change (eip u1) with (eip u). change (esp u1) with (esp u). rewrite He, Hs, !bool_decide_eq_true_2 by reflexivity. reflexivity.
  - rewrite (bind_Ok _ _ _ _ _ (curid_run s)), Hc, (bind_Ok _ _ _ _ _ Hb). change (trapno (with_trap T_SYSCALL 0 u1)) with T_SYSCALL.
    rewrite bool_decide_eq_true_2 by (unfold T_SYSCALL; lia). rewrite (bind_Ok _ _ _ _ _ (gets_Ok _ _)). change (TRAP_HANDLER (kernel_side s)) with (TRAP_HANDLER s).
    rewrite Ht. cbn [run_cb]. rewrite (bind_Ok _ _ _ _ _ Hd). by apply trap_tail_quiet.
Qed.

(** ** Pipes between processes *)

Lemma uregion_cr3 c p lo hi q : uregion c p lo hi → uregion (set_cr3 q c) p lo hi.
Proof. intros [H1 H2 H3 H4 H5]. split; [by apply set_cr3_wf|done|done|done|exact H5]. Qed.

Lemma sched_user_side p s a : sched_rep (kth s) a → sched_rep (kth (user_side p s)) a.
Proof. intros H. unfold user_side. by apply sched_rep_put_pt. Qed.

Lemma rw_args_load nr fd va n u : 0 <= fd < NOFILE → is_u32 va → 0 <= n < 2 ^ 31 →
  rw_args (with_trap T_SYSCALL 0 (load_regs nr [fd; va; n] u)) fd va n.
Proof.
  intros Hf Hv Hn. unfold NOFILE in Hf. unfold rw_args, syscall_get_arg2, syscall_get_arg3, syscall_get_arg4. cbn. change (2 ^ 31) with 2147483648 in Hn.
  rewrite !u32_small, s32_small by (unfold is_u32, is_s32, W32 in *; lia). done.
Qed.

Lemma succeeds_value n u : 0 <= n < 2 ^ 31 → ret_value (succeeds n u) = mret (n, succeeds n u).
Proof.
  intros Hn. unfold ret_value. change (eax (regs (succeeds n u))) with 0. change (ebx (regs (succeeds n u))) with (u32 n).
  rewrite bool_decide_eq_true_2 by reflexivity. change (2 ^ 31) with 2147483648 in Hn. by rewrite u32_small, s32_small by (unfold is_u32, is_s32, W32; lia).
Qed.

Lemma no_signal_own s s' p : (∀ q, own_data (kblk s' q) = own_data (kblk s q)) → no_signal s p → no_signal s' p.
Proof. intros H Hq k Hk. specialize (H p). unfold own_data in H. injection H as _ _ E. unfold sig_of. rewrite E. by apply Hq. Qed.

Lemma uregion_bounds c p va n : uregion c p va (va + n) → 0 <= n → is_u32 va.
Proof. intros [_ _ H1 H2 _] Hn. change VM_USERLO with 1073741824 in H1. change VM_USERHI with 4026531840 in H2. unfold is_u32, W32. lia. Qed.

Lemma usys_write_run s a p fd va n k q u :
  current s = p → traps_ready s → no_signal s p → sched_rep (kth s) a → pc_lock (k_fs s) = spinlock_init →
  uregion (kpt s) p va (va + n) → 0 <= n → pipe_end s p fd k true →
  ring (plook (k_fs s) k) q → (length q + Z.to_nat n <= 512)%nat →
  ∃ s1 u1, usys_write elf_image proc_start_user_addr g fd va n u s = Ok (n, u1) s1 ∧ eip u1 = eip u ∧ esp u1 = esp u ∧
    ring (plook (k_fs s1) k) (q ++ ubytes (kpt s) p va n) ∧ sched_rep (kth s1) (a_wakeup (ChNread k) a) ∧
    kpt s1 = set_cr3 p (kpt s) ∧ pipe_frame s s1.
Proof.
  intros Hc Ht Hq Hsr Hlk Hreg Hn He Hr Hl. pose proof (ur_pid _ _ _ _ Hreg) as Hp. pose proof (uregion_bounds _ _ _ _ Hreg Hn) as Hv. pose proof He as (Hfd & _).
  set (u1 := load_regs SYS_write [fd; va; n] u). set (tf := with_trap T_SYSCALL 0 u1).
  destruct (sys_write_pipe (kernel_side s) a tf p fd va n k q Hc) as (s1 & R & Hr1 & Hs1 & Hk1 & Hf);
    [exact (sched_rep_put_pt s _ a Hsr)|exact Hlk|apply rw_args_load; [exact Hfd|exact Hv|lia]|exact (uregion_cr3 _ _ _ _ 0 Hreg)|exact Hn|exact He|exact Hr|exact Hl|].
  pose proof Hf as (F1 & F2 & F3 & F5 & F4). exists (user_side p s1), (succeeds n tf).
  assert (current s1 = p) as Hc1 by (rewrite F1; exact Hc).
  pose proof (int_syscall_run s p u SYS_write [fd; va; n] (succeeds n tf) s1 Hc Hp Ht R Hc1 (no_signal_own _ _ _ F4 Hq) eq_refl eq_refl) as Hrun.
  split; [unfold usys_write; rewrite (bind_Ok _ _ _ _ _ Hrun), succeeds_value by lia; reflexivity|]. split; [reflexivity|]. split; [reflexivity|].
  split; [exact Hr1|]. split; [by apply sched_user_side|]. split; [|by split_and!].
  change (kpt (user_side p s1)) with (set_cr3 p (kpt s1)). by rewrite Hk1.
Qed.

Lemma usys_read_run s a p fd va n k q u :
  current s = p → traps_ready s → no_signal s p → sched_rep (kth s) a → pc_lock (k_fs s) = spinlock_init →
  uregion (kpt s) p va (va + n) → 0 < n <= 4096 → pipe_end s p fd k false → ring (plook (k_fs s) k) q → q ≠ [] →
  let got := take (Z.to_nat n) q in
  ∃ s1 u1, usys_read elf_image proc_start_user_addr g fd va n u s = Ok (Z.of_nat (length got), u1) s1 ∧ eip u1 = eip u ∧ esp u1 = esp u ∧
    ubytes (kpt s1) p va (Z.of_nat (length got)) = got ∧ only_in (kpt s) p va (va + n) (kpt s1) ∧
    ring (plook (k_fs s1) k) (drop (Z.to_nat n) q) ∧ sched_rep (kth s1) (a_wakeup (ChNwrite k) a) ∧ pipe_frame s s1.
Proof.
  intros Hc Ht Hq Hsr Hlk Hreg Hn He Hr Hne got. pose proof (ur_pid _ _ _ _ Hreg) as Hp. pose proof (uregion_bounds _ _ _ _ Hreg ltac:(lia)) as Hv. pose proof He as (Hfd & _).
  set (u1 := load_regs SYS_read [fd; va; n] u). set (tf := with_trap T_SYSCALL 0 u1).
  destruct (sys_read_pipe (kernel_side s) a tf p fd va n k q Hc) as (s1 & R & Hb1 & Ho1 & Hr1 & Hs1 & Hf);
    [exact (sched_rep_put_pt s _ a Hsr)|exact Hlk|apply rw_args_load; [exact Hfd|exact Hv|lia]|exact (uregion_cr3 _ _ _ _ 0 Hreg)|exact Hn|exact He|exact Hr|exact Hne|].
  fold got in R, Hb1. pose proof Hf as (F1 & F2 & F3 & F5 & F4). exists (user_side p s1), (succeeds (Z.of_nat (length got)) tf).
  assert (current s1 = p) as Hc1 by (rewrite F1; exact Hc). assert (0 <= Z.of_nat (length got) < 2 ^ 31) as Hg by (unfold got; rewrite length_take; lia).
  pose proof (int_syscall_run s p u SYS_read [fd; va; n] _ s1 Hc Hp Ht R Hc1 (no_signal_own _ _ _ F4 Hq) eq_refl eq_refl) as Hrun.
  split; [unfold usys_read; rewrite (bind_Ok _ _ _ _ _ Hrun), succeeds_value by exact Hg; reflexivity|]. split; [reflexivity|]. split; [reflexivity|].
  split; [exact Hb1|]. split; [exact Ho1|]. split; [exact Hr1|]. split; [by apply sched_user_side|by split_and!].
Qed.

(** ** Arguments that are refused *)

(** A descriptor that is not one of the process, or a buffer that is not user memory or
    longer than a page. *)
Definition bad_rw (s : k_state) (p fd buf n : Z) : Prop :=
  ¬ 0 <= fd < NOFILE ∨ openfiles (kblk s p) !! fd = None ∨ ¬ user_range buf n ∨ n > 4096.

Lemma rw_file_bad s p tf fd buf n : rw_args tf fd buf n → 0 <= p < NUM_IDS → is_u32 n → is_u32 (buf + n) → bad_rw s p fd buf n →
  ∃ e, rw_file tf p s = Ok (inr e) s ∧ u32 e ≠ 0.
Proof.
  intros (Ha & Hb & Hc) Hp Hn Hbn Hbad. unfold rw_file. rewrite Ha, Hb, Hc, (u32_small (buf + n)) by done.
  destruct (bool_decide (fd < 0) || bool_decide (fd >= NOFILE) || bool_decide (n < 0)) eqn:E1; [by exists E_BADF|].
  destruct (bool_decide (buf < VM_USERLO) || bool_decide (buf + n > VM_USERHI) || bool_decide (n > 4096)) eqn:E2; [by exists E_INVAL_ADDR|].
  rewrite !orb_false_iff, !bool_decide_eq_false in E1, E2. destruct E1 as [[? ?] ?], E2 as [[? ?] ?].
  rewrite (bind_Ok _ _ _ _ _ (get_fd_run s p fd Hp ltac:(lia))). unfold bad_rw, user_range in Hbad.
  destruct Hbad as [?|[Hno|[?|?]]]; [lia| |lia..]. rewrite Hno. by exists E_BADF.
Qed.

Lemma sys_read_bad s p tf e : current s = p → rw_file tf p s = Ok (inr e) s → sys_read tf s = Ok (fails e tf) s.
Proof. intros Hc R. unfold sys_read. by rewrite (bind_Ok _ _ _ _ _ (curid_run s)), Hc, (bind_Ok _ _ _ _ _ R). Qed.

Lemma sys_write_bad s p tf e : current s = p → rw_file tf p s = Ok (inr e) s → sys_write tf s = Ok (fails e tf) s.
Proof. intros Hc R. unfold sys_write. by rewrite (bind_Ok _ _ _ _ _ (curid_run s)), Hc, (bind_Ok _ _ _ _ _ R). Qed.

Lemma s32_u32 x : s32 (u32 x) = s32 x.
Proof. unfold s32, u32. by rewrite Z.add_mod_idemp_l by done. Qed.

Lemma fails_value e u : u32 e ≠ 0 → ret_value (fails e u) = mret (-1, fails e u).
Proof. intros He. unfold ret_value. change (eax (regs (fails e u))) with (u32 e). by rewrite bool_decide_eq_false_2 by exact He. Qed.

Lemma dispatch_read args u : let tf := with_trap T_SYSCALL 0 (load_regs SYS_read args u) in
  syscall_dispatch elf_image proc_start_user_addr g tf = sys_read tf.
Proof. reflexivity. Qed.

Lemma dispatch_write args u : let tf := with_trap T_SYSCALL 0 (load_regs SYS_write args u) in
  syscall_dispatch elf_image proc_start_user_addr g tf = sys_write tf.
Proof. reflexivity. Qed.

Lemma rw_rejected s p fd buf n u : current s = p → 1 <= p < NUM_IDS → traps_ready s → no_signal s p →
  is_s32 fd → is_u32 buf → is_u32 n → is_u32 (buf + n) → bad_rw s p fd buf n →
  ∃ ur uw, usys_read elf_image proc_start_user_addr g fd buf n u s = Ok (-1, ur) (user_side p (kernel_side s)) ∧
    usys_write elf_image proc_start_user_addr g fd buf n u s = Ok (-1, uw) (user_side p (kernel_side s)).
Proof.
  intros Hc Hp Ht Hq Hfd Hbuf Hn Hbn Hbad.
  assert (∀ nr, rw_args (with_trap T_SYSCALL 0 (load_regs nr [fd; buf; n] u)) fd buf n) as Hargs.
  { intros nr. unfold rw_args, syscall_get_arg2, syscall_get_arg3, syscall_get_arg4. cbn. rewrite s32_u32, s32_small by exact Hfd.
    by rewrite !u32_small by assumption. }
  destruct (rw_file_bad (kernel_side s) p _ fd buf n (Hargs SYS_read) ltac:(lia) Hn Hbn Hbad) as (e & Re & He).
  destruct (rw_file_bad (kernel_side s) p _ fd buf n (Hargs SYS_write) ltac:(lia) Hn Hbn Hbad) as (e2 & Rw & Hw).
  pose proof (sys_read_bad (kernel_side s) p _ e Hc Re) as Dr. rewrite <- dispatch_read in Dr.
  pose proof (sys_write_bad (kernel_side s) p _ e2 Hc Rw) as Dw. rewrite <- dispatch_write in Dw.
  pose proof (int_syscall_run s p u SYS_read [fd; buf; n] _ (kernel_side s) Hc Hp Ht Dr Hc Hq eq_refl eq_refl) as H1.
  pose proof (int_syscall_run s p u SYS_write [fd; buf; n] _ (kernel_side s) Hc Hp Ht Dw Hc Hq eq_refl eq_refl) as H2.
  eexists _, _. unfold usys_read, usys_write. rewrite (bind_Ok _ _ _ _ _ H1), (bind_Ok _ _ _ _ _ H2), !fails_value by assumption.
  split; exact (ret_Ok _ _).
Qed.

(** C9: bytes travel through a pipe between processes.  When a process calls [sys_write] on the
    writing end of a pipe with room for its [n] bytes, the call goes through the trap and the
    kernel and returns [n] to the instruction behind it; the bytes are appended to the pipe,
    readers are woken, and no memory, descriptor or open file changes.  In any later state in
    which nobody touched the pipe, and whichever process then runs, a call of [sys_read] for
    up to [m] bytes returns the number of bytes it got, which are the oldest of the pipe and
    are now in the buffer of that process; no other byte of any process changes. *)
Theorem user_pipe_transfer s a p fd va n k q u :
  current s = p → traps_ready s → no_signal s p → sched_rep (kth s) a → pc_lock (k_fs s) = spinlock_init →
  uregion (kpt s) p va (va + n) → 0 < n → pipe_end s p fd k true →
  ring (plook (k_fs s) k) q → (length q + Z.to_nat n <= 512)%nat →
  ∃ s1 u1, usys_write elf_image proc_start_user_addr g fd va n u s = Ok (n, u1) s1 ∧ eip u1 = eip u ∧ esp u1 = esp u ∧
    kpt s1 = set_cr3 p (kpt s) ∧ sched_rep (kth s1) (a_wakeup (ChNread k) a) ∧ pipe_frame s s1 ∧
    ∀ s2 a2 r fd2 vb m u2, plook (k_fs s2) k = plook (k_fs s1) k →
      current s2 = r → traps_ready s2 → no_signal s2 r → sched_rep (kth s2) a2 → pc_lock (k_fs s2) = spinlock_init →
      uregion (kpt s2) r vb (vb + m) → 0 < m <= 4096 → pipe_end s2 r fd2 k false →
      let got := take (Z.to_nat m) (q ++ ubytes (kpt s) p va n) in
      ∃ s3 u3, usys_read elf_image proc_start_user_addr g fd2 vb m u2 s2 = Ok (Z.of_nat (length got), u3) s3 ∧ eip u3 = eip u2 ∧ esp u3 = esp u2 ∧
        ubytes (kpt s3) r vb (Z.of_nat (length got)) = got ∧ only_in (kpt s2) r vb (vb + m) (kpt s3) ∧
        ring (plook (k_fs s3) k) (drop (Z.to_nat m) (q ++ ubytes (kpt s) p va n)).
Proof.
  intros Hc Ht Hq Hsr Hlk Hreg Hn He Hr Hl.
  destruct (usys_write_run s a p fd va n k q u Hc Ht Hq Hsr Hlk Hreg ltac:(lia) He Hr Hl) as (s1 & u1 & R & Hei & Hes & Hr1 & Hs1 & Hk1 & Hf).
  exists s1, u1. split; [exact R|]. clear R. split; [exact Hei|]. split; [exact Hes|]. split; [exact Hk1|]. split; [exact Hs1|]. split; [exact Hf|].
  intros s2 a2 r fd2 vb m u2 Hsame Hc2 Ht2 Hq2 Hsr2 Hlk2 Hreg2 Hm He2 got. rewrite <- Hsame in Hr1.
  destruct (usys_read_run s2 a2 r fd2 vb m k _ u2 Hc2 Ht2 Hq2 Hsr2 Hlk2 Hreg2 Hm He2 Hr1) as (s3 & u3 & R & H1 & H2 & H3 & H4 & H5 & _).
  { intros E. apply (f_equal length) in E. rewrite length_app, ubytes_length in E by lia. simpl in E. lia. }
  exists s3, u3. split; [exact R|]. clear R. split; [exact H1|]. split; [exact H2|]. split; [exact H3|]. split; [exact H4|exact H5].
Qed.

(** C24: Bad arguments are refused without effect.  A process that calls [sys_read] or
    [sys_write] with a descriptor out of range or not open, or with a buffer that is not inside user
    memory or longer than a page, and that does not run over the end of the address space,
    gets -1; the kernel, the memory of every process, the files
    and the pipes are as before, apart from the stack for the next trap. *)
Theorem user_rw_rejects s p fd buf n u : current s = p → 1 <= p < NUM_IDS → traps_ready s → no_signal s p →
  is_s32 fd → is_u32 buf → is_u32 n → is_u32 (buf + n) → bad_rw s p fd buf n →
  ∃ ur uw, let s' := on_kstack p (put (set_cr3 p (kpt s)) s) in
    usys_read elf_image proc_start_user_addr g fd buf n u s = Ok (-1, ur) s' ∧
    usys_write elf_image proc_start_user_addr g fd buf n u s = Ok (-1, uw) s'.
Proof.
  intros Hc Hp Ht Hq Hfd Hbuf Hn Hbn Hbad. destruct (rw_rejected s p fd buf n u Hc Hp Ht Hq Hfd Hbuf Hn Hbn Hbad) as (ur & uw & R1 & R2).
  exists ur, uw. split; [exact R1|exact R2].
Qed.
End Path.

(** ** One process that writes to itself *)

Definition no_stack : stack := {| stk_path := []; stk_path2 := []; stk_name := []; stk_act := []; stk_arr := []; stk_word := 0 |}.

Definition ready_rw (c : pt_state) : k_state := upd_handlers (λ _, {[ (cpu_idx, T_SYSCALL) := syscall_dispatch_cb ]}) true (sample_rw c).

Lemma ready_quiet c : no_signal (ready_rw c) 1.
Proof. intros k Hk. apply Z.testbit_0_l. Qed.

Lemma ready_end c (wr : bool) : pipe_end (ready_rw c) 1 (if wr then 1 else 0) 0 wr.
Proof.
  split; [destruct wr; done|]. split; [done|]. exists (if wr then 1 else 0). destruct wr; (split; [reflexivity|]); (split; [done|]); (split; [reflexivity|]); by split.
Qed.

Lemma ready_ring : ring (with_ends 2 1 1 pipe_zero) [].
Proof. split; simpl; [done|done|lia|done]. Qed.

(** Process 1 writes five bytes into its pipe and reads three of them back. *)
Lemma user_pipe_transfer_witness : ∃ c s1 u1 s3 u3,
  usys_write (λ _, 0) 0 no_stack 1 1073741900 5 tf_zero (ready_rw c) = Ok (5, u1) s1 ∧
  usys_read (λ _, 0) 0 no_stack 0 1073742000 3 u1 s1 = Ok (3, u3) s3 ∧
  ubytes (kpt s3) 1 1073742000 3 = take 3 (ubytes c 1 1073741900 5).
Proof.
  destruct sample_present as (c & Hwf & _ & _ & Hpr). exists c.
  destruct (user_pipe_transfer (λ _, 0) 0 no_stack (ready_rw c) one_a 1 1 1073741900 5 0 [] tf_zero)
    as (s1 & u1 & H1 & _ & _ & Hpt & Hs1 & Hf & H2);
    [reflexivity|reflexivity|apply ready_quiet|exact (sample_rw_rep c)|reflexivity|exact (sample_rw_region c 1073741900 5 Hwf Hpr ltac:(lia) ltac:(lia))|lia|
     exact (ready_end c true)|exact ready_ring|simpl; lia|].
  pose proof Hf as (F1 & F2 & F3 & F4 & F5).
  destruct (H2 s1 (a_wakeup (ChNread 0) one_a) 1 0 1073742000 3 u1) as (s3 & u3 & H3 & _ & _ & H4 & _ & _);
    [reflexivity|exact F1|unfold traps_ready; rewrite F4; reflexivity|apply (no_signal_own _ _ _ F5); apply ready_quiet|exact Hs1|exact F3|
     rewrite Hpt; apply uregion_cr3; exact (sample_rw_region c 1073742000 3 Hwf Hpr ltac:(lia) ltac:(lia))|lia| |].
  { exact (pipe_end_frame _ _ _ _ _ _ Hf (ready_end c false)). }
  exists s1, u1, s3, u3. split; [exact H1|]. split; [exact H3|exact H4].
Defined.

(** A buffer over the end of the address space passes the test of [sys_read] and
    [sys_write]: it is computed modulo 2^32. *)
Example wrapped_buffer_passes c : ¬ user_range 4294967280 64 ∧
  match rw_file (load_regs SYS_read [0; 4294967280; 64] tf_zero) 1 (ready_rw c) with Ok (inl f) _ => f = 0 | _ => False end.
Proof. split; [intros [_ H]; by vm_compute in H|vm_compute; reflexivity]. Qed.

(** Descriptor 7 is not open. *)
Lemma user_rw_rejects_witness : ∃ c ur uw, let s' := on_kstack 1 (put (set_cr3 1 c) (ready_rw c)) in
  usys_read (λ _, 0) 0 no_stack 7 1073741900 5 tf_zero (ready_rw c) = Ok (-1, ur) s' ∧
  usys_write (λ _, 0) 0 no_stack 7 1073741900 5 tf_zero (ready_rw c) = Ok (-1, uw) s'.
Proof.
  destruct sample_present as (c & _). exists c.
  apply (user_rw_rejects (λ _, 0) 0 no_stack (ready_rw c) 1 7 1073741900 5 tf_zero);
    [reflexivity|done|reflexivity|apply ready_quiet|done|done|done|done|]. right. left. reflexivity.
Defined.
