(* ===== verification/FdRefs.v ===== *)
(** * Descriptors and open files

    The count of an open file (kern/fs/file.c) is the number of descriptors that refer to
    it, over the tables of all processes.  The count is kept by [file_alloc], [file_dup]
    and [file_close], the tables by the system calls of kern/fs/sysfile.c and by
    [sys_spawn] and [sys_exit] of kern/trap/TSyscall/TSyscall.c; each of these calls
    passes through states in which the two disagree, which an offset per file accounts for.
    Every trap that returns restores the agreement. *)

From S2P Require Import Prelude Spinlock Mboot PMem Container PageTable TCB TQueue Thread Sched.
From S2P Require Import UserCopy CString BufCache Log Inode Path File Ipc TrapFrame Sysfile Syscall Trap Signal PipeCall UserCalls Keeps.

(** ** The invariant *)

(** Every descriptor of every process. *)
Definition slots : list (Z * Z) := seqZ 0 NUM_IDS ≫= λ p, pair p <$> seqZ 0 NOFILE.

(** The number of descriptors that refer to the file [f]. *)
Definition refs (T : Z → traits) (f : Z) : Z :=
  Z.of_nat (length (filter (λ x : Z * Z, t_fds (T x.1) !! x.2 = Some f) slots)).

(** A descriptor is a slot of the table of a process that was created, and refers to an
    entry of the table of files; the count of a file is that of its descriptors, plus the
    offset; a free entry has no kind. *)
Record fd_inv (D : Z → Z) (T : Z → traits) : Prop := {
  fi_range p fd f : t_fds (T p) !! fd = Some f → 0 <= p < NUM_IDS ∧ 0 <= fd < NOFILE ∧ 0 <= f < NFILE ∧ t_used (T p) ≠ 0;
  fi_refs f : 0 <= f < NFILE → t_ref (T f) = refs T f + D f;
  fi_free f : 0 <= f < NFILE → t_ref (T f) = 0 → t_kind (T f) = FD_NONE
}.

(** The children of a container are created in the order of their slots. *)
Record tree_inv (T : Z → traits) : Prop := {
  ti_kids id : 0 <= id < NUM_IDS → 0 <= t_kids (T id) <= MAX_CHILDREN;
  ti_unused id : 0 <= id < NUM_IDS → t_used (T id) = 0 → t_kids (T id) = 0;
  ti_next id k : 0 <= id < NUM_IDS → t_kids (T id) <= k < MAX_CHILDREN → t_used (T (child_slot id k)) = 0
}.

Definition fdok {S} `{Traits S} (D : Z → Z) (s : S) : Prop := fd_inv D (traits_of s) ∧ tree_inv (traits_of s).

Definition bump (f k : Z) (D : Z → Z) : Z → Z := λ x, D x + if decide (x = f) then k else 0.

(** ** Counting *)

Lemma elem_of_slots p fd : (p, fd) ∈ slots ↔ 0 <= p < NUM_IDS ∧ 0 <= fd < NOFILE.
Proof.
  unfold slots. rewrite list_elem_of_bind. split.
  - intros (q & (x & [= -> ->] & Hx)%list_elem_of_fmap & Hq). apply elem_of_seqZ in Hx, Hq. lia.
  - intros [Hp Hf]. exists p. split; [|apply elem_of_seqZ; lia]. apply list_elem_of_fmap. exists fd. split; [done|]. apply elem_of_seqZ. lia.
Qed.

Lemma NoDup_slots : NoDup slots.
Proof.
  unfold slots. apply NoDup_bind; [|intros p _; apply (NoDup_fmap_2 _); apply NoDup_seqZ|apply NoDup_seqZ].
  intros p q x _ _ (y & -> & _)%list_elem_of_fmap (z & [= <- _] & _)%list_elem_of_fmap. done.
Qed.
#[global] Opaque slots.

Lemma refs_ext T T' f : (∀ p, t_fds (T p) = t_fds (T' p)) → refs T f = refs T' f.
Proof. intros H. unfold refs. do 2 f_equal. apply list_filter_iff. intros [p fd]. simpl. by rewrite H. Qed.

Lemma refs_none T f : (∀ p fd, t_fds (T p) !! fd ≠ Some f) → refs T f = 0.
Proof.
  intros H. unfold refs. destruct (filter _ slots) as [|x l] eqn:E; [done|].
  assert (x ∈ x :: l) as Hx by apply list_elem_of_here. rewrite <- E in Hx. apply list_elem_of_filter in Hx as [Hx _]. by apply H in Hx.
Qed.

Lemma refs_nonneg T f : 0 <= refs T f.
Proof. unfold refs. lia. Qed.

Lemma refs_pos D T p fd f : fd_inv D T → t_fds (T p) !! fd = Some f → 1 <= refs T f.
Proof.
  intros HI H. destruct (fi_range _ _ HI _ _ _ H) as (Hp & Hfd & _). unfold refs.
  assert ((p, fd) ∈ filter (λ x : Z * Z, t_fds (T x.1) !! x.2 = Some f) slots) as Hin by (apply list_elem_of_filter; split; [exact H|by apply elem_of_slots]).
  destruct (filter _ slots); [by apply not_elem_of_nil in Hin|]. simpl. lia.
Qed.

(** ** Changes of the tables *)

Definition set_file (f r : Z) (k : file_type) (T : Z → traits) : Z → traits := λ q,
  if decide (q = f) then {| t_fds := t_fds (T q); t_used := t_used (T q); t_kids := t_kids (T q); t_ref := r; t_kind := k; t_cur := t_cur (T q) |}
  else T q.

Definition put_fd (p fd : Z) (x : option Z) (T : Z → traits) : Z → traits := λ q,
  if decide (q = p) then {| t_fds := partial_alter (λ _, x) fd (t_fds (T q)); t_used := t_used (T q); t_kids := t_kids (T q);
    t_ref := t_ref (T q); t_kind := t_kind (T q); t_cur := t_cur (T q) |}
  else T q.

(** The process [c] becomes a child of [p]. *)
Definition add_child (p c : Z) (T : Z → traits) : Z → traits := λ q,
  if decide (q = c) then {| t_fds := t_fds (T q); t_used := 1; t_kids := 0; t_ref := t_ref (T q); t_kind := t_kind (T q); t_cur := t_cur (T q) |}
  else if decide (q = p) then {| t_fds := t_fds (T q); t_used := t_used (T q); t_kids := t_kids (T q) + 1; t_ref := t_ref (T q);
    t_kind := t_kind (T q); t_cur := t_cur (T q) |}
  else T q.

Definition agree (T T' : Z → traits) : Prop := ∀ q, T' q = T q.

Lemma fd_inv_ext D D' T T' : agree T T' → (∀ f, D' f = D f) → fd_inv D T → fd_inv D' T'.
Proof.
  intros HT HD [H1 H2 H3]. split.
  - intros p fd f. rewrite !HT. apply H1.
  - intros f Hf. rewrite HT, HD, (H2 f Hf). f_equal. apply refs_ext. intros p. by rewrite HT.
  - intros f. rewrite HT. apply H3.
Qed.

Lemma tree_inv_ext T T' : (∀ q, t_used (T' q) = t_used (T q) ∧ t_kids (T' q) = t_kids (T q)) → tree_inv T → tree_inv T'.
Proof.
  intros HT [H1 H2 H3]. split; intros id.
  - destruct (HT id) as [_ ->]. apply H1.
  - destruct (HT id) as [-> ->]. apply H2.
  - intros k. destruct (HT id) as [_ ->]. destruct (HT (child_slot id k)) as [-> _]. apply H3.
Qed.

Lemma set_file_fields f r k T q : t_fds (set_file f r k T q) = t_fds (T q) ∧ t_used (set_file f r k T q) = t_used (T q) ∧
  t_kids (set_file f r k T q) = t_kids (T q).
Proof. unfold set_file. by case_decide. Qed.

Lemma fd_inv_file D T f r k : fd_inv D T → (r = 0 → k = FD_NONE) → fd_inv (bump f (r - t_ref (T f)) D) (set_file f r k T).
Proof.
  intros [H1 H2 H3] Hk. split.
  - intros p fd g. destruct (set_file_fields f r k T p) as (-> & -> & _). apply H1.
  - intros g Hg. rewrite (refs_ext _ T) by (intros p; apply set_file_fields). unfold set_file, bump. specialize (H2 g Hg).
    case_decide as E; simpl; [subst g|]; lia.
  - intros g Hg. unfold set_file. case_decide; simpl; [exact Hk|by apply H3].
Qed.

Definition hits (x : option Z) (g : Z) : Z := if decide (x = Some g) then 1 else 0.

Lemma refs_put p fd x T g : 0 <= p < NUM_IDS → 0 <= fd < NOFILE →
  refs (put_fd p fd x T) g = refs T g + hits x g - hits (t_fds (T p) !! fd) g.
Proof.
  intros Hp Hfd. unfold refs.
  pose proof (filter_upd_length (λ y : Z * Z, t_fds (T y.1) !! y.2 = Some g) (λ y : Z * Z, t_fds (put_fd p fd x T y.1) !! y.2 = Some g)
    slots (p, fd) NoDup_slots (proj2 (elem_of_slots p fd) (conj Hp Hfd))) as H.
  simpl in H. assert (t_fds (put_fd p fd x T p) !! fd = x) as Hx.
  { unfold put_fd. rewrite decide_True by done. simpl. apply lookup_partial_alter_eq. }
  rewrite Hx in H. unfold hits. enough (∀ y : Z * Z, y ≠ (p, fd) → t_fds (T y.1) !! y.2 = Some g ↔ t_fds (put_fd p fd x T y.1) !! y.2 = Some g) as He.
  { specialize (H He). repeat case_decide; lia. }
  intros [q fd'] Hne. clear H. unfold put_fd. simpl. case_decide; [|reflexivity]. subst q. simpl. rewrite lookup_partial_alter_ne by (intros ->; by apply Hne). reflexivity.
Qed.

Lemma fd_inv_put D D' T p fd x : fd_inv D T → 0 <= p < NUM_IDS → 0 <= fd < NOFILE →
  (∀ f, x = Some f → 0 <= f < NFILE ∧ t_used (T p) ≠ 0) →
  (∀ g, D' g = D g - hits x g + hits (t_fds (T p) !! fd) g) → fd_inv D' (put_fd p fd x T).
Proof.
  intros [H1 H2 H3] Hp Hfd Hx HD. split.
  - intros q fd' g Hg. unfold put_fd in Hg |- *. case_decide as E; [|by apply H1]. subst q. simpl in Hg |- *.
    rewrite lookup_partial_alter in Hg. case_decide as Ef; [|by apply H1]. subst fd'. specialize (Hx g Hg). tauto.
  - intros g Hg. rewrite refs_put by done. rewrite HD. specialize (H2 g Hg). unfold put_fd. case_decide; simpl; lia.
  - intros g Hg. unfold put_fd. case_decide; simpl; by apply H3.
Qed.

Lemma put_fd_tree p fd x T : tree_inv T → tree_inv (put_fd p fd x T).
Proof. apply tree_inv_ext. intros q. unfold put_fd. by case_decide. Qed.

Lemma set_file_tree f r k T : tree_inv T → tree_inv (set_file f r k T).
Proof. apply tree_inv_ext. intros q. destruct (set_file_fields f r k T q) as (_ & -> & ->). done. Qed.

Lemma add_child_next T p id k : let c := child_slot p (t_kids (T p)) in
  tree_inv T → 0 <= p < NUM_IDS → 0 <= id < NUM_IDS → t_kids (T p) ≠ MAX_CHILDREN → c < NUM_IDS → t_kids (add_child p c T id) <= k < MAX_CHILDREN →
  t_used (add_child p c T (child_slot id k)) = 0.
Proof.
  intros c HT Hp Hid Hk Hc Hkk. pose proof (ti_kids _ HT p Hp) as Hkb.
  assert (t_used (T c) = 0) as Huc by (apply (ti_next _ HT); lia).
  assert (p < c) as Hcp by (unfold c, child_slot, MAX_CHILDREN; lia).
  assert (t_kids (T id) <= k ∧ 0 <= k ∧ child_slot id k ≠ c) as (Hkid & Hk0 & Hne).
  { pose proof (ti_kids _ HT id Hid) as Hki. unfold add_child in Hkk. case_decide as E1; simpl in Hkk.
    - subst id. split_and!; [rewrite (ti_unused _ HT c); lia|lia|]. pose proof (child_slot_pos c k). lia.
    - case_decide as E2; simpl in Hkk; [subst id; split_and!; try lia; unfold c, child_slot; lia|].
      split_and!; try lia. unfold c, child_slot, MAX_CHILDREN in *. lia. }
  unfold add_child. rewrite decide_False by done. pose proof (ti_next _ HT id k Hid (conj Hkid (proj2 Hkk))). case_decide; [subst; simpl|]; done.
Qed.

Lemma add_child_inv D T p : let c := child_slot p (t_kids (T p)) in
  fd_inv D T → tree_inv T → 0 <= p < NUM_IDS → t_used (T p) ≠ 0 → t_kids (T p) ≠ MAX_CHILDREN → c < NUM_IDS →
  fd_inv D (add_child p c T) ∧ tree_inv (add_child p c T) ∧ t_fds (T c) = ∅.
Proof.
  intros c HI HT Hp Hu Hk Hc. pose proof (ti_kids _ HT p Hp) as Hkb.
  assert (t_used (T c) = 0) as Huc by (apply (ti_next _ HT); lia).
  assert (c ≠ p ∧ 0 <= c) as [Hcp Hc0] by (unfold c, child_slot, MAX_CHILDREN; lia).
  assert (∀ q, t_fds (add_child p c T q) = t_fds (T q) ∧ t_ref (add_child p c T q) = t_ref (T q) ∧ t_kind (add_child p c T q) = t_kind (T q)) as Hf.
  { intros q. unfold add_child. by repeat case_decide. }
  split_and!.
  - destruct HI as [H1 H2 H3]. split.
    + intros q fd f. destruct (Hf q) as (-> & _). intros H. destruct (H1 _ _ _ H) as (? & ? & ? & ?). split_and!; try lia.
      unfold add_child. repeat case_decide; simpl; [lia|done..].
    + intros f H. destruct (Hf f) as (_ & -> & _). rewrite (refs_ext _ T) by (intros; apply Hf). by apply H2.
    + intros f. destruct (Hf f) as (_ & -> & ->). apply H3.
  - split; [intros id Hid; unfold add_child..|].
    + pose proof (ti_kids _ HT id Hid). repeat case_decide; subst; simpl; unfold MAX_CHILDREN in *; lia.
    + pose proof (ti_unused _ HT id Hid). repeat case_decide; subst; simpl; try lia; try done.
    + intros id k Hid Hkk. by apply add_child_next.
  - apply map_eq. intros fd. rewrite lookup_empty. destruct (t_fds (T c) !! fd) as [f|] eqn:E; [|done].
    destruct (fi_range _ _ HI _ _ _ E) as (_ & _ & _ & H). done.
Qed.

(** ** The operations on files *)

Lemma fset_agree f v s a s' : fset f v s = Ok a s' → 0 <= f < NFILE ∧ agree (set_file f (f_ref v) (f_type v) (traits_of s)) (traits_of s').
Proof.
  intros E. unfold fset, aset in E. case_bool_decide as Hf; [|done]. injection E as _ <-. split; [exact Hf|]. intros q.
  unfold set_file, traits_of, fs_traits. simpl. rewrite alook_insert. case_decide as E1; case_decide; try congruence; done.
Qed.

Lemma fget_inv f s v s' : fget f s = Ok v s' → s' = s ∧ v = alook file_zero (ftable s) f.
Proof. intros E. unfold fget, aget in E. case_bool_decide; [|done]. by injection E as <- <-. Qed.

Lemma fdok_same {S} `{Traits S} D (s s' : S) : same s s' → fdok D s → fdok D s'.
Proof.
  intros Hs [H1 H2]. split; [by apply (fd_inv_ext D _ (traits_of s))|]. apply (tree_inv_ext (traits_of s)); [|exact H2].
  intros q. by rewrite (Hs q).
Qed.

Lemma fdok_ext {S} `{Traits S} D D' (s : S) : (∀ f, D' f = D f) → fdok D s → fdok D' s.
Proof. intros HD [H1 H2]. split; [|exact H2]. by apply (fd_inv_ext D _ (traits_of s)). Qed.

(** The tables of descriptors and the containers are as before. *)
Definition procs {S} `{Traits S} (s s' : S) : Prop :=
  ∀ q, t_fds (traits_of s' q) = t_fds (traits_of s q) ∧ t_used (traits_of s' q) = t_used (traits_of s q) ∧ t_cur (traits_of s' q) = t_cur (traits_of s q).

Lemma procs_same {S} `{Traits S} (s s' : S) : same s s' → procs s s'.
Proof. intros Hs q. by rewrite (Hs q). Qed.

Lemma fdok_agree {S} `{Traits S} D f r k (s s' : S) : agree (set_file f r k (traits_of s)) (traits_of s') → (r = 0 → k = FD_NONE) → fdok D s →
  fdok (bump f (r - t_ref (traits_of s f)) D) s' ∧ procs s s'.
Proof.
  intros HT Hk [H1 H2]. split.
  - split; [apply (fd_inv_ext _ _ _ _ HT (λ _, eq_refl)); by apply fd_inv_file|].
    apply (tree_inv_ext (set_file f r k (traits_of s))); [|by apply set_file_tree]. intros q. by rewrite (HT q).
  - intros q. rewrite (HT q). unfold set_file. by case_decide.
Qed.

Lemma fdok_fset D f v s a s' : fset f v s = Ok a s' → (f_ref v = 0 → f_type v = FD_NONE) → fdok D s →
  fdok (bump f (f_ref v - t_ref (traits_of s f)) D) s' ∧ procs s s' ∧ 0 <= f < NFILE.
Proof. intros E Hk HD. apply fset_agree in E as [Hf HT]. destruct (fdok_agree D _ _ _ _ _ HT Hk HD). done. Qed.

Lemma procs_trans {S} `{Traits S} (s1 s2 s3 : S) : procs s1 s2 → procs s2 s3 → procs s1 s3.
Proof. intros H1 H2 q. destruct (H1 q) as (<- & <- & <-). apply H2. Qed.

Lemma keeps_fdok {S A} `{Traits S} (m : M S A) D s a s' : m s = Ok a s' → keeps m → fdok D s → fdok D s' ∧ procs s s'.
Proof. intros E Hm HD. pose proof (Hm s a s' E) as Hs. split; [by apply (fdok_same _ s)|by apply procs_same]. Qed.

Lemma ffree_ref fuel t f0 f : ffree fuel t f0 = Some f → f_ref (alook file_zero t f) = 0.
Proof. revert f0. induction fuel as [|n IH]; intros f0; simpl; [done|]. case_bool_decide; [by intros [= <-]|apply IH]. Qed.

Lemma file_alloc_fdok D s r s' : fdok D s → file_alloc s = Ok r s' → procs s s' ∧
  match r with Some f => 0 <= f < NFILE ∧ t_ref (traits_of s' f) = 1 ∧ fdok (bump f 1 D) s' | None => fdok D s' end.
Proof.
  intros HD E. unfold file_alloc in E. apply bind_inv in E as (a & s1 & E1 & E).
  apply (keeps_fdok _ D) in E1 as [HD1 Hp1]; [|keep|exact HD].
  apply bind_inv in E as (t & s2 & E2 & E). injection E2 as <- <-. destruct (ffree _ _ _) as [f|] eqn:Hff.
  - apply bind_inv in E as (b & s2 & E2 & E). apply bind_inv in E2 as (v & s3 & [-> ->]%fget_inv & E3).
    destruct (fdok_fset D _ _ _ _ _ E3 ltac:(discriminate) HD1) as (HD2 & Hp2 & Hf).
    apply bind_inv in E as (c & s4 & E4 & E). apply (keeps_fdok _ _ _ _ _ E4 ltac:(keep)) in HD2 as [HD4 Hp4]. injection E as <- <-.
    split; [by apply (procs_trans _ s2), Hp4; apply (procs_trans _ s1)|]. split_and!; [lia..| |].
    { assert (keeps ft_release) as Hk by keep. rewrite (Hk _ _ _ E4 f). apply fset_agree in E3 as [_ HT]. rewrite (HT f). unfold set_file.
      by rewrite decide_True. }
    revert HD4. apply fdok_ext. intros g. unfold bump. change (t_ref (traits_of s1 f)) with (f_ref (alook file_zero (ftable s1) f)).
    rewrite (ffree_ref _ _ _ _ Hff). done.
  - apply bind_inv in E as (c & s4 & E4 & E). apply (keeps_fdok _ _ _ _ _ E4 ltac:(keep)) in HD1 as [HD4 Hp4]. injection E as <- <-.
    split; [by apply (procs_trans _ s1)|exact HD4].
Qed.

Lemma file_dup_fdok D f s r s' : fdok D s → file_dup f s = Ok r s' → procs s s' ∧ r = f ∧ 0 <= f < NFILE ∧ fdok (bump f 1 D) s'.
Proof.
  intros HD E. unfold file_dup in E. apply bind_inv in E as (a & s1 & E1 & E).
  apply (keeps_fdok _ D) in E1 as [HD1 Hp1]; [|keep|exact HD]. apply bind_inv in E as (v & s3 & [-> ->]%fget_inv & E).
  case_bool_decide; [discriminate E|]. apply bind_inv in E as (b & s2 & E2 & E).
  destruct (fdok_fset D _ _ _ _ _ E2 ltac:(simpl; lia) HD1) as (HD2 & Hp2 & Hf).
  apply bind_inv in E as (c & s4 & E4 & E). apply (keeps_fdok _ _ _ _ _ E4 ltac:(keep)) in HD2 as [HD4 Hp4]. injection E as <- <-.
  split; [by apply (procs_trans _ s2), Hp4; apply (procs_trans _ s1)|]. split_and!; [done|lia..|].
  revert HD4. apply fdok_ext. intros g. unfold bump. change (t_ref (traits_of s1 f)) with (f_ref (alook file_zero (ftable s1) f)). simpl. case_decide; lia.
Qed.

(** The count drops by one, and the last close clears the kind. *)
Lemma file_close_fdok D f s a s' : fdok D s → file_close f s = Ok a s' → procs s s' ∧ fdok (bump f (-1) D) s'.
Proof.
  intros HD E. unfold file_close in E. apply bind_inv in E as (b & s1 & E1 & E).
  apply (keeps_fdok _ D) in E1 as [HD1 Hp1]; [|keep|exact HD]. apply bind_inv in E as (v & s2 & [-> ->]%fget_inv & E).
  set (v := alook file_zero (ftable s1) f) in *. case_bool_decide as Hr; [discriminate E|].
  apply bind_inv in E as (c & s2 & E2 & E). apply fset_agree in E2 as [Hf HT].
  enough (∃ s3, procs s1 s3 ∧ fdok (bump f (-1) D) s3 ∧ procs s3 s' ∧ fdok (bump f (-1) D) s') as (s3 & Hp3 & _ & Hp & HD')
    by (split; [apply (procs_trans _ s1); [|apply (procs_trans _ s3)]|]; done).
  assert (∀ k s3, agree (set_file f (f_ref v - 1) k (traits_of s1)) (traits_of s3) → (f_ref v - 1 = 0 → k = FD_NONE) →
    fdok (bump f (-1) D) s3 ∧ procs s1 s3) as Hset.
  { intros k s3 H3 Hk. destruct (fdok_agree D _ _ _ _ _ H3 Hk HD1) as [H4 H5]. split; [|exact H5]. revert H4. apply fdok_ext. intros g.
    clear - Hr. unfold bump. change (t_ref (traits_of s1 f)) with (f_ref v). case_decide; lia. }
  case_bool_decide as H1.
  - destruct (Hset _ _ HT ltac:(intros ?; exfalso; lia)) as [HD2 Hp2]. exists s2. destruct (keeps_fdok _ _ _ _ _ E ltac:(keep) HD2). done.
  - apply bind_inv in E as (d & s3 & E3 & E). apply bind_inv in E3 as (w & s4 & [-> ->]%fget_inv & E3). apply fset_agree in E3 as [_ HT3].
    simpl in HT3. destruct (Hset FD_NONE s3) as [HD3 Hp3]; [|done|].
    { intros q. rewrite (HT3 q). unfold set_file. rewrite (HT q). unfold set_file. case_decide; [|done]. simpl. f_equal. lia. }
    exists s3. destruct (keeps_fdok _ _ _ _ _ E ltac:(keep) HD3). done.
Qed.

(** Setting the kind of a file in use. *)
Lemma fupd_fdok D f g s a s' : fupd f g s = Ok a s' → (∀ v, f_ref (g v) = f_ref v) → fdok D s → 1 <= refs (traits_of s) f + D f →
  procs s s' ∧ fdok D s'.
Proof.
  intros E Hg HD Hin. apply bind_inv in E as (w & s4 & [-> ->]%fget_inv & E). set (v := alook file_zero (ftable s) f) in *.
  destruct (fset_agree _ _ _ _ _ E) as [Hf _]. pose proof (fi_refs _ _ (proj1 HD) f Hf) as Hr. change (t_ref (traits_of s f)) with (f_ref v) in Hr.
  destruct (fdok_fset D _ _ _ _ _ E ltac:(rewrite Hg; intros ?; exfalso; lia) HD) as (HD' & Hp & _). split; [exact Hp|]. revert HD'. apply fdok_ext.
  intros x. unfold bump. rewrite Hg. change (t_ref (traits_of s f)) with (f_ref v). case_decide; lia.
Qed.

(** Steps one after the other. *)
Ltac chain := first [eassumption | eapply procs_trans; [eassumption|chain]].
Ltac bumps := intros; unfold bump, hits; repeat case_decide; simplify_eq; lia.

Lemma bump_undo f k D x : D x = bump f (- k) (bump f k D) x.
Proof. bumps. Qed.

Lemma pipe_alloc_bad_fdok D D' f0 f1 s r s' :
  pipe_alloc_bad f0 f1 s = Ok r s' → fdok D' s → (∀ x, D' x = D x + hits f0 x + hits f1 x) → procs s s' ∧ r = None ∧ fdok D s'.
Proof.
  intros E HD HD'. unfold pipe_alloc_bad in E. apply bind_inv in E as (a & s1 & E1 & E). apply bind_inv in E as (b & s2 & E2 & E). injection E as <- <-.
  assert (∀ f D s a s', match f with Some f => file_close f | None => mret () end s = Ok a s' → fdok D s →
    procs s s' ∧ fdok (λ x, D x - hits f x) s') as Hc.
  { clear. intros [f|] D s a s' E HD.
    - destruct (file_close_fdok _ _ _ _ _ HD E) as [Hp H]. split; [exact Hp|]. revert H. apply fdok_ext. bumps.
    - injection E as _ <-. split; [by apply procs_same|]. revert HD. apply fdok_ext. bumps. }
  destruct (Hc _ _ _ _ _ E1 HD) as [Hp1 HD1]. destruct (Hc _ _ _ _ _ E2 HD1) as [Hp2 HD2].
  split_and!; [by apply (procs_trans _ s1)|done|]. revert HD2. apply fdok_ext. intros x. rewrite HD'. lia.
Qed.

Lemma pipe_alloc_fdok D s r s' : (∀ x, 0 <= D x) → fdok D s → pipe_alloc s = Ok r s' → procs s s' ∧
  match r with Some (f0, f1) => 0 <= f0 < NFILE ∧ 0 <= f1 < NFILE ∧ fdok (bump f1 1 (bump f0 1 D)) s' | None => fdok D s' end.
Proof.
  intros H0 HD E. apply bind_inv in E as ([f0|] & s1 & E1 & E); destruct (file_alloc_fdok _ _ _ _ HD E1) as [Hp1 HD1]; cbv iota beta in E, HD1.
  2:{ destruct (pipe_alloc_bad_fdok D _ _ _ _ _ _ E HD1 ltac:(bumps)) as (Hp2 & -> & HD2). split; [by apply (procs_trans _ s1)|done]. }
  destruct HD1 as (Hf0 & _ & HD1). apply bind_inv in E as ([f1|] & s2 & E2 & E); destruct (file_alloc_fdok _ _ _ _ HD1 E2) as [Hp2 HD2]; cbv iota beta in E, HD2.
  2:{ destruct (pipe_alloc_bad_fdok D _ _ _ _ _ _ E HD2 ltac:(bumps)) as (Hp3 & -> & HD3).
      split; [by apply (procs_trans _ s1); [|apply (procs_trans _ s2)]|done]. }
  destruct HD2 as (Hf1 & _ & HD2). pose proof (procs_trans _ _ _ Hp1 Hp2) as Hp. apply bind_inv in E as (a & s3 & E3 & E).
  destruct (keeps_fdok _ _ _ _ _ E3 ltac:(keep) HD2) as [HD3 Hp3]. apply bind_inv in E as (t & s3' & E4 & E). injection E4 as <- <-.
  destruct (pipe_scan _ _ _) as [p|].
  - apply bind_inv in E as (b & s4 & E4 & E). destruct (keeps_fdok _ _ _ _ _ E4 ltac:(keep) HD3) as [HD4 Hp4].
    apply bind_inv in E as (c & s5 & E5 & E). destruct (keeps_fdok _ _ _ _ _ E5 ltac:(keep) HD4) as [HD5 Hp5].
    apply bind_inv in E as (d & s6 & E6 & E). pose proof (refs_nonneg (traits_of s5) f0).
    destruct (fupd_fdok _ _ _ _ _ _ E6 (λ _, eq_refl) HD5 ltac:(specialize (H0 f0); bumps)) as [Hp6 HD6].
    apply bind_inv in E as (e & s7 & E7 & E). pose proof (refs_nonneg (traits_of s6) f1).
    destruct (fupd_fdok _ _ _ _ _ _ E7 (λ _, eq_refl) HD6 ltac:(specialize (H0 f1); bumps)) as [Hp7 HD7].
    injection E as <- <-. split; [|done]. chain.
  - apply bind_inv in E as (b & s4 & E4 & E). destruct (keeps_fdok _ _ _ _ _ E4 ltac:(keep) HD3) as [HD4 Hp4].
    destruct (pipe_alloc_bad_fdok D _ _ _ _ _ _ E HD4 ltac:(bumps)) as (Hp5 & -> & HD5). split; [|done]. chain.
Qed.

(** ** The tables of descriptors *)

Lemma set_openfiles_inv p fd x t a t' : tcb_set_openfiles p fd x t = Ok a t' → 0 <= p < NUM_IDS ∧ 0 <= fd < NOFILE ∧
  t' = upd_TCBPool <[p := with_openfiles (partial_alter (λ _, x) fd (openfiles (tcb_look t p))) (tcb_look t p)]> t.
Proof.
  intros E. unfold tcb_set_openfiles in E. case_bool_decide as Hfd; [|discriminate E]. apply bind_inv in E as (u & t1 & E1 & E).
  unfold tcb_get, aget in E1. case_bool_decide as Hp; [|discriminate E1]. injection E1 as <- <-.
  unfold aset in E. rewrite bool_decide_eq_true_2 in E by done. by injection E as _ <-.
Qed.

Lemma set_fds_agree p fd x s a s' : zoom (tcb_set_openfiles p fd x) s = Ok a s' →
  0 <= p < NUM_IDS ∧ 0 <= fd < NOFILE ∧ agree (put_fd p fd x (traits_of (s : fs_state))) (traits_of s').
Proof.
  intros E. apply zoom_inv in E as (t & E & ->). apply set_openfiles_inv in E as (Hp & Hfd & ->). split_and!; try lia.
  intros q. unfold put_fd, traits_of, fs_traits, tcb_look. simpl. unfold tcb_look. simpl. rewrite alook_insert.
  case_decide as E1; case_decide; subst; try congruence; done.
Qed.

(** A call of the file layer, seen from the kernel. *)
Lemma zoom_fs_inv {A} (m : M fs_state A) (s : k_state) a s' : zoom m s = Ok a s' → m (k_fs s) = Ok a (k_fs s').
Proof. intros E. by apply zoom_inv in E as (c & E & ->). Qed.

Lemma set_fds_fdok D D' p fd x (s : fs_state) a s' : zoom (tcb_set_openfiles p fd x) s = Ok a s' → fdok D s →
  (∀ f, x = Some f → 0 <= f < NFILE ∧ t_used (traits_of s p) ≠ 0) →
  (∀ g, D' g = D g - hits x g + hits (t_fds (traits_of s p) !! fd) g) →
  fdok D' s' ∧ agree (put_fd p fd x (traits_of s)) (traits_of s') ∧ 0 <= p < NUM_IDS ∧ 0 <= fd < NOFILE.
Proof.
  intros E [H1 H2] Hx HD. apply set_fds_agree in E as (Hp & Hfd & HT). split_and!; try done; try lia.
  split; [apply (fd_inv_ext _ _ _ _ HT (λ _, eq_refl)); by apply (fd_inv_put D)|].
  apply (tree_inv_ext (put_fd p fd x (traits_of s))); [|by apply put_fd_tree]. intros q. by rewrite (HT q).
Qed.

Lemma set_fd_fdok D D' p fd x s a s' : set_fd p fd x s = Ok a s' → fdok D s →
  (∀ f, x = Some f → 0 <= f < NFILE ∧ t_used (traits_of s p) ≠ 0) →
  (∀ g, D' g = D g - hits x g + hits (t_fds (traits_of s p) !! fd) g) →
  fdok D' s' ∧ agree (put_fd p fd x (traits_of s)) (traits_of s') ∧ 0 <= p < NUM_IDS ∧ 0 <= fd < NOFILE.
Proof.
  intros E. unfold set_fd in E. change (@zoom k_state tcb_state () k_tcb_lens) with (@zoom k_state tcb_state () (lens_comp k_fs_lens fl_tcb_lens)) in E.
  rewrite zoom_comp in E. apply zoom_fs_inv in E. exact (set_fds_fdok D D' p fd x (k_fs s) a (k_fs s') E).
Qed.

(** The caller was created. *)
Definition live (s : k_state) : Prop := t_used (traits_of s (current s)) ≠ 0.

Lemma current_procs s s' : procs s s' → current s' = current s.
Proof. intros H. apply (H 0). Qed.

Lemma live_procs s s' : procs s s' → live s → live s'.
Proof. intros H. unfold live. rewrite (current_procs _ _ H). destruct (H (current s)) as (_ & -> & _). done. Qed.

Lemma fd_scan_free fuel fds fd0 fd : fd_scan fuel fds fd0 = Some fd → fds !! fd = None.
Proof. revert fd0. induction fuel as [|n IH]; intros fd0; simpl; [done|]. destruct (fds !! fd0) eqn:E; [apply IH|by intros [= <-]]. Qed.

Lemma get_openfiles_inv p s fds s' : zoom (tcb_get_openfiles p) (s : k_state) = Ok fds s' → s' = s ∧ fds = t_fds (traits_of s p).
Proof.
  intros E. apply zoom_inv in E as (t & E & ->). apply bind_inv in E as (u & t1 & E1 & E). unfold tcb_get, aget in E1.
  case_bool_decide; [|discriminate E1]. injection E1 as <- <-. injection E as <- <-. split; [exact (put_view (C:=tcb_state) s)|reflexivity].
Qed.

Lemma fdalloc_fdok D f s r s' : fdalloc f s = Ok r s' → fdok D s → 0 <= f < NFILE → live s →
  match r with
  | Some fd => fdok (bump f (-1) D) s' ∧ agree (put_fd (current s) fd (Some f) (traits_of s)) (traits_of s')
  | None => s' = s
  end.
Proof.
  intros E HD Hf Hl. apply bind_inv in E as (p & s1 & [-> ->]%curid_inv & E). apply bind_inv in E as (fds & s1 & [-> ->]%get_openfiles_inv & E).
  destruct (fd_scan _ _ _) as [fd|] eqn:Hs; [|by injection E as <- <-]. apply fd_scan_free in Hs.
  apply bind_inv in E as (a & s1 & E1 & E). injection E as <- <-.
  destruct (set_fd_fdok D (bump f (-1) D) _ _ _ _ _ _ E1 HD) as (HD1 & HT & _); [by intros g [= <-]|rewrite Hs; bumps|done].
Qed.

(** ** System calls *)

(** The counts agree with the tables, and who calls was created. *)
Definition fds_ok (s : k_state) : Prop := fdok (λ _, 0) s ∧ live s.

(** The call, when it returns, returns to its caller with the invariant. *)
Definition good {A} (m : M k_state A) : Prop := ∀ s a s', fds_ok s → m s = Ok a s' → fds_ok s' ∧ current s' = current s.

Lemma good_procs s s' : fds_ok s → procs s s' → fdok (λ _, 0) s' → fds_ok s' ∧ current s' = current s.
Proof. intros [HD Hl] Hp HD'. split; [split; [exact HD'|by apply (live_procs s)]|by apply current_procs]. Qed.

Lemma good_keeps {A} (m : M k_state A) : keeps m → good m.
Proof. intros Hm s a s' [HD Hl] E. destruct (keeps_fdok _ _ _ _ _ E Hm HD). by apply good_procs. Qed.

Lemma keeps_good {A} (m : M k_state A) s a s' : m s = Ok a s' → keeps m → fds_ok s → fds_ok s' ∧ current s' = current s.
Proof. intros E Hm HD. exact (good_keeps m Hm s a s' HD E). Qed.

Lemma good_bind {A B} (m : M k_state A) (f : A → M k_state B) : good m → (∀ a, good (f a)) → good (m ≫= f).
Proof.
  intros Hm Hf s b s' HD E. apply bind_inv in E as (a & s1 & E1 & E2). destruct (Hm _ _ _ HD E1) as [HD1 Hc1].
  destruct (Hf a _ _ _ HD1 E2) as [HD2 Hc2]. split; [exact HD2|congruence].
Qed.

(** A descriptor was put into the table of the caller. *)
Lemma put_fd_cur s s' p fd x : agree (put_fd p fd x (traits_of s)) (traits_of s') → live s → current s' = current s ∧ live s' ∧
  t_fds (traits_of s' p) = partial_alter (λ _, x) fd (t_fds (traits_of s p)) ∧ ∀ q, q ≠ p → t_fds (traits_of s' q) = t_fds (traits_of s q).
Proof.
  intros HT Hl. assert (∀ q, t_cur (traits_of s' q) = t_cur (traits_of s q) ∧ t_used (traits_of s' q) = t_used (traits_of s q)) as Hf.
  { intros q. rewrite (HT q). unfold put_fd. by case_decide. }
  assert (current s' = current s) as Hc by (destruct (Hf 0) as [Hc _]; exact Hc). split_and!.
  - exact Hc.
  - unfold live. rewrite Hc. destruct (Hf (current s)) as [_ ->]. exact Hl.
  - rewrite (HT p). unfold put_fd. by rewrite decide_True.
  - intros q Hq. rewrite (HT q). unfold put_fd. by rewrite decide_False.
Qed.

Lemma file_close_k D f s a s' : zoom (file_close f) s = Ok a s' → fdok D s → procs s s' ∧ fdok (bump f (-1) D) s'.
Proof. intros E HD. apply zoom_fs_inv in E. exact (file_close_fdok D f (k_fs s) a (k_fs s') HD E). Qed.

Lemma get_fd_inv p fd s x s' : get_fd p fd s = Ok x s' → s' = s ∧ t_fds (traits_of s p) !! fd = x ∧ 0 <= fd < NOFILE.
Proof.
  intros E. apply bind_inv in E as (fds & s1 & [-> ->]%get_openfiles_inv & E). case_bool_decide; [|discriminate E].
  injection E as E <-. done.
Qed.

Lemma sys_close_good tf : good (sys_close tf).
Proof.
  intros s a s' [HD Hl] E. unfold sys_close in E. apply bind_inv in E as (p & s1 & [-> ->]%curid_inv & E). cbv zeta in E.
  case_match; [injection E as _ <-; done|]. apply bind_inv in E as (fp & s1 & (-> & Hfp & Hfd)%get_fd_inv & E).
  destruct fp as [f|]; [|injection E as _ <-; done]. set (fd := syscall_get_arg2 tf) in *.
  apply bind_inv in E as (b & s1 & E1 & E). destruct (file_close_k _ _ _ _ _ E1 HD) as [Hp1 HD1].
  apply bind_inv in E as (c & s2 & E2 & E). injection E as _ <-. destruct (Hp1 (current s)) as (Hf1 & _).
  destruct (set_fd_fdok _ (λ _, 0) _ _ _ _ _ _ E2 HD1) as (HD2 & HT & _); [done|rewrite Hf1, Hfp; bumps|].
  destruct (put_fd_cur _ _ _ _ _ HT (live_procs _ _ Hp1 Hl)) as (Hc & Hl2 & _). split; [done|]. by rewrite Hc, (current_procs _ _ Hp1).
Qed.

Lemma file_alloc_k D s r s' : zoom file_alloc s = Ok r s' → fdok D s → procs s s' ∧
  match r with Some f => 0 <= f < NFILE ∧ fdok (bump f 1 D) s' | None => fdok D s' end.
Proof.
  intros E HD. apply zoom_fs_inv in E. destruct (file_alloc_fdok D (k_fs s) r (k_fs s') HD E) as [Hp H]. split; [exact Hp|].
  destruct r; [|exact H]. destruct H as (H1 & _ & H2). split; [exact H1|exact H2].
Qed.

Lemma sys_open_good sp sn tf : good (sys_open sp sn tf).
Proof.
  unfold sys_open. do 3 (apply good_bind; [apply good_keeps; keep|intros ?]). apply good_bind; [apply good_keeps; keep|].
  intros [ip|e]; [|apply good_keeps; keep]. intros s r s' [HD Hl] E. apply bind_inv in E as ([f|] & s1 & E1 & E).
  2:{ apply file_alloc_k with (D := λ _, 0) in E1 as [Hp1 HD1]; [|exact HD]. destruct (keeps_fdok _ _ _ _ _ E ltac:(keep) HD1) as [HD2 Hp2].
      apply (good_procs s); [done|chain|done]. }
  apply file_alloc_k with (D := λ _, 0) in E1 as (Hp1 & Hf & HD1); [|exact HD]. pose proof (live_procs _ _ Hp1 Hl) as Hl1.
  apply bind_inv in E as ([fd|] & s2 & E2 & E); pose proof (fdalloc_fdok _ _ _ _ _ E2 HD1 Hf Hl1) as H2; cbv iota beta in H2, E.
  - destruct H2 as [HD2 HT]. destruct (put_fd_cur _ _ _ _ _ HT Hl1) as (Hc2 & Hl2 & Hfd & _).
    apply bind_inv in E as (b & s3 & E3 & E). destruct (keeps_fdok _ _ _ _ _ E3 ltac:(keep) HD2) as [HD3 Hp3].
    apply bind_inv in E as (c & s4 & E4 & E). injection E as _ <-. apply zoom_fs_inv in E4.
    assert (1 <= refs (traits_of s3) f) as Hr.
    { apply (refs_pos _ _ (current s1) fd _ (proj1 HD3)). destruct (Hp3 (current s1)) as (-> & _). rewrite Hfd. apply lookup_partial_alter_eq. }
    assert (fdok (λ _, 0) s3) as HD3' by (revert HD3; apply fdok_ext; bumps).
    destruct (fupd_fdok (λ _, 0) _ _ (k_fs s3) _ (k_fs s4) E4 (λ _, eq_refl) HD3') as [Hp4 HD4]; [change (1 <= refs (traits_of s3) f + 0); lia|].
    destruct (good_procs s2 s4) as [H5 H6]; [split; [|exact Hl2]; revert HD2; apply fdok_ext; bumps|eapply procs_trans; [exact Hp3|exact Hp4]|exact HD4|].
    split; [exact H5|]. rewrite H6, Hc2. by apply current_procs.
  - subst s2. apply bind_inv in E as (b & s3 & E3 & E). destruct (file_close_k _ _ _ _ _ E3 HD1) as [Hp3 HD3].
    destruct (keeps_fdok _ _ _ _ _ E ltac:(keep) HD3) as [HD4 Hp4]. apply (good_procs s); [done|chain|]. revert HD4. apply fdok_ext. bumps.
Qed.

Lemma pipe_alloc_k s r s' : zoom pipe_alloc s = Ok r s' → fdok (λ _, 0) s → procs s s' ∧
  match r with Some (f0, f1) => 0 <= f0 < NFILE ∧ 0 <= f1 < NFILE ∧ fdok (bump f1 1 (bump f0 1 (λ _, 0))) s' | None => fdok (λ _, 0) s' end.
Proof. intros E HD. apply zoom_fs_inv in E. exact (pipe_alloc_fdok (λ _, 0) (k_fs s) r (k_fs s') ltac:(lia) HD E). Qed.

Lemma close_both D f0 f1 s (x a : tf_t) s' : (zoom (file_close f0) ;; zoom (file_close f1) ;; mret x : M k_state tf_t) s = Ok a s' → fdok D s →
  procs s s' ∧ fdok (bump f1 (-1) (bump f0 (-1) D)) s'.
Proof.
  intros E HD. apply bind_inv in E as (b & s1 & E1 & E). destruct (file_close_k _ _ _ _ _ E1 HD) as [Hp1 HD1].
  apply bind_inv in E as (c & s2 & E2 & E). destruct (file_close_k _ _ _ _ _ E2 HD1) as [Hp2 HD2]. injection E as _ <-. split; [chain|exact HD2].
Qed.

Lemma sys_pipe_good tf : good (sys_pipe tf).
Proof.
  intros s a s' [HD Hl] E. unfold sys_pipe in E. apply bind_inv in E as (p & s1 & [-> ->]%curid_inv & E). cbv zeta in E.
  case_match; [injection E as _ <-; done|]. apply bind_inv in E as ([[rf wf]|] & s1 & E1 & E); apply pipe_alloc_k in E1 as [Hp1 HD1]; try exact HD.
  2:{ injection E as _ <-. by apply (good_procs s). }
  destruct HD1 as (Hrf & Hwf & HD1). pose proof (live_procs _ _ Hp1 Hl) as Hl1. pose proof (current_procs _ _ Hp1) as Hc1.
  apply bind_inv in E as ([fd0|] & s2 & E2 & E); pose proof (fdalloc_fdok _ _ _ _ _ E2 HD1 Hrf Hl1) as H2; cbv iota beta in H2, E.
  2:{ subst s2. destruct (close_both _ _ _ _ _ _ _ E HD1) as [Hp2 HD2]. apply (good_procs s); [done|chain|]. revert HD2. apply fdok_ext. bumps. }
  destruct H2 as [HD2 HT2]. destruct (put_fd_cur _ _ _ _ _ HT2 Hl1) as (Hc2 & Hl2 & Hfd2 & _).
  apply bind_inv in E as ([fd1|] & s3 & E3 & E); pose proof (fdalloc_fdok _ _ _ _ _ E3 HD2 Hwf Hl2) as H3; cbv iota beta in H3, E.
  - destruct H3 as [HD3 HT3]. destruct (put_fd_cur _ _ _ _ _ HT3 Hl2) as (Hc3 & Hl3 & _).
    apply bind_inv in E as (b & s4 & E4 & E). destruct (keeps_fdok _ _ _ _ _ E4 ltac:(keep) HD3) as [HD4 Hp4]. injection E as _ <-.
    destruct (good_procs s3 s4) as [H5 H6]; [split; [|exact Hl3]; revert HD3|exact Hp4|revert HD4|split; [exact H5|congruence]]; apply fdok_ext; bumps.
  - subst s3. apply bind_inv in E as (b & s3 & E3' & E). rewrite <- Hc1 in E3'.
    destruct (set_fd_fdok _ (bump wf 1 (bump rf 1 (λ _, 0))) _ _ _ _ _ _ E3' HD2) as (HD3 & HT3 & _);
      [done|rewrite Hfd2, lookup_partial_alter_eq; bumps|]. destruct (put_fd_cur _ _ _ _ _ HT3 Hl2) as (Hc3 & Hl3 & _).
    destruct (close_both _ _ _ _ _ _ _ E HD3) as [Hp4 HD4]. split; [|rewrite (current_procs _ _ Hp4); congruence].
    split; [|by apply (live_procs s3)]. revert HD4. apply fdok_ext. bumps.
Qed.

(** ** The creation of a process *)

Lemma cget_inv id s v s' : cget id s = Ok v s' → s' = s ∧ v = cont_look s id ∧ 0 <= id < NUM_IDS.
Proof. intros E. unfold cget, aget in E. case_bool_decide; [|discriminate E]. by injection E as <- <-. Qed.

Lemma cset_inv id v s a s' : cset id v s = Ok a s' → 0 <= id < NUM_IDS ∧ ∀ q, cont_look s' q = if decide (q = id) then v else cont_look s q.
Proof.
  intros E. unfold cset, aset in E. case_bool_decide as Hid; [|discriminate E]. injection E as _ <-. split; [exact Hid|].
  intros q. unfold cont_look. simpl. rewrite alook_insert. repeat case_decide; congruence.
Qed.

Lemma split_agree id q s c s' : container_split id q s = Ok c s' → let k := t_kids (traits_of s id) in
  0 <= k < MAX_CHILDREN → child_slot id k < NUM_IDS → 0 <= id < NUM_IDS ∧ c = child_slot id k ∧ agree (add_child id c (traits_of s)) (traits_of s').
Proof.
  intros E k Hk Hc. unfold container_split in E. apply bind_inv in E as (p & s1 & (-> & -> & Hid)%cget_inv & E). cbv zeta in E.
  assert (u32 (nchildren (cont_look s id)) = k) as Hnc by (apply u32_small; unfold is_u32, W32, MAX_CHILDREN in *; lia). rewrite Hnc in E.
  assert (u32 (u32 (u32 (id * MAX_CHILDREN) + 1) + k) = child_slot id k) as Hsl.
  { unfold child_slot in *. unfold NUM_IDS, MAX_CHILDREN in *. rewrite (u32_small (id * 255)) by (unfold is_u32, W32; lia).
    rewrite (u32_small (id * 255 + 1)) by (unfold is_u32, W32; lia). apply u32_small. unfold is_u32, W32. lia. }
  rewrite Hsl in E. assert (child_slot id k ≠ id) as Hne by (pose proof (child_slot_pos id k); lia). set (ch := child_slot id k) in *.
  apply bind_inv in E as (a & s1 & [_ H1]%cset_inv & E). apply bind_inv in E as (p & s2 & (-> & -> & _)%cget_inv & E).
  apply bind_inv in E as (b & s2 & [_ H2]%cset_inv & E). apply bind_inv in E as (p & s3 & (-> & -> & _)%cget_inv & E).
  apply bind_inv in E as (d & s3 & [_ H3]%cset_inv & E). injection E as <- <-. split_and!; try lia; try done. intros x.
  assert (cont_look s2 id = set_usage (usage (cont_look s id) + q) (cont_look s id)) as Hid2 by (rewrite H2, decide_True, H1, decide_False; congruence).
  unfold add_child, traits_of, cont_traits. rewrite H3, Hid2. destruct (decide (x = id)) as [->|Hx].
  - rewrite (decide_False (P := id = ch)) by congruence. simpl. f_equal. change (nchildren (cont_look s id)) with k. unfold MAX_CHILDREN in Hk. apply s32_small. unfold is_s32, W32. clearbody k. lia.
  - rewrite H2, (decide_False (P := x = id)) by done. rewrite H1. destruct (decide (x = ch)) as [->|Hx']; [done|].
    done.
Qed.

Lemma thread_spawn_agree entry id q s c s' : thread_spawn entry id q s = Ok c s' → let k := t_kids (traits_of s id) in
  0 <= k < MAX_CHILDREN → child_slot id k < NUM_IDS → 0 <= id < NUM_IDS ∧ c = child_slot id k ∧ agree (add_child id c (traits_of s)) (traits_of s').
Proof.
  intros E k Hk Hc. apply bind_inv in E as (a & s1 & E1 & E). assert (same s s1) as Hs1 by (revert E1; assert (keeps sched_acquire) as H by keep; apply H).
  apply bind_inv in E as (pid & s2 & E2 & E). assert (same s2 s' ∧ c = pid) as [Hs' ->].
  { split; [|repeat (apply bind_inv in E as (? & ? & _ & E)); by injection E].
    assert (keeps (th_set_state pid TSTATE_READY ;; zoom (tqueue_enqueue NUM_IDS pid) ;; sched_release ;; mret pid)) as H by keep. by apply (H _ _ _ E). }
  apply bind_inv in E2 as (pid' & s3 & E3 & E2). assert (same s3 s2 ∧ pid = pid') as [Hs2 ->].
  { split; [|repeat (apply bind_inv in E2 as (? & ? & _ & E2)); by injection E2].
    assert (keeps (esp ← gets (kstack_hi pid'); kctx_set_esp pid' esp ;; kctx_set_eip pid' entry ;; mret pid')) as H by keep. by apply (H _ _ _ E2). }
  apply zoom_inv in E3 as (t1 & E3 & ->). apply zoom_inv in E3 as (t2 & E3 & ->). apply zoom_inv in E3 as (t3 & E3 & ->). apply zoom_inv in E3 as (t4 & E3 & ->).
  assert (t_kids (traits_of (th_cont s1) id) = k) as Hk1 by exact (f_equal t_kids (Hs1 id)).
  pose proof (split_agree id q (th_cont s1) _ _ E3) as Hsp. cbv zeta in Hsp. rewrite Hk1 in Hsp.
  destruct (Hsp Hk Hc) as (Hid & -> & HT). split_and!; try lia; try done. intros q0. rewrite (Hs' q0), (Hs2 q0).
  pose proof (Hs1 q0) as Hq. pose proof (HT q0) as Hq'. set (T1 := traits_of (th_cont s1)) in *.
  change ({| t_fds := t_fds (traits_of s1 q0); t_used := t_used (traits_of t4 q0); t_kids := t_kids (traits_of t4 q0); t_ref := 0;
    t_kind := FD_NONE; t_cur := t_cur (traits_of s1 q0) |} = add_child id (child_slot id k) (traits_of s) q0).
  rewrite Hq'. unfold add_child. rewrite <- Hq. destruct (decide (q0 = child_slot id k)); [done|]. by destruct (decide (q0 = id)).
Qed.

Section Spawn.
Context (elf_image : Z → Z) (proc_start_user_addr : Z).

(** [proc_create] adds a child to the current container, and is done with the traits. *)
Lemma proc_create_agree elf q s pid s' : let k := t_kids (traits_of s (current s)) in
  proc_create proc_start_user_addr elf q s = Ok pid s' → 0 <= k < MAX_CHILDREN → child_slot (current s) k < NUM_IDS →
  pid = child_slot (current s) k ∧ agree (add_child (current s) pid (traits_of s)) (traits_of s').
Proof.
  intros k E Hk Hc. apply bind_inv in E as (p & s1 & [-> ->]%curid_inv & E). apply bind_inv in E as (c & s1 & E1 & E).
  assert (same s1 s' ∧ pid = c) as [Hs ->].
  { split; [|repeat (apply bind_inv in E as (? & ? & _ & E)); by injection E].
    revert E. match goal with |- ?m s1 = _ → _ => assert (keeps m) as H by keep end. apply H. }
  apply zoom_inv in E1 as (t & E1 & ->). destruct (thread_spawn_agree _ _ _ _ _ _ E1 Hk Hc) as (_ & Hcs & HA). split; [exact Hcs|].
  intros q0. rewrite (Hs q0). pose proof (HA q0) as Hq.
  change ({| t_fds := t_fds (traits_of t q0); t_used := t_used (traits_of t q0); t_kids := t_kids (traits_of t q0); t_ref := t_ref (traits_of s q0);
    t_kind := t_kind (traits_of s q0); t_cur := t_cur (traits_of t q0) |} = add_child (current s) c (traits_of s) q0).
  rewrite Hq. unfold add_child. destruct (decide (q0 = c)); [done|]. by destruct (decide (q0 = current s)).
Qed.

Lemma proc_create_ok elf q s pid s' : fds_ok s → 0 <= current s < NUM_IDS → t_kids (traits_of s (current s)) ≠ MAX_CHILDREN →
  child_slot (current s) (t_kids (traits_of s (current s))) < NUM_IDS → proc_create proc_start_user_addr elf q s = Ok pid s' →
  fds_ok s' ∧ current s' = current s ∧ t_fds (traits_of s' pid) = ∅ ∧ t_used (traits_of s' pid) ≠ 0.
Proof.
  intros [[HI HT] Hl] Hp Hk Hc E. pose proof (ti_kids _ HT _ Hp) as Hkb. destruct (proc_create_agree _ _ _ _ _ E ltac:(lia) Hc) as [Hcs HA'].
  destruct (add_child_inv (λ _, 0) (traits_of s) (current s) HI HT Hp Hl Hk Hc) as (HI' & HT' & Hfd).
  rewrite <- Hcs in HI', HT', Hfd. assert (current s' = current s) as Hcur.
  { pose proof (f_equal t_cur (HA' 0)) as H. unfold add_child in H. by repeat case_decide. }
  split_and!.
  - split; [split; [exact (fd_inv_ext _ _ _ _ HA' (λ _, eq_refl) HI')|]|].
    { revert HT'. apply tree_inv_ext. intros q0. by rewrite (HA' q0). }
    unfold live. rewrite Hcur, (HA' (current s)). unfold add_child. clear - Hl. repeat case_decide; simpl; [lia|exact Hl..].
  - exact Hcur.
  - rewrite (HA' pid). unfold add_child. by rewrite decide_True.
  - rewrite (HA' pid). unfold add_child. rewrite decide_True by done. simpl. lia.
Qed.

(** The descriptor [fd] of the process [p] may have been set; nothing else of the tables. *)
Definition only_fd {S} `{Traits S} (p fd : Z) (s s' : S) : Prop :=
  (∀ q, t_used (traits_of s' q) = t_used (traits_of s q) ∧ t_cur (traits_of s' q) = t_cur (traits_of s q)) ∧
  ∀ fd', fd' ≠ fd → t_fds (traits_of s' p) !! fd' = t_fds (traits_of s p) !! fd'.

Lemma only_fd_procs {S} `{Traits S} p fd (s s' : S) : procs s s' → only_fd p fd s s'.
Proof. intros Hp. split; [intros q; destruct (Hp q) as (_ & -> & ->); done|]. intros fd' _. by destruct (Hp p) as (-> & _). Qed.

Lemma only_fd_put {S} `{Traits S} p fd x (s s1 s' : S) : procs s s1 → agree (put_fd p fd x (traits_of s1)) (traits_of s') → only_fd p fd s s'.
Proof.
  intros Hp HT. split.
  - intros q. destruct (Hp q) as (_ & <- & <-). rewrite (HT q). unfold put_fd. by case_decide.
  - intros fd' Hne. destruct (Hp p) as (<- & _). rewrite (HT p). unfold put_fd. rewrite decide_True by done. simpl.
    by rewrite lookup_partial_alter_ne.
Qed.

Lemma console_fd_ok p fd ty r w s a s' : console_fd p fd ty r w s = Ok a s' → fdok (λ _, 0) s → t_used (traits_of s p) ≠ 0 →
  t_fds (traits_of s p) !! fd = None → fdok (λ _, 0) s' ∧ only_fd p fd s s'.
Proof.
  intros E HD Hu Hfd. apply bind_inv in E as ([f|] & s1 & E1 & E); destruct (file_alloc_fdok _ _ _ _ HD E1) as [Hp1 HD1]; cbv iota beta in E, HD1.
  2:{ injection E as _ <-. split; [exact HD1|by apply only_fd_procs]. }
  destruct HD1 as (Hf & Hr1 & HD1). apply bind_inv in E as (b & s2 & E2 & E). apply bind_inv in E2 as (v & s3 & [-> ->]%fget_inv & E2).
  destruct (fdok_fset _ _ _ _ _ _ E2 ltac:(discriminate) HD1) as (HD2 & Hp2 & _). rewrite Hr1 in HD2. pose proof (procs_trans _ _ _ Hp1 Hp2) as Hp.
  destruct (set_fds_fdok _ (λ _, 0) _ _ _ _ _ _ E HD2) as (HD3 & HT & _).
  - intros g [= <-]. split; [exact Hf|]. by destruct (Hp p) as (_ & -> & _).
  - destruct (Hp p) as (-> & _). rewrite Hfd. simpl. bumps.
  - split; [exact HD3|exact (only_fd_put _ _ _ _ _ _ Hp HT)].
Qed.

Lemma spawn_fd_ok c p fd cfd ty r w s a s' : spawn_fd c p fd cfd ty r w s = Ok a s' → fdok (λ _, 0) s → t_used (traits_of s p) ≠ 0 →
  t_fds (traits_of s p) !! cfd = None → fdok (λ _, 0) s' ∧ only_fd p cfd s s'.
Proof.
  intros E HD Hu Hfd. apply bind_inv in E as (pf & s1 & E1 & E). assert (s1 = s) as ->.
  { destruct (bool_decide (fd >= 0) && bool_decide (fd < NOFILE)); [by apply get_fd_inv in E1 as [-> _]|by injection E1]. }
  clear E1. destruct pf as [f|]; [|case_bool_decide; [|injection E as _ <-; split; [done|by apply only_fd_procs, procs_same]]].
  - apply bind_inv in E as (g & s1 & E2 & E). apply zoom_fs_inv in E2. destruct (file_dup_fdok _ _ _ _ _ HD E2) as (Hp & -> & Hf & HD1).
    change (procs s s1) in Hp. change (fdok (bump f 1 (λ _, 0)) s1) in HD1. destruct (Hp p) as (Hpf & Hpu & _).
    destruct (set_fd_fdok _ (λ _, 0) _ _ _ _ _ _ E HD1) as (HD3 & HT & _).
    + intros g [= <-]. split; [exact Hf|]. by rewrite Hpu.
    + rewrite Hpf, Hfd. bumps.
    + split; [exact HD3|]. exact (only_fd_put (S:=k_state) _ _ _ _ _ _ Hp HT).
  - apply zoom_fs_inv in E. exact (console_fd_ok _ _ _ _ _ (k_fs s) a (k_fs s') E HD Hu Hfd).
Qed.

Lemma only_fd_live p fd (s s' : k_state) : only_fd p fd s s' → live s → live s' ∧ current s' = current s.
Proof.
  intros [Hu _] Hl. assert (current s' = current s) as Hc by apply (Hu 0). split; [|exact Hc]. unfold live. rewrite Hc.
  destruct (Hu (current s)) as [-> _]. exact Hl.
Qed.

(** Two or three descriptors, one after the other, of a process with an empty table. *)
Definition fresh (p fd : Z) (s : k_state) : Prop := t_used (traits_of s p) ≠ 0 ∧ ∀ fd', fd <= fd' → t_fds (traits_of s p) !! fd' = None.

Lemma fresh_next p fd s s' : fresh p fd s → only_fd p fd s s' → fresh p (fd + 1) s'.
Proof. intros [Hu Hf] [Hq Hk]. split; [by destruct (Hq p) as [-> _]|]. intros fd' H. rewrite Hk by lia. apply Hf. lia. Qed.

Definition sets_fd {A} (p fd : Z) (m : M k_state A) : Prop := ∀ s a s', m s = Ok a s' → fds_ok s → fresh p fd s →
  fds_ok s' ∧ fresh p (fd + 1) s' ∧ current s' = current s.

Lemma sets_fd_intro {A} p fd (m : M k_state A) : (∀ s a s', m s = Ok a s' → fdok (λ _, 0) s → t_used (traits_of s p) ≠ 0 →
  t_fds (traits_of s p) !! fd = None → fdok (λ _, 0) s' ∧ only_fd p fd s s') → sets_fd p fd m.
Proof.
  intros Hm s a s' E [HD Hl] Hf. destruct (Hm _ _ _ E HD (proj1 Hf)) as [HD' Ho]; [apply Hf; lia|].
  destruct (only_fd_live _ _ _ _ Ho Hl). split_and!; [done|by apply (fresh_next _ _ s)|done].
Qed.

Lemma sets_console p fd ty r w : sets_fd p fd (zoom (console_fd p fd ty r w)).
Proof. apply sets_fd_intro. intros s a s' E HD Hu Hf. apply zoom_fs_inv in E. exact (console_fd_ok _ _ _ _ _ (k_fs s) a (k_fs s') E HD Hu Hf). Qed.

Lemma sets_spawn c p fd cfd ty r w : sets_fd p cfd (spawn_fd c p fd cfd ty r w).
Proof. apply sets_fd_intro. intros s a s'. apply spawn_fd_ok. Qed.

Lemma console_init_ok p s a s' : zoom (console_init_fds p) s = Ok a s' → fds_ok s → fresh p 0 s → fds_ok s' ∧ current s' = current s.
Proof.
  intros E HD Hf. unfold console_init_fds in E. rewrite zoom_mbind in E. apply bind_inv in E as (b & s1 & E1 & E).
  destruct (sets_console _ _ _ _ _ _ _ _ E1 HD Hf) as (HD1 & Hf1 & Hc1). rewrite zoom_mbind in E. apply bind_inv in E as (c & s2 & E2 & E).
  destruct (sets_console _ _ _ _ _ _ _ _ E2 HD1 Hf1) as (HD2 & Hf2 & Hc2).
  destruct (sets_console _ _ _ _ _ _ _ _ E HD2 Hf2) as (HD3 & _ & Hc3). split; [exact HD3|congruence].
Qed.

Lemma get_nchildren_inv p (s : k_state) nc s' : zoom (container_get_nchildren p) s = Ok nc s' →
  s' = s ∧ nc = u32 (t_kids (traits_of s p)) ∧ 0 <= p < NUM_IDS.
Proof.
  intros E. apply zoom_inv in E as (c & E & ->). apply bind_inv in E as (v & c1 & (-> & -> & Hp)%cget_inv & E). injection E as <- <-.
  split; [exact (put_view (C:=cont_state) s)|]. split; [reflexivity|exact Hp].
Qed.

Lemma fresh_procs p fd s s' : procs s s' → fresh p fd s → fresh p fd s'.
Proof. intros Hp [Hu Hf]. destruct (Hp p) as (Hpf & Hpu & _). split; [by rewrite Hpu|]. intros fd'. rewrite Hpf. apply Hf. Qed.

(** A step that keeps the tables, in front of code that fills the table of a new process. *)
Lemma fresh_keeps {A B} p (m : M k_state A) (k : A → M k_state B) s b s' : (m ≫= k) s = Ok b s' → keeps m → fds_ok s → fresh p 0 s →
  ∃ a s1, k a s1 = Ok b s' ∧ fds_ok s1 ∧ fresh p 0 s1 ∧ current s1 = current s.
Proof.
  intros E Hm HD Hf. apply bind_inv in E as (a & s1 & E1 & E). exists a, s1. split; [exact E|]. destruct (good_keeps _ Hm _ _ _ HD E1) as [HD1 Hc].
  split_and!; try done; try apply HD1. apply (fresh_procs _ _ s); [|exact Hf]. apply procs_same, (Hm _ _ _ E1).
Qed.

Lemma spawn_guards p k : 0 <= p < NUM_IDS → 0 <= k <= MAX_CHILDREN → ¬ NUM_IDS < u32 (p * MAX_CHILDREN + 1 + MAX_CHILDREN) → u32 k ≠ MAX_CHILDREN →
  k ≠ MAX_CHILDREN ∧ child_slot p k < NUM_IDS.
Proof.
  unfold child_slot, NUM_IDS, MAX_CHILDREN. intros Hp Hk Hn Hne. rewrite u32_small in Hn by (unfold is_u32, W32; lia).
  rewrite u32_small in Hne by (unfold is_u32, W32; lia). lia.
Qed.

Lemma sys_spawn_good tf : good (sys_spawn elf_image proc_start_user_addr tf).
Proof.
  intros s a s' HD E. unfold sys_spawn in E. cbv zeta in E. apply bind_inv in E as (p & s1 & [-> ->]%curid_inv & E).
  apply bind_inv in E as (qok & s1 & E1 & E). destruct (keeps_good _ _ _ _ E1 ltac:(keep) HD) as [HD1 Hc1]. rewrite <- Hc1 in E |- *. clear E1 HD Hc1 s. rename s1 into s, HD1 into HD.
  apply bind_inv in E as (nc & s1 & (-> & -> & Hp)%get_nchildren_inv & E).
  case_bool_decide; [injection E as _ <-; done|]. case_bool_decide as Hn; [injection E as _ <-; done|].
  case_bool_decide as Hk; [injection E as _ <-; done|]. destruct (_ || _); [injection E as _ <-; done|].
  destruct (spawn_guards _ _ Hp (ti_kids _ (proj2 (proj1 HD)) _ Hp) Hn Hk) as [Hk' Hch]. apply bind_inv in E as (c & s1 & E1 & E).
  destruct (proc_create_ok _ _ _ _ _ HD Hp Hk' Hch E1) as (HD1 & Hc1 & Hfd & Hu). case_bool_decide; [injection E as _ <-; done|].
  assert (fresh c 0 s1) as Hf1 by (split; [exact Hu|]; intros fd' _; rewrite Hfd; apply lookup_empty). clear E1. rewrite <- Hc1 in *. clear Hp Hn Hk Hk' Hch.
  do 6 (apply (fresh_keeps c) in E as (? & ? & E & ? & ? & ?); [|keep|done|done]).
  apply bind_inv in E as (b & s2 & E2 & E). injection E as _ <-. enough (fds_ok s2 ∧ current s2 = current s1) by done.
  destruct (_ && _); [destruct (console_init_ok _ _ _ _ E2 ltac:(done) ltac:(done)); split; congruence|].
  apply bind_inv in E2 as (d & s3 & E3 & E2). destruct (sets_spawn _ _ _ _ _ _ _ _ _ _ E3 ltac:(done) ltac:(done)) as (HD3 & Hf3 & Hc3).
  destruct (sets_spawn _ _ _ _ _ _ _ _ _ _ E2 HD3 Hf3) as (HD4 & _ & Hc4). split; congruence.
Qed.
End Spawn.

(** ** The end of a process *)

#[local] Transparent for_range.
Lemma for_range_post {S} (I : Z → S → Prop) (body : Z → M S ()) lo hi s s' :
  lo <= hi → I lo s → (∀ i s a s', lo <= i < hi → I i s → body i s = Ok a s' → I (i + 1) s') → for_range lo hi body s = Ok () s' → I hi s'.
Proof.
  intros Hle HI Hb. unfold for_range. remember (Z.to_nat (hi - lo)) as n eqn:Hn. revert lo s Hle HI Hb Hn.
  induction n as [|n IH]; intros lo s Hle HI Hb Hn E; cbn [for_fuel] in E.
  - injection E as <-. by replace hi with lo by lia.
  - apply bind_inv in E as (a & s1 & E1 & E). apply (IH (lo + 1) s1); [lia| |intros i s2 b s3 Hi; apply Hb; lia|lia|exact E].
    apply (Hb lo s a); [lia|exact HI|exact E1].
Qed.
#[local] Opaque for_range.

(** The descriptors below [i] of [p] are closed. *)
Definition closed (s0 : k_state) (p i : Z) (s : k_state) : Prop :=
  fds_ok s ∧ current s = current s0 ∧ ∀ fd, fd < i → t_fds (traits_of s p) !! fd = None.

Lemma close_slot s0 p i f s a s' : closed s0 p i s → t_fds (traits_of s p) !! i = Some f →
  (zoom (file_close f) ;; set_fd p i None) s = Ok a s' → closed s0 p (i + 1) s'.
Proof.
  intros ([HD Hl] & Hc & Hfd) Hi E. apply bind_inv in E as (b & s1 & E1 & E2). destruct (file_close_k _ _ _ _ _ E1 HD) as [Hp1 HD1].
  destruct (Hp1 p) as (Hf1 & _). destruct (set_fd_fdok _ (λ _, 0) _ _ _ _ _ _ E2 HD1) as (HD2 & HT & _); [done|rewrite Hf1, Hi; bumps|].
  destruct (put_fd_cur _ _ _ _ _ HT (live_procs _ _ Hp1 Hl)) as (Hc2 & Hl2 & Hf2 & _). split_and!; [done| |].
  - by rewrite Hc2, (current_procs _ _ Hp1).
  - intros fd Hlt. rewrite Hf2, lookup_partial_alter, Hf1. case_decide; [done|]. apply Hfd. lia.
Qed.

(** The loop of [sys_exit] closes every descriptor of the process. *)
Lemma exit_fds_ok p s a s' : fds_ok s → exit_fds p s = Ok a s' → fds_ok s' ∧ current s' = current s ∧ t_fds (traits_of s' p) = ∅.
Proof.
  intros HD E. destruct a. assert (closed s p NOFILE s') as (HD' & Hc & Hf).
  { revert E. apply for_range_post; [unfold NOFILE; lia| |].
    - split_and!; [done..|]. intros fd Hfd. destruct (t_fds (traits_of s p) !! fd) as [f|] eqn:Ef; [|done].
      destruct (fi_range _ _ (proj1 (proj1 HD)) _ _ _ Ef). lia.
    - intros i s1 a s2 Hi HC E. apply bind_inv in E as (fp & s3 & (-> & Hfp & _)%get_fd_inv & E).
      destruct fp as [f|]; [by apply (close_slot s p i f s1 a)|]. injection E as _ <-. destruct HC as (H1 & H2 & H3).
      split_and!; [done..|]. intros fd Hlt. destruct (decide (fd = i)) as [->|]; [exact Hfp|apply H3; lia]. }
  split_and!; try done; try apply HD'. apply map_eq. intros fd. rewrite lookup_empty. destruct (decide (fd < NOFILE)); [by apply Hf|].
  destruct (t_fds (traits_of s' p) !! fd) as [f|] eqn:Ef; [|done]. destruct (fi_range _ _ (proj1 (proj1 HD')) _ _ _ Ef). lia.
Qed.

(** ** Traps *)

Section Traps.
Context (elf_image : Z → Z) (proc_start_user_addr : Z) (g : stack).

Lemma dispatch_good tf : good (syscall_dispatch elf_image proc_start_user_addr g tf).
Proof.
  unfold syscall_dispatch. cbv zeta. pose proof (keeps_sync tf) as [? ?].
  pose proof (keeps_dirs (stk_path g) (stk_name g) (stk_arr g) tf) as (? & ? & ? & ? & ? & ?).
  pose proof (keeps_signals (stk_act g) tf) as (? & ? & ? & ? & ? & ?).
  repeat (case_bool_decide; [first [apply sys_spawn_good | apply sys_open_good | apply sys_close_good | apply sys_pipe_good
    | apply good_keeps; first [assumption | apply keeps_sys_read | apply keeps_sys_write | apply keeps_sys_fstat | apply keeps_sys_link
      | apply keeps_sys_unlink | apply keeps_sys_exit | keep]]|]).
  apply good_keeps. keep.
Qed.

Lemma trap_good tf : good (trap elf_image proc_start_user_addr g tf).
Proof.
  unfold trap. apply good_bind; [apply good_keeps; keep|]. intros p. apply good_bind; [apply good_keeps; keep|]. intros _.
  apply good_bind; [apply good_keeps; keep|]. intros f. apply good_bind; [|intros tf'; apply good_keeps; keep].
  destruct f as [cb|]; [|apply good_keeps; keep]. destruct cb; cbn [run_cb]; [apply good_keeps; keep..|apply dispatch_good].
Qed.

(** C5: The counts of the open files agree with the tables of descriptors: in a state where
    the count of every open file is the number of descriptors that refer to it, over all
    processes, a trap of a created process (a page fault, an interrupt or any system call
    with any arguments) that returns does so to the same process and in a state that has
    the property again, and there no descriptor refers to a free file. *)
Theorem trap_fd_refs tf s tf' s' : fds_ok s → trap elf_image proc_start_user_addr g tf s = Ok tf' s' →
  fds_ok s' ∧ current s' = current s ∧
  ∀ p fd f, openfiles (tcb_look (ktcb s') p) !! fd = Some f → 1 <= f_ref (alook file_zero (ftable (k_fs s')) f).
Proof.
  intros HD E. destruct (trap_good tf s tf' s' HD E) as [HD' Hc]. split_and!; [exact HD'..|exact Hc|]. intros p fd f Hf.
  destruct HD' as [[HI _] _]. pose proof (refs_pos _ _ _ _ _ HI Hf). destruct (fi_range _ _ HI _ _ _ Hf) as (_ & _ & Hr & _).
  pose proof (fi_refs _ _ HI f Hr) as H1. change (t_ref (traits_of s' f)) with (f_ref (alook file_zero (ftable (k_fs s')) f)) in H1. cbv beta in H1. lia.
Qed.

End Traps.

(** The end of a process: the loop of [sys_exit] closes every descriptor of the process
    and gives each of its files the count of the descriptors that other processes hold. *)
Theorem exit_closes p s a s' : fds_ok s → exit_fds p s = Ok a s' →
  fds_ok s' ∧ current s' = current s ∧ openfiles (tcb_look (ktcb s') p) = ∅.
Proof. intros HD E. exact (exit_fds_ok p s a s' HD E). Qed.

(** ** Two processes that share a file *)

(** Descriptor 3 of process 1, which runs, and descriptor 0 of process 2. *)
Definition shared_cont : cont_state :=
  let one := {| quota := 8; usage := 0; parent := 0; nchildren := 0; used := 1 |} in
  {| c_at := at0; CONTAINER := {[ 0 := set_nchildren 2 one; 1 := one; 2 := one ]} |}.

Definition shared_base : k_state :=
  let p := pt0 spinlock_init 4194304 ∅ in
  let s := k_around (sample_thread (put shared_cont p) TCB_zero) in
  upd_handlers (λ _, {[ (cpu_idx, T_SYSCALL) := syscall_dispatch_cb ]}) true
    (put (C:=fs_state) (upd_ftable (λ _, {[ 0 := with_kind FD_CONSOLE_OUT 0 1 (with_fref 2 file_zero) ]}) (k_fs s)) s).

Definition shared : k_state :=
  put (C:=tcb_state) {| tcb_pt := kpt shared_base; TCBPool := {[ 1 := with_openfiles {[ 3 := 0 ]} TCB_zero; 2 := with_openfiles {[ 0 := 0 ]} TCB_zero ]} |}
    shared_base.

Lemma shared_cont_look q : q ≠ 0 → q ≠ 1 → q ≠ 2 → used (cont_look shared_cont q) = 0 ∧ nchildren (cont_look shared_cont q) = 0.
Proof.
  intros H0 H1 H2. unfold cont_look, shared_cont, alook. simpl.
  rewrite !lookup_insert_ne, lookup_singleton_ne by congruence. done.
Qed.

Lemma base_look q : t_fds (traits_of shared_base q) = ∅ ∧ t_used (traits_of shared_base q) = used (cont_look shared_cont q) ∧
  t_kids (traits_of shared_base q) = nchildren (cont_look shared_cont q).
Proof.
  split_and!; [|reflexivity..]. change (openfiles (alook TCB_zero ({[ 1 := TCB_zero ]} : gmap Z TCB) q) = ∅). unfold alook.
  destruct (decide (q = 1)) as [->|Hq]; [by rewrite lookup_singleton_eq|]. by rewrite lookup_singleton_ne by congruence.
Qed.

Lemma shared_agree : agree (put_fd 1 3 (Some 0) (put_fd 2 0 (Some 0) (traits_of shared_base))) (traits_of shared).
Proof.
  intros q. set (pool := {[ 1 := with_openfiles {[ 3 := 0 ]} TCB_zero; 2 := with_openfiles {[ 0 := 0 ]} TCB_zero ]} : gmap Z TCB).
  change (traits_of shared q) with {| t_fds := openfiles (alook TCB_zero pool q); t_used := t_used (traits_of shared_base q);
    t_kids := t_kids (traits_of shared_base q); t_ref := t_ref (traits_of shared_base q); t_kind := t_kind (traits_of shared_base q);
    t_cur := t_cur (traits_of shared_base q) |}.
  unfold put_fd. destruct (decide (q = 1)) as [->|H1]; [rewrite decide_False by done; reflexivity|].
  destruct (decide (q = 2)) as [->|H2]; [reflexivity|]. unfold alook, pool. rewrite lookup_insert_ne, lookup_singleton_ne by congruence.
  destruct (base_look q) as (Hf & _). destruct (traits_of shared_base q) as [fds u k r kd c]. cbn [t_fds] in Hf. by subst fds.
Qed.

Lemma base_fdok : fdok (λ x, if decide (x = 0) then 2 else 0) shared_base.
Proof.
  split; [split|split].
  - intros p fd f. by destruct (base_look p) as (-> & _).
  - intros f _. rewrite refs_none by (intros p fd; by destruct (base_look p) as (-> & _)).
    change (t_ref (traits_of shared_base f)) with (f_ref (alook file_zero ({[ 0 := with_kind FD_CONSOLE_OUT 0 1 (with_fref 2 file_zero) ]} : gmap Z file) f)).
    unfold alook. case_decide as E; [subst f; reflexivity|]. by rewrite lookup_singleton_ne by congruence.
  - intros f _. change (traits_of shared_base f) with (traits_of (k_fs shared_base) f).
    destruct (decide (f = 0)) as [->|E]; [discriminate|]. intros _.
    change (t_kind (traits_of (k_fs shared_base) f)) with (f_type (alook file_zero ({[ 0 := with_kind FD_CONSOLE_OUT 0 1 (with_fref 2 file_zero) ]} : gmap Z file) f)).
    unfold alook. by rewrite lookup_singleton_ne by congruence.
  - intros id _. destruct (base_look id) as (_ & _ & ->). destruct (decide (id = 0)) as [->|]; [done|]. destruct (decide (id = 1)) as [->|]; [done|].
    destruct (decide (id = 2)) as [->|]; [done|]. destruct (shared_cont_look id) as [_ ->]; done.
  - intros id _. destruct (base_look id) as (_ & -> & ->). destruct (decide (id = 0)) as [->|]; [done|]. destruct (decide (id = 1)) as [->|]; [done|].
    destruct (decide (id = 2)) as [->|]; [done|]. destruct (shared_cont_look id) as [_ ->]; done.
  - intros id k Hid Hk. destruct (base_look id) as (_ & _ & Hkid). destruct (base_look (child_slot id k)) as (_ & -> & _). rewrite Hkid in Hk.
    assert (0 <= k ∧ (id = 0 → 2 <= k)) as [Hk0 Hk2].
    { split; [|intros ->; apply Hk]. destruct (decide (id = 0)) as [->|]; [change (2 <= k < MAX_CHILDREN) in Hk; lia|].
      destruct (decide (id = 1)) as [->|]; [change (0 <= k < MAX_CHILDREN) in Hk; lia|]. destruct (decide (id = 2)) as [->|]; [change (0 <= k < MAX_CHILDREN) in Hk; lia|].
      destruct (shared_cont_look id) as [_ E]; try done. lia. }
    apply shared_cont_look; unfold child_slot, MAX_CHILDREN in *; lia.
Qed.

Lemma shared_ok : fds_ok shared.
Proof.
  destruct base_fdok as [HI HT]. split; [|vm_compute; discriminate]. split.
  - apply (fd_inv_ext _ _ _ _ shared_agree (λ _, eq_refl)).
    assert (∀ p f : Z, Some 0 = Some f → t_used (traits_of shared_base p) ≠ 0 → 0 <= f < NFILE ∧ t_used (traits_of shared_base p) ≠ 0) as Hz
      by (intros p f [= <-] Hp; split; [unfold NFILE; lia|exact Hp]).
    apply (fd_inv_put (λ x, if decide (x = 0) then 1 else 0)); [|unfold NUM_IDS; lia|unfold NOFILE; lia|..].
    + apply (fd_inv_put _ _ _ _ _ _ HI); [unfold NUM_IDS; lia|unfold NOFILE; lia|intros f Hf; apply Hz; [exact Hf|vm_compute; discriminate]|].
      intros x. destruct (base_look 2) as (-> & _). unfold hits. rewrite lookup_empty. repeat case_decide; simplify_eq; lia.
    + intros f Hf. unfold put_fd. rewrite (decide_False (P := 1 = 2)) by lia. apply Hz; [exact Hf|vm_compute; discriminate].
    + intros x. unfold put_fd. rewrite (decide_False (P := 1 = 2)) by lia. destruct (base_look 1) as (-> & _). unfold hits. rewrite lookup_empty. repeat case_decide; simplify_eq; lia.
  - apply (tree_inv_ext (traits_of shared_base)); [|exact HT]. intros q. rewrite (shared_agree q). unfold put_fd. by repeat case_decide.
Qed.

Definition close_frame : tf_t := with_trap T_SYSCALL 0 (load_regs SYS_close [3] tf_zero).

(** Process 1 closes its descriptor 3: process 2 still holds the file. *)
Lemma trap_fd_refs_witness : ∃ tf' s', trap (λ _, 0) 0 no_stack close_frame shared = Ok tf' s' ∧ fds_ok s' ∧
  f_ref (alook file_zero (ftable (k_fs s')) 0) = 1.
Proof.
  destruct (trap (λ _, 0) 0 no_stack close_frame shared) as [tf' s'| | | |] eqn:E; try (exfalso; revert E; vm_compute; discriminate).
  exists tf', s'. destruct (trap_fd_refs (λ _, 0) 0 no_stack close_frame shared tf' s' shared_ok E) as (H & _ & _). split; [reflexivity|]. split; [exact H|].
  revert E. vm_compute. by intros [= _ <-].
Defined.

Lemma exit_closes_witness : ∃ s', exit_fds 1 shared = Ok () s' ∧ fds_ok s' ∧ openfiles (tcb_look (ktcb s') 1) = ∅ ∧
  f_ref (alook file_zero (ftable (k_fs s')) 0) = 1.
Proof.
  destruct (exit_fds 1 shared) as [[] s'| | | |] eqn:E; try (exfalso; revert E; vm_compute; discriminate).
  exists s'. destruct (exit_closes 1 shared () s' shared_ok E) as (H & _ & Hf). split; [reflexivity|]. split; [exact H|]. split; [exact Hf|].
  revert E. vm_compute. by intros [= <-].
Defined.
