(* ===== verification/Message.v ===== *)
(** * Messages between processes (kern/lib/ipc.c, kern/trap/TSyscall/TSyscall.c)

    The queue of waiting senders is a list, the copy moves every byte from one process to
    the other, and [sys_sync_send] and [sys_sync_recv] meet. *)

From S2P Require Import Prelude Spinlock Mboot PMem Container PageTable TCB TQueue Thread Sched.
From S2P Require Import UserCopy CString BufCache Log Inode Path File Pipe Ipc TrapFrame Sysfile Syscall Trap Signal PipeCall.

(** ** The queue is a list *)

Definition mlook (s : ipc_state) (p : Z) : MsgBlock := alook MsgBlock_zero (msgBlock s) p.

(** The links of a message block, as those of a control block. *)
Definition as_links (b : MsgBlock) : TCB := with_prev (m_prev b) (with_next (m_next b) TCB_zero).

(** The blocks of [q], oldest first, and every block the block of its process. *)
Record mq_rep (s : ipc_state) (q : list Z) : Prop := {
  mr_nodup : NoDup q;
  mr_range x : x ∈ q → 0 <= x < NUM_IDS;
  mr_head : m_head (msgQueue s) = first_or NUM_IDS q;
  mr_tail : m_tail (msgQueue s) = last_or NUM_IDS q;
  mr_links : dll (λ x, as_links (mlook s x)) NUM_IDS q NUM_IDS;
  mr_ids x : 0 <= x < NUM_IDS → send_pid (mlook s x) = x
}.

Definition message (b : MsgBlock) : Z * Z * Z := (recv_pid b, m_length b, buffer_addr b).

(** What the queue operations keep: the messages, the lock and the buffer. *)
Definition mq_frame (s s' : ipc_state) : Prop :=
  (∀ x, message (mlook s' x) = message (mlook s x)) ∧ msg_lock s' = msg_lock s ∧ msg_buf s' = msg_buf s.

Definition set_mblk (p : Z) (b : MsgBlock) (s : ipc_state) : ipc_state := upd_msgBlock <[p := b]> s.

Lemma mlook_set s p b x : mlook (set_mblk p b s) x = if decide (p = x) then b else mlook s x.
Proof. apply alook_insert. Qed.

Lemma mlook_set_q s q x : mlook (set_msgQueue q s) x = mlook s x.
Proof. done. Qed.

Lemma msgQueue_set s p b : msgQueue (set_mblk p b s) = msgQueue s.
Proof. done. Qed.

Lemma mget_Ok p s : 0 <= p < NUM_IDS → mget p s = Ok (mlook s p) s.
Proof. exact (aget_Ok MsgBlock_zero NUM_IDS msgBlock p s). Qed.

Lemma mupd_Ok p f s : 0 <= p < NUM_IDS → mupd p f s = Ok () (set_mblk p (f (mlook s p)) s).
Proof.
  intros Hp. unfold mupd. rewrite (bind_Ok _ _ _ _ _ (mget_Ok p s Hp)).
  exact (aset_Ok NUM_IDS upd_msgBlock p _ s Hp).
Qed.

(** [mrun] runs the stores of a queue operation, [msolve] looks into the state they built. *)
Ltac mrun :=
  repeat match goal with
  | |- context [(mupd ?p ?f ≫= _) ?s] => rewrite (bind_Ok _ _ _ _ _ (mupd_Ok p f s ltac:(in_range)))
  | |- context [(set_head ?h ≫= _) ?s] => rewrite (bind_Ok (set_head h) _ s _ _ eq_refl)
  | |- context [(set_tail ?h ≫= _) ?s] => rewrite (bind_Ok (set_tail h) _ s _ _ eq_refl)
  | |- context [mupd ?p ?f ?s] => rewrite (mupd_Ok p f s ltac:(in_range))
  | |- context [set_head ?h ?s] => change (set_head h s) with (Ok () (set_msgQueue {| m_head := h; m_tail := m_tail (msgQueue s) |} s))
  | |- context [set_tail ?h ?s] => change (set_tail h s) with (Ok () (set_msgQueue {| m_head := m_head (msgQueue s); m_tail := h |} s))
  end.

Ltac mlk := repeat first [rewrite mlook_set_q | rewrite mlook_set].
Ltac mcase := mlk; repeat case_decide; subst; first [done | set_solver | congruence].

Lemma msg_enqueue_run s q p :
  mq_rep s q → 0 <= p < NUM_IDS → p ∉ q →
  ∃ s', msg_enqueue p s = Ok () s' ∧ mq_rep s' (q ++ [p]) ∧ mq_frame s s'.
Proof.
  intros [Hnd Hrg Hh Ht Hl Hid] Hp Hnew. unfold msg_enqueue.
  rewrite (bind_Ok (gets _) _ s (m_tail (msgQueue s)) s eq_refl), Ht.
  assert (NoDup (q ++ [p])) as Hnd' by (apply NoDup_app; split; [done|]; split; [set_solver|apply NoDup_singleton]).
  assert (∀ x, x ∈ q ++ [p] → 0 <= x < NUM_IDS) as Hrg' by set_solver.
  destruct q as [|t q _] using rev_ind.
  - rewrite (bool_decide_eq_true_2 (last_or _ _ = _)) by done. mrun. eexists. split; [reflexivity|].
    split; [split; [done|done|done|done| |]|split; [|done]].
    + apply dll_single. split; mcase.
    + intros x Hx. specialize (Hid x Hx). mcase.
    + intros x. mcase.
  - rewrite last_or_snoc. assert (0 <= t < NUM_IDS) as Htr by (apply Hrg; set_solver).
    assert (t ∉ q ∧ t ≠ p) as [Htq Htp] by (apply NoDup_app in Hnd; set_solver).
    rewrite (bool_decide_eq_false_2 (t = NUM_IDS)) by lia. mrun. eexists. split; [reflexivity|].
    split; [split; [done|done| | | |]|split; [|done]].
    + simpl. rewrite Hh, !first_or_app. by destruct q.
    + simpl. by rewrite last_or_snoc.
    + rewrite dll_app, last_or_snoc. split.
      * apply (dll_relink_last (λ x, as_links (mlook s x)) _ NUM_IDS q t NUM_IDS); [done|..|done].
        -- intros x Hx. mcase.
        -- mcase.
        -- mcase.
      * apply dll_single. split; mcase.
    + intros x Hx. specialize (Hid x Hx). mcase.
    + intros x. mcase.
Qed.

(** The four cases of a removal, by the neighbours of the block. *)
Definition munlink (prev next : Z) : M ipc_state () :=
  if bool_decide (prev = NUM_IDS) then
    if bool_decide (next = NUM_IDS) then set_tail NUM_IDS ;; set_head NUM_IDS
    else set_head next ;; mupd next (with_mprev NUM_IDS)
  else
    if bool_decide (next = NUM_IDS) then set_tail prev ;; mupd prev (with_mnext NUM_IDS)
    else mupd prev (with_mnext next) ;; mupd next (with_mprev prev).

Lemma munlink_run s l p r :
  mq_rep s (l ++ p :: r) →
  m_prev (mlook s p) = last_or NUM_IDS l ∧ m_next (mlook s p) = first_or NUM_IDS r ∧ p ∉ l ++ r ∧
  ∃ s', munlink (last_or NUM_IDS l) (first_or NUM_IDS r) s = Ok () s' ∧ mq_rep s' (l ++ r) ∧ mq_frame s s'.
Proof.
  intros [Hnd Hrg Hh Ht Hl Hid]. apply dll_app in Hl as (Hll & Hp & Hn & Hlr).
  apply NoDup_app in Hnd as (Hndl & Hdisj & [Hpr Hndr]%NoDup_cons).
  assert (NoDup (l ++ r)) as Hnd' by (apply NoDup_app; set_solver).
  assert (∀ x, x ∈ l ++ r → 0 <= x < NUM_IDS) as Hrg' by (intros; apply Hrg; set_solver).
  assert (p ∉ l ++ r) as Hpl by set_solver. split; [exact Hp|]. split; [exact Hn|]. split; [done|].
  unfold munlink. rewrite last_or_app in Ht. rewrite first_or_app in Hh. cbn [first_or last_or] in *.
  destruct l as [|a l _] using rev_ind; [|rewrite last_or_snoc in *];
    (destruct r as [|b r]; cbn [first_or last_or app] in *);
    try (apply NoDup_cons in Hndr as [Hbr _]; assert (0 <= b < NUM_IDS) by (apply Hrg; set_solver));
    try (apply NoDup_app in Hndl as (_ & Hal & _); assert (a ∉ l) as Hal' by set_solver;
         assert (0 <= a < NUM_IDS) by (apply Hrg; set_solver)).
  - rewrite !bool_decide_eq_true_2 by done. mrun. eexists. split; [reflexivity|]. by split.
  - rewrite bool_decide_eq_true_2, bool_decide_eq_false_2 by (done || lia). mrun.
    eexists. split; [reflexivity|]. split; [split; [done|done|done|done| |]|split; [|done]].
    + apply (dll_relink_first (λ z, as_links (mlook s z)) _ p b r NUM_IDS); [done| | | |done];
        [intros z Hz; mcase|mcase|mcase].
    + intros x Hx. specialize (Hid x Hx). mcase.
    + intros x. mcase.
  - rewrite app_nil_r in *. rewrite bool_decide_eq_false_2, bool_decide_eq_true_2 by (done || lia). mrun.
    eexists. split; [reflexivity|]. split; [split; [done|done| | | |]|split; [|done]].
    + simpl. rewrite Hh, !first_or_app. by destruct l.
    + simpl. by rewrite last_or_snoc.
    + apply (dll_relink_last (λ z, as_links (mlook s z)) _ NUM_IDS l a p); [done| | | |done];
        [intros z Hz; mcase|mcase|mcase].
    + intros x Hx. specialize (Hid x Hx). mcase.
    + intros x. mcase.
  - assert (a ≠ b) by set_solver. rewrite !bool_decide_eq_false_2 by lia. mrun.
    eexists. split; [reflexivity|]. split; [split; [done|done| | | |]|split; [|done]].
    + simpl. rewrite Hh, !first_or_app. by destruct l.
    + simpl. by rewrite Ht, !last_or_app.
    + rewrite dll_app, last_or_snoc. split.
      * apply (dll_relink_last (λ z, as_links (mlook s z)) _ NUM_IDS l a p); [done| | | |done];
          [intros z Hz; mcase|mcase|mcase].
      * apply (dll_relink_first (λ z, as_links (mlook s z)) _ p b r NUM_IDS); [done| | | |done];
          [intros z Hz; mcase|mcase|mcase].
    + intros x Hx. specialize (Hid x Hx). mcase.
    + intros x. mcase.
Qed.

Lemma msg_remove_run s l p r :
  mq_rep s (l ++ p :: r) →
  ∃ s', msg_remove p s = Ok () s' ∧ mq_rep s' (l ++ r) ∧ mq_frame s s'.
Proof.
  intros Hq. assert (0 <= p < NUM_IDS) as Hp by (apply (mr_range _ _ Hq); set_solver).
  destruct (munlink_run s l p r Hq) as (Hpv & Hnx & Hn & s1 & Hr & [Hnd Hrg Hh Ht Hl Hid] & Hf & Hk & Hb).
  unfold msg_remove. rewrite (bind_Ok _ _ _ _ _ (mget_Ok p s Hp)), Hpv, Hnx.
  fold (munlink (last_or NUM_IDS l) (first_or NUM_IDS r)). rewrite (bind_Ok _ _ _ _ _ Hr). mrun.
  eexists. split; [reflexivity|]. split; [split; [done|done|done|done| |]|split; [|done]].
  - apply (dll_ext (λ x, as_links (mlook s1 x))); [|done]. intros x Hx. mcase.
  - intros x Hx. specialize (Hid x Hx). mcase.
  - intros x. rewrite <- Hf. mcase.
Qed.

(** A sender is found exactly when it waits. *)
Lemma find_send_run s target : ∀ q p fuel,
  (∀ x, x ∈ q → 0 <= x < NUM_IDS ∧ send_pid (mlook s x) = x) →
  dll (λ x, as_links (mlook s x)) p q NUM_IDS → (length q <= fuel)%nat →
  find_send fuel target (first_or NUM_IDS q) s = Ok (if decide (target ∈ q) then target else NUM_IDS) s.
Proof.
  induction q as [|x q IH]; intros p fuel Hid Hl Hlen; cbn [first_or].
  - rewrite decide_False by set_solver. by destruct fuel.
  - destruct fuel as [|fuel]; [simpl in Hlen; lia|]. destruct (Hid x) as [Hx Hxi]; [set_solver|].
    destruct Hl as (_ & Hn & Hl). simpl find_send. rewrite bool_decide_eq_false_2 by lia.
    rewrite (bind_Ok _ _ _ _ _ (mget_Ok x s Hx)), Hxi.
    destruct (decide (x = target)) as [->|Hne].
    + rewrite bool_decide_eq_true_2 by done. by rewrite decide_True by set_solver.
    + rewrite bool_decide_eq_false_2 by done. change (m_next (mlook s x)) with (next (as_links (mlook s x))).
      rewrite Hn, (IH x fuel); [|set_solver|done|simpl in Hlen; lia].
      destruct (decide (target ∈ q)); [rewrite decide_True by set_solver|rewrite decide_False by set_solver]; done.
Qed.

Lemma getBlockBySendID_run s q target :
  mq_rep s q →
  msg_getBlockBySendID target s = Ok (if decide (target ∈ q) then target else NUM_IDS) s.
Proof.
  intros [Hnd Hrg Hh Ht Hl Hid]. unfold msg_getBlockBySendID.
  rewrite (bind_Ok (gets _) _ s (m_head (msgQueue s)) s eq_refl), Hh.
  apply (find_send_run s target q NUM_IDS); [auto|done|].
  transitivity (length (seqZ 0 NUM_IDS)); [|by rewrite length_seqZ].
  apply submseteq_length, NoDup_submseteq; [done|]. intros x Hx. apply elem_of_seqZ. specialize (Hrg x Hx). lia.
Qed.

(** ** The copy *)

(** Bytes of one process are not disturbed by stores into another. *)
Lemma ubytes_other s p lo hi r va data s' va' len :
  uregion s p lo hi → user_written s r va data s' → r ≠ p → lo <= va' → va' + len <= hi →
  ubytes s' p va' len = ubytes s p va' len.
Proof.
  intros [Hwf Hp Hlo Hhi Hpr] (_ & _ & _ & _ & Hw) Hne H1 H2. unfold ubytes.
  apply list_fmap_ext. intros i v Hi. apply lookup_seqZ in Hi as [-> Hi].
  rewrite Hw; [|done|unfold user_va; lia|apply Hpr; lia]. rewrite decide_False; [done|]. intros [? _]. congruence.
Qed.

Lemma uregion_other s p lo hi r va data s' :
  uregion s p lo hi → user_written s r va data s' → uregion s' p lo hi.
Proof.
  intros [Hwf Hp Hlo Hhi Hpr] (Hwf' & _ & _ & Ht & _). split; [done..|].
  intros v Hv. unfold present. rewrite Ht; [by apply Hpr|done|unfold user_va; lia].
Qed.

Lemma ubytes_split c p va n m :
  0 <= n → 0 <= m → ubytes c p va (n + m) = ubytes c p va n ++ ubytes c p (va + n) m.
Proof. intros. unfold ubytes. by rewrite seqZ_app, fmap_app by done. Qed.

(** The first block of a copy, and the state it leaves for the rest. *)
Lemma ipc_chunk_run (c : pt_state) r dst p src n k buf :
  uregion c r dst (dst + n) → uregion c p src (src + n) → r ≠ p → 0 < k <= n → k <= MSG_BUF_SIZE →
  let got := ubytes c p src k in
  ∃ c', pt_copyin p src KBUF k c = Ok (k, got) c ∧
    pt_copyout KBUF (take (Z.to_nat k) (overwrite got buf)) r dst c = Ok k c' ∧
    user_written c r dst got c' ∧ uregion c' r dst (dst + n) ∧ uregion c' p src (src + n).
Proof.
  intros Rr Rp Hne Hk Hb got. unfold MSG_BUF_SIZE in Hb.
  assert (length got = Z.to_nat k) as Hlen by (apply ubytes_length; lia).
  pose proof Rr as [Hwf Hr1 Hrl Hrh Hrp]. pose proof Rp as [_ Hp1 Hpl Hph Hpp].
  destruct (pt_copyout_run c r dst KBUF got Hwf Hr1) as (c' & Hco & Hw);
    [unfold user_range; lia|apply kern_range_KBUF; lia|intros v Hv; apply Hrp; lia|].
  exists c'. split; [apply pt_copyin_run; [done|done|lia|unfold user_range; lia|apply kern_range_KBUF; lia|intros v Hv; apply Hpp; lia]|].
  unfold overwrite. rewrite <- Hlen, take_app_length.
  split; [rewrite Hco, Hlen; do 2 f_equal; lia|]. split; [done|].
  split; [by apply (uregion_written c r dst (dst + n) dst got)|by apply (uregion_other c p src (src + n) r dst got)].
Qed.

Lemma uregion_shift c p lo hi k : uregion c p lo hi → 0 <= k → uregion c p (lo + k) hi.
Proof. intros [? ? ? ? Hpr] Hk. split; [done|done|lia|done|]. intros v Hv. apply Hpr. lia. Qed.

Lemma ubytes_only_in s p lo hi r a b s' va len :
  uregion s p lo hi → only_in s r a b s' → lo <= va → va + len <= hi →
  (p = r → va + len <= a ∨ b <= va) → ubytes s' p va len = ubytes s p va len.
Proof.
  intros [Hwf Hp Hlo Hhi Hpr] [_ Ho] H1 H2 Hd. unfold ubytes.
  apply list_fmap_ext. intros i v Hi. apply lookup_seqZ in Hi as [-> Hi].
  apply Ho; [done|unfold user_va; lia|apply Hpr; lia|]. intros E. specialize (Hd E). lia.
Qed.

Lemma only_in_mono s p lo hi lo' hi' s' :
  only_in s p lo hi s' → lo' <= lo → hi <= hi' → only_in s p lo' hi' s'.
Proof.
  intros [Ht Ho] H1 H2. split; [done|]. intros q v Hq Hv Hpr Hn. apply Ho; [done..|].
  intros E. specialize (Hn E). lia.
Qed.

Lemma ipc_copy_loop_run : ∀ fuel (c : pt_state) r dst p src n buf,
  uregion c r dst (dst + n) → uregion c p src (src + n) → r ≠ p → 0 <= n <= Z.of_nat fuel →
  ∃ c' buf', ipc_copy_loop fuel KBUF r dst p src n buf c = Ok buf' c' ∧
    ubytes c' r dst n = ubytes c p src n ∧ only_in c r dst (dst + n) c' ∧ pt_cont c' = pt_cont c.
Proof.
  induction fuel as [|fuel IH]; intros c r dst p src n buf Rr Rp Hne Hn.
  { exists c, buf. assert (n = 0) as -> by lia. done. }
  cbn [ipc_copy_loop]. destruct (decide (n = 0)) as [->|Hn0]; [by exists c, buf|].
  rewrite (bool_decide_eq_true_2 (n > 0)) by lia.
  set (k := if bool_decide (n < MSG_BUF_SIZE) then n else MSG_BUF_SIZE).
  assert (0 < k <= n ∧ k <= MSG_BUF_SIZE) as [Hk Hkb].
  { unfold k. unfold MSG_BUF_SIZE. case_bool_decide; lia. }
  destruct (ipc_chunk_run c r dst p src n k buf Rr Rp Hne Hk Hkb) as (c1 & Hin & Hout & Hw & Rr1 & Rp1).
  cbv zeta. rewrite (bind_Ok _ _ _ _ _ Hin). cbn [fst snd]. rewrite (bind_Ok _ _ _ _ _ Hout).
  pose proof (ur_hi _ _ _ _ Rr) as B1. pose proof (ur_lo _ _ _ _ Rr) as B2.
  pose proof (ur_hi _ _ _ _ Rp) as B3. pose proof (ur_lo _ _ _ _ Rp) as B4.
  change VM_USERHI with 4026531840 in *. change VM_USERLO with 1073741824 in *.
  rewrite !u32_small by (unfold is_u32, W32; lia).
  pose proof (uregion_shift _ _ _ _ k Rr1 ltac:(lia)) as Rr2.
  pose proof (uregion_shift _ _ _ _ k Rp1 ltac:(lia)) as Rp2.
  replace (dst + n) with (dst + k + (n - k)) in Rr2 by lia.
  replace (src + n) with (src + k + (n - k)) in Rp2 by lia.
  destruct (IH c1 r (dst + k) p (src + k) (n - k) (overwrite (ubytes c p src k) buf) Rr2 Rp2 Hne ltac:(lia)) as (c2 & buf2 & Hrun & Hsame & Honly & Hcont).
  exists c2, buf2. split; [exact Hrun|].
  assert (Z.of_nat (length (ubytes c p src k)) = k) as Hlen by (rewrite ubytes_length by lia; lia).
  split; [|split].
  - replace n with (k + (n - k)) by lia. rewrite !ubytes_split by lia. rewrite Hsame. f_equal.
    + rewrite (ubytes_only_in c1 r dst (dst + n) r _ _ c2 _ _ Rr1 Honly) by lia.
      rewrite <- Hlen at 1. apply (ubytes_there c r dst (dst + n) dst _ c1 Rr Hw); lia.
    + apply (ubytes_other c p src (src + n) r dst (ubytes c p src k)); [done|done|done|lia|lia].
  - apply (only_in_trans _ _ _ _ c1); [apply (only_in_written c r _ _ dst _ c1 Hw); lia|].
    apply (only_in_mono c1 r _ _ _ _ c2 Honly); lia.
  - rewrite Hcont. apply Hw.
Qed.

Lemma ipc_copy_run (s : k_state) r dst p src n buf :
  uregion (kpt s) r dst (dst + n) → uregion (kpt s) p src (src + n) → r ≠ p → 0 <= n →
  ∃ (c : pt_state) buf', zoom (ipc_copy KBUF r dst p src n buf) s = Ok buf' (put c s) ∧
    ubytes c r dst n = ubytes (kpt s) p src n ∧ only_in (kpt s) r dst (dst + n) c.
Proof.
  intros Rr Rp Hne Hn.
  destruct (ipc_copy_loop_run (Z.to_nat n) (kpt s) r dst p src n buf Rr Rp Hne ltac:(lia))
    as (c & buf' & Hrun & H1 & H2 & _).
  exists c, buf'. split; [|done]. exact (zoom_Ok (S:=k_state) _ s _ _ Hrun).
Qed.

(** ** The meeting of a sender and a receiver *)

#[global, program] Instance msg_lkref_ok : LockRef msg_lkref.
Next Obligation. done. Qed.
Next Obligation. done. Qed.
Next Obligation. done. Qed.

Lemma mq_rep_message s q p r n a :
  mq_rep s q → mq_rep (set_mblk p (with_message r n a (mlook s p)) s) q.
Proof.
  intros [Hnd Hrg Hh Ht Hl Hid]. split; [done|done|done|done| |].
  - apply (dll_links (λ x, as_links (mlook s x))); [|done]. intros x _. rewrite mlook_set. by case_decide; subst.
  - intros x Hx. specialize (Hid x Hx). rewrite mlook_set. by case_decide; subst.
Qed.

Lemma mq_rep_lock s q lk : mq_rep s q → mq_rep (set_msg_lock lk s) q.
Proof. intros []. by split. Qed.

Lemma mq_rep_buf s q b : mq_rep s q → mq_rep (set_msg_buf b s) q.
Proof. intros []. by split. Qed.

Lemma k_ipc_read {A} (m : M ipc_state A) (s : k_state) x :
  m (k_ipc s) = Ok x (k_ipc s) → zoom m s = Ok x s.
Proof.
  intros H. pose proof (zoom_Ok (S:=k_state) (C:=ipc_state) m s _ _ H) as E.
  exact (eq_trans E (f_equal (Ok x) (put_view (S:=k_state) (C:=ipc_state) s))).
Qed.

(** Process [p] waits with a message for [r]: [n] bytes at [src]. *)
Record waits (s : k_state) (q : list Z) (p r src n : Z) : Prop := {
  wt_rep : mq_rep (k_ipc s) q;
  wt_in : p ∈ q;
  wt_msg : message (mlook (k_ipc s) p) = (s32 r, s32 n, s32 src)
}.

Lemma sync_send_run (s : k_state) a tf p q r src n :
  current s = p → sched_rep (kth s) a → ready a ≠ [] → msg_lock (k_ipc s) = spinlock_init →
  mq_rep (k_ipc s) q → p ∉ q →
  syscall_get_arg2 tf = r → syscall_get_arg3 tf = src → syscall_get_arg4 tf = n →
  ∃ s1 a1, sys_sync_send tf s = Ok (SegSleep ()) s1 ∧ waits s1 (q ++ [p]) p r src n ∧
    a_sleep (ChRecv p) (a_wakeup (ChSend p) a) = Some a1 ∧ sched_rep (kth s1) a1 ∧
    kpt s1 = kpt s ∧ msg_lock (k_ipc s1) = spinlock_init.
Proof.
  intros Hcur Hsr Hrd Hlk Hq Hn Hr Ha Hl.
  assert (cur a = p) as Hca by (rewrite <- Hcur; symmetry; exact (sr_cur _ _ (proj2 Hsr))).
  pose proof (sr_range _ _ (proj2 Hsr)) as Hp. rewrite Hca in Hp.
  unfold sys_sync_send, msg_acquire.
  rewrite (bind_Ok _ _ _ _ _ (spinlock_acquire_free (lk_get msg_lkref) (lk_set msg_lkref) s Hlk)).
  set (s0 := lk_set msg_lkref locked s). rewrite Hr, Ha, Hl. cbv zeta.
  rewrite (bind_Ok _ _ _ _ _ (curid_run s0)). change (current s0) with (current s). rewrite Hcur.
  set (i1 := set_mblk p (with_message (s32 r) (s32 n) (s32 src) (mlook (k_ipc s0) p)) (k_ipc s0)).
  assert (zoom (mupd p (with_message (s32 r) (s32 n) (s32 src))) s0 = Ok () (put i1 s0)) as Hm
    by (exact (zoom_Ok (S:=k_state) (C:=ipc_state) _ s0 _ _ (mupd_Ok p _ (k_ipc s0) Hp))).
  rewrite (bind_Ok _ _ _ _ _ Hm).
  assert (mq_rep i1 q) as Hq1 by (apply mq_rep_message, mq_rep_lock; exact Hq).
  destruct (msg_enqueue_run i1 q p Hq1 Hp Hn) as (i2 & He & Hq2 & Hf2).
  assert (zoom (msg_enqueue p) (put i1 s0) = Ok () (put i2 s0)) as Hz
    by (exact (zoom_Ok (S:=k_state) (C:=ipc_state) (msg_enqueue p) (put i1 s0) _ _ He)).
  rewrite (bind_Ok _ _ _ _ _ Hz).
  destruct (thread_wakeup_run (kth s) a (ChSend p) Hsr) as (t & Hw & Ht & Hfr).
  assert (zoom (thread_wakeup (Some (ChSend p))) (put i2 s0) = Ok () (put t (put i2 s0))) as Hwz
    by (exact (zoom_Ok (S:=k_state) (C:=th_state) _ (put i2 s0) _ _ Hw)).
  rewrite (bind_Ok _ _ _ _ _ Hwz).
  set (s2 := put t _ : k_state). unfold sync_send_seg.
  assert (zoom (msg_getBlockBySendID p) s2 = Ok p s2) as Hg.
  { pose proof (getBlockBySendID_run i2 (q ++ [p]) p Hq2) as H. rewrite decide_True in H by set_solver.
    exact (k_ipc_read _ s2 p H). }
  rewrite (bind_Ok _ _ _ _ _ Hg), (bool_decide_eq_true_2 (p ≠ NUM_IDS)) by lia.
  destruct (a_sleep (ChRecv p) (a_wakeup (ChSend p) a)) as [a1|] eqn:Ea.
  2: { exfalso. unfold a_sleep in Ea. simpl in Ea. by destruct (ready a). }
  assert (kth s2 = t) as Ev by (exact (view_put (S:=k_state) (C:=th_state) t (put i2 s0))).
  rewrite <- Ev in Ht, Hfr.
  destruct (thread_sleep_run msg_lkref s2 (a_wakeup (ChSend p) a) a1 (ChRecv p) Ht Ea)
    as (t2 & s3 & Hen & _ & Es3 & Hv3 & Hr3 & Hfr3).
  rewrite (bind_Ok _ _ _ _ _ Hen). exists s3, a1. split; [done|]. subst s3.
  split; [|split; [done|split; [by rewrite Hv3|split; [|done]]]].
  - split; [by apply mq_rep_lock|set_solver|].
    transitivity (message (mlook i1 p)); [exact (proj1 Hf2 p)|]. unfold i1. rewrite mlook_set. by rewrite decide_True.
  - transitivity (tcb_pt (tq_tcb (th_tq t2))); [done|]. rewrite (proj1 Hfr3). exact (proj1 Hfr).
Qed.

(** The number of bytes a receiver asks for and a sender offers. *)
Definition both (n m : Z) : Z := if bool_decide (n < m) then n else m.

(** The end of [sys_sync_recv], after the copy. *)
Lemma recv_finish {A} (s : k_state) a l p rr buf (x : A) :
  mq_rep (k_ipc s) (l ++ p :: rr) → sched_rep (kth s) a →
  ∃ s', (zoom (modify (set_msg_buf buf)) ;; zoom (msg_remove p) ;;
         zoom (thread_wakeup (Some (ChRecv p))) ;; msg_release ;; mret x) s = Ok x s' ∧
    kpt s' = kpt s ∧ mq_rep (k_ipc s') (l ++ rr) ∧ sched_rep (kth s') (a_wakeup (ChRecv p) a) ∧
    msg_lock (k_ipc s') = spinlock_init.
Proof.
  intros Hq Hsr. set (i1 := set_msg_buf buf (k_ipc s)).
  assert (zoom (modify (set_msg_buf buf)) s = Ok () (put i1 s)) as H1
    by (exact (zoom_Ok (S:=k_state) (C:=ipc_state) _ s () i1 eq_refl)).
  rewrite (bind_Ok _ _ _ _ _ H1).
  destruct (msg_remove_run i1 l p rr (mq_rep_buf _ _ buf Hq)) as (i2 & Hr & Hq2 & _).
  assert (zoom (msg_remove p) (put i1 s) = Ok () (put i2 s)) as H2
    by (exact (zoom_Ok (S:=k_state) (C:=ipc_state) (msg_remove p) (put i1 s) _ _ Hr)).
  rewrite (bind_Ok _ _ _ _ _ H2).
  destruct (thread_wakeup_run (kth s) a (ChRecv p) Hsr) as (t & Hw & Ht & Hfr).
  assert (zoom (thread_wakeup (Some (ChRecv p))) (put i2 s) = Ok () (put t (put i2 s))) as H3
    by (exact (zoom_Ok (S:=k_state) (C:=th_state) _ (put i2 s) _ _ Hw)).
  rewrite (bind_Ok _ _ _ _ _ H3). eexists. split; [reflexivity|].
  split; [exact (proj1 Hfr)|]. split; [exact (mq_rep_lock _ _ spinlock_init Hq2)|]. split; [|reflexivity].
  assert (kth (put t (put i2 s)) = t) as Ev by (exact (view_put (S:=k_state) (C:=th_state) t (put i2 s))).
  rewrite <- Ev in Ht. exact Ht.
Qed.

Lemma sync_recv_run (s : k_state) a tf r p l rr src n dst m :
  let k := both n m in
  current s = r → sched_rep (kth s) a → msg_lock (k_ipc s) = spinlock_init →
  waits s (l ++ p :: rr) p r src n →
  syscall_get_arg2 tf = p → syscall_get_arg3 tf = dst → syscall_get_arg4 tf = m →
  is_u32 n → 0 <= m → k < 2147483648 → r ≠ p →
  uregion (kpt s) r dst (dst + k) → uregion (kpt s) p src (src + k) →
  ∃ s', sys_sync_recv tf s = Ok (SegDone (syscall_set_retval1 k (syscall_set_errno E_SUCC tf))) s' ∧
    ubytes (kpt s') r dst k = ubytes (kpt s) p src k ∧ only_in (kpt s) r dst (dst + k) (kpt s') ∧
    mq_rep (k_ipc s') (l ++ rr) ∧ sched_rep (kth s') (a_wakeup (ChRecv p) a) ∧
    msg_lock (k_ipc s') = spinlock_init.
Proof.
  intros k Hcur Hsr Hlk [Hq Hin Hmsg] Hf Hd Hm Hn Hm0 Hk Hne Rr Rp.
  pose proof Rr as [_ Hr _ _ _]. pose proof Rp as [_ Hp Hsl Hsh _].
  assert (0 <= k) as Hk0 by (unfold k, both; unfold is_u32 in Hn; case_bool_decide; lia).
  change VM_USERLO with 1073741824 in Hsl. change VM_USERHI with 4026531840 in Hsh.
  assert (s32 p = p) as Ep by (apply s32_small; unfold is_s32, NUM_IDS in *; lia).
  assert (u32 (s32 r) = r) as Er by (rewrite u32_s32; apply u32_small; unfold is_u32, W32, NUM_IDS in *; lia).
  assert (u32 (s32 n) = n) as En by (rewrite u32_s32; by apply u32_small).
  assert (u32 (s32 src) = src) as Es by (rewrite u32_s32; apply u32_small; unfold is_u32, W32; lia).
  assert (s32 k = k) as Ek by (apply s32_small; unfold is_s32; lia).
  unfold sys_sync_recv, msg_acquire.
  rewrite (bind_Ok _ _ _ _ _ (spinlock_acquire_free (lk_get msg_lkref) (lk_set msg_lkref) s Hlk)).
  set (s0 := lk_set msg_lkref locked s).
  rewrite (bind_Ok _ _ _ _ _ (curid_run s0)). change (current s0) with (current s). rewrite Hcur.
  unfold sync_recv_seg. rewrite Hf, Hd, Hm, Ep. cbv zeta.
  assert (mq_rep (k_ipc s0) (l ++ p :: rr)) as Hq0 by (exact (mq_rep_lock _ _ locked Hq)).
  assert (zoom (msg_getBlockBySendID p) s0 = Ok p s0) as Hg.
  { pose proof (getBlockBySendID_run _ _ p Hq0) as H. rewrite decide_True in H by done. exact (k_ipc_read _ s0 p H). }
  rewrite (bind_Ok _ _ _ _ _ Hg), (bool_decide_eq_false_2 (p = NUM_IDS)) by (unfold NUM_IDS in *; lia).
  set (b := mlook (k_ipc s0) p).
  assert (zoom (mget p) s0 = Ok b s0) as Hb by (exact (k_ipc_read _ s0 _ (mget_Ok p (k_ipc s0) ltac:(lia)))).
  assert (message b = (s32 r, s32 n, s32 src)) as Hmb by (exact Hmsg). injection Hmb as B1 B2 B3.
  erewrite bind_Ok; [|rewrite (bind_Ok _ _ _ _ _ Hb), B1, Er, (bool_decide_eq_false_2 (r ≠ r)) by tauto; reflexivity].
  cbv beta iota. rewrite (bind_Ok _ _ _ _ _ Hb), B2, B3, En, Es. fold (both n m). fold k. rewrite Ek.
  rewrite (bind_Ok (gets _) _ s0 (msg_buf (k_ipc s0)) s0 eq_refl).
  destruct (ipc_copy_run s0 r dst p src k (msg_buf (k_ipc s0)) Rr Rp Hne Hk0) as (c & buf' & Hc & Hsame & Honly).
  rewrite (bind_Ok _ _ _ _ _ Hc).
  destruct (recv_finish (put c s0) a l p rr buf'
      (SegDone (syscall_set_retval1 k (syscall_set_errno E_SUCC tf)) : seg tf_t ()))
    as (s2 & Hrun & Hpt & Hrest); [exact Hq0|by apply sched_rep_put_pt|].
  exists s2. split; [exact Hrun|]. rewrite Hpt. change (kpt (put c s0)) with c.
  split; [exact Hsame|]. split; [exact Honly|exact Hrest].
Qed.

(** A sender that is no longer in the queue returns. *)
Lemma sync_send_resume_run (s : k_state) a tf p q :
  current s = p → sched_rep (kth s) a → msg_lock (k_ipc s) = spinlock_init →
  mq_rep (k_ipc s) q → p ∉ q →
  ∃ s', sync_send_resume p tf s = Ok (SegDone (syscall_set_errno E_SUCC tf)) s' ∧ kpt s' = kpt s ∧
    mq_rep (k_ipc s') q ∧ sched_rep (kth s') a.
Proof.
  intros Hcur Hsr Hlk Hq Hn.
  assert (cur a = p) as Hca by (rewrite <- Hcur; symmetry; exact (sr_cur _ _ (proj2 Hsr))).
  destruct (sleep_resume_run (kth s) a Hsr) as (t & Hr & Ht & Hfr). rewrite Hca in Hr.
  set (s1 := put t s : k_state). set (s2 := lk_set msg_lkref locked s1).
  assert (thread_sleep_resume p msg_lkref s = Ok () s2) as H1.
  { unfold thread_sleep_resume.
    rewrite (bind_Ok _ _ _ _ _ (zoom_Ok (S:=k_state) (C:=th_state) _ s _ _ Hr)).
    exact (spinlock_acquire_free (lk_get msg_lkref) (lk_set msg_lkref) s1 Hlk). }
  unfold sync_send_resume. rewrite (bind_Ok _ _ _ _ _ H1). unfold sync_send_seg.
  assert (zoom (msg_getBlockBySendID p) s2 = Ok NUM_IDS s2) as Hg.
  { pose proof (getBlockBySendID_run _ _ p (mq_rep_lock _ _ locked Hq)) as H. rewrite decide_False in H by done.
    exact (k_ipc_read _ s2 NUM_IDS H). }
  rewrite (bind_Ok _ _ _ _ _ Hg), (bool_decide_eq_false_2 (NUM_IDS ≠ NUM_IDS)) by tauto.
  eexists. split; [reflexivity|]. split; [exact (proj1 Hfr)|]. split; [exact (mq_rep_lock _ _ spinlock_init Hq)|].
  assert (kth s1 = t) as Ev by (exact (view_put (S:=k_state) (C:=th_state) t s)).
  rewrite <- Ev in Ht. exact Ht.
Qed.

(** C19: a synchronous message is delivered and both sides return.  A [send] queues the
    caller behind the senders already waiting and puts it to sleep.  In any later state in
    which it still waits for the process that runs, the [recv] of that process returns the
    smaller of the two lengths, stores exactly the sender's bytes into the receiver's buffer
    and nothing else, takes exactly that sender out of the queue and wakes it; and a sender
    that is out of the queue returns from [send] when it runs again. *)
Theorem message_rendezvous (s : k_state) a tf p q r src n :
  current s = p → sched_rep (kth s) a → ready a ≠ [] → msg_lock (k_ipc s) = spinlock_init →
  mq_rep (k_ipc s) q → p ∉ q → is_u32 n →
  syscall_get_arg2 tf = r → syscall_get_arg3 tf = src → syscall_get_arg4 tf = n →
  (∃ s1 a1, sys_sync_send tf s = Ok (SegSleep ()) s1 ∧ waits s1 (q ++ [p]) p r src n ∧
     a_sleep (ChRecv p) (a_wakeup (ChSend p) a) = Some a1 ∧ sched_rep (kth s1) a1 ∧ kpt s1 = kpt s ∧
     msg_lock (k_ipc s1) = spinlock_init) ∧
  (∀ s2 a2 tf2 l rr dst m, let k := both n m in
     current s2 = r → sched_rep (kth s2) a2 → msg_lock (k_ipc s2) = spinlock_init →
     waits s2 (l ++ p :: rr) p r src n →
     syscall_get_arg2 tf2 = p → syscall_get_arg3 tf2 = dst → syscall_get_arg4 tf2 = m →
     0 <= m → k < 2147483648 → r ≠ p →
     uregion (kpt s2) r dst (dst + k) → uregion (kpt s2) p src (src + k) →
     ∃ s3, sys_sync_recv tf2 s2 = Ok (SegDone (syscall_set_retval1 k (syscall_set_errno E_SUCC tf2))) s3 ∧
       ubytes (kpt s3) r dst k = ubytes (kpt s2) p src k ∧ only_in (kpt s2) r dst (dst + k) (kpt s3) ∧
       mq_rep (k_ipc s3) (l ++ rr) ∧ sched_rep (kth s3) (a_wakeup (ChRecv p) a2) ∧
       msg_lock (k_ipc s3) = spinlock_init) ∧
  (∀ s4 a4 q4, current s4 = p → sched_rep (kth s4) a4 → msg_lock (k_ipc s4) = spinlock_init →
     mq_rep (k_ipc s4) q4 → p ∉ q4 →
     ∃ s5, sync_send_resume p tf s4 = Ok (SegDone (syscall_set_errno E_SUCC tf)) s5 ∧ kpt s5 = kpt s4).
Proof.
  intros Hcur Hsr Hrd Hlk Hq Hn Hu Hr Ha Hl. split; [by apply (sync_send_run s a)|]. split.
  - intros s2 a2 tf2 l rr dst m k ? ? ? ? ? ? ? ? ? ? ? ?. by apply (sync_recv_run s2 a2 tf2 r p l rr src n dst m).
  - intros s4 a4 q4 H1 H2 H3 H4 H5.
    destruct (sync_send_resume_run s4 a4 tf p q4 H1 H2 H3 H4 H5) as (s5 & H & Hpt & _). by exists s5.
Qed.

(** ** Boot and an exchange *)

Lemma ipc_init_run s :
  ∃ s', ipc_init s = Ok () s' ∧ mq_rep s' [] ∧ msg_lock s' = spinlock_init.
Proof.
  unfold ipc_init. rewrite (bind_Ok (modify _) _ s () (set_msg_lock spinlock_init s) eq_refl).
  destruct (for_range_inv (λ i s', msg_lock s' = spinlock_init ∧ ∀ x, 0 <= x < i → send_pid (mlook s' x) = x)
    (λ i, mupd i (λ _, {| m_prev := NUM_IDS; m_next := NUM_IDS; send_pid := i; recv_pid := NUM_IDS;
                          m_length := 0; buffer_addr := 0 |})) 0 NUM_IDS (set_msg_lock spinlock_init s))
    as (s' & Hr & Hlk & Hid).
  - unfold NUM_IDS. lia.
  - split; [done|lia].
  - intros i s1 Hi [Hlk Hid]. rewrite mupd_Ok by done. eexists. split; [reflexivity|]. split; [done|].
    intros x Hx. rewrite mlook_set. case_decide; [by subst|]. apply Hid. lia.
  - rewrite (bind_Ok _ _ _ _ _ Hr). clear Hr. eexists. split; [reflexivity|]. split; [|exact Hlk].
    split; [constructor|set_solver|reflexivity|reflexivity|exact I|exact Hid].
Qed.

(** Processes 1, which runs, and 2, which is ready. *)
Definition pair (c : pt_state) : th_state :=
  {| th_tq := {| tq_tcb := {| tcb_pt := c; TCBPool := {[ 1 := with_state TSTATE_RUN TCB_zero;
                   2 := with_prev NUM_IDS (with_next NUM_IDS TCB_zero) ]} |};
                 TQueuePool := {[ (cpu_idx, NUM_IDS) := {| head := 2; tail := 2 |} ]} |};
     CURID := {[ cpu_idx := 1 ]}; kctx_pool := ∅; proc_kstack_addr := 0; cpu := kctx_zero;
     sched_ticks := ∅; sched_lk := spinlock_init |}.

Definition pair_a : sched := {| cur := 1; ready := [2]; asleep := ∅ |}.

Lemma pair_rep c : sched_rep (pair c) pair_a.
Proof.
  split; [done|]. split; simpl; try done.
  - split; [apply NoDup_singleton| |done|done|by split].
    intros x ->%list_elem_of_singleton. unfold NUM_IDS. lia.
  - set_solver.
  - intros p ->%list_elem_of_singleton. done.
  - intros p ch. rewrite lookup_empty. split; [done|]. intros (_ & Hst & _). exfalso. revert Hst.
    unfold tcb_look, alook; simpl. destruct (decide (p = 1)) as [->|H1]; [done|].
    rewrite lookup_insert_ne by done. destruct (decide (p = 2)) as [->|H2]; [by rewrite lookup_singleton_eq|].
    by rewrite lookup_singleton_ne.
Qed.

Definition sample_pair (c : pt_state) (i : ipc_state) : k_state := put i (k_around (pair c)).

Definition msg_frame (peer va n : Z) : tf_t :=
  set_regs {| edi := 0; esi := 0; ebp := 0; oesp := 0; ebx := peer; edx := n; ecx := va; eax := SYS_sync_send |} tf_zero.

Definition sent_a : sched := {| cur := 2; ready := []; asleep := {[ 1 := ChRecv 1 ]} |}.

Lemma sent_back : a_yield (a_wakeup (ChRecv 1) sent_a) = pair_a.
Proof. by vm_compute. Qed.

(** Process 1 sends five bytes, process 2 receives at most three, and process 1 returns. *)
Lemma message_rendezvous_witness :
  ∃ c i s1 s3 s4 s5, sys_sync_send (msg_frame 2 1073741900 5) (sample_pair c i) = Ok (SegSleep ()) s1 ∧
    sys_sync_recv (msg_frame 1 1073742000 3) s1 =
      Ok (SegDone (syscall_set_retval1 3 (syscall_set_errno E_SUCC (msg_frame 1 1073742000 3)))) s3 ∧
    ubytes (kpt s3) 2 1073742000 3 = ubytes c 1 1073741900 3 ∧
    zoom thread_yield s3 = Ok () s4 ∧
    sync_send_resume 1 (msg_frame 2 1073741900 5) s4 =
      Ok (SegDone (syscall_set_errno E_SUCC (msg_frame 2 1073741900 5))) s5.
Proof.
  destruct sample_two as (c & Hwf & Hpr).
  destruct (ipc_init_run (k_ipc (k_around (pair c)))) as (i & _ & Hi & Hlk). exists c, i.
  destruct (message_rendezvous (sample_pair c i) pair_a (msg_frame 2 1073741900 5) 1 [] 2 1073741900 5)
    as ((s1 & a1 & H1 & Hw & Ha & Hs1 & Hpt & Hl1) & H2 & H3);
    [reflexivity|exact (pair_rep c)|discriminate|exact Hlk|exact Hi|set_solver|done|reflexivity|reflexivity|reflexivity|].
  assert (a1 = sent_a) as ->
    by (injection Ha as <-; reflexivity).
  assert (∀ p va n, p = 1 ∨ p = 2 → 1073741824 <= va → va + n <= 1073741824 + 4096 → uregion (kpt s1) p va (va + n)) as Hreg.
  { intros p va n Hp Hva Hn. rewrite Hpt. split; [exact Hwf|destruct Hp; unfold NUM_IDS; lia|exact Hva| |].
    - change VM_USERHI with 4026531840. lia.
    - intros v Hv. apply Hpr; [done|lia]. }
  destruct (H2 s1 sent_a (msg_frame 1 1073742000 3) [] [] 1073742000 3) as (s3 & R3 & B3 & _ & Q3 & S3 & L3);
    [exact (sr_cur _ _ (proj2 Hs1))|exact Hs1|exact Hl1|exact Hw|reflexivity|reflexivity|reflexivity|lia|done|done|
     apply Hreg; [by right|done|done]|apply Hreg; [by left|done|done]|].
  destruct (thread_yield_run (kth s3) _ S3) as (t & Hy & Ht & _). set (s4 := put t s3 : k_state).
  assert (kth s4 = t) as Ev by (exact (view_put (S:=k_state) (C:=th_state) t s3)). rewrite <- Ev in Ht.
  rewrite sent_back in Ht. destruct (H3 s4 pair_a []) as (s5 & R5 & _);
    [exact (sr_cur _ _ (proj2 Ht))|exact Ht|exact L3|exact Q3|apply not_elem_of_nil|].
  exists s1, s3, s4, s5. split; [exact H1|]. split; [exact R3|].
  split; [exact (eq_trans B3 (f_equal (λ c, ubytes c 1 1073741900 3) Hpt))|].
  split; [exact (zoom_Ok (S:=k_state) (C:=th_state) _ s3 _ _ Hy)|exact R5].
Defined.
