(* ===== verification/Shell.v ===== *)
(** * The command line of the shell (user/shell/shell.c)

    A line is parsed where it stands: the parser overwrites blanks and bars with NUL and
    keeps the positions of the words.  This file has that parser on a buffer of bytes, the
    pipelines that the shell starts, and the choice of the command. *)

From S2P Require Import Prelude.

Definition MAXARGS : nat := 16.
Definition BAR : Z := 124.

(** ** Buffers *)

(** A character array; positions outside it are not accessible. *)
Definition peek (i : nat) : M (list Z) Z := λ b,
  match b !! i with Some c => Ok c b | None => Undef end.

Definition poke (i : nat) (c : Z) : M (list Z) () := λ b,
  if bool_decide (i < length b)%nat then Ok () (<[i := c]> b) else Undef.

(** [strchr(WHITESPACE, c)] for a character other than NUL. *)
Definition is_ws (c : Z) : bool := bool_decide (c ∈ [9; 13; 10; 32]).

(** The string that starts at a position. *)
Fixpoint upto_nul (l : list Z) : list Z :=
  match l with
  | [] => []
  | c :: l => if bool_decide (c = 0) then [] else c :: upto_nul l
  end.

Definition cstr (b : list Z) (i : nat) : list Z := upto_nul (drop i b).

(** ** The parser *)

(** The loops move to the right at each round, so the length of the buffer is fuel enough. *)
Fixpoint zero_ws (fuel : nat) (cmd : nat) : M (list Z) nat :=
  match fuel with
  | O => spin
  | S fuel =>
      c ← peek cmd;
      if bool_decide (c ≠ 0) && is_ws c then poke cmd 0 ;; zero_ws fuel (S cmd) else mret cmd
  end.

(** [while ( *p && test( *p)) p++;] *)
Fixpoint scan (test : Z → bool) (fuel : nat) (p : nat) : M (list Z) nat :=
  match fuel with
  | O => spin
  | S fuel =>
      c ← peek p;
      if bool_decide (c ≠ 0) && test c then scan test fuel (S p) else mret p
  end.

Definition skip_word : nat → nat → M (list Z) nat := scan (λ c, negb (is_ws c)).
Definition skip_ws : nat → nat → M (list Z) nat := scan is_ws.
Definition find_bar : nat → nat → M (list Z) nat := scan (λ c, bool_decide (c ≠ BAR)).

(** The positions of the words, or [None] when there are too many. *)
Fixpoint stage_loop (fuel : nat) (cmd : nat) (argv : list nat) : M (list Z) (option (list nat)) :=
  match fuel with
  | O => spin
  | S fuel' =>
      cmd ← zero_ws fuel cmd;
      c ← peek cmd;
      if bool_decide (c = 0) then mret (Some argv)
      else if bool_decide (length argv = MAXARGS - 1)%nat then mret None
      else
        next ← skip_word fuel cmd;
        stage_loop fuel' next (argv ++ [cmd])
  end.

Definition parse_stage (cmd : nat) : M (list Z) (option (list nat)) :=
  n ← gets length;
  stage_loop (S n) cmd [].

Fixpoint pipeline_loop (fuel : nat) (seg : nat) (stages : list (list nat))
    : M (list Z) (option (list (list nat))) :=
  match fuel with
  | O => spin
  | S fuel' =>
      seg ← skip_ws fuel seg;
      c ← peek seg;
      if bool_decide (c = 0) then mret (Some stages)
      else if bool_decide (length stages = MAXARGS) then mret None
      else
        end_ ← find_bar fuel seg;
        e ← peek end_;
        (if bool_decide (e = BAR) then poke end_ 0 else mret ()) ;;
        r ← parse_stage seg;
        match r with
        | None => mret None
        | Some argv =>
            if bool_decide (argv = []) then mret None
            else if bool_decide (e = BAR) then pipeline_loop fuel' (S end_) (stages ++ [argv])
            else mret (Some (stages ++ [argv]))
        end
  end.

Definition parse_pipeline (buf : nat) : M (list Z) (option (list (list nat))) :=
  n ← gets length;
  pipeline_loop (S n) buf [].

(** ** What it should give *)

(** The words of a text. *)
Fixpoint words_from (w : list Z) (l : list Z) : list (list Z) :=
  match l with
  | [] => if bool_decide (w = []) then [] else [w]
  | c :: l =>
      if is_ws c then (if bool_decide (w = []) then [] else [w]) ++ words_from [] l
      else words_from (w ++ [c]) l
  end.

Definition words (l : list Z) : list (list Z) := words_from [] l.

(** The segments between bars; there is at least one. *)
Fixpoint segments (l : list Z) : list (list Z) :=
  match l with
  | [] => [[]]
  | c :: l =>
      if bool_decide (c = BAR) then [] :: segments l
      else match segments l with [] => [[c]] | s :: ss => (c :: s) :: ss end
  end.

(** A blank rest ends the line; an empty segment, more than 15 words and more than 16 stages
    are errors. *)
Fixpoint stages_of (n : nat) (segs : list (list Z)) : option (list (list (list Z))) :=
  match segs with
  | [] => Some []
  | s :: ss =>
      if bool_decide (words s = []) && bool_decide (ss = []) then Some []
      else if bool_decide (n = MAXARGS) || bool_decide (words s = [])
              || bool_decide (MAXARGS - 1 < length (words s))%nat then None
      else rest ← stages_of (S n) ss; Some (words s :: rest)
  end.

(** ** The parser is right *)

Definition blank (c : Z) : Prop := is_ws c = true.
Definition solid (c : Z) : Prop := is_ws c = false.

(** A text falls into a first part where [f] holds and a rest that begins where it fails. *)
Lemma split_first (f : Z → bool) (l : list Z) :
  ∃ a r, l = a ++ r ∧ Forall (λ c, f c = true) a ∧ match r with [] => True | c :: _ => f c = false end.
Proof.
  induction l as [|c l (a & r & -> & Ha & Hr)]; [by exists [], []|].
  destruct (f c) eqn:E; [exists (c :: a), r; by split_and!; [|constructor|]|by exists [], (c :: a ++ r)].
Qed.

Lemma peek_app pre c post : peek (length pre) (pre ++ c :: post) = Ok c (pre ++ c :: post).
Proof. unfold peek. by rewrite list_lookup_middle. Qed.

Lemma poke_app pre c d post : poke (length pre) d (pre ++ c :: post) = Ok () (pre ++ d :: post).
Proof.
  unfold poke. rewrite bool_decide_eq_true_2 by (rewrite length_app; simpl; lia).
  by rewrite insert_app_r_alt, Nat.sub_diag by lia.
Qed.

Lemma snoc_app {A} (pre : list A) c post : pre ++ c :: post = (pre ++ [c]) ++ post.
Proof. by rewrite <- app_assoc. Qed.

Lemma ws_not_nul c : is_ws c = true → c ≠ 0.
Proof. unfold is_ws. intros H%bool_decide_eq_true. set_solver. Qed.

Lemma zero_ws_run : ∀ ws fuel pre c post,
  Forall blank ws → c = 0 ∨ solid c → (length ws < fuel)%nat →
  zero_ws fuel (length pre) (pre ++ ws ++ c :: post) =
    Ok (length pre + length ws)%nat (pre ++ replicate (length ws) 0 ++ c :: post).
Proof.
  induction ws as [|d ws IH]; intros fuel pre c post Hws Hc Hf; (destruct fuel as [|fuel]; [simpl in Hf; lia|]).
  - simpl. rewrite (bind_Ok _ _ _ _ _ (peek_app pre c post)).
    replace (bool_decide (c ≠ 0) && is_ws c) with false; [by rewrite Nat.add_0_r|].
    destruct Hc as [->|Hc]; [done|by rewrite Hc, andb_false_r].
  - apply Forall_cons in Hws as [Hd Hws]. cbn [zero_ws app].
    rewrite (bind_Ok _ _ _ _ _ (peek_app pre d _)).
    rewrite (bool_decide_eq_true_2 (d ≠ 0)) by (by apply ws_not_nul). rewrite Hd. cbn [andb].
    rewrite (bind_Ok _ _ _ _ _ (poke_app pre d 0 _)), snoc_app.
    replace (S (length pre)) with (length (pre ++ [0])) by (rewrite length_app; simpl; lia).
    rewrite IH by (done || simpl in Hf; lia). rewrite length_app. simpl. f_equal; [lia|].
    by rewrite <- app_assoc.
Qed.

Lemma scan_run test : ∀ w fuel pre c post,
  Forall (λ d, d ≠ 0 ∧ test d = true) w → c = 0 ∨ test c = false → (length w < fuel)%nat →
  scan test fuel (length pre) (pre ++ w ++ c :: post) = Ok (length pre + length w)%nat (pre ++ w ++ c :: post).
Proof.
  induction w as [|d w IH]; intros fuel pre c post Hw Hc Hf; (destruct fuel as [|fuel]; [simpl in Hf; lia|]).
  - simpl. rewrite (bind_Ok _ _ _ _ _ (peek_app pre c post)).
    replace (bool_decide (c ≠ 0) && test c) with false; [by rewrite Nat.add_0_r|].
    destruct Hc as [->| ->]; [done|by rewrite andb_false_r].
  - apply Forall_cons in Hw as [[Hd Hs] Hw]. cbn [scan app].
    rewrite (bind_Ok _ _ _ _ _ (peek_app pre d _)).
    rewrite (bool_decide_eq_true_2 (d ≠ 0)) by done. rewrite Hs. cbn [andb]. rewrite snoc_app.
    replace (S (length pre)) with (length (pre ++ [d])) by (rewrite length_app; simpl; lia).
    rewrite IH by (done || simpl in Hf; lia). rewrite length_app. simpl. f_equal. lia.
Qed.

Lemma words_blank ws l : Forall blank ws → words (ws ++ l) = words l.
Proof. unfold words. induction 1 as [|c ws Hc _ IH]; [done|]. simpl. by rewrite Hc. Qed.

Lemma words_from_solid v w rest :
  Forall solid w → words_from v (w ++ rest) = words_from (v ++ w) rest.
Proof.
  revert v. induction w as [|c w IH]; intros v Hw; [by rewrite app_nil_r|].
  apply Forall_cons in Hw as [Hc Hw]. simpl. rewrite Hc, IH by done. by rewrite <- app_assoc.
Qed.

Lemma words_word w rest :
  w ≠ [] → Forall solid w → match rest with [] => True | c :: _ => blank c end →
  words (w ++ rest) = w :: words rest.
Proof.
  intros Hne Hw Hr. unfold words. rewrite words_from_solid by done. simpl.
  destruct rest as [|c rest]; simpl; [by rewrite bool_decide_eq_false_2|].
  rewrite Hr. rewrite bool_decide_eq_false_2 by done. done.
Qed.

(** A text with its blanks overwritten. *)
Definition zap (l : list Z) : list Z := (λ c, if is_ws c then 0 else c) <$> l.

Lemma zap_cons c l : zap (c :: l) = (if is_ws c then 0 else c) :: zap l.
Proof. done. Qed.

Lemma zap_app l1 l2 : zap (l1 ++ l2) = zap l1 ++ zap l2.
Proof. apply fmap_app. Qed.

Lemma zap_blank ws : Forall blank ws → zap ws = replicate (length ws) 0.
Proof. induction 1 as [|c ws Hc _ IH]; [done|]. rewrite zap_cons, Hc, IH. done. Qed.

Lemma zap_solid w : Forall solid w → zap w = w.
Proof. induction 1 as [|c w Hc _ IH]; [done|]. by rewrite zap_cons, Hc, IH. Qed.

Lemma upto_nul_app w l : Forall (λ c, c ≠ 0) w → upto_nul (w ++ 0 :: l) = w.
Proof.
  induction 1 as [|c w Hc _ IH]; simpl; [done|].
  by rewrite (bool_decide_eq_false_2 (c = 0)), IH by done.
Qed.

(** Positions [ps] hold the strings [ws], whatever follows the NUL after [x]. *)
Definition holds (x : list Z) (ps : list nat) (ws : list (list Z)) : Prop :=
  ∀ y, cstr (x ++ 0 :: y) <$> ps = ws.

Lemma holds_cons x p w ps ws :
  (∀ y, cstr (x ++ 0 :: y) p = w) → holds x ps ws → holds x (p :: ps) (w :: ws).
Proof. intros H1 H2 y. by rewrite fmap_cons, H1, (H2 y). Qed.

(** A text is blank, or blanks, a word, and a rest that begins with a blank. *)
Lemma text_cases text :
  Forall (λ c, c ≠ 0) text →
  (Forall blank text ∧ words text = []) ∨
  ∃ ws w rest, text = ws ++ w ++ rest ∧ Forall blank ws ∧ w ≠ [] ∧ Forall (λ c, c ≠ 0 ∧ solid c) w ∧
    Forall (λ c, c ≠ 0) rest ∧ match rest with [] => True | c :: _ => blank c end ∧
    words text = w :: words rest.
Proof.
  intros Hnz. destruct (split_first is_ws text) as (ws & r & -> & Hws & Hr).
  apply Forall_app in Hnz as [_ Hnz]. destruct r as [|c r].
  { left. rewrite app_nil_r. split; [done|]. pose proof (words_blank ws [] Hws) as H. by rewrite app_nil_r in H. }
  right. destruct (split_first (λ c, negb (is_ws c)) (c :: r)) as (w & rest & E & Hw & Hrest).
  rewrite E in *. apply Forall_app in Hnz as [Hnw Hnr].
  assert (Forall solid w) as Hs.
  { eapply Forall_impl; [exact Hw|]. intros d. unfold solid. by destruct (is_ws d). }
  assert (w ≠ []) as Hne by (intros ->; simpl in E; subst rest; by rewrite Hr in Hrest).
  assert (match rest with [] => True | d :: _ => blank d end) as Hb.
  { destruct rest as [|d ?]; [done|]. unfold blank. simpl in Hrest. by destruct (is_ws d). }
  exists ws, w, rest. split; [done|]. split; [done|]. split; [done|].
  split; [apply Forall_and; split; done|]. split; [done|]. split; [done|].
  rewrite words_blank by done. by apply words_word.
Qed.

Lemma zero_blanks fuel pre ws c post :
  Forall blank ws → c = 0 ∨ solid c → (length ws < fuel)%nat →
  zero_ws fuel (length pre) (pre ++ ws ++ c :: post) =
    Ok (length (pre ++ zap ws)) ((pre ++ zap ws) ++ c :: post).
Proof.
  intros Hws Hc Hf. rewrite zero_ws_run by done.
  rewrite length_app, zap_blank, length_replicate by done. by rewrite <- app_assoc.
Qed.

Lemma rest_stops (rest post : list Z) :
  match rest with [] => True | c :: _ => blank c end →
  ∃ d q, rest ++ 0 :: post = d :: q ∧ (d = 0 ∨ blank d).
Proof. intros Hr. destruct rest as [|d rest]; [exists 0, post; auto|exists d, (rest ++ 0 :: post); auto]. Qed.

(** A stage is parsed into its words, or is too long. *)
Lemma stage_loop_run : ∀ fuel text pre argv post,
  Forall (λ c, c ≠ 0) text → (length text < fuel)%nat → (length argv <= MAXARGS - 1)%nat →
  if decide (length argv + length (words text) <= MAXARGS - 1)%nat
  then ∃ ps, stage_loop fuel (length pre) argv (pre ++ text ++ 0 :: post) =
               Ok (Some (argv ++ ps)) (pre ++ zap text ++ 0 :: post) ∧ holds (pre ++ zap text) ps (words text)
  else ∃ b, stage_loop fuel (length pre) argv (pre ++ text ++ 0 :: post) = Ok None b.
Proof.
  induction fuel as [|fuel IH]; intros text pre argv post Hnz Hf Hargv; [lia|]. cbn [stage_loop].
  destruct (text_cases text Hnz) as [[Hb ->]|(ws & w & rest & -> & Hws & Hne & Hw & Hnr & Hr & ->)].
  - rewrite (bind_Ok _ _ _ _ _ (zero_blanks (S fuel) pre text 0 post Hb (or_introl eq_refl) Hf)).
    rewrite (bind_Ok _ _ _ _ _ (peek_app _ 0 post)), (bool_decide_eq_true_2 (0 = 0)) by done.
    rewrite decide_True by (cbn [length]; lia). exists []. rewrite app_nil_r. split; [by rewrite <- app_assoc|done].
  - destruct w as [|c w]; [done|]. rewrite !length_app in Hf.
    cbn [length] in *. pose proof (Forall_inv Hw) as [Hc0 Hcs]. rewrite <- !app_assoc. simpl app.
    rewrite (bind_Ok _ _ _ _ _ (zero_blanks (S fuel) pre ws c (w ++ rest ++ 0 :: post) Hws (or_intror Hcs) ltac:(lia))).
    set (pre1 := pre ++ zap ws).
    rewrite (bind_Ok _ _ _ _ _ (peek_app pre1 c _)), (bool_decide_eq_false_2 (c = 0)) by done.
    case_bool_decide as Hfull; [rewrite decide_False by lia; by eexists|].
    assert (skip_word (S fuel) (length pre1) (pre1 ++ (c :: w) ++ rest ++ 0 :: post) =
      Ok (length (pre1 ++ c :: w)) (pre1 ++ (c :: w) ++ rest ++ 0 :: post)) as Hsk.
    { destruct (rest_stops rest post Hr) as (d & q & -> & Hd).
      rewrite length_app. apply scan_run; [|destruct Hd as [->|Hd]; [by left|right; by rewrite Hd]|simpl; lia].
      eapply Forall_impl; [exact Hw|]. intros x [? E]. split; [done|]. by rewrite E. }
    simpl app in Hsk. rewrite (bind_Ok _ _ _ _ _ Hsk).
    specialize (IH rest (pre1 ++ c :: w) (argv ++ [length pre1]) post Hnr ltac:(lia)).
    rewrite length_app in IH. simpl length in IH. specialize (IH ltac:(lia)). rewrite <- app_assoc in IH. simpl app in IH.
    assert (zap (ws ++ c :: w ++ rest) = zap ws ++ (c :: w) ++ zap rest) as Ez.
    { change (c :: w ++ rest) with ((c :: w) ++ rest). rewrite !zap_app. f_equal. f_equal. apply zap_solid.
      eapply Forall_impl; [exact Hw|]. by intros x [_ ?]. }
    replace (length argv + S (length (words rest)))%nat with (length argv + 1 + length (words rest))%nat by lia.
    case_decide; [|exact IH]. destruct IH as (ps & Hrun & Hh).
    exists (length pre1 :: ps). rewrite Ez, !app_assoc. fold pre1. rewrite <- !app_assoc in *.
    split; [exact Hrun|]. apply holds_cons; [|exact Hh].
    intros y. unfold cstr. rewrite <- !app_assoc, drop_app_length.
    destruct rest as [|d rest]; [apply upto_nul_app|rewrite zap_cons, Hr; apply upto_nul_app];
      (eapply Forall_impl; [exact Hw|]; by intros x [? _]).
Qed.

Lemma parse_stage_run pre text argv_post :
  Forall (λ c, c ≠ 0) text →
  if decide (length (words text) <= MAXARGS - 1)%nat
  then ∃ ps, parse_stage (length pre) (pre ++ text ++ 0 :: argv_post) =
               Ok (Some ps) (pre ++ zap text ++ 0 :: argv_post) ∧ holds (pre ++ zap text) ps (words text)
  else ∃ b, parse_stage (length pre) (pre ++ text ++ 0 :: argv_post) = Ok None b.
Proof.
  intros Hnz. unfold parse_stage. set (b := pre ++ text ++ 0 :: argv_post).
  rewrite (bind_Ok (gets length) _ b (length b) b eq_refl).
  assert (length text < S (length b))%nat as Hf by (unfold b; rewrite !length_app; lia).
  exact (stage_loop_run (S (length b)) text pre [] argv_post Hnz Hf ltac:(cbn [length]; lia)).
Qed.

Lemma first_segment line :
  Forall (λ c, c ≠ 0) line →
  ∃ s tl, line = s ++ tl ∧ Forall (λ c, c ≠ 0 ∧ c ≠ BAR) s ∧
    ((tl = [] ∧ segments line = [s]) ∨ ∃ l', tl = BAR :: l' ∧ segments line = s :: segments l').
Proof.
  induction 1 as [|c line Hc Hl (s & tl & -> & Hs & Htl)]; [exists [], []; split_and!; [done..|by left]|].
  destruct (decide (c = BAR)) as [->|Hb].
  - exists [], (BAR :: s ++ tl). split; [done|]. split; [done|]. right. by exists (s ++ tl).
  - exists (c :: s), tl. split; [done|]. split; [by constructor|]. cbn [segments].
    rewrite (bool_decide_eq_false_2 (c = BAR)) by done.
    destruct Htl as [[-> ->]|(l' & -> & ->)]; [left; done|right; by exists l'].
Qed.

(** The end of a segment: the NUL that ends the line, or a bar that becomes a NUL. *)
Lemma bar_is_solid : solid BAR.
Proof. by vm_compute. Qed.

Lemma lead_split s :
  ∃ lead s', s = lead ++ s' ∧ Forall blank lead ∧ match s' with [] => True | c :: _ => solid c end ∧
    words s = words s' ∧ (words s' = [] → s' = []).
Proof.
  destruct (split_first is_ws s) as (lead & s' & -> & Hl & Hs). exists lead, s'.
  split; [done|]. split; [done|]. split; [done|]. split; [by apply words_blank|].
  destruct s' as [|c s']; [done|]. unfold words. simpl. rewrite Hs. intros E. exfalso.
  assert (∀ l w, w ≠ [] → words_from w l ≠ []) as H.
  { induction l as [|d l IH]; intros w Hw; simpl; [by rewrite bool_decide_eq_false_2|].
    destruct (is_ws d); [by rewrite bool_decide_eq_false_2 by done|]. apply IH. by destruct w. }
  by apply (H s' [c]).
Qed.

Lemma tail_cases (tl l' post : list Z) :
  tl = [] ∨ tl = BAR :: l' →
  ∃ e, tl ++ 0 :: post = e :: tail (tl ++ 0 :: post) ∧ (e = 0 ∨ e = BAR) ∧
    bool_decide (e = BAR) = negb (bool_decide (tl = [])).
Proof. intros [->| ->]; [by exists 0; auto|exists BAR; auto]. Qed.

(** One round of the loop on a segment [s] that is not the blank end of the line: the text
    after the blanks [lead] is parsed, and the next round starts behind the bar. *)
Lemma pipeline_round fuel pre lead s' tl l' post stages :
  Forall blank lead → match s' with [] => True | c :: _ => solid c end →
  Forall (λ c, c ≠ 0 ∧ c ≠ BAR) s' → (s' ≠ [] ∨ tl = BAR :: l') → (tl = [] ∨ tl = BAR :: l') →
  (length lead + length s' + length tl < S fuel)%nat → length stages ≠ MAXARGS →
  let b := pre ++ lead ++ s' ++ tl ++ 0 :: post in
  let next := tail (tl ++ 0 :: post) in
  if decide (words s' ≠ [] ∧ (length (words s') <= MAXARGS - 1)%nat)
  then ∃ ps, holds (pre ++ lead ++ zap s') ps (words s') ∧
    pipeline_loop (S fuel) (length pre) stages b =
      (if bool_decide (tl = []) then mret (Some (stages ++ [ps]))
       else pipeline_loop fuel (length (pre ++ lead ++ zap s' ++ [0])) (stages ++ [ps]))
        ((pre ++ lead ++ zap s') ++ 0 :: next)
  else ∃ b', pipeline_loop (S fuel) (length pre) stages b = Ok None b'.
Proof.
  intros Hlead Hsol Hs Hne Htl Hf Hn b next.
  assert (∃ d q, s' ++ tl ++ 0 :: post = d :: q ∧ solid d ∧ d ≠ 0) as (d & q & Ed & Hd & Hd0).
  { destruct s' as [|c s']; [destruct Hne as [?| ->]; [done|]; by exists BAR, (l' ++ 0 :: post)|].
    exists c, (s' ++ tl ++ 0 :: post). split; [done|]. split; [done|]. by apply Forall_inv in Hs as [? _]. }
  cbn [pipeline_loop].
  assert (skip_ws (S fuel) (length pre) b = Ok (length (pre ++ lead)) b) as H1.
  { unfold b, skip_ws. rewrite Ed, length_app. apply scan_run; [|by right|lia].
    eapply Forall_impl; [exact Hlead|]. intros x Hx. split; [by apply ws_not_nul|done]. }
  rewrite (bind_Ok _ _ _ _ _ H1). set (pre1 := pre ++ lead).
  assert (b = pre1 ++ s' ++ tl ++ 0 :: post) as Eb by (unfold b, pre1; by rewrite <- app_assoc).
  assert (peek (length pre1) b = Ok d b) as H2 by (rewrite Eb, Ed; apply peek_app).
  rewrite (bind_Ok _ _ _ _ _ H2), (bool_decide_eq_false_2 (d = 0)) by done.
  rewrite (bool_decide_eq_false_2 (length stages = MAXARGS)) by done.
  destruct (tail_cases tl l' post Htl) as (e & Et & He & Hbar).
  assert (find_bar (S fuel) (length pre1) b = Ok (length (pre1 ++ s')) b) as H3.
  { rewrite Eb, Et, length_app. unfold find_bar. apply scan_run; [| |lia].
    - eapply Forall_impl; [exact Hs|]. intros x [? ?]. split; [done|]. by rewrite bool_decide_eq_true_2.
    - destruct He as [-> | ->]; [by left|right; by rewrite bool_decide_eq_false_2 by tauto]. }
  rewrite (bind_Ok _ _ _ _ _ H3).
  assert (b = (pre1 ++ s') ++ e :: next) as Eb' by (by rewrite Eb, Et, <- app_assoc).
  rewrite Eb', (bind_Ok _ _ _ _ _ (peek_app (pre1 ++ s') e next)).
  assert ((if bool_decide (e = BAR) then poke (length (pre1 ++ s')) 0 else mret ()) ((pre1 ++ s') ++ e :: next) =
    Ok () ((pre1 ++ s') ++ 0 :: next)) as H4.
  { destruct He as [->| ->]; [by rewrite bool_decide_eq_false_2|rewrite bool_decide_eq_true_2 by done; apply poke_app]. }
  rewrite (bind_Ok _ _ _ _ _ H4), <- app_assoc, Hbar. clear H1 H2 H3 H4 Eb Eb'.
  assert (Forall (λ c, c ≠ 0) s') as Hnz by (eapply Forall_impl; [exact Hs|]; by intros x [? _]).
  pose proof (parse_stage_run pre1 s' next Hnz) as Hp.
  destruct (decide (length (words s') <= MAXARGS - 1)%nat) as [Hw|Hw].
  2: { destruct Hp as (b' & Hp). rewrite decide_False by tauto. rewrite (bind_Ok _ _ _ _ _ Hp). by eexists. }
  destruct Hp as (ps & Hp & Hh). rewrite (bind_Ok _ _ _ _ _ Hp).
  assert (ps = [] ↔ words s' = []) as Hps.
  { specialize (Hh []). rewrite <- Hh. destruct ps; done. }
  destruct (decide (words s' = [])) as [E|E].
  { rewrite decide_False by tauto. rewrite bool_decide_eq_true_2 by tauto. by eexists. }
  rewrite decide_True by tauto. rewrite (bool_decide_eq_false_2 (ps = [])) by tauto.
  assert (pre1 ++ zap s' = pre ++ lead ++ zap s') as E1 by (unfold pre1; by rewrite <- app_assoc).
  assert (S (length (pre1 ++ s')) = length (pre ++ lead ++ zap s' ++ [0])) as E2
    by (unfold pre1; rewrite !length_app; unfold zap; rewrite length_fmap; simpl; lia).
  exists ps. split; [by rewrite <- E1|]. rewrite <- E1, <- E2, <- app_assoc.
  by destruct (bool_decide (tl = [])).
Qed.

(** The strings of the stages in a buffer. *)
Definition texts (b : list Z) (stages : list (list nat)) : list (list (list Z)) := (λ ps : list nat, cstr b <$> ps) <$> stages.

Lemma texts_cons b ps pss : texts b (ps :: pss) = (cstr b <$> ps) :: texts b pss.
Proof. done. Qed.

(** The rest of the line is blank. *)
Lemma pipeline_blank fuel pre line stages post :
  Forall blank line → (length line < S fuel)%nat →
  pipeline_loop (S fuel) (length pre) stages (pre ++ line ++ 0 :: post) = Ok (Some stages) (pre ++ line ++ 0 :: post).
Proof.
  intros Hb Hf. cbn [pipeline_loop]. set (b := pre ++ line ++ 0 :: post).
  assert (skip_ws (S fuel) (length pre) b = Ok (length (pre ++ line)) b) as H1.
  { unfold b, skip_ws. rewrite length_app. apply scan_run; [|by left|lia].
    eapply Forall_impl; [exact Hb|]. intros x Hx. split; [by apply ws_not_nul|done]. }
  assert (peek (length (pre ++ line)) b = Ok 0 b) as H2 by (unfold b; rewrite app_assoc; apply peek_app).
  by rewrite (bind_Ok _ _ _ _ _ H1), (bind_Ok _ _ _ _ _ H2).
Qed.

(** Too many stages. *)
Lemma pipeline_full fuel pre lead d q stages :
  Forall blank lead → solid d → d ≠ 0 → (length lead < S fuel)%nat → length stages = MAXARGS →
  pipeline_loop (S fuel) (length pre) stages (pre ++ lead ++ d :: q) = Ok None (pre ++ lead ++ d :: q).
Proof.
  intros Hb Hd Hd0 Hf Hn. cbn [pipeline_loop]. set (b := pre ++ lead ++ d :: q).
  assert (skip_ws (S fuel) (length pre) b = Ok (length (pre ++ lead)) b) as H1.
  { unfold b, skip_ws. rewrite length_app. apply scan_run; [|by right|lia].
    eapply Forall_impl; [exact Hb|]. intros x Hx. split; [by apply ws_not_nul|done]. }
  assert (peek (length (pre ++ lead)) b = Ok d b) as H2 by (unfold b; rewrite app_assoc; apply peek_app).
  rewrite (bind_Ok _ _ _ _ _ H1), (bind_Ok _ _ _ _ _ H2), (bool_decide_eq_false_2 (d = 0)) by done.
  by rewrite bool_decide_eq_true_2.
Qed.

Lemma pipeline_loop_run : ∀ fuel line pre stages post,
  Forall (λ c, c ≠ 0) line → (length line < fuel)%nat → (length stages <= MAXARGS)%nat →
  match stages_of (length stages) (segments line) with
  | Some ws => ∃ pss y, pipeline_loop fuel (length pre) stages (pre ++ line ++ 0 :: post) =
                 Ok (Some (stages ++ pss)) (pre ++ y) ∧ texts (pre ++ y) pss = ws
  | None => ∃ b, pipeline_loop fuel (length pre) stages (pre ++ line ++ 0 :: post) = Ok None b
  end.
Proof.
  induction fuel as [|fuel IH]; intros line pre stages post Hnz Hf Hst; [lia|].
  destruct (first_segment line Hnz) as (s & tl & -> & Hs & Htl).
  destruct (lead_split s) as (lead & s' & -> & Hlead & Hsol & Hw & Hw0).
  apply Forall_app in Hs as [_ Hs'].
  destruct (decide (s' = [] ∧ tl = [])) as [[-> ->]|Hend].
  { destruct Htl as [[_ ->]|(l' & ? & _)]; [|done]. cbn [stages_of]. rewrite Hw.
    rewrite (bool_decide_eq_true_2 (words [] = [])), (bool_decide_eq_true_2 (@nil (list Z) = [])) by done. cbn [andb].
    rewrite !app_nil_r in *. exists [], (lead ++ 0 :: post). rewrite app_nil_r. by rewrite pipeline_blank. }
  assert (∃ l', (tl = [] ∨ tl = BAR :: l') ∧ (s' ≠ [] ∨ tl = BAR :: l') ∧
     segments ((lead ++ s') ++ tl) = (lead ++ s') :: (if bool_decide (tl = []) then [] else segments l'))
    as (l' & Ht & Hne & ->).
  { destruct Htl as [[-> ->]|(l' & -> & ->)]; [exists []|exists l']; split_and!; auto; left; tauto. }
  cbn [stages_of]. rewrite Hw.
  assert (bool_decide (words s' = []) && bool_decide ((if bool_decide (tl = []) then [] else segments l') = []) = false) as ->.
  { apply andb_false_iff. destruct (decide (words s' = [])) as [E|E]; [right|left; by apply bool_decide_eq_false_2].
    apply bool_decide_eq_false_2. specialize (Hw0 E). rewrite bool_decide_eq_false_2 by tauto.
    destruct l' as [|c l']; simpl; [done|]. case_bool_decide; [done|]. by destruct (segments l'). }
  rewrite !length_app in Hf. rewrite <- !app_assoc.
  destruct (decide (length stages = MAXARGS)) as [Hfull|Hfull].
  { rewrite (bool_decide_eq_true_2 (length stages = MAXARGS)) by done. cbn [orb].
    destruct s' as [|d s']; [destruct Hne as [?| ->]; [done|]|];
      (eexists; apply pipeline_full; [done|done| |lia|done]); [done|by apply Forall_inv in Hs' as [? _]]. }
  rewrite (bool_decide_eq_false_2 (length stages = MAXARGS)) by done. cbn [orb].
  pose proof (pipeline_round fuel pre lead s' tl l' post stages Hlead Hsol Hs' Hne Ht ltac:(lia) Hfull) as Hround.
  cbv zeta in Hround.
  destruct (decide (words s' ≠ [] ∧ (length (words s') <= MAXARGS - 1)%nat)) as [[H1 H2]|Hbad].
  2: { replace (bool_decide (words s' = []) || _) with true; [done|]. symmetry. apply orb_true_iff.
       rewrite !bool_decide_eq_true. destruct (decide (words s' = [])); [by left|right]. apply Nat.nle_gt. tauto. }
  rewrite (bool_decide_eq_false_2 (words s' = [])), (bool_decide_eq_false_2 (MAXARGS - 1 < _)%nat) by (done || lia).
  cbn [orb]. destruct Hround as (ps & Hh & Hrun). rewrite Hrun. clear Hrun.
  set (x := pre ++ lead ++ zap s') in *. destruct Ht as [->| ->].
  - rewrite bool_decide_eq_true_2 by done. exists [ps], (lead ++ zap s' ++ 0 :: post).
    assert (pre ++ lead ++ zap s' ++ 0 :: post = x ++ 0 :: post) as -> by (unfold x; by rewrite <- !app_assoc).
    split; [done|]. by rewrite texts_cons, (Hh post).
  - rewrite bool_decide_eq_false_2 by done. cbn [app tail].
    assert (pre ++ lead ++ zap s' ++ [0] = x ++ [0]) as -> by (unfold x; by rewrite <- !app_assoc).
    apply Forall_app in Hnz as [_ Hnz]. apply Forall_cons in Hnz as [_ Hnz]. cbn [length] in Hf.
    specialize (IH l' (x ++ [0]) (stages ++ [ps]) post Hnz ltac:(lia)).
    rewrite length_app in IH at 1 2. cbn [length] in IH. rewrite Nat.add_1_r in IH. specialize (IH ltac:(lia)).
    rewrite <- (snoc_app x 0 (l' ++ 0 :: post)) in IH.
    destruct (stages_of (S (length stages)) (segments l')) as [wss|]; cbn; [|exact IH].
    destruct IH as (pss & y & Hrun & Htx). exists (ps :: pss), (lead ++ zap s' ++ 0 :: y).
    assert (pre ++ lead ++ zap s' ++ 0 :: y = x ++ 0 :: y) as -> by (unfold x; by rewrite <- !app_assoc).
    rewrite <- (snoc_app x 0 y) in Hrun, Htx. rewrite <- app_assoc in Hrun. split; [exact Hrun|].
    by rewrite texts_cons, (Hh y), Htx.
Qed.

(** The parser on a line that has no NUL in it. *)
Lemma parse_pipeline_run line post :
  Forall (λ c, c ≠ 0) line →
  match stages_of 0 (segments line) with
  | Some ws => ∃ pss b, parse_pipeline 0 (line ++ 0 :: post) = Ok (Some pss) b ∧ texts b pss = ws
  | None => ∃ b, parse_pipeline 0 (line ++ 0 :: post) = Ok None b
  end.
Proof.
  intros Hnz. unfold parse_pipeline. set (b := line ++ 0 :: post).
  rewrite (bind_Ok (gets length) _ b (length b) b eq_refl).
  pose proof (pipeline_loop_run (S (length b)) line [] [] post Hnz) as H.
  cbn [length app] in H. specialize (H ltac:(unfold b; rewrite length_app; lia) ltac:(lia)).
  destruct (stages_of 0 (segments line)); [|done]. destruct H as (pss & y & Hr & Ht). by exists pss, y.
Qed.

(** The words of the segments between the bars. *)
Definition commands_of (line : list Z) : list (list (list Z)) := words <$> segments line.

(** What may stand in a pipeline: one to 16 commands of one to 15 words each. *)
Definition pipeline_ok (ws : list (list (list Z))) : Prop :=
  (length ws <= MAXARGS)%nat ∧ Forall (λ st, (0 < length st < MAXARGS)%nat) ws.

Lemma stages_of_ok segs n : (n + length segs <= MAXARGS)%nat → Forall (λ st, (0 < length st < MAXARGS)%nat) (words <$> segs) →
  stages_of n segs = Some (words <$> segs).
Proof.
  revert n. induction segs as [|s ss IH]; intros n Hn Hf; [done|]. rewrite fmap_cons in Hf |- *. apply Forall_cons in Hf as [Hs Hf].
  cbn [stages_of]. cbn [length] in Hn. assert (words s ≠ []) by (intros E; rewrite E in Hs; simpl in Hs; lia).
  rewrite (bool_decide_eq_false_2 (words s = [])) by done. cbn [andb]. rewrite !bool_decide_eq_false_2 by (unfold MAXARGS in *; lia).
  cbn [orb]. by rewrite IH by (done || lia).
Qed.

(** A segment that is empty before another one, a command of too many words, or too many
    commands. *)
Lemma stages_of_bad segs n : (n <= MAXARGS)%nat →
  (∃ a b c, segs = a ++ b :: c ∧ (words b = [] ∧ c ≠ [] ∨ (MAXARGS <= length (words b))%nat ∨ words b ≠ [] ∧ (MAXARGS <= n + length a)%nat)) →
  stages_of n segs = None.
Proof.
  revert n. induction segs as [|s ss IH]; intros n Hn (a & b & c & E & H); [by destruct a|]. cbn [stages_of].
  destruct a as [|x a]; cbn [app length] in *; injection E as -> ->.
  - destruct (bool_decide (words b = []) && bool_decide (c = [])) eqn:E2.
    { apply andb_true_iff in E2 as [E2%bool_decide_eq_true E3%bool_decide_eq_true]. rewrite E2 in H. simpl in H. unfold MAXARGS in *. naive_solver lia. }
    destruct H as [[H _]|[H|[_ H]]].
    + by rewrite (bool_decide_eq_true_2 (words b = [])), orb_true_r.
    + by rewrite (bool_decide_eq_true_2 (MAXARGS - 1 < _)%nat), orb_true_r by (unfold MAXARGS in *; lia).
    + by rewrite (bool_decide_eq_true_2 (n = MAXARGS)) by lia.
  - rewrite (bool_decide_eq_false_2 (_ ++ _ = [])), andb_false_r by (by destruct a). case_bool_decide as E1; [done|]. cbn [orb].
    case_match; [done|]. rewrite (IH (S n)); [done|lia|]. exists a, b, c. split; [done|]. destruct H as [H|[H|[H H']]]; [tauto|tauto|]. right; right. split; [done|lia].
Qed.

Lemma commands_of_ne line : commands_of line ≠ [].
Proof. unfold commands_of. destruct line as [|c l]; cbn [segments]; [done|]. case_bool_decide; [done|]. by destruct (segments l). Qed.

Lemma words_from_Forall (P : Z → Prop) l w : Forall P w → Forall P l → Forall (Forall P) (words_from w l).
Proof.
  revert w. induction l as [|c l IH]; intros w Hw Hl; cbn [words_from].
  - case_bool_decide; repeat constructor; done.
  - apply Forall_cons in Hl as [Hc Hl]. destruct (is_ws c).
    + apply Forall_app. split; [case_bool_decide; repeat constructor; done|]. by apply IH.
    + apply IH; [|done]. apply Forall_app. by repeat constructor.
Qed.

Lemma segments_Forall (P : Z → Prop) l : Forall P l → Forall (Forall P) (segments l).
Proof.
  induction l as [|c l IH]; intros Hl; cbn [segments]; [by repeat constructor|]. apply Forall_cons in Hl as [Hc Hl].
  specialize (IH Hl). case_bool_decide; [by constructor|]. destruct (segments l); [by repeat constructor|].
  apply Forall_cons in IH as [? ?]. by repeat constructor.
Qed.

(** The characters of the words are characters of the line. *)
Lemma commands_of_Forall (P : Z → Prop) line : Forall P line → Forall (Forall (Forall P)) (commands_of line).
Proof.
  intros Hl. unfold commands_of. apply Forall_fmap. eapply Forall_impl; [by apply segments_Forall|].
  intros s Hs. by apply words_from_Forall.
Qed.

(** C23: on a line without NUL characters inside, whatever follows it in its buffer, the
    parser returns.  A line of one to 16 commands between its bars, each of 1 to 15 words, is
    accepted, and the words read through the pointers it stores are the words of these
    commands in order; a blank line has no command.  A line with an empty command before
    another one, with a command of more than 15 words or with a 17th command is rejected. *)
Theorem parse_pipeline_correct line post :
  Forall (λ c, c ≠ 0) line →
  (∃ r b, parse_pipeline 0 (line ++ 0 :: post) = Ok r b) ∧
  (pipeline_ok (commands_of line) → ∃ pss b, parse_pipeline 0 (line ++ 0 :: post) = Ok (Some pss) b ∧ texts b pss = commands_of line) ∧
  (commands_of line = [[]] → ∃ b, parse_pipeline 0 (line ++ 0 :: post) = Ok (Some []) b) ∧
  ((∃ a b c, commands_of line = a ++ b :: c ∧ (b = [] ∧ c ≠ [] ∨ (15 < length b)%nat ∨ b ≠ [] ∧ (16 <= length a)%nat)) →
   ∃ b, parse_pipeline 0 (line ++ 0 :: post) = Ok None b).
Proof.
  intros Hnz. pose proof (parse_pipeline_run line post Hnz) as H. split_and!.
  - destruct (stages_of 0 (segments line)) as [ws|]; naive_solver.
  - intros [Hl Hf]. unfold commands_of in *. rewrite length_fmap in Hl. by rewrite (stages_of_ok (segments line) 0) in H by done.
  - unfold commands_of. intros Hb. destruct (segments line) as [|s [|]]; try done. injection Hb as Hb. cbn [stages_of] in H.
    rewrite Hb in H. cbn in H. destruct H as (pss & b & H & Ht). destruct pss; [by exists b|done].
  - intros (a & b & c & E & Hbad). unfold commands_of in E. apply fmap_app_inv in E as (a' & bc & -> & Ebc & E).
    symmetry in Ebc. apply fmap_cons_inv in Ebc as (b' & c' & -> & -> & ->). rewrite E, (stages_of_bad _ 0) in H; [done|unfold MAXARGS; lia|].
    exists a', b', c'. split; [done|]. rewrite length_fmap in Hbad. unfold MAXARGS. simpl. destruct Hbad as [[? Hc]|[?|[? ?]]]; [left; split; [done|by intros ->]|right; left; lia|right; right; split; [done|lia]].
Qed.

Definition sample_line : list Z := [76; 83; 32; 124; 32; 82; 79; 84; 49; 51; 32; 97; 10].

(** ["LS | ROT13 a"], and ["LS | | LS"] *)
Lemma parse_pipeline_correct_witness :
  (∃ pss b, parse_pipeline 0 (sample_line ++ 0 :: [7; 7]) = Ok (Some pss) b ∧
    texts b pss = [[[76; 83]]; [[82; 79; 84; 49; 51]; [97]]]) ∧
  ∃ b, parse_pipeline 0 ([76; 83; 32; 124; 32; 124; 32; 76; 83] ++ 0 :: [7; 7]) = Ok None b.
Proof.
  split.
  - apply (parse_pipeline_correct sample_line [7; 7]).
    + unfold sample_line. repeat (apply Forall_cons; split; [done|]). apply Forall_nil; done.
    + change (commands_of sample_line) with [[[76; 83]]; [[82; 79; 84; 49; 51]; [97]]]. split; [unfold MAXARGS; simpl; lia|].
      repeat constructor; unfold MAXARGS; simpl; lia.
  - apply (parse_pipeline_correct [76; 83; 32; 124; 32; 124; 32; 76; 83] [7; 7]).
    + repeat (apply Forall_cons; split; [done|]). apply Forall_nil; done.
    + exists [[[76; 83]]], [], [[[76; 83]]]. split; [vm_compute; reflexivity|]. left. done.
Defined.

(** A bar at the end of the line is accepted all the same. *)
Example trailing_bar : ∃ pss b, parse_pipeline 0 [76; 83; 32; 124; 0] = Ok (Some pss) b ∧ texts b pss = [[[76; 83]]].
Proof. eexists _, _. split; vm_compute; reflexivity. Qed.
