(* ===== verification/ShellRun.v ===== *)
(** * Pipelines of the shell (user/shell/shell.c, user/lib/string.c)

    The shell starts the stages of a pipeline as processes, connects them by pipes and
    waits for them.  The calls it makes are a class; the theorem is about the calls the
    shell makes and their order, for every way in which they may be answered.  The messages
    it prints are left out. *)

From S2P Require Import Prelude Shell.

(** ** Calls *)

(** The calls the shell makes, as the wrappers of user/include/syscall.h return. *)
Class Os (W : Type) := {
  os_pipe : W → option (Z * Z) * W;
  os_open : list Z → Z → W → Z * W;
  os_close : Z → W → W;
  os_spawn : Z → Z → Z → Z → W → Z * W;
  os_pwd : list Z → W → list Z * W;
  os_chdir : list Z → W → Z * W;
  os_waitpid : Z → W → W;
}.

(** ** The shell *)

Definition LS : list Z := [76; 83].
Definition CAT : list Z := [67; 65; 84].
Definition ROT13 : list Z := [82; 79; 84; 49; 51].
Definition biral : list Z := [98; 105; 114; 97; 108].
Definition BIRAL : list Z := [66; 73; 82; 65; 76].

(** [strcmp] on strings without their NUL. *)
Fixpoint sh_strcmp (p q : list Z) : Z :=
  match p, q with
  | a :: p, b :: q => if bool_decide (a = b) then sh_strcmp p q else u8 a - u8 b
  | a :: _, [] => u8 a - 0
  | [], b :: _ => 0 - u8 b
  | [], [] => 0
  end.

Definition str_is (name : list Z) (s : list Z) : bool := bool_decide (sh_strcmp name s = 0).

Definition is_process_cmd (name : list Z) : bool :=
  str_is name CAT || str_is name LS || str_is name ROT13 || str_is name biral || str_is name BIRAL.

Definition elf_id_for_process (name : list Z) : Z :=
  if str_is name CAT || str_is name biral || str_is name BIRAL then 6
  else if str_is name ROT13 then 7
  else if str_is name LS then 9
  else -1.

Section Run.
Context {W : Type} `{Os W}.

Definition call {A} (f : W → A * W) : M W A := λ w, let '(x, w') := f w in Ok x w'.

Lemma call_Ok {A} (f : W → A * W) w : call f w = Ok (f w).1 (f w).2.
Proof. unfold call. by destruct (f w). Qed.

Definition sh_close (fd : Z) : M W () := modify (os_close fd).

(** [CAT] and [ROT13]: at most one file name, read in place of the standard input. *)
Definition launch_filter (elf_id : Z) (argv : list (list Z)) (stdin_fd stdout_fd : Z) : M W Z :=
  match argv with
  | [_] => call (os_spawn elf_id 200 stdin_fd stdout_fd) ≫= λ pid, mret (if bool_decide (pid < 0) then -1 else pid)
  | [_; path] =>
      input_fd ← call (os_open path 0);
      if bool_decide (input_fd < 0) then mret (-1)
      else
        pid ← call (os_spawn elf_id 200 input_fd stdout_fd);
        sh_close input_fd ;;
        mret (if bool_decide (pid < 0) then -1 else pid)
  | _ => mret (-1)
  end.

(** [stk_cwd] is what the buffer for the working directory held before. *)
Definition launch_ls (stk_cwd : list Z) (argv : list (list Z)) (stdin_fd stdout_fd : Z) : M W Z :=
  match argv with
  | [_] => call (os_spawn 9 200 stdin_fd stdout_fd) ≫= λ pid, mret (if bool_decide (pid < 0) then -1 else pid)
  | [_; path] =>
      cwd ← call (os_pwd stk_cwd);
      r ← call (os_chdir path);
      if bool_decide (r < 0) then mret (-1)
      else
        pid ← call (os_spawn 9 200 stdin_fd stdout_fd);
        call (os_chdir cwd) ;;
        mret (if bool_decide (pid < 0) then -1 else pid)
  | _ => mret (-1)
  end.

Definition launch_process_stage (stk_cwd : list Z) (argv : list (list Z)) (stdin_fd stdout_fd : Z) : M W Z :=
  match argv with
  | [] => undef
  | name :: _ =>
      let elf_id := elf_id_for_process name in
      if bool_decide (elf_id < 0) then mret (-1)
      else if str_is name LS then launch_ls stk_cwd argv stdin_fd stdout_fd
      else launch_filter elf_id argv stdin_fd stdout_fd
  end.

Definition close_if (fd : Z) : M W () := if bool_decide (fd >= 0) then sh_close fd else mret ().

Fixpoint wait_all (pids : list Z) : M W () :=
  match pids with
  | [] => mret ()
  | pid :: pids =>
      (if bool_decide (pid >= 0) then modify (os_waitpid pid) else mret ()) ;;
      wait_all pids
  end.

(** The stages from one on, with the descriptor of the pipe before it and the processes
    already started. *)
Fixpoint run_stages (stk_cwd : list Z) (stages : list (list (list Z))) (in_fd : Z) (pids : list Z) : M W Z :=
  match stages with
  | [] => close_if in_fd ;; wait_all pids ;; mret 0
  | [st] =>
      pid ← launch_process_stage stk_cwd st in_fd (-1);
      close_if in_fd ;;
      if bool_decide (pid < 0) then mret 0
      else close_if in_fd ;; wait_all (pids ++ [pid]) ;; mret 0
  | st :: stages =>
      p ← call os_pipe;
      match p with
      | None => close_if in_fd ;; mret 0
      | Some (r, t) =>
          pid ← launch_process_stage stk_cwd st in_fd t;
          close_if in_fd ;;
          if bool_decide (pid < 0) then sh_close r ;; sh_close t ;; mret 0
          else sh_close t ;; run_stages stk_cwd stages r (pids ++ [pid])
      end
  end.

Definition run_parsed (stk_cwd : list Z) (stages : list (list (list Z))) : M W Z :=
  if bool_decide (stages = []) then mret 0
  else if forallb (λ st, is_process_cmd (hd [] st)) stages then run_stages stk_cwd stages (-1) []
  else mret 0.

Definition run_pipeline (stk_cwd procbuf : list Z) : M W Z := λ w,
  match parse_pipeline 0 procbuf with
  | Ok (Some pss) b => run_parsed stk_cwd (texts b pss) w
  | Ok None _ => Ok 0 w
  | Panic => Panic | Undef => Undef | Spin => Spin | Blocked _ => Undef
  end.
End Run.

(** ** Wiring *)

Lemma str_is_eq name s :
  Forall (λ c, 0 <= c < 256) name → Forall (λ c, 0 <= c < 256) s →
  Forall (λ c, c ≠ 0) name → Forall (λ c, c ≠ 0) s → str_is name s = bool_decide (name = s).
Proof.
  intros Hn Hs Hn0 Hs0. unfold str_is. apply bool_decide_ext. revert s Hs Hs0.
  induction name as [|a name IH]; intros [|b s] Hs Hs0; simpl; try done;
    repeat match goal with H : Forall _ (_ :: _) |- _ => apply Forall_cons in H as [? H] end;
    rewrite ?Z.mod_small by (unfold u8; lia); unfold u8; rewrite ?Z.mod_small by lia.
  - split; [lia|done].
  - split; [lia|done].
  - case_bool_decide as E; [subst b|split; [lia|congruence]].
    rewrite (IH Hn Hn0 s Hs Hs0). split; congruence.
Qed.

(** ** Traces *)

(** A call together with its answer. *)
Inductive event :=
  | EPipe (ans : option (Z * Z))
  | EOpen (path : list Z) (mode fd : Z)
  | EClose (fd : Z)
  | ESpawn (elf quota stdin stdout pid : Z)
  | EPwd (cwd : list Z)
  | EChdir (path : list Z) (r : Z)
  | EWait (pid : Z)
  | ERead (fd : Z) (n : nat) (ans : Z * list Z)
  | EWrite (fd : Z) (data : list Z) (r : Z)
  | EMkdir (path : list Z) (r : Z)
  | EUnlink (path : list Z) (r : Z)
  | ELs (n : nat) (ans : Z * list Z)
  | EIsDir (fd r : Z)
  | EPrint (data : list Z).

Definition trace := list event.

(** A system that answers anything, as a function of all the calls made before. *)
Record answers := {
  a_pipe : trace → option (Z * Z);
  a_open : trace → list Z → Z → Z;
  a_spawn : trace → Z → Z → Z → Z → Z;
  a_pwd : trace → list Z → list Z;
  a_chdir : trace → list Z → Z;
}.

Definition recorder (a : answers) : Os trace := {|
  os_pipe tr := (a_pipe a tr, tr ++ [EPipe (a_pipe a tr)]);
  os_open p m tr := (a_open a tr p m, tr ++ [EOpen p m (a_open a tr p m)]);
  os_close fd tr := tr ++ [EClose fd];
  os_spawn e q i o tr := (a_spawn a tr e q i o, tr ++ [ESpawn e q i o (a_spawn a tr e q i o)]);
  os_pwd b tr := (a_pwd a tr b, tr ++ [EPwd (a_pwd a tr b)]);
  os_chdir p tr := (a_chdir a tr p, tr ++ [EChdir p (a_chdir a tr p)]);
  os_waitpid pid tr := tr ++ [EWait pid];
|}.

(** The descriptors the process holds: those it was given and has not closed since. *)
Definition hold1 (s : gset Z) (e : event) : gset Z :=
  match e with
  | EPipe (Some (r, t)) => filter (λ x, 0 <= x) {[r; t]} ∪ s
  | EOpen _ _ fd => filter (λ x, 0 <= x) {[fd]} ∪ s
  | EClose fd => s ∖ {[fd]}
  | _ => s
  end.

Definition hold (s : gset Z) (ev : trace) : gset Z := foldl hold1 s ev.

(** The most it holds at once. *)
Fixpoint peak (s : gset Z) (ev : trace) : nat :=
  match ev with
  | [] => size s
  | e :: ev => Nat.max (size s) (peak (hold1 s e) ev)
  end.

(** The pipes it made, the files it opened, and the children it started. *)
Record child := { c_elf : Z; c_in : Z; c_out : Z; c_pid : Z }.

Definition made : trace → list (Z * Z) := omap (λ e, match e with EPipe a => a | _ => None end).
Definition opened : trace → list (list Z * Z) :=
  omap (λ e, match e with EOpen p _ fd => if decide (0 <= fd) then Some (p, fd) else None | _ => None end).
Definition started : trace → list child :=
  omap (λ e, match e with
    | ESpawn elf _ i o pid => if decide (0 <= pid) then Some {| c_elf := elf; c_in := i; c_out := o; c_pid := pid |} else None
    | _ => None end).
Definition waits : trace → list Z := omap (λ e, match e with EWait pid => Some pid | _ => None end).

(** Whether it went to another directory and has not asked to go back to the one that it had
    been told it was in. *)
Definition away1 (s : list Z * bool) (e : event) : list Z * bool :=
  match e with
  | EPwd cwd => (cwd, s.2)
  | EChdir p r => (s.1, if bool_decide (p = s.1) then false else if bool_decide (0 <= r) then true else s.2)
  | _ => s
  end.

Definition away (s : list Z * bool) (ev : trace) : list Z * bool := foldl away1 s ev.

Definition granted (e : event) : Prop :=
  match e with
  | EPipe a => a ≠ None
  | EOpen _ _ x | ESpawn _ _ _ _ x | EChdir _ x => 0 <= x
  | _ => True
  end.

(** ** Wiring *)

(** The number of the program a name selects. *)
Definition program_of (name : list Z) : option Z :=
  if decide (name = CAT ∨ name = biral ∨ name = BIRAL) then Some 6
  else if decide (name = ROT13) then Some 7
  else if decide (name = LS) then Some 9
  else None.

(** The file a stage reads in place of what comes before it. *)
Definition named_file (st : list (list Z)) : option (list Z) :=
  match st with
  | [name; path] => if decide (name = LS) then None else Some path
  | _ => None
  end.

(** The children [ks] run the first stages in order, each the program its name selects.  Each
    reads the pipe that the one before it writes, or the file it names; the first reads and
    the last writes where the shell does ([-1]). *)
Fixpoint wired (inp : Z) (stages : list (list (list Z))) (pipes : list (Z * Z)) (files : list (list Z * Z)) (ks : list child) : Prop :=
  match ks, stages with
  | [], _ => True
  | k :: ks, st :: stages =>
      program_of (hd [] st) = Some (c_elf k) ∧
      match named_file st with Some path => head files = Some (path, c_in k) | None => c_in k = inp end ∧
      match stages, pipes with
      | [], _ => c_out k = -1 ∧ ks = []
      | _, (r, t) :: pipes => c_out k = t ∧ wired r stages pipes (if named_file st then tail files else files) ks
      | _, [] => False
      end
  | _ :: _, [] => False
  end.

Definition is_char (c : Z) : Prop := 0 < c < 256.

Lemma str_is_char name s : Forall is_char name → Forall is_char s → str_is name s = bool_decide (name = s).
Proof. intros Hn Hs. apply str_is_eq; (eapply Forall_impl; [eassumption|]); unfold is_char; lia. Qed.

Lemma name_program name : Forall is_char name → is_process_cmd name = bool_decide (is_Some (program_of name)) ∧
  elf_id_for_process name = default (-1) (program_of name) ∧ str_is name LS = bool_decide (name = LS).
Proof.
  intros Hn. unfold is_process_cmd, elf_id_for_process, program_of.
  rewrite !(str_is_char name) by (done || (repeat constructor; unfold is_char; lia)). split_and!; [..|done].
  - repeat case_decide; repeat case_bool_decide; try done; naive_solver.
  - repeat case_decide; repeat case_bool_decide; subst; try done; naive_solver.
Qed.

(** ** What holds of traces *)

Lemma hold_app s e1 e2 : hold s (e1 ++ e2) = hold (hold s e1) e2.
Proof. apply foldl_app. Qed.

Lemma away_app s e1 e2 : away s (e1 ++ e2) = away (away s e1) e2.
Proof. apply foldl_app. Qed.

Lemma peak_app s e1 e2 : peak s (e1 ++ e2) = Nat.max (peak s e1) (peak (hold s e1) e2).
Proof.
  revert s. induction e1 as [|e e1 IH]; intros s; cbn [app peak hold foldl].
  - destruct e2; cbn [peak]; lia.
  - rewrite IH. unfold hold. lia.
Qed.

Lemma peak_last s ev : (size (hold s ev) <= peak s ev)%nat.
Proof. revert s. induction ev as [|e ev IH]; intros s; cbn [peak hold foldl]; [done|]. specialize (IH (hold1 s e)). unfold hold in IH. lia. Qed.

Lemma hold_waits s pids : hold s (EWait <$> pids) = s.
Proof. by induction pids. Qed.

Lemma hold1_mono s t e : s ⊆ t → hold1 s e ⊆ hold1 t e.
Proof. intros H. destruct e as [[[]|]| | | | | | | | | | | | |]; simpl; set_solver. Qed.

Lemma hold_mono s t ev : s ⊆ t → hold s ev ⊆ hold t ev.
Proof. revert s t. induction ev as [|e ev IH]; intros s t H; [done|]. apply IH. by apply hold1_mono. Qed.

Lemma peak_mono s t ev : s ⊆ t → (peak s ev <= peak t ev)%nat.
Proof.
  revert s t. induction ev as [|e ev IH]; intros s t H; cbn [peak]; [by apply subseteq_size|].
  pose proof (subseteq_size s t H). pose proof (IH _ _ (hold1_mono _ _ e H)). lia.
Qed.

(** ** Runs *)

Section Runs.
Context (a : answers).
#[local] Instance recording : Os trace := recorder a.

Definition runs {A} (m : M trace A) (tr : trace) (x : A) (ev : trace) : Prop := m tr = Ok x (tr ++ ev).

Lemma runs_bind {A B} (m : M trace A) (f : A → M trace B) tr x e1 y e2 :
  runs m tr x e1 → runs (f x) (tr ++ e1) y e2 → runs (m ≫= f) tr y (e1 ++ e2).
Proof. intros H1 H2. unfold runs in *. by rewrite (bind_Ok _ _ _ _ _ H1), H2, app_assoc. Qed.

Lemma runs_ret {A} (x : A) tr : runs (mret x) tr x [].
Proof. unfold runs. by rewrite app_nil_r. Qed.

(** What a launch does: at most one child, and nothing is left open. *)
Record launched (st : list (list Z)) (i o pid : Z) (ev : trace) : Prop := {
  la_made : made ev = [];
  la_hold s : hold s ev ⊆ s;
  la_peak s : (peak s ev <= S (size s))%nat;
  la_away s : s.2 = false → (away s ev).2 = false;
  la_kid : if decide (0 <= pid) then
      ∃ k, started ev = [k] ∧ c_pid k = pid ∧ c_out k = o ∧ program_of (hd [] st) = Some (c_elf k) ∧
        opened ev = match named_file st with Some path => [(path, c_in k)] | None => [] end ∧
        (named_file st = None → c_in k = i)
    else started ev = [];
  la_granted : Forall granted ev → (length st <= 2)%nat → 0 <= pid;
}.

Lemma size_acquire (s : gset Z) fd : (size (filter (λ x, (0 <= x)%Z) ({[fd]} : gset Z) ∪ s) <= S (size s))%nat.
Proof.
  rewrite union_comm_L, size_union_alt. assert (size (filter (λ x, (0 <= x)%Z) ({[fd]} : gset Z) ∖ s) <= size ({[fd]} : gset Z))%nat as H by (apply subseteq_size; set_solver).
  rewrite size_singleton in H. lia.
Qed.

Lemma size_drop (s : gset Z) fd : (size (s ∖ {[fd]}) <= size s)%nat.
Proof. apply subseteq_size. set_solver. Qed.

(** A spawn, whose result is reported as [-1] when it fails. *)
Definition report (pid : Z) : Z := if bool_decide (pid < 0) then -1 else pid.

Lemma launched_spawn st i o tr : named_file st = None → is_Some (program_of (hd [] st)) →
  let elf := default (-1) (program_of (hd [] st)) in
  let pid := a_spawn a tr elf 200 i o in launched st i o (report pid) [ESpawn elf 200 i o pid].
Proof.
  intros Hn [e He]. rewrite He. simpl. unfold report. split; intros; try done.
  - cbn. lia.
  - case_bool_decide; repeat case_decide; try lia; cbn; rewrite ?decide_True, ?decide_False by lia; [done|].
    eexists. split; [done|]. simpl. rewrite Hn. by split_and!.
  - apply Forall_inv in H. simpl in H. case_bool_decide; lia.
Qed.

Lemma launched_failed st i o ev : made ev = [] → started ev = [] → (∀ s, hold s ev = s ∧ peak s ev = size s) →
  (∀ s, s.2 = false → (away s ev).2 = false) → (Forall granted ev → (length st <= 2)%nat → False) → launched st i o (-1) ev.
Proof.
  intros Hm Hs Hh Ha Hg. split; try done.
  - intros s. by destruct (Hh s) as [-> _].
  - intros s. destruct (Hh s) as [_ ->]. lia.
  - intros H1 H2. by destruct (Hg H1 H2).
Qed.

Lemma hold_open_neg s p m fd : fd < 0 → hold s [EOpen p m fd] = s ∧ peak s [EOpen p m fd] = size s.
Proof.
  intros H. assert (hold1 s (EOpen p m fd) = s) as E by (simpl; set_solver by lia). cbn [peak hold foldl]. rewrite E. split; [done|lia].
Qed.

Lemma launch_ls_runs cwd st i o tr : hd [] st = LS → is_Some (program_of (hd [] st)) → st ≠ [] →
  ∃ pid ev, runs (launch_ls cwd st i o) tr pid ev ∧ launched st i o pid ev.
Proof.
  intros Hls Hp Hne. destruct st as [|name [|path [|x args]]]; [done|..]; cbn [hd] in Hls; subst name; cbn [launch_ls].
  - eexists _, _. split; [|by apply (launched_spawn [LS] i o tr)]. eapply (runs_bind _ _ _ _ [_] _ []); [reflexivity|apply runs_ret].
  - set (c := a_pwd a tr cwd). set (r := a_chdir a (tr ++ [EPwd c]) path). destruct (decide (r < 0)) as [Hr|Hr].
    { exists (-1), [EPwd c; EChdir path r]. split.
      - eapply (runs_bind _ _ _ _ [_] _ [_]); [reflexivity|]. eapply (runs_bind _ _ _ _ [_] _ []); [reflexivity|].
        rewrite bool_decide_eq_true_2 by done. apply runs_ret.
      - apply launched_failed; try done.
        + intros s. cbn. split; [done|lia].
        + intros s Hs. cbn. case_bool_decide; [done|]. by rewrite bool_decide_eq_false_2 by lia.
        + intros Hg. apply Forall_cons in Hg as [_ Hg]. apply Forall_inv in Hg. simpl in Hg. lia. }
    set (tr2 := (tr ++ [EPwd c]) ++ [EChdir path r]). pose proof (launched_spawn [LS; path] i o tr2 eq_refl Hp) as [L1 L2 L3 L4 L5 L6].
    set (pid := a_spawn a tr2 9 200 i o) in *. set (r2 := a_chdir a (tr2 ++ [ESpawn 9 200 i o pid]) c).
    exists (report pid), ([EPwd c; EChdir path r] ++ [ESpawn 9 200 i o pid] ++ [EChdir c r2]). split.
    + eapply (runs_bind _ _ _ _ [_] _ [_; _; _]); [reflexivity|]. eapply (runs_bind _ _ _ _ [_] _ [_; _]); [reflexivity|].
      rewrite bool_decide_eq_false_2 by done. eapply (runs_bind _ _ _ _ [_] _ [_]); [reflexivity|].
      eapply (runs_bind _ _ _ _ [_] _ []); [reflexivity|apply runs_ret].
    + split; try done.
      * intros s. cbn. lia.
      * intros s Hs. cbn. by rewrite (bool_decide_eq_true_2 (c = c)).
      * intros Hg. apply L6. apply Forall_app in Hg as [_ Hg]. by apply Forall_app in Hg as [Hg _].
  - exists (-1), []. split; [apply runs_ret|]. apply launched_failed; try done. simpl. lia.
Qed.

Lemma launch_filter_runs st i o tr : hd [] st ≠ LS → is_Some (program_of (hd [] st)) → st ≠ [] →
  ∃ pid ev, runs (launch_filter (default (-1) (program_of (hd [] st))) st i o) tr pid ev ∧ launched st i o pid ev.
Proof.
  intros Hls Hp Hne. destruct st as [|name [|path [|x args]]]; [done|..]; cbn [hd] in *; cbn [launch_filter].
  - eexists _, _. split; [|by apply (launched_spawn [name] i o tr)]. eapply (runs_bind _ _ _ _ [_] _ []); [reflexivity|apply runs_ret].
  - set (fd := a_open a tr path 0). destruct (decide (fd < 0)) as [Hr|Hr].
    { exists (-1), [EOpen path 0 fd]. split.
      - eapply (runs_bind _ _ _ _ [_] _ []); [reflexivity|]. rewrite bool_decide_eq_true_2 by done. apply runs_ret.
      - apply launched_failed; try done.
        + intros s. by apply hold_open_neg.
        + intros Hg. apply Forall_inv in Hg. simpl in Hg. lia. }
    destruct Hp as [e He]. rewrite He. cbn [default]. set (pid := a_spawn a (tr ++ [EOpen path 0 fd]) e 200 fd o).
    exists (report pid), [EOpen path 0 fd; ESpawn e 200 fd o pid; EClose fd]. split.
    + eapply (runs_bind _ _ _ _ [_] _ [_; _]); [reflexivity|]. rewrite bool_decide_eq_false_2 by done.
      eapply (runs_bind _ _ _ _ [_] _ [_]); [reflexivity|]. eapply (runs_bind _ _ _ _ [_] _ []); [reflexivity|apply runs_ret].
    + split; try done.
      * intros s. cbn. set_solver.
      * intros s. cbn [peak hold1]. pose proof (size_acquire s fd). pose proof (size_drop (filter (λ x, 0 <= x) {[fd]} ∪ s) fd). lia.
      * unfold report. cbn [named_file]. rewrite (decide_False (P := name = LS)) by done.
        case_bool_decide; rewrite ?decide_True, ?decide_False by lia; cbn; rewrite ?decide_True, ?decide_False by lia; [done|].
        eexists. split; [done|]. by split_and!.
      * intros Hg _. apply Forall_cons in Hg as [_ Hg]. apply Forall_inv in Hg. simpl in Hg. unfold report. case_bool_decide; lia.
  - exists (-1), []. split; [apply runs_ret|]. apply launched_failed; try done. simpl. lia.
Qed.

Lemma launch_runs cwd st i o tr : Forall is_char (hd [] st) → is_Some (program_of (hd [] st)) → st ≠ [] →
  ∃ pid ev, runs (launch_process_stage cwd st i o) tr pid ev ∧ launched st i o pid ev.
Proof.
  intros Hc Hp Hne. destruct (name_program (hd [] st) Hc) as (_ & He & Hls). destruct st as [|name args]; [done|]. cbn [hd] in *.
  unfold launch_process_stage. rewrite He, Hls. rewrite (bool_decide_eq_false_2 (default _ _ < 0)).
  2:{ destruct Hp as [e Hp]. rewrite Hp. revert Hp. unfold program_of. repeat case_decide; intros [= <-]; simpl; lia. }
  case_bool_decide; [by apply launch_ls_runs|by apply (launch_filter_runs (name :: args))].
Qed.

Definition closes (fd : Z) : trace := if decide (0 <= fd) then [EClose fd] else [].

Lemma close_if_runs fd tr : runs (close_if fd) tr () (closes fd).
Proof. unfold close_if, closes. case_bool_decide; [rewrite decide_True by lia|rewrite decide_False by lia]; [done|apply runs_ret]. Qed.

Lemma hold_closes s fd : hold s (closes fd) = if decide (0 <= fd) then s ∖ {[fd]} else s.
Proof. unfold closes. by case_decide. Qed.

Lemma hold_closes_twice s fd : hold (hold s (closes fd)) (closes fd) = hold s (closes fd).
Proof. rewrite !hold_closes. case_decide; set_solver. Qed.

Lemma peak_closes s fd : (peak s (closes fd) <= size s)%nat.
Proof. unfold closes. case_decide; cbn; [|lia]. pose proof (size_drop s fd). lia. Qed.

Lemma size_closes s fd : (size s <= S (size (hold s (closes fd))))%nat.
Proof.
  rewrite hold_closes. case_decide; [|lia]. transitivity (size ({[fd]} ∪ s ∖ {[fd]})); [apply subseteq_size; intros x; destruct (decide (x = fd)); set_solver|].
  rewrite size_union_alt, size_singleton. pose proof (size_drop (s ∖ {[fd]}) fd). lia.
Qed.

Lemma peak_waits s pids : peak s (EWait <$> pids) = size s.
Proof. induction pids; [done|]. simpl. unfold fmap in *. lia. Qed.

Lemma wait_all_runs pids tr : Forall (λ p, 0 <= p) pids → runs (wait_all pids) tr () (EWait <$> pids).
Proof.
  revert tr. induction pids as [|p pids IH]; intros tr Hp; cbn [wait_all]; [apply runs_ret|]. apply Forall_cons in Hp as [Hp Hps].
  rewrite bool_decide_eq_true_2 by lia. rewrite fmap_cons. change (EWait p :: ?l) with ([EWait p] ++ l).
  by eapply runs_bind; [|apply IH].
Qed.

Lemma away_waits s pids : away s (EWait <$> pids) = s.
Proof. by induction pids. Qed.

Lemma away_closes s fd : away s (closes fd) = s.
Proof. unfold closes. by case_decide. Qed.

Lemma noted_app e1 e2 : made (e1 ++ e2) = made e1 ++ made e2 ∧ opened (e1 ++ e2) = opened e1 ++ opened e2 ∧
  started (e1 ++ e2) = started e1 ++ started e2.
Proof. unfold made, opened, started. by rewrite !omap_app. Qed.

Lemma noted_waits pids : opened (EWait <$> pids) = [] ∧ started (EWait <$> pids) = [].
Proof. by induction pids. Qed.

Lemma noted_closes fd : made (closes fd) = [] ∧ opened (closes fd) = [] ∧ started (closes fd) = [].
Proof. unfold closes. by case_decide. Qed.

(** What the stages from [in_fd] on do, [pids] having been started before. *)
Record ran (in_fd : Z) (pids : list Z) (stages : list (list (list Z))) (ev : trace) : Prop := {
  ra_hold s : hold s ev ⊆ hold s (closes in_fd);
  ra_peak s : (peak s ev <= size (hold s (closes in_fd)) + 4)%nat;
  ra_away s : s.2 = false → (away s ev).2 = false;
  ra_wired : wired in_fd stages (made ev) (opened ev) (started ev);
  ra_wait : length (started ev) = length stages →
    ∃ ev0, ev = ev0 ++ (EWait <$> pids ++ (c_pid <$> started ev)) ∧ ∀ s, hold s ev0 ⊆ hold s (closes in_fd);
  ra_granted : Forall granted ev → Forall (λ st, (length st <= 2)%nat) stages → length (started ev) = length stages;
}.

Lemma run_last_runs cwd st in_fd pids tr : Forall is_char (hd [] st) → is_Some (program_of (hd [] st)) → st ≠ [] → Forall (λ p, 0 <= p) pids →
  ∃ ev, runs (run_stages cwd [st] in_fd pids) tr 0 ev ∧ ran in_fd pids [st] ev.
Proof.
  intros Hc Hp Hne Hps. destruct (launch_runs cwd st in_fd (-1) tr Hc Hp Hne) as (pid & L & HL & [Lm Lh Lp La Lk Lg]). cbn [run_stages].
  assert (∀ s, hold (hold s L) (closes in_fd) ⊆ hold s (closes in_fd)) as Hh by (intros s; apply hold_mono, Lh).
  assert (∀ s, (size (hold s L) <= size s)%nat) as Hsz by (intros s; apply subseteq_size, Lh).
  destruct (decide (0 <= pid)) as [Hpid|Hpid].
  - destruct Lk as (k & Lk & Kp & Ko & Ke & Kf & Ki). set (ps := pids ++ [pid]).
    exists (L ++ closes in_fd ++ closes in_fd ++ (EWait <$> ps)). split.
    { eapply runs_bind; [exact HL|]. eapply runs_bind; [apply close_if_runs|]. rewrite bool_decide_eq_false_2 by lia.
      eapply runs_bind; [apply close_if_runs|]. rewrite <- (app_nil_r (_ <$> _)). eapply runs_bind; [|apply runs_ret].
      apply wait_all_runs. apply Forall_app. by repeat constructor. }
    assert (started (L ++ closes in_fd ++ closes in_fd ++ (EWait <$> ps)) = [k] ∧ opened (L ++ closes in_fd ++ closes in_fd ++ (EWait <$> ps)) = opened L) as [Es Eo].
    { pose proof (noted_waits ps) as [W1 W2]. pose proof (noted_closes in_fd) as (_ & C1 & C2).
      rewrite !(proj1 (proj2 (noted_app _ _))), !(proj2 (proj2 (noted_app _ _))), W1, W2, C1, C2, Lk, app_nil_r. simpl. rewrite ?app_nil_r. done. }
    split.
    + intros s. rewrite !hold_app, hold_waits, hold_closes_twice. apply Hh.
    + intros s. rewrite !peak_app, peak_waits, hold_closes_twice. pose proof (Lp s). pose proof (Hsz s). pose proof (size_closes s in_fd).
      pose proof (peak_closes (hold s L) in_fd). pose proof (peak_closes (hold (hold s L) (closes in_fd)) in_fd).
      pose proof (subseteq_size _ _ (Hh s)). lia.
    + intros s Hs. rewrite !away_app, away_waits, !away_closes. by apply La.
    + rewrite Es, Eo, Kf. cbn [wired]. split; [done|]. split; [|done]. destruct (named_file st); [done|by apply Ki].
    + intros _. rewrite Es. cbn [fmap list_fmap]. rewrite Kp. exists (L ++ closes in_fd ++ closes in_fd). split; [by rewrite <- !app_assoc|].
      intros s. rewrite !hold_app, hold_closes_twice. apply Hh.
    + by rewrite Es.
  - exists (L ++ closes in_fd). split.
    { eapply runs_bind; [exact HL|]. rewrite <- (app_nil_r (closes _)). eapply runs_bind; [apply close_if_runs|].
      rewrite bool_decide_eq_true_2 by lia. apply runs_ret. }
    assert (started (L ++ closes in_fd) = []) as Es by (by rewrite (proj2 (proj2 (noted_app _ _))), Lk, (proj2 (proj2 (noted_closes in_fd)))).
    split; rewrite ?Es; try done.
    + intros s. rewrite hold_app. apply Hh.
    + intros s. rewrite peak_app. pose proof (Lp s). pose proof (Hsz s). pose proof (peak_closes (hold s L) in_fd). pose proof (size_closes s in_fd). lia.
    + intros s Hs. rewrite away_app, away_closes. by apply La.
    + intros Hg Hl. apply Forall_app in Hg as [Hg _]. apply Forall_inv in Hl. specialize (Lg Hg Hl). lia.
Qed.

(** The ends of a pipe, the launch and the closing of what came before. *)
Definition stage_start (in_fd r t : Z) (L : trace) : trace := [EPipe (Some (r, t))] ++ L ++ closes in_fd.

Lemma stage_start_hold in_fd r t L s : (∀ s, hold s L ⊆ s) → hold s (stage_start in_fd r t L) ⊆ hold (hold1 s (EPipe (Some (r, t)))) (closes in_fd).
Proof. intros Lh. unfold stage_start. rewrite !hold_app. apply hold_mono, Lh. Qed.

Lemma after_pipe s in_fd r t : hold (hold (hold1 s (EPipe (Some (r, t)))) (closes in_fd) ∖ {[t]}) (closes r) ⊆ hold s (closes in_fd).
Proof. rewrite !hold_closes. simpl. repeat case_decide; set_solver by lia. Qed.

Lemma after_pipe_both s in_fd r t : hold (hold1 s (EPipe (Some (r, t)))) (closes in_fd) ∖ {[r]} ∖ {[t]} ⊆ hold s (closes in_fd).
Proof. rewrite !hold_closes. simpl. repeat case_decide; set_solver. Qed.

Lemma size_pipe s r t : (size (hold1 s (EPipe (Some (r, t)))) <= size s + 2)%nat.
Proof.
  assert (hold1 s (EPipe (Some (r, t))) = filter (λ x, 0 <= x) {[r]} ∪ (filter (λ x, 0 <= x) {[t]} ∪ s)) as -> by (simpl; set_solver).
  pose proof (size_acquire s t). pose proof (size_acquire (filter (λ x, 0 <= x) {[t]} ∪ s) r). lia.
Qed.

Lemma stage_start_peak in_fd r t L s : (∀ s, hold s L ⊆ s) → (∀ s, (peak s L <= S (size s))%nat) →
  (peak s (stage_start in_fd r t L) <= size (hold s (closes in_fd)) + 4)%nat.
Proof.
  intros Lh Lp. unfold stage_start. rewrite !peak_app. set (s1 := hold s [_]). assert (size s1 <= size s + 2)%nat by apply size_pipe.
  pose proof (Lp s1). pose proof (subseteq_size _ _ (Lh s1)). pose proof (peak_closes (hold s1 L) in_fd). pose proof (size_closes s in_fd).
  cbn [peak] in *. fold (hold s [EPipe (Some (r, t))]). change (hold1 s (EPipe (Some (r, t)))) with s1. lia.
Qed.

Lemma stage_start_noted in_fd r t L ev : made L = [] →
  made (stage_start in_fd r t L ++ ev) = (r, t) :: made ev ∧ opened (stage_start in_fd r t L ++ ev) = opened L ++ opened ev ∧
  started (stage_start in_fd r t L ++ ev) = started L ++ started ev.
Proof.
  intros Lm. unfold stage_start. pose proof (noted_closes in_fd) as (C0 & C1 & C2). rewrite <- !app_assoc.
  destruct (noted_app [EPipe (Some (r, t))] (L ++ closes in_fd ++ ev)) as (-> & -> & ->), (noted_app L (closes in_fd ++ ev)) as (-> & -> & ->),
    (noted_app (closes in_fd) ev) as (-> & -> & ->). by rewrite C0, C1, C2, Lm.
Qed.

Lemma stage_start_away in_fd r t L s : away s (stage_start in_fd r t L) = away s L.
Proof. unfold stage_start. by rewrite !away_app, away_closes. Qed.

(** A stage that was started, and those after it. *)
Lemma ran_step in_fd r t pid L st stages pids ev k : stages ≠ [] → launched st in_fd t pid L → 0 <= pid →
  started L = [k] → c_pid k = pid → ran r (pids ++ [pid]) stages ev → ran in_fd pids (st :: stages) (stage_start in_fd r t L ++ [EClose t] ++ ev).
Proof.
  intros Hne [Lm Lh Lp La Lk Lg] Hpid Es Ek [Rh Rp Ra Rw Rt Rg]. rewrite decide_True in Lk by done.
  destruct Lk as (k' & Lk & _ & Ko & Ke & Kf & Ki). rewrite Es in Lk. injection Lk as <-.
  destruct (stage_start_noted in_fd r t L ([EClose t] ++ ev) Lm) as (E0 & E1 & E2). cbn [app] in *. change (made (EClose t :: ev)) with (made ev) in E0.
  change (opened (EClose t :: ev)) with (opened ev) in E1. change (started (EClose t :: ev)) with (started ev) in E2. rewrite Es in E2.
  assert (∀ s, hold (hold s (stage_start in_fd r t L) ∖ {[t]}) (closes r) ⊆ hold s (closes in_fd)) as Hin.
  { intros s. etrans; [|apply (after_pipe s in_fd r t)]. apply hold_mono. pose proof (stage_start_hold in_fd r t L s Lh). set_solver. }
  split.
  - intros s. rewrite hold_app. cbn [hold foldl hold1]. etrans; [apply Rh|]. apply Hin.
  - intros s. rewrite peak_app. cbn [peak hold1]. pose proof (stage_start_peak in_fd r t L s Lh Lp). pose proof (Rp (hold s (stage_start in_fd r t L) ∖ {[t]})).
    pose proof (subseteq_size _ _ (Hin s)). assert (size (hold s (stage_start in_fd r t L)) <= peak s (stage_start in_fd r t L))%nat by apply peak_last. lia.
  - intros s Hs. rewrite away_app, stage_start_away. cbn [away foldl away1]. apply Ra. by apply La.
  - rewrite E0, E1, E2. cbn [wired app]. split; [done|]. rewrite Kf. destruct stages as [|st' stages]; [done|].
    destruct (named_file st) as [path|]; cbn [app head tail]; (split; [by (done || apply Ki)|]); done.
  - rewrite E2. cbn [app length]. intros [= Hlen]. destruct (Rt Hlen) as (ev0 & Ee & Hh). exists (stage_start in_fd r t L ++ EClose t :: ev0). split.
    + rewrite <- app_assoc. cbn [app fmap list_fmap]. rewrite Ee at 1. rewrite Ek. by rewrite <- (app_assoc pids).
    + intros s. rewrite hold_app. cbn [hold foldl hold1]. etrans; [apply Hh|]. apply Hin.
  - intros Hg Hl. rewrite E2. cbn [app length]. f_equal. apply Forall_app in Hg as [_ Hg]. apply Forall_cons in Hg as [_ Hg].
    apply Forall_cons in Hl as [_ Hl]. by apply Rg.
Qed.

(** A stage that could not be started. *)
Lemma ran_stop in_fd r t pid L st stages pids : launched st in_fd t pid L → pid < 0 → started L = [] →
  ran in_fd pids (st :: stages) (stage_start in_fd r t L ++ [EClose r; EClose t]).
Proof.
  intros [Lm Lh Lp La Lk Lg] Hpid Es. destruct (stage_start_noted in_fd r t L [EClose r; EClose t] Lm) as (E0 & E1 & E2). rewrite Es in E2. split.
  - intros s. rewrite hold_app. cbn [hold foldl hold1]. etrans; [|apply (after_pipe_both s in_fd r t)]. pose proof (stage_start_hold in_fd r t L s Lh). set_solver.
  - intros s. rewrite peak_app. cbn [peak hold1]. pose proof (stage_start_peak in_fd r t L s Lh Lp).
    assert (size (hold s (stage_start in_fd r t L)) <= peak s (stage_start in_fd r t L))%nat by apply peak_last.
    pose proof (size_drop (hold s (stage_start in_fd r t L)) r). pose proof (size_drop (hold s (stage_start in_fd r t L) ∖ {[r]}) t). lia.
  - intros s Hs. rewrite away_app, stage_start_away. by apply La.
  - by rewrite E2.
  - by rewrite E2.
  - intros Hg Hl. apply Forall_app in Hg as [Hg _]. unfold stage_start in Hg. apply Forall_app in Hg as [_ Hg]. apply Forall_app in Hg as [Hg _].
    apply Forall_inv in Hl. specialize (Lg Hg Hl). lia.
Qed.

Lemma run_stages_runs cwd stages in_fd pids tr : stages ≠ [] → Forall (λ st, st ≠ [] ∧ Forall is_char (hd [] st) ∧ is_Some (program_of (hd [] st))) stages →
  Forall (λ p, 0 <= p) pids → ∃ ev, runs (run_stages cwd stages in_fd pids) tr 0 ev ∧ ran in_fd pids stages ev.
Proof.
  revert in_fd pids tr. induction stages as [|st stages IH]; intros in_fd pids tr Hne Hok Hps; [done|].
  apply Forall_cons in Hok as [(Hst & Hc & Hp) Hok]. destruct stages as [|st' stages]; [by apply run_last_runs|]. cbn [run_stages].
  destruct (a_pipe a tr) as [[r t]|] eqn:Ep.
  2:{ exists ([EPipe None] ++ closes in_fd). split.
      - eapply runs_bind; [unfold runs, call; cbn; by rewrite Ep|]. rewrite <- (app_nil_r (closes _)). eapply runs_bind; [apply close_if_runs|apply runs_ret].
      - split.
        + done.
        + intros s. rewrite peak_app. cbn [peak hold foldl hold1]. pose proof (peak_closes s in_fd). pose proof (size_closes s in_fd). lia.
        + intros s Hs. by rewrite away_app, away_closes.
        + unfold closes. by case_decide.
        + unfold closes. by case_decide.
        + intros Hg. by apply Forall_inv in Hg. }
  destruct (launch_runs cwd st in_fd t (tr ++ [EPipe (Some (r, t))]) Hc Hp Hst) as (pid & L & HL & Hla). pose proof (la_kid _ _ _ _ _ Hla) as Lk.
  destruct (decide (0 <= pid)) as [Hpid|Hpid].
  - destruct Lk as (k & Lk & Kp & _).
    destruct (IH r (pids ++ [pid]) ((tr ++ [EPipe (Some (r, t))]) ++ L ++ closes in_fd ++ [EClose t])) as (ev & He & Hran); [done|done|apply Forall_app; by repeat constructor|].
    exists (stage_start in_fd r t L ++ [EClose t] ++ ev). split.
    + unfold stage_start. rewrite <- !app_assoc. eapply runs_bind; [unfold runs, call; cbn; by rewrite Ep|].
      eapply runs_bind; [exact HL|]. eapply runs_bind; [apply close_if_runs|]. rewrite bool_decide_eq_false_2 by lia.
      eapply runs_bind; [reflexivity|]. by rewrite <- !app_assoc in *.
    + apply (ran_step in_fd r t pid L st _ pids ev k); done.
  - exists (stage_start in_fd r t L ++ [EClose r; EClose t]). split.
    + unfold stage_start. rewrite <- !app_assoc. eapply runs_bind; [unfold runs, call; cbn; by rewrite Ep|].
      eapply runs_bind; [exact HL|]. eapply runs_bind; [apply close_if_runs|]. rewrite bool_decide_eq_true_2 by lia.
      eapply (runs_bind _ _ _ _ [_] _ [_]); [reflexivity|]. eapply (runs_bind _ _ _ _ [_] _ []); [reflexivity|apply runs_ret].
    + apply (ran_stop in_fd r t pid); done || lia.
Qed.

(** A line all of whose commands name a program. *)
Definition all_programs (ws : list (list (list Z))) : Prop := Forall (λ st, is_Some (program_of (hd [] st))) ws.

#[local] Instance all_programs_dec ws : Decision (all_programs ws).
Proof. apply Forall_dec. intros st. apply _. Defined.

Lemma programs_checked ws : Forall (λ st, Forall is_char (hd [] st)) ws →
  forallb (λ st, is_process_cmd (hd [] st)) ws = bool_decide (all_programs ws).
Proof.
  intros Hc. apply eq_true_iff_eq. rewrite forallb_forall, bool_decide_eq_true. unfold all_programs. rewrite Forall_forall.
  rewrite Forall_forall in Hc. split; intros H st Hst; [rewrite list_elem_of_In in Hst|rewrite <- list_elem_of_In in Hst];
    specialize (H st Hst); (destruct (name_program (hd [] st)) as (E & _ & _); [apply Hc; by rewrite ?list_elem_of_In in *|]).
  - rewrite E in H. by apply bool_decide_eq_true in H.
  - rewrite E. by apply bool_decide_eq_true.
Qed.

(** C21: the shell runs a line of one to 16 commands as a pipeline, however its system calls
    are answered.  It returns 0.  If a command names no program, it makes no call at all.  The
    children it starts run the first commands in order, each the program its name selects,
    reading the read end of the pipe whose write end the child before was given, or the file
    it names; the first reads and the last writes where the shell does.  At the end it holds
    none of the descriptors it was given, it never held more than four, and it has asked to go
    back whenever it changed its directory.  When every command was started, its last calls
    wait for exactly these children in order, and it had closed every descriptor before.  If
    no command has more than one argument and no call fails, every command is started. *)
Theorem run_pipeline_correct stk_cwd line post tr :
  Forall is_char line → pipeline_ok (commands_of line) →
  ∃ ev, run_pipeline stk_cwd (line ++ 0 :: post) tr = Ok 0 (tr ++ ev) ∧
    (¬ all_programs (commands_of line) → ev = []) ∧
    wired (-1) (commands_of line) (made ev) (opened ev) (started ev) ∧
    hold ∅ ev = ∅ ∧ (peak ∅ ev <= 4)%nat ∧ (away ([], false) ev).2 = false ∧
    (length (started ev) = length (commands_of line) →
     ∃ ev0, ev = ev0 ++ (EWait <$> (c_pid <$> started ev)) ∧ hold ∅ ev0 = ∅) ∧
    (all_programs (commands_of line) → Forall (λ st, (length st <= 2)%nat) (commands_of line) → Forall granted ev →
     length (started ev) = length (commands_of line)).
Proof.
  intros Hl Hok. pose proof (parse_pipeline_run line post) as Hp. unfold run_pipeline, pipeline_ok in *.
  pose proof (commands_of_Forall is_char line Hl) as Hc. destruct Hok as [Hlen Hf]. pose proof Hlen as Hlen'. unfold commands_of in Hlen'.
  rewrite length_fmap in Hlen'. rewrite (stages_of_ok (segments line) 0) in Hp by done. fold (commands_of line) in Hp.
  destruct Hp as (pss & b & -> & ->); [eapply Forall_impl; [exact Hl|]; unfold is_char; lia|].
  set (ws := commands_of line) in *. assert (ws ≠ []) as Hne by apply commands_of_ne.
  assert (Forall (λ st, Forall is_char (hd [] st)) ws) as Hh by (eapply Forall_impl; [exact Hc|]; intros [|n st] H; [constructor|by apply Forall_inv in H]).
  unfold run_parsed. rewrite bool_decide_eq_false_2 by done. rewrite (programs_checked ws Hh). case_bool_decide as Hall.
  - destruct (run_stages_runs stk_cwd ws (-1) [] tr Hne) as (ev & Hr & [R1 R2 R3 R4 R5 R6]); [|constructor|].
    { apply Forall_forall. intros st Hst. rewrite Forall_forall in Hf. rewrite Forall_forall in Hh. unfold all_programs in Hall. rewrite Forall_forall in Hall.
      split; [|by split; [apply Hh|apply Hall]]. intros ->. specialize (Hf [] Hst). simpl in Hf. lia. }
    exists ev. split; [exact Hr|]. split; [done|]. split; [done|]. specialize (R1 ∅). specialize (R2 ∅). cbn in R1, R2.
    split; [set_solver|]. split; [exact R2|]. split; [by apply R3|]. split; [|intros; by apply R6].
    intros Hn. destruct (R5 Hn) as (ev0 & E & H0). exists ev0. split; [done|]. specialize (H0 ∅). cbn in H0. set_solver.
  - exists []. rewrite app_nil_r. split; [done|]. split; [done|]. split; [by destruct ws|]. split; [reflexivity|]. split; [cbn [peak]; rewrite size_empty; lia|]. split; [done|]. split; [|done].
    intros E. simpl in E. by destruct ws.
Qed.
End Runs.

(** ** A small system *)

(** A descriptor that is not held. *)
Definition new_fd (s : gset Z) : Z := Z.of_nat (fresh (set_map Z.to_nat s : gset nat)).

(** Descriptors are new ones, and there are [n] processes to be had. *)
Definition small_system (n : nat) : answers :=
  let base : gset Z := {[0; 1; 2]} in {|
  a_pipe tr := let t := new_fd (hold base tr) in Some (new_fd ({[t]} ∪ hold base tr), t);
  a_open tr _ _ := new_fd (hold base tr);
  a_spawn tr _ _ _ _ := if decide (length (started tr) < n)%nat then 5 + Z.of_nat (length (started tr)) else -1;
  a_pwd tr b := [47];
  a_chdir tr _ := 0;
|}.

Lemma run_pipeline_correct_witness : ∃ ev,
  @run_pipeline trace (recorder (small_system 9)) [] (sample_line ++ 0 :: [7; 7]) [] = Ok 0 ev ∧
  wired (-1) [[LS]; [ROT13; [97]]] (made ev) (opened ev) (started ev) ∧ hold ∅ ev = ∅ ∧ (peak ∅ ev <= 4)%nat ∧
  ∃ ev0, ev = ev0 ++ (EWait <$> (c_pid <$> started ev)) ∧ length (started ev) = 2%nat ∧ hold ∅ ev0 = ∅.
Proof.
  destruct (run_pipeline_correct (small_system 9) [] sample_line [7; 7] []) as (ev & Hr & _ & Hw & Hh & Hpk & _ & Hall & _).
  - unfold sample_line. repeat (apply Forall_cons; split; [unfold is_char; lia|]). by apply Forall_nil.
  - change (commands_of sample_line) with [[LS]; [ROT13; [97]]]. split; [unfold MAXARGS; simpl; lia|]. repeat constructor; unfold MAXARGS; simpl; lia.
  - change (commands_of sample_line) with [[LS]; [ROT13; [97]]] in *. exists ev. cbn [app] in Hr. split_and!; try done.
    assert (length (started ev) = 2%nat) as Hn by (assert (Ok 0 ev = @run_pipeline trace (recorder (small_system 9)) [] (sample_line ++ 0 :: [7; 7]) []) as E by done; vm_compute in E; injection E as ->; vm_compute; reflexivity).
    destruct (Hall Hn) as (ev0 & E & H0). by exists ev0.
Defined.

(** The calls for ["LS | ROT13 a"]. *)
Example sample_calls : @run_pipeline trace (recorder (small_system 9)) [] (sample_line ++ 0 :: [7; 7]) [] =
  Ok 0 [EPipe (Some (4, 3)); ESpawn 9 200 (-1) 3 5; EClose 3; EOpen [97] 0 5; ESpawn 7 200 5 (-1) 6; EClose 5; EClose 4; EClose 4; EWait 5; EWait 6].
Proof. vm_compute. reflexivity. Qed.

(** When the second stage cannot be started, the shell does not wait for the first. *)
Example failed_stage_no_wait : @run_pipeline trace (recorder (small_system 1)) [] (sample_line ++ 0 :: [7; 7]) [] =
  Ok 0 [EPipe (Some (4, 3)); ESpawn 9 200 (-1) 3 5; EClose 3; EOpen [97] 0 5; ESpawn 7 200 5 (-1) (-1); EClose 5; EClose 4].
Proof. vm_compute. reflexivity. Qed.
