(* ===== verification/Format.v ===== *)
(** * Formatted output (user/lib/printfmt.c, printf.c, string.c; kern/lib/printfmt.c, dprintf.c)

    [vprintfmt] interprets a format and gives its characters, one at a time, to a function
    that the caller passes: into a bounded buffer ([vsnprintf]), or collected into blocks
    that are written at once ([vcprintf], [vdprintf]). *)

From S2P Require Import Prelude.

Definition PCT : Z := 37.
Definition MAX_BUF : nat := 4096.
Definition CONSOLE_BUFFER_SIZE : nat := 512.

(** What the caller passes after the format: 32-bit and 64-bit words, and strings, where a
    null pointer is [None]. *)
Inductive va := VInt (z : Z) | VLong (z : Z) | VStr (s : option (list Z)).

Definition u64 (x : Z) : Z := x mod 2 ^ 64.
Definition s64 (x : Z) : Z := (x + 2 ^ 63) mod 2 ^ 64 - 2 ^ 63.

(** A character of a string kept without its NUL; nothing beyond that is accessible. *)
Definition fetch {T} (str : list Z) (i : nat) : M T Z := λ s,
  match str !! i with
  | Some c => Ok c s
  | None => if bool_decide (i = length str) then Ok 0 s else Undef
  end.

Definition strnlen (p : list Z) (size : Z) : Z := if bool_decide (size < 0) then Z.of_nat (length p) else Z.min size (Z.of_nat (length p)).

(** The fields of a %-escape. *)
Record esc := { padc : Z; width : Z; precision : Z; lflag : Z; altflag : bool }.

Definition esc0 : esc := {| padc := 32; width := -1; precision := -1; lflag := 0; altflag := false |}.
Definition with_padc (c : Z) (e : esc) : esc := {| padc := c; width := width e; precision := precision e; lflag := lflag e; altflag := altflag e |}.
Definition with_width (w p : Z) (e : esc) : esc := {| padc := padc e; width := w; precision := p; lflag := lflag e; altflag := altflag e |}.
Definition with_lflag (e : esc) : esc := {| padc := padc e; width := width e; precision := precision e; lflag := lflag e + 1; altflag := altflag e |}.
Definition with_alt (e : esc) : esc := {| padc := padc e; width := width e; precision := precision e; lflag := lflag e; altflag := true |}.

Definition process_precision (p : Z) (e : esc) : esc :=
  if bool_decide (width e < 0) then with_width p (-1) e else with_width (width e) p e.

Definition hexdigit (d : Z) : Z := if bool_decide (d < 10) then 48 + d else 87 + d.

Section Print.
Context {T : Type} (putch : Z → M T ()).

Fixpoint put_n (n : nat) (c : Z) : M T () :=
  match n with
  | O => mret ()
  | S n => putch c ;; put_n n c
  end.

(** The recursion is on the digits of a 64-bit number in base 2 or more: 64 levels are enough. *)
Fixpoint printnum (fuel : nat) (num base width padc : Z) {struct fuel} : M T () :=
  match fuel with
  | O => spin
  | S fuel =>
      (if bool_decide (num >= base) then printnum fuel (num / base) base (width - 1) padc
       else put_n (Z.to_nat (width - 1)) padc) ;;
      putch (hexdigit (num mod base))
  end.

Definition getuint (lflag : Z) (ap : list va) : M T (Z * list va) :=
  match ap with
  | VLong z :: ap => if bool_decide (lflag >= 2) then mret (u64 z, ap) else undef
  | VInt z :: ap => if bool_decide (lflag >= 2) then undef else mret (u32 z, ap)
  | _ => undef
  end.

Definition getint (lflag : Z) (ap : list va) : M T (Z * list va) :=
  match ap with
  | VLong z :: ap => if bool_decide (lflag >= 2) then mret (s64 z, ap) else undef
  | VInt z :: ap => if bool_decide (lflag >= 2) then undef else mret (s32 z, ap)
  | _ => undef
  end.

(** The digits of a field width, from its first one on. *)
Fixpoint width_loop (fuel : nat) (str : list Z) (fmt : nat) (ch p : Z) : M T (Z * nat) :=
  match fuel with
  | O => spin
  | S fuel =>
      let p := p * 10 + ch - 48 in
      if bool_decide (p > 2147483647) then undef
      else
        ch ← fetch str fmt;
        if bool_decide (ch < 48) || bool_decide (ch > 57) then mret (p, fmt)
        else width_loop fuel str (fmt + 1)%nat ch p
  end.

(** The characters of a string, up to the precision; the width that is left. *)
Fixpoint str_loop (alt : bool) (p : list Z) (precision width : Z) : M T Z :=
  match p with
  | [] => mret width
  | ch :: p =>
      if bool_decide (precision < 0) || bool_decide (precision - 1 >= 0) then
        putch (if alt && (bool_decide (ch < 32) || bool_decide (ch > 126)) then 63 else ch) ;;
        str_loop alt p (if bool_decide (precision < 0) then precision else precision - 1) (width - 1)
      else mret width
  end.

Definition null_text : list Z := [40; 110; 117; 108; 108; 41].

Definition put_str (e : esc) (p : list Z) : M T () :=
  let w := width e in
  w ← (if bool_decide (w > 0) && bool_decide (padc e ≠ 45) then
         let w := w - strnlen p (precision e) in
         put_n (Z.to_nat w) (padc e) ;; mret (Z.min w 0)
       else mret w);
  w ← str_loop (altflag e) p (precision e) w;
  put_n (Z.to_nat w) 32.

Definition number (e : esc) (num base : Z) : M T () := printnum 64 num base (width e) (padc e).

(** [for (fmt--; fmt[-1] != '%'; fmt--);] from the character at [fmt] on *)
Fixpoint back (str : list Z) (fmt : nat) : M T nat :=
  match fmt with
  | O => undef
  | S q => c ← fetch str q; if bool_decide (c = PCT) then mret fmt else back str q
  end.

(** What follows a [%]; [octal] tells whether [%o] is compiled in. *)
Fixpoint reswitch (octal : bool) (fuel : nat) (str : list Z) (fmt : nat) (e : esc) (ap : list va) {struct fuel}
    : M T (nat * list va) :=
  match fuel with
  | O => spin
  | S fuel =>
      ch ← fetch str fmt;
      let fmt := (fmt + 1)%nat in
      if bool_decide (ch = 45) then reswitch octal fuel str fmt (with_padc 45 e) ap
      else if bool_decide (ch = 48) then reswitch octal fuel str fmt (with_padc 48 e) ap
      else if bool_decide (49 <= ch <= 57) then
        r ← width_loop (S (length str)) str fmt ch 0;
        reswitch octal fuel str r.2 (process_precision r.1 e) ap
      else if bool_decide (ch = 42) then
        match ap with
        | VInt z :: ap => reswitch octal fuel str fmt (process_precision (s32 z) e) ap
        | _ => undef
        end
      else if bool_decide (ch = 46) then
        reswitch octal fuel str fmt (if bool_decide (width e < 0) then with_width 0 (precision e) e else e) ap
      else if bool_decide (ch = 35) then reswitch octal fuel str fmt (with_alt e) ap
      else if bool_decide (ch = 108) then reswitch octal fuel str fmt (with_lflag e) ap
      else if bool_decide (ch = 99) then
        match ap with VInt z :: ap => putch z ;; mret (fmt, ap) | _ => undef end
      else if bool_decide (ch = 115) then
        match ap with
        | VStr p :: ap => put_str e (default null_text p) ;; mret (fmt, ap)
        | _ => undef
        end
      else if bool_decide (ch = 100) then
        r ← getint (lflag e) ap;
        (if bool_decide (r.1 < 0) then
           putch 45 ;;
           if bool_decide (r.1 = - 2 ^ 63) then undef else number e (- r.1) 10
         else number e r.1 10) ;;
        mret (fmt, r.2)
      else if bool_decide (ch = 117) then
        r ← getuint (lflag e) ap; number e r.1 10 ;; mret (fmt, r.2)
      else if bool_decide (ch = 111) then
        if octal then r ← getuint (lflag e) ap; number e r.1 8 ;; mret (fmt, r.2)
        else putch 88 ;; putch 88 ;; putch 88 ;; mret (fmt, ap)
      else if bool_decide (ch = 112) then
        putch 48 ;; putch 120 ;;
        match ap with VInt z :: ap => number e (u32 z) 16 ;; mret (fmt, ap) | _ => undef end
      else if bool_decide (ch = 120) then
        r ← getuint (lflag e) ap; number e r.1 16 ;; mret (fmt, r.2)
      else if bool_decide (ch = 37) then putch ch ;; mret (fmt, ap)
      else putch 37 ;; fmt ← back str (fmt - 1)%nat; mret (fmt, ap)
  end.

(** The characters up to the next [%]; [None] at the end of the format. *)
Fixpoint literals (fuel : nat) (str : list Z) (fmt : nat) : M T (option nat) :=
  match fuel with
  | O => spin
  | S fuel =>
      ch ← fetch str fmt;
      if bool_decide (ch = PCT) then mret (Some (fmt + 1)%nat)
      else if bool_decide (ch = 0) then mret None
      else putch ch ;; literals fuel str (fmt + 1)%nat
  end.

Fixpoint format_loop (octal : bool) (fuel : nat) (str : list Z) (fmt : nat) (ap : list va) : M T () :=
  match fuel with
  | O => spin
  | S fuel =>
      r ← literals (S (length str)) str fmt;
      match r with
      | None => mret ()
      | Some fmt =>
          r ← reswitch octal (S (S (length str))) str fmt esc0 ap;
          format_loop octal fuel str r.1 r.2
      end
  end.

Definition vprintfmt (octal : bool) (str : list Z) (ap : list va) : M T () :=
  format_loop octal (S (length str)) str 0 ap.
End Print.

(** ** Where the characters go *)

(** A buffer whose size is [b_size]; [b_pos] and [b_end] are [buf] and [ebuf] as offsets
    from its start. *)
Record sprintbuf := { b_mem : list Z; b_pos : Z; b_end : Z; b_cnt : Z }.

Definition sprintputch (ch : Z) : M sprintbuf () := λ b,
  if bool_decide (b_pos b < b_end b) then
    if bool_decide (0 <= b_pos b < Z.of_nat (length (b_mem b))) then
      Ok () {| b_mem := <[Z.to_nat (b_pos b) := u8 ch]> (b_mem b); b_pos := b_pos b + 1; b_end := b_end b; b_cnt := s32 (b_cnt b + 1) |}
    else Undef
  else Ok () {| b_mem := b_mem b; b_pos := b_pos b; b_end := b_end b; b_cnt := s32 (b_cnt b + 1) |}.

Definition poke_nul : M sprintbuf () := λ b,
  if bool_decide (0 <= b_pos b < Z.of_nat (length (b_mem b))) then
    Ok () {| b_mem := <[Z.to_nat (b_pos b) := 0]> (b_mem b); b_pos := b_pos b; b_end := b_end b; b_cnt := b_cnt b |}
  else Undef.

(** The contents of the buffer and the value returned; [mem] is what it held before. *)
Definition vsnprintf (octal : bool) (mem : list Z) (n : Z) (fmt : list Z) (ap : list va) : outcome sprintbuf Z :=
  (vprintfmt sprintputch octal fmt ap ;; poke_nul ;; gets b_cnt)
    {| b_mem := mem; b_pos := 0; b_end := n - 1; b_cnt := 0 |}.

(** [vsprintf] has no bound other than the end of memory, above the end of the array. *)
Definition vsprintf (octal : bool) (mem : list Z) (top : Z) (fmt : list Z) (ap : list va) : outcome sprintbuf Z :=
  (vprintfmt sprintputch octal fmt ap ;; poke_nul ;; gets b_cnt)
    {| b_mem := mem; b_pos := 0; b_end := top; b_cnt := 0 |}.

(** Blocks written at once: those that have been, and the characters collected since. *)
Record printbuf := { p_idx : nat; p_cnt : Z; p_mem : list Z; p_out : list (list Z) }.

Section Blocks.
Context (max : nat) (puts : list Z → nat → list Z).

Definition flush : M printbuf () := λ b,
  if bool_decide (p_idx b < length (p_mem b))%nat then
    let mem := <[p_idx b := 0]> (p_mem b) in
    Ok () {| p_idx := p_idx b; p_cnt := p_cnt b; p_mem := mem; p_out := p_out b ++ [puts mem (p_idx b)] |}
  else Undef.

Definition block_putch (ch : Z) : M printbuf () :=
  i ← gets p_idx;
  m ← gets p_mem;
  if bool_decide (i < length m)%nat then
    modify (λ b, {| p_idx := i + 1; p_cnt := p_cnt b; p_mem := <[i := u8 ch]> (p_mem b); p_out := p_out b |}) ;;
    (if bool_decide (i + 1 = max - 1)%nat then
       flush ;;
       modify (λ b, {| p_idx := 0; p_cnt := p_cnt b; p_mem := p_mem b; p_out := p_out b |})
     else mret ()) ;;
    modify (λ b, {| p_idx := p_idx b; p_cnt := s32 (p_cnt b + 1); p_mem := p_mem b; p_out := p_out b |})
  else undef.

Definition block_printf (octal : bool) (stk : list Z) (fmt : list Z) (ap : list va) : outcome printbuf Z :=
  (vprintfmt block_putch octal fmt ap ;; flush ;; gets p_cnt)
    {| p_idx := 0; p_cnt := 0; p_mem := stk; p_out := [] |}.
End Blocks.

(** [puts(b.buf, b.idx)] writes that many characters; the kernel's [cputs] stops at a NUL. *)
Definition user_puts (mem : list Z) (n : nat) : list Z := take n mem.

Fixpoint cputs (mem : list Z) : list Z :=
  match mem with
  | [] => []
  | c :: mem => if bool_decide (c = 0) then [] else c :: cputs mem
  end.

Definition vcprintf (stk : list Z) (fmt : list Z) (ap : list va) : outcome printbuf Z :=
  block_printf MAX_BUF user_puts false stk fmt ap.

Definition vdprintf (stk : list Z) (fmt : list Z) (ap : list va) : outcome printbuf Z :=
  block_printf CONSOLE_BUFFER_SIZE (λ mem _, cputs mem) true stk fmt ap.

(** ** The output does not depend on where it goes *)

Definition emit (c : Z) : M (list Z) () := λ o, Ok () (o ++ [c]).

Section Sim.
Context {T : Type} (putch : Z → M T ()) (f : Z → T → T) (I : T → Prop).
Hypothesis putch_run : ∀ c s, I s → putch c s = Ok () (f c s).
Hypothesis putch_inv : ∀ c s, I s → I (f c s).

Definition feed (s : T) (l : list Z) : T := foldl (λ s c, f c s) s l.

(** [m] does to its sink what [m'] does to a list. *)
Definition sim {A} (m : M T A) (m' : M (list Z) A) : Prop := ∀ s o, I s →
  match m' o with
  | Ok a o' => ∃ l, o' = o ++ l ∧ m s = Ok a (feed s l) ∧ I (feed s l)
  | Panic => m s = Panic
  | Undef => m s = Undef
  | Spin => m s = Spin
  | Blocked _ => False
  end.

Lemma sim_ret {A} (a : A) : sim (mret a) (mret a).
Proof. intros s o Hs. exists []. by rewrite app_nil_r. Qed.

Lemma sim_undef {A} : sim (undef (A:=A)) undef.
Proof. done. Qed.

Lemma sim_spin {A} : sim (spin (A:=A)) spin.
Proof. done. Qed.

Lemma sim_put c : sim (putch c) (emit c).
Proof. intros s o Hs. exists [c]. split; [done|]. split; [by apply putch_run|by apply putch_inv]. Qed.

Lemma sim_fetch str i : sim (fetch str i) (fetch str i).
Proof.
  intros s o Hs. unfold fetch. destruct (str !! i); [|case_bool_decide; [|done]]; exists []; by rewrite app_nil_r.
Qed.

Lemma sim_bind {A B} (m : M T A) (m' : M (list Z) A) (k : A → M T B) (k' : A → M (list Z) B) :
  sim m m' → (∀ a, sim (k a) (k' a)) → sim (m ≫= k) (m' ≫= k').
Proof.
  intros Hm Hk s o Hs. specialize (Hm s o Hs). unfold mbind, M_bind. destruct (m' o) as [a o'| | | |]; try (by rewrite Hm); [|done].
  destruct Hm as (l & -> & Hr & Hi). rewrite Hr. specialize (Hk a (feed s l) (o ++ l) Hi).
  destruct (k' a (o ++ l)) as [b o''| | | |]; try done. destruct Hk as (l' & -> & Hr' & Hi').
  exists (l ++ l'). unfold feed in *. rewrite foldl_app, app_assoc. done.
Qed.

Create HintDb sim discriminated.
#[local] Hint Resolve sim_ret sim_undef sim_spin sim_put sim_fetch : sim.

#[local] Ltac sim_step :=
  match goal with
  | |- sim (_ ≫= _) (_ ≫= _) => apply sim_bind; [|intros ?]
  | |- sim (match ?x with _ => _ end) _ => destruct x
  | |- _ => solve [auto 2 with sim]
  end.

Lemma sim_put_n n c : sim (put_n putch n c) (put_n emit n c).
Proof. induction n; simpl; repeat sim_step. Qed.

Lemma sim_printnum fuel : ∀ num base w c, sim (printnum putch fuel num base w c) (printnum emit fuel num base w c).
Proof. induction fuel; intros; simpl; [apply sim_spin|]. repeat sim_step; auto using sim_put_n. Qed.

Lemma sim_getuint l ap : sim (getuint l ap) (getuint l ap).
Proof. unfold getuint. repeat sim_step. Qed.

Lemma sim_getint l ap : sim (getint l ap) (getint l ap).
Proof. unfold getint. repeat sim_step. Qed.

Lemma sim_width_loop fuel str : ∀ fmt ch p, sim (width_loop fuel str fmt ch p) (width_loop fuel str fmt ch p).
Proof. induction fuel; intros; simpl; repeat sim_step; auto. Qed.

Lemma sim_str_loop alt p : ∀ n w, sim (str_loop putch alt p n w) (str_loop emit alt p n w).
Proof. induction p; intros; simpl; repeat sim_step; auto. Qed.

#[local] Hint Resolve sim_put_n sim_printnum sim_getuint sim_getint sim_width_loop sim_str_loop : sim.

Lemma sim_put_str e p : sim (put_str putch e p) (put_str emit e p).
Proof. unfold put_str. repeat sim_step. Qed.

Lemma sim_back str fmt : sim (back str fmt) (back str fmt).
Proof. induction fmt; simpl; repeat sim_step; auto. Qed.

#[local] Hint Resolve sim_put_str sim_back : sim.

Lemma sim_number e n b : sim (number putch e n b) (number emit e n b).
Proof. unfold number. auto with sim. Qed.

#[local] Hint Resolve sim_number : sim.

Lemma sim_reswitch oct fuel str : ∀ fmt e ap, sim (reswitch putch oct fuel str fmt e ap) (reswitch emit oct fuel str fmt e ap).
Proof. induction fuel; intros; cbn [reswitch]; [auto with sim|]. repeat sim_step; auto. Qed.

Lemma sim_literals fuel str : ∀ fmt, sim (literals putch fuel str fmt) (literals emit fuel str fmt).
Proof. induction fuel; intros; simpl; repeat sim_step; auto. Qed.

#[local] Hint Resolve sim_reswitch sim_literals : sim.

Lemma sim_format_loop oct fuel str : ∀ fmt ap, sim (format_loop putch oct fuel str fmt ap) (format_loop emit oct fuel str fmt ap).
Proof. induction fuel; intros; cbn [format_loop]; repeat sim_step; auto. Qed.

Lemma sim_vprintfmt oct str ap : sim (vprintfmt putch oct str ap) (vprintfmt emit oct str ap).
Proof. apply sim_format_loop. Qed.
End Sim.

(** ** Numerals *)

(** The digits of a number, most significant first. *)
Fixpoint numeral_from (fuel : nat) (base n : Z) : list Z :=
  match fuel with
  | O => []
  | S fuel => (if bool_decide (n >= base) then numeral_from fuel base (n / base) else []) ++ [hexdigit (n mod base)]
  end.

Definition numeral (base n : Z) : list Z := numeral_from 64 base n.

(** What a digit and a row of digits stand for. *)
Definition digit_val (c : Z) : Z := if bool_decide (c < 58) then c - 48 else c - 87.
Definition value (base : Z) (l : list Z) : Z := foldl (λ a c, a * base + digit_val c) 0 l.

Lemma digit_val_hex d : 0 <= d < 16 → digit_val (hexdigit d) = d.
Proof. intros H. unfold digit_val, hexdigit. do 2 case_bool_decide; lia. Qed.

Lemma value_snoc base l c : value base (l ++ [c]) = value base l * base + digit_val c.
Proof. unfold value. by rewrite foldl_app. Qed.

Lemma numeral_from_value fuel base n : 2 <= base <= 16 → 0 <= n < base ^ Z.of_nat fuel →
  value base (numeral_from fuel base n) = n.
Proof.
  intros Hb. revert n. induction fuel as [|fuel IH]; intros n Hn; [unfold value; simpl in *; lia|].
  rewrite Nat2Z.inj_succ, Z.pow_succ_r in Hn by lia. cbn [numeral_from].
  rewrite value_snoc, digit_val_hex by (pose proof (Z.mod_pos_bound n base ltac:(lia)); lia).
  case_bool_decide as Hge.
  - rewrite IH; [pose proof (Z.div_mod n base ltac:(lia)); lia|]. split; [apply Z.div_pos; lia|]. apply Z.div_lt_upper_bound; lia.
  - rewrite Z.mod_small by lia. unfold value. simpl. lia.
Qed.

Lemma numeral_from_digits fuel base n : 2 <= base <= 16 → 0 <= n →
  Forall (λ c, 0 <= digit_val c < base ∧ (48 <= c <= 57 ∨ 97 <= c <= 102)) (numeral_from fuel base n).
Proof.
  intros Hb. revert n. induction fuel as [|fuel IH]; intros n Hn; cbn [numeral_from]; [constructor|].
  pose proof (Z.mod_pos_bound n base ltac:(lia)) as Hm. apply Forall_app. split.
  - case_bool_decide; [|constructor]. apply IH. apply Z.div_pos; lia.
  - constructor; [|constructor]. rewrite digit_val_hex by lia. split; [lia|]. unfold hexdigit. case_bool_decide; lia.
Qed.

Lemma numeral_from_ne fuel base n : numeral_from (S fuel) base n ≠ [].
Proof. cbn [numeral_from]. intros [_ ?]%app_nil. done. Qed.

Lemma numeral_ne base n : numeral base n ≠ [].
Proof. apply numeral_from_ne. Qed.

(** No zero in front, but for zero itself. *)
Lemma numeral_from_head fuel base n : 2 <= base <= 16 → 0 < n < base ^ Z.of_nat fuel →
  ∃ c l, numeral_from fuel base n = c :: l ∧ c ≠ 48.
Proof.
  intros Hb. revert n. induction fuel as [|fuel IH]; intros n Hn; [simpl in *; lia|].
  rewrite Nat2Z.inj_succ, Z.pow_succ_r in Hn by lia. cbn [numeral_from]. case_bool_decide as Hge.
  - destruct (IH (n / base)) as (c & l & -> & Hc); [|by eauto].
    split; [apply Z.div_str_pos; lia|]. apply Z.div_lt_upper_bound; lia.
  - exists (hexdigit (n mod base)), []. split; [done|]. rewrite Z.mod_small by lia. unfold hexdigit. case_bool_decide; lia.
Qed.

(** [printnum] prints the numeral, behind what the field width leaves. *)
Lemma put_n_run n c o : put_n emit n c o = Ok () (o ++ replicate n c).
Proof.
  revert o. induction n as [|n IH]; intros o; simpl; [by rewrite app_nil_r|].
  rewrite (bind_Ok (emit c) _ o () (o ++ [c]) eq_refl), IH, <- app_assoc. done.
Qed.

Lemma printnum_run fuel base n w c o : 2 <= base → 0 <= n < base ^ Z.of_nat fuel → (0 < fuel)%nat →
  printnum emit fuel n base w c o =
    Ok () (o ++ replicate (Z.to_nat (w - Z.of_nat (length (numeral_from fuel base n)))) c ++ numeral_from fuel base n).
Proof.
  intros Hb. revert n w o. induction fuel as [|fuel IH]; intros n w o Hn Hf; [lia|].
  rewrite Nat2Z.inj_succ, Z.pow_succ_r in Hn by lia. cbn [printnum numeral_from].
  case_bool_decide as Hge.
  - destruct fuel as [|fuel]; [simpl in Hn; lia|].
    rewrite (bind_Ok _ _ _ _ _ (IH (n / base) (w - 1) o ltac:(split; [apply Z.div_pos; lia|apply Z.div_lt_upper_bound; lia]) ltac:(lia))).
    unfold emit. rewrite length_app. cbn [length]. rewrite <- !app_assoc. do 4 f_equal. lia.
  - rewrite (bind_Ok _ _ _ _ _ (put_n_run _ _ _)). unfold emit. by rewrite <- app_assoc.
Qed.

(** ** Formats as lists of directives *)

(** What is converted; [Clld] and [Cllu] are the 64-bit forms. *)
Inductive conv :=
| Cc (z : Z) | Cs (s : option (list Z)) | Cd (z : Z) | Cu (z : Z) | Cx (z : Z) | Cp (z : Z) | Clld (z : Z) | Cllu (z : Z).

(** Characters, [%%], and conversions with a padding character (32 for none, 48 or 45 as in
    [%0] and [%-]) and a field width (0 for none). *)
Inductive dir := DLit (c : Z) | DPct | DConv (pad w : Z) (c : conv).

(** The uses of the padding flag and the width that are covered: texts padded with blanks on
    either side, and numbers without a sign padded on the left with blanks or zeros. *)
Definition usual (pad w : Z) (c : conv) : Prop :=
  match c with
  | Cc _ | Cp _ => pad = 32 ∧ w = 0
  | Cs _ => pad = 32 ∨ pad = 45
  | Cd z | Clld z => (pad = 32 ∨ pad = 48) ∧ (z < 0 → w = 0)
  | _ => pad = 32 ∨ pad = 48
  end.

Definition dir_ok (d : dir) : Prop :=
  match d with
  | DLit c => 0 < c < 256 ∧ c ≠ PCT
  | DPct => True
  | DConv pad w c => usual pad w c ∧ 0 <= w <= 2147483647 ∧
      match c with Clld z => z ≠ - 2 ^ 63 ∧ - 2 ^ 63 <= z < 2 ^ 63 | Cd z => - 2 ^ 31 <= z < 2 ^ 31 | _ => True end
  end.

Definition conv_text (c : conv) : list Z :=
  match c with
  | Cc _ => [99] | Cs _ => [115] | Cd _ => [100] | Cu _ => [117] | Cx _ => [120] | Cp _ => [112]
  | Clld _ => [108; 108; 100] | Cllu _ => [108; 108; 117]
  end.

Definition pad_text (pad : Z) : list Z := if bool_decide (pad = 32) then [] else [pad].
Definition width_text (w : Z) : list Z := if bool_decide (w = 0) then [] else numeral 10 w.

Definition dir_text (d : dir) : list Z :=
  match d with
  | DLit c => [c]
  | DPct => [37; 37]
  | DConv pad w c => 37 :: pad_text pad ++ width_text w ++ conv_text c
  end.

Definition dir_arg (d : dir) : list va :=
  match d with
  | DConv _ _ (Cc z | Cd z | Cu z | Cx z | Cp z) => [VInt z]
  | DConv _ _ (Clld z | Cllu z) => [VLong z]
  | DConv _ _ (Cs s) => [VStr s]
  | _ => []
  end.

(** Characters in front of a text that is shorter than the field. *)
Definition fill (w : Z) (pad : Z) (l : list Z) : list Z := replicate (Z.to_nat (w - Z.of_nat (length l))) pad ++ l.

Definition signed_out (w pad z : Z) : list Z :=
  if bool_decide (z < 0) then 45 :: fill w pad (numeral 10 (- z)) else fill w pad (numeral 10 z).

Definition conv_out (pad w : Z) (c : conv) : list Z :=
  match c with
  | Cc z => [z]
  | Cs s => let p := default null_text s in
      if bool_decide (pad = 45) then p ++ replicate (Z.to_nat (w - Z.of_nat (length p))) 32 else fill w pad p
  | Cd z | Clld z => signed_out w pad z
  | Cu z => fill w pad (numeral 10 (u32 z))
  | Cx z => fill w pad (numeral 16 (u32 z))
  | Cp z => [48; 120] ++ fill w pad (numeral 16 (u32 z))
  | Cllu z => fill w pad (numeral 10 (u64 z))
  end.

Definition dir_out (d : dir) : list Z :=
  match d with DLit c => [c] | DPct => [37] | DConv pad w c => conv_out pad w c end.

Definition text_of (ds : list dir) : list Z := ds ≫= dir_text.
Definition args_of (ds : list dir) : list va := ds ≫= dir_arg.
Definition out_of (ds : list dir) : list Z := ds ≫= dir_out.

(** ** The interpreter prints what the directives say *)

(** [l] is what is left of the format at [i]. *)
Definition at_ (str : list Z) (i : nat) (l : list Z) : Prop := (i <= length str)%nat ∧ drop i str = l.

Lemma at_next str i c l : at_ str i (c :: l) → at_ str (i + 1) l.
Proof.
  intros [Hi Hd]. assert (i < length str)%nat as Hlt.
  { pose proof (f_equal length Hd) as Hlen. rewrite length_drop in Hlen. simpl in Hlen. lia. }
  split; [lia|]. rewrite <- drop_drop, Hd. done.
Qed.

Lemma at_fetch {T} str i c l (s : T) : at_ str i (c :: l) → fetch str i s = Ok c s.
Proof.
  intros [Hi Hd]. unfold fetch. pose proof (lookup_drop str i 0) as Hl. rewrite Hd, Nat.add_0_r in Hl. simpl in Hl. by rewrite <- Hl.
Qed.

Lemma at_end {T} str i (s : T) : at_ str i [] → fetch str i s = Ok 0 s.
Proof.
  intros [Hi Hd]. pose proof (f_equal length Hd) as Hlen. rewrite length_drop in Hlen. simpl in Hlen.
  unfold fetch. rewrite (lookup_ge_None_2 str i) by lia. by rewrite bool_decide_eq_true_2 by lia.
Qed.

Lemma at_app str i l r : at_ str i (l ++ r) → at_ str (i + length l) r.
Proof.
  revert i. induction l as [|c l IH]; intros i H; [by rewrite Nat.add_0_r|].
  apply at_next, IH in H. simpl. by replace (i + S (length l))%nat with (i + 1 + length l)%nat by lia.
Qed.

Definition dec_from (p : Z) (l : list Z) : Z := foldl (λ a c, a * 10 + c - 48) p l.

Lemma dec_from_ge l p : 0 <= p → Forall (λ c, 48 <= c <= 57) l → p <= dec_from p l.
Proof.
  revert p. induction l as [|c l IH]; intros p Hp Hl; [done|]. apply Forall_cons in Hl as [Hc Hl].
  simpl. etrans; [|apply IH; [lia|done]]. lia.
Qed.

Definition no_digit (l : list Z) : Prop := match l with c :: _ => c < 48 ∨ 57 < c | [] => True end.

Lemma fetch_stop {T} str i r (s : T) : at_ str i r → no_digit r → ∃ c, fetch str i s = Ok c s ∧ (c < 48 ∨ 57 < c).
Proof. destruct r as [|c r]; intros H Hn; [exists 0; split; [by apply at_end|lia]|exists c; split; [by apply (at_fetch _ _ _ r)|done]]. Qed.

Lemma width_loop_run {T} fuel str i ch l r p (s : T) :
  at_ str i (l ++ r) → no_digit r → Forall (λ c, 48 <= c <= 57) (ch :: l) → 0 <= p → dec_from p (ch :: l) <= 2147483647 →
  (length l < fuel)%nat → width_loop fuel str i ch p s = Ok (dec_from p (ch :: l), (i + length l)%nat) s.
Proof.
  revert i ch l p. induction fuel as [|fuel IH]; intros i ch l p Ha Hr Hl Hp Hmax Hf; [lia|].
  apply Forall_cons in Hl as [Hc Hl]. cbn [width_loop].
  assert (p * 10 + ch - 48 <= dec_from p (ch :: l)) by (apply (dec_from_ge l); [lia|done]).
  rewrite bool_decide_eq_false_2 by lia. destruct l as [|c l].
  - destruct (fetch_stop str i r s Ha Hr) as (c & Hg & Hc'). rewrite (bind_Ok _ _ _ _ _ Hg).
    rewrite (proj2 (orb_true_iff _ _)); [simpl; by rewrite Nat.add_0_r|]. rewrite !bool_decide_eq_true. lia.
  - rewrite (bind_Ok _ _ _ _ _ (at_fetch _ _ _ _ s Ha)). pose proof (Forall_inv Hl) as Hc'. cbv beta in Hc'.
    rewrite (bool_decide_eq_false_2 (c < 48)), (bool_decide_eq_false_2 (c > 57)) by lia. cbn [orb].
    rewrite (IH _ _ l); [|by apply at_next in Ha|done|done|lia|done|simpl in Hf; lia].
    do 2 f_equal. simpl. lia.
Qed.

Lemma dec_from_value l : Forall (λ c, 48 <= c <= 57) l → dec_from 0 l = value 10 l.
Proof.
  induction l as [|c l IH] using rev_ind; intros Hl; [done|]. apply Forall_app in Hl as [Hl Hc]. apply Forall_inv in Hc. cbv beta in Hc.
  rewrite value_snoc, <- IH by done. unfold dec_from, digit_val. rewrite foldl_app. simpl. rewrite bool_decide_eq_true_2; lia.
Qed.

Lemma numeral10_digits n : 0 <= n → Forall (λ c, 48 <= c <= 57) (numeral 10 n).
Proof.
  intros Hn. eapply Forall_impl; [apply (numeral_from_digits 64 10 n); lia|]. intros c [Hv Hc]. simpl in *.
  unfold digit_val in Hv. case_bool_decide; lia.
Qed.

Lemma numeral10_value n : 0 <= n < 2 ^ 64 → dec_from 0 (numeral 10 n) = n.
Proof.
  intros Hn. rewrite dec_from_value by (apply numeral10_digits; lia). apply numeral_from_value; [lia|].
  split; [lia|]. etrans; [apply Hn|]. by apply Z.pow_lt_mono_l.
Qed.

Lemma numeral10_head n : 0 < n < 2 ^ 64 → ∃ c l, numeral 10 n = c :: l ∧ 49 <= c <= 57.
Proof.
  intros Hn. destruct (numeral_from_head 64 10 n) as (c & l & E & Hc); [lia| |].
  { split; [lia|]. etrans; [apply Hn|]. by apply Z.pow_lt_mono_l. }
  exists c, l. split; [done|]. pose proof (numeral10_digits n ltac:(lia)) as Hd. unfold numeral in Hd. rewrite E in Hd.
  apply Forall_inv in Hd. cbv beta in Hd. lia.
Qed.

Lemma number_run e n base o : 2 <= base → 0 <= n < 2 ^ 64 →
  number emit e n base o = Ok () (o ++ fill (width e) (padc e) (numeral base n)).
Proof.
  intros Hb Hn. unfold number. rewrite printnum_run; [done|done| |lia]. split; [lia|].
  eapply Z.lt_le_trans; [apply Hn|]. by apply Z.pow_le_mono_l.
Qed.

Lemma fill_none pad l : fill (-1) pad l = fill 0 pad l.
Proof. unfold fill. f_equal. f_equal. lia. Qed.

Lemma str_loop_run p w o : str_loop emit false p (-1) w o = Ok (w - Z.of_nat (length p)) (o ++ p).
Proof.
  revert w o. induction p as [|c p IH]; intros w o; simpl; [rewrite app_nil_r; f_equal; lia|].
  rewrite (bind_Ok (emit c) _ o () (o ++ [c]) eq_refl), IH, <- app_assoc. f_equal. lia.
Qed.

(** The escape read so far: padding and field width, nothing else. *)
Definition plain (e : esc) (pad w l : Z) : Prop :=
  padc e = pad ∧ (width e = w ∨ w = 0 ∧ width e = -1) ∧ precision e = -1 ∧ altflag e = false ∧ lflag e = l.

Lemma plain_fill e pad w l t : plain e pad w l → fill (width e) (padc e) t = fill w pad t.
Proof. intros (-> & [-> | [-> ->]] & _); [done|apply fill_none]. Qed.

Lemma put_str_run e pad w l p o : plain e pad w l → put_str emit e p o = Ok () (o ++ conv_out pad w (Cs (Some p))).
Proof.
  intros He. unfold put_str. pose proof He as (Hp & Hw & Hn & Ha & _). rewrite Ha, Hn, Hp.
  replace (strnlen p (-1)) with (Z.of_nat (length p)) by done. cbn [conv_out default].
  assert (∀ v, (v = w ∨ w = 0 ∧ v = -1) → Z.to_nat (v - Z.of_nat (length p)) = Z.to_nat (w - Z.of_nat (length p))) as Hv by lia.
  destruct (decide (pad = 45)) as [->|Hne].
  - rewrite andb_false_r. rewrite (bind_Ok (mret _) _ _ (width e) o eq_refl), (bind_Ok _ _ _ _ _ (str_loop_run _ _ _)), put_n_run.
    rewrite bool_decide_eq_true_2, <- app_assoc, Hv by done. done.
  - rewrite !(bool_decide_eq_true_2 (pad ≠ 45)), andb_true_r, (bool_decide_eq_false_2 (pad = 45)) by done. unfold fill. case_bool_decide as Hpos.
    + rewrite (bind_Ok _ _ o (Z.min (width e - Z.of_nat (length p)) 0) (o ++ replicate (Z.to_nat (width e - Z.of_nat (length p))) pad)).
      2:{ by rewrite (bind_Ok _ _ _ _ _ (put_n_run _ _ _)). }
      rewrite (bind_Ok _ _ _ _ _ (str_loop_run _ _ _)), put_n_run, Hv by done. replace (Z.to_nat (Z.min _ _ - _)) with 0%nat by lia.
      by rewrite app_nil_r, <- app_assoc.
    + rewrite (bind_Ok (mret _) _ _ (width e) o eq_refl), (bind_Ok _ _ _ _ _ (str_loop_run _ _ _)), put_n_run.
      replace (Z.to_nat (w - _)) with 0%nat by lia. replace (Z.to_nat _) with 0%nat by lia. by rewrite app_nil_r.
Qed.

(** Decide the comparisons of constants. *)
#[local] Ltac pick :=
  repeat match goal with
  | |- context [@bool_decide ?P ?d] =>
      let b := eval vm_compute in (@bool_decide P d) in
      match b with true => idtac | false => idtac end;
      replace (@bool_decide P d) with b by (vm_compute; reflexivity); cbv iota
  end.

(** One flag or conversion character of the format. *)
#[local] Ltac open_switch H :=
  cbn [reswitch]; rewrite (bind_Ok _ _ _ _ _ (at_fetch _ _ _ _ _ H)); cbv zeta; pick.

Lemma s32_id z : - 2 ^ 31 <= z < 2 ^ 31 → s32 z = z.
Proof. intros H. unfold s32, W32 in *. rewrite Z.mod_small; lia. Qed.

Lemma s64_id z : - 2 ^ 63 <= z < 2 ^ 63 → s64 z = z.
Proof. intros H. unfold s64. rewrite Z.mod_small; lia. Qed.

Lemma signed_run e pad w l z o : plain e pad w l → - 2 ^ 63 < z < 2 ^ 63 →
  (if bool_decide (z < 0) then emit 45 ;; if bool_decide (z = - 2 ^ 63) then undef else number emit e (- z) 10
   else number emit e z 10) o = Ok () (o ++ signed_out w pad z).
Proof.
  intros He Hz. unfold signed_out. rewrite <- (plain_fill e pad w l (numeral 10 (- z)) He), <- (plain_fill e pad w l (numeral 10 z) He).
  case_bool_decide.
  - rewrite (bind_Ok (emit 45) _ o () (o ++ [45]) eq_refl), bool_decide_eq_false_2 by lia. rewrite number_run, <- app_assoc by lia. done.
  - by rewrite number_run by lia.
Qed.

Lemma u32_lt z : 0 <= u32 z < 2 ^ 64.
Proof. unfold u32. pose proof (Z.mod_pos_bound z W32 ltac:(done)). unfold W32 in *. lia. Qed.

Lemma u64_lt z : 0 <= u64 z < 2 ^ 64.
Proof. apply Z.mod_pos_bound. done. Qed.

Lemma reswitch_long oct fuel str i e ap r o : at_ str i (108 :: r) →
  reswitch emit oct (S fuel) str i e ap o = reswitch emit oct fuel str (i + 1) (with_lflag e) ap o.
Proof. intros Ha. by open_switch Ha. Qed.

Lemma plain_long e pad w l : plain e pad w l → plain (with_lflag e) pad w (l + 1).
Proof. intros (? & ? & ? & ? & ?). split_and!; simpl; congruence || done. Qed.

Lemma reswitch_conv oct fuel str i e pad w c r ap o :
  at_ str i (conv_text c ++ r) → plain e pad w 0 → dir_ok (DConv pad w c) → (length (conv_text c) <= fuel)%nat →
  reswitch emit oct fuel str i e (dir_arg (DConv pad w c) ++ ap) o =
    Ok ((i + length (conv_text c))%nat, ap) (o ++ conv_out pad w c).
Proof.
  intros Ha He (_ & _ & Hc) Hf. pose proof He as (_ & _ & _ & _ & Hl). destruct fuel as [|n]; [by destruct c; simpl in Hf; lia|].
  assert (plain (with_lflag (with_lflag e)) pad w 2) as Hll by exact (plain_long _ _ _ 1 (plain_long _ _ _ 0 He)).
  destruct c as [z|p|z|z|z|z|z|z]; cbn [conv_text app] in Ha; cbv beta iota in Hc; cbn [dir_arg app conv_text length].
  - by open_switch Ha.
  - open_switch Ha. rewrite (bind_Ok _ _ _ _ _ (put_str_run _ _ _ _ _ _ He)). done.
  - open_switch Ha. rewrite Hl. unfold getint at 1. pick. rewrite (bind_Ok (mret _) _ o _ o eq_refl). cbn [fst snd].
    rewrite s32_id by done. by rewrite (bind_Ok _ _ _ _ _ (signed_run _ _ _ _ z _ He ltac:(lia))).
  - open_switch Ha. rewrite Hl. unfold getuint at 1. pick. rewrite (bind_Ok (mret _) _ o _ o eq_refl). cbn [fst snd].
    rewrite (bind_Ok _ _ _ _ _ (number_run e (u32 z) 10 o ltac:(lia) (u32_lt z))), (plain_fill _ _ _ _ _ He). done.
  - open_switch Ha. rewrite Hl. unfold getuint at 1. pick. rewrite (bind_Ok (mret _) _ o _ o eq_refl). cbn [fst snd].
    rewrite (bind_Ok _ _ _ _ _ (number_run e (u32 z) 16 o ltac:(lia) (u32_lt z))), (plain_fill _ _ _ _ _ He). done.
  - open_switch Ha. rewrite (bind_Ok (emit 48) _ o () (o ++ [48]) eq_refl), (bind_Ok (emit 120) _ _ () ((o ++ [48]) ++ [120]) eq_refl).
    rewrite (bind_Ok _ _ _ _ _ (number_run e (u32 z) 16 _ ltac:(lia) (u32_lt z))), (plain_fill _ _ _ _ _ He), <- !app_assoc. done.
  - destruct n as [|[|n]]; [simpl in Hf; lia|simpl in Hf; lia|]. rewrite (reswitch_long _ _ _ _ _ _ _ _ Ha). apply at_next in Ha.
    rewrite (reswitch_long _ _ _ _ _ _ _ _ Ha). apply at_next in Ha.
    open_switch Ha. cbn [with_lflag lflag]. rewrite Hl. unfold getint at 1. pick. rewrite (bind_Ok (mret _) _ o _ o eq_refl). cbn [fst snd].
    rewrite s64_id by lia. rewrite (bind_Ok _ _ _ _ _ (signed_run _ pad w 2 z _ Hll ltac:(lia))).
    by rewrite <- !Nat.add_assoc.
  - destruct n as [|[|n]]; [simpl in Hf; lia|simpl in Hf; lia|]. rewrite (reswitch_long _ _ _ _ _ _ _ _ Ha). apply at_next in Ha.
    rewrite (reswitch_long _ _ _ _ _ _ _ _ Ha). apply at_next in Ha.
    open_switch Ha. cbn [with_lflag lflag]. rewrite Hl. unfold getuint at 1. pick. rewrite (bind_Ok (mret _) _ o _ o eq_refl). cbn [fst snd].
    rewrite (bind_Ok _ _ _ _ _ (number_run _ (u64 z) 10 o ltac:(lia) (u64_lt z))).
    rewrite (plain_fill _ pad w 2 _ Hll). by rewrite <- !Nat.add_assoc.
Qed.

Lemma reswitch_pad oct fuel str i pad r ap o : (pad = 32 ∨ pad = 48 ∨ pad = 45) → at_ str i (pad_text pad ++ r) →
  ∃ e, reswitch emit oct (length (pad_text pad) + fuel) str i esc0 ap o =
         reswitch emit oct fuel str (i + length (pad_text pad)) e ap o ∧ plain e pad 0 0 ∧ width e = -1.
Proof.
  intros [-> | [-> | ->]] Ha.
  - exists esc0. split; [by rewrite Nat.add_0_r|]. split; [|done]. split_and!; try done. by right.
  - change (pad_text 48) with [48] in *. cbn [length Nat.add app] in *. exists (with_padc 48 esc0). split; [by open_switch Ha|]. split; [|done]. split_and!; try done. by right.
  - change (pad_text 45) with [45] in *. cbn [length Nat.add app] in *. exists (with_padc 45 esc0). split; [by open_switch Ha|]. split; [|done]. split_and!; try done. by right.
Qed.

Lemma conv_no_digit c r : no_digit (conv_text c ++ r).
Proof. destruct c; simpl; lia. Qed.

Lemma reswitch_width oct fuel str i e pad w r ap o :
  0 <= w <= 2147483647 → no_digit r → at_ str i (width_text w ++ r) → plain e pad 0 0 → width e = -1 →
  ∃ e' k, reswitch emit oct (length (width_text w) + fuel) str i e ap o =
            reswitch emit oct (k + fuel) str (i + length (width_text w)) e' ap o ∧ plain e' pad w 0.
Proof.
  intros Hw Hr Ha He Hwe. unfold width_text in *. case_bool_decide as Hz.
  { subst. exists e, 0%nat. split; [by rewrite Nat.add_0_r|done]. }
  destruct (numeral10_head w) as (c & l & E & Hc); [lia|]. rewrite E in *.
  assert (dec_from 0 (c :: l) = w) as Hv by (rewrite <- E; apply numeral10_value; lia).
  pose proof (numeral10_digits w ltac:(lia)) as Hd. rewrite E in Hd. cbn [app] in Ha.
  exists (process_precision w e), (length l). destruct He as (H1 & H2 & H3 & H4 & H5). split.
  - cbn [length Nat.add]. generalize (length l + fuel)%nat. intros m. cbn [reswitch].
    rewrite (bind_Ok _ _ _ _ _ (at_fetch _ _ _ _ _ Ha)). cbv zeta.
    rewrite (bool_decide_eq_false_2 (c = 45)), (bool_decide_eq_false_2 (c = 48)), (bool_decide_eq_true_2 (49 <= c <= 57)) by lia.
    assert (length l < S (length str))%nat as Hlen.
    { destruct Ha as [_ Ha]. apply (f_equal length) in Ha. rewrite length_drop in Ha. simpl in Ha. rewrite length_app in Ha. lia. }
    rewrite (bind_Ok _ _ _ _ _ (width_loop_run _ _ _ c l r 0 o (at_next _ _ _ _ Ha) Hr Hd ltac:(lia) ltac:(lia) Hlen)).
    cbn [fst snd length]. rewrite Hv. by replace (i + 1 + length l)%nat with (i + S (length l))%nat by lia.
  - unfold process_precision. rewrite bool_decide_eq_true_2 by lia. split_and!; try done. by left.
Qed.

Lemma reswitch_dir oct fuel str i pad w c r ap o :
  dir_ok (DConv pad w c) → at_ str i (pad_text pad ++ width_text w ++ conv_text c ++ r) →
  reswitch emit oct (length (pad_text pad ++ width_text w ++ conv_text c) + fuel) str i esc0 (dir_arg (DConv pad w c) ++ ap) o =
    Ok ((i + length (pad_text pad ++ width_text w ++ conv_text c))%nat, ap) (o ++ conv_out pad w c).
Proof.
  intros Hok Ha. pose proof Hok as (Hu & Hw & _). assert (pad = 32 ∨ pad = 48 ∨ pad = 45) as Hp by (destruct c; simpl in Hu; tauto).
  rewrite !length_app, <- !Nat.add_assoc.
  edestruct (reswitch_pad oct (length (width_text w) + (length (conv_text c) + fuel)) str i pad) as (e & -> & He & Hwe); [done|done|].
  apply at_app in Ha.
  edestruct (reswitch_width oct (length (conv_text c) + fuel) str (i + length (pad_text pad)) e pad w) as (e' & k & -> & He');
    [done|apply (conv_no_digit c r)|done|done|done|].
  apply at_app in Ha. rewrite (reswitch_conv oct _ str _ e' pad w c r ap o Ha He' Hok) by lia. by rewrite !Nat.add_assoc.
Qed.

(** The literal characters in front. *)
Lemma span_lits ds : ∃ cs rest, ds = (DLit <$> cs) ++ rest ∧ match rest with DLit _ :: _ => False | _ => True end.
Proof.
  induction ds as [|d ds (cs & rest & -> & Hr)]; [by exists [], []|]. destruct d as [c| |pad w c].
  - by exists (c :: cs), rest.
  - exists [], (DPct :: (DLit <$> cs) ++ rest). done.
  - exists [], (DConv pad w c :: (DLit <$> cs) ++ rest). done.
Qed.

Lemma literals_run fuel str i cs r o : at_ str i (cs ++ r) → Forall (λ c, c ≠ PCT ∧ c ≠ 0) cs →
  literals emit (length cs + fuel) str i o = literals emit fuel str (i + length cs) (o ++ cs).
Proof.
  revert i o. induction cs as [|c cs IH]; intros i o Ha Hc; simpl; [by rewrite Nat.add_0_r, app_nil_r|].
  apply Forall_cons in Hc as [[Hp H0] Hc]. rewrite (bind_Ok _ _ _ _ _ (at_fetch _ _ _ _ _ Ha)), !bool_decide_eq_false_2 by done.
  rewrite (bind_Ok (emit c) _ o () (o ++ [c]) eq_refl), (IH _ _ (at_next _ _ _ _ Ha) Hc), <- app_assoc.
  simpl. by replace (i + 1 + length cs)%nat with (i + S (length cs))%nat by lia.
Qed.

Lemma literals_stop fuel str i r o : at_ str i r → match r with c :: _ => c = PCT | [] => True end →
  literals emit (S fuel) str i o = Ok (match r with _ :: _ => Some (i + 1)%nat | [] => None end) o.
Proof.
  intros Ha Hr. cbn [literals]. destruct r as [|c r].
  - rewrite (bind_Ok _ _ _ _ _ (at_end _ _ _ Ha)). done.
  - subst c. rewrite (bind_Ok _ _ _ _ _ (at_fetch _ _ _ _ _ Ha)). done.
Qed.

Lemma reswitch_pct oct fuel str i r ap o : at_ str i (37 :: r) → reswitch emit oct (S fuel) str i esc0 ap o = Ok ((i + 1)%nat, ap) (o ++ [37]).
Proof. intros Ha. by open_switch Ha. Qed.

Lemma dirs_cons d ds : text_of (d :: ds) = dir_text d ++ text_of ds ∧ out_of (d :: ds) = dir_out d ++ out_of ds ∧
  args_of (d :: ds) = dir_arg d ++ args_of ds.
Proof. done. Qed.

Lemma lits_split cs rest : text_of ((DLit <$> cs) ++ rest) = cs ++ text_of rest ∧
  out_of ((DLit <$> cs) ++ rest) = cs ++ out_of rest ∧ args_of ((DLit <$> cs) ++ rest) = args_of rest.
Proof.
  induction cs as [|c cs (IHt & IHo & IHa)]; [done|]. rewrite fmap_cons, <- app_comm_cons.
  destruct (dirs_cons (DLit c) ((DLit <$> cs) ++ rest)) as (-> & -> & ->). by rewrite IHt, IHo, IHa.
Qed.

Lemma at_length str i l : at_ str i l → (i + length l = length str)%nat.
Proof. intros [Hi <-]. rewrite length_drop. lia. Qed.

(** A directive that is no literal begins with [%], and the escape prints it. *)
Lemma reswitch_one oct str i d r ap o :
  dir_ok d → (∀ c, d ≠ DLit c) → at_ str i (dir_text d ++ r) →
  ∃ t, dir_text d = PCT :: t ∧
    reswitch emit oct (S (S (length str))) str (i + 1) esc0 (dir_arg d ++ ap) o = Ok ((i + 1 + length t)%nat, ap) (o ++ dir_out d).
Proof.
  intros Hok Hd Ha. pose proof (at_length _ _ _ Ha) as Hlen. rewrite length_app in Hlen. destruct d as [c| |pad w c]; [by destruct (Hd c)| |].
  - exists [37]. split; [done|]. apply at_next in Ha. by rewrite (reswitch_pct oct (S (length str)) str (i + 1) r).
  - cbn [dir_text app length] in *. eexists. split; [reflexivity|]. apply at_next in Ha. rewrite <- !app_assoc in Ha.
    pose proof (reswitch_dir oct (S (S (length str)) - length (pad_text pad ++ width_text w ++ conv_text c)) str (i + 1) pad w c r ap o Hok Ha) as Hr.
    etrans; [|exact Hr]. f_equal. rewrite length_app in *. lia.
Qed.

(** The loop uses one round for each directive that is no literal. *)
Lemma format_loop_run oct fuel str i ds ap o :
  at_ str i (text_of ds) → Forall dir_ok ds → (length ds < fuel)%nat →
  format_loop emit oct fuel str i (args_of ds ++ ap) o = Ok () (o ++ out_of ds).
Proof.
  revert i ds o. induction fuel as [|fuel IH]; intros i ds o Ha Hok Hf; [lia|].
  destruct (span_lits ds) as (cs & rest & -> & Hr). destruct (lits_split cs rest) as (Et & Eo & Ea). rewrite Et in Ha. rewrite Eo, Ea.
  apply Forall_app in Hok as [Hcs Hok]. cbn [format_loop]. pose proof (at_length _ _ _ Ha) as Hlen. rewrite length_app in Hlen.
  replace (S (length str)) with (length cs + S (length str - length cs))%nat at 1 by lia.
  assert (Forall (λ c, c ≠ PCT ∧ c ≠ 0) cs) as Hcs'.
  { apply (Forall_fmap DLit) in Hcs. eapply Forall_impl; [exact Hcs|]. intros c (? & ?). split; [done|lia]. }
  pose proof (literals_run (S (length str - length cs)) str i cs _ o Ha Hcs') as Hl. apply at_app in Ha.
  destruct rest as [|d rest].
  - rewrite (literals_stop _ _ _ [] _ Ha I) in Hl. rewrite (bind_Ok _ _ _ _ _ Hl). by rewrite app_nil_r.
  - apply Forall_cons in Hok as [Hd Hok]. destruct (dirs_cons d rest) as (Ht & Ho & Hg). rewrite Ht in Ha.
    destruct (reswitch_one oct str (i + length cs) d (text_of rest) (args_of rest ++ ap) (o ++ cs) Hd) as (t & Etx & Hrun).
    { intros c ->. done. }
    { done. }
    rewrite (literals_stop _ _ _ (dir_text d ++ text_of rest) _ Ha) in Hl by (by rewrite Etx). rewrite (bind_Ok _ _ _ _ _ Hl), Etx.
    cbn [app]. rewrite Hg, <- app_assoc, (bind_Ok _ _ _ _ _ Hrun). cbn [fst snd].
    rewrite Ho, IH; [by rewrite <- !app_assoc|..].
    + apply at_app in Ha. rewrite Etx in Ha. cbn [length] in Ha. by replace (i + length cs + 1 + length t)%nat with (i + length cs + S (length t))%nat by lia.
    + done.
    + rewrite length_app in Hf. simpl in Hf. lia.
Qed.

Lemma dirs_length ds : (length ds <= length (text_of ds))%nat.
Proof.
  induction ds as [|d ds IH]; [done|]. rewrite (proj1 (dirs_cons d ds)), length_app. destruct d; simpl; lia.
Qed.

(** ** The interpreter always stops *)

(** A run ends, with a result that satisfies [Q] unless it is undefined. *)
Definition stops {T A} (m : M T A) (Q : A → Prop) : Prop := ∀ s,
  match m s with Ok a _ => Q a | Undef => True | _ => False end.

Lemma stops_bind {T A B} (m : M T A) (k : A → M T B) P Q :
  stops m P → (∀ a, P a → stops (k a) Q) → stops (m ≫= k) Q.
Proof. intros Hm Hk s. specialize (Hm s). unfold mbind, M_bind. destruct (m s); try done. by apply Hk. Qed.

Lemma stops_ret {T A} (a : A) (Q : A → Prop) : Q a → stops (T:=T) (mret a) Q.
Proof. intros H s. exact H. Qed.

Lemma stops_undef {T A} (Q : A → Prop) : stops (T:=T) undef Q.
Proof. by intros s. Qed.

Lemma stops_weaken {T A} (m : M T A) (P Q : A → Prop) : stops m P → (∀ a, P a → Q a) → stops m Q.
Proof. intros Hm H s. specialize (Hm s). destruct (m s); auto. Qed.

Lemma stops_fetch {T} str i : stops (T:=T) (fetch str i) (λ c, str !! i = Some c ∨ i = length str ∧ c = 0).
Proof. intros s. unfold fetch. destruct (str !! i); [by left|]. case_bool_decide; [by right|done]. Qed.

Definition any {A} (_ : A) : Prop := True.

Lemma stops_emit c : stops (emit c) any.
Proof. by intros s. Qed.

Lemma stops_put_n n c : stops (put_n emit n c) any.
Proof. intros s. by rewrite put_n_run. Qed.

Lemma stops_number e n base : 2 <= base → 0 <= n < 2 ^ 64 → stops (number emit e n base) any.
Proof. intros Hb Hn s. by rewrite number_run. Qed.

Lemma stops_str_loop alt p : ∀ n w, stops (str_loop emit alt p n w) any.
Proof. induction p as [|c p IH]; intros n w; simpl; [by apply stops_ret|]. destruct (_ || _); [|by apply stops_ret].
  eapply stops_bind; [apply stops_emit|]. auto.
Qed.

Lemma stops_put_str e p : stops (put_str emit e p) any.
Proof.
  unfold put_str. eapply (stops_bind _ _ any).
  - destruct (_ && _); [|by apply stops_ret]. eapply stops_bind; [apply stops_put_n|]. intros _ _. by apply stops_ret.
  - intros w _. eapply stops_bind; [apply stops_str_loop|]. intros w' _. apply stops_put_n.
Qed.

Lemma stops_width_loop {T} fuel str : ∀ i ch p, (i <= length str)%nat → (length str < fuel + i)%nat →
  stops (T:=T) (width_loop fuel str i ch p) (λ r, i <= r.2 <= length str)%nat.
Proof.
  induction fuel as [|fuel IH]; intros i ch p Hi Hf; [lia|]. cbn [width_loop]. case_bool_decide; [apply stops_undef|].
  eapply stops_bind; [apply stops_fetch|]. intros c Hc. destruct (_ || _) eqn:E; [apply stops_ret; simpl; lia|].
  apply orb_false_iff in E as [E _]. apply bool_decide_eq_false in E.
  destruct Hc as [Hc|[_ Hc]]; [|lia]. apply lookup_lt_Some in Hc.
  eapply stops_weaken; [apply IH; lia|]. intros r Hr. simpl in *. lia.
Qed.

Lemma stops_back {T} str start i : str !! start = Some PCT → (start < i <= length str)%nat →
  stops (T:=T) (back str i) (λ j, start < j <= i)%nat.
Proof.
  intros Hs. induction i as [|i IH]; intros Hi; [lia|]. cbn [back]. eapply stops_bind; [apply stops_fetch|].
  intros c Hc. case_bool_decide as Hp; [apply stops_ret; lia|].
  assert (i ≠ start) as Hne. { intros ->. rewrite Hs in Hc. destruct Hc as [[= <-]|[Hc _]]; [done|lia]. }
  eapply stops_weaken; [apply IH; lia|]. simpl. lia.
Qed.

Lemma stops_getuint {T} l ap : stops (T:=T) (getuint l ap) (λ r, 0 <= r.1 < 2 ^ 64).
Proof.
  unfold getuint. destruct ap as [|[z|z|p] ap]; try apply stops_undef; case_bool_decide; try apply stops_undef; apply stops_ret; simpl; [apply u32_lt|apply u64_lt].
Qed.

Lemma stops_getint {T} l ap : stops (T:=T) (getint l ap) (λ r, - 2 ^ 63 <= r.1 < 2 ^ 63).
Proof.
  unfold getint. destruct ap as [|[z|z|p] ap]; try apply stops_undef; case_bool_decide; try apply stops_undef; apply stops_ret; cbn [fst]; unfold s32, s64, W32.
  - pose proof (Z.mod_pos_bound (z + 2147483648) 4294967296 ltac:(done)). lia.
  - pose proof (Z.mod_pos_bound (z + 2 ^ 63) (2 ^ 64) ltac:(done)). lia.
Qed.

(** One character further in the format, when it is not its end. *)
Lemma fetched_next str i (c : Z) : str !! i = Some c ∨ i = length str ∧ c = 0 → c ≠ 0 → (i + 1 <= length str)%nat.
Proof. intros [H|[_ H]] Hc; [apply lookup_lt_Some in H; lia|done]. Qed.

#[local] Ltac conv_stops Hn :=
  repeat match goal with
  | |- stops (mret _) _ => apply stops_ret; simpl; lia
  | |- stops undef _ => apply stops_undef
  | |- stops (emit _ ≫= _) _ => eapply stops_bind; [apply stops_emit|]; intros _ _
  | |- stops (getuint _ _ ≫= _) _ => eapply stops_bind; [apply stops_getuint|]; intros ? Hu; cbv beta in Hu
  | |- stops (put_str _ _ _ ≫= _) _ => eapply stops_bind; [apply stops_put_str|]; intros _ _
  | |- stops (number _ _ _ _ ≫= _) _ => eapply stops_bind; [apply stops_number; first [lia | by apply u32_lt]|]; intros _ _
  | |- stops (match ?x with _ => _ end) _ => destruct x
  end.

(** The escape that begins behind [start] ends behind it. *)
Lemma stops_reswitch oct str start : str !! start = Some PCT → ∀ fuel i e ap, (start < i <= length str)%nat → (length str < fuel + i)%nat →
  stops (reswitch emit oct fuel str i e ap) (λ r, start < r.1 <= length str)%nat.
Proof.
  intros Hs. induction fuel as [|fuel IH]; intros i e ap Hi Hf; [lia|]. cbn [reswitch].
  eapply stops_bind; [apply stops_fetch|]. intros c Hc. cbv zeta. pose proof (fetched_next _ _ _ Hc) as Hn.
  do 2 (case_bool_decide; [apply IH; lia|]).
  case_bool_decide.
  { eapply stops_bind; [apply stops_width_loop; lia|]. intros r Hr. cbv beta in Hr. apply IH; lia. }
  case_bool_decide; [destruct ap as [|[] ap]; try apply stops_undef; apply IH; lia|].
  do 3 (case_bool_decide; [apply IH; lia|]).
  do 2 (case_bool_decide; [conv_stops Hn|]).
  case_bool_decide.
  { eapply stops_bind; [apply stops_getint|]. intros r Hr. cbv beta in Hr. eapply (stops_bind _ _ any); [|intros _ _; conv_stops Hn].
    case_bool_decide; [|apply stops_number; lia]. eapply stops_bind; [apply stops_emit|]. intros _ _.
    case_bool_decide; [apply stops_undef|apply stops_number; lia]. }
  do 5 (case_bool_decide; [conv_stops Hn|]).
  eapply stops_bind; [apply stops_emit|]. intros _ _. eapply stops_bind; [apply (stops_back str start); [done|lia]|].
  intros j Hj. cbv beta in Hj. apply stops_ret. simpl. lia.
Qed.

Lemma stops_literals str : ∀ fuel i, (i <= length str)%nat → (length str < fuel + i)%nat →
  stops (literals emit fuel str i) (λ r, match r with Some j => (i < j <= length str)%nat ∧ str !! (j - 1)%nat = Some PCT | None => True end).
Proof.
  induction fuel as [|fuel IH]; intros i Hi Hf; [lia|]. cbn [literals]. eapply stops_bind; [apply stops_fetch|]. intros c Hc.
  pose proof (fetched_next _ _ _ Hc) as Hn. case_bool_decide as Hp.
  { subst c. specialize (Hn ltac:(done)). apply stops_ret. split; [lia|]. rewrite Nat.add_sub. destruct Hc as [Hc|[_ Hc]]; done. }
  case_bool_decide; [by apply stops_ret|]. eapply stops_bind; [apply stops_emit|]. intros _ _.
  eapply stops_weaken; [apply IH; lia|]. intros [j|] Hj; [|done]. destruct Hj. split; [lia|done].
Qed.

Lemma stops_format_loop oct str : ∀ fuel i ap, (i <= length str)%nat → (length str < fuel + i)%nat →
  stops (format_loop emit oct fuel str i ap) any.
Proof.
  induction fuel as [|fuel IH]; intros i ap Hi Hf; [lia|]. cbn [format_loop]. eapply stops_bind; [apply stops_literals; lia|].
  intros [j|] Hj; [|by apply stops_ret]. destruct Hj as [Hj Hp].
  eapply stops_bind; [apply (stops_reswitch oct str (j - 1)); [done|lia|lia]|]. intros r Hr. cbv beta in Hr. apply IH; lia.
Qed.

Lemma stops_vprintfmt oct str ap : stops (vprintfmt emit oct str ap) any.
Proof. apply stops_format_loop; lia. Qed.

(** ** What reaches the sinks *)

(** The characters of a format with its arguments; [None] when it reads a missing or wrong one. *)
Definition output (oct : bool) (str : list Z) (ap : list va) : option (list Z) :=
  match vprintfmt emit oct str ap [] with Ok _ o => Some o | _ => None end.

Lemma output_dirs oct ds ap : Forall dir_ok ds → output oct (text_of ds) (args_of ds ++ ap) = Some (out_of ds).
Proof.
  intros Hok. unfold output, vprintfmt. rewrite format_loop_run; [done|by split; [simpl; lia|]|done|]. pose proof (dirs_length ds). lia.
Qed.

(** Any sink gets exactly these. *)
Lemma vprintfmt_feeds {T} (putch : Z → M T ()) f (I : T → Prop) oct str ap s :
  (∀ c s, I s → putch c s = Ok () (f c s)) → (∀ c s, I s → I (f c s)) → I s →
  match output oct str ap with
  | Some out => vprintfmt putch oct str ap s = Ok () (feed f s out) ∧ I (feed f s out)
  | None => vprintfmt putch oct str ap s = Undef
  end.
Proof.
  intros Hr Hi Hs. pose proof (sim_vprintfmt putch f I Hr Hi oct str ap s [] Hs) as H.
  pose proof (stops_vprintfmt oct str ap []) as Ht. unfold output.
  destruct (vprintfmt emit oct str ap []) as [a o| | | |]; try done. destruct H as (l & -> & H & HI). by destruct a.
Qed.

(** The effect of a character on a sink that takes it. *)
Definition took {T} (putch : Z → M T ()) (c : Z) (s : T) : T := match putch c s with Ok _ s' => s' | _ => s end.

Lemma took_run {T} (putch : Z → M T ()) (I : T → Prop) : (∀ c s, I s → ∃ s', putch c s = Ok () s' ∧ I s') →
  (∀ c s, I s → putch c s = Ok () (took putch c s)) ∧ (∀ c s, I s → I (took putch c s)).
Proof. intros H. unfold took. split; intros c s Hs; destruct (H c s Hs) as (s' & E & Hs'); by rewrite E. Qed.

Definition fits (b : sprintbuf) : Prop := 0 <= b_pos b ∧ b_end b <= Z.of_nat (length (b_mem b)).

Lemma sprintputch_fits c b : fits b → ∃ b', sprintputch c b = Ok () b' ∧ fits b'.
Proof.
  intros [Hp He]. unfold sprintputch. case_bool_decide; [|by eexists].
  rewrite bool_decide_eq_true_2 by lia. eexists. split; [done|]. split; simpl; [lia|]. by rewrite length_insert.
Qed.

Lemma s32_succ x : s32 (s32 x + 1) = s32 (x + 1).
Proof.
  unfold s32. f_equal. replace ((x + 2147483648) mod W32 - 2147483648 + 1 + 2147483648) with ((x + 2147483648) mod W32 + 1) by lia.
  rewrite Zplus_mod_idemp_l. f_equal. lia.
Qed.

Lemma insert_middle {A} (l : list A) x y r i : i = length l → <[i := x]> (l ++ y :: r) = l ++ x :: r.
Proof. intros ->. rewrite <- (Nat.add_0_r (length l)), insert_app_r. done. Qed.

(** The buffer after [l]: its first characters, and what it held before behind them. *)
Lemma sprint_feed mem N l : (N < length mem)%nat →
  feed (took sprintputch) {| b_mem := mem; b_pos := 0; b_end := Z.of_nat N; b_cnt := 0 |} l =
    {| b_mem := (u8 <$> take N l) ++ drop (N `min` length l) mem; b_pos := Z.of_nat (N `min` length l);
       b_end := Z.of_nat N; b_cnt := s32 (Z.of_nat (length l)) |}.
Proof.
  intros HN. induction l as [|c l IH] using rev_ind; [simpl; by rewrite take_nil, Nat.min_0_r|].
  unfold feed in *. rewrite foldl_app, IH. cbn [foldl]. unfold took, sprintputch. cbn [b_pos b_end b_mem b_cnt].
  rewrite (length_app l [c]). cbn [length]. destruct (decide (length l < N)%nat) as [Hl|Hl].
  - rewrite bool_decide_eq_true_2 by lia. rewrite !(take_ge _ N) by (rewrite ?length_app; simpl; lia).
    rewrite !Nat.min_r by lia. rewrite bool_decide_eq_true_2 by (rewrite length_app, length_fmap, length_drop; lia).
    rewrite Nat2Z.id. destruct (drop (length l) mem) as [|y r] eqn:E.
    { apply (f_equal length) in E. rewrite length_drop in E. simpl in E. lia. }
    rewrite insert_middle by (by rewrite length_fmap). rewrite fmap_app, <- app_assoc.
    replace (drop (length l + 1) mem) with r by (by rewrite <- drop_drop, E). simpl. rewrite s32_succ. f_equal; [lia|f_equal; lia].
  - rewrite bool_decide_eq_false_2 by lia. rewrite take_app_le by lia. rewrite !Nat.min_l by lia. rewrite s32_succ. f_equal. f_equal. lia.
Qed.

(** C33: bounded printing stays in bounds.  Into a buffer of at least [n] > 0 characters,
    [vsnprintf] writes the first [n - 1] characters of what the format and its arguments
    stand for, or all of them when they are fewer, and a NUL behind them; it leaves the rest
    of the memory as it was and returns the number of characters of the whole text as an [int],
    that is the number itself when it is below [2^31].  It stops for every format; its result is undefined only when that of the format is. *)
Theorem vsnprintf_correct oct mem n fmt ap : 0 < n <= Z.of_nat (length mem) →
  match output oct fmt ap with
  | Some out =>
      let k := (Z.to_nat (n - 1) `min` length out)%nat in
      vsnprintf oct mem n fmt ap = Ok (s32 (Z.of_nat (length out)))
        {| b_mem := (u8 <$> take k out) ++ 0 :: drop (S k) mem; b_pos := Z.of_nat k; b_end := n - 1; b_cnt := s32 (Z.of_nat (length out)) |}
  | None => vsnprintf oct mem n fmt ap = Undef
  end.
Proof.
  intros Hn. destruct (took_run sprintputch fits sprintputch_fits) as [Hr Hi].
  pose proof (vprintfmt_feeds sprintputch _ fits oct fmt ap {| b_mem := mem; b_pos := 0; b_end := n - 1; b_cnt := 0 |} Hr Hi) as H.
  specialize (H ltac:(split; simpl; lia)). unfold vsnprintf. destruct (output oct fmt ap) as [out|].
  2:{ unfold mbind, M_bind. by rewrite H. }
  destruct H as [H _]. rewrite (bind_Ok _ _ _ _ _ H). replace (n - 1) with (Z.of_nat (Z.to_nat (n - 1))) by lia.
  rewrite sprint_feed, Nat2Z.id by lia. set (N := Z.to_nat (n - 1)). assert (N < length mem)%nat as HN by lia. cbv zeta.
  set (k := (N `min` length out)%nat). assert (length (u8 <$> take N out) = k) as Hk by (rewrite length_fmap, length_take; lia).
  rewrite (bind_Ok poke_nul _ _ ()
    {| b_mem := (u8 <$> take k out) ++ 0 :: drop (S k) mem; b_pos := Z.of_nat k; b_end := Z.of_nat N; b_cnt := s32 (Z.of_nat (length out)) |});
    [done|].
  unfold poke_nul. cbn [b_pos b_mem b_end b_cnt]. rewrite bool_decide_eq_true_2 by (rewrite length_app, Hk, length_drop; lia).
  destruct (drop k mem) as [|y r] eqn:E; [apply (f_equal length) in E; rewrite length_drop in E; simpl in E; lia|].
  rewrite Nat2Z.id, insert_middle by done. replace r with (drop (S k) mem) by (by rewrite <- Nat.add_1_r, <- drop_drop, E).
  do 4 f_equal. unfold k. destruct (decide (N <= length out)%nat); [by rewrite Nat.min_l by lia|].
  by rewrite Nat.min_r, !take_ge by lia.
Qed.

Section BlockSpec.
Context (max : nat) (puts : list Z → nat → list Z) (ok : Z → Prop).
Hypothesis max_two : (2 <= max)%nat.
Hypothesis puts_ok : ∀ mem n, mem !! n = Some 0 → Forall ok (take n mem) → puts mem n = take n mem.

Definition block_inv (b : printbuf) : Prop := (p_idx b < max - 1)%nat ∧ length (p_mem b) = max.

(** The state after the characters [l], all of them [ok]. *)
Definition block_rel (b : printbuf) (l : list Z) : Prop :=
  block_inv b ∧ p_cnt b = s32 (Z.of_nat (length l)) ∧ Forall (λ blk, (length blk < max)%nat) (p_out b) ∧
  mjoin (p_out b) ++ take (p_idx b) (p_mem b) = u8 <$> l.

Lemma block_putch_run c b : block_inv b → ∃ b', block_putch max puts c b = Ok () b' ∧ block_inv b' ∧
  (∀ l, Forall ok (u8 <$> l ++ [c]) → block_rel b l → block_rel b' (l ++ [c])).
Proof.
  intros [Hi Hm]. unfold block_putch. rewrite !(bind_Ok (gets _) _ _ _ _ (gets_Ok _ _)).
  rewrite bool_decide_eq_true_2 by lia. rewrite (bind_Ok (modify _) _ _ _ _ (modify_Ok _ _)).
  set (m := <[p_idx b := u8 c]> (p_mem b)). assert (length m = max) as Hlm by (unfold m; by rewrite length_insert).
  assert (take (p_idx b + 1) m = take (p_idx b) (p_mem b) ++ [u8 c]) as Htake.
  { rewrite Nat.add_1_r. unfold m. rewrite (take_S_r _ _ (u8 c)) by (apply list_lookup_insert_eq; lia). by rewrite take_insert_ge by lia. }
  assert (∀ l, mjoin (p_out b) ++ take (p_idx b) (p_mem b) = u8 <$> l → mjoin (p_out b) ++ take (p_idx b + 1) m = u8 <$> l ++ [c]) as Hj.
  { intros l Hl. rewrite Htake, app_assoc, Hl, fmap_app. done. }
  case_bool_decide as Hfull.
  - unfold flush, mbind, M_bind, modify. cbn [p_idx p_mem p_cnt p_out]. fold m. rewrite bool_decide_eq_true_2 by lia.
    eexists. split; [reflexivity|]. split; [split; simpl; [lia|by rewrite length_insert]|].
    intros l Hok (_ & Hc & Hb & Hl). specialize (Hj l Hl).
    assert (puts (<[(p_idx b + 1)%nat := 0]> m) (p_idx b + 1)%nat = take (p_idx b + 1)%nat m) as Hp.
    { rewrite puts_ok; [by rewrite take_insert_ge by lia|apply list_lookup_insert_eq; lia|].
      rewrite take_insert_ge by lia. rewrite <- Hj in Hok. by apply Forall_app in Hok as [_ ?]. }
    split; [split; simpl; [lia|by rewrite length_insert]|]. cbn [p_idx p_mem p_cnt p_out]. split; [rewrite length_app, Hc, s32_succ, Nat2Z.inj_add; done|]. rewrite Hp. split.
    + apply Forall_app. split; [done|]. constructor; [|constructor]. rewrite length_take. lia.
    + rewrite join_app. simpl. by rewrite !app_nil_r.
  - eexists. split; [reflexivity|]. split; [split; simpl; [lia|done]|]. intros l Hok (_ & Hc & Hb & Hl).
    split; [split; simpl; [lia|done]|]. cbn [p_idx p_mem p_cnt p_out]. split; [rewrite length_app, Hc, s32_succ, Nat2Z.inj_add; done|]. split; [done|]. by apply Hj.
Qed.

Lemma block_feed b l1 l2 : block_rel b l1 → Forall ok (u8 <$> l1 ++ l2) → block_rel (feed (took (block_putch max puts)) b l2) (l1 ++ l2).
Proof.
  revert b l1. induction l2 as [|c l2 IH]; intros b l1 Hb Hok; [by rewrite app_nil_r|]. simpl.
  rewrite (cons_middle c l1 l2), (app_assoc l1 [c] l2) in *. apply IH; [|done]. unfold took.
  destruct (block_putch_run c b) as (b' & -> & _ & H); [apply Hb|]. apply H; [|done].
  rewrite fmap_app in Hok. by apply Forall_app in Hok as [? _].
Qed.

(** The blocks that are written join up to the text, if all of its characters are [ok]. *)
Lemma block_printf_run oct stk fmt ap : length stk = max →
  match output oct fmt ap with
  | Some out => ∃ b, block_printf max puts oct stk fmt ap = Ok (p_cnt b) b ∧
      (Forall ok (u8 <$> out) → p_cnt b = s32 (Z.of_nat (length out)) ∧ mjoin (p_out b) = u8 <$> out ∧ Forall (λ blk, (length blk < max)%nat) (p_out b))
  | None => block_printf max puts oct stk fmt ap = Undef
  end.
Proof.
  intros Hs. set (b0 := {| p_idx := 0; p_cnt := 0; p_mem := stk; p_out := [] |}).
  assert (block_inv b0) as Hb0 by (split; simpl; lia).
  destruct (took_run (block_putch max puts) block_inv) as [Hr Hi].
  { intros c b Hb. destruct (block_putch_run c b Hb) as (b' & E & Hb' & _). eauto. }
  pose proof (vprintfmt_feeds _ _ block_inv oct fmt ap b0 Hr Hi Hb0) as H. unfold block_printf. fold b0. destruct (output oct fmt ap) as [out|].
  2:{ unfold mbind, M_bind. by rewrite H. }
  destruct H as [H [Hx Hm]]. rewrite (bind_Ok _ _ _ _ _ H). set (b := feed _ b0 out) in *.
  unfold flush, mbind, M_bind, gets. rewrite bool_decide_eq_true_2 by lia. eexists. split; [reflexivity|]. intros Hok.
  destruct (block_feed b0 [] out) as (_ & Hc & Hb & Hj); [split_and!; done|done|]. fold b in Hc, Hb, Hj. cbn [p_idx p_mem p_cnt p_out].
  rewrite app_nil_l in *. split; [done|]. rewrite puts_ok; [|apply list_lookup_insert_eq; lia|].
  2:{ rewrite take_insert_ge by lia. rewrite <- Hj in Hok. by apply Forall_app in Hok as [_ ?]. }
  rewrite take_insert_ge by lia. split; [rewrite join_app; simpl; by rewrite app_nil_r|].
  apply Forall_app. split; [done|]. constructor; [|constructor]. rewrite length_take. lia.
Qed.
End BlockSpec.

(** ** Theorems *)

Lemma user_puts_ok mem n : mem !! n = Some 0 → Forall (λ _, True) (take n mem) → user_puts mem n = take n mem.
Proof. done. Qed.

Lemma cputs_ok mem n : mem !! n = Some 0 → Forall (λ c, c ≠ 0) (take n mem) → cputs mem = take n mem.
Proof.
  revert n. induction mem as [|c mem IH]; intros [|n] Hn Hf; try done; simpl in *.
  - by injection Hn as ->.
  - apply Forall_cons in Hf as [Hc Hf]. rewrite bool_decide_eq_false_2 by done. by rewrite (IH n).
Qed.


(** The kernel's [dprintf] does the same where no character is a NUL, which ends a block early. *)
Lemma dprintf_correct stk ds ap : length stk = CONSOLE_BUFFER_SIZE → Forall dir_ok ds → Forall (λ c, c ≠ 0) (u8 <$> out_of ds) →
  ∃ b, vdprintf stk (text_of ds) (args_of ds ++ ap) = Ok (s32 (Z.of_nat (length (out_of ds)))) b ∧ mjoin (p_out b) = u8 <$> out_of ds.
Proof.
  intros Hs Hd Hz. pose proof (block_printf_run CONSOLE_BUFFER_SIZE (λ mem _, cputs mem) (λ c, c ≠ 0) ltac:(unfold CONSOLE_BUFFER_SIZE; lia)
    (λ mem n H, cputs_ok mem n H) true stk (text_of ds) (args_of ds ++ ap) Hs) as H. rewrite output_dirs in H by done.
  destruct H as (b & E & H). destruct (H Hz) as (Hc & Hj & Hb). exists b. by rewrite <- Hc.
Qed.

(** ["p%05d%d%%%-4s"] with 42, -7 and a string. *)
Definition sample_dirs : list dir := [DLit 112; DConv 48 5 (Cd 42); DConv 32 0 (Cd (-7)); DPct; DConv 45 4 (Cs (Some [104; 105]))].


Lemma vsnprintf_correct_witness :
  vsnprintf false [9; 9; 9; 9; 9; 9] 4 [37; 100] [VInt 12345] =
    Ok 5 {| b_mem := [49; 50; 51; 0; 9; 9]; b_pos := 3; b_end := 3; b_cnt := 5 |}.
Proof. apply (vsnprintf_correct false [9; 9; 9; 9; 9; 9] 4 [37; 100] [VInt 12345]). simpl. lia. Defined.

(** [%-5d] pads on the left, with the flag character. *)
Example minus_pads_left : output false [37; 45; 53; 100] [VInt 42] = Some [45; 45; 45; 52; 50].
Proof. vm_compute. reflexivity. Qed.

(** A minus sign stands before the padding and does not count for the width. *)
Example sign_before_padding : output false [37; 53; 100] [VInt (-42)] = Some [45; 32; 32; 32; 52; 50].
Proof. vm_compute. reflexivity. Qed.
