(* ===== verification/ShellCmd.v ===== *)
(** * Commands of the shell (user/shell/shell.c, user/lib/atoi.c, string.c)

    The line that was read is copied; a line with a bar, or whose first word names a program,
    is run as a pipeline, and any other by the function its first word selects in a table.
    [kill], [trap] and [spawn] are modelled here and the commands on files in ShellFile; the
    functions of the other commands are an argument.  What the shell prints is left out.  Numbers are read by [atoi]. *)

From S2P Require Import Prelude Shell ShellRun Format.

(** ** Strings *)

Definition INT_MAX : Z := 2147483647.

Definition is_digit (c : Z) : bool := bool_decide (48 <= c) && bool_decide (c <= 57).

(** The digits from [loc] on, of a string without its NUL; [None] when the sum leaves [int]. *)
Fixpoint atoi_loop (s : list Z) (loc : nat) (acc : Z) : option (nat * Z) :=
  match s with
  | c :: s =>
      if is_digit c then
        let acc := acc * 10 + (c - 48) in
        if bool_decide (acc <= INT_MAX) then atoi_loop s (loc + 1) acc else None
      else Some (loc, acc)
  | [] => Some (loc, acc)
  end.

(** What is returned, and [*i] afterwards. *)
Definition atoi (s : list Z) (i : Z) : option (nat * Z) :=
  let '(negative, numstart) :=
    match s with
    | c :: _ => if bool_decide (c = 43) then (false, 1%nat) else if bool_decide (c = 45) then (true, 1%nat) else (false, 0%nat)
    | [] => (false, 0%nat)
    end in
  '(loc, acc) ← atoi_loop (drop numstart s) numstart 0;
  if bool_decide (numstart = loc) then Some (0%nat, i)
  else Some (loc, if (negative : bool) then - acc else acc).

Definition str_to_int (s : list Z) : option Z := snd <$> atoi s 0.

(** On the memory from a pointer on; [None] when it leaves the memory. *)
Fixpoint strcpy (dst src : list Z) : option (list Z) :=
  match src, dst with
  | c :: src, _ :: dst => if bool_decide (c = 0) then Some (c :: dst) else cons c <$> strcpy dst src
  | _, _ => None
  end.

Fixpoint strchr (s : list Z) (c : Z) : option bool :=
  match s with
  | [] => None
  | x :: s => if bool_decide (x = 0) then Some false else if bool_decide (x = c) then Some true else strchr s c
  end.

(** ** Commands *)

Class OsSig (W : Type) := {
  os_kill : Z → Z → W → Z * W;
  os_sigaction : Z → W → Z * W;
}.

Section Commands.
Context {W : Type} `{Os W, OsSig W}.

Definition shell_kill (argv : list (list Z)) : M W Z :=
  match argv with
  | _ :: a1 :: a2 :: _ =>
      sig ← deref (if bool_decide (head a1 = Some 45) then str_to_int (drop 1 a1) else str_to_int a1);
      pid ← deref (str_to_int a2);
      if bool_decide (sig < 1) || bool_decide (sig > 31) then mret (-1)
      else if bool_decide (pid < 1) || bool_decide (pid > 63) then mret (-1)
      else call (os_kill pid sig) ;; mret 0
  | _ => mret 0
  end.

Definition shell_trap (argv : list (list Z)) : M W Z :=
  match argv with
  | _ :: a1 :: _ =>
      signum ← deref (str_to_int a1);
      if bool_decide (signum < 1) || bool_decide (signum >= 32) then mret (-1)
      else
        r ← call (os_sigaction signum);
        mret (if bool_decide (r < 0) then -1 else 0)
  | _ => mret (-1)
  end.

Definition shell_spawn (argv : list (list Z)) : M W Z :=
  match argv with
  | _ :: a1 :: _ =>
      elf_id ← deref (str_to_int a1);
      if bool_decide (elf_id < 1) || bool_decide (elf_id > 9) then mret (-1)
      else
        new_pid ← call (os_spawn elf_id 1000 (-1) (-1));
        mret (if bool_decide (new_pid ≠ -1) then 0 else -1)
  | _ => mret (-1)
  end.

(** The names of the table, in order. *)
Definition command_names : list (list Z) :=
  [ [108; 115]; [112; 119; 100]; [99; 100]; [99; 112]; [109; 118]; [114; 109]; [109; 107; 100; 105; 114]; [99; 97; 116];
    [98; 105; 114; 97; 108]; [116; 111; 117; 99; 104]; [119; 114; 105; 116; 101]; [97; 112; 112; 101; 110; 100];
    [104; 101; 108; 112]; [107; 105; 108; 108]; [116; 114; 97; 112]; [115; 112; 97; 119; 110] ].

Fixpoint find_command (name : list Z) (names : list (list Z)) (i : nat) : option nat :=
  match names with
  | [] => None
  | n :: names => if str_is name n then Some i else find_command name names (i + 1)
  end.

(** [commands[i].func]; [file_cmd] stands for the commands on files and [help]. *)
Definition command_func (file_cmd : nat → list (list Z) → M W Z) (i : nat) (argv : list (list Z)) : M W Z :=
  if bool_decide (i = 13%nat) then shell_kill argv
  else if bool_decide (i = 14%nat) then shell_trap argv
  else if bool_decide (i = 15%nat) then shell_spawn argv
  else file_cmd i argv.

(** The result and what is left in the line's buffer; [stk] is what [procbuf] held before. *)
Definition runcmd (file_cmd : nat → list (list Z) → M W Z) (stk_cwd stk buf : list Z) : M W (Z * list Z) :=
  procbuf ← deref (strcpy stk buf);
  bar ← deref (strchr procbuf BAR);
  if (bar : bool) then r ← run_pipeline stk_cwd procbuf; mret (r, buf)
  else
    match parse_stage 0 buf with
    | Ok None b => mret (0, b)
    | Ok (Some ps) b =>
        match cstr b <$> ps with
        | [] => mret (0, b)
        | name :: args =>
            r ← (if is_process_cmd name then run_pipeline stk_cwd procbuf
                 else match find_command name command_names 0 with
                      | Some i => command_func file_cmd i (name :: args)
                      | None => mret 0
                      end);
            mret (r, b)
        end
    | Spin => spin
    | _ => undef
    end.

(** [sys_readline]: the characters read, none when the call fails. *)
Definition readline (data : option (list Z)) (buf : list Z) : option (list Z) :=
  match data with
  | Some data =>
      if bool_decide (length data = 0)%nat then Some buf
      else if bool_decide (length data < length buf)%nat then Some (data ++ 0 :: drop (S (length data)) buf)
      else None
  | None => Some buf
  end.

(** The loop of [main] on what the calls to read give it, with what the stack holds in each
    round; [true] when the shell has ended. *)
Fixpoint main_loop (file_cmd : nat → list (list Z) → M W Z) (inputs : list (option (list Z) * list Z * list Z)) (buf : list Z) : M W bool :=
  match inputs with
  | [] => mret false
  | (data, stk_cwd, stk) :: inputs =>
      buf ← deref (readline data buf);
      r ← runcmd file_cmd stk_cwd stk buf;
      if bool_decide (r.1 < 0) then mret true else main_loop file_cmd inputs r.2
  end.
End Commands.

(** ** Numbers *)

#[local] Opaque numeral.

Lemma atoi_loop_run ds rest loc acc :
  Forall (λ c, 48 <= c <= 57) ds → no_digit rest → 0 <= acc → dec_from acc ds <= INT_MAX →
  atoi_loop (ds ++ rest) loc acc = Some ((loc + length ds)%nat, dec_from acc ds).
Proof.
  revert loc acc. induction ds as [|c ds IH]; intros loc acc Hd Hr Ha Hm.
  - rewrite Nat.add_0_r. destruct rest as [|c rest]; [done|]. simpl in *. unfold is_digit.
    destruct Hr; [rewrite (bool_decide_eq_false_2 (48 <= c)) by lia; done|rewrite (bool_decide_eq_false_2 (c <= 57)), andb_false_r by lia; done].
  - apply Forall_cons in Hd as [Hc Hd]. cbn [app atoi_loop]. unfold is_digit. rewrite !(bool_decide_eq_true_2) by lia. cbn [andb].
    assert (acc * 10 + (c - 48) <= INT_MAX). { etrans; [|exact Hm]. etrans; [|apply (dec_from_ge ds); [|done]]; lia. }
    rewrite bool_decide_eq_true_2 by done. rewrite IH; [|done|done|lia|].
    + simpl. f_equal. f_equal; [lia|]. f_equal. lia.
    + etrans; [|exact Hm]. simpl. unfold dec_from. apply Z.eq_le_incl. f_equal. lia.
Qed.

(** The text of a number, with or without a minus sign. *)
Lemma atoi_numeral n rest i : 0 <= n <= INT_MAX → no_digit rest →
  atoi (numeral 10 n ++ rest) i = Some (length (numeral 10 n), n) ∧
  atoi (45 :: numeral 10 n ++ rest) i = Some (S (length (numeral 10 n)), - n).
Proof.
  intros Hn Hr. pose proof (numeral10_digits n ltac:(lia)) as Hd. assert (dec_from 0 (numeral 10 n) = n) as Hv by (apply numeral10_value; unfold INT_MAX in *; lia).
  pose proof (atoi_loop_run (numeral 10 n) rest 0 0 Hd Hr ltac:(lia) ltac:(lia)) as H0.
  pose proof (atoi_loop_run (numeral 10 n) rest 1 0 Hd Hr ltac:(lia) ltac:(lia)) as H1.
  rewrite Hv in H0, H1. pose proof (numeral_ne 10 n) as Hne. destruct (numeral 10 n) as [|c l]; [done|].
  pose proof (Forall_inv Hd) as Hc. cbv beta in Hc. split.
  - unfold atoi. cbn [app]. rewrite (bool_decide_eq_false_2 (c = 43)), (bool_decide_eq_false_2 (c = 45)) by lia.
    rewrite drop_0. cbn [app] in H0. rewrite H0. cbn [mbind option_bind]. by rewrite bool_decide_eq_false_2 by (simpl; lia).
  - unfold atoi. change (bool_decide (45 = 43)) with false. change (bool_decide (45 = 45)) with true. cbv iota. cbn [drop]. rewrite drop_0, H1.
    cbn [mbind option_bind]. by rewrite bool_decide_eq_false_2 by (simpl; lia).
Qed.

(** Numbers survive printing and reading.  What [printf] prints for [%d] of an [int]
    greater than the least one, followed by anything but a digit, [atoi] reads back as the same
    number, and it returns the length of the text. *)
Theorem atoi_printf z rest i : - INT_MAX <= z <= INT_MAX → no_digit rest →
  ∃ text, output false [37; 100] [VInt z] = Some text ∧ atoi (text ++ rest) i = Some (length text, z).
Proof.
  intros Hz Hr. exists (signed_out 0 32 z). split.
  - etrans; [apply (output_dirs false [DConv 32 0 (Cd z)] [])|].
    + constructor; [|constructor]. unfold INT_MAX in Hz. simpl. lia.
    + change (out_of _) with (signed_out 0 32 z ++ []). by rewrite app_nil_r.
  - unfold signed_out, fill. case_bool_decide.
    + destruct (atoi_numeral (- z) rest i ltac:(lia) Hr) as [_ Hm]. rewrite Z.opp_involutive in Hm.
      replace (Z.to_nat _) with 0%nat by lia. exact Hm.
    + destruct (atoi_numeral z rest i ltac:(lia) Hr) as [H0 _]. replace (Z.to_nat _) with 0%nat by lia. exact H0.
Qed.

Lemma atoi_printf_witness : ∃ text, output false [37; 100] [VInt (-1234)] = Some text ∧ atoi (text ++ [32; 55]) 9 = Some (length text, -1234).
Proof. apply (atoi_printf (-1234) [32; 55] 9); simpl; [unfold INT_MAX|]; lia. Defined.

(** The least [int] is printed, but reading it back leaves the range of [int]. *)
Example atoi_least : ∃ text, output false [37; 100] [VInt (- 2147483648)] = Some text ∧ atoi text 0 = None.
Proof. eexists. split; [vm_compute; reflexivity|]. vm_compute. reflexivity. Qed.

(** ** Dispatch *)

Lemma strcpy_run dst line post : Forall (λ c, c ≠ 0) line → (length line < length dst)%nat →
  strcpy dst (line ++ 0 :: post) = Some (line ++ 0 :: drop (S (length line)) dst).
Proof.
  revert dst. induction line as [|c line IH]; intros [|d dst] Hl Hn; simpl in *; try lia.
  - by rewrite drop_0.
  - apply Forall_cons in Hl as [Hc Hl]. rewrite bool_decide_eq_false_2 by done. by rewrite IH by (done || lia).
Qed.

Lemma strchr_run line post c : c ≠ 0 → Forall (λ c, c ≠ 0) line → strchr (line ++ 0 :: post) c = Some (bool_decide (c ∈ line)).
Proof.
  intros H0. induction line as [|x line IH]; intros Hl; cbn [app strchr].
  - done.
  - apply Forall_cons in Hl as [Hx Hl]. rewrite (bool_decide_eq_false_2 (x = 0)) by done. destruct (decide (x = c)) as [->|E].
    + rewrite !bool_decide_eq_true_2; [done|apply elem_of_cons; by left|done].
    + rewrite (bool_decide_eq_false_2 (x = c)), IH by done. f_equal. apply bool_decide_ext. rewrite elem_of_cons. naive_solver.
Qed.

Section Dispatch.
Context {W : Type} `{Os W, OsSig W} (file_cmd : nat → list (list Z) → M W Z).

(** What a line makes the shell do. *)
Definition perform (stk_cwd stk line : list Z) : M W Z :=
  let pipeline := run_pipeline stk_cwd (line ++ 0 :: drop (S (length line)) stk) in
  if bool_decide (BAR ∈ line) then pipeline
  else match words line with
       | [] => mret 0
       | name :: args =>
           if bool_decide (MAXARGS - 1 < length (name :: args))%nat then mret 0
           else if is_process_cmd name then pipeline
           else match find_command name command_names 0 with
                | Some i => command_func file_cmd i (name :: args)
                | None => mret 0
                end
       end.

Lemma runcmd_run stk_cwd stk line post : Forall (λ c, c ≠ 0) line → (length line < length stk)%nat →
  ∃ b, ∀ w, runcmd file_cmd stk_cwd stk (line ++ 0 :: post) w = (perform stk_cwd stk line ≫= λ r, mret (r, b)) w.
Proof.
  intros Hl Hn. unfold runcmd, perform. rewrite strcpy_run by done.
  assert (strchr (line ++ 0 :: drop (S (length line)) stk) BAR = Some (bool_decide (BAR ∈ line))) as Hb by (by apply strchr_run).
  destruct (bool_decide (BAR ∈ line)).
  { exists (line ++ 0 :: post). intros w. rewrite (bind_Ok (deref (Some _)) _ w _ w eq_refl), Hb. done. }
  pose proof (parse_stage_run [] line post Hl) as Hp. cbn [length app] in Hp. case_decide as Hlen.
  - destruct Hp as (ps & Hp & Hh). exists (zap line ++ 0 :: post). intros w. specialize (Hh post). cbn [app] in Hh.
    rewrite (bind_Ok (deref (Some _)) _ w _ w eq_refl), Hb, (bind_Ok (deref (Some _)) _ w _ w eq_refl), Hp, Hh.
    destruct (words line) as [|name args]; [done|]. rewrite bool_decide_eq_false_2 by lia. done.
  - destruct Hp as (b & Hp). exists b. intros w.
    rewrite (bind_Ok (deref (Some _)) _ w _ w eq_refl), Hb, (bind_Ok (deref (Some _)) _ w _ w eq_refl), Hp.
    destruct (words line) as [|name args]; [done|]. rewrite bool_decide_eq_true_2 by lia. done.
Qed.

Definition kill_name : list Z := [107; 105; 108; 108].

(** [kill -n], or [kill n] *)
Definition signal_text (dash : bool) (sig : Z) : list Z := if dash then 45 :: numeral 10 sig else numeral 10 sig.

Lemma str_to_int_numeral n : 0 <= n <= INT_MAX → str_to_int (numeral 10 n) = Some n.
Proof. intros Hn. destruct (atoi_numeral n [] 0 Hn I) as [E _]. rewrite app_nil_r in E. unfold str_to_int. by rewrite E. Qed.

Lemma shell_kill_run dash sig pid rest w : 0 <= sig <= INT_MAX → 0 <= pid <= INT_MAX →
  shell_kill (kill_name :: signal_text dash sig :: numeral 10 pid :: rest) w =
    (if bool_decide (1 <= sig <= 31 ∧ 1 <= pid <= 63) then Ok 0 (os_kill pid sig w).2 else Ok (-1) w).
Proof.
  intros Hs Hp. cbn [shell_kill].
  assert ((if bool_decide (head (signal_text dash sig) = Some 45) then str_to_int (drop 1 (signal_text dash sig))
           else str_to_int (signal_text dash sig)) = Some sig) as ->.
  { destruct dash; cbn [signal_text head drop].
    - rewrite bool_decide_eq_true_2, drop_0 by done. by apply str_to_int_numeral.
    - rewrite bool_decide_eq_false_2; [by apply str_to_int_numeral|]. pose proof (numeral10_digits sig ltac:(lia)) as Hd.
      destruct (numeral 10 sig) as [|c l]; [done|]. apply Forall_inv in Hd. cbn [head]. intros [= ->]. lia. }
  rewrite (str_to_int_numeral pid Hp), !(bind_Ok (deref (Some _)) _ w _ w eq_refl).
  destruct (decide (1 <= sig <= 31 ∧ 1 <= pid <= 63)) as [Hok|Hno].
  - rewrite (bool_decide_eq_true_2 (1 <= sig <= 31 ∧ _)) by done. rewrite !bool_decide_eq_false_2 by lia. cbn [orb].
    unfold mbind, M_bind. by rewrite call_Ok.
  - rewrite (bool_decide_eq_false_2 (1 <= sig <= 31 ∧ _)) by done.
    destruct (bool_decide (sig < 1) || bool_decide (sig > 31)) eqn:E1; [done|].
    destruct (bool_decide (pid < 1) || bool_decide (pid > 63)) eqn:E2; [done|].
    apply orb_false_iff in E1 as [?%bool_decide_eq_false ?%bool_decide_eq_false], E2 as [?%bool_decide_eq_false ?%bool_decide_eq_false].
    destruct Hno. lia.
Qed.

Lemma perform_kill stk_cwd stk line dash sig pid w :
  BAR ∉ line → words line = [kill_name; signal_text dash sig; numeral 10 pid] → 0 <= sig <= INT_MAX → 0 <= pid <= INT_MAX →
  perform stk_cwd stk line w =
    (if bool_decide (1 <= sig <= 31 ∧ 1 <= pid <= 63) then Ok 0 (os_kill pid sig w).2 else Ok (-1) w).
Proof.
  intros Hb Hw Hs Hp. rewrite <- (shell_kill_run dash sig pid [] w Hs Hp). unfold perform. rewrite (bool_decide_eq_false_2 (BAR ∈ line)), Hw by done.
  cbn [length]. rewrite bool_decide_eq_false_2 by (unfold MAXARGS; lia). reflexivity.
Qed.

(** A line that was read makes the shell perform it, and end when the result is negative. *)
Lemma main_loop_line stk_cwd stk line inputs buf w :
  Forall (λ c, c ≠ 0) line → (0 < length line < length buf)%nat → (length line < length stk)%nat →
  ∃ b, main_loop file_cmd ((Some line, stk_cwd, stk) :: inputs) buf w =
    (perform stk_cwd stk line ≫= λ r, if bool_decide (r < 0) then mret true else main_loop file_cmd inputs b) w.
Proof.
  intros Hl Hlen Hs. destruct (runcmd_run stk_cwd stk line (drop (S (length line)) buf) Hl Hs) as (b & Hr). exists b. cbn [main_loop].
  assert (readline (Some line) buf = Some (line ++ 0 :: drop (S (length line)) buf)) as ->.
  { unfold readline. rewrite (bool_decide_eq_false_2 (length line = 0)%nat) by lia. by rewrite bool_decide_eq_true_2 by lia. }
  rewrite (bind_Ok (deref (Some _)) _ w _ w eq_refl). specialize (Hr w). unfold mbind, M_bind in *. rewrite Hr.
  by destruct (perform stk_cwd stk line w).
Qed.

(** C34: the [kill] command.  When the shell reads a line whose words are [kill], the decimal
    number of a signal from 1 to 31, with or without a dash before it, and the decimal number of
    a process from 1 to 63, it makes the call that sends that signal to that process, and
    nothing else, and goes on with the next line whatever the call returns. *)
Theorem kill_line stk_cwd stk line dash sig pid inputs buf w :
  Forall (λ c, c ≠ 0) line → (length line < length buf)%nat → (length line < length stk)%nat → BAR ∉ line →
  words line = [kill_name; signal_text dash sig; numeral 10 pid] → 1 <= sig <= 31 → 1 <= pid <= 63 →
  ∃ b, main_loop file_cmd ((Some line, stk_cwd, stk) :: inputs) buf w = main_loop file_cmd inputs b (os_kill pid sig w).2.
Proof.
  intros Hl Hlen Hs Hb Hw Hsig Hpid. assert (0 < length line)%nat by (destruct line; [done|simpl; lia]).
  destruct (main_loop_line stk_cwd stk line inputs buf w) as (b & E); [done|lia|done|]. exists b.
  rewrite E. unfold mbind, M_bind. rewrite (perform_kill stk_cwd stk line dash sig pid w) by (done || unfold INT_MAX; lia).
  by rewrite bool_decide_eq_true_2.
Qed.
End Dispatch.

(** A system that only records the signals sent. *)
#[local] Instance log_os : Os (list (Z * Z)) := {
  os_pipe w := (None, w); os_open _ _ w := (-1, w); os_close _ w := w; os_spawn _ _ _ _ w := (-1, w);
  os_pwd b w := (b, w); os_chdir _ w := (-1, w); os_waitpid _ w := w;
}.

#[local] Instance log_sig : OsSig (list (Z * Z)) := {
  os_kill pid sig w := (0, w ++ [(pid, sig)]);
  os_sigaction _ w := (0, w);
}.

(** ["kill -9 12\n"] *)
Definition kill_9_12 : list Z := [107; 105; 108; 108; 32; 45; 57; 32; 49; 50; 10].

Lemma kill_line_witness : ∃ b,
  main_loop (λ _ _, mret 0) [(Some kill_9_12, [], replicate 1024 7)] (replicate 1024 0) [] =
    main_loop (λ _ _, mret 0) [] b [(12, 9)].
Proof.
  destruct (kill_line (λ _ _, mret 0) [] (replicate 1024 7) kill_9_12 true 9 12 [] (replicate 1024 0) []) as (b & E).
  - unfold kill_9_12. repeat (apply Forall_cons; split; [done|]). apply Forall_nil; done.
  - rewrite length_replicate. simpl. lia.
  - rewrite length_replicate. simpl. lia.
  - apply (bool_decide_unpack _). vm_compute. exact I.
  - vm_compute. reflexivity.
  - lia.
  - lia.
  - exists b. exact E.
Defined.

(** A number out of range makes the command, and with it the shell, end. *)
Example kill_bad_pid_ends : ∃ w, main_loop (λ _ _, mret 0) [(Some [107; 105; 108; 108; 32; 57; 32; 54; 52; 10], [], replicate 1024 7)] (replicate 1024 0) [] = Ok true w ∧ w = [].
Proof. eexists. split; [vm_compute; reflexivity|reflexivity]. Qed.
