(* ===== verification/ShellFile.v ===== *)
(** * Commands on files (user/shell/shell.c)

    The commands of the shell that list, copy, move, remove, print and write files, against
    the calls they make.  Strings are lists without their NUL; an array on the stack is a
    list that starts with what it held before.  Copying a string into an array that is too
    small, or reading one that has no NUL, is undefined.  Messages are left out, only what
    [cat] prints of a file is kept.  It is proved that no command leaves a descriptor open,
    whatever the calls are answered. *)

From S2P Require Import Prelude Shell ShellRun Format ShellCmd.

Definition O_RDONLY : Z := 0.
Definition O_RDWR : Z := 2.
Definition O_CREATE : Z := 512.
Definition BUFLEN : nat := 1024.
Definition SL : Z := 47.
Definition dot : list Z := [46].
Definition dotdot : list Z := [46; 46].
Definition dash_r : list Z := [45; 114].

(** The calls on files, as their stubs return: [sys_read] and [sys_ls] with the bytes they
    stored. *)
Class OsFile (W : Type) := {
  os_read : Z → nat → W → (Z * list Z) * W;
  os_write : Z → list Z → W → Z * W;
  os_mkdir : list Z → W → Z * W;
  os_unlink : list Z → W → Z * W;
  os_ls : nat → W → (Z * list Z) * W;
  os_is_dir : Z → W → Z * W;
  os_print : list Z → W → W;
}.

(** What the arrays of one call hold before: the working directory, the list of names, a file
    name, the contents of a file. *)
Record frame := { fr_pwd : list Z; fr_list : list Z; fr_name : list Z; fr_buf : list Z }.

(** The string at the start of an array. *)
Definition string_at (a : list Z) : option (list Z) := if bool_decide (0 ∈ a) then Some (upto_nul a) else None.

(** Storing bytes at the start of an array. *)
Definition store_at (bs a : list Z) : option (list Z) :=
  if bool_decide (length bs <= length a)%nat then Some (bs ++ drop (length bs) a) else None.

(** The position behind the last slash before [pos]. *)
Fixpoint slash_pos (path : list Z) (pos : nat) : nat :=
  match pos with
  | O => O
  | S p => if bool_decide (path !! p = Some SL) then S p else slash_pos path p
  end.

(** The array with the characters of the last component, without a NUL. *)
Definition extract_filename (path filename : list Z) : option (list Z) :=
  if bool_decide (length path = 0)%nat then Some filename
  else store_at (drop (slash_pos path (length path)) path) filename.

Section Files.
Context {W : Type} `{Os W, OsFile W}.

(** An array of [n] bytes takes the string and its NUL. *)
Definition fits (n : nat) (s : list Z) : M W () := if bool_decide (length s < n)%nat then mret () else undef.

Definition is_file_exist (path : list Z) : M W Z :=
  fd ← call (os_open path O_RDONLY);
  if bool_decide (fd = -1) then mret 0 else sh_close fd ;; mret 1.

Definition is_dir (path : list Z) : M W Z :=
  e ← is_file_exist path;
  if bool_decide (e = 0) then mret 0
  else
    fd ← call (os_open path O_RDONLY);
    if bool_decide (fd < 0) then mret 0
    else
      isDir ← call (os_is_dir fd);
      sh_close fd ;;
      mret isDir.

(** The length and the array; [buf] and [pwd] are what the arrays held. *)
Definition ls_dir (pwd buf : list Z) (path : option (list Z)) : M W (Z * list Z) :=
  r ← match path with
      | None => call (os_ls BUFLEN)
      | Some path =>
          cwd ← call (os_pwd pwd);
          call (os_chdir path) ;;
          r ← call (os_ls BUFLEN);
          call (os_chdir cwd) ;;
          mret r
      end;
  buf ← deref (store_at r.2 buf);
  let len := Z.to_nat r.1 in
  mret (r.1, ((λ c, if bool_decide (c = 32) then 0 else c) <$> take len buf) ++ drop len buf).

Definition is_dir_empty (pwd shell_buf : list Z) : M W Z :=
  r ← ls_dir pwd shell_buf None; mret (if bool_decide (r.1 = 5) then 1 else 0).

(** [while (p - buf < len)]: the names, without the two of every directory. *)
Fixpoint each_name (fuel : nat) (f : list Z → M W ()) (buf : list Z) (left : Z) : M W () :=
  match fuel with
  | O => spin
  | S fuel =>
      if bool_decide (0 < left) then
        p ← deref (string_at buf);
        (if str_is p dot || str_is p dotdot then mret () else f p) ;;
        each_name fuel f (drop (S (length p)) buf) (left - Z.of_nat (S (length p)))
      else mret ()
  end.

Definition rm_file (filename : list Z) : M W Z := call (os_unlink filename).

(** [stk] gives the arrays of a call by its depth. *)
Fixpoint shell_rm_ (fuel : nat) (stk : nat → frame) (path : list Z) (isRecursive : bool) : M W Z :=
  match fuel with
  | O => spin
  | S fuel =>
      if isRecursive then
        d ← is_dir path;
        if bool_decide (d = 0) then rm_file path
        else
          call (os_chdir path) ;;
          r ← ls_dir (fr_pwd (stk fuel)) (fr_list (stk fuel)) None;
          each_name (S BUFLEN) (λ sub, shell_rm_ fuel stk sub isRecursive ;; mret ()) r.2 r.1 ;;
          call (os_chdir dotdot) ;;
          rm_file path ;;
          mret 0
      else
        d ← is_dir path;
        if bool_decide (d = 0) then rm_file path else mret (-1)
  end.

Definition cp_file (buf dest_filename src_filename : list Z) : M W Z :=
  d ← is_dir src_filename;
  if bool_decide (d ≠ 0) then call (os_mkdir dest_filename) ;; mret 0
  else
    fd ← call (os_open src_filename O_RDONLY);
    r ← call (os_read fd 1000);
    buf ← deref (store_at r.2 buf);
    sh_close fd ;;
    fd ← call (os_open dest_filename (O_CREATE + O_RDWR));
    text ← deref (string_at buf);
    call (os_write fd text) ;;
    sh_close fd ;;
    mret 0.

(** [dest_path/name] in an array of [BUFLEN] bytes. *)
Definition join (dir name : list Z) : M W (list Z) := fits BUFLEN (dir ++ SL :: name) ;; mret (dir ++ SL :: name).

Fixpoint shell_cp_ (fuel : nat) (stk : nat → frame) (dest_path src_path : list Z) (isRecursive : bool) : M W Z :=
  match fuel with
  | O => spin
  | S fuel =>
      let into :=
        filename ← deref (extract_filename src_path (fr_name (stk fuel)));
        name ← deref (string_at filename);
        path ← join dest_path name;
        shell_cp_ fuel stk path src_path isRecursive in
      e ← is_file_exist src_path;
      if bool_decide (e = 0) then mret 0
      else if isRecursive then
        d ← is_dir src_path;
        if bool_decide (d ≠ 0) then
          e ← is_file_exist dest_path;
          if bool_decide (e ≠ 0) then
            d ← is_dir dest_path;
            if bool_decide (d ≠ 0) then into ;; mret 0 else mret 0
          else
            cp_file (fr_buf (stk fuel)) dest_path src_path ;;
            r ← ls_dir (fr_pwd (stk fuel)) (fr_list (stk fuel)) (Some src_path);
            each_name (S BUFLEN) (λ p,
              dest ← join dest_path p;
              src ← join src_path p;
              shell_cp_ fuel stk dest src isRecursive ;; mret ()) r.2 r.1 ;;
            mret 0
        else shell_cp_ fuel stk dest_path src_path false ;; mret 0
      else
        d ← is_dir src_path;
        if bool_decide (d ≠ 0) then mret 0
        else
          e ← is_file_exist dest_path;
          d ← (if bool_decide (e ≠ 0) then is_dir dest_path else mret 0);
          if bool_decide (d ≠ 0) then into ;; mret 0
          else cp_file (fr_buf (stk fuel)) dest_path src_path ;; mret 0
  end.

(** What a shell command may hold on its stack: the depth its recursion may reach, and the
    arrays of every depth. *)
Context (depth : nat) (stk : nat → frame).

Definition shell_help (argv : list (list Z)) : M W Z := mret 0.

Definition shell_ls (argv : list (list Z)) : M W Z :=
  match argv with
  | [_] => call (os_ls BUFLEN) ;; mret 0
  | [_; a1] =>
      path ← call (os_pwd (fr_pwd (stk depth)));
      call (os_chdir a1) ;;
      call (os_ls BUFLEN) ;;
      call (os_chdir path) ;;
      mret 0
  | _ => mret 0
  end.

Definition shell_pwd (argv : list (list Z)) : M W Z := call (os_pwd (fr_pwd (stk depth))) ;; mret 0.

Definition shell_cd (argv : list (list Z)) : M W Z :=
  match argv with
  | [_] => call (os_chdir []) ;; mret 0
  | _ :: a1 :: _ => fits BUFLEN a1 ;; call (os_chdir a1) ;; mret 0
  | [] => undef
  end.

Definition shell_cp (argv : list (list Z)) : M W Z :=
  match argv with
  | [_; a1; a2] => shell_cp_ depth stk a2 a1 false ;; mret 0
  | [_; a1; a2; a3] => if str_is a1 dash_r then shell_cp_ depth stk a3 a2 true ;; mret 0 else mret 0
  | _ => mret 0
  end.

Definition shell_mv (argv : list (list Z)) : M W Z :=
  match argv with
  | [_; src; dest] =>
      e ← is_file_exist src;
      if bool_decide (e = 0) then mret 0
      else
        d ← is_dir src;
        if bool_decide (d ≠ 0) then
          e ← is_file_exist dest;
          d ← (if bool_decide (e ≠ 0) then is_dir dest else mret 1);
          if bool_decide (d = 0) then mret 0
          else shell_cp_ depth stk dest src true ;; shell_rm_ depth stk src true ;; mret 0
        else shell_cp_ depth stk dest src true ;; shell_rm_ depth stk src false ;; mret 0
  | _ => mret 0
  end.

Definition shell_rm (argv : list (list Z)) : M W Z :=
  match argv with
  | _ :: a1 :: rest =>
      let isRecursive := str_is a1 dash_r in
      match (if isRecursive then rest else a1 :: rest) with
      | [] => mret 0
      | path :: _ =>
          e ← is_file_exist path;
          if bool_decide (e = 0) then mret 0 else shell_rm_ depth stk path isRecursive ;; mret 0
      end
  | _ => mret 0
  end.

Fixpoint mkdir_loop (names : list (list Z)) : M W () :=
  match names with
  | [] => mret ()
  | n :: names => call (os_mkdir n) ;; mkdir_loop names
  end.

Definition shell_mkdir (argv : list (list Z)) : M W Z := mkdir_loop (drop 1 argv) ;; mret 0.

(** [printf] prints the bytes up to the first NUL. *)
Fixpoint cat_loop (fuel : nat) (fd : Z) : M W () :=
  match fuel with
  | O => spin
  | S fuel =>
      r ← call (os_read fd 511);
      if bool_decide (r.1 > 0) then
        modify (os_print (upto_nul (take (Z.to_nat r.1) r.2))) ;; cat_loop fuel fd
      else mret ()
  end.

Definition shell_cat_ (fuel : nat) (path : list Z) : M W Z :=
  fd ← call (os_open path O_RDONLY);
  if bool_decide (fd = -1) then mret (-1)
  else cat_loop fuel fd ;; modify (os_print [10]) ;; sh_close fd ;; mret 0.

Fixpoint cat_each (fuel : nat) (names : list (list Z)) : M W () :=
  match names with
  | [] => mret ()
  | n :: names => shell_cat_ fuel n ;; cat_each fuel names
  end.

(** [fuel] bounds the reads of one file. *)
Definition shell_cat (fuel : nat) (argv : list (list Z)) : M W Z := cat_each fuel (drop 1 argv) ;; mret 0.

Fixpoint touch_loop (names : list (list Z)) : M W () :=
  match names with
  | [] => mret ()
  | n :: names =>
      fd ← call (os_open n O_RDONLY);
      (if bool_decide (fd >= 0) then sh_close fd
       else fd ← call (os_open n O_CREATE); sh_close fd) ;;
      touch_loop names
  end.

(** Without a name the function returns without a value. *)
Definition shell_touch (argv : list (list Z)) : M W Z :=
  match argv with
  | [_] => undef
  | _ => touch_loop (drop 1 argv) ;; mret 0
  end.

Definition shell_write (argv : list (list Z)) : M W Z :=
  match argv with
  | [_] => mret 0
  | _ :: a1 :: a2 :: _ =>
      fd ← call (os_open a2 (O_CREATE + O_RDWR));
      if bool_decide (fd >= 0) then call (os_write fd a1) ;; sh_close fd ;; mret 0 else mret 0
  | _ => undef
  end.

(** [strncpy] puts the argument behind the bytes read, without a NUL. *)
Definition shell_append (argv : list (list Z)) : M W Z :=
  match argv with
  | [_] => mret 0
  | _ :: a1 :: a2 :: _ =>
      fd ← call (os_open a2 O_RDONLY);
      if bool_decide (fd >= 0) then
        r ← call (os_read fd 1000);
        buf ← deref (store_at r.2 (fr_buf (stk depth)));
        sh_close fd ;;
        let buf := if bool_decide (r.1 = 0) then <[0%nat := 0]> buf else buf in
        fd ← call (os_open a2 (O_CREATE + O_RDWR));
        if bool_decide (fd < 0) then mret 0
        else if bool_decide (r.1 < 0) then undef
        else
          tail ← deref (store_at a1 (drop (Z.to_nat r.1) buf));
          text ← deref (string_at (take (Z.to_nat r.1) buf ++ tail));
          call (os_write fd text) ;;
          sh_close fd ;;
          mret 0
      else mret 0
  | _ => undef
  end.

(** [commands[i].func] for the commands on files. *)
Definition file_command (fuel : nat) (i : nat) (argv : list (list Z)) : M W Z :=
  match i with
  | 0 => shell_ls argv | 1 => shell_pwd argv | 2 => shell_cd argv | 3 => shell_cp argv | 4 => shell_mv argv
  | 5 => shell_rm argv | 6 => shell_mkdir argv | 7 | 8 => shell_cat fuel argv | 9 => shell_touch argv
  | 10 => shell_write argv | 11 => shell_append argv | _ => shell_help argv
  end%nat.
End Files.

(** ** Descriptors *)

(** A system that answers the calls on files anyhow. *)
Record file_answers := {
  a_read : trace → Z → nat → Z * list Z;
  a_write : trace → Z → list Z → Z;
  a_mkdir : trace → list Z → Z;
  a_unlink : trace → list Z → Z;
  a_ls : trace → nat → Z * list Z;
  a_is_dir : trace → Z → Z;
}.

Definition file_recorder (a : file_answers) : OsFile trace := {|
  os_read fd n tr := (a_read a tr fd n, tr ++ [ERead fd n (a_read a tr fd n)]);
  os_write fd d tr := (a_write a tr fd d, tr ++ [EWrite fd d (a_write a tr fd d)]);
  os_mkdir p tr := (a_mkdir a tr p, tr ++ [EMkdir p (a_mkdir a tr p)]);
  os_unlink p tr := (a_unlink a tr p, tr ++ [EUnlink p (a_unlink a tr p)]);
  os_ls n tr := (a_ls a tr n, tr ++ [ELs n (a_ls a tr n)]);
  os_is_dir fd tr := (a_is_dir a tr fd, tr ++ [EIsDir fd (a_is_dir a tr fd)]);
  os_print d tr := tr ++ [EPrint d];
|}.

Section Tidy.
Context (a : answers) (f : file_answers).
#[local] Instance os_here : Os trace := recorder a.
#[local] Instance file_here : OsFile trace := file_recorder f.

(** With [fd] just obtained, the computation gives back what it obtains, and [fd], and holds
    nothing more at any time. *)
Definition lean {A} (fd : Z) (m : M trace A) : Prop := ∀ tr x tr', m tr = Ok x tr' →
  ∃ ev, tr' = tr ++ ev ∧ ∀ s, let s1 := filter (λ x, 0 <= x) {[fd]} ∪ s in hold s1 ev ⊆ s ∧ (peak s1 ev <= S (size s))%nat.

Definition tidy {A} (m : M trace A) : Prop := ∀ tr x tr', m tr = Ok x tr' →
  ∃ ev, tr' = tr ++ ev ∧ ∀ s, hold s ev ⊆ s ∧ (peak s ev <= S (size s))%nat.

(** A call that neither opens nor closes. *)
Definition quiet {A} (m : M trace A) : Prop := ∀ tr x tr', m tr = Ok x tr' → ∃ ev, tr' = tr ++ ev ∧ ∀ s, hold s ev = s ∧ peak s ev = size s.

Lemma tidy_ret {A} (x : A) : tidy (mret x).
Proof. intros tr y tr' [= -> ->]. exists []. rewrite app_nil_r. split; [done|]. intros s. cbn. split; [done|lia]. Qed.

Lemma tidy_undef {A} : tidy (undef : M trace A).
Proof. done. Qed.

Lemma tidy_spin {A} : tidy (spin : M trace A).
Proof. done. Qed.

Lemma tidy_bind {A B} (m : M trace A) (k : A → M trace B) : tidy m → (∀ x, tidy (k x)) → tidy (m ≫= k).
Proof.
  intros Hm Hk tr y tr' (x & tr1 & H1 & H2)%bind_inv. destruct (Hm _ _ _ H1) as (e1 & -> & P1), (Hk x _ _ _ H2) as (e2 & -> & P2).
  exists (e1 ++ e2). split; [by rewrite app_assoc|]. intros s. rewrite hold_app, peak_app. destruct (P1 s) as [A1 B1], (P2 (hold s e1)) as [A2 B2].
  pose proof (subseteq_size _ _ A1). split; [by etrans|lia].
Qed.

Lemma tidy_quiet {A} (m : M trace A) : quiet m → tidy m.
Proof. intros Hm tr x tr' H. destruct (Hm _ _ _ H) as (ev & E & P). exists ev. split; [done|]. intros s. destruct (P s) as [-> ->]. split; [done|lia]. Qed.

Lemma quiet_deref {A} (o : option A) : quiet (deref o).
Proof. intros tr x tr' H. destruct o; [|done]. injection H as -> ->. exists []. by rewrite app_nil_r. Qed.

Lemma lean_quiet {A B} fd (m : M trace A) (k : A → M trace B) : quiet m → (∀ x, lean fd (k x)) → lean fd (m ≫= k).
Proof.
  intros Hm Hk tr y tr' (x & tr1 & H1 & H2)%bind_inv. destruct (Hm _ _ _ H1) as (e1 & -> & P1), (Hk x _ _ _ H2) as (e2 & -> & P2).
  exists (e1 ++ e2). split; [by rewrite app_assoc|]. intros s s1. rewrite hold_app, peak_app. destruct (P1 s1) as [-> ->], (P2 s) as [A2 B2].
  split; [done|]. pose proof (size_acquire s fd). unfold s1 in *. lia.
Qed.

Lemma lean_close {B} fd (m : M trace B) : tidy m → lean fd (sh_close fd ;; m).
Proof.
  intros Hm tr y tr' (x & tr1 & [= <- <-] & H2)%bind_inv. destruct (Hm _ _ _ H2) as (e2 & -> & P2). exists (EClose fd :: e2). split; [by rewrite <- app_assoc|].
  intros s s1. cbn [hold foldl peak hold1]. destruct (P2 (s1 ∖ {[fd]})) as [A2 B2]. assert (s1 ∖ {[fd]} ⊆ s) as Hs by (unfold s1; set_solver).
  pose proof (subseteq_size _ _ Hs). pose proof (size_acquire s fd). split; [by etrans|]. unfold s1 in *. lia.
Qed.

(** Nothing was obtained. *)
Lemma lean_none {B} fd (m : M trace B) : fd < 0 → tidy m → lean fd m.
Proof.
  intros Hfd Hm tr y tr' H2. destruct (Hm _ _ _ H2) as (e2 & -> & P2). exists e2. split; [done|]. intros s s1.
  assert (s1 = s) as -> by (unfold s1; set_solver by lia). apply P2.
Qed.

Lemma tidy_open {B} p md (k : Z → M trace B) : (∀ fd, lean fd (k fd)) → tidy (call (os_open p md) ≫= k).
Proof.
  intros Hk tr y tr' (fd & tr1 & [= <- <-] & H2)%bind_inv. destruct (Hk _ _ _ _ H2) as (e2 & -> & P2).
  eexists. split; [by rewrite <- app_assoc|]. intros s. destruct (P2 s) as [A2 B2]. cbn [app hold foldl peak hold1]. split; [done|lia].
Qed.

Lemma quiet_step {A} (m : M trace A) (x : trace → A) (e : trace → event) :
  (∀ tr, m tr = Ok (x tr) (tr ++ [e tr])) → (∀ tr s, hold1 s (e tr) = s) → quiet m.
Proof.
  intros Hm He tr y tr' H. rewrite Hm in H. injection H as <- <-. exists [e tr]. split; [done|]. intros s. cbn [hold foldl peak]. rewrite He. split; [done|lia].
Qed.

Lemma quiet_pwd b : quiet (call (os_pwd b)).
Proof. by eapply quiet_step. Qed.
Lemma quiet_chdir p : quiet (call (os_chdir p)).
Proof. by eapply quiet_step. Qed.
Lemma quiet_ls n : quiet (call (os_ls n)).
Proof. by eapply quiet_step. Qed.
Lemma quiet_read fd n : quiet (call (os_read fd n)).
Proof. by eapply quiet_step. Qed.
Lemma quiet_write fd d : quiet (call (os_write fd d)).
Proof. by eapply quiet_step. Qed.
Lemma quiet_mkdir p : quiet (call (os_mkdir p)).
Proof. by eapply quiet_step. Qed.
Lemma quiet_unlink p : quiet (call (os_unlink p)).
Proof. by eapply quiet_step. Qed.
Lemma quiet_is_dir fd : quiet (call (os_is_dir fd)).
Proof. by eapply quiet_step. Qed.
Lemma quiet_print d : quiet (modify (os_print d)).
Proof. by eapply (quiet_step _ (λ _, ())). Qed.

Lemma lean_bind {A B} fd (m : M trace A) (k : A → M trace B) : lean fd m → (∀ x, tidy (k x)) → lean fd (m ≫= k).
Proof.
  intros Hm Hk tr y tr' (x & tr1 & H1 & H2)%bind_inv. destruct (Hm _ _ _ H1) as (e1 & -> & P1), (Hk x _ _ _ H2) as (e2 & -> & P2).
  exists (e1 ++ e2). split; [by rewrite app_assoc|]. intros s s1. rewrite hold_app, peak_app. destruct (P1 s) as [A1 B1], (P2 (hold s1 e1)) as [A2 B2].
  fold s1 in A1, B1. pose proof (subseteq_size _ _ A1). split; [by etrans|lia].
Qed.

Lemma lean_close_last fd : lean fd (sh_close fd).
Proof.
  intros tr x tr' H. apply (lean_close fd (mret ()) (tidy_ret ()) tr x). unfold mbind, M_bind. rewrite H. by destruct x.
Qed.

Lemma lean_undef {A} fd : lean fd (undef : M trace A).
Proof. done. Qed.

Create HintDb tidy.
#[local] Hint Resolve quiet_pwd quiet_chdir quiet_ls quiet_read quiet_write quiet_mkdir quiet_unlink quiet_is_dir quiet_print quiet_deref
  tidy_ret tidy_undef tidy_spin lean_undef lean_close_last : tidy.

Ltac tidy_step :=
  match goal with
  | |- tidy (if ?b then _ else _) => destruct b eqn:?
  | |- lean _ (if ?b then _ else _) => destruct b eqn:?
  | |- tidy (match ?x with _ => _ end) => destruct x eqn:?
  | |- tidy (call (os_open _ _) ≫= _) => apply tidy_open; intros ?
  | |- tidy (_ ≫= _) => apply tidy_bind; [|intros ?]
  | |- lean ?fd (sh_close ?fd ≫= _) => apply lean_close
  | |- lean _ (call _ ≫= _) => apply lean_quiet; [solve [auto with tidy]|intros ?]
  | |- lean _ (deref _ ≫= _) => apply lean_quiet; [solve [auto with tidy]|intros ?]
  | H : bool_decide (?fd = -1) = true |- lean ?fd _ => apply bool_decide_eq_true in H; apply lean_none; [lia|]
  | H : bool_decide (?fd < 0) = true |- lean ?fd _ => apply bool_decide_eq_true in H; apply lean_none; [lia|]
  | H : bool_decide (?fd >= 0) = false |- lean ?fd _ => apply bool_decide_eq_false in H; apply lean_none; [lia|]
  end.

Ltac tidy := repeat (solve [auto with tidy] || tidy_step || (apply tidy_quiet; solve [auto with tidy])).

Lemma tidy_fits n s : tidy (fits n s).
Proof. unfold fits. tidy. Qed.
Lemma tidy_exist p : tidy (is_file_exist p).
Proof. unfold is_file_exist. tidy. Qed.
#[local] Hint Resolve tidy_fits tidy_exist : tidy.
Lemma tidy_is_dir p : tidy (is_dir p).
Proof. unfold is_dir. tidy. Qed.
Lemma tidy_ls_dir pwd buf p : tidy (ls_dir pwd buf p).
Proof. unfold ls_dir. tidy. Qed.
Lemma tidy_rm_file p : tidy (rm_file p).
Proof. unfold rm_file. tidy. Qed.
#[local] Hint Resolve tidy_is_dir tidy_ls_dir tidy_rm_file : tidy.
Lemma tidy_cp_file b d p : tidy (cp_file b d p).
Proof. unfold cp_file. tidy. Qed.
Lemma tidy_join d n : tidy (join d n).
Proof. unfold join. tidy. Qed.
Lemma tidy_each_name fuel g buf left : (∀ p, tidy (g p)) → tidy (each_name fuel g buf left).
Proof. intros Hg. revert buf left. induction fuel as [|fuel IH]; intros buf left; cbn [each_name]; tidy; auto with tidy. Qed.
#[local] Hint Resolve tidy_cp_file tidy_join : tidy.

Lemma tidy_rm fuel stk p r : tidy (shell_rm_ fuel stk p r).
Proof. revert p. induction fuel as [|fuel IH]; intros p; cbn [shell_rm_]; tidy; apply tidy_each_name; intros; tidy; apply IH. Qed.

Lemma tidy_cp fuel stk d p r : tidy (shell_cp_ fuel stk d p r).
Proof.
  revert d p r. induction fuel as [|fuel IH]; intros d p r; cbn [shell_cp_]; tidy; try apply IH.
  apply tidy_each_name. intros; tidy; apply IH.
Qed.
#[local] Hint Resolve tidy_rm tidy_cp : tidy.

Lemma tidy_mkdir names : tidy (mkdir_loop names).
Proof. induction names; cbn [mkdir_loop]; tidy. Qed.
Lemma tidy_touch names : tidy (touch_loop names).
Proof. induction names; cbn [touch_loop]; [tidy|]. apply tidy_open. intros fd. apply lean_bind; [|tidy]. tidy. Qed.
Lemma quiet_bind {A B} (m : M trace A) (k : A → M trace B) : quiet m → (∀ x, quiet (k x)) → quiet (m ≫= k).
Proof.
  intros Hm Hk tr y tr' (x & tr1 & H1 & H2)%bind_inv. destruct (Hm _ _ _ H1) as (e1 & -> & P1), (Hk x _ _ _ H2) as (e2 & -> & P2).
  exists (e1 ++ e2). split; [by rewrite app_assoc|]. intros s. rewrite hold_app, peak_app. destruct (P1 s) as [-> ->], (P2 s) as [-> ->]. split; [done|lia].
Qed.

Lemma quiet_ret {A} (x : A) : quiet (mret x).
Proof. intros tr y tr' [= -> ->]. exists []. by rewrite app_nil_r. Qed.

Lemma quiet_cat fuel fd : quiet (cat_loop fuel fd).
Proof.
  induction fuel as [|fuel IH]; cbn [cat_loop]; [done|]. apply quiet_bind; [auto with tidy|]. intros r. case_bool_decide; [|apply quiet_ret].
  apply quiet_bind; [auto with tidy|done].
Qed.

Lemma tidy_cat fuel names : tidy (cat_each fuel names).
Proof.
  induction names as [|n names IH]; cbn [cat_each]; [tidy|]. apply tidy_bind; [|tidy]. unfold shell_cat_. apply tidy_open. intros fd.
  tidy_step; [tidy|]. apply lean_quiet; [apply quiet_cat|]. intros _. apply lean_quiet; [auto with tidy|]. intros _. tidy.
Qed.
#[local] Hint Resolve tidy_mkdir tidy_touch tidy_cat : tidy.

Lemma tidy_command depth stk fuel i argv : tidy (file_command depth stk fuel i argv).
Proof.
  unfold file_command. destruct i as [|[|[|[|[|[|[|[|[|[|[|[|i]]]]]]]]]]]];
    unfold shell_ls, shell_pwd, shell_cd, shell_cp, shell_mv, shell_rm, shell_mkdir, shell_cat, shell_touch, shell_write, shell_append, shell_help; tidy.
Qed.

(** Commands that return whatever the answers are. *)
Definition ends {A} (m : M trace A) : Prop := ∀ tr, ∃ x tr', m tr = Ok x tr'.

Lemma ends_bind {A B} (m : M trace A) (k : A → M trace B) : ends m → (∀ x, ends (k x)) → ends (m ≫= k).
Proof. intros Hm Hk tr. destruct (Hm tr) as (x & tr1 & H1). rewrite (bind_Ok _ _ _ _ _ H1). apply Hk. Qed.

Lemma ends_call {A} (c : trace → A * trace) : ends (call c).
Proof. intros tr. rewrite call_Ok. eauto. Qed.

Lemma ends_close fd : ends (sh_close fd).
Proof. intros tr. by eexists _, _. Qed.

Lemma ends_ret {A} (x : A) : ends (mret x).
Proof. intros tr. by eexists _, _. Qed.

(** It returns 0. *)
Definition zero (m : M trace Z) : Prop := ∀ tr, ∃ tr', m tr = Ok 0 tr'.

Lemma zero_bind {A} (m : M trace A) (k : A → M trace Z) : ends m → (∀ x, zero (k x)) → zero (m ≫= k).
Proof. intros Hm Hk tr. destruct (Hm tr) as (x & tr1 & H1). rewrite (bind_Ok _ _ _ _ _ H1). apply Hk. Qed.

Lemma zero_ret : zero (mret 0).
Proof. intros tr. by eexists. Qed.

Ltac ends := repeat (apply ends_ret || apply ends_call || apply ends_close || (apply ends_bind; [|intros ?]) ||
  match goal with |- ends (if ?b then _ else _) => destruct b | |- ends (_ ≫= _) => fail | |- ends (is_file_exist _) => unfold is_file_exist
  | |- ends (is_dir _) => unfold is_dir | |- ends (rm_file _) => unfold rm_file
  | |- zero (_ ≫= _) => apply zero_bind; [|intros ?] | |- zero (mret 0) => apply zero_ret | |- zero (if ?b then _ else _) => destruct b eqn:?
  | |- zero (match ?l with _ => _ end) => destruct l eqn:? end).

Definition plain (i : nat) (argv : list (list Z)) : Prop :=
  match i with
  | 0 | 1 | 6 | 12 => True
  | 2 => (length (nth 1 argv []) < BUFLEN)%nat ∧ argv ≠ []
  | 5 => str_is (nth 1 argv []) dash_r = false
  | 9 => (2 <= length argv)%nat
  | 10 => (3 <= length argv)%nat
  | _ => False
  end%nat.

Lemma ends_mkdir names : ends (mkdir_loop names).
Proof. induction names; cbn [mkdir_loop]; ends. done. Qed.

Lemma ends_touch names : ends (touch_loop names).
Proof. induction names; cbn [touch_loop]; ends; done. Qed.

Lemma ends_rm depth stk p : depth ≠ 0%nat → ends (shell_rm_ depth stk p false).
Proof. destruct depth; [done|]. intros _. cbn [shell_rm_]. ends. Qed.

Lemma plain_zero depth stk fuel i argv : depth ≠ 0%nat → plain i argv → zero (file_command depth stk fuel i argv).
Proof.
  intros Hd Hp. destruct i as [|[|[|[|[|[|[|[|[|[|[|[|[|i]]]]]]]]]]]]]; try done; cbn [file_command plain] in *.
  - unfold shell_ls. ends.
  - unfold shell_pwd. ends.
  - unfold shell_cd. destruct argv as [|c [|a1 rest]]; [by destruct Hp|ends|]. simpl in Hp. unfold fits. rewrite bool_decide_eq_true_2 by apply Hp. ends.
  - unfold shell_rm. destruct argv as [|c [|a1 rest]]; [ends..|]. simpl in Hp. rewrite Hp. ends. by apply ends_rm.
  - unfold shell_mkdir. ends. apply ends_mkdir.
  - unfold shell_touch. destruct argv as [|c [|a1 rest]]; simpl in Hp; try lia. ends. apply ends_touch.
  - unfold shell_write. destruct argv as [|c [|a1 [|a2 rest]]]; simpl in Hp; try lia. ends.
  - unfold shell_help. ends.
Qed.

(** C22: the commands on files and descriptors, however the system calls are answered.  When a
    command returns, it has given back every descriptor it obtained, and it never held more
    than one of them.  [ls], [pwd], [mkdir] and [help], [cd] with a name that fits its
    buffer, [rm] without [-r], [touch] with a name and [write] with its two arguments do return,
    with the result that keeps the shell running. *)
Theorem file_command_descriptors depth stk fuel i argv tr :
  (∀ r tr', file_command depth stk fuel i argv tr = Ok r tr' → ∃ ev, tr' = tr ++ ev ∧ hold ∅ ev = ∅ ∧ (peak ∅ ev <= 1)%nat) ∧
  (depth ≠ 0%nat → plain i argv → ∃ tr', file_command depth stk fuel i argv tr = Ok 0 tr').
Proof.
  split; [|intros Hd Hp; by apply plain_zero]. intros r tr' H. destruct (tidy_command depth stk fuel i argv tr r tr' H) as (ev & -> & P).
  exists ev. split; [done|]. destruct (P ∅) as [A B]. rewrite size_empty in B. split; [set_solver|done].
Qed.
End Tidy.

(** The last component is stored without a NUL: what the array held before follows it. *)
Example filename_keeps_junk : (extract_filename [97; 47; 98; 99] [120; 120; 121; 122; 0; 7] ≫= string_at) = Some [98; 99; 121; 122].
Proof. reflexivity. Qed.

(** ** A small tree *)

Definition junk_frame : frame := {| fr_pwd := []; fr_list := replicate 1024 120; fr_name := []; fr_buf := [] |}.

Definition last_open (tr : trace) : list Z := default [] (last (omap (λ e, match e with EOpen p _ _ => Some p | _ => None end) tr)).

(** The directory "d" holds the file "a". *)
Definition one_file : file_answers := {|
  a_read _ _ _ := (0, []); a_write _ _ _ := -1; a_mkdir _ _ := -1; a_unlink _ _ := 0;
  a_ls _ _ := (7, [46; 32; 46; 46; 32; 97; 0]);
  a_is_dir tr _ := if bool_decide (last_open tr = [100]) then 1 else 0;
|}.

Lemma file_command_descriptors_witness : ∃ ev,
  @file_command trace (recorder (small_system 0)) (file_recorder one_file) 3 (λ _, junk_frame) 1 5 [[114; 109]; dash_r; [100]] [] = Ok 0 ev ∧
  hold ∅ ev = ∅ ∧ (peak ∅ ev <= 1)%nat ∧
  omap (λ e, match e with EChdir p _ => Some (p, false) | EUnlink p _ => Some (p, true) | _ => None end) ev =
    [([100], false); ([97], true); (dotdot, false); ([100], true)].
Proof.
  destruct (file_command_descriptors (small_system 0) one_file 3 (λ _, junk_frame) 1 5 [[114; 109]; dash_r; [100]] []) as [H _].
  assert (∃ ev, @file_command trace (recorder (small_system 0)) (file_recorder one_file) 3 (λ _, junk_frame) 1 5 [[114; 109]; dash_r; [100]] [] = Ok 0 ev ∧
    omap (λ e, match e with EChdir p _ => Some (p, false) | EUnlink p _ => Some (p, true) | _ => None end) ev =
      [([100], false); ([97], true); (dotdot, false); ([100], true)]) as (ev & E & Hm).
  { eexists. split; [vm_compute; reflexivity|vm_compute; reflexivity]. }
  destruct (H 0 ev E) as (ev' & -> & Hh & Hp). by exists ev'.
Defined.
