(* ===== verification/Console.v ===== *)
(** * Console input (kern/dev/console.c, keyboard.c, serial.c)

    The keyboard driver turns scan codes into characters under the shift state; the console
    keeps the characters of the keyboard and of the serial line in a ring until
    [cons_getc] takes them.  The bytes the two devices have ready are lists, and what is
    written to a port is recorded.  The lock of the console is left out; the output is in
    Screen and the line editor in Monitor. *)

From S2P Require Import Prelude Format.

(** ** State *)

(** A message that is printed, or a byte written to a port. *)
Inductive said := Say (text : list Z) | Out (port v : Z).

Record cons_st := {
  kbd : list Z;
  ser : list Z;
  shift : Z;
  ring : list Z;
  rpos : Z;
  wpos : Z;
  outs : list said;
}.

Definition SIZE : Z := Z.of_nat CONSOLE_BUFFER_SIZE.

(** ** The keyboard *)

Definition SHIFT : Z := 1.
Definition CTL : Z := 2.
Definition ALT : Z := 4.
Definition CAPSLOCK : Z := 8.
Definition NUMLOCK : Z := 16.
Definition SCROLLLOCK : Z := 32.
Definition E0ESC : Z := 64.
Definition KEY_DEL : Z := 233.

Definition shiftcode (data : Z) : Z :=
  if bool_decide (data = 29) || bool_decide (data = 157) then CTL
  else if bool_decide (data = 42) || bool_decide (data = 54) then SHIFT
  else if bool_decide (data = 56) || bool_decide (data = 184) then ALT
  else 0.

Definition togglecode (data : Z) : Z :=
  if bool_decide (data = 58) then CAPSLOCK
  else if bool_decide (data = 69) then NUMLOCK
  else if bool_decide (data = 70) then SCROLLLOCK
  else 0.

(** The rows of a table, and its entries given by index. *)
Definition table (row : list Z) (named : list (Z * Z)) (data : Z) : Z :=
  match find (λ kv : Z * Z, bool_decide (kv.1 = data)) named with
  | Some kv => kv.2
  | None => default 0 (row !! Z.to_nat data)
  end.

Definition special_keys : list (Z * Z) :=
  [(200, 226); (201, 230); (203, 228); (205, 229); (207, 225); (208, 227); (209, 231); (210, 232); (211, KEY_DEL)].

Definition normalmap : Z → Z := table
  [ 0; 27; 49; 50; 51; 52; 53; 54; 55; 56; 57; 48; 45; 61; 8; 9;
    113; 119; 101; 114; 116; 121; 117; 105; 111; 112; 91; 93; 10; 0; 97; 115;
    100; 102; 103; 104; 106; 107; 108; 59; 39; 96; 0; 92; 122; 120; 99; 118;
    98; 110; 109; 44; 46; 47; 0; 42; 0; 32; 0; 0; 0; 0; 0; 0;
    0; 0; 0; 0; 0; 0; 0; 55; 56; 57; 45; 52; 53; 54; 43; 49;
    50; 51; 48; 46; 0; 0; 0; 0 ]
  ([(199, 224); (156, 10); (181, 47)] ++ special_keys).

Definition shiftmap : Z → Z := table
  [ 0; 27; 33; 64; 35; 36; 37; 94; 38; 42; 40; 41; 95; 43; 8; 9;
    81; 87; 69; 82; 84; 89; 85; 73; 79; 80; 123; 125; 10; 0; 65; 83;
    68; 70; 71; 72; 74; 75; 76; 58; 34; 126; 0; 124; 90; 88; 67; 86;
    66; 78; 77; 60; 62; 63; 0; 42; 0; 32; 0; 0; 0; 0; 0; 0;
    0; 0; 0; 0; 0; 0; 0; 55; 56; 57; 45; 52; 53; 54; 43; 49;
    50; 51; 48; 46; 0; 0; 0; 0 ]
  ([(199, 224); (156, 10); (181, 47)] ++ special_keys).

Definition ctlmap : Z → Z := table
  [ 0; 0; 0; 0; 0; 0; 0; 0; 0; 0; 0; 0; 0; 0; 0; 0;
    17; 23; 5; 18; 20; 25; 21; 9; 15; 16; 0; 0; 13; 0; 1; 19;
    4; 6; 7; 8; 10; 11; 12; 0; 0; 0; 0; 28; 26; 24; 3; 22;
    2; 14; 13; 0; 0; 239; 0; 0 ]
  ([(151, 224); (181, 239)] ++ special_keys).

Definition charcode (i data : Z) : Z :=
  if bool_decide (i = 0) then normalmap data
  else if bool_decide (i = 1) then shiftmap data
  else ctlmap data.

Definition capslock (shift c : Z) : Z :=
  if bool_decide (Z.land shift CAPSLOCK ≠ 0) then
    if bool_decide (97 <= c <= 122) then c - 32
    else if bool_decide (65 <= c <= 90) then c + 32
    else c
  else c.

(** What a byte of the keyboard gives under the shift state, and the state after it. *)
Definition kbd_byte (shift data : Z) : Z * Z :=
  if bool_decide (data = 224) then (0, Z.lor shift E0ESC)
  else if bool_decide (Z.land data 128 ≠ 0) then
    let data := if bool_decide (Z.land shift E0ESC ≠ 0) then data else Z.land data 127 in
    (0, Z.ldiff shift (Z.lor (shiftcode data) E0ESC))
  else
    let '(data, shift) := if bool_decide (Z.land shift E0ESC ≠ 0) then (Z.lor data 128, Z.ldiff shift E0ESC) else (data, shift) in
    let shift := Z.lor shift (shiftcode data) in
    let shift := Z.lxor shift (togglecode data) in
    (capslock shift (charcode (Z.land shift (Z.lor CTL SHIFT)) data), shift).

(** ["Rebooting!"] and a newline *)
Definition rebooting : list Z := [82; 101; 98; 111; 111; 116; 105; 110; 103; 33; 10].

(** The state after a byte was taken; Ctrl-Alt-Del says so and writes the reset port. *)
Definition kbd_taken (data : Z) (rest : list Z) (s : cons_st) : cons_st :=
  let '(c, sh) := kbd_byte (shift s) data in
  {| kbd := rest; ser := ser s; shift := sh; ring := ring s; rpos := rpos s; wpos := wpos s;
     outs := outs s ++ (if bool_decide (Z.land data 128 = 0) && bool_decide (Z.ldiff (Z.lor CTL ALT) sh = 0) && bool_decide (c = KEY_DEL)
                        then [Say rebooting; Out 146 3] else []) |}.

Definition kbd_proc_data : M cons_st Z := λ s,
  match kbd s with
  | [] => Ok (-1) s
  | data :: rest => Ok (kbd_byte (shift s) data).1 (kbd_taken data rest s)
  end.

Definition serial_proc_data : M cons_st Z := λ s,
  match ser s with
  | [] => Ok (-1) s
  | c :: rest => Ok c {| kbd := kbd s; ser := rest; shift := shift s; ring := ring s; rpos := rpos s; wpos := wpos s; outs := outs s |}
  end.

(** ** The ring *)

Definition set_ring (m : list Z) (r w : Z) (s : cons_st) : cons_st :=
  {| kbd := kbd s; ser := ser s; shift := shift s; ring := m; rpos := r; wpos := w; outs := outs s |}.

(** [cons.buf[cons.wpos++] = c], and back to the start at the end *)
Definition cons_put (c : Z) : M cons_st () := λ s,
  if bool_decide (0 <= wpos s < Z.of_nat (length (ring s))) then
    Ok () (set_ring (<[Z.to_nat (wpos s) := u8 c]> (ring s)) (rpos s) (if bool_decide (wpos s + 1 = SIZE) then 0 else wpos s + 1) s)
  else Undef.

Fixpoint intr_loop (proc : M cons_st Z) (fuel : nat) : M cons_st () :=
  match fuel with
  | O => spin
  | S fuel =>
      c ← proc;
      if bool_decide (c = -1) then mret ()
      else if bool_decide (c = 0) then intr_loop proc fuel
      else cons_put c ;; intr_loop proc fuel
  end.

(** A round takes a byte of the device, and one more finds none. *)
Definition keyboard_intr : M cons_st () := n ← gets (λ s, length (kbd s)); intr_loop kbd_proc_data (S n).

(** [serial_exists] is in the state of the output. *)
Definition serial_intr (serial_exists : bool) : M cons_st () :=
  if serial_exists then n ← gets (λ s, length (ser s)); intr_loop serial_proc_data (S n) else mret ().

(** A [char] is signed. *)
Definition s8 (x : Z) : Z := (x + 128) mod 256 - 128.

Definition cons_take : M cons_st Z := λ s,
  if bool_decide (rpos s ≠ wpos s) then
    match ring s !! Z.to_nat (rpos s) with
    | Some c => Ok (s8 c) (set_ring (ring s) (if bool_decide (rpos s + 1 = SIZE) then 0 else rpos s + 1) (wpos s) s)
    | None => Undef
    end
  else Ok 0 s.

Definition cons_getc (serial_exists : bool) : M cons_st Z := serial_intr serial_exists ;; keyboard_intr ;; cons_take.

Definition cons_init (s : cons_st) : cons_st := set_ring (replicate CONSOLE_BUFFER_SIZE 0) 0 0 s.

(** ** The ring is a queue *)

(** The characters of a sequence of scan codes, and the shift state after it. *)
Fixpoint decode (sh : Z) (ds : list Z) : list Z * Z :=
  match ds with
  | [] => ([], sh)
  | d :: ds =>
      let '(c, sh) := kbd_byte sh d in
      let '(cs, sh) := decode sh ds in
      (if bool_decide (c = 0) then cs else c :: cs, sh)
  end.

(** The ring holds [q], oldest first. *)
Definition holds_queue (s : cons_st) (q : list Z) : Prop :=
  length (ring s) = CONSOLE_BUFFER_SIZE ∧ 0 <= rpos s < SIZE ∧ (Z.of_nat (length q) < SIZE) ∧
  wpos s = (rpos s + Z.of_nat (length q)) mod SIZE ∧
  ∀ i c, q !! i = Some c → ring s !! Z.to_nat ((rpos s + Z.of_nat i) mod SIZE) = Some c.

Lemma wrap_next x : 0 <= x < SIZE → (if bool_decide (x + 1 = SIZE) then 0 else x + 1) = (x + 1) mod SIZE.
Proof.
  intros Hx. case_bool_decide as E; [by rewrite E, Z.mod_same|]. rewrite Z.mod_small; lia.
Qed.

Lemma size_pos : 0 < SIZE.
Proof. done. Qed.

Lemma mod_ne r i j : 0 <= i < j → j < SIZE → (r + i) mod SIZE ≠ (r + j) mod SIZE.
Proof.
  intros Hi Hj E. pose proof size_pos. assert ((j - i) mod SIZE = 0) as H0.
  { replace (j - i) with ((r + j) - (r + i)) by lia. by rewrite Zminus_mod, E, Z.sub_diag, Zmod_0_l. }
  rewrite Z.mod_small in H0 by lia. lia.
Qed.

Lemma cons_put_run c s q : holds_queue s q → Z.of_nat (length q) + 1 < SIZE →
  ∃ s', cons_put c s = Ok () s' ∧ holds_queue s' (q ++ [u8 c]) ∧ kbd s' = kbd s ∧ ser s' = ser s ∧ shift s' = shift s.
Proof.
  intros (Hl & Hr & Hq & Hw & Hc) Hn. pose proof size_pos as Hp. unfold cons_put.
  assert (0 <= wpos s < SIZE) as Hwb by (rewrite Hw; by apply Z.mod_pos_bound).
  rewrite bool_decide_eq_true_2 by (rewrite Hl; exact Hwb). eexists. split; [reflexivity|]. split; [|done].
  unfold holds_queue. cbn [ring rpos wpos set_ring]. rewrite length_insert, length_app. cbn [length].
  split; [done|]. split; [done|]. split; [lia|]. split.
  - rewrite wrap_next, Hw, Zplus_mod_idemp_l by done. f_equal. lia.
  - intros i x Hi. destruct (decide (i = length q)) as [->|Hne].
    + rewrite lookup_app_r, Nat.sub_diag in Hi by lia. injection Hi as <-. rewrite <- Hw. apply list_lookup_insert_eq.
      rewrite Hl. unfold SIZE in Hwb. lia.
    + assert (i < length q)%nat by (apply lookup_lt_Some in Hi; rewrite length_app in Hi; simpl in Hi; lia).
      rewrite lookup_app_l in Hi by done. rewrite list_lookup_insert_ne; [by apply Hc|]. rewrite Hw. intros E.
      apply Z2Nat.inj in E; [|apply Z.mod_pos_bound, Hp..]. symmetry in E. apply mod_ne in E; lia.
Qed.

Lemma cons_take_run s q : holds_queue s q → ∃ s', cons_take s = Ok (match q with c :: _ => s8 c | [] => 0 end) s' ∧
  holds_queue s' (tail q) ∧ kbd s' = kbd s ∧ ser s' = ser s ∧ shift s' = shift s.
Proof.
  intros (Hl & Hr & Hq & Hw & Hc). pose proof size_pos as Hp. unfold cons_take. destruct q as [|c q].
  - cbn [length Z.of_nat] in Hw. rewrite Z.add_0_r, Z.mod_small in Hw by done. rewrite bool_decide_eq_false_2 by congruence.
    exists s. split; [done|]. split; [|done]. unfold holds_queue. cbn [tail length]. rewrite Hw, Z.add_0_r, Z.mod_small by done. done.
  - pose proof (Hc 0%nat c eq_refl) as H0. rewrite Z.add_0_r, Z.mod_small in H0 by done. rewrite H0.
    assert (rpos s ≠ wpos s) as Hne.
    { rewrite Hw. intros E. pose proof (mod_ne (rpos s) 0 (Z.of_nat (length (c :: q)))) as Hm. rewrite Z.add_0_r, (Z.mod_small (rpos s)) in Hm by done.
      apply Hm; [simpl; lia|done|done]. }
    rewrite bool_decide_eq_true_2 by done. eexists. split; [reflexivity|]. split; [|done]. unfold holds_queue. cbn [ring rpos wpos set_ring tail].
    rewrite wrap_next by done. cbn [length] in *. split; [done|]. split; [by apply Z.mod_pos_bound|]. split; [lia|]. split.
    + rewrite Hw, Zplus_mod_idemp_l. f_equal. lia.
    + intros i x Hi. rewrite Zplus_mod_idemp_l. pose proof (Hc (S i) x Hi) as Hx. rewrite <- Hx. do 3 f_equal. lia.
Qed.

(** ** What the interrupts add *)

Definition nonzero (l : list Z) : list Z := filter (λ c, c ≠ 0) l.

Lemma serial_loop_run cs s q : ser s = cs → Forall (λ c, 0 <= c < 256) cs → holds_queue s q →
  Z.of_nat (length q + length (nonzero cs)) < SIZE →
  ∃ s', intr_loop serial_proc_data (S (length cs)) s = Ok () s' ∧ holds_queue s' (q ++ nonzero cs) ∧
    kbd s' = kbd s ∧ ser s' = [] ∧ shift s' = shift s.
Proof.
  revert s q. induction cs as [|c cs IH]; intros s q Es Hb Hq Hn; cbn [length].
  - exists s. cbn [intr_loop]. unfold serial_proc_data, mbind, M_bind. rewrite Es. by rewrite app_nil_r.
  - apply Forall_cons in Hb as [Hc Hb].
    set (s1 := {| kbd := kbd s; ser := cs; shift := shift s; ring := ring s; rpos := rpos s; wpos := wpos s; outs := outs s |}).
    assert (serial_proc_data s = Ok c s1) as Hp by (unfold serial_proc_data; by rewrite Es).
    cbn [intr_loop]. rewrite (bind_Ok _ _ _ _ _ Hp). rewrite bool_decide_eq_false_2 by lia. unfold nonzero in *. case_bool_decide as E0.
    + rewrite filter_cons_False in * by lia. apply (IH s1); done.
    + rewrite filter_cons_True in * by done. cbn [length] in Hn. destruct (cons_put_run c s1 q Hq ltac:(lia)) as (s2 & E2 & Hq2 & K2 & S2 & H2).
      rewrite (bind_Ok _ _ _ _ _ E2). destruct (IH s2 (q ++ [u8 c])) as (s3 & E3 & Hq3 & K3 & S3 & H3);
        [done|done|done|rewrite length_app; simpl; lia|].
      exists s3. split; [exact E3|]. unfold u8 in Hq3. rewrite Z.mod_small, <- app_assoc in Hq3 by done. split; [exact Hq3|]. by rewrite K3, H3, K2, H2.
Qed.

Lemma table_byte row named d : Forall (λ c, 0 <= c < 256) row → Forall (λ kv : Z * Z, 0 <= kv.2 < 256) named → 0 <= table row named d < 256.
Proof.
  intros Hr Hn. unfold table. destruct (find _ named) as [kv|] eqn:E.
  - apply find_some in E as [E _]. apply list_elem_of_In in E. by apply (proj1 (Forall_forall _ _) Hn kv).
  - destruct (row !! Z.to_nat d) as [c|] eqn:E'; [|simpl; lia]. by apply (proj1 (Forall_forall _ _) Hr c), (list_elem_of_lookup_2 _ (Z.to_nat d)).
Qed.

Lemma kbd_byte_char sh d : 0 <= (kbd_byte sh d).1 < 256.
Proof.
  unfold kbd_byte. destruct (bool_decide (d = 224)); [simpl; lia|]. destruct (bool_decide (Z.land d 128 ≠ 0)); [simpl; lia|].
  destruct (if bool_decide (Z.land sh E0ESC ≠ 0) then _ else _) as [d' sh']. cbn [fst]. generalize (Z.lxor (Z.lor sh' (shiftcode d')) (togglecode d')). intros sh''.
  assert (0 <= charcode (Z.land sh'' (Z.lor CTL SHIFT)) d' < 256) as Hc.
  { unfold charcode, normalmap, shiftmap, ctlmap. do 2 try case_bool_decide; apply table_byte; apply (bool_decide_unpack _); vm_compute; exact I. }
  unfold capslock. repeat case_bool_decide; lia.
Qed.

Lemma kbd_loop_run ds s q cs sh : kbd s = ds → decode (shift s) ds = (cs, sh) → holds_queue s q →
  Z.of_nat (length q + length cs) < SIZE →
  ∃ s', intr_loop kbd_proc_data (S (length ds)) s = Ok () s' ∧ holds_queue s' (q ++ cs) ∧
    kbd s' = [] ∧ ser s' = ser s ∧ shift s' = sh.
Proof.
  revert s q cs. induction ds as [|d ds IH]; intros s q cs Es Hd Hq Hn; cbn [length decode] in *.
  - injection Hd as <- <-. exists s. cbn [intr_loop]. unfold kbd_proc_data, mbind, M_bind. rewrite Es. by rewrite app_nil_r.
  - pose proof (kbd_byte_char (shift s) d) as Hb. assert (kbd_proc_data s = Ok (kbd_byte (shift s) d).1 (kbd_taken d ds s)) as Hp.
    { unfold kbd_proc_data. by rewrite Es. }
    assert (shift (kbd_taken d ds s) = (kbd_byte (shift s) d).2 ∧ kbd (kbd_taken d ds s) = ds ∧ ser (kbd_taken d ds s) = ser s ∧
            holds_queue (kbd_taken d ds s) q) as (Hsh & Hk & Hse & Hq1).
    { unfold kbd_taken. by destruct (kbd_byte (shift s) d). }
    cbn [intr_loop]. rewrite (bind_Ok _ _ _ _ _ Hp), bool_decide_eq_false_2 by lia. clear Hp.
    set (s1 := kbd_taken d ds s) in *. clearbody s1. destruct (kbd_byte (shift s) d) as [c sh1]. cbn [fst snd] in *. rewrite <- Hsh in Hd.
    destruct (decode (shift s1) ds) as [cs1 sh2] eqn:Ed. injection Hd as Hcs ->. case_bool_decide as E0.
    + subst cs. destruct (IH s1 q cs1 Hk Ed Hq1 Hn) as (s' & E & H1 & H2 & H3 & H4). exists s'. by rewrite H3.
    + subst cs. cbn [length] in Hn. destruct (cons_put_run c s1 q Hq1 ltac:(lia)) as (s2 & E2 & Hq2 & K2 & S2 & H2).
      rewrite (bind_Ok _ _ _ _ _ E2). rewrite <- H2 in Ed. destruct (IH s2 (q ++ [u8 c]) cs1) as (s3 & E3 & Hq3 & K3 & S3 & H3);
        [congruence|done|done|rewrite length_app; simpl; lia|].
      exists s3. split; [exact E3|]. unfold u8 in Hq3. rewrite Z.mod_small, <- app_assoc in Hq3 by done. split; [exact Hq3|]. by rewrite K3, S3, S2, H3.
Qed.

(** [cons_getc] returns the oldest character there is: of those in the ring, then of those
    the serial line has, if there is one, then of those the keyboard has. *)
Lemma cons_getc_run ex s q cs sh : holds_queue s q → Forall (λ c, 0 <= c < 256) (ser s) → decode (shift s) (kbd s) = (cs, sh) →
  let line := if ex : bool then nonzero (ser s) else [] in
  let all := q ++ line ++ cs in Z.of_nat (length all) < SIZE →
  ∃ s', cons_getc ex s = Ok (match all with c :: _ => s8 c | [] => 0 end) s' ∧ holds_queue s' (tail all) ∧
    kbd s' = [] ∧ ser s' = (if ex then [] else ser s) ∧ shift s' = sh.
Proof.
  intros Hq Hb Hd line all Hn. unfold all in Hn. rewrite !length_app in Hn.
  assert (∃ s1, serial_intr ex s = Ok () s1 ∧ holds_queue s1 (q ++ line) ∧ kbd s1 = kbd s ∧ ser s1 = (if ex then [] else ser s) ∧ shift s1 = shift s)
    as (s1 & E1 & Hq1 & K1 & S1 & H1).
  { unfold serial_intr, line in *. destruct ex; [|exists s; by rewrite app_nil_r].
    destruct (serial_loop_run (ser s) s q eq_refl Hb Hq ltac:(lia)) as (s1 & E1 & H1). exists s1.
    by rewrite (bind_Ok (gets _) _ _ _ _ (gets_Ok _ _)). }
  destruct (kbd_loop_run (kbd s1) s1 (q ++ line) cs sh eq_refl) as (s2 & E2 & Hq2 & K2 & S2 & H2);
    [by rewrite H1, K1|done|rewrite length_app; lia|].
  rewrite <- app_assoc in Hq2. destruct (cons_take_run s2 _ Hq2) as (s3 & E3 & Hq3 & K3 & S3 & H3). exists s3.
  unfold cons_getc, keyboard_intr. rewrite (bind_Ok _ _ s () s1) by exact E1.
  rewrite (bind_Ok _ _ s1 () s2); [|by rewrite (bind_Ok (gets _) _ _ _ _ (gets_Ok _ _))].
  by rewrite E3, K3, K2, S3, S2, S1, H3, H2.
Qed.

(** ** Typing *)

(** The keys of a PC keyboard of the US layout in rows: the scan code of the first key, and what is
    printed on the lower and on the upper half of the keys. *)
Definition us_rows : list (Z * list Z * list Z) :=
  [ (2, [49; 50; 51; 52; 53; 54; 55; 56; 57; 48; 45; 61], [33; 64; 35; 36; 37; 94; 38; 42; 40; 41; 95; 43]);
    (16, [113; 119; 101; 114; 116; 121; 117; 105; 111; 112; 91; 93], [81; 87; 69; 82; 84; 89; 85; 73; 79; 80; 123; 125]);
    (30, [97; 115; 100; 102; 103; 104; 106; 107; 108; 59; 39; 96], [65; 83; 68; 70; 71; 72; 74; 75; 76; 58; 34; 126]);
    (43, [92; 122; 120; 99; 118; 98; 110; 109; 44; 46; 47], [124; 90; 88; 67; 86; 66; 78; 77; 60; 62; 63]);
    (15, [9], []); (28, [10], []); (57, [32], []) ].

(** The key with [c] on the half that [f] selects. *)
Definition key_for (f : Z * list Z * list Z → list Z) (c : Z) : option Z :=
  head (omap (λ row : Z * list Z * list Z, (λ ix : nat * Z, row.1.1 + Z.of_nat ix.1) <$> list_find (λ x, x = c) (f row)) us_rows).

(** The scan codes of a character with no modifier held: the key and its release, between
    those of the left shift key for the upper half. *)
Definition keys_of (c : Z) : list Z :=
  match key_for (λ row, row.1.2) c with
  | Some k => [k; k + 128]
  | None => match key_for (λ row, row.2) c with Some k => [42; k; k + 128; 170] | None => [] end
  end.

(** Printable characters, tab and newline. *)
Definition typable (c : Z) : Prop := c ∈ 9 :: 10 :: seqZ 32 95.

Lemma decode_app sh a b : decode sh (a ++ b) = let '(ca, sh1) := decode sh a in let '(cb, sh2) := decode sh1 b in (ca ++ cb, sh2).
Proof.
  revert sh. induction a as [|d a IH]; intros sh; simpl; [by destruct (decode sh b)|].
  destruct (kbd_byte sh d) as [c sh1]. rewrite IH. destruct (decode sh1 a) as [ca sh2]. destruct (decode sh2 b) as [cb sh3].
  by case_bool_decide.
Qed.

Lemma decode_key c : typable c → decode 0 (keys_of c) = ([c], 0).
Proof.
  intros Hc. apply (bool_decide_unpack _). revert c Hc. apply (Forall_forall (λ c, bool_decide (decode 0 (keys_of c) = ([c], 0)))).
  apply (bool_decide_unpack _). vm_compute. exact I.
Qed.

Lemma decode_text text : Forall typable text → decode 0 (text ≫= keys_of) = (text, 0).
Proof.
  induction 1 as [|c text Hc _ IH]; [done|]. change ((c :: text) ≫= keys_of) with (keys_of c ++ (text ≫= keys_of)).
  by rewrite decode_app, decode_key, IH.
Qed.

Fixpoint read_n (ex : bool) (n : nat) : M cons_st (list Z) :=
  match n with
  | O => mret []
  | S n => c ← cons_getc ex; cs ← read_n ex n; mret (c :: cs)
  end.

Lemma read_n_run ex q s : holds_queue s q → kbd s = [] → ser s = [] → ∃ s', read_n ex (length q) s = Ok (s8 <$> q) s' ∧ holds_queue s' [].
Proof.
  revert s. induction q as [|c q IH]; intros s Hq Hk Hs; [by exists s|]. cbn [length read_n].
  assert ((if ex then nonzero (ser s) else []) = []) as Hn by (rewrite Hs; by destruct ex).
  destruct (cons_getc_run ex s (c :: q) [] (shift s) Hq) as (s1 & E1 & Hq1 & K1 & S1 & _);
    [by rewrite Hs|by rewrite Hk|rewrite Hn, !app_nil_r; apply Hq|].
  rewrite Hn, Hs, !app_nil_r in *. assert (ser s1 = []) as S1' by (rewrite S1; by destruct ex). clear S1; rename S1' into S1. rewrite (bind_Ok _ _ _ _ _ E1). destruct (IH s1 Hq1 K1 S1) as (s2 & E2 & Hq2).
  rewrite (bind_Ok _ _ _ _ _ E2). by exists s2.
Qed.

Lemma typable_ascii text : Forall typable text → s8 <$> text = text.
Proof.
  intros H. rewrite <- (list_fmap_id text) at 2. apply list_fmap_ext. intros i c Hc. eapply Forall_lookup_1 in H; [|done].
  apply elem_of_cons in H as [->|H]; [done|]. apply elem_of_cons in H as [->|H]; [done|]. apply elem_of_seqZ in H.
  unfold s8, id. rewrite Z.mod_small; lia.
Qed.

(** C36: what is typed is what is read.  When the keys of a text of fewer than 512 printable
    characters, tabs and newlines are pressed and released, with the shift key around those
    that need it, and the console was empty, reading as many characters gives the text, with or without a serial
    line. *)
Theorem console_types ex text s :
  Forall typable text → Z.of_nat (length text) < SIZE → holds_queue s [] →
  shift s = 0 → ser s = [] → kbd s = text ≫= keys_of →
  ∃ s', read_n ex (length text) s = Ok text s' ∧ holds_queue s' [].
Proof.
  intros Ht Hn Hq Hsh Hser Hk. destruct text as [|c text]; [by exists s|].
  assert (decode (shift s) (kbd s) = (c :: text, 0)) as Hd by (rewrite Hsh, Hk; by apply decode_text).
  assert ((if ex then nonzero (ser s) else []) = []) as Hz by (rewrite Hser; by destruct ex).
  destruct (cons_getc_run ex s [] (c :: text) 0 Hq) as (s1 & E1 & Hq1 & K1 & S1 & _); [by rewrite Hser|done|by rewrite Hz|].
  rewrite Hz, Hser in *. assert (ser s1 = []) as S1' by (rewrite S1; by destruct ex). cbn [app tail] in *. cbn [length read_n]. rewrite (bind_Ok _ _ _ _ _ E1).
  destruct (read_n_run ex text s1 Hq1 K1 S1') as (s2 & E2 & Hq2). rewrite (bind_Ok _ _ _ _ _ E2). exists s2. split; [|done].
  pose proof (typable_ascii (c :: text) Ht) as Ha. cbn [fmap list_fmap] in Ha. f_equal. exact Ha.
Qed.

(** ["Hi!"] typed on an empty console *)
Definition typing : cons_st := cons_init {| kbd := [72; 105; 33] ≫= keys_of; ser := []; shift := 0; ring := []; rpos := 7; wpos := 9; outs := [] |}.

Lemma console_types_witness : ∃ s', read_n true 3 typing = Ok [72; 105; 33] s' ∧ holds_queue s' [].
Proof.
  apply (console_types true [72; 105; 33] typing).
  - repeat (apply Forall_cons; split; [apply (bool_decide_unpack _); vm_compute; exact I|]). apply Forall_nil; done.
  - done.
  - unfold holds_queue, typing. cbn [cons_init set_ring ring rpos wpos]. rewrite length_replicate. split; [done|]. split; [done|]. split; [done|].
    split; [done|]. intros i c Hi. by rewrite lookup_nil in Hi.
  - done.
  - done.
  - done.
Defined.

(** The ring does not notice that it is full: after 512 unread characters it looks empty. *)
Example ring_overflow : ∃ s', cons_getc true {| kbd := []; ser := replicate 512 97; shift := 0; ring := replicate 512 0; rpos := 0; wpos := 0; outs := [] |} = Ok 0 s'.
Proof. eexists. vm_compute. reflexivity. Qed.

(** An arrow key gives a negative character. *)
Example arrow_negative : ∃ s', cons_getc true (cons_init {| kbd := [224; 72]; ser := []; shift := 0; ring := []; rpos := 0; wpos := 0; outs := [] |}) = Ok (-30) s'.
Proof. eexists. vm_compute. reflexivity. Qed.
