(* ===== verification/Filters.v ===== *)
(** * The programs of a pipeline (user/rot13/rot13.c, user/cat/cat.c, user/ls/ls.c)

    They read descriptor 0 until it ends, write descriptor 1 and close what they used.  The
    theorem is about the calls they make, for an input that comes in any pieces and
    whatever becomes of what they write: they do not look at what a write returns. *)

From S2P Require Import Prelude.

(** ** Streams *)

(** [sys_read(0, buf, 512)] with the bytes it stored, none at the end of the input or on an
    error; [sys_write(1, ...)]; [sys_close]; and the bytes [sys_ls] stored. *)
Class Io (W : Type) := {
  io_read : W → list Z * W;
  io_write : list Z → W → W;
  io_close : Z → W → W;
  io_ls : nat → W → list Z * W;
}.

Definition BUFSIZE : nat := 512.

(** ** The programs *)

Definition rot13_char (c : Z) : Z :=
  if bool_decide (97 <= c) && bool_decide (c <= 122) then 97 + (c - 97 + 13) mod 26
  else if bool_decide (65 <= c) && bool_decide (c <= 90) then 65 + (c - 65 + 13) mod 26
  else c.

Section Programs.
Context {W : Type} `{Io W}.

(** [while ((n = sys_read(0, buf, sizeof(buf))) > 0)], with what is done to the buffer. *)
Fixpoint copy_loop (f : Z → Z) (fuel : nat) : M W () :=
  match fuel with
  | O => spin
  | S fuel => λ w,
      let '(b, w) := io_read w in
      if bool_decide (b = []) then Ok () w else (modify (io_write (f <$> b)) ;; copy_loop f fuel) w
  end.

Definition rot13_main (fuel : nat) : M W Z :=
  copy_loop rot13_char fuel ;; modify (io_close 1) ;; modify (io_close 0) ;; mret 0.

(** Without a file name. *)
Definition cat_main (fuel : nat) : M W Z :=
  copy_loop (λ c, c) fuel ;; modify (io_close 1) ;; mret 0.

Definition sep (c : Z) : bool := bool_decide (c = 32) || bool_decide (c = 0).

(** The characters up to where [stop] holds, and the rest. *)
Fixpoint cut (stop : Z → bool) (l : list Z) : list Z * list Z :=
  match l with
  | [] => ([], [])
  | c :: l' => if stop c then ([], l) else let '(a, b) := cut stop l' in (c :: a, b)
  end.

(** The names from a position of the buffer on. *)
Fixpoint ls_loop (fuel : nat) (l : list Z) : M W () :=
  match fuel with
  | O => spin
  | S fuel =>
      match l with
      | [] => mret ()
      | _ =>
          let '(tok, rest) := cut sep l in
          (if bool_decide (tok = []) then mret () else modify (io_write tok)) ;;
          modify (io_write [10]) ;;
          ls_loop fuel (cut (λ c, negb (sep c)) rest).2
      end
  end.

Definition ls_main : M W Z := λ w,
  let '(b, w) := io_ls 1023 w in
  (if bool_decide (b = []) then modify (io_close 1) ;; mret 0
   else ls_loop (S (length b)) b ;; modify (io_close 1) ;; mret 0) w.
End Programs.

(** ** The calls they make *)

Inductive io_event := IRead (b : list Z) | IWrite (b : list Z) | IClose (fd : Z) | ILs (n : nat) (b : list Z).

(** The pieces in which the input is still to come, the answer to [sys_ls], and the calls so
    far. *)
Record stream := { pending : list (list Z); names : list Z; calls : list io_event }.

Definition after (e : io_event) (w : stream) : stream := {| pending := pending w; names := names w; calls := calls w ++ [e] |}.

#[local] Instance stream_io : Io stream := {
  io_read w := let b := default [] (head (pending w)) in
    (b, {| pending := tail (pending w); names := names w; calls := calls w ++ [IRead b] |});
  io_write b w := after (IWrite b) w;
  io_close fd w := after (IClose fd) w;
  io_ls n w := (take n (names w), after (ILs n (take n (names w))) w);
}.

(** All that was written. *)
Definition written (ev : list io_event) : list Z := concat (omap (λ e, match e with IWrite b => Some b | _ => None end) ev).

Lemma written_app e1 e2 : written (e1 ++ e2) = written e1 ++ written e2.
Proof. unfold written. by rewrite omap_app, concat_app. Qed.

(** Each piece is written, changed, before the next is read. *)
Definition copies (f : Z → Z) (pieces : list (list Z)) : list io_event := concat ((λ b, [IRead b; IWrite (f <$> b)]) <$> pieces).

Lemma written_copies f pieces : written (copies f pieces) = f <$> concat pieces.
Proof.
  induction pieces as [|b pieces IH]; [done|]. change (copies f (b :: pieces)) with ([IRead b; IWrite (f <$> b)] ++ copies f pieces).
  rewrite written_app, IH. unfold written. simpl. by rewrite app_nil_r, fmap_app.
Qed.

Lemma copy_loop_calls f pieces fuel ls past : Forall (λ b, b ≠ []) pieces → (length pieces < fuel)%nat →
  copy_loop f fuel {| pending := pieces; names := ls; calls := past |} =
    Ok () {| pending := []; names := ls; calls := past ++ copies f pieces ++ [IRead []] |}.
Proof.
  revert fuel past. induction pieces as [|b pieces IH]; intros fuel past Hp Hf; (destruct fuel as [|fuel]; [simpl in Hf; lia|]); cbn [copy_loop io_read stream_io pending].
  - done.
  - apply Forall_cons in Hp as [Hb Hp]. cbn [head tail default names calls]. rewrite bool_decide_eq_false_2 by done.
    rewrite (bind_Ok _ _ _ _ _ (modify_Ok _ _)). unfold io_write, stream_io, after. cbn [pending names calls].
    rewrite (IH fuel) by (done || (simpl in Hf; lia)). change (copies f (b :: pieces)) with ([IRead b; IWrite (f <$> b)] ++ copies f pieces). by rewrite <- !app_assoc.
Qed.

(** ** What they write *)

Definition lower : list Z := seqZ 97 26.
Definition upper : list Z := seqZ 65 26.

(** A letter is replaced by the one in its place when the alphabet starts in its middle;
    other characters are kept. *)
Definition in_place (alphabet : list Z) (c d : Z) : Prop :=
  ∃ i, alphabet !! i = Some c ∧ (drop 13 alphabet ++ take 13 alphabet) !! i = Some d.

Definition rot13 (c d : Z) : Prop := in_place lower c d ∨ in_place upper c d ∨ c ∉ lower ∧ c ∉ upper ∧ d = c.

Lemma in_place_mod b c : b <= c < b + 26 → in_place (seqZ b 26) c (b + (c - b + 13) mod 26).
Proof.
  intros Hc. exists (Z.to_nat (c - b)). split; [apply lookup_seqZ; lia|]. destruct (decide (c - b < 13)) as [Hl|Hl].
  - rewrite Z.mod_small by lia. rewrite lookup_app_l by (rewrite length_drop, length_seqZ; lia). rewrite lookup_drop. apply lookup_seqZ. lia.
  - replace ((c - b + 13) mod 26) with (c - b - 13) by (apply (Z.mod_unique_pos _ _ 1); lia).
    rewrite lookup_app_r by (rewrite length_drop, length_seqZ; lia). rewrite length_drop, length_seqZ, lookup_take_lt by lia. apply lookup_seqZ. lia.
Qed.

Lemma rot13_char_rot13 c : rot13 c (rot13_char c).
Proof.
  unfold rot13, rot13_char, lower, upper. rewrite !elem_of_seqZ.
  destruct (decide (97 <= c < 97 + 26)) as [Hl|Hl]; [|destruct (decide (65 <= c < 65 + 26)) as [Hu|Hu]].
  - rewrite !bool_decide_eq_true_2 by lia. left. by apply in_place_mod.
  - rewrite (bool_decide_eq_false_2 (97 <= c)), !bool_decide_eq_true_2 by lia. right; left. by apply in_place_mod.
  - right; right. split; [done|]. split; [done|]. repeat case_bool_decide; simpl; try done; lia.
Qed.

Lemma rot13_lower c : 97 <= c <= 122 → rot13_char c = 97 + (c - 97 + 13) mod 26.
Proof. intros Hc. unfold rot13_char. by rewrite (bool_decide_eq_true_2 (97 <= c)), (bool_decide_eq_true_2 (c <= 122)) by lia. Qed.

Lemma rot13_upper c : 65 <= c <= 90 → rot13_char c = 65 + (c - 65 + 13) mod 26.
Proof.
  intros Hc. unfold rot13_char. rewrite (bool_decide_eq_false_2 (97 <= c)) by lia.
  by rewrite (bool_decide_eq_true_2 (65 <= c)), (bool_decide_eq_true_2 (c <= 90)) by lia.
Qed.

Lemma rot13_other c : ¬ 97 <= c <= 122 → ¬ 65 <= c <= 90 → rot13_char c = c.
Proof. intros H1 H2. unfold rot13_char. repeat case_bool_decide; simpl; try done; lia. Qed.

(** Rotating twice gives back the character. *)
Lemma rot13_involutive c : rot13_char (rot13_char c) = c.
Proof.
  assert (∀ x, 0 <= x < 26 → ((x + 13) mod 26 + 13) mod 26 = x) as Hr.
  { intros x Hx. rewrite Zplus_mod_idemp_l. replace (x + 13 + 13) with (x + 1 * 26) by lia. rewrite Z.mod_add by lia. by apply Z.mod_small. }
  destruct (decide (97 <= c <= 122)) as [Hl|Hl]; [|destruct (decide (65 <= c <= 90)) as [Hu|Hu]].
  - pose proof (Z.mod_pos_bound (c - 97 + 13) 26 ltac:(lia)) as Hm. rewrite (rot13_lower c Hl), rot13_lower by lia.
    replace (97 + (c - 97 + 13) mod 26 - 97) with ((c - 97 + 13) mod 26) by lia. rewrite Hr; lia.
  - pose proof (Z.mod_pos_bound (c - 65 + 13) 26 ltac:(lia)) as Hm. rewrite (rot13_upper c Hu), rot13_upper by lia.
    replace (65 + (c - 65 + 13) mod 26 - 65) with ((c - 65 + 13) mod 26) by lia. rewrite Hr; lia.
  - by rewrite !rot13_other by (rewrite ?rot13_other by done; done).
Qed.

Lemma rot13_all b : Forall2 rot13 b (rot13_char <$> b).
Proof. induction b; constructor; [apply rot13_char_rot13|done]. Qed.

Lemma copies_length f pieces : length (copies f pieces) = (2 * length pieces)%nat.
Proof. induction pieces as [|b pieces IH]; [done|]. change (copies f (b :: pieces)) with ([IRead b; IWrite (f <$> b)] ++ copies f pieces). rewrite length_app, IH. simpl. lia. Qed.

Lemma copies_lookup f pieces i b : pieces !! i = Some b → copies f pieces !! (2 * i)%nat = Some (IRead b) ∧ copies f pieces !! S (2 * i)%nat = Some (IWrite (f <$> b)).
Proof.
  revert i. induction pieces as [|c pieces IH]; intros [|i] H; [done..| |]; change (copies f (c :: pieces)) with ([IRead c; IWrite (f <$> c)] ++ copies f pieces).
  - by injection H as ->.
  - replace (2 * S i)%nat with (S (S (2 * i))) by lia. by apply IH.
Qed.

(** C37: [ROT13] makes exactly these calls on an input that comes in any pieces and then ends:
    it reads each piece and writes as many bytes before it reads the next, and at the end of
    the input it closes descriptor 1 and then 0 and returns 0.  What it writes is the input
    with every letter replaced by the one thirteen places on in the alphabet of its case,
    and every other character kept; rotating that again gives the input. *)
Theorem rot13_program pieces ls past : Forall (λ b, b ≠ [] ∧ (length b <= BUFSIZE)%nat) pieces →
  ∃ ev, rot13_main (S (length pieces)) {| pending := pieces; names := ls; calls := past |} =
      Ok 0 {| pending := []; names := ls; calls := past ++ ev ++ [IRead []; IClose 1; IClose 0] |} ∧
    length ev = (2 * length pieces)%nat ∧
    (∀ i b, pieces !! i = Some b → ∃ d, ev !! (2 * i)%nat = Some (IRead b) ∧ ev !! S (2 * i)%nat = Some (IWrite d) ∧ Forall2 rot13 b d) ∧
    Forall2 rot13 (concat pieces) (written ev) ∧ rot13_char <$> written ev = concat pieces.
Proof.
  intros Hp. assert (Forall (λ b, b ≠ []) pieces) as Hn by (eapply Forall_impl; [exact Hp|]; by intros b [? _]).
  exists (copies rot13_char pieces). split.
  - unfold rot13_main. rewrite (bind_Ok _ _ _ _ _ (copy_loop_calls rot13_char pieces (S (length pieces)) _ _ Hn ltac:(lia))).
    rewrite !(bind_Ok _ _ _ _ _ (modify_Ok _ _)), ret_Ok. unfold io_close, stream_io, after. cbn [pending names calls]. by rewrite <- !app_assoc.
  - rewrite written_copies. split; [apply copies_length|]. split.
    + intros i b Hb. exists (rot13_char <$> b). destruct (copies_lookup rot13_char pieces i b Hb) as [-> ->]. split_and!; try done. apply rot13_all.
    + split; [apply rot13_all|]. rewrite <- list_fmap_compose. etrans; [|apply list_fmap_id]. apply list_fmap_ext. intros i c _. apply rot13_involutive.
Qed.

(** 1025 letters in three pieces. *)
Lemma rot13_program_witness : let pieces := [replicate 512 97; replicate 512 122; [90]] in
  ∃ ev, rot13_main 4 {| pending := pieces; names := []; calls := [] |} =
      Ok 0 {| pending := []; names := []; calls := ev ++ [IRead []; IClose 1; IClose 0] |} ∧
    Forall2 rot13 (concat pieces) (written ev) ∧ written ev = replicate 512 110 ++ replicate 512 109 ++ [77].
Proof.
  destruct (rot13_program [replicate 512 97; replicate 512 122; [90]] [] []) as (ev & E & _ & _ & H & Hr).
  - repeat constructor; vm_compute; lia || done.
  - exists ev. split; [exact E|]. split; [exact H|]. apply (f_equal (fmap rot13_char)) in Hr.
    rewrite <- list_fmap_compose in Hr. etrans; [symmetry; apply list_fmap_id|]. etrans; [|etrans; [exact Hr|vm_compute; reflexivity]].
    apply list_fmap_ext. intros i c _. symmetry. apply rot13_involutive.
Defined.

(** [CAT] makes the calls of a copy that changes nothing. *)
Lemma cat_calls pieces ls past : Forall (λ b, b ≠ []) pieces →
  cat_main (S (length pieces)) {| pending := pieces; names := ls; calls := past |} =
    Ok 0 {| pending := []; names := ls; calls := past ++ copies (λ c, c) pieces ++ [IRead []; IClose 1] |} ∧
  written (copies (λ c, c) pieces) = concat pieces.
Proof.
  intros Hn. split; [|by rewrite written_copies, list_fmap_id].
  unfold cat_main. rewrite (bind_Ok _ _ _ _ _ (copy_loop_calls (λ c, c) pieces (S (length pieces)) _ _ Hn ltac:(lia))).
  rewrite (bind_Ok _ _ _ _ _ (modify_Ok _ _)), ret_Ok. unfold io_close, stream_io, after. cbn [pending names calls]. by rewrite <- !app_assoc.
Qed.

(** ** Listings *)

(** The names, one on a line. *)
Definition lines (names : list (list Z)) : list Z := names ≫= λ n, n ++ [10].

(** Names with a separator behind each but perhaps the last. *)
Definition listing (names : list (list Z)) (last : list Z) : list Z := (names ≫= λ n, n ++ [32]) ++ last.

Lemma cut_app stop n r : Forall (λ c, stop c = false) n → match r with c :: _ => stop c = true | [] => True end → cut stop (n ++ r) = (n, r).
Proof.
  intros Hn Hr. induction n as [|c n IH]; simpl.
  - destruct r as [|c r]; [done|]. simpl. by rewrite Hr.
  - apply Forall_cons in Hn as [Hc Hn]. rewrite Hc. by rewrite IH.
Qed.

Definition name_ok (n : list Z) : Prop := n ≠ [] ∧ Forall (λ c, sep c = false) n.

Lemma ls_step fuel n r (w : stream) : name_ok n → match r with c :: _ => sep c = true | [] => True end →
  ∃ w', ls_loop (S fuel) (n ++ r) w = ls_loop fuel (cut (λ c, negb (sep c)) r).2 w' ∧ written (calls w') = written (calls w) ++ n ++ [10].
Proof.
  intros [Hne Hn] Hr. cbn [ls_loop]. destruct (n ++ r) as [|x l] eqn:E; [by apply app_nil in E as [? _]|]. rewrite <- E, cut_app by done.
  rewrite (bool_decide_eq_false_2 (n = [])) by done. rewrite !(bind_Ok _ _ _ _ _ (modify_Ok _ _)).
  eexists. split; [reflexivity|]. unfold io_write, stream_io, after. cbn [calls]. rewrite !written_app, <- app_assoc. unfold written at 2 3. simpl. by rewrite app_nil_r.
Qed.

Lemma listing_head names last : Forall name_ok names → last = [] ∨ name_ok last → (cut (λ c, negb (sep c)) (32 :: listing names last)).2 = listing names last.
Proof.
  intros Hn Hl. change (32 :: listing names last) with ([32] ++ listing names last). rewrite cut_app; [done|by repeat constructor|].
  destruct names as [|n names].
  - destruct Hl as [->|[Hne Hl]]; [done|]. destruct last as [|c l]; [done|]. apply Forall_inv in Hl. unfold listing. simpl. by rewrite Hl.
  - apply Forall_inv in Hn as [Hne Hn]. destruct n as [|c n]; [done|]. apply Forall_inv in Hn. unfold listing. simpl. by rewrite Hn.
Qed.

Lemma ls_loop_run fuel names last (w : stream) : Forall name_ok names → last = [] ∨ name_ok last → (length names + 1 < fuel)%nat →
  ∃ w', ls_loop fuel (listing names last) w = Ok () w' ∧ written (calls w') = written (calls w) ++ lines (names ++ (if decide (last = []) then [] else [last])).
Proof.
  revert fuel w. induction names as [|n names IH]; intros fuel w Hn Hl Hf; (destruct fuel as [|fuel]; [lia|]).
  - case_decide as E; [subst; exists w; by rewrite app_nil_r|]. destruct Hl as [|Hl]; [done|].
    destruct (ls_step fuel last [] w Hl I) as (w1 & E1 & O1). rewrite app_nil_r in E1. exists w1. unfold listing. cbn [mbind list_bind app].
    rewrite E1. destruct fuel as [|fuel]; [simpl in Hf; lia|]. split; [done|]. rewrite O1. unfold lines. simpl. by rewrite !app_nil_r.
  - apply Forall_cons in Hn as [Hn Hns]. destruct (ls_step fuel n (32 :: listing names last) w Hn eq_refl) as (w1 & E1 & O1).
    rewrite listing_head in E1 by done. destruct (IH fuel w1 Hns Hl) as (w2 & E2 & O2); [simpl in Hf; lia|]. exists w2.
    replace (listing (n :: names) last) with (n ++ 32 :: listing names last); [|unfold listing; simpl; by rewrite <- !app_assoc].
    rewrite E1, E2, O2, O1. split; [done|]. unfold lines. simpl. by rewrite <- !app_assoc.
Qed.

Example ls_sample : ∃ w, ls_main {| pending := []; names := [97; 98; 32; 99; 0]; calls := [] |} = Ok 0 w ∧ written (calls w) = [97; 98; 10; 99; 10].
Proof. eexists. split; vm_compute; reflexivity. Qed.
