(* ===== verification/Hw.v ===== *)
(** * The machine beside its memory (kern/lib/x86.c: [outb], [inb], [insl], [rdtsc], [cpuid])

    The devices are not part of the program.  A [Machine] says what each read of a port, of
    a device register or of the time stamp counter answers, as a function of everything
    that was read and written before; [hw] is that history, the last access first.  Any
    behaviour of the devices is such a function. *)

From S2P Require Import Prelude.

(** ** Accesses *)

Inductive io :=
| Out (p v : Z)      (* outb *)
| In (p v : Z)       (* inb and its answer *)
| Store (a v : Z)    (* a 32-bit store to a device register *)
| Load (a v : Z)     (* a 32-bit load of one and its answer *)
| Tsc (v : Z)        (* rdtsc and its answer *)
| InL (p v : Z).     (* a 32-bit read of a port and its answer *)

Definition hw : Type := list io.

Inductive query := QIn (p : Z) | QLoad (a : Z) | QTsc | QInL (p : Z).

Class Machine := {
  answer : hw → query → Z;
  (* eax, ebx, ecx and edx for a leaf and a sub-leaf *)
  cpuid_regs : Z → Z → Z * Z * Z * Z
}.

Section Access.
Context `{Machine} {S : Type} `{!Lens S hw}.

Definition outb (p v : Z) : M S () := zoom (modify (cons (Out p (u8 v)))).

Definition inb (p : Z) : M S Z := zoom (λ h : hw, let v := u8 (answer h (QIn p)) in Ok v (In p v :: h)).

Definition reg_store (a v : Z) : M S () := zoom (modify (cons (Store a (u32 v)))).

Definition reg_load (a : Z) : M S Z := zoom (λ h : hw, let v := u32 (answer h (QLoad a)) in Ok v (Load a v :: h)).

Definition W64 : Z := 18446744073709551616.

Definition wrap64 (x : Z) : Z := x mod W64.

Definition rdtsc : M S Z := zoom (λ h : hw, let v := wrap64 (answer h QTsc) in Ok v (Tsc v :: h)).

(** [cnt] words from a port. *)
Fixpoint insl (p : Z) (cnt : nat) : M S (list Z) :=
  match cnt with
  | O => mret []
  | Datatypes.S cnt =>
      v ← zoom (λ h : hw, let v := u32 (answer h (QInL p)) in Ok v (InL p v :: h));
      vs ← insl p cnt;
      mret (v :: vs)
  end.

Lemma outb_Ok p v s : outb p v s = Ok () (put (Out p (u8 v) :: view s) s).
Proof. done. Qed.

Lemma inb_Ok p s : inb p s = Ok (u8 (answer (view s) (QIn p))) (put (In p (u8 (answer (view s) (QIn p))) :: view s) s).
Proof. done. Qed.

Lemma reg_store_Ok a v s : reg_store a v s = Ok () (put (Store a (u32 v) :: view s) s).
Proof. done. Qed.

Lemma reg_load_Ok a s : reg_load a s = Ok (u32 (answer (view s) (QLoad a))) (put (Load a (u32 (answer (view s) (QLoad a))) :: view s) s).
Proof. done. Qed.
End Access.

(** ** What was sent *)

(** The bytes sent to a port, in their order. *)
Definition sent_io (p : Z) (x : io) : list Z :=
  match x with Out q v => if bool_decide (q = p) then [v] else [] | _ => [] end.

Fixpoint sent (p : Z) (h : hw) : list Z :=
  match h with [] => [] | x :: h => sent p h ++ sent_io p x end.

Lemma sent_app p a b : sent p (a ++ b) = sent p b ++ sent p a.
Proof. induction a as [|x a IH]; simpl; [by rewrite app_nil_r|]. by rewrite IH, app_assoc. Qed.

Lemma u8_range x : 0 <= u8 x < 256.
Proof. apply Z.mod_pos_bound. lia. Qed.

Lemma u8_small x : 0 <= x < 256 → u8 x = x.
Proof. intros H. by apply Z.mod_small. Qed.
