(* ===== verification/Screen.v ===== *)
(** * Console output (kern/dev/video.c, serial.c, console.c)

    [cons_putc] sends each character to the serial line and to the text screen.  The screen
    is a buffer of 25 rows of 80 cells in the memory of the display adapter; the driver
    keeps the position of the cursor and scrolls.  It is proved to be a window on an
    endless roll of paper: rows that leave the window at the top are not lost on the roll,
    and what enters at the bottom is blank. *)

From S2P Require Import Prelude Hw.

(** ** State *)

Definition CRT_ROWS : Z := 25.
Definition CRT_COLS : Z := 80.
Definition CRT_SIZE : Z := CRT_ROWS * CRT_COLS.
Definition MONO_BASE : Z := 948.
Definition MONO_BUF : Z := 720896.
Definition CGA_BASE : Z := 980.
Definition CGA_BUF : Z := 753664.

(** [cga] is the text memory of a colour adapter, [None] when there is none; [mono] that
    of a monochrome one.  [crt_buf] is the address of the one in use; it is 0 before
    [video_init], and [low] are the words of memory from there on. *)
Record vid_st := {
  v_hw : hw;
  cga : option (list Z);
  mono : list Z;
  low : list Z;
  addr_6845 : Z;
  crt_buf : Z;
  crt_pos : Z;
  active_console : Z;
  serial_exists : bool
}.

#[global, program] Instance v_hw_lens : Lens vid_st hw := {|
  view := v_hw;
  put h s := {| v_hw := h; cga := cga s; mono := mono s; low := low s; addr_6845 := addr_6845 s; crt_buf := crt_buf s; crt_pos := crt_pos s;
                active_console := active_console s; serial_exists := serial_exists s |}
|}.
Next Obligation. done. Qed.
Next Obligation. by intros []. Qed.
Next Obligation. done. Qed.

Definition set_terminal (base buf pos active : Z) (s : vid_st) : vid_st :=
  {| v_hw := v_hw s; cga := cga s; mono := mono s; low := low s; addr_6845 := base; crt_buf := buf; crt_pos := pos mod 65536;
     active_console := active; serial_exists := serial_exists s |}.
Definition set_pos (pos : Z) (s : vid_st) : vid_st := set_terminal (addr_6845 s) (crt_buf s) pos (active_console s) s.
Definition set_serial (b : bool) (s : vid_st) : vid_st :=
  {| v_hw := v_hw s; cga := cga s; mono := mono s; low := low s; addr_6845 := addr_6845 s; crt_buf := crt_buf s; crt_pos := crt_pos s;
     active_console := active_console s; serial_exists := b |}.

(** The cells of the screen in use. *)
Definition cells (s : vid_st) : list Z :=
  if bool_decide (crt_buf s = CGA_BUF) then default [] (cga s) else if bool_decide (crt_buf s = MONO_BUF) then mono s else low s.
Definition set_cells (l : list Z) (s : vid_st) : vid_st :=
  {| v_hw := v_hw s; cga := if bool_decide (crt_buf s = CGA_BUF) then (λ _, l) <$> cga s else cga s;
     mono := if bool_decide (crt_buf s = MONO_BUF) then l else mono s;
     low := if bool_decide (crt_buf s = CGA_BUF) || bool_decide (crt_buf s = MONO_BUF) then low s else l;
     addr_6845 := addr_6845 s; crt_buf := crt_buf s; crt_pos := crt_pos s;
     active_console := active_console s; serial_exists := serial_exists s |}.

(** [terminal.crt_buf[i] = v]. *)
Definition crt_set (i v : Z) : M vid_st () := λ s,
  if bool_decide (0 <= i < CRT_SIZE) then Ok () (set_cells (<[Z.to_nat i := v mod 65536]> (cells s)) s) else Undef.

Section Devices.
Context `{Machine}.

(** ** The screen *)

Definition BLANK : Z := 1824.

Definition video_scroll : M vid_st () :=
  pos ← gets crt_pos;
  if bool_decide (pos >= CRT_SIZE) then
    modify (λ s, set_cells (drop (Z.to_nat CRT_COLS) (cells s) ++ drop (Z.to_nat (CRT_SIZE - CRT_COLS)) (cells s)) s) ;;
    for_range (CRT_SIZE - CRT_COLS) CRT_SIZE (λ i, crt_set i BLANK) ;;
    modify (λ s, set_pos (crt_pos s - CRT_COLS) s)
  else mret ().

Definition video_cursor : M vid_st () :=
  base ← gets addr_6845;
  outb base 14 ;;
  pos ← gets crt_pos;
  outb (base + 1) (Z.shiftr pos 8) ;;
  outb base 15 ;;
  outb (base + 1) pos.

(** The character [c] with its attribute; [tab] stands for the calls that a tab makes. *)
Definition video_char (tab : M vid_st ()) (c : Z) : M vid_st () :=
  let ch := Z.land c 255 in
  if bool_decide (ch = 8) then
    pos ← gets crt_pos;
    if bool_decide (pos > 0) then
      modify (set_pos (pos - 1)) ;;
      crt_set (pos - 1) (Z.lor (Z.ldiff c 255) 32)
    else mret ()
  else if bool_decide (ch = 10) then
    modify (λ s, set_pos (crt_pos s + CRT_COLS) s) ;;
    modify (λ s, set_pos (crt_pos s - crt_pos s mod CRT_COLS) s)
  else if bool_decide (ch = 13) then modify (λ s, set_pos (crt_pos s - crt_pos s mod CRT_COLS) s)
  else if bool_decide (ch = 9) then tab
  else
    pos ← gets crt_pos;
    modify (set_pos (pos + 1)) ;;
    crt_set pos c.

Definition video_body (tab : M vid_st ()) (c : Z) : M vid_st () :=
  video_char tab (if bool_decide (Z.ldiff c 255 = 0) then Z.lor c 1792 else c) ;;
  video_scroll ;;
  video_cursor.

Definition video_space : M vid_st () := video_body (mret ()) 32.

Definition video_putc (c : Z) : M vid_st () :=
  video_body (video_space ;; video_space ;; video_space ;; video_space ;; video_space) c.

Definition video_set_cursor (x y : Z) : M vid_st () := modify (set_pos (x * CRT_COLS + y)).

Definition video_clear_screen : M vid_st () := for_range 0 CRT_SIZE (λ i, crt_set i 32).

(** ** The serial line *)

Definition COM1 : Z := 1016.
Definition COM_TX : Z := 0.
Definition COM_LSR : Z := 5.
Definition COM_LSR_TXRDY : Z := 32.

Definition serial_delay : M vid_st () := inb 132 ;; inb 132 ;; inb 132 ;; inb 132 ;; mret ().

(** The wait for the transmitter, [i] turns done of at most 12800. *)
Fixpoint serial_wait (fuel : nat) : M vid_st () :=
  lsr ← inb (COM1 + COM_LSR);
  match fuel with
  | O => mret ()
  | S fuel => if bool_decide (Z.land lsr COM_LSR_TXRDY = 0) then serial_delay ;; serial_wait fuel else mret ()
  end.

Definition serial_reformatnewline (c p : Z) : M vid_st bool :=
  if bool_decide (c = 10) then outb p 13 ;; outb p 10 ;; mret true else mret false.

Definition serial_putc (c : Z) : M vid_st () :=
  e ← gets serial_exists;
  if negb e then mret ()
  else
    serial_wait 12800 ;;
    r ← serial_reformatnewline c (COM1 + COM_TX);
    if (r : bool) then mret () else outb (COM1 + COM_TX) c.

Definition serial_init : M vid_st () :=
  outb (COM1 + 1) 0 ;;
  outb (COM1 + 3) 128 ;;
  outb COM1 1 ;;
  outb (COM1 + 1) 0 ;;
  outb (COM1 + 3) 3 ;;
  outb (COM1 + 2) 199 ;;
  outb (COM1 + 4) 11 ;;
  modify (set_serial true) ;;
  inb (COM1 + 2) ;;
  inb COM1 ;;
  mret ().

(** ** Both *)

(** The argument is a [char]: it is widened with its sign. *)
Definition cons_putc (c : Z) : M vid_st () :=
  serial_putc c ;;
  video_putc c.

Definition putchar (c : Z) : M vid_st () := cons_putc c.

Fixpoint puts (text : list Z) : M vid_st () :=
  match text with [] => mret () | c :: text => putchar c ;; puts text end.

(** ** Start *)

(** The message of [video_init], [addr_6845:%x]. *)
Definition addr_text (base : Z) : list Z :=
  [97; 100; 100; 114; 95; 54; 56; 52; 53; 58] ++ (if bool_decide (base = CGA_BASE) then [51; 100; 52] else [51; 98; 52]) ++ [10].

(** The store of a pattern and its read back find the colour adapter.  The message is
    printed before the buffer of the terminal is known. *)
Definition video_init : M vid_st () :=
  colour ← gets cga;
  let base := match colour with Some _ => CGA_BASE | None => MONO_BASE end in
  let buf := match colour with Some _ => CGA_BUF | None => MONO_BUF end in
  modify (λ s, set_terminal base (crt_buf s) (crt_pos s) (active_console s) s) ;;
  puts (addr_text base) ;;
  outb base 14 ;;
  hi ← inb (base + 1);
  outb base 15 ;;
  lo ← inb (base + 1);
  modify (set_terminal base buf (Z.lor (Z.shiftl hi 8) lo) 0).
End Devices.

(** ** A roll of paper *)

(** [ink] gives the cell at every position; the window shows the positions from [top] on,
    and the next character goes to [at_]. *)
Record roll := { ink : Z → Z; at_ : Z; top : Z }.

Definition move (p : Z) (r : roll) : roll := {| ink := ink r; at_ := p; top := top r |}.
Definition mark (p v : Z) (r : roll) : roll := {| ink := λ q, if bool_decide (q = p) then v else ink r q; at_ := at_ r; top := top r |}.

(** A position below the window moves the window down by a row. *)
Definition feed (r : roll) : roll :=
  if bool_decide (at_ r >= top r + CRT_SIZE) then {| ink := ink r; at_ := at_ r; top := top r + CRT_COLS |} else r.

(** A character without an attribute is light grey on black. *)
Definition shown (c : Z) : Z := if bool_decide (Z.ldiff c 255 = 0) then Z.lor c 1792 else c.

Definition roll_char (tab : roll → roll) (c : Z) (r : roll) : roll :=
  let ch := Z.land c 255 in
  if bool_decide (ch = 8) then
    if bool_decide (top r < at_ r) then mark (at_ r - 1) (Z.lor (Z.ldiff c 255) 32 mod 65536) (move (at_ r - 1) r) else r
  else if bool_decide (ch = 10) then move ((at_ r / CRT_COLS + 1) * CRT_COLS) r
  else if bool_decide (ch = 13) then move (at_ r / CRT_COLS * CRT_COLS) r
  else if bool_decide (ch = 9) then tab r
  else mark (at_ r) (c mod 65536) (move (at_ r + 1) r).

Definition roll_body (tab : roll → roll) (c : Z) (r : roll) : roll := feed (roll_char tab (shown c) r).

Definition roll_space : roll → roll := roll_body id 32.
Definition roll_putc (c : Z) (r : roll) : roll := roll_body (λ r, roll_space (roll_space (roll_space (roll_space (roll_space r))))) c r.

(** The bytes on the serial line for a text. *)
Definition crlf (text : list Z) : list Z := text ≫= λ c, if bool_decide (c = 10) then [13; 10] else [u8 c].

(** The terminal is on the memory of its adapter, or not yet on any. *)
Definition on_adapter (s : vid_st) : Prop :=
  (addr_6845 s = CGA_BASE ∧ crt_buf s = CGA_BUF ∧ is_Some (cga s)) ∨ (addr_6845 s = MONO_BASE ∧ crt_buf s = MONO_BUF) ∨
  ((addr_6845 s = CGA_BASE ∨ addr_6845 s = MONO_BASE) ∧ crt_buf s = 0).

(** The position is before [n] cells from the top. *)
Record vid_reps (n : Z) (s : vid_st) (r : roll) : Prop := {
  vr_adapter : on_adapter s;
  vr_cells i : 0 <= i < CRT_SIZE → cells s !! Z.to_nat i = Some (ink r (top r + i));
  vr_length : length (cells s) = Z.to_nat CRT_SIZE;
  vr_pos : crt_pos s = at_ r - top r;
  vr_range : top r <= at_ r < top r + n;
  vr_top : top r mod CRT_COLS = 0;
  vr_below p : top r + CRT_SIZE <= p → ink r p = BLANK
}.

Definition vid_rep : vid_st → roll → Prop := vid_reps CRT_SIZE.

(** The position register of the adapter was set last. *)
Definition cursor_at (s : vid_st) : Prop := ∃ h, let b := addr_6845 s in
  v_hw s = Out (b + 1) (u8 (crt_pos s)) :: Out b 15 :: Out (b + 1) (u8 (Z.shiftr (crt_pos s) 8)) :: Out b 14 :: h.

Definition has_cells (s : vid_st) : Prop := crt_buf s = CGA_BUF → is_Some (cga s).

Lemma cells_set l s : has_cells s → cells (set_cells l s) = l.
Proof.
  intros Ha. unfold cells, set_cells. simpl. case_bool_decide as E; [|by case_bool_decide]. by destruct (Ha E) as [x ->].
Qed.

Lemma set_cells_twice l l' s : set_cells l (set_cells l' s) = set_cells l s.
Proof. unfold set_cells. simpl. case_bool_decide as E; [rewrite E; cbn; by destruct (cga s)|by case_bool_decide]. Qed.

Lemma has_cells_set l s : has_cells s → has_cells (set_cells l s).
Proof. intros Ha Hb. destruct (Ha Hb) as [x Hx]. unfold set_cells. simpl. rewrite Hx. case_bool_decide; eauto. Qed.

Lemma rep_has_cells n s r : vid_reps n s r → has_cells s.
Proof. intros Hr Hb. destruct (vr_adapter _ _ _ Hr) as [(_ & _ & Hi)|[(_ & Hb')|(_ & Hb')]]; [done|..]; rewrite Hb' in Hb; discriminate Hb. Qed.

(** The loop that clears the last row. *)
Lemma clear_row l s : has_cells s → length l = Z.to_nat CRT_SIZE → ∃ l', length l' = Z.to_nat CRT_SIZE ∧
  for_range (CRT_SIZE - CRT_COLS) CRT_SIZE (λ i, crt_set i BLANK) (set_cells l s) = Ok () (set_cells l' s) ∧
  ∀ i, 0 <= i < CRT_SIZE → l' !! Z.to_nat i = if bool_decide (i < CRT_SIZE - CRT_COLS) then l !! Z.to_nat i else Some BLANK.
Proof.
  intros Ha Hl. set (I i s1 := ∃ l', s1 = set_cells l' s ∧ length l' = Z.to_nat CRT_SIZE ∧
    ∀ j, 0 <= j < CRT_SIZE → l' !! Z.to_nat j = if bool_decide (CRT_SIZE - CRT_COLS <= j < i) then Some BLANK else l !! Z.to_nat j).
  destruct (for_range_inv I (λ i, crt_set i BLANK) (CRT_SIZE - CRT_COLS) CRT_SIZE (set_cells l s)) as (s1 & Hrun & l' & -> & Hl' & Hj).
  - unfold CRT_SIZE, CRT_COLS, CRT_ROWS. lia.
  - exists l. split_and!; [done..|]. intros j Hj. by rewrite bool_decide_eq_false_2 by lia.
  - intros i s1 Hi (l' & -> & Hl' & Hj). unfold crt_set. rewrite bool_decide_eq_true_2 by (unfold CRT_SIZE, CRT_COLS, CRT_ROWS in *; lia).
    eexists. split; [reflexivity|]. rewrite (cells_set _ _ Ha), set_cells_twice. exists (<[Z.to_nat i := BLANK]> l'). split; [done|]. rewrite length_insert.
    split; [done|]. intros j Hj'. rewrite list_lookup_insert. case_decide as E.
    + rewrite bool_decide_eq_true_2 by (unfold CRT_SIZE, CRT_COLS, CRT_ROWS in *; lia). done.
    + rewrite Hj by done. assert (j ≠ i) by (intros ->; apply E; split; [done|lia]). case_bool_decide as H1; case_bool_decide as H2; [reflexivity|exfalso; lia|exfalso; lia|reflexivity].
  - exists l'. split_and!; [done..|]. intros i Hi. rewrite Hj by done.
    case_bool_decide as H1; case_bool_decide as H2; [exfalso; lia|reflexivity|reflexivity|exfalso; lia].
Qed.

Lemma cells_set_pos p s : cells (set_pos p s) = cells s.
Proof. done. Qed.

Lemma adapter_cells l s : on_adapter s → on_adapter (set_cells l s).
Proof.
  intros [(H1 & H2 & [x Hx])|[H1|H1]]; [left|right; left; exact H1|right; right; exact H1]. split_and!; [exact H1|exact H2|]. simpl. rewrite bool_decide_eq_true_2, Hx by exact H2. eauto.
Qed.

(** Only the memory in use changes. *)
Definition elsewhere (s s' : vid_st) : Prop := crt_buf s' = crt_buf s ∧ (crt_buf s = 0 → cga s' = cga s ∧ mono s' = mono s).

Lemma elsewhere_trans s1 s2 s3 : elsewhere s1 s2 → elsewhere s2 s3 → elsewhere s1 s3.
Proof. intros [H1 H2] [H3 H4]. split; [congruence|]. intros H0. rewrite H1 in H4. destruct (H2 H0), (H4 H0). split; congruence. Qed.

Lemma elsewhere_cells l s : elsewhere s (set_cells l s).
Proof. split; [done|]. intros H0. unfold set_cells. rewrite H0. done. Qed.

Definition same_dev (s s' : vid_st) : Prop := v_hw s' = v_hw s ∧ serial_exists s' = serial_exists s ∧ elsewhere s s'.

Lemma scroll_run s r : vid_reps (CRT_SIZE + CRT_COLS) s r → ∃ s', video_scroll s = Ok () s' ∧ vid_rep s' (feed r) ∧ same_dev s s'.
Proof.
  intros Hr. pose proof (rep_has_cells _ _ _ Hr) as Ha. destruct Hr as [Had Hc Hl Hp Hrg Ht Hb]. unfold video_scroll, feed.
  rewrite (bind_Ok (gets crt_pos) _ s (crt_pos s) s eq_refl). rewrite Hp.
  case_bool_decide as H1; case_bool_decide as H2; [|exfalso; lia|exfalso; lia|].
  2:{ exists s. split; [reflexivity|]. split; [|done]. split; try assumption. lia. }
  set (l := drop (Z.to_nat CRT_COLS) (cells s) ++ drop (Z.to_nat (CRT_SIZE - CRT_COLS)) (cells s)).
  assert (length l = Z.to_nat CRT_SIZE) as Hll by (unfold l; rewrite length_app, !length_drop, Hl; unfold CRT_SIZE, CRT_COLS, CRT_ROWS; lia).
  destruct (clear_row l s Ha Hll) as (l' & Hl' & Hrun & Hlk). rewrite (bind_Ok _ _ s () (set_cells l s) eq_refl). rewrite (bind_Ok _ _ _ _ _ Hrun).
  eexists. split; [reflexivity|]. split; [|split; [reflexivity|split; [reflexivity|exact (elsewhere_cells l' s)]]]. split; rewrite ?cells_set_pos; cbn [ink top at_].
  - by apply (adapter_cells l').
  - intros i Hi. rewrite (cells_set _ _ Ha), Hlk by done. case_bool_decide as Hlt.
    + unfold l. rewrite lookup_app_l by (rewrite length_drop, Hl; unfold CRT_SIZE, CRT_COLS, CRT_ROWS in *; lia). rewrite lookup_drop.
      replace (Z.to_nat CRT_COLS + Z.to_nat i)%nat with (Z.to_nat (CRT_COLS + i)) by (unfold CRT_COLS; lia).
      rewrite Hc by (unfold CRT_COLS in *; lia). by rewrite Z.add_assoc.
    + rewrite Hb; [done|]. unfold CRT_SIZE, CRT_COLS, CRT_ROWS in *. lia.
  - by rewrite (cells_set _ _ Ha).
  - simpl. rewrite Hp. unfold CRT_SIZE, CRT_COLS, CRT_ROWS in *. rewrite Z.mod_small; lia.
  - simpl. unfold CRT_SIZE, CRT_COLS, CRT_ROWS in *. lia.
  - simpl. unfold CRT_COLS in *. rewrite Z.add_mod, Ht by lia. done.
  - simpl. intros p Hpb. apply Hb. unfold CRT_COLS in *. lia.
Qed.

Lemma rep_move n m p x s r : vid_reps n s r → x = p - top r → top r <= p < top r + m → p < top r + 65536 → vid_reps m (set_pos x s) (move p r).
Proof.
  intros [Had Hc Hl Hp Hrg Ht Hb] -> Hm Hs. unfold move. split; rewrite ?cells_set_pos; cbn [ink top at_]; try assumption.
  simpl. apply Z.mod_small. lia.
Qed.

Lemma rep_mark n i v s r : vid_reps n s r → 0 <= i < CRT_SIZE →
  ∃ s', crt_set i v s = Ok () s' ∧ vid_reps n s' (mark (top r + i) (v mod 65536) r) ∧ same_dev s s'.
Proof.
  intros Hr Hi. pose proof (rep_has_cells _ _ _ Hr) as Ha. destruct Hr as [Had Hc Hl Hp Hrg Ht Hb]. unfold crt_set. rewrite bool_decide_eq_true_2 by exact Hi.
  eexists. split; [reflexivity|]. split; [|split; [reflexivity|split; [reflexivity|apply elsewhere_cells]]]. unfold mark; split; rewrite ?(cells_set _ _ Ha); cbn [ink top at_]; try assumption.
  - by apply adapter_cells.
  - intros j Hj. rewrite list_lookup_insert. case_decide as E; case_bool_decide as E'; try done.
    + exfalso. apply E'. destruct E as [E _]. lia.
    + exfalso. apply E. split; [f_equal; lia|]. rewrite Hl. unfold CRT_SIZE, CRT_COLS, CRT_ROWS in *. lia.
    + by apply Hc.
  - by rewrite length_insert.
  - intros p Hpb. rewrite bool_decide_eq_false_2 by lia. by apply Hb.
Qed.

Lemma rep_weaken n m s r : n <= m → vid_reps n s r → vid_reps m s r.
Proof. intros Hn [Had Hc Hl Hp Hrg Ht Hb]. split; try assumption. lia. Qed.

(** ** The driver prints on the roll *)

Section Refines.
Context `{Machine}.

(** What [video_putc] leaves alone: the serial line and its port. *)
Definition serial_same (s s' : vid_st) : Prop := sent COM1 (v_hw s') = sent COM1 (v_hw s) ∧ serial_exists s' = serial_exists s ∧ elsewhere s s'.

Lemma serial_same_dev s s' : same_dev s s' → serial_same s s'.
Proof. intros (H1 & H2). split; [by rewrite H1|exact H2]. Qed.

Lemma serial_same_trans s1 s2 s3 : serial_same s1 s2 → serial_same s2 s3 → serial_same s1 s3.
Proof. intros (H1 & H2 & H5) (H3 & H4 & H6). split; [congruence|]. split; [congruence|by apply (elsewhere_trans _ s2)]. Qed.

Lemma cursor_run s r : vid_rep s r → ∃ s', video_cursor s = Ok () s' ∧ vid_rep s' r ∧ serial_same s s' ∧ cursor_at s'.
Proof.
  intros Hr. eexists. split; [reflexivity|]. split; [|split].
  - destruct Hr as [Had Hc Hl Hp Hrg Ht Hb]. by split.
  - split; [|done]. simpl. destruct (vr_adapter _ _ _ Hr) as [(-> & _)|[(-> & _)|([-> | ->] & _)]]; simpl; by rewrite !app_nil_r.
  - eexists. simpl. reflexivity.
Qed.

(** The start of a row, relative to the window and on the roll. *)
Lemma row_start a t k : t mod CRT_COLS = 0 → a - t + k * CRT_COLS - (a - t + k * CRT_COLS) mod CRT_COLS = (a / CRT_COLS + k) * CRT_COLS - t.
Proof. unfold CRT_COLS. intros Ht. rewrite Z.mod_add by lia. Z.div_mod_to_equations. lia. Qed.

Lemma char_run tab rtab c s r : vid_rep s r → (∀ s r, vid_rep s r → ∃ s', tab s = Ok () s' ∧ vid_rep s' (rtab r) ∧ serial_same s s') →
  ∃ s', video_char tab c s = Ok () s' ∧ vid_reps (CRT_SIZE + CRT_COLS) s' (roll_char rtab c r) ∧ serial_same s s'.
Proof.
  intros Hr Htab. pose proof Hr as [_ _ _ Hp Hrg Ht _]. assert (CRT_COLS = 80 ∧ CRT_SIZE = 2000) as [Hcols Hsize] by done. unfold video_char, roll_char. cbv zeta.
  assert (vid_reps (CRT_SIZE + CRT_COLS) s r) as Hw by (apply (rep_weaken CRT_SIZE); [lia|exact Hr]).
  assert (∀ x p v, x = p - top r → top r <= p < top r + CRT_SIZE → ∀ q, top r <= q < top r + CRT_SIZE + CRT_COLS → ∃ s',
    crt_set x v (set_pos (q - top r) s) = Ok () s' ∧ vid_reps (CRT_SIZE + CRT_COLS) s' (mark p (v mod 65536) (move q r)) ∧ serial_same s s') as Hmark.
  { intros x p v -> Hpr q Hq. destruct (rep_mark (CRT_SIZE + CRT_COLS) (p - top r) v (set_pos (q - top r) s) (move q r)) as (s' & E & Hr' & Hd).
    - apply (rep_move CRT_SIZE); [exact Hr|done|lia|lia].
    - lia.
    - exists s'. split; [exact E|]. cbn [top move] in Hr'. replace (top r + (p - top r)) with p in Hr' by lia. split; [exact Hr'|].
      by apply (serial_same_dev (set_pos (q - top r) s)). }
  case_bool_decide as C8; [|case_bool_decide as C10; [|case_bool_decide as C13; [|case_bool_decide as C9]]].
  - rewrite (bind_Ok (gets crt_pos) _ s _ s eq_refl). rewrite Hp. case_bool_decide as H1; case_bool_decide as H2; [|exfalso; lia|exfalso; lia|].
    + rewrite (bind_Ok (modify _) _ s _ _ eq_refl). replace (at_ r - top r - 1) with (at_ r - 1 - top r) by lia. apply Hmark; lia.
    + exists s. split; [reflexivity|]. split; [exact Hw|done].
  - eexists. split; [reflexivity|]. split; [|done]. pose proof (row_start (at_ r) (top r) 1 Ht) as Hrow. rewrite Z.mul_1_l in Hrow.
    pose proof (Z.mod_pos_bound (at_ r - top r + CRT_COLS) CRT_COLS ltac:(lia)).
    apply (rep_move (CRT_SIZE + CRT_COLS) _ _ _ _ (move (at_ r + CRT_COLS) r)); cbn [top move].
    + apply (rep_move CRT_SIZE); [exact Hr|lia..].
    + cbn [crt_pos set_pos set_terminal]. rewrite Hp, (Z.mod_small (at_ r - top r + CRT_COLS) 65536) by lia. lia.
    + lia.
    + lia.
  - eexists. split; [reflexivity|]. split; [|done]. pose proof (row_start (at_ r) (top r) 0 Ht) as Hrow. rewrite Z.mul_0_l, !Z.add_0_r in Hrow.
    pose proof (Z.mod_pos_bound (at_ r - top r) CRT_COLS ltac:(lia)). pose proof (Z.mod_le (at_ r - top r) CRT_COLS ltac:(lia) ltac:(lia)).
    apply (rep_move CRT_SIZE); [exact Hr|rewrite Hp; lia|lia|lia].
  - destruct (Htab s r Hr) as (s' & E & Hr' & Hs). exists s'. split; [exact E|]. split; [|exact Hs]. apply (rep_weaken CRT_SIZE); [lia|exact Hr'].
  - rewrite (bind_Ok (gets crt_pos) _ s _ s eq_refl). rewrite Hp. rewrite (bind_Ok (modify _) _ s _ _ eq_refl).
    replace (at_ r - top r + 1) with (at_ r + 1 - top r) by lia. apply Hmark; lia.
Qed.

Lemma body_run tab rtab c s r : vid_rep s r → (∀ s r, vid_rep s r → ∃ s', tab s = Ok () s' ∧ vid_rep s' (rtab r) ∧ serial_same s s') →
  ∃ s', video_body tab c s = Ok () s' ∧ vid_rep s' (roll_body rtab c r) ∧ serial_same s s' ∧ cursor_at s'.
Proof.
  intros Hr Htab. destruct (char_run tab rtab (shown c) s r Hr Htab) as (s1 & E1 & Hr1 & Hs1). destruct (scroll_run _ _ Hr1) as (s2 & E2 & Hr2 & Hs2).
  destruct (cursor_run _ _ Hr2) as (s3 & E3 & Hr3 & Hs3 & Hc). exists s3. unfold video_body. fold (shown c).
  rewrite (bind_Ok _ _ _ _ _ E1), (bind_Ok _ _ _ _ _ E2). split_and!; [exact E3|exact Hr3| |exact Hc].
  apply (serial_same_trans _ s1); [exact Hs1|]. apply (serial_same_trans _ s2); [|exact Hs3]. by apply serial_same_dev.
Qed.

Lemma space_run s r : vid_rep s r → ∃ s', video_space s = Ok () s' ∧ vid_rep s' (roll_space r) ∧ serial_same s s'.
Proof.
  intros Hr. destruct (body_run (mret () : M vid_st ()) id 32 s r Hr) as (s' & E & Hr' & Hs & _); [|by exists s'].
  intros s1 r1 H1. by exists s1.
Qed.

Lemma then_run (m k : M vid_st ()) f g s r : vid_rep s r →
  (∀ s r, vid_rep s r → ∃ s', m s = Ok () s' ∧ vid_rep s' (f r) ∧ serial_same s s') → (∀ s r, vid_rep s r → ∃ s', k s = Ok () s' ∧ vid_rep s' (g r) ∧ serial_same s s') →
  ∃ s', (m ;; k) s = Ok () s' ∧ vid_rep s' (g (f r)) ∧ serial_same s s'.
Proof.
  intros Hr Hm Hk. destruct (Hm s r Hr) as (s1 & E1 & H1 & S1). destruct (Hk s1 _ H1) as (s2 & E2 & H2 & S2). exists s2.
  rewrite (bind_Ok _ _ _ _ _ E1). split_and!; [exact E2|exact H2|by apply (serial_same_trans _ s1)].
Qed.

Lemma video_putc_run c s r : vid_rep s r → ∃ s', video_putc c s = Ok () s' ∧ vid_rep s' (roll_putc c r) ∧ serial_same s s' ∧ cursor_at s'.
Proof.
  intros Hr. apply body_run; [exact Hr|]. clear. intros s r Hr.
  assert (∀ (k : M vid_st ()) g, (∀ s r, vid_rep s r → ∃ s', k s = Ok () s' ∧ vid_rep s' (g r) ∧ serial_same s s') →
    ∀ s r, vid_rep s r → ∃ s', (video_space ;; k) s = Ok () s' ∧ vid_rep s' (g (roll_space r)) ∧ serial_same s s') as Hstep.
  { intros k g Hk s1 r1 H1. apply (then_run video_space k roll_space g); [exact H1|exact space_run|exact Hk]. }
  exact (Hstep _ _ (Hstep _ _ (Hstep _ _ (Hstep _ _ space_run))) s r Hr).
Qed.

(** The serial driver touches only its ports. *)
Lemma rep_put (h : hw) n s r : vid_reps n s r → vid_reps n (put h s) r.
Proof. intros [Had Hc Hl Hp Hrg Ht Hb]. by split. Qed.

Lemma wait_run n : ∀ s, ∃ h : hw, serial_wait n s = Ok () (put h s) ∧ sent COM1 h = sent COM1 (v_hw s).
Proof.
  induction n as [|n IH]; intros s; cbn [serial_wait]; rewrite (bind_Ok _ _ _ _ _ (inb_Ok _ _)).
  { eexists. split; [reflexivity|]. simpl. by rewrite app_nil_r. }
  case_bool_decide.
  - rewrite (bind_Ok serial_delay _ _ _ _ eq_refl). edestruct IH as (h & E & Hh). exists h. split; [exact E|]. rewrite Hh. simpl. by rewrite !app_nil_r.
  - eexists. split; [reflexivity|]. simpl. by rewrite app_nil_r.
Qed.

Lemma serial_putc_run c s : ∃ h : hw, serial_putc c s = Ok () (put h s) ∧
  sent COM1 h = sent COM1 (v_hw s) ++ (if serial_exists s then crlf [c] else []).
Proof.
  unfold serial_putc. rewrite (bind_Ok (gets serial_exists) _ s _ s eq_refl). destruct (serial_exists s); cbn [negb].
  2:{ exists (v_hw s). rewrite app_nil_r. split; [by destruct s|done]. }
  destruct (wait_run 12800 s) as (h & E & Hh). rewrite (bind_Ok _ _ _ _ _ E). clear E. unfold serial_reformatnewline, crlf. cbn [mbind list_bind].
  rewrite app_nil_r. case_bool_decide.
  - eexists. split; [reflexivity|]. simpl. by rewrite Hh, <- app_assoc.
  - eexists. split; [reflexivity|]. simpl. by rewrite Hh.
Qed.

(** One character on both. *)
Lemma cons_putc_run c s r : vid_rep s r → ∃ s', cons_putc c s = Ok () s' ∧ vid_rep s' (roll_putc c r) ∧ cursor_at s' ∧
  serial_exists s' = serial_exists s ∧ sent COM1 (v_hw s') = sent COM1 (v_hw s) ++ (if serial_exists s then crlf [c] else []) ∧ elsewhere s s'.
Proof.
  intros Hr. destruct (serial_putc_run c s) as (h & E & Hh). destruct (video_putc_run c (put h s) r) as (s' & E' & Hr' & (Hs & He & Hel) & Hc).
  { by apply rep_put. }
  exists s'. unfold cons_putc. rewrite (bind_Ok _ _ _ _ _ E). split_and!; [exact E'|exact Hr'|exact Hc|exact He|rewrite Hs; exact Hh|exact Hel].
Qed.

(** A text on both: the window shows it on the roll, and the line carries it. *)
Definition roll_text (text : list Z) (r : roll) : roll := foldl (λ r c, roll_putc c r) r text.

Record shows (text : list Z) (s s' : vid_st) (r : roll) : Prop := {
  sh_rep : vid_rep s' (roll_text text r);
  sh_cursor : cursor_at s ∨ text ≠ [] → cursor_at s';
  sh_exists : serial_exists s' = serial_exists s;
  sh_sent : sent COM1 (v_hw s') = sent COM1 (v_hw s) ++ (if serial_exists s then crlf text else []);
  sh_elsewhere : elsewhere s s'
}.

Lemma shows_nil s r : vid_rep s r → shows [] s s r.
Proof. intros Hr. split; [done|by intros [?|?]|done| |done]. by destruct (serial_exists s); rewrite app_nil_r. Qed.

Lemma shows_app t1 t2 s1 s2 s3 r : shows t1 s1 s2 r → shows t2 s2 s3 (roll_text t1 r) → shows (t1 ++ t2) s1 s3 r.
Proof.
  intros [H1 C1 E1 S1 F1] [H2 C2 E2 S2 F2]. split.
  - unfold roll_text in *. by rewrite foldl_app.
  - intros Hc. apply C2. destruct t2; [left|by right]. apply C1. rewrite app_nil_r in Hc. exact Hc.
  - congruence.
  - rewrite S2, S1, E1, <- app_assoc. destruct (serial_exists s1); [|done]. unfold crlf. by rewrite bind_app.
  - by apply (elsewhere_trans _ s2).
Qed.

Lemma putchar_run c s r : vid_rep s r → ∃ s', putchar c s = Ok () s' ∧ shows [c] s s' r.
Proof. intros Hr. destruct (cons_putc_run c s r Hr) as (s' & E & Hr' & Hc & He & Hs & Hel). exists s'. split; [exact E|]. by split. Qed.

Lemma puts_run text : ∀ s r, vid_rep s r → ∃ s', puts text s = Ok () s' ∧ shows text s s' r.
Proof.
  induction text as [|c text IH]; intros s r Hr; [exists s; split; [done|by apply shows_nil]|].
  destruct (putchar_run c s r Hr) as (s1 & E1 & H1). destruct (IH s1 _ (sh_rep _ _ _ _ H1)) as (s2 & E2 & H2).
  exists s2. cbn [puts]. rewrite (bind_Ok _ _ _ _ _ E1). split; [exact E2|]. by apply (shows_app [c] text s s1).
Qed.
End Refines.

(** ** Start *)

(** A roll that shows [l], with the position [p] in the window. *)
Definition fresh_roll (l : list Z) (p : Z) : roll := {| ink := λ q, if bool_decide (q < CRT_SIZE) then default BLANK (l !! Z.to_nat q) else BLANK; at_ := p; top := 0 |}.

Lemma fresh_rep s : on_adapter s → length (cells s) = Z.to_nat CRT_SIZE → 0 <= crt_pos s < CRT_SIZE → vid_rep s (fresh_roll (cells s) (crt_pos s)).
Proof.
  intros Had Hl Hp. unfold fresh_roll. split; cbn [ink top at_]; [exact Had| |exact Hl|lia|lia|done|].
  - intros i Hi. rewrite Z.add_0_l, bool_decide_eq_true_2 by lia. destruct (lookup_lt_is_Some_2 (cells s) (Z.to_nat i)) as [v Hv]; [lia|]. by rewrite Hv.
  - intros p Hb. by rewrite bool_decide_eq_false_2 by lia.
Qed.

(** After [video_init], the window starts at what the adapter showed and at the position
    that it reports; the message went to the line and to the memory at address 0. *)
Lemma video_init_run `{Machine} s : length (default (mono s) (cga s)) = Z.to_nat CRT_SIZE →
  crt_buf s = 0 → crt_pos s = 0 → length (low s) = Z.to_nat CRT_SIZE →
  ∃ s', video_init s = Ok () s' ∧ on_adapter s' ∧ cells s' = default (mono s) (cga s) ∧ 0 <= crt_pos s' < 65536 ∧
    (crt_pos s' < CRT_SIZE → vid_rep s' (fresh_roll (cells s') (crt_pos s'))).
Proof.
  intros Hl Hb0 Hp0 Hlow. assert (∀ P Q R U : Prop, P → Q → R → (P → Q → R → U) → P ∧ Q ∧ R ∧ U) as Hand by tauto.
  unfold video_init. rewrite (bind_Ok (gets cga) _ _ _ _ eq_refl). cbv zeta. set (base := match cga s with Some _ => CGA_BASE | None => MONO_BASE end).
  rewrite (bind_Ok (modify _) _ _ _ _ eq_refl). set (s0 := set_terminal base (crt_buf s) (crt_pos s) (active_console s) s).
  assert (cells s0 = low s ∧ crt_pos s0 = 0) as [Hc0 Hp1] by (unfold cells, s0; cbn; by rewrite Hb0, Hp0).
  destruct (puts_run (addr_text base) s0 (fresh_roll (cells s0) (crt_pos s0))) as (s1 & E1 & H1).
  { apply fresh_rep; [right; right; split; [unfold base; cbn; destruct (cga s); tauto|exact Hb0]|by rewrite Hc0|rewrite Hp1; unfold CRT_SIZE, CRT_ROWS, CRT_COLS; lia]. }
  destruct (sh_elsewhere _ _ _ _ H1) as [_ Hel]. destruct (Hel Hb0) as [Hcg Hmo]. cbn in Hcg, Hmo. rewrite (bind_Ok _ _ _ _ _ E1). clear E1.
  rewrite (bind_Ok _ _ _ _ _ (outb_Ok _ _ _)), (bind_Ok _ _ _ _ _ (inb_Ok _ _)), (bind_Ok _ _ _ _ _ (outb_Ok _ _ _)), (bind_Ok _ _ _ _ _ (inb_Ok _ _)).
  eexists. split; [reflexivity|]. apply Hand; clear Hand.
  - unfold on_adapter, base. cbn. rewrite Hcg. destruct (cga s); [left|right; left]; cbn; eauto.
  - unfold cells. cbn. rewrite Hcg, Hmo. by destruct (cga s).
  - apply Z.mod_pos_bound. lia.
  - intros Had Hc Hp Hlt. apply fresh_rep; [exact Had|rewrite Hc; exact Hl|lia].
Qed.

(** The message overwrites the memory from address 0 on. *)
Definition still : Machine := {| answer _ _ := 0; cpuid_regs _ _ := (0, 0, 0, 0) |}.

Definition unset : vid_st := {| v_hw := []; cga := Some (replicate 2000 BLANK); mono := []; low := replicate 2000 0; addr_6845 := 0; crt_buf := 0; crt_pos := 0;
  active_console := 0; serial_exists := false |}.

Example video_init_low : match @video_init still unset with
  | Ok _ s => take 14 (low s) = ((λ c, c + 1792) <$> [97; 100; 100; 114; 95; 54; 56; 52; 53; 58; 51; 100; 52]) ++ [0]
  | _ => False end.
Proof. vm_compute. reflexivity. Qed.
