(* ===== verification/Monitor.v ===== *)
(** * The console as a whole (kern/dev/console.c, kern/lib/monitor.c, kern/lib/debug.c)

    What uses both directions of the console: [getchar] and the two line editors, which show
    what is typed, the messages of the kernel, and the kernel monitor, which reads a line,
    takes it apart and runs a command.  The locks around the messages are left out. *)

From Stdlib Require Import Ascii String.
From S2P Require Import Prelude Hw Format Console Screen Shell ShellRun.

(** The characters of a literal. *)
Definition lit (s : string) : list Z := (λ a, Z.of_N (N_of_ascii a)) <$> list_ascii_of_string s.

(** ** State *)

Record con := { inp : cons_st; out : vid_st; linebuf : list Z; monbuf : list Z }.

#[global, program] Instance inp_lens : Lens con cons_st := {|
  view := inp; put x s := {| inp := x; out := out s; linebuf := linebuf s; monbuf := monbuf s |}
|}.
Next Obligation. done. Qed.
Next Obligation. by intros []. Qed.
Next Obligation. done. Qed.

#[global, program] Instance out_lens : Lens con vid_st := {|
  view := out; put x s := {| inp := inp s; out := x; linebuf := linebuf s; monbuf := monbuf s |}
|}.
Next Obligation. done. Qed.
Next Obligation. by intros []. Qed.
Next Obligation. done. Qed.

(** [linebuf] of console.c and [buf] of monitor.c. *)
#[program] Definition line_lens : Lens con (list Z) := {|
  view := linebuf; put x s := {| inp := inp s; out := out s; linebuf := x; monbuf := monbuf s |}
|}.
Next Obligation. done. Qed.
Next Obligation. by intros []. Qed.
Next Obligation. done. Qed.

#[program] Definition mon_lens : Lens con (list Z) := {|
  view := monbuf; put x s := {| inp := inp s; out := out s; linebuf := linebuf s; monbuf := x |}
|}.
Next Obligation. done. Qed.
Next Obligation. by intros []. Qed.
Next Obligation. done. Qed.

Definition BUFLEN : nat := 1024.
Definition MONLEN : nat := 256.

(** The symbols that the linker gives, and the words of the memory with the stack frames. *)
Class Kernel := { k_start : Z; k_etext : Z; k_edata : Z; k_end : Z; stack_word : Z → Z }.

Section Console.
Context `{Machine, Kernel}.

(** What the frame of [vdprintf] held before. *)
Context (stk : list Z).

(** ** Messages *)

Definition dprintf (fmt : list Z) (ap : list va) : M con () :=
  match vdprintf stk fmt ap with
  | Ok _ b => zoom (puts (s8 <$> mjoin (p_out b)))
  | _ => undef
  end.

Definition debug_info (fmt : list Z) (ap : list va) : M con () := dprintf fmt ap.

Definition debug_normal (file : list Z) (line : Z) (fmt : list Z) (ap : list va) : M con () :=
  dprintf (lit "[D] %s:%d: ") [VStr (Some file); VInt line] ;;
  dprintf fmt ap.

Definition debug_warn (file : list Z) (line : Z) (fmt : list Z) (ap : list va) : M con () :=
  dprintf (lit "[W] %s:%d: ") [VStr (Some file); VInt line] ;;
  dprintf fmt ap.

Definition DEBUG_TRACEFRAMES : nat := 10.

(** The return addresses of [n] frames, 0 after the last frame. *)
Fixpoint debug_trace (n : nat) (frame : Z) : list Z :=
  match n with
  | O => []
  | S n => if bool_decide (frame = 0) then 0 :: debug_trace n frame else stack_word (u32 (frame + 4)) :: debug_trace n (stack_word frame)
  end.

Fixpoint print_trace (eips : list Z) : M con () :=
  match eips with
  | [] => mret ()
  | eip :: eips => if bool_decide (eip = 0) then mret () else dprintf (9 :: lit "from 0x%08x" ++ [10]) [VInt eip] ;; print_trace eips
  end.

(** What [debug_panic] prints before it halts. *)
Definition panic_report (ebp : Z) (file : list Z) (line : Z) (fmt : list Z) (ap : list va) : M con () :=
  dprintf (lit "[P] %s:%d: ") [VStr (Some file); VInt line] ;;
  dprintf fmt ap ;;
  print_trace (debug_trace DEBUG_TRACEFRAMES ebp) ;;
  dprintf (lit "Kernel Panic !!!" ++ [10]) [].

Definition debug_panic (ebp : Z) (file : list Z) (line : Z) (fmt : list Z) (ap : list va) : M con () :=
  panic_report ebp file line fmt ap ;;
  kern_panic.

(** ** Characters and lines *)

(** The bytes of the devices are all the input there will be: once nothing is left,
    [cons_getc] returns 0 for ever. *)
Definition getchar : M con Z :=
  e ← gets (λ s, serial_exists (out s));
  c ← zoom (cons_getc e);
  if bool_decide (c = 0) then spin else mret c.

(** The bytes that came before are taken at once. *)
Definition serial_intenable : M con () :=
  e ← gets (λ s, serial_exists (out s));
  if (e : bool) then zoom (outb (S := vid_st) (COM1 + 1) 1) ;; zoom (serial_intr e) else mret ().

Definition put_char (c : Z) : M con () := zoom (putchar c).

Definition put_prompt (prompt : option (list Z)) : M con () :=
  match prompt with Some p => dprintf (lit "%s") [VStr (Some p)] | None => mret () end.

(** A round takes a character, and there are no more than these. *)
Definition input_bound (s : con) : nat := (CONSOLE_BUFFER_SIZE + List.length (kbd (inp s)) + List.length (ser (inp s)))%nat.

Section Editor.
Context (size : nat) (L : Lens con (list Z)) (erase : M con ()) (echo : Z → M con ()) (newline : M con ()).

(** [false] stands for a null pointer, [true] for the buffer. *)
Fixpoint edit_loop (fuel : nat) (i : nat) : M con bool :=
  match fuel with
  | O => spin
  | S fuel =>
      c ← getchar;
      if bool_decide (c < 0) then
        dprintf (lit "read error: %e" ++ [10]) [VInt c] ;; mret false
      else if (bool_decide (c = 8) || bool_decide (c = 127)) && bool_decide (0 < i)%nat then
        erase ;; edit_loop fuel (i - 1)
      else if bool_decide (32 <= c) && bool_decide (i < size - 1)%nat then
        echo c ;; zoom (poke i c) ;; edit_loop fuel (S i)
      else if bool_decide (c = 10) || bool_decide (c = 13) then
        newline ;; zoom (poke i 0) ;; mret true
      else edit_loop fuel i
  end.
End Editor.

Definition readline (prompt : option (list Z)) : M con bool :=
  put_prompt prompt ;;
  n ← gets input_bound;
  edit_loop BUFLEN line_lens (put_char 8) put_char (put_char 10) (S n) 0.

Definition monitor_readline (prompt : option (list Z)) : M con bool :=
  put_prompt prompt ;;
  n ← gets input_bound;
  edit_loop MONLEN mon_lens (dprintf [8; 32; 8] []) (λ c, dprintf (lit "%c") [VInt c]) (dprintf [10] []) (S n) 0.

(** ** The monitor *)

Definition commands : list (list Z * list Z) :=
  [(lit "help", lit "Display this list of commands"); (lit "kerninfo", lit "Display information about the kernel")].

Fixpoint help_loop (l : list (list Z * list Z)) : M con () :=
  match l with
  | [] => mret ()
  | (name, desc) :: l => dprintf (lit "%s - %s" ++ [10]) [VStr (Some name); VStr (Some desc)] ;; help_loop l
  end.

Definition mon_help : M con Z := help_loop commands ;; mret 0.

Definition mon_kerninfo : M con Z :=
  dprintf (lit "Special kernel symbols:" ++ [10]) [] ;;
  dprintf (lit "  start  %08x" ++ [10]) [VInt k_start] ;;
  dprintf (lit "  etext  %08x" ++ [10]) [VInt k_etext] ;;
  dprintf (lit "  edata  %08x" ++ [10]) [VInt k_edata] ;;
  dprintf (lit "  end    %08x" ++ [10]) [VInt k_end] ;;
  dprintf (lit "Kernel executable memory footprint: %dKB" ++ [10]) [VInt ((k_end - k_start + 1023) / 1024)] ;;
  mret 0.

(** The words are found as the shell finds those of a stage. *)
Definition runcmd : M con Z :=
  r ← zoom (H := mon_lens) (parse_stage 0);
  match r with
  | None => dprintf (lit "Too many arguments (max %d)" ++ [10]) [VInt (Z.of_nat MAXARGS)] ;; mret 0
  | Some [] => mret 0
  | Some (p :: _) =>
      b ← gets monbuf;
      let name := cstr b p in
      if str_is name (lit "help") then mon_help
      else if str_is name (lit "kerninfo") then mon_kerninfo
      else dprintf (lit "Unknown command '%s'" ++ [10]) [VStr (Some name)] ;; mret 0
  end.

Fixpoint monitor_loop (fuel : nat) : M con () :=
  match fuel with
  | O => spin
  | S fuel =>
      ok ← monitor_readline (Some (lit "$> "));
      if (ok : bool) then
        r ← runcmd;
        if bool_decide (r < 0) then mret () else monitor_loop fuel
      else monitor_loop fuel
  end.

Definition stars : list Z := 10 :: lit "****************************************" ++ [10; 10].

Definition monitor (fuel : nat) : M con () :=
  dprintf stars [] ;;
  dprintf (lit "Welcome to the mCertiKOS kernel monitor!" ++ [10]) [] ;;
  dprintf stars [] ;;
  dprintf (lit "Type 'help' for a list of commands." ++ [10]) [] ;;
  monitor_loop fuel.
End Console.

(** ** What is printed *)

(** [m] shows [t] and changes nothing else. *)
Definition prints `{Machine} (m : M con ()) (t : list Z) : Prop := ∀ s r, vid_rep (out s) r →
  ∃ o : vid_st, m s = Ok () (put o s) ∧ shows t (out s) o r.

(** Characters that print as they are, also through [vdprintf]. *)
Definition plain (c : Z) : Prop := 0 < c < 128.
#[global] Instance plain_dec c : Decision (plain c).
Proof. unfold plain. apply _. Defined.

Lemma plain_char c : plain c → s8 (u8 c) = c ∧ u8 c ≠ 0.
Proof. intros Hc. unfold plain in Hc. unfold s8. rewrite u8_small by lia. rewrite Z.mod_small; lia. Qed.

Lemma plain_text t : Forall plain t → s8 <$> (u8 <$> t) = t ∧ Forall (λ c, c ≠ 0) (u8 <$> t).
Proof.
  induction 1 as [|c t Hc _ [IH1 IH2]]; [done|]. destruct (plain_char c Hc) as [H1 H2]. rewrite !fmap_cons, H1, IH1. split; [done|by constructor].
Qed.

Section Printing.
Context `{Machine, Kernel} (stk : list Z).
Hypothesis stk_size : List.length stk = CONSOLE_BUFFER_SIZE.

Lemma put_char_prints c : prints (put_char c) [c].
Proof.
  intros s r Hr. destruct (putchar_run c (out s) r Hr) as (o & E & Ho). exists o. split; [|exact Ho]. unfold put_char, zoom. cbn [view out_lens]. by rewrite E.
Qed.

Lemma dprintf_prints fmt ap t : output true fmt ap = Some t → Forall plain t → prints (dprintf stk fmt ap) t.
Proof.
  intros Ho Ht s r Hr. destruct (plain_text t Ht) as [H1 H2].
  pose proof (block_printf_run CONSOLE_BUFFER_SIZE (λ mem _, cputs mem) (λ c, c ≠ 0) ltac:(unfold CONSOLE_BUFFER_SIZE; lia)
    (λ mem n H, cputs_ok mem n H) true stk fmt ap stk_size) as Hb. rewrite Ho in Hb. destruct Hb as (b & E & Hb). destruct (Hb H2) as (_ & Hj & _).
  unfold dprintf, vdprintf. rewrite E, Hj, H1. destruct (puts_run t (out s) r Hr) as (o & Eo & Hs). exists o. split; [|exact Hs].
  unfold zoom. cbn [view out_lens]. by rewrite Eo.
Qed.

Lemma prints_then m k t1 t2 : prints m t1 → prints k t2 → prints (m ;; k) (t1 ++ t2).
Proof.
  intros H1 H2 s r Hr. destruct (H1 s r Hr) as (o1 & E1 & S1). destruct (H2 (put (Lens:=out_lens) o1 s) (roll_text t1 r) (sh_rep _ _ _ _ S1)) as (o2 & E2 & S2).
  exists o2. rewrite (bind_Ok _ _ _ _ _ E1). split; [exact E2|]. exact (shows_app _ _ _ _ _ _ S1 S2).
Qed.

Lemma prints_ret : prints (mret ()) [].
Proof. intros s r Hr. exists (out s). split; [by destruct s|by apply shows_nil]. Qed.

Lemma prompt_prints p : Forall plain (default [] p) → prints (put_prompt stk p) (default [] p).
Proof.
  intros Hp. destruct p as [p|]; [|exact prints_ret]. apply dprintf_prints; [|exact Hp].
  refine (eq_trans (output_dirs true [DConv 32 0 (Cs (Some p))] [] _) _); [|].
  2:{ unfold out_of. cbn [mbind list_bind dir_out conv_out default from_option id]. rewrite app_nil_r. unfold fill. by replace (Z.to_nat (0 - Z.of_nat (List.length p))) with 0%nat by lia. }
  apply Forall_singleton. simpl. lia.
Qed.

Lemma char_prints c : plain c → prints (dprintf stk (lit "%c") [VInt c]) [c].
Proof. intros Hc. apply dprintf_prints; [done|]. by apply Forall_singleton. Qed.

(** [%e] is none of the conversions: it is printed as it stands. *)
Definition read_error : list Z := lit "read error: %e" ++ [10].

Lemma error_prints c : prints (dprintf stk (lit "read error: %e" ++ [10]) [VInt c]) read_error.
Proof. apply dprintf_prints; [done|]. apply (bool_decide_unpack _). vm_compute. exact I. Qed.

Lemma rubout_prints : prints (dprintf stk [8; 32; 8] []) [8; 32; 8].
Proof. apply dprintf_prints; [done|]. apply (bool_decide_unpack _). vm_compute. exact I. Qed.

Lemma newline_prints : prints (dprintf stk [10] []) [10].
Proof. apply dprintf_prints; [done|]. apply (bool_decide_unpack _). vm_compute. exact I. Qed.
End Printing.

(** ** The line editor *)

(** What the bytes that are typed come to: a line, a key that gives a negative character, or
    not yet a line; and the text shown meanwhile.  [er] takes back a character on the
    screen, [acc] is the line so far. *)
Inductive typed := Line (l rest : list Z) | Bad (rest : list Z) | More.

Fixpoint edit (max : nat) (er acc cs : list Z) : typed * list Z :=
  match cs with
  | [] => (More, [])
  | b :: cs =>
      let c := s8 b in
      if bool_decide (c < 0) then (Bad cs, read_error)
      else if (bool_decide (c = 8) || bool_decide (c = 127)) && bool_decide (acc ≠ []) then
        let '(t, e) := edit max er (take (List.length acc - 1) acc) cs in (t, er ++ e)
      else if bool_decide (32 <= c) && bool_decide (List.length acc < max)%nat then
        let '(t, e) := edit max er (acc ++ [c]) cs in (t, c :: e)
      else if bool_decide (c = 10) || bool_decide (c = 13) then (Line acc cs, [10])
      else edit max er acc cs
  end.

(** The bytes that will be read, in the ring and from the keyboard; none come on the serial line. *)
Definition pending (s : cons_st) (cs : list Z) : Prop := ∃ q ks sh,
  holds_queue s q ∧ ser s = [] ∧ decode (shift s) (kbd s) = (ks, sh) ∧
  cs = q ++ ks ∧ Z.of_nat (List.length cs) < SIZE ∧ Forall (λ c, s8 c ≠ 0) cs.

Lemma getc_pending ex s cs : pending s cs → ∃ s', cons_getc ex s = Ok (match cs with c :: _ => s8 c | [] => 0 end) s' ∧ pending s' (tail cs).
Proof.
  intros (q & ks & sh & Hq & Hb & Hd & -> & Hn & Hz). pose proof (cons_getc_run ex s q ks sh Hq) as Hr. rewrite Hb in Hr.
  assert ((if ex then nonzero [] else []) = ([] : list Z)) as En by (by destruct ex). rewrite En in Hr.
  destruct (Hr ltac:(by constructor) Hd Hn) as (s' & E & Hq' & Hk & Hs & Hsh).
  exists s'. split; [exact E|]. exists (tail (q ++ ks)), [], sh. rewrite Hk, Hs, Hsh. split; [exact Hq'|]. split; [by destruct ex|]. split; [done|].
  rewrite !app_nil_r. split; [done|]. destruct (q ++ ks); [done|]. cbn [tail List.length] in *. split; [lia|]. by apply Forall_cons in Hz as [_ ?].
Qed.

Lemma getchar_next s c cs : pending (inp s) (c :: cs) → ∃ i : cons_st, getchar s = Ok (s8 c) (put i s) ∧ pending i cs.
Proof.
  intros Hp. destruct (getc_pending (serial_exists (out s)) _ _ Hp) as (i & E & Hp'). exists i. split; [|exact Hp']. unfold getchar.
  rewrite (bind_Ok (gets _) _ _ _ _ (gets_Ok _ _)).
  rewrite (bind_Ok (zoom (cons_getc _)) _ s (s8 c) (put i s)); [|unfold zoom; cbn [view inp_lens]; by rewrite E].
  destruct Hp as (_ & _ & _ & _ & _ & _ & _ & _ & Hz). apply Forall_cons in Hz as [Hz _]. by rewrite bool_decide_eq_false_2.
Qed.

Lemma getchar_none s : pending (inp s) [] → getchar s = Spin.
Proof.
  intros Hp. destruct (getc_pending (serial_exists (out s)) _ _ Hp) as (i & E & _). unfold getchar. rewrite (bind_Ok (gets _) _ _ _ _ (gets_Ok _ _)).
  by rewrite (bind_Ok (zoom (cons_getc _)) _ s 0 (put i s)); [|unfold zoom; cbn [view inp_lens]; rewrite E].
Qed.

Lemma pending_fuel s cs : pending (inp s) cs → (List.length cs <= input_bound s)%nat.
Proof.
  intros (q & ks & sh & Hq & Hb & Hd & -> & Hn & Hz). unfold input_bound. unfold SIZE in Hn. lia.
Qed.

(** A buffer that begins with [acc]. *)
Definition starts (n : nat) (b acc : list Z) : Prop := List.length b = n ∧ ∃ rest, b = acc ++ rest.

Lemma starts_poke n b acc c : starts n b acc → (List.length acc < n)%nat →
  poke (List.length acc) c b = Ok () (<[List.length acc := c]> b) ∧ starts n (<[List.length acc := c]> b) (acc ++ [c]).
Proof.
  intros [Hl [rest ->]] Hn. unfold poke. rewrite bool_decide_eq_true_2 by (rewrite Hl; exact Hn). split; [done|]. split; [by rewrite length_insert|].
  rewrite length_app in Hl. destruct rest as [|x rest]; [simpl in Hl; lia|]. exists rest.
  rewrite insert_app_r_alt, Nat.sub_diag by lia. cbn. by rewrite <- app_assoc.
Qed.

Lemma starts_back n b acc k : starts n b acc → starts n b (take k acc).
Proof. intros [Hl [rest ->]]. split; [done|]. exists (drop k acc ++ rest). by rewrite app_assoc, take_drop. Qed.

(** The buffer is apart from the devices. *)
Record apart (L : Lens con (list Z)) : Prop := {
  ap_inp b s : inp (put (Lens := L) b s) = inp s;
  ap_out b s : out (put (Lens := L) b s) = out s;
  ap_view_inp i s : view (Lens := L) (put (Lens := inp_lens) i s) = view (Lens := L) s;
  ap_view_out o s : view (Lens := L) (put (Lens := out_lens) o s) = view (Lens := L) s
}.

Section EditorRun.
Context `{Machine, Kernel} (stk : list Z).
Hypothesis stk_size : List.length stk = CONSOLE_BUFFER_SIZE.
Context (size : nat) (L : Lens con (list Z)) (erase : M con ()) (echo : Z → M con ()) (newline : M con ()) (er : list Z).
Hypothesis L_apart : apart L.
Hypothesis size_pos : (0 < size)%nat.
Hypothesis erase_prints : prints erase er.
Hypothesis echo_prints : ∀ c, plain c → prints (echo c) [c].
Hypothesis newline_prints : prints newline [10].

(** The outcome from [s] is what [p] says. *)
Definition gives (p : typed * list Z) (o : outcome con bool) (s : con) (r : roll) : Prop :=
  match p with
  | (Line l rest, e) => ∃ s', o = Ok true s' ∧ shows e (out s) (out s') r ∧ pending (inp s') rest ∧ starts size (view s') (l ++ [0])
  | (Bad rest, e) => ∃ s', o = Ok false s' ∧ shows e (out s) (out s') r ∧ pending (inp s') rest
  | (More, _) => o = Spin
  end.

Lemma gives_step p t o s s1 r : shows t (out s) (out s1) r → gives p o s1 (roll_text t r) → gives (let '(T, e) := p in (T, t ++ e)) o s r.
Proof.
  intros Ht. destruct p as [[l rest|rest|] e]; cbn [gives]; [| |done].
  - intros (s' & E & Hs & Hrest). exists s'. split; [exact E|]. split; [|exact Hrest]. exact (shows_app _ _ _ _ _ _ Ht Hs).
  - intros (s' & E & Hs & Hrest). exists s'. split; [exact E|]. split; [|exact Hrest]. exact (shows_app _ _ _ _ _ _ Ht Hs).
Qed.

Lemma zoom_poke (s : con) acc c : starts size (view s) acc → (List.length acc < size)%nat →
  ∃ b, zoom (poke (List.length acc) c) s = Ok () (put b s) ∧ starts size b (acc ++ [c]).
Proof.
  intros Hs Hn. destruct (starts_poke _ _ _ c Hs Hn) as [E Hb]. eexists. split; [|exact Hb]. unfold zoom. by rewrite E.
Qed.

Lemma edit_loop_run fuel : ∀ cs acc s r, pending (inp s) cs → (List.length cs < fuel)%nat → vid_rep (out s) r → starts size (view s) acc →
  (List.length acc < size)%nat → gives (edit (size - 1) er acc cs) (edit_loop stk size L erase echo newline fuel (List.length acc) s) s r.
Proof.
  induction fuel as [|fuel IH]; intros cs acc s r Hp Hf Hr Hb Hacc; [lia|]. cbn [edit_loop]. destruct cs as [|b cs].
  { cbn [edit gives]. unfold mbind, M_bind. by rewrite getchar_none. }
  destruct (getchar_next s b cs Hp) as (i & E & Hp'). rewrite (bind_Ok _ _ _ _ _ E). clear E Hp. cbn [edit List.length] in *.
  set (c := s8 b). set (s1 := put (Lens := inp_lens) i s). assert (c < 128) as Hc by (unfold c, s8; pose proof (Z.mod_pos_bound (b + 128) 256); lia).
  assert (starts size (view s1) acc) as Hb1 by (unfold s1; by rewrite (ap_view_inp L)).
  assert (vid_rep (out s1) r) as Hr1 by exact Hr. clear Hb Hr. clearbody c.
  assert (∀ p o, gives p o s1 r → gives p o s r) as Hback by (intros [[]] o; exact id). apply Hback. clear Hback.
  assert (pending (inp s1) cs) as Hp1 by exact Hp'. clearbody s1. clear s i Hp' b.
  case_bool_decide as Hneg.
  { destruct (error_prints stk stk_size c s1 r Hr1) as (o & E & Ho). rewrite (bind_Ok _ _ _ _ _ E). eexists. split; [reflexivity|]. by split. }
  assert (bool_decide (0 < List.length acc)%nat = bool_decide (acc ≠ [])) as Hne.
  { apply bool_decide_ext. destruct acc; simpl; split; [lia|done|done|lia]. }
  rewrite Hne. destruct ((bool_decide (c = 8) || bool_decide (c = 127)) && bool_decide (acc ≠ [])) eqn:Ee.
  { destruct (erase_prints s1 r Hr1) as (o & E & Ho). rewrite (bind_Ok _ _ _ _ _ E).
    replace (List.length acc - 1)%nat with (List.length (take (List.length acc - 1) acc)) at 2 by (rewrite length_take; lia).
    apply (gives_step _ er _ s1 (put (Lens := out_lens) o s1) r Ho).
    apply IH; [exact Hp1|lia|apply Ho|rewrite (ap_view_out L L_apart); by apply starts_back|rewrite length_take; lia]. }
  clear Ee Hne. assert (bool_decide (List.length acc < size - 1)%nat = true → (List.length (acc ++ [c]) < size)%nat) as Hroom.
  { intros Hl%bool_decide_eq_true_1. rewrite length_app. simpl. lia. }
  destruct (bool_decide (32 <= c) && bool_decide (List.length acc < size - 1)%nat) eqn:Ee.
  { apply andb_prop in Ee as [E32%bool_decide_eq_true_1 El]. destruct (echo_prints c ltac:(unfold plain; lia) s1 r Hr1) as (o & E & Ho).
    rewrite (bind_Ok _ _ _ _ _ E). destruct (zoom_poke (put (Lens := out_lens) o s1) acc c) as (b & Eb & Hb2); [by rewrite (ap_view_out L L_apart)|exact Hacc|].
    rewrite (bind_Ok _ _ _ _ _ Eb). set (s2 := put b (put (Lens := out_lens) o s1)) in *. assert (out s2 = o) as Ho2 by (unfold s2; by rewrite (ap_out L L_apart)).
    assert (inp s2 = inp s1) as Hi2 by (unfold s2; by rewrite (ap_inp L L_apart)).
    replace (S (List.length acc)) with (List.length (acc ++ [c])) by (rewrite length_app; simpl; lia).
    apply (gives_step _ [c] _ s1 s2 r); [by rewrite Ho2|].
    apply IH; [by rewrite Hi2|lia|rewrite Ho2; apply Ho|unfold s2; by rewrite view_put|by apply Hroom]. }
  destruct (bool_decide (c = 10) || bool_decide (c = 13)); [|apply IH; [done|lia|done..]].
  destruct (newline_prints s1 r Hr1) as (o & E & Ho). rewrite (bind_Ok _ _ _ _ _ E).
  destruct (zoom_poke (put (Lens := out_lens) o s1) acc 0) as (b & Eb & Hb2); [by rewrite (ap_view_out L L_apart)|exact Hacc|].
  rewrite (bind_Ok _ _ _ _ _ Eb). eexists. split; [reflexivity|]. rewrite (ap_out L L_apart), (ap_inp L L_apart), view_put. by split_and!.
Qed.
End EditorRun.

Lemma line_apart : apart line_lens.
Proof. done. Qed.

Lemma mon_apart : apart mon_lens.
Proof. done. Qed.

#[global] Opaque edit_loop.

Section Lines.
Context `{Machine, Kernel} (stk : list Z).
Hypothesis stk_size : List.length stk = CONSOLE_BUFFER_SIZE.

(** Both editors read the line that [edit] says, after the prompt. *)
Definition after (p : list Z) (t : typed * list Z) : typed * list Z := let '(T, e) := t in (T, p ++ e).

Lemma readline_run p cs s r : Forall plain (default [] p) → pending (inp s) cs → vid_rep (out s) r → List.length (linebuf s) = BUFLEN →
  gives BUFLEN line_lens (after (default [] p) (edit (BUFLEN - 1) [8] [] cs)) (readline stk p s) s r.
Proof.
  intros Hpl Hp Hr Hl. destruct (prompt_prints stk stk_size p Hpl s r Hr) as (o & E & Ho). unfold readline. rewrite (bind_Ok _ _ _ _ _ E).
  rewrite (bind_Ok (gets input_bound) _ _ _ _ eq_refl). apply (gives_step _ _ _ _ _ _ (put (Lens := out_lens) o s) _ Ho).
  apply (edit_loop_run stk stk_size BUFLEN line_lens _ _ _ [8] line_apart); [unfold BUFLEN; lia|apply put_char_prints|intros c _; apply put_char_prints|apply put_char_prints|exact Hp| | | |].
  - pose proof (pending_fuel s cs Hp). unfold input_bound in *. cbn [inp put out_lens]. lia.
  - apply Ho.
  - split; [exact Hl|]. by exists (linebuf s).
  - unfold BUFLEN. simpl. lia.
Qed.

Lemma monitor_readline_run p cs s r : Forall plain (default [] p) → pending (inp s) cs → vid_rep (out s) r → List.length (monbuf s) = MONLEN →
  gives MONLEN mon_lens (after (default [] p) (edit (MONLEN - 1) [8; 32; 8] [] cs)) (monitor_readline stk p s) s r.
Proof.
  intros Hpl Hp Hr Hl. destruct (prompt_prints stk stk_size p Hpl s r Hr) as (o & E & Ho). unfold monitor_readline. rewrite (bind_Ok _ _ _ _ _ E).
  rewrite (bind_Ok (gets input_bound) _ _ _ _ eq_refl). apply (gives_step _ _ _ _ _ _ (put (Lens := out_lens) o s) _ Ho).
  apply (edit_loop_run stk stk_size MONLEN mon_lens _ _ _ [8; 32; 8] mon_apart);
    [unfold MONLEN; lia|by apply rubout_prints|by apply char_prints|by apply newline_prints|exact Hp| | | |].
  - pose proof (pending_fuel s cs Hp). unfold input_bound in *. cbn [inp put out_lens]. lia.
  - apply Ho.
  - split; [exact Hl|]. by exists (monbuf s).
  - unfold MONLEN. simpl. lia.
Qed.

(** Printable characters and a newline make a line. *)
Definition printable (c : Z) : Prop := 32 <= c < 127.

Lemma edit_plain max er text : Forall printable text → ∀ acc, (List.length acc + List.length text <= max)%nat →
  edit max er acc (text ++ [10]) = (Line (acc ++ text) [], text ++ [10]).
Proof.
  induction 1 as [|c text Hc _ IH]; intros acc Hl.
  - cbn [app edit]. change (s8 10) with 10. by rewrite (app_nil_r acc).
  - cbn [app edit List.length] in *. unfold printable in Hc. assert (s8 c = c) as -> by (unfold s8; rewrite Z.mod_small; lia).
    rewrite (bool_decide_eq_false_2 (c < 0)), !(bool_decide_eq_false_2 (c = _)), (bool_decide_eq_true_2 (32 <= c)), (bool_decide_eq_true_2 (List.length acc < max)%nat) by lia.
    cbn [orb andb]. rewrite IH by (rewrite length_app; simpl; lia). by rewrite <- app_assoc.
Qed.

(** What is typed becomes what is pending. *)
Lemma typed_pending s text : Forall printable text → Z.of_nat (List.length text) + 1 < SIZE → holds_queue s [] → shift s = 0 → ser s = [] →
  kbd s = (text ++ [10]) ≫= keys_of → pending s (text ++ [10]).
Proof.
  intros Ht Hn Hq Hsh Hser Hk. assert (Forall typable (text ++ [10])) as Hty.
  { apply Forall_app. split; [|apply Forall_singleton; unfold typable; apply elem_of_cons; right; apply elem_of_cons; by left].
    eapply Forall_impl; [exact Ht|]. intros c Hc. unfold printable in Hc. do 2 (apply elem_of_cons; right). apply elem_of_seqZ. lia. }
  exists [], (text ++ [10]), 0. rewrite Hsh, Hser, Hk. split; [exact Hq|]. split; [done|]. split; [by apply decode_text|]. split; [done|].
  split; [rewrite length_app; simpl; lia|]. rewrite Forall_app. split; [|by apply Forall_singleton].
  eapply Forall_impl; [exact Ht|]. intros c Hc. unfold printable in Hc. unfold s8. rewrite Z.mod_small; lia.
Qed.
(** C35: from the keys to the screen.  On an empty console, with the keys of a line of
    printable characters and of Enter pressed in turn (fewer than 512 characters in all),
    [readline] returns a buffer that holds the line; and the screen, seen as the window on
    a roll, and the serial line, if there is one, got the prompt, the line and a newline,
    with the cursor after them.  Nothing is left to be read. *)
Theorem typed_line_is_read text prompt s r :
  Forall printable text → Z.of_nat (List.length text) + 1 < SIZE → Forall plain (default [] prompt) →
  holds_queue (inp s) [] → shift (inp s) = 0 → ser (inp s) = [] → kbd (inp s) = (text ++ [10]) ≫= keys_of →
  vid_rep (out s) r → List.length (linebuf s) = BUFLEN →
  ∃ s', readline stk prompt s = Ok true s' ∧ cstr (linebuf s') 0 = text ∧ pending (inp s') [] ∧
    let shown := default [] prompt ++ text ++ [10] in
    vid_rep (out s') (roll_text shown r) ∧ cursor_at (out s') ∧
    sent COM1 (v_hw (out s')) = sent COM1 (v_hw (out s)) ++ (if serial_exists (out s) then crlf shown else []).
Proof.
  intros Ht Hn Hp Hq Hsh Hser Hk Hr Hl. pose proof (typed_pending _ text Ht Hn Hq Hsh Hser Hk) as Hpend.
  pose proof (readline_run prompt _ s r Hp Hpend Hr Hl) as Hg. rewrite edit_plain in Hg; [|exact Ht|unfold SIZE, BUFLEN, CONSOLE_BUFFER_SIZE in *; simpl; lia].
  destruct Hg as (s' & E & [Hr' Hc _ Hs] & Hp' & _ & rest & Hb). exists s'. split; [exact E|]. split.
  { cbn [view line_lens] in Hb. unfold cstr. rewrite Hb, drop_0, <- app_assoc. apply upto_nul_app. eapply Forall_impl; [exact Ht|]. unfold printable. lia. }
  split; [exact Hp'|]. split; [exact Hr'|]. split; [|exact Hs]. apply Hc. right. intros E0. apply app_nil in E0 as [_ E0]. by destruct text.
Qed.
End Lines.

(** ** The monitor is never left *)

Section Never.
Context `{Machine, Kernel} (stk : list Z).

Lemma runcmd_zero s z s' : runcmd stk s = Ok z s' → z = 0.
Proof.
  unfold runcmd. intros E. apply bind_inv in E as (x & s1 & _ & E). destruct x as [[|p ps]|].
  - by injection E as <- _.
  - apply bind_inv in E as (b & s2 & _ & E). unfold mon_help, mon_kerninfo in E.
    destruct (str_is _ (lit "help")); [|destruct (str_is _ (lit "kerninfo"))]; repeat (apply bind_inv in E as (? & ? & _ & E)); by injection E as <- _.
  - apply bind_inv in E as (b & s2 & _ & E). by injection E as <- _.
Qed.

(** No command returns a negative value, so [monitor] does not return. *)
Lemma monitor_loop_never fuel : ∀ s s', monitor_loop stk fuel s ≠ Ok () s'.
Proof.
  induction fuel as [|fuel IH]; intros s s' E; [discriminate E|]. cbn [monitor_loop] in E. apply bind_inv in E as (ok & s1 & _ & E).
  destruct ok; [|by apply IH in E]. apply bind_inv in E as (z & s2 & Ez & E). apply runcmd_zero in Ez as ->.
  rewrite bool_decide_eq_false_2 in E by lia. by apply IH in E.
Qed.

Lemma monitor_never_returns fuel s s' : monitor stk fuel s ≠ Ok () s'.
Proof. unfold monitor. intros E. do 4 (apply bind_inv in E as (? & ? & _ & E)). by apply monitor_loop_never in E. Qed.
End Never.

(** ** A console *)

#[local] Instance ready_machine : Machine := {| answer _ _ := 255; cpuid_regs _ _ := (0, 0, 0, 0) |}.
#[local] Instance some_kernel : Kernel := {| k_start := 1048576; k_etext := 1179648; k_edata := 1245184; k_end := 2097152; stack_word _ := 0 |}.

(** "Hi" and Enter typed, with the cursor in the last row of a colour screen. *)
Definition desk : con := {|
  inp := cons_init {| kbd := [72; 105; 10] ≫= keys_of; ser := []; shift := 0; ring := []; rpos := 7; wpos := 9; outs := [] |};
  out := {| v_hw := []; cga := Some (replicate (Z.to_nat CRT_SIZE) BLANK); mono := []; low := []; addr_6845 := CGA_BASE; crt_buf := CGA_BUF; crt_pos := 1920;
            active_console := 0; serial_exists := true |};
  linebuf := replicate BUFLEN 0; monbuf := replicate MONLEN 0
|}.

Lemma desk_rep : vid_rep (out desk) (fresh_roll (cells (out desk)) 1920).
Proof. apply (fresh_rep (out desk)); [left; repeat split; by eexists|by apply length_replicate|done]. Qed.

Lemma desk_empty : holds_queue (inp desk) [].
Proof.
  unfold holds_queue, desk. cbn [inp cons_init set_ring ring rpos wpos]. rewrite length_replicate. split_and!; done.
Qed.

Lemma typed_line_is_read_witness : ∃ s', readline (replicate CONSOLE_BUFFER_SIZE 0) (Some [36; 32]) desk = Ok true s' ∧
  cstr (linebuf s') 0 = [72; 105] ∧ pending (inp s') [] ∧
  vid_rep (out s') (roll_text [36; 32; 72; 105; 10] (fresh_roll (cells (out desk)) 1920)) ∧ cursor_at (out s') ∧
  sent COM1 (v_hw (out s')) = [] ++ [36; 32; 72; 105; 13; 10].
Proof.
  apply (typed_line_is_read (replicate CONSOLE_BUFFER_SIZE 0) (length_replicate _ _) [72; 105] (Some [36; 32]) desk (fresh_roll (cells (out desk)) 1920)).
  - repeat (apply Forall_cons; split; [unfold printable; lia|]). by apply Forall_nil.
  - done.
  - repeat (apply Forall_cons; split; [unfold plain; lia|]). by apply Forall_nil.
  - exact desk_empty.
  - done.
  - done.
  - done.
  - exact desk_rep.
  - apply length_replicate.
Defined.

(** An arrow key ends the line: its character is negative. *)
Example arrow_ends_line : edit 1023 [8] [] [97; 226; 98; 10] = (Bad [98; 10], 97 :: read_error).
Proof. vm_compute. reflexivity. Qed.

(** The message of [video_init] is what its format stands for. *)
Example video_message : Forall (λ base, match vdprintf (replicate CONSOLE_BUFFER_SIZE 0) (lit "addr_6845:%x" ++ [10]) [VInt base] with
  | Ok _ b => s8 <$> mjoin (p_out b) = addr_text base | _ => False end) [CGA_BASE; MONO_BASE].
Proof. repeat (apply Forall_cons; split; [vm_compute; reflexivity|]). by apply Forall_nil. Qed.
