(* ===== verification/Apic.v ===== *)
(** * Interrupt controllers and timers (kern/dev/pic.c, ioapic.c, lapic.c, timer.c, tsc.c;
      kern/dev/disk/picirq.c, ioapic.c)

    Drivers that program devices through ports and registers.  What a driver does is the
    history of its accesses; a redirection table of an I/O APIC is what the history has
    left in it.  It is proved that [ioapic_init] masks every line and that [ioapic_enable]
    opens exactly the line asked for, towards the processor asked for. *)

From S2P Require Import Prelude Hw.

(** ** State *)

(** [irqmask] is that of pic.c, [disk_irqmask] that of disk/picirq.c.  [ioapics] holds what
    the three arrays hold up to [ioapic_num]: the address, the identifier and the first
    interrupt of each.  [ram] is memory outside of the devices, by bytes. *)
Record dev_st := {
  d_hw : hw;
  ram : Z → Z;
  irqmask : Z;
  disk_irqmask : Z;
  pic_inited : bool;
  lapic : Z;
  ioapics : list (Z * Z * Z);
  tsc_per_ms : Z
}.

#[global, program] Instance d_hw_lens : Lens dev_st hw := {|
  view := d_hw;
  put h s := {| d_hw := h; ram := ram s; irqmask := irqmask s; disk_irqmask := disk_irqmask s; pic_inited := pic_inited s; lapic := lapic s;
                ioapics := ioapics s; tsc_per_ms := tsc_per_ms s |}
|}.
Next Obligation. done. Qed.
Next Obligation. by intros []. Qed.
Next Obligation. done. Qed.

Definition set_ram (f : Z → Z) (s : dev_st) : dev_st :=
  {| d_hw := d_hw s; ram := f; irqmask := irqmask s; disk_irqmask := disk_irqmask s; pic_inited := pic_inited s; lapic := lapic s;
     ioapics := ioapics s; tsc_per_ms := tsc_per_ms s |}.
Definition set_masks (m d : Z) (i : bool) (s : dev_st) : dev_st :=
  {| d_hw := d_hw s; ram := ram s; irqmask := m; disk_irqmask := d; pic_inited := i; lapic := lapic s;
     ioapics := ioapics s; tsc_per_ms := tsc_per_ms s |}.
Definition set_apics (l : Z) (io : list (Z * Z * Z)) (s : dev_st) : dev_st :=
  {| d_hw := d_hw s; ram := ram s; irqmask := irqmask s; disk_irqmask := disk_irqmask s; pic_inited := pic_inited s; lapic := l;
     ioapics := io; tsc_per_ms := tsc_per_ms s |}.
Definition set_tsc (t : Z) (s : dev_st) : dev_st :=
  {| d_hw := d_hw s; ram := ram s; irqmask := irqmask s; disk_irqmask := disk_irqmask s; pic_inited := pic_inited s; lapic := lapic s;
     ioapics := ioapics s; tsc_per_ms := t |}.

(** A byte of memory is set. *)
Definition byte_set (a v : Z) (f : Z → Z) : Z → Z := λ x, if bool_decide (x = a) then u8 v else f x.
Definition word_set (a v : Z) (f : Z → Z) : Z → Z := byte_set a v (byte_set (a + 1) (Z.shiftr v 8) f).

Definition T_IRQ0 : Z := 32.
Definition IRQ_TIMER : Z := 0.
Definition IRQ_SLAVE : Z := 2.
Definition IRQ_SPURIOUS : Z := 7.
Definition T_LERROR : Z := 50.
Definition T_IPI0 : Z := 63.

Section Drivers.
Context `{Machine}.

(** ** The 8259A *)

Definition IO_PIC1 : Z := 32.
Definition IO_PIC2 : Z := 160.

(** The initialization words of both, and the words after them. *)
Definition pic_program (master slave : Z) : M dev_st () :=
  outb IO_PIC1 17 ;;
  outb (IO_PIC1 + 1) T_IRQ0 ;;
  outb (IO_PIC1 + 1) (Z.shiftl 1 IRQ_SLAVE) ;;
  outb (IO_PIC1 + 1) master ;;
  outb IO_PIC2 17 ;;
  outb (IO_PIC2 + 1) (T_IRQ0 + 8) ;;
  outb (IO_PIC2 + 1) IRQ_SLAVE ;;
  outb (IO_PIC2 + 1) slave ;;
  outb IO_PIC1 104 ;;
  outb IO_PIC1 10 ;;
  outb IO_PIC2 104 ;;
  outb IO_PIC2 10.

Definition pic_init : M dev_st () :=
  i ← gets pic_inited;
  if (i : bool) then mret ()
  else
    modify (λ s, set_masks (irqmask s) (disk_irqmask s) true s) ;;
    outb (IO_PIC1 + 1) 255 ;;
    outb (IO_PIC2 + 1) 255 ;;
    pic_program 1 1 ;;
    outb (IO_PIC1 + 1) 255 ;;
    outb (IO_PIC2 + 1) 255.

Definition pic_setmask (mask : Z) : M dev_st () :=
  modify (λ s, set_masks (mask mod 65536) (disk_irqmask s) (pic_inited s) s) ;;
  outb (IO_PIC1 + 1) mask ;;
  outb (IO_PIC2 + 1) (Z.shiftr mask 8).

Definition pic_enable (irq : Z) : M dev_st () :=
  m ← gets irqmask;
  pic_setmask (Z.ldiff m (Z.shiftl 1 irq)).

Definition pic_eoi : M dev_st () := outb IO_PIC1 32 ;; outb IO_PIC2 32.

Definition pic_reset : M dev_st () :=
  outb (IO_PIC1 + 1) 0 ;;
  outb (IO_PIC2 + 1) 0 ;;
  pic_program 3 1.

(** The disk's own driver of the same device. *)
Definition picsetmask (mask : Z) : M dev_st () :=
  modify (λ s, set_masks (irqmask s) (mask mod 65536) (pic_inited s) s) ;;
  outb (IO_PIC1 + 1) mask ;;
  outb (IO_PIC2 + 1) (Z.shiftr mask 8).

Definition picenable (irq : Z) : M dev_st () :=
  m ← gets disk_irqmask;
  picsetmask (Z.ldiff m (Z.shiftl 1 irq)).

Definition picinit : M dev_st () :=
  outb (IO_PIC1 + 1) 255 ;;
  outb (IO_PIC2 + 1) 255 ;;
  pic_program 3 3 ;;
  m ← gets disk_irqmask;
  if bool_decide (m ≠ 65535) then picsetmask m else mret ().

(** ** The I/O APICs *)

Definition MAX_IOAPIC : nat := 16.
Definition IOAPIC_ID : Z := 0.
Definition IOAPIC_VER : Z := 1.
Definition IOAPIC_TABLE : Z := 16.
Definition IOAPIC_INT_DISABLED : Z := 65536.

(** [data] is 16 bytes after [reg]. *)
Definition ioapic_read (base reg : Z) : M dev_st Z :=
  reg_store base reg ;;
  reg_load (base + 16).

Definition ioapic_write (base reg data : Z) : M dev_st () :=
  reg_store base reg ;;
  reg_store (base + 16) data.

Definition ioapic_register (addr id g : Z) : M dev_st () :=
  io ← gets ioapics;
  if bool_decide (MAX_IOAPIC <= length io)%nat then mret ()
  else modify (λ s, set_apics (lapic s) (io ++ [(addr, u8 id, s32 g)]) s).

Definition ioapic_maxintr (base : Z) : M dev_st Z :=
  v ← ioapic_read base IOAPIC_VER;
  mret (Z.land (Z.shiftr v 16) 255).

(** The lines of one are masked and point to no processor. *)
Definition ioapic_mask (base maxintr : Z) : M dev_st () :=
  for_range 0 (maxintr + 1) (λ j,
    ioapic_write base (IOAPIC_TABLE + 2 * j) (Z.lor IOAPIC_INT_DISABLED (T_IRQ0 + j)) ;;
    ioapic_write base (IOAPIC_TABLE + 2 * j + 1) 0).

Definition ioapic_init1 (x : Z * Z * Z) : M dev_st () :=
  let '(base, id, _) := x in
  if bool_decide (base = 0) then kern_panic
  else
    v ← ioapic_read base IOAPIC_ID;
    (if bool_decide (Z.shiftr v 24 = 0) then ioapic_write base IOAPIC_ID (Z.shiftl id 24) else mret ()) ;;
    maxintr ← ioapic_maxintr base;
    ioapic_mask base maxintr.

Fixpoint ioapic_init_loop (io : list (Z * Z * Z)) : M dev_st () :=
  match io with
  | [] => mret ()
  | x :: io => ioapic_init1 x ;; ioapic_init_loop io
  end.

Definition ioapic_init : M dev_st () := io ← gets ioapics; ioapic_init_loop io.

Fixpoint ioapic_enable_loop (io : list (Z * Z * Z)) (irq apicid trigger_mode polarity : Z) : M dev_st () :=
  match io with
  | [] => kern_panic
  | (base, _, g) :: io =>
      maxintr ← ioapic_maxintr base;
      if bool_decide (irq >= g) && bool_decide (irq <= g + maxintr) then
        ioapic_write base (IOAPIC_TABLE + 2 * (irq - g)) (Z.lor (Z.lor (Z.shiftl trigger_mode 15) (Z.shiftl polarity 13)) (T_IRQ0 + irq)) ;;
        ioapic_write base (IOAPIC_TABLE + 2 * (irq - g) + 1) (Z.shiftl apicid 24)
      else ioapic_enable_loop io irq apicid trigger_mode polarity
  end.

Definition ioapic_enable (irq apicid trigger_mode polarity : Z) : M dev_st () :=
  io ← gets ioapics;
  ioapic_enable_loop io irq apicid trigger_mode polarity.

Definition ioapic_number : M dev_st Z := gets (λ s, Z.of_nat (length (ioapics s))).

(** 0 stands for NULL. *)
Definition ioapic_get (idx : Z) : M dev_st Z := gets (λ s, match ioapics s !! Z.to_nat idx with Some (a, _, _) => a | None => 0 end).

(** The disk's own driver of the one at the default address. *)
Definition IOAPIC : Z := 4273995776.

Definition ioapicinit : M dev_st () :=
  maxintr ← ioapic_maxintr IOAPIC;
  ioapic_read IOAPIC IOAPIC_ID ;;
  ioapic_mask IOAPIC maxintr.

Definition ioapicenable (irq cpunum : Z) : M dev_st () :=
  ioapic_write IOAPIC (IOAPIC_TABLE + 2 * irq) (T_IRQ0 + irq) ;;
  ioapic_write IOAPIC (IOAPIC_TABLE + 2 * irq + 1) (Z.shiftl cpunum 24).
(** ** The interval timer *)

Definition PIT_CHANNEL0 : Z := 64.
Definition PIT_CONTROL : Z := 67.
Definition TIMER_FREQ : Z := 1193182.
Definition FREQ : Z := 100.
Definition LATCH : Z := (TIMER_FREQ + FREQ / 2) / FREQ.
Definition CAL_MS : Z := 10.
Definition CAL_LATCH : Z := TIMER_FREQ / (1000 / CAL_MS).
Definition CAL_PIT_LOOPS : Z := 1000.

(** Counter 0, mode 2, both bytes of the count, the lower one first. *)
Definition timer_hw_init : M dev_st () :=
  outb PIT_CONTROL (Z.lor (Z.lor 0 4) 48) ;;
  outb PIT_CHANNEL0 (Z.land LATCH 255) ;;
  outb PIT_CHANNEL0 (Z.land (Z.shiftr LATCH 8) 255).

(** Channel 2 counts down once from [latch]. *)
Definition pit_start (latch : Z) : M dev_st () :=
  g ← inb 97;
  outb 97 (Z.lor (Z.ldiff g 2) 1) ;;
  outb 67 176 ;;
  outb 66 (Z.land latch 255) ;;
  outb 66 (Z.shiftr latch 8).

(** The time between two readings of a counter of [m] values: shortest, longest, how many
    there were, and the last reading.  [polls] bounds the rounds until the channel ends. *)
Record sampling := { sm_min : Z; sm_max : Z; sm_cnt : Z; sm_last : Z }.

Fixpoint sample (m : Z) (read : M dev_st Z) (delta : Z → Z → Z) (polls : nat) (x : sampling) : M dev_st sampling :=
  match polls with
  | O => spin
  | S polls =>
      out ← inb 97;
      if bool_decide (Z.land out 32 = 0) then
        t ← read;
        let d := delta (sm_last x) t mod m in
        sample m read delta polls {| sm_min := Z.min d (sm_min x); sm_max := Z.max d (sm_max x); sm_cnt := sm_cnt x + 1; sm_last := t |}
      else mret x
  end.

(** -1 stands for the greatest value, which says that it failed. *)
Definition calibrated (m : Z) (x : sampling) (total ms loopmin : Z) : Z :=
  if bool_decide (sm_cnt x < loopmin) || bool_decide (sm_max x > (10 * sm_min x) mod m) then m - 1
  else total mod m / ms.

Definition tsc_calibrate (polls : nat) (latch ms loopmin : Z) : M dev_st Z :=
  pit_start latch ;;
  t1 ← rdtsc;
  x ← sample W64 rdtsc (λ last t, t - last) polls {| sm_min := W64 - 1; sm_max := 0; sm_cnt := 0; sm_last := t1 |};
  mret (calibrated W64 x (sm_last x - t1) ms loopmin).

Fixpoint tsc_retry (polls : nat) (n : nat) : M dev_st Z :=
  match n with
  | O => mret (W64 - 1)
  | S n =>
      r ← tsc_calibrate polls CAL_LATCH CAL_MS CAL_PIT_LOOPS;
      if bool_decide (r ≠ W64 - 1) then mret r else tsc_retry polls n
  end.

Definition tsc_init (polls : nat) : M dev_st Z :=
  timer_hw_init ;;
  modify (set_tsc 0) ;;
  r ← tsc_retry polls 10;
  if bool_decide (r = W64 - 1) then
    modify (set_tsc 1000000) ;; timer_hw_init ;; mret 1
  else
    modify (set_tsc r) ;; timer_hw_init ;; mret 0.

(** [while (rdtsc() < until)] *)
Fixpoint tsc_wait (polls : nat) (until : Z) : M dev_st () :=
  match polls with
  | O => spin
  | S polls => t ← rdtsc; if bool_decide (t < until) then tsc_wait polls until else mret ()
  end.

Definition delay (polls : nat) (ms : Z) : M dev_st () :=
  r ← gets tsc_per_ms;
  start ← rdtsc;
  tsc_wait polls (wrap64 (start + wrap64 (r * ms))).

Definition udelay (polls : nat) (us : Z) : M dev_st () :=
  r ← gets tsc_per_ms;
  start ← rdtsc;
  tsc_wait polls (wrap64 (start + wrap64 (r / 1000 * us))).

(** ** The local APIC *)

(** Registers as indices of words. *)
Definition LAPIC_ID : Z := 8.
Definition LAPIC_VER : Z := 12.
Definition LAPIC_TPR : Z := 32.
Definition LAPIC_EOI : Z := 44.
Definition LAPIC_LDR : Z := 52.
Definition LAPIC_DFR : Z := 56.
Definition LAPIC_SVR : Z := 60.
Definition LAPIC_ESR : Z := 160.
Definition LAPIC_ICRLO : Z := 192.
Definition LAPIC_ICRHI : Z := 196.
Definition LAPIC_TIMER : Z := 200.
Definition LAPIC_PCINT : Z := 208.
Definition LAPIC_LINT0 : Z := 212.
Definition LAPIC_LINT1 : Z := 216.
Definition LAPIC_ERROR : Z := 220.
Definition LAPIC_TICR : Z := 224.
Definition LAPIC_TCCR : Z := 228.
Definition LAPIC_TDCR : Z := 248.

Definition LAPIC_ICRLO_INIT : Z := 1280.
Definition LAPIC_ICRLO_STARTUP : Z := 1536.
Definition LAPIC_ICRLO_DELIVS : Z := 4096.
Definition LAPIC_ICRLO_ASSERT : Z := 16384.
Definition LAPIC_ICRLO_LEVEL : Z := 32768.
Definition LAPIC_ICRLO_BCAST : Z := 524288.
Definition LAPIC_ICRLO_NOBCAST : Z := 0.
Definition LAPIC_TIMER_INTR_FREQ : Z := 1000.

Definition lapic_read (index : Z) : M dev_st Z := b ← gets lapic; reg_load (b + 4 * index).

(** The read of the identifier waits for the write. *)
Definition lapic_write (index value : Z) : M dev_st () :=
  b ← gets lapic;
  reg_store (b + 4 * index) value ;;
  reg_load (b + 4 * LAPIC_ID) ;;
  mret ().

Definition lapic_register (addr : Z) : M dev_st () := modify (λ s, set_apics (u32 addr) (ioapics s) s).

(** The counter counts down. *)
Definition lapic_calibrate_timer (polls : nat) (latch ms loopmin : Z) : M dev_st Z :=
  lapic_write LAPIC_TICR (W32 - 1) ;;
  pit_start latch ;;
  t1 ← lapic_read LAPIC_TCCR;
  x ← sample W32 (lapic_read LAPIC_TCCR) (λ last t, last - t) polls {| sm_min := W32 - 1; sm_max := 0; sm_cnt := 0; sm_last := t1 |};
  mret (calibrated W32 x (t1 - sm_last x) ms loopmin).

Fixpoint lapic_retry (polls : nat) (n : nat) : M dev_st Z :=
  match n with
  | O => mret (W32 - 1)
  | S n =>
      r ← lapic_calibrate_timer polls CAL_LATCH CAL_MS CAL_PIT_LOOPS;
      if bool_decide (r ≠ W32 - 1) then mret r else lapic_retry polls n
  end.

(** [while (lapic_read(LAPIC_ICRLO) & LAPIC_ICRLO_DELIVS)] *)
Fixpoint lapic_idle (polls : nat) : M dev_st () :=
  match polls with
  | O => spin
  | S polls => v ← lapic_read LAPIC_ICRLO; if bool_decide (Z.land v LAPIC_ICRLO_DELIVS = 0) then mret () else lapic_idle polls
  end.

(** The initial count for a rate of [LAPIC_TIMER_INTR_FREQ]. *)
Definition lapic_ticr (per_ms : Z) : Z := u32 (per_ms * 1000) / LAPIC_TIMER_INTR_FREQ.

Definition lapic_init (polls : nat) : M dev_st () :=
  l ← gets lapic;
  if bool_decide (l = 0) then kern_panic
  else
    lapic_write LAPIC_SVR (Z.lor 256 (T_IRQ0 + IRQ_SPURIOUS)) ;;
    lapic_write LAPIC_TDCR 11 ;;
    lapic_write LAPIC_TIMER (Z.lor 131072 (T_IRQ0 + IRQ_TIMER)) ;;
    r ← lapic_retry polls 5;
    lapic_write LAPIC_TICR (lapic_ticr (if bool_decide (r = W32 - 1) then 500000 else r)) ;;
    lapic_write LAPIC_LINT0 65536 ;;
    lapic_write LAPIC_LINT1 65536 ;;
    v ← lapic_read LAPIC_VER;
    (if bool_decide (Z.land (Z.shiftr v 16) 255 >= 4) then lapic_write LAPIC_PCINT 65536 else mret ()) ;;
    lapic_write LAPIC_DFR (Z.shiftl 15 28) ;;
    lapic_write LAPIC_LDR 0 ;;
    lapic_write LAPIC_ERROR T_LERROR ;;
    lapic_write LAPIC_ESR 0 ;;
    lapic_write LAPIC_ESR 0 ;;
    lapic_write LAPIC_EOI 0 ;;
    lapic_write LAPIC_ICRHI 0 ;;
    lapic_write LAPIC_ICRLO (Z.lor (Z.lor LAPIC_ICRLO_BCAST LAPIC_ICRLO_INIT) LAPIC_ICRLO_LEVEL) ;;
    lapic_idle polls ;;
    lapic_write LAPIC_TPR 0.

Definition lapic_eoi : M dev_st () :=
  l ← gets lapic;
  if bool_decide (l ≠ 0) then lapic_write LAPIC_EOI 0 else mret ().

Definition IO_RTC : Z := 112.

(** The warm reset vector at 40:67 and the start-up sequence. *)
Definition lapic_startcpu (apicid addr : Z) : M dev_st () :=
  outb IO_RTC 15 ;;
  outb (IO_RTC + 1) 10 ;;
  modify (λ s, set_ram (word_set 1129 (Z.shiftr addr 4) (word_set 1127 0 (ram s))) s) ;;
  lapic_write LAPIC_ICRHI (Z.shiftl apicid 24) ;;
  lapic_write LAPIC_ICRLO (Z.lor (Z.lor LAPIC_ICRLO_INIT LAPIC_ICRLO_LEVEL) LAPIC_ICRLO_ASSERT) ;;
  lapic_write LAPIC_ICRLO (Z.lor LAPIC_ICRLO_INIT LAPIC_ICRLO_LEVEL) ;;
  for_range 0 2 (λ _,
    lapic_write LAPIC_ICRHI (Z.shiftl apicid 24) ;;
    lapic_write LAPIC_ICRLO (Z.lor LAPIC_ICRLO_STARTUP (Z.shiftr addr 12))).

Definition lapic_send_ipi (polls : nat) (apicid vector deliver_mode shorthand_mode : Z) : M dev_st () :=
  if bool_decide (deliver_mode = LAPIC_ICRLO_INIT) || bool_decide (deliver_mode = LAPIC_ICRLO_STARTUP) || bool_decide (vector < T_IPI0) then kern_panic
  else
    lapic_idle polls ;;
    (if bool_decide (shorthand_mode = LAPIC_ICRLO_NOBCAST) then lapic_write LAPIC_ICRHI (Z.land (Z.shiftl apicid 24) 4278190080) else mret ()) ;;
    lapic_write LAPIC_ICRLO (Z.lor (Z.lor shorthand_mode deliver_mode) (Z.land vector 255)).
End Drivers.

(** ** What an I/O APIC holds *)

(** The register selected, and what was stored in register [n] last. *)
Fixpoint iosel (base : Z) (h : hw) : option Z :=
  match h with
  | [] => None
  | Store a v :: h => if bool_decide (a = base) then Some v else iosel base h
  | _ :: h => iosel base h
  end.

Fixpoint ioreg (base n : Z) (h : hw) : option Z :=
  match h with
  | [] => None
  | Store a v :: h => if bool_decide (a = base + 16 ∧ iosel base h = Some n) then Some v else ioreg base n h
  | _ :: h => ioreg base n h
  end.

(** The entry of a line of the redirection table: the lower and the upper word. *)
Definition redirection (base j : Z) (h : hw) : option (Z * Z) :=
  lo ← ioreg base (IOAPIC_TABLE + 2 * j) h; hi ← ioreg base (IOAPIC_TABLE + 2 * j + 1) h; Some (lo, hi).

Definition closed_line (j : Z) : Z * Z := (Z.lor IOAPIC_INT_DISABLED (T_IRQ0 + j), 0).
Definition open_line (irq apicid : Z) : Z * Z := (T_IRQ0 + irq, apicid * 16777216).

Section Tables.
Context `{Machine}.

(** The addresses do not overlap; [lines] is the highest line of each, and its version
    register says so. *)
Context (B : list Z) (lines : Z → Z).
Hypothesis B_apart : ∀ a b, a ∈ B → b ∈ B → a ≠ b + 16.
Hypothesis lines_small : ∀ b, b ∈ B → 0 <= lines b < 256.
Hypothesis version : ∀ h b, b ∈ B → iosel b h = Some IOAPIC_VER → Z.land (Z.shiftr (u32 (answer h (QLoad (b + 16)))) 16) 255 = lines b.

(** The tables change from [h] to [h'] by [f] at the base [b] only. *)
Definition changes (b : Z) (f : Z → option Z) (h h' : hw) : Prop := ∀ c n, c ∈ B →
  ioreg c n h' = if bool_decide (c = b) then match f n with Some v => Some v | None => ioreg c n h end else ioreg c n h.

Lemma changes_none b h : changes b (λ _, None) h h.
Proof. intros c n Hc. by case_bool_decide. Qed.

Lemma changes_trans b f g h1 h2 h3 : changes b f h1 h2 → changes b g h2 h3 →
  changes b (λ n, match g n with Some v => Some v | None => f n end) h1 h3.
Proof.
  intros H1 H2 c n Hc. rewrite (H2 c n Hc). case_bool_decide as E.
  - destruct (g n); [done|]. rewrite (H1 c n Hc). by rewrite bool_decide_eq_true_2.
  - rewrite (H1 c n Hc). by rewrite bool_decide_eq_false_2.
Qed.

Lemma changes_ext b f g h1 h2 : (∀ n, f n = g n) → changes b f h1 h2 → changes b g h1 h2.
Proof. intros E Hc c n Hin. rewrite (Hc c n Hin). by rewrite E. Qed.

(** One write. *)
Definition one (r v : Z) (n : Z) : option Z := if bool_decide (n = r) then Some v else None.

Lemma write_run b r v s : b ∈ B → is_u32 r → is_u32 v →
  ∃ h : hw, ioapic_write b r v s = Ok () (put h s) ∧ changes b (one r v) (d_hw s) h.
Proof.
  intros Hb Hr Hv. eexists. split; [reflexivity|]. intros c n Hc. cbn. rewrite !u32_small by done.
  pose proof (B_apart b c Hb Hc) as H1. pose proof (B_apart c b Hc Hb) as H2. unfold one. destruct (decide (c = b)) as [->|Hne].
  - rewrite !(bool_decide_eq_true_2 (b = b)) by done. destruct (decide (n = r)) as [->|Hn].
    + rewrite !bool_decide_eq_true_2 by done. done.
    + rewrite (bool_decide_eq_false_2 (n = r)), !bool_decide_eq_false_2 by (try done; intros [? ?]; first [lia|congruence]). done.
  - rewrite (bool_decide_eq_false_2 (c = b)) by done. rewrite bool_decide_eq_false_2 by (intros [? _]; lia).
    rewrite bool_decide_eq_false_2; [done|]. intros [? _]. lia.
Qed.

(** A read selects a register and changes none. *)
Lemma read_run b r s : b ∈ B → is_u32 r → ∃ h : hw, ioapic_read b r s = Ok (u32 (answer (Store b r :: d_hw s) (QLoad (b + 16)))) (put h s) ∧ changes b (λ _, None) (d_hw s) h.
Proof.
  intros Hb Hr. unfold ioapic_read. rewrite (bind_Ok _ _ _ _ _ (reg_store_Ok _ _ _)), reg_load_Ok, (u32_small r) by done. eexists. split; [reflexivity|].
  intros c n Hc. cbn. pose proof (B_apart b c Hb Hc). rewrite bool_decide_eq_false_2; [by case_bool_decide|]. intros [? _]. lia.
Qed.

Lemma maxintr_run b s : b ∈ B → ∃ h : hw, ioapic_maxintr b s = Ok (lines b) (put h s) ∧ changes b (λ _, None) (d_hw s) h.
Proof.
  intros Hb. destruct (read_run b IOAPIC_VER s Hb ltac:(unfold is_u32, W32, IOAPIC_VER; lia)) as (h & E & Hc). exists h. split; [|exact Hc].
  unfold ioapic_maxintr. rewrite (bind_Ok _ _ _ _ _ E). rewrite version; [done|exact Hb|]. cbn. by rewrite bool_decide_eq_true_2.
Qed.

(** [ioapic_mask] closes every line up to [m]. *)
Definition closed_regs (m n : Z) : option Z :=
  if bool_decide (IOAPIC_TABLE <= n < IOAPIC_TABLE + 2 * m) then
    Some (if bool_decide (n mod 2 = 0) then (closed_line ((n - IOAPIC_TABLE) / 2)).1 else 0)
  else None.

Lemma closed_step j n : 0 <= j → closed_regs (j + 1) n =
  match one (IOAPIC_TABLE + 2 * j + 1) 0 n with
  | Some v => Some v
  | None => match one (IOAPIC_TABLE + 2 * j) (closed_line j).1 n with Some v => Some v | None => closed_regs j n end
  end.
Proof.
  intros Hj. unfold closed_regs, one, IOAPIC_TABLE. destruct (decide (n = 16 + 2 * j + 1)) as [->|H1]; [|destruct (decide (n = 16 + 2 * j)) as [->|H2]].
  - rewrite (bool_decide_eq_true_2 (16 <= _ < _)), (bool_decide_eq_false_2 (_ mod 2 = 0)), bool_decide_eq_true_2 by (Z.div_mod_to_equations; lia). done.
  - rewrite (bool_decide_eq_false_2 (16 + 2 * j = 16 + 2 * j + 1)), (bool_decide_eq_true_2 (16 <= _ < _)), (bool_decide_eq_true_2 (_ mod 2 = 0)), bool_decide_eq_true_2 by (Z.div_mod_to_equations; lia).
    by replace ((16 + 2 * j - 16) / 2) with j by (Z.div_mod_to_equations; lia).
  - rewrite (bool_decide_eq_false_2 (n = _)), (bool_decide_eq_false_2 (n = _)) by done.
    by rewrite (bool_decide_ext (16 <= n < 16 + 2 * (j + 1)) (16 <= n < 16 + 2 * j)) by lia.
Qed.

Lemma closed_lo j : 0 <= j < 256 → (closed_line j).1 = 65568 + j.
Proof.
  intros Hj. unfold closed_line. cbn [fst]. apply (bool_decide_unpack _). assert (j ∈ seqZ 0 256) as Hin by (apply elem_of_seqZ; lia). revert j Hj Hin.
  enough (Forall (λ j, bool_decide (Z.lor IOAPIC_INT_DISABLED (T_IRQ0 + j) = 65568 + j)) (seqZ 0 256)) as Hf by (intros j _ Hin; exact (proj1 (Forall_forall _ _) Hf j Hin)).
  apply (bool_decide_unpack _). vm_compute. exact I.
Qed.

Lemma mask_run b m s : b ∈ B → 0 <= m < 256 → ∃ h : hw, ioapic_mask b m s = Ok () (put h s) ∧ changes b (closed_regs (m + 1)) (d_hw s) h.
Proof.
  intros Hb Hm. unfold ioapic_mask. set (I (j : Z) (s' : dev_st) := ∃ h : hw, s' = put h s ∧ changes b (closed_regs j) (d_hw s) h).
  edestruct (for_range_inv I) as (s' & E & h & -> & Hh); [| | |exists h; split; [exact E|exact Hh]].
  - lia.
  - exists (d_hw s). split; [by destruct s|]. apply (changes_ext _ (λ _, None)); [|apply changes_none]. intros n. unfold closed_regs. rewrite bool_decide_eq_false_2; [done|]. lia.
  - intros j s1 Hj (h1 & -> & Hc1). assert (0 <= j < 256) as Hj' by lia. pose proof (closed_lo j Hj') as Hlo. unfold closed_line in Hlo. cbn [fst] in Hlo.
    destruct (write_run b (IOAPIC_TABLE + 2 * j) (Z.lor IOAPIC_INT_DISABLED (T_IRQ0 + j)) (put h1 s) Hb) as (h2 & E2 & Hc2);
      [unfold is_u32, W32, IOAPIC_TABLE; lia|rewrite Hlo; unfold is_u32, W32; lia|]. rewrite (bind_Ok _ _ _ _ _ E2).
    destruct (write_run b (IOAPIC_TABLE + 2 * j + 1) 0 (put h2 s) Hb) as (h3 & E3 & Hc3); [unfold is_u32, W32, IOAPIC_TABLE; lia|done|].
    exists (put h3 s). split; [exact E3|]. exists h3. split; [done|].
    apply (changes_ext _ _ _ _ _ (λ n, eq_sym (closed_step j n (proj1 Hj')))). exact (changes_trans _ _ _ _ _ _ (changes_trans _ _ _ _ _ _ Hc1 Hc2) Hc3).
Qed.

Lemma changes_any b c h h' : changes c (λ _, None) h h' → changes b (λ _, None) h h'.
Proof. intros Hc d n Hd. rewrite (Hc d n Hd). by do 2 case_bool_decide. Qed.

Lemma init1_run b i g s : b ∈ B → b ≠ 0 → 0 <= i < 256 → ∃ (h : hw) f, ioapic_init1 (b, i, g) s = Ok () (put h s) ∧ changes b f (d_hw s) h ∧
  ∀ n, IOAPIC_TABLE <= n → f n = closed_regs (lines b + 1) n.
Proof.
  intros Hb H0 Hi. unfold ioapic_init1. rewrite bool_decide_eq_false_2 by done.
  destruct (read_run b IOAPIC_ID s Hb ltac:(done)) as (h1 & E1 & Hc1). rewrite (bind_Ok _ _ _ _ _ E1).
  assert (∀ v, ∃ (h2 : hw) f, (if bool_decide (Z.shiftr v 24 = 0) then ioapic_write b IOAPIC_ID (Z.shiftl i 24) else mret ()) (put h1 s) = Ok () (put h2 s) ∧
    changes b f (d_hw s) h2 ∧ ∀ n, IOAPIC_TABLE <= n → f n = None) as Hid.
  { intros v. case_bool_decide.
    - destruct (write_run b IOAPIC_ID (Z.shiftl i 24) (put h1 s) Hb ltac:(done)) as (h2 & E2 & Hc2); [rewrite Z.shiftl_mul_pow2 by lia; unfold is_u32, W32; lia|].
      eexists h2, _. split; [exact E2|]. split; [exact (changes_trans _ _ _ _ _ _ Hc1 Hc2)|]. intros n Hn. cbv beta. unfold one, IOAPIC_ID, IOAPIC_TABLE in *.
      by rewrite bool_decide_eq_false_2 by lia.
    - eexists h1, _. split; [reflexivity|]. by split. }
  edestruct (Hid) as (h2 & f & E2 & Hc2 & Hf). rewrite (bind_Ok _ _ _ _ _ E2). clear Hid E2.
  destruct (maxintr_run b (put h2 s) Hb) as (h3 & E3 & Hc3). rewrite (bind_Ok _ _ _ _ _ E3).
  destruct (mask_run b (lines b) (put h3 s) Hb (lines_small b Hb)) as (h4 & E4 & Hc4). eexists h4, _. split; [exact E4|].
  split; [exact (changes_trans _ _ _ _ _ _ (changes_trans _ _ _ _ _ _ Hc2 Hc3) Hc4)|]. intros n Hn. cbv beta. rewrite (Hf n Hn). by destruct (closed_regs _ n).
Qed.

(** Whatever the tables held, [ioapic_init] closes all lines. *)
Lemma init_loop_run io : ∀ s, Forall (λ x : Z * Z * Z, x.1.1 ∈ B ∧ x.1.1 ≠ 0 ∧ 0 <= x.1.2 < 256) io →
  ∃ h : hw, ioapic_init_loop io s = Ok () (put h s) ∧ ∀ c n, c ∈ B → IOAPIC_TABLE <= n →
    ioreg c n h = match closed_regs (lines c + 1) n with
                  | Some v => if bool_decide (c ∈ (λ x : Z * Z * Z, x.1.1) <$> io) then Some v else ioreg c n (d_hw s)
                  | None => ioreg c n (d_hw s)
                  end.
Proof.
  induction io as [|[[b i] g] io IH]; intros s Hio.
  { exists (d_hw s). split; [by destruct s|]. intros c n _ _. by destruct (closed_regs _ n). }
  apply Forall_cons in Hio as [(Hb & H0 & Hi) Hio]. destruct (init1_run b i g s Hb H0 Hi) as (h1 & f & E1 & Hc1 & Hf).
  destruct (IH (put h1 s) Hio) as (h2 & E2 & Hr2). exists h2. cbn [ioapic_init_loop]. rewrite (bind_Ok _ _ _ _ _ E1). split; [exact E2|].
  intros c n Hc Hn. rewrite (Hr2 c n Hc Hn). change (d_hw (put h1 s)) with h1. rewrite (Hc1 c n Hc), (Hf n Hn). rewrite fmap_cons. cbn [fst].
  destruct (closed_regs (lines c + 1) n) as [v|] eqn:Ev.
  - rewrite (bool_decide_ext (c ∈ b :: _) (c = b ∨ c ∈ (λ x : Z * Z * Z, x.1.1) <$> io)) by apply elem_of_cons.
    case_bool_decide as H1; case_bool_decide as H2; try case_bool_decide as H3; try done; try tauto.
    subst c. by rewrite Ev.
  - case_bool_decide; [|done]. subst c. by rewrite Ev.
Qed.

(** An I/O APIC that has the line of an interrupt. *)
Definition covers (irq : Z) (x : Z * Z * Z) : Prop := x.2 <= irq <= x.2 + lines x.1.1.

Definition opened (irq apicid g n : Z) : option Z :=
  match one (IOAPIC_TABLE + 2 * (irq - g) + 1) (apicid * 16777216) n with Some v => Some v | None => one (IOAPIC_TABLE + 2 * (irq - g)) (T_IRQ0 + irq) n end.

Lemma enable_loop_run irq apicid b i g post : b ∈ B → 0 <= irq < 256 → 0 <= apicid < 256 → covers irq (b, i, g) →
  ∀ pre s, Forall (λ x : Z * Z * Z, x.1.1 ∈ B ∧ ¬ covers irq x) pre →
  ∃ h : hw, ioapic_enable_loop (pre ++ (b, i, g) :: post) irq apicid 0 0 s = Ok () (put h s) ∧ changes b (opened irq apicid g) (d_hw s) h.
Proof.
  intros Hb Hirq Hid Hcov. induction pre as [|[[c k] l] pre IH]; intros s Hpre; cbn [app ioapic_enable_loop].
  - destruct (maxintr_run b s Hb) as (h1 & E1 & Hc1). rewrite (bind_Ok _ _ _ _ _ E1). unfold covers in Hcov. cbn [fst snd] in Hcov.
    pose proof (lines_small b Hb) as Hl. rewrite !bool_decide_eq_true_2 by lia. cbn [andb].
    replace (Z.lor (Z.lor (Z.shiftl 0 15) (Z.shiftl 0 13)) (T_IRQ0 + irq)) with (T_IRQ0 + irq) by done. rewrite Z.shiftl_mul_pow2 by lia. change (2 ^ 24) with 16777216.
    destruct (write_run b (IOAPIC_TABLE + 2 * (irq - g)) (T_IRQ0 + irq) (put h1 s) Hb) as (h2 & E2 & Hc2); [unfold is_u32, W32, IOAPIC_TABLE, T_IRQ0; lia..|].
    rewrite (bind_Ok _ _ _ _ _ E2).
    destruct (write_run b (IOAPIC_TABLE + 2 * (irq - g) + 1) (apicid * 16777216) (put h2 s) Hb) as (h3 & E3 & Hc3); [unfold is_u32, W32, IOAPIC_TABLE; lia..|].
    exists h3. split; [exact E3|]. eapply changes_ext; [|exact (changes_trans _ _ _ _ _ _ (changes_trans _ _ _ _ _ _ Hc1 Hc2) Hc3)].
    intros n. cbv beta. unfold opened. destruct (one _ (apicid * 16777216) n); [done|]. by destruct (one _ _ n).
  - apply Forall_cons in Hpre as [[Hc Hno] Hpre]. destruct (maxintr_run c s Hc) as (h1 & E1 & Hc1). rewrite (bind_Ok _ _ _ _ _ E1).
    unfold covers in Hno. cbn [fst snd] in *. assert (bool_decide (irq >= l) && bool_decide (irq <= l + lines c) = false) as ->.
    { apply not_true_iff_false. intros [H1%bool_decide_eq_true_1 H2%bool_decide_eq_true_1]%andb_prop. lia. }
    destruct (IH (put h1 s) Hpre) as (h2 & E2 & Hc2). exists h2. split; [exact E2|].
    eapply changes_ext; [|exact (changes_trans _ _ _ _ _ _ (changes_any b _ _ _ Hc1) Hc2)]. intros n. cbv beta. by destruct (opened _ _ _ n).
Qed.

(** With no such I/O APIC the kernel panics. *)
Lemma enable_loop_none irq apicid tm pol : ∀ io s, Forall (λ x : Z * Z * Z, x.1.1 ∈ B ∧ ¬ covers irq x) io → ioapic_enable_loop io irq apicid tm pol s = Panic.
Proof.
  induction io as [|[[c k] l] pre IH]; intros s Hpre; [done|]. cbn [ioapic_enable_loop]. apply Forall_cons in Hpre as [[Hc Hno] Hpre].
  destruct (maxintr_run c s Hc) as (h1 & E1 & Hc1). rewrite (bind_Ok _ _ _ _ _ E1). unfold covers in Hno. cbn [fst snd] in *.
  assert (bool_decide (irq >= l) && bool_decide (irq <= l + lines c) = false) as ->; [|by apply IH].
  apply not_true_iff_false. intros [H1%bool_decide_eq_true_1 H2%bool_decide_eq_true_1]%andb_prop. lia.
Qed.

(** What the words at a line come to. *)
Lemma closed_entry m j : 0 <= j < m → closed_regs m (IOAPIC_TABLE + 2 * j) = Some (closed_line j).1 ∧ closed_regs m (IOAPIC_TABLE + 2 * j + 1) = Some (closed_line j).2.
Proof.
  intros Hj. unfold closed_regs, IOAPIC_TABLE. split.
  - rewrite !bool_decide_eq_true_2 by (Z.div_mod_to_equations; lia). do 3 f_equal. Z.div_mod_to_equations. lia.
  - rewrite bool_decide_eq_true_2, bool_decide_eq_false_2 by (Z.div_mod_to_equations; lia). done.
Qed.

Lemma opened_entry irq apicid g j :
  (opened irq apicid g (IOAPIC_TABLE + 2 * j) = if bool_decide (j = irq - g) then Some (open_line irq apicid).1 else None) ∧
  (opened irq apicid g (IOAPIC_TABLE + 2 * j + 1) = if bool_decide (j = irq - g) then Some (open_line irq apicid).2 else None).
Proof.
  unfold opened, one. split.
  - rewrite bool_decide_eq_false_2 by lia. case_bool_decide; case_bool_decide; [done|exfalso; lia|exfalso; lia|done].
  - rewrite (bool_decide_eq_false_2 (_ = IOAPIC_TABLE + 2 * (irq - g))) by lia. case_bool_decide; case_bool_decide; [done|exfalso; lia|exfalso; lia|done].
Qed.
End Tables.

(** C30: one line and no other.  Let the I/O APICs that were registered have their version
    registers report their lines, at addresses that do not overlap.  Then initializing them
    and enabling an interrupt leaves every line of every one masked and pointing to no
    processor, except the line of that interrupt on the first I/O APIC that has it, which
    is open, edge triggered, delivers the vector 32 + irq and points to the local APIC
    asked for. *)
Theorem ioapic_one_line `{Machine} (lines : Z → Z) irq apicid s pre b i g post :
  let B := (λ x : Z * Z * Z, x.1.1) <$> ioapics s in
  (∀ x y, x ∈ B → y ∈ B → x ≠ y + 16) → (∀ x, x ∈ B → 0 <= lines x < 256) →
  (∀ h x, x ∈ B → iosel x h = Some IOAPIC_VER → Z.land (Z.shiftr (u32 (answer h (QLoad (x + 16)))) 16) 255 = lines x) →
  Forall (λ x : Z * Z * Z, x.1.1 ≠ 0 ∧ 0 <= x.1.2 < 256) (ioapics s) →
  ioapics s = pre ++ (b, i, g) :: post → Forall (λ x, ¬ covers lines irq x) pre → covers lines irq (b, i, g) →
  0 <= irq < 256 → 0 <= apicid < 256 →
  ∃ s', (ioapic_init ;; ioapic_enable irq apicid 0 0) s = Ok () s' ∧
    ∀ c j, c ∈ B → 0 <= j <= lines c →
      redirection c j (d_hw s') = Some (if bool_decide (c = b ∧ j = irq - g) then open_line irq apicid else closed_line j).
Proof.
  intros B HB Hl Hv Hok Eio Hpre Hcov Hirq Hid. assert (Forall (λ x : Z * Z * Z, x.1.1 ∈ B ∧ x.1.1 ≠ 0 ∧ 0 <= x.1.2 < 256) (ioapics s)) as Hio.
  { apply Forall_forall. intros x Hx. split; [exact (list_elem_of_fmap_2 (λ x : Z * Z * Z, x.1.1) _ _ Hx)|]. exact (proj1 (Forall_forall _ _) Hok x Hx). }
  destruct (init_loop_run B lines HB Hl Hv (ioapics s) s Hio) as (h1 & E1 & Hr1).
  assert (Forall (λ x : Z * Z * Z, x.1.1 ∈ B ∧ ¬ covers lines irq x) pre ∧ b ∈ B) as [Hpre' Hb].
  { rewrite Eio in Hio. apply Forall_app in Hio as [H1 H2]. apply Forall_cons in H2 as [(Hb & _) _]. split; [|exact Hb].
    apply Forall_and. split; [|exact Hpre]. eapply Forall_impl; [exact H1|]. by intros ? [? _]. }
  destruct (enable_loop_run B lines HB Hl Hv irq apicid b i g post Hb Hirq Hid Hcov pre (put h1 s) Hpre') as (h2 & E2 & Hc2).
  exists (put h2 s). split.
  { rewrite (bind_Ok ioapic_init _ s () (put h1 s)); [|by unfold ioapic_init; rewrite (bind_Ok (gets _) _ s _ s eq_refl)].
    unfold ioapic_enable. rewrite (bind_Ok (gets _) _ (put (Lens:=d_hw_lens) h1 s) (ioapics s) (put (Lens:=d_hw_lens) h1 s) eq_refl), Eio. exact E2. }
  intros c j Hc Hj. change (d_hw (put h2 s)) with h2. unfold redirection.
  assert (∀ n, IOAPIC_TABLE <= n → ioreg c n h1 = match closed_regs (lines c + 1) n with Some v => Some v | None => ioreg c n (d_hw s) end) as Hr.
  { intros n Hn. rewrite (Hr1 c n Hc Hn). rewrite bool_decide_eq_true_2 by exact Hc. done. }
  destruct (closed_entry (lines c + 1) j ltac:(lia)) as [K1 K2]. destruct (opened_entry irq apicid g j) as [O1 O2].
  rewrite !(Hc2 c _ Hc), O1, O2. change (d_hw (put h1 s)) with h1. rewrite !Hr, K1, K2 by (unfold IOAPIC_TABLE; lia).
  rewrite (bool_decide_and (c = b) (j = irq - g)). destruct (bool_decide (c = b)), (bool_decide (j = irq - g)); reflexivity.
Qed.

(** Two I/O APICs of 24 and 8 lines; the second has the interrupts from 24 on. *)
#[local] Instance two_apics : Machine := {|
  answer _ q := match q with QLoad a => if bool_decide (a = 4273995792) then 1507328 else 458752 | _ => 0 end;
  cpuid_regs _ _ := (0, 0, 0, 0)
|}.

Definition two_lines (b : Z) : Z := if bool_decide (b = 4273995776) then 23 else 7.

Definition board : dev_st := {|
  d_hw := []; ram _ := 0; irqmask := 65531; disk_irqmask := 65531; pic_inited := false; lapic := 4276092928;
  ioapics := [(4273995776, 2, 0); (4273999872, 3, 24)]; tsc_per_ms := 0
|}.

Lemma ioapic_one_line_witness : ∃ s', (ioapic_init ;; ioapic_enable 25 1 0 0) board = Ok () s' ∧
  ∀ c j, c ∈ [4273995776; 4273999872] → 0 <= j <= two_lines c →
    redirection c j (d_hw s') = Some (if bool_decide (c = 4273999872 ∧ j = 25 - 24) then open_line 25 1 else closed_line j).
Proof.
  apply (ioapic_one_line two_lines 25 1 board [(4273995776, 2, 0)] 4273999872 3 24 []).
  - intros x y Hx Hy. apply list_elem_of_In in Hx as [<-|[<-|[]]]; apply list_elem_of_In in Hy as [<-|[<-|[]]]; discriminate.
  - intros x Hx. apply list_elem_of_In in Hx as [<-|[<-|[]]]; vm_compute; by split.
  - intros h x Hx _. apply list_elem_of_In in Hx as [<-|[<-|[]]]; vm_compute; reflexivity.
  - repeat (apply Forall_cons; split; [vm_compute; by split|]). by apply Forall_nil.
  - reflexivity.
  - apply Forall_cons. split; [intros [_ Hc]; vm_compute in Hc; by apply Hc|by apply Forall_nil].
  - vm_compute. by split.
  - vm_compute. by split.
  - vm_compute. by split.
Defined.

(** ** Counts and times *)

(** The initial count of the local APIC's timer is the count of a millisecond, unless the
    timer is faster than 4.29 GHz: then the product wraps around. *)
Lemma lapic_ticr_exact per_ms : 0 <= per_ms <= 4294967 → lapic_ticr per_ms = per_ms.
Proof. intros Hp. unfold lapic_ticr, LAPIC_TIMER_INTR_FREQ. rewrite u32_small by (unfold is_u32, W32; lia). Z.div_mod_to_equations. lia. Qed.

Example lapic_ticr_wraps : lapic_ticr 4294968 = 0.
Proof. reflexivity. Qed.

(** The timer interrupts at 100 Hz, to within 1 in 10000. *)
Example latch_rate : LATCH = 11932 ∧ 0 < LATCH < 65536.
Proof. by split. Qed.

(** A wait that ends ends at its time or later. *)
Lemma tsc_wait_done `{Machine} polls until s s' : tsc_wait polls until s = Ok () s' → ∃ t h, d_hw s' = Tsc t :: h ∧ until <= t.
Proof.
  revert s. induction polls as [|polls IH]; intros s E; [discriminate E|]. cbn [tsc_wait] in E. apply bind_inv in E as (t & s1 & E1 & E).
  case_bool_decide as Hlt; [by apply IH in E|]. injection E as <-. unfold rdtsc, zoom in E1. injection E1 as <- <-. eexists _, _. split; [reflexivity|lia].
Qed.
