(* ===== verification/Mp.v ===== *)
(** * The processors (kern/dev/acpi.c, kern/dev/pcpu_mp.c, kern/pcpu/PCPUIntro/PCPUIntro.c,
      kern/pcpu/PCPUInit/PCPUInit.c)

    At start the kernel looks through the memory of the firmware for the ACPI tables, or the
    older MP tables, and enters the processors and the I/O APICs it finds there.  Memory is
    a function from addresses to bytes.  It is proved that the entries of a MADT table are
    entered in their order.  What is printed meanwhile is left out. *)

From S2P Require Import Prelude Spinlock CString Hw Apic.

(** ** Reading memory *)

Definition rd8 (f : Z → Z) (a : Z) : Z := u8 (f a).
Definition rd16 (f : Z → Z) (a : Z) : Z := rd8 f a + 256 * rd8 f (a + 1).
Definition rd32 (f : Z → Z) (a : Z) : Z := rd16 f a + 65536 * rd16 f (a + 2).

(** The sum of [n] bytes, as a byte. *)
Fixpoint sum (f : Z → Z) (a : Z) (n : nat) : Z :=
  match n with O => 0 | S n => u8 (rd8 f a + sum f (a + 1) n) end.

(** An [int] as a number of rounds. *)
Definition rounds (len : Z) : nat := Z.to_nat (s32 len).

(** ** ACPI *)

Definition ACPI_RSDP_SIG1 : Z := 541348690.
Definition ACPI_RSDP_SIG2 : Z := 542266448.
Definition ACPI_RSDT_SIG : Z := 1413763922.
Definition ACPI_XSDT_SIG : Z := 1413763928.
Definition ACPI_MADT_SIG : Z := 1128878145.
Definition RSDP_SIZE : nat := 36.

(** [p] goes from [addr] in steps of 16 bytes; [n] steps reach the end. *)
Fixpoint rsdp_scan (f : Z → Z) (n : nat) (p : Z) : option Z :=
  match n with
  | O => None
  | S n =>
      if bool_decide (rd32 f p = ACPI_RSDP_SIG1) && bool_decide (rd32 f (p + 4) = ACPI_RSDP_SIG2) && bool_decide (sum f p RSDP_SIZE = 0) then Some p
      else rsdp_scan f n (p + 16)
  end.

Definition acpi_probe_rsdp_aux (f : Z → Z) (addr length : Z) : option Z := rsdp_scan f (Z.to_nat ((length + 15) / 16)) addr.

(** The address in the BIOS data area, then the BIOS. *)
Definition ebda (f : Z → Z) : Z := Z.shiftl (Z.lor (Z.shiftl (rd8 f 1039) 8) (rd8 f 1038)) 4.

Definition acpi_probe_rsdp (f : Z → Z) : option Z :=
  let high := acpi_probe_rsdp_aux f 917504 131071 in
  if bool_decide (ebda f ≠ 0) then
    match acpi_probe_rsdp_aux f (ebda f) 1024 with Some r => Some r | None => high end
  else high.

Definition table_at (f : Z → Z) (a sig : Z) : option Z :=
  if bool_decide (a = 0) then None
  else if bool_decide (rd32 f a = sig) && bool_decide (sum f a (rounds (rd32 f (a + 4))) = 0) then Some a
  else None.

Definition acpi_probe_rsdt (f : Z → Z) (rsdp : Z) : option Z := table_at f (rd32 f (rsdp + 16)) ACPI_RSDT_SIG.

(** The 64-bit address is cut to 32 bits. *)
Definition acpi_probe_xsdt (f : Z → Z) (rsdp : Z) : option Z := table_at f (rd32 f (rsdp + 24)) ACPI_XSDT_SIG.

(** The entries of [w] bytes from [p] to [e]; [n] rounds reach the end. *)
Fixpoint sdt_scan (f : Z → Z) (w sig : Z) (n : nat) (p e : Z) : option Z :=
  match n with
  | O => None
  | S n =>
      if bool_decide (p < e) then
        let hdr := rd32 f p in
        if bool_decide (rd32 f hdr = sig) && bool_decide (sum f hdr (rounds (rd32 f (hdr + 4))) = 0) then Some hdr
        else sdt_scan f w sig n (p + w) e
      else None
  end.

Definition sdt_ent (f : Z → Z) (w sdt sig : Z) : option Z :=
  let len := rd32 f (sdt + 4) in sdt_scan f w sig (S (Z.to_nat len)) (sdt + 36) (sdt + len).

Definition acpi_probe_rsdt_ent (f : Z → Z) (rsdt sig : Z) : option Z := sdt_ent f 4 rsdt sig.
Definition acpi_probe_xsdt_ent (f : Z → Z) (xsdt sig : Z) : option Z := sdt_ent f 8 xsdt sig.

(** The MADT as [pcpu_mp_init] finds it. *)
Definition find_madt (f : Z → Z) : option Z :=
  rsdp ← acpi_probe_rsdp f;
  match acpi_probe_xsdt f rsdp with
  | Some xsdt => acpi_probe_xsdt_ent f xsdt ACPI_MADT_SIG
  | None => rsdt ← acpi_probe_rsdt f rsdp; acpi_probe_rsdt_ent f rsdt ACPI_MADT_SIG
  end.

(** ** The MP tables *)

Definition MP_SIG : Z := 1599098207.
Definition PCMP_SIG : Z := 1347240784.

Fixpoint mp_scan (f : Z → Z) (n : nat) (p : Z) : option Z :=
  match n with
  | O => None
  | S n => if bool_decide (rd32 f p = MP_SIG) && bool_decide (sum f p 16 = 0) then Some p else mp_scan f n (p + 16)
  end.

Definition mpsearch1 (f : Z → Z) (addr len : Z) : option Z := mp_scan f (Z.to_nat ((len + 15) / 16)) addr.

Definition mpsearch (f : Z → Z) : option Z :=
  let first :=
    if bool_decide (ebda f ≠ 0) then mpsearch1 f (ebda f) 1024
    else mpsearch1 f (u32 (Z.lor (Z.shiftl (rd8 f 1044) 8) (rd8 f 1043) * 1024 - 1024)) 1024 in
  match first with Some m => Some m | None => mpsearch1 f 983040 65536 end.

(** The floating structure and the configuration. *)
Definition mpconfig (f : Z → Z) : option (Z * Z) :=
  mp ← mpsearch f;
  let conf := rd32 f (mp + 4) in
  if bool_decide (conf = 0) then None
  else if bool_decide (rd32 f conf ≠ PCMP_SIG) then None
  else if bool_decide (rd8 f (conf + 6) ≠ 1) && bool_decide (rd8 f (conf + 6) ≠ 4) then None
  else if bool_decide (sum f conf (Z.to_nat (rd16 f (conf + 4))) ≠ 0) then None
  else Some (mp, conf).

(** ** State *)

Inductive cpu_vendor := INTEL | AMD | UNKNOWN_CPU.

Record pcpuinfo := {
  lapicid : Z; bsp : bool; cpuid_high : Z; vendor : list Z; vendor_kind : cpu_vendor;
  family : Z; model : Z; step : Z; ext_family : Z; ext_model : Z;
  brand_idx : Z; clflush_size : Z; max_cpu_id : Z; apic_id : Z; feature1 : Z; feature2 : Z;
  l1_cache_size : Z; l1_cache_line_size : Z; cpuid_exthigh : Z
}.

(** All zero: [INTEL] is the first of its kind. *)
Definition no_info : pcpuinfo := {|
  lapicid := 0; bsp := false; cpuid_high := 0; vendor := replicate 20 0; vendor_kind := INTEL;
  family := 0; model := 0; step := 0; ext_family := 0; ext_model := 0;
  brand_idx := 0; clflush_size := 0; max_cpu_id := 0; apic_id := 0; feature1 := 0; feature2 := 0;
  l1_cache_size := 0; l1_cache_line_size := 0; cpuid_exthigh := 0
|}.

Record pcpu_t := { inited : bool; booted : bool; kstack : Z; arch_info : pcpuinfo; cpu_idx : Z }.

Definition no_pcpu : pcpu_t := {| inited := false; booted := false; kstack := 0; arch_info := no_info; cpu_idx := 0 |}.

(** [ks_idx] and [ks_addr] are the index in the kernel stack of the running processor and
    the address of that stack. *)
Record mp_st := {
  m_dev : dev_st;
  ncpu : Z;
  mp_inited : bool;
  ismp : bool;
  pcpu : list pcpu_t;
  pcpu_inited : bool;
  ks_idx : Z;
  ks_addr : Z
}.

#[global, program] Instance m_dev_lens : Lens mp_st dev_st := {|
  view := m_dev;
  put d s := {| m_dev := d; ncpu := ncpu s; mp_inited := mp_inited s; ismp := ismp s; pcpu := pcpu s; pcpu_inited := pcpu_inited s;
                ks_idx := ks_idx s; ks_addr := ks_addr s |}
|}.
Next Obligation. done. Qed.
Next Obligation. by intros []. Qed.
Next Obligation. done. Qed.

Definition set_mp (n : Z) (i m : bool) (s : mp_st) : mp_st :=
  {| m_dev := m_dev s; ncpu := n; mp_inited := i; ismp := m; pcpu := pcpu s; pcpu_inited := pcpu_inited s; ks_idx := ks_idx s; ks_addr := ks_addr s |}.
Definition set_ncpu (n : Z) (s : mp_st) : mp_st := set_mp n (mp_inited s) (ismp s) s.
Definition set_pcpu (l : list pcpu_t) (s : mp_st) : mp_st :=
  {| m_dev := m_dev s; ncpu := ncpu s; mp_inited := mp_inited s; ismp := ismp s; pcpu := l; pcpu_inited := pcpu_inited s; ks_idx := ks_idx s; ks_addr := ks_addr s |}.
Definition set_pcpu_inited (b : bool) (s : mp_st) : mp_st :=
  {| m_dev := m_dev s; ncpu := ncpu s; mp_inited := mp_inited s; ismp := ismp s; pcpu := pcpu s; pcpu_inited := b; ks_idx := ks_idx s; ks_addr := ks_addr s |}.

(** ** The table of processors (PCPUIntro.c) *)

Definition pcpu_get {A} (f : pcpu_t → A) (i : Z) : M mp_st A := λ s,
  if bool_decide (0 <= i) then match pcpu s !! Z.to_nat i with Some p => Ok (f p) s | None => Undef end else Undef.

Definition pcpu_upd (f : pcpu_t → pcpu_t) (i : Z) : M mp_st () := λ s,
  if bool_decide (0 <= i < Z.of_nat (length (pcpu s))) then Ok () (set_pcpu (alter f (Z.to_nat i) (pcpu s)) s) else Undef.

Definition pcpu_set_zero : M mp_st () := modify (set_pcpu (replicate (Z.to_nat NUM_CPUS) no_pcpu)).

Definition pcpu_fields_init (i : Z) : M mp_st () :=
  pcpu_upd (λ p, {| inited := true; booted := booted p; kstack := kstack p; arch_info := arch_info p; cpu_idx := i |}) i.

Definition get_pcpu_idx : M mp_st Z := i ← gets ks_idx; pcpu_get cpu_idx i.
Definition set_pcpu_idx (i v : Z) : M mp_st () :=
  pcpu_upd (λ p, {| inited := inited p; booted := booted p; kstack := kstack p; arch_info := arch_info p; cpu_idx := v |}) i.
Definition get_pcpu_kstack_pointer : Z → M mp_st Z := pcpu_get kstack.
Definition set_pcpu_kstack_pointer (i v : Z) : M mp_st () :=
  pcpu_upd (λ p, {| inited := inited p; booted := booted p; kstack := v; arch_info := arch_info p; cpu_idx := cpu_idx p |}) i.
Definition get_pcpu_boot_info : Z → M mp_st bool := pcpu_get booted.
Definition set_pcpu_boot_info (i : Z) (b : bool) : M mp_st () :=
  pcpu_upd (λ p, {| inited := inited p; booted := b; kstack := kstack p; arch_info := arch_info p; cpu_idx := cpu_idx p |}) i.
Definition get_pcpu_cpu_vendor : Z → M mp_st cpu_vendor := pcpu_get (λ p, vendor_kind (arch_info p)).
Definition get_pcpu_inited_info : Z → M mp_st bool := pcpu_get inited.

(** [get_pcpu_arch_info_pointer] and a store or a load through it. *)
Definition upd_info (f : pcpuinfo → pcpuinfo) (i : Z) : M mp_st () :=
  pcpu_upd (λ p, {| inited := inited p; booted := booted p; kstack := kstack p; arch_info := f (arch_info p); cpu_idx := cpu_idx p |}) i.
Definition get_info {A} (f : pcpuinfo → A) : Z → M mp_st A := pcpu_get (λ p, f (arch_info p)).

(** ** Identification *)

Section Cpus.
Context `{Machine}.

(** The image of the code for the other processors, and the address of [kern_init_ap]. *)
Context (ap_image : list Z) (kern_init_ap : Z).

Definition genuine_intel : list Z := [71; 101; 110; 117; 105; 110; 101; 73; 110; 116; 101; 108; 0].
Definition authentic_amd : list Z := [65; 117; 116; 104; 101; 110; 116; 105; 99; 65; 77; 68; 0].

Definition vendor_of (v : list Z) : cpu_vendor :=
  if bool_decide (strncmp v genuine_intel 20 = Some 0) then INTEL
  else if bool_decide (strncmp v authentic_amd 20 = Some 0) then AMD
  else UNKNOWN_CPU.

(** Size in KB and line size for a descriptor of leaf 2; the table ends at 254. *)
Definition intel_cache_info (d : Z) : option (Z * Z) :=
  if bool_decide (0 <= d < 255) then
    Some match d with
         | 10 => (8, 32) | 12 => (16, 32) | 13 => (16, 64) | 14 => (24, 64) | 44 => (32, 64)
         | 96 => (16, 64) | 102 => (8, 64) | 103 => (16, 64) | 104 => (32, 64)
         | _ => (0, 0)
         end
  else None.

Definition set_cache (c : Z * Z) (x : pcpuinfo) : pcpuinfo := {|
  lapicid := lapicid x; bsp := bsp x; cpuid_high := cpuid_high x; vendor := vendor x; vendor_kind := vendor_kind x;
  family := family x; model := model x; step := step x; ext_family := ext_family x; ext_model := ext_model x;
  brand_idx := brand_idx x; clflush_size := clflush_size x; max_cpu_id := max_cpu_id x; apic_id := apic_id x; feature1 := feature1 x; feature2 := feature2 x;
  l1_cache_size := c.1; l1_cache_line_size := c.2; cpuid_exthigh := cpuid_exthigh x
|}.

(** Every descriptor is looked up, and each one overwrites what the one before it gave. *)
Fixpoint descriptors (i : Z) (ds : list Z) : M mp_st () :=
  match ds with
  | [] => mret ()
  | d :: ds => match intel_cache_info d with Some c => upd_info (set_cache c) i ;; descriptors i ds | None => undef end
  end.

(** The first of three sub-leaves of leaf 4 that describes a first-level data cache. *)
Fixpoint leaf4 (n : nat) (i : Z) : option (Z * Z) :=
  match n with
  | O => None
  | S n =>
      let '(eax, ebx, ecx, _) := cpuid_regs 4 i in
      if bool_decide (Z.land eax 15 = 1) && bool_decide (Z.shiftr (Z.land eax 224) 5 = 1) then
        let line := Z.land ebx 4095 + 1 in
        Some (u32 ((Z.shiftr (Z.land ebx 4290772992) 22 + 1) * (Z.shiftr (Z.land ebx 4190208) 12 + 1) * line * (ecx + 1)) / 1024, line)
      else leaf4 n (i + 1)
  end.

Definition intel_cache (i : Z) : M mp_st () :=
  let '(eax, ebx, ecx, edx) := cpuid_regs 2 0 in
  descriptors i (word_bytes eax ++ word_bytes ebx ++ word_bytes ecx ++ word_bytes edx) ;;
  c ← get_info (λ x, (l1_cache_size x, l1_cache_line_size x)) i;
  if bool_decide (c.1 ≠ 0) && bool_decide (c.2 ≠ 0) then mret ()
  else match leaf4 3 0 with None => mret () | Some c => upd_info (set_cache c) i end.

Definition amd_cache (i : Z) : M mp_st () :=
  let '(_, _, ecx, _) := cpuid_regs 2147483653 0 in
  upd_info (set_cache (Z.shiftr (Z.land ecx 4278190080) 24, Z.land ecx 255)) i.

(** Leaves 0 and 1. *)
Definition identified (x : pcpuinfo) : pcpuinfo :=
  let '(eax0, ebx0, ecx0, edx0) := cpuid_regs 0 0 in
  let '(eax, ebx, ecx, edx) := cpuid_regs 1 0 in
  let v := word_bytes ebx0 ++ word_bytes edx0 ++ word_bytes ecx0 ++ 0 :: drop 13 (vendor x) in
  {| lapicid := lapicid x; bsp := bsp x; cpuid_high := eax0; vendor := v; vendor_kind := vendor_of v;
     family := Z.land (Z.shiftr eax 8) 15; model := Z.land (Z.shiftr eax 4) 15; step := Z.land eax 15;
     ext_family := Z.land (Z.shiftr eax 20) 255; ext_model := Z.land (Z.shiftr eax 16) 255;
     brand_idx := Z.land ebx 255; clflush_size := Z.land (Z.shiftr ebx 8) 255; max_cpu_id := Z.land (Z.shiftr ebx 16) 255;
     apic_id := Z.land (Z.shiftr ebx 24) 255; feature1 := ecx; feature2 := edx;
     l1_cache_size := l1_cache_size x; l1_cache_line_size := l1_cache_line_size x; cpuid_exthigh := cpuid_exthigh x |}.

Definition set_exthigh (v : Z) (x : pcpuinfo) : pcpuinfo := {|
  lapicid := lapicid x; bsp := bsp x; cpuid_high := cpuid_high x; vendor := vendor x; vendor_kind := vendor_kind x;
  family := family x; model := model x; step := step x; ext_family := ext_family x; ext_model := ext_model x;
  brand_idx := brand_idx x; clflush_size := clflush_size x; max_cpu_id := max_cpu_id x; apic_id := apic_id x; feature1 := feature1 x; feature2 := feature2 x;
  l1_cache_size := l1_cache_size x; l1_cache_line_size := l1_cache_line_size x; cpuid_exthigh := v
|}.

Definition pcpu_identify : M mp_st () :=
  i ← get_pcpu_idx;
  upd_info identified i ;;
  v ← get_info vendor_kind i;
  match v with
  | INTEL => intel_cache i
  | AMD => amd_cache i
  | UNKNOWN_CPU => upd_info (set_cache (0, 0)) i
  end ;;
  upd_info (set_exthigh (cpuid_regs 2147483648 0).1.1.1) i.

(** ** The processors of the tables *)

Definition set_lapic (id : Z) (b : bool) (x : pcpuinfo) : pcpuinfo := {|
  lapicid := id; bsp := b; cpuid_high := cpuid_high x; vendor := vendor x; vendor_kind := vendor_kind x;
  family := family x; model := model x; step := step x; ext_family := ext_family x; ext_model := ext_model x;
  brand_idx := brand_idx x; clflush_size := clflush_size x; max_cpu_id := max_cpu_id x; apic_id := apic_id x; feature1 := feature1 x; feature2 := feature2 x;
  l1_cache_size := l1_cache_size x; l1_cache_line_size := l1_cache_line_size x; cpuid_exthigh := cpuid_exthigh x
|}.

Definition pcpu_mp_init_cpu (idx lapic_id : Z) (is_bsp : bool) : M mp_st () :=
  if is_bsp && bool_decide (idx ≠ 0) then kern_panic
  else if bool_decide (idx >= NUM_CPUS) then mret ()
  else upd_info (set_lapic lapic_id is_bsp) idx.

(** Interrupts through the APIC. *)
Definition imcr_on : M mp_st () := zoom (outb 34 112 ;; v ← inb 35; outb 35 (Z.lor v 1) : M dev_st ()).

Fixpoint bytes_set (a : Z) (l : list Z) (f : Z → Z) : Z → Z :=
  match l with [] => f | b :: l => bytes_set (a + 1) l (byte_set a b f) end.

(** The code for the other processors goes to 0x8000. *)
Definition copy_ap : M mp_st () := zoom (modify (λ d, set_ram (bytes_set 32768 ap_image (ram d)) d)).

Definition mp_done : M mp_st () := modify (λ s, set_mp (ncpu s) true (ismp s) s).

(** The entries of the MP configuration; an unknown one is looked at again and again. *)
Fixpoint mpconf_loop (f : Z → Z) (fuel : nat) (p e ap_idx : Z) : M mp_st () :=
  match fuel with
  | O => spin
  | S fuel =>
      if bool_decide (p < e) then
        match rd8 f p with
        | 0 =>
            let flags := rd8 f (p + 3) in
            if bool_decide (Z.land flags 1 = 0) then mpconf_loop f fuel (p + 20) e ap_idx
            else if bool_decide (Z.land flags 2 ≠ 0) then
              pcpu_mp_init_cpu 0 (rd8 f (p + 1)) true ;;
              modify (λ s, set_ncpu (ncpu s + 1) s) ;;
              mpconf_loop f fuel (p + 20) e ap_idx
            else
              pcpu_mp_init_cpu ap_idx (rd8 f (p + 1)) false ;;
              modify (λ s, set_ncpu (ncpu s + 1) s) ;;
              mpconf_loop f fuel (p + 20) e (ap_idx + 1)
        | 2 => zoom (ioapic_register (rd32 f (p + 4)) (rd8 f (p + 1)) 0) ;; mpconf_loop f fuel (p + 8) e ap_idx
        | 1 | 3 | 4 => mpconf_loop f fuel (p + 8) e ap_idx
        | _ => mpconf_loop f fuel p e ap_idx
        end
      else mret ()
  end.

Definition mp_init_fallback : M mp_st bool :=
  i ← gets mp_inited;
  if (i : bool) then mret true
  else
    f ← gets (λ s, ram (m_dev s));
    match mpconfig f with
    | None => mret false
    | Some (mp, conf) =>
        modify (λ s, set_mp 0 (mp_inited s) true s) ;;
        zoom (lapic_register (rd32 f (conf + 36))) ;;
        mpconf_loop f (S (Z.to_nat (rd16 f (conf + 4)))) (conf + 44) (conf + rd16 f (conf + 4)) 1 ;;
        (if bool_decide (rd8 f (mp + 12) ≠ 0) then imcr_on else mret ()) ;;
        copy_ap ;;
        mp_done ;;
        mret true
    end.

(** The entries of the MADT; [found] is [found_bsp]. *)
Fixpoint madt_loop (f : Z → Z) (fuel : nat) (p e ap_idx : Z) (found : bool) : M mp_st () :=
  match fuel with
  | O => spin
  | S fuel =>
      if bool_decide (p < e) then
        let next := p + rd8 f (p + 1) in
        match rd8 f p with
        | 0 =>
            if bool_decide (Z.land (rd32 f (p + 4)) 1 = 0) then madt_loop f fuel next e ap_idx found
            else if negb found then
              pcpu_mp_init_cpu 0 (rd8 f (p + 3)) true ;;
              modify (λ s, set_ncpu (ncpu s + 1) s) ;;
              madt_loop f fuel next e ap_idx true
            else
              pcpu_mp_init_cpu ap_idx (rd8 f (p + 3)) false ;;
              modify (λ s, set_ncpu (ncpu s + 1) s) ;;
              madt_loop f fuel next e (ap_idx + 1) found
        | 1 => zoom (ioapic_register (rd32 f (p + 4)) (rd8 f (p + 2)) (rd32 f (p + 8))) ;; madt_loop f fuel next e ap_idx found
        | _ => madt_loop f fuel next e ap_idx found
        end
      else mret ()
  end.

Definition pcpu_mp_init : M mp_st bool :=
  i ← gets mp_inited;
  if (i : bool) then mret true
  else
    f ← gets (λ s, ram (m_dev s));
    match find_madt f with
    | Some madt =>
        modify (λ s, set_mp (ncpu s) (mp_inited s) true s) ;;
        zoom (lapic_register (rd32 f (madt + 36))) ;;
        modify (set_ncpu 0) ;;
        madt_loop f (S (Z.to_nat (rd32 f (madt + 4)))) (madt + 44) (madt + rd32 f (madt + 4)) 1 false ;;
        (if bool_decide (Z.land (rd32 f (madt + 40)) 1 = 0) then imcr_on else mret ()) ;;
        copy_ap ;;
        mp_done ;;
        mret true
    | None =>
        r ← mp_init_fallback;
        if (r : bool) then mret true
        else modify (λ s, set_mp 1 (mp_inited s) false s) ;; mret false
    end.

(** ** The rest of pcpu_mp.c, and PCPUInit.c *)

Definition pcpu_ncpu : M mp_st Z := gets ncpu.
Definition pcpu_is_smp : M mp_st bool := gets ismp.

Definition pcpu_onboot : M mp_st bool :=
  i ← get_pcpu_idx;
  b ← get_info bsp i;
  m ← gets mp_inited;
  if (m : bool) then mret (b : bool) else mret (bool_decide (i = 0)).

Definition pcpu_cpu_lapicid (i : Z) : M mp_st Z :=
  n ← gets ncpu;
  if bool_decide (0 <= i < n) then get_info lapicid i else kern_panic.

Definition dword_set (a v : Z) (f : Z → Z) : Z → Z := bytes_set a (word_bytes v) f.

(** What the other processors do to the state while this one looks, between two looks. *)
Context (others : mp_st → mp_st).

Fixpoint wait_booted (polls : nat) (i : Z) : M mp_st () :=
  match polls with
  | O => spin
  | S polls => b ← get_pcpu_boot_info i; if (b : bool) then mret () else modify others ;; wait_booted polls i
  end.

Definition pcpu_boot_ap (polls : nat) (i fn stack_addr : Z) : M mp_st Z :=
  n ← gets ncpu;
  if negb (bool_decide (0 < i < n)) then kern_panic
  else
    ini ← get_pcpu_inited_info i;
    if negb ini || bool_decide (fn = 0) then kern_panic
    else
      on ← pcpu_onboot;
      if negb on then mret 1
      else
        b ← get_pcpu_boot_info i;
        if (b : bool) then mret 0
        else
          zoom (modify (λ d, set_ram (dword_set 32756 kern_init_ap (dword_set 32760 fn (dword_set 32764 (u32 (stack_addr + 4096)) (ram d)))) d)) ;;
          id ← pcpu_cpu_lapicid i;
          zoom (lapic_startcpu id 32768) ;;
          wait_booted polls i ;;
          mret 0.

Definition pcpu_init_cpu : M mp_st () := pcpu_identify.

Definition pcpu_init_boot : M mp_st () :=
  pcpu_set_zero ;;
  pcpu_mp_init ;;
  for_range 0 NUM_CPUS pcpu_fields_init ;;
  modify (set_pcpu_inited true).

Definition pcpu_init_this (i : Z) : M mp_st () :=
  a ← gets ks_addr;
  set_pcpu_idx i i ;;
  set_pcpu_kstack_pointer i a ;;
  set_pcpu_boot_info i true ;;
  pcpu_init_cpu.

Definition pcpu_init : M mp_st () :=
  i ← gets ks_idx;
  if bool_decide (i = 0) then
    d ← gets pcpu_inited;
    if (d : bool) then mret () else pcpu_init_boot ;; pcpu_init_this i
  else pcpu_init_this i.
End Cpus.

(** ** The entries of a MADT *)

Inductive apic_ent := Local (proc id flags : Z) | Io (id addr g : Z) | Etc (type : Z) (body : list Z).

Definition ent_bytes (x : apic_ent) : list Z :=
  match x with
  | Local proc id flags => [0; 8; proc; id] ++ word_bytes flags
  | Io id addr g => [1; 12; id; 0] ++ word_bytes addr ++ word_bytes g
  | Etc type body => type :: Z.of_nat (2 + length body) :: body
  end.

Definition ent_ok (x : apic_ent) : Prop :=
  match x with
  | Local _ _ flags => is_u32 flags
  | Io id addr g => 0 <= id < 256 ∧ is_u32 addr ∧ is_u32 g
  | Etc type body => 2 <= type < 256 ∧ (length body < 254)%nat
  end.

Definition table_bytes (es : list apic_ent) : list Z := es ≫= ent_bytes.

(** The local APICs of the processors that are enabled, and the I/O APICs. *)
Definition cpus (es : list apic_ent) : list Z :=
  omap (λ x, match x with Local _ id flags => if bool_decide (Z.land flags 1 = 0) then None else Some id | _ => None end) es.

Definition ios (es : list apic_ent) : list (Z * Z * Z) := omap (λ x, match x with Io id addr g => Some (addr, id, s32 g) | _ => None end) es.

(** Memory holds [l] at [a]. *)
Definition holds (f : Z → Z) (a : Z) (l : list Z) : Prop := ∀ i b, l !! i = Some b → rd8 f (a + Z.of_nat i) = b.

Lemma holds_app f a l m : holds f a (l ++ m) → holds f a l ∧ holds f (a + Z.of_nat (length l)) m.
Proof.
  intros Hh. split; intros i b Hi.
  - apply Hh. by apply lookup_app_l_Some.
  - rewrite <- Z.add_assoc, <- Nat2Z.inj_add. apply Hh. rewrite lookup_app_r by lia. by replace (length l + i - length l)%nat with i by lia.
Qed.

Lemma word_of f a x : is_u32 x → holds f a (word_bytes x) → rd32 f a = x.
Proof.
  intros Hx Hh. unfold rd32, rd16. pose proof (Hh 0%nat _ eq_refl) as H0. pose proof (Hh 1%nat _ eq_refl) as H1. pose proof (Hh 2%nat _ eq_refl) as H2. pose proof (Hh 3%nat _ eq_refl) as H3.
  replace (a + 2 + 1) with (a + Z.of_nat 3) by lia. replace (a + 1) with (a + Z.of_nat 1) by lia. replace (a + 2) with (a + Z.of_nat 2) by lia.
  rewrite Z.add_0_r in H0. rewrite H0, H1, H2, H3. unfold u8. rewrite !Z.shiftr_div_pow2 by lia. unfold is_u32, W32 in Hx. Z.div_mod_to_equations. lia.
Qed.

Lemma rd32_range f a : is_u32 (rd32 f a).
Proof. unfold rd32, rd16, rd8, is_u32, W32. pose proof (u8_range (f a)). pose proof (u8_range (f (a + 1))). pose proof (u8_range (f (a + 2))). pose proof (u8_range (f (a + 2 + 1))). lia. Qed.

(** The processors entered, when [k] were before. *)
Fixpoint enter (k : nat) (ids : list Z) (l : list pcpu_t) : list pcpu_t :=
  match ids with
  | [] => l
  | id :: ids => enter (S k) ids (alter (λ p, {| inited := inited p; booted := booted p; kstack := kstack p;
      arch_info := set_lapic id (bool_decide (k = 0%nat)) (arch_info p); cpu_idx := cpu_idx p |}) k l)
  end.

Lemma enter_length k ids l : length (enter k ids l) = length l.
Proof. revert k l. induction ids as [|id ids IH]; intros k l; simpl; [done|]. by rewrite IH, length_alter. Qed.

Lemma enter_below k ids l j : (j < k)%nat → enter k ids l !! j = l !! j.
Proof. revert k l. induction ids as [|id ids IH]; intros k l Hj; simpl; [done|]. rewrite IH by lia. apply list_lookup_alter_ne. lia. Qed.

Lemma enter_at k ids l i id : ids !! i = Some id → (k + i < length l)%nat →
  ∃ p, enter k ids l !! (k + i)%nat = Some p ∧ lapicid (arch_info p) = id ∧ bsp (arch_info p) = bool_decide (k + i = 0)%nat.
Proof.
  revert k l i. induction ids as [|x ids IH]; intros k l i Hi Hl; [done|]. destruct i as [|i]; simpl in *.
  - injection Hi as ->. rewrite Nat.add_0_r in *. rewrite enter_below by lia. rewrite list_lookup_alter_eq. destruct (lookup_lt_is_Some_2 l k Hl) as [p ->]. eexists. by split.
  - replace (k + S i)%nat with (S k + i)%nat by lia. apply IH; [done|]. rewrite length_alter. lia.
Qed.

Lemma take_app_step {A} n (l : list A) x ys : take n (take n (l ++ [x]) ++ ys) = take n (l ++ x :: ys).
Proof.
  destruct (decide (n <= length l)%nat) as [Hn|Hn].
  - rewrite (take_app_le l [x]) by done. rewrite !take_app_le; [by rewrite take_take, Nat.min_id|done|rewrite length_take; lia].
  - rewrite (take_ge (l ++ [x])) by (rewrite length_app; simpl; lia). by rewrite <- app_assoc.
Qed.

(** The state after the entries, when [k] processors were entered before. *)
Definition set_ios (io : list (Z * Z * Z)) (s : mp_st) : mp_st := put (set_apics (lapic (m_dev s)) io (m_dev s)) s.

Definition entered (k : nat) (ids : list Z) (io : list (Z * Z * Z)) (s : mp_st) : mp_st :=
  set_ncpu (ncpu s + Z.of_nat (length ids)) (set_pcpu (enter k ids (pcpu s)) (set_ios (take MAX_IOAPIC (ioapics (m_dev s) ++ io)) s)).

Definition roomy (s : mp_st) : Prop := length (pcpu s) = Z.to_nat NUM_CPUS ∧ (length (ioapics (m_dev s)) <= MAX_IOAPIC)%nat.

Lemma entered_none k s : roomy s → entered k [] [] s = s.
Proof. intros [_ Hio]. unfold entered, set_ios. rewrite app_nil_r, take_ge by done. destruct s as [[]]. cbn. by rewrite Z.add_0_r. Qed.

Lemma entered_roomy k ids io s : roomy s → roomy (entered k ids io s).
Proof. intros [Hp Hio]. split; [cbn; by rewrite enter_length|]. change (ioapics (m_dev (entered k ids io s))) with (take MAX_IOAPIC (ioapics (m_dev s) ++ io)). rewrite length_take. lia. Qed.

Lemma entered_cpu k id ids io s : roomy s → entered (S k) ids io (entered k [id] [] s) = entered k (id :: ids) io s.
Proof.
  intros [_ Hio]. unfold entered. cbn -[Z.of_nat]. rewrite app_nil_r, (take_ge (ioapics _)) by done. unfold set_ncpu, set_mp, set_pcpu, set_ios. cbn -[Z.of_nat]. f_equal. lia.
Qed.

Lemma entered_io k x ids io s : entered k ids io (entered k [] [x] s) = entered k ids (x :: io) s.
Proof. unfold entered. cbn -[Z.of_nat take]. rewrite take_app_step. unfold set_ncpu, set_mp, set_pcpu, set_ios. cbn -[Z.of_nat]. f_equal. lia. Qed.

Lemma alter_past {A} (f : A → A) k l : (length l <= k)%nat → alter f k l = l.
Proof.
  intros Hk. apply list_eq. intros i. destruct (decide (k = i)) as [<-|Hne]; [|by apply list_lookup_alter_ne].
  by rewrite list_lookup_alter_eq, (lookup_ge_None_2 l k).
Qed.

Lemma init_cpu_run k id s : roomy s → pcpu_mp_init_cpu (Z.of_nat k) id (bool_decide (k = 0%nat)) s = Ok () (set_pcpu (enter k [id] (pcpu s)) s).
Proof.
  intros [Hp _]. unfold pcpu_mp_init_cpu. rewrite (bool_decide_ext (k = 0%nat) (Z.of_nat k = 0)) by lia.
  replace (bool_decide (Z.of_nat k = 0) && bool_decide (Z.of_nat k ≠ 0)) with false by (by do 2 case_bool_decide). case_bool_decide as Hk.
  - cbn [enter]. rewrite alter_past; [by destruct s|]. rewrite Hp. lia.
  - unfold upd_info, pcpu_upd. rewrite bool_decide_eq_true_2 by (rewrite Hp; unfold NUM_CPUS in *; lia). rewrite Nat2Z.id. cbn [enter].
    by rewrite (bool_decide_ext (k = 0%nat) (Z.of_nat k = 0)) by lia.
Qed.

Lemma count_state k id s : roomy s → set_ncpu (ncpu s + 1) (set_pcpu (enter k [id] (pcpu s)) s) = entered k [id] [] s.
Proof. intros [_ Hio]. unfold entered. rewrite app_nil_r, take_ge by done. by destruct s as [[]]. Qed.

Lemma count_run {A} (m : M mp_st A) k id s : roomy s →
  (pcpu_mp_init_cpu (Z.of_nat k) id (bool_decide (k = 0%nat)) ;; modify (λ s, set_ncpu (ncpu s + 1) s) ;; m) s = m (entered k [id] [] s).
Proof.
  intros Hs. rewrite (bind_Ok _ _ _ _ _ (init_cpu_run k id s Hs)), (bind_Ok (modify _) _ _ _ _ eq_refl). f_equal. exact (count_state k id s Hs).
Qed.

Lemma register_run k a id g s : 0 <= id < 256 → roomy s → zoom (ioapic_register a id g) s = Ok () (entered k [] [(a, id, s32 g)] s).
Proof.
  intros Hid [_ Hio]. unfold zoom, ioapic_register. cbn [view m_dev_lens]. rewrite (bind_Ok (gets ioapics) _ (m_dev s) _ (m_dev s) eq_refl). rewrite u8_small by done.
  unfold entered. cbn [length enter]. rewrite Z.add_0_r. case_bool_decide as Hfull.
  - rewrite take_app_le, take_ge by lia. by destruct s as [[]].
  - rewrite take_ge by (rewrite length_app; simpl; lia). by destruct s as [[]].
Qed.

(** An entry and what is left of the table. *)
Lemma ent_at f p x es : ent_ok x → holds f p (table_bytes (x :: es)) →
  holds f p (ent_bytes x) ∧ holds f (p + rd8 f (p + 1)) (table_bytes es) ∧ rd8 f (p + 1) = Z.of_nat (length (ent_bytes x)) ∧ (0 < length (ent_bytes x))%nat.
Proof.
  intros Hok Hh. change (table_bytes (x :: es)) with (ent_bytes x ++ table_bytes es) in Hh. apply holds_app in Hh as [H1 H2].
  assert (rd8 f (p + 1) = Z.of_nat (length (ent_bytes x))) as E by (destruct x; exact (H1 1%nat _ eq_refl)).
  rewrite E. by destruct x; simpl; split_and!; try done; lia.
Qed.

Section Entries.
Context `{Machine}.

Lemma madt_loop_run f es : ∀ fuel p k s, Forall ent_ok es → holds f p (table_bytes es) → (length (table_bytes es) < fuel)%nat → roomy s →
  madt_loop f fuel p (p + Z.of_nat (length (table_bytes es))) (Z.max 1 (Z.of_nat k)) (bool_decide (0 < k)%nat) s = Ok () (entered k (cpus es) (ios es) s).
Proof.
  induction es as [|x es IH]; intros fuel p k s Hok Hh Hf Hs; (destruct fuel as [|fuel]; [lia|]); cbn [madt_loop].
  { rewrite bool_decide_eq_false_2 by (simpl; lia). exact (f_equal (Ok ()) (eq_sym (entered_none k s Hs))). }
  apply Forall_cons in Hok as [Hx Hok]. destruct (ent_at f p x es Hx Hh) as (Hx1 & Hrest & Hlen & Hpos).
  change (table_bytes (x :: es)) with (ent_bytes x ++ table_bytes es) in Hf |- *. rewrite length_app in Hf |- *.
  set (q := p + rd8 f (p + 1)) in *. replace (p + Z.of_nat (length (ent_bytes x) + length (table_bytes es))) with (q + Z.of_nat (length (table_bytes es))) by lia.
  rewrite bool_decide_eq_true_2 by lia. cbv zeta. destruct x as [proc id flags|id addr g|type body].
  - pose proof (Hx1 0%nat _ eq_refl) as E0. pose proof (Hx1 3%nat _ eq_refl) as E3. rewrite Z.add_0_r in E0. change (Z.of_nat 3) with 3 in E3. rewrite E0, E3.
    rewrite (word_of f (p + 4) flags Hx) by exact (proj2 (holds_app f p [0; 8; proc; id] (word_bytes flags) Hx1)).
    unfold cpus, ios. cbn [omap list_omap]. fold (cpus es) (ios es). case_bool_decide as Hen.
    { apply IH; [exact Hok|exact Hrest|lia|exact Hs]. }
    rewrite <- (entered_cpu k id (cpus es) (ios es) s Hs).
    pose proof (IH fuel q (S k) (entered k [id] [] s) Hok Hrest ltac:(lia) (entered_roomy _ _ _ _ Hs)) as Hnext.
    rewrite (bool_decide_eq_true_2 (0 < S k)%nat) in Hnext by lia. destruct k as [|k].
    + rewrite (bool_decide_eq_false_2 (0 < 0)%nat) by lia. cbn [negb]. etransitivity; [apply (count_run _ 0 id s Hs)|]. exact Hnext.
    + rewrite (bool_decide_eq_true_2 (0 < S k)%nat) by lia. cbn [negb]. rewrite (Z.max_r 1 (Z.of_nat (S k))) by lia.
      etransitivity; [apply (count_run _ (S k) id s Hs)|]. rewrite <- Hnext. do 2 f_equal. lia.
  - pose proof (Hx1 0%nat _ eq_refl) as E0. pose proof (Hx1 2%nat _ eq_refl) as E2. rewrite Z.add_0_r in E0. change (Z.of_nat 2) with 2 in E2. rewrite E0, E2.
    destruct Hx as (Hid & Ha & Hg). pose proof (proj2 (holds_app f p [1; 12; id; 0] _ Hx1)) as Hw. apply holds_app in Hw as [Hw1 Hw2].
    rewrite (word_of f (p + 4) addr Ha Hw1). rewrite (word_of f (p + 8) g Hg) by (replace (p + 8) with (p + 4 + 4) by lia; exact Hw2).
    unfold cpus, ios. cbn [omap list_omap]. fold (cpus es) (ios es). rewrite <- entered_io.
    rewrite (bind_Ok _ _ _ _ _ (register_run k addr id g s Hid Hs)). apply IH; [exact Hok|exact Hrest|lia|by apply entered_roomy].
  - pose proof (Hx1 0%nat _ eq_refl) as E0. rewrite Z.add_0_r in E0. rewrite E0. destruct Hx as [Hty _].
    unfold cpus, ios. cbn [omap list_omap]. fold (cpus es) (ios es).
    assert (madt_loop f fuel q (q + Z.of_nat (length (table_bytes es))) (Z.max 1 (Z.of_nat k)) (bool_decide (0 < k)%nat) s = Ok () (entered k (cpus es) (ios es) s)) as Hnext
      by (apply IH; [exact Hok|exact Hrest|lia|exact Hs]).
    destruct type as [|[]|]; [lia|exact Hnext|exact Hnext|lia|lia].
Qed.
End Entries.

Lemma bytes_set_below l : ∀ a f x, x < a → bytes_set a l f x = f x.
Proof. induction l as [|b l IH]; intros a f x Hx; [done|]. cbn [bytes_set]. rewrite IH by lia. unfold byte_set. by rewrite bool_decide_eq_false_2 by lia. Qed.

Lemma bytes_set_at l : ∀ a f i b, l !! i = Some b → bytes_set a l f (a + Z.of_nat i) = u8 b.
Proof.
  induction l as [|c l IH]; intros a f i b Hi; [done|]. cbn [bytes_set]. destruct i as [|i].
  - injection Hi as ->. rewrite Z.add_0_r, bytes_set_below by lia. unfold byte_set. by rewrite bool_decide_eq_true_2.
  - replace (a + Z.of_nat (S i)) with (a + 1 + Z.of_nat i) by lia. by apply IH.
Qed.

(** The parts of the state that the steps after the entries leave alone. *)
Lemma mp_finish `{Machine} ap_image (c : bool) s : ∃ s',
  ((if c then imcr_on else mret ()) ;; copy_ap ap_image ;; mp_done ;; mret true) s = Ok true s' ∧ mp_inited s' = true ∧ ismp s' = ismp s ∧ ncpu s' = ncpu s ∧
  pcpu s' = pcpu s ∧ lapic (m_dev s') = lapic (m_dev s) ∧ ioapics (m_dev s') = ioapics (m_dev s) ∧ ram (m_dev s') = bytes_set 32768 ap_image (ram (m_dev s)).
Proof.
  assert (∃ h : hw, (if c then imcr_on else mret ()) s = Ok () (put (Lens := m_dev_lens) (put h (m_dev s)) s)) as (h & E).
  { destruct c; [eexists; reflexivity|]. exists (d_hw (m_dev s)). by destruct s as [[]]. }
  rewrite (bind_Ok _ _ _ _ _ E). eexists. split; [reflexivity|]. done.
Qed.

Lemma lapic_register_run a s : zoom (lapic_register a) s = Ok () (put (set_apics (u32 a) (ioapics (m_dev s)) (m_dev s)) s).
Proof. done. Qed.

(** C29: the processors of the machine.  Where the ACPI tables lead to a MADT with the given
    entries, the kernel enters the processors that are enabled in the order of the table,
    as far as it has room for them, the first as the one that started; it registers the
    I/O APICs, 16 at most, takes over the address of the local APIC, counts the
    processors, and puts the code for the others at 0x8000. *)
Theorem madt_processors `{Machine} ap_image es madt s :
  let f := ram (m_dev s) in
  mp_inited s = false → roomy s → find_madt f = Some madt → Forall ent_ok es →
  rd32 f (madt + 4) = 44 + Z.of_nat (length (table_bytes es)) → holds f (madt + 44) (table_bytes es) →
  ∃ s', pcpu_mp_init ap_image s = Ok true s' ∧ mp_inited s' = true ∧ ismp s' = true ∧ ncpu s' = Z.of_nat (length (cpus es)) ∧
    lapic (m_dev s') = rd32 f (madt + 36) ∧ ioapics (m_dev s') = take MAX_IOAPIC (ioapics (m_dev s) ++ ios es) ∧
    (∀ k id, cpus es !! k = Some id → Z.of_nat k < NUM_CPUS →
      ∃ p, pcpu s' !! k = Some p ∧ lapicid (arch_info p) = id ∧ bsp (arch_info p) = bool_decide (k = 0%nat)) ∧
    (∀ i b, ap_image !! i = Some b → ram (m_dev s') (32768 + Z.of_nat i) = u8 b).
Proof.
  intros f Hmp Hs Hm Hok Hlen Hh. unfold pcpu_mp_init. rewrite (bind_Ok (gets mp_inited) _ s _ s eq_refl), Hmp.
  rewrite (bind_Ok (gets (λ s, ram (m_dev s))) _ s f s eq_refl), Hm. rewrite (bind_Ok (modify _) _ _ _ _ eq_refl). rewrite (bind_Ok _ _ _ _ _ (lapic_register_run _ _)).
  rewrite (bind_Ok (modify _) _ _ _ _ eq_refl). set (s1 := set_ncpu 0 _). assert (roomy s1) as Hs1 by exact Hs.
  rewrite (bind_Ok _ _ s1 () (entered 0 (cpus es) (ios es) s1)).
  2:{ rewrite Hlen. replace (madt + (44 + Z.of_nat (length (table_bytes es)))) with (madt + 44 + Z.of_nat (length (table_bytes es))) by lia.
      apply (madt_loop_run f es _ (madt + 44) 0 s1 Hok Hh); [lia|exact Hs1]. }
  destruct (mp_finish ap_image (bool_decide (Z.land (rd32 f (madt + 40)) 1 = 0)) (entered 0 (cpus es) (ios es) s1)) as (s' & E & H1 & H2 & H3 & H4 & H5 & H6 & H7).
  exists s'. split; [exact E|]. split; [exact H1|]. split; [rewrite H2; reflexivity|]. split; [rewrite H3; reflexivity|].
  split; [rewrite H5; cbn; apply u32_small, rd32_range|]. split; [rewrite H6; reflexivity|]. split.
  - intros k id Hk Hlt. rewrite H4. change (pcpu (entered 0 (cpus es) (ios es) s1)) with (enter 0 (cpus es) (pcpu s)).
    destruct (enter_at 0 (cpus es) (pcpu s) k id Hk) as (p & Hp & Hid & Hb); [destruct Hs as [-> _]; unfold NUM_CPUS in *; lia|]. exists p. by split_and!.
  - intros i b Hi. rewrite H7. by apply bytes_set_at.
Qed.

(** Memory with a root pointer at 0xE0000, a root table and a MADT with two processors, an
    I/O APIC and an entry of another kind. *)
Definition fw_rsdp : list Z :=
  [82; 83; 68; 32; 80; 84; 82; 32; 236; 75; 69; 82; 78; 69; 76; 0; 0; 0; 16; 0; 36; 0; 0; 0; 0; 0; 0; 0; 0; 0; 0; 0; 0; 0; 0; 0].
Definition fw_rsdt : list Z :=
  [82; 83; 68; 84; 40; 0; 0; 0; 1; 137; 75; 69; 82; 78; 69; 76; 0; 0; 0; 0; 0; 0; 0; 0; 0; 0; 0; 0; 0; 0; 0; 0; 0; 0; 0; 0; 64; 0; 16; 0].
Definition fw_madt : list Z :=
  [65; 80; 73; 67; 76; 0; 0; 0; 1; 249; 75; 69; 82; 78; 69; 76; 0; 0; 0; 0; 0; 0; 0; 0; 0; 0; 0; 0; 0; 0; 0; 0; 0; 0; 0; 0; 0; 0; 224; 254; 1; 0; 0; 0; 0; 8; 0; 0; 1; 0; 0; 0; 1; 12; 2; 0; 0; 0; 192; 254; 0; 0; 0; 0; 0; 8; 1; 5; 1; 0; 0; 0; 2; 4; 9; 9].
Definition firmware (a : Z) : Z :=
  if bool_decide (917504 <= a < 917540) then default 0 (fw_rsdp !! Z.to_nat (a - 917504))
  else if bool_decide (1048576 <= a < 1048616) then default 0 (fw_rsdt !! Z.to_nat (a - 1048576))
  else if bool_decide (1048640 <= a) then default 0 (fw_madt !! Z.to_nat (a - 1048640))
  else 0.

Definition fw_entries : list apic_ent := [Local 0 0 1; Io 2 4273995776 0; Local 1 5 1; Etc 2 [9; 9]].

Fixpoint holdsb (f : Z → Z) (a : Z) (l : list Z) : bool :=
  match l with [] => true | b :: l => bool_decide (rd8 f a = b) && holdsb f (a + 1) l end.

Lemma holdsb_ok f a l : holdsb f a l = true → holds f a l.
Proof.
  revert a. induction l as [|c l IH]; intros a Hb i b Hi; [done|]. cbn [holdsb] in Hb. apply andb_prop in Hb as [H1%bool_decide_eq_true_1 H2]. destruct i as [|i].
  - injection Hi as <-. by rewrite Z.add_0_r.
  - replace (a + Z.of_nat (S i)) with (a + 1 + Z.of_nat i) by lia. by apply (IH _ H2).
Qed.

#[local] Instance still_machine : Machine := {| answer _ _ := 0; cpuid_regs _ _ := (0, 0, 0, 0) |}.

Definition cold : mp_st := {|
  m_dev := {| d_hw := []; ram := firmware; irqmask := 65531; disk_irqmask := 65531; pic_inited := false; lapic := 0; ioapics := []; tsc_per_ms := 0 |};
  ncpu := 0; mp_inited := false; ismp := false; pcpu := replicate 8 no_pcpu; pcpu_inited := false; ks_idx := 0; ks_addr := 4096
|}.

Lemma madt_processors_witness : ∃ s', pcpu_mp_init [250; 244] cold = Ok true s' ∧ mp_inited s' = true ∧ ismp s' = true ∧ ncpu s' = 2 ∧
  lapic (m_dev s') = 4276092928 ∧ ioapics (m_dev s') = [(4273995776, 2, 0)] ∧
  (∀ k id, [0; 5] !! k = Some id → Z.of_nat k < NUM_CPUS →
    ∃ p, pcpu s' !! k = Some p ∧ lapicid (arch_info p) = id ∧ bsp (arch_info p) = bool_decide (k = 0%nat)) ∧
  (∀ i b, [250; 244] !! i = Some b → ram (m_dev s') (32768 + Z.of_nat i) = u8 b).
Proof.
  apply (madt_processors [250; 244] fw_entries 1048640 cold).
  - reflexivity.
  - split; [reflexivity|]. cbn. lia.
  - vm_compute. reflexivity.
  - repeat (apply Forall_cons; split; [unfold ent_ok, is_u32, W32; cbn [length]; lia|]). by apply Forall_nil.
  - vm_compute. reflexivity.
  - apply holdsb_ok. vm_compute. reflexivity.
Defined.

(** ** Limits *)

(** More processors than there is room for are counted all the same: the identifier of the
    ninth is then read past the end of the table. *)
Lemma ninth_processor i s : length (pcpu s) = Z.to_nat NUM_CPUS → NUM_CPUS <= i < ncpu s → pcpu_cpu_lapicid i s = Undef.
Proof.
  intros Hl Hi. unfold pcpu_cpu_lapicid. rewrite (bind_Ok (gets ncpu) _ s _ s eq_refl). unfold NUM_CPUS in *. rewrite bool_decide_eq_true_2 by lia.
  unfold get_info, pcpu_get. rewrite bool_decide_eq_true_2 by lia. rewrite lookup_ge_None_2; [done|]. rewrite Hl. lia.
Qed.

(** An entry of length 0 is looked at for ever, as is an MP entry of an unknown kind. *)
Lemma madt_zero_length `{Machine} f fuel p e k found s : p < e → rd8 f (p + 1) = 0 → 2 <= rd8 f p → madt_loop f fuel p e k found s = Spin.
Proof.
  intros Hp Hl Ht. induction fuel as [|fuel IH]; [done|]. cbn [madt_loop]. rewrite bool_decide_eq_true_2 by done. rewrite Hl, Z.add_0_r.
  destruct (rd8 f p) as [|[]|]; [lia|exact IH|exact IH|lia|lia].
Qed.

Lemma mpconf_unknown `{Machine} f fuel p e k s : p < e → 4 < rd8 f p → mpconf_loop f fuel p e k s = Spin.
Proof.
  intros Hp Ht. induction fuel as [|fuel IH]; [done|]. cbn [mpconf_loop]. rewrite bool_decide_eq_true_2 by done.
  destruct (rd8 f p) as [|[q|q|]|]; [lia| | |lia|lia]; repeat (first [exact IH|lia|destruct q as [q|q|]]).
Qed.

(** A root pointer is found where it is the first in the range. *)
Definition rsdp_at (f : Z → Z) (p : Z) : Prop := rd32 f p = ACPI_RSDP_SIG1 ∧ rd32 f (p + 4) = ACPI_RSDP_SIG2 ∧ sum f p RSDP_SIZE = 0.

Lemma rsdp_scan_first f k : ∀ n p, (k < n)%nat → rsdp_at f (p + 16 * Z.of_nat k) → (∀ j, (j < k)%nat → ¬ rsdp_at f (p + 16 * Z.of_nat j)) →
  rsdp_scan f n p = Some (p + 16 * Z.of_nat k).
Proof.
  induction k as [|k IH]; intros n p Hn Hat Hbefore; (destruct n as [|n]; [lia|]); cbn [rsdp_scan].
  - rewrite Z.mul_0_r, Z.add_0_r in *. destruct Hat as (-> & -> & ->). done.
  - replace (p + 16 * Z.of_nat (S k)) with (p + 16 + 16 * Z.of_nat k) in * by lia.
    destruct (bool_decide (rd32 f p = ACPI_RSDP_SIG1) && bool_decide (rd32 f (p + 4) = ACPI_RSDP_SIG2) && bool_decide (sum f p RSDP_SIZE = 0)) eqn:E.
    + exfalso. apply (Hbefore 0%nat ltac:(lia)). rewrite Z.mul_0_r, Z.add_0_r.
      apply andb_prop in E as [[E1%bool_decide_eq_true_1 E2%bool_decide_eq_true_1]%andb_prop E3%bool_decide_eq_true_1]. done.
    + apply IH; [lia|done|]. intros j Hj. replace (p + 16 + 16 * Z.of_nat j) with (p + 16 * Z.of_nat (S j)) by lia. apply Hbefore. lia.
Qed.
