(* ===== verification/Intr.v ===== *)
(** * Interrupts of the machine (kern/dev/intr.c; [enable_sse] of kern/lib/x86.c)

    [intr_init] brings up the controllers and the gates; the other functions pass requests
    on to the controller in use. *)

From S2P Require Import Prelude Spinlock Hw Apic Mp Segment.

(** ** State *)

(** [if_flag] is the interrupt flag of the processor, [cr0] and [cr4] its control registers. *)
Record intr_st := { i_mp : mp_st; using_apic : bool; intr_inited : bool; idt : list gatedesc; if_flag : bool; cr0 : Z; cr4 : Z }.

#[global, program] Instance i_mp_lens : Lens intr_st mp_st := {|
  view := i_mp;
  put m s := {| i_mp := m; using_apic := using_apic s; intr_inited := intr_inited s; idt := idt s; if_flag := if_flag s; cr0 := cr0 s; cr4 := cr4 s |}
|}.
Next Obligation. done. Qed.
Next Obligation. by intros []. Qed.
Next Obligation. done. Qed.

#[global] Instance i_dev_lens : Lens intr_st dev_st := lens_comp i_mp_lens m_dev_lens.

Definition set_intr (a i : bool) (g : list gatedesc) (s : intr_st) : intr_st :=
  {| i_mp := i_mp s; using_apic := a; intr_inited := i; idt := g; if_flag := if_flag s; cr0 := cr0 s; cr4 := cr4 s |}.
Definition set_flag (b : bool) (s : intr_st) : intr_st :=
  {| i_mp := i_mp s; using_apic := using_apic s; intr_inited := intr_inited s; idt := idt s; if_flag := b; cr0 := cr0 s; cr4 := cr4 s |}.
Definition set_crs (a b : Z) (s : intr_st) : intr_st :=
  {| i_mp := i_mp s; using_apic := using_apic s; intr_inited := intr_inited s; idt := idt s; if_flag := if_flag s; cr0 := a; cr4 := b |}.

Definition CPUID_FEATURE_APIC : Z := 512.
Definition CR4_OSFXSR : Z := 512.
Definition CR4_OSXMMEXCPT : Z := 1024.

Section Intr.
Context `{Machine} (addr : entry → Z).

(** The new value of [cr0] is computed and not loaded. *)
Definition enable_sse : M intr_st () := modify (λ s, set_crs (cr0 s) (Z.lor (Z.lor (cr4 s) CR4_OSFXSR) CR4_OSXMMEXCPT) s).

Definition intr_init (polls : nat) : M intr_st () :=
  zoom pic_init ;;
  let apic := bool_decide (Z.land (cpuid_regs 1 0).2 CPUID_FEATURE_APIC ≠ 0) in
  modify (λ s, set_intr apic (intr_inited s) (idt s) s) ;;
  if negb apic then kern_panic
  else
    b ← zoom pcpu_onboot;
    (if (b : bool) then zoom ioapic_init else mret ()) ;;
    zoom (lapic_init polls) ;;
    modify (λ s, set_intr (using_apic s) true (intr_init_idt addr) s).

(** The request goes to the controller in use. *)
Definition intr_route (irq apicid : Z) : M intr_st () :=
  a ← gets using_apic;
  if (a : bool) then zoom (ioapic_enable irq apicid 0 0)
  else if bool_decide (irq < 16) then zoom (pic_enable irq) else kern_panic.

Definition intr_enable (irq cpunum : Z) : M intr_st () :=
  n ← zoom pcpu_ncpu;
  if bool_decide (cpunum = 255) || bool_decide (0 <= cpunum < n) then
    if bool_decide (irq >= 24) then mret ()
    else
      a ← gets using_apic;
      if (a : bool) then
        id ← (if bool_decide (cpunum = 255) then mret 255 else zoom (pcpu_cpu_lapicid cpunum));
        zoom (ioapic_enable irq (u8 id) 0 0)
      else intr_route irq 0
  else kern_panic.

Definition intr_enable_lapicid (irq lapic_id : Z) : M intr_st () :=
  if bool_decide (irq > 24) then mret () else intr_route irq (u8 lapic_id).

Definition intr_eoi : M intr_st () :=
  a ← gets using_apic;
  if (a : bool) then zoom lapic_eoi else zoom pic_eoi.

Definition intr_local_enable : M intr_st () := modify (set_flag true).
Definition intr_local_disable : M intr_st () := modify (set_flag false).

(** ** What they do *)

(** An interrupt for a processor goes to the local APIC that the table names for it. *)
Lemma intr_enable_cpu irq cpunum s p : using_apic s = true → irq < 24 → 0 <= cpunum < ncpu (i_mp s) → cpunum ≠ 255 →
  pcpu (i_mp s) !! Z.to_nat cpunum = Some p →
  intr_enable irq cpunum s = zoom (ioapic_enable irq (u8 (lapicid (arch_info p))) 0 0) s.
Proof.
  intros Ha Hirq Hc Hne Hp. unfold intr_enable. rewrite (bind_Ok _ _ s (ncpu (i_mp s)) s); [|by destruct s].
  rewrite (bool_decide_eq_true_2 (0 <= cpunum < _)), orb_true_r, (bool_decide_eq_false_2 (irq >= 24)) by lia.
  rewrite (bind_Ok (gets using_apic) _ s _ s eq_refl), Ha, (bool_decide_eq_false_2 (cpunum = 255)) by done.
  rewrite (bind_Ok _ _ s (lapicid (arch_info p)) s); [done|]. unfold zoom. cbn [view i_mp_lens]. unfold pcpu_cpu_lapicid.
  rewrite (bind_Ok (gets ncpu) _ (i_mp s) _ (i_mp s) eq_refl), bool_decide_eq_true_2 by done. unfold get_info, pcpu_get.
  rewrite bool_decide_eq_true_2, Hp by lia. by destruct s.
Qed.

(** [enable_sse] leaves [cr0] as it was. *)
Lemma enable_sse_cr0 s s' : enable_sse s = Ok () s' → cr0 s' = cr0 s.
Proof. intros E. by injection E as <-. Qed.
End Intr.

(** The vector of interrupt 16 is that of the system call. *)
Example irq16_is_syscall : (open_line 16 0).1 = 48 ∧ entry_for 48 = Xsyscall.
Proof. by split. Qed.
