(* ===== verification/KernInit.v ===== *)
(** * The start of the kernel (kern/init/init.c, kern/dev/devinit.c)

    [kern_init] brings up the devices and the layers of the kernel, creates the idle process
    and the shell, gives the shell the console and switches to it.  [devinit] is called
    from the lowest layer of memory management, which [thread_init] reaches first; the
    parts of the state it works on are others than those of the layers, so that it comes
    first here.  It is proved that [kern_main] starts the shell with the console as its
    descriptors, that the shell then runs in user mode at its entry point, and that the idle
    process is ready. *)

From S2P Require Import Prelude Spinlock Mboot PMem Container PageTable TCB TQueue Thread Sched.
From S2P Require Import UserCopy CString BufCache Log Inode Path File Ipc TrapFrame Sysfile Syscall Trap Keeps UserCalls FdRefs.
From S2P Require Hw Console Screen Monitor Apic Mp Segment Intr.

(** ** State *)

(** The console, the devices with the processors, and the kernel with its segments. *)
Record machine := { x_con : Monitor.con; x_intr : Intr.intr_st; x_k : k_state; all_ready : bool; cpu_booted : Z }.

#[global, program] Instance x_con_lens : Lens machine Monitor.con := {|
  view := x_con; put c s := {| x_con := c; x_intr := x_intr s; x_k := x_k s; all_ready := all_ready s; cpu_booted := cpu_booted s |} |}.
Next Obligation. done. Qed.
Next Obligation. by intros []. Qed.
Next Obligation. done. Qed.

#[global, program] Instance x_intr_lens : Lens machine Intr.intr_st := {|
  view := x_intr; put c s := {| x_con := x_con s; x_intr := c; x_k := x_k s; all_ready := all_ready s; cpu_booted := cpu_booted s |} |}.
Next Obligation. done. Qed.
Next Obligation. by intros []. Qed.
Next Obligation. done. Qed.

#[global, program] Instance x_k_lens : Lens machine k_state := {|
  view := x_k; put c s := {| x_con := x_con s; x_intr := x_intr s; x_k := c; all_ready := all_ready s; cpu_booted := cpu_booted s |} |}.
Next Obligation. done. Qed.
Next Obligation. by intros []. Qed.
Next Obligation. done. Qed.

#[global] Instance x_seg_lens : Lens machine Segment.seg_st := lens_comp x_k_lens k_seg_lens.
#[global] Instance x_out_lens : Lens machine Screen.vid_st := lens_comp x_con_lens Monitor.out_lens.
#[global] Instance x_inp_lens : Lens machine Console.cons_st := lens_comp x_con_lens Monitor.inp_lens.
#[global] Instance x_mp_lens : Lens machine Mp.mp_st := lens_comp x_intr_lens Intr.i_mp_lens.
#[global] Instance x_dev_lens : Lens machine Apic.dev_st := lens_comp x_intr_lens Intr.i_dev_lens.

Section Start.
Context `{Hw.Machine, Segment.Layout} (addr : Segment.entry → Z) (ap_image : list Z).

(** ** Devices *)

Definition cons_init : M machine () :=
  zoom (modify Console.cons_init) ;;
  zoom Screen.serial_init ;;
  zoom Screen.video_init.

(** The bits of the status of the drive. *)
Definition IDE_BSY : Z := 128.
Definition IDE_DRDY : Z := 64.
Definition IDE_DF : Z := 32.
Definition IDE_ERR : Z := 1.
Definition IRQ_IDE1 : Z := 14.

Fixpoint ide_wait (polls : nat) (checkerr : bool) : M Apic.dev_st Z :=
  match polls with
  | O => spin
  | S polls =>
      r ← Hw.inb 503;
      if bool_decide (Z.land r (Z.lor IDE_BSY IDE_DRDY) ≠ IDE_DRDY) then ide_wait polls checkerr
      else mret (if checkerr && bool_decide (Z.land r (Z.lor IDE_DF IDE_ERR) ≠ 0) then -1 else 0)
  end.

(** Whether the second drive answers within [n] reads of its status. *)
Fixpoint ide_scan (n : nat) : M Apic.dev_st bool :=
  match n with
  | O => mret false
  | S n => r ← Hw.inb 503; if bool_decide (r ≠ 0) then mret true else ide_scan n
  end.

(** What [ide_init] does with the devices; the answer is what [havedisk1] becomes. *)
Definition ide_probe (polls : nat) : M machine bool :=
  zoom (Apic.pic_enable IRQ_IDE1) ;;
  n ← zoom Mp.pcpu_ncpu;
  zoom (Apic.ioapic_enable IRQ_IDE1 (u8 (n - 1)) 0 0) ;;
  zoom (ide_wait polls false) ;;
  zoom (Hw.outb 502 (Z.lor 224 (Z.shiftl 1 4)) : M Apic.dev_st ()) ;;
  disk ← zoom (ide_scan 1000);
  zoom (Hw.outb 502 (Z.lor 224 (Z.shiftl 0 4)) : M Apic.dev_st ()) ;;
  mret disk.

(** The parts of [devinit] that the layers of the kernel have, with what the probe of the
    second drive finds. *)
Definition devinit_kernel (disk : bool) : M k_state () :=
  trap_init 0 ;;
  zoom bufcache_init ;;
  zoom file_init ;;
  zoom inode_init ;;
  zoom (ide_init disk) ;;
  zoom ipc_init.

Definition devinit (polls : nat) : M machine () :=
  zoom (Segment.seg_init 0) ;;
  zoom Intr.enable_sse ;;
  cons_init ;;
  zoom (Mp.pcpu_init ap_image) ;;
  zoom (Apic.tsc_init polls) ;;
  zoom (Intr.intr_init addr polls) ;;
  zoom (trap_init 0) ;;
  zoom (zoom bufcache_init : M k_state ()) ;;
  zoom (zoom file_init : M k_state ()) ;;
  zoom (zoom inode_init : M k_state ()) ;;
  disk ← ide_probe polls;
  zoom (zoom (ide_init disk) : M k_state ()) ;;
  zoom (zoom ipc_init : M k_state ()).

(** [cpu] is the index in the kernel stack. *)
Definition devinit_ap (polls : nat) (cpu : Z) : M machine () :=
  if bool_decide (1 <= cpu < 8) then
    zoom (Segment.seg_init cpu) ;;
    zoom (Mp.pcpu_init ap_image) ;;
    zoom (Intr.intr_init addr polls) ;;
    zoom (trap_init cpu) ;;
    zoom (zoom paging_init_ap : M k_state ())
  else kern_panic.

(** ** Processes *)

Section Main.
Context (start idle shell : Z).

Definition start_shell (pid : Z) : M k_state () :=
  zoom (console_init_fds pid) ;;
  zoom (tqueue_remove NUM_IDS pid) ;;
  zoom (tcb_set_state pid TSTATE_RUN) ;;
  zoom (set_curid pid) ;;
  zoom (kctx_switch 0 pid).

Definition kern_main : M k_state () :=
  proc_create start idle 1000 ;;
  pid ← proc_create start shell 200000;
  start_shell pid.

(** The stack gives the arguments that [tcb_init] does not pass, [mbi] is the memory map. *)
Definition kern_init (polls : nat) (stk : Z → Z) (mbi : list mboot_mmap_t) : M machine () :=
  devinit polls ;;
  zoom (zoom (thread_init stk mbi) : M k_state ()) ;;
  zoom kern_main.

(** What the other processors would do: nothing sets [all_ready]. *)
Definition kern_main_ap : M machine () :=
  i ← zoom Mp.get_pcpu_idx;
  zoom (Mp.set_pcpu_boot_info i true) ;;
  r ← gets all_ready;
  if (r : bool) then
    modify (λ s, {| x_con := x_con s; x_intr := x_intr s; x_k := x_k s; all_ready := all_ready s; cpu_booted := cpu_booted s + 1 |})
  else spin.

Definition kern_init_ap (polls : nat) (cpu : Z) (f : M machine ()) : M machine () := devinit_ap polls cpu ;; f.
End Main.
End Start.

(** ** Creating a process, for the scheduler *)

Lemma Ok_state {S A} (a b : A) (s s' : S) : Ok a s = Ok b s' → s = s'.
Proof. by intros [= _ ->]. Qed.

(** The scheduler does not look at the memory layers below it. *)
Lemma sched_rep_pt (t : th_state) a (pt : pt_state) : sched_rep t a →
  sched_rep (set_tq (put (put pt (tq_tcb (th_tq t))) (th_tq t)) t) a.
Proof. intros [Hlk [H1 H2 H3 H4 H5 H6 H7]]. split; [exact Hlk|]. split; [exact H1|exact H2|by destruct H3; split|exact H4|exact H5|exact H6|exact H7]. Qed.

(** Nor at the open files. *)
Lemma sched_rep_files t a p fds : sched_rep t a → sched_rep (set_tb p (with_openfiles fds (tb t p)) t) a.
Proof.
  intros [Hlk [H1 H2 H3 H4 H5 H6 H7]].
  assert (∀ q, state (tb (set_tb p (with_openfiles fds (tb t p)) t) q) = state (tb t q) ∧ channel (tb (set_tb p (with_openfiles fds (tb t p)) t) q) = channel (tb t q)) as Hst.
  { intros q. rewrite tb_set_tb. by case_decide; [subst|]. }
  split; [exact Hlk|]. split; [exact H1|exact H2|by apply queue_rep_links|exact H4| | |].
  - rewrite (proj1 (Hst (cur a))). exact H5.
  - intros q Hq. rewrite (proj1 (Hst q)). by apply H6.
  - intros q c. destruct (Hst q) as [-> ->]. apply H7.
Qed.

Lemma spawn_split entry id q t pid t' : thread_spawn entry id q t = Ok pid t' → ∃ c, container_split id q (th_cont t) = Ok pid c.
Proof.
  intros E. apply bind_inv in E as (a & s1 & E1 & E). apply bind_inv in E as (pid' & s2 & E2 & E).
  assert (pid = pid') as -> by (repeat (apply bind_inv in E as (? & ? & _ & E)); by injection E).
  apply bind_inv in E2 as (pid & s3 & E3 & E2). assert (pid' = pid) as -> by (repeat (apply bind_inv in E2 as (? & ? & _ & E2)); by injection E2).
  apply zoom_inv in E3 as (t1 & E3 & _). apply zoom_inv in E3 as (t2 & E3 & _). apply zoom_inv in E3 as (t3 & E3 & _). apply zoom_inv in E3 as (t4 & E3 & _).
  exists t4. rewrite <- E3. f_equal. unfold sched_acquire, spinlock_acquire in E1. destruct (spinlock_acquire_A cpu_idx (sched_lk t)); [|done]. by injection E1 as _ <-.
Qed.

Lemma proc_create_sched start elf q s pid s' a : proc_create start elf q s = Ok pid s' → sched_rep (kth s) a →
  0 <= pid < NUM_IDS → pid ≠ cur a → pid ∉ ready a → asleep a !! pid = None →
  sched_rep (kth s') (a_spawn pid a) ∧ alook kctx_zero (kctx_pool (kth s')) pid = new_kctx (kth s) pid start ∧
  ft_lock (k_fs s') = ft_lock (k_fs s) ∧ ftable (k_fs s') = ftable (k_fs s).
Proof.
  intros E Hs Hp H1 H2 H3. apply bind_inv in E as (p & s1 & [-> ->]%curid_inv & E). apply bind_inv in E as (c & s1 & E1 & E).
  apply zoom_inv in E1 as (t & E1 & ->). apply bind_inv in E as (b & s2 & E2 & E). apply zoom_inv in E2 as (pt & E2 & ->).
  apply bind_inv in E as (e & s3 & E3 & E). apply bind_inv in E as (u & s4 & E4 & E). apply bind_inv in E as (d & s5 & E5 & E). apply bind_inv in E as (base & s6 & E6 & E). apply bind_inv in E as (d' & s7 & E7 & E). assert (c = pid) as -> by (by injection E). apply Ok_state in E as <-.
  assert (s3 = put (Lens := k_pt_lens) pt (put (Lens := k_th_lens) t s)) as ->.
  { apply zoom_inv in E3 as (pt' & E3 & ->). assert (pt' = view (Lens := k_pt_lens) (put (Lens := k_pt_lens) pt (put (Lens := k_th_lens) t s))) as ->; [|apply put_view].
    unfold elf_entry in E3. apply bind_inv in E3 as (m & x & E3 & E3'). injection E3 as _ <-. apply bind_inv in E3' as (y & x & E3 & E3'). injection E3' as _ <-.
    unfold KERN_ASSERT in E3. destruct (bool_decide _); [|done]. by injection E3 as <-. }
  unfold aget in E4. destruct (bool_decide _) in E4; [|done]. apply Ok_state in E4 as <-. unfold aset in E5. destruct (bool_decide _) in E5; [|done]. apply Ok_state in E5 as <-.
  apply Ok_state in E6 as <-. apply zoom_inv in E7 as (g & _ & ->).
  destruct (spawn_split _ _ _ _ _ _ E1) as [cc Hcc].
  destruct (spawn_sched (kth s) a start (current s) q pid cc Hs Hcc Hp H1 H2 H3) as (t' & E1' & Ht & _ & Hk & _).
  rewrite E1 in E1'. injection E1' as <-. split; [exact (sched_rep_pt t _ pt Ht)|]. split; [exact Hk|]. by split.
Qed.

(** The frame and the stack with which a new process enters user mode. *)
Definition user_frame (u : tf_t) (entry : Z) : Prop :=
  eip u = entry ∧ esp u = VM_USERHI ∧ tf_cs u = Z.lor Segment.CPU_GDT_UCODE 3 ∧ tf_ss u = Z.lor Segment.CPU_GDT_UDATA 3 ∧
  tf_ds u = Z.lor Segment.CPU_GDT_UDATA 3 ∧ tf_es u = Z.lor Segment.CPU_GDT_UDATA 3 ∧ eflags u = FL_IF.

Definition has_stack (s : k_state) (p : Z) : Prop :=
  ∃ k, Segment.proc_kstack (k_seg s) !! p = Some k ∧
    Segment.ts_esp0 (Segment.tss k) = u32 (kstack_hi p (kth s)) ∧ Segment.ts_ss0 (Segment.tss k) = Segment.CPU_GDT_KDATA.

Lemma elf_entry_inv exe (c c' : pt_state) e : elf_entry exe c = Ok e c' → c' = c ∧ e = e_entry (mem c) exe.
Proof.
  intros E. unfold elf_entry in E. apply bind_inv in E as (m & x & E1 & E). injection E1 as <- <-. apply bind_inv in E as (y & x & E2 & E). injection E as <- <-.
  unfold KERN_ASSERT in E2. destruct (bool_decide _); [|done]. by injection E2 as <- <-.
Qed.

Lemma proc_create_user start elf q s pid s' : proc_create start elf q s = Ok pid s' →
  user_frame (alook tf_zero (uctx_pool s') pid) (e_entry (mem (kpt s')) elf) ∧ has_stack s' pid.
Proof.
  intros E. apply bind_inv in E as (p & s1 & _ & E). apply bind_inv in E as (c & s2 & _ & E). apply bind_inv in E as (b & s3 & _ & E).
  apply bind_inv in E as (e & s4 & E4 & E). apply zoom_inv in E4 as (pt & E4 & ->). apply elf_entry_inv in E4 as [-> ->]. rewrite put_view in E.
  apply bind_inv in E as (u & s5 & E5 & E). unfold aget in E5. destruct (bool_decide _); [|done]. injection E5 as <- <-.
  apply bind_inv in E as (d & s5 & E5 & E). unfold aset in E5. destruct (bool_decide _); [|done]. apply Ok_state in E5 as <-.
  apply bind_inv in E as (base & s6 & E6 & E). injection E6 as <- <-. apply bind_inv in E as (d' & s7 & E7 & E). injection E as <- <-.
  apply zoom_inv in E7 as (g & E7 & ->). unfold Segment.seg_init_proc, aset in E7. destruct (bool_decide _); [|done]. apply Ok_state in E7 as <-.
  split; [cbn [uctx_pool put k_seg_lens upd_uctx_pool]; rewrite alook_insert_eq; by split_and!|]. eexists. split; [apply lookup_insert_eq|]. by split.
Qed.

(** ** The console of the shell *)

Definition console_file (ty : file_type) (r w : Z) (v : file) : file := with_fref 1 (with_kind ty r w (with_fref 1 v)).

Lemma ffree_range fuel t f0 f : ffree fuel t f0 = Some f → f0 <= f < f0 + Z.of_nat fuel.
Proof. revert f0. induction fuel as [|n IH]; intros f0 E; [done|]. cbn [ffree] in E. case_bool_decide; [injection E as <-; lia|]. apply IH in E. lia. Qed.

(** The first free entry of the table becomes a descriptor. *)
Lemma console_fd_run p fd ty r w (s : k_state) f : ft_lock (k_fs s) = spinlock_init → ffree (Z.to_nat NFILE) (ftable (k_fs s)) 0 = Some f →
  0 <= p < NUM_IDS → 0 <= fd < NOFILE → ∃ s', zoom (console_fd p fd ty r w) s = Ok () s' ∧ ft_lock (k_fs s') = spinlock_init ∧
    (∀ g, alook file_zero (ftable (k_fs s')) g = if decide (f = g) then console_file ty r w (alook file_zero (ftable (k_fs s)) f) else alook file_zero (ftable (k_fs s)) g) ∧
    kth s' = set_tb p (with_openfiles (partial_alter (λ _, Some f) fd (openfiles (tb (kth s) p))) (tb (kth s) p)) (kth s).
Proof.
  intros Hlk Hf Hp Hfd. pose proof (ffree_range _ _ _ _ Hf) as Hrg. assert (0 <= f < NFILE) as Hr by (unfold NFILE in *; lia).
  set (t := k_fs s) in *. set (v := alook file_zero (ftable t) f).
  assert (file_alloc t = Ok (Some f) (upd_ftable <[f := with_fref 1 v]> t)) as E1.
  { unfold file_alloc, ft_acquire. rewrite (bind_Ok _ _ _ _ _ (spinlock_acquire_free _ _ t Hlk)). rewrite (bind_Ok (gets ftable) _ _ _ _ eq_refl).
    cbn [ftable set_ft_lock]. rewrite Hf. unfold fupd, fget, fset. erewrite bind_Ok; [|erewrite (bind_Ok _ _ _ _ _ (aget_Ok _ _ _ _ _ Hr)); by apply aset_Ok].
    unfold ft_release. erewrite bind_Ok; [|reflexivity]. unfold mret, M_ret. destruct t. cbn in Hlk. by subst. }
  assert (fupd f (λ v, with_fref 1 (with_kind ty r w v)) (upd_ftable <[f := with_fref 1 v]> t) = Ok () (upd_ftable <[f := console_file ty r w v]> (upd_ftable <[f := with_fref 1 v]> t))) as E2.
  { unfold fupd, fget, fset. rewrite (bind_Ok _ _ _ _ _ (aget_Ok _ _ _ _ _ Hr)). cbn [ftable upd_ftable]. rewrite alook_insert_eq. by apply aset_Ok. }
  set (x := with_openfiles (partial_alter (λ _, Some f) fd (openfiles (tb (kth s) p))) (tb (kth s) p)).
  eexists. split; [|split; [|split]].
  - unfold zoom at 1. cbn [view k_fs_lens]. fold t. unfold console_fd. rewrite (bind_Ok _ _ _ _ _ E1), (bind_Ok _ _ _ _ _ E2).
    unfold zoom. unfold tcb_set_openfiles. rewrite bool_decide_eq_true_2 by exact Hfd. rewrite tcb_upd_Ok by exact Hp. reflexivity.
  - exact Hlk.
  - intros g. cbn -[decide]. rewrite !alook_insert. by case_decide.
  - reflexivity.
Qed.

Lemma ffree_first t n : ∀ fuel f0, (n < fuel)%nat → f_ref (alook file_zero t (f0 + Z.of_nat n)) = 0 →
  (∀ g, f0 <= g < f0 + Z.of_nat n → f_ref (alook file_zero t g) ≠ 0) → ffree fuel t f0 = Some (f0 + Z.of_nat n).
Proof.
  induction n as [|n IH]; intros [|fuel] f0 Hn H0 Hg; try lia; cbn [ffree].
  - rewrite Z.add_0_r in *. by rewrite bool_decide_eq_true_2.
  - rewrite bool_decide_eq_false_2 by (apply Hg; lia). replace (f0 + Z.of_nat (S n)) with (f0 + 1 + Z.of_nat n) in * by lia.
    apply IH; [lia|exact H0|intros; apply Hg; lia].
Qed.

Lemma set_tb_twice p x y (t : th_state) : set_tb p x (set_tb p y t) = set_tb p x t.
Proof. unfold set_tb, set_tq, set_blk, upd_TCBPool. cbn. by rewrite insert_insert_eq. Qed.

(** With an empty table of files the console is the entries 0, 1 and 2. *)
Definition console_at (fds : gmap Z Z) (t : Z → file) : Prop :=
  ∃ v0 v1 v2, fds = {[ 0 := 0; 1 := 1; 2 := 2 ]} ∧ t 0 = console_file FD_CONSOLE_IN 1 0 v0 ∧
    t 1 = console_file FD_CONSOLE_OUT 0 1 v1 ∧ t 2 = console_file FD_CONSOLE_OUT 0 1 v2.

Lemma console_init_run p (s : k_state) : ft_lock (k_fs s) = spinlock_init → (∀ f, f_ref (alook file_zero (ftable (k_fs s)) f) = 0) →
  0 <= p < NUM_IDS → openfiles (tb (kth s) p) = ∅ → ∃ s' fds, zoom (console_init_fds p) s = Ok () s' ∧ console_at fds (alook file_zero (ftable (k_fs s'))) ∧
    kth s' = set_tb p (with_openfiles fds (tb (kth s) p)) (kth s).
Proof.
  intros Hlk Ht Hp He. assert (∀ n, (n < 3)%nat → (n < Z.to_nat NFILE)%nat) as Hn by (unfold NFILE; lia).
  destruct (console_fd_run p 0 FD_CONSOLE_IN 1 0 s 0 Hlk) as (s1 & E1 & Hlk1 & Ht1 & Hk1); [apply (ffree_first _ 0); [apply Hn; lia|apply Ht|lia]|done..|].
  destruct (console_fd_run p 1 FD_CONSOLE_OUT 0 1 s1 1 Hlk1) as (s2 & E2 & Hlk2 & Ht2 & Hk2); [apply (ffree_first _ 1); [apply Hn; lia|rewrite Ht1, decide_False by lia; apply Ht|]|done..|].
  { intros g Hg. assert (g = 0) as -> by lia. by rewrite Ht1. }
  destruct (console_fd_run p 2 FD_CONSOLE_OUT 0 1 s2 2 Hlk2) as (s3 & E3 & Hlk3 & Ht3 & Hk3); [apply (ffree_first _ 2); [apply Hn; lia|rewrite Ht2, decide_False, Ht1, decide_False by lia; apply Ht|]|done..|].
  { intros g Hg. assert (g = 0 ∨ g = 1) as [-> | ->] by lia; rewrite Ht2; [rewrite decide_False, Ht1 by lia|]; done. }
  eexists s3, _. split; [unfold console_init_fds; rewrite zoom_mbind, (bind_Ok _ _ _ _ _ E1), zoom_mbind, (bind_Ok _ _ _ _ _ E2); exact E3|]. split.
  - eexists _, _, _. split; [reflexivity|]. rewrite !Ht3, !Ht2, !Ht1. done.
  - rewrite Hk3, Hk2, Hk1, !tb_set_tb, !decide_True by done. cbn [openfiles with_openfiles]. rewrite He, !set_tb_twice. reflexivity.
Qed.

(** ** The switch to the shell *)

(** The thread [x] is taken from anywhere in the ready queue and runs. *)
Lemma take_run (s : th_state) a l x r : sched_rep s a → ready a = l ++ x :: r → x ≠ 0 →
  ∃ s1 s2 s', tqueue_remove NUM_IDS x (th_tq s) = Ok () s1 ∧ tcb_set_state x TSTATE_RUN (tq_tcb s1) = Ok () s2 ∧
    kctx_switch 0 x (upd_CURID <[cpu_idx := x]> (set_tq (put s2 s1) s)) = Ok () s' ∧
    sched_rep s' {| cur := x; ready := l ++ r; asleep := asleep a |} ∧ cpu s' = alook kctx_zero (kctx_pool s) x ∧ proc_kstack_addr s' = proc_kstack_addr s ∧ th_frame s s'.
Proof.
  intros [Hlk Hrep] Hl Hx0. pose proof (λ p, ready_not_asleep s a p Hrep) as Hns. destruct Hrep as [Hcur Hrg Hq Hfr Hrun Hrd Has]. rewrite Hl in *.
  assert (0 <= x < NUM_IDS) as Hx by (apply Hq; set_solver).
  destruct (tqueue_remove_run (th_tq s) NUM_IDS l x r ltac:(unfold NUM_IDS; lia) Hq) as (s1 & E1 & Hq1 & Hf & _).
  assert (∀ p, fields (tb (set_tq s1 s) p) = fields (tb s p)) as Hf1 by exact (fields_set_tq _ _ _ Hf).
  eexists s1, _, _. split; [exact E1|]. split; [by apply tcb_upd_Ok|]. split; [apply kctx_switch_Ok; [unfold NUM_IDS; lia|exact Hx]|].
  set (s' := set_cpu _ _). change (th_tq s') with (th_tq (set_tb x (with_state TSTATE_RUN (tb (set_tq s1 s) x)) (set_tq s1 s))).
  assert (∀ p, state (tb s' p) = (if decide (x = p) then TSTATE_RUN else state (tb s p)) ∧ channel (tb s' p) = channel (tb s p) ∧ own_data (tb s' p) = own_data (tb s p)) as Hp.
  { intros p. apply fields_split. change (tb s' p) with (tb (set_tb x (with_state TSTATE_RUN (tb (set_tq s1 s) x)) (set_tq s1 s)) p).
    rewrite fields_set_tb, fields_with_state, !Hf1. by case_decide; [subst|]. }
  split; [|split; [cbn; by rewrite alook_insert_ne by done|split; [reflexivity|]]].
  - split; [exact Hlk|]. assert (NoDup (l ++ x :: r)) as HN by apply Hq. apply NoDup_app in HN as (HN1 & HN2 & [HN3 _]%NoDup_cons).
    split; cbn [cur ready asleep]; [apply alook_insert_eq|exact Hx|by apply queue_rep_links|set_solver| | |].
    + rewrite (proj1 (Hp x)). by rewrite decide_True.
    + intros p Hin. rewrite (proj1 (Hp p)), decide_False by set_solver. apply Hrd. set_solver.
    + intros p c. destruct (Hp p) as (-> & -> & _). rewrite Has. pose proof (Hns p) as Hnp. case_decide; [subst|done].
      intuition (try congruence); set_solver.
  - split; [exact (fr_pt _ _ _ _ Hf)|]. split; [intros p; apply Hp|reflexivity].
Qed.

(** A switch keeps the descriptors and the containers. *)
Lemma fds_ok_switch (s s' : k_state) : fds_ok s → th_frame (kth s) (kth s') → ftable (k_fs s') = ftable (k_fs s) →
  t_used (traits_of s (current s')) ≠ 0 → fds_ok s'.
Proof.
  intros [[[H1 H2 H3] HT] _] (Hpt & Hown & _) Hft Hu.
  assert (∀ q, t_used (traits_of s' q) = t_used (traits_of s q) ∧ t_kids (traits_of s' q) = t_kids (traits_of s q)) as Hc.
  { intros q. change (t_used (traits_of s' q)) with (used (cont_look (view (tcb_pt (tq_tcb (th_tq (kth s'))))) q)).
    change (t_kids (traits_of s' q)) with (nchildren (cont_look (view (tcb_pt (tq_tcb (th_tq (kth s'))))) q)). rewrite Hpt. by split. }
  assert (∀ q, t_fds (traits_of s' q) = t_fds (traits_of s q)) as Hf by (intros q; pose proof (Hown q) as E; by injection E).
  assert (∀ q, t_ref (traits_of s' q) = t_ref (traits_of s q) ∧ t_kind (traits_of s' q) = t_kind (traits_of s q)) as Hr.
  { intros q. change (t_ref (traits_of s' q)) with (f_ref (alook file_zero (ftable (k_fs s')) q)).
    change (t_kind (traits_of s' q)) with (f_type (alook file_zero (ftable (k_fs s')) q)). rewrite Hft. by split. }
  split; [split; [split|]|].
  - intros p fd f. rewrite Hf. destruct (Hc p) as [-> _]. apply H1.
  - intros f Hr0. destruct (Hr f) as [-> _]. rewrite (H2 f Hr0). f_equal. apply refs_ext. intros p. by rewrite Hf.
  - intros f. destruct (Hr f) as [-> ->]. apply H3.
  - revert HT. by apply tree_inv_ext.
  - unfold live. destruct (Hc (current s')) as [-> _]. exact Hu.
Qed.

Lemma start_shell_run p (s : k_state) a l r : fds_ok s → t_used (traits_of s p) ≠ 0 → t_fds (traits_of s p) = ∅ → sched_rep (kth s) a →
  ready a = l ++ p :: r → p ≠ 0 → ft_lock (k_fs s) = spinlock_init → (∀ f, f_ref (alook file_zero (ftable (k_fs s)) f) = 0) →
  ∃ s', start_shell p s = Ok () s' ∧ sched_rep (kth s') {| cur := p; ready := l ++ r; asleep := asleep a |} ∧
    cpu (kth s') = alook kctx_zero (kctx_pool (kth s)) p ∧ fds_ok s' ∧ console_at (openfiles (tb (kth s') p)) (alook file_zero (ftable (k_fs s'))) ∧
    proc_kstack_addr (kth s') = proc_kstack_addr (kth s).
Proof.
  intros HD Hu He Hs Hl Hp0 Hlk Ht. assert (0 <= p < NUM_IDS) as Hp by (apply (sr_queue _ _ (proj2 Hs)); rewrite Hl; set_solver).
  destruct (console_init_run p s Hlk Ht Hp He) as (s1 & fds & E1 & Hcon & Hk1).
  destruct (console_init_ok p s () s1 E1 HD) as [HD1 _]; [split; [exact Hu|]; intros; rewrite He; apply lookup_empty|].
  pose proof (sched_rep_files _ _ p fds Hs) as Hs1. rewrite <- Hk1 in Hs1.
  destruct (take_run (kth s1) a l p r Hs1 Hl Hp0) as (t1 & t2 & t3 & R1 & R2 & R3 & Hs3 & Hcpu & Hka & Hfr).
  assert (used (cont_look (view (tcb_pt (tq_tcb (th_tq (kth s1))))) p) ≠ 0) as Hu1 by (rewrite Hk1; exact Hu).
  exists (put (Lens := k_th_lens) t3 s1). split; [|split; [exact Hs3|split; [|split; [|split]]]].
  - unfold start_shell. rewrite (bind_Ok _ _ _ _ _ E1). rewrite (bind_Ok _ _ _ _ _ (zoom_Ok (S:=k_state) _ s1 _ _ R1)).
    erewrite bind_Ok; [|exact (zoom_Ok (S:=k_state) _ _ _ _ R2)]. erewrite bind_Ok; [|reflexivity]. exact (zoom_Ok (S:=k_state) _ _ _ _ R3).
  - transitivity (alook kctx_zero (kctx_pool (kth s1)) p); [exact Hcpu|]. by rewrite Hk1.
  - apply (fds_ok_switch s1); [exact HD1|exact Hfr|reflexivity|]. match goal with |- t_used (traits_of _ ?x) ≠ _ => replace x with p; [exact Hu1|] end.
    symmetry. exact (sr_cur _ _ (proj2 Hs3)).
  - destruct Hfr as (_ & Hown & _). assert (openfiles (tb t3 p) = openfiles (tb (kth s1) p)) as Eo by exact (f_equal (λ x, x.1.1) (Hown p)).
    change (console_at (openfiles (tb t3 p)) (alook file_zero (ftable (k_fs s1)))). rewrite Eo, Hk1, tb_set_tb, decide_True by done. exact Hcon.
  - transitivity (proc_kstack_addr (kth s1)); [exact Hka|]. by rewrite Hk1.
Qed.

(** The start of the shell leaves frames and stacks alone. *)
Lemma zoom_fs_user {A} (m : M fs_state A) (s s' : k_state) a : zoom m s = Ok a s' → uctx_pool s' = uctx_pool s ∧ k_seg s' = k_seg s.
Proof. by intros (c & _ & ->)%zoom_inv. Qed.

Lemma start_shell_user p (s s' : k_state) : start_shell p s = Ok () s' → uctx_pool s' = uctx_pool s ∧ k_seg s' = k_seg s.
Proof.
  intros E. unfold start_shell in E. apply bind_inv in E as ([] & s1 & E1 & E). apply zoom_fs_user in E1 as [<- <-].
  apply bind_inv in E as ([] & s2 & E2 & E). apply zoom_inv in E2 as (c2 & _ & ->). apply bind_inv in E as ([] & s3 & E3 & E). apply zoom_inv in E3 as (c3 & _ & ->).
  apply bind_inv in E as ([] & s4 & E4 & E). apply zoom_inv in E4 as (c4 & _ & ->). apply zoom_inv in E as (c5 & _ & ->). by split.
Qed.

(** From the start of a process on its own stack and page table to user mode. *)
Lemma proc_start_user_run (s : k_state) p e : current s = p → 0 <= p < NUM_IDS → user_frame (alook tf_zero (uctx_pool s) p) e → has_stack s p →
  ∃ u s', proc_start_user s = Ok u s' ∧ user_frame u e ∧ has_stack s' p ∧ cr3 (kpt s') = p ∧
    Segment.seg_base (Segment.tr (Segment.regs (k_seg s'))) = u32 (Segment.tss_at (Segment.proc_at (proc_kstack_addr (kth s)) p)).
Proof.
  intros Hc Hp Hu Hk. unfold proc_start_user. rewrite (bind_Ok _ _ _ _ _ (curid_run s)), Hc, (bind_Ok _ _ _ _ _ (kstack_switch_on p s)).
  set (s1 := on_kstack p s). assert (zoom (set_pdir_base p) s1 = Ok () (put (set_cr3 p (kpt s1)) s1)) as Hcr.
  { apply (zoom_Ok (S:=k_state)). unfold set_pdir_base. by rewrite bool_decide_eq_true_2 by lia. }
  rewrite (bind_Ok _ _ _ _ _ Hcr), (aget_Ok _ _ _ _ _ Hp). eexists _, _. split; [reflexivity|]. split; [exact Hu|]. split; [exact Hk|].
  split; [reflexivity|]. apply Segment.tss_desc_is.
Qed.

(** The state after the layers of the kernel are initialised: the thread 0 runs alone, no
    process and no file was made. *)
Record booted (s : k_state) : Prop := {
  bt_fds : fds_ok s;
  bt_kids : t_kids (traits_of s 0) = 0;
  bt_sched : sched_rep (kth s) {| cur := 0; ready := []; asleep := ∅ |};
  bt_lock : ft_lock (k_fs s) = spinlock_init;
  bt_files f : f_ref (alook file_zero (ftable (k_fs s)) f) = 0
}.

(** The two processes are the children 1 and 2 of the container 0. *)
Lemma kern_main_run start idle shell s p1 s1 p2 s2 : booted s → proc_create start idle 1000 s = Ok p1 s1 → proc_create start shell 200000 s1 = Ok p2 s2 →
  p1 = 1 ∧ p2 = 2 ∧ ∃ s', kern_main start idle shell s = Ok () s' ∧ sched_rep (kth s') {| cur := 2; ready := [1]; asleep := ∅ |} ∧
    cpu (kth s') = new_kctx (kth s1) 2 start ∧ fds_ok s' ∧ console_at (openfiles (tb (kth s') 2)) (alook file_zero (ftable (k_fs s'))) ∧
    ∃ u s3, proc_start_user s' = Ok u s3 ∧ user_frame u (e_entry (mem (kpt s2)) shell) ∧ has_stack s3 2 ∧ cr3 (kpt s3) = 2 ∧
      Segment.seg_base (Segment.tr (Segment.regs (k_seg s3))) = u32 (Segment.tss_at (Segment.proc_at (proc_kstack_addr (kth s')) 2)).
Proof.
  intros [HD Hk Hs Hlk Hft] E1 E2. assert (current s = 0) as Hc by exact (sr_cur _ _ (proj2 Hs)).
  assert (0 <= 0 < NUM_IDS ∧ 0 <= 1 < NUM_IDS ∧ 0 <= 2 < NUM_IDS ∧ MAX_CHILDREN = 255) as (HN0 & HN1 & HN2 & HM) by (unfold NUM_IDS, MAX_CHILDREN; lia).
  assert (child_slot 0 0 = 1 ∧ child_slot 0 1 = 2) as [Hs1 Hs2] by done.
  destruct (proc_create_agree _ _ _ _ _ _ E1) as [-> HA]; [rewrite Hc, Hk; lia|rewrite Hc, Hk, Hs1; lia|].
  destruct (proc_create_ok _ _ _ _ _ _ HD ltac:(rewrite Hc; exact HN0) ltac:(rewrite Hc, Hk, HM; lia) ltac:(rewrite Hc, Hk, Hs1; lia) E1) as (HD1 & Hc1 & _).
  rewrite Hc, Hk, Hs1 in *. assert (t_kids (traits_of s1 0) = 1) as Hk1 by (rewrite (HA 0); unfold add_child; rewrite decide_False, decide_True by done; cbn [t_kids]; lia).
  destruct (proc_create_agree _ _ _ _ _ _ E2) as [-> _]; [rewrite Hc1, Hk1; lia|rewrite Hc1, Hk1, Hs2; lia|].
  destruct (proc_create_ok _ _ _ _ _ _ HD1 ltac:(rewrite Hc1; exact HN0) ltac:(rewrite Hc1, Hk1, HM; lia) ltac:(rewrite Hc1, Hk1, Hs2; lia) E2) as (HD2 & _ & Hfd & Hu).
  rewrite Hc1, Hk1, Hs2 in *. split; [done|]. split; [done|].
  destruct (proc_create_sched _ _ _ _ _ _ _ E1 Hs HN1 ltac:(done) ltac:(set_solver) ltac:(done)) as (Hr1 & _ & Hlk1 & Hft1).
  destruct (proc_create_sched _ _ _ _ _ _ _ E2 Hr1 HN2 ltac:(done) ltac:(cbn; set_solver) ltac:(done)) as (Hr2 & Hx & Hlk2 & Hft2).
  destruct (start_shell_run 2 s2 _ [1] [] HD2 Hu Hfd Hr2 ltac:(reflexivity) ltac:(done) ltac:(congruence) ltac:(intros f; rewrite Hft2, Hft1; apply Hft)) as (s' & E & HS & Hcpu & HF & HC & Hka).
  destruct (proc_create_user _ _ _ _ _ _ E2) as [Huf (ks & Hk3 & Hk4 & Hk5)]. destruct (start_shell_user _ _ _ E) as [Hux Hsg].
  exists s'. split; [unfold kern_main; rewrite (bind_Ok _ _ _ _ _ E1), (bind_Ok _ _ _ _ _ E2); exact E|]. split; [exact HS|]. rewrite Hcpu, Hx. split; [done|]. split; [done|]. split; [done|].
  apply proc_start_user_run; [exact (sr_cur _ _ (proj2 HS))|exact HN2|by rewrite Hux|]. exists ks. rewrite Hsg. unfold kstack_hi in *. by rewrite Hka.
Qed.

(** ** The layers of the kernel *)

Lemma bufcache_init_keeps (s : bc_state) : ∃ s', bufcache_init s = Ok () s' ∧ bc_th s' = bc_th s.
Proof.
  unfold bufcache_init. rewrite (bind_Ok (modify _) _ _ _ _ eq_refl).
  apply (for_range_inv (λ _ s', bc_th s' = bc_th s)); [unfold NBUF; lia|done|]. intros i s1 Hi <-. unfold buf_get, buf_put.
  eexists. rewrite (bind_Ok _ _ _ _ _ (aget_Ok _ _ _ _ _ Hi)), (bind_Ok _ _ _ _ _ (aset_Ok _ _ _ _ _ Hi)). by split.
Qed.

Lemma ipc_init_returns s : ∃ s', ipc_init s = Ok () s'.
Proof.
  unfold ipc_init. rewrite (bind_Ok (modify _) _ _ _ _ eq_refl). match goal with |- ∃ s', ((for_range _ _ ?body) ≫= _) ?t = _ =>
    destruct (for_range_inv (λ _ _, True) body 0 NUM_IDS t) as (s1 & E & _); [unfold NUM_IDS; lia|done| |] end.
  - intros i s1 Hi _. unfold mupd, mget. eexists. split; [|done]. rewrite (bind_Ok _ _ _ _ _ (aget_Ok _ _ _ _ _ Hi)). by apply aset_Ok.
  - rewrite (bind_Ok _ _ _ _ _ E). by eexists.
Qed.

Lemma devinit_kernel_run disk (s : k_state) : trap_inited s = false → ∃ s', devinit_kernel disk s = Ok () s' ∧ traps_ready s' ∧
  kth s' = kth s ∧ ftable (k_fs s') = ftable (k_fs s) ∧ ft_lock (k_fs s') = spinlock_init.
Proof.
  intros Hi. destruct (trap_init_ready s Hi) as (s1 & E1 & Ht & Hf). destruct (bufcache_init_keeps (view s1)) as (b & E2 & Hb).
  unfold devinit_kernel. change 0 with cpu_idx. rewrite (bind_Ok _ _ _ _ _ E1), (bind_Ok _ _ _ _ _ (zoom_Ok (S:=k_state) _ _ _ _ E2)).
  set (s2 := put b s1). do 3 (erewrite bind_Ok; [|reflexivity]). match goal with |- ∃ _, zoom ipc_init ?t = _ ∧ _ => set (s3 := t) end.
  destruct (ipc_init_returns (view s3)) as (i & E3). exists (put i s3). split; [exact (zoom_Ok (S:=k_state) ipc_init s3 _ _ E3)|].
  assert (kth s2 = kth s) as Hk by (transitivity (bc_th b); [reflexivity|]; rewrite Hb; cbn; by rewrite Hf).
  split; [exact Ht|]. split; [|split; [|reflexivity]]; [destruct disk; exact Hk|]. transitivity (ftable (k_fs s1)); [reflexivity|by rewrite Hf].
Qed.

Lemma root_look q p : ∀ c, CONTAINER c = {[ 0 := root_container q ]} → used (cont_look c p) = (if decide (p = 0) then 1 else 0) ∧ nchildren (cont_look c p) = 0.
Proof. intros c E. unfold cont_look, alook. rewrite E. case_decide as H; [subst; by rewrite lookup_singleton_eq|by rewrite lookup_singleton_ne by congruence]. Qed.

(** No file, no descriptor and no process but the first. *)
Lemma booted_intro (s : k_state) q : sched_rep (kth s) {| cur := 0; ready := []; asleep := ∅ |} → (∀ p, openfiles (tb (kth s) p) = ∅) →
  CONTAINER (th_cont (kth s)) = {[ 0 := root_container q ]} → ft_lock (k_fs s) = spinlock_init → ftable (k_fs s) = ∅ → booted s.
Proof.
  intros Hs Hf Hc Hlk Ht. pose proof (λ p, root_look q p _ Hc) as Hr.
  assert (∀ p, t_used (traits_of s p) = (if decide (p = 0) then 1 else 0)) as Hu by (intros p; apply Hr).
  assert (∀ p, t_kids (traits_of s p) = 0) as Hk by (intros p; apply Hr).
  assert (∀ p, t_fds (traits_of s p) = ∅) as He by exact Hf.
  assert (∀ f, alook file_zero (ftable (k_fs s)) f = file_zero) as Hz by (intros f; unfold alook; by rewrite Ht).
  assert (∀ f, t_ref (traits_of s f) = 0 ∧ t_kind (traits_of s f) = FD_NONE) as Hr0.
  { intros f. split; [transitivity (f_ref (alook file_zero (ftable (k_fs s)) f))|transitivity (f_type (alook file_zero (ftable (k_fs s)) f))]; try reflexivity; by rewrite Hz. }
  split; [split; [split; [split|split]|]|apply Hk|exact Hs|exact Hlk|intros f; by rewrite Hz].
  - intros p fd f. by rewrite He, lookup_empty.
  - intros f _. rewrite (proj1 (Hr0 f)), refs_none by (intros p fd; by rewrite He, lookup_empty). done.
  - intros f _ _. apply Hr0.
  - intros id _. rewrite Hk. unfold MAX_CHILDREN. lia.
  - intros id _ _. apply Hk.
  - intros id k Hid Hkk. rewrite Hk in Hkk. rewrite Hu, decide_False; [done|]. unfold child_slot, MAX_CHILDREN. lia.
  - unfold live. rewrite (sr_cur _ _ (proj2 Hs) : current s = 0), Hu. by rewrite decide_True.
Qed.


(** C14: The start of the first programs: when the images of the idle program and of the
    shell load on the booted kernel, [kern_main] switches the processor to the start of
    process 2, the shell, which has the console as its descriptors 0, 1 and 2; the idle
    program is ready as process 1, and the counts of the files are right.  There [proc_start_user]
    enters user mode at the entry point in the image of the shell, with the stack at the top
    of user memory, the segments of the user and interrupts on, under the page table of
    process 2, and the task register gives the process's own kernel stack for its traps. *)
Theorem kern_main_starts_shell start idle shell s p1 s1 p2 s2 :
  booted s → proc_create start idle 1000 s = Ok p1 s1 → proc_create start shell 200000 s1 = Ok p2 s2 →
  p1 = 1 ∧ p2 = 2 ∧ ∃ s', kern_main start idle shell s = Ok () s' ∧ sched_rep (kth s') {| cur := 2; ready := [1]; asleep := ∅ |} ∧
    cpu (kth s') = new_kctx (kth s1) 2 start ∧ fds_ok s' ∧ console_at (openfiles (tb (kth s') 2)) (alook file_zero (ftable (k_fs s'))) ∧
    ∃ u s3, proc_start_user s' = Ok u s3 ∧ user_frame u (e_entry (mem (kpt s2)) shell) ∧ has_stack s3 2 ∧ cr3 (kpt s3) = 2 ∧
      Segment.seg_base (Segment.tr (Segment.regs (k_seg s3))) = u32 (Segment.tss_at (Segment.proc_at (proc_kstack_addr (kth s')) 2)).
Proof. apply kern_main_run. Qed.

(** A booted kernel with an image that has no segments at address 4096. *)
Definition tiny_image : gmap Z Z := list_to_map (zip (seqZ 4096 4) [127; 69; 76; 70] ++ [(4123, 64); (4128, 64); (4146, 1); (4204, 3)]).

Definition tiny_kernel : k_state :=
  k_around {| th_tq := {| tq_tcb := {| tcb_pt := put (Lens := pt_cont_lens) {| c_at := at0; CONTAINER := {[ 0 := root_container 300000 ]} |} (pt0 spinlock_init 4194304 tiny_image);
                                       TCBPool := {[ 0 := with_state TSTATE_RUN TCB_zero ]} |}; TQueuePool := {[ (cpu_idx, NUM_IDS) := {| head := NUM_IDS; tail := NUM_IDS |} ]} |};
     CURID := {[ cpu_idx := 0 ]}; kctx_pool := ∅; proc_kstack_addr := 0; cpu := kctx_zero; sched_ticks := ∅; sched_lk := spinlock_init |}.

Definition idle_made : k_state := match proc_create 12345 4096 1000 tiny_kernel with Ok _ s => s | _ => tiny_kernel end.

Definition shell_made : k_state := match proc_create 12345 4096 200000 idle_made with Ok _ s => s | _ => idle_made end.

Lemma tiny_booted : booted tiny_kernel.
Proof.
  assert (∀ p, tb (kth tiny_kernel) p = if decide (p = 0) then with_state TSTATE_RUN TCB_zero else TCB_zero) as Hb.
  { intros p. change (alook TCB_zero ({[ 0 := with_state TSTATE_RUN TCB_zero ]} : gmap Z TCB) p = if decide (p = 0) then with_state TSTATE_RUN TCB_zero else TCB_zero).
    unfold alook. case_decide as E; [subst; by rewrite lookup_singleton_eq|by rewrite lookup_singleton_ne by congruence]. }
  apply (booted_intro _ 300000); [|intros p; rewrite Hb; by case_decide|reflexivity..].
  split; [reflexivity|]. split; cbn [cur ready asleep]; [reflexivity|unfold NUM_IDS; lia| |set_solver|by rewrite Hb|set_solver|].
  - split; [constructor|set_solver|reflexivity|reflexivity|done].
  - intros p c. rewrite lookup_empty, Hb. split; [done|]. intros (_ & Hst & _). by case_decide.
Qed.

Lemma kern_main_starts_shell_witness : ∃ s' u s3, kern_main 12345 4096 4096 tiny_kernel = Ok () s' ∧ sched_rep (kth s') {| cur := 2; ready := [1]; asleep := ∅ |} ∧
  k_eip (cpu (kth s')) = 12345 ∧ fds_ok s' ∧ console_at (openfiles (tb (kth s') 2)) (alook file_zero (ftable (k_fs s'))) ∧
  proc_start_user s' = Ok u s3 ∧ user_frame u 1073741824 ∧ has_stack s3 2 ∧ cr3 (kpt s3) = 2.
Proof.
  assert (proc_create 12345 4096 1000 tiny_kernel = Ok 1 idle_made) as E1 by (vm_compute; reflexivity).
  assert (proc_create 12345 4096 200000 idle_made = Ok 2 shell_made) as E2 by (vm_compute; reflexivity).
  assert (e_entry (mem (kpt shell_made)) 4096 = 1073741824) as Ee by (vm_compute; reflexivity).
  destruct (kern_main_starts_shell 12345 4096 4096 tiny_kernel 1 idle_made 2 shell_made tiny_booted E1 E2) as (_ & _ & s' & E & Hs & Hc & Hf & Hcon & u & s3 & Eu & Hu & Hk & H3 & _).
  rewrite Ee in Hu. exists s', u, s3. split; [exact E|]. split; [exact Hs|]. split; [by rewrite Hc|]. by split_and!.
Defined.

