(* ===== verification/Boot.v ===== *)
(** * The boot loader (boot/boot1/boot1main.c, boot1lib.c)

    The first program of the disk finds the bootable partition, reports the memory map that
    the BIOS left, reads the kernel from the partition into memory, segment by segment, and
    jumps to it.  The assembly before it, which leaves the addresses of the first sector
    and of the memory map, and the jump are not modelled.  Memory is a map from addresses to
    bytes.  The drive is a parameter; what is assumed of it is how it is read by port. *)

From Stdlib Require Import String.
From S2P Require Import Prelude Mboot PageTable UserCopy CString Hw.
From S2P Require Monitor.

(** ** State *)

(** [flags], [mmap_length] and [mmap_addr] are the fields of [mboot_info] in use; [row] is
    the row of the screen that was printed last. *)
Record boot_st := { b_hw : hw; b_mem : gmap Z Z; row : Z; mmap_length : Z; mmap_addr : Z }.

#[global, program] Instance b_hw_lens : Lens boot_st hw := {|
  view := b_hw; put h s := {| b_hw := h; b_mem := b_mem s; row := row s; mmap_length := mmap_length s; mmap_addr := mmap_addr s |}
|}.
Next Obligation. done. Qed.
Next Obligation. by intros []. Qed.
Next Obligation. done. Qed.

Definition upd_mem (f : gmap Z Z → gmap Z Z) (s : boot_st) : boot_st :=
  {| b_hw := b_hw s; b_mem := f (b_mem s); row := row s; mmap_length := mmap_length s; mmap_addr := mmap_addr s |}.
Definition set_row (r : Z) (s : boot_st) : boot_st :=
  {| b_hw := b_hw s; b_mem := b_mem s; row := r; mmap_length := mmap_length s; mmap_addr := mmap_addr s |}.
Definition set_mmap (len a : Z) (s : boot_st) : boot_st :=
  {| b_hw := b_hw s; b_mem := b_mem s; row := row s; mmap_length := len; mmap_addr := a |}.

(** ** The screen *)

Definition VIDEO : Z := 753664.
Definition CRT_ROWS : Z := 25.
Definition VGA_CLR_BLACK : Z := 0.
Definition VGA_CLR_RED : Z := 4.
Definition VGA_CLR_WHITE : Z := 15.

Definition putc (l color ch : Z) : M boot_st () := modify (upd_mem (λ m, <[VIDEO + l * 2 + 1 := u8 color]> (<[VIDEO + l * 2 := u8 ch]> m))).

Fixpoint puts_loop (l color : Z) (string : list Z) : M boot_st Z :=
  match string with [] => mret l | ch :: string => putc l color ch ;; puts_loop (l + 1) color string end.

Definition puts (r c color : Z) (string : list Z) : M boot_st Z := puts_loop (r * 80 + c) color string.

Definition blank : list Z := replicate 80 32.

Definition putline (string : list Z) : M boot_st () :=
  r ← gets row;
  let r := if bool_decide (r >= CRT_ROWS) then 0 else r + 1 in
  modify (set_row r) ;;
  puts r 0 VGA_CLR_BLACK blank ;;
  puts r 0 VGA_CLR_WHITE string ;;
  mret ().

Definition roll (r : Z) : M boot_st () := modify (set_row r).

Definition panic (m : list Z) : M boot_st () := puts 0 0 VGA_CLR_RED m ;; kern_panic.

(** ** Numbers *)

(** The exchange of the ends until they meet. *)
Fixpoint reverse_loop (fuel i j : nat) (s : list Z) : list Z :=
  match fuel with
  | O => s
  | S fuel => if bool_decide (i < j)%nat then reverse_loop fuel (S i) (j - 1) (<[j := s !!! i]> (<[i := s !!! j]> s)) else s
  end.

Definition reverse (s : list Z) : list Z := reverse_loop (length s) 0 (length s - 1) s.

Fixpoint itox_loop (fuel : nat) (n root : Z) (table : list Z) : list Z :=
  match fuel with
  | O => []
  | S fuel => table !!! Z.to_nat (n mod root) :: (if bool_decide (n / root > 0) then itox_loop fuel (n / root) root table else [])
  end.

(** The negation of the smallest number overflows. *)
Definition itox (n root : Z) (table : list Z) : M boot_st (list Z) :=
  if bool_decide (n = -2147483648) then undef
  else mret (reverse (itox_loop 32 (Z.abs n) root table ++ (if bool_decide (n < 0) then [45] else []))).

Definition dec : list Z := Monitor.lit "0123456789".
Definition hex : list Z := Monitor.lit "0123456789abcdef".

Definition itoa (n : Z) : M boot_st (list Z) := itox n 10 dec.
Definition itoh (n : Z) : M boot_st (list Z) := itox n 16 hex.

Definition puti (i : Z) : M boot_st () := s ← itoh (s32 i); putline s.

(** ** The disk *)

Definition SECTOR_SIZE : Z := 512.

Definition word_bytes (w : Z) : list Z := [u8 w; u8 (Z.shiftr w 8); u8 (Z.shiftr w 16); u8 (Z.shiftr w 24)].

Section Loader.
Context `{Machine} (polls : nat).

Fixpoint waitdisk (polls : nat) : M boot_st () :=
  match polls with
  | O => spin
  | S polls => v ← inb 503; if bool_decide (Z.land v 192 ≠ 64) then waitdisk polls else mret ()
  end.

Definition readsector (dst offset : Z) : M boot_st () :=
  waitdisk polls ;;
  outb 498 1 ;;
  outb 499 offset ;;
  outb 500 (Z.shiftr offset 8) ;;
  outb 501 (Z.shiftr offset 16) ;;
  outb 502 (Z.lor (Z.shiftr offset 24) 224) ;;
  outb 503 32 ;;
  waitdisk polls ;;
  ws ← insl 496 (Z.to_nat (SECTOR_SIZE / 4));
  modify (upd_mem (mwrite dst (ws ≫= word_bytes))).

(** [fuel] is one more than the number of sectors below the end. *)
Fixpoint readsection_loop (fuel : nat) (va end_va offset : Z) : M boot_st () :=
  match fuel with
  | O => spin
  | S fuel =>
      if bool_decide (va < end_va) then
        readsector va offset ;;
        readsection_loop fuel (u32 (va + SECTOR_SIZE)) end_va (u32 (offset + 1))
      else mret ()
  end.

Definition readsection (va count offset lba : Z) : M boot_st () :=
  let va := Z.land va 16777215 in
  let end_va := u32 (va + count) in
  let va := Z.ldiff va (SECTOR_SIZE - 1) in
  readsection_loop (Z.to_nat (end_va / SECTOR_SIZE) + 2) va end_va (u32 (offset / SECTOR_SIZE + lba)).

(** ** The kernel *)

Definition ELFHDR : Z := 131072.

Fixpoint load_loop (fuel : nat) (ph eph dkernel : Z) : M boot_st () :=
  match fuel with
  | O => spin
  | S fuel =>
      if bool_decide (ph < eph) then
        m ← gets b_mem;
        readsection (load32 m (ph + 8)) (load32 m (ph + 20)) (load32 m (ph + 4)) dkernel ;;
        load_loop fuel (u32 (ph + 32)) eph dkernel
      else mret ()
  end.

Definition load_kernel (dkernel : Z) : M boot_st Z :=
  readsection ELFHDR (SECTOR_SIZE * 8) 0 dkernel ;;
  m ← gets b_mem;
  if bool_decide (e_magic m ELFHDR ≠ ELF_MAGIC) then panic (Monitor.lit "Kernel is not a valid elf.") ;; mret 0
  else
    let ph := u32 (ELFHDR + e_phoff m ELFHDR) in
    let n := e_phnum m ELFHDR in
    load_loop (S (Z.to_nat n)) ph (u32 (ph + 32 * n)) dkernel ;;
    m ← gets b_mem;
    mret (Z.land (e_entry m ELFHDR) 16777215).

(** ** The memory map *)

Definition load64 (m : gmap Z Z) (a : Z) : Z := load32 m a + 4294967296 * load32 m (a + 4).

Fixpoint parse_loop (fuel : nat) (p len : Z) : M boot_st Z :=
  match fuel with
  | O => spin
  | S fuel =>
      m ← gets b_mem;
      if bool_decide (load64 m (p + 4) ≠ 0) || bool_decide (load64 m (p + 12) ≠ 0) || bool_decide (load32 m (p + 20) ≠ 0) then
        puti (load64 m (p + 4)) ;;
        parse_loop fuel (u32 (p + 24)) (u32 (len + 24))
      else mret len
  end.

Definition parse_e820 (rows : nat) (smap : Z) : M boot_st () :=
  putline (Monitor.lit "* E820 Memory Map *") ;;
  len ← parse_loop (S rows) smap 0;
  modify (set_mmap len smap).

(** ** All of it *)

Definition BOOTABLE_PARTITION : Z := 128.

Fixpoint find_partition (fuel : nat) (m : gmap Z Z) (entry : Z) : option Z :=
  match fuel with
  | O => None
  | S fuel => if bool_decide (mbyte m entry = BOOTABLE_PARTITION) then Some (load32 m (entry + 8)) else find_partition fuel m (entry + 16)
  end.

Context (exec_kernel : Z → M boot_st ()).

Definition boot1main (rows : nat) (mbr smap : Z) : M boot_st () :=
  roll 3 ;;
  putline (Monitor.lit "Start boot1 main ...") ;;
  m ← gets b_mem;
  match find_partition 4 m (mbr + 446) with
  | None => panic (Monitor.lit "Cannot find bootable partition!")
  | Some lba =>
      parse_e820 rows smap ;;
      putline (Monitor.lit "Load kernel ..." ++ [10]) ;;
      entry ← load_kernel lba;
      putline (Monitor.lit "Start kernel ..." ++ [10]) ;;
      exec_kernel entry ;;
      panic (Monitor.lit "Fail to load kernel.")
  end.
End Loader.

(** ** What the screen takes *)

Definition video (a : Z) : Prop := VIDEO <= a < VIDEO + 4160.

(** Only the screen and the row change. *)
Record shown (s s' : boot_st) : Prop := {
  sw_hw : b_hw s' = b_hw s;
  sw_mmap : mmap_length s' = mmap_length s ∧ mmap_addr s' = mmap_addr s;
  sw_row : 0 <= row s <= CRT_ROWS → 0 <= row s' <= CRT_ROWS;
  sw_mem a : 0 <= row s <= CRT_ROWS → ¬ video a → mbyte (b_mem s') a = mbyte (b_mem s) a
}.

Lemma shown_refl s : shown s s.
Proof. by split. Qed.

Lemma shown_trans s1 s2 s3 : shown s1 s2 → shown s2 s3 → shown s1 s3.
Proof.
  intros [H1 [M1 N1] R1 A1] [H2 [M2 N2] R2 A2]. split; [congruence|split; congruence|auto|]. intros a Hr Ha. rewrite A2 by auto. auto.
Qed.

Lemma puts_loop_run string : ∀ l color s, 0 <= l → l + Z.of_nat (length string) <= 2080 →
  ∃ s', puts_loop l color string s = Ok (l + Z.of_nat (length string)) s' ∧ shown s s' ∧ row s' = row s.
Proof.
  induction string as [|ch string IH]; intros l color s Hl Hn; cbn [puts_loop].
  - exists s. rewrite Z.add_0_r. split; [done|]. split; [apply shown_refl|done].
  - cbn [length] in Hn. unfold putc. rewrite (bind_Ok (modify _) _ _ _ _ eq_refl).
    edestruct (IH (l + 1) color) as (s' & E & Hs & Hr); [lia|lia|]. exists s'. split; [rewrite E; f_equal; cbn [length]; lia|].
    split; [|exact Hr]. eapply shown_trans; [|exact Hs]. split; [done|done|done|]. intros a _ Ha. cbn [b_mem upd_mem].
    unfold video, VIDEO in *. rewrite !mbyte_insert, !decide_False by lia. done.
Qed.

Lemma putline_run string s : 0 <= row s <= CRT_ROWS → (length string <= 80)%nat → ∃ s', putline string s = Ok () s' ∧ shown s s'.
Proof.
  intros Hr Hl. unfold putline. rewrite (bind_Ok (gets row) _ _ _ _ eq_refl). cbv zeta. set (r := if bool_decide _ then 0 else _).
  assert (0 <= r <= 25) as Hr' by (unfold r, CRT_ROWS in *; case_bool_decide; lia).
  rewrite (bind_Ok (modify _) _ _ _ _ eq_refl). unfold puts.
  destruct (puts_loop_run blank (r * 80 + 0) VGA_CLR_BLACK (set_row r s)) as (s1 & E1 & H1 & R1); [lia|cbn; lia|]. rewrite (bind_Ok _ _ _ _ _ E1).
  destruct (puts_loop_run string (r * 80 + 0) VGA_CLR_WHITE s1) as (s2 & E2 & H2 & R2); [lia|lia|]. rewrite (bind_Ok _ _ _ _ _ E2). exists s2. split; [done|].
  pose proof (shown_trans _ _ _ H1 H2) as [A B C D]. assert (0 <= row (set_row r s) <= CRT_ROWS) as Hrs by exact Hr'. split; [exact A|exact B|auto|]. intros a _ Ha. by rewrite D.
Qed.

(** ** Numbers *)

(** The loop has exchanged the first [i] and the last [i] places. *)
Lemma reverse_loop_run s : ∀ fuel i j t, length t = length s → (i + j = length s - 1)%nat → (j < i + 2 * fuel)%nat → s ≠ [] →
  (∀ k x, s !! k = Some x → t !! (if decide (k < i ∨ j < k)%nat then (length s - 1 - k)%nat else k) = Some x) →
  (i <= S j)%nat → reverse_loop fuel i j t = rev s.
Proof.
  assert (∀ i j t, length t = length s → (i + j = length s - 1)%nat → (j <= i)%nat → (i <= S j)%nat → s ≠ [] →
    (∀ k x, s !! k = Some x → t !! (if decide (k < i ∨ j < k)%nat then (length s - 1 - k)%nat else k) = Some x) → t = rev s) as Hend.
  { intros i j t Hl Hij Hle Hle' Hne Hk. apply list_eq_same_length with (length s); [by rewrite length_rev|done|].
    intros n x y Hn Hx Hy. rewrite rev_alt in Hy. apply reverse_lookup_Some in Hy as [Hy _].
    pose proof (Hk _ _ Hy) as Ht. assert ((if decide (length s - S n < i ∨ j < length s - S n)%nat then (length s - 1 - (length s - S n))%nat else (length s - S n)%nat) = n) as En by (case_decide; lia).
    rewrite En in Ht. congruence. }
  induction fuel as [|fuel IH]; intros i j t Hl Hij Hf Hne Hk Hle; cbn [reverse_loop]; [apply (Hend i j); auto; lia|].
  case_bool_decide as Hc; [|apply (Hend i j); auto; lia].
  apply IH; [by rewrite !length_insert|lia|lia|done| |lia]. intros k x Hx. pose proof (lookup_lt_Some _ _ _ Hx) as Hlt. pose proof (Hk k x Hx) as Ht.
  assert (is_Some (t !! i)) as [ti Hti] by (apply lookup_lt_is_Some_2; lia). assert (is_Some (t !! j)) as [tj Htj] by (apply lookup_lt_is_Some_2; lia).
  rewrite (list_lookup_total_correct _ _ _ Hti), (list_lookup_total_correct _ _ _ Htj). set (pos := if decide (k < S i ∨ _)%nat then _ else _).
  rewrite !list_lookup_insert, length_insert. destruct (decide (k = i)) as [->|Hki]; [|destruct (decide (k = j)) as [->|Hkj]].
  - assert (pos = j) as -> by (clear Ht; unfold pos; case_decide; lia). rewrite decide_False in Ht by lia. rewrite decide_True by lia. congruence.
  - assert (pos = i) as -> by (clear Ht; unfold pos; case_decide; lia). rewrite decide_False in Ht by lia. rewrite (decide_False (P := j = i ∧ _)), decide_True by lia. congruence.
  - assert (pos = if decide (k < i ∨ j < k)%nat then (length s - 1 - k)%nat else k) as -> by (clear Ht; unfold pos; repeat case_decide; lia).
    rewrite !(decide_False (P := _ ∧ _)) by (clear Ht; case_decide; lia). exact Ht.
Qed.

Lemma reverse_is_rev s : reverse s = rev s.
Proof.
  unfold reverse. destruct s as [|x s]; [done|]. apply reverse_loop_run; [done|lia|cbn; lia|done| |lia].
  intros k y Hk. pose proof (lookup_lt_Some _ _ _ Hk). rewrite decide_False by (cbn in *; lia). exact Hk.
Qed.

(** The digits, the lowest first, are those of the number. *)
Lemma itox_loop_digits root table : 1 < root → ∀ fuel n, (0 < fuel)%nat → 0 <= n < root ^ Z.of_nat fuel →
  ∃ ds, itox_loop fuel n root table = (λ d, table !!! Z.to_nat d) <$> ds ∧ Forall (λ d, 0 <= d < root) ds ∧ foldr (λ d v, d + root * v) 0 ds = n ∧ (length ds <= fuel)%nat.
Proof.
  intros Hroot. induction fuel as [|fuel IH]; intros n Hf Hn; [lia|]. cbn [itox_loop]. pose proof (Z.mod_pos_bound n root ltac:(lia)) as Hm.
  pose proof (Z.div_mod n root ltac:(lia)) as Hd. case_bool_decide as Hq.
  - rewrite Nat2Z.inj_succ, Z.pow_succ_r in Hn by lia. destruct fuel as [|fuel]; [rewrite Z.mul_1_r in Hn; pose proof (Z.div_small n root); lia|].
    destruct (IH (n / root)) as (ds & -> & Hds & Hv & Hl); [lia|split; [lia|apply Z.div_lt_upper_bound; lia]|]. exists (n mod root :: ds).
    split; [done|]. split; [by apply Forall_cons|]. cbn [foldr length]. rewrite Hv. lia.
  - exists [n mod root]. split; [done|]. split; [by apply Forall_singleton|]. cbn [foldr length]. pose proof (Z.div_pos n root ltac:(lia) ltac:(lia)). split; [nia|lia].
Qed.

(** A number that can be negated prints as its digits, the highest first, after its sign. *)
Lemma itoh_run n s : -2147483648 < n < 2147483648 → ∃ ds, Forall (λ d, 0 <= d < 16) ds ∧ foldl (λ v d, 16 * v + d) 0 ds = Z.abs n ∧
  itoh n s = Ok ((if bool_decide (n < 0) then [45] else []) ++ ((λ d, hex !!! Z.to_nat d) <$> ds)) s ∧ (length ds <= 32)%nat.
Proof.
  intros Hn. destruct (itox_loop_digits 16 hex ltac:(lia) 32 (Z.abs n)) as (ds & E & Hds & Hv & Hl); [lia|split; [lia|]; apply Z.lt_trans with 2147483648; [lia|done]|].
  exists (rev ds). split; [by apply Forall_rev|]. split; [rewrite <- Hv; clear; induction ds as [|d ds IH]; [done|]; cbn [rev foldr]; rewrite foldl_app, IH; cbn; lia|].
  split; [|by rewrite length_rev]. unfold itoh, itox. rewrite bool_decide_eq_false_2 by lia. rewrite E, reverse_is_rev, rev_app_distr, <- map_rev. by case_bool_decide.
Qed.

Lemma puti_run i s : s32 i ≠ -2147483648 → 0 <= row s <= CRT_ROWS → ∃ s', puti i s = Ok () s' ∧ shown s s'.
Proof.
  intros Hi Hr. assert (-2147483648 < s32 i < 2147483648) as Hb by (pose proof (Z.mod_pos_bound (i + 2147483648) W32 ltac:(done)); unfold s32, W32 in *; lia).
  destruct (itoh_run (s32 i) s Hb) as (ds & _ & _ & E & Hl). unfold puti. rewrite (bind_Ok _ _ _ _ _ E). apply putline_run; [exact Hr|].
  rewrite length_app, length_fmap. case_bool_decide; cbn [length]; lia.
Qed.

(** ** How a drive is read *)

(** The byte that a register of the drive holds. *)
Fixpoint register (p : Z) (h : hw) : Z :=
  match h with
  | [] => 0
  | Out q v :: h => if bool_decide (q = p) then v else register p h
  | _ :: h => register p h
  end.

Definition lba_of (h : hw) : Z := register 499 h + 256 * register 500 h + 65536 * register 501 h + 16777216 * (register 502 h mod 16).

(** After a command to read one sector: the sector, and how many words were taken. *)
Fixpoint reading (h : hw) : option (Z * nat) :=
  match h with
  | [] => None
  | Out p v :: h' =>
      if bool_decide (p = 503) then
        if bool_decide (v = 32 ∧ register 498 h' = 1 ∧ 224 <= register 502 h') then Some (lba_of h', 0%nat) else None
      else reading h'
  | InL p _ :: h' => if bool_decide (p = 496) then prod_map id S <$> reading h' else reading h'
  | _ :: h' => reading h'
  end.

Lemma register_eq p v h : register p (Out p v :: h) = v.
Proof. cbn. by rewrite bool_decide_eq_true_2. Qed.

Lemma register_ne p q v h : q ≠ p → register p (Out q v :: h) = register p h.
Proof. intros Hq. cbn. by rewrite bool_decide_eq_false_2. Qed.

Lemma reading_command h a b c d : 224 <= a →
  reading (Out 503 32 :: Out 502 a :: Out 501 b :: Out 500 c :: Out 499 d :: Out 498 1 :: h) = Some (d + 256 * c + 65536 * b + 16777216 * (a mod 16), 0%nat).
Proof.
  intros Ha. cbn [reading]. rewrite (bool_decide_eq_true_2 (503 = 503)) by done. unfold lba_of.
  rewrite bool_decide_eq_true_2 by (rewrite register_eq, !register_ne, register_eq by done; done).
  by rewrite !register_eq, (register_ne 501), (register_ne 500 502), (register_ne 500 501), (register_ne 499 502), (register_ne 499 501), (register_ne 499 500), !register_eq by done.
Qed.

Fixpoint words (d : list Z) : list Z :=
  match d with a :: b :: c :: e :: d => (a + 256 * b + 65536 * c + 16777216 * e) :: words d | _ => [] end.

(** The status tells that the drive is ready at one of the next reads. *)
Fixpoint settles `{Machine} (polls : nat) (h : hw) : Prop :=
  match polls with
  | O => False
  | S polls => let v := u8 (answer h (QIn 503)) in Z.land v 192 = 64 ∨ settles polls (In 503 v :: h)
  end.

(** A drive with the sectors [D], ready within so many polls: it gives the words of the
    sector asked for, one after the other. *)
Class Drive `{Machine} (polls : nat) (D : Z → list Z) : Prop := {
  dr_sector x : length (D x) = 512%nat ∧ Forall (λ b, 0 <= b < 256) (D x);
  dr_ready h : settles polls h;
  dr_data h x n : reading h = Some (x, n) → (n < 128)%nat → answer h (QInL 496) = words (D x) !!! n
}.

Definition status (x : io) : Prop := ∃ v, x = In 503 v.

Lemma status_registers l h : Forall status l → reading (l ++ h) = reading h ∧ ∀ p, register p (l ++ h) = register p h.
Proof. induction 1 as [|x l [v ->] _ [IH1 IH2]]; [done|]. split; [exact IH1|exact IH2]. Qed.

Lemma words_length d : ∀ n, length d = (4 * n)%nat → length (words d) = n.
Proof.
  intros n. revert d. induction n as [|n IH]; intros d Hd; [by destruct d|]. destruct d as [|a [|b [|c [|e d]]]]; cbn in Hd; try lia.
  cbn. f_equal. apply IH. lia.
Qed.

Lemma word_bytes_of a b c e : 0 <= a < 256 → 0 <= b < 256 → 0 <= c < 256 → 0 <= e < 256 →
  let w := a + 256 * b + 65536 * c + 16777216 * e in 0 <= w < W32 ∧ word_bytes w = [a; b; c; e].
Proof.
  intros Ha Hb Hc He w. split; [unfold w, W32; lia|]. unfold word_bytes, u8. rewrite !Z.shiftr_div_pow2 by lia. change (2 ^ 8) with 256. change (2 ^ 16) with 65536. change (2 ^ 24) with 16777216.
  repeat f_equal; unfold w; Z.div_mod_to_equations; lia.
Qed.

Lemma words_bytes d : ∀ n, length d = (4 * n)%nat → Forall (λ b, 0 <= b < 256) d → words d ≫= word_bytes = d ∧ Forall (λ w, 0 <= w < W32) (words d).
Proof.
  intros n. revert d. induction n as [|n IH]; intros d Hd Hb; [by destruct d|]. destruct d as [|a [|b [|c [|e d]]]]; cbn in Hd; try lia.
  apply Forall_cons in Hb as [Ha Hb]. apply Forall_cons in Hb as [Hb Hb']. apply Forall_cons in Hb' as [Hc Hb']. apply Forall_cons in Hb' as [He Hb'].
  destruct (word_bytes_of a b c e Ha Hb Hc He) as [Hw Hwb]. destruct (IH d ltac:(lia) Hb') as [IH1 IH2]. cbn [words]. rewrite bind_cons, Hwb, IH1.
  split; [done|]. by apply Forall_cons.
Qed.

Section Run.
Context `{Machine} (polls : nat) (D : Z → list Z) {HD : Drive polls D}.

Lemma waitdisk_run n : ∀ s, settles n (b_hw s) → ∃ l, waitdisk n s = Ok () (put (Lens := b_hw_lens) (l ++ b_hw s) s) ∧ Forall status l.
Proof.
  induction n as [|n IH]; intros s; cbn [settles waitdisk]; [done|]. cbv zeta. rewrite (bind_Ok _ _ _ _ _ (inb_Ok _ _)). cbn [view b_hw_lens].
  set (v := u8 (answer (b_hw s) (QIn 503))). case_bool_decide as Hv.
  - intros [Hs|Hs]; [done|]. destruct (IH (put (Lens := b_hw_lens) (In 503 v :: b_hw s) s) Hs) as (l & E & Hl). exists (l ++ [In 503 v]).
    split; [refine (eq_trans E _); rewrite <- app_assoc; reflexivity|]. apply Forall_app. split; [exact Hl|]. apply Forall_singleton. by exists v.
  - intros _. exists [In 503 v]. split; [reflexivity|]. apply Forall_singleton. by exists v.
Qed.

(** The rest of the words. *)
Lemma insl_run x cnt : ∀ n s, reading (b_hw s) = Some (x, n) → (n + cnt = 128)%nat → ∃ h, insl 496 cnt s = Ok (drop n (words (D x))) (put (Lens := b_hw_lens) h s).
Proof.
  destruct (dr_sector x) as [Hlen Hb]. destruct (words_bytes (D x) 128 Hlen Hb) as [_ Hw]. pose proof (words_length (D x) 128 Hlen) as Hwl.
  induction cnt as [|cnt IH]; intros n s Hr Hn; cbn [insl].
  - exists (b_hw s). rewrite drop_ge by lia. by destruct s.
  - assert (is_Some (words (D x) !! n)) as [w Hwn] by (apply lookup_lt_is_Some_2; lia). pose proof (dr_data (b_hw s) x n Hr ltac:(lia)) as Ha.
    rewrite (list_lookup_total_correct _ _ _ Hwn) in Ha. assert (u32 w = w) as Hu by (apply Z.mod_small; exact (proj1 (Forall_lookup _ _) Hw _ _ Hwn)).
    rewrite (bind_Ok _ _ _ w (put (Lens := b_hw_lens) (InL 496 w :: b_hw s) s)).
    2:{ unfold zoom. cbn [view b_hw_lens]. rewrite Ha, Hu. reflexivity. }
    destruct (IH (S n) (put (Lens := b_hw_lens) (InL 496 w :: b_hw s) s)) as (h & E); [cbn; by rewrite Hr|lia|]. rewrite (bind_Ok _ _ _ _ _ E). exists h.
    rewrite (drop_S _ _ _ Hwn). reflexivity.
Qed.

Lemma lor_drive x : 0 <= x < 16 → u8 (Z.lor x 224) = 224 + x.
Proof.
  intros Hx. assert (Forall (λ x, u8 (Z.lor x 224) = 224 + x) (seqZ 0 16)) as Hall by (apply (bool_decide_unpack _); vm_compute; exact I).
  rewrite Forall_forall in Hall. apply Hall, elem_of_seqZ. lia.
Qed.

Lemma lba_parts x : 0 <= x < 268435456 → u8 x + 256 * u8 (Z.shiftr x 8) + 65536 * u8 (Z.shiftr x 16) + 16777216 * ((224 + Z.shiftr x 24) mod 16) = x ∧ 0 <= Z.shiftr x 24 < 16.
Proof.
  intros Hx. rewrite !Z.shiftr_div_pow2 by lia. change (2 ^ 8) with 256. change (2 ^ 16) with 65536. change (2 ^ 24) with 16777216. unfold u8. Z.div_mod_to_equations. lia.
Qed.

Lemma readsector_run dst x s : 0 <= x < 268435456 → ∃ h, readsector polls dst x s = Ok () (upd_mem (mwrite dst (D x)) (put (Lens := b_hw_lens) h s)).
Proof.
  intros Hx. destruct (lba_parts x Hx) as [Hlba H24]. unfold readsector. destruct (waitdisk_run polls s (dr_ready _)) as (l & E & _). rewrite (bind_Ok _ _ _ _ _ E). clear E.
  do 6 rewrite (bind_Ok _ _ _ _ _ (outb_Ok _ _ _)). match goal with |- context [(waitdisk polls ≫= _) ?t] => set (s1 := t) end.
  destruct (waitdisk_run polls s1 (dr_ready _)) as (l' & E & Hl'). rewrite (bind_Ok _ _ _ _ _ E). clear E. destruct (status_registers l' (b_hw s1) Hl') as [Hrd _].
  destruct (insl_run x 128 0 (put (Lens := b_hw_lens) (l' ++ b_hw s1) s1)) as (h & E); [|done|].
  { cbn [b_hw put b_hw_lens]. rewrite Hrd. refine (eq_trans (reading_command (l ++ b_hw s) _ _ _ _ _) _); rewrite (lor_drive _ H24); [lia|]. by rewrite Hlba. }
  change (Z.to_nat (SECTOR_SIZE / 4)) with 128%nat. rewrite (bind_Ok _ _ _ _ _ E). exists h. destruct (dr_sector x) as [Hlen Hb].
  destruct (words_bytes (D x) 128 Hlen Hb) as [Hw _]. rewrite drop_0. unfold modify. rewrite Hw. reflexivity.
Qed.

(** The image on the disk starts at the sector [lba]. *)
Context (lba : Z) (img : Z → Z) (Himg : ∀ k, 0 <= k → D (lba + k) = img <$> seqZ (512 * k) 512) (Hlba : 0 <= lba).

(** [n] bytes of the image from [off] on are in memory from [lo] on. *)
Record loaded (lo n off : Z) (s s' : boot_st) : Prop := {
  ld_row : row s' = row s;
  ld_mmap : mmap_length s' = mmap_length s ∧ mmap_addr s' = mmap_addr s;
  ld_mem a : mbyte (b_mem s') a = if decide (lo <= a < lo + n) then img (off + (a - lo)) else mbyte (b_mem s) a
}.

Lemma sector_loaded dst k s : 0 <= k → lba + k < 268435456 → ∃ s', readsector polls dst (lba + k) s = Ok () s' ∧ loaded dst 512 (512 * k) s s'.
Proof.
  intros Hk Hx. destruct (readsector_run dst (lba + k) s) as (h & E); [lia|]. eexists. split; [exact E|]. split; [done|done|]. intros a. cbn [b_mem upd_mem put b_hw_lens].
  rewrite mbyte_mwrite, Himg, length_fmap, length_seqZ by lia. change (Z.of_nat (Z.to_nat 512)) with 512. case_decide as Ha; [|done].
  apply list_lookup_total_correct. rewrite list_lookup_fmap. apply fmap_Some. exists (512 * k + (a - dst)). split; [apply lookup_seqZ; lia|done].
Qed.

Lemma loaded_step lo n off s1 s2 s3 : 0 <= n → loaded lo 512 off s1 s2 → loaded (lo + 512) n (off + 512) s2 s3 → loaded lo (512 + n) off s1 s3.
Proof.
  intros Hn [R1 [M1 N1] A1] [R2 [M2 N2] A2]. split; [congruence|split; congruence|]. intros a. rewrite A2, A1. repeat case_decide; try lia; [f_equal; lia|done..].
Qed.

Lemma section_loop_run n : ∀ fuel va k end_va s, (n < fuel)%nat → 0 <= va → 0 <= k → va + 512 * Z.of_nat n < W32 → lba + k + Z.of_nat n <= 268435456 →
  va + 512 * (Z.of_nat n - 1) < end_va → end_va <= va + 512 * Z.of_nat n →
  ∃ s', readsection_loop polls fuel va end_va (lba + k) s = Ok () s' ∧ loaded va (512 * Z.of_nat n) (512 * k) s s'.
Proof.
  induction n as [|n IH]; intros [|fuel] va k end_va s Hf Hva Hk Hw Hl H1 H2; try lia; cbn [readsection_loop].
  - rewrite bool_decide_eq_false_2 by lia. exists s. split; [done|]. split; [done|done|]. intros a. rewrite decide_False by lia. done.
  - rewrite bool_decide_eq_true_2 by lia. destruct (sector_loaded va k s Hk ltac:(lia)) as (s1 & E1 & L1). rewrite (bind_Ok _ _ _ _ _ E1).
    unfold W32, SECTOR_SIZE in *. unfold u32, W32. rewrite (Z.mod_small (va + 512)) by lia. rewrite (Z.mod_small (lba + k + 1)) by lia.
    destruct (IH fuel (va + 512) (k + 1) end_va s1) as (s2 & E2 & L2); try lia. exists s2. split; [rewrite <- Z.add_assoc; exact E2|].
    replace (512 * Z.of_nat (S n)) with (512 + 512 * Z.of_nat n) by lia. apply (loaded_step _ _ _ _ s1); [lia|exact L1|]. replace (512 * k + 512) with (512 * (k + 1)) by lia. exact L2.
Qed.

(** Where a section goes: its first byte, and the sectors that are written for it. *)
Definition load_at (va : Z) : Z := va mod 16777216.
Definition load_lo (va : Z) : Z := load_at va / 512 * 512.
Definition load_len (va count : Z) : Z := (load_at va mod 512 + count + 511) / 512 * 512.

Lemma readsection_run va count off s : 0 <= count → 0 <= off → load_at va + count + 1024 < W32 → lba + off / 512 + load_len va count / 512 <= 268435456 →
  ∃ s', readsection polls va count off lba s = Ok () s' ∧ loaded (load_lo va) (load_len va count) (off / 512 * 512) s s'.
Proof.
  intros Hc Ho Hw Hl. unfold readsection. change 16777215 with (Z.ones 24). rewrite Z.land_ones by lia. change (2 ^ 24) with 16777216. fold (load_at va).
  assert (0 <= load_at va < 16777216) as Hv by (apply Z.mod_pos_bound; lia). cbv zeta. change (SECTOR_SIZE - 1) with (Z.ones 9).
  rewrite Z.ldiff_ones_r, Z.shiftl_mul_pow2, Z.shiftr_div_pow2 by lia. change (2 ^ 9) with 512. fold (load_lo va). unfold u32. rewrite (Z.mod_small (load_at va + count)) by lia.
  assert (load_len va count mod 512 = 0) as Hm by (unfold load_len; apply Z.mod_mul; lia). set (n := load_len va count / 512) in *. assert (load_len va count = 512 * n) as Hn by (unfold n; Z.div_mod_to_equations; lia).
  assert (load_lo va <= load_at va < load_lo va + 512 ∧ 0 <= load_lo va ∧ load_at va mod 512 = load_at va - load_lo va) as (H1 & H2 & H3) by (unfold load_lo; Z.div_mod_to_equations; lia).
  assert (load_at va - load_lo va + count <= 512 * n < load_at va - load_lo va + count + 512) as H4 by (rewrite <- Hn; unfold load_len; rewrite H3; Z.div_mod_to_equations; lia).
  unfold SECTOR_SIZE, W32 in *. replace (off / 512 + lba) with (lba + off / 512) by lia. pose proof (Z.div_pos off 512 Ho ltac:(lia)) as Hk. rewrite (Z.mod_small (lba + off / 512)) by lia.
  destruct (section_loop_run (Z.to_nat n) (Z.to_nat ((load_at va + count) / 512) + 2) (load_lo va) (off / 512) (load_at va + count) s) as (s' & E & L); unfold W32; try lia.
  - assert (n <= (load_at va + count) / 512 + 1) by (apply Z.lt_succ_r; rewrite Z.add_1_r, <- Z.add_1_r; Z.div_mod_to_equations; lia). lia.
  - exists s'. split; [exact E|]. rewrite Hn. replace (off / 512 * 512) with (512 * (off / 512)) by lia. rewrite Z2Nat.id in L by lia. exact L.
Qed.

(** ** The image *)

Definition le32 (a : Z) : Z := img a + 256 * img (a + 1) + 65536 * img (a + 2) + 16777216 * img (a + 3).
Definition phoff : Z := le32 28.
Definition phnum : Z := img 44 + 256 * img 45.
Definition seg_va (k : Z) : Z := le32 (phoff + 32 * k + 8).
Definition seg_size (k : Z) : Z := le32 (phoff + 32 * k + 20).
Definition seg_off (k : Z) : Z := le32 (phoff + 32 * k + 4).

Definition apart (a n b m : Z) : Prop := a + n <= b ∨ b + m <= a.

(** An image that can be loaded: the headers are in its first eight sectors; each segment
    starts at the same place of a sector on the disk and in memory; the sectors written for
    it touch neither the headers nor the segments before it; no segment is on the screen. *)
Record kernel_image : Prop := {
  ki_magic : le32 0 = ELF_MAGIC;
  ki_table : phoff + 32 * phnum <= 4096;
  ki_disk : lba + 8 <= 268435456;
  ki_seg k : 0 <= k < phnum → load_at (seg_va k) + seg_size k + 1024 < W32 ∧ lba + seg_off k / 512 + load_len (seg_va k) (seg_size k) / 512 <= 268435456 ∧
    load_at (seg_va k) mod 512 = seg_off k mod 512;
  ki_headers k : 0 <= k < phnum → apart (load_lo (seg_va k)) (load_len (seg_va k) (seg_size k)) ELFHDR 4096;
  ki_later j k : 0 <= j < k → k < phnum → apart (load_lo (seg_va k)) (load_len (seg_va k) (seg_size k)) (load_at (seg_va j)) (seg_size j);
  ki_screen k : 0 <= k < phnum → apart (load_at (seg_va k)) (seg_size k) VIDEO 4160
}.

Lemma img_byte i : 0 <= i → 0 <= img i < 256.
Proof.
  intros Hi. destruct (dr_sector (lba + i / 512)) as [_ Hb]. rewrite Himg in Hb by (apply Z.div_pos; lia). rewrite Forall_fmap, Forall_forall in Hb. apply Hb, elem_of_seqZ.
  Z.div_mod_to_equations. lia.
Qed.

Lemma le32_range a : 0 <= a → 0 <= le32 a < W32.
Proof. intros Ha. pose proof (img_byte a Ha). pose proof (img_byte (a + 1)). pose proof (img_byte (a + 2)). pose proof (img_byte (a + 3)). unfold le32, W32. lia. Qed.

Definition headers_at (m : gmap Z Z) : Prop := ∀ i, 0 <= i < 4096 → mbyte m (ELFHDR + i) = img i.

Lemma headers_load32 m a : headers_at m → 0 <= a <= 4092 → load32 m (ELFHDR + a) = le32 a.
Proof. intros Hh Ha. unfold load32, le32. rewrite <- !Z.add_assoc, !Hh by lia. lia. Qed.

(** The first [k] segments are in memory, and nothing else changed. *)
Record segments_in (k : Z) (s s' : boot_st) : Prop := {
  si_row : row s' = row s;
  si_mmap : mmap_length s' = mmap_length s ∧ mmap_addr s' = mmap_addr s;
  si_headers : headers_at (b_mem s');
  si_in j i : 0 <= j < k → 0 <= i < seg_size j → mbyte (b_mem s') (load_at (seg_va j) + i) = img (seg_off j + i);
  si_out a : ¬ ELFHDR <= a < ELFHDR + 4096 → (∀ j, 0 <= j < k → ¬ load_lo (seg_va j) <= a < load_lo (seg_va j) + load_len (seg_va j) (seg_size j)) →
    mbyte (b_mem s') a = mbyte (b_mem s) a
}.

(** A segment is inside its sectors. *)
Lemma load_inside va count i : 0 <= i < count → load_lo va <= load_at va + i < load_lo va + load_len va count.
Proof. intros Hi. unfold load_lo, load_len. Z.div_mod_to_equations. lia. Qed.

Lemma segments_step k s s1 s2 : kernel_image → 0 <= k < phnum → segments_in k s s1 →
  loaded (load_lo (seg_va k)) (load_len (seg_va k) (seg_size k)) (seg_off k / 512 * 512) s1 s2 → segments_in (k + 1) s s2.
Proof.
  intros HK Hk [R1 [M1 N1] Hh Hin Hout] [R2 [M2 N2] A2]. destruct (ki_seg HK k Hk) as (_ & _ & Hal). split; [congruence|split; congruence|..].
  - intros i Hi. rewrite A2, decide_False; [by apply Hh|]. destruct (ki_headers HK k Hk); unfold ELFHDR in *; lia.
  - intros j i Hj Hi. rewrite A2. destruct (decide (j = k)) as [->|Hjk].
    + rewrite decide_True by (by apply load_inside). f_equal. unfold load_lo. clear -Hal. Z.div_mod_to_equations. lia.
    + rewrite decide_False; [apply Hin; lia|]. destruct (ki_later HK j k ltac:(lia) ltac:(lia)); lia.
  - intros a Ha Hj. rewrite A2, decide_False; [apply Hout; [exact Ha|intros j Hjk; apply Hj; lia]|]. apply Hj. lia.
Qed.

Lemma load_loop_run n : ∀ fuel k s s1, kernel_image → (n < fuel)%nat → 0 <= k → k + Z.of_nat n = phnum → segments_in k s s1 →
  ∃ s2, load_loop polls fuel (ELFHDR + phoff + 32 * k) (ELFHDR + phoff + 32 * phnum) lba s1 = Ok () s2 ∧ segments_in phnum s s2.
Proof.
  induction n as [|n IH]; intros [|fuel] k s s1 HK Hf Hk Hn Hs; try lia; cbn [load_loop].
  - rewrite bool_decide_eq_false_2 by lia. exists s1. split; [done|]. by replace phnum with k by lia.
  - rewrite bool_decide_eq_true_2 by lia. rewrite (bind_Ok (gets b_mem) _ _ _ _ eq_refl). pose proof (si_headers _ _ _ Hs) as Hh.
    pose proof (ki_table HK) as Ht. pose proof (le32_range 28 ltac:(lia)) as Hp. fold phoff in Hp.
    assert (∀ d, 0 <= d <= 28 → load32 (b_mem s1) (ELFHDR + phoff + 32 * k + d) = le32 (phoff + 32 * k + d)) as Hld.
    { intros d Hd. rewrite <- headers_load32 with (m := b_mem s1); [f_equal; lia|exact Hh|lia]. }
    rewrite !Hld by lia. fold (seg_va k) (seg_size k) (seg_off k). destruct (ki_seg HK k ltac:(lia)) as (H1 & H2 & _).
    destruct (readsection_run (seg_va k) (seg_size k) (seg_off k) s1) as (s2 & E2 & L2); [apply le32_range; lia|apply le32_range; lia|exact H1|exact H2|].
    rewrite (bind_Ok _ _ _ _ _ E2). unfold u32. rewrite Z.mod_small by (unfold ELFHDR, W32; lia). replace (ELFHDR + phoff + 32 * k + 32) with (ELFHDR + phoff + 32 * (k + 1)) by lia.
    apply IH; [exact HK|lia|lia|lia|]. apply (segments_step k s s1); [exact HK|lia|exact Hs|exact L2].
Qed.

Lemma load_kernel_run s : kernel_image → ∃ s', load_kernel polls lba s = Ok (le32 24 mod 16777216) s' ∧ segments_in phnum s s'.
Proof.
  intros HK. assert (load_lo ELFHDR = ELFHDR ∧ load_at ELFHDR = ELFHDR ∧ load_len ELFHDR (SECTOR_SIZE * 8) = 4096) as (E1 & E2 & E3) by done. pose proof (ki_disk HK) as Hd.
  destruct (readsection_run ELFHDR (SECTOR_SIZE * 8) 0 s) as (s1 & R1 & L1); [done|done|done|rewrite E3; change (0 / 512) with 0; change (4096 / 512) with 8; lia|].
  rewrite E1, E3 in L1. destruct L1 as [A1 B1 C1].
  assert (headers_at (b_mem s1)) as Hh by (intros i Hi; rewrite C1, decide_True by lia; f_equal; change (0 / 512 * 512) with 0; lia).
  assert (segments_in 0 s s1) as Hs by (split; [done|done|done|intros; lia|]; intros a Ha _; by rewrite C1, decide_False).
  unfold load_kernel. rewrite (bind_Ok _ _ _ _ _ R1), (bind_Ok (gets b_mem) _ _ _ _ eq_refl). unfold e_magic, e_phoff, e_phnum, e_entry, load16.
  pose proof (headers_load32 _ 0 Hh ltac:(lia)) as H0. rewrite Z.add_0_r in H0. rewrite H0, (ki_magic HK), bool_decide_eq_false_2 by auto. cbv zeta.
  rewrite (headers_load32 _ 28 Hh) by lia. rewrite <- (Z.add_assoc ELFHDR 44 1), !Hh by lia. fold phoff. change (44 + 1) with 45. fold phnum.
  pose proof (le32_range 28 ltac:(lia)) as Hp. fold phoff in Hp. pose proof (ki_table HK) as Ht. assert (0 <= phnum) as Hn by (pose proof (img_byte 44); pose proof (img_byte 45); unfold phnum; lia).
  unfold u32. rewrite (Z.mod_small (ELFHDR + phoff)) by (unfold ELFHDR, W32; lia). rewrite Z.mod_small by (unfold ELFHDR, W32; lia).
  destruct (load_loop_run (Z.to_nat phnum) (S (Z.to_nat phnum)) 0 s s1 HK) as (s2 & R2 & S2); [lia|lia|lia|exact Hs|].
  rewrite Z.mul_0_r, Z.add_0_r in R2. rewrite (bind_Ok _ _ _ _ _ R2), (bind_Ok (gets b_mem) _ _ _ _ eq_refl). exists s2. split; [|exact S2].
  rewrite (headers_load32 _ 24 (si_headers _ _ _ S2)) by lia. change 16777215 with (Z.ones 24). by rewrite Z.land_ones by lia.
Qed.
End Run.

(** ** The memory map *)

(** The row at [p] is not the end of the map; its start can be printed. *)
Definition row_there (m : gmap Z Z) (p : Z) : Prop := load64 m (p + 4) ≠ 0 ∨ load64 m (p + 12) ≠ 0 ∨ load32 m (p + 20) ≠ 0.

(** [n] rows from [p] on and the end. *)
Record smap_at (m : gmap Z Z) (p : Z) (n : nat) : Prop := {
  sm_rows i : 0 <= i < Z.of_nat n → row_there m (p + 24 * i) ∧ s32 (load64 m (p + 24 * i + 4)) ≠ -2147483648;
  sm_end : ¬ row_there m (p + 24 * Z.of_nat n);
  sm_room : 0 <= p ∧ p + 24 * (Z.of_nat n + 1) < W32;
  sm_screen : apart p (24 * (Z.of_nat n + 1)) VIDEO 4160
}.

(** The rows as the kernel reads them in [pmmap_init]. *)
Definition mmap_row (m : gmap Z Z) (p : Z) : mboot_mmap_t :=
  {| base_addr_low := load32 m (p + 4); base_addr_high := load32 m (p + 8); length_low := load32 m (p + 12); length_high := load32 m (p + 16); mtype := load32 m (p + 20) |}.

Definition mbi_rows (m : gmap Z Z) (addr len : Z) : list mboot_mmap_t := (λ i, mmap_row m (addr + 24 * i)) <$> seqZ 0 ((len + 23) / 24).

Lemma load32_ext m m' a : (∀ i, 0 <= i < 4 → mbyte m' (a + i) = mbyte m (a + i)) → load32 m' a = load32 m a.
Proof.
  intros Hi. pose proof (Hi 0 ltac:(lia)) as H0. rewrite Z.add_0_r in H0. unfold load32. by rewrite H0, (Hi 1), (Hi 2), (Hi 3) by lia.
Qed.

Lemma load64_ext m m' a : (∀ i, 0 <= i < 8 → mbyte m' (a + i) = mbyte m (a + i)) → load64 m' a = load64 m a.
Proof.
  intros Hi. unfold load64. rewrite (load32_ext m m' a) by (intros; apply Hi; lia). rewrite (load32_ext m m' (a + 4)); [done|]. intros i Hr. rewrite <- Z.add_assoc. apply Hi. lia.
Qed.

Lemma row_ext m m' p : (∀ i, 0 <= i < 24 → mbyte m' (p + i) = mbyte m (p + i)) →
  (row_there m' p ↔ row_there m p) ∧ load64 m' (p + 4) = load64 m (p + 4).
Proof.
  intros Hi. assert (∀ d w, 0 <= d → 0 <= w → d + w <= 24 → ∀ i, 0 <= i < w → mbyte m' (p + d + i) = mbyte m (p + d + i)) as Hd.
  { intros d w H1 H2 H3 i Hr. rewrite <- !Z.add_assoc. apply Hi. lia. }
  unfold row_there. rewrite (load64_ext m m' (p + 4)) by (apply (Hd 4 8); lia). rewrite (load64_ext m m' (p + 12)) by (apply (Hd 12 8); lia).
  by rewrite (load32_ext m m' (p + 20)) by (apply (Hd 20 4); lia).
Qed.

Lemma mbi_rows_ext m m' p n : 0 <= n → (∀ a, p <= a < p + 24 * n → mbyte m' a = mbyte m a) → mbi_rows m' p (24 * n) = mbi_rows m p (24 * n).
Proof.
  intros Hn Hm. unfold mbi_rows. replace ((24 * n + 23) / 24) with n by (Z.div_mod_to_equations; lia). apply list_fmap_ext. intros k i [-> Hk]%lookup_seqZ.
  unfold mmap_row. assert (∀ d, 0 <= d <= 20 → load32 m' (p + 24 * (0 + Z.of_nat k) + d) = load32 m (p + 24 * (0 + Z.of_nat k) + d)) as Hd.
  { intros d Hd. apply load32_ext. intros j Hj. apply Hm. lia. }
  by rewrite !Hd by lia.
Qed.

Lemma smap_ext m m' p n : (∀ a, p <= a < p + 24 * (Z.of_nat n + 1) → mbyte m' a = mbyte m a) → smap_at m p n → smap_at m' p n.
Proof.
  intros Hm [H1 H2 H3 H4]. split; [| |exact H3|exact H4].
  - intros i Hi. destruct (row_ext m m' (p + 24 * i)) as [Hr ->]; [intros j Hj; apply Hm; lia|]. rewrite Hr. by apply H1.
  - destruct (row_ext m m' (p + 24 * Z.of_nat n)) as [-> _]; [intros j Hj; apply Hm; lia|exact H2].
Qed.

Lemma parse_loop_run n : ∀ fuel k p s, (n < fuel)%nat → 0 <= k → 0 <= row s <= CRT_ROWS → 24 * (k + Z.of_nat n) < W32 → smap_at (b_mem s) p n →
  ∃ s', parse_loop fuel p (24 * k) s = Ok (24 * (k + Z.of_nat n)) s' ∧ shown s s'.
Proof.
  induction n as [|n IH]; intros [|fuel] k p s Hf Hk Hr Hw Hm; try lia; cbn [parse_loop]; rewrite (bind_Ok (gets b_mem) _ _ _ _ eq_refl).
  - pose proof (sm_end _ _ _ Hm) as He. rewrite Z.mul_0_r, Z.add_0_r in He. unfold row_there in He.
    rewrite !bool_decide_eq_false_2 by tauto. exists s. split; [|apply shown_refl]. cbn [orb]. do 2 f_equal. lia.
  - destruct (sm_rows _ _ _ Hm 0 ltac:(lia)) as [Ht Hb]. rewrite Z.mul_0_r, Z.add_0_r in Ht, Hb.
    assert (bool_decide (load64 (b_mem s) (p + 4) ≠ 0) || bool_decide (load64 (b_mem s) (p + 12) ≠ 0) || bool_decide (load32 (b_mem s) (p + 20) ≠ 0) = true) as ->.
    { destruct Ht as [H|[H|H]]; rewrite (bool_decide_eq_true_2 _ H); by rewrite ?orb_true_r. }
    destruct (puti_run _ s Hb Hr) as (s1 & E1 & H1). rewrite (bind_Ok _ _ _ _ _ E1). destruct (sm_room _ _ _ Hm) as [Hp Hpw]. unfold u32, W32 in *.
    rewrite (Z.mod_small (p + 24)), (Z.mod_small (24 * k + 24)) by lia. replace (24 * k + 24) with (24 * (k + 1)) by lia.
    assert (smap_at (b_mem s1) (p + 24) n) as Hm1.
    { apply (smap_ext (b_mem s)).
      - intros a Ha. apply (sw_mem _ _ H1 a Hr). destruct (sm_screen _ _ _ Hm); unfold video; lia.
      - destruct Hm as [A B C D]. split; [| |unfold W32; lia|unfold apart in *; lia].
        + intros i Hi. replace (p + 24 + 24 * i) with (p + 24 * (i + 1)) by lia. apply A. lia.
        + replace (p + 24 + 24 * Z.of_nat n) with (p + 24 * Z.of_nat (S n)) by lia. exact B. }
    destruct (IH fuel (k + 1) (p + 24) s1) as (s2 & E2 & H2); [lia|lia|by apply (sw_row _ _ H1)|lia|exact Hm1|]. exists s2.
    split; [rewrite E2; do 2 f_equal; lia|by apply (shown_trans _ s1)].
Qed.

Lemma parse_e820_run rows n smap s : (n <= rows)%nat → 0 <= row s <= CRT_ROWS → smap_at (b_mem s) smap n →
  ∃ s' s1, parse_e820 rows smap s = Ok () s' ∧ shown s s1 ∧ s' = set_mmap (24 * Z.of_nat n) smap s1.
Proof.
  intros Hn Hr Hm. unfold parse_e820. destruct (putline_run (Monitor.lit "* E820 Memory Map *") s Hr) as (s1 & E1 & H1); [cbn; lia|]. rewrite (bind_Ok _ _ _ _ _ E1).
  destruct (sm_room _ _ _ Hm) as [Hp Hw]. destruct (parse_loop_run n (S rows) 0 smap s1) as (s2 & E2 & H2); [lia|lia|by apply (sw_row _ _ H1)|unfold W32 in *; lia| |].
  - apply (smap_ext (b_mem s)); [|exact Hm]. intros a Ha. apply (sw_mem _ _ H1 a Hr). destruct (sm_screen _ _ _ Hm); unfold video; lia.
  - rewrite (bind_Ok _ _ _ _ _ E2). eexists _, s2. split; [reflexivity|]. split; [by apply (shown_trans _ s1)|]. f_equal; lia.
Qed.

Lemma find_partition_ext m m' fuel : ∀ e, (∀ a, e <= a < e + 16 * Z.of_nat fuel → mbyte m' a = mbyte m a) → find_partition fuel m' e = find_partition fuel m e.
Proof.
  induction fuel as [|fuel IH]; intros e Hm; [done|]. cbn [find_partition]. rewrite Hm, (load32_ext m m' (e + 8)), IH by (intros; try apply Hm; lia). done.
Qed.

(** C12: The boot loader.  Let the first bootable entry of the partition table lead to an
    image that can be loaded, on a drive that is ready within the given polls, and let the
    BIOS have left a map of memory with [n] rows.  Then [boot1main] reaches the jump to the
    entry point of the image, cut to 24 bits, with every byte of every segment in its place,
    and hands over the address and the length of the map, which the kernel reads as the
    BIOS left it; no memory changed but the screen, the place of the headers and the
    sectors of the segments. *)
Theorem boot_loads_kernel `{Machine} polls D {HD : Drive polls D} exec_kernel rows n mbr smap lba img s :
  (∀ k, 0 <= k → D (lba + k) = img <$> seqZ (512 * k) 512) → 0 <= lba → kernel_image lba img →
  find_partition 4 (b_mem s) (mbr + 446) = Some lba → apart (mbr + 446) 64 VIDEO 4160 → smap_at (b_mem s) smap n → (n <= rows)%nat →
  apart smap (24 * Z.of_nat n) ELFHDR 4096 → (∀ k, 0 <= k < phnum img → apart smap (24 * Z.of_nat n) (load_lo (seg_va img k)) (load_len (seg_va img k) (seg_size img k))) →
  ∃ s', boot1main polls exec_kernel rows mbr smap s = (exec_kernel (le32 img 24 mod 16777216) ;; panic (Monitor.lit "Fail to load kernel.")) s' ∧
    mmap_addr s' = smap ∧ mmap_length s' = 24 * Z.of_nat n ∧ mbi_rows (b_mem s') (mmap_addr s') (mmap_length s') = mbi_rows (b_mem s) smap (24 * Z.of_nat n) ∧
    (∀ k i, 0 <= k < phnum img → 0 <= i < seg_size img k → mbyte (b_mem s') (load_at (seg_va img k) + i) = img (seg_off img k + i)) ∧
    (∀ a, ¬ video a → ¬ ELFHDR <= a < ELFHDR + 4096 →
      (∀ k, 0 <= k < phnum img → ¬ load_lo (seg_va img k) <= a < load_lo (seg_va img k) + load_len (seg_va img k) (seg_size img k)) → mbyte (b_mem s') a = mbyte (b_mem s) a).
Proof.
  intros Himg Hlba HK Hfp Hmbr Hsm Hn Hmh Hms. unfold boot1main, roll. rewrite (bind_Ok (modify _) _ _ _ _ eq_refl). set (s0 := set_row 3 s).
  destruct (putline_run (Monitor.lit "Start boot1 main ...") s0) as (s1 & E1 & H1); [cbn; unfold CRT_ROWS; lia|cbn; lia|]. rewrite (bind_Ok _ _ _ _ _ E1), (bind_Ok (gets b_mem) _ _ _ _ eq_refl).
  assert (0 <= row s0 <= CRT_ROWS) as R0 by (cbn; unfold CRT_ROWS; lia). pose proof (sw_row _ _ H1 R0) as R1.
  assert (∀ a, ¬ video a → mbyte (b_mem s1) a = mbyte (b_mem s) a) as M1 by (intros a Ha; exact (sw_mem _ _ H1 a R0 Ha)).
  rewrite (find_partition_ext (b_mem s)), Hfp by (intros a Ha; apply M1; destruct Hmbr; unfold video; lia).
  destruct (parse_e820_run rows n smap s1 Hn R1) as (s2 & s2' & E2 & H2 & ->).
  { apply (smap_ext (b_mem s)); [|exact Hsm]. intros a Ha. apply M1. destruct (sm_screen _ _ _ Hsm); unfold video; lia. }
  rewrite (bind_Ok _ _ _ _ _ E2). pose proof (sw_row _ _ H2 R1) as R2. set (s2 := set_mmap _ _ _).
  destruct (putline_run (Monitor.lit "Load kernel ..." ++ [10]) s2) as (s3 & E3 & H3); [exact R2|cbn; lia|]. rewrite (bind_Ok _ _ _ _ _ E3). pose proof (sw_row _ _ H3 R2) as R3.
  destruct (load_kernel_run polls D lba img Himg Hlba s3 HK) as (s4 & E4 & H4). rewrite (bind_Ok _ _ _ _ _ E4). assert (0 <= row s4 <= CRT_ROWS) as R4 by (rewrite (si_row _ _ _ _ H4); exact R3).
  destruct (putline_run (Monitor.lit "Start kernel ..." ++ [10]) s4) as (s5 & E5 & H5); [exact R4|cbn; lia|]. rewrite (bind_Ok _ _ _ _ _ E5).
  exists s5. split; [done|]. destruct (sw_mmap _ _ H5) as [A5 B5]. destruct (si_mmap _ _ _ _ H4) as [A4 B4]. destruct (sw_mmap _ _ H3) as [A3 B3].
  assert (∀ a, ¬ video a → ¬ ELFHDR <= a < ELFHDR + 4096 →
    (∀ k, 0 <= k < phnum img → ¬ load_lo (seg_va img k) <= a < load_lo (seg_va img k) + load_len (seg_va img k) (seg_size img k)) → mbyte (b_mem s5) a = mbyte (b_mem s) a) as Hout.
  { intros a Hv Hh Hs. rewrite (sw_mem _ _ H5 _ R4 Hv), (si_out _ _ _ _ H4 a Hh Hs), (sw_mem _ _ H3 _ R2 Hv). etransitivity; [exact (sw_mem _ _ H2 a R1 Hv)|by apply M1]. }
  split; [rewrite B5, B4, B3; done|]. split; [rewrite A5, A4, A3; done|]. split; [|split; [|exact Hout]].
  - rewrite B5, B4, B3, A5, A4, A3. apply mbi_rows_ext; [lia|]. intros a Ha. change (smap <= a < smap + 24 * Z.of_nat n) in Ha.
    apply Hout; [destruct (sm_screen _ _ _ Hsm); unfold video; lia|destruct Hmh; lia|]. intros k Hk. destruct (Hms k Hk); lia.
  - intros k i Hk Hi. rewrite (sw_mem _ _ H5 _ R4); [by apply (si_in _ _ _ _ H4)|]. destruct (ki_screen _ _ HK k Hk); unfold video; lia.
Qed.

(** ** A disk and its drive *)

(** An image of one segment, 600 bytes from sector 8 on, for address 0x100000. *)
Definition tiny_map : gmap Z Z := list_to_map
  (zip (seqZ 0 4) [127; 69; 76; 70] ++ [(24, 16); (26, 16); (28, 52); (44, 1); (57, 16); (62, 16); (72, 88); (73, 2); (4096, 184); (4101, 7)]).

Definition tiny_img (i : Z) : Z := alook 0 tiny_map i.

Definition tiny_disk (x : Z) : list Z := tiny_img <$> seqZ (512 * (x - 63)) 512.

#[local] Instance tiny_drive : Machine := {|
  answer h q := match q with QIn _ => 64 | QInL _ => match reading h with Some (x, n) => words (tiny_disk x) !!! n | None => 0 end | _ => 0 end;
  cpuid_regs _ _ := (0, 0, 0, 0)
|}.

Lemma tiny_byte i : 0 <= tiny_img i < 256.
Proof.
  assert (map_Forall (λ _ b, 0 <= b < 256) tiny_map) as Hall by (apply (bool_decide_unpack _); vm_compute; exact I).
  unfold tiny_img, alook. destruct (tiny_map !! i) as [b|] eqn:E; [exact (Hall i b E)|cbn; lia].
Qed.

#[local] Instance tiny_drive_ok : Drive 1 tiny_disk.
Proof.
  split.
  - intros x. unfold tiny_disk. rewrite length_fmap, length_seqZ. split; [done|]. apply Forall_fmap, Forall_forall. intros i _. apply tiny_byte.
  - intros h. by left.
  - intros h x n Hr Hn. cbn. by rewrite Hr.
Qed.

(** The second partition is bootable; the map has one row. *)
Definition tiny_start : boot_st :=
  {| b_hw := []; b_mem := list_to_map [(32206, 128); (32214, 63); (28686, 10); (28692, 1)]; row := 0; mmap_length := 0; mmap_addr := 0 |}.

Lemma tiny_kernel_image : kernel_image 63 tiny_img.
Proof.
  assert (phnum tiny_img = 1 ∧ phoff tiny_img = 52 ∧ seg_va tiny_img 0 = 1048576 ∧ seg_size tiny_img 0 = 600 ∧ seg_off tiny_img 0 = 4096) as (E1 & E2 & E3 & E4 & E5) by (vm_compute; auto).
  split; rewrite ?E1, ?E2; [done|lia|lia|..]; try (intros k Hk; assert (k = 0) as -> by lia; rewrite E3, ?E4, ?E5).
  - split_and!; vm_compute; congruence.
  - right. vm_compute. congruence.
  - lia.
  - right. vm_compute. congruence.
Qed.

Lemma boot_loads_kernel_witness : ∃ s', boot1main 1 (λ _, spin) 8 31744 28672 tiny_start = Spin ∧
  mbi_rows (b_mem s') (mmap_addr s') (mmap_length s') = [{| base_addr_low := 0; base_addr_high := 0; length_low := 655360; length_high := 0; mtype := 1 |}] ∧
  mbyte (b_mem s') 1048581 = 7.
Proof.
  destruct (boot_loads_kernel 1 tiny_disk (λ _, spin) 8 1 31744 28672 63 tiny_img tiny_start) as (s' & E & _ & _ & H1 & H2 & _).
  - intros k _. unfold tiny_disk. do 2 f_equal. lia.
  - lia.
  - exact tiny_kernel_image.
  - reflexivity.
  - left. vm_compute. congruence.
  - split; [|vm_compute; intuition congruence|vm_compute; intuition congruence|left; vm_compute; congruence].
    intros i Hi. assert (i = 0) as -> by lia. vm_compute. intuition congruence.
  - lia.
  - left. vm_compute. congruence.
  - intros k Hk. assert (phnum tiny_img = 1) as E1 by done. assert (k = 0) as -> by lia. left. vm_compute. congruence.
  - exists s'. split; [exact E|]. split; [exact H1|]. refine (eq_trans (H2 0 5 _ _) _); vm_compute; intuition congruence.
Defined.

(** ** The edges *)

(** The row after the last of the screen is used before the first. *)
Example row_below_screen : match putline [65] {| b_hw := []; b_mem := ∅; row := 24; mmap_length := 0; mmap_addr := 0 |} with
  | Ok _ s => row s = 25 ∧ mbyte (b_mem s) (VIDEO + 2 * (25 * 80)) = 65 | _ => False end.
Proof. vm_compute. auto. Qed.

(** A row of the map that starts at 2 GB cannot be printed. *)
Example start_at_2GB s : puti 2147483648 s = Undef.
Proof. reflexivity. Qed.

(** A section that ends in the last sector of the address space is never finished: the
    address wraps around to 0 before it reaches the end. *)
Lemma last_sector_loops `{Machine} polls end_va fuel : 4294966784 < end_va → ∀ va x s s', va mod 512 = 0 → 0 <= va < W32 →
  readsection_loop polls fuel va end_va x s ≠ Ok () s'.
Proof.
  intros He. induction fuel as [|fuel IH]; intros va x s s' Hm Hva E; cbn [readsection_loop] in E; [done|]. unfold W32 in *.
  rewrite bool_decide_eq_true_2 in E by (Z.div_mod_to_equations; lia). apply bind_inv in E as (a & s1 & _ & E). revert E. apply IH.
  - unfold u32, W32, SECTOR_SIZE. Z.div_mod_to_equations. lia.
  - by apply Z.mod_pos_bound.
Qed.
